(* ===== verification/_CoqProject ===== *)
-Q . S2P
Prelude.v
Types.v
Binary.v
WireLogic.v
BinaryString.v
Codecs.v
Variant.v
Framing.v
SecureChannel.v
Session.v
AddressSpace.v
BaseNodes.v
ReadWrite.v
Browse.v
Dispatch.v
ServiceSafety.v
HandlerLogic.v
Double.v
MonitoredItem.v
Subscription.v
Publish.v
PublishSafety.v
PublishTick.v
SubscriptionService.v
SubscriptionServiceSafety.v
SubscriptionSystem.v
SubscriptionSpec.v
NodeManagement.v
NodeManagementSpec.v
NodeManagementSafety.v
Crypto.v
SymChunk.v
SymChunkSpec.v
AsymChunk.v
AsymChunkSpec.v
StatusNames.v
LibraryCalls.v
WolfsslCrypto.v
MbedtlsCrypto.v
HostCrypto.v
Uadp.v
Config.v
Discovery.v
SessionService.v
Methods.v
Query.v
QuerySpec.v
History.v
HistorySpec.v
PubSub.v
HostNet.v
Server.v
ServerInit.v
SampleServer.v
ServerSpec.v
SessionServiceSafety.v
MethodsSafety.v
SessionLifeSafety.v
SessionServiceSpec.v
ServiceSystem.v
ChunkSafety.v
LinkSafety.v
PollSafety.v
ServerLife.v
