(* ===== verification/Prelude.v ===== *)
(** * muc-opcua: a verification development

    muc-opcua is an OPC UA server for small embedded targets, written in C
    (paths below are relative to [src/] of the repository). A client's octets
    pass through these parts:

    - transport ([core/tcp_connection.c], [core/message_chunk.c],
      [core/sequence.c], [core/uasc.c], [core/service_message.c],
      [services/service_header.c]): HEL/ACK, chunk and sequence headers,
      replay protection, response framing, service headers;
    - SecureChannel ([security/security_policy.c],
      [services/secure_channel.c]): policy table, opening, renewal, closing;
    - Session ([services/session.c]): identifiers, activation, closing;
    - the connection loop ([core/server.c]): accepting, reassembly of the
      byte stream, protection of the chunks, emission of notifications;
    - dispatch ([core/service_dispatch.c]): the table of services, the gate
      every request passes, the handlers;
    - services ([services/read.c], [write.c], [browse.c], ...) and the
      subscription engine ([services/subscription.c]), which work on
    - the address space ([address_space/]): the integrator's nodes with a
      sorted index, the runtime nodes, and the static base table;
    - all of them through the OPC UA Binary encoding layer ([encoding/]).

    ** Files

    - [Prelude]: outcomes, the state monad, integer widths, octet buffers,
      tactics and generic lemmas.
    - [Types]: status codes, encoding ids, value types, build capacities.
    - [Binary]: the sticky-status reader and writer and every primitive.
    - [WireLogic]: the program logics [rsafe]/[wsafe] (safety and frame on
      arbitrary input) and [rspec]/[wspec] (exact octets).
    - [BinaryString], [Codecs], [Variant]: strings, NodeIds, identity tokens,
      variants, DataValues, ExtensionObjects; reference encodings and the
      [Codec] class that relates an encoder, a decoder and a wire format.
    - [Framing]: the transport files. - [SecureChannel]. - [Session].
    - [AddressSpace]: NodeId order and equality, index, lookups, validation,
      value sources. - [BaseNodes]: the static table in all four build
      profiles, runtime nodes, layered resolution ([mu_resolve_node]).
    - [ReadWrite], [Browse]: the services' decoders, processing, encoders.
    - [Dispatch]: service table, gate, and the handlers of Read, Write,
      Browse, BrowseNext, RegisterNodes, UnregisterNodes.
    - [ServiceSafety]: the program logic [hsafe] for handlers and the
      end-to-end safety of those services. - [HandlerLogic]: triples over an
      invariant and a frame relation, for handlers that change the server.
    - [Double]: IEEE 754 arithmetic on bit patterns, over the Standard
      Library's [SpecFloat].
    - [MonitoredItem]: samples, filters, report queues, aggregates, timers of
      one MonitoredItem. - [Subscription]: the engine's arrays, identifiers,
      links, Publish requests and its invariant. - [Publish]: response
      encoders, publishing of due subscriptions, the tick.
    - [PublishSafety], [PublishTick]: the encoders and the tick keep the
      engine good and complete.
    - [SubscriptionService]: the eleven handlers of the Subscription and
      MonitoredItem services, on any server that hosts an engine (class
      [SubscriptionHost] with its laws). - [SubscriptionServiceSafety]: a
      triple per handler. - [SubscriptionSystem]: the step relation of
      requests, ticks and events, and its safety. - [SubscriptionSpec]: what
      subscribers rely on.
    - [NodeManagement]: the dynamic address space, its storage rows and the
      pointers into them, and the four handlers, on any server that hosts one
      (class [NodeManagementHost]). - [NodeManagementSpec]: what the table
      denotes, per operation. - [NodeManagementSafety]: sequences of
      operations and the handlers.
    - [Config]: the configuration and its validation. - [Discovery]: endpoint
      descriptions, FindServers, GetEndpoints. - [SessionService]: the
      OpenSecureChannel, CreateSession, ActivateSession and CloseSession
      handlers. - [Methods]: Call and TranslateBrowsePaths.
    - [Query], [QuerySpec]: QueryFirst and QueryNext with their codec.
      - [History], [HistorySpec]: HistoryRead and HistoryUpdate over the
      integrator's history adapter, a parameter.
    - [Uadp]: the PubSub message format, encoder and decoder. - [PubSub]: the
      writer groups and the poll that publishes them.
    - [Server]: the connection loop over any dispatcher (class [Dispatcher]):
      a [link] is the server with one connection. - [ServerInit]: the whole
      server state, the dispatcher over all handlers,
      [mu_server_init]. - [SampleServer]: a server on a scripted network, for
      evaluation. - [ServerSpec]: the byte stream of a connection.
    - [SessionServiceSafety], [SessionLifeSafety]: the invariant of the
      channel and session services. - [SessionServiceSpec]: what they
      guarantee. - [MethodsSafety]: the triples of Call and
      TranslateBrowsePaths. - [ServiceSystem]: the invariant of the whole
      server and all services composed.
    - [ChunkSafety]: the logic [upholds] of operations that keep an invariant
      and never fault; chunk codecs on any octets. - [LinkSafety]: a message
      on a connection, from framing to response. - [PollSafety]: the poll,
      notifications, PubSub and closing. - [ServerLife]: what an application
      provides, the calls it may make, and the safety of every sequence of
      them from [mu_server_init] on.
    - [Crypto]: the adapter's functions as parameters with their contract,
      key derivation, certificates, the trust list. - [SymChunk],
      [SymChunkSpec]: MSG/CLO chunks. - [AsymChunk], [AsymChunkSpec]: OPN
      chunks.
    - [LibraryCalls]: calls of a library that may fail and keeps objects
      alive, with a logic that counts those objects. - [WolfsslCrypto],
      [MbedtlsCrypto], [HostCrypto]: the three crypto adapters of [platform/],
      over wolfCrypt, mbed TLS and libcrypto, each a class of operations with
      a class of documented laws and a small instance of both.
    - [HostNet]: the TCP and UDP adapters of [platform/] over POSIX calls.
    - [StatusNames]: [core/status.c].

    ** What the theorems show

    - encoding: every decoder is memory safe and position-monotone on
      arbitrary octets and delivers in-range values
      ([decoders_memory_safe]); encoders write only where they say and round
      trips hold ([datavalue_roundtrip], [nodeid_codec]);
    - transport: header parsing is sound, frames are read back, HEL
      negotiation is bounded by both peers, the sequence validator accepts
      exactly the legal successors and no number is accepted twice within
      2^32 - 2048 chunks;
    - security state: channel opening accepts exactly the matching requests,
      closing wipes all keys; open sessions keep distinct non-zero ids and
      tokens in every reachable table; identifier generation terminates; the
      timeout revision is exact integer arithmetic on IEEE 754 bits;
    - address space: lookups through index, binary search and layers refine a
      linear scan; validation decides its specification; the base table is
      ordered and closed in every profile;
    - services: Read and Browse compute exactly the specified answers; the
      dispatch gate hands a request to a handler exactly when it may; the
      attribute and view services are memory safe from request to response
      octets ([view_services_safe]); and so are all services together, Query
      excepted, whose decoder overruns an array: any request, whatever its
      octets, is answered without undefined behaviour and re-establishes the
      invariant of the whole server ([all_services_safe]);
    - subscriptions: over any interleaving of requests, ticks and events the
      engine keeps its invariant and nothing is undefined
      ([subscription_system_safe]); the table refines a finite map
      ([subscriptions_refine_map]); report queues refine a bounded FIFO
      ([enqueue_refines_fifo]); no report is lost and Republish returns what
      was sent ([publish_then_republish]); a quiet subscription sends its
      keep-alive in time ([keep_alive_eventually]); intervals and timers are
      exact ([publishing_interval_revised], [timers_exact]);
    - node management: the table with its moved rows refines two plain lists
      ([node_management_refines]), and its handlers are safe on any octets
      and inert unless configured ([node_management_handlers_safe]);
    - secure chunks: keys are P_SHA256 output ([sym_keys_derive_spec]); a
      chunk built is a chunk opened ([sym_chunk_roundtrip]); what is accepted
      is authentic and no plaintext stays behind ([sym_chunk_authentic],
      [asym_chunk_authentic]);
    - channels and sessions: the six handlers are safe on any octets and keep
      their invariant ([session_services_safe]); a channel is opened for
      trusted clients with derived keys ([open_secure_channel_secure]), a
      session created for the certificate of its channel
      ([create_session_bound]) and activated for a valid signature and an
      accepted identity ([activate_session_authentic]);
    - the connection loop: what is made of a byte stream does not depend on
      how it is cut into pieces ([stream_reassembly]);
    - the whole server, built without Query: from [mu_server_init] with a configuration whose
      pointers are valid, over any sequence of polls, events, registrations
      and closings, with any octets from any number of peers, protected or
      not, the invariant of [struct mu_server] holds and nothing is undefined
      ([server_life_safe]);
    - Query and History: QueryFirst returns the right nodes
      ([query_first_nodes]), its decoder is safe but for one request size
      ([query_first_decode_safe]); the history handlers are safe with every
      well-behaved adapter ([history_services_safe]) and what they write is
      readable ([history_data_roundtrip]);
    - PubSub: messages round trip ([uadp_roundtrip]), the decoder accepts only
      well-formed fields ([uadp_decode_safe]), and a poll sends exactly the
      groups that are due ([pubsub_poll_due]);
    - platform adapters: the wolfSSL adapter keeps [CryptoContract] and
      [RsaContract], which the theorems on chunks, channels and sessions
      assume ([wolfssl_keeps_contract]), and frees what it initialises
      ([wolfssl_balanced]); the OpenSSL adapter keeps [RsaContract] and
      computes the same functions ([host_keeps_contract]), its cipher
      contexts, which live in blocks behind the storage of a channel, are
      prepared completely or not at all and freed once ([host_cipher_life]);
      the mbed TLS adapter keeps [CryptoContract] ([mbedtls_keeps_contract])
      but not [RsaContract], because the padding mode of its key sticks
      ([mbedtls_padding_sticks]); the TCP adapter neither leaks nor confuses
      descriptors ([host_descriptors]) and listens on the port of the URL
      ([endpoint_port_roundtrip]).

    ** Conventions

    A C call returns [result]: [Ok], [Err status], or [Fault] for undefined
    behaviour (access outside an object, NULL dereference, wrong union
    member); safety theorems prove [Fault] away. Integers are [Z] with their
    wrap-around written out ([to_u32], [to_size], ...); [size_t] has 32 bits,
    as on the targets. Octets are [Z] in [0, 256). Pointers the callers pass
    are assumed non-NULL where every caller in the repository passes the
    address of an object; nullable pointers are options. A decoded string is
    the copy of the octets it points to. Uninitialised memory a function
    could expose is an argument. Build options are classes ([BuildCaps],
    [BaseProfile], [ServiceFeatures]), so theorems hold in every build.
    Integrator callbacks are functions in the data, given the instant they
    are called at; one that fails leaves its output untouched. The transport
    a Publish response is sent through is an [Emitter], any function of its
    own state.

    Bounds: loops over arrays are structural; the binary searches take
    [count + 1] as fuel and the refinement theorems show it is enough; the
    climb through the ReferenceType hierarchy has the guard 64 of the source,
    shown sufficient in [ref_type_subtype_iff]; identifier generation tries
    [count + 1] salts as in the source, shown sufficient in
    [allocate_session_succeeds]; the publishing timer loop takes as many turns
    as intervals have passed, shown exact in [timers_exact]; the receive loop
    takes one turn more than octets received, shown enough in
    [stream_reassembly].

    ** Not modelled

    Alarms ([services/alarms_conditions.c]): the module uses types and
    constants that no header declares and does not compile. The programs
    under [examples/]. [generated/opcua_ids.c], which only includes a header.
    The Windows branch of the UDP adapter. Code outside the repository is a
    parameter with named laws: the integrator's callbacks and history adapter
    ([config_ok], [history_adapter_ok]), the crypto libraries ([WolfSSLLaws],
    [MbedTLSLaws], [OpenSSLLaws]) and the operating system ([PosixLaws]). *)

From stdpp Require Export base tactics numbers list option relations.
From Stdlib Require Export ZArith Lia.
From Stdlib Require Ascii String.
Export Ascii.AsciiSyntax String.StringSyntax.


Open Scope Z_scope.

(** ** Outcomes of a C call

    [Ok a] is a call that returned [MU_STATUS_GOOD] and delivered [a],
    [Err s] a call that returned the status code [s], and [Fault] a call that
    executed undefined behaviour (an access outside an object, a NULL
    dereference, a read of the wrong union member). *)
Inductive result (A : Type) : Type :=
| Ok (a : A)
| Err (s : Z)
| Fault.
Arguments Ok {A} _.
Arguments Err {A} _.
Arguments Fault {A}.

(** State passing with C outcomes: the state survives an error. *)
Definition M (S A : Type) : Type := S → result A * S.

Global Instance M_ret {S} : MRet (M S) := λ A a s, (Ok a, s).
Global Instance M_bind {S} : MBind (M S) := λ A B f m s,
  match m s with
  | (Ok a, s') => f a s'
  | (Err e, s') => (Err e, s')
  | (Fault, s') => (Fault, s')
  end.

Section monad_ops.
  Context {S : Type}.

Definition fail {A} (e : Z) : M S A := λ s, (Err e, s).

Definition fault {A} : M S A := λ s, (Fault, s).

Definition get_state : M S S := λ s, (Ok s, s).

Definition put_state (s' : S) : M S unit := λ _, (Ok tt, s').

Definition lift_option {A} (o : option A) : M S A :=
  match o with Some a => mret a | None => fault end.

(** A call whose status is discarded: the output keeps its initial value. *)
Definition or_default {A} (d : A) (m : M S A) : M S A := λ s,
  match m s with
  | (Err _, s') => (Ok d, s')
  | o => o
  end.

End monad_ops.

(** Computations without a state of their own. *)
Global Instance result_ret : MRet result := λ A a, Ok a.
Global Instance result_bind : MBind result := λ A B f m,
  match m with
  | Ok a => f a
  | Err e => Err e
  | Fault => Fault
  end.

Definition or_fault {A} (o : option A) : result A :=
  match o with Some a => Ok a | None => Fault end.

(** A NULL pointer. *)
Definition is_null {A} (p : option A) : bool :=
  match p with None => true | Some _ => false end.

Lemma bind_ok {S A B} (m : M S A) (k : A → M S B) s a s' :
  m s = (Ok a, s') → (m ≫= k) s = k a s'.
Proof. unfold mbind, M_bind. by intros ->. Qed.

Lemma bind_err {S A B} (m : M S A) (k : A → M S B) s e s' :
  m s = (Err e, s') → (m ≫= k) s = (Err e, s').
Proof. unfold mbind, M_bind. by intros ->. Qed.

Lemma bind_fault {S A B} (m : M S A) (k : A → M S B) s s' :
  m s = (Fault, s') → (m ≫= k) s = (Fault, s').
Proof. unfold mbind, M_bind. by intros ->. Qed.

Lemma bind_inv_ok {S A B} (m : M S A) (k : A → M S B) s b s' :
  (m ≫= k) s = (Ok b, s') → ∃ a s1, m s = (Ok a, s1) ∧ k a s1 = (Ok b, s').
Proof. unfold mbind, M_bind. destruct (m s) as [[a|e|] s1]; naive_solver. Qed.

(** ** Machine integers *)

Definition to_unsigned (bits x : Z) : Z := x mod 2 ^ bits.

Definition to_signed (bits x : Z) : Z :=
  let m := x mod 2 ^ bits in
  if m <? 2 ^ (bits - 1) then m else m - 2 ^ bits.

Abbreviation to_u8 := (to_unsigned 8).
Abbreviation to_u16 := (to_unsigned 16).
Abbreviation to_u32 := (to_unsigned 32).
Abbreviation to_u64 := (to_unsigned 64).
Abbreviation to_i8 := (to_signed 8).
Abbreviation to_i16 := (to_signed 16).
Abbreviation to_i32 := (to_signed 32).
Abbreviation to_i64 := (to_signed 64).

(** [size_t] is 32 bits wide on the Cortex-M targets of the port; objects are
    at most [PTRDIFF_MAX] bytes long. *)
Definition SIZE_MAX : Z := 4294967295.
Definition PTRDIFF_MAX : Z := 2147483647.
Abbreviation to_size := (to_unsigned 32).

Definition u8_range (x : Z) : Prop := 0 ≤ x < 256.
Definition u16_range (x : Z) : Prop := 0 ≤ x < 65536.
Definition u32_range (x : Z) : Prop := 0 ≤ x < 4294967296.
Definition u64_range (x : Z) : Prop := 0 ≤ x < 18446744073709551616.
Definition i8_range (x : Z) : Prop := -128 ≤ x < 128.
Definition i16_range (x : Z) : Prop := -32768 ≤ x < 32768.
Definition i32_range (x : Z) : Prop := -2147483648 ≤ x < 2147483648.
Definition i64_range (x : Z) : Prop :=
  -9223372036854775808 ≤ x < 9223372036854775808.

Create HintDb wire discriminated.
#[export] Hint Unfold u8_range u16_range u32_range u64_range
  i8_range i16_range i32_range i64_range : wire.

Ltac ranges := unfold u8_range, u16_range, u32_range, u64_range,
  i8_range, i16_range, i32_range, i64_range, SIZE_MAX, PTRDIFF_MAX in *.

(** Reduce the closed powers of two that the conversions introduce. *)
Ltac norm_pow :=
  repeat match goal with
  | |- context [2 ^ ?n] =>
      let k := eval compute in n in
      lazymatch k with
      | Zpos _ => let v := eval vm_compute in (2 ^ k) in change (2 ^ n) with v
      end
  | H : context [2 ^ ?n] |- _ =>
      let k := eval compute in n in
      lazymatch k with
      | Zpos _ => let v := eval vm_compute in (2 ^ k) in change (2 ^ n) with v in H
      end
  end.

Ltac zify_ints := ranges; unfold to_unsigned, to_signed in *; norm_pow.

(** Boolean guards of the code, as propositions. *)
Ltac split_if :=
  match goal with
  | |- context [if ?b then _ else _] => let E := fresh "Hg" in destruct b eqn:E
  | H : context [if ?b then _ else _] |- _ => let E := fresh "Hg" in destruct b eqn:E
  end.

Ltac bool_hyps :=
  repeat match goal with
  | H : (_ && _)%bool = true |- _ => apply andb_true_iff in H; destruct H
  | H : (_ || _)%bool = false |- _ => apply orb_false_iff in H; destruct H
  | H : (_ && _)%bool = false |- _ => apply andb_false_iff in H
  | H : (_ || _)%bool = true |- _ => apply orb_true_iff in H
  | H : negb _ = true |- _ => apply negb_true_iff in H
  | H : negb _ = false |- _ => apply negb_false_iff in H
  | H : (_ <? _) = true |- _ => apply Z.ltb_lt in H
  | H : (_ <? _) = false |- _ => apply Z.ltb_ge in H
  | H : (_ <=? _) = true |- _ => apply Z.leb_le in H
  | H : (_ <=? _) = false |- _ => apply Z.leb_gt in H
  | H : (_ >? _) = true |- _ => rewrite Z.gtb_ltb in H
  | H : (_ >? _) = false |- _ => rewrite Z.gtb_ltb in H
  | H : (_ >=? _) = true |- _ => rewrite Z.geb_leb in H
  | H : (_ >=? _) = false |- _ => rewrite Z.geb_leb in H
  | H : (_ =? _) = true |- _ => apply Z.eqb_eq in H
  | H : (_ =? _) = false |- _ => apply Z.eqb_neq in H
  | H : bool_decide _ = true |- _ => apply bool_decide_eq_true in H
  | H : bool_decide _ = false |- _ => apply bool_decide_eq_false in H
  end.

Lemma to_unsigned_id bits x : 0 ≤ x < 2 ^ bits → to_unsigned bits x = x.
Proof. apply Z.mod_small. Qed.

Lemma to_unsigned_range bits x : 0 ≤ bits → 0 ≤ to_unsigned bits x < 2 ^ bits.
Proof. intros. apply Z.mod_pos_bound. lia. Qed.

Lemma pow2_split bits : 1 ≤ bits → 2 ^ bits = 2 * 2 ^ (bits - 1).
Proof. intros. rewrite <-Z.pow_succ_r by lia. f_equal; lia. Qed.

Lemma to_signed_range bits x :
  1 ≤ bits → - 2 ^ (bits - 1) ≤ to_signed bits x < 2 ^ (bits - 1).
Proof.
  intros Hb. unfold to_signed.
  pose proof (Z.mod_pos_bound x (2 ^ bits)) as Hm.
  pose proof (pow2_split bits Hb).
  assert (0 < 2 ^ (bits - 1)) by (apply Z.pow_pos_nonneg; lia).
  destruct (Z.ltb_spec (x mod 2 ^ bits) (2 ^ (bits - 1))); lia.
Qed.

Lemma to_i32_id x : 0 ≤ x ≤ PTRDIFF_MAX → to_i32 x = x.
Proof. intros Hx; unfold to_signed; ranges; rewrite Z.mod_small by lia; by rewrite (proj2 (Z.ltb_lt _ _)) by lia. Qed.

(** Two's complement: reinterpreting a signed value through its unsigned
    image is the identity. *)
Lemma to_signed_unsigned bits x :
  1 ≤ bits → - 2 ^ (bits - 1) ≤ x < 2 ^ (bits - 1) →
  to_signed bits (to_unsigned bits x) = x.
Proof.
  intros Hb Hx. unfold to_signed, to_unsigned.
  rewrite Z.mod_mod by (pose proof (Z.pow_pos_nonneg 2 bits); lia).
  pose proof (pow2_split bits Hb).
  destruct (decide (0 ≤ x)).
  - rewrite (Z.mod_small x) by lia.
    destruct (Z.ltb_spec x (2 ^ (bits - 1))); lia.
  - assert (x mod 2 ^ bits = x + 2 ^ bits) as ->.
    { rewrite <-(Z.mod_small (x + 2 ^ bits) (2 ^ bits)) by lia.
      by rewrite <-Z.add_mod_idemp_r, Z.mod_same, Z.add_0_r by lia. }
    destruct (Z.ltb_spec (x + 2 ^ bits) (2 ^ (bits - 1))); lia.
Qed.

(** ** Lists as byte buffers, indexed by [Z] *)

Definition zlen {A} (l : list A) : Z := Z.of_nat (length l).

Definition zdrop {A} (n : Z) (l : list A) : list A := drop (Z.to_nat n) l.
Definition ztake {A} (n : Z) (l : list A) : list A := take (Z.to_nat n) l.

Definition znth {A} (l : list A) (i : Z) : option A :=
  if i <? 0 then None else l !! Z.to_nat i.

(** [memcpy] of [n] bytes out of the object [l] at offset [off]. *)
Definition mem_load {A} (l : list A) (off n : Z) : option (list A) :=
  if (0 <=? off) && (0 <=? n) && (off + n <=? zlen l)
  then Some (ztake n (zdrop off l)) else None.

(** [memcpy] of the bytes [bs] into the object [l] at offset [off]. *)
Definition mem_store {A} (l : list A) (off : Z) (bs : list A) : option (list A) :=
  if (0 <=? off) && (off + zlen bs <=? zlen l)
  then Some (ztake off l ++ bs ++ zdrop (off + zlen bs) l) else None.

(** Character and string literals as octets. *)
Definition chr (c : Ascii.ascii) : Z := Z.of_N (Ascii.N_of_ascii c).
#[global] Arguments chr _%_char_scope.
Definition bytes_of_string (s : String.string) : list Z :=
  chr <$> String.list_ascii_of_string s.
#[global] Arguments bytes_of_string _%_string_scope.

Definition bytes_ok (l : list Z) : Prop := Forall u8_range l.

Section list_lemmas.
  Context {A : Type}.
  Implicit Types l k : list A.

Lemma zlen_nonneg l : 0 ≤ zlen l.
Proof. unfold zlen. lia. Qed.

Lemma zlen_nil : zlen (@nil A) = 0.
Proof. done. Qed.

Lemma zlen_cons x l : zlen (x :: l) = 1 + zlen l.
Proof. unfold zlen. simpl. lia. Qed.

Lemma zlen_app l k : zlen (l ++ k) = zlen l + zlen k.
Proof. unfold zlen. rewrite length_app. lia. Qed.

Lemma zlen_ztake n l : 0 ≤ n ≤ zlen l → zlen (ztake n l) = n.
Proof. unfold zlen, ztake. rewrite length_take. lia. Qed.

Lemma zlen_zdrop n l : 0 ≤ n ≤ zlen l → zlen (zdrop n l) = zlen l - n.
Proof. unfold zlen, zdrop. rewrite length_drop. lia. Qed.

Lemma ztake_zdrop n l : ztake n l ++ zdrop n l = l.
Proof. apply take_drop. Qed.

Lemma ztake_app l k : ztake (zlen l) (l ++ k) = l.
Proof. unfold ztake, zlen. by rewrite Nat2Z.id, take_app_length. Qed.

Lemma zdrop_app l k : zdrop (zlen l) (l ++ k) = k.
Proof. unfold zdrop, zlen. by rewrite Nat2Z.id, drop_app_length. Qed.

Lemma ztake_app_le n l k : 0 ≤ n ≤ zlen l → ztake n (l ++ k) = ztake n l.
Proof. unfold ztake, zlen. intros. rewrite take_app_le by lia. done. Qed.

Lemma zdrop_zdrop m n l : 0 ≤ m → 0 ≤ n → zdrop m (zdrop n l) = zdrop (n + m) l.
Proof. unfold zdrop. intros. rewrite drop_drop. f_equal. lia. Qed.

Lemma ztake_ztake m n l : 0 ≤ m ≤ n → ztake m (ztake n l) = ztake m l.
Proof. unfold ztake. intros. rewrite take_take. f_equal. lia. Qed.

Lemma mem_load_Some l off n :
  0 ≤ off → 0 ≤ n → off + n ≤ zlen l →
  mem_load l off n = Some (ztake n (zdrop off l)).
Proof.
  intros. unfold mem_load.
  by rewrite !(proj2 (Z.leb_le _ _)) by lia.
Qed.

Lemma mem_store_Some l off bs :
  0 ≤ off → off + zlen bs ≤ zlen l →
  mem_store l off bs = Some (ztake off l ++ bs ++ zdrop (off + zlen bs) l).
Proof.
  intros. unfold mem_store.
  by rewrite !(proj2 (Z.leb_le _ _)) by lia.
Qed.

Lemma mem_store_zlen l off bs l' : mem_store l off bs = Some l' → zlen l' = zlen l.
Proof.
  unfold mem_store. split_if; [|done]. bool_hyps.
  intros [= <-]. pose proof (zlen_nonneg bs).
  rewrite !zlen_app, zlen_ztake, zlen_zdrop by lia. lia.
Qed.

Lemma znth_Some l i : 0 ≤ i < zlen l → ∃ x, znth l i = Some x.
Proof.
  unfold znth, zlen. intros. destruct (Z.ltb_spec i 0); [lia|].
  apply lookup_lt_is_Some_2. lia.
Qed.

Lemma znth_lookup l i x : znth l i = Some x → l !! Z.to_nat i = Some x ∧ 0 ≤ i < zlen l.
Proof.
  unfold znth, zlen. destruct (Z.ltb_spec i 0); [done|].
  intros Hl. pose proof (lookup_lt_Some _ _ _ Hl). split; [done|lia].
Qed.

End list_lemmas.

Lemma bytes_ok_app l k : bytes_ok (l ++ k) ↔ bytes_ok l ∧ bytes_ok k.
Proof. apply Forall_app. Qed.

Lemma bytes_okb l : forallb (λ x, (0 <=? x) && (x <? 256)) l = true → bytes_ok l.
Proof.
  rewrite forallb_forall; intros Hf; apply Forall_forall; intros x Hx.
  specialize (Hf x ltac:(by apply list_elem_of_In)); bool_hyps; ranges; lia.
Qed.

Lemma bytes_ok_zdrop n l : bytes_ok l → bytes_ok (zdrop n l).
Proof. apply Forall_drop. Qed.

Lemma bytes_ok_ztake n l : bytes_ok l → bytes_ok (ztake n l).
Proof. apply Forall_take. Qed.

Lemma bytes_ok_store l off bs l' :
  bytes_ok l → bytes_ok bs → mem_store l off bs = Some l' → bytes_ok l'.
Proof.
  unfold mem_store. split_if; [|done]. intros ?? [= <-].
  rewrite !bytes_ok_app. eauto using bytes_ok_ztake, bytes_ok_zdrop.
Qed.

#[export] Hint Resolve bytes_ok_zdrop bytes_ok_ztake zlen_nonneg : wire.

(** ** Pieces of buffers *)

Lemma mem_load_all {A} (l : list A) n : zlen l = n → mem_load l 0 n = Some l.
Proof.
  intros <-; pose proof (zlen_nonneg l); rewrite mem_load_Some by lia; f_equal.
  rewrite <- (app_nil_r l) at 2; apply ztake_app.
Qed.

Lemma drop_repeat {A} (x : A) m n : drop n (repeat x m) = repeat x (m - n).
Proof. revert n; induction m as [|m IH]; intros [|n]; cbn; [done..|apply IH]. Qed.

Lemma repeat_bytes x n : u8_range x → bytes_ok (repeat x n).
Proof. intros Hx; apply Forall_forall; intros y Hy%list_elem_of_In%repeat_spec; by subst. Qed.

Lemma zlen_repeat {A} (x : A) n : zlen (repeat x n) = Z.of_nat n.
Proof. unfold zlen; by rewrite repeat_length. Qed.

Lemma zdrop_app_eq {A} n (a c : list A) : zlen a = n → zdrop n (a ++ c) = c.
Proof. intros <-; apply zdrop_app. Qed.

(** Decompose a buffer into a prefix of [n] octets and the rest. *)
Lemma buffer_split (b : list Z) n : 0 ≤ n ≤ zlen b → ∃ a c, b = a ++ c ∧ zlen a = n ∧ zlen c = zlen b - n ∧ c = zdrop n b.
Proof.
  intros; exists (ztake n b), (zdrop n b); rewrite ztake_zdrop, zlen_ztake, zlen_zdrop by lia; done.
Qed.

Lemma mem_load_at {A} (s a x c : list A) off n : s = a ++ x ++ c → off = zlen a → n = zlen x → mem_load s off n = Some x.
Proof.
  intros -> -> ->; pose proof (zlen_nonneg a); pose proof (zlen_nonneg x); pose proof (zlen_nonneg c).
  rewrite mem_load_Some by (rewrite ?zlen_app; lia); by rewrite zdrop_app, ztake_app.
Qed.

(** Reads from the header see the header. *)
Lemma mem_load_prefix {A} (a c d : list A) off n : off + n ≤ zlen a → mem_load (a ++ c) off n = mem_load (a ++ d) off n.
Proof.
  intros Hl; pose proof (zlen_nonneg c); pose proof (zlen_nonneg d); unfold mem_load; rewrite !zlen_app.
  destruct (0 <=? off) eqn:E1; [|done]; destruct (0 <=? n) eqn:E2; [|done]; bool_hyps; cbn [andb].
  rewrite !(proj2 (Z.leb_le _ _)) by lia; f_equal; unfold zlen in *.
  unfold zdrop, ztake; rewrite !drop_app_le, !take_app_le by (rewrite ?length_drop; lia); done.
Qed.

Lemma Forall_eq_repeat_pad {A} (x : A) l n : Forall (λ y, y = x) l → length l = n → l = repeat x n.
Proof. intros Hf <-; induction Hf as [|y l -> _ IH]; cbn; congruence. Qed.
