(* ===== verification/Types.v ===== *)
(** * Shared data of the server

    The status codes of [include/muc_opcua/status.h], the encoding ids of
    [opcua_ids.h], the value types of [types.h], and the compile-time
    capacities of [config.h] and [services/subscription.h]. *)

From S2P Require Export Prelude.

(** ** Status codes *)

Definition MU_STATUS_GOOD : Z := 0x00000000.
Definition MU_STATUS_BAD_UNEXPECTEDERROR : Z := 0x80010000.
Definition MU_STATUS_BAD_INTERNALERROR : Z := 0x80020000.
Definition MU_STATUS_BAD_OUTOFMEMORY : Z := 0x80030000.
Definition MU_STATUS_BAD_ENCODINGERROR : Z := 0x80060000.
Definition MU_STATUS_BAD_DECODINGERROR : Z := 0x80070000.
Definition MU_STATUS_BAD_ENCODINGLIMITSEXCEEDED : Z := 0x80080000.
Definition MU_STATUS_BAD_TIMEOUT : Z := 0x800a0000.
Definition MU_STATUS_BAD_SERVICEUNSUPPORTED : Z := 0x800b0000.
Definition MU_STATUS_BAD_NOTSUPPORTED : Z := 0x803d0000.
Definition MU_STATUS_BAD_NOTREADABLE : Z := 0x803a0000.
Definition MU_STATUS_BAD_SECURITYCHECKSFAILED : Z := 0x80130000.
Definition MU_STATUS_BAD_CERTIFICATETIMEINVALID : Z := 0x80140000.
Definition MU_STATUS_BAD_REQUESTTOOLARGE : Z := 0x80b80000.
Definition MU_STATUS_BAD_RESPONSETOOLARGE : Z := 0x80b90000.
Definition MU_STATUS_BAD_SESSIONIDINVALID : Z := 0x80250000.
Definition MU_STATUS_BAD_SESSIONNOTACTIVATED : Z := 0x80270000.
Definition MU_STATUS_BAD_IDENTITYTOKENINVALID : Z := 0x80200000.
Definition MU_STATUS_BAD_IDENTITYTOKENREJECTED : Z := 0x80210000.
Definition MU_STATUS_BAD_SECURECHANNELIDINVALID : Z := 0x80220000.
Definition MU_STATUS_BAD_SECURITYPOLICYREJECTED : Z := 0x80550000.
Definition MU_STATUS_BAD_TOOMANYSESSIONS : Z := 0x80560000.
Definition MU_STATUS_BAD_SESSIONCLOSED : Z := 0x80260000.
Definition MU_STATUS_BAD_USERACCESSDENIED : Z := 0x801f0000.
Definition MU_STATUS_BAD_NODEIDUNKNOWN : Z := 0x80340000.
Definition MU_STATUS_BAD_NOTFOUND : Z := 0x803e0000.
Definition MU_STATUS_BAD_NODECLASSINVALID : Z := 0x805f0000.
Definition MU_STATUS_BAD_NODEIDEXISTS : Z := 0x805e0000.
Definition MU_STATUS_BAD_NODEIDREJECTED : Z := 0x805d0000.
Definition MU_STATUS_BAD_MONITOREDITEMIDINVALID : Z := 0x80420000.
Definition MU_STATUS_BAD_TOOMANYOPERATIONS : Z := 0x80100000.
Definition MU_STATUS_BAD_NODEIDINVALID : Z := 0x80330000.
Definition MU_STATUS_BAD_METHODINVALID : Z := 0x80750000.
Definition MU_STATUS_BAD_ARGUMENTSMISSING : Z := 0x80760000.
Definition MU_STATUS_BAD_TOOMANYARGUMENTS : Z := 0x80e50000.
Definition MU_STATUS_BAD_INVALIDARGUMENT : Z := 0x80ab0000.
Definition MU_STATUS_BAD_NOCONTINUATIONPOINTS : Z := 0x804b0000.
Definition MU_STATUS_BAD_CONTINUATIONPOINTINVALID : Z := 0x804a0000.
Definition MU_STATUS_BAD_ATTRIBUTEIDINVALID : Z := 0x80350000.
Definition MU_STATUS_BAD_NOMATCH : Z := 0x806f0000.
Definition MU_STATUS_BAD_CERTIFICATEINVALID : Z := 0x80120000.
Definition MU_STATUS_BAD_SECURITYMODEREJECTED : Z := 0x80540000.
Definition MU_STATUS_BAD_TOOMANYMONITOREDITEMS : Z := 0x80db0000.
Definition MU_STATUS_BAD_TOOMANYSUBSCRIPTIONS : Z := 0x80770000.
Definition MU_STATUS_BAD_SUBSCRIPTIONIDINVALID : Z := 0x80280000.
Definition MU_STATUS_BAD_MESSAGENOTAVAILABLE : Z := 0x807b0000.
Definition MU_STATUS_BAD_SEQUENCENUMBERUNKNOWN : Z := 0x807a0000.
Definition MU_STATUS_BAD_TOOMANYPUBLISHREQUESTS : Z := 0x80780000.
Definition MU_STATUS_BAD_NOTHINGTODO : Z := 0x800f0000.
Definition MU_STATUS_BAD_NOTWRITABLE : Z := 0x803b0000.
Definition MU_STATUS_BAD_WRITENOTSUPPORTED : Z := 0x80730000.
Definition MU_STATUS_BAD_TYPEMISMATCH : Z := 0x80740000.
Definition MU_STATUS_BAD_HISTORYOPERATIONUNSUPPORTED : Z := 0x80720000.
Definition MU_STATUS_BAD_MONITOREDITEMFILTERUNSUPPORTED : Z := 0x80440000.
Definition MU_STATUS_BAD_MONITOREDITEMFILTERINVALID : Z := 0x80430000.
Definition MU_STATUS_BAD_FILTERNOTALLOWED : Z := 0x80450000.
Definition MU_STATUS_BAD_TIMESTAMPSTORETURNINVALID : Z := 0x802a0000.
Definition MU_STATUS_BAD_BROWSEDIRECTIONINVALID : Z := 0x804d0000.
Definition MU_STATUS_BAD_NODATA : Z := 0x809b0000.
Definition MU_STATUS_BAD_TCPSERVERTOOBUSY : Z := 0x807d0000.
Definition MU_STATUS_BAD_TCPMESSAGETYPEINVALID : Z := 0x807e0000.
Definition MU_STATUS_BAD_TCPSECURECHANNELUNKNOWN : Z := 0x807f0000.
Definition MU_STATUS_BAD_TCPMESSAGETOOLARGE : Z := 0x80800000.
Definition MU_STATUS_BAD_TCPNOTENOUGHRESOURCES : Z := 0x80810000.
Definition MU_STATUS_BAD_TCPINTERNALERROR : Z := 0x80820000.
Definition MU_STATUS_BAD_TCPENDPOINTURLINVALID : Z := 0x80830000.
Definition MU_STATUS_BAD_CERTIFICATEUNTRUSTED : Z := 0x801a0000.

(** ** Encoding NodeIds of requests, responses and structures *)

Definition MU_ID_FINDSERVERSREQUEST : Z := 422.
Definition MU_ID_FINDSERVERSRESPONSE : Z := 425.
Definition MU_ID_GETENDPOINTSREQUEST : Z := 428.
Definition MU_ID_GETENDPOINTSRESPONSE : Z := 431.
Definition MU_ID_OPENSECURECHANNELREQUEST : Z := 446.
Definition MU_ID_OPENSECURECHANNELRESPONSE : Z := 449.
Definition MU_ID_CLOSESECURECHANNELREQUEST : Z := 452.
Definition MU_ID_CLOSESECURECHANNELRESPONSE : Z := 455.
Definition MU_ID_CREATESESSIONREQUEST : Z := 461.
Definition MU_ID_CREATESESSIONRESPONSE : Z := 464.
Definition MU_ID_ACTIVATESESSIONREQUEST : Z := 467.
Definition MU_ID_ACTIVATESESSIONRESPONSE : Z := 470.
Definition MU_ID_CLOSESESSIONREQUEST : Z := 473.
Definition MU_ID_CLOSESESSIONRESPONSE : Z := 476.
Definition MU_ID_ADDNODESREQUEST : Z := 488.
Definition MU_ID_ADDNODESRESPONSE : Z := 491.
Definition MU_ID_ADDREFERENCESREQUEST : Z := 494.
Definition MU_ID_ADDREFERENCESRESPONSE : Z := 497.
Definition MU_ID_DELETENODESREQUEST : Z := 500.
Definition MU_ID_DELETENODESRESPONSE : Z := 503.
Definition MU_ID_DELETEREFERENCESREQUEST : Z := 506.
Definition MU_ID_DELETEREFERENCESRESPONSE : Z := 509.
Definition MU_ID_ANONYMOUSIDENTITYTOKEN_ENCODING_DEFAULTBINARY : Z := 321.
Definition MU_ID_SERVICEFAULT : Z := 397.
Definition MU_ID_BROWSEREQUEST : Z := 527.
Definition MU_ID_BROWSERESPONSE : Z := 530.
Definition MU_ID_BROWSENEXTREQUEST : Z := 533.
Definition MU_ID_BROWSENEXTRESPONSE : Z := 536.
Definition MU_ID_TRANSLATEBROWSEPATHSTONODEIDSREQUEST : Z := 554.
Definition MU_ID_TRANSLATEBROWSEPATHSTONODEIDSRESPONSE : Z := 557.
Definition MU_ID_REGISTERNODESREQUEST : Z := 560.
Definition MU_ID_REGISTERNODESRESPONSE : Z := 563.
Definition MU_ID_UNREGISTERNODESREQUEST : Z := 566.
Definition MU_ID_UNREGISTERNODESRESPONSE : Z := 569.
Definition MU_ID_QUERYFIRSTREQUEST : Z := 615.
Definition MU_ID_QUERYFIRSTRESPONSE : Z := 618.
Definition MU_ID_QUERYNEXTREQUEST : Z := 621.
Definition MU_ID_QUERYNEXTRESPONSE : Z := 624.
Definition MU_ID_READREQUEST : Z := 631.
Definition MU_ID_READRESPONSE : Z := 634.
Definition MU_ID_HISTORYDATA_ENCODING_DEFAULTBINARY : Z := 658.
Definition MU_ID_READRAWMODIFIEDDETAILS_ENCODING_DEFAULTBINARY : Z := 649.
Definition MU_ID_UPDATEDATADETAILS_ENCODING_DEFAULTBINARY : Z := 682.
Definition MU_ID_DELETERAWMODIFIEDDETAILS_ENCODING_DEFAULTBINARY : Z := 688.
Definition MU_ID_HISTORYREADREQUEST : Z := 664.
Definition MU_ID_HISTORYREADRESPONSE : Z := 667.
Definition MU_ID_HISTORYUPDATEREQUEST : Z := 700.
Definition MU_ID_HISTORYUPDATERESPONSE : Z := 703.
Definition MU_ID_WRITEREQUEST : Z := 673.
Definition MU_ID_WRITERESPONSE : Z := 676.
Definition MU_ID_CALLREQUEST : Z := 712.
Definition MU_ID_CALLRESPONSE : Z := 715.
Definition MU_ID_CREATEMONITOREDITEMSREQUEST : Z := 751.
Definition MU_ID_CREATEMONITOREDITEMSRESPONSE : Z := 754.
Definition MU_ID_MODIFYMONITOREDITEMSREQUEST : Z := 763.
Definition MU_ID_MODIFYMONITOREDITEMSRESPONSE : Z := 766.
Definition MU_ID_SETMONITORINGMODEREQUEST : Z := 767.
Definition MU_ID_SETMONITORINGMODERESPONSE : Z := 770.
Definition MU_ID_SETTRIGGERINGREQUEST : Z := 773.
Definition MU_ID_SETTRIGGERINGRESPONSE : Z := 776.
Definition MU_ID_DELETEMONITOREDITEMSREQUEST : Z := 781.
Definition MU_ID_DELETEMONITOREDITEMSRESPONSE : Z := 784.
Definition MU_ID_CREATESUBSCRIPTIONREQUEST : Z := 787.
Definition MU_ID_CREATESUBSCRIPTIONRESPONSE : Z := 790.
Definition MU_ID_MODIFYSUBSCRIPTIONREQUEST : Z := 793.
Definition MU_ID_MODIFYSUBSCRIPTIONRESPONSE : Z := 796.
Definition MU_ID_SETPUBLISHINGMODEREQUEST : Z := 799.
Definition MU_ID_SETPUBLISHINGMODERESPONSE : Z := 802.
Definition MU_ID_PUBLISHREQUEST : Z := 826.
Definition MU_ID_PUBLISHRESPONSE : Z := 829.
Definition MU_ID_REPUBLISHREQUEST : Z := 832.
Definition MU_ID_REPUBLISHRESPONSE : Z := 835.
Definition MU_ID_DELETESUBSCRIPTIONSREQUEST : Z := 847.
Definition MU_ID_DELETESUBSCRIPTIONSRESPONSE : Z := 850.
Definition MU_ID_AGGREGATEFILTER_ENCODING_DEFAULTBINARY : Z := 730.
Definition MU_ID_AGGREGATETYPE_AVERAGE : Z := 2342.
Definition MU_ID_AGGREGATETYPE_MINIMUM : Z := 2346.
Definition MU_ID_AGGREGATETYPE_MAXIMUM : Z := 2347.

(** ** Built-in types *)

(** [length = -1] with a NULL [data] is the null string. *)
Record mu_string_t := mk_string {
  str_length : Z;
  str_data : option (list Z)
}.

Abbreviation mu_bytestring_t := mu_string_t.

Definition null_string : mu_string_t := mk_string (-1) None.

(** A [mu_nodeid_t] carries its identifier in a union tagged by
    [identifier_type]; the Guid and Opaque tags have no union member. *)
Inductive mu_nodeid_identifier_t :=
| MU_NODEID_NUMERIC (numeric : Z)
| MU_NODEID_STRING (string : mu_string_t)
| MU_NODEID_GUID
| MU_NODEID_OPAQUE.

Record mu_nodeid_t := mk_nodeid {
  nid_namespace_index : Z;
  nid_identifier : mu_nodeid_identifier_t
}.

Record mu_expanded_nodeid_t := mk_expanded_nodeid {
  xid_node_id : mu_nodeid_t;
  xid_namespace_uri : mu_string_t;
  xid_server_index : Z
}.

Record mu_qualified_name_t := mk_qualified_name {
  qn_namespace_index : Z;
  qn_name : mu_string_t
}.

Record mu_localized_text_t := mk_localized_text {
  lt_locale : mu_string_t;
  lt_text : mu_string_t
}.

(** ** Variant

    [mu_builtin_type_t] is kept as its integer because the decoder casts an
    arbitrary six-bit value to it. *)
Definition MU_TYPE_NULL : Z := 0.
Definition MU_TYPE_BOOLEAN : Z := 1.
Definition MU_TYPE_SBYTE : Z := 2.
Definition MU_TYPE_BYTE : Z := 3.
Definition MU_TYPE_INT16 : Z := 4.
Definition MU_TYPE_UINT16 : Z := 5.
Definition MU_TYPE_INT32 : Z := 6.
Definition MU_TYPE_UINT32 : Z := 7.
Definition MU_TYPE_INT64 : Z := 8.
Definition MU_TYPE_UINT64 : Z := 9.
Definition MU_TYPE_FLOAT : Z := 10.
Definition MU_TYPE_DOUBLE : Z := 11.
Definition MU_TYPE_STRING : Z := 12.
Definition MU_TYPE_DATETIME : Z := 13.
Definition MU_TYPE_GUID : Z := 14.
Definition MU_TYPE_BYTESTRING : Z := 15.
Definition MU_TYPE_XMLELEMENT : Z := 16.
Definition MU_TYPE_NODEID : Z := 17.
Definition MU_TYPE_EXPANDEDNODEID : Z := 18.
Definition MU_TYPE_STATUSCODE : Z := 19.
Definition MU_TYPE_QUALIFIEDNAME : Z := 20.
Definition MU_TYPE_LOCALIZEDTEXT : Z := 21.
Definition MU_TYPE_EXTENSIONOBJECT : Z := 22.
Definition MU_TYPE_DATAVALUE : Z := 23.
Definition MU_TYPE_VARIANT : Z := 24.
Definition MU_TYPE_DIAGNOSTICINFO : Z := 25.

(** The value union. Floating-point members hold their IEEE 754 bit pattern:
    the program only copies them with [memcpy]. [VV_none] is the union no
    member of which has been stored. *)
Inductive mu_variant_value_t :=
| VV_none
| VV_b (b : bool)
| VV_sb (sb : Z)
| VV_by (by_ : Z)
| VV_i16 (i16 : Z)
| VV_ui16 (ui16 : Z)
| VV_i32 (i32 : Z)
| VV_ui32 (ui32 : Z)
| VV_i64 (i64 : Z)
| VV_ui64 (ui64 : Z)
| VV_f (f : Z)
| VV_d (d : Z)
| VV_str (str : mu_string_t)
| VV_bytestr (bytestr : mu_bytestring_t)
| VV_dt (dt : Z)
| VV_status (status : Z)
| VV_nodeid (nodeid : mu_nodeid_t)
| VV_qualified_name (qualified_name : mu_qualified_name_t)
| VV_localized_text (localized_text : mu_localized_text_t)
| VV_array (array : option (list mu_variant_value_t)).

Record mu_variant_t := mk_variant {
  v_type : Z;
  v_value : mu_variant_value_t;
  v_is_array : bool;
  v_array_length : Z
}.

(** A zero-initialised variant. *)
Definition zero_variant : mu_variant_t := mk_variant 0 VV_none false 0.

Record mu_datavalue_t := mk_datavalue {
  dv_value : mu_variant_t;
  dv_status : Z;
  dv_source_timestamp : Z;
  dv_server_timestamp : Z;
  dv_has_value : bool;
  dv_has_status : bool;
  dv_has_source_timestamp : bool;
  dv_has_server_timestamp : bool
}.

Definition zero_datavalue : mu_datavalue_t :=
  mk_datavalue zero_variant 0 0 0 false false false false.

Record mu_username_identity_token_t := mk_username_identity_token {
  uit_policy_id : mu_string_t;
  uit_username : mu_string_t;
  uit_password : mu_bytestring_t;
  uit_encryption_algorithm : mu_string_t
}.

Record mu_certificate_identity_token_t := mk_certificate_identity_token {
  cit_policy_id : mu_string_t;
  cit_certificate_data : mu_bytestring_t
}.

#[export] Instance mu_string_eq_dec : EqDecision mu_string_t.
Proof. solve_decision. Defined.

#[export] Instance mu_nodeid_identifier_eq_dec : EqDecision mu_nodeid_identifier_t.
Proof. solve_decision. Defined.

#[export] Instance mu_nodeid_eq_dec : EqDecision mu_nodeid_t.
Proof. solve_decision. Defined.

(** ** Fixed limits *)

Definition MU_MIN_CHUNK_SIZE : Z := 8192.
Definition MU_DEFAULT_MAX_CHUNK_COUNT : Z := 1.
Definition MU_DEFAULT_MAX_MESSAGE_SIZE : Z := 8192.
Definition MU_MAX_ENCODED_STRING_LENGTH : Z := 4096.
Definition MU_MAX_STRING_VALUE_LENGTH : Z := 64.

(** ** Capacities a build may override with [-D]

    Theorems that depend on a capacity hold for every instance of
    [BuildCapsOk]; [embedded_caps] is the instance of the default build. *)
Class BuildCaps := {
  MU_MAX_ADDRESS_SPACE_NODES : Z;
  MU_MAX_CONNECTIONS : Z;
  MU_MAX_SESSIONS : Z;
  MU_MAX_DYNAMIC_NODES : Z;
  MU_MAX_DYNAMIC_REFERENCES : Z;
  MU_MAX_DYNAMIC_BROWSE_NAME_LENGTH : Z;
  MU_MAX_DYNAMIC_DISPLAY_NAME_LENGTH : Z;
  MU_MAX_DYNAMIC_STRING_NODEID_LENGTH : Z;
  MU_MAX_DYNAMIC_REFERENCE_STRING_NODEID_LENGTH : Z;
  MU_MAX_SUBSCRIPTIONS : Z;
  MU_MAX_MONITORED_ITEMS : Z;
  MU_MAX_PUBLISH_REQUESTS : Z;
  MU_MONITORED_QUEUE_DEPTH : Z;
  MU_MAX_TRIGGER_LINKS : Z;
  MU_MAX_PUBLISH_ACKS : Z;
  MU_RETRANSMIT_BYTES : Z
}.

Class BuildCapsOk (C : BuildCaps) := {
  caps_address_space_nodes : 0 < MU_MAX_ADDRESS_SPACE_NODES < 65536;
  caps_connections : 0 < MU_MAX_CONNECTIONS < 65536;
  caps_sessions : 0 < MU_MAX_SESSIONS < 65535;
  caps_dynamic_nodes : 0 < MU_MAX_DYNAMIC_NODES < 65536;
  caps_dynamic_references : 0 < MU_MAX_DYNAMIC_REFERENCES < 65536;
  caps_string_nodeid : 0 < MU_MAX_DYNAMIC_STRING_NODEID_LENGTH < 2147483648;
  caps_reference_nodeid : 0 < MU_MAX_DYNAMIC_REFERENCE_STRING_NODEID_LENGTH < 2147483648;
  caps_subscriptions : 0 < MU_MAX_SUBSCRIPTIONS < 65536;
  caps_monitored_items : 0 < MU_MAX_MONITORED_ITEMS < 65536;
  caps_publish_requests : 0 < MU_MAX_PUBLISH_REQUESTS < 65536;
  caps_queue_depth : 0 < MU_MONITORED_QUEUE_DEPTH < 256;
  caps_trigger_links : 0 < MU_MAX_TRIGGER_LINKS < 256;
  caps_publish_acks : 0 < MU_MAX_PUBLISH_ACKS < 65536;
  caps_retransmit : 0 ≤ MU_RETRANSMIT_BYTES ≤ PTRDIFF_MAX
}.

Definition embedded_caps : BuildCaps := {|
  MU_MAX_ADDRESS_SPACE_NODES := 64;
  MU_MAX_CONNECTIONS := 4;
  MU_MAX_SESSIONS := 2;
  MU_MAX_DYNAMIC_NODES := 32;
  MU_MAX_DYNAMIC_REFERENCES := 64;
  MU_MAX_DYNAMIC_BROWSE_NAME_LENGTH := 64;
  MU_MAX_DYNAMIC_DISPLAY_NAME_LENGTH := 64;
  MU_MAX_DYNAMIC_STRING_NODEID_LENGTH := 64;
  MU_MAX_DYNAMIC_REFERENCE_STRING_NODEID_LENGTH := 64;
  MU_MAX_SUBSCRIPTIONS := 2;
  MU_MAX_MONITORED_ITEMS := 100;
  MU_MAX_PUBLISH_REQUESTS := 5;
  MU_MONITORED_QUEUE_DEPTH := 2;
  MU_MAX_TRIGGER_LINKS := 4;
  MU_MAX_PUBLISH_ACKS := 4;
  MU_RETRANSMIT_BYTES := 256
|}.

#[export] Instance embedded_caps_ok : BuildCapsOk embedded_caps.
Proof. constructor; vm_compute; split; first [reflexivity|discriminate]. Qed.

(** ** Memory validity of the pointers a value carries *)

(** A positive [length] promises that many readable bytes at [data]. *)
Definition string_ok (s : mu_string_t) : Prop :=
  match str_data s with
  | None => str_length s ≤ 0
  | Some d => str_length s ≤ zlen d ∧ bytes_ok d
  end ∧ i32_range (str_length s).

Definition nodeid_ok (n : mu_nodeid_t) : Prop :=
  u16_range (nid_namespace_index n) ∧
  match nid_identifier n with
  | MU_NODEID_NUMERIC i => u32_range i
  | MU_NODEID_STRING s => string_ok s
  | _ => True
  end.

Definition qualified_name_ok (q : mu_qualified_name_t) : Prop :=
  u16_range (qn_namespace_index q) ∧ string_ok (qn_name q).

Definition localized_text_ok (t : mu_localized_text_t) : Prop :=
  string_ok (lt_locale t) ∧ string_ok (lt_text t).

Definition string_bytes (s : mu_string_t) : list Z :=
  match str_data s with
  | None => []
  | Some d => ztake (str_length s) d
  end.
