(* ===== verification/Binary.v ===== *)
(** * OPC UA Binary primitives

    [src/encoding/binary_le.h], [binary_reader.c] and [binary_writer.c]: the
    little-endian helpers, the sticky-status reader and writer and every
    primitive operation on them, followed by the two program logics the later
    codec files use: [rsafe]/[wsafe] (memory safety, position and frame on
    arbitrary input) and [rspec]/[wspec] (exact bytes consumed and produced). *)

From S2P Require Export Types.

(** ** Little-endian helpers ([binary_le.h]) *)

Definition mu_binary_le_put_u16 (value : Z) : list Z :=
  [ to_u8 (Z.land value 0xFF);
    to_u8 (Z.land (Z.shiftr value 8) 0xFF) ].

Definition mu_binary_le_put_u32 (value : Z) : list Z :=
  [ to_u8 (Z.land value 0xFF);
    to_u8 (Z.land (Z.shiftr value 8) 0xFF);
    to_u8 (Z.land (Z.shiftr value 16) 0xFF);
    to_u8 (Z.land (Z.shiftr value 24) 0xFF) ].

Definition mu_binary_le_put_u64 (value : Z) : list Z :=
  [ to_u8 (Z.land value 0xFF);
    to_u8 (Z.land (Z.shiftr value 8) 0xFF);
    to_u8 (Z.land (Z.shiftr value 16) 0xFF);
    to_u8 (Z.land (Z.shiftr value 24) 0xFF);
    to_u8 (Z.land (Z.shiftr value 32) 0xFF);
    to_u8 (Z.land (Z.shiftr value 40) 0xFF);
    to_u8 (Z.land (Z.shiftr value 48) 0xFF);
    to_u8 (Z.land (Z.shiftr value 56) 0xFF) ].

(** The getters read through a pointer: [None] is a read past its object. *)
Definition mu_binary_le_get_u16 (src : list Z) : option Z :=
  match src with
  | s0 :: s1 :: _ => Some (Z.lor s0 (Z.shiftl s1 8))
  | _ => None
  end.

Definition mu_binary_le_get_u32 (src : list Z) : option Z :=
  match src with
  | s0 :: s1 :: s2 :: s3 :: _ =>
      Some (Z.lor (Z.lor (Z.lor s0 (Z.shiftl s1 8)) (Z.shiftl s2 16)) (Z.shiftl s3 24))
  | _ => None
  end.

Definition mu_binary_le_get_u64 (src : list Z) : option Z :=
  match src with
  | s0 :: s1 :: s2 :: s3 :: s4 :: s5 :: s6 :: s7 :: _ =>
      Some (Z.lor (Z.lor (Z.lor (Z.lor (Z.lor (Z.lor (Z.lor s0
             (Z.shiftl s1 8)) (Z.shiftl s2 16)) (Z.shiftl s3 24)) (Z.shiftl s4 32))
             (Z.shiftl s5 40)) (Z.shiftl s6 48)) (Z.shiftl s7 56))
  | _ => None
  end.

(** ** Reader ([binary_reader.c]) *)

Record mu_binary_reader_t := mk_reader {
  r_buffer : option (list Z);
  r_length : Z;
  r_position : Z;
  r_status : Z
}.

Definition set_r_position (r : mu_binary_reader_t) (p : Z) : mu_binary_reader_t :=
  mk_reader (r_buffer r) (r_length r) p (r_status r).
Definition set_r_status (r : mu_binary_reader_t) (s : Z) : mu_binary_reader_t :=
  mk_reader (r_buffer r) (r_length r) (r_position r) s.

Abbreviation Rd := (M mu_binary_reader_t).

Definition mu_binary_reader_init (buffer : option (list Z)) (length : Z) : mu_binary_reader_t :=
  mk_reader buffer length 0 MU_STATUS_GOOD.

Definition reader_status : Rd unit := λ r,
  if negb (r_status r =? MU_STATUS_GOOD) then (Err (r_status r), r) else (Ok tt, r).

Definition reader_fail {A} (status : Z) : Rd A := λ r,
  (Err status, set_r_status r status).

Definition ensure_bytes (count : Z) : Rd unit := λ r,
  if (r_status r =? MU_STATUS_GOOD) && negb (is_null (r_buffer r))
     && (r_position r <=? r_length r) && (count <=? r_length r - r_position r)
  then (Ok tt, r)
  else if negb (r_status r =? MU_STATUS_GOOD) then (Err (r_status r), r)
  else if is_null (r_buffer r) then reader_fail MU_STATUS_BAD_INTERNALERROR r
  else reader_fail MU_STATUS_BAD_DECODINGERROR r.

(** [f(&reader->buffer[reader->position]); reader->position += n]. *)
Definition reader_take {A} (n : Z) (f : list Z → option A) : Rd A :=
  r ← get_state;
  v ← lift_option (b ← r_buffer r; f (zdrop (r_position r) b));
  put_state (set_r_position r (to_size (r_position r + n)));;
  mret v.

Definition mu_binary_read_boolean : Rd bool :=
  ensure_bytes 1;; v ← reader_take 1 head; mret (negb (v =? 0)).

Definition mu_binary_read_sbyte : Rd Z :=
  ensure_bytes 1;; v ← reader_take 1 head; mret (to_i8 v).

Definition mu_binary_read_byte : Rd Z :=
  ensure_bytes 1;; reader_take 1 head.

Definition mu_binary_read_int16 : Rd Z :=
  ensure_bytes 2;; v ← reader_take 2 mu_binary_le_get_u16; mret (to_i16 v).

Definition mu_binary_read_uint16 : Rd Z :=
  ensure_bytes 2;; reader_take 2 mu_binary_le_get_u16.

Definition mu_binary_read_int32 : Rd Z :=
  ensure_bytes 4;; v ← reader_take 4 mu_binary_le_get_u32; mret (to_i32 v).

Definition mu_binary_read_array_length : Rd Z :=
  ensure_bytes 4;;
  v ← reader_take 4 mu_binary_le_get_u32;
  let decoded_length := to_i32 v in
  r ← get_state;
  if (decoded_length <? -1)
     || ((0 <? decoded_length) && (SIZE_MAX - r_position r <? to_size decoded_length))
  then reader_fail MU_STATUS_BAD_DECODINGERROR
  else mret decoded_length.

Definition mu_binary_read_uint32 : Rd Z :=
  ensure_bytes 4;; reader_take 4 mu_binary_le_get_u32.

Definition mu_binary_read_int64 : Rd Z :=
  ensure_bytes 8;; v ← reader_take 8 mu_binary_le_get_u64; mret (to_i64 v).

Definition mu_binary_read_uint64 : Rd Z :=
  ensure_bytes 8;; reader_take 8 mu_binary_le_get_u64.

Definition mu_binary_read_float : Rd Z := mu_binary_read_uint32.

Definition mu_binary_read_double : Rd Z := mu_binary_read_uint64.

Definition mu_binary_read_statuscode : Rd Z := mu_binary_read_uint32.

(** ** Writer ([binary_writer.c]) *)

Record mu_binary_writer_t := mk_writer {
  w_buffer : option (list Z);
  w_length : Z;
  w_position : Z;
  w_status : Z
}.

Definition set_w_status (w : mu_binary_writer_t) (s : Z) : mu_binary_writer_t :=
  mk_writer (w_buffer w) (w_length w) (w_position w) s.

Abbreviation Wr := (M mu_binary_writer_t).

Definition mu_binary_writer_init (buffer : option (list Z)) (length : Z) : mu_binary_writer_t :=
  mk_writer buffer length 0 MU_STATUS_GOOD.

Definition writer_status : Wr unit := λ w,
  if negb (w_status w =? MU_STATUS_GOOD) then (Err (w_status w), w) else (Ok tt, w).

Definition writer_fail {A} (status : Z) : Wr A := λ w,
  (Err status, set_w_status w status).

Definition ensure_space (count : Z) : Wr unit := λ w,
  if (w_status w =? MU_STATUS_GOOD) && negb (is_null (w_buffer w))
     && (w_position w <=? w_length w) && (count <=? w_length w - w_position w)
  then (Ok tt, w)
  else match writer_status w with
       | (Ok _, w') => if is_null (w_buffer w')
                       then writer_fail MU_STATUS_BAD_INTERNALERROR w'
                       else writer_fail MU_STATUS_BAD_ENCODINGERROR w'
       | other => other
       end.

(** Store [bs] at [&writer->buffer[writer->position]] and advance. *)
Definition writer_put (bs : list Z) : Wr unit :=
  w ← get_state;
  b ← lift_option (b ← w_buffer w; mem_store b (w_position w) bs);
  put_state (mk_writer (Some b) (w_length w) (to_size (w_position w + zlen bs)) (w_status w)).

Definition mu_binary_write_boolean (value : bool) : Wr unit :=
  ensure_space 1;; writer_put [if value then 1 else 0].

Definition mu_binary_write_sbyte (value : Z) : Wr unit :=
  ensure_space 1;; writer_put [to_u8 value].

Definition mu_binary_write_byte (value : Z) : Wr unit :=
  ensure_space 1;; writer_put [value].

Definition mu_binary_write_uint16 (value : Z) : Wr unit :=
  ensure_space 2;; writer_put (mu_binary_le_put_u16 value).

Definition mu_binary_write_int16 (value : Z) : Wr unit :=
  mu_binary_write_uint16 (to_u16 value).

Definition mu_binary_write_uint32 (value : Z) : Wr unit :=
  ensure_space 4;; writer_put (mu_binary_le_put_u32 value).

Definition mu_binary_write_int32 (value : Z) : Wr unit :=
  mu_binary_write_uint32 (to_u32 value).

Definition mu_binary_write_uint64 (value : Z) : Wr unit :=
  ensure_space 8;; writer_put (mu_binary_le_put_u64 value).

Definition mu_binary_write_int64 (value : Z) : Wr unit :=
  mu_binary_write_uint64 (to_u64 value).

Definition mu_binary_write_float (value : Z) : Wr unit := mu_binary_write_uint32 value.

Definition mu_binary_write_double (value : Z) : Wr unit := mu_binary_write_uint64 value.

Definition mu_binary_write_statuscode (value : Z) : Wr unit := mu_binary_write_uint32 value.

(** Operations stay folded under simplification. *)
#[global] Arguments mu_binary_read_boolean : simpl never.
#[global] Arguments mu_binary_read_sbyte : simpl never.
#[global] Arguments mu_binary_read_byte : simpl never.
#[global] Arguments mu_binary_read_int16 : simpl never.
#[global] Arguments mu_binary_read_uint16 : simpl never.
#[global] Arguments mu_binary_read_int32 : simpl never.
#[global] Arguments mu_binary_read_array_length : simpl never.
#[global] Arguments mu_binary_read_uint32 : simpl never.
#[global] Arguments mu_binary_read_int64 : simpl never.
#[global] Arguments mu_binary_read_uint64 : simpl never.
#[global] Arguments mu_binary_read_float : simpl never.
#[global] Arguments mu_binary_read_double : simpl never.
#[global] Arguments mu_binary_read_statuscode : simpl never.
#[global] Arguments mu_binary_write_boolean : simpl never.
#[global] Arguments mu_binary_write_sbyte : simpl never.
#[global] Arguments mu_binary_write_byte : simpl never.
#[global] Arguments mu_binary_write_uint16 : simpl never.
#[global] Arguments mu_binary_write_int16 : simpl never.
#[global] Arguments mu_binary_write_uint32 : simpl never.
#[global] Arguments mu_binary_write_int32 : simpl never.
#[global] Arguments mu_binary_write_uint64 : simpl never.
#[global] Arguments mu_binary_write_int64 : simpl never.
#[global] Arguments mu_binary_write_float : simpl never.
#[global] Arguments mu_binary_write_double : simpl never.
#[global] Arguments mu_binary_write_statuscode : simpl never.

(** ** Reference little-endian encoding *)

Fixpoint le_bytes (n : nat) (v : Z) : list Z :=
  match n with
  | O => []
  | S n => v mod 256 :: le_bytes n (v / 256)
  end.

Fixpoint le_val (bs : list Z) : Z :=
  match bs with
  | [] => 0
  | b :: bs => b + 256 * le_val bs
  end.

Lemma le_bytes_length n v : zlen (le_bytes n v) = Z.of_nat n.
Proof.
  revert v; induction n as [|n IH]; intros v; [done|].
  cbn [le_bytes]. rewrite zlen_cons, IH. lia.
Qed.

Lemma le_bytes_ok n v : bytes_ok (le_bytes n v).
Proof.
  revert v; induction n as [|n IH]; intros v; constructor; [|apply IH].
  apply Z.mod_pos_bound. lia.
Qed.

Lemma le_val_bytes n v : 0 ≤ v < 256 ^ Z.of_nat n → le_val (le_bytes n v) = v.
Proof.
  revert v; induction n as [|n IH]; intros v Hv; cbn [le_bytes le_val].
  - simpl in Hv. lia.
  - rewrite Nat2Z.inj_succ, Z.pow_succ_r in Hv by lia.
    rewrite IH.
    + rewrite (Z.div_mod v 256) at 3 by lia. lia.
    + split; [apply Z.div_pos; lia|]. apply Z.div_lt_upper_bound; lia.
Qed.

Lemma le_val_range bs : bytes_ok bs → 0 ≤ le_val bs < 256 ^ zlen bs.
Proof.
  induction 1 as [|b bs Hb _ IH]; [done|]. cbn [le_val].
  rewrite zlen_cons, Z.pow_add_r, Z.pow_1_r by (pose proof (zlen_nonneg bs); lia).
  ranges. nia.
Qed.

(** Every octet of the C helpers is a base-256 digit. *)
Lemma put_digit v k : 0 ≤ k → to_u8 (Z.land (Z.shiftr v k) 0xFF) = v / 2 ^ k mod 256.
Proof.
  intros. change 0xFF with (Z.ones 8).
  rewrite Z.land_ones, Z.shiftr_div_pow2 by lia.
  unfold to_unsigned. norm_pow. rewrite Z.mod_mod; lia.
Qed.

Lemma put_digit0 v : to_u8 (Z.land v 0xFF) = v mod 256.
Proof.
  change 0xFF with (Z.ones 8). rewrite Z.land_ones by lia.
  unfold to_unsigned. norm_pow. rewrite Z.mod_mod; lia.
Qed.

Lemma le_put_u16_bytes v : mu_binary_le_put_u16 v = le_bytes 2 v.
Proof. unfold mu_binary_le_put_u16. by rewrite put_digit0, !put_digit by lia. Qed.

Lemma le_put_u32_bytes v : mu_binary_le_put_u32 v = le_bytes 4 v.
Proof.
  unfold mu_binary_le_put_u32. rewrite put_digit0, !put_digit by lia.
  cbn [le_bytes]. by rewrite !Z.div_div by lia.
Qed.

Lemma le_put_u64_bytes v : mu_binary_le_put_u64 v = le_bytes 8 v.
Proof.
  unfold mu_binary_le_put_u64. rewrite put_digit0, !put_digit by lia.
  cbn [le_bytes]. by rewrite !Z.div_div by lia.
Qed.

(** Bitwise or of disjoint bit ranges is addition. *)
Lemma lor_shiftl_add a b n : 0 ≤ n → 0 ≤ a < 2 ^ n → Z.lor a (Z.shiftl b n) = a + b * 2 ^ n.
Proof.
  intros Hn Ha. rewrite Z.shiftl_mul_pow2 by lia.
  rewrite <-Z.lxor_lor; [symmetry; apply Z.add_nocarry_lxor|]; apply Z.bits_inj'; intros i Hi;
    rewrite Z.land_spec, Z.bits_0;
    (destruct (Z.lt_ge_cases i n);
     [rewrite Z.mul_pow2_bits_low by lia; apply andb_false_r|]);
    (destruct (decide (a = 0)) as [->|]; [by rewrite Z.bits_0|]);
    (rewrite (Z.bits_above_log2 a i); [done|lia|]);
    (apply Z.log2_lt_pow2; [lia|]);
    (apply Z.lt_le_trans with (2 ^ n); [lia|]; apply Z.pow_le_mono_r; lia).
Qed.

Ltac bytes_range :=
  repeat match goal with
  | H : bytes_ok (?x :: ?l) |- _ => change (Forall u8_range (x :: l)) in H
  | H : Forall u8_range (_ :: _) |- _ => apply Forall_cons_iff in H as [??]
  end.

Lemma le_get_u16_val s0 s1 t :
  u8_range s0 → mu_binary_le_get_u16 (s0 :: s1 :: t) = Some (le_val [s0; s1]).
Proof.
  intros. unfold mu_binary_le_get_u16. ranges. f_equal.
  rewrite lor_shiftl_add by lia. cbn [le_val]. lia.
Qed.

Lemma le_get_u32_val s0 s1 s2 s3 t :
  bytes_ok [s0; s1; s2; s3] →
  mu_binary_le_get_u32 (s0 :: s1 :: s2 :: s3 :: t) = Some (le_val [s0; s1; s2; s3]).
Proof.
  intros. unfold mu_binary_le_get_u32. bytes_range. ranges. f_equal.
  rewrite (lor_shiftl_add s0 s1 8) by (norm_pow; lia).
  rewrite (lor_shiftl_add _ s2 16) by (norm_pow; lia).
  rewrite (lor_shiftl_add _ s3 24) by (norm_pow; lia).
  cbn [le_val]. norm_pow. lia.
Qed.

Lemma le_get_u64_val s0 s1 s2 s3 s4 s5 s6 s7 t :
  bytes_ok [s0; s1; s2; s3; s4; s5; s6; s7] →
  mu_binary_le_get_u64 (s0 :: s1 :: s2 :: s3 :: s4 :: s5 :: s6 :: s7 :: t)
  = Some (le_val [s0; s1; s2; s3; s4; s5; s6; s7]).
Proof.
  intros. unfold mu_binary_le_get_u64. bytes_range. ranges. f_equal.
  rewrite (lor_shiftl_add s0 s1 8) by (norm_pow; lia).
  rewrite (lor_shiftl_add _ s2 16) by (norm_pow; lia).
  rewrite (lor_shiftl_add _ s3 24) by (norm_pow; lia).
  rewrite (lor_shiftl_add _ s4 32) by (norm_pow; lia).
  rewrite (lor_shiftl_add _ s5 40) by (norm_pow; lia).
  rewrite (lor_shiftl_add _ s6 48) by (norm_pow; lia).
  rewrite (lor_shiftl_add _ s7 56) by (norm_pow; lia).
  cbn [le_val]. norm_pow. lia.
Qed.
