(* ===== verification/WireLogic.v ===== *)
(** * Program logics for decoders and encoders

    [rsafe m Q]: from every well-formed reader, whatever bytes it holds, the
    decoder [m] returns without undefined behaviour, leaves the buffer alone,
    never moves the position backwards or past the end, and a value it
    delivers satisfies [Q].
    [wsafe m]: the same for encoders, with the frame: nothing outside the
    octets between the old and the new position is modified.
    [rspec m bs a]: positioned at [bs], [m] consumes exactly [bs], yields [a].
    [wspec m bs]: [m] appends exactly [bs] when it fits and fails otherwise. *)

From S2P Require Export Binary.

(** ** Well-formed readers and writers *)

Definition buffer_ok (b : option (list Z)) (len : Z) : Prop :=
  match b with
  | None => len = 0
  | Some b => 0 ≤ len ≤ zlen b ∧ len ≤ PTRDIFF_MAX ∧ bytes_ok b
  end.

Definition reader_ok (r : mu_binary_reader_t) : Prop :=
  buffer_ok (r_buffer r) (r_length r) ∧ 0 ≤ r_position r ≤ r_length r.

Definition writer_ok (w : mu_binary_writer_t) : Prop :=
  buffer_ok (w_buffer w) (w_length w) ∧ 0 ≤ w_position w ≤ w_length w.

Lemma reader_init_ok b : zlen b ≤ PTRDIFF_MAX → bytes_ok b →
  reader_ok (mu_binary_reader_init (Some b) (zlen b)).
Proof.
  intros. pose proof (zlen_nonneg b).
  split; cbn; [|lia]. split; [lia|]. done.
Qed.

Lemma writer_init_ok b : zlen b ≤ PTRDIFF_MAX → bytes_ok b →
  writer_ok (mu_binary_writer_init (Some b) (zlen b)).
Proof.
  intros. pose proof (zlen_nonneg b).
  split; cbn; [|lia]. split; [lia|]. done.
Qed.

Definition buffer_frame (b b' : option (list Z)) (p p' : Z) : Prop :=
  match b, b' with
  | None, None => True
  | Some b, Some b' =>
      zlen b' = zlen b ∧ ztake p b' = ztake p b ∧ zdrop p' b' = zdrop p' b
  | _, _ => False
  end.

Record reader_step (r r' : mu_binary_reader_t) : Prop := {
  rstep_ok : reader_ok r';
  rstep_buffer : r_buffer r' = r_buffer r;
  rstep_length : r_length r' = r_length r;
  rstep_position : r_position r ≤ r_position r'
}.

Record writer_step (w w' : mu_binary_writer_t) : Prop := {
  wstep_ok : writer_ok w';
  wstep_length : w_length w' = w_length w;
  wstep_position : w_position w ≤ w_position w';
  wstep_frame : buffer_frame (w_buffer w) (w_buffer w') (w_position w) (w_position w')
}.

Definition outcome_ok {A} (Q : A → Prop) (x : result A) : Prop :=
  match x with
  | Ok a => Q a
  | Err s => s ≠ MU_STATUS_GOOD
  | Fault => False
  end.

Definition rsafe {A} (m : Rd A) (Q : A → Prop) : Prop :=
  ∀ r, reader_ok r → reader_step r (m r).2 ∧ outcome_ok Q (m r).1.

Definition wsafe {A} (m : Wr A) : Prop :=
  ∀ w, writer_ok w → writer_step w (m w).2 ∧ outcome_ok (λ _, True) (m w).1.

Lemma reader_step_refl r : reader_ok r → reader_step r r.
Proof. by split. Qed.

Lemma reader_step_trans r1 r2 r3 :
  reader_step r1 r2 → reader_step r2 r3 → reader_step r1 r3.
Proof. intros [] []. split; [done|congruence|congruence|lia]. Qed.

Lemma buffer_frame_refl b p : buffer_frame b b p p.
Proof. by destruct b. Qed.

Lemma ztake_le {A} p q (b b' : list A) : 0 ≤ p ≤ q → ztake q b' = ztake q b → ztake p b' = ztake p b.
Proof. intros ? E. by rewrite <-(ztake_ztake p q b'), <-(ztake_ztake p q b), E by lia. Qed.

Lemma zdrop_le {A} p q (b b' : list A) : 0 ≤ p ≤ q → zdrop p b' = zdrop p b → zdrop q b' = zdrop q b.
Proof.
  intros ? E. replace q with (p + (q - p)) by lia.
  by rewrite <-!zdrop_zdrop, E by lia.
Qed.

Lemma buffer_frame_trans b1 b2 b3 p1 p2 p3 :
  0 ≤ p1 ≤ p2 → p2 ≤ p3 →
  buffer_frame b1 b2 p1 p2 → buffer_frame b2 b3 p2 p3 → buffer_frame b1 b3 p1 p3.
Proof.
  intros ??. destruct b1, b2, b3; try done. cbn.
  intros (L1&T1&D1) (L2&T2&D2). split; [congruence|]. split.
  - rewrite <-T1. apply (ztake_le p1 p2); [lia|done].
  - rewrite D2. apply (zdrop_le p2 p3); [lia|done].
Qed.

Lemma writer_step_refl w : writer_ok w → writer_step w w.
Proof. split; [done|done|lia|]. apply buffer_frame_refl. Qed.

Lemma writer_step_trans w1 w2 w3 : writer_ok w1 →
  writer_step w1 w2 → writer_step w2 w3 → writer_step w1 w3.
Proof.
  intros [_ ?] [] []. split; [done|congruence|lia|].
  eapply buffer_frame_trans; [| |done|done]; lia.
Qed.

(** ** Rules for [rsafe] *)

Lemma rsafe_ret {A} (a : A) (Q : A → Prop) : Q a → rsafe (mret a) Q.
Proof. intros ? r ?. split; [by apply reader_step_refl|done]. Qed.

Lemma rsafe_fail {A} e (Q : A → Prop) : e ≠ MU_STATUS_GOOD → rsafe (fail e) Q.
Proof. intros ? r ?. split; [by apply reader_step_refl|done]. Qed.

Lemma rsafe_bind {A B} (m : Rd A) (k : A → Rd B) (P : A → Prop) (Q : B → Prop) :
  rsafe m P → (∀ a, P a → rsafe (k a) Q) → rsafe (m ≫= k) Q.
Proof.
  intros Hm Hk r Hr. specialize (Hm r Hr) as [Hs Ho].
  unfold mbind, M_bind. destruct (m r) as [[a|e|] r1]; cbn in *; [|by split|done].
  specialize (Hk a Ho r1 (rstep_ok _ _ Hs)) as [Hs' Ho'].
  split; [by eapply reader_step_trans|done].
Qed.

Lemma rsafe_mono {A} (m : Rd A) (P Q : A → Prop) :
  rsafe m P → (∀ a, P a → Q a) → rsafe m Q.
Proof.
  intros Hm HPQ r Hr. destruct (Hm r Hr) as [Hs Ho]. split; [done|].
  destruct (m r).1; cbn in *; eauto.
Qed.

Lemma rsafe_if {A} (b : bool) (m1 m2 : Rd A) Q :
  (b = true → rsafe m1 Q) → (b = false → rsafe m2 Q) → rsafe (if b then m1 else m2) Q.
Proof. destruct b; auto. Qed.

Lemma rsafe_get {B} (k : mu_binary_reader_t → Rd B) Q :
  (∀ r0, reader_ok r0 → rsafe (k r0) Q) → rsafe (get_state ≫= k) Q.
Proof. intros Hk r Hr. cbn. by apply Hk. Qed.

Lemma rsafe_or_default {A} (d : A) (m : Rd A) (Q : A → Prop) :
  Q d → rsafe m Q → rsafe (or_default d m) Q.
Proof.
  intros Hd Hm r Hr. destruct (Hm r Hr) as [Hs Ho].
  unfold or_default. destruct (m r) as [[a|e|] r1]; by split.
Qed.

Lemma rsafe_reader_fail {A} s (Q : A → Prop) : s ≠ MU_STATUS_GOOD → rsafe (reader_fail s) Q.
Proof. intros ? r Hr. split; [|done]. split; [apply Hr|done|done|done]. Qed.

Lemma ensure_bytes_ok r n : reader_ok r → 0 ≤ n →
  (∃ b, r_status r = MU_STATUS_GOOD ∧ r_buffer r = Some b ∧
     r_position r + n ≤ r_length r ∧ ensure_bytes n r = (Ok tt, r)) ∨
  (∃ s r', ensure_bytes n r = (Err s, r') ∧ s ≠ MU_STATUS_GOOD ∧ reader_step r r').
Proof.
  intros Hr Hn. unfold ensure_bytes.
  destruct (_ && _)%bool eqn:E; bool_hyps.
  - left. destruct (r_buffer r) as [b|] eqn:Eb; [|done]. exists b. split_and!; try done. lia.
  - right. clear E. destruct (r_status r =? MU_STATUS_GOOD) eqn:Es; cbn; bool_hyps.
    + destruct (is_null (r_buffer r)); eexists _, _; (split; [done|split; [done|]]);
        (split; [apply Hr|done|done|done]).
    + eexists _, _. split; [done|]. split; [done|]. by apply reader_step_refl.
Qed.

Lemma reader_take_run {A} n (f : list Z → option A) r :
  reader_take n f r =
    match b ← r_buffer r; f (zdrop (r_position r) b) with
    | Some v => (Ok v, set_r_position r (to_size (r_position r + n)))
    | None => (Fault, r)
    end.
Proof.
  unfold reader_take, mbind, M_bind, get_state, lift_option. cbn.
  by destruct (option_bind _ _ _ _).
Qed.

(** A fixed-width read: guarded by [ensure_bytes], the access is in bounds. *)
Lemma rsafe_take {A} n (f : list Z → option A) (Q : A → Prop) :
  0 ≤ n → (∀ bs, bytes_ok bs → n ≤ zlen bs → ∃ a, f bs = Some a ∧ Q a) →
  rsafe (ensure_bytes n;; reader_take n f) Q.
Proof.
  intros Hn Hf r Hr.
  destruct (ensure_bytes_ok r n Hr Hn) as [(b&Hs&Hb&Hl&E)|(s&r'&E&Hs&Hst)].
  - rewrite (bind_ok _ _ _ _ _ E), reader_take_run, Hb. cbn.
    destruct Hr as [Hbo Hp]. rewrite Hb in Hbo. destruct Hbo as (?&?&Hby).
    destruct (Hf (zdrop (r_position r) b)) as (a&Ha&HQ);
      [by apply bytes_ok_zdrop|rewrite zlen_zdrop; lia|].
    rewrite Ha, (to_unsigned_id 32) by (zify_ints; lia). cbn. split; [|done].
    split; cbn; [|done|done|lia].
    split; cbn; [rewrite Hb; cbn; auto|lia].
  - rewrite (bind_err _ _ _ _ _ E). by split.
Qed.

Lemma head_safe bs : bytes_ok bs → 1 ≤ zlen bs → ∃ a, head bs = Some a ∧ u8_range a.
Proof. destruct bs as [|b bs]; [done|]. intros. bytes_range. eauto. Qed.

Lemma get_u16_safe bs : bytes_ok bs → 2 ≤ zlen bs →
  ∃ a, mu_binary_le_get_u16 bs = Some a ∧ u16_range a.
Proof.
  destruct bs as [|b0 [|b1 bs]]; try done. intros H _.
  bytes_range. rewrite le_get_u16_val by done. eexists. split; [done|].
  cbn [le_val]. ranges. lia.
Qed.

Lemma get_u32_safe bs : bytes_ok bs → 4 ≤ zlen bs →
  ∃ a, mu_binary_le_get_u32 bs = Some a ∧ u32_range a.
Proof.
  destruct bs as [|b0 [|b1 [|b2 [|b3 bs]]]]; try done. intros H _.
  change (b0 :: b1 :: b2 :: b3 :: bs) with ([b0;b1;b2;b3] ++ bs) in H.
  apply bytes_ok_app in H as [H _].
  rewrite le_get_u32_val by done. eexists. split; [done|].
  exact (le_val_range _ H).
Qed.

Lemma get_u64_safe bs : bytes_ok bs → 8 ≤ zlen bs →
  ∃ a, mu_binary_le_get_u64 bs = Some a ∧ u64_range a.
Proof.
  destruct bs as [|b0 [|b1 [|b2 [|b3 [|b4 [|b5 [|b6 [|b7 bs]]]]]]]]; try done. intros H _.
  change (b0 :: b1 :: b2 :: b3 :: b4 :: b5 :: b6 :: b7 :: bs)
    with ([b0;b1;b2;b3;b4;b5;b6;b7] ++ bs) in H.
  apply bytes_ok_app in H as [H _].
  rewrite le_get_u64_val by done. eexists. split; [done|].
  exact (le_val_range _ H).
Qed.

Lemma bind_assoc {S A B C} (m : M S A) (f : A → M S B) (g : B → M S C) s :
  ((m ≫= f) ≫= g) s = (m ≫= λ a, f a ≫= g) s.
Proof. unfold mbind, M_bind. by destruct (m s) as [[]]. Qed.

(** Fixed-width read followed by a pure conversion. *)
Lemma rsafe_take_then {A B} n (f : list Z → option A) (k : A → Rd B) (P : A → Prop) Q :
  0 ≤ n → (∀ bs, bytes_ok bs → n ≤ zlen bs → ∃ a, f bs = Some a ∧ P a) →
  (∀ a, P a → rsafe (k a) Q) →
  rsafe (ensure_bytes n;; reader_take n f ≫= k) Q.
Proof.
  intros Hn Hf Hk r Hr. rewrite <-bind_assoc.
  refine (rsafe_bind _ _ P Q _ _ r Hr); [by apply rsafe_take|done].
Qed.

Lemma to_signed_ranges x :
  i8_range (to_i8 x) ∧ i16_range (to_i16 x) ∧ i32_range (to_i32 x) ∧ i64_range (to_i64 x).
Proof.
  ranges. split_and!; (eapply Z.le_trans || eapply Z.lt_le_trans);
    try apply (to_signed_range 8 x); try apply (to_signed_range 16 x);
    try apply (to_signed_range 32 x); try apply (to_signed_range 64 x); lia.
Qed.

(** ** Safety of the primitive reads *)

Create HintDb rsafe discriminated.

Lemma rsafe_read_boolean : rsafe mu_binary_read_boolean (λ _, True).
Proof.
  apply (rsafe_take_then _ _ _ u8_range); [done|apply head_safe|].
  intros. by apply rsafe_ret.
Qed.

Lemma rsafe_read_sbyte : rsafe mu_binary_read_sbyte i8_range.
Proof.
  apply (rsafe_take_then _ _ _ u8_range); [done|apply head_safe|].
  intros a _. apply rsafe_ret, (to_signed_ranges a).
Qed.

Lemma rsafe_read_byte : rsafe mu_binary_read_byte u8_range.
Proof. apply rsafe_take; [done|apply head_safe]. Qed.

Lemma rsafe_read_int16 : rsafe mu_binary_read_int16 i16_range.
Proof.
  apply (rsafe_take_then _ _ _ u16_range); [done|apply get_u16_safe|].
  intros a _. apply rsafe_ret, (to_signed_ranges a).
Qed.

Lemma rsafe_read_uint16 : rsafe mu_binary_read_uint16 u16_range.
Proof. apply rsafe_take; [done|apply get_u16_safe]. Qed.

Lemma rsafe_read_int32 : rsafe mu_binary_read_int32 i32_range.
Proof.
  apply (rsafe_take_then _ _ _ u32_range); [done|apply get_u32_safe|].
  intros a _. apply rsafe_ret, (to_signed_ranges a).
Qed.

Lemma rsafe_read_uint32 : rsafe mu_binary_read_uint32 u32_range.
Proof. apply rsafe_take; [done|apply get_u32_safe]. Qed.

Lemma rsafe_read_int64 : rsafe mu_binary_read_int64 i64_range.
Proof.
  apply (rsafe_take_then _ _ _ u64_range); [done|apply get_u64_safe|].
  intros a _. apply rsafe_ret, (to_signed_ranges a).
Qed.

Lemma rsafe_read_uint64 : rsafe mu_binary_read_uint64 u64_range.
Proof. apply rsafe_take; [done|apply get_u64_safe]. Qed.

Lemma rsafe_read_float : rsafe mu_binary_read_float u32_range.
Proof. apply rsafe_read_uint32. Qed.

Lemma rsafe_read_double : rsafe mu_binary_read_double u64_range.
Proof. apply rsafe_read_uint64. Qed.

Lemma rsafe_read_statuscode : rsafe mu_binary_read_statuscode u32_range.
Proof. apply rsafe_read_uint32. Qed.

Lemma rsafe_reader_status : rsafe reader_status (λ _, True).
Proof.
  intros r Hr. unfold reader_status. destruct (r_status r =? _) eqn:E; bool_hyps; cbn;
    (split; [by apply reader_step_refl|done]).
Qed.

(** Array counts are null ([-1]) or non-negative. *)
Definition array_length_range (n : Z) : Prop := -1 ≤ n < 2147483648.

Lemma rsafe_read_array_length : rsafe mu_binary_read_array_length array_length_range.
Proof.
  apply (rsafe_take_then _ _ _ u32_range); [done|apply get_u32_safe|].
  intros a _. apply rsafe_get. intros r0 _. apply rsafe_if; intros Hg.
  - by apply rsafe_reader_fail.
  - bool_hyps. apply rsafe_ret. pose proof (to_signed_ranges a). ranges.
    unfold array_length_range. lia.
Qed.

#[export] Hint Resolve rsafe_read_boolean rsafe_read_sbyte rsafe_read_byte
  rsafe_read_int16 rsafe_read_uint16 rsafe_read_int32 rsafe_read_uint32
  rsafe_read_int64 rsafe_read_uint64 rsafe_read_float rsafe_read_double
  rsafe_read_statuscode rsafe_reader_status rsafe_read_array_length : rsafe.

(** Walk through a decoder: binds, guards, failures and returns. *)
Ltac rsafe_step :=
  lazymatch goal with
  | |- rsafe (mret _) _ => apply rsafe_ret
  | |- rsafe (fail _) _ => by apply rsafe_fail
  | |- rsafe (reader_fail _) _ => by apply rsafe_reader_fail
  | |- rsafe (get_state ≫= _) _ => apply rsafe_get; intros ??
  | |- rsafe (_ ≫= _) _ => eapply rsafe_bind; [solve [eauto with rsafe]|intros ??]
  | |- rsafe (if _ then _ else _) _ => apply rsafe_if; intros ?
  | |- rsafe (or_default _ _) _ => apply rsafe_or_default
  | |- rsafe _ _ => eapply rsafe_mono; [solve [eauto with rsafe]|intros ??]
  end.
Ltac rsafe_auto := repeat (rsafe_step; cbv zeta).

(** ** Rules for [wsafe] *)

Lemma wsafe_ret {A} (a : A) : wsafe (mret a).
Proof. intros w ?. split; [by apply writer_step_refl|done]. Qed.

Lemma wsafe_fail {A} e : e ≠ MU_STATUS_GOOD → wsafe (A:=A) (fail e).
Proof. intros ? w ?. split; [by apply writer_step_refl|done]. Qed.

Lemma wsafe_bind {A B} (m : Wr A) (k : A → Wr B) :
  wsafe m → (∀ a, wsafe (k a)) → wsafe (m ≫= k).
Proof.
  intros Hm Hk w Hw. specialize (Hm w Hw) as [Hs Ho].
  unfold mbind, M_bind. destruct (m w) as [[a|e|] w1]; cbn in *; [|by split|done].
  specialize (Hk a w1 (wstep_ok _ _ Hs)) as [Hs' Ho'].
  split; [by eapply writer_step_trans|done].
Qed.

Lemma wsafe_if {A} (b : bool) (m1 m2 : Wr A) :
  (b = true → wsafe m1) → (b = false → wsafe m2) → wsafe (if b then m1 else m2).
Proof. destruct b; auto. Qed.

Lemma wsafe_writer_fail {A} s : s ≠ MU_STATUS_GOOD → wsafe (A:=A) (writer_fail s).
Proof.
  intros ? w Hw. split; [|done].
  split; [apply Hw|done|done|apply buffer_frame_refl].
Qed.

Lemma ensure_space_ok w n : writer_ok w → 0 ≤ n →
  (∃ b, w_status w = MU_STATUS_GOOD ∧ w_buffer w = Some b ∧
     w_position w + n ≤ w_length w ∧ ensure_space n w = (Ok tt, w)) ∨
  ((w_status w ≠ MU_STATUS_GOOD ∨ w_buffer w = None ∨ w_length w < w_position w + n) ∧
   ∃ s w', ensure_space n w = (Err s, w') ∧ s ≠ MU_STATUS_GOOD ∧ writer_step w w').
Proof.
  intros Hw Hn. unfold ensure_space, writer_status.
  destruct (_ && _)%bool eqn:E.
  - left. bool_hyps. destruct (w_buffer w) as [b|] eqn:Eb; [|done]. exists b.
    split_and!; try done. lia.
  - right. destruct (w_status w =? MU_STATUS_GOOD) eqn:Es; cbn.
    + split.
      { right. destruct (w_buffer w) eqn:Eb; [right|by left]. cbn in E. bool_hyps.
        destruct E as [?%Z.leb_gt|?%Z.leb_gt]; [destruct Hw|]; lia. }
      destruct (is_null (w_buffer w)); eexists _, _; (split; [done|split; [done|]]);
        (split; [apply Hw|done|done|apply buffer_frame_refl]).
    + bool_hyps. split; [by left|]. eexists _, _. split; [done|]. split; [done|].
      by apply writer_step_refl.
Qed.

(** ** Appending bytes *)

Definition w_append (w : mu_binary_writer_t) (bs : list Z) : mu_binary_writer_t :=
  match w_buffer w with
  | Some b => mk_writer
      (Some (ztake (w_position w) b ++ bs ++ zdrop (w_position w + zlen bs) b))
      (w_length w) (w_position w + zlen bs) (w_status w)
  | None => w
  end.

Definition fits (w : mu_binary_writer_t) (bs : list Z) : Prop :=
  w_position w + zlen bs ≤ w_length w.

#[export] Instance fits_dec w bs : Decision (fits w bs).
Proof. unfold fits. apply _. Defined.

Definition writer_ready (w : mu_binary_writer_t) : Prop :=
  writer_ok w ∧ w_status w = MU_STATUS_GOOD ∧ is_Some (w_buffer w).

Lemma writer_put_run w b bs : writer_ok w → w_buffer w = Some b → fits w bs →
  writer_put bs w = (Ok tt, w_append w bs).
Proof.
  intros [Hb Hp] E Hf. rewrite E in Hb. destruct Hb as (?&?&?). unfold fits in Hf.
  pose proof (zlen_nonneg bs).
  unfold writer_put, w_append, mbind, M_bind, get_state, lift_option. rewrite E. cbn.
  rewrite mem_store_Some by lia. cbn. unfold put_state.
  rewrite to_unsigned_id; [done|]. zify_ints. lia.
Qed.

Lemma w_append_buffer w b bs : w_buffer w = Some b →
  w_append w bs = mk_writer
    (Some (ztake (w_position w) b ++ bs ++ zdrop (w_position w + zlen bs) b))
    (w_length w) (w_position w + zlen bs) (w_status w).
Proof. unfold w_append. by intros ->. Qed.

Lemma w_append_step w b bs : writer_ok w → w_buffer w = Some b → bytes_ok bs → fits w bs →
  writer_step w (w_append w bs).
Proof.
  intros [Hb Hp] E Hbs Hf. rewrite E in Hb. destruct Hb as (?&?&?). unfold fits in Hf.
  pose proof (zlen_nonneg bs) as Hbn.
  rewrite (w_append_buffer _ _ _ E).
  assert (zlen (ztake (w_position w) b) = w_position w) as Ht by (apply zlen_ztake; lia).
  assert (zlen (ztake (w_position w) b ++ bs ++ zdrop (w_position w + zlen bs) b) = zlen b) as Hz.
  { rewrite !zlen_app, zlen_zdrop by lia. lia. }
  split; cbn; [|done|lia|].
  - split; cbn; [|lia]. rewrite Hz. split; [lia|]. split; [done|].
    rewrite !bytes_ok_app. auto with wire.
  - rewrite E. cbn. split; [exact Hz|]. split.
    + rewrite ztake_app_le by lia. apply ztake_ztake. lia.
    + rewrite app_assoc. replace (w_position w + zlen bs)
        with (zlen (ztake (w_position w) b ++ bs)) at 1 by (rewrite zlen_app; lia).
      apply zdrop_app.
Qed.

Lemma w_append_ready w bs : writer_ready w → bytes_ok bs → fits w bs → writer_ready (w_append w bs).
Proof.
  intros (Hw&Hs&[b Hb]) ??. split_and!.
  - eapply wstep_ok, w_append_step; eauto.
  - by rewrite (w_append_buffer _ _ _ Hb).
  - rewrite (w_append_buffer _ _ _ Hb). eauto.
Qed.

Lemma w_append_app w bs1 bs2 : writer_ready w → fits w (bs1 ++ bs2) →
  w_append (w_append w bs1) bs2 = w_append w (bs1 ++ bs2).
Proof.
  intros (Hw&Hs&[b Hb]) Hf. unfold fits in Hf. rewrite zlen_app in Hf.
  destruct Hw as [Hbo Hp]. rewrite Hb in Hbo. destruct Hbo as (?&?&?).
  pose proof (zlen_nonneg bs1). pose proof (zlen_nonneg bs2).
  unfold w_append. rewrite Hb. cbn. rewrite zlen_app.
  assert (zlen (ztake (w_position w) b ++ bs1) = w_position w + zlen bs1) as Hz.
  { rewrite zlen_app, zlen_ztake; lia. }
  f_equal; [|lia]. f_equal. rewrite !app_assoc. f_equal.
  - rewrite <-Hz at 1. rewrite ztake_app. done.
  - replace (w_position w + zlen bs1 + zlen bs2) with (zlen (ztake (w_position w) b ++ bs1) + zlen bs2) by lia.
    rewrite <-zdrop_zdrop by (lia || apply zlen_nonneg). rewrite zdrop_app, zdrop_zdrop by lia.
    f_equal. lia.
Qed.

(** ** Exact encoders *)

Definition wspec (m : Wr unit) (bs : list Z) : Prop :=
  bytes_ok bs ∧ ∀ w, writer_ready w →
    (fits w bs → m w = (Ok tt, w_append w bs)) ∧
    (¬ fits w bs → ∃ s w', m w = (Err s, w') ∧ s ≠ MU_STATUS_GOOD).

Lemma wspec_put n bs : bytes_ok bs → zlen bs = n → wspec (ensure_space n;; writer_put bs) bs.
Proof.
  intros Hbs <-. split; [done|]. intros w (Hw&Hs&[b Hb]).
  pose proof (zlen_nonneg bs).
  destruct (ensure_space_ok w (zlen bs) Hw) as [(b'&_&Hb'&Hf&E)|(Hc&s&w'&E&Hs'&_)]; [done| |].
  - split; [|done]. intros _. rewrite (bind_ok _ _ _ _ _ E). by eapply writer_put_run.
  - split.
    + intros Hf. unfold fits in Hf. destruct Hc as [?|[?|?]]; [done|congruence|lia].
    + intros _. exists s, w'. by rewrite (bind_err _ _ _ _ _ E).
Qed.

Lemma wspec_ret : wspec (mret tt) [].
Proof.
  split; [constructor|]. intros w (Hw&Hs&[b Hb]). split.
  - intros _. unfold w_append. rewrite Hb. cbn. rewrite Z.add_0_r, ztake_zdrop, <-Hb.
    by destruct w.
  - intros Hf. destruct Hf. destruct Hw. unfold fits. rewrite zlen_nil. lia.
Qed.

Lemma wspec_bind m k bs1 bs2 : wspec m bs1 → wspec k bs2 → wspec (m;; k) (bs1 ++ bs2).
Proof.
  intros [Hb1 H1] [Hb2 H2]. split; [by apply bytes_ok_app|]. intros w Hw.
  pose proof (zlen_nonneg bs2).
  assert (fits w (bs1 ++ bs2) ↔ fits w bs1 ∧ fits (w_append w bs1) bs2) as Hiff.
  { destruct Hw as (_&_&[b Hb]). rewrite (w_append_buffer _ _ _ Hb).
    unfold fits. cbn. rewrite zlen_app. lia. }
  rewrite Hiff. destruct (decide (fits w bs1)) as [Hf1|Hf1].
  - destruct (H1 w Hw) as [E1 _]. specialize (E1 Hf1).
    rewrite (bind_ok _ _ _ _ _ E1).
    destruct (H2 _ (w_append_ready w bs1 Hw Hb1 Hf1)) as [E2 E2'].
    split; [|naive_solver]. intros [_ Hf2]. rewrite (E2 Hf2), w_append_app; [done..|].
    by apply Hiff.
  - split; [naive_solver|]. intros _. destruct (H1 w Hw) as [_ E1].
    destruct (E1 Hf1) as (s&w'&E&?). exists s, w'. by rewrite (bind_err _ _ _ _ _ E).
Qed.

Lemma wspec_eq m bs bs' : wspec m bs → bs = bs' → wspec m bs'.
Proof. by intros ? <-. Qed.

Lemma wspec_if (b : bool) m1 m2 bs1 bs2 :
  (b = true → wspec m1 bs1) → (b = false → wspec m2 bs2) →
  wspec (if b then m1 else m2) (if b then bs1 else bs2).
Proof. destruct b; auto. Qed.

(** An exact encoder is a safe one, from any writer. *)
Lemma wsafe_put n bs : bytes_ok bs → zlen bs = n → wsafe (ensure_space n;; writer_put bs).
Proof.
  intros Hbs <- w Hw. pose proof (zlen_nonneg bs).
  destruct (ensure_space_ok w (zlen bs) Hw) as [(b&_&Hb&Hf&E)|(_&s&w'&E&Hs'&?)]; [done| |].
  - rewrite (bind_ok _ _ _ _ _ E), (writer_put_run w b bs) by done. cbn.
    split; [|done]. by eapply w_append_step.
  - rewrite (bind_err _ _ _ _ _ E). by split.
Qed.

(** ** Exact decoders *)

Definition r_at (r : mu_binary_reader_t) (bs : list Z) : Prop :=
  reader_ok r ∧ r_status r = MU_STATUS_GOOD ∧
  r_position r + zlen bs ≤ r_length r ∧
  ∃ b rest, r_buffer r = Some b ∧ zdrop (r_position r) b = bs ++ rest.

Definition r_adv (r : mu_binary_reader_t) (n : Z) : mu_binary_reader_t :=
  set_r_position r (r_position r + n).

Definition rspec {A} (m : Rd A) (bs : list Z) (a : A) : Prop :=
  ∀ r, r_at r bs → m r = (Ok a, r_adv r (zlen bs)).

Lemma r_adv_0 r : r_adv r 0 = r.
Proof. destruct r. unfold r_adv, set_r_position. cbn. f_equal. lia. Qed.

Lemma r_adv_adv r n m : r_adv (r_adv r n) m = r_adv r (n + m).
Proof. unfold r_adv, set_r_position. cbn. f_equal. lia. Qed.

Lemma r_at_app r bs1 bs2 : r_at r (bs1 ++ bs2) → r_at r bs1 ∧ r_at (r_adv r (zlen bs1)) bs2.
Proof.
  intros (Hr&Hs&Hl&b&rest&Hb&Hd). rewrite zlen_app in Hl.
  pose proof (zlen_nonneg bs1). pose proof (zlen_nonneg bs2).
  split.
  - split_and!; [done|done|lia|]. exists b, (bs2 ++ rest). by rewrite app_assoc.
  - destruct Hr as [Hbo Hp]. split_and!; cbn; [split; cbn; [done|lia]|done|lia|].
    exists b, rest. split; [done|].
    rewrite <-zdrop_zdrop, Hd, <-app_assoc by lia. apply zdrop_app.
Qed.

Lemma rspec_ret {A} (a : A) : rspec (mret a) [] a.
Proof. intros r _. by rewrite zlen_nil, r_adv_0. Qed.

Lemma rspec_bind {A B} (m : Rd A) (k : A → Rd B) bs1 bs2 a b :
  rspec m bs1 a → rspec (k a) bs2 b → rspec (m ≫= k) (bs1 ++ bs2) b.
Proof.
  intros Hm Hk r Hr. apply r_at_app in Hr as [H1 H2].
  rewrite (bind_ok _ _ _ _ _ (Hm r H1)), (Hk _ H2), r_adv_adv. by rewrite zlen_app.
Qed.

Lemma rspec_bind_ret {A B} (m : Rd A) (k : A → Rd B) bs a b :
  rspec m bs a → rspec (k a) [] b → rspec (m ≫= k) bs b.
Proof. intros. rewrite <-(app_nil_r bs). by eapply rspec_bind. Qed.

Lemma rspec_eq {A} (m : Rd A) bs bs' a a' : rspec m bs a → bs = bs' → a = a' → rspec m bs' a'.
Proof. by intros ? <- <-. Qed.

Lemma rspec_take {A} n (f : list Z → option A) bs a :
  zlen bs = n → (∀ rest, f (bs ++ rest) = Some a) →
  rspec (ensure_bytes n;; reader_take n f) bs a.
Proof.
  intros <- Hf r (Hr&Hs&Hl&b&rest&Hb&Hd).
  pose proof (zlen_nonneg bs).
  destruct (ensure_bytes_ok r (zlen bs) Hr) as [(b'&_&_&_&E)|(s&r'&E&Hs'&_)]; [done| |].
  - rewrite (bind_ok _ _ _ _ _ E), reader_take_run, Hb. cbn. rewrite Hd, Hf.
    destruct Hr as [Hbo Hp]. rewrite Hb in Hbo. destruct Hbo as (?&?&?).
    rewrite to_unsigned_id; [done|zify_ints; lia].
  - unfold ensure_bytes in E. rewrite Hs, Hb in E. cbn in E.
    rewrite !(proj2 (Z.leb_le _ _)) in E by lia. done.
Qed.

(** Reading back what an encoder left between two positions of its buffer. *)
Definition reader_over (w : mu_binary_writer_t) (start : Z) : mu_binary_reader_t :=
  mk_reader (w_buffer w) (w_length w) start MU_STATUS_GOOD.

Lemma reader_over_at w bs : writer_ready w → bytes_ok bs → fits w bs →
  r_at (reader_over (w_append w bs) (w_position w)) bs.
Proof.
  intros Hw Hbs Hf. pose proof (w_append_ready w bs Hw Hbs Hf) as (Hok&_&_).
  destruct Hw as (Hw&Hs&[b Hb]).
  rewrite (w_append_buffer _ _ _ Hb) in *. unfold fits in Hf. destruct Hok as [Hbo Hp].
  destruct Hw as [Hbo' Hp']. rewrite Hb in Hbo'. cbn in Hbo'.
  pose proof (zlen_nonneg bs). cbn in *.
  split_and!; cbn; [split; cbn; [done|lia]|done|lia|].
  eexists _, (zdrop (w_position w + zlen bs) b). split; [done|].
  rewrite <-(zlen_ztake (w_position w) b) at 1 by lia. by rewrite zdrop_app.
Qed.

(** ** Codecs

    A wire format [enc] that an encoder of the code produces and a decoder of
    the code reads back, for every valid value. *)
Class Codec {A : Type} (valid : A → Prop) (enc : A → list Z)
    (write : A → Wr unit) (read : Rd A) : Prop := {
  codec_write a : valid a → wspec (write a) (enc a);
  codec_read a : valid a → rspec read (enc a) a
}.

Lemma codec_roundtrip `{Codec A valid enc write read} a w w' :
  writer_ready w → valid a → write a w = (Ok tt, w') →
  read (reader_over w' (w_position w)) = (Ok a, reader_over w' (w_position w')).
Proof.
  intros Hw Ha E. destruct (codec_write a Ha) as [Hb Hspec].
  destruct (Hspec w Hw) as [Hok Hko].
  destruct (decide (fits w (enc a))) as [Hf|Hf].
  - rewrite (Hok Hf) in E. injection E as <-.
    rewrite (codec_read a Ha _ (reader_over_at w _ Hw Hb Hf)).
    destruct Hw as (_&_&[b Hb']). by rewrite (w_append_buffer _ _ _ Hb').
  - destruct (Hko Hf) as (s&w1&E'&_). congruence.
Qed.

Lemma codec_fits `{Codec A valid enc write read} a w :
  writer_ready w → valid a →
  (fits w (enc a) ∧ write a w = (Ok tt, w_append w (enc a))) ∨
  (¬ fits w (enc a) ∧ ∃ s w', write a w = (Err s, w') ∧ s ≠ MU_STATUS_GOOD).
Proof.
  intros Hw Ha. destruct (codec_write a Ha) as [_ Hspec]. destruct (Hspec w Hw).
  destruct (decide (fits w (enc a))); naive_solver.
Qed.

(** ** Counted arrays *)

(** The loops that decode [n] array elements and encode the elements of an
    array one after the other. *)
Fixpoint rd_list {A} (n : nat) (item : Rd A) : Rd (list A) :=
  match n with
  | O => mret []
  | S n => x ← item; l ← rd_list n item; mret (x :: l)
  end.

Fixpoint wr_list {A} (item : A → Wr unit) (l : list A) : Wr unit :=
  match l with
  | [] => mret tt
  | x :: l => item x;; wr_list item l
  end.

Section counted.
  Context {A : Type}.

Lemma rsafe_rd_list n (item : Rd A) P :
  rsafe item P → rsafe (rd_list n item) (λ l, length l = n ∧ Forall P l).
Proof.
  intros Hi; induction n as [|n IH]; cbn [rd_list]; [by apply rsafe_ret|].
  eapply rsafe_bind; [exact Hi|]; intros x Hx; eapply rsafe_bind; [exact IH|]; intros l [<- Hl].
  apply rsafe_ret; split; [done|by apply Forall_cons_iff].
Qed.

Lemma wsafe_wr_list (item : A → Wr unit) l : Forall (λ x, wsafe (item x)) l → wsafe (wr_list item l).
Proof.
  induction 1 as [|x l Hx _ IH]; cbn [wr_list]; [apply wsafe_ret|].
  by apply wsafe_bind.
Qed.

Lemma wspec_wr_list (item : A → Wr unit) enc l :
  Forall (λ x, wspec (item x) (enc x)) l → wspec (wr_list item l) (flat_map enc l).
Proof.
  induction 1 as [|x l Hx _ IH]; cbn [wr_list flat_map]; [apply wspec_ret|by apply wspec_bind].
Qed.

Lemma rspec_rd_list (item : Rd A) enc l :
  Forall (λ x, rspec item (enc x) x) l → rspec (rd_list (length l) item) (flat_map enc l) l.
Proof.
  induction 1 as [|x l Hx _ IH]; cbn [rd_list flat_map length]; [apply rspec_ret|].
  eapply rspec_bind; [exact Hx|]; eapply rspec_bind_ret; [exact IH|apply rspec_ret].
Qed.
End counted.
