(* ===== verification/BinaryString.v ===== *)
(** * Strings, NodeIds and identity tokens on the wire

    [src/encoding/binary_string.c], [binary_nodeid.c] and the identity-token
    readers at the end of [binary_reader.c], with the codec instances of the
    primitives, strings, NodeIds and QualifiedNames. *)

From S2P Require Export WireLogic.

(** ** [binary_string.c] *)

Definition string_reader_fail {A} (status : Z) : Rd A := reader_fail status.

Definition ensure_string_payload (length : Z) : Rd unit :=
  if length <=? 0 then mret tt
  else
    r ← get_state;
    if r_length r <? r_position r then string_reader_fail MU_STATUS_BAD_DECODINGERROR
    else if r_length r - r_position r <? to_size length
    then string_reader_fail MU_STATUS_BAD_DECODINGERROR
    else mret tt.

Definition mu_binary_read_string : Rd mu_string_t :=
  length ← mu_binary_read_int32;
  if length =? -1 then mret (mk_string length None)
  else if length <? 0 then fail MU_STATUS_BAD_DECODINGERROR
  else if MU_MAX_ENCODED_STRING_LENGTH <? length
  then fail MU_STATUS_BAD_ENCODINGLIMITSEXCEEDED
  else
    ensure_string_payload length;;
    r ← get_state;
    data ← lift_option (b ← r_buffer r; mem_load b (r_position r) (to_size length));
    put_state (set_r_position r (to_size (r_position r + to_size length)));;
    mret (mk_string length (Some data)).

(** [value] is NULL in one of the calls of the server, hence the option. *)
Definition mu_binary_write_string_ptr (value : option mu_string_t) : Wr unit :=
  match value with
  | None => mu_binary_write_int32 (-1)
  | Some value =>
      if str_length value =? -1 then mu_binary_write_int32 (-1)
      else if str_length value <? 0 then fail MU_STATUS_BAD_ENCODINGERROR
      else if MU_MAX_ENCODED_STRING_LENGTH <? str_length value
      then fail MU_STATUS_BAD_ENCODINGLIMITSEXCEEDED
      else
        mu_binary_write_int32 (str_length value);;
        if 0 <? str_length value then
          w ← get_state;
          if w_length w <? to_size (w_position w + to_size (str_length value))
          then fail MU_STATUS_BAD_ENCODINGERROR
          else
            bs ← lift_option (d ← str_data value; mem_load d 0 (to_size (str_length value)));
            writer_put bs
        else mret tt
  end.

Definition mu_binary_write_string (value : mu_string_t) : Wr unit :=
  mu_binary_write_string_ptr (Some value).

Definition mu_binary_read_bytestring : Rd mu_bytestring_t := mu_binary_read_string.

Definition mu_binary_write_bytestring (value : mu_bytestring_t) : Wr unit :=
  mu_binary_write_string value.

(** ** [binary_nodeid.c] *)

Definition mu_binary_read_nodeid : Rd mu_nodeid_t :=
  encoding_mask ← mu_binary_read_byte;
  let format := Z.land encoding_mask 0x0F in
  if format =? 0x00 then
    id ← mu_binary_read_byte;
    mret (mk_nodeid 0 (MU_NODEID_NUMERIC id))
  else if format =? 0x01 then
    ns ← mu_binary_read_byte;
    id ← mu_binary_read_uint16;
    mret (mk_nodeid ns (MU_NODEID_NUMERIC id))
  else if format =? 0x02 then
    ns ← mu_binary_read_uint16;
    id ← mu_binary_read_uint32;
    mret (mk_nodeid ns (MU_NODEID_NUMERIC id))
  else if format =? 0x03 then
    ns ← mu_binary_read_uint16;
    s ← mu_binary_read_string;
    mret (mk_nodeid ns (MU_NODEID_STRING s))
  else fail MU_STATUS_BAD_DECODINGERROR.

Definition mu_binary_write_nodeid (value : mu_nodeid_t) : Wr unit :=
  match nid_identifier value with
  | MU_NODEID_NUMERIC numeric =>
      if (nid_namespace_index value =? 0) && (numeric <=? 255) then
        mu_binary_write_byte 0x00;;
        mu_binary_write_byte (to_u8 numeric)
      else if (nid_namespace_index value <=? 255) && (numeric <=? 65535) then
        mu_binary_write_byte 0x01;;
        mu_binary_write_byte (to_u8 (nid_namespace_index value));;
        mu_binary_write_uint16 (to_u16 numeric)
      else
        mu_binary_write_byte 0x02;;
        mu_binary_write_uint16 (nid_namespace_index value);;
        mu_binary_write_uint32 numeric
  | MU_NODEID_STRING string =>
      mu_binary_write_byte 0x03;;
      mu_binary_write_uint16 (nid_namespace_index value);;
      mu_binary_write_string string
  | _ => fail MU_STATUS_BAD_ENCODINGERROR
  end.

Definition mu_binary_read_expanded_nodeid : Rd mu_expanded_nodeid_t :=
  r ← get_state;
  if r_length r <=? r_position r then fail MU_STATUS_BAD_DECODINGERROR
  else
    encoding_mask ← lift_option (b ← r_buffer r; znth b (r_position r));
    node_id ← mu_binary_read_nodeid;
    namespace_uri ← (if negb (Z.land encoding_mask 0x80 =? 0)
                     then mu_binary_read_string else mret null_string);
    server_index ← (if negb (Z.land encoding_mask 0x40 =? 0)
                    then mu_binary_read_uint32 else mret 0);
    mret (mk_expanded_nodeid node_id namespace_uri server_index).

Definition mu_binary_write_expanded_nodeid (value : mu_expanded_nodeid_t) : Wr unit :=
  mu_binary_write_nodeid (xid_node_id value).

Definition mu_binary_read_qualified_name : Rd mu_qualified_name_t :=
  ns ← mu_binary_read_uint16;
  name ← mu_binary_read_string;
  mret (mk_qualified_name ns name).

Definition mu_binary_write_qualified_name (value : mu_qualified_name_t) : Wr unit :=
  mu_binary_write_uint16 (qn_namespace_index value);;
  mu_binary_write_string (qn_name value).

(** ** Identity tokens ([binary_reader.c]) *)

Definition mu_binary_read_username_identity_token : Rd mu_username_identity_token_t :=
  reader_status;;
  policy_id ← mu_binary_read_string;
  username ← mu_binary_read_string;
  password ← mu_binary_read_bytestring;
  encryption_algorithm ← mu_binary_read_string;
  mret (mk_username_identity_token policy_id username password encryption_algorithm).

Definition mu_binary_read_certificate_identity_token : Rd mu_certificate_identity_token_t :=
  reader_status;;
  policy_id ← mu_binary_read_string;
  certificate_data ← mu_binary_read_bytestring;
  mret (mk_certificate_identity_token policy_id certificate_data).

(** Operations stay folded under simplification. *)
#[global] Arguments mu_binary_read_string : simpl never.
#[global] Arguments mu_binary_write_string_ptr : simpl never.
#[global] Arguments mu_binary_write_string : simpl never.
#[global] Arguments mu_binary_read_bytestring : simpl never.
#[global] Arguments mu_binary_write_bytestring : simpl never.
#[global] Arguments mu_binary_read_nodeid : simpl never.
#[global] Arguments mu_binary_write_nodeid : simpl never.
#[global] Arguments mu_binary_read_expanded_nodeid : simpl never.
#[global] Arguments mu_binary_write_expanded_nodeid : simpl never.
#[global] Arguments mu_binary_read_qualified_name : simpl never.
#[global] Arguments mu_binary_write_qualified_name : simpl never.
#[global] Arguments mu_binary_read_username_identity_token : simpl never.
#[global] Arguments mu_binary_read_certificate_identity_token : simpl never.

(** ** Memory safety of the decoders *)

(** What a decoded string carries: the null string or exactly [length] octets
    of the message, at most [MU_MAX_ENCODED_STRING_LENGTH]. *)
Definition wire_string (s : mu_string_t) : Prop :=
  s = null_string ∨
  ∃ d, str_data s = Some d ∧ str_length s = zlen d ∧ bytes_ok d ∧
       zlen d ≤ MU_MAX_ENCODED_STRING_LENGTH.

Lemma wire_string_ok s : wire_string s → string_ok s.
Proof.
  intros [->|(d&Hd&Hl&Hb&Hm)]; [by vm_compute|].
  unfold string_ok. rewrite Hd, Hl. pose proof (zlen_nonneg d).
  unfold MU_MAX_ENCODED_STRING_LENGTH in Hm. ranges. split; [|lia]. split; [lia|done].
Qed.

Lemma rsafe_lift {A B} (o : option A) (k : A → Rd B) Q :
  (∃ a, o = Some a ∧ rsafe (k a) Q) → rsafe (lift_option o ≫= k) Q.
Proof. intros (a&->&Hk) r Hr. cbn. by apply Hk. Qed.

(** A successful fixed-width read had a buffer to read from. *)
Lemma take_ok_buffer {A B} n (f : list Z → option A) (k : A → Rd B) r a r' :
  reader_ok r → 0 ≤ n →
  (ensure_bytes n;; reader_take n f ≫= k) r = (Ok a, r') → is_Some (r_buffer r).
Proof.
  intros Hr Hn E. destruct (ensure_bytes_ok r n Hr Hn) as [(b&_&Hb&_)|(s&r1&E1&_)].
  - by rewrite Hb.
  - by rewrite (bind_err _ _ _ _ _ E1) in E.
Qed.

Lemma ensure_payload_ok r len : reader_ok r → 0 ≤ len ≤ MU_MAX_ENCODED_STRING_LENGTH →
  (r_position r + len ≤ r_length r ∧ ensure_string_payload len r = (Ok tt, r)) ∨
  (r_length r < r_position r + len ∧
   ensure_string_payload len r
   = (Err MU_STATUS_BAD_DECODINGERROR, set_r_status r MU_STATUS_BAD_DECODINGERROR)).
Proof.
  unfold MU_MAX_ENCODED_STRING_LENGTH. intros [_ Hp] Hlen. unfold ensure_string_payload.
  destruct (Z.leb_spec len 0); [left; split; [lia|done]|].
  cbn. unfold mbind, M_bind, get_state. rewrite to_unsigned_id by lia.
  destruct (Z.ltb_spec (r_length r) (r_position r)); [lia|].
  destruct (Z.ltb_spec (r_length r - r_position r) len); [right|left]; (split; [lia|done]).
Qed.

(** The part of [mu_binary_read_string] after its length checks. *)
Lemma string_payload_run r b len : reader_ok r → r_buffer r = Some b →
  0 ≤ len ≤ MU_MAX_ENCODED_STRING_LENGTH → r_position r + len ≤ r_length r →
  (r ← get_state;
   data ← lift_option (b ← r_buffer r; mem_load b (r_position r) (to_size len));
   put_state (set_r_position r (to_size (r_position r + to_size len)));;
   mret (mk_string len (Some data))) r
  = (Ok (mk_string len (Some (ztake len (zdrop (r_position r) b)))), r_adv r len).
Proof.
  unfold MU_MAX_ENCODED_STRING_LENGTH. intros [Hbo Hp] Hb Hlen Hf.
  rewrite Hb in Hbo. destruct Hbo as (?&?&?).
  unfold mbind, M_bind, get_state, lift_option, put_state. rewrite Hb. cbn.
  rewrite !(to_unsigned_id 32) by (rewrite ?(to_unsigned_id 32); zify_ints; lia).
  by rewrite mem_load_Some by lia.
Qed.

Lemma rsafe_read_string : rsafe mu_binary_read_string wire_string.
Proof.
  intros r Hr. destruct (rsafe_read_int32 r Hr) as [Hs Ho].
  unfold mu_binary_read_string.
  destruct (mu_binary_read_int32 r) as [[len|e|] r1] eqn:E; cbn in Hs, Ho; [| |done].
  2: { rewrite (bind_err _ _ _ _ _ E). by split. }
  rewrite (bind_ok _ _ _ _ _ E).
  pose proof (take_ok_buffer 4 _ _ _ _ _ Hr ltac:(lia) E) as [b Hb].
  pose proof (rstep_buffer _ _ Hs) as Hb1. rewrite Hb in Hb1.
  pose proof (rstep_ok _ _ Hs) as Hr1.
  destruct (Z.eqb_spec len (-1)) as [->|]; [cbn; split; [done|by left]|].
  destruct (Z.ltb_spec len 0); [by split|].
  destruct (Z.ltb_spec MU_MAX_ENCODED_STRING_LENGTH len); [by split|].
  destruct (ensure_payload_ok r1 len Hr1 ltac:(lia)) as [[Hf E2]|[_ E2]].
  - rewrite (bind_ok _ _ _ _ _ E2), (string_payload_run r1 b len) by (done || lia). cbn.
    destruct Hr1 as [Hbo Hp]. rewrite Hb1 in Hbo. destruct Hbo as (?&?&?).
    split.
    + eapply reader_step_trans; [exact Hs|]. split; cbn; [|done|done|lia].
      split; cbn; [rewrite Hb1; cbn; auto|lia].
    + right. eexists. split; [done|]. cbn. rewrite zlen_ztake by (rewrite zlen_zdrop; lia).
      split; [done|]. split; [auto with wire|lia].
  - rewrite (bind_err _ _ _ _ _ E2). cbn. split; [|done].
    eapply reader_step_trans; [exact Hs|]. split; [apply Hr1|done|done|done].
Qed.

#[export] Hint Resolve rsafe_read_string : rsafe.

Lemma rsafe_read_bytestring : rsafe mu_binary_read_bytestring wire_string.
Proof. apply rsafe_read_string. Qed.
#[export] Hint Resolve rsafe_read_bytestring : rsafe.

(** A decoded NodeId is numeric, or carries a decoded string. *)
Definition wire_nodeid (n : mu_nodeid_t) : Prop :=
  u16_range (nid_namespace_index n) ∧
  match nid_identifier n with
  | MU_NODEID_NUMERIC i => u32_range i
  | MU_NODEID_STRING s => wire_string s
  | _ => False
  end.

Lemma wire_nodeid_ok n : wire_nodeid n → nodeid_ok n.
Proof.
  intros [? Hi]. split; [done|]. destruct (nid_identifier n); try done.
  by apply wire_string_ok.
Qed.

Lemma rsafe_read_nodeid : rsafe mu_binary_read_nodeid wire_nodeid.
Proof.
  unfold mu_binary_read_nodeid. rsafe_auto.
  all: split; cbn in *; [|done || (ranges; lia)]; ranges; lia.
Qed.
#[export] Hint Resolve rsafe_read_nodeid : rsafe.

Definition wire_qualified_name (q : mu_qualified_name_t) : Prop :=
  u16_range (qn_namespace_index q) ∧ wire_string (qn_name q).

Lemma rsafe_read_qualified_name : rsafe mu_binary_read_qualified_name wire_qualified_name.
Proof. unfold mu_binary_read_qualified_name. rsafe_auto. by split. Qed.
#[export] Hint Resolve rsafe_read_qualified_name : rsafe.

Definition wire_expanded_nodeid (x : mu_expanded_nodeid_t) : Prop :=
  wire_nodeid (xid_node_id x) ∧ wire_string (xid_namespace_uri x) ∧
  u32_range (xid_server_index x).

Lemma rsafe_opt {A} (b : bool) (m : Rd A) d (Q : A → Prop) :
  rsafe m Q → Q d → rsafe (if b then m else mret d) Q.
Proof. destruct b; [done|]. intros _ ?. by apply rsafe_ret. Qed.

Lemma rsafe_read_expanded_nodeid : rsafe mu_binary_read_expanded_nodeid wire_expanded_nodeid.
Proof.
  intros r Hr. unfold mu_binary_read_expanded_nodeid.
  rewrite (bind_ok get_state _ r r r eq_refl).
  destruct (Z.leb_spec (r_length r) (r_position r)); [split; [by apply reader_step_refl|done]|].
  apply (rsafe_lift _ _ _); [|done].
  destruct Hr as [Hb Hp]. destruct (r_buffer r) as [b|]; cbn in Hb; [|lia].
  destruct (znth_Some b (r_position r)) as [x Hx]; [lia|]. exists x. split; [done|].
  eapply rsafe_bind; [apply rsafe_read_nodeid|intros n Hn].
  eapply rsafe_bind; [apply rsafe_opt; [apply rsafe_read_string|by left]|intros u Hu].
  eapply rsafe_bind; [apply rsafe_opt; [apply rsafe_read_uint32|ranges; lia]|intros i Hi].
  by apply rsafe_ret.
Qed.
#[export] Hint Resolve rsafe_read_expanded_nodeid : rsafe.

Lemma rsafe_read_username_identity_token :
  rsafe mu_binary_read_username_identity_token (λ t,
    wire_string (uit_policy_id t) ∧ wire_string (uit_username t) ∧
    wire_string (uit_password t) ∧ wire_string (uit_encryption_algorithm t)).
Proof. unfold mu_binary_read_username_identity_token. rsafe_auto. done. Qed.

Lemma rsafe_read_certificate_identity_token :
  rsafe mu_binary_read_certificate_identity_token (λ t,
    wire_string (cit_policy_id t) ∧ wire_string (cit_certificate_data t)).
Proof. unfold mu_binary_read_certificate_identity_token. rsafe_auto. done. Qed.
#[export] Hint Resolve rsafe_read_username_identity_token
  rsafe_read_certificate_identity_token : rsafe.
