(* ===== verification/Codecs.v ===== *)
(** * Wire formats of the primitive, string and NodeId codecs

    The reference encodings [enc_*] of OPC 10000-6 section 5.2 that the
    encoders of [Binary] and [BinaryString] produce octet for octet and the
    decoders read back, as [Codec] instances, and the frame property of every
    encoder for arbitrary (also invalid) values. *)

From S2P Require Export BinaryString.

(** ** Reference encodings *)

Definition enc_u8 (v : Z) : list Z := [v].
Definition enc_bool (b : bool) : list Z := [if b then 1 else 0].
Definition enc_i8 (v : Z) : list Z := [to_u8 v].
Definition enc_u16 (v : Z) : list Z := le_bytes 2 v.
Definition enc_u32 (v : Z) : list Z := le_bytes 4 v.
Definition enc_u64 (v : Z) : list Z := le_bytes 8 v.
Definition enc_i16 (v : Z) : list Z := le_bytes 2 (to_u16 v).
Definition enc_i32 (v : Z) : list Z := le_bytes 4 (to_u32 v).
Definition enc_i64 (v : Z) : list Z := le_bytes 8 (to_u64 v).

Definition enc_string (s : mu_string_t) : list Z :=
  enc_i32 (str_length s) ++ match str_data s with Some d => d | None => [] end.

Definition enc_nodeid (n : mu_nodeid_t) : list Z :=
  match nid_identifier n with
  | MU_NODEID_NUMERIC i =>
      if (nid_namespace_index n =? 0) && (i <=? 255) then enc_u8 0 ++ enc_u8 i
      else if (nid_namespace_index n <=? 255) && (i <=? 65535)
      then enc_u8 1 ++ enc_u8 (nid_namespace_index n) ++ enc_u16 i
      else enc_u8 2 ++ enc_u16 (nid_namespace_index n) ++ enc_u32 i
  | MU_NODEID_STRING s => enc_u8 3 ++ enc_u16 (nid_namespace_index n) ++ enc_string s
  | _ => []
  end.

Definition enc_qualified_name (q : mu_qualified_name_t) : list Z :=
  enc_u16 (qn_namespace_index q) ++ enc_string (qn_name q).

#[global] Arguments enc_u8 : simpl never.
#[global] Arguments enc_bool : simpl never.
#[global] Arguments enc_i8 : simpl never.
#[global] Arguments enc_u16 : simpl never.
#[global] Arguments enc_u32 : simpl never.
#[global] Arguments enc_u64 : simpl never.
#[global] Arguments enc_i16 : simpl never.
#[global] Arguments enc_i32 : simpl never.
#[global] Arguments enc_i64 : simpl never.
#[global] Arguments enc_string : simpl never.
#[global] Arguments enc_nodeid : simpl never.
#[global] Arguments enc_qualified_name : simpl never.

(** ** Encoders *)

Create HintDb wspec discriminated.

Lemma bytes_ok_one v : u8_range v → bytes_ok [v].
Proof. intros. constructor; [done|constructor]. Qed.

Lemma wspec_write_byte v : u8_range v → wspec (mu_binary_write_byte v) (enc_u8 v).
Proof. intros. apply wspec_put; [by apply bytes_ok_one|done]. Qed.

Lemma wspec_write_boolean b : wspec (mu_binary_write_boolean b) (enc_bool b).
Proof. apply wspec_put; [|done]. by destruct b; apply bytes_ok_one. Qed.

Lemma wspec_write_sbyte v : wspec (mu_binary_write_sbyte v) (enc_i8 v).
Proof.
  apply wspec_put; [|done].
  apply bytes_ok_one, (to_unsigned_range 8). lia.
Qed.

Lemma wspec_write_uint16 v : wspec (mu_binary_write_uint16 v) (enc_u16 v).
Proof.
  unfold mu_binary_write_uint16. rewrite le_put_u16_bytes.
  apply wspec_put; [apply le_bytes_ok|apply le_bytes_length].
Qed.

Lemma wspec_write_uint32 v : wspec (mu_binary_write_uint32 v) (enc_u32 v).
Proof.
  unfold mu_binary_write_uint32. rewrite le_put_u32_bytes.
  apply wspec_put; [apply le_bytes_ok|apply le_bytes_length].
Qed.

Lemma wspec_write_uint64 v : wspec (mu_binary_write_uint64 v) (enc_u64 v).
Proof.
  unfold mu_binary_write_uint64. rewrite le_put_u64_bytes.
  apply wspec_put; [apply le_bytes_ok|apply le_bytes_length].
Qed.

Lemma wspec_write_int16 v : wspec (mu_binary_write_int16 v) (enc_i16 v).
Proof. apply wspec_write_uint16. Qed.
Lemma wspec_write_int32 v : wspec (mu_binary_write_int32 v) (enc_i32 v).
Proof. apply wspec_write_uint32. Qed.
Lemma wspec_write_int64 v : wspec (mu_binary_write_int64 v) (enc_i64 v).
Proof. apply wspec_write_uint64. Qed.
Lemma wspec_write_float v : wspec (mu_binary_write_float v) (enc_u32 v).
Proof. apply wspec_write_uint32. Qed.
Lemma wspec_write_double v : wspec (mu_binary_write_double v) (enc_u64 v).
Proof. apply wspec_write_uint64. Qed.
Lemma wspec_write_statuscode v : wspec (mu_binary_write_statuscode v) (enc_u32 v).
Proof. apply wspec_write_uint32. Qed.

#[export] Hint Resolve wspec_write_byte wspec_write_boolean wspec_write_sbyte
  wspec_write_uint16 wspec_write_uint32 wspec_write_uint64 wspec_write_int16
  wspec_write_int32 wspec_write_int64 wspec_write_float wspec_write_double
  wspec_write_statuscode wspec_ret : wspec.

(** The raw octet store of [mu_binary_write_string]. *)
Lemma wspec_string_payload len d : 0 < len ≤ MU_MAX_ENCODED_STRING_LENGTH →
  len = zlen d → bytes_ok d →
  wspec (w ← get_state;
         if w_length w <? to_size (w_position w + to_size len)
         then fail MU_STATUS_BAD_ENCODINGERROR
         else bs ← lift_option (mem_load d 0 (to_size len)); writer_put bs) d.
Proof.
  unfold MU_MAX_ENCODED_STRING_LENGTH. intros Hlen El Hd. split; [done|].
  intros w (Hw&Hs&[b Hb]). rewrite (bind_ok get_state _ w w w eq_refl).
  destruct Hw as [Hbo Hp]. pose proof Hbo as Hbo'. rewrite Hb in Hbo. destruct Hbo as (?&?&?).
  rewrite !(to_unsigned_id 32) by (rewrite ?(to_unsigned_id 32); zify_ints; lia).
  unfold fits. rewrite <-El.
  destruct (Z.ltb_spec (w_length w) (w_position w + len)).
  - split; [lia|]. intros _. by eexists _, _.
  - split; [|lia]. intros _. rewrite mem_load_Some by lia.
    cbn. unfold mbind, M_bind. cbn.
    rewrite El. change (zdrop 0 d) with d. rewrite <-(app_nil_r d) at 2. rewrite ztake_app.
    eapply writer_put_run; [by split|done|unfold fits; lia].
Qed.

Lemma wspec_write_string s : wire_string s → wspec (mu_binary_write_string s) (enc_string s).
Proof.
  unfold mu_binary_write_string, mu_binary_write_string_ptr, enc_string.
  intros [->|(d&Hd&Hl&Hb&Hm)].
  - cbn [null_string str_length str_data]. rewrite app_nil_r. apply wspec_write_int32.
  - rewrite Hd. cbn [mbind option_bind]. pose proof (zlen_nonneg d). rewrite Hl.
    destruct (Z.eqb_spec (zlen d) (-1)); [lia|].
    destruct (Z.ltb_spec (zlen d) 0); [lia|].
    destruct (Z.ltb_spec MU_MAX_ENCODED_STRING_LENGTH (zlen d)); [lia|].
    apply wspec_bind; [apply wspec_write_int32|].
    destruct (Z.ltb_spec 0 (zlen d)); [by apply wspec_string_payload|].
    destruct d; [apply wspec_ret|]. rewrite zlen_cons in *. pose proof (zlen_nonneg d). lia.
Qed.
Lemma wspec_write_bytestring s : wire_string s → wspec (mu_binary_write_bytestring s) (enc_string s).
Proof. apply wspec_write_string. Qed.
#[export] Hint Resolve wspec_write_string wspec_write_bytestring : wspec.

Lemma wspec_write_nodeid n : wire_nodeid n → wspec (mu_binary_write_nodeid n) (enc_nodeid n).
Proof.
  intros [Hns Hi]. unfold mu_binary_write_nodeid, enc_nodeid.
  destruct (nid_identifier n) as [i|s| |]; try done.
  - apply wspec_if; intros Hg; bool_hyps; [|apply wspec_if; intros Hg'; bool_hyps].
    all: repeat apply wspec_bind; rewrite ?(to_unsigned_id 8), ?(to_unsigned_id 16)
      by (ranges; norm_pow; lia); eauto with wspec wire.
    all: try apply wspec_write_byte; ranges; lia.
  - repeat apply wspec_bind; auto with wspec.
    apply wspec_write_byte. by ranges.
Qed.
#[export] Hint Resolve wspec_write_nodeid : wspec.

Lemma wspec_write_qualified_name q : wire_qualified_name q →
  wspec (mu_binary_write_qualified_name q) (enc_qualified_name q).
Proof. intros []. apply wspec_bind; auto with wspec. Qed.
#[export] Hint Resolve wspec_write_qualified_name : wspec.

(** ** Decoders *)

Create HintDb rspec discriminated.

Lemma rspec_read_byte v : rspec mu_binary_read_byte (enc_u8 v) v.
Proof. by apply rspec_take. Qed.

(** Fixed-width read and conversion. *)
Lemma rspec_take_then {A B} n (f : list Z → option A) (g : A → B) bs a :
  zlen bs = n → (∀ rest, f (bs ++ rest) = Some a) →
  rspec (ensure_bytes n;; v ← reader_take n f; mret (g v)) bs (g a).
Proof.
  intros Hn Hf r Hr. rewrite <-bind_assoc.
  by rewrite (bind_ok _ _ _ _ _ (rspec_take n f bs a Hn Hf r Hr)).
Qed.

Lemma rspec_read_boolean b : rspec mu_binary_read_boolean (enc_bool b) b.
Proof.
  eapply rspec_eq; [|done|].
  - apply (rspec_take_then 1 head (λ v, negb (v =? 0)) (enc_bool b) (if b then 1 else 0)); done.
  - by destruct b.
Qed.

Lemma rspec_read_sbyte v : i8_range v → rspec mu_binary_read_sbyte (enc_i8 v) v.
Proof.
  intros. eapply rspec_eq; [by apply (rspec_take_then 1 head to_i8 (enc_i8 v) (to_u8 v))|done|].
  apply to_signed_unsigned; ranges; norm_pow; lia.
Qed.

Lemma get_u16_bytes v rest : u16_range v → mu_binary_le_get_u16 (le_bytes 2 v ++ rest) = Some v.
Proof.
  intros. pose proof (le_bytes_ok 2 v). cbn [le_bytes app] in *. bytes_range.
  rewrite le_get_u16_val by done. f_equal. by apply (le_val_bytes 2).
Qed.

Lemma get_u32_bytes v rest : u32_range v → mu_binary_le_get_u32 (le_bytes 4 v ++ rest) = Some v.
Proof.
  intros. pose proof (le_bytes_ok 4 v). cbn [le_bytes app] in *.
  rewrite le_get_u32_val by done. f_equal. by apply (le_val_bytes 4).
Qed.

Lemma get_u64_bytes v rest : u64_range v → mu_binary_le_get_u64 (le_bytes 8 v ++ rest) = Some v.
Proof.
  intros. pose proof (le_bytes_ok 8 v). cbn [le_bytes app] in *.
  rewrite le_get_u64_val by done. f_equal. by apply (le_val_bytes 8).
Qed.

Lemma rspec_read_uint16 v : u16_range v → rspec mu_binary_read_uint16 (enc_u16 v) v.
Proof. intros. apply rspec_take; [apply le_bytes_length|]. intros. by apply get_u16_bytes. Qed.

Lemma rspec_read_uint32 v : u32_range v → rspec mu_binary_read_uint32 (enc_u32 v) v.
Proof. intros. apply rspec_take; [apply le_bytes_length|]. intros. by apply get_u32_bytes. Qed.

Lemma rspec_read_uint64 v : u64_range v → rspec mu_binary_read_uint64 (enc_u64 v) v.
Proof. intros. apply rspec_take; [apply le_bytes_length|]. intros. by apply get_u64_bytes. Qed.

Lemma rspec_read_int16 v : i16_range v → rspec mu_binary_read_int16 (enc_i16 v) v.
Proof.
  intros. eapply rspec_eq; [apply (rspec_take_then 2 _ to_i16 (enc_i16 v) (to_u16 v))|done|].
  - apply le_bytes_length.
  - intros. apply get_u16_bytes, (to_unsigned_range 16). lia.
  - apply to_signed_unsigned; ranges; norm_pow; lia.
Qed.

Lemma rspec_read_int32 v : i32_range v → rspec mu_binary_read_int32 (enc_i32 v) v.
Proof.
  intros. eapply rspec_eq; [apply (rspec_take_then 4 _ to_i32 (enc_i32 v) (to_u32 v))|done|].
  - apply le_bytes_length.
  - intros. apply get_u32_bytes, (to_unsigned_range 32). lia.
  - apply to_signed_unsigned; ranges; norm_pow; lia.
Qed.

Lemma rspec_read_int64 v : i64_range v → rspec mu_binary_read_int64 (enc_i64 v) v.
Proof.
  intros. eapply rspec_eq; [apply (rspec_take_then 8 _ to_i64 (enc_i64 v) (to_u64 v))|done|].
  - apply le_bytes_length.
  - intros. apply get_u64_bytes, (to_unsigned_range 64). lia.
  - apply to_signed_unsigned; ranges; norm_pow; lia.
Qed.

Lemma rspec_read_float v : u32_range v → rspec mu_binary_read_float (enc_u32 v) v.
Proof. apply rspec_read_uint32. Qed.
Lemma rspec_read_double v : u64_range v → rspec mu_binary_read_double (enc_u64 v) v.
Proof. apply rspec_read_uint64. Qed.
Lemma rspec_read_statuscode v : u32_range v → rspec mu_binary_read_statuscode (enc_u32 v) v.
Proof. apply rspec_read_uint32. Qed.

#[export] Hint Resolve rspec_read_byte rspec_read_boolean rspec_read_sbyte
  rspec_read_uint16 rspec_read_uint32 rspec_read_uint64 rspec_read_int16
  rspec_read_int32 rspec_read_int64 rspec_read_float rspec_read_double
  rspec_read_statuscode rspec_ret : rspec.

Lemma rspec_read_string s : wire_string s → rspec mu_binary_read_string (enc_string s) s.
Proof.
  unfold mu_binary_read_string, enc_string. intros Hs.
  eapply rspec_bind; [apply rspec_read_int32; apply wire_string_ok in Hs; apply Hs|].
  destruct Hs as [->|(d&Hd&Hl&Hb&Hm)]; [apply rspec_ret|].
  rewrite Hd. pose proof (zlen_nonneg d). rewrite Hl.
  destruct (Z.eqb_spec (zlen d) (-1)); [lia|].
  destruct (Z.ltb_spec (zlen d) 0); [lia|].
  destruct (Z.ltb_spec MU_MAX_ENCODED_STRING_LENGTH (zlen d)); [lia|].
  intros r (Hr&Hst&Hf&b&rest&Hb'&Hdr).
  destruct (ensure_payload_ok r (zlen d) Hr ltac:(lia)) as [[_ E]|[? _]]; [|lia].
  rewrite (bind_ok _ _ _ _ _ E), (string_payload_run r b) by (done || lia).
  rewrite Hdr, ztake_app. destruct s; cbn in *; congruence.
Qed.
Lemma rspec_read_bytestring s : wire_string s → rspec mu_binary_read_bytestring (enc_string s) s.
Proof. apply rspec_read_string. Qed.
#[export] Hint Resolve rspec_read_string rspec_read_bytestring : rspec.

Lemma rspec_read_nodeid n : wire_nodeid n → rspec mu_binary_read_nodeid (enc_nodeid n) n.
Proof.
  destruct n as [ns id]. intros [Hns Hi]. cbn in Hns, Hi.
  unfold mu_binary_read_nodeid, enc_nodeid. cbn [nid_identifier nid_namespace_index].
  destruct id as [i|s| |]; try done.
  - destruct (_ && _)%bool eqn:Hg; [|destruct (_ && (i <=? 65535))%bool eqn:Hg']; bool_hyps.
    all: eapply rspec_bind; [apply rspec_read_byte|]; cbn -[le_bytes].
    + subst. eapply rspec_bind_ret; [apply rspec_read_byte|]. apply rspec_ret.
    + eapply rspec_bind; [apply rspec_read_byte|].
      eapply rspec_bind_ret; [apply rspec_read_uint16; ranges; lia|]. apply rspec_ret.
    + eapply rspec_bind; [by apply rspec_read_uint16|].
      eapply rspec_bind_ret; [by apply rspec_read_uint32|]. apply rspec_ret.
  - eapply rspec_bind; [apply rspec_read_byte|]. cbn -[le_bytes].
    eapply rspec_bind; [by apply rspec_read_uint16|].
    eapply rspec_bind_ret; [by apply rspec_read_string|]. apply rspec_ret.
Qed.
#[export] Hint Resolve rspec_read_nodeid : rspec.

Lemma rspec_read_qualified_name q : wire_qualified_name q →
  rspec mu_binary_read_qualified_name (enc_qualified_name q) q.
Proof.
  destruct q as [ns name]. intros [Hns Hn].
  eapply rspec_bind; [by apply rspec_read_uint16|].
  eapply rspec_bind_ret; [by apply rspec_read_string|]. apply rspec_ret.
Qed.
#[export] Hint Resolve rspec_read_qualified_name : rspec.

(** ** Codec instances *)

#[export] Instance codec_byte : Codec u8_range enc_u8 mu_binary_write_byte mu_binary_read_byte.
Proof. split; eauto with wspec rspec. Qed.
#[export] Instance codec_uint16 :
  Codec u16_range enc_u16 mu_binary_write_uint16 mu_binary_read_uint16.
Proof. split; eauto with wspec rspec. Qed.
#[export] Instance codec_uint32 :
  Codec u32_range enc_u32 mu_binary_write_uint32 mu_binary_read_uint32.
Proof. split; eauto with wspec rspec. Qed.
#[export] Instance codec_int32 :
  Codec i32_range enc_i32 mu_binary_write_int32 mu_binary_read_int32.
Proof. split; eauto with wspec rspec. Qed.
#[export] Instance codec_int64 :
  Codec i64_range enc_i64 mu_binary_write_int64 mu_binary_read_int64.
Proof. split; eauto with wspec rspec. Qed.
#[export] Instance codec_string :
  Codec wire_string enc_string mu_binary_write_string mu_binary_read_string.
Proof. split; auto with wspec rspec. Qed.
#[export] Instance codec_nodeid :
  Codec wire_nodeid enc_nodeid mu_binary_write_nodeid mu_binary_read_nodeid.
Proof. split; auto with wspec rspec. Qed.
#[export] Instance codec_qualified_name :
  Codec wire_qualified_name enc_qualified_name
    mu_binary_write_qualified_name mu_binary_read_qualified_name.
Proof. split; auto with wspec rspec. Qed.

(** ** Frame of the encoders on arbitrary values *)

Create HintDb wsafe discriminated.

(** An encoder that is exact for its value is also safe on a writer that is
    not ready (sticky error, no buffer): the first guard refuses. *)
Lemma wsafe_write_byte v : u8_range v → wsafe (mu_binary_write_byte v).
Proof. intros. apply wsafe_put; [by apply bytes_ok_one|done]. Qed.

Lemma wsafe_write_boolean b : wsafe (mu_binary_write_boolean b).
Proof. apply wsafe_put; [|done]. by destruct b; apply bytes_ok_one. Qed.

Lemma wsafe_write_sbyte v : wsafe (mu_binary_write_sbyte v).
Proof. apply wsafe_put; [|done]. apply bytes_ok_one, (to_unsigned_range 8). lia. Qed.

Lemma wsafe_write_uint16 v : wsafe (mu_binary_write_uint16 v).
Proof.
  unfold mu_binary_write_uint16. rewrite le_put_u16_bytes.
  apply wsafe_put; [apply le_bytes_ok|apply le_bytes_length].
Qed.

Lemma wsafe_write_uint32 v : wsafe (mu_binary_write_uint32 v).
Proof.
  unfold mu_binary_write_uint32. rewrite le_put_u32_bytes.
  apply wsafe_put; [apply le_bytes_ok|apply le_bytes_length].
Qed.

Lemma wsafe_write_uint64 v : wsafe (mu_binary_write_uint64 v).
Proof.
  unfold mu_binary_write_uint64. rewrite le_put_u64_bytes.
  apply wsafe_put; [apply le_bytes_ok|apply le_bytes_length].
Qed.

Lemma wsafe_write_int16 v : wsafe (mu_binary_write_int16 v).
Proof. apply wsafe_write_uint16. Qed.
Lemma wsafe_write_int32 v : wsafe (mu_binary_write_int32 v).
Proof. apply wsafe_write_uint32. Qed.
Lemma wsafe_write_int64 v : wsafe (mu_binary_write_int64 v).
Proof. apply wsafe_write_uint64. Qed.
Lemma wsafe_write_float v : wsafe (mu_binary_write_float v).
Proof. apply wsafe_write_uint32. Qed.
Lemma wsafe_write_double v : wsafe (mu_binary_write_double v).
Proof. apply wsafe_write_uint64. Qed.
Lemma wsafe_write_statuscode v : wsafe (mu_binary_write_statuscode v).
Proof. apply wsafe_write_uint32. Qed.

#[export] Hint Resolve wsafe_ret wsafe_write_byte wsafe_write_boolean wsafe_write_sbyte
  wsafe_write_uint16 wsafe_write_uint32 wsafe_write_uint64 wsafe_write_int16
  wsafe_write_int32 wsafe_write_int64 wsafe_write_float wsafe_write_double
  wsafe_write_statuscode : wsafe.

(** The length field was written, so the writer has a buffer. *)
Lemma write_int32_ok_buffer v w w' : writer_ok w →
  mu_binary_write_int32 v w = (Ok tt, w') → is_Some (w_buffer w').
Proof.
  intros Hw E. destruct (wsafe_write_int32 v w Hw) as [Hs _]. rewrite E in Hs.
  apply wstep_frame in Hs. unfold mu_binary_write_int32, mu_binary_write_uint32 in E.
  destruct (ensure_space_ok w 4 Hw) as [(b&_&Hb&_)|(_&s&w1&E1&_)]; [done| |].
  - rewrite Hb in Hs. cbn in Hs. destruct (w_buffer w'); [eauto|done].
  - by rewrite (bind_err _ _ _ _ _ E1) in E.
Qed.

Lemma wsafe_write_string s : string_ok s → wsafe (mu_binary_write_string s).
Proof.
  intros Hs w Hw. unfold mu_binary_write_string, mu_binary_write_string_ptr.
  destruct (Z.eqb_spec (str_length s) (-1)); [by apply wsafe_write_int32|].
  destruct (Z.ltb_spec (str_length s) 0); [by apply wsafe_fail|].
  destruct (Z.ltb_spec MU_MAX_ENCODED_STRING_LENGTH (str_length s)) as [|Hm]; [by apply wsafe_fail|].
  destruct (wsafe_write_int32 (str_length s) w Hw) as [Hst Ho].
  destruct (mu_binary_write_int32 (str_length s) w) as [[[]|e|] w1] eqn:E; cbn in Hst, Ho; [| |done].
  2: { rewrite (bind_err _ _ _ _ _ E). by split. }
  rewrite (bind_ok _ _ _ _ _ E).
  destruct (Z.ltb_spec 0 (str_length s)) as [Hpos|]; [|by split].
  destruct (write_int32_ok_buffer _ _ _ Hw E) as [b Hb].
  pose proof (wstep_ok _ _ Hst) as Hw1. destruct Hs as [Hd _].
  destruct (str_data s) as [d|]; [|lia]. destruct Hd as [Hld Hbd].
  rewrite (bind_ok get_state _ w1 w1 w1 eq_refl). unfold MU_MAX_ENCODED_STRING_LENGTH in Hm.
  pose proof Hw1 as [Hbo Hp]. rewrite Hb in Hbo. destruct Hbo as (?&?&?).
  rewrite !(to_unsigned_id 32) by (rewrite ?(to_unsigned_id 32); zify_ints; lia).
  destruct (Z.ltb_spec (w_length w1) (w_position w1 + str_length s)); [by split|].
  cbn [mbind option_bind]. rewrite mem_load_Some by lia.
  assert (fits w1 (ztake (str_length s) (zdrop 0 d))) as Hf.
  { unfold fits. rewrite zlen_ztake by (rewrite zlen_zdrop; lia). lia. }
  erewrite (bind_ok (lift_option _)) by reflexivity. rewrite (writer_put_run w1 b) by done. cbn.
  split; [|done]. eapply writer_step_trans; [done|exact Hst|].
  eapply w_append_step; eauto with wire.
Qed.
#[export] Hint Resolve wsafe_write_string : wsafe.

Lemma wsafe_write_bytestring s : string_ok s → wsafe (mu_binary_write_bytestring s).
Proof. apply wsafe_write_string. Qed.
#[export] Hint Resolve wsafe_write_bytestring : wsafe.

Lemma u8_const n : (0 <=? n) && (n <? 256) = true → u8_range n.
Proof. intros. bool_hyps. by ranges. Qed.

Ltac wsafe_step :=
  lazymatch goal with
  | |- wsafe (mret _) => apply wsafe_ret
  | |- wsafe (fail _) => by apply wsafe_fail
  | |- wsafe (writer_fail _) => by apply wsafe_writer_fail
  | |- wsafe (_ ≫= _) => apply wsafe_bind; [|intros ?]
  | |- wsafe (if _ then _ else _) => apply wsafe_if; intros ?
  | |- wsafe (mu_binary_write_byte (to_unsigned 8 _)) =>
      apply wsafe_write_byte, (to_unsigned_range 8); lia
  | |- wsafe (mu_binary_write_byte _) =>
      first [assumption | apply wsafe_write_byte; first [assumption | by apply u8_const]]
  | |- wsafe _ => solve [eauto with wsafe]
  end.
Ltac wsafe_auto := repeat (wsafe_step; cbv zeta).

Lemma wsafe_write_nodeid n : nodeid_ok n → wsafe (mu_binary_write_nodeid n).
Proof.
  intros [Hns Hi]. unfold mu_binary_write_nodeid.
  destruct (nid_identifier n); wsafe_auto.
Qed.
#[export] Hint Resolve wsafe_write_nodeid : wsafe.

Lemma wsafe_write_expanded_nodeid x :
  nodeid_ok (xid_node_id x) → wsafe (mu_binary_write_expanded_nodeid x).
Proof. apply wsafe_write_nodeid. Qed.

Lemma wsafe_write_qualified_name q :
  qualified_name_ok q → wsafe (mu_binary_write_qualified_name q).
Proof. intros []. unfold mu_binary_write_qualified_name. wsafe_auto. Qed.
#[export] Hint Resolve wsafe_write_expanded_nodeid wsafe_write_qualified_name : wsafe.

(** ** Properties *)

(** for every NodeId the wire can carry, the encoder produces exactly the
    most compact of the TwoByte, FourByte, Numeric and String forms when it
    fits the buffer and reports an error otherwise, and the decoder reads it
    back unchanged. *)
Theorem nodeid_codec n w : writer_ready w → wire_nodeid n →
  (fits w (enc_nodeid n) ∧
   mu_binary_write_nodeid n w = (Ok tt, w_append w (enc_nodeid n)) ∧
   mu_binary_read_nodeid (reader_over (w_append w (enc_nodeid n)) (w_position w))
     = (Ok n, reader_over (w_append w (enc_nodeid n)) (w_position w + zlen (enc_nodeid n)))) ∨
  (¬ fits w (enc_nodeid n) ∧
   ∃ s w', mu_binary_write_nodeid n w = (Err s, w') ∧ s ≠ MU_STATUS_GOOD).
Proof.
  intros Hw Hn. destruct (codec_fits n w Hw Hn) as [[Hf E]|[Hf E]]; [left|by right].
  split; [done|]. split; [done|].
  rewrite (codec_roundtrip n w _ Hw Hn E).
  destruct Hw as (_&_&[b Hb]). by rewrite (w_append_buffer _ _ _ Hb).
Qed.

Lemma nodeid_codec_witness :
  let n := mk_nodeid 2 (MU_NODEID_STRING (mk_string 3 (Some [97; 98; 99]))) in
  let w := mu_binary_writer_init (Some (repeat 0 16)) 16 in
  (fits w (enc_nodeid n) ∧
   mu_binary_write_nodeid n w = (Ok tt, w_append w (enc_nodeid n)) ∧
   mu_binary_read_nodeid (reader_over (w_append w (enc_nodeid n)) (w_position w))
     = (Ok n, reader_over (w_append w (enc_nodeid n)) (w_position w + zlen (enc_nodeid n)))) ∨
  (¬ fits w (enc_nodeid n) ∧
   ∃ s w', mu_binary_write_nodeid n w = (Err s, w') ∧ s ≠ MU_STATUS_GOOD).
Proof.
  apply nodeid_codec.
  - split_and!; [|done|by eexists]. split; cbn; [|lia]. split; [by vm_compute|].
    split; [by vm_compute|]. repeat (constructor; [by ranges|]). constructor.
  - split; [by ranges|]. right. exists [97; 98; 99]. split; [done|]. split; [done|].
    split; [repeat (constructor; [by ranges|]); constructor|by vm_compute].
Defined.
