(* ===== verification/Variant.v ===== *)
(** * Variants, DataValues and ExtensionObjects on the wire

    [src/encoding/binary_variant.c], [binary_datavalue.c] and
    [binary_extension_object.c]. *)

From S2P Require Export Codecs.

(** ** [binary_variant.c] *)

(** The [MU_TYPE_LOCALIZEDTEXT] arm of [mu_binary_read_variant]. *)
Definition read_localized_text_value : Rd mu_localized_text_t :=
  lt_mask ← mu_binary_read_byte;
  locale ← (if negb (Z.land lt_mask 0x01 =? 0) then mu_binary_read_string else mret null_string);
  text ← (if negb (Z.land lt_mask 0x02 =? 0) then mu_binary_read_string else mret null_string);
  mret (mk_localized_text locale text).

(** The [switch] of [mu_binary_read_variant]: [None] leaves the union alone. *)
Definition read_variant_value (type : Z) : Rd (option mu_variant_value_t) :=
  if type =? MU_TYPE_NULL then mret None
  else if type =? MU_TYPE_BOOLEAN then v ← mu_binary_read_boolean; mret (Some (VV_b v))
  else if type =? MU_TYPE_SBYTE then v ← mu_binary_read_sbyte; mret (Some (VV_sb v))
  else if type =? MU_TYPE_BYTE then v ← mu_binary_read_byte; mret (Some (VV_by v))
  else if type =? MU_TYPE_INT16 then v ← mu_binary_read_int16; mret (Some (VV_i16 v))
  else if type =? MU_TYPE_UINT16 then v ← mu_binary_read_uint16; mret (Some (VV_ui16 v))
  else if type =? MU_TYPE_INT32 then v ← mu_binary_read_int32; mret (Some (VV_i32 v))
  else if type =? MU_TYPE_UINT32 then v ← mu_binary_read_uint32; mret (Some (VV_ui32 v))
  else if type =? MU_TYPE_INT64 then v ← mu_binary_read_int64; mret (Some (VV_i64 v))
  else if type =? MU_TYPE_UINT64 then v ← mu_binary_read_uint64; mret (Some (VV_ui64 v))
  else if type =? MU_TYPE_FLOAT then v ← mu_binary_read_float; mret (Some (VV_f v))
  else if type =? MU_TYPE_DOUBLE then v ← mu_binary_read_double; mret (Some (VV_d v))
  else if type =? MU_TYPE_STRING then v ← mu_binary_read_string; mret (Some (VV_str v))
  else if type =? MU_TYPE_BYTESTRING then v ← mu_binary_read_bytestring; mret (Some (VV_bytestr v))
  else if type =? MU_TYPE_DATETIME then v ← mu_binary_read_int64; mret (Some (VV_dt v))
  else if type =? MU_TYPE_STATUSCODE then v ← mu_binary_read_statuscode; mret (Some (VV_status v))
  else if type =? MU_TYPE_NODEID then v ← mu_binary_read_nodeid; mret (Some (VV_nodeid v))
  else if type =? MU_TYPE_QUALIFIEDNAME then
    ns ← mu_binary_read_uint16;
    name ← mu_binary_read_string;
    mret (Some (VV_qualified_name (mk_qualified_name ns name)))
  else if type =? MU_TYPE_LOCALIZEDTEXT then
    v ← read_localized_text_value; mret (Some (VV_localized_text v))
  else fail MU_STATUS_BAD_DECODINGERROR.

(** [variant] is the caller's structure: the fields the decoder does not
    assign ([is_array], [array_length]) keep their old values. *)
Definition mu_binary_read_variant (variant : mu_variant_t) : Rd mu_variant_t :=
  encoding_mask ← mu_binary_read_byte;
  let type := Z.land encoding_mask 0x3F in
  if negb (Z.land encoding_mask 0x80 =? 0) || negb (Z.land encoding_mask 0x40 =? 0)
  then fail MU_STATUS_BAD_DECODINGERROR
  else
    v ← read_variant_value type;
    mret (mk_variant type (default (v_value variant) v)
            (v_is_array variant) (v_array_length variant)).

(** Reading a union member other than the stored one is a [fault]. *)
Definition write_scalar_value (type : Z) (p : mu_variant_value_t) : Wr unit :=
  if type =? MU_TYPE_BOOLEAN then
    match p with VV_b v => mu_binary_write_boolean v | _ => fault end
  else if type =? MU_TYPE_SBYTE then
    match p with VV_sb v => mu_binary_write_sbyte v | _ => fault end
  else if type =? MU_TYPE_BYTE then
    match p with VV_by v => mu_binary_write_byte v | _ => fault end
  else if type =? MU_TYPE_INT16 then
    match p with VV_i16 v => mu_binary_write_int16 v | _ => fault end
  else if type =? MU_TYPE_UINT16 then
    match p with VV_ui16 v => mu_binary_write_uint16 v | _ => fault end
  else if type =? MU_TYPE_INT32 then
    match p with VV_i32 v => mu_binary_write_int32 v | _ => fault end
  else if type =? MU_TYPE_UINT32 then
    match p with VV_ui32 v => mu_binary_write_uint32 v | _ => fault end
  else if type =? MU_TYPE_INT64 then
    match p with VV_i64 v => mu_binary_write_int64 v | _ => fault end
  else if type =? MU_TYPE_UINT64 then
    match p with VV_ui64 v => mu_binary_write_uint64 v | _ => fault end
  else if type =? MU_TYPE_FLOAT then
    match p with VV_f v => mu_binary_write_float v | _ => fault end
  else if type =? MU_TYPE_DOUBLE then
    match p with VV_d v => mu_binary_write_double v | _ => fault end
  else if type =? MU_TYPE_STRING then
    match p with VV_str v => mu_binary_write_string v | _ => fault end
  else if type =? MU_TYPE_BYTESTRING then
    match p with VV_bytestr v => mu_binary_write_bytestring v | _ => fault end
  else if type =? MU_TYPE_DATETIME then
    match p with VV_dt v => mu_binary_write_int64 v | _ => fault end
  else if type =? MU_TYPE_STATUSCODE then
    match p with VV_status v => mu_binary_write_statuscode v | _ => fault end
  else if type =? MU_TYPE_NODEID then
    match p with VV_nodeid v => mu_binary_write_nodeid v | _ => fault end
  else if type =? MU_TYPE_QUALIFIEDNAME then
    match p with
    | VV_qualified_name q =>
        mu_binary_write_uint16 (qn_namespace_index q);;
        mu_binary_write_string (qn_name q)
    | _ => fault
    end
  else if type =? MU_TYPE_LOCALIZEDTEXT then
    match p with
    | VV_localized_text lt =>
        let lt_mask := Z.lor (if 0 <=? str_length (lt_locale lt) then 0x01 else 0)
                             (if 0 <=? str_length (lt_text lt) then 0x02 else 0) in
        mu_binary_write_byte lt_mask;;
        (if negb (Z.land lt_mask 0x01 =? 0)
         then mu_binary_write_string (lt_locale lt) else mret tt);;
        (if negb (Z.land lt_mask 0x02 =? 0)
         then mu_binary_write_string (lt_text lt) else mret tt)
    | _ => fault
    end
  else fail MU_STATUS_BAD_ENCODINGERROR.

(** Sizes of the 32-bit ABI; the table entries the initialiser skips are 0. *)
Definition element_size (type : Z) : Z :=
  let sizes := [0; 1; 1; 1; 2; 2; 4; 4; 8; 8; 4; 8; 8; 8; 0; 8; 0; 16; 0; 4; 12; 16] in
  let type_id := type in
  if (type_id <? 0) || (zlen sizes <=? type_id) then 0
  else default 0 (znth sizes type_id).

(** The element loop; element [i] lies at [base + i * stride]. *)
Fixpoint write_array_elements (type : Z) (base : list mu_variant_value_t) (count : nat) : Wr unit :=
  match count with
  | O => mret tt
  | S count =>
      match base with
      | [] => fault
      | e :: base => write_scalar_value type e;; write_array_elements type base count
      end
  end.

Definition mu_binary_write_variant (variant : mu_variant_t) : Wr unit :=
  let encoding_mask := to_u8 (v_type variant) in
  let encoding_mask := if v_is_array variant then to_u8 (Z.lor encoding_mask 0x80)
                       else encoding_mask in
  mu_binary_write_byte encoding_mask;;
  if v_type variant =? MU_TYPE_NULL then mret tt
  else if v_is_array variant then
    mu_binary_write_int32 (v_array_length variant);;
    match v_value variant with
    | VV_array array =>
        if (v_array_length variant <? 0) || is_null array then mret tt
        else if element_size (v_type variant) =? 0 then fail MU_STATUS_BAD_ENCODINGERROR
        else
          base ← lift_option array;
          write_array_elements (v_type variant) base (Z.to_nat (v_array_length variant))
    | _ => if v_array_length variant <? 0 then mret tt else fault
    end
  else write_scalar_value (v_type variant) (v_value variant).

(** ** [binary_datavalue.c] *)

Definition mu_binary_read_datavalue (value : mu_datavalue_t) : Rd mu_datavalue_t :=
  encoding_mask ← mu_binary_read_byte;
  let has_value := negb (Z.land encoding_mask 0x01 =? 0) in
  let has_status := negb (Z.land encoding_mask 0x02 =? 0) in
  let has_source_timestamp := negb (Z.land encoding_mask 0x04 =? 0) in
  let has_server_timestamp := negb (Z.land encoding_mask 0x08 =? 0) in
  v ← (if has_value then mu_binary_read_variant (dv_value value) else mret (dv_value value));
  status ← (if has_status then mu_binary_read_statuscode else mret (dv_status value));
  source ← (if has_source_timestamp then mu_binary_read_int64
            else mret (dv_source_timestamp value));
  (if negb (Z.land encoding_mask 0x10 =? 0) then mu_binary_read_uint16 else mret 0);;
  server ← (if has_server_timestamp then mu_binary_read_int64
            else mret (dv_server_timestamp value));
  (if negb (Z.land encoding_mask 0x20 =? 0) then mu_binary_read_uint16 else mret 0);;
  mret (mk_datavalue v status source server
          has_value has_status has_source_timestamp has_server_timestamp).

Definition mu_binary_write_datavalue (value : mu_datavalue_t) : Wr unit :=
  let encoding_mask :=
    Z.lor (Z.lor (Z.lor (if dv_has_value value then 0x01 else 0)
                        (if dv_has_status value then 0x02 else 0))
                 (if dv_has_source_timestamp value then 0x04 else 0))
          (if dv_has_server_timestamp value then 0x08 else 0) in
  mu_binary_write_byte encoding_mask;;
  (if dv_has_value value then mu_binary_write_variant (dv_value value) else mret tt);;
  (if dv_has_status value then mu_binary_write_statuscode (dv_status value) else mret tt);;
  (if dv_has_source_timestamp value
   then mu_binary_write_int64 (dv_source_timestamp value) else mret tt);;
  (if dv_has_server_timestamp value
   then mu_binary_write_int64 (dv_server_timestamp value) else mret tt).

(** ** [binary_extension_object.c] *)

Definition mu_binary_read_extension_object_header : Rd (mu_nodeid_t * Z) :=
  type_id ← mu_binary_read_nodeid;
  encoding_mask ← mu_binary_read_byte;
  if encoding_mask =? 0x00 then mret (type_id, 0)
  else if (encoding_mask =? 0x01) || (encoding_mask =? 0x02) then
    len ← mu_binary_read_int32;
    if len <? 0 then fail MU_STATUS_BAD_DECODINGERROR
    else mret (type_id, to_size len)
  else fail MU_STATUS_BAD_DECODINGERROR.

Definition mu_binary_write_extension_object_header (type_id : mu_nodeid_t) (length : Z) : Wr unit :=
  mu_binary_write_nodeid type_id;;
  if length =? 0 then mu_binary_write_byte 0x00
  else
    mu_binary_write_byte 0x01;;
    mu_binary_write_int32 (to_i32 length).

(** [decoder] runs on a reader of its own over the declared body. *)
Definition mu_binary_read_extension_object_body {A} (length : Z) (decoder : Rd A) : Rd A := λ reader,
  if negb (r_status reader =? MU_STATUS_GOOD) then (Err (r_status reader), reader)
  else
    match r_buffer reader with
    | None => (Err MU_STATUS_BAD_INTERNALERROR, reader)
    | Some buffer =>
        if (r_length reader <? r_position reader)
           || (r_length reader - r_position reader <? length)
        then reader_fail MU_STATUS_BAD_DECODINGERROR reader
        else
          let body_reader :=
            mu_binary_reader_init (Some (zdrop (r_position reader) buffer)) length in
          match decoder body_reader with
          | (Fault, _) => (Fault, reader)
          | (Err status, _) => reader_fail status reader
          | (Ok a, body_reader) =>
              if negb (r_status body_reader =? MU_STATUS_GOOD)
              then reader_fail (r_status body_reader) reader
              else if negb (r_position body_reader =? length)
              then reader_fail MU_STATUS_BAD_DECODINGERROR reader
              else (Ok a, set_r_position reader (to_size (r_position reader + length)))
          end
    end.

Definition mu_binary_skip_extension_object : Rd unit :=
  header ← mu_binary_read_extension_object_header;
  let length := header.2 in
  r ← get_state;
  if (r_length r <? r_position r) || (r_length r - r_position r <? length)
  then reader_fail MU_STATUS_BAD_DECODINGERROR
  else put_state (set_r_position r (to_size (r_position r + length))).

(** Operations stay folded under simplification. *)
#[global] Arguments mu_binary_read_variant : simpl never.
#[global] Arguments mu_binary_write_variant : simpl never.
#[global] Arguments mu_binary_read_datavalue : simpl never.
#[global] Arguments mu_binary_write_datavalue : simpl never.
#[global] Arguments mu_binary_read_extension_object_header : simpl never.
#[global] Arguments mu_binary_write_extension_object_header : simpl never.
#[global] Arguments mu_binary_read_extension_object_body : simpl never.
#[global] Arguments mu_binary_skip_extension_object : simpl never.

(** ** Values and their tags *)

(** The tag under which a union member is stored, when the encoder has it. *)
Definition value_type (v : mu_variant_value_t) : option Z :=
  match v with
  | VV_b _ => Some MU_TYPE_BOOLEAN
  | VV_sb _ => Some MU_TYPE_SBYTE
  | VV_by _ => Some MU_TYPE_BYTE
  | VV_i16 _ => Some MU_TYPE_INT16
  | VV_ui16 _ => Some MU_TYPE_UINT16
  | VV_i32 _ => Some MU_TYPE_INT32
  | VV_ui32 _ => Some MU_TYPE_UINT32
  | VV_i64 _ => Some MU_TYPE_INT64
  | VV_ui64 _ => Some MU_TYPE_UINT64
  | VV_f _ => Some MU_TYPE_FLOAT
  | VV_d _ => Some MU_TYPE_DOUBLE
  | VV_str _ => Some MU_TYPE_STRING
  | VV_bytestr _ => Some MU_TYPE_BYTESTRING
  | VV_dt _ => Some MU_TYPE_DATETIME
  | VV_status _ => Some MU_TYPE_STATUSCODE
  | VV_nodeid _ => Some MU_TYPE_NODEID
  | VV_qualified_name _ => Some MU_TYPE_QUALIFIEDNAME
  | VV_localized_text _ => Some MU_TYPE_LOCALIZEDTEXT
  | VV_none | VV_array _ => None
  end.

(** Members in the range of their C type, strings as the wire carries them. *)
Definition wire_value (v : mu_variant_value_t) : Prop :=
  match v with
  | VV_b _ => True
  | VV_sb x => i8_range x
  | VV_by x => u8_range x
  | VV_i16 x => i16_range x
  | VV_ui16 x => u16_range x
  | VV_i32 x => i32_range x
  | VV_ui32 x | VV_f x | VV_status x => u32_range x
  | VV_i64 x | VV_dt x => i64_range x
  | VV_ui64 x | VV_d x => u64_range x
  | VV_str s | VV_bytestr s => wire_string s
  | VV_nodeid n => wire_nodeid n
  | VV_qualified_name q => wire_qualified_name q
  | VV_localized_text t => wire_string (lt_locale t) ∧ wire_string (lt_text t)
  | VV_none | VV_array _ => False
  end.

(** The same with pointers that are merely valid to read. *)
Definition value_ok (v : mu_variant_value_t) : Prop :=
  match v with
  | VV_str s | VV_bytestr s => string_ok s
  | VV_nodeid n => nodeid_ok n
  | VV_qualified_name q => qualified_name_ok q
  | VV_localized_text t => localized_text_ok t
  | VV_by x => u8_range x
  | _ => True
  end.

Definition wire_variant (old v : mu_variant_t) : Prop :=
  v_is_array v = v_is_array old ∧ v_array_length v = v_array_length old ∧
  ((v_type v = MU_TYPE_NULL ∧ v_value v = v_value old) ∨
   (value_type (v_value v) = Some (v_type v) ∧ wire_value (v_value v))).

(** ** Decoder safety *)

Lemma rsafe_read_localized_text_value :
  rsafe read_localized_text_value (λ t, wire_string (lt_locale t) ∧ wire_string (lt_text t)).
Proof.
  unfold read_localized_text_value. eapply rsafe_bind; [apply rsafe_read_byte|intros m Hm].
  eapply rsafe_bind; [apply rsafe_opt; [apply rsafe_read_string|by left]|intros ??].
  eapply rsafe_bind; [apply rsafe_opt; [apply rsafe_read_string|by left]|intros ??].
  by apply rsafe_ret.
Qed.
#[export] Hint Resolve rsafe_read_localized_text_value : rsafe.

Lemma rsafe_read_variant_value type :
  rsafe (read_variant_value type) (λ v,
    match v with
    | None => type = MU_TYPE_NULL
    | Some v => value_type v = Some type ∧ wire_value v
    end).
Proof.
  unfold read_variant_value. rsafe_auto; bool_hyps; subst; try done.
Qed.
#[export] Hint Resolve rsafe_read_variant_value : rsafe.

Lemma rsafe_read_variant old : rsafe (mu_binary_read_variant old) (wire_variant old).
Proof.
  unfold mu_binary_read_variant. rsafe_auto. split; [done|]. split; [done|]. cbn.
  match goal with v : option mu_variant_value_t |- _ => destruct v end; cbn; [by right|by left].
Qed.
#[export] Hint Resolve rsafe_read_variant : rsafe.

Lemma rsafe_read_datavalue old : rsafe (mu_binary_read_datavalue old) (λ v,
  (dv_has_value v = true → wire_variant (dv_value old) (dv_value v)) ∧
  (dv_has_value v = false → dv_value v = dv_value old)).
Proof.
  unfold mu_binary_read_datavalue. eapply rsafe_bind; [apply rsafe_read_byte|intros m Hm].
  cbv zeta.
  eapply (rsafe_bind _ _ (λ v,
    (negb (Z.land m 1 =? 0) = true → wire_variant (dv_value old) v) ∧
    (negb (Z.land m 1 =? 0) = false → v = dv_value old))).
  { apply rsafe_if; intros E; rewrite E; [|by apply rsafe_ret].
    eapply rsafe_mono; [apply rsafe_read_variant|]. by intros a Ha. }
  intros v Hv.
  do 5 (eapply (rsafe_bind _ _ (λ _, True)); [apply rsafe_opt; [|done]|intros ? _];
        [eapply rsafe_mono; [eauto with rsafe|done]|]).
  by apply rsafe_ret.
Qed.
#[export] Hint Resolve rsafe_read_datavalue : rsafe.

Lemma rsafe_read_extension_object_header :
  rsafe mu_binary_read_extension_object_header
    (λ h, wire_nodeid h.1 ∧ 0 ≤ h.2 < 2147483648).
Proof.
  unfold mu_binary_read_extension_object_header. rsafe_auto; cbn; bool_hyps.
  - split; [done|lia].
  - split; [done|]. ranges. rewrite to_unsigned_id; lia.
Qed.
#[export] Hint Resolve rsafe_read_extension_object_header : rsafe.

Lemma rsafe_skip_extension_object : rsafe mu_binary_skip_extension_object (λ _, True).
Proof.
  unfold mu_binary_skip_extension_object.
  eapply rsafe_bind; [apply rsafe_read_extension_object_header|intros [t len] [_ Hlen]].
  cbn in Hlen |- *. intros r Hr. rewrite (bind_ok get_state _ r r r eq_refl).
  destruct (_ || _)%bool eqn:E; [by apply rsafe_reader_fail|]. bool_hyps. cbn.
  split; [|done]. destruct Hr as [Hb Hp].
  assert (r_length r ≤ PTRDIFF_MAX) by (destruct (r_buffer r); cbn in Hb; ranges; lia).
  rewrite to_unsigned_id by (zify_ints; lia).
  split; cbn; [|done|done|lia]. split; cbn; [done|lia].
Qed.
#[export] Hint Resolve rsafe_skip_extension_object : rsafe.

(** A body decoder is confined to the declared octets. *)
Lemma rsafe_extension_object_body {A} length (decoder : Rd A) Q :
  0 ≤ length → rsafe decoder Q →
  rsafe (mu_binary_read_extension_object_body length decoder) Q.
Proof.
  intros Hlen Hd r Hr. unfold mu_binary_read_extension_object_body.
  destruct (Z.eqb_spec (r_status r) MU_STATUS_GOOD); cbn.
  2: { split; [by apply reader_step_refl|done]. }
  destruct (r_buffer r) as [b|] eqn:Hb; [|split; [by apply reader_step_refl|done]].
  destruct (_ || _)%bool eqn:E; [by apply rsafe_reader_fail|]. bool_hyps.
  pose proof Hr as [Hbo Hp]. rewrite Hb in Hbo. destruct Hbo as (?&?&?).
  destruct (Hd (mu_binary_reader_init (Some (zdrop (r_position r) b)) length)) as [_ Ho].
  { split; cbn; [|lia]. rewrite zlen_zdrop by lia. split; [lia|]. split; [lia|auto with wire]. }
  destruct (decoder _) as [[a|err|] br]; cbn in Ho; [|by apply rsafe_reader_fail|done].
  destruct (Z.eqb_spec (r_status br) MU_STATUS_GOOD); cbn [negb]; [|by apply rsafe_reader_fail].
  destruct (Z.eqb_spec (r_position br) length); cbn [negb]; [|by apply rsafe_reader_fail].
  split; [|done]. rewrite to_unsigned_id by (zify_ints; lia).
  split; cbn; [|done|done|lia]. split; cbn; [rewrite Hb; cbn; auto|lia].
Qed.

(** ** Encoder safety *)

Lemma lt_mask_byte (b1 b2 : bool) : u8_range (Z.lor (if b1 then 1 else 0) (if b2 then 2 else 0)).
Proof. by destruct b1, b2. Qed.

Lemma wsafe_write_scalar_value v type :
  value_type v = Some type → value_ok v → wsafe (write_scalar_value type v).
Proof.
  intros Ht Hv. destruct v; cbn in Ht; simplify_eq; cbn in Hv |- *.
  all: try solve [auto with wsafe].
  - destruct Hv. unfold write_scalar_value. cbn. wsafe_auto.
  - destruct Hv. unfold write_scalar_value. cbn.
    apply wsafe_bind; [apply wsafe_write_byte, lt_mask_byte|intros _]. wsafe_auto.
Qed.

Lemma wsafe_write_array_elements type base count :
  Forall (λ v, value_type v = Some type ∧ value_ok v) base → (count ≤ length base)%nat →
  wsafe (write_array_elements type base count).
Proof.
  intros Hb. revert count. induction Hb as [|v base [Hv Hok] _ IH]; intros [|count] Hc; cbn in *.
  - apply wsafe_ret.
  - lia.
  - apply wsafe_ret.
  - apply wsafe_bind; [by apply wsafe_write_scalar_value|intros _]. apply IH. lia.
Qed.

(** A variant whose tag says which member is stored; an array pointer with at
    least [array_length] elements behind it. *)
Definition variant_ok (v : mu_variant_t) : Prop :=
  v_type v = MU_TYPE_NULL ∨
  if v_is_array v then
    ∃ array, v_value v = VV_array array ∧
      match array with
      | None => True
      | Some base => v_array_length v ≤ zlen base ∧
          Forall (λ e, value_type e = Some (v_type v) ∧ value_ok e) base
      end
  else value_type (v_value v) = Some (v_type v) ∧ value_ok (v_value v).

Lemma variant_mask_byte v :
  u8_range (if v_is_array v then to_u8 (Z.lor (to_u8 (v_type v)) 128) else to_u8 (v_type v)).
Proof. destruct (v_is_array v); apply (to_unsigned_range 8); lia. Qed.

Lemma wsafe_write_variant v : variant_ok v → wsafe (mu_binary_write_variant v).
Proof.
  intros Hv. unfold mu_binary_write_variant. cbv zeta.
  apply wsafe_bind; [apply wsafe_write_byte, variant_mask_byte|intros _].
  destruct (Z.eqb_spec (v_type v) MU_TYPE_NULL); [apply wsafe_ret|].
  destruct Hv as [?|Hv]; [done|]. destruct (v_is_array v).
  - apply wsafe_bind; [auto with wsafe|intros _].
    destruct Hv as (array&->&Ha). destruct array as [base|]; cbn [is_null].
    + rewrite orb_false_r. destruct (Z.ltb_spec (v_array_length v) 0); [apply wsafe_ret|].
      apply wsafe_if; intros ?; [by apply wsafe_fail|]. destruct Ha as [Hl Hf].
      intros w Hw. cbn. apply wsafe_write_array_elements; [done| |done].
      unfold zlen in Hl. lia.
    + rewrite orb_true_r. apply wsafe_ret.
  - destruct Hv. by apply wsafe_write_scalar_value.
Qed.
#[export] Hint Resolve wsafe_write_variant : wsafe.

Lemma wsafe_write_datavalue d :
  (dv_has_value d = true → variant_ok (dv_value d)) → wsafe (mu_binary_write_datavalue d).
Proof.
  intros Hv. unfold mu_binary_write_datavalue. cbv zeta.
  apply wsafe_bind.
  { apply wsafe_write_byte. by destruct d as [????[] [] [] []]. }
  intros _. apply wsafe_bind; [apply wsafe_if; auto with wsafe|intros _].
  wsafe_auto.
Qed.
#[export] Hint Resolve wsafe_write_datavalue : wsafe.

Lemma wsafe_write_extension_object_header n len :
  nodeid_ok n → wsafe (mu_binary_write_extension_object_header n len).
Proof. intros. unfold mu_binary_write_extension_object_header. wsafe_auto. Qed.
#[export] Hint Resolve wsafe_write_extension_object_header : wsafe.

(** ** Wire formats *)

Definition enc_localized_text (t : mu_localized_text_t) : list Z :=
  let has s := 0 <=? str_length s in
  enc_u8 (Z.lor (if has (lt_locale t) then 1 else 0) (if has (lt_text t) then 2 else 0)) ++
  (if has (lt_locale t) then enc_string (lt_locale t) else []) ++
  (if has (lt_text t) then enc_string (lt_text t) else []).

Definition enc_value (v : mu_variant_value_t) : list Z :=
  match v with
  | VV_b b => enc_bool b
  | VV_sb x => enc_i8 x
  | VV_by x => enc_u8 x
  | VV_i16 x => enc_i16 x
  | VV_ui16 x => enc_u16 x
  | VV_i32 x => enc_i32 x
  | VV_ui32 x | VV_f x | VV_status x => enc_u32 x
  | VV_i64 x | VV_dt x => enc_i64 x
  | VV_ui64 x | VV_d x => enc_u64 x
  | VV_str s | VV_bytestr s => enc_string s
  | VV_nodeid n => enc_nodeid n
  | VV_qualified_name q => enc_qualified_name q
  | VV_localized_text t => enc_localized_text t
  | VV_none | VV_array _ => []
  end.

Definition enc_variant (v : mu_variant_t) : list Z :=
  enc_u8 (v_type v) ++ (if v_type v =? MU_TYPE_NULL then [] else enc_value (v_value v)).

(** Scalar variants as the server builds them. *)
Definition scalar_variant (v : mu_variant_t) : Prop :=
  v_is_array v = false ∧ v_array_length v = 0 ∧
  ((v_type v = MU_TYPE_NULL ∧ v_value v = VV_none) ∨
   (value_type (v_value v) = Some (v_type v) ∧ wire_value (v_value v))).

Definition opt_enc {A} (has : bool) (enc : A → list Z) (a : A) : list Z :=
  if has then enc a else [].

Definition datavalue_mask (d : mu_datavalue_t) : Z :=
  Z.lor (Z.lor (Z.lor (if dv_has_value d then 1 else 0) (if dv_has_status d then 2 else 0))
               (if dv_has_source_timestamp d then 4 else 0))
        (if dv_has_server_timestamp d then 8 else 0).

Definition enc_datavalue (d : mu_datavalue_t) : list Z :=
  enc_u8 (datavalue_mask d) ++
  opt_enc (dv_has_value d) enc_variant (dv_value d) ++
  opt_enc (dv_has_status d) enc_u32 (dv_status d) ++
  opt_enc (dv_has_source_timestamp d) enc_i64 (dv_source_timestamp d) ++
  opt_enc (dv_has_server_timestamp d) enc_i64 (dv_server_timestamp d).

(** Fields that are absent hold their initial value. *)
Definition wire_datavalue (d : mu_datavalue_t) : Prop :=
  (if dv_has_value d then scalar_variant (dv_value d) else dv_value d = zero_variant) ∧
  (if dv_has_status d then u32_range (dv_status d) else dv_status d = 0) ∧
  (if dv_has_source_timestamp d then i64_range (dv_source_timestamp d)
   else dv_source_timestamp d = 0) ∧
  (if dv_has_server_timestamp d then i64_range (dv_server_timestamp d)
   else dv_server_timestamp d = 0).

Definition enc_extension_object_header (h : mu_nodeid_t * Z) : list Z :=
  enc_nodeid h.1 ++ (if h.2 =? 0 then enc_u8 0 else enc_u8 1 ++ enc_i32 h.2).

Definition wire_extension_object_header (h : mu_nodeid_t * Z) : Prop :=
  wire_nodeid h.1 ∧ 0 ≤ h.2 < 2147483648.

Lemma wire_string_absent s : wire_string s → (0 <=? str_length s) = false → s = null_string.
Proof.
  intros [?|(d&Hd&Hl&_)]; [done|]. intros. bool_hyps. pose proof (zlen_nonneg d). lia.
Qed.

Lemma wspec_opt (b : bool) m bs :
  (b = true → wspec m bs) → wspec (if b then m else mret tt) (if b then bs else []).
Proof. destruct b; [auto|]. intros _. apply wspec_ret. Qed.

Lemma rspec_opt {A} (b : bool) (m : Rd A) bs a d :
  (b = true → rspec m bs a) → (b = false → a = d) →
  rspec (if b then m else mret d) (if b then bs else []) a.
Proof. destruct b; [auto|]. intros _ ->; [apply rspec_ret|done]. Qed.

Lemma lt_mask_bits (b1 b2 : bool) :
  negb (Z.land (Z.lor (if b1 then 1 else 0) (if b2 then 2 else 0)) 1 =? 0) = b1 ∧
  negb (Z.land (Z.lor (if b1 then 1 else 0) (if b2 then 2 else 0)) 2 =? 0) = b2.
Proof. by destruct b1, b2. Qed.

Lemma wspec_write_localized_text t : wire_string (lt_locale t) → wire_string (lt_text t) →
  wspec (write_scalar_value MU_TYPE_LOCALIZEDTEXT (VV_localized_text t)) (enc_localized_text t).
Proof.
  intros H1 H2. unfold write_scalar_value, enc_localized_text. cbn -[enc_string].
  apply wspec_bind; [apply wspec_write_byte, lt_mask_byte|].
  destruct (lt_mask_bits (0 <=? str_length (lt_locale t)) (0 <=? str_length (lt_text t))) as [-> ->].
  apply wspec_bind; apply wspec_opt; auto with wspec.
Qed.

Lemma wspec_write_scalar_value v type : value_type v = Some type → wire_value v →
  wspec (write_scalar_value type v) (enc_value v).
Proof.
  intros Ht Hv. destruct v; cbn in Ht; simplify_eq; cbn in Hv |- *.
  all: try solve [auto with wspec].
  - destruct Hv. apply wspec_bind; auto with wspec.
  - destruct Hv. by apply wspec_write_localized_text.
Qed.

Lemma scalar_variant_type v : scalar_variant v → 0 ≤ v_type v < 64.
Proof.
  intros (_&_&[[-> _]|[Ht _]]); [done|].
  destruct (v_value v); cbn in Ht; simplify_eq; rewrite <-Ht; by vm_compute.
Qed.

Lemma wspec_write_variant v : scalar_variant v → wspec (mu_binary_write_variant v) (enc_variant v).
Proof.
  intros Hv. pose proof (scalar_variant_type v Hv). destruct Hv as (Ha&_&Hc).
  unfold mu_binary_write_variant, enc_variant. rewrite Ha. cbv zeta.
  rewrite to_unsigned_id by lia.
  apply wspec_bind; [apply wspec_write_byte; ranges; lia|].
  destruct (Z.eqb_spec (v_type v) MU_TYPE_NULL); [apply wspec_ret|].
  destruct Hc as [[? _]|[??]]; [done|]. by apply wspec_write_scalar_value.
Qed.
#[export] Hint Resolve wspec_write_variant : wspec.

Lemma rspec_localized_text t : wire_string (lt_locale t) → wire_string (lt_text t) →
  rspec read_localized_text_value (enc_localized_text t) t.
Proof.
  intros H1 H2. unfold read_localized_text_value, enc_localized_text.
  eapply rspec_bind; [apply rspec_read_byte|]. cbn -[enc_string].
  destruct (lt_mask_bits (0 <=? str_length (lt_locale t)) (0 <=? str_length (lt_text t))) as [-> ->].
  eapply rspec_bind; [apply rspec_opt; [by auto with rspec|by apply wire_string_absent]|].
  eapply rspec_bind_ret; [apply rspec_opt; [by auto with rspec|by apply wire_string_absent]|].
  destruct t. apply rspec_ret.
Qed.
#[export] Hint Resolve rspec_localized_text : rspec.

Lemma rspec_read_variant_value v type : value_type v = Some type → wire_value v →
  rspec (read_variant_value type) (enc_value v) (Some v).
Proof.
  intros Ht Hv. destruct v; cbn in Ht; simplify_eq; cbn in Hv |- *; try done.
  all: try solve [eapply rspec_bind_ret; [by eauto with rspec|apply rspec_ret]].
  - destruct Hv, qualified_name. eapply rspec_bind; [by auto with rspec|].
    eapply rspec_bind_ret; [by auto with rspec|apply rspec_ret].
  - destruct Hv. eapply rspec_bind_ret; [by auto with rspec|apply rspec_ret].
Qed.

Lemma six_bit_mask t : 0 ≤ t < 64 →
  Z.land t 0x3F = t ∧ Z.land t 0x80 = 0 ∧ Z.land t 0x40 = 0.
Proof.
  intros Ht. change 0x3F with (Z.ones 6). rewrite Z.land_ones by lia.
  split; [apply Z.mod_small; lia|].
  split; apply Z.bits_inj_0; intros i; rewrite Z.land_spec.
  - change 0x80 with (2 ^ 7). destruct (Z.eqb_spec i 7) as [->|].
    + rewrite (Z.bits_above_log2 t); [done|lia|]. destruct (decide (t = 0)) as [->|]; [done|].
      apply Z.log2_lt_pow2; lia.
    + rewrite Z.pow2_bits_false by lia. apply andb_false_r.
  - change 0x40 with (2 ^ 6). destruct (Z.eqb_spec i 6) as [->|].
    + rewrite (Z.bits_above_log2 t); [done|lia|]. destruct (decide (t = 0)) as [->|]; [done|].
      apply Z.log2_lt_pow2; lia.
    + rewrite Z.pow2_bits_false by lia. apply andb_false_r.
Qed.

(** The fields the decoder does not assign come from the caller's variant. *)
Lemma rspec_read_variant_into old v : scalar_variant v → v_value old = VV_none →
  rspec (mu_binary_read_variant old) (enc_variant v) (mk_variant (v_type v) (v_value v) (v_is_array old) (v_array_length old)).
Proof.
  intros Hv Hold. pose proof (scalar_variant_type v Hv) as Hr.
  destruct (six_bit_mask _ Hr) as (H1&H2&H3). destruct Hv as (Ha&Hl&Hc).
  unfold mu_binary_read_variant, enc_variant.
  eapply rspec_bind; [apply rspec_read_byte|]. cbv zeta. rewrite H1, H2, H3. cbn [negb orb Z.eqb].
  destruct v as [type value arr len]; cbn in Ha, Hl, Hc |- *; subst.
  destruct Hc as [[-> ->]|[Ht Hw]].
  - eapply rspec_bind_ret; [apply rspec_ret|]; cbn; rewrite Hold; apply rspec_ret.
  - destruct (Z.eqb_spec type MU_TYPE_NULL) as [->|].
    { destruct value; done. }
    eapply rspec_bind_ret; [by apply rspec_read_variant_value|]. apply rspec_ret.
Qed.

Lemma rspec_read_variant v : scalar_variant v →
  rspec (mu_binary_read_variant zero_variant) (enc_variant v) v.
Proof.
  intros Hv; eapply rspec_eq; [by apply (rspec_read_variant_into zero_variant)|done|].
  destruct Hv as (Ha & Hl & _), v; cbn in *; by subst.
Qed.
#[export] Hint Resolve rspec_read_variant : rspec.

#[export] Instance codec_variant : Codec scalar_variant enc_variant
  mu_binary_write_variant (mu_binary_read_variant zero_variant).
Proof. split; auto with wspec rspec. Qed.

Lemma datavalue_mask_bits d :
  let m := datavalue_mask d in
  u8_range m ∧
  negb (Z.land m 0x01 =? 0) = dv_has_value d ∧ negb (Z.land m 0x02 =? 0) = dv_has_status d ∧
  negb (Z.land m 0x04 =? 0) = dv_has_source_timestamp d ∧
  negb (Z.land m 0x08 =? 0) = dv_has_server_timestamp d ∧
  Z.land m 0x10 = 0 ∧ Z.land m 0x20 = 0.
Proof. by destruct d as [????[] [] [] []]. Qed.

#[export] Instance codec_datavalue : Codec wire_datavalue enc_datavalue
  mu_binary_write_datavalue (mu_binary_read_datavalue zero_datavalue).
Proof.
  split; intros d (H1&H2&H3&H4); destruct (datavalue_mask_bits d) as (M0&M1&M2&M3&M4&M5&M6).
  - unfold mu_binary_write_datavalue, enc_datavalue, opt_enc. cbv zeta.
    fold (datavalue_mask d).
    repeat apply wspec_bind; try apply wspec_opt; auto with wspec.
    intros E. rewrite E in H1. auto with wspec.
  - unfold mu_binary_read_datavalue, enc_datavalue, opt_enc.
    eapply rspec_bind; [apply rspec_read_byte|]. cbv zeta.
    rewrite M1, M2, M3, M4, M5, M6. cbn [negb Z.eqb].
    eapply rspec_bind.
    { apply rspec_opt; intros E; rewrite E in H1; [by auto with rspec|done]. }
    eapply rspec_bind.
    { apply rspec_opt; intros E; rewrite E in H2; [by auto with rspec|done]. }
    eapply rspec_bind.
    { apply rspec_opt; intros E; rewrite E in H3; [by auto with rspec|done]. }
    eapply (rspec_bind _ _ []); [apply rspec_ret|].
    eapply rspec_bind_ret.
    { apply rspec_opt; intros E; rewrite E in H4; [by auto with rspec|done]. }
    destruct d. eapply rspec_bind_ret; apply rspec_ret.
Qed.

#[export] Instance codec_extension_object_header : Codec wire_extension_object_header
  enc_extension_object_header
  (λ h, mu_binary_write_extension_object_header h.1 h.2)
  mu_binary_read_extension_object_header.
Proof.
  split; intros [n len] [Hn Hl]; cbn in Hn, Hl;
    unfold enc_extension_object_header; cbn -[enc_i32].
  - apply wspec_bind; [auto with wspec|].
    apply wspec_if; intros; bool_hyps; [by apply wspec_write_byte|].
    apply wspec_bind; [by apply wspec_write_byte|].
    rewrite <-(to_unsigned_id 32 len) at 1 by lia.
    rewrite to_signed_unsigned by (norm_pow; lia). auto with wspec.
  - eapply rspec_bind; [by auto with rspec|].
    destruct (Z.eqb_spec len 0) as [->|].
    + eapply rspec_bind_ret; [apply rspec_read_byte|]. apply rspec_ret.
    + eapply rspec_bind; [apply rspec_read_byte|]. cbn -[enc_i32].
      eapply rspec_bind_ret; [apply rspec_read_int32; ranges; lia|].
      destruct (Z.ltb_spec len 0); [lia|]. rewrite to_unsigned_id by lia. apply rspec_ret.
Qed.

(** ** Properties *)

(** C2: from any well-formed reader over arbitrary octets, every decoder of
    the encoding layer returns without touching memory outside the buffer,
    leaves the buffer unchanged, keeps the position between its old value and
    the end, and delivers only values in range (strings lie inside the
    message and are at most 4096 octets). *)
Theorem decoders_memory_safe :
  rsafe mu_binary_read_array_length array_length_range ∧
  rsafe mu_binary_read_string wire_string ∧
  rsafe mu_binary_read_nodeid wire_nodeid ∧
  rsafe mu_binary_read_expanded_nodeid wire_expanded_nodeid ∧
  rsafe mu_binary_read_qualified_name wire_qualified_name ∧
  (∀ old, rsafe (mu_binary_read_variant old) (wire_variant old)) ∧
  (∀ old, rsafe (mu_binary_read_datavalue old) (λ v,
     (dv_has_value v = true → wire_variant (dv_value old) (dv_value v)) ∧
     (dv_has_value v = false → dv_value v = dv_value old))) ∧
  rsafe mu_binary_read_extension_object_header (λ h, wire_nodeid h.1 ∧ 0 ≤ h.2 < 2147483648) ∧
  rsafe mu_binary_skip_extension_object (λ _, True) ∧
  rsafe mu_binary_read_username_identity_token (λ t,
    wire_string (uit_policy_id t) ∧ wire_string (uit_username t) ∧
    wire_string (uit_password t) ∧ wire_string (uit_encryption_algorithm t)) ∧
  rsafe mu_binary_read_certificate_identity_token (λ t,
    wire_string (cit_policy_id t) ∧ wire_string (cit_certificate_data t)).
Proof. split_and!; eauto with rsafe. Qed.

(** encoding a DataValue whose pointers are valid never writes outside
    the octets between the writer's old and new position, whatever the state
    of the writer (too small, already failed, without a buffer) and whatever
    the value (arrays included). *)
Theorem datavalue_write_confined d w :
  writer_ok w → (dv_has_value d = true → variant_ok (dv_value d)) →
  writer_step w (mu_binary_write_datavalue d w).2 ∧
  outcome_ok (λ _, True) (mu_binary_write_datavalue d w).1.
Proof. intros. by apply wsafe_write_datavalue. Qed.

Definition example_array : mu_datavalue_t :=
  mk_datavalue (mk_variant MU_TYPE_INT16 (VV_array (Some [VV_i16 5; VV_i16 (-1)])) true 2)
    0 0 0 true false false false.

Lemma datavalue_write_confined_witness :
  let w := mu_binary_writer_init (Some (repeat 7 8)) 8 in
  writer_step w (mu_binary_write_datavalue example_array w).2 ∧
  outcome_ok (λ _, True) (mu_binary_write_datavalue example_array w).1.
Proof.
  apply datavalue_write_confined.
  - split; cbn; [|lia]. split; [by vm_compute|]. split; [by vm_compute|].
    repeat (constructor; [by ranges|]). constructor.
  - intros _. right. exists (Some [VV_i16 5; VV_i16 (-1)]). split; [done|].
    split; [by vm_compute|]. repeat (constructor; [done|]). constructor.
Defined.

(** C10: a DataValue with a scalar (or null) value that was encoded
    successfully is decoded from the same octets to the same DataValue, and
    the decoder stops exactly where the encoder did. *)
Theorem datavalue_roundtrip d w w' :
  writer_ready w → wire_datavalue d → mu_binary_write_datavalue d w = (Ok tt, w') →
  mu_binary_read_datavalue zero_datavalue (reader_over w' (w_position w))
  = (Ok d, reader_over w' (w_position w')).
Proof. apply codec_roundtrip. Qed.

Definition example_datavalue : mu_datavalue_t :=
  mk_datavalue (mk_variant MU_TYPE_STRING (VV_str (mk_string 2 (Some [104; 105]))) false 0)
    MU_STATUS_BAD_TIMEOUT (-5) 0 true true true false.

Lemma datavalue_roundtrip_witness :
  let w := mu_binary_writer_init (Some (repeat 0 32)) 32 in
  ∃ w', mu_binary_write_datavalue example_datavalue w = (Ok tt, w') ∧
    mu_binary_read_datavalue zero_datavalue (reader_over w' (w_position w))
    = (Ok example_datavalue, reader_over w' (w_position w')).
Proof.
  eexists. split; [vm_compute; reflexivity|].
  apply (datavalue_roundtrip example_datavalue (mu_binary_writer_init (Some (repeat 0 32)) 32)).
  - split_and!; [|done|by eexists]. split; cbn; [|lia]. split; [by vm_compute|].
    split; [by vm_compute|]. repeat (constructor; [by ranges|]). constructor.
  - split; [|by vm_compute]. split; [done|]. split; [done|]. right. split; [done|].
    right. exists [104; 105]. split; [done|]. split; [done|].
    split; [repeat (constructor; [by ranges|]); constructor|by vm_compute].
  - vm_compute. reflexivity.
Defined.

(** [mu_binary_read_extension_object_body] runs the body decoder on
    exactly the declared octets: a successful call advances by the declared
    length, whatever the decoder does, and the decoder's value is one it
    produced on a reader confined to those octets. *)
Theorem extension_object_body_exact {A} length (decoder : Rd A) r a r' :
  reader_ok r → 0 ≤ length →
  mu_binary_read_extension_object_body length decoder r = (Ok a, r') →
  r' = r_adv r length ∧ r_position r' ≤ r_length r ∧
  ∃ b br, r_buffer r = Some b ∧
    decoder (mu_binary_reader_init (Some (zdrop (r_position r) b)) length) = (Ok a, br) ∧
    r_position br = length.
Proof.
  intros [Hbo Hp] Hlen. unfold mu_binary_read_extension_object_body.
  destruct (_ =? _); [|done]. cbn [negb].
  destruct (r_buffer r) as [b|] eqn:Hb; [|done]. destruct Hbo as (?&?&_).
  destruct (_ || _)%bool eqn:E; [done|]. bool_hyps.
  destruct (decoder _) as [[a'|e|] br] eqn:Ed; [|done..].
  destruct (r_status br =? _); [|done]. cbn [negb].
  destruct (Z.eqb_spec (r_position br) length); [|done]. cbn [negb].
  intros [= <- <-]. rewrite to_unsigned_id by (zify_ints; lia).
  split; [done|]. split; [cbn; lia|]. by exists b, br.
Qed.

Lemma extension_object_body_exact_witness :
  let r := mu_binary_reader_init (Some [1; 2; 3; 4; 5]) 5 in
  ∃ r', mu_binary_read_extension_object_body 4 mu_binary_read_uint32 r = (Ok 67305985, r') ∧
    r_position r' ≤ r_length r.
Proof.
  eexists. split; [vm_compute; reflexivity|].
  refine (proj1 (proj2 (extension_object_body_exact 4 mu_binary_read_uint32
    (mu_binary_reader_init (Some [1; 2; 3; 4; 5]) 5) 67305985 _ _ _ eq_refl))).
  - split; cbn; [|lia]. split; [by vm_compute|]. split; [by vm_compute|].
    repeat (constructor; [by ranges|]). constructor.
  - lia.
Defined.
