(* ===== verification/Framing.v ===== *)
(** * Transport framing

    [src/core/message_chunk.c] (UASC message and sequence headers),
    [tcp_connection.c] (HEL/ACK/ERR), [sequence.c], [uasc.c],
    [service_message.c] and [src/services/service_header.c]. *)

From S2P Require Export Variant.

(** ** Raw octet access ([buffer[i]]) *)

Definition load_byte (b : list Z) (i : Z) : result Z := or_fault (znth b i).

(** Four shifted octets, as the header parsers spell them out. *)
Definition load_u32 (b : list Z) (i : Z) : result Z :=
  b0 ← load_byte b i;
  b1 ← load_byte b (i + 1);
  b2 ← load_byte b (i + 2);
  b3 ← load_byte b (i + 3);
  mret (Z.lor (Z.lor (Z.lor b0 (Z.shiftl b1 8)) (Z.shiftl b2 16)) (Z.shiftl b3 24)).

(** Stores into the octet buffer that is the state. *)
Definition store_bytes (off : Z) (bs : list Z) : M (list Z) unit := λ b,
  match mem_store b off bs with
  | Some b' => (Ok tt, b')
  | None => (Fault, b)
  end.

(** [tcp_write_uint32_le] and its twin in [uasc.c]. *)
Definition tcp_write_uint32_le (offset value : Z) : M (list Z) unit :=
  store_bytes offset (mu_binary_le_put_u32 value).

Definition mu_uasc_write_uint32_le (offset value : Z) : M (list Z) unit :=
  store_bytes offset (mu_binary_le_put_u32 value).

(** ** Message and sequence headers ([message_chunk.c]) *)

Record mu_message_header_t := mk_message_header {
  mh_message_type : Z * Z * Z;
  mh_chunk_type : Z;
  mh_message_size : Z;
  mh_secure_channel_id : Z
}.

Record mu_sequence_header_t := mk_sequence_header {
  sh_sequence_number : Z;
  sh_request_id : Z
}.

Definition MU_UASC_SYMMETRIC_HEADER_SIZE : Z := 24.
Definition MU_UASC_ASYMMETRIC_NONE_HEADER_SIZE : Z := 79.

Definition is_type (t : Z * Z * Z) (c0 c1 c2 : Ascii.ascii) : bool :=
  (t.1.1 =? chr c0) && (t.1.2 =? chr c1) && (t.2 =? chr c2).

#[global] Arguments is_type _ (_ _ _)%_char_scope.

Definition mu_parse_message_header (buffer : list Z) (length : Z) : result mu_message_header_t :=
  if length <? 8 then Err MU_STATUS_BAD_TCPINTERNALERROR
  else
    t0 ← load_byte buffer 0;
    t1 ← load_byte buffer 1;
    t2 ← load_byte buffer 2;
    chunk_type ← load_byte buffer 3;
    let message_type := (t0, t1, t2) in
    if negb (is_type message_type "H" "E" "L") && negb (is_type message_type "A" "C" "K")
       && negb (is_type message_type "E" "R" "R") && negb (is_type message_type "O" "P" "N")
       && negb (is_type message_type "C" "L" "O") && negb (is_type message_type "M" "S" "G")
    then Err MU_STATUS_BAD_TCPMESSAGETYPEINVALID
    else if negb (chunk_type =? chr "C") && negb (chunk_type =? chr "F") && negb (chunk_type =? chr "A")
    then Err MU_STATUS_BAD_TCPMESSAGETYPEINVALID
    else
      message_size ← load_u32 buffer 4;
      if message_size <? 8 then Err MU_STATUS_BAD_TCPINTERNALERROR
      else if length <? message_size then Err MU_STATUS_BAD_TCPMESSAGETOOLARGE
      else if chunk_type =? chr "C" then Err MU_STATUS_BAD_TCPINTERNALERROR
      else if (t0 =? chr "H") || (t0 =? chr "A") || (t0 =? chr "E")
      then mret (mk_message_header message_type chunk_type message_size 0)
      else if length <? 12 then Err MU_STATUS_BAD_TCPINTERNALERROR
      else if message_size <? 12 then Err MU_STATUS_BAD_TCPINTERNALERROR
      else
        secure_channel_id ← load_u32 buffer 8;
        if chunk_type =? chr "A" then
          if t0 =? chr "O" then Err MU_STATUS_BAD_TCPINTERNALERROR
          else if message_size <? MU_UASC_SYMMETRIC_HEADER_SIZE + 4
          then Err MU_STATUS_BAD_TCPINTERNALERROR
          else
            let reader := set_r_position (mu_binary_reader_init (Some buffer) length)
                            MU_UASC_SYMMETRIC_HEADER_SIZE in
            abort_status ← (mu_binary_read_statuscode reader).1;
            Err (if abort_status =? MU_STATUS_GOOD then MU_STATUS_BAD_TCPINTERNALERROR
                 else abort_status)
        else mret (mk_message_header message_type chunk_type message_size secure_channel_id).

Definition mu_write_message_header (length : Z) (header : mu_message_header_t) : M (list Z) unit :=
  if length <? 12 then fail MU_STATUS_BAD_INTERNALERROR
  else
    let '(t0, t1, t2) := mh_message_type header in
    store_bytes 0 [t0];;
    store_bytes 1 [t1];;
    store_bytes 2 [t2];;
    store_bytes 3 [mh_chunk_type header];;
    store_bytes 4 (mu_binary_le_put_u32 (mh_message_size header));;
    store_bytes 8 (mu_binary_le_put_u32 (mh_secure_channel_id header)).

Definition mu_parse_sequence_header (buffer : list Z) (length offset : Z)
    : result (mu_sequence_header_t * Z) :=
  let position := offset in
  if length <? position then Err MU_STATUS_BAD_DECODINGERROR
  else if length - position <? 4 then Err MU_STATUS_BAD_DECODINGERROR
  else
    sequence_number ← load_u32 buffer position;
    let position := position + 4 in
    if length - position <? 4 then Err MU_STATUS_BAD_DECODINGERROR
    else
      request_id ← load_u32 buffer position;
      mret (mk_sequence_header sequence_number request_id, position + 4).

(** Delivers the new offset; a failure may leave the sequence number behind. *)
Definition mu_write_sequence_header (length offset : Z) (header : mu_sequence_header_t)
    : M (list Z) Z :=
  let position := offset in
  if length <? position then fail MU_STATUS_BAD_ENCODINGERROR
  else if length - position <? 4 then fail MU_STATUS_BAD_ENCODINGERROR
  else
    store_bytes position (mu_binary_le_put_u32 (sh_sequence_number header));;
    let position := position + 4 in
    if length - position <? 4 then fail MU_STATUS_BAD_ENCODINGERROR
    else
      store_bytes position (mu_binary_le_put_u32 (sh_request_id header));;
      mret (position + 4).

(** ** Sequence numbers ([sequence.c]) *)

Record mu_sequence_validator_t := mk_sequence_validator {
  sv_last_sequence_number : Z;
  sv_is_initialized : bool
}.

Definition mu_sequence_validator_init : mu_sequence_validator_t :=
  mk_sequence_validator 0 false.

Definition mu_sequence_validate (sequence_number : Z) : M mu_sequence_validator_t unit :=
  validator ← get_state;
  if negb (sv_is_initialized validator)
  then put_state (mk_sequence_validator sequence_number true)
  else
    let expected := to_u32 (sv_last_sequence_number validator + 1) in
    if sequence_number =? expected
    then put_state (mk_sequence_validator sequence_number (sv_is_initialized validator))
    else if (4294966271 <? sv_last_sequence_number validator) && (sequence_number <? 1024)
    then put_state (mk_sequence_validator sequence_number (sv_is_initialized validator))
    else fail MU_STATUS_BAD_SECURITYCHECKSFAILED.

(** ** Response chunks ([uasc.c]) *)

Definition mu_uasc_finalize_symmetric (buffer_size secure_channel_id token_id
    sequence_number request_id body_length : Z) : M (list Z) Z :=
  let total := to_size (MU_UASC_SYMMETRIC_HEADER_SIZE + body_length) in
  if buffer_size <? total then fail MU_STATUS_BAD_RESPONSETOOLARGE
  else
    store_bytes 0 [chr "M"];;
    store_bytes 1 [chr "S"];;
    store_bytes 2 [chr "G"];;
    store_bytes 3 [chr "F"];;
    mu_uasc_write_uint32_le 4 (to_u32 total);;
    mu_uasc_write_uint32_le 8 secure_channel_id;;
    mu_uasc_write_uint32_le 12 token_id;;
    mu_uasc_write_uint32_le 16 sequence_number;;
    mu_uasc_write_uint32_le 20 request_id;;
    mret total.

Definition POLICY_NONE_URI : list Z :=
  bytes_of_string "http://opcfoundation.org/UA/SecurityPolicy#None".

Definition mu_uasc_finalize_asymmetric_none (buffer_size secure_channel_id
    sequence_number request_id body_length : Z) : M (list Z) Z :=
  let total := to_size (MU_UASC_ASYMMETRIC_NONE_HEADER_SIZE + body_length) in
  if buffer_size <? total then fail MU_STATUS_BAD_RESPONSETOOLARGE
  else
    store_bytes 0 [chr "O"];;
    store_bytes 1 [chr "P"];;
    store_bytes 2 [chr "N"];;
    store_bytes 3 [chr "F"];;
    mu_uasc_write_uint32_le 4 (to_u32 total);;
    mu_uasc_write_uint32_le 8 secure_channel_id;;
    mu_uasc_write_uint32_le 12 (zlen POLICY_NONE_URI);;
    store_bytes 16 POLICY_NONE_URI;;
    mu_uasc_write_uint32_le 63 0xFFFFFFFF;;
    mu_uasc_write_uint32_le 67 0xFFFFFFFF;;
    mu_uasc_write_uint32_le 71 sequence_number;;
    mu_uasc_write_uint32_le 75 request_id;;
    mret total.

(** ** HEL, ACK and ERR ([tcp_connection.c]) *)

Inductive mu_tcp_state_t :=
| MU_TCP_STATE_CLOSED
| MU_TCP_STATE_CONNECTED
| MU_TCP_STATE_ESTABLISHED.

Record mu_tcp_connection_t := mk_tcp_connection {
  tcp_state : mu_tcp_state_t;
  tcp_receive_buffer_size : Z;
  tcp_send_buffer_size : Z;
  tcp_max_message_size : Z;
  tcp_max_chunk_count : Z;
  tcp_protocol_version : Z
}.

Definition mu_tcp_connection_init : mu_tcp_connection_t :=
  mk_tcp_connection MU_TCP_STATE_CLOSED 0 0 0 0 0.

(** The transport limits of [mu_server_config_t]. *)
Record mu_transport_config_t := mk_transport_config {
  cfg_receive_buffer_size : Z;
  cfg_send_buffer_size : Z;
  cfg_max_chunk_count : Z;
  cfg_max_message_size : Z
}.

Record hello_body := mk_hello {
  hel_protocol_version : Z;
  hel_receive_buffer_size : Z;
  hel_send_buffer_size : Z;
  hel_max_message_size : Z;
  hel_max_chunk_count : Z
}.

(** The decoding half of [mu_tcp_process_hello], from the message size on. *)
Definition read_hello (length : Z) : Rd hello_body :=
  message_size ← mu_binary_read_int32;
  if to_i32 length <? message_size then fail MU_STATUS_BAD_TCPMESSAGETOOLARGE
  else
    protocol_version ← mu_binary_read_uint32;
    receive_buffer_size ← mu_binary_read_uint32;
    send_buffer_size ← mu_binary_read_uint32;
    max_message_size ← mu_binary_read_uint32;
    max_chunk_count ← mu_binary_read_uint32;
    endpoint_url ← mu_binary_read_string;
    if 4096 <=? str_length endpoint_url then fail MU_STATUS_BAD_TCPENDPOINTURLINVALID
    else if (receive_buffer_size <? MU_MIN_CHUNK_SIZE) || (send_buffer_size <? MU_MIN_CHUNK_SIZE)
    then fail MU_STATUS_BAD_TCPNOTENOUGHRESOURCES
    else mret (mk_hello protocol_version receive_buffer_size send_buffer_size
                 max_message_size max_chunk_count).

(** The values the connection record takes after a valid HEL. *)
Definition negotiate (connection : mu_tcp_connection_t) (config : mu_transport_config_t)
    (h : hello_body) : mu_tcp_connection_t :=
  let cfg_receive := to_u32 (cfg_receive_buffer_size config) in
  let cfg_send := to_u32 (cfg_send_buffer_size config) in
  let ack_receive_buffer_size :=
    if hel_send_buffer_size h <? cfg_receive then hel_send_buffer_size h else cfg_receive in
  let ack_send_buffer_size :=
    if hel_receive_buffer_size h <? cfg_send then hel_receive_buffer_size h else cfg_send in
  let max_message_size :=
    if hel_max_message_size h <? cfg_max_message_size config
    then hel_max_message_size h else cfg_max_message_size config in
  let max_chunk_count :=
    if hel_max_chunk_count h <? cfg_max_chunk_count config
    then hel_max_chunk_count h else cfg_max_chunk_count config in
  mk_tcp_connection (tcp_state connection) ack_send_buffer_size ack_receive_buffer_size
    (if max_message_size =? 0 then cfg_max_message_size config else max_message_size)
    (if max_chunk_count =? 0 then cfg_max_chunk_count config else max_chunk_count)
    (hel_protocol_version h).

Definition write_ack (c : mu_tcp_connection_t) : M (list Z) unit :=
  store_bytes 0 [chr "A"];;
  store_bytes 1 [chr "C"];;
  store_bytes 2 [chr "K"];;
  store_bytes 3 [chr "F"];;
  tcp_write_uint32_le 4 28;;
  tcp_write_uint32_le 8 0;;
  tcp_write_uint32_le 12 (tcp_send_buffer_size c);;
  tcp_write_uint32_le 16 (tcp_receive_buffer_size c);;
  tcp_write_uint32_le 20 (tcp_max_message_size c);;
  tcp_write_uint32_le 24 (tcp_max_chunk_count c).

(** Result, connection, ACK buffer; a good call delivers the ACK length. *)
Definition mu_tcp_process_hello (connection : mu_tcp_connection_t) (message : list Z) (length : Z)
    (config : mu_transport_config_t) (ack_message : list Z) (ack_length : Z)
    : result Z * mu_tcp_connection_t * list Z :=
  if length <? 8 then (Err MU_STATUS_BAD_TCPMESSAGETOOLARGE, connection, ack_message)
  else
    match (t0 ← load_byte message 0; t1 ← load_byte message 1;
           t2 ← load_byte message 2; t3 ← load_byte message 3;
           mret ((t0 =? chr "H") && (t1 =? chr "E") && (t2 =? chr "L") && (t3 =? chr "F")) : result bool)
    with
    | Fault => (Fault, connection, ack_message)
    | Err e => (Err e, connection, ack_message)
    | Ok false => (Err MU_STATUS_BAD_TCPMESSAGETYPEINVALID, connection, ack_message)
    | Ok true =>
        let reader := set_r_position (mu_binary_reader_init (Some message) length) 4 in
        match (read_hello length reader).1 with
        | Fault => (Fault, connection, ack_message)
        | Err e => (Err e, connection, ack_message)
        | Ok h =>
            let c := negotiate connection config h in
            if ack_length <? 28 then (Err MU_STATUS_BAD_INTERNALERROR, c, ack_message)
            else
              match write_ack c ack_message with
              | (Ok _, ack) =>
                  (Ok 28, mk_tcp_connection MU_TCP_STATE_ESTABLISHED
                            (tcp_receive_buffer_size c) (tcp_send_buffer_size c)
                            (tcp_max_message_size c) (tcp_max_chunk_count c)
                            (tcp_protocol_version c), ack)
              | (Err e, ack) => (Err e, c, ack)
              | (Fault, ack) => (Fault, c, ack)
              end
        end
    end.

(** [reason] is a NUL-terminated C string or NULL; the list holds the octets
    before the NUL. *)
Definition mu_tcp_create_error_message (error_code : Z) (reason : option (list Z)) (err_length : Z)
    : M (list Z) Z :=
  let reason_len := match reason with Some s => zlen s | None => 0 end in
  let total_len := 8 + 4 + 4 + reason_len in
  if err_length <? total_len then fail MU_STATUS_BAD_INTERNALERROR
  else
    store_bytes 0 [chr "E"];;
    store_bytes 1 [chr "R"];;
    store_bytes 2 [chr "R"];;
    store_bytes 3 [chr "F"];;
    tcp_write_uint32_le 4 (to_u32 total_len);;
    tcp_write_uint32_le 8 error_code;;
    err_message ← get_state;
    let writer := mk_writer (Some err_message) err_length 12 MU_STATUS_GOOD in
    match mu_binary_write_string (mk_string (to_i32 reason_len) reason) writer with
    | (Ok _, writer) => put_state (default [] (w_buffer writer));; mret (w_position writer)
    | (Err e, writer) => put_state (default [] (w_buffer writer));; fail e
    | (Fault, writer) => fault
    end.

(** ** Service prefix and headers *)

Definition mu_parse_service_prefix (buffer : list Z) (length offset : Z)
    : result (mu_nodeid_t * Z) :=
  match mu_binary_read_nodeid (set_r_position (mu_binary_reader_init (Some buffer) length) offset) with
  | (Ok node_id, reader) => Ok (node_id, r_position reader)
  | (Err e, _) => Err e
  | (Fault, _) => Fault
  end.

Definition mu_write_service_prefix (length offset : Z) (node_id : mu_nodeid_t) : M (list Z) Z :=
  buffer ← get_state;
  match mu_binary_write_nodeid node_id (mk_writer (Some buffer) length offset MU_STATUS_GOOD) with
  | (Ok _, writer) => put_state (default [] (w_buffer writer));; mret (w_position writer)
  | (Err e, writer) => put_state (default [] (w_buffer writer));; fail e
  | (Fault, _) => fault
  end.

Record mu_request_header_t := mk_request_header {
  rh_authentication_token : mu_nodeid_t;
  rh_timestamp : Z;
  rh_request_handle : Z;
  rh_return_diagnostics : Z;
  rh_audit_entry_id : mu_string_t;
  rh_timeout_hint : Z
}.

Record mu_response_header_t := mk_response_header {
  rsp_timestamp : Z;
  rsp_request_handle : Z;
  rsp_service_result : Z
}.

Definition mu_request_header_decode : Rd mu_request_header_t :=
  authentication_token ← mu_binary_read_nodeid;
  timestamp ← mu_binary_read_int64;
  request_handle ← mu_binary_read_uint32;
  return_diagnostics ← mu_binary_read_uint32;
  audit_entry_id ← mu_binary_read_string;
  timeout_hint ← mu_binary_read_uint32;
  mu_binary_skip_extension_object;;
  mret (mk_request_header authentication_token timestamp request_handle
          return_diagnostics audit_entry_id timeout_hint).

Definition mu_response_header_encode (header : mu_response_header_t) : Wr unit :=
  mu_binary_write_int64 (rsp_timestamp header);;
  mu_binary_write_uint32 (rsp_request_handle header);;
  mu_binary_write_statuscode (rsp_service_result header);;
  mu_binary_write_byte 0x00;;
  mu_binary_write_int32 (-1);;
  let null_id := mk_nodeid 0 (MU_NODEID_NUMERIC 0) in
  mu_binary_write_extension_object_header null_id 0.

(** ** Octet-store lemmas *)

(** Storing right behind a finished prefix extends the prefix. *)
Lemma store_step {A} off done rest bs (k : unit → M (list Z) A) :
  off = zlen done → zlen bs ≤ zlen rest →
  (store_bytes off bs ≫= k) (done ++ rest) = k tt ((done ++ bs) ++ zdrop (zlen bs) rest).
Proof.
  intros -> Hl. pose proof (zlen_nonneg done). pose proof (zlen_nonneg bs).
  unfold mbind, M_bind, store_bytes.
  rewrite mem_store_Some by (rewrite ?zlen_app; lia).
  rewrite ztake_app, <-zdrop_zdrop, zdrop_app by lia. by rewrite app_assoc.
Qed.

Lemma store_last off done rest bs : off = zlen done → zlen bs ≤ zlen rest →
  store_bytes off bs (done ++ rest) = (Ok tt, (done ++ bs) ++ zdrop (zlen bs) rest).
Proof.
  intros -> Hl. pose proof (zlen_nonneg done). pose proof (zlen_nonneg bs).
  unfold store_bytes. rewrite mem_store_Some by (rewrite ?zlen_app; lia).
  rewrite ztake_app, <-zdrop_zdrop, zdrop_app by lia. by rewrite app_assoc.
Qed.

(** A store over [old], which has as many octets. *)
Lemma store_over off s (a old c bs : list Z) : s = a ++ old ++ c → off = zlen a → zlen bs = zlen old →
  store_bytes off bs s = (Ok tt, a ++ bs ++ c).
Proof.
  intros -> -> Hl; pose proof (zlen_nonneg c); rewrite store_last by (rewrite ?zlen_app; lia).
  by rewrite Hl, zdrop_app, <- app_assoc.
Qed.

Lemma put_u32_length v : zlen (mu_binary_le_put_u32 v) = 4.
Proof. done. Qed.

Lemma znth_mid {A} (done : list A) x rest : znth (done ++ x :: rest) (zlen done) = Some x.
Proof.
  unfold znth, zlen. destruct (Z.ltb_spec (Z.of_nat (length done)) 0); [lia|].
  rewrite Nat2Z.id. by rewrite list_lookup_middle.
Qed.

Lemma znth_app_skip {A} (done rest : list A) i : 0 ≤ i →
  znth (done ++ rest) (zlen done + i) = znth rest i.
Proof.
  intros. unfold znth, zlen. destruct (Z.ltb_spec i 0); [lia|].
  destruct (Z.ltb_spec (Z.of_nat (length done) + i) 0); [lia|].
  rewrite lookup_app_r by lia. f_equal. lia.
Qed.

Lemma load_u32_put done rest v i : i = zlen done → u32_range v →
  load_u32 (done ++ mu_binary_le_put_u32 v ++ rest) i = Ok v.
Proof.
  intros -> Hv. unfold load_u32, load_byte.
  rewrite <-(Z.add_0_r (zlen done)) at 1. rewrite !znth_app_skip by lia.
  pose proof (get_u32_bytes v [] Hv) as E. rewrite <-le_put_u32_bytes in E.
  change (or_fault (mu_binary_le_get_u32 (mu_binary_le_put_u32 v ++ [])) = Ok v).
  by rewrite E.
Qed.

Lemma load_byte_safe b i : bytes_ok b → 0 ≤ i < zlen b →
  ∃ x, load_byte b i = Ok x ∧ u8_range x.
Proof.
  intros Hb Hi. destruct (znth_Some b i Hi) as [x Hx]. exists x.
  unfold load_byte. rewrite Hx. split; [done|].
  apply znth_lookup in Hx as [Hx _]. exact (Forall_lookup_1 _ _ _ _ Hb Hx).
Qed.

Lemma load_u32_safe b i : bytes_ok b → 0 ≤ i → i + 4 ≤ zlen b →
  ∃ x, load_u32 b i = Ok x ∧ u32_range x.
Proof.
  intros Hb H0 Hi. unfold load_u32.
  destruct (load_byte_safe b i) as (b0&->&?); [done|lia|].
  destruct (load_byte_safe b (i + 1)) as (b1&->&?); [done|lia|].
  destruct (load_byte_safe b (i + 2)) as (b2&->&?); [done|lia|].
  destruct (load_byte_safe b (i + 3)) as (b3&->&?); [done|lia|].
  cbn. eexists. split; [done|].
  assert (bytes_ok [b0; b1; b2; b3]) as Hbs by (repeat (constructor; [done|]); constructor).
  pose proof (le_get_u32_val b0 b1 b2 b3 [] Hbs) as E. cbn [mu_binary_le_get_u32] in E.
  injection E as E. rewrite E. exact (le_val_range _ Hbs).
Qed.

(** ** Header parsing *)

Definition known_type (t : Z * Z * Z) : bool :=
  is_type t "H" "E" "L" || is_type t "A" "C" "K" || is_type t "E" "R" "R" ||
  is_type t "O" "P" "N" || is_type t "C" "L" "O" || is_type t "M" "S" "G".

(** Message types that carry a SecureChannelId. *)
Definition channel_type (t : Z * Z * Z) : bool :=
  is_type t "O" "P" "N" || is_type t "C" "L" "O" || is_type t "M" "S" "G".

(** What an accepted header promises to the dispatcher. *)
Definition header_sound (length : Z) (h : mu_message_header_t) : Prop :=
  known_type (mh_message_type h) = true ∧
  8 ≤ mh_message_size h ≤ length ∧ u32_range (mh_message_size h) ∧
  (if channel_type (mh_message_type h)
   then mh_chunk_type h = chr "F" ∧ 12 ≤ mh_message_size h ∧ u32_range (mh_secure_channel_id h)
   else (mh_chunk_type h = chr "F" ∨ mh_chunk_type h = chr "A") ∧ mh_secure_channel_id h = 0).

Definition result_ok {A} (Q : A → Prop) (x : result A) : Prop := outcome_ok Q x.

Lemma chunk_guard ct :
  negb (ct =? chr "C") && negb (ct =? chr "F") && negb (ct =? chr "A") = false →
  ct = chr "C" ∨ ct = chr "F" ∨ ct = chr "A".
Proof. rewrite !andb_false_iff, !negb_false_iff, !Z.eqb_eq. tauto. Qed.

(** The type guard of the parser is [known_type], and the first octet decides
    whether a channel id follows. *)
Lemma type_guard t :
  negb (is_type t "H" "E" "L") && negb (is_type t "A" "C" "K")
  && negb (is_type t "E" "R" "R") && negb (is_type t "O" "P" "N")
  && negb (is_type t "C" "L" "O") && negb (is_type t "M" "S" "G") = negb (known_type t).
Proof. unfold known_type. by rewrite !negb_orb. Qed.

Lemma first_octet t : known_type t = true →
  ((t.1.1 =? chr "H") || (t.1.1 =? chr "A") || (t.1.1 =? chr "E")) = negb (channel_type t).
Proof.
  destruct t as [[t0 t1] t2]. unfold known_type, channel_type, is_type. cbn [fst snd].
  intros H. rewrite !orb_true_iff, !andb_true_iff, !Z.eqb_eq in H.
  destruct H as [[[[[H|H]|H]|H]|H]|H]; destruct H as [[-> ->] ->]; reflexivity.
Qed.

Lemma parse_message_header_ok buffer length :
  bytes_ok buffer → length ≤ zlen buffer → length ≤ PTRDIFF_MAX →
  result_ok (header_sound length) (mu_parse_message_header buffer length).
Proof.
  intros Hb Hl Hp. unfold mu_parse_message_header.
  destruct (Z.ltb_spec length 8); [done|].
  destruct (load_byte_safe buffer 0) as (t0&->&?); [done|lia|].
  destruct (load_byte_safe buffer 1) as (t1&->&?); [done|lia|].
  destruct (load_byte_safe buffer 2) as (t2&->&?); [done|lia|].
  destruct (load_byte_safe buffer 3) as (ct&->&?); [done|lia|].
  cbn [mbind result_bind]. rewrite type_guard.
  destruct (known_type (t0, t1, t2)) eqn:Hk; [|done]. cbn [negb].
  destruct (_ && _)%bool eqn:Hct; [done|]. apply chunk_guard in Hct.
  destruct (load_u32_safe buffer 4) as (size&->&Hsz); [done|lia|lia|]. cbn [mbind result_bind].
  destruct (Z.ltb_spec size 8); [done|].
  destruct (Z.ltb_spec length size); [done|].
  destruct (Z.eqb_spec ct (chr "C")); [done|].
  pose proof (first_octet _ Hk) as Hf. cbn [fst snd] in Hf. rewrite Hf.
  destruct (channel_type (t0, t1, t2)) eqn:Hc; cbn [negb].
  - destruct (Z.ltb_spec length 12); [done|]. destruct (Z.ltb_spec size 12); [done|].
    destruct (load_u32_safe buffer 8) as (cid&->&Hcid); [done|lia|lia|]. cbn [mbind result_bind].
    destruct (Z.eqb_spec ct (chr "A")).
    + destruct (t0 =? chr "O"); [done|].
      destruct (Z.ltb_spec size (MU_UASC_SYMMETRIC_HEADER_SIZE + 4)) as [|Hs]; [done|].
      unfold MU_UASC_SYMMETRIC_HEADER_SIZE in *.
      destruct (rsafe_read_statuscode
        (set_r_position (mu_binary_reader_init (Some buffer) length) 24)) as [_ Ho].
      { split; cbn; [|lia]. split; [lia|]. done. }
      destruct (mu_binary_read_statuscode _) as [[a|err|] r']; cbn in Ho |- *; [|done..].
      destruct (Z.eqb_spec a MU_STATUS_GOOD); done.
    + cbn. unfold header_sound. cbn. rewrite Hk, Hc. split_and!; try done; try lia; tauto.
  - cbn. unfold header_sound. cbn. rewrite Hk, Hc. split_and!; try done; try lia; tauto.
Qed.

Lemma parse_sequence_header_ok buffer length offset :
  bytes_ok buffer → length ≤ zlen buffer → 0 ≤ offset →
  result_ok (λ r, r.2 = offset + 8 ∧ r.2 ≤ length ∧
               u32_range (sh_sequence_number r.1) ∧ u32_range (sh_request_id r.1))
    (mu_parse_sequence_header buffer length offset).
Proof.
  intros Hb Hl Ho. unfold mu_parse_sequence_header. cbv zeta.
  destruct (Z.ltb_spec length offset); [done|].
  destruct (Z.ltb_spec (length - offset) 4); [done|].
  destruct (load_u32_safe buffer offset) as (sn&->&?); [done|lia|lia|]. cbn [mbind result_bind].
  destruct (Z.ltb_spec (length - (offset + 4)) 4); [done|].
  destruct (load_u32_safe buffer (offset + 4)) as (rid&->&?); [done|lia|lia|]. cbn.
  split_and!; try done; lia.
Qed.

(** ** Header round trips *)

Definition enc_message_header (h : mu_message_header_t) : list Z :=
  [(mh_message_type h).1.1; (mh_message_type h).1.2; (mh_message_type h).2; mh_chunk_type h] ++
  mu_binary_le_put_u32 (mh_message_size h) ++ mu_binary_le_put_u32 (mh_secure_channel_id h).

Lemma zlen_zdrop_ge {A} n m (l : list A) : 0 ≤ n → n + m ≤ zlen l → m ≤ zlen (zdrop n l).
Proof. intros. unfold zlen, zdrop in *. rewrite length_drop. lia. Qed.

Ltac zlen_fits :=
  rewrite ?zlen_app, ?put_u32_length, ?zlen_cons; change (zlen (@nil Z)) with 0;
  repeat (apply zlen_zdrop_ge; [lia|]); lia.

Lemma write_message_header_run b length h : 12 ≤ length ≤ zlen b →
  mu_write_message_header length h b = (Ok tt, enc_message_header h ++ zdrop 12 b).
Proof.
  intros Hl. unfold mu_write_message_header, enc_message_header.
  destruct (Z.ltb_spec length 12); [lia|].
  destruct (mh_message_type h) as [[t0 t1] t2]. cbn [fst snd].
  change b with ([] ++ b) at 1.
  rewrite !store_step by zlen_fits. rewrite store_last by zlen_fits.
  rewrite ?zlen_cons, ?put_u32_length. change (zlen (@nil Z)) with 0.
  rewrite !zdrop_zdrop by lia.
  by rewrite <-?app_assoc.
Qed.

Lemma load_byte_at done x rest i : i = zlen done → load_byte (done ++ x :: rest) i = Ok x.
Proof. intros ->. unfold load_byte. by rewrite znth_mid. Qed.

(** Parsing a buffer that starts with an encoded channel message header. *)
Lemma parse_encoded_header h rest length :
  channel_type (mh_message_type h) = true → mh_chunk_type h = chr "F" →
  12 ≤ mh_message_size h ≤ length → u32_range (mh_message_size h) →
  u32_range (mh_secure_channel_id h) →
  mu_parse_message_header (enc_message_header h ++ rest) length = Ok h.
Proof.
  destruct h as [[[t0 t1] t2] ct size cid]; cbn [mh_message_type mh_chunk_type
    mh_message_size mh_secure_channel_id].
  intros Hc -> Hs Hsz Hcid. unfold mu_parse_message_header, enc_message_header.
  cbn [mh_message_type mh_chunk_type mh_message_size mh_secure_channel_id fst snd].
  destruct (Z.ltb_spec length 8); [lia|].
  assert (known_type (t0, t1, t2) = true) as Hk.
  { unfold known_type. unfold channel_type in Hc. rewrite !orb_true_iff in *. tauto. }
  rewrite <-!app_assoc.
  set (body := mu_binary_le_put_u32 size ++ mu_binary_le_put_u32 cid ++ rest).
  set (buf := [t0; t1; t2; chr "F"] ++ body).
  change (load_byte buf 0) with (Ok t0). change (load_byte buf 1) with (Ok t1).
  change (load_byte buf 2) with (Ok t2). change (load_byte buf 3) with (Ok (chr "F")).
  cbn [mbind result_bind]. subst buf.
  rewrite type_guard, Hk. cbn [negb].
  change (negb (chr "F" =? chr "C") && negb (chr "F" =? chr "F") && negb (chr "F" =? chr "A")) with false.
  cbn iota. subst body.
  rewrite (load_u32_put [t0; t1; t2; chr "F"] _ size 4 eq_refl Hsz). cbn [mbind result_bind].
  destruct (Z.ltb_spec size 8); [lia|]. destruct (Z.ltb_spec length size); [lia|].
  change (chr "F" =? chr "C") with false. cbn iota.
  pose proof (first_octet _ Hk) as Hf. cbn [fst] in Hf. rewrite Hf, Hc. cbn [negb].
  destruct (Z.ltb_spec length 12); [lia|]. destruct (Z.ltb_spec size 12); [lia|].
  rewrite app_assoc.
  rewrite (load_u32_put ([t0; t1; t2; chr "F"] ++ mu_binary_le_put_u32 size) _ cid 8 eq_refl Hcid).
  done.
Qed.

Definition enc_sequence_header (h : mu_sequence_header_t) : list Z :=
  mu_binary_le_put_u32 (sh_sequence_number h) ++ mu_binary_le_put_u32 (sh_request_id h).

Lemma write_sequence_header_run done rest length h :
  zlen done + 8 ≤ length → length ≤ zlen (done ++ rest) →
  mu_write_sequence_header length (zlen done) h (done ++ rest)
  = (Ok (zlen done + 8), done ++ enc_sequence_header h ++ zdrop 8 rest).
Proof.
  intros Hl Hb. rewrite zlen_app in Hb. unfold mu_write_sequence_header, enc_sequence_header.
  cbv zeta. destruct (Z.ltb_spec length (zlen done)); [lia|].
  destruct (Z.ltb_spec (length - zlen done) 4); [lia|].
  rewrite store_step by zlen_fits.
  destruct (Z.ltb_spec (length - (zlen done + 4)) 4); [lia|].
  rewrite store_step by zlen_fits. rewrite !put_u32_length, zdrop_zdrop by lia.
  unfold mret, M_ret. f_equal; [f_equal; lia|]. by rewrite <-!app_assoc.
Qed.

Lemma parse_encoded_sequence_header done rest length h :
  zlen done + 8 ≤ length → u32_range (sh_sequence_number h) → u32_range (sh_request_id h) →
  mu_parse_sequence_header (done ++ enc_sequence_header h ++ rest) length (zlen done)
  = Ok (h, zlen done + 8).
Proof.
  intros Hl H1 H2. unfold mu_parse_sequence_header, enc_sequence_header. cbv zeta.
  destruct (Z.ltb_spec length (zlen done)); [lia|].
  destruct (Z.ltb_spec (length - zlen done) 4); [lia|].
  rewrite <-app_assoc, (load_u32_put done _ (sh_sequence_number h) (zlen done) eq_refl H1).
  cbn [mbind result_bind].
  destruct (Z.ltb_spec (length - (zlen done + 4)) 4); [lia|].
  rewrite app_assoc, load_u32_put; [|by rewrite zlen_app|done]. cbn.
  destruct h. do 2 f_equal. cbn. lia.
Qed.

(** ** Response frames *)

Definition msg_frame (total channel token seq req : Z) : list Z :=
  enc_message_header (mk_message_header (chr "M", chr "S", chr "G") (chr "F") total channel) ++
  mu_binary_le_put_u32 token ++ enc_sequence_header (mk_sequence_header seq req).

Lemma finalize_symmetric_run b size channel token seq req body :
  0 ≤ body → MU_UASC_SYMMETRIC_HEADER_SIZE + body ≤ size → size ≤ zlen b → size ≤ PTRDIFF_MAX →
  mu_uasc_finalize_symmetric size channel token seq req body b
  = (Ok (24 + body), msg_frame (24 + body) channel token seq req ++ zdrop 24 b).
Proof.
  unfold MU_UASC_SYMMETRIC_HEADER_SIZE. intros Hb Hs Hz Hp.
  unfold mu_uasc_finalize_symmetric, MU_UASC_SYMMETRIC_HEADER_SIZE, mu_uasc_write_uint32_le. cbv zeta.
  rewrite !(to_unsigned_id 32) by (rewrite ?(to_unsigned_id 32); zify_ints; lia).
  destruct (Z.ltb_spec size (24 + body)); [lia|].
  change b with ([] ++ b) at 1. rewrite !store_step by zlen_fits.
  rewrite ?zlen_cons, ?put_u32_length. change (zlen (@nil Z)) with 0.
  rewrite !zdrop_zdrop by lia.
  by rewrite <-!app_assoc.
Qed.

(** A chunk the server frames is one its own parser accepts, with the fields
    that went in. *)
Lemma parse_msg_frame total channel token seq req rest length :
  24 ≤ total ≤ length → u32_range total → u32_range channel →
  u32_range seq → u32_range req →
  mu_parse_message_header (msg_frame total channel token seq req ++ rest) length
    = Ok (mk_message_header (chr "M", chr "S", chr "G") (chr "F") total channel) ∧
  mu_parse_sequence_header (msg_frame total channel token seq req ++ rest) length 16
    = Ok (mk_sequence_header seq req, 24).
Proof.
  intros Ht ????. unfold msg_frame. split.
  - rewrite <-!app_assoc. apply parse_encoded_header; [done|done|cbn; lia|done|done].
  - rewrite (app_assoc (enc_message_header _)), <-!(app_assoc (enc_message_header _ ++ _)).
    change 16 with (zlen (enc_message_header
      (mk_message_header (chr "M", chr "S", chr "G") (chr "F") total channel) ++ mu_binary_le_put_u32 token)).
    apply parse_encoded_sequence_header; [|done|done].
    rewrite zlen_app. change (zlen (enc_message_header _)) with 12. rewrite put_u32_length. lia.
Qed.

(** ** Sequence numbers *)

(** The successor relation of the validator's comments. *)
Definition seq_successor (a b : Z) : Prop :=
  b = a + 1 ∨ (4294966271 < a ∧ b < 1024).

Lemma sequence_validate_run v n : u32_range (sv_last_sequence_number v) → u32_range n →
  mu_sequence_validate n v =
    if bool_decide (sv_is_initialized v = false ∨ sv_last_sequence_number v + 1 = n ∨
                    (4294966271 < sv_last_sequence_number v ∧ n < 1024))
    then (Ok tt, mk_sequence_validator n true)
    else (Err MU_STATUS_BAD_SECURITYCHECKSFAILED, v).
Proof.
  intros Hv Hn. unfold mu_sequence_validate. rewrite (bind_ok get_state _ v v v eq_refl).
  destruct v as [last ini]; cbn [sv_is_initialized sv_last_sequence_number] in *.
  destruct ini; cbn [negb]; [|rewrite bool_decide_eq_true_2; tauto]. cbv zeta.
  assert (to_u32 (last + 1) = if last =? 4294967295 then 0 else last + 1) as Hw.
  { zify_ints. destruct (Z.eqb_spec last 4294967295) as [->|]; [done|].
    apply Z.mod_small. lia. }
  rewrite Hw. clear Hw. ranges. destruct (bool_decide _) eqn:E; bool_hyps.
  - destruct E as [E|E]; [done|].
    destruct (Z.eqb_spec n (if last =? 4294967295 then 0 else last + 1)) as [|Hne]; [done|].
    destruct (Z.eqb_spec last 4294967295); destruct E as [?|[??]];
      try lia; rewrite !(proj2 (Z.ltb_lt _ _)) by lia; done.
  - destruct (Z.eqb_spec n (if last =? 4294967295 then 0 else last + 1)) as [Heq|Hne].
    + destruct (Z.eqb_spec last 4294967295); exfalso; apply E; right; [right|left]; lia.
    + destruct (_ && _)%bool eqn:Hg; [|done]. bool_hyps. exfalso. apply E. tauto.
Qed.

(** Feed a list of received numbers; [Some] is the state after all of them
    were accepted. *)
Fixpoint validate_all (v : mu_sequence_validator_t) (ns : list Z) : option mu_sequence_validator_t :=
  match ns with
  | [] => Some v
  | n :: ns =>
      match mu_sequence_validate n v with
      | (Ok _, v') => validate_all v' ns
      | _ => None
      end
  end.

(** Distance an accepted run keeps from its first number before wrapping back
    to it. *)
Lemma validate_all_away x0 (k : Z) ns last v' m :
  u32_range x0 → Forall u32_range ns → u32_range last → 0 ≤ k →
  k + zlen ns ≤ 4294965248 →
  (last = x0 + k ∨ (last < x0 + k - 4294966271 + 1023 ∧ last ≤ 1022 + k)) →
  validate_all (mk_sequence_validator last true) ns = Some v' →
  m ∈ ns → m ≠ x0.
Proof.
  intros H0 Hns. revert k last. induction Hns as [|n ns Hn Hns IH]; intros k last Hl Hk Hb Hinv E Hin.
  - by apply not_elem_of_nil in Hin.
  - rewrite zlen_cons in Hb. pose proof (zlen_nonneg ns). cbn [validate_all] in E.
    rewrite sequence_validate_run in E by done. cbn [sv_is_initialized sv_last_sequence_number] in E.
    destruct (bool_decide _) eqn:Hd; [|done]. bool_hyps. ranges.
    assert (n = x0 + (k + 1) ∨ (n < x0 + (k + 1) - 4294966271 + 1023 ∧ n ≤ 1022 + (k + 1))) as Hinv'
      by (destruct Hd as [?|[?|?]]; [done|lia|lia]).
    apply elem_of_cons in Hin as [->|Hin].
    + lia.
    + eapply (IH (k + 1) n); eauto; lia.
Qed.

(** ** HEL/ACK *)

Definition enc_ack (c : mu_tcp_connection_t) : list Z :=
  [chr "A"; chr "C"; chr "K"; chr "F"] ++ mu_binary_le_put_u32 28 ++ mu_binary_le_put_u32 0 ++
  mu_binary_le_put_u32 (tcp_send_buffer_size c) ++
  mu_binary_le_put_u32 (tcp_receive_buffer_size c) ++
  mu_binary_le_put_u32 (tcp_max_message_size c) ++ mu_binary_le_put_u32 (tcp_max_chunk_count c).

Lemma write_ack_run c b : 28 ≤ zlen b → write_ack c b = (Ok tt, enc_ack c ++ zdrop 28 b).
Proof.
  intros Hl. unfold write_ack, enc_ack, tcp_write_uint32_le.
  change b with ([] ++ b) at 1.
  rewrite !store_step by zlen_fits. rewrite store_last by zlen_fits.
  rewrite ?zlen_cons, ?put_u32_length. change (zlen (@nil Z)) with 0.
  rewrite !zdrop_zdrop by lia. by rewrite <-!app_assoc.
Qed.

Definition hello_range (h : hello_body) : Prop :=
  u32_range (hel_protocol_version h) ∧
  MU_MIN_CHUNK_SIZE ≤ hel_receive_buffer_size h < 4294967296 ∧
  MU_MIN_CHUNK_SIZE ≤ hel_send_buffer_size h < 4294967296 ∧
  u32_range (hel_max_message_size h) ∧ u32_range (hel_max_chunk_count h).

Lemma rsafe_read_hello length : rsafe (read_hello length) hello_range.
Proof.
  unfold read_hello. rsafe_auto. bool_hyps. unfold hello_range. ranges. cbn.
  split_and!; lia.
Qed.

(** Limits the connection may rely on after the handshake: never above what
    the server configured, never above what the peer announced. *)
Definition negotiated (config : mu_transport_config_t) (h : hello_body)
    (c : mu_tcp_connection_t) : Prop :=
  tcp_receive_buffer_size c = Z.min (hel_receive_buffer_size h) (cfg_send_buffer_size config) ∧
  tcp_send_buffer_size c = Z.min (hel_send_buffer_size h) (cfg_receive_buffer_size config) ∧
  tcp_max_message_size c ≤ cfg_max_message_size config ∧
  (0 < hel_max_message_size h → tcp_max_message_size c ≤ hel_max_message_size h) ∧
  tcp_max_chunk_count c ≤ cfg_max_chunk_count config ∧
  (0 < cfg_max_message_size config → 0 < tcp_max_message_size c) ∧
  (0 < cfg_max_chunk_count config → 0 < tcp_max_chunk_count c).

Lemma negotiate_ok connection config h : hello_range h →
  u32_range (cfg_receive_buffer_size config) → u32_range (cfg_send_buffer_size config) →
  u32_range (cfg_max_chunk_count config) → u32_range (cfg_max_message_size config) →
  negotiated config h (negotiate connection config h).
Proof.
  intros (?&?&?&?&?) ? ? ? ?. unfold negotiated, negotiate. ranges. cbn.
  rewrite !(to_unsigned_id 32) by lia.
  repeat match goal with
  | |- context [if ?a <? ?b then _ else _] => destruct (Z.ltb_spec a b)
  | |- context [if ?a =? ?b then _ else _] => destruct (Z.eqb_spec a b)
  end; split_and!; lia.
Qed.

(** ** Service headers *)

Lemma rsafe_request_header_decode :
  rsafe mu_request_header_decode (λ h,
    wire_nodeid (rh_authentication_token h) ∧ i64_range (rh_timestamp h) ∧
    u32_range (rh_request_handle h) ∧ u32_range (rh_return_diagnostics h) ∧
    wire_string (rh_audit_entry_id h) ∧ u32_range (rh_timeout_hint h)).
Proof. unfold mu_request_header_decode. rsafe_auto. done. Qed.
#[export] Hint Resolve rsafe_request_header_decode : rsafe.

(** The fixed 24-octet ResponseHeader of OPC 10000-4 7.33. *)
Definition enc_response_header (h : mu_response_header_t) : list Z :=
  enc_i64 (rsp_timestamp h) ++ enc_u32 (rsp_request_handle h) ++
  enc_u32 (rsp_service_result h) ++ enc_u8 0 ++ enc_i32 (-1) ++ [0; 0; 0].

Lemma wspec_response_header_encode h :
  wspec (mu_response_header_encode h) (enc_response_header h).
Proof.
  unfold mu_response_header_encode, enc_response_header.
  repeat (apply wspec_bind; [first [apply wspec_write_byte; by ranges | by auto with wspec]|]).
  eapply wspec_eq; [apply (codec_write (Codec := codec_extension_object_header)
    (mk_nodeid 0 (MU_NODEID_NUMERIC 0), 0))|done].
  by vm_compute.
Qed.

Lemma wsafe_response_header_encode h : wsafe (mu_response_header_encode h).
Proof.
  unfold mu_response_header_encode. wsafe_auto.
  apply wsafe_write_extension_object_header. by split; ranges; cbn.
Qed.
#[export] Hint Resolve wsafe_response_header_encode : wsafe.

(** ** Properties *)

(** whatever octets arrive, parsing a chunk header reads only inside the
    buffer and an accepted header has a known type, a size between 8 and the
    received length, and (for OPN, CLO, MSG) is a final chunk of at least 12
    octets. *)
Theorem parse_message_header_sound buffer length :
  bytes_ok buffer → length ≤ zlen buffer → length ≤ PTRDIFF_MAX →
  match mu_parse_message_header buffer length with
  | Ok h => header_sound length h
  | Err s => s ≠ MU_STATUS_GOOD
  | Fault => False
  end.
Proof. apply parse_message_header_ok. Qed.

Lemma parse_message_header_sound_witness :
  match mu_parse_message_header ([77; 83; 71; 70] ++ [24; 0; 0; 0] ++ [1; 0; 0; 0]
          ++ [1; 0; 0; 0] ++ [5; 0; 0; 0] ++ [9; 0; 0; 0]) 24 with
  | Ok h => header_sound 24 h
  | Err s => s ≠ MU_STATUS_GOOD
  | Fault => False
  end.
Proof.
  apply parse_message_header_sound; [|by vm_compute..].
  repeat (constructor; [by ranges|]). constructor.
Defined.

(** C25: a response framed by [mu_uasc_finalize_symmetric] is parsed back by
    the server's own chunk parsers with the same size, channel, sequence
    number and request id, and the message body behind the 24-octet header is
    left as it was. *)
Theorem uasc_frame_roundtrip b size channel token seq req body :
  0 ≤ body → 24 + body ≤ size → size ≤ zlen b → size ≤ PTRDIFF_MAX →
  u32_range channel → u32_range seq → u32_range req →
  ∃ b', mu_uasc_finalize_symmetric size channel token seq req body b = (Ok (24 + body), b') ∧
    zdrop 24 b' = zdrop 24 b ∧
    mu_parse_message_header b' (24 + body)
      = Ok (mk_message_header (chr "M", chr "S", chr "G") (chr "F") (24 + body) channel) ∧
    mu_parse_sequence_header b' (24 + body) 16 = Ok (mk_sequence_header seq req, 24).
Proof.
  intros Hb Hs Hz Hp ???. eexists. split; [by apply finalize_symmetric_run|].
  split; [apply (zdrop_app (msg_frame (24 + body) channel token seq req))|].
  apply parse_msg_frame; try done; ranges; lia.
Qed.

Lemma uasc_frame_roundtrip_witness :
  ∃ b', mu_uasc_finalize_symmetric 32 1 7 51 3 4 (repeat 0 40) = (Ok 28, b') ∧
    zdrop 24 b' = zdrop 24 (repeat 0 40) ∧
    mu_parse_message_header b' 28
      = Ok (mk_message_header (chr "M", chr "S", chr "G") (chr "F") 28 1) ∧
    mu_parse_sequence_header b' 28 16 = Ok (mk_sequence_header 51 3, 24).
Proof. apply (uasc_frame_roundtrip (repeat 0 40) 32 1 7 51 3 4); by vm_compute. Defined.

(** C21: a validator that has accepted sequence number [x] accepts a following
    run of numbers only if [x] is not replayed in it, for any run of up to
    4294965248 chunks; every accepted number is the successor of the previous
    one or a wrap from above 4294966271 to below 1024. *)
Theorem sequence_no_replay v x ns v' :
  u32_range (sv_last_sequence_number v) → u32_range x → Forall u32_range ns →
  zlen ns ≤ 4294965248 → validate_all v (x :: ns) = Some v' → x ∉ ns.
Proof.
  intros Hv Hx Hns Hl E Hin. cbn [validate_all] in E.
  rewrite sequence_validate_run in E by done.
  destruct (bool_decide _); [|done].
  exact (validate_all_away x 0 ns x v' x Hx Hns Hx ltac:(lia) ltac:(lia) ltac:(lia) E Hin eq_refl).
Qed.

Lemma sequence_no_replay_witness : 51 ∉ [52; 53; 54].
Proof.
  apply (sequence_no_replay mu_sequence_validator_init 51 [52; 53; 54]
           (mk_sequence_validator 54 true)); cbn [sv_last_sequence_number mu_sequence_validator_init].
  - by ranges.
  - by ranges.
  - repeat (constructor; [by ranges|]). constructor.
  - unfold zlen. cbn. lia.
  - vm_compute. reflexivity.
Defined.

(** [mu_sequence_validate] accepts exactly the first number, the
    successor of the last accepted one, or a legal wrap, and leaves the state
    alone when it refuses. *)
Theorem sequence_validate_spec v n :
  u32_range (sv_last_sequence_number v) → u32_range n →
  (sv_is_initialized v = false ∨ seq_successor (sv_last_sequence_number v) n →
   mu_sequence_validate n v = (Ok tt, mk_sequence_validator n true)) ∧
  (sv_is_initialized v = true ∧ ¬ seq_successor (sv_last_sequence_number v) n →
   mu_sequence_validate n v = (Err MU_STATUS_BAD_SECURITYCHECKSFAILED, v)).
Proof.
  intros Hv Hn. rewrite sequence_validate_run by done. unfold seq_successor. split.
  - intros H. rewrite bool_decide_eq_true_2; [done|]. naive_solver.
  - intros [H1 H2]. rewrite bool_decide_eq_false_2; [done|]. rewrite H1. naive_solver.
Qed.

Lemma sequence_validate_spec_witness :
  mu_sequence_validate 1 (mk_sequence_validator 4294967295 true)
  = (Ok tt, mk_sequence_validator 1 true).
Proof.
  apply (proj1 (sequence_validate_spec (mk_sequence_validator 4294967295 true) 1
           ltac:(by vm_compute) ltac:(by vm_compute))).
  right. right. by vm_compute.
Defined.

(** Processing a HEL never leaves its buffers; when it succeeds the
    connection is established with limits bounded by both sides and the ACK
    octets announce exactly those limits; when it fails the connection is not
    established by it and no ACK octet is written. *)
Theorem hello_negotiation c message length config ack ack_length :
  bytes_ok message → length ≤ zlen message → length ≤ PTRDIFF_MAX → ack_length ≤ zlen ack →
  u32_range (cfg_receive_buffer_size config) → u32_range (cfg_send_buffer_size config) →
  u32_range (cfg_max_chunk_count config) → u32_range (cfg_max_message_size config) →
  match mu_tcp_process_hello c message length config ack ack_length with
  | (Ok n, c', ack') => n = 28 ∧ tcp_state c' = MU_TCP_STATE_ESTABLISHED ∧
      (∃ h, hello_range h ∧ negotiated config h c') ∧ ack' = enc_ack c' ++ zdrop 28 ack
  | (Err s, c', ack') => s ≠ MU_STATUS_GOOD ∧ tcp_state c' = tcp_state c ∧ ack' = ack
  | (Fault, _, _) => False
  end.
Proof.
  intros Hb Hl Hp Ha ????. unfold mu_tcp_process_hello.
  destruct (Z.ltb_spec length 8); [done|].
  destruct (load_byte_safe message 0) as (t0&->&?); [done|lia|].
  destruct (load_byte_safe message 1) as (t1&->&?); [done|lia|].
  destruct (load_byte_safe message 2) as (t2&->&?); [done|lia|].
  destruct (load_byte_safe message 3) as (t3&->&?); [done|lia|].
  cbn [mbind result_bind mret result_ret]. destruct (_ && _)%bool; [|done].
  destruct (rsafe_read_hello length
    (set_r_position (mu_binary_reader_init (Some message) length) 4)) as [_ Ho].
  { split; cbn; [|lia]. split; [lia|done]. }
  destruct (read_hello _ _) as [[h|e|] r']; cbn [fst] in Ho |- *; cbn in Ho; [|done..].
  destruct (Z.ltb_spec ack_length 28); [done|].
  rewrite write_ack_run by lia. cbn. split; [done|]. split; [done|]. split; [|done].
  exists h. split; [done|]. by apply (negotiate_ok c config h).
Qed.

Lemma hello_negotiation_witness :
  let hello := [72; 69; 76; 70; 36; 0; 0; 0; 0; 0; 0; 0] ++ [0; 32; 0; 0] ++ [0; 64; 0; 0]
               ++ [0; 0; 0; 0] ++ [0; 0; 0; 0] ++ [4; 0; 0; 0; 111; 112; 99; 46] in
  match mu_tcp_process_hello mu_tcp_connection_init hello 36
          (mk_transport_config 8192 16384 1 8192) (repeat 0 64) 64 with
  | (Ok n, c', ack') => n = 28 ∧ tcp_state c' = MU_TCP_STATE_ESTABLISHED ∧
      (∃ h, hello_range h ∧ negotiated (mk_transport_config 8192 16384 1 8192) h c') ∧
      ack' = enc_ack c' ++ zdrop 28 (repeat 0 64)
  | (Err s, c', ack') => s ≠ MU_STATUS_GOOD ∧ tcp_state c' = MU_TCP_STATE_CLOSED ∧ ack' = repeat 0 64
  | (Fault, _, _) => False
  end.
Proof.
  apply (hello_negotiation mu_tcp_connection_init); try by vm_compute.
  repeat (constructor; [by ranges|]). constructor.
Defined.
