(* ===== verification/SecureChannel.v ===== *)
(** * Security policies and the SecureChannel

    [src/security/security_policy.c] and [src/services/secure_channel.c]: the
    policy table with its accessors, opening, renewing and closing the
    channel, and the wiping of its key material. *)

From S2P Require Export Framing.

(** ** [security_policy.c] *)

Inductive mu_security_policy_id_t :=
| MU_SECURITY_POLICY_INVALID_ID
| MU_SECURITY_POLICY_NONE_ID
| MU_SECURITY_POLICY_BASIC256SHA256_ID
| MU_SECURITY_POLICY_AES128_SHA256_RSAOAEP_ID
| MU_SECURITY_POLICY_AES256_SHA256_RSAPSS_ID.

#[export] Instance mu_security_policy_id_eq_dec : EqDecision mu_security_policy_id_t.
Proof. solve_decision. Defined.

(** [mu_message_security_mode_t] stays an integer: the OPN handler casts the
    wire value to it. *)
Definition MU_MESSAGE_SECURITY_MODE_INVALID : Z := 0.
Definition MU_MESSAGE_SECURITY_MODE_NONE : Z := 1.
Definition MU_MESSAGE_SECURITY_MODE_SIGN : Z := 2.
Definition MU_MESSAGE_SECURITY_MODE_SIGN_AND_ENCRYPT : Z := 3.

Definition POLICY_B256S256_URI : list Z :=
  bytes_of_string "http://opcfoundation.org/UA/SecurityPolicy#Basic256Sha256".
Definition POLICY_AES128_OAEP_URI : list Z :=
  bytes_of_string "http://opcfoundation.org/UA/SecurityPolicy#Aes128_Sha256_RsaOaep".
Definition POLICY_AES256_PSS_URI : list Z :=
  bytes_of_string "http://opcfoundation.org/UA/SecurityPolicy#Aes256_Sha256_RsaPss".

Record mu_security_policy_params_t := mk_policy_params {
  pol_id : mu_security_policy_id_t;
  pol_uri : list Z;
  pol_sig_key_len : Z;
  pol_enc_key_len : Z;
  pol_block_size : Z;
  pol_sig_len : Z;
  pol_nonce_len : Z;
  pol_allows_username : Z
}.

Definition POLICY_TABLE : list mu_security_policy_params_t :=
  [ mk_policy_params MU_SECURITY_POLICY_NONE_ID POLICY_NONE_URI 0 0 0 0 0 0;
    mk_policy_params MU_SECURITY_POLICY_BASIC256SHA256_ID POLICY_B256S256_URI 32 32 16 32 32 1;
    mk_policy_params MU_SECURITY_POLICY_AES128_SHA256_RSAOAEP_ID POLICY_AES128_OAEP_URI 32 16 16 32 32 1;
    mk_policy_params MU_SECURITY_POLICY_AES256_SHA256_RSAPSS_ID POLICY_AES256_PSS_URI 32 32 16 32 32 1 ].

Definition policy_row (id : mu_security_policy_id_t) : option mu_security_policy_params_t :=
  list_find (λ row, pol_id row = id) POLICY_TABLE ≫= λ p, Some p.2.

Definition uri_equals (uri : list Z) (length : Z) (expected : list Z) : bool :=
  (length =? zlen expected) && bool_decide (ztake length uri = expected).

Definition mu_security_policy_from_uri (uri : option (list Z)) (length : Z)
    : mu_security_policy_id_t :=
  match uri with
  | None => MU_SECURITY_POLICY_NONE_ID
  | Some uri =>
      if length =? 0 then MU_SECURITY_POLICY_NONE_ID
      else
        match list_find (λ row, uri_equals uri length (pol_uri row) = true) POLICY_TABLE with
        | Some (_, row) => pol_id row
        | None => MU_SECURITY_POLICY_INVALID_ID
        end
  end.

Definition mu_security_policy_uri (id : mu_security_policy_id_t) : option (list Z) :=
  row ← policy_row id; Some (pol_uri row).

Definition policy_param (f : mu_security_policy_params_t → Z) (id : mu_security_policy_id_t) : Z :=
  match policy_row id with Some row => f row | None => 0 end.

Definition mu_security_policy_signature_key_length := policy_param pol_sig_key_len.
Definition mu_security_policy_allows_username_password_tokens := policy_param pol_allows_username.
Definition mu_security_policy_encryption_key_length := policy_param pol_enc_key_len.
Definition mu_security_policy_encryption_block_size := policy_param pol_block_size.
Definition mu_security_policy_signature_length := policy_param pol_sig_len.
Definition mu_security_policy_nonce_length := policy_param pol_nonce_len.

Definition mu_security_policy_asym_signature_uri (policy : mu_security_policy_id_t) : option (list Z) :=
  match policy with
  | MU_SECURITY_POLICY_BASIC256SHA256_ID | MU_SECURITY_POLICY_AES128_SHA256_RSAOAEP_ID =>
      Some (bytes_of_string "http://www.w3.org/2001/04/xmldsig-more#rsa-sha256")
  | MU_SECURITY_POLICY_AES256_SHA256_RSAPSS_ID =>
      Some (bytes_of_string "http://opcfoundation.org/UA/security/rsa-pss-sha2-256")
  | _ => None
  end.

Definition mu_security_policy_uses_pss (policy : mu_security_policy_id_t) : bool :=
  bool_decide (policy = MU_SECURITY_POLICY_AES256_SHA256_RSAPSS_ID).

(** ** Channel keys ([sym_chunk.h]) *)

(** A crypto adapter, as far as key lifetime is concerned: whether it supplies
    [cipher_ctx_free]. *)
Record mu_crypto_adapter_t := mk_crypto_adapter { cr_has_cipher_ctx_free : bool }.

Record mu_sym_keys_t := mk_sym_keys {
  sk_policy : mu_security_policy_id_t;
  sk_signing_key : list Z;
  sk_encrypting_key : list Z;
  sk_iv : list Z;
  sk_cipher_ctx : list Z;
  sk_crypto : option mu_crypto_adapter_t;
  sk_cipher_ctx_valid : bool
}.

(** The structure after [mu_secure_zero]: every octet 0. *)
Definition zero_keys : mu_sym_keys_t :=
  mk_sym_keys MU_SECURITY_POLICY_INVALID_ID (repeat 0 32) (repeat 0 32) (repeat 0 16)
    (repeat 0 512) None false.

(** [mu_sym_keys_release_cipher]: the contexts it hands to the adapter's
    [cipher_ctx_free], and the keys it leaves. *)
Definition mu_sym_keys_release_cipher (keys : mu_sym_keys_t) : list (list Z) * mu_sym_keys_t :=
  let freed :=
    match sk_crypto keys with
    | Some cr => if sk_cipher_ctx_valid keys && cr_has_cipher_ctx_free cr
                 then [sk_cipher_ctx keys] else []
    | None => []
    end in
  (freed, mk_sym_keys (sk_policy keys) (sk_signing_key keys) (sk_encrypting_key keys)
            (sk_iv keys) (sk_cipher_ctx keys) None false).

(** ** [secure_channel.c] *)

Record mu_secure_channel_t := mk_secure_channel {
  sc_channel_id : Z;
  sc_token_id : Z;
  sc_created_at : Z;
  sc_revised_lifetime : Z;
  sc_sequence : mu_sequence_validator_t;
  sc_out_sequence_number : Z;
  sc_is_open : bool;
  sc_policy : mu_security_policy_id_t;
  sc_mode : Z;
  sc_client_keys : mu_sym_keys_t;
  sc_server_keys : mu_sym_keys_t;
  sc_keys_valid : bool
}.

Definition requested_policy_id (security_policy : option mu_string_t) : mu_security_policy_id_t :=
  match security_policy with
  | None => MU_SECURITY_POLICY_NONE_ID
  | Some s =>
      if str_length s <=? 0 then MU_SECURITY_POLICY_NONE_ID
      else
        match str_data s with
        | None => MU_SECURITY_POLICY_INVALID_ID
        | Some d => mu_security_policy_from_uri (Some d) (str_length s)
        end
  end.

Definition is_valid_security_mode (security_mode : Z) : bool :=
  (security_mode =? MU_MESSAGE_SECURITY_MODE_NONE)
  || (security_mode =? MU_MESSAGE_SECURITY_MODE_SIGN)
  || (security_mode =? MU_MESSAGE_SECURITY_MODE_SIGN_AND_ENCRYPT).

Definition mu_secure_channel_init : mu_secure_channel_t :=
  mk_secure_channel 0 0 0 0 mu_sequence_validator_init 0 false
    MU_SECURITY_POLICY_NONE_ID MU_MESSAGE_SECURITY_MODE_NONE zero_keys zero_keys false.

(** The policy and mode checks of [mu_secure_channel_open]. *)
Definition check_open (channel : mu_secure_channel_t) (requested_policy : mu_security_policy_id_t)
    (security_mode : Z) : result unit :=
  if bool_decide (requested_policy = MU_SECURITY_POLICY_INVALID_ID)
  then Err MU_STATUS_BAD_SECURITYPOLICYREJECTED
  else if negb (is_valid_security_mode security_mode) then Err MU_STATUS_BAD_SECURITYMODEREJECTED
  else
    match sc_policy channel with
    | MU_SECURITY_POLICY_NONE_ID =>
        if negb (bool_decide (requested_policy = MU_SECURITY_POLICY_NONE_ID))
        then Err MU_STATUS_BAD_SECURITYPOLICYREJECTED
        else if negb (security_mode =? MU_MESSAGE_SECURITY_MODE_NONE)
        then Err MU_STATUS_BAD_SECURITYMODEREJECTED
        else Ok tt
    | MU_SECURITY_POLICY_BASIC256SHA256_ID
    | MU_SECURITY_POLICY_AES128_SHA256_RSAOAEP_ID
    | MU_SECURITY_POLICY_AES256_SHA256_RSAPSS_ID =>
        if negb (bool_decide (requested_policy = sc_policy channel))
        then Err MU_STATUS_BAD_SECURITYPOLICYREJECTED
        else if security_mode =? MU_MESSAGE_SECURITY_MODE_NONE
        then Err MU_STATUS_BAD_SECURITYMODEREJECTED
        else Ok tt
    | MU_SECURITY_POLICY_INVALID_ID => Err MU_STATUS_BAD_SECURITYPOLICYREJECTED
    end.

(** Delivers the revised lifetime. *)
Definition mu_secure_channel_open (security_policy : option mu_string_t)
    (security_mode requested_lifetime : Z) : M mu_secure_channel_t Z := λ channel,
  match check_open channel (requested_policy_id security_policy) security_mode with
  | Err e => (Err e, channel)
  | Fault => (Fault, channel)
  | Ok _ =>
      let '(channel_id, token_id) :=
        if negb (sc_is_open channel) then (1, 1)
        else (sc_channel_id channel, to_u32 (sc_token_id channel + 1)) in
      let lifetime := requested_lifetime in
      let lifetime := if lifetime <? 10000 then 10000 else lifetime in
      let lifetime := if 3600000 <? lifetime then 3600000 else lifetime in
      (Ok lifetime,
       mk_secure_channel channel_id token_id (sc_created_at channel) lifetime
         (sc_sequence channel) (sc_out_sequence_number channel) true
         (sc_policy channel) security_mode
         (sc_client_keys channel) (sc_server_keys channel) (sc_keys_valid channel))
  end.

(** Delivers the cipher contexts it freed. *)
Definition mu_secure_channel_close : M mu_secure_channel_t (list (list Z)) := λ channel,
  if negb (sc_is_open channel) then (Err MU_STATUS_BAD_TCPSECURECHANNELUNKNOWN, channel)
  else
    let '(freed_client, _) := mu_sym_keys_release_cipher (sc_client_keys channel) in
    let '(freed_server, _) := mu_sym_keys_release_cipher (sc_server_keys channel) in
    (Ok (freed_client ++ freed_server), mu_secure_channel_init).

(** ** Policy table facts *)

Lemma policy_uri_classified id uri :
  mu_security_policy_uri id = Some uri →
  mu_security_policy_from_uri (Some uri) (zlen uri) = id.
Proof. destruct id; intros E; vm_compute in E; simplify_eq; vm_compute; reflexivity. Qed.

(** Only the exact octets of a table URI select a policy. *)
Lemma policy_from_uri_sound uri len id :
  0 < len → mu_security_policy_from_uri (Some uri) len = id → id ≠ MU_SECURITY_POLICY_INVALID_ID →
  mu_security_policy_uri id = Some (ztake len uri).
Proof.
  intros Hl <- Hn. unfold mu_security_policy_from_uri in *.
  destruct (Z.eqb_spec len 0); [lia|].
  destruct (list_find _ POLICY_TABLE) as [[i row]|] eqn:E; [|done].
  apply list_find_Some in E as (Hi&Hu&_). unfold uri_equals in Hu. bool_hyps.
  rewrite H0. clear Hn.
  do 4 (destruct i as [|i]; cbn in Hi; [simplify_eq; vm_compute; reflexivity|]).
  done.
Qed.

(** ** Invariant of the channel *)

(** A policy a channel record may hold. *)
Definition secured (p : mu_security_policy_id_t) : Prop :=
  p = MU_SECURITY_POLICY_BASIC256SHA256_ID ∨ p = MU_SECURITY_POLICY_AES128_SHA256_RSAOAEP_ID ∨
  p = MU_SECURITY_POLICY_AES256_SHA256_RSAPSS_ID.

(** An open channel has a channel id, a bounded lifetime and a mode that
    agrees with its policy: no protection exactly under policy None. *)
Definition channel_inv (c : mu_secure_channel_t) : Prop :=
  if sc_is_open c then
    sc_channel_id c = 1 ∧ u32_range (sc_token_id c) ∧
    10000 ≤ sc_revised_lifetime c ≤ 3600000 ∧
    ((sc_policy c = MU_SECURITY_POLICY_NONE_ID ∧ sc_mode c = MU_MESSAGE_SECURITY_MODE_NONE) ∨
     (secured (sc_policy c) ∧
      (sc_mode c = MU_MESSAGE_SECURITY_MODE_SIGN ∨
       sc_mode c = MU_MESSAGE_SECURITY_MODE_SIGN_AND_ENCRYPT)))
  else True.

Lemma check_open_ok c p mode : check_open c p mode = Ok tt ↔
  (sc_policy c = MU_SECURITY_POLICY_NONE_ID ∧ p = MU_SECURITY_POLICY_NONE_ID ∧
   mode = MU_MESSAGE_SECURITY_MODE_NONE) ∨
  (secured (sc_policy c) ∧ p = sc_policy c ∧
   (mode = MU_MESSAGE_SECURITY_MODE_SIGN ∨ mode = MU_MESSAGE_SECURITY_MODE_SIGN_AND_ENCRYPT)).
Proof.
  unfold check_open, is_valid_security_mode, secured,
    MU_MESSAGE_SECURITY_MODE_NONE, MU_MESSAGE_SECURITY_MODE_SIGN,
    MU_MESSAGE_SECURITY_MODE_SIGN_AND_ENCRYPT.
  destruct (Z.eqb_spec mode 1) as [E1|E1], (Z.eqb_spec mode 2) as [E2|E2],
    (Z.eqb_spec mode 3) as [E3|E3]; try (exfalso; lia);
    destruct (sc_policy c), p; cbn; split; intros H; try done;
    repeat match goal with H : _ ∨ _ |- _ => destruct H | H : _ ∧ _ |- _ => destruct H end;
    subst; try done; try lia; auto 10.
Qed.

(** ** Properties *)

(** C22: opening (or renewing) a SecureChannel succeeds exactly for the
    requests that match the channel's policy with an admissible mode; it then
    establishes the channel invariant with a lifetime clamped to ten seconds
    up to one hour, a renewal advances the token id modulo 2^32, and a refused
    request leaves the channel unchanged. *)
Theorem secure_channel_open_spec c policy mode lifetime :
  u32_range (sc_token_id c) → (sc_is_open c = true → sc_channel_id c = 1) →
  let p := requested_policy_id policy in
  let admissible :=
    (sc_policy c = MU_SECURITY_POLICY_NONE_ID ∧ p = MU_SECURITY_POLICY_NONE_ID ∧
     mode = MU_MESSAGE_SECURITY_MODE_NONE) ∨
    (secured (sc_policy c) ∧ p = sc_policy c ∧
     (mode = MU_MESSAGE_SECURITY_MODE_SIGN ∨ mode = MU_MESSAGE_SECURITY_MODE_SIGN_AND_ENCRYPT)) in
  match mu_secure_channel_open policy mode lifetime c with
  | (Ok revised, c') => admissible ∧ channel_inv c' ∧ sc_is_open c' = true ∧
      sc_policy c' = sc_policy c ∧ sc_mode c' = mode ∧
      revised = Z.min 3600000 (Z.max 10000 lifetime) ∧ sc_revised_lifetime c' = revised ∧
      sc_token_id c' = (if sc_is_open c then to_u32 (sc_token_id c + 1) else 1) ∧
      sc_sequence c' = sc_sequence c
  | (Err s, c') => ¬ admissible ∧ c' = c ∧
      (s = MU_STATUS_BAD_SECURITYPOLICYREJECTED ∨ s = MU_STATUS_BAD_SECURITYMODEREJECTED)
  | (Fault, _) => False
  end.
Proof.
  intros Ht Hid p admissible. unfold mu_secure_channel_open. fold p.
  pose proof (check_open_ok c p mode) as Hc. change (check_open c p mode = Ok tt ↔ admissible) in Hc.
  destruct (check_open c p mode) as [[]|e|] eqn:E.
  - assert (Hadm : admissible) by (by apply Hc).
    assert (u32_range (to_u32 (sc_token_id c + 1))) as Ht' by (apply (to_unsigned_range 32); lia).
    set (l := if 3600000 <? (if lifetime <? 10000 then 10000 else lifetime) then 3600000
              else if lifetime <? 10000 then 10000 else lifetime).
    assert (l = Z.min 3600000 (Z.max 10000 lifetime)) as Hl.
    { subst l. destruct (Z.ltb_spec lifetime 10000);
        [cbn|destruct (Z.ltb_spec 3600000 lifetime)]; lia. }
    assert ((sc_policy c = MU_SECURITY_POLICY_NONE_ID ∧ mode = MU_MESSAGE_SECURITY_MODE_NONE) ∨
     (secured (sc_policy c) ∧ (mode = MU_MESSAGE_SECURITY_MODE_SIGN ∨
       mode = MU_MESSAGE_SECURITY_MODE_SIGN_AND_ENCRYPT))) by (unfold admissible in Hadm; tauto).
    destruct (sc_is_open c); cbn [negb]; fold l; rewrite Hl;
      (split; [exact Hadm|]); unfold channel_inv; cbn; ranges; split_and!; auto; try lia; done.
  - split; [rewrite <-Hc; done|]. split; [done|].
    unfold check_open in E. repeat case_match; simplify_eq; auto.
  - unfold check_open in E. repeat case_match; simplify_eq.
Qed.

Lemma secure_channel_open_spec_witness :
  match mu_secure_channel_open (Some (mk_string 47 (Some POLICY_NONE_URI))) 1 5 mu_secure_channel_init with
  | (Ok revised, c') => revised = 10000 ∧ channel_inv c'
  | _ => False
  end.
Proof.
  pose proof (secure_channel_open_spec mu_secure_channel_init
    (Some (mk_string 47 (Some POLICY_NONE_URI))) 1 5 ltac:(by vm_compute) ltac:(done)) as H.
  cbv zeta in H.
  destruct (mu_secure_channel_open (Some (mk_string 47 (Some POLICY_NONE_URI))) 1 5
    mu_secure_channel_init) as [[revised|e|] c'] eqn:E;
    [|vm_compute in E; discriminate E|vm_compute in E; discriminate E].
  destruct H as (_&Hi&_&_&_&Hr&_). split; [exact Hr|exact Hi].
Defined.

(** Closing an open channel resets it to the initial state with every
    key octet zero, and hands each live cipher context to the adapter exactly
    once; closing a channel that is not open changes nothing. *)
Theorem secure_channel_close_wipes c :
  match mu_secure_channel_close c with
  | (Ok freed, c') => sc_is_open c = true ∧ c' = mu_secure_channel_init ∧
      Forall (eq 0) (sk_signing_key (sc_client_keys c')) ∧
      Forall (eq 0) (sk_encrypting_key (sc_client_keys c')) ∧
      Forall (eq 0) (sk_signing_key (sc_server_keys c')) ∧
      Forall (eq 0) (sk_encrypting_key (sc_server_keys c')) ∧
      freed = (mu_sym_keys_release_cipher (sc_client_keys c)).1
              ++ (mu_sym_keys_release_cipher (sc_server_keys c)).1
  | (Err s, c') => sc_is_open c = false ∧ c' = c ∧ s = MU_STATUS_BAD_TCPSECURECHANNELUNKNOWN
  | (Fault, _) => False
  end.
Proof.
  unfold mu_secure_channel_close. destruct (sc_is_open c); cbn [negb]; [|done].
  cbn. split_and!; try done; repeat (constructor; [done|]); constructor.
Qed.

(** a SecurityPolicyUri selects a policy only by its exact octets, and
    every URI the server publishes selects the policy it was published for. *)
Theorem policy_uri_exact uri len :
  0 < len →
  (∀ id, mu_security_policy_from_uri (Some uri) len = id → id ≠ MU_SECURITY_POLICY_INVALID_ID →
    mu_security_policy_uri id = Some (ztake len uri)) ∧
  (∀ id u, mu_security_policy_uri id = Some u →
    mu_security_policy_from_uri (Some u) (zlen u) = id).
Proof.
  intros Hl. split; [|apply policy_uri_classified].
  intros id. by apply policy_from_uri_sound.
Qed.

Lemma policy_uri_exact_witness :
  mu_security_policy_from_uri (Some POLICY_AES256_PSS_URI) (zlen POLICY_AES256_PSS_URI)
  = MU_SECURITY_POLICY_AES256_SHA256_RSAPSS_ID.
Proof.
  apply (proj2 (policy_uri_exact [104] 1 ltac:(lia))). vm_compute. reflexivity.
Defined.
