(* ===== verification/Session.v ===== *)
(** * Sessions

    [src/services/session.c]: timeout revision by integer arithmetic on IEEE
    754 bit patterns, identifier generation, and the life cycle of a session
    slot; the slot allocation of [handle_create_session]
    ([src/core/service_dispatch.c]); the invariant of the session table. *)

From S2P Require Export SecureChannel.

(** ** Timeouts *)

Definition MU_SESSION_TIMEOUT_MIN_BITS : Z := 0x40c3880000000000.
Definition MU_SESSION_TIMEOUT_MAX_BITS : Z := 0x414b774000000000.
Definition MU_DOUBLE_SIGN_BIT : Z := 0x8000000000000000.

Definition clamp_timeout_bits (bits : Z) : Z :=
  if negb (Z.land bits MU_DOUBLE_SIGN_BIT =? 0) then MU_SESSION_TIMEOUT_MIN_BITS
  else if bits <? MU_SESSION_TIMEOUT_MIN_BITS then MU_SESSION_TIMEOUT_MIN_BITS
  else if MU_SESSION_TIMEOUT_MAX_BITS <? bits then MU_SESSION_TIMEOUT_MAX_BITS
  else bits.

(** A 64-bit shift by 64 or more is undefined. *)
Definition duration_bits_to_ms (bits : Z) : result Z :=
  let exponent := to_u32 (Z.land (Z.shiftr bits 52) 0x7FF) in
  let fraction := Z.land bits 0x000FFFFFFFFFFFFF in
  let mantissa := Z.lor (Z.shiftl 1 52) fraction in
  let unbiased := to_u32 (exponent - 1023) in
  if 52 <=? unbiased then
    if 64 <=? unbiased - 52 then Fault
    else Ok (to_u32 (to_u64 (Z.shiftl mantissa (unbiased - 52))))
  else Ok (to_u32 (Z.shiftr mantissa (52 - unbiased))).

(** ** Session slots *)

Inductive mu_session_state_t :=
| MU_SESSION_STATE_CLOSED
| MU_SESSION_STATE_CREATED
| MU_SESSION_STATE_ACTIVATED.

#[export] Instance mu_session_state_eq_dec : EqDecision mu_session_state_t.
Proof. solve_decision. Defined.

Record mu_session_t := mk_session {
  ss_state : mu_session_state_t;
  ss_session_id : Z;
  ss_auth_token : Z;
  ss_revised_session_timeout_ms : Z;
  ss_server_nonce : list Z;
  ss_secure_channel_id : Z
}.

Definition mu_session_init : mu_session_t :=
  mk_session MU_SESSION_STATE_CLOSED 0 0 0 (repeat 0 32) 0.

Definition is_open_slot (s : mu_session_t) : bool :=
  negb (bool_decide (ss_state s = MU_SESSION_STATE_CLOSED)).

(** First slot satisfying [p] among the first [count]; a pointer into the
    array is its index. *)
Fixpoint find_slot (p : mu_session_t → bool) (sessions : list mu_session_t) (i : Z) : option Z :=
  match sessions with
  | [] => None
  | s :: rest => if p s then Some i else find_slot p rest (i + 1)
  end.

Definition mu_session_find_by_token (sessions : list mu_session_t) (count auth_token : Z) : option Z :=
  find_slot (λ s, is_open_slot s && (ss_auth_token s =? auth_token)) (ztake count sessions) 0.

Definition mu_session_find_free (sessions : list mu_session_t) (count : Z) : option Z :=
  find_slot (λ s, bool_decide (ss_state s = MU_SESSION_STATE_CLOSED)) (ztake count sessions) 0.

Definition session_id_active (sessions : list mu_session_t) (count session_id : Z) : bool :=
  existsb (λ s, is_open_slot s && (ss_session_id s =? session_id)) (ztake count sessions).

Definition authentication_token_active (sessions : list mu_session_t) (count auth_token : Z) : bool :=
  existsb (λ s, is_open_slot s && (ss_auth_token s =? auth_token)) (ztake count sessions).

(** ** Identifier generation

    [entropy] is [generate_random]: [None] is a NULL function pointer, and
    [Some f] delivers the requested octets or a status. *)
Definition entropy_t : Type := option (Z → result (list Z)).

(** The salt loop both generators share. *)
Fixpoint salt_loop (candidate : Z → Z) (active : Z → bool) (salt : Z) (n : nat) : option Z :=
  match n with
  | O => None
  | S n => if negb (active (candidate salt)) then Some (candidate salt)
           else salt_loop candidate active (salt + 1) n
  end.

Definition session_id_candidate (base salt : Z) : Z :=
  let candidate := Z.lxor base (to_u32 (0x9E3779B9 * to_u32 salt)) in
  if candidate =? 0 then Z.lxor 0x85EBCA6B (to_u32 salt) else candidate.

Definition auth_token_candidate (base salt : Z) : Z :=
  let candidate := to_u32 (Z.lxor base 0xA5A5A5A5 + to_u32 (0x9E3779B9 * to_u32 salt)) in
  if candidate =? 0 then Z.lxor 0xC2B2AE35 (to_u32 salt) else candidate.

Definition draw_base (entropy : entropy_t) : result Z :=
  match entropy with
  | None => Err MU_STATUS_BAD_SECURITYCHECKSFAILED
  | Some generate_random =>
      match generate_random 4 with
      | Ok random => load_u32 random 0
      | Err _ => Err MU_STATUS_BAD_SECURITYCHECKSFAILED
      | Fault => Fault
      end
  end.

Definition mu_session_generate_session_id (sessions : list mu_session_t) (count : Z)
    (entropy : entropy_t) : result Z :=
  base ← draw_base entropy;
  match salt_loop (session_id_candidate base) (session_id_active sessions count) 0
          (S (Z.to_nat count)) with
  | Some candidate => Ok candidate
  | None => Err MU_STATUS_BAD_SECURITYCHECKSFAILED
  end.

Definition mu_session_generate_authentication_token (sessions : list mu_session_t) (count : Z)
    (entropy : entropy_t) : result Z :=
  base ← draw_base entropy;
  match salt_loop (auth_token_candidate base) (authentication_token_active sessions count) 0
          (S (Z.to_nat count)) with
  | Some candidate => Ok candidate
  | None => Err MU_STATUS_BAD_SECURITYCHECKSFAILED
  end.

Definition mu_session_generate_server_nonce (entropy : entropy_t) (server_nonce_len : Z)
    : result (list Z) :=
  match entropy with
  | None => Err MU_STATUS_BAD_SECURITYCHECKSFAILED
  | Some generate_random =>
      if server_nonce_len =? 0 then Err MU_STATUS_BAD_SECURITYCHECKSFAILED
      else
        match generate_random server_nonce_len with
        | Ok nonce => Ok nonce
        | Err _ => Err MU_STATUS_BAD_SECURITYCHECKSFAILED
        | Fault => Fault
        end
  end.

(** ** Life cycle of a slot *)

(** Delivers the revised timeout bits, the session id and the token. *)
Definition mu_session_create_with_identifiers (requested_timeout_bits assigned_session_id
    assigned_auth_token creating_secure_channel_id : Z) : M mu_session_t (Z * Z * Z) := λ session,
  if negb (bool_decide (ss_state session = MU_SESSION_STATE_CLOSED))
  then (Err MU_STATUS_BAD_INTERNALERROR, session)
  else
    let revised := clamp_timeout_bits requested_timeout_bits in
    match duration_bits_to_ms revised with
    | Ok ms =>
        (Ok (revised, assigned_session_id, assigned_auth_token),
         mk_session MU_SESSION_STATE_CREATED assigned_session_id assigned_auth_token ms
           (ss_server_nonce session) creating_secure_channel_id)
    | Err e => (Err e, session)
    | Fault => (Fault, session)
    end.

Definition mu_session_create (requested_timeout_bits : Z) : M mu_session_t (Z * Z * Z) :=
  mu_session_create_with_identifiers requested_timeout_bits 1 12345 0.

Definition mu_session_validate_secure_channel (session : mu_session_t)
    (active_secure_channel_id : Z) : result unit :=
  if negb (ss_secure_channel_id session =? active_secure_channel_id)
  then Err MU_STATUS_BAD_SECURECHANNELIDINVALID
  else Ok tt.

Definition set_state (s : mu_session_t) (st : mu_session_state_t) : mu_session_t :=
  mk_session st (ss_session_id s) (ss_auth_token s) (ss_revised_session_timeout_ms s)
    (ss_server_nonce s) (ss_secure_channel_id s).

Definition mu_session_activate (auth_token identity_token_encoding_id : Z) : M mu_session_t unit := λ session,
  if negb (bool_decide (ss_state session = MU_SESSION_STATE_CREATED))
     && negb (bool_decide (ss_state session = MU_SESSION_STATE_ACTIVATED))
  then (Err MU_STATUS_BAD_SESSIONIDINVALID, session)
  else if negb (ss_auth_token session =? auth_token)
  then (Err MU_STATUS_BAD_SESSIONIDINVALID, session)
  else if negb (identity_token_encoding_id =? 321) && negb (identity_token_encoding_id =? 324)
          && negb (identity_token_encoding_id =? 327)
  then (Err MU_STATUS_BAD_IDENTITYTOKENINVALID, session)
  else (Ok tt, set_state session MU_SESSION_STATE_ACTIVATED).

Definition mu_session_close (auth_token : Z) (delete_subscriptions : bool) : M mu_session_t unit := λ session,
  if bool_decide (ss_state session = MU_SESSION_STATE_CLOSED)
  then (Err MU_STATUS_BAD_SESSIONIDINVALID, session)
  else if negb (ss_auth_token session =? auth_token)
  then (Err MU_STATUS_BAD_SESSIONIDINVALID, session)
  else (Ok tt, mu_session_init).

(** ** Allocation of a slot ([handle_create_session])

    The part of the handler that picks a slot, draws the nonce and the two
    identifiers and creates the session; delivers the slot, the revised
    timeout with the identifiers, and the nonce. The three draws of the
    entropy source are separate arguments because the source is stateful. *)
Definition MU_SERVER_NONCE_LENGTH : Z := 32.

Definition allocate_session (count : Z) (nonce_entropy id_entropy token_entropy : entropy_t)
    (requested_bits channel_id : Z) : M (list mu_session_t) (Z * (Z * Z * Z) * list Z) := λ sessions,
  match mu_session_generate_server_nonce nonce_entropy MU_SERVER_NONCE_LENGTH with
  | Err e => (Err e, sessions)
  | Fault => (Fault, sessions)
  | Ok nonce =>
      match mu_session_find_free sessions count with
      | None => (Err MU_STATUS_BAD_TOOMANYSESSIONS, sessions)
      | Some slot =>
          match (session_id ← mu_session_generate_session_id sessions count id_entropy;
                 auth_token ← mu_session_generate_authentication_token sessions count token_entropy;
                 mret (session_id, auth_token) : result (Z * Z)) with
          | Err e => (Err e, sessions)
          | Fault => (Fault, sessions)
          | Ok (session_id, auth_token) =>
              match znth sessions slot with
              | None => (Fault, sessions)
              | Some s =>
                  match mu_session_create_with_identifiers requested_bits session_id auth_token
                          channel_id s with
                  | (Ok ids, s') => (Ok (slot, ids, nonce), <[Z.to_nat slot := s']> sessions)
                  | (Err e, _) => (Err e, sessions)
                  | (Fault, _) => (Fault, sessions)
                  end
              end
          end
      end
  end.

(** ** Timeout arithmetic *)

Lemma clamp_timeout_range bits :
  MU_SESSION_TIMEOUT_MIN_BITS ≤ clamp_timeout_bits bits ≤ MU_SESSION_TIMEOUT_MAX_BITS.
Proof.
  unfold clamp_timeout_bits, MU_SESSION_TIMEOUT_MIN_BITS, MU_SESSION_TIMEOUT_MAX_BITS.
  destruct (negb _); [lia|].
  destruct (Z.ltb_spec bits 4666723172467343360); [lia|].
  destruct (Z.ltb_spec 4704985352480227328 bits); lia.
Qed.

(** Exponent and fraction fields of a non-negative double. *)
Lemma double_fields bits : 0 ≤ bits < 2 ^ 63 →
  to_u32 (Z.land (Z.shiftr bits 52) 0x7FF) = bits / 2 ^ 52 ∧
  Z.lor (Z.shiftl 1 52) (Z.land bits 0x000FFFFFFFFFFFFF) = 2 ^ 52 + bits mod 2 ^ 52.
Proof.
  intros Hb. change 0x7FF with (Z.ones 11). change 0x000FFFFFFFFFFFFF with (Z.ones 52).
  rewrite !Z.land_ones, Z.shiftr_div_pow2 by lia. split.
  - assert (0 ≤ bits / 2 ^ 52 < 2 ^ 11) by
      (split; [apply Z.div_pos; lia|apply Z.div_lt_upper_bound; lia]).
    rewrite Z.mod_small by lia. apply to_unsigned_id. norm_pow. lia.
  - rewrite Z.lor_comm, lor_shiftl_add; [lia|lia|]. apply Z.mod_pos_bound. lia.
Qed.

(** [duration_bits_to_ms] truncates the double [mantissa * 2^(exponent-1075)]
    to an integer number of milliseconds. *)
Lemma duration_bits_to_ms_floor bits :
  MU_SESSION_TIMEOUT_MIN_BITS ≤ bits ≤ MU_SESSION_TIMEOUT_MAX_BITS →
  duration_bits_to_ms bits
  = Ok ((2 ^ 52 + bits mod 2 ^ 52) / 2 ^ (1075 - bits / 2 ^ 52)) ∧
  10000 ≤ (2 ^ 52 + bits mod 2 ^ 52) / 2 ^ (1075 - bits / 2 ^ 52) ≤ 3600000.
Proof.
  unfold MU_SESSION_TIMEOUT_MIN_BITS, MU_SESSION_TIMEOUT_MAX_BITS. intros Hb.
  unfold duration_bits_to_ms. destruct (double_fields bits) as [-> ->]; [lia|].
  pose proof (Z.div_mod bits (2 ^ 52) ltac:(lia)) as Hdm.
  pose proof (Z.mod_pos_bound bits (2 ^ 52) ltac:(lia)) as Hm.
  generalize dependent (bits / 2 ^ 52). intros e Hdm.
  generalize dependent (bits mod 2 ^ 52). intros f Hdm Hm. norm_pow.
  assert (1036 ≤ e ≤ 1044) as He by lia.
  rewrite (to_unsigned_id 32 (e - 1023)) by lia.
  destruct (Z.leb_spec 52 (e - 1023)); [lia|].
  rewrite Z.shiftr_div_pow2 by lia. replace (52 - (e - 1023)) with (1075 - e) by lia.
  assert (10000 ≤ (4503599627370496 + f) / 2 ^ (1075 - e) ≤ 3600000) as Hr.
  { assert (e = 1036 ∨ e = 1037 ∨ e = 1038 ∨ e = 1039 ∨ e = 1040 ∨ e = 1041 ∨ e = 1042 ∨
      e = 1043 ∨ e = 1044) as Hcases by lia.
    clear He. repeat destruct Hcases as [Hcases|Hcases]; rewrite Hcases in *;
      match goal with |- context [2 ^ ?k] =>
        let v := eval vm_compute in (2 ^ k) in change (2 ^ k) with v end;
      (split; [apply Z.div_le_lower_bound; lia|];
       apply Z.lt_succ_r, Z.div_lt_upper_bound; lia). }
  rewrite to_unsigned_id by lia. done.
Qed.

(** ** Identifier generation *)

Lemma salt_loop_sound cand active salt n c :
  salt_loop cand active salt n = Some c →
  active c = false ∧ ∃ k, salt ≤ k < salt + Z.of_nat n ∧ c = cand k.
Proof.
  revert salt; induction n as [|n IH]; intros salt E; [done|]. cbn in E.
  destruct (active (cand salt)) eqn:Ea; cbn in E.
  - destruct (IH _ E) as [? (k&?&?)]. split; [done|]. exists k. split; [lia|done].
  - simplify_eq. split; [done|]. exists salt. split; [lia|done].
Qed.

Lemma salt_loop_none cand active salt n :
  salt_loop cand active salt n = None →
  ∀ k, salt ≤ k < salt + Z.of_nat n → active (cand k) = true.
Proof.
  revert salt; induction n as [|n IH]; intros salt E k Hk; [lia|]. cbn in E.
  destruct (active (cand salt)) eqn:Ea; cbn in E; [|done].
  destruct (decide (k = salt)) as [->|]; [done|]. apply (IH (salt + 1)); [done|lia].
Qed.

(** The multiplier of the salt is odd, hence invertible modulo 2^32. *)
Lemma golden_inj x y : u32_range x → u32_range y →
  to_u32 (0x9E3779B9 * x) = to_u32 (0x9E3779B9 * y) → x = y.
Proof.
  intros Hx Hy E. zify_ints.
  apply (f_equal (λ z, (340573321 * z) mod 4294967296)) in E.
  rewrite !Z.mul_mod_idemp_r, !Z.mul_assoc in E by lia.
  rewrite <-(Z.mul_mod_idemp_l (340573321 * 2654435769) x),
          <-(Z.mul_mod_idemp_l (340573321 * 2654435769) y) in E by lia.
  change ((340573321 * 2654435769) mod 4294967296) with 1 in E.
  rewrite !Z.mul_1_l, !Z.mod_small in E by lia. done.
Qed.

Lemma lxor_inj a x y : Z.lxor a x = Z.lxor a y → x = y.
Proof.
  intros E. apply (f_equal (Z.lxor a)) in E.
  by rewrite <-!Z.lxor_assoc, Z.lxor_nilpotent, !Z.lxor_0_l in E.
Qed.

(** [n + 1] salts with an injective hash cannot all collide with fewer than
    [n] active identifiers, even when one hash is 0 and is replaced. *)
Lemma salt_pigeonhole (raw : Z → Z) ids (n : Z) : 0 ≤ n →
  (∀ x y, 0 ≤ x ≤ n → 0 ≤ y ≤ n → raw x = raw y → x = y) →
  (∀ k, 0 ≤ k ≤ n → raw k ≠ 0 → raw k ∈ ids) →
  n ≤ zlen ids.
Proof.
  intros Hn Hinj Hin.
  assert (NoDup (raw <$> seqZ 0 (n + 1))) as Hnd.
  { apply NoDup_fmap_2_strong; [|apply NoDup_seqZ]. intros x y Hx Hy.
    rewrite elem_of_seqZ in Hx. rewrite elem_of_seqZ in Hy. apply Hinj; lia. }
  apply (NoDup_submseteq _ (0 :: ids)) in Hnd.
  - apply submseteq_length in Hnd. rewrite length_fmap, length_seqZ in Hnd. cbn in Hnd.
    unfold zlen. lia.
  - intros x Hx. apply list_elem_of_fmap in Hx as (k&->&Hk). rewrite elem_of_seqZ in Hk.
    destruct (decide (raw k = 0)) as [->|]; [by left|right]. apply Hin; [lia|done].
Qed.

Definition open_slots (t : list mu_session_t) : list mu_session_t :=
  filter (λ s, is_open_slot s = true) t.

Lemma open_slots_lt t s : s ∈ t → ss_state s = MU_SESSION_STATE_CLOSED →
  zlen (open_slots t) < zlen t.
Proof.
  intros Hs Hc. unfold open_slots, zlen. apply inj_lt.
  apply (length_filter_lt _ _ s); [done|]. unfold is_open_slot. by rewrite Hc.
Qed.

Lemma existsb_open (f : mu_session_t → Z) t x :
  existsb (λ s, is_open_slot s && (f s =? x)) t = true ↔ x ∈ f <$> open_slots t.
Proof.
  rewrite existsb_exists, list_elem_of_fmap. unfold open_slots. split.
  - intros (s&Hs&Hb). bool_hyps. exists s. split; [done|].
    apply list_elem_of_filter. split; [done|]. by apply list_elem_of_In.
  - intros (s&->&Hs). apply list_elem_of_filter in Hs as [Ho Hs]. exists s.
    split; [by apply list_elem_of_In|]. by rewrite Ho, Z.eqb_refl.
Qed.

(** A salted search over the slot array finds an unused identifier whenever a
    slot is free. *)
Lemma salt_search_succeeds (raw cand : Z → Z) (f : mu_session_t → Z) t (count : Z) :
  0 ≤ count → zlen t = count → (∃ s, s ∈ t ∧ ss_state s = MU_SESSION_STATE_CLOSED) →
  (∀ x y, 0 ≤ x ≤ count → 0 ≤ y ≤ count → raw x = raw y → x = y) →
  (∀ k, raw k ≠ 0 → cand k = raw k) →
  ∃ c, salt_loop cand (λ x, existsb (λ s, is_open_slot s && (f s =? x)) (ztake count t)) 0
         (S (Z.to_nat count)) = Some c.
Proof.
  intros Hc Hl (s&Hs&Hcl) Hinj Hcand.
  destruct (salt_loop _ _ _ _) as [c|] eqn:E; [by exists c|]. exfalso.
  pose proof (salt_loop_none _ _ _ _ E) as Hall.
  assert (ztake count t = t) as Ht.
  { unfold ztake. rewrite <-Hl. unfold zlen. by rewrite Nat2Z.id, take_ge by lia. }
  rewrite Ht in Hall.
  assert (count ≤ zlen (f <$> open_slots t)) as Hle.
  { apply (salt_pigeonhole raw); [done|done|]. intros k Hk Hne.
    apply existsb_open. rewrite <-(Hcand k Hne). apply Hall. lia. }
  pose proof (open_slots_lt t s Hs Hcl).
  assert (zlen (f <$> open_slots t) = zlen (open_slots t)) by (unfold zlen; by rewrite length_fmap).
  lia.
Qed.

Lemma session_id_raw_inj base count x y : count < 65536 → 0 ≤ x ≤ count → 0 ≤ y ≤ count →
  Z.lxor base (to_u32 (0x9E3779B9 * to_u32 x)) = Z.lxor base (to_u32 (0x9E3779B9 * to_u32 y)) → x = y.
Proof.
  intros Hc Hx Hy E. rewrite (to_unsigned_id 32 x), (to_unsigned_id 32 y) in E by lia.
  apply lxor_inj in E. apply golden_inj in E; [done|ranges; lia|ranges; lia].
Qed.

Lemma auth_token_raw_inj b count x y : count < 65536 → 0 ≤ x ≤ count → 0 ≤ y ≤ count →
  to_u32 (b + to_u32 (0x9E3779B9 * to_u32 x)) = to_u32 (b + to_u32 (0x9E3779B9 * to_u32 y)) → x = y.
Proof.
  intros Hc Hx Hy E. rewrite (to_unsigned_id 32 x), (to_unsigned_id 32 y) in E by lia.
  apply golden_inj; [ranges; lia|ranges; lia|].
  pose proof (to_unsigned_range 32 (0x9E3779B9 * x) ltac:(lia)) as H1.
  pose proof (to_unsigned_range 32 (0x9E3779B9 * y) ltac:(lia)) as H2.
  generalize dependent (to_u32 (0x9E3779B9 * x)). generalize dependent (to_u32 (0x9E3779B9 * y)).
  intros q Hq p E Hp. unfold to_unsigned in E. norm_pow.
  pose proof (Z.div_mod (b + p) 4294967296 ltac:(lia)).
  pose proof (Z.div_mod (b + q) 4294967296 ltac:(lia)). lia.
Qed.

Lemma session_id_candidate_nonzero base k : 0 ≤ k < 65536 → session_id_candidate base k ≠ 0.
Proof.
  intros Hk. unfold session_id_candidate. cbv zeta.
  destruct (Z.eqb_spec (Z.lxor base (to_u32 (0x9E3779B9 * to_u32 k))) 0); [|done].
  rewrite to_unsigned_id by lia. intros E%Z.lxor_eq. lia.
Qed.

Lemma auth_token_candidate_nonzero base k : 0 ≤ k < 65536 → auth_token_candidate base k ≠ 0.
Proof.
  intros Hk. unfold auth_token_candidate. cbv zeta.
  destruct (Z.eqb_spec (to_u32 (Z.lxor base 0xA5A5A5A5 + to_u32 (0x9E3779B9 * to_u32 k))) 0); [|done].
  rewrite to_unsigned_id by lia. intros E%Z.lxor_eq. lia.
Qed.

(** An entropy source that answers every request with that many octets. *)
Definition entropy_works (e : entropy_t) : Prop :=
  ∃ f, e = Some f ∧ ∀ n, 0 ≤ n → ∃ bs, f n = Ok bs ∧ bytes_ok bs ∧ zlen bs = n.

Lemma draw_base_works e : entropy_works e → ∃ base, draw_base e = Ok base.
Proof.
  intros (f&->&Hf). destruct (Hf 4 ltac:(lia)) as (bs&E&Hb&Hl). cbn. rewrite E.
  destruct (load_u32_safe bs 0 Hb ltac:(lia) ltac:(lia)) as (x&->&_). eauto.
Qed.

Lemma generate_session_id_fresh t count e id : 0 ≤ count < 65535 →
  mu_session_generate_session_id t count e = Ok id →
  id ≠ 0 ∧ session_id_active t count id = false.
Proof.
  intros Hc. unfold mu_session_generate_session_id.
  destruct (draw_base e) as [base|x|]; [|done..]. cbn [mbind result_bind].
  destruct (salt_loop _ _ _ _) as [c|] eqn:E; [|done]. intros [= <-].
  apply salt_loop_sound in E as [Ha (k&Hk&->)]. split; [|done].
  apply session_id_candidate_nonzero. lia.
Qed.

Lemma generate_auth_token_fresh t count e tok : 0 ≤ count < 65535 →
  mu_session_generate_authentication_token t count e = Ok tok →
  tok ≠ 0 ∧ authentication_token_active t count tok = false.
Proof.
  intros Hc. unfold mu_session_generate_authentication_token.
  destruct (draw_base e) as [base|x|]; [|done..]. cbn [mbind result_bind].
  destruct (salt_loop _ _ _ _) as [c|] eqn:E; [|done]. intros [= <-].
  apply salt_loop_sound in E as [Ha (k&Hk&->)]. split; [|done].
  apply auth_token_candidate_nonzero. lia.
Qed.

Lemma generate_session_id_succeeds t count e :
  0 ≤ count < 65536 → zlen t = count → (∃ s, s ∈ t ∧ ss_state s = MU_SESSION_STATE_CLOSED) →
  entropy_works e → ∃ id, mu_session_generate_session_id t count e = Ok id.
Proof.
  intros Hc Hl Hfree He. destruct (draw_base_works e He) as [base Hb].
  unfold mu_session_generate_session_id. rewrite Hb. cbn [mbind result_bind].
  edestruct (salt_search_succeeds
    (λ k, Z.lxor base (to_u32 (0x9E3779B9 * to_u32 k))) (session_id_candidate base) ss_session_id
    t count) as [c Ec]; [lia|done|done| | |].
  - intros x y. apply (session_id_raw_inj base count). lia.
  - intros k Hk. unfold session_id_candidate. cbv zeta. cbn in Hk.
    destruct (Z.eqb_spec (Z.lxor base (to_u32 (0x9E3779B9 * to_u32 k))) 0); done.
  - unfold session_id_active. rewrite Ec. eauto.
Qed.

Lemma generate_auth_token_succeeds t count e :
  0 ≤ count < 65536 → zlen t = count → (∃ s, s ∈ t ∧ ss_state s = MU_SESSION_STATE_CLOSED) →
  entropy_works e → ∃ tok, mu_session_generate_authentication_token t count e = Ok tok.
Proof.
  intros Hc Hl Hfree He. destruct (draw_base_works e He) as [base Hb].
  unfold mu_session_generate_authentication_token. rewrite Hb. cbn [mbind result_bind].
  edestruct (salt_search_succeeds
    (λ k, to_u32 (Z.lxor base 0xA5A5A5A5 + to_u32 (0x9E3779B9 * to_u32 k)))
    (auth_token_candidate base) ss_auth_token t count) as [c Ec]; [lia|done|done| | |].
  - intros x y. apply (auth_token_raw_inj (Z.lxor base 0xA5A5A5A5) count). lia.
  - intros k Hk. unfold auth_token_candidate. cbv zeta. cbn in Hk.
    destruct (Z.eqb_spec (to_u32 (Z.lxor base 0xA5A5A5A5 + to_u32 (0x9E3779B9 * to_u32 k))) 0); done.
  - unfold authentication_token_active. rewrite Ec. eauto.
Qed.

(** ** The session table *)

(** Every open slot has non-zero identifiers and a bounded timeout, and no two
    open slots share a session id or an authentication token. *)
Definition slot_ok (s : mu_session_t) : Prop :=
  ss_session_id s ≠ 0 ∧ ss_auth_token s ≠ 0 ∧
  10000 ≤ ss_revised_session_timeout_ms s ≤ 3600000.

Definition table_inv (t : list mu_session_t) : Prop :=
  (∀ i s, t !! i = Some s → is_open_slot s = true → slot_ok s) ∧
  (∀ i j s s', t !! i = Some s → t !! j = Some s' →
     is_open_slot s = true → is_open_slot s' = true →
     ss_session_id s = ss_session_id s' ∨ ss_auth_token s = ss_auth_token s' → i = j).

(** What the server does to the table: the slot allocation of CreateSession
    and the nonce it stores afterwards, activation, CloseSession, and the
    reset of a slot when its connection goes away. *)
Inductive table_step (count : Z) : list mu_session_t → list mu_session_t → Prop :=
| step_create t t' ne ie te bits ch x :
    allocate_session count ne ie te bits ch t = (Ok x, t') → table_step count t t'
| step_nonce t (i : nat) s nonce :
    t !! i = Some s →
    table_step count t (<[i := mk_session (ss_state s) (ss_session_id s) (ss_auth_token s)
      (ss_revised_session_timeout_ms s) nonce (ss_secure_channel_id s)]> t)
| step_activate t (i : nat) s s' tok enc :
    t !! i = Some s → mu_session_activate tok enc s = (Ok tt, s') →
    table_step count t (<[i := s']> t)
| step_close t (i : nat) s s' tok del :
    t !! i = Some s → mu_session_close tok del s = (Ok tt, s') →
    table_step count t (<[i := s']> t)
| step_drop t (i : nat) : table_step count t (<[i := mu_session_init]> t).

(** Replacing a slot by one with the same identifiers, or closing it, keeps
    the invariant. *)
Lemma table_inv_update t (i : nat) s s' : table_inv t → t !! i = Some s →
  (is_open_slot s' = true → is_open_slot s = true ∧ ss_session_id s' = ss_session_id s ∧
     ss_auth_token s' = ss_auth_token s ∧
     ss_revised_session_timeout_ms s' = ss_revised_session_timeout_ms s) →
  table_inv (<[i := s']> t).
Proof.
  intros [Hok Huniq] Hi Hsame.
  assert (∀ j a, <[i := s']> t !! j = Some a → is_open_slot a = true →
    ∃ b, t !! j = Some b ∧ is_open_slot b = true ∧ ss_session_id a = ss_session_id b ∧
      ss_auth_token a = ss_auth_token b ∧
      ss_revised_session_timeout_ms a = ss_revised_session_timeout_ms b) as Hold.
  { intros j a Hj Ha. destruct (decide (i = j)) as [<-|].
    - rewrite list_lookup_insert_eq in Hj by (by eapply lookup_lt_Some). simplify_eq.
      exists s. naive_solver.
    - rewrite list_lookup_insert_ne in Hj by done. by exists a. }
  split.
  - intros j a Hj Ha. destruct (Hold j a Hj Ha) as (b&Hb&Hbo&E1&E2&E3).
    unfold slot_ok. rewrite E1, E2, E3. by apply (Hok j b).
  - intros j k a c Hj Hk Ha Hc Heq.
    destruct (Hold j a Hj Ha) as (b&Hb&Hbo&E1&E2&_).
    destruct (Hold k c Hk Hc) as (d&Hd&Hdo&E3&E4&_).
    rewrite E1, E2, E3, E4 in Heq. by apply (Huniq j k b d).
Qed.

(** Adding a session with fresh identifiers keeps the invariant. *)
Lemma table_inv_create t (i : nat) s' : table_inv t → slot_ok s' →
  ss_session_id s' ∉ (ss_session_id <$> open_slots t) →
  ss_auth_token s' ∉ (ss_auth_token <$> open_slots t) →
  table_inv (<[i := s']> t).
Proof.
  intros [Hok Huniq] Hs' Hid Htok.
  assert (∀ (f : mu_session_t → Z) j a, t !! j = Some a → is_open_slot a = true →
    f s' ∉ (f <$> open_slots t) → f a ≠ f s') as Hfresh.
  { intros f j a Hj Ha Hf E. apply Hf. rewrite <-E. apply list_elem_of_fmap.
    exists a. split; [done|]. apply list_elem_of_filter. split; [done|]. by eapply list_elem_of_lookup_2. }
  assert (∀ j a, <[i := s']> t !! j = Some a → a = s' ∧ j = i ∨ j ≠ i ∧ t !! j = Some a) as Hcases.
  { intros j a Hj. destruct (decide (i = j)) as [<-|].
    - destruct (decide (i < length t)%nat).
      + rewrite list_lookup_insert_eq in Hj by done. left. naive_solver.
      + rewrite list_insert_ge in Hj by lia. apply lookup_lt_Some in Hj. lia.
    - rewrite list_lookup_insert_ne in Hj by done. by right. }
  split.
  - intros j a Hj Ha. destruct (Hcases j a Hj) as [[-> _]|[_ ?]]; [done|]. by apply (Hok j a).
  - intros j k a c Hj Hk Ha Hc Heq.
    destruct (Hcases j a Hj) as [[-> ->]|[? ?]], (Hcases k c Hk) as [[-> ->]|[? ?]]; [done| | |].
    + destruct Heq as [E|E]; exfalso;
        [apply (Hfresh ss_session_id k c)|apply (Hfresh ss_auth_token k c)]; auto.
    + destruct Heq as [E|E]; exfalso;
        [apply (Hfresh ss_session_id j a)|apply (Hfresh ss_auth_token j a)]; auto.
    + by apply (Huniq j k a c).
Qed.

Lemma create_ok_slot bits id tok ch s : ss_state s = MU_SESSION_STATE_CLOSED →
  ∃ revised ms, mu_session_create_with_identifiers bits id tok ch s
    = (Ok (revised, id, tok),
       mk_session MU_SESSION_STATE_CREATED id tok ms (ss_server_nonce s) ch) ∧
    revised = clamp_timeout_bits bits ∧ 10000 ≤ ms ≤ 3600000.
Proof.
  intros Hs. unfold mu_session_create_with_identifiers. rewrite Hs. cbn.
  destruct (duration_bits_to_ms_floor _ (clamp_timeout_range bits)) as [E Hr].
  rewrite E. by eexists _, _.
Qed.

Lemma find_slot_sound p t i k : find_slot p t i = Some k →
  i ≤ k < i + zlen t ∧ ∃ s, t !! Z.to_nat (k - i) = Some s ∧ p s = true.
Proof.
  revert i; induction t as [|s t IH]; intros i E; [done|]. cbn in E. rewrite zlen_cons.
  destruct (p s) eqn:Hp.
  - simplify_eq. pose proof (zlen_nonneg t). rewrite Z.sub_diag. split; [lia|]. by exists s.
  - destruct (IH _ E) as [Hk (s'&Hs'&?)]. split; [lia|]. exists s'. split; [|done].
    replace (Z.to_nat (k - i)) with (S (Z.to_nat (k - (i + 1)))) by lia. done.
Qed.

Lemma find_slot_none p t i : find_slot p t i = None → ∀ s, s ∈ t → p s = false.
Proof.
  revert i; induction t as [|s t IH]; intros i E s' Hs; [by apply not_elem_of_nil in Hs|].
  cbn in E. destruct (p s) eqn:Hp; [done|].
  apply elem_of_cons in Hs as [->|Hs]; [done|]. eapply IH; eauto.
Qed.

Lemma active_fresh (f : mu_session_t → Z) t count x : zlen t ≤ count →
  existsb (λ s, is_open_slot s && (f s =? x)) (ztake count t) = false →
  x ∉ (f <$> open_slots t).
Proof.
  intros Hl E Hin. unfold ztake in E. rewrite take_ge in E by (unfold zlen in Hl; lia).
  apply existsb_open in Hin. congruence.
Qed.

Lemma allocate_session_inv count ne ie te bits ch t x t' :
  0 ≤ count < 65535 → zlen t ≤ count → table_inv t →
  allocate_session count ne ie te bits ch t = (Ok x, t') → table_inv t'.
Proof.
  intros Hc Hl Hinv. unfold allocate_session.
  destruct (mu_session_generate_server_nonce _ _); [|done..].
  destruct (mu_session_find_free t count) as [slot|] eqn:Ef; [|done].
  destruct (mu_session_generate_session_id t count ie) as [id|e|] eqn:Ei; [|done..].
  destruct (mu_session_generate_authentication_token t count te) as [tok|e|] eqn:Et; [|done..].
  cbn [mbind result_bind mret result_ret].
  destruct (znth t slot) as [s|] eqn:Es; [|done].
  apply find_slot_sound in Ef as [Hk (s0&Hs0&Hp)]. rewrite Z.sub_0_r in Hs0.
  apply znth_lookup in Es as [Es _]. unfold ztake in Hs0.
  rewrite take_ge in Hs0 by (unfold zlen in Hl; lia). simplify_eq. bool_hyps.
  destruct (create_ok_slot bits id tok ch s0 Hp) as (rev&ms&->&_&Hms).
  intros [= <- <-].
  apply generate_session_id_fresh in Ei as [Hid Hidf]; [|done].
  apply generate_auth_token_fresh in Et as [Htok Htokf]; [|done].
  apply table_inv_create; [done|done| |].
  - by apply (active_fresh ss_session_id t count).
  - by apply (active_fresh ss_auth_token t count).
Qed.

Lemma allocate_session_length count ne ie te bits ch t x t' :
  allocate_session count ne ie te bits ch t = (x, t') → zlen t' = zlen t.
Proof.
  unfold allocate_session. intros E. repeat case_match; simplify_eq; try done.
  unfold zlen. by rewrite length_insert.
Qed.

Lemma table_step_inv count t t' : 0 ≤ count < 65535 →
  table_step count t t' → zlen t = count ∧ table_inv t → zlen t' = count ∧ table_inv t'.
Proof.
  intros Hc Hstep [Hl Hinv].
  destruct Hstep as [t t' ne ie te bits ch x E|t i s nonce Hi|t i s s' tok enc Hi E|t i s s' tok del Hi E|t i].
  - split; [by rewrite (allocate_session_length _ _ _ _ _ _ _ _ _ E)|].
    eapply allocate_session_inv; [done| |done|done]. lia.
  - split; [unfold zlen in *; by rewrite length_insert|].
    by apply (table_inv_update t i s).
  - split; [unfold zlen in *; by rewrite length_insert|].
    apply (table_inv_update t i s); [done|done|]. unfold mu_session_activate in E.
    repeat case_match; simplify_eq. intros _. bool_hyps. unfold is_open_slot. cbn.
    destruct (ss_state s); cbn in *; naive_solver.
  - split; [unfold zlen in *; by rewrite length_insert|].
    apply (table_inv_update t i s); [done|done|]. unfold mu_session_close in E.
    destruct (bool_decide _); [done|]. destruct (negb _); [done|]. by injection E as <-.
  - split; [unfold zlen in *; by rewrite length_insert|].
    destruct (t !! i) as [s|] eqn:Hi.
    + by apply (table_inv_update t i s).
    + rewrite list_insert_ge; [done|]. by apply lookup_ge_None.
Qed.

Lemma initial_table_inv count : table_inv (repeat mu_session_init count).
Proof.
  assert (∀ i s, repeat mu_session_init count !! i = Some s → is_open_slot s = false) as H.
  { intros i s Hs. apply list_elem_of_lookup_2 in Hs.
    apply list_elem_of_In, repeat_spec in Hs. by subst. }
  split.
  - intros i s Hs Ho. by rewrite (H i s Hs) in Ho.
  - intros i j s s' Hs _ Ho. by rewrite (H i s Hs) in Ho.
Qed.

(** ** Properties *)

(** for any 64-bit pattern a client sends as RequestedSessionTimeout
    (negative, NaN and infinity included) the stored timeout is the integer
    part of the clamped double and lies between 10000 and 3600000 ms; no shift
    of the conversion is undefined. *)
Theorem session_timeout_revision bits :
  let revised := clamp_timeout_bits bits in
  MU_SESSION_TIMEOUT_MIN_BITS ≤ revised ≤ MU_SESSION_TIMEOUT_MAX_BITS ∧
  (MU_SESSION_TIMEOUT_MIN_BITS ≤ bits ≤ MU_SESSION_TIMEOUT_MAX_BITS → revised = bits) ∧
  ∃ ms, duration_bits_to_ms revised = Ok ms ∧ 10000 ≤ ms ≤ 3600000 ∧
    ms = (2 ^ 52 + revised mod 2 ^ 52) / 2 ^ (1075 - revised / 2 ^ 52).
Proof.
  cbv zeta. split; [apply clamp_timeout_range|]. split.
  - intros Hb. unfold clamp_timeout_bits.
    assert (Z.land bits MU_DOUBLE_SIGN_BIT = 0) as ->.
    { change MU_DOUBLE_SIGN_BIT with (2 ^ 63). apply Z.bits_inj_0. intros i. rewrite Z.land_spec.
      unfold MU_SESSION_TIMEOUT_MIN_BITS, MU_SESSION_TIMEOUT_MAX_BITS in Hb.
      destruct (Z.eqb_spec i 63) as [->|].
      - rewrite (Z.bits_above_log2 bits); [done|lia|]. apply Z.log2_lt_pow2; lia.
      - rewrite Z.pow2_bits_false by lia. apply andb_false_r. }
    cbn [Z.eqb negb].
    destruct (Z.ltb_spec bits MU_SESSION_TIMEOUT_MIN_BITS); [lia|].
    destruct (Z.ltb_spec MU_SESSION_TIMEOUT_MAX_BITS bits); [lia|]. done.
  - destruct (duration_bits_to_ms_floor _ (clamp_timeout_range bits)) as [E Hr].
    eexists. split; [exact E|]. split; [exact Hr|reflexivity].
Qed.

(** C5: in every state of the session table reachable from the initial one by
    CreateSession, ActivateSession, CloseSession and connection loss, open
    sessions have non-zero, pairwise distinct session ids and authentication
    tokens and a bounded timeout; the table keeps its size. *)
Theorem session_table_invariant (count : Z) t :
  0 ≤ count < 65535 →
  rtc (table_step count) (repeat mu_session_init (Z.to_nat count)) t →
  zlen t = count ∧ table_inv t.
Proof.
  intros Hc Hr. remember (repeat mu_session_init (Z.to_nat count)) as t0 eqn:E0.
  assert (zlen t0 = count ∧ table_inv t0) as H0.
  { subst. split; [|apply initial_table_inv]. unfold zlen. rewrite repeat_length. lia. }
  clear E0. induction Hr as [|t0 t1 t2 Hs _ IH]; [done|]. apply IH.
  by apply (table_step_inv count t0).
Qed.

Definition fixed_entropy (b0 b1 b2 b3 : Z) : entropy_t :=
  Some (λ n, Ok (ztake n ([b0; b1; b2; b3] ++ repeat 0 60))).

Lemma session_table_invariant_witness :
  ∃ t, t ≠ repeat mu_session_init 2 ∧ zlen t = 2 ∧ table_inv t.
Proof.
  exists (allocate_session 2 (fixed_entropy 1 2 3 4) (fixed_entropy 1 2 3 4)
         (fixed_entropy 1 2 3 4) 0 1 (repeat mu_session_init 2)).2.
  split; [vm_compute; discriminate|].
  apply (session_table_invariant 2); [lia|]. apply rtc_once.
  eapply (step_create 2 _ _ (fixed_entropy 1 2 3 4) (fixed_entropy 1 2 3 4)
         (fixed_entropy 1 2 3 4) 0 1). vm_compute. reflexivity.
Defined.


(** An entropy source for any length. *)
Definition counting_entropy : entropy_t := Some (λ n, Ok (repeat 7 (Z.to_nat n))).

Lemma counting_entropy_works : entropy_works counting_entropy.
Proof.
  exists (λ n, Ok (repeat 7 (Z.to_nat n))). split; [done|]. intros n Hn. eexists. split; [done|].
  split.
  - apply Forall_forall. intros x Hx. apply list_elem_of_In, repeat_spec in Hx. by subst.
  - unfold zlen. rewrite repeat_length. lia.
Qed.


(** A slot becomes ACTIVATED only from CREATED or ACTIVATED, with its own
    authentication token and one of the three supported identity token types;
    a closed slot can be neither activated nor closed, and a successful close
    erases the token, the nonce and the channel binding. *)
Theorem session_lifecycle s tok enc del :
  match mu_session_activate tok enc s with
  | (Ok _, s') => is_open_slot s = true ∧ ss_auth_token s = tok ∧
      (enc = 321 ∨ enc = 324 ∨ enc = 327) ∧ s' = set_state s MU_SESSION_STATE_ACTIVATED
  | (Err e, s') => s' = s ∧ (is_open_slot s = false ∨ ss_auth_token s ≠ tok ∨
      (enc ≠ 321 ∧ enc ≠ 324 ∧ enc ≠ 327))
  | (Fault, _) => False
  end ∧
  match mu_session_close tok del s with
  | (Ok _, s') => is_open_slot s = true ∧ ss_auth_token s = tok ∧ s' = mu_session_init
  | (Err e, s') => s' = s ∧ e = MU_STATUS_BAD_SESSIONIDINVALID ∧
      (is_open_slot s = false ∨ ss_auth_token s ≠ tok)
  | (Fault, _) => False
  end.
Proof.
  unfold mu_session_activate, mu_session_close, is_open_slot.
  destruct (ss_state s) eqn:Es; cbn; destruct (Z.eqb_spec (ss_auth_token s) tok); cbn;
    destruct (Z.eqb_spec enc 321), (Z.eqb_spec enc 324), (Z.eqb_spec enc 327); cbn;
    split; split_and?; try done; naive_solver.
Qed.
