(* ===== verification/AddressSpace.v ===== *)
(** * Address space

    [include/muc_opcua/address_space.h], [src/address_space/node_id.c],
    [address_space.c], [value_source.c] and the lookup of [base_nodes.c]:
    NodeId comparison, the bounded sorted index, binary and linear search,
    validation, value sources. *)

From Stdlib Require Export Sorted.
From S2P Require Export Codecs Variant.

(** ** Data *)

Definition MU_NODECLASS_OBJECT : Z := 1.
Definition MU_NODECLASS_VARIABLE : Z := 2.
Definition MU_NODECLASS_METHOD : Z := 4.
Definition MU_NODECLASS_OBJECTTYPE : Z := 8.
Definition MU_NODECLASS_VARIABLETYPE : Z := 16.
Definition MU_NODECLASS_REFERENCETYPE : Z := 32.
Definition MU_NODECLASS_DATATYPE : Z := 64.
Definition MU_NODECLASS_VIEW : Z := 128.

Record mu_reference_t := mk_reference {
  ref_reference_type_id : mu_nodeid_t;
  ref_target_id : mu_nodeid_t;
  ref_is_forward : bool
}.

(** A read callback fills the caller's variant. Its first argument is the
    instant of the call: a callback may depend on the clock. Its context is
    part of the function. [None] is a NULL function pointer. *)
Definition mu_read_callback_t : Type := Z → mu_nodeid_t → mu_variant_t → result mu_variant_t.

Inductive mu_value_source_t :=
| MU_VALUESOURCE_STATIC (static_value : mu_variant_t)
| MU_VALUESOURCE_CALLBACK (read : option mu_read_callback_t).

Record mu_node_t := mk_node {
  node_node_id : mu_nodeid_t;
  node_node_class : Z;
  node_browse_name : mu_string_t;
  node_display_name : mu_string_t;
  node_references : option (list mu_reference_t);
  node_reference_count : Z;
  node_value : option mu_value_source_t
}.

(** [as_addr] is the identity of the structure: the code compares pointers to
    address spaces. *)
Record mu_address_space_t := mk_address_space {
  as_addr : Z;
  as_nodes : option (list mu_node_t);
  as_node_count : Z
}.

Record mu_address_space_index_t := mk_index {
  ix_order : list Z;
  ix_count : Z;
  ix_indexed : bool;
  ix_built_for : option Z;
  ix_built_count : Z
}.

(** ** NodeId comparison ([node_id.c]) *)

Fixpoint memcmp (l r : list Z) : Z :=
  match l, r with
  | x :: l, y :: r => if x <? y then -1 else if y <? x then 1 else memcmp l r
  | _, _ => 0
  end.

Definition identifier_type (n : mu_nodeid_t) : Z :=
  match nid_identifier n with
  | MU_NODEID_NUMERIC _ => 0
  | MU_NODEID_STRING _ => 1
  | MU_NODEID_GUID => 2
  | MU_NODEID_OPAQUE => 3
  end.

Definition mu_nodeid_compare_direct (left right : mu_nodeid_t) : Z :=
  if nid_namespace_index left <? nid_namespace_index right then -1
  else if nid_namespace_index right <? nid_namespace_index left then 1
  else if identifier_type left <? identifier_type right then -1
  else if identifier_type right <? identifier_type left then 1
  else
    match nid_identifier left, nid_identifier right with
    | MU_NODEID_NUMERIC l, MU_NODEID_NUMERIC r =>
        if l <? r then -1 else if r <? l then 1 else 0
    | MU_NODEID_STRING l, MU_NODEID_STRING r =>
        let len1 := str_length l in
        let len2 := str_length r in
        if len1 <? len2 then -1
        else if len2 <? len1 then 1
        else if len1 <=? 0 then 0
        else
          match str_data l, str_data r with
          | Some d1, Some d2 => memcmp (ztake len1 d1) (ztake len1 d2)
          | None, Some _ => -1
          | Some _, None => 1
          | None, None => 0
          end
    | _, _ => 0
    end.

Definition mu_nodeid_equal (n1 n2 : mu_nodeid_t) : bool :=
  if negb (nid_namespace_index n1 =? nid_namespace_index n2) then false
  else if negb (identifier_type n1 =? identifier_type n2) then false
  else
    match nid_identifier n1, nid_identifier n2 with
    | MU_NODEID_NUMERIC a, MU_NODEID_NUMERIC b => a =? b
    | MU_NODEID_STRING a, MU_NODEID_STRING b =>
        if negb (str_length a =? str_length b) then false
        else if str_length a <=? 0 then true
        else
          match str_data a, str_data b with
          | Some d1, Some d2 => memcmp (ztake (str_length a) d1) (ztake (str_length a) d2) =? 0
          | None, None => true
          | _, _ => false
          end
    | _, _ => false
    end.

Definition mu_nodeid_in_namespace (node_id : mu_nodeid_t) (namespace_index : Z) : bool :=
  nid_namespace_index node_id =? namespace_index.

(** ** The sorted index *)

(** The inner [while] of the rebuild: move larger entries up, from
    [position] downwards. [None] is an access outside [order] or [nodes]. *)
Fixpoint index_shift (greater : Z → option bool) (order : list Z) (position : nat)
    : option (list Z * nat) :=
  match position with
  | O => Some (order, O)
  | S p =>
      previous ← order !! p;
      g ← greater previous;
      if (g : bool) then
        guard (S p < length order)%nat;;
        index_shift greater (<[S p := previous]> order) p
      else Some (order, S p)
  end.

Definition node_greater (nodes : list mu_node_t) (current : mu_nodeid_t) (previous : Z) : option bool :=
  node ← znth nodes previous;
  Some (negb (mu_nodeid_compare_direct (node_node_id node) current <=? 0)).

(** The outer loop, from node [i] on; [order] holds [count] sorted indices. *)
Fixpoint index_fill (nodes : list mu_node_t) (rest : list mu_node_t) (order : list Z) (i : nat)
    : option (list Z) :=
  match rest with
  | [] => Some order
  | current :: rest =>
      '(order, position) ← index_shift (node_greater nodes (node_node_id current)) order i;
      guard (position < length order)%nat;;
      index_fill nodes rest (<[position := to_u16 (Z.of_nat i)]> order) (S i)
  end.

Section index.
  Context {caps : BuildCaps}.

Definition mu_address_space_rebuild_index (address_space : mu_address_space_t)
    (index : mu_address_space_index_t) : option mu_address_space_index_t :=
  let n := as_node_count address_space in
  if (MU_MAX_ADDRESS_SPACE_NODES <? n) || (0xffff <? n)
  then Some (mk_index (ix_order index) 0 false (Some (as_addr address_space)) n)
  else
    nodes ← as_nodes address_space;
    guard (n ≤ zlen nodes);;
    order ← index_fill nodes (ztake n nodes) (ix_order index) 0;
    Some (mk_index order n true (Some (as_addr address_space)) n).

(** The loop of both binary searches over a comparison of the probed entry
    with the key. *)
Fixpoint bsearch (compare : Z → option Z) (left right : Z) (fuel : nat) : option (option Z) :=
  match fuel with
  | O => None
  | S fuel =>
      if left <? right then
        let mid := left + (right - left) / 2 in
        comparison ← compare mid;
        if comparison <? 0 then bsearch compare (mid + 1) right fuel
        else if 0 <? comparison then bsearch compare left mid fuel
        else Some (Some mid)
      else Some None
  end.

(** The result of a lookup: [None] is an out-of-bounds access, [Some None] is
    NULL. *)
Definition lookup_t : Type := option (option mu_node_t).

Fixpoint find_linear (nodes : list mu_node_t) (node_id : mu_nodeid_t) : option mu_node_t :=
  match nodes with
  | [] => None
  | node :: rest => if mu_nodeid_equal (node_node_id node) node_id then Some node
                    else find_linear rest node_id
  end.

Definition mu_address_space_find_node_linear (address_space : mu_address_space_t)
    (node_id : mu_nodeid_t) : lookup_t :=
  nodes ← as_nodes address_space;
  guard (as_node_count address_space ≤ zlen nodes);;
  Some (find_linear (ztake (as_node_count address_space) nodes) node_id).

Definition mu_address_space_find_node_indexed (address_space : mu_address_space_t)
    (index : mu_address_space_index_t) (node_id : mu_nodeid_t) : lookup_t :=
  nodes ← as_nodes address_space;
  let node_at mid := order ← znth (ix_order index) mid; znth nodes order in
  found ← bsearch (λ mid, node ← node_at mid;
                     Some (mu_nodeid_compare_direct (node_node_id node) node_id))
            0 (ix_count index) (S (Z.to_nat (ix_count index)));
  match found with
  | None => Some None
  | Some mid => node ← node_at mid; Some (Some node)
  end.

Definition mu_address_space_find_node_binary_direct (address_space : mu_address_space_t)
    (node_id : mu_nodeid_t) : lookup_t :=
  nodes ← as_nodes address_space;
  found ← bsearch (λ mid, node ← znth nodes mid;
                     Some (mu_nodeid_compare_direct (node_node_id node) node_id))
            0 (as_node_count address_space) (S (Z.to_nat (as_node_count address_space)));
  match found with
  | None => Some None
  | Some mid => node ← znth nodes mid; Some (Some node)
  end.

(** Identity of the static base address space. *)
Definition BASE_ADDR : Z := 0.

(** A lookup may rebuild the index it is given. *)
Definition mu_address_space_find_node (address_space : mu_address_space_t)
    (index : option mu_address_space_index_t) (node_id : mu_nodeid_t)
    : lookup_t * option mu_address_space_index_t :=
  if is_null (as_nodes address_space) then (Some None, index)
  else
    match index with
    | None =>
        if as_addr address_space =? BASE_ADDR
        then (mu_address_space_find_node_binary_direct address_space node_id, None)
        else (mu_address_space_find_node_linear address_space node_id, None)
    | Some ix =>
        let rebuilt :=
          if negb (bool_decide (ix_built_for ix = Some (as_addr address_space)))
             || negb (ix_built_count ix =? as_node_count address_space)
          then mu_address_space_rebuild_index address_space ix else Some ix in
        match rebuilt with
        | None => (None, index)
        | Some ix =>
            if negb (ix_indexed ix)
            then (mu_address_space_find_node_linear address_space node_id, Some ix)
            else (mu_address_space_find_node_indexed address_space ix node_id, Some ix)
        end
    end.

(** ** Validation ([address_space.c]) *)

Fixpoint has_duplicate (nodes : list mu_node_t) : bool :=
  match nodes with
  | [] => false
  | node :: rest =>
      existsb (λ other, mu_nodeid_equal (node_node_id node) (node_node_id other)) rest
      || has_duplicate rest
  end.

(** [false] when a reference has no target; [None] on an invalid access. *)
Fixpoint references_resolve (address_space : mu_address_space_t) (refs : list mu_reference_t)
    : option bool :=
  match refs with
  | [] => Some true
  | ref :: refs =>
      found ← (mu_address_space_find_node address_space None (ref_target_id ref)).1;
      match found with
      | None => Some false
      | Some _ => references_resolve address_space refs
      end
  end.

Fixpoint nodes_resolve (address_space : mu_address_space_t) (nodes : list mu_node_t) : option bool :=
  match nodes with
  | [] => Some true
  | node :: nodes =>
      ok ← match node_references node with
           | None => Some (negb (0 <? node_reference_count node))
           | Some refs =>
               guard (node_reference_count node ≤ zlen refs);;
               references_resolve address_space (ztake (node_reference_count node) refs)
           end;
      if (ok : bool) then nodes_resolve address_space nodes else Some false
  end.

Definition mu_address_space_validate (address_space : mu_address_space_t) : result unit :=
  match as_nodes address_space with
  | None =>
      if 0 <? as_node_count address_space then Err MU_STATUS_BAD_INTERNALERROR else Ok tt
  | Some nodes =>
      if zlen nodes <? as_node_count address_space then Fault
      else
        let nodes := ztake (as_node_count address_space) nodes in
        if has_duplicate nodes then Err MU_STATUS_BAD_INTERNALERROR
        else
          match nodes_resolve address_space nodes with
          | None => Fault
          | Some false => Err MU_STATUS_BAD_INTERNALERROR
          | Some true => Ok tt
          end
  end.

End index.

(** ** Value sources ([value_source.c]) *)

Definition mu_value_source_read (now : Z) (source : option mu_value_source_t) (node_id : mu_nodeid_t)
    (value : mu_variant_t) : result mu_variant_t :=
  match source with
  | None => Err MU_STATUS_BAD_INTERNALERROR
  | Some (MU_VALUESOURCE_STATIC static_value) =>
      if v_is_array static_value then Ok static_value
      else if (v_type static_value =? MU_TYPE_BOOLEAN) || (v_type static_value =? MU_TYPE_INT32)
              || (v_type static_value =? MU_TYPE_UINT32) || (v_type static_value =? MU_TYPE_FLOAT)
      then Ok static_value
      else if v_type static_value =? MU_TYPE_STRING then
        match v_value static_value with
        | VV_str s =>
            if MU_MAX_STRING_VALUE_LENGTH <? str_length s
            then Err MU_STATUS_BAD_ENCODINGLIMITSEXCEEDED
            else Ok static_value
        | _ => Fault
        end
      else Err MU_STATUS_BAD_NOTREADABLE
  | Some (MU_VALUESOURCE_CALLBACK read) =>
      match read with
      | None => Err MU_STATUS_BAD_INTERNALERROR
      | Some read => read now node_id value
      end
  end.

(** ** The order on NodeIds

    The comparison is the lexicographic order of a key, hence total, and two
    supported NodeIds are [mu_nodeid_equal] exactly when their keys agree. *)

Fixpoint lexcmp (l r : list Z) : Z :=
  match l, r with
  | [], [] => 0
  | [], _ :: _ => -1
  | _ :: _, [] => 1
  | x :: l, y :: r => if x <? y then -1 else if y <? x then 1 else lexcmp l r
  end.

Ltac lex_cases :=
  repeat match goal with
  | |- context [?x <? ?y] => destruct (Z.ltb_spec x y)
  | H : context [?x <? ?y] |- _ => destruct (Z.ltb_spec x y)
  end.

Lemma lexcmp_eq l r : lexcmp l r = 0 ↔ l = r.
Proof.
  revert r; induction l as [|x l IH]; intros [|y r]; simpl; try done.
  lex_cases; try (split; [done|intros [= ? ?]; lia]).
  rewrite IH; split; [intros ->; f_equal; lia|by intros [= ? ->]].
Qed.

Lemma lexcmp_opp l r : lexcmp r l = - lexcmp l r.
Proof.
  revert r; induction l as [|x l IH]; intros [|y r]; simpl; try done.
  lex_cases; try lia; apply IH.
Qed.

Lemma lexcmp_trans a b c : lexcmp a b ≤ 0 → lexcmp b c ≤ 0 → lexcmp a c ≤ 0.
Proof.
  revert b c; induction a as [|x a IH]; intros [|y b] [|z c]; simpl; try lia.
  lex_cases; try lia; apply IH.
Qed.

(** Comparing a growing sequence with a fixed key is monotone. *)
Lemma lexcmp_mono x y k :
  lexcmp x y ≤ 0 → (lexcmp y k < 0 → lexcmp x k < 0) ∧ (0 < lexcmp x k → 0 < lexcmp y k).
Proof.
  intros Hle; pose proof (lexcmp_trans x y k Hle); pose proof (lexcmp_trans k x y).
  pose proof (lexcmp_opp x k); pose proof (lexcmp_opp y k); pose proof (lexcmp_opp x y).
  pose proof (lexcmp_eq x k) as [E1 _]; pose proof (lexcmp_eq y k) as [E2 _].
  split; intros Hs.
  - destruct (Z.eq_dec (lexcmp x k) 0) as [Hz|]; [rewrite <- (E1 Hz) in *; lia|lia].
  - destruct (Z.eq_dec (lexcmp y k) 0) as [Hz|]; [rewrite <- (E2 Hz) in *; lia|lia].
Qed.

Lemma memcmp_lexcmp l r : length l = length r → memcmp l r = lexcmp l r.
Proof.
  revert r; induction l as [|x l IH]; intros [|y r]; simpl; try done.
  intros [= E]; by rewrite (IH r E).
Qed.

Definition nodeid_key (n : mu_nodeid_t) : list Z :=
  nid_namespace_index n :: identifier_type n ::
  match nid_identifier n with
  | MU_NODEID_NUMERIC i => [i]
  | MU_NODEID_STRING s => str_length s :: string_bytes s
  | _ => []
  end.

Lemma string_bytes_nonpos s : str_length s ≤ 0 → string_bytes s = [].
Proof.
  intros H; unfold string_bytes, ztake.
  replace (Z.to_nat (str_length s)) with 0%nat by lia; by destruct (str_data s).
Qed.

Lemma string_bytes_length s :
  string_ok s → length (string_bytes s) = Z.to_nat (str_length s).
Proof.
  intros [H ?]; unfold string_bytes, ztake; destruct (str_data s) as [d|].
  - destruct H as [H _]; unfold zlen in H; rewrite length_take; lia.
  - simpl; lia.
Qed.

Lemma nodeid_compare_key l r :
  nodeid_ok l → nodeid_ok r →
  mu_nodeid_compare_direct l r = lexcmp (nodeid_key l) (nodeid_key r).
Proof.
  destruct l as [ns1 [i1|s1| |]], r as [ns2 [i2|s2| |]];
    intros [_ H1] [_ H2]; unfold mu_nodeid_compare_direct, nodeid_key; simpl;
    lex_cases; try done; try lia.
  destruct (Z.leb_spec (str_length s1) 0).
  - by rewrite !string_bytes_nonpos by lia.
  - simpl in H1, H2; pose proof (string_bytes_length _ H1); pose proof (string_bytes_length _ H2).
    destruct H1 as [D1 _], H2 as [D2 _]; unfold string_bytes in *.
    destruct (str_data s1) as [d1|], (str_data s2) as [d2|]; try lia.
    replace (str_length s2) with (str_length s1) in * by lia.
    apply memcmp_lexcmp; lia.
Qed.

(** The identifier kinds the server supports for its own nodes. *)
Definition nodeid_supported (n : mu_nodeid_t) : Prop :=
  match nid_identifier n with
  | MU_NODEID_NUMERIC _ | MU_NODEID_STRING _ => True
  | _ => False
  end.

Lemma nodeid_equal_compare l r :
  nodeid_supported l →
  mu_nodeid_equal l r = (mu_nodeid_compare_direct l r =? 0).
Proof.
  destruct l as [ns1 [i1|s1| |]], r as [ns2 [i2|s2| |]]; intros H; try done;
    unfold mu_nodeid_equal, mu_nodeid_compare_direct; simpl; lex_cases;
    repeat match goal with |- context [?x =? ?y] => destruct (Z.eqb_spec x y); simpl end;
    try done; try lia;
    destruct (Z.leb_spec (str_length s1) 0); try done; try lia;
    destruct (str_data s1), (str_data s2); try done; lia.
Qed.

Lemma nodeid_equal_key l r :
  nodeid_supported l → nodeid_ok l → nodeid_ok r →
  mu_nodeid_equal l r = true ↔ nodeid_key l = nodeid_key r.
Proof.
  intros S Hl Hr; rewrite (nodeid_equal_compare l r S), Z.eqb_eq, nodeid_compare_key by done.
  apply lexcmp_eq.
Qed.

(** ** Correctness of the index *)

(** The inner loop splits the sorted prefix [P] at the last entry that is not
    greater and opens a gap there. *)
Lemma index_shift_spec greater P g R :
  Forall (λ p, is_Some (greater p)) P →
  ∃ X Y g', P = X ++ Y ∧
    index_shift greater (P ++ g :: R) (length P) = Some (X ++ g' :: Y ++ R, length X) ∧
    Forall (λ p, greater p = Some true) Y ∧
    (∀ p, last X = Some p → greater p = Some false).
Proof.
  revert g R; induction P as [|p P IH] using rev_ind; intros g R Htot.
  { by exists [], [], g. }
  apply Forall_app in Htot as [HP Hp]; apply Forall_singleton in Hp as [b Hb].
  rewrite length_app, Nat.add_1_r; cbn [index_shift].
  rewrite <- (app_assoc P [p]); cbn [app].
  rewrite list_lookup_middle by done; cbn [mbind option_bind]; rewrite Hb; cbn [mbind option_bind].
  destruct b.
  - rewrite option_guard_True by (rewrite length_app; simpl; lia).
    replace (<[S (length P) := p]> (P ++ p :: g :: R)) with (P ++ p :: p :: R).
    2:{ replace (S (length P)) with (length P + 1)%nat by lia.
        by rewrite insert_app_r. }
    destruct (IH p (p :: R) HP) as (X & Y & g' & -> & E & HY & HX).
    exists X, (Y ++ [p]), g'; split_and!; [by rewrite app_assoc| |by apply Forall_app; auto|done].
    rewrite E; by rewrite <- (app_assoc Y [p]).
  - exists (P ++ [p]), [], g; split_and!; [by rewrite app_nil_r| |constructor|].
    + by rewrite length_app, Nat.add_1_r, <- app_assoc.
    + intros q; rewrite last_snoc; by intros [= <-].
Qed.

(** [key_le nodes a b]: node number [a] does not come after node [b]. *)
Definition node_key (nodes : list mu_node_t) (i : Z) : list Z :=
  match znth nodes i with
  | Some node => nodeid_key (node_node_id node)
  | None => []
  end.

Definition key_le (nodes : list mu_node_t) (a b : Z) : Prop :=
  lexcmp (node_key nodes a) (node_key nodes b) ≤ 0.

#[export] Instance key_le_decision nodes : RelDecision (key_le nodes).
Proof. intros a b; unfold key_le; apply _. Defined.

#[export] Instance key_le_trans nodes : Transitive (key_le nodes).
Proof. intros a b c; apply lexcmp_trans. Qed.

Lemma key_le_flip nodes a b : ¬ key_le nodes a b → key_le nodes b a.
Proof. unfold key_le; rewrite (lexcmp_opp (node_key nodes a)); lia. Qed.

(** What the rebuild establishes for the first [n] entries of [order]. *)
Definition order_ok (nodes : list mu_node_t) (n : nat) (P : list Z) : Prop :=
  P ≡ₚ seqZ 0 (Z.of_nat n) ∧ StronglySorted (key_le nodes) P.

Lemma znth_nat {A} (l : list A) (i : nat) : znth l (Z.of_nat i) = l !! i.
Proof.
  unfold znth; rewrite Nat2Z.id.
  destruct (Z.ltb_spec (Z.of_nat i) 0); [lia|done].
Qed.

Lemma node_greater_spec nodes current i c :
  Forall (λ node, nodeid_ok (node_node_id node)) nodes →
  nodes !! i = Some current → 0 ≤ c < zlen nodes →
  node_greater nodes (node_node_id current) c = Some (negb (bool_decide (key_le nodes c (Z.of_nat i)))).
Proof.
  intros Hok Hi Hc; destruct (znth_Some nodes c Hc) as [x Hx].
  destruct (znth_lookup _ _ _ Hx) as [Hx' _].
  assert (Hk : lexcmp (node_key nodes c) (node_key nodes (Z.of_nat i))
               = mu_nodeid_compare_direct (node_node_id x) (node_node_id current)).
  { unfold node_key; rewrite Hx, znth_nat, Hi; symmetry; apply nodeid_compare_key;
      eapply Forall_lookup_1 in Hok; eauto. }
  unfold node_greater; rewrite Hx; cbn [mbind option_bind]; rewrite <- Hk; do 2 f_equal.
  unfold key_le; case_bool_decide; [by apply Z.leb_le|by apply Z.leb_gt; lia].
Qed.

Lemma sorted_app_le {A} (R : relation A) X Y :
  StronglySorted R (X ++ Y) → StronglySorted R X ∧ StronglySorted R Y ∧ ∀ x y, x ∈ X → y ∈ Y → R x y.
Proof.
  induction X as [|x X IH]; simpl; intros H.
  { split_and!; [constructor|done|by intros x y ?%not_elem_of_nil]. }
  apply StronglySorted_inv in H as [H HF]; destruct (IH H) as (H1 & H2 & H3).
  rewrite Forall_app, !Forall_forall in HF; destruct HF as [HX HY].
  split_and!; [constructor; [done|by apply Forall_forall]|done|].
  intros a b [->|Ha]%elem_of_cons Hb; auto.
Qed.

Lemma sorted_app_mk {A} (R : relation A) X Y :
  StronglySorted R X → StronglySorted R Y → (∀ x y, x ∈ X → y ∈ Y → R x y) → StronglySorted R (X ++ Y).
Proof.
  intros HX HY HR; induction HX as [|x X HX IH HF]; simpl; [done|].
  constructor; [apply IH; intros; apply HR; [by right|done]|].
  apply Forall_app; split; [done|]; apply Forall_forall; intros y Hy; apply HR; [left|done].
Qed.

(** Placing node [i] after [X] and before [Y] keeps the prefix sorted. *)
Lemma order_ok_insert nodes i X Y :
  order_ok nodes i (X ++ Y) →
  Forall (λ p, ¬ key_le nodes p (Z.of_nat i)) Y →
  (∀ p, last X = Some p → key_le nodes p (Z.of_nat i)) →
  order_ok nodes (S i) (X ++ Z.of_nat i :: Y).
Proof.
  intros [HP HS] HY HX; split.
  - rewrite Nat2Z.inj_succ, <- Z.add_1_r, seqZ_app by lia; simpl.
    rewrite <- HP; change (seqZ (Z.of_nat i) 1) with [Z.of_nat i]; solve_Permutation.
  - apply sorted_app_le in HS as (SX & SY & HXY).
    assert (Hle : ∀ y, y ∈ Y → key_le nodes (Z.of_nat i) y).
    { intros y Hy; apply key_le_flip; by rewrite Forall_forall in HY; apply HY. }
    apply sorted_app_mk; [done|constructor; [done|by apply Forall_forall]|].
    intros x y Hx [->|Hy]%elem_of_cons; [|by apply HXY].
    destruct X as [|z X _] using rev_ind; [by apply not_elem_of_nil in Hx|].
    specialize (HX z (last_snoc _ _)); apply elem_of_app in Hx as [Hx|Hx]; [|by apply list_elem_of_singleton in Hx as ->].
    transitivity z; [|done].
    apply sorted_app_le in SX as (_ & _ & HS); apply HS; [done|by apply list_elem_of_singleton].
Qed.

Lemma order_ok_bound nodes n P : order_ok nodes n P → Forall (λ p, 0 ≤ p < Z.of_nat n) P.
Proof.
  intros [HP _]; rewrite HP; apply Forall_forall; intros x Hx.
  by apply elem_of_seqZ in Hx.
Qed.

Lemma order_ok_length nodes n P : order_ok nodes n P → length P = n.
Proof. intros [HP _]; rewrite HP, length_seqZ; lia. Qed.

(** Insertion sort: from a sorted prefix to a sorted array. *)
Lemma index_fill_spec nodes rest :
  ∀ (i : nat) P R,
  Forall (λ node, nodeid_ok (node_node_id node)) nodes → Z.of_nat (i + length rest) ≤ 65535 →
  (i + length rest ≤ length nodes)%nat →
  (∀ k, (k < length rest)%nat → nodes !! (i + k)%nat = rest !! k) →
  order_ok nodes i P → (length rest ≤ length R)%nat →
  ∃ P' R', index_fill nodes rest (P ++ R) i = Some (P' ++ R') ∧
    order_ok nodes (i + length rest) P' ∧ length (P' ++ R') = length (P ++ R).
Proof.
  induction rest as [|current rest IH]; intros i P R Hok Hmax Hlen Hrest HP HR.
  { exists P, R; simpl; rewrite Nat.add_0_r; done. }
  destruct R as [|g R]; [simpl in HR; lia|]; cbn [length] in Hlen, HR, Hmax.
  assert (Hi : nodes !! i = Some current) by (rewrite <- (Nat.add_0_r i), (Hrest 0%nat) by (simpl; lia); done).
  pose proof (order_ok_length _ _ _ HP) as HlP; pose proof (order_ok_bound _ _ _ HP) as HbP.
  assert (Hg : ∀ p, p ∈ P → node_greater nodes (node_node_id current) p
                   = Some (negb (bool_decide (key_le nodes p (Z.of_nat i))))).
  { intros p Hp; apply node_greater_spec; [done..|].
    rewrite Forall_forall in HbP; specialize (HbP p Hp); unfold zlen in *; lia. }
  cbn [index_fill].
  edestruct (index_shift_spec (node_greater nodes (node_node_id current)) P g R)
    as (X & Y & g' & -> & Hshift & HY & HX).
  { apply Forall_forall; intros p Hp; rewrite Hg by done; eauto. }
  rewrite HlP in Hshift; rewrite Hshift; cbn [mbind option_bind]; rewrite option_guard_True by (rewrite length_app; simpl; lia).
  rewrite (insert_app_r_alt X) by lia; rewrite Nat.sub_diag; cbn [insert list_insert].
  rewrite to_unsigned_id by (unfold zlen in *; lia).
  replace (X ++ Z.of_nat i :: Y ++ R) with ((X ++ Z.of_nat i :: Y) ++ R) by (by rewrite <- app_assoc).
  edestruct (IH (S i) (X ++ Z.of_nat i :: Y) R) as (P' & R' & -> & HP' & Hl'); [done|lia|lia| | |lia|].
  - intros k Hk; replace (S i + k)%nat with (i + S k)%nat by lia.
    apply (Hrest (S k)); simpl; lia.
  - apply order_ok_insert; [done| |].
    + rewrite Forall_forall in HY |- *; intros p Hp Hle; specialize (HY p Hp).
      rewrite Hg, bool_decide_true in HY by (try apply elem_of_app; auto); done.
    + intros p Hp; specialize (HX p Hp).
      rewrite Hg in HX by (apply elem_of_app; left; by apply last_Some_elem_of).
      injection HX as HX; by destruct (bool_decide_reflect (key_le nodes p (Z.of_nat i))).
  - exists P', R'; split_and!; [done|simpl; by rewrite Nat.add_succ_r|].
    rewrite Hl', !length_app; simpl; lia.
Qed.

(** ** Correctness of binary search *)

Lemma bsearch_spec compare n :
  (∀ i, 0 ≤ i < n → is_Some (compare i)) →
  (∀ i j a b, 0 ≤ i ≤ j → j < n → compare i = Some a → compare j = Some b → (b < 0 → a < 0) ∧ (0 < a → 0 < b)) →
  ∀ fuel left right, 0 ≤ left ≤ right → right ≤ n → right - left < Z.of_nat fuel →
  (∃ m, bsearch compare left right fuel = Some (Some m) ∧ left ≤ m < right ∧ compare m = Some 0) ∨
  (bsearch compare left right fuel = Some None ∧ ∀ i, left ≤ i < right → compare i ≠ Some 0).
Proof.
  intros Htot Hmono fuel; induction fuel as [|fuel IH]; intros left right Hl Hr Hf; [lia|].
  cbn [bsearch]; destruct (Z.ltb_spec left right) as [Hlt|Hge]; [|right; split; [done|lia]].
  set (mid := left + (right - left) / 2).
  assert (Hmid : left ≤ mid < right) by (unfold mid; Z.to_euclidean_division_equations; lia).
  destruct (Htot mid ltac:(lia)) as [c Hc]; rewrite Hc; cbn [mbind option_bind].
  destruct (Z.ltb_spec c 0); [|destruct (Z.ltb_spec 0 c)].
  - destruct (IH (mid + 1) right ltac:(lia) Hr ltac:(lia)) as [(m & ? & ? & ?)|[E Hno]].
    + left; exists m; split_and!; [done|lia..|done].
    + right; split; [done|]; intros i Hi Hz; destruct (Z.le_gt_cases i mid); [|by apply (Hno i ltac:(lia))].
      destruct (Hmono i mid 0 c); [lia..|done|done|lia].
  - destruct (IH left mid ltac:(lia) ltac:(lia) ltac:(lia)) as [(m & ? & ? & ?)|[E Hno]].
    + left; exists m; split_and!; [done|lia..|done].
    + right; split; [done|]; intros i Hi Hz; destruct (Z.lt_ge_cases i mid); [by apply (Hno i ltac:(lia))|].
      destruct (Hmono mid i c 0); [lia..|done|done|lia].
  - left; exists mid; split_and!; [done|lia..|]; rewrite Hc; f_equal; lia.
Qed.

(** ** Lookup *)

(** The specification of every lookup: the first node of the space whose
    NodeId equals the key. *)
Definition space_nodes (sp : mu_address_space_t) : list mu_node_t :=
  match as_nodes sp with
  | None => []
  | Some nodes => ztake (as_node_count sp) nodes
  end.

Definition space_lookup (sp : mu_address_space_t) (node_id : mu_nodeid_t) : option mu_node_t :=
  find_linear (space_nodes sp) node_id.

(** Valid pointers: [node_count] nodes are readable and their NodeIds are. *)
Definition space_ok (sp : mu_address_space_t) : Prop :=
  match as_nodes sp with
  | None => as_node_count sp = 0
  | Some nodes => 0 ≤ as_node_count sp ≤ zlen nodes ∧ Forall (λ n, nodeid_ok (node_node_id n)) nodes
  end.

(** What the index relies on: supported identifiers, no duplicates. *)
Definition nodes_distinct (nodes : list mu_node_t) : Prop :=
  Forall (λ n, nodeid_supported (node_node_id n)) nodes ∧ has_duplicate nodes = false.

Lemma find_linear_Some nodes id node :
  find_linear nodes id = Some node → node ∈ nodes ∧ mu_nodeid_equal (node_node_id node) id = true.
Proof.
  induction nodes as [|n nodes IH]; simpl; [done|].
  destruct (mu_nodeid_equal (node_node_id n) id) eqn:E.
  - intros [= <-]; split; [by left|done].
  - intros H; destruct (IH H); split; [by right|done].
Qed.

Lemma find_linear_None nodes id :
  find_linear nodes id = None ↔ ∀ node, node ∈ nodes → mu_nodeid_equal (node_node_id node) id = false.
Proof.
  induction nodes as [|n nodes IH]; simpl.
  { split; [by intros _ n ?%not_elem_of_nil|done]. }
  destruct (mu_nodeid_equal (node_node_id n) id) eqn:E.
  - split; [done|intros H; by rewrite (H n) in E by left].
  - rewrite IH; split; [intros H node [->|Hn]%elem_of_cons; auto|intros H node Hn; apply H; by right].
Qed.

Lemma has_duplicate_false nodes :
  has_duplicate nodes = false ↔
  ∀ i j a b, (i < j)%nat → nodes !! i = Some a → nodes !! j = Some b →
    mu_nodeid_equal (node_node_id a) (node_node_id b) = false.
Proof.
  induction nodes as [|n nodes IH]; simpl; [by split|].
  rewrite orb_false_iff, IH; split.
  - intros [HE H] [|i] [|j] a b Hij Ha Hb; try lia; simpl in *.
    + injection Ha as <-; apply not_true_iff_false; intros Heq.
      apply not_true_iff_false in HE; apply HE, existsb_exists; exists b; split; [|done].
      by apply list_elem_of_In, list_elem_of_lookup_2 with j.
    + eapply H; [|done..]; lia.
  - intros H; split.
    + apply not_true_iff_false; intros (b & Hb & Heq)%existsb_exists.
      apply list_elem_of_In, list_elem_of_lookup_1 in Hb as [j Hj].
      by rewrite (H 0%nat (S j) n b) in Heq by (done || lia).
    + intros i j a b Hij Ha Hb; apply (H (S i) (S j)); [lia|done..].
Qed.

(** Without duplicates, any node that equals the key is the one a scan finds. *)
Lemma find_linear_unique nodes id i node :
  Forall (λ n, nodeid_ok (node_node_id n)) nodes → nodeid_ok id → nodes_distinct nodes →
  nodes !! i = Some node → mu_nodeid_equal (node_node_id node) id = true →
  find_linear nodes id = Some node.
Proof.
  intros Hok Hid [Hsup Hdup] Hi Heq.
  destruct (find_linear nodes id) as [x|] eqn:E.
  2:{ rewrite find_linear_None in E.
      by rewrite (E node) in Heq by (by apply list_elem_of_lookup_2 with i). }
  apply find_linear_Some in E as [Hx Hxeq]; apply list_elem_of_lookup_1 in Hx as [j Hj].
  assert (Hkey : ∀ k n, nodes !! k = Some n → mu_nodeid_equal (node_node_id n) id = true →
                 nodeid_key (node_node_id n) = nodeid_key id).
  { intros k n Hk ?; apply nodeid_equal_key; try done;
      [eapply (Forall_lookup_1 _ _ _ _ Hsup), Hk|eapply (Forall_lookup_1 _ _ _ _ Hok), Hk]. }
  assert (Hne : ∀ k l a b, (k < l)%nat → nodes !! k = Some a → nodes !! l = Some b →
                mu_nodeid_equal (node_node_id a) id = true → mu_nodeid_equal (node_node_id b) id = true → False).
  { intros k l a b Hkl Ha Hb ? ?.
    pose proof (proj1 (has_duplicate_false nodes) Hdup k l a b Hkl Ha Hb) as Hab.
    apply not_true_iff_false in Hab; apply Hab, nodeid_equal_key;
      [eapply (Forall_lookup_1 _ _ _ _ Hsup), Ha|eapply (Forall_lookup_1 _ _ _ _ Hok), Ha
      |eapply (Forall_lookup_1 _ _ _ _ Hok), Hb|].
    rewrite (Hkey k a), (Hkey l b); done. }
  destruct (lt_eq_lt_dec i j) as [[Hij| ->]|Hij]; [|congruence|]; exfalso; eauto.
Qed.

Lemma sorted_lookup_le {A} (R : relation A) (l : list A) i j a b :
  Reflexive R → StronglySorted R l → (i ≤ j)%nat → l !! i = Some a → l !! j = Some b → R a b.
Proof.
  intros HR HS; revert i j; induction HS as [|x l HS IH HF]; intros i j Hij Ha Hb; [done|].
  destruct i as [|i], j as [|j]; simpl in *; try lia.
  - simplify_eq; apply HR.
  - injection Ha as <-; rewrite Forall_forall in HF; apply HF, list_elem_of_lookup_2 with j, Hb.
  - apply (IH i j); [lia|done..].
Qed.

#[export] Instance key_le_refl nodes : Reflexive (key_le nodes).
Proof. intros a; unfold key_le; by rewrite (proj2 (lexcmp_eq _ _) eq_refl). Qed.

Section search.
  Context (nodes : list mu_node_t) (n : nat) (P : list Z) (compare : Z → option Z) (id : mu_nodeid_t).
  Context (Hn : (n ≤ length nodes)%nat) (Hok : Forall (λ x, nodeid_ok (node_node_id x)) nodes).
  Context (Hid : nodeid_ok id) (Hd : nodes_distinct (take n nodes)) (HP : order_ok nodes n P).
  Context (Hcmp : ∀ mid i node, (mid < n)%nat → P !! mid = Some i → znth nodes i = Some node →
     compare (Z.of_nat mid) = Some (mu_nodeid_compare_direct (node_node_id node) id)).

Lemma search_probe mid :
  0 ≤ mid < Z.of_nat n →
  ∃ i node, P !! Z.to_nat mid = Some i ∧ znth nodes i = Some node ∧ take n nodes !! Z.to_nat i = Some node ∧
    compare mid = Some (lexcmp (node_key nodes i) (nodeid_key id)) ∧
    compare mid = Some (mu_nodeid_compare_direct (node_node_id node) id).
Proof.
  intros Hm; pose proof (order_ok_length _ _ _ HP) as HlP; pose proof (order_ok_bound _ _ _ HP) as HbP.
  destruct (lookup_lt_is_Some_2 P (Z.to_nat mid)) as [i Hi]; [lia|].
  pose proof (Forall_lookup_1 _ _ _ _ HbP Hi) as Hib; simpl in Hib.
  destruct (znth_Some nodes i) as [node Hnode]; [unfold zlen; lia|].
  destruct (znth_lookup _ _ _ Hnode) as [Hnode' _].
  assert (Hc : compare mid = Some (mu_nodeid_compare_direct (node_node_id node) id)).
  { rewrite <- (Hcmp (Z.to_nat mid) i node); [f_equal; lia|lia|done..]. }
  exists i, node; split_and!; try done; [rewrite lookup_take_lt by lia; done|].
  rewrite Hc, nodeid_compare_key; [by unfold node_key; rewrite Hnode| |done].
  apply (Forall_lookup_1 _ _ _ _ Hok Hnode').
Qed.

Lemma search_mono i j a b :
  0 ≤ i ≤ j → j < Z.of_nat n → compare i = Some a → compare j = Some b → (b < 0 → a < 0) ∧ (0 < a → 0 < b).
Proof.
  intros Hij Hj Ha Hb.
  destruct (search_probe i) as (x & nx & Hx & _ & _ & Hcx & _); [lia|].
  destruct (search_probe j) as (y & ny & Hy & _ & _ & Hcy & _); [lia|].
  rewrite Hcx in Ha; rewrite Hcy in Hb; injection Ha as <-; injection Hb as <-; apply lexcmp_mono.
  eapply (sorted_lookup_le (key_le nodes) P (Z.to_nat i) (Z.to_nat j)); eauto; [apply _|apply HP|lia].
Qed.

Lemma search_covers k : (k < n)%nat → ∃ mid, (mid < n)%nat ∧ P !! mid = Some (Z.of_nat k).
Proof.
  intros Hk; assert (HkP : Z.of_nat k ∈ P).
  { destruct HP as [Hperm _]; rewrite Hperm; apply elem_of_seqZ; lia. }
  apply list_elem_of_lookup_1 in HkP as [mid Hmid]; exists mid; split; [|done].
  apply lookup_lt_Some in Hmid; by rewrite (order_ok_length _ _ _ HP) in Hmid.
Qed.

(** A binary search through a sorted enumeration [P] of the first [n] nodes
    agrees with the linear scan of those nodes. *)
Lemma sorted_search :
  (∃ m i node, bsearch compare 0 (Z.of_nat n) (S n) = Some (Some m) ∧ 0 ≤ m < Z.of_nat n ∧
     P !! Z.to_nat m = Some i ∧ znth nodes i = Some node ∧ find_linear (take n nodes) id = Some node) ∨
  (bsearch compare 0 (Z.of_nat n) (S n) = Some None ∧ find_linear (take n nodes) id = None).
Proof.
  destruct (bsearch_spec compare (Z.of_nat n)) with (fuel := S n) (left := 0) (right := Z.of_nat n)
    as [(m & E & Hm & Hz)|[E Hno]]; try lia.
  - intros i Hi; destruct (search_probe i Hi) as (? & ? & ? & ? & ? & -> & ?); eauto.
  - apply search_mono.
  - left; destruct (search_probe m Hm) as (i & node & Hi & Hnode & Hin & _ & Hc).
    exists m, i, node; split_and!; try done; try lia.
    rewrite Hz in Hc; injection Hc as Hc.
    apply (find_linear_unique _ _ (Z.to_nat i)); [by apply Forall_take|done..|].
    rewrite nodeid_equal_compare; [by rewrite <- Hc|apply (Forall_lookup_1 _ _ _ _ (proj1 Hd) Hin)].
  - right; split; [done|]; apply find_linear_None; intros node Hnode.
    apply list_elem_of_lookup_1 in Hnode as [k Hk].
    assert (Hkn : (k < n)%nat) by (apply lookup_lt_Some in Hk; rewrite length_take in Hk; lia).
    destruct (search_covers k Hkn) as (mid & Hmn & Hmid).
    rewrite nodeid_equal_compare by (apply (Forall_lookup_1 _ _ k _ (proj1 Hd) Hk)).
    rewrite lookup_take_lt in Hk by done.
    apply Z.eqb_neq; intros Hz; apply (Hno (Z.of_nat mid)); [lia|].
    rewrite (Hcmp mid (Z.of_nat k) node); [by rewrite Hz|done..|by rewrite znth_nat].
Qed.
End search.

Section lookup.
  Context {caps : BuildCaps}.

(** The index is a cache: when it claims to have been built for a space, its
    first entries enumerate the nodes of that space in key order. *)
Definition index_inv (sp : mu_address_space_t) (ix : mu_address_space_index_t) : Prop :=
  zlen (ix_order ix) = MU_MAX_ADDRESS_SPACE_NODES ∧
  (ix_built_for ix = Some (as_addr sp) → ix_built_count ix = as_node_count sp → ix_indexed ix = true →
   ix_count ix = as_node_count sp ∧
   ∃ nodes P R, as_nodes sp = Some nodes ∧ ix_order ix = P ++ R ∧
     order_ok nodes (Z.to_nat (as_node_count sp)) P).

Lemma rebuild_index_spec sp ix :
  space_ok sp → zlen (ix_order ix) = MU_MAX_ADDRESS_SPACE_NODES → as_nodes sp ≠ None →
  ∃ ix', mu_address_space_rebuild_index sp ix = Some ix' ∧ index_inv sp ix' ∧
    ix_built_for ix' = Some (as_addr sp) ∧ ix_built_count ix' = as_node_count sp.
Proof.
  unfold space_ok, mu_address_space_rebuild_index, index_inv.
  intros Hsp Hlen Hne; destruct (as_nodes sp) as [nodes|] eqn:Enodes; [|done].
  destruct Hsp as [Hn Hok].
  destruct ((MU_MAX_ADDRESS_SPACE_NODES <? as_node_count sp) || (65535 <? as_node_count sp)) eqn:Ebig.
  { eexists; split_and!; done. }
  apply orb_false_iff in Ebig as [E1%Z.ltb_ge E2%Z.ltb_ge].
  cbn [mbind option_bind]; rewrite option_guard_True by lia.
  assert (Hl : length (ztake (as_node_count sp) nodes) = Z.to_nat (as_node_count sp)).
  { pose proof (zlen_ztake (as_node_count sp) nodes ltac:(lia)) as H; unfold zlen in H; lia. }
  destruct (index_fill_spec nodes (ztake (as_node_count sp) nodes) 0 [] (ix_order ix))
    as (P' & R' & E & HP' & Hl'); try done; rewrite ?Hl; try (unfold zlen in *; lia).
  - intros k Hk; unfold ztake; by rewrite lookup_take_lt by lia.
  - split; [done|constructor].
  - cbn [app] in E, Hl'; rewrite E; cbn [mbind option_bind].
    eexists; split_and!; [done|cbn [ix_order]; unfold zlen in *; by rewrite Hl'|..]; [|done..].
    intros _ _ _; split; [done|]; exists nodes, P', R'; rewrite Hl in HP'; done.
Qed.

Lemma find_node_indexed_spec sp ix id :
  space_ok sp → index_inv sp ix → nodeid_ok id → nodes_distinct (space_nodes sp) →
  as_nodes sp ≠ None → ix_built_for ix = Some (as_addr sp) → ix_built_count ix = as_node_count sp →
  ix_indexed ix = true →
  mu_address_space_find_node_indexed sp ix id = Some (space_lookup sp id).
Proof.
  intros Hsp [_ Hix] Hid Hd Hne Hb Hc Hi; destruct (Hix Hb Hc Hi) as (Hcnt & nodes & P & R & En & Eo & HP).
  unfold space_ok, space_lookup, space_nodes, mu_address_space_find_node_indexed, ztake in *.
  rewrite En in *; destruct Hsp as [Hn Hok]; rewrite Hcnt; cbn [mbind option_bind].
  set (n := Z.to_nat (as_node_count sp)) in *.
  replace (as_node_count sp) with (Z.of_nat n) by lia.
  pose proof (order_ok_length _ _ _ HP) as HlP.
  assert (Hat : ∀ m i, (m < n)%nat → P !! m = Some i → znth (ix_order ix) (Z.of_nat m) = Some i).
  { intros m i Hm HPm; rewrite znth_nat, Eo, lookup_app_l by lia; done. }
  edestruct (sorted_search nodes n P) as [(m & i & node & E & Hm & Hi' & Hnode & ->)|[E ->]];
    [unfold zlen in *; lia|exact Hok|exact Hid|exact Hd|exact HP| | |]; rewrite ?E; cbn [mbind option_bind].
  - intros mid j node Hm Hj Hnode; cbn beta; rewrite (Hat mid j Hm Hj); cbn [mbind option_bind].
    rewrite Hnode; done.
  - rewrite <- (Z2Nat.id m) by lia; rewrite (Hat (Z.to_nat m) i) by (lia || done); cbn [mbind option_bind].
    by rewrite Hnode.
  - done.
Qed.

Lemma find_node_spec sp ix id :
  space_ok sp → nodes_distinct (space_nodes sp) → index_inv sp ix → nodeid_ok id →
  ∃ ix', mu_address_space_find_node sp (Some ix) id = (Some (space_lookup sp id), Some ix') ∧
         index_inv sp ix'.
Proof.
  intros Hsp Hd Hix Hid; unfold mu_address_space_find_node.
  destruct (as_nodes sp) as [nodes|] eqn:En; cbn [is_null].
  2:{ exists ix; split; [|done]; unfold space_lookup, space_nodes; by rewrite En. }
  assert (Hlin : mu_address_space_find_node_linear sp id = Some (space_lookup sp id)).
  { unfold mu_address_space_find_node_linear, space_lookup, space_nodes, space_ok in *.
    rewrite En in *; cbn [mbind option_bind]; rewrite option_guard_True by lia; done. }
  assert (Hcur : ∃ ix', (if negb (bool_decide (ix_built_for ix = Some (as_addr sp)))
                            || negb (ix_built_count ix =? as_node_count sp)
                         then mu_address_space_rebuild_index sp ix else Some ix) = Some ix' ∧
            index_inv sp ix' ∧ ix_built_for ix' = Some (as_addr sp) ∧ ix_built_count ix' = as_node_count sp).
  { destruct (bool_decide_reflect (ix_built_for ix = Some (as_addr sp))) as [Hb|Hb]; cbn [negb orb];
      [destruct (Z.eqb_spec (ix_built_count ix) (as_node_count sp)); cbn [negb]; [by exists ix|]|];
      apply rebuild_index_spec; try done; try (by rewrite En); apply Hix. }
  destruct Hcur as (ix' & -> & Hix' & Hb & Hc); exists ix'; split; [|done].
  destruct (ix_indexed ix') eqn:Ei; cbn [negb].
  - rewrite find_node_indexed_spec; try done; by rewrite En.
  - by rewrite Hlin.
Qed.

(** C6: node lookup refines the linear scan. For a space whose pointers are
    valid, whose NodeIds are numeric or string and pairwise different, a
    lookup through the sorted index - whatever the index was built for before,
    since a stale one is rebuilt by insertion sort and an oversized space falls
    back to a scan - returns exactly the first node equal to the key or NULL,
    never accesses memory out of bounds, and leaves the index consistent. *)
Theorem find_node_refines_scan sp ix id :
  space_ok sp → nodes_distinct (space_nodes sp) → index_inv sp ix → nodeid_ok id →
  ∃ ix', mu_address_space_find_node sp (Some ix) id = (Some (space_lookup sp id), Some ix') ∧
         index_inv sp ix'.
Proof. apply find_node_spec. Qed.

(** A table already in key order is searched directly. *)
Lemma find_node_binary_direct_spec sp nodes id :
  as_nodes sp = Some nodes → space_ok sp → nodes_distinct (space_nodes sp) → nodeid_ok id →
  order_ok nodes (Z.to_nat (as_node_count sp)) (seqZ 0 (as_node_count sp)) →
  mu_address_space_find_node_binary_direct sp id = Some (space_lookup sp id).
Proof.
  unfold space_ok, space_lookup, space_nodes, mu_address_space_find_node_binary_direct, ztake.
  intros En; rewrite En; intros [Hn Hok] Hd Hid HP; cbn [mbind option_bind].
  set (n := Z.to_nat (as_node_count sp)) in *.
  replace (as_node_count sp) with (Z.of_nat n) in * by lia.
  assert (Hat : ∀ m i, seqZ 0 (Z.of_nat n) !! m = Some i → i = Z.of_nat m).
  { intros m i [-> _]%lookup_seqZ; lia. }
  edestruct (sorted_search nodes n (seqZ 0 (Z.of_nat n))) as [(m & i & node & E & Hm & Hi' & Hnode & ->)|[E ->]];
    [unfold zlen in *; lia|exact Hok|exact Hid|exact Hd|exact HP| | |]; rewrite ?E; cbn [mbind option_bind].
  - intros mid j node Hm Hj Hnode; rewrite (Hat mid j Hj) in Hnode; cbn beta; by rewrite Hnode.
  - apply Hat in Hi'; rewrite Z2Nat.id in Hi' by lia; subst i; by rewrite Hnode.
  - done.
Qed.

(** ** Validation *)

Definition node_refs (node : mu_node_t) : list mu_reference_t :=
  match node_references node with
  | None => []
  | Some refs => ztake (node_reference_count node) refs
  end.

(** Valid pointers: a non-NULL reference array has [reference_count] entries. *)
Definition node_refs_ok (node : mu_node_t) : Prop :=
  match node_references node with
  | None => True
  | Some refs => 0 ≤ node_reference_count node ≤ zlen refs
  end.

(** The contract of a valid address space. *)
Definition space_valid (sp : mu_address_space_t) : Prop :=
  has_duplicate (space_nodes sp) = false ∧
  ∀ node, node ∈ space_nodes sp →
    (node_references node = None → node_reference_count node ≤ 0) ∧
    ∀ ref, ref ∈ node_refs node → space_lookup sp (ref_target_id ref) ≠ None.

Lemma find_node_no_index sp id :
  space_ok sp → as_addr sp ≠ BASE_ADDR →
  (mu_address_space_find_node sp None id).1 = Some (space_lookup sp id).
Proof.
  unfold space_ok, mu_address_space_find_node, space_lookup, space_nodes.
  intros Hsp Hb%Z.eqb_neq; destruct (as_nodes sp) as [nodes|] eqn:En; cbn [is_null]; [|done].
  rewrite Hb; unfold mu_address_space_find_node_linear; rewrite En; cbn [mbind option_bind fst].
  by rewrite option_guard_True by lia.
Qed.

Lemma references_resolve_spec sp refs :
  space_ok sp → as_addr sp ≠ BASE_ADDR →
  ∃ b, references_resolve sp refs = Some b ∧
       (b = true ↔ ∀ ref, ref ∈ refs → space_lookup sp (ref_target_id ref) ≠ None).
Proof.
  intros Hsp Hb; induction refs as [|ref refs (b & IHe & IH)]; cbn [references_resolve].
  { exists true; split; [done|]; split; [by intros _ r ?%not_elem_of_nil|done]. }
  rewrite find_node_no_index by done; cbn [mbind option_bind].
  destruct (space_lookup sp (ref_target_id ref)) as [node|] eqn:E.
  - exists b; split; [done|]; rewrite IH; split.
    + intros H r [->|Hr]%elem_of_cons; [congruence|auto].
    + intros H r Hr; apply H; by right.
  - exists false; split; [done|]; split; [done|intros H; by destruct (H ref); [left|]].
Qed.

Lemma nodes_resolve_spec sp nodes :
  space_ok sp → as_addr sp ≠ BASE_ADDR → Forall node_refs_ok nodes →
  ∃ b, nodes_resolve sp nodes = Some b ∧
       (b = true ↔ ∀ node, node ∈ nodes → (node_references node = None → node_reference_count node ≤ 0) ∧
          ∀ ref, ref ∈ node_refs node → space_lookup sp (ref_target_id ref) ≠ None).
Proof.
  intros Hsp Hb; induction 1 as [|node nodes Hr _ (b & IHe & IH)]; cbn [nodes_resolve].
  { exists true; split; [done|]; split; [by intros _ r ?%not_elem_of_nil|done]. }
  assert (Hnode : ∃ c, match node_references node with
      | None => Some (negb (0 <? node_reference_count node))
      | Some refs => guard (node_reference_count node ≤ zlen refs);;
                     references_resolve sp (ztake (node_reference_count node) refs)
      end = Some c ∧ (c = true ↔ (node_references node = None → node_reference_count node ≤ 0) ∧
          ∀ ref, ref ∈ node_refs node → space_lookup sp (ref_target_id ref) ≠ None)).
  { unfold node_refs_ok, node_refs in *; destruct (node_references node) as [refs|].
    - rewrite option_guard_True by lia; cbn [mbind option_bind].
      destruct (references_resolve_spec sp (ztake (node_reference_count node) refs)) as (c & -> & Hc); [done..|].
      exists c; split; [done|]; rewrite Hc; naive_solver.
    - eexists; split; [done|]; rewrite negb_true_iff, Z.ltb_ge; split.
      + intros H; split; [done|by intros r ?%not_elem_of_nil].
      + intros [H _]; auto. }
  destruct Hnode as (c & -> & Hc); cbn [mbind option_bind].
  destruct c; [exists b|exists false]; (split; [done|]).
  - rewrite IH; split; [intros H n [->|Hn]%elem_of_cons; [by apply Hc|auto]|intros H n Hn; apply H; by right].
  - split; [done|]; intros H; apply Hc, H; left.
Qed.

(** address space validation decides its contract. For a user space with
    valid pointers, [mu_address_space_validate] never accesses memory out of
    bounds, returns Good exactly when no two NodeIds are equal, no node claims
    references without an array, and every reference targets a node of the
    space; otherwise it returns Bad_InternalError. *)
Theorem validate_decides sp :
  space_ok sp → as_addr sp ≠ BASE_ADDR → Forall node_refs_ok (space_nodes sp) →
  (mu_address_space_validate sp = Ok tt ∧ space_valid sp) ∨
  (mu_address_space_validate sp = Err MU_STATUS_BAD_INTERNALERROR ∧ ¬ space_valid sp).
Proof.
  intros Hsp Hb Hr; destruct (nodes_resolve_spec sp (space_nodes sp) Hsp Hb Hr) as (b & E & Hiff).
  unfold space_valid, mu_address_space_validate; rewrite <- Hiff.
  unfold space_ok, space_nodes in *; destruct (as_nodes sp) as [nodes|] eqn:En.
  - rewrite (proj2 (Z.ltb_ge (zlen nodes) (as_node_count sp))) by lia; rewrite E.
    destruct (has_duplicate _); [right; split; [done|naive_solver]|].
    destruct b; [by left|right; split; [done|naive_solver]].
  - rewrite Hsp; left; split; [done|]; split; [done|]; injection E as <-; done.
Qed.

End lookup.

(** A space of three nodes, out of order, one with a reference. *)
Definition demo_space : mu_address_space_t :=
  let node i refs := mk_node (mk_nodeid 1 (MU_NODEID_NUMERIC i)) MU_NODECLASS_OBJECT
                       null_string null_string refs (match refs with None => 0 | Some r => zlen r end) None in
  mk_address_space 7
    (Some [node 30 None;
           node 10 (Some [mk_reference (mk_nodeid 0 (MU_NODEID_NUMERIC 35)) (mk_nodeid 1 (MU_NODEID_NUMERIC 20)) true]);
           node 20 None]) 3.

Lemma demo_space_ok : space_ok demo_space.
Proof.
  split; [vm_compute; split; discriminate|].
  repeat (apply Forall_cons_iff; split; [split; cbn; ranges; lia|]); constructor.
Qed.

Definition demo_index : mu_address_space_index_t :=
  @mk_index (replicate 64 0) 0 false None 0.

Lemma find_node_refines_scan_witness :
  ∃ ix', @mu_address_space_find_node embedded_caps demo_space (Some demo_index) (mk_nodeid 1 (MU_NODEID_NUMERIC 20))
         = (Some (space_lookup demo_space (mk_nodeid 1 (MU_NODEID_NUMERIC 20))), Some ix') ∧
         @index_inv embedded_caps demo_space ix'.
Proof.
  apply (@find_node_refines_scan embedded_caps).
  - exact demo_space_ok.
  - split; [repeat constructor|reflexivity].
  - split; [reflexivity|discriminate].
  - split; cbn; ranges; lia.
Defined.

Lemma validate_decides_witness :
  (@mu_address_space_validate embedded_caps demo_space = Ok tt ∧ @space_valid demo_space) ∨
  (@mu_address_space_validate embedded_caps demo_space = Err MU_STATUS_BAD_INTERNALERROR ∧ ¬ space_valid demo_space).
Proof.
  apply (@validate_decides embedded_caps).
  - exact demo_space_ok.
  - discriminate.
  - repeat (apply Forall_cons_iff; split; [vm_compute; repeat split; discriminate|]); constructor.
Defined.
