(* ===== verification/BaseNodes.v ===== *)
(** * The base information model

    [src/address_space/base_nodes.c]: the static table of standard nodes, the
    runtime-bound ServerStatus time nodes, and NodeId resolution over the
    integrator's space, the runtime space and the static table. The two
    compile-time features the table depends on are the class [BaseProfile];
    every theorem holds for each of their four settings. *)

From S2P Require Export AddressSpace.

Class BaseProfile := {
  MUC_OPCUA_BASE_TYPE_SYSTEM : bool;
  MUC_OPCUA_SUBSCRIPTIONS_STANDARD : bool
}.

(** The octets of a C string literal, with its terminator. *)
Definition c_str (s : String.string) : list Z := bytes_of_string s ++ [0].
Arguments c_str s%_string_scope.

(** A group of initialisers inside [#if]. *)
Definition when {A} (b : bool) (l : list A) : list A := if b then l else [].

Definition base_nodeid (i : Z) : mu_nodeid_t := mk_nodeid 0 (MU_NODEID_NUMERIC i).

Definition base_reference (type target : Z) (is_forward : bool) : mu_reference_t :=
  mk_reference (base_nodeid type) (base_nodeid target) is_forward.

(** The [references]/[reference_count] pairs of the initialisers: an array with
    its [sizeof] quotient, or [NULL, 0]. *)
Definition refs (l : list mu_reference_t) : option (list mu_reference_t) * Z := (Some l, zlen l).
Definition no_refs : option (list mu_reference_t) * Z := (None, 0).

Definition base_node (i class : Z) (browse_name display_name : mu_string_t)
    (references : option (list mu_reference_t) * Z) (value : option mu_value_source_t) : mu_node_t :=
  mk_node (base_nodeid i) class browse_name display_name references.1 references.2 value.

(** ** Pooled strings *)

Definition s_str_Aggregates : list Z := c_str "Aggregates".
Definition s_str_BaseDataType : list Z := c_str "BaseDataType".
Definition s_str_BaseDataVariableType : list Z := c_str "BaseDataVariableType".
Definition s_str_BaseObjectType : list Z := c_str "BaseObjectType".
Definition s_str_BaseVariableType : list Z := c_str "BaseVariableType".
Definition s_str_Boolean : list Z := c_str "Boolean".
Definition s_str_Byte : list Z := c_str "Byte".
Definition s_str_DataTypes : list Z := c_str "DataTypes".
Definition s_str_DateTime : list Z := c_str "DateTime".
Definition s_str_Double : list Z := c_str "Double".
Definition s_str_Float : list Z := c_str "Float".
Definition s_str_FolderType : list Z := c_str "FolderType".
Definition s_str_GetMonitoredItems : list Z := c_str "GetMonitoredItems".
Definition s_str_HasChild : list Z := c_str "HasChild".
Definition s_str_HasComponent : list Z := c_str "HasComponent".
Definition s_str_HasProperty : list Z := c_str "HasProperty".
Definition s_str_HasSubtype : list Z := c_str "HasSubtype".
Definition s_str_HasTypeDefinition : list Z := c_str "HasTypeDefinition".
Definition s_str_HierarchicalReferences : list Z := c_str "HierarchicalReferences".
Definition s_str_InputArguments : list Z := c_str "InputArguments".
Definition s_str_Int16 : list Z := c_str "Int16".
Definition s_str_Int32 : list Z := c_str "Int32".
Definition s_str_Int64 : list Z := c_str "Int64".
Definition s_str_LocaleIdArray : list Z := c_str "LocaleIdArray".
Definition s_str_LocalizedText : list Z := c_str "LocalizedText".
Definition s_str_MaxNodesPerBrowse : list Z := c_str "MaxNodesPerBrowse".
Definition s_str_MaxNodesPerRead : list Z := c_str "MaxNodesPerRead".
Definition s_str_NamespaceArray : list Z := c_str "NamespaceArray".
Definition s_str_NodeId : list Z := c_str "NodeId".
Definition s_str_NonHierarchicalReferences : list Z := c_str "NonHierarchicalReferences".
Definition s_str_ObjectTypes : list Z := c_str "ObjectTypes".
Definition s_str_Objects : list Z := c_str "Objects".
Definition s_str_OperationLimits : list Z := c_str "OperationLimits".
Definition s_str_Organizes : list Z := c_str "Organizes".
Definition s_str_OutputArguments : list Z := c_str "OutputArguments".
Definition s_str_PropertyType : list Z := c_str "PropertyType".
Definition s_str_QualifiedName : list Z := c_str "QualifiedName".
Definition s_str_ReferenceTypes : list Z := c_str "ReferenceTypes".
Definition s_str_References : list Z := c_str "References".
Definition s_str_ResendData : list Z := c_str "ResendData".
Definition s_str_Root : list Z := c_str "Root".
Definition s_str_SByte : list Z := c_str "SByte".
Definition s_str_Server : list Z := c_str "Server".
Definition s_str_ServerArray : list Z := c_str "ServerArray".
Definition s_str_ServerCapabilities : list Z := c_str "ServerCapabilities".
Definition s_str_ServerProfileArray : list Z := c_str "ServerProfileArray".
Definition s_str_ServerStatus : list Z := c_str "ServerStatus".
Definition s_str_ServerType : list Z := c_str "ServerType".
Definition s_str_State : list Z := c_str "State".
Definition s_str_StatusCode : list Z := c_str "StatusCode".
Definition s_str_String : list Z := c_str "String".
Definition s_str_Types : list Z := c_str "Types".
Definition s_str_UInt16 : list Z := c_str "UInt16".
Definition s_str_UInt32 : list Z := c_str "UInt32".
Definition s_str_UInt64 : list Z := c_str "UInt64".
Definition s_str_VariableTypes : list Z := c_str "VariableTypes".
Definition s_str_Views : list Z := c_str "Views".
Definition s_str_en : list Z := c_str "en".
Definition s_str_http___opcfoundation_org_UA_Profile_Server_EmbeddedUA2017 : list Z := c_str "http://opcfoundation.org/UA-Profile/Server/EmbeddedUA2017".
Definition s_str_http___opcfoundation_org_UA_Profile_Server_NanoEmbeddedDevice2017 : list Z := c_str "http://opcfoundation.org/UA-Profile/Server/NanoEmbeddedDevice2017".
Definition s_str_http___opcfoundation_org_UA_ : list Z := c_str "http://opcfoundation.org/UA/".
Definition s_str_urn_muc_opcua_server : list Z := c_str "urn:muc-opcua:server".

(** ** References and values *)

Section table.
  Context {profile : BaseProfile}.

Definition s_root_refs : list mu_reference_t :=
  [base_reference 35 85 true;
   base_reference 35 86 true;
   base_reference 35 87 true] ++
  when (MUC_OPCUA_BASE_TYPE_SYSTEM)
  [base_reference 40 61 true].

Definition s_objects_refs : list mu_reference_t :=
  [base_reference 35 2253 true] ++
  when (MUC_OPCUA_BASE_TYPE_SYSTEM)
  [base_reference 40 61 true].

Definition s_views_refs : list mu_reference_t :=
  [base_reference 40 61 true].

Definition s_types_refs : list mu_reference_t :=
  [base_reference 35 88 true;
   base_reference 35 89 true;
   base_reference 35 90 true;
   base_reference 35 91 true;
   base_reference 40 61 true].

Definition s_type_folder_object_refs : list mu_reference_t :=
  [base_reference 35 58 true;
   base_reference 40 61 true].

Definition s_type_folder_variable_refs : list mu_reference_t :=
  [base_reference 35 62 true;
   base_reference 40 61 true].

Definition s_type_folder_data_refs : list mu_reference_t :=
  [base_reference 35 24 true;
   base_reference 40 61 true].

Definition s_type_folder_reference_refs : list mu_reference_t :=
  [base_reference 35 31 true;
   base_reference 40 61 true].

Definition s_references_refs : list mu_reference_t :=
  [base_reference 45 32 true;
   base_reference 45 33 true].

Definition s_nonhierarchical_refs : list mu_reference_t :=
  [base_reference 45 40 true].

Definition s_hierarchical_refs : list mu_reference_t :=
  [base_reference 45 34 true;
   base_reference 45 35 true].

Definition s_has_child_refs : list mu_reference_t :=
  [base_reference 45 44 true;
   base_reference 45 45 true].

Definition s_aggregates_refs : list mu_reference_t :=
  [base_reference 45 46 true;
   base_reference 45 47 true].

Definition s_base_data_type_refs : list mu_reference_t :=
  [base_reference 45 1 true;
   base_reference 45 2 true;
   base_reference 45 3 true;
   base_reference 45 4 true;
   base_reference 45 5 true;
   base_reference 45 6 true;
   base_reference 45 7 true;
   base_reference 45 8 true;
   base_reference 45 9 true;
   base_reference 45 10 true;
   base_reference 45 11 true;
   base_reference 45 12 true;
   base_reference 45 13 true;
   base_reference 45 17 true;
   base_reference 45 19 true;
   base_reference 45 20 true;
   base_reference 45 21 true].

Definition s_base_object_type_refs : list mu_reference_t :=
  [base_reference 45 61 true;
   base_reference 45 2004 true].

Definition s_base_variable_type_refs : list mu_reference_t :=
  [base_reference 45 63 true].

Definition s_base_data_variable_type_refs : list mu_reference_t :=
  [base_reference 45 68 true].

Definition s_server_refs : list mu_reference_t :=
  [base_reference 47 2254 true;
   base_reference 47 2255 true;
   base_reference 47 2256 true;
   base_reference 47 2268 true] ++
  when (MUC_OPCUA_BASE_TYPE_SYSTEM && MUC_OPCUA_SUBSCRIPTIONS_STANDARD)
  [base_reference 47 11492 true;
   base_reference 47 12873 true] ++
  when (MUC_OPCUA_BASE_TYPE_SYSTEM)
  [base_reference 40 2004 true].

Definition s_server_status_refs : list mu_reference_t :=
  [base_reference 47 2259 true;
   base_reference 47 2258 true;
   base_reference 47 2257 true] ++
  when (MUC_OPCUA_BASE_TYPE_SYSTEM)
  [base_reference 40 63 true].

Definition s_server_capabilities_refs : list mu_reference_t :=
  [base_reference 46 2269 true;
   base_reference 46 2271 true;
   base_reference 47 11704 true] ++
  when (MUC_OPCUA_BASE_TYPE_SYSTEM)
  [base_reference 40 58 true].

Definition s_operation_limits_refs : list mu_reference_t :=
  [base_reference 46 11705 true;
   base_reference 46 11710 true] ++
  when (MUC_OPCUA_BASE_TYPE_SYSTEM)
  [base_reference 40 58 true].

Definition s_property_type_ref : list mu_reference_t :=
  [base_reference 40 68 true].

Definition s_get_monitored_items_refs : list mu_reference_t :=
  [base_reference 46 11493 true;
   base_reference 46 11494 true].

Definition s_resend_data_refs : list mu_reference_t :=
  [base_reference 46 12874 true].

Definition s_server_array : list mu_string_t :=
  [mk_string 20 (Some s_str_urn_muc_opcua_server)].

Definition s_server_array_value : mu_value_source_t :=
  MU_VALUESOURCE_STATIC (mk_variant MU_TYPE_STRING (VV_array (Some (map VV_str s_server_array))) true 1).

Definition s_namespace_array : list mu_string_t :=
  [mk_string 28 (Some s_str_http___opcfoundation_org_UA_)].

Definition s_namespace_array_value : mu_value_source_t :=
  MU_VALUESOURCE_STATIC (mk_variant MU_TYPE_STRING (VV_array (Some (map VV_str s_namespace_array))) true 1).

Definition s_server_status_state_value : mu_value_source_t :=
  MU_VALUESOURCE_STATIC (mk_variant MU_TYPE_INT32 (VV_i32 0) false 0).

Definition s_server_profile_array : list mu_string_t :=
  when (MUC_OPCUA_BASE_TYPE_SYSTEM)
  [mk_string 57 (Some s_str_http___opcfoundation_org_UA_Profile_Server_EmbeddedUA2017)] ++
  when (negb MUC_OPCUA_BASE_TYPE_SYSTEM)
  [mk_string 65 (Some s_str_http___opcfoundation_org_UA_Profile_Server_NanoEmbeddedDevice2017)].

Definition s_server_profile_array_value : mu_value_source_t :=
  MU_VALUESOURCE_STATIC (mk_variant MU_TYPE_STRING (VV_array (Some (map VV_str s_server_profile_array))) true 1).

Definition s_locale_id_array : list mu_string_t :=
  [mk_string 2 (Some s_str_en)].

Definition s_locale_id_array_value : mu_value_source_t :=
  MU_VALUESOURCE_STATIC (mk_variant MU_TYPE_STRING (VV_array (Some (map VV_str s_locale_id_array))) true 1).

Definition s_max_nodes_per_read_value : mu_value_source_t :=
  MU_VALUESOURCE_STATIC (mk_variant MU_TYPE_UINT32 (VV_ui32 32) false 0).

Definition s_max_nodes_per_browse_value : mu_value_source_t :=
  MU_VALUESOURCE_STATIC (mk_variant MU_TYPE_UINT32 (VV_ui32 8) false 0).

Definition s_base_nodes_datatypes : list mu_node_t :=
  when (MUC_OPCUA_BASE_TYPE_SYSTEM)
  [base_node 1 MU_NODECLASS_DATATYPE (mk_string 7 (Some s_str_Boolean)) (mk_string 7 (Some s_str_Boolean))
     no_refs None;
   base_node 2 MU_NODECLASS_DATATYPE (mk_string 5 (Some s_str_SByte)) (mk_string 5 (Some s_str_SByte))
     no_refs None;
   base_node 3 MU_NODECLASS_DATATYPE (mk_string 4 (Some s_str_Byte)) (mk_string 4 (Some s_str_Byte))
     no_refs None;
   base_node 4 MU_NODECLASS_DATATYPE (mk_string 5 (Some s_str_Int16)) (mk_string 5 (Some s_str_Int16))
     no_refs None;
   base_node 5 MU_NODECLASS_DATATYPE (mk_string 6 (Some s_str_UInt16)) (mk_string 6 (Some s_str_UInt16))
     no_refs None;
   base_node 6 MU_NODECLASS_DATATYPE (mk_string 5 (Some s_str_Int32)) (mk_string 5 (Some s_str_Int32))
     no_refs None;
   base_node 7 MU_NODECLASS_DATATYPE (mk_string 6 (Some s_str_UInt32)) (mk_string 6 (Some s_str_UInt32))
     no_refs None;
   base_node 8 MU_NODECLASS_DATATYPE (mk_string 5 (Some s_str_Int64)) (mk_string 5 (Some s_str_Int64))
     no_refs None;
   base_node 9 MU_NODECLASS_DATATYPE (mk_string 6 (Some s_str_UInt64)) (mk_string 6 (Some s_str_UInt64))
     no_refs None;
   base_node 10 MU_NODECLASS_DATATYPE (mk_string 5 (Some s_str_Float)) (mk_string 5 (Some s_str_Float))
     no_refs None;
   base_node 11 MU_NODECLASS_DATATYPE (mk_string 6 (Some s_str_Double)) (mk_string 6 (Some s_str_Double))
     no_refs None;
   base_node 12 MU_NODECLASS_DATATYPE (mk_string 6 (Some s_str_String)) (mk_string 6 (Some s_str_String))
     no_refs None;
   base_node 13 MU_NODECLASS_DATATYPE (mk_string 8 (Some s_str_DateTime)) (mk_string 8 (Some s_str_DateTime))
     no_refs None;
   base_node 17 MU_NODECLASS_DATATYPE (mk_string 6 (Some s_str_NodeId)) (mk_string 6 (Some s_str_NodeId))
     no_refs None;
   base_node 19 MU_NODECLASS_DATATYPE (mk_string 10 (Some s_str_StatusCode)) (mk_string 10 (Some s_str_StatusCode))
     no_refs None;
   base_node 20 MU_NODECLASS_DATATYPE (mk_string 13 (Some s_str_QualifiedName)) (mk_string 13 (Some s_str_QualifiedName))
     no_refs None;
   base_node 21 MU_NODECLASS_DATATYPE (mk_string 13 (Some s_str_LocalizedText)) (mk_string 13 (Some s_str_LocalizedText))
     no_refs None;
   base_node 24 MU_NODECLASS_DATATYPE (mk_string 12 (Some s_str_BaseDataType)) (mk_string 12 (Some s_str_BaseDataType))
     (refs s_base_data_type_refs) None].

Definition s_base_nodes_reference_types : list mu_node_t :=
  when (MUC_OPCUA_BASE_TYPE_SYSTEM)
  [base_node 31 MU_NODECLASS_REFERENCETYPE (mk_string 10 (Some s_str_References)) (mk_string 10 (Some s_str_References))
     (refs s_references_refs) None;
   base_node 32 MU_NODECLASS_REFERENCETYPE (mk_string 25 (Some s_str_NonHierarchicalReferences)) (mk_string 25 (Some s_str_NonHierarchicalReferences))
     (refs s_nonhierarchical_refs) None;
   base_node 33 MU_NODECLASS_REFERENCETYPE (mk_string 22 (Some s_str_HierarchicalReferences)) (mk_string 22 (Some s_str_HierarchicalReferences))
     (refs s_hierarchical_refs) None;
   base_node 34 MU_NODECLASS_REFERENCETYPE (mk_string 8 (Some s_str_HasChild)) (mk_string 8 (Some s_str_HasChild))
     (refs s_has_child_refs) None;
   base_node 35 MU_NODECLASS_REFERENCETYPE (mk_string 9 (Some s_str_Organizes)) (mk_string 9 (Some s_str_Organizes))
     no_refs None;
   base_node 40 MU_NODECLASS_REFERENCETYPE (mk_string 17 (Some s_str_HasTypeDefinition)) (mk_string 17 (Some s_str_HasTypeDefinition))
     no_refs None;
   base_node 44 MU_NODECLASS_REFERENCETYPE (mk_string 10 (Some s_str_Aggregates)) (mk_string 10 (Some s_str_Aggregates))
     (refs s_aggregates_refs) None;
   base_node 45 MU_NODECLASS_REFERENCETYPE (mk_string 10 (Some s_str_HasSubtype)) (mk_string 10 (Some s_str_HasSubtype))
     no_refs None;
   base_node 46 MU_NODECLASS_REFERENCETYPE (mk_string 11 (Some s_str_HasProperty)) (mk_string 11 (Some s_str_HasProperty))
     no_refs None;
   base_node 47 MU_NODECLASS_REFERENCETYPE (mk_string 12 (Some s_str_HasComponent)) (mk_string 12 (Some s_str_HasComponent))
     no_refs None].

Definition s_base_nodes_types : list mu_node_t :=
  when (MUC_OPCUA_BASE_TYPE_SYSTEM)
  [base_node 58 MU_NODECLASS_OBJECTTYPE (mk_string 14 (Some s_str_BaseObjectType)) (mk_string 14 (Some s_str_BaseObjectType))
     (refs s_base_object_type_refs) None;
   base_node 61 MU_NODECLASS_OBJECTTYPE (mk_string 10 (Some s_str_FolderType)) (mk_string 10 (Some s_str_FolderType))
     no_refs None;
   base_node 62 MU_NODECLASS_VARIABLETYPE (mk_string 16 (Some s_str_BaseVariableType)) (mk_string 16 (Some s_str_BaseVariableType))
     (refs s_base_variable_type_refs) None;
   base_node 63 MU_NODECLASS_VARIABLETYPE (mk_string 20 (Some s_str_BaseDataVariableType)) (mk_string 20 (Some s_str_BaseDataVariableType))
     (refs s_base_data_variable_type_refs) None;
   base_node 68 MU_NODECLASS_VARIABLETYPE (mk_string 12 (Some s_str_PropertyType)) (mk_string 12 (Some s_str_PropertyType))
     no_refs None] ++
  [base_node 84 MU_NODECLASS_OBJECT (mk_string 4 (Some s_str_Root)) (mk_string 4 (Some s_str_Root))
     (refs s_root_refs) None;
   base_node 85 MU_NODECLASS_OBJECT (mk_string 7 (Some s_str_Objects)) (mk_string 7 (Some s_str_Objects))
     (refs s_objects_refs) None;
   base_node 86 MU_NODECLASS_OBJECT (mk_string 5 (Some s_str_Types)) (mk_string 5 (Some s_str_Types))
     (if MUC_OPCUA_BASE_TYPE_SYSTEM then (refs s_types_refs) else no_refs) None;
   base_node 87 MU_NODECLASS_OBJECT (mk_string 5 (Some s_str_Views)) (mk_string 5 (Some s_str_Views))
     (if MUC_OPCUA_BASE_TYPE_SYSTEM then (refs s_views_refs) else no_refs) None] ++
  when (MUC_OPCUA_BASE_TYPE_SYSTEM)
  [base_node 88 MU_NODECLASS_OBJECT (mk_string 11 (Some s_str_ObjectTypes)) (mk_string 11 (Some s_str_ObjectTypes))
     (refs s_type_folder_object_refs) None;
   base_node 89 MU_NODECLASS_OBJECT (mk_string 13 (Some s_str_VariableTypes)) (mk_string 13 (Some s_str_VariableTypes))
     (refs s_type_folder_variable_refs) None;
   base_node 90 MU_NODECLASS_OBJECT (mk_string 9 (Some s_str_DataTypes)) (mk_string 9 (Some s_str_DataTypes))
     (refs s_type_folder_data_refs) None;
   base_node 91 MU_NODECLASS_OBJECT (mk_string 14 (Some s_str_ReferenceTypes)) (mk_string 14 (Some s_str_ReferenceTypes))
     (refs s_type_folder_reference_refs) None].

Definition s_base_nodes_server : list mu_node_t :=
  when (MUC_OPCUA_BASE_TYPE_SYSTEM)
  [base_node 2004 MU_NODECLASS_OBJECTTYPE (mk_string 10 (Some s_str_ServerType)) (mk_string 10 (Some s_str_ServerType))
     no_refs None] ++
  [base_node 2253 MU_NODECLASS_OBJECT (mk_string 6 (Some s_str_Server)) (mk_string 6 (Some s_str_Server))
     (refs s_server_refs) None;
   base_node 2254 MU_NODECLASS_VARIABLE (mk_string 11 (Some s_str_ServerArray)) (mk_string 11 (Some s_str_ServerArray))
     (if MUC_OPCUA_BASE_TYPE_SYSTEM then (refs s_property_type_ref) else no_refs) (Some s_server_array_value);
   base_node 2255 MU_NODECLASS_VARIABLE (mk_string 14 (Some s_str_NamespaceArray)) (mk_string 14 (Some s_str_NamespaceArray))
     (if MUC_OPCUA_BASE_TYPE_SYSTEM then (refs s_property_type_ref) else no_refs) (Some s_namespace_array_value);
   base_node 2256 MU_NODECLASS_VARIABLE (mk_string 12 (Some s_str_ServerStatus)) (mk_string 12 (Some s_str_ServerStatus))
     (refs s_server_status_refs) None;
   base_node 2259 MU_NODECLASS_VARIABLE (mk_string 5 (Some s_str_State)) (mk_string 5 (Some s_str_State))
     (if MUC_OPCUA_BASE_TYPE_SYSTEM then (refs s_property_type_ref) else no_refs) (Some s_server_status_state_value);
   base_node 2268 MU_NODECLASS_OBJECT (mk_string 18 (Some s_str_ServerCapabilities)) (mk_string 18 (Some s_str_ServerCapabilities))
     (refs s_server_capabilities_refs) None;
   base_node 2269 MU_NODECLASS_VARIABLE (mk_string 18 (Some s_str_ServerProfileArray)) (mk_string 18 (Some s_str_ServerProfileArray))
     (if MUC_OPCUA_BASE_TYPE_SYSTEM then (refs s_property_type_ref) else no_refs) (Some s_server_profile_array_value);
   base_node 2271 MU_NODECLASS_VARIABLE (mk_string 13 (Some s_str_LocaleIdArray)) (mk_string 13 (Some s_str_LocaleIdArray))
     (if MUC_OPCUA_BASE_TYPE_SYSTEM then (refs s_property_type_ref) else no_refs) (Some s_locale_id_array_value)] ++
  when (MUC_OPCUA_BASE_TYPE_SYSTEM && MUC_OPCUA_SUBSCRIPTIONS_STANDARD)
  [base_node 11492 MU_NODECLASS_METHOD (mk_string 17 (Some s_str_GetMonitoredItems)) (mk_string 17 (Some s_str_GetMonitoredItems))
     (refs s_get_monitored_items_refs) None;
   base_node 11493 MU_NODECLASS_VARIABLE (mk_string 14 (Some s_str_InputArguments)) (mk_string 14 (Some s_str_InputArguments))
     (refs s_property_type_ref) None].

Definition s_base_nodes_limits : list mu_node_t :=
  when (MUC_OPCUA_BASE_TYPE_SYSTEM && MUC_OPCUA_SUBSCRIPTIONS_STANDARD)
  [base_node 11494 MU_NODECLASS_VARIABLE (mk_string 15 (Some s_str_OutputArguments)) (mk_string 15 (Some s_str_OutputArguments))
     (refs s_property_type_ref) None] ++
  [base_node 11704 MU_NODECLASS_OBJECT (mk_string 15 (Some s_str_OperationLimits)) (mk_string 15 (Some s_str_OperationLimits))
     (refs s_operation_limits_refs) None;
   base_node 11705 MU_NODECLASS_VARIABLE (mk_string 15 (Some s_str_MaxNodesPerRead)) (mk_string 15 (Some s_str_MaxNodesPerRead))
     (if MUC_OPCUA_BASE_TYPE_SYSTEM then (refs s_property_type_ref) else no_refs) (Some s_max_nodes_per_read_value);
   base_node 11710 MU_NODECLASS_VARIABLE (mk_string 17 (Some s_str_MaxNodesPerBrowse)) (mk_string 17 (Some s_str_MaxNodesPerBrowse))
     (if MUC_OPCUA_BASE_TYPE_SYSTEM then (refs s_property_type_ref) else no_refs) (Some s_max_nodes_per_browse_value)] ++
  when (MUC_OPCUA_BASE_TYPE_SYSTEM && MUC_OPCUA_SUBSCRIPTIONS_STANDARD)
  [base_node 12873 MU_NODECLASS_METHOD (mk_string 10 (Some s_str_ResendData)) (mk_string 10 (Some s_str_ResendData))
     (refs s_resend_data_refs) None;
   base_node 12874 MU_NODECLASS_VARIABLE (mk_string 14 (Some s_str_InputArguments)) (mk_string 14 (Some s_str_InputArguments))
     (refs s_property_type_ref) None].

Definition s_base_nodes : list mu_node_t :=
  s_base_nodes_datatypes ++ s_base_nodes_reference_types ++ s_base_nodes_types ++ s_base_nodes_server ++ s_base_nodes_limits.

Definition mu_base_address_space : mu_address_space_t :=
  mk_address_space BASE_ADDR (Some s_base_nodes) (zlen s_base_nodes).

(** ** Runtime-bound nodes *)

(** A time adapter answers a call made at an instant. *)
Record mu_time_adapter_t := mk_time_adapter { ta_get_time : option (Z → Z) }.

Record mu_base_runtime_t := mk_base_runtime {
  rt_time : option mu_time_adapter_t;
  rt_start_time : Z
}.

Definition base_status_time_read (rt : mu_base_runtime_t) : mu_read_callback_t :=
  λ now id v,
    match nid_identifier id with
    | MU_NODEID_NUMERIC numeric =>
        Ok (mk_variant MU_TYPE_DATETIME
              (VV_dt (if numeric =? 2257 then rt_start_time rt
                      else match rt_time rt with
                           | Some (mk_time_adapter (Some get_time)) => get_time now
                           | _ => 0
                           end)) false 0)
    | _ => Fault
    end.

Record mu_base_runtime_nodes_t := mk_base_runtime_nodes {
  rn_rt : mu_base_runtime_t;
  rn_nodes : list mu_node_t;
  rn_values : list mu_value_source_t;
  rn_space : mu_address_space_t
}.

(** [addr] is the identity of the caller's storage. *)
Definition mu_base_runtime_init (addr : Z) (time : option mu_time_adapter_t) (start_time : Z)
    : mu_base_runtime_nodes_t :=
  let rt := mk_base_runtime time start_time in
  let value := MU_VALUESOURCE_CALLBACK (Some (base_status_time_read rt)) in
  let references := if MUC_OPCUA_BASE_TYPE_SYSTEM then refs s_property_type_ref else no_refs in
  let current_time := mk_string 11 (Some (c_str "CurrentTime")) in
  let start := mk_string 9 (Some (c_str "StartTime")) in
  let nodes := [base_node 2258 MU_NODECLASS_VARIABLE current_time current_time references (Some value);
                base_node 2257 MU_NODECLASS_VARIABLE start start references (Some value)] in
  mk_base_runtime_nodes rt nodes [value; value] (mk_address_space addr (Some nodes) 2).

(** ** Resolution *)

Context {caps : BuildCaps}.

Definition mu_resolve_node (user : option mu_address_space_t) (user_index : option mu_address_space_index_t)
    (dynamic : option mu_address_space_t) (node_id : mu_nodeid_t)
    : lookup_t * option mu_address_space_index_t :=
  let '(n, user_index) :=
    match user with
    | Some user => mu_address_space_find_node user user_index node_id
    | None => (Some None, user_index)
    end in
  let result :=
    n ← n;
    match n with
    | Some node => Some (Some node)
    | None =>
        n ← match dynamic with
            | Some dynamic => (mu_address_space_find_node dynamic None node_id).1
            | None => Some None
            end;
        match n with
        | Some node => Some (Some node)
        | None => (mu_address_space_find_node mu_base_address_space None node_id).1
        end
    end in
  (result, user_index).

End table.

(** ** The table is in key order *)

Fixpoint keys_increasing (nodes : list mu_node_t) : bool :=
  match nodes with
  | a :: rest =>
      match rest with
      | b :: _ => (lexcmp (nodeid_key (node_node_id a)) (nodeid_key (node_node_id b)) <? 0)
      | [] => true
      end && keys_increasing rest
  | [] => true
  end.

Lemma keys_increasing_head a nodes :
  keys_increasing (a :: nodes) = true → ∀ j b, nodes !! j = Some b →
  lexcmp (nodeid_key (node_node_id a)) (nodeid_key (node_node_id b)) ≤ 0.
Proof.
  revert a; induction nodes as [|c nodes IH]; intros a; [done|].
  intros [Hac%Z.ltb_lt Hrest]%andb_true_iff [|j] b Hj; simpl in Hj.
  - injection Hj as <-; lia.
  - apply (lexcmp_trans _ (nodeid_key (node_node_id c))); [lia|by apply (IH c Hrest j)].
Qed.

Lemma keys_increasing_le nodes i j a b :
  keys_increasing nodes = true → (i < j)%nat → nodes !! i = Some a → nodes !! j = Some b →
  lexcmp (nodeid_key (node_node_id a)) (nodeid_key (node_node_id b)) ≤ 0.
Proof.
  revert i j; induction nodes as [|c nodes IH]; intros i j Hk Hij Ha Hb; [done|].
  destruct j as [|j]; [lia|]; destruct i as [|i]; simpl in Ha, Hb.
  - injection Ha as <-; by apply (keys_increasing_head c nodes Hk j).
  - apply (IH i j); [by apply andb_true_iff in Hk as [_ ?]|lia|done..].
Qed.

Lemma strongly_sorted_seqZ (R : relation Z) n :
  ∀ m, (∀ i j, m ≤ i < j → j < m + Z.of_nat n → R i j) → StronglySorted R (seqZ m (Z.of_nat n)).
Proof.
  induction n as [|n IH]; intros m HR; [constructor|].
  rewrite seqZ_cons by lia; replace (Z.pred (Z.of_nat (S n))) with (Z.of_nat n) by lia.
  constructor; [apply IH; intros; apply HR; lia|].
  apply Forall_forall; intros x Hx%elem_of_seqZ; apply HR; lia.
Qed.

Lemma keys_increasing_order nodes :
  keys_increasing nodes = true → order_ok nodes (length nodes) (seqZ 0 (zlen nodes)).
Proof.
  intros Hk; split; [done|]; unfold zlen; apply strongly_sorted_seqZ; intros i j Hi Hj.
  unfold key_le, node_key.
  destruct (znth_Some nodes i) as [a Ha]; [unfold zlen; lia|].
  destruct (znth_Some nodes j) as [b Hb]; [unfold zlen; lia|]; rewrite Ha, Hb.
  apply znth_lookup in Ha as [Ha _]; apply znth_lookup in Hb as [Hb _].
  eapply (keys_increasing_le nodes); [done| |exact Ha|exact Hb]; lia.
Qed.

(** Boolean facts about the table, evaluated for every profile. *)
Definition literal_name (s : mu_string_t) : bool :=
  match str_data s with
  | None => false
  | Some d => (zlen d =? str_length s + 1) && forallb (λ x, (0 <=? x) && (x <? 256)) d
  end.

Definition base_node_ok (node : mu_node_t) : bool :=
  match nid_identifier (node_node_id node) with
  | MU_NODEID_NUMERIC i => (0 <=? i) && (i <? 4294967296)
  | _ => false
  end && (nid_namespace_index (node_node_id node) =? 0)
  && literal_name (node_browse_name node) && literal_name (node_display_name node)
  && match node_references node with
     | None => node_reference_count node =? 0
     | Some l => node_reference_count node =? zlen l
     end.

Lemma base_table_facts {profile : BaseProfile} :
  keys_increasing s_base_nodes && forallb base_node_ok s_base_nodes && negb (has_duplicate s_base_nodes) = true.
Proof. destruct profile as [[] []]; vm_compute; reflexivity. Qed.

Section base.
  Context {profile : BaseProfile} {caps : BuildCaps}.

Lemma base_increasing : keys_increasing s_base_nodes = true.
Proof. pose proof base_table_facts; by repeat (bool_hyps; simpl). Qed.

Lemma base_nodes_ok : Forall (λ n, base_node_ok n = true) s_base_nodes.
Proof.
  pose proof base_table_facts as [[_ H]%andb_true_iff _]%andb_true_iff.
  rewrite forallb_forall in H; apply Forall_forall; intros n Hn; by apply H, list_elem_of_In.
Qed.

Lemma base_nodeids_ok : Forall (λ n, nodeid_ok (node_node_id n) ∧ nodeid_supported (node_node_id n)) s_base_nodes.
Proof.
  eapply Forall_impl; [apply base_nodes_ok|]; intros node H; cbn beta in H.
  unfold base_node_ok in H; repeat (apply andb_true_iff in H as [H ?]).
  unfold nodeid_ok, nodeid_supported; destruct (nid_identifier (node_node_id node)); try done.
  bool_hyps; ranges; split; [split; lia|done].
Qed.

Lemma base_distinct : nodes_distinct s_base_nodes.
Proof.
  pose proof base_table_facts as [_ H]%andb_true_iff; split; [|by apply negb_true_iff].
  eapply Forall_impl; [apply base_nodeids_ok|]; by intros ? [].
Qed.

Lemma base_space_nodes : space_nodes mu_base_address_space = s_base_nodes.
Proof.
  unfold space_nodes; cbn [as_nodes as_node_count mu_base_address_space].
  unfold ztake, zlen; by rewrite Nat2Z.id, firstn_all.
Qed.

Lemma base_space_ok : space_ok mu_base_address_space.
Proof.
  unfold space_ok; cbn [as_nodes mu_base_address_space as_node_count].
  split; [pose proof (zlen_nonneg s_base_nodes); lia|].
  eapply Forall_impl; [apply base_nodeids_ok|]; by intros ? [].
Qed.

Lemma find_node_base id :
  nodeid_ok id →
  (mu_address_space_find_node mu_base_address_space None id).1 = Some (find_linear s_base_nodes id).
Proof.
  intros Hid; rewrite <- base_space_nodes; change (find_linear _ id) with (space_lookup mu_base_address_space id).
  unfold mu_address_space_find_node; cbn [is_null as_nodes mu_base_address_space as_addr].
  rewrite Z.eqb_refl; cbn [fst].
  eapply find_node_binary_direct_spec; [done|apply base_space_ok|rewrite base_space_nodes; apply base_distinct|done|].
  cbn [as_node_count mu_base_address_space]; unfold zlen at 1; rewrite Nat2Z.id.
  apply keys_increasing_order, base_increasing.
Qed.

(** C35: the static base table is sound in every build profile. Binary search
    over it finds each of its nodes under the node's own NodeId (so the table is
    really in key order), every browse and display name length matches its
    string literal, every reference count matches its array, and every
    reference targets a node of the table or one of the two runtime-bound
    ServerStatus nodes. *)
Theorem base_table_sound (addr : Z) (time : option mu_time_adapter_t) (start_time : Z) node :
  node ∈ s_base_nodes →
  (mu_address_space_find_node mu_base_address_space None (node_node_id node)).1 = Some (Some node) ∧
  base_node_ok node = true ∧
  ∀ ref, ref ∈ node_refs node →
    find_linear (s_base_nodes ++ rn_nodes (mu_base_runtime_init addr time start_time)) (ref_target_id ref) ≠ None.
Proof.
  intros Hn; pose proof base_nodeids_ok as Hids; rewrite Forall_forall in Hids.
  pose proof base_nodes_ok as Hok; rewrite Forall_forall in Hok.
  split_and!; [|by apply Hok|].
  - rewrite find_node_base by (by apply Hids); f_equal.
    apply list_elem_of_lookup_1 in Hn as Hi; destruct Hi as [i Hi].
    apply (find_linear_unique _ _ i); [|by apply Hids|apply base_distinct|done|].
    + eapply Forall_impl; [apply base_nodeids_ok|]; by intros ? [].
    + by apply nodeid_equal_key; try apply Hids.
  - assert (H : forallb (λ node, forallb (λ ref, negb (is_null
         (find_linear (s_base_nodes ++ rn_nodes (mu_base_runtime_init addr time start_time)) (ref_target_id ref))))
         (node_refs node)) s_base_nodes = true).
    { clear; destruct profile as [[] []]; vm_compute; reflexivity. }
    rewrite forallb_forall in H; specialize (H node ltac:(by apply list_elem_of_In)).
    rewrite forallb_forall in H; intros ref Hr; specialize (H ref ltac:(by apply list_elem_of_In)).
    by destruct (find_linear _ _).
Qed.

(** The specification of resolution. *)
Definition opt_lookup (space : option mu_address_space_t) (id : mu_nodeid_t) : option mu_node_t :=
  space ← space; space_lookup space id.

Definition layered_lookup (user dynamic : option mu_address_space_t) (id : mu_nodeid_t) : option mu_node_t :=
  match opt_lookup user id with
  | Some node => Some node
  | None => match opt_lookup dynamic id with
            | Some node => Some node
            | None => find_linear s_base_nodes id
            end
  end.

(** Valid spaces and, where the user space is searched through an index, a
    consistent one. *)
Definition resolve_ctx (user : option mu_address_space_t) (user_index : option mu_address_space_index_t)
    (dynamic : option mu_address_space_t) : Prop :=
  match user with
  | None => True
  | Some user =>
      space_ok user ∧
      match user_index with
      | None => as_addr user ≠ BASE_ADDR
      | Some ix => nodes_distinct (space_nodes user) ∧ index_inv user ix
      end
  end ∧
  match dynamic with
  | None => True
  | Some dynamic => space_ok dynamic ∧ as_addr dynamic ≠ BASE_ADDR
  end.

Lemma resolve_user user ix dynamic id :
  resolve_ctx user ix dynamic → nodeid_ok id →
  ∃ ix', match user with
         | Some user => mu_address_space_find_node user ix id
         | None => (Some None, ix)
         end = (Some (opt_lookup user id), ix') ∧ resolve_ctx user ix' dynamic.
Proof.
  intros [Hu Hdyn] Hid; destruct user as [user|]; [|exists ix; by split].
  destruct Hu as [Hok Hix]; destruct ix as [ix|].
  - destruct Hix as [Hd Hix]; destruct (find_node_spec user ix id) as (ix' & -> & Hix'); [done..|].
    exists (Some ix'); split; [done|split; [split; [done|by split]|done]].
  - exists None; split; [|split; [by split|done]].
    change (opt_lookup (Some user) id) with (space_lookup user id).
    rewrite <- (find_node_no_index user id Hok Hix); unfold mu_address_space_find_node.
    by destruct (is_null (as_nodes user)), (as_addr user =? BASE_ADDR).
Qed.

Lemma resolve_node_spec user ix dynamic id :
  resolve_ctx user ix dynamic → nodeid_ok id →
  ∃ ix', mu_resolve_node user ix dynamic id = (Some (layered_lookup user dynamic id), ix') ∧
         resolve_ctx user ix' dynamic.
Proof.
  intros Hctx Hid; unfold mu_resolve_node, layered_lookup.
  destruct (resolve_user user ix dynamic id Hctx Hid) as (ix' & -> & Hctx').
  exists ix'; split; [|done]; cbn [mbind option_bind].
  destruct (opt_lookup user id); [done|].
  destruct dynamic as [d|]; cbn [mbind option_bind opt_lookup]; [|by rewrite find_node_base].
  destruct Hctx as [_ [Hok Haddr]]; rewrite (find_node_no_index d) by done; cbn [mbind option_bind].
  destruct (space_lookup d id); [done|by rewrite find_node_base].
Qed.

(** NodeId resolution implements its layering. With valid user and
    runtime spaces (each optional), the user space searched by scan or through
    any consistent index, the result is the node of the user space if it has
    one, else the runtime node, else the base node, else NULL; no access is out
    of bounds and the index stays consistent. *)
Theorem resolve_node_layers user ix dynamic id :
  resolve_ctx user ix dynamic → nodeid_ok id →
  ∃ ix', mu_resolve_node user ix dynamic id = (Some (layered_lookup user dynamic id), ix') ∧
         resolve_ctx user ix' dynamic.
Proof. apply resolve_node_spec. Qed.

End base.

(** The profile of the embedded build. *)
Definition embedded_profile : BaseProfile :=
  {| MUC_OPCUA_BASE_TYPE_SYSTEM := true; MUC_OPCUA_SUBSCRIPTIONS_STANDARD := true |}.

Definition root_node : mu_node_t :=
  @base_node 84 MU_NODECLASS_OBJECT (mk_string 4 (Some s_str_Root)) (mk_string 4 (Some s_str_Root))
    (refs (@s_root_refs embedded_profile)) None.

Lemma base_table_sound_witness :
  (@mu_address_space_find_node embedded_caps (@mu_base_address_space embedded_profile) None (node_node_id root_node)).1
    = Some (Some root_node).
Proof.
  apply (@base_table_sound embedded_profile embedded_caps 1 None 0 root_node).
  apply (list_elem_of_lookup_2 _ 33); reflexivity.
Defined.

Definition demo_runtime : mu_address_space_t :=
  rn_space (@mu_base_runtime_init embedded_profile 2 (Some (mk_time_adapter (Some (λ now, now)))) 5).

Lemma demo_ctx :
  @resolve_ctx embedded_caps (Some demo_space) (Some demo_index) (Some demo_runtime).
Proof.
  split; [split; [exact demo_space_ok|split; [split; [repeat constructor|reflexivity]|]]|].
  - split; [reflexivity|discriminate].
  - split; [|discriminate]; split; [vm_compute; split; discriminate|].
    repeat (apply Forall_cons_iff; split; [split; cbn; ranges; lia|]); constructor.
Qed.

Lemma resolve_node_layers_witness :
  ∃ ix', @mu_resolve_node embedded_profile embedded_caps (Some demo_space) (Some demo_index) (Some demo_runtime)
           (base_nodeid 84) = (Some (Some root_node), ix') ∧
         @resolve_ctx embedded_caps (Some demo_space) ix' (Some demo_runtime).
Proof.
  apply (@resolve_node_layers embedded_profile embedded_caps (Some demo_space) (Some demo_index)
           (Some demo_runtime) (base_nodeid 84)).
  - exact demo_ctx.
  - split; cbn; ranges; lia.
Defined.
