(* ===== verification/ReadWrite.v ===== *)
(** * The Read and Write services

    [src/services/read.c], [read.h], [write.c], [write.h]: decoding of the
    requests, attribute access over the layered address space, encoding of the
    responses. *)

From S2P Require Export BaseNodes.

(** ** Data *)

Definition MU_ATTRIBUTEID_NODEID : Z := 1.
Definition MU_ATTRIBUTEID_NODECLASS : Z := 2.
Definition MU_ATTRIBUTEID_BROWSENAME : Z := 3.
Definition MU_ATTRIBUTEID_DISPLAYNAME : Z := 4.
Definition MU_ATTRIBUTEID_VALUE : Z := 13.

Definition MU_TIMESTAMPS_TO_RETURN_NEITHER : Z := 3.

Record mu_read_value_id_t := mk_read_value_id {
  rv_node_id : mu_nodeid_t;
  rv_attribute_id : Z;
  rv_index_range : mu_string_t;
  rv_data_encoding_namespace_index : Z;
  rv_data_encoding_name : mu_string_t
}.

(** The decoded prefix of the caller's array; [num_nodes_to_read] is its
    length. *)
Record mu_read_request_t := mk_read_request {
  rq_max_age : Z;
  rq_timestamps_to_return : Z;
  rq_nodes_to_read : list mu_read_value_id_t
}.

Record mu_read_response_t := mk_read_response {
  rp_results : option (list mu_datavalue_t);
  rp_num_results : Z
}.

(** ** Request decoding *)

Definition read_value_id : Rd mu_read_value_id_t :=
  node_id ← mu_binary_read_nodeid;
  attribute_id ← mu_binary_read_uint32;
  index_range ← mu_binary_read_string;
  data_encoding_namespace_index ← mu_binary_read_uint16;
  data_encoding_name ← mu_binary_read_string;
  mret (mk_read_value_id node_id attribute_id index_range data_encoding_namespace_index data_encoding_name).

Definition mu_read_request_decode (max_nodes : Z) : Rd mu_read_request_t :=
  max_age ← mu_binary_read_double;
  timestamps_to_return ← mu_binary_read_uint32;
  no_of_nodes ← mu_binary_read_int32;
  if no_of_nodes <? 0 then mret (mk_read_request max_age timestamps_to_return [])
  else if max_nodes <? no_of_nodes then fail MU_STATUS_BAD_TOOMANYOPERATIONS
  else
    nodes ← rd_list (Z.to_nat no_of_nodes) read_value_id;
    mret (mk_read_request max_age timestamps_to_return nodes).

(** ** Response encoding *)

Definition mu_read_response_encode (resp : mu_read_response_t) : Wr unit :=
  (match rp_results resp with
   | Some results =>
       if rp_num_results resp =? 0 then mu_binary_write_int32 0
       else if zlen results <? rp_num_results resp then fault
       else
         mu_binary_write_int32 (to_i32 (rp_num_results resp));;
         wr_list mu_binary_write_datavalue (ztake (rp_num_results resp) results)
   | None => mu_binary_write_int32 0
   end);;
  mu_binary_write_int32 0.

(** ** Attribute access *)

(** The attributes other than Value that a node has, and Value for variables.
    On failure the caller's variant keeps its contents apart from the reset
    array fields, which the response does not encode. *)
Definition read_attribute (now : Z) (node : mu_node_t) (attribute_id : Z) (value : mu_variant_t)
    : result mu_variant_t :=
  let value := mk_variant (v_type value) (v_value value) false 0 in
  if attribute_id =? MU_ATTRIBUTEID_NODEID
  then Ok (mk_variant MU_TYPE_NODEID (VV_nodeid (node_node_id node)) false 0)
  else if attribute_id =? MU_ATTRIBUTEID_NODECLASS
  then Ok (mk_variant MU_TYPE_INT32 (VV_i32 (to_i32 (node_node_class node))) false 0)
  else if attribute_id =? MU_ATTRIBUTEID_BROWSENAME
  then Ok (mk_variant MU_TYPE_QUALIFIEDNAME
             (VV_qualified_name (mk_qualified_name (nid_namespace_index (node_node_id node))
                                   (node_browse_name node))) false 0)
  else if attribute_id =? MU_ATTRIBUTEID_DISPLAYNAME
  then Ok (mk_variant MU_TYPE_LOCALIZEDTEXT
             (VV_localized_text (mk_localized_text (mk_string (-1) None) (node_display_name node))) false 0)
  else if attribute_id =? MU_ATTRIBUTEID_VALUE then
    if negb (node_node_class node =? MU_NODECLASS_VARIABLE) then Err MU_STATUS_BAD_ATTRIBUTEIDINVALID
    else match node_value node with
         | Some source => mu_value_source_read now (Some source) (node_node_id node) value
         | None => Err MU_STATUS_BAD_NOTREADABLE
         end
  else Err MU_STATUS_BAD_ATTRIBUTEIDINVALID.

(** ** Processing *)

Section process.
  Context {profile : BaseProfile} {caps : BuildCaps}.

(** The body of the loop: one result from one item. [None] is an invalid
    memory access. *)
Definition read_one (now : Z) (user : option mu_address_space_t) (user_index : option mu_address_space_index_t)
    (dynamic : option mu_address_space_t) (read_val : mu_read_value_id_t) (dv : mu_datavalue_t)
    : option mu_datavalue_t * option mu_address_space_index_t :=
  let '(found, user_index) := mu_resolve_node user user_index dynamic (rv_node_id read_val) in
  let bad status value :=
    mk_datavalue value status (dv_source_timestamp dv) (dv_server_timestamp dv) false true false false in
  let dv' :=
    node ← found;
    match node with
    | None => Some (bad MU_STATUS_BAD_NODEIDUNKNOWN (dv_value dv))
    | Some node =>
        let scalar := mk_variant (v_type (dv_value dv)) (v_value (dv_value dv)) false 0 in
        let status :=
          if rv_attribute_id read_val =? MU_ATTRIBUTEID_VALUE then
            if negb (node_node_class node =? MU_NODECLASS_VARIABLE) then Err MU_STATUS_BAD_ATTRIBUTEIDINVALID
            else match node_value node with
                 | Some source => mu_value_source_read now (Some source) (node_node_id node) scalar
                 | None => Err MU_STATUS_BAD_NOTREADABLE
                 end
          else read_attribute now node (rv_attribute_id read_val) (dv_value dv) in
        match status with
        | Ok value => Some (mk_datavalue value (dv_status dv) (dv_source_timestamp dv)
                              (dv_server_timestamp dv) true false false false)
        | Err status => Some (bad status scalar)
        | Fault => None
        end
    end in
  (dv', user_index).

Fixpoint read_loop (now : Z) (user : option mu_address_space_t) (user_index : option mu_address_space_index_t)
    (dynamic : option mu_address_space_t) (nodes : list mu_read_value_id_t) (results_array : list mu_datavalue_t)
    : option (list mu_datavalue_t) * option mu_address_space_index_t :=
  match nodes, results_array with
  | [], rest => (Some rest, user_index)
  | _ :: _, [] => (None, user_index)
  | read_val :: nodes, dv :: rest =>
      let '(dv, user_index) := read_one now user user_index dynamic read_val dv in
      let '(tail, user_index) := read_loop now user user_index dynamic nodes rest in
      ((dv ← dv; tail ← tail; Some (dv :: tail)), user_index)
  end.

Definition mu_read_process_with_user_index (now : Z) (user : option mu_address_space_t)
    (dynamic : option mu_address_space_t) (req : mu_read_request_t) (results_array : list mu_datavalue_t)
    (max_results : Z) : M (option mu_address_space_index_t) mu_read_response_t := λ user_index,
  if MU_TIMESTAMPS_TO_RETURN_NEITHER <? rq_timestamps_to_return req
  then (Err MU_STATUS_BAD_TIMESTAMPSTORETURNINVALID, user_index)
  else if max_results <? zlen (rq_nodes_to_read req)
  then (Err MU_STATUS_BAD_TOOMANYOPERATIONS, user_index)
  else
    let '(results, user_index) := read_loop now user user_index dynamic (rq_nodes_to_read req) results_array in
    (match results with
     | None => Fault
     | Some results => Ok (mk_read_response (Some results) (zlen (rq_nodes_to_read req)))
     end, user_index).

Definition mu_read_process (now : Z) (user dynamic : option mu_address_space_t) (req : mu_read_request_t)
    (results_array : list mu_datavalue_t) (max_results : Z) : result mu_read_response_t :=
  (mu_read_process_with_user_index now user dynamic req results_array max_results None).1.
End process.

(** ** Write *)

Record mu_write_value_t := mk_write_value {
  wv_node_id : mu_nodeid_t;
  wv_attribute_id : Z;
  wv_index_range : mu_string_t;
  wv_value : mu_datavalue_t
}.

Record mu_write_request_t := mk_write_request {
  wq_nodes_to_write : list mu_write_value_t
}.

Record mu_write_response_t := mk_write_response {
  wp_num_results : Z;
  wp_results : list Z
}.

(** Decode into the elements of the caller's array, which keep what the
    DataValue decoder does not overwrite. *)
Fixpoint read_write_values (nodes_array : list mu_write_value_t) (n : nat) {struct n} : Rd (list mu_write_value_t) :=
  match n, nodes_array with
  | O, _ => mret []
  | S _, [] => fault
  | S n, node :: nodes_array =>
      node_id ← mu_binary_read_nodeid;
      attribute_id ← mu_binary_read_int32;
      index_range ← mu_binary_read_string;
      value ← mu_binary_read_datavalue (wv_value node);
      rest ← read_write_values nodes_array n;
      mret (mk_write_value node_id attribute_id index_range value :: rest)
  end.

Definition mu_write_request_decode (nodes_array : list mu_write_value_t) (max_nodes : Z)
    : Rd mu_write_request_t :=
  no_of_nodes ← mu_binary_read_int32;
  if no_of_nodes <? 0 then mret (mk_write_request [])
  else if max_nodes <? no_of_nodes then fail MU_STATUS_BAD_TOOMANYOPERATIONS
  else
    nodes ← read_write_values nodes_array (Z.to_nat no_of_nodes);
    mret (mk_write_request nodes).

Definition mu_write_response_encode (resp : mu_write_response_t) : Wr unit :=
  mu_binary_write_int32 (to_i32 (wp_num_results resp));;
  if zlen (wp_results resp) <? wp_num_results resp then fault
  else wr_list mu_binary_write_statuscode (ztake (wp_num_results resp) (wp_results resp)).

(** ** Decoders: bounds and memory safety *)

Definition wire_read_value_id (v : mu_read_value_id_t) : Prop :=
  wire_nodeid (rv_node_id v) ∧ u32_range (rv_attribute_id v) ∧ wire_string (rv_index_range v) ∧
  u16_range (rv_data_encoding_namespace_index v) ∧ wire_string (rv_data_encoding_name v).

Definition wire_read_request (max_nodes : Z) (req : mu_read_request_t) : Prop :=
  u64_range (rq_max_age req) ∧ u32_range (rq_timestamps_to_return req) ∧
  zlen (rq_nodes_to_read req) ≤ max_nodes ∧ Forall wire_read_value_id (rq_nodes_to_read req).

Definition wire_write_value (v : mu_write_value_t) : Prop :=
  wire_nodeid (wv_node_id v) ∧ i32_range (wv_attribute_id v) ∧ wire_string (wv_index_range v).

Lemma rsafe_read_value_id : rsafe read_value_id wire_read_value_id.
Proof. unfold read_value_id; rsafe_auto; split_and!; done. Qed.
#[export] Hint Resolve rsafe_read_value_id : rsafe.

Lemma zlen_of_length {A} (l : list A) n : length l = Z.to_nat n → 0 ≤ n → zlen l = n.
Proof. unfold zlen; lia. Qed.

Lemma rsafe_read_request_decode max_nodes :
  0 ≤ max_nodes → rsafe (mu_read_request_decode max_nodes) (wire_read_request max_nodes).
Proof.
  intros Hmax; unfold mu_read_request_decode; rsafe_auto.
  - split_and!; [done..|constructor].
  - eapply rsafe_bind; [apply rsafe_rd_list, rsafe_read_value_id|]; intros l [Hlen Hl].
    apply rsafe_ret; split_and!; try done; cbn.
    bool_hyps; rewrite (zlen_of_length l _ Hlen); lia.
Qed.

Lemma rsafe_read_write_values n : ∀ nodes_array, (n ≤ length nodes_array)%nat →
  rsafe (read_write_values nodes_array n) (λ l, length l = n ∧ Forall wire_write_value l).
Proof.
  induction n as [|n IH]; intros nodes_array Hn; cbn [read_write_values]; [by apply rsafe_ret|].
  destruct nodes_array as [|node nodes_array]; [simpl in Hn; lia|].
  rsafe_auto; eapply rsafe_bind; [apply IH; simpl in Hn; lia|]; intros l [<- Hl].
  apply rsafe_ret; split; [done|]; apply Forall_cons_iff; done.
Qed.

Lemma rsafe_write_request_decode nodes_array max_nodes :
  max_nodes ≤ zlen nodes_array → 0 ≤ max_nodes →
  rsafe (mu_write_request_decode nodes_array max_nodes)
    (λ req, zlen (wq_nodes_to_write req) ≤ max_nodes ∧ Forall wire_write_value (wq_nodes_to_write req)).
Proof.
  intros Hsz Hmax; unfold mu_write_request_decode; rsafe_auto.
  - split; [done|constructor].
  - bool_hyps; eapply rsafe_bind; [apply rsafe_read_write_values; unfold zlen in *; lia|]; intros l [Hlen Hl].
    apply rsafe_ret; split; [|done]; cbn; rewrite (zlen_of_length l _ Hlen); lia.
Qed.

(** ** Encoders *)

Definition enc_array {A} (enc : A → list Z) (l : list A) : list Z := enc_i32 (zlen l) ++ flat_map enc l.

Lemma to_i32_count n : 0 ≤ n < 2147483648 → to_i32 n = n.
Proof.
  intros Hn; unfold to_signed; cbv zeta; norm_pow; rewrite Z.mod_small by lia.
  by destruct (Z.ltb_spec n 2147483648); [|lia].
Qed.

Lemma ztake_all {A} (l : list A) : ztake (zlen l) l = l.
Proof. unfold ztake, zlen; by rewrite Nat2Z.id, firstn_all. Qed.

Lemma wspec_read_response_encode results :
  Forall wire_datavalue results → zlen results < 2147483648 →
  wspec (mu_read_response_encode (mk_read_response (Some results) (zlen results)))
    (enc_array enc_datavalue results ++ enc_i32 0).
Proof.
  intros Hw Hlen; unfold mu_read_response_encode; cbn [rp_results rp_num_results].
  apply wspec_bind; [|apply wspec_write_int32]; unfold enc_array.
  pose proof (zlen_nonneg results); destruct (Z.eqb_spec (zlen results) 0) as [E|E].
  - destruct results; [|unfold zlen in E; simpl in E; lia].
    cbn [flat_map]; rewrite app_nil_r; apply wspec_write_int32.
  - rewrite (proj2 (Z.ltb_ge _ _)) by lia; rewrite ztake_all, to_i32_count by lia.
    apply wspec_bind; [apply wspec_write_int32|]; apply wspec_wr_list.
    eapply Forall_impl; [exact Hw|]; intros d; apply codec_write.
Qed.

(** A client's decoding of the response body with the library's own codecs. *)
Definition read_response_decode : Rd (list mu_datavalue_t) :=
  n ← mu_binary_read_int32;
  results ← rd_list (Z.to_nat n) (mu_binary_read_datavalue zero_datavalue);
  _ ← mu_binary_read_int32;
  mret results.

Lemma rspec_read_response_decode results :
  Forall wire_datavalue results → zlen results < 2147483648 →
  rspec read_response_decode (enc_array enc_datavalue results ++ enc_i32 0) results.
Proof.
  intros Hw Hlen; unfold read_response_decode, enc_array; pose proof (zlen_nonneg results).
  rewrite <- app_assoc; eapply rspec_bind; [apply rspec_read_int32; ranges; lia|].
  replace (Z.to_nat (zlen results)) with (length results) by (unfold zlen; lia).
  eapply rspec_bind; [apply rspec_rd_list|].
  - eapply Forall_impl; [exact Hw|]; intros d; apply codec_read.
  - eapply rspec_bind_ret; [apply rspec_read_int32; ranges; lia|apply rspec_ret].
Qed.

#[export] Instance codec_read_response :
  Codec (λ results, Forall wire_datavalue results ∧ zlen results < 2147483648)
    (λ results, enc_array enc_datavalue results ++ enc_i32 0)
    (λ results, mu_read_response_encode (mk_read_response (Some results) (zlen results)))
    read_response_decode.
Proof.
  split; intros results [? ?]; [by apply wspec_read_response_encode|by apply rspec_read_response_decode].
Qed.

(** ** Processing refines a per-item specification *)

(** The result of one item, given the node its NodeId denotes: a value or a
    status, never both, no timestamps. *)
Definition read_result (now : Z) (found : option mu_node_t) (attribute_id : Z) (dv : mu_datavalue_t)
    : mu_datavalue_t :=
  let result v st hv := mk_datavalue v st (dv_source_timestamp dv) (dv_server_timestamp dv) hv (negb hv) false false in
  let scalar := mk_variant (v_type (dv_value dv)) (v_value (dv_value dv)) false 0 in
  match found with
  | None => result (dv_value dv) MU_STATUS_BAD_NODEIDUNKNOWN false
  | Some node =>
      match read_attribute now node attribute_id (dv_value dv) with
      | Ok value => result value (dv_status dv) true
      | Err status => result scalar status false
      | Fault => dv
      end
  end.

Section process_spec.
  Context {profile : BaseProfile} {caps : BuildCaps}.

(** Value sources that can be read: a typed static value or a callback that
    returns. *)
Definition readable (now : Z) (found : option mu_node_t) (attribute_id : Z) : Prop :=
  ∀ node old, found = Some node → read_attribute now node attribute_id old ≠ Fault.

Lemma read_one_spec now user ix dynamic rv dv :
  resolve_ctx user ix dynamic → nodeid_ok (rv_node_id rv) →
  readable now (layered_lookup user dynamic (rv_node_id rv)) (rv_attribute_id rv) →
  ∃ ix', read_one now user ix dynamic rv dv =
    (Some (read_result now (layered_lookup user dynamic (rv_node_id rv)) (rv_attribute_id rv) dv), ix') ∧
    resolve_ctx user ix' dynamic.
Proof.
  intros Hctx Hid Hread; destruct (resolve_node_spec user ix dynamic _ Hctx Hid) as (ix' & E & Hctx').
  exists ix'; split; [|done]; unfold read_one, read_result; rewrite E; cbn [mbind option_bind].
  unfold readable in Hread; destruct (layered_lookup user dynamic (rv_node_id rv)) as [node|]; [|done].
  specialize (Hread node (dv_value dv) eq_refl).
  assert (Hval : (if rv_attribute_id rv =? MU_ATTRIBUTEID_VALUE then
            if negb (node_node_class node =? MU_NODECLASS_VARIABLE) then Err MU_STATUS_BAD_ATTRIBUTEIDINVALID
            else match node_value node with
                 | Some source => mu_value_source_read now (Some source) (node_node_id node)
                     (mk_variant (v_type (dv_value dv)) (v_value (dv_value dv)) false 0)
                 | None => Err MU_STATUS_BAD_NOTREADABLE
                 end
          else read_attribute now node (rv_attribute_id rv) (dv_value dv))
          = read_attribute now node (rv_attribute_id rv) (dv_value dv)).
  { unfold read_attribute; destruct (Z.eqb_spec (rv_attribute_id rv) MU_ATTRIBUTEID_VALUE) as [->|]; done. }
  rewrite Hval; by destruct (read_attribute now node (rv_attribute_id rv) (dv_value dv)).
Qed.

Lemma read_loop_spec now user dynamic nodes :
  ∀ ix results_array,
  resolve_ctx user ix dynamic → Forall (λ rv, nodeid_ok (rv_node_id rv)) nodes →
  Forall (λ rv, readable now (layered_lookup user dynamic (rv_node_id rv)) (rv_attribute_id rv)) nodes →
  (length nodes ≤ length results_array)%nat →
  ∃ ix', read_loop now user ix dynamic nodes results_array =
    (Some (zip_with (λ rv dv, read_result now (layered_lookup user dynamic (rv_node_id rv))
                                (rv_attribute_id rv) dv) nodes results_array
           ++ drop (length nodes) results_array), ix') ∧ resolve_ctx user ix' dynamic.
Proof.
  induction nodes as [|rv nodes IH]; intros ix results_array Hctx Hids Hread Hlen; cbn [read_loop].
  { exists ix; split; [|done]; by rewrite drop_0. }
  destruct results_array as [|dv rest]; [simpl in Hlen; lia|].
  apply Forall_cons_iff in Hids as [Hid Hids]; apply Forall_cons_iff in Hread as [Hr Hread].
  destruct (read_one_spec now user ix dynamic rv dv Hctx Hid Hr) as (ix1 & -> & Hctx1).
  destruct (IH ix1 rest) as (ix2 & -> & Hctx2); [done..|simpl in Hlen; lia|].
  exists ix2; by split.
Qed.

Lemma read_process_ok now user dynamic req results_array max_results ix :
  resolve_ctx user ix dynamic →
  Forall (λ rv, nodeid_ok (rv_node_id rv)) (rq_nodes_to_read req) →
  Forall (λ rv, readable now (layered_lookup user dynamic (rv_node_id rv)) (rv_attribute_id rv))
    (rq_nodes_to_read req) →
  max_results ≤ zlen results_array →
  let n := length (rq_nodes_to_read req) in
  match mu_read_process_with_user_index now user dynamic req results_array max_results ix with
  | (Ok resp, ix') =>
      rq_timestamps_to_return req ≤ 3 ∧ zlen (rq_nodes_to_read req) ≤ max_results ∧
      resolve_ctx user ix' dynamic ∧ rp_num_results resp = Z.of_nat n ∧
      ∃ results, rp_results resp = Some results ∧ length results = length results_array ∧
        drop n results = drop n results_array ∧
        ∀ i rv dv, rq_nodes_to_read req !! i = Some rv → results_array !! i = Some dv →
          results !! i = Some (read_result now (layered_lookup user dynamic (rv_node_id rv))
                                 (rv_attribute_id rv) dv)
  | (Err e, ix') => ix' = ix ∧
      (e = MU_STATUS_BAD_TIMESTAMPSTORETURNINVALID ∧ 3 < rq_timestamps_to_return req ∨
       e = MU_STATUS_BAD_TOOMANYOPERATIONS ∧ max_results < zlen (rq_nodes_to_read req))
  | (Fault, _) => False
  end.
Proof.
  intros Hctx Hids Hread Hmax; cbv zeta; unfold mu_read_process_with_user_index, MU_TIMESTAMPS_TO_RETURN_NEITHER.
  destruct (Z.ltb_spec 3 (rq_timestamps_to_return req)); [split; [done|left; done]|].
  destruct (Z.ltb_spec max_results (zlen (rq_nodes_to_read req))); [split; [done|right; done]|].
  destruct (read_loop_spec now user dynamic (rq_nodes_to_read req) ix results_array) as (ix' & -> & Hctx');
    [done..|unfold zlen in *; lia|].
  assert (Hl : length (zip_with (λ rv dv, read_result now (layered_lookup user dynamic (rv_node_id rv))
             (rv_attribute_id rv) dv) (rq_nodes_to_read req) results_array) = length (rq_nodes_to_read req)).
  { rewrite length_zip_with; unfold zlen in *; lia. }
  split_and!; try done; eexists; split_and!; [done| | |].
  - rewrite length_app, Hl, length_drop; unfold zlen in *; lia.
  - by rewrite drop_app_length'.
  - intros i rv dv Hrv Hdv; rewrite lookup_app_l by (rewrite Hl; by apply lookup_lt_Some in Hrv).
    rewrite lookup_zip_with, Hrv; cbn [mbind option_bind]; by rewrite Hdv.
Qed.

End process_spec.

(** a Read response whose results are wire values is encoded exactly (the
    count, the DataValues in order, an empty diagnostics array) or refused when
    it does not fit, and decodes to the same results. *)
Theorem read_response_roundtrip results w :
  writer_ready w → Forall wire_datavalue results → zlen results < 2147483648 →
  let encode := mu_read_response_encode (mk_read_response (Some results) (zlen results)) in
  let octets := enc_i32 (zlen results) ++ flat_map enc_datavalue results ++ enc_i32 0 in
  (fits w octets ∧ encode w = (Ok tt, w_append w octets) ∧
   read_response_decode (reader_over (w_append w octets) (w_position w))
     = (Ok results, reader_over (w_append w octets) (w_position (w_append w octets)))) ∨
  (¬ fits w octets ∧ ∃ s w', encode w = (Err s, w') ∧ s ≠ MU_STATUS_GOOD).
Proof.
  intros Hw Hr Hlen encode octets.
  destruct (codec_fits (read := read_response_decode) results w Hw (conj Hr Hlen)) as [[Hf E]|H].
  - left; unfold enc_array in Hf, E; rewrite <- app_assoc in Hf, E; split_and!; [done..|].
    apply (codec_roundtrip results w _ Hw (conj Hr Hlen) E).
  - right; unfold enc_array in H; by rewrite <- app_assoc in H.
Qed.

(** A request for the DisplayName of Root, the Value of CurrentTime and an
    unknown node. *)
Definition demo_read_request : mu_read_request_t :=
  let item id attr := mk_read_value_id (base_nodeid id) attr null_string 0 null_string in
  mk_read_request 0 0 [item 84 MU_ATTRIBUTEID_DISPLAYNAME; item 2258 MU_ATTRIBUTEID_VALUE;
                       item 99999 MU_ATTRIBUTEID_VALUE].

Definition demo_read : result mu_read_response_t * option mu_address_space_index_t :=
  @mu_read_process_with_user_index embedded_profile embedded_caps 1000 (Some demo_space) (Some demo_runtime)
    demo_read_request (repeat zero_datavalue 4) 4 (Some demo_index).

Lemma demo_request_ids : Forall (λ rv, nodeid_ok (rv_node_id rv)) (rq_nodes_to_read demo_read_request).
Proof. repeat (apply Forall_cons_iff; split; [split; cbn; ranges; lia|]); constructor. Qed.

Lemma demo_request_readable :
  Forall (λ rv, readable 1000 (@layered_lookup embedded_profile (Some demo_space) (Some demo_runtime)
                                 (rv_node_id rv)) (rv_attribute_id rv)) (rq_nodes_to_read demo_read_request).
Proof.
  repeat (apply Forall_cons_iff; split; [intros node old [= <-] || intros node old [=]; discriminate|]).
  constructor.
Qed.


Definition demo_results : list mu_datavalue_t :=
  [mk_datavalue (mk_variant MU_TYPE_UINT32 (VV_ui32 32) false 0) 0 0 0 true false false false;
   mk_datavalue zero_variant MU_STATUS_BAD_NODEIDUNKNOWN 0 0 false true false false].

Definition demo_writer : mu_binary_writer_t := mk_writer (Some (repeat 0 64)) 64 0 MU_STATUS_GOOD.

Lemma demo_writer_ready : writer_ready demo_writer.
Proof.
  split_and!; [|done|by eexists]; split; cbn; [|ranges; lia].
  split_and!; [unfold zlen; simpl; lia..|ranges; lia|].
  apply Forall_forall; intros x Hx; apply list_elem_of_In, (repeat_spec 64) in Hx; subst x; ranges; lia.
Qed.

Lemma read_response_roundtrip_witness :
  (mu_read_response_encode (mk_read_response (Some demo_results) 2) demo_writer).1 = Ok tt ∧
  Forall wire_datavalue demo_results.
Proof.
  assert (Hw : Forall wire_datavalue demo_results).
  { apply Forall_cons_iff; split; [|apply Forall_cons_iff; split; [|constructor]]; split_and!; cbn; try done.
    - split_and!; [done..|]; right; split; [done|cbn; ranges; lia]. }
  split; [|exact Hw].
  destruct (read_response_roundtrip demo_results demo_writer demo_writer_ready Hw ltac:(done)) as [(_ & E & _)|[H _]].
  - change 2 with (zlen demo_results); by rewrite E.
  - destruct H; vm_compute; discriminate.
Defined.
