(* ===== verification/Browse.v ===== *)
(** * The Browse service

    [src/services/browse.c], [browse.h]: the ReferenceType hierarchy, request
    decoding, the selection of references over the layered address space into
    a shared pool of reference descriptions, response encoding. *)

From S2P Require Export ReadWrite.

(** ** Data *)

Definition MU_BROWSE_DIRECTION_FORWARD : Z := 0.
Definition MU_BROWSE_DIRECTION_INVERSE : Z := 1.
Definition MU_BROWSE_DIRECTION_BOTH : Z := 2.

Record mu_browse_description_t := mk_browse_description {
  bd_node_id : mu_nodeid_t;
  bd_browse_direction : Z;
  bd_reference_type_id : mu_nodeid_t;
  bd_include_subtypes : bool;
  bd_node_class_mask : Z;
  bd_result_mask : Z
}.

Record mu_browse_request_t := mk_browse_request {
  bq_view_id : mu_nodeid_t;
  bq_timestamp : Z;
  bq_view_version : Z;
  bq_requested_max_references_per_node : Z;
  bq_nodes_to_browse : list mu_browse_description_t
}.

Record mu_reference_description_t := mk_reference_description {
  rd_reference_type_id : mu_nodeid_t;
  rd_is_forward : bool;
  rd_node_id : mu_nodeid_t;
  rd_browse_name_namespace_index : Z;
  rd_browse_name : mu_string_t;
  rd_display_name : mu_string_t;
  rd_node_class : Z;
  rd_type_definition : mu_nodeid_t
}.

(** [br_references] points into the pool of reference descriptions: its offset,
    or NULL. *)
Record mu_browse_result_t := mk_browse_result {
  br_status_code : Z;
  br_references : option Z;
  br_num_references : Z
}.

Record mu_browse_response_t := mk_browse_response {
  bp_results : option (list mu_browse_result_t);
  bp_num_results : Z
}.

(** A reference added at run time by NodeManagement. *)
Record mu_dynamic_reference_t := mk_dynamic_reference {
  dr_source_node_id : mu_nodeid_t;
  dr_ref : mu_reference_t
}.

(** ** The ReferenceType hierarchy *)

Definition ref_type_supertype (id : Z) : Z :=
  match id with
  | 32 | 33 => 31
  | 34 | 35 | 36 => 33
  | 37 | 38 | 39 | 40 => 32
  | 44 | 45 => 34
  | 46 | 47 => 44
  | 48 => 36
  | _ => 0
  end.

(** The bounded climb; [guard] iterations are left. *)
Fixpoint climb (c p : Z) (guard : nat) : bool :=
  match guard with
  | O => false
  | S guard =>
      if c =? 0 then false
      else
        let c := ref_type_supertype c in
        if c =? p then true else climb c p guard
  end.

Definition ref_type_is_subtype_of (child parent : mu_nodeid_t) : bool :=
  if mu_nodeid_equal child parent then true
  else
    match nid_identifier child, nid_identifier parent with
    | MU_NODEID_NUMERIC c, MU_NODEID_NUMERIC p =>
        if negb (nid_namespace_index child =? 0) then false
        else if negb (nid_namespace_index parent =? 0) then false
        else climb c p 64
    | _, _ => false
    end.

Definition reference_type_matches (desc : mu_browse_description_t) (r : mu_reference_t) : bool :=
  let any := mk_nodeid 0 (MU_NODEID_NUMERIC 0) in
  if mu_nodeid_equal (bd_reference_type_id desc) any then true
  else if bd_include_subtypes desc
  then ref_type_is_subtype_of (ref_reference_type_id r) (bd_reference_type_id desc)
  else mu_nodeid_equal (bd_reference_type_id desc) (ref_reference_type_id r).

(** ** Request decoding *)

Definition read_browse_description : Rd mu_browse_description_t :=
  node_id ← mu_binary_read_nodeid;
  browse_direction ← mu_binary_read_uint32;
  reference_type_id ← mu_binary_read_nodeid;
  include_subtypes ← mu_binary_read_boolean;
  node_class_mask ← mu_binary_read_uint32;
  result_mask ← mu_binary_read_uint32;
  mret (mk_browse_description node_id browse_direction reference_type_id include_subtypes
          node_class_mask result_mask).

Definition mu_browse_request_decode (max_desc : Z) : Rd mu_browse_request_t :=
  view_id ← mu_binary_read_nodeid;
  timestamp ← mu_binary_read_int64;
  view_version ← mu_binary_read_uint32;
  requested_max ← mu_binary_read_uint32;
  no_of_nodes ← mu_binary_read_int32;
  if no_of_nodes <? 0 then mret (mk_browse_request view_id timestamp view_version requested_max [])
  else if max_desc <? no_of_nodes then fail MU_STATUS_BAD_INTERNALERROR
  else
    nodes ← rd_list (Z.to_nat no_of_nodes) read_browse_description;
    mret (mk_browse_request view_id timestamp view_version requested_max nodes).

(** ** Response encoding *)

Definition write_reference_description (ref : mu_reference_description_t) : Wr unit :=
  mu_binary_write_nodeid (rd_reference_type_id ref);;
  mu_binary_write_boolean (rd_is_forward ref);;
  mu_binary_write_nodeid (rd_node_id ref);;
  mu_binary_write_uint16 (rd_browse_name_namespace_index ref);;
  mu_binary_write_string (rd_browse_name ref);;
  mu_binary_write_byte 2;;
  mu_binary_write_string (rd_display_name ref);;
  mu_binary_write_uint32 (rd_node_class ref);;
  mu_binary_write_nodeid (rd_type_definition ref).

(** [ref_pool] is the memory the result's reference pointers point into. *)
Definition write_browse_result (ref_pool : list mu_reference_description_t) (res : mu_browse_result_t)
    : Wr unit :=
  mu_binary_write_statuscode (br_status_code res);;
  mu_binary_write_int32 (-1);;
  match br_references res with
  | None => mu_binary_write_int32 0
  | Some offset =>
      if br_num_references res =? 0 then mu_binary_write_int32 0
      else
        mu_binary_write_int32 (to_i32 (br_num_references res));;
        references ← lift_option (mem_load ref_pool offset (br_num_references res));
        wr_list write_reference_description references
  end.

Definition mu_browse_response_encode (ref_pool : list mu_reference_description_t)
    (resp : mu_browse_response_t) : Wr unit :=
  (match bp_results resp with
   | Some results =>
       if bp_num_results resp =? 0 then mu_binary_write_int32 0
       else if zlen results <? bp_num_results resp then fault
       else
         mu_binary_write_int32 (to_i32 (bp_num_results resp));;
         wr_list (write_browse_result ref_pool) (ztake (bp_num_results resp) results)
   | None => mu_binary_write_int32 0
   end);;
  mu_binary_write_int32 0.

(** ** Processing *)

(** The first forward reference of the target with numeric type 40
    (HasTypeDefinition). *)
Fixpoint type_definition (refs : list mu_reference_t) : mu_nodeid_t :=
  match refs with
  | [] => mk_nodeid 0 (MU_NODEID_NUMERIC 0)
  | r :: refs =>
      match nid_identifier (ref_reference_type_id r) with
      | MU_NODEID_NUMERIC 40 => if ref_is_forward r then ref_target_id r else type_definition refs
      | _ => type_definition refs
      end
  end.

Definition describe (r : mu_reference_t) (target : mu_node_t) (type_definition : mu_nodeid_t)
    : mu_reference_description_t :=
  mk_reference_description (ref_reference_type_id r) (ref_is_forward r) (node_node_id target) 0
    (node_browse_name target) (node_display_name target) (node_node_class target) type_definition.

Definition direction_skips (desc : mu_browse_description_t) (r : mu_reference_t) : bool :=
  ((bd_browse_direction desc =? MU_BROWSE_DIRECTION_FORWARD) && negb (ref_is_forward r))
  || ((bd_browse_direction desc =? MU_BROWSE_DIRECTION_INVERSE) && ref_is_forward r).

(** The [reference_count] references of a node; [None] when the array is
    missing or shorter. *)
Definition load_refs (node : mu_node_t) : option (list mu_reference_t) :=
  if node_reference_count node <=? 0 then Some []
  else refs ← node_references node;
       guard (node_reference_count node ≤ zlen refs);;
       Some (ztake (node_reference_count node) refs).

(** What one iteration over references works on. *)
Record browse_state := mk_browse_state {
  bs_pool : list mu_reference_description_t;
  bs_match_count : Z;
  bs_index : option mu_address_space_index_t
}.

Inductive iteration :=
| Continue (st : browse_state)
| TooMany (st : browse_state).

(** A [for] loop whose body continues or breaks with [too_many_refs] set. *)
Fixpoint iterate {A} (body : A → browse_state → option iteration) (items : list A) (st : browse_state)
    : option iteration :=
  match items with
  | [] => Some (Continue st)
  | x :: items =>
      it ← body x st;
      match it with
      | Continue st => iterate body items st
      | TooMany st => Some (TooMany st)
      end
  end.

Section process.
  Context {profile : BaseProfile} {caps : BuildCaps}.
  Context (user dynamic : option mu_address_space_t) (requested_max : Z).

(** The body of both reference loops; they differ in the TypeDefinition they
    report. *)
Definition browse_reference (desc : mu_browse_description_t) (start remaining : Z)
    (type_of : mu_node_t → option mu_nodeid_t) (r : mu_reference_t) (st : browse_state) : option iteration :=
  if direction_skips desc r then Some (Continue st)
  else if negb (reference_type_matches desc r) then Some (Continue st)
  else
    let '(found, index) := mu_resolve_node user (bs_index st) dynamic (ref_target_id r) in
    let st := mk_browse_state (bs_pool st) (bs_match_count st) index in
    found ← found;
    match found with
    | None => Some (Continue st)
    | Some target =>
        if negb (bd_node_class_mask desc =? 0)
           && (Z.land (node_node_class target) (bd_node_class_mask desc) =? 0)
        then Some (Continue st)
        else if (0 <? requested_max) && (requested_max <=? bs_match_count st) then Some (TooMany st)
        else if remaining <=? bs_match_count st then Some (TooMany st)
        else
          definition ← type_of target;
          pool ← mem_store (bs_pool st) (start + bs_match_count st) [describe r target definition];
          Some (Continue (mk_browse_state pool (bs_match_count st + 1) (bs_index st)))
    end.

(** Loop over the static references of the node, then over the dynamic
    references of the server whose source it is. *)
Definition browse_references (desc : mu_browse_description_t) (start remaining : Z)
    : list mu_reference_t → browse_state → option iteration :=
  iterate (browse_reference desc start remaining
             (λ target, target_refs ← load_refs target; Some (type_definition target_refs))).

Definition browse_dynamic_references (desc : mu_browse_description_t) (start remaining : Z)
    : list mu_dynamic_reference_t → browse_state → option iteration :=
  iterate (λ dyn st,
    if negb (mu_nodeid_equal (dr_source_node_id dyn) (bd_node_id desc)) then Some (Continue st)
    else browse_reference desc start remaining (λ _, Some (mk_nodeid 0 (MU_NODEID_NUMERIC 0))) (dr_ref dyn) st).

(** One item: its result, the pool, the new [refs_used], the index. *)
Definition browse_one (dyn_refs : list mu_dynamic_reference_t) (max_total_refs : Z)
    (desc : mu_browse_description_t) (pool : list mu_reference_description_t) (refs_used : Z)
    (index : option mu_address_space_index_t)
    : option (mu_browse_result_t * list mu_reference_description_t * Z * option mu_address_space_index_t) :=
  if MU_BROWSE_DIRECTION_BOTH <? bd_browse_direction desc
  then Some (mk_browse_result MU_STATUS_BAD_BROWSEDIRECTIONINVALID None 0, pool, refs_used, index)
  else
    let '(found, index) := mu_resolve_node user index dynamic (bd_node_id desc) in
    found ← found;
    match found with
    | None => Some (mk_browse_result MU_STATUS_BAD_NODEIDUNKNOWN None 0, pool, refs_used, index)
    | Some node =>
        let remaining := max_total_refs - refs_used in
        refs ← load_refs node;
        it ← browse_references desc refs_used remaining refs (mk_browse_state pool 0 index);
        let '(too_many, st) := match it with Continue st => (false, st) | TooMany st => (true, st) end in
        it ← browse_dynamic_references desc refs_used remaining dyn_refs st;
        let '(too_many, st) := match it with Continue st => (too_many, st) | TooMany st => (true, st) end in
        if too_many : bool
        then Some (mk_browse_result MU_STATUS_BAD_NOCONTINUATIONPOINTS None 0, bs_pool st, refs_used, bs_index st)
        else Some (mk_browse_result MU_STATUS_GOOD (Some refs_used) (bs_match_count st),
                   bs_pool st, refs_used + bs_match_count st, bs_index st)
    end.

Fixpoint browse_loop (dyn_refs : list mu_dynamic_reference_t) (max_total_refs : Z)
    (descs : list mu_browse_description_t) (pool : list mu_reference_description_t) (refs_used : Z)
    (index : option mu_address_space_index_t)
    : option (list mu_browse_result_t * list mu_reference_description_t * option mu_address_space_index_t) :=
  match descs with
  | [] => Some ([], pool, index)
  | desc :: descs =>
      '(res, pool, refs_used, index) ← browse_one dyn_refs max_total_refs desc pool refs_used index;
      '(results, pool, index) ← browse_loop dyn_refs max_total_refs descs pool refs_used index;
      Some (res :: results, pool, index)
  end.
End process.

(** The results written to the caller's array, the pool and the index. *)
Definition mu_browse_process_with_user_index {profile : BaseProfile} {caps : BuildCaps}
    (user dynamic : option mu_address_space_t) (user_index : option mu_address_space_index_t)
    (dyn_refs : list mu_dynamic_reference_t) (req : mu_browse_request_t) (max_results : Z)
    (ref_pool : list mu_reference_description_t) (max_total_refs : Z)
    : result (list mu_browse_result_t * list mu_reference_description_t * option mu_address_space_index_t) :=
  if max_results <? zlen (bq_nodes_to_browse req) then Err MU_STATUS_BAD_INTERNALERROR
  else or_fault (browse_loop user dynamic (bq_requested_max_references_per_node req) dyn_refs max_total_refs
                   (bq_nodes_to_browse req) ref_pool 0 user_index).

Definition mu_browse_process {profile : BaseProfile} {caps : BuildCaps}
    (user dynamic : option mu_address_space_t) (req : mu_browse_request_t) (max_results : Z)
    (ref_pool : list mu_reference_description_t) (max_total_refs : Z) :=
  mu_browse_process_with_user_index user dynamic None [] req max_results ref_pool max_total_refs.

(** ** The ReferenceType climb *)

(** [c] has the direct supertype [p] in the built-in hierarchy. *)
Definition direct_supertype (c p : Z) : Prop := c ≠ 0 ∧ p = ref_type_supertype c.

(** A measure that every step of the hierarchy decreases. *)
Definition depth (c : Z) : nat :=
  match c with
  | 0 => 0
  | 32 | 33 => 2
  | 34 | 35 | 36 | 37 | 38 | 39 | 40 => 3
  | 44 | 45 | 48 => 4
  | 46 | 47 => 5
  | _ => 1
  end.

Lemma supertype_depth c : c ≠ 0 → (depth (ref_type_supertype c) < depth c)%nat.
Proof. intros Hc; unfold ref_type_supertype; repeat case_match; simpl; try lia; done. Qed.

Lemma depth_bound c : (depth c ≤ 5)%nat.
Proof. unfold depth; repeat case_match; lia. Qed.

Lemma climb_sound c p n : climb c p n = true → tc direct_supertype c p.
Proof.
  revert c; induction n as [|n IH]; intros c; cbn [climb]; [done|].
  destruct (Z.eqb_spec c 0); [done|]; destruct (Z.eqb_spec (ref_type_supertype c) p) as [<-|].
  - intros _; by apply tc_once.
  - intros H%IH; eapply tc_l; [|exact H]; by split.
Qed.

Lemma climb_complete c p n : tc direct_supertype c p → (depth c ≤ n)%nat → climb c p n = true.
Proof.
  intros Htc; revert n; induction Htc as [c p [Hc ->]|c y p [Hc ->] _ IH]; intros n Hn;
    pose proof (supertype_depth c Hc); (destruct n as [|n]; [lia|]); cbn [climb];
    rewrite (proj2 (Z.eqb_neq c 0) Hc).
  - by rewrite Z.eqb_refl.
  - destruct (ref_type_supertype c =? p); [done|]; apply IH; lia.
Qed.

Lemma climb_iff c p : climb c p 64 = true ↔ tc direct_supertype c p.
Proof.
  split; [apply climb_sound|intros H; apply climb_complete; [done|]].
  pose proof (depth_bound c); lia.
Qed.

(** ** Specification of Browse *)

(** Valid links of a node: its reference array is there and its targets are
    readable NodeIds. *)
Definition node_links_ok (node : mu_node_t) : Prop :=
  (node_references node = None → node_reference_count node ≤ 0) ∧ node_refs_ok node ∧
  Forall (λ r, nodeid_ok (ref_target_id r)) (node_refs node).

Lemma load_refs_ok node : node_links_ok node → load_refs node = Some (node_refs node).
Proof.
  unfold node_links_ok, load_refs, node_refs, node_refs_ok.
  intros (Hnull & Hok & _); destruct (Z.leb_spec (node_reference_count node) 0) as [Hle|Hgt].
  - destruct (node_references node) as [refs|]; [|done].
    unfold ztake; by replace (Z.to_nat (node_reference_count node)) with 0%nat by lia.
  - destruct (node_references node) as [refs|]; [|specialize (Hnull eq_refl); lia].
    cbn [mbind option_bind]; by rewrite option_guard_True by lia.
Qed.

Lemma mem_store_mid {A} (l r : list A) x y : mem_store (l ++ x :: r) (zlen l) [y] = Some (l ++ y :: r).
Proof.
  pose proof (zlen_nonneg l); pose proof (zlen_nonneg r).
  rewrite mem_store_Some by (rewrite ?zlen_app, ?zlen_cons; change (zlen (@nil A)) with 0; lia).
  rewrite ztake_app, zlen_cons; change (zlen (@nil A)) with 0.
  rewrite <- (zdrop_zdrop _ _ (l ++ x :: r)) by lia; by rewrite zdrop_app.
Qed.

Section spec.
  Context {profile : BaseProfile} {caps : BuildCaps}.
  Context (user dynamic : option mu_address_space_t) (requested_max : Z).
  Context (dyn_refs : list mu_dynamic_reference_t).

(** The description of a reference that passes the direction, type and class
    filters and whose target exists. *)
Definition select (desc : mu_browse_description_t) (type_of : mu_node_t → mu_nodeid_t) (r : mu_reference_t)
    : option mu_reference_description_t :=
  if direction_skips desc r || negb (reference_type_matches desc r) then None
  else
    target ← layered_lookup user dynamic (ref_target_id r);
    if negb (bd_node_class_mask desc =? 0)
       && (Z.land (node_node_class target) (bd_node_class_mask desc) =? 0)
    then None else Some (describe r target (type_of target)).

Definition select_static (desc : mu_browse_description_t) : mu_reference_t → option mu_reference_description_t :=
  select desc (λ target, type_definition (node_refs target)).

Definition select_dynamic (desc : mu_browse_description_t) (dyn : mu_dynamic_reference_t)
    : option mu_reference_description_t :=
  if mu_nodeid_equal (dr_source_node_id dyn) (bd_node_id desc)
  then select desc (λ _, mk_nodeid 0 (MU_NODEID_NUMERIC 0)) (dr_ref dyn) else None.

Definition browse_matches (desc : mu_browse_description_t) (node : mu_node_t) : list mu_reference_description_t :=
  omap (select_static desc) (node_refs node) ++ omap (select_dynamic desc) dyn_refs.

Definition browse_cap (remaining : Z) : Z :=
  if 0 <? requested_max then Z.min requested_max remaining else remaining.

(** The answer to one item when [remaining] pool entries are free. *)
Definition browse_answer (desc : mu_browse_description_t) (remaining : Z)
    : Z * list mu_reference_description_t :=
  if MU_BROWSE_DIRECTION_BOTH <? bd_browse_direction desc then (MU_STATUS_BAD_BROWSEDIRECTIONINVALID, [])
  else
    match layered_lookup user dynamic (bd_node_id desc) with
    | None => (MU_STATUS_BAD_NODEIDUNKNOWN, [])
    | Some node =>
        let ms := browse_matches desc node in
        if zlen ms <=? browse_cap remaining then (MU_STATUS_GOOD, ms)
        else (MU_STATUS_BAD_NOCONTINUATIONPOINTS, [])
    end.

Fixpoint browse_answers (descs : list mu_browse_description_t) (remaining : Z)
    : list (Z * list mu_reference_description_t) :=
  match descs with
  | [] => []
  | desc :: descs =>
      let answer := browse_answer desc remaining in
      answer :: browse_answers descs (remaining - zlen answer.2)
  end.

Lemma browse_answers_length descs remaining : length (browse_answers descs remaining) = length descs.
Proof.
  revert remaining; induction descs as [|desc descs IH]; intros remaining; [done|].
  cbn [browse_answers length]; by rewrite IH.
Qed.

(** ** One reference *)

(** [bs_pool] split at the item's first entry and at the next free one. *)
Definition pool_at (st : browse_state) (pre found rest : list mu_reference_description_t) : Prop :=
  bs_pool st = pre ++ found ++ rest ∧ zlen found = bs_match_count st.

Context (links : ∀ id node, nodeid_ok id → layered_lookup user dynamic id = Some node → node_links_ok node).

Lemma browse_reference_spec desc start remaining type_of type_opt r st pre found rest :
  resolve_ctx user (bs_index st) dynamic → nodeid_ok (ref_target_id r) →
  (∀ target, layered_lookup user dynamic (ref_target_id r) = Some target → type_opt target = Some (type_of target)) →
  pool_at st pre found rest → zlen pre = start → remaining ≤ zlen (found ++ rest) →
  bs_match_count st ≤ browse_cap remaining →
  ∃ index, resolve_ctx user index dynamic ∧
  browse_reference user dynamic requested_max desc start remaining type_opt r st =
    Some (match select desc type_of r with
          | None => Continue (mk_browse_state (bs_pool st) (bs_match_count st) index)
          | Some d =>
              if browse_cap remaining <=? bs_match_count st
              then TooMany (mk_browse_state (bs_pool st) (bs_match_count st) index)
              else Continue (mk_browse_state (pre ++ (found ++ [d]) ++ drop 1 rest) (bs_match_count st + 1) index)
          end) ∧
  (select desc type_of r ≠ None → bs_match_count st < browse_cap remaining → rest ≠ []).
Proof.
  intros Hctx Hid Htype [Hpool Hcnt] Hpre Hrem Hcap.
  assert (Hrest : bs_match_count st < browse_cap remaining → rest ≠ []).
  { intros Hlt ->; rewrite app_nil_r in Hrem; unfold browse_cap in Hlt.
    destruct (0 <? requested_max); lia. }
  unfold browse_reference, select.
  destruct (direction_skips desc r); cbn [orb].
  { exists (bs_index st); split_and!; [done|by destruct st|done]. }
  destruct (reference_type_matches desc r); cbn [negb].
  2:{ exists (bs_index st); split_and!; [done|by destruct st|done]. }
  destruct (resolve_node_spec user (bs_index st) dynamic _ Hctx Hid) as (index & -> & Hctx').
  exists index; cbn [mbind option_bind bs_match_count bs_pool bs_index].
  destruct (layered_lookup user dynamic (ref_target_id r)) as [target|] eqn:Et; cbn [mbind option_bind]; [|done].
  destruct (negb (bd_node_class_mask desc =? 0) && _); [done|].
  split; [done|]; split; [|auto].
  unfold browse_cap in *; destruct (Z.leb_spec (if 0 <? requested_max then requested_max `min` remaining else remaining)
                     (bs_match_count st)) as [Hge|Hlt].
  - destruct (Z.ltb_spec 0 requested_max); cbn [andb].
    + destruct (Z.leb_spec requested_max (bs_match_count st)); [done|].
      destruct (Z.leb_spec remaining (bs_match_count st)); [done|lia].
    + destruct (Z.leb_spec remaining (bs_match_count st)); [done|lia].
  - rewrite (proj2 (Z.leb_gt remaining (bs_match_count st))) by (destruct (0 <? requested_max); lia).
    replace ((0 <? requested_max) && (requested_max <=? bs_match_count st)) with false
      by (destruct (Z.ltb_spec 0 requested_max); cbn [andb]; [symmetry; apply Z.leb_gt; lia|done]).
    rewrite (Htype target eq_refl); cbn [mbind option_bind].
    destruct rest as [|x rest]; [by destruct (Hrest Hlt)|].
    rewrite Hpool, <- Hpre, <- Hcnt, app_assoc, <- zlen_app.
    rewrite mem_store_mid; cbn [mbind option_bind drop]; by rewrite <- !app_assoc.
Qed.

(** ** The loops *)

(** What an iteration over [ms] selected references leaves behind, given room
    for [cap]: all of them, or a full item whose earlier entries are still
    there. *)
Definition loop_outcome (cap : Z) (st : browse_state) (pre found rest ms : list mu_reference_description_t)
    (it : iteration) : Prop :=
  match it with
  | Continue st' =>
      bs_match_count st + zlen ms ≤ cap ∧ resolve_ctx user (bs_index st') dynamic ∧
      ∃ rest', pool_at st' pre (found ++ ms) rest' ∧ zlen (ms ++ rest') = zlen rest
  | TooMany st' =>
      cap < bs_match_count st + zlen ms ∧ resolve_ctx user (bs_index st') dynamic ∧ bs_match_count st' = cap ∧
      ∃ found' rest', pool_at st' pre found' rest' ∧ zlen (found' ++ rest') = zlen (found ++ rest)
  end.

Lemma iterate_spec {A} body (sel : A → option mu_reference_description_t) items cap room pre :
  (∀ x st found rest, x ∈ items → resolve_ctx user (bs_index st) dynamic → pool_at st pre found rest →
     room ≤ zlen (found ++ rest) → bs_match_count st ≤ cap →
     ∃ it, body x st = Some it ∧ loop_outcome cap st pre found rest (option_list (sel x)) it) →
  ∀ st found rest, resolve_ctx user (bs_index st) dynamic → pool_at st pre found rest →
    room ≤ zlen (found ++ rest) → bs_match_count st ≤ cap →
    ∃ it, iterate body items st = Some it ∧ loop_outcome cap st pre found rest (omap sel items) it.
Proof.
  induction items as [|x items IH]; intros Hbody st found rest Hctx Hpool Hroom Hcap; cbn [iterate].
  { exists (Continue st); split; [done|]; split; [change (zlen (omap sel [])) with 0; lia|split; [done|]].
    exists rest; change (omap sel []) with (@nil mu_reference_description_t); by rewrite app_nil_r. }
  destruct (Hbody x st found rest) as (it & -> & Hit); [by left|done..|]; cbn [mbind option_bind].
  change (omap sel (x :: items)) with (from_option (λ y, y :: omap sel items) (omap sel items) (sel x)).
  replace (from_option (λ y, y :: omap sel items) (omap sel items) (sel x))
    with (option_list (sel x) ++ omap sel items) by (by destruct (sel x)).
  destruct it as [st'|st'].
  - destruct Hit as (Hc & Hctx' & rest' & Hpool' & Hlen).
    assert (Hcnt : bs_match_count st' = bs_match_count st + zlen (option_list (sel x))).
    { destruct Hpool as [_ <-], Hpool' as [_ <-]; by rewrite zlen_app. }
    destruct (IH ltac:(intros; apply Hbody; [by right|done..]) st' (found ++ option_list (sel x)) rest')
      as (it & -> & Hit); [done|done|rewrite <- app_assoc, zlen_app, Hlen, <- zlen_app; done|lia|].
    exists it; split; [done|]; destruct it as [st2|st2]; cbn [loop_outcome] in *; rewrite zlen_app.
    + destruct Hit as (? & ? & rest2 & Hp & Hl); split_and!; [lia|done|].
      exists rest2; rewrite app_assoc; split; [done|].
      rewrite <- app_assoc, zlen_app, Hl, <- zlen_app; done.
    + destruct Hit as (? & ? & ? & f2 & r2 & Hp & Hl); split_and!; [lia|done..|].
      exists f2, r2; split; [done|]; rewrite Hl, <- app_assoc, zlen_app, Hlen, <- zlen_app; done.
  - exists (TooMany st'); split; [done|]; destruct Hit as (Hc & ? & ? & Hex); cbn [loop_outcome].
    rewrite zlen_app; pose proof (zlen_nonneg (omap sel items)); split_and!; [lia|done..].
Qed.

Lemma browse_reference_outcome desc start remaining type_of type_opt r st pre found rest :
  resolve_ctx user (bs_index st) dynamic → nodeid_ok (ref_target_id r) →
  (∀ target, layered_lookup user dynamic (ref_target_id r) = Some target → type_opt target = Some (type_of target)) →
  zlen pre = start → pool_at st pre found rest → remaining ≤ zlen (found ++ rest) →
  bs_match_count st ≤ browse_cap remaining →
  ∃ it, browse_reference user dynamic requested_max desc start remaining type_opt r st = Some it ∧
    loop_outcome (browse_cap remaining) st pre found rest (option_list (select desc type_of r)) it.
Proof.
  intros Hctx Hid Htype Hpre Hpool Hrem Hcap.
  destruct (browse_reference_spec desc start remaining type_of type_opt r st pre found rest)
    as (index & Hctx' & -> & Hne); [done..|].
  destruct Hpool as [Hpool Hcnt]; pose proof (zlen_nonneg found).
  destruct (select desc type_of r) as [d|].
  - destruct (Z.leb_spec (browse_cap remaining) (bs_match_count st)); eexists; (split; [done|]);
      cbn [loop_outcome bs_match_count bs_index]; change (option_list (Some d)) with [d];
      change (zlen [d]) with 1.
    + split_and!; [lia|done|lia|]; exists found, rest; by repeat split.
    + split_and!; [lia|done|]; exists (drop 1 rest); split; [split; [done|]|].
      * cbn [bs_match_count]; rewrite zlen_app, zlen_cons; change (zlen []) with 0; lia.
      * destruct rest as [|x rest]; [by destruct Hne|]; cbn [app drop]; by rewrite !zlen_cons, drop_0.
  - eexists; split; [done|]; cbn [loop_outcome bs_match_count bs_index].
    change (option_list None) with (@nil mu_reference_description_t).
    change (zlen (@nil mu_reference_description_t)) with 0.
    split_and!; [lia|done|]; exists rest; rewrite app_nil_r; by repeat split.
Qed.

Lemma browse_loops_spec desc start remaining node st pre found rest :
  resolve_ctx user (bs_index st) dynamic → node_links_ok node →
  Forall (λ dyn, nodeid_ok (ref_target_id (dr_ref dyn))) dyn_refs →
  zlen pre = start → pool_at st pre found rest → remaining ≤ zlen (found ++ rest) →
  bs_match_count st ≤ browse_cap remaining →
  (∃ it, browse_references user dynamic requested_max desc start remaining (node_refs node) st = Some it ∧
     loop_outcome (browse_cap remaining) st pre found rest (omap (select_static desc) (node_refs node)) it) ∧
  (∃ it, browse_dynamic_references user dynamic requested_max desc start remaining dyn_refs st = Some it ∧
     loop_outcome (browse_cap remaining) st pre found rest (omap (select_dynamic desc) dyn_refs) it).
Proof.
  intros Hctx Hlinks Hdyn Hpre Hpool Hrem Hcap; split.
  - eapply (iterate_spec _ _ _ _ remaining); [|done..].
    intros r st' f' r' Hr Hctx' Hpool' Hrem' Hcap'.
    destruct Hlinks as (_ & _ & Hids); rewrite Forall_forall in Hids.
    apply browse_reference_outcome; auto.
    intros target Ht; rewrite (load_refs_ok target); [done|]; eapply links; [|exact Ht]; auto.
  - eapply (iterate_spec _ _ _ _ remaining); [|done..].
    intros dyn st' f' r' Hr Hctx' Hpool' Hrem' Hcap'; unfold select_dynamic.
    rewrite Forall_forall in Hdyn; specialize (Hdyn dyn Hr).
    destruct (mu_nodeid_equal (dr_source_node_id dyn) (bd_node_id desc)); cbn [negb].
    + by apply browse_reference_outcome.
    + exists (Continue st'); split; [done|]; cbn [loop_outcome]; change (option_list None) with (@nil mu_reference_description_t).
      change (zlen (@nil mu_reference_description_t)) with 0; split_and!; [lia|done|].
      exists r'; by rewrite app_nil_r.
Qed.

(** ** Items *)

(** What the response encoder sees of a result. *)
Definition result_view (pool : list mu_reference_description_t) (res : mu_browse_result_t)
    : Z * list mu_reference_description_t :=
  (br_status_code res,
   match br_references res with
   | None => []
   | Some offset => ztake (br_num_references res) (zdrop offset pool)
   end).

(** A result that lies in the first [used] pool entries. *)
Definition result_below (used : Z) (res : mu_browse_result_t) : Prop :=
  match br_references res with
  | None => True
  | Some offset => 0 ≤ offset ∧ 0 ≤ br_num_references res ∧ offset + br_num_references res ≤ used
  end.

Lemma result_view_stable pool pool' used res :
  result_below used res → ztake used pool' = ztake used pool →
  result_view pool' res = result_view pool res.
Proof.
  unfold result_below, result_view, ztake, zdrop; intros Hb E; destruct (br_references res) as [off|]; [|done].
  assert (H : ∀ l : list mu_reference_description_t,
    take (Z.to_nat (br_num_references res)) (drop (Z.to_nat off) l)
    = take (Z.to_nat (br_num_references res)) (drop (Z.to_nat off) (take (Z.to_nat used) l))).
  { intros l; rewrite skipn_firstn_comm, take_take; f_equal; lia. }
  by rewrite (H pool'), E, <- (H pool).
Qed.

Lemma ztake_pre {A} (pre l : list A) n : zlen pre = n → ztake n (pre ++ l) = pre.
Proof. intros <-; apply ztake_app. Qed.

Lemma browse_cap_bounds remaining : 0 ≤ remaining → 0 ≤ browse_cap remaining ≤ remaining.
Proof. unfold browse_cap; destruct (Z.ltb_spec 0 requested_max); lia. Qed.

Definition item_outcome (max_total_refs : Z) (desc : mu_browse_description_t)
    (pool : list mu_reference_description_t) (used : Z)
    (out : mu_browse_result_t * list mu_reference_description_t * Z * option mu_address_space_index_t) : Prop :=
  let '(res, pool', used', index') := out in
  let answer := browse_answer desc (max_total_refs - used) in
  resolve_ctx user index' dynamic ∧ zlen pool' = zlen pool ∧ ztake used pool' = ztake used pool ∧
  result_view pool' res = answer ∧ result_below used' res ∧
  used' = used + zlen answer.2 ∧ used' ≤ max_total_refs.

(** Both loops over a node's references, as one. *)
Lemma browse_node_loops desc max_total_refs node pool used index :
  resolve_ctx user index dynamic → node_links_ok node →
  Forall (λ dyn, nodeid_ok (ref_target_id (dr_ref dyn))) dyn_refs →
  0 ≤ used ≤ max_total_refs → max_total_refs ≤ zlen pool →
  let remaining := max_total_refs - used in
  ∃ it1 it2 st1 st2 b1 b2,
    browse_references user dynamic requested_max desc used remaining (node_refs node)
      (mk_browse_state pool 0 index) = Some it1 ∧
    (match it1 with Continue st => (false, st) | TooMany st => (true, st) end) = (b1, st1) ∧
    browse_dynamic_references user dynamic requested_max desc used remaining dyn_refs st1 = Some it2 ∧
    (match it2 with Continue st => (b1, st) | TooMany st => (true, st) end) = (b2, st2) ∧
    resolve_ctx user (bs_index st2) dynamic ∧
    (∃ found rest, pool_at st2 (ztake used pool) found rest ∧ zlen (bs_pool st2) = zlen pool ∧
       (b2 = false → found = browse_matches desc node)) ∧
    b2 = negb (zlen (browse_matches desc node) <=? browse_cap remaining).
Proof.
  intros Hctx Hlinks Hdyn Hused Hmax remaining.
  pose proof (browse_cap_bounds remaining ltac:(lia)) as Hcap.
  assert (Hpre : zlen (ztake used pool) = used) by (apply zlen_ztake; lia).
  assert (Hsplit : zlen (ztake used pool) + zlen (zdrop used pool) = zlen pool)
    by (rewrite <- zlen_app, ztake_zdrop; done).
  destruct (browse_loops_spec desc used remaining node (mk_browse_state pool 0 index)
              (ztake used pool) [] (zdrop used pool)) as [(it1 & E1 & H1) _];
    [done..|by split; [cbn [app bs_pool]; rewrite ztake_zdrop|]|cbn [app]; lia|cbn; lia|].
  rewrite E1; exists it1; unfold browse_matches; rewrite zlen_app.
  pose proof (zlen_nonneg (omap (select_static desc) (node_refs node))).
  pose proof (zlen_nonneg (omap (select_dynamic desc) dyn_refs)).
  destruct it1 as [st1|st1].
  - destruct H1 as (Hc1 & Hctx1 & rest1 & Hp1 & Hl1); cbn [bs_match_count app] in *.
    destruct (browse_loops_spec desc used remaining node st1 (ztake used pool)
                (omap (select_static desc) (node_refs node)) rest1) as [_ (it2 & E2 & H2)];
      [done..|lia|destruct Hp1 as [_ <-]; lia|].
    exists it2; destruct it2 as [st2|st2]; do 4 eexists; (split; [done|]); (split; [done|]);
      (split; [exact E2|]); (split; [done|]); destruct Hp1 as [_ Hm1].
    + destruct H2 as (Hc2 & Hctx2 & rest2 & Hp2 & Hl2); split; [done|]; split.
      * exists (omap (select_static desc) (node_refs node) ++ omap (select_dynamic desc) dyn_refs), rest2.
        split; [done|split; [|done]]; destruct Hp2 as [-> _].
        rewrite zlen_app, <- app_assoc, zlen_app, Hl2, <- zlen_app; lia.
      * rewrite (proj2 (Z.leb_le _ _)); [done|lia].
    + destruct H2 as (Hc2 & Hctx2 & Hcnt2 & f2 & r2 & Hp2 & Hl2); split; [done|]; split.
      * exists f2, r2; split; [done|split; [|done]]; destruct Hp2 as [-> _]; rewrite zlen_app; lia.
      * rewrite (proj2 (Z.leb_gt _ _)); [done|lia].
  - destruct H1 as (Hc1 & Hctx1 & Hcnt1 & f1 & r1 & Hp1 & Hl1); cbn [bs_match_count app] in *.
    destruct (browse_loops_spec desc used remaining node st1 (ztake used pool) f1 r1)
      as [_ (it2 & E2 & H2)]; [done..|lia|lia|].
    exists it2; destruct it2 as [st2|st2]; do 4 eexists; (split; [done|]); (split; [done|]);
      (split; [exact E2|]); (split; [done|]).
    + destruct H2 as (Hc2 & Hctx2 & rest2 & Hp2 & Hl2); split; [done|]; split.
      * eexists _, rest2; split; [done|split; [|done]]; destruct Hp2 as [-> _].
        rewrite zlen_app, <- app_assoc, zlen_app, Hl2, <- zlen_app; lia.
      * rewrite (proj2 (Z.leb_gt _ _)); [done|lia].
    + destruct H2 as (Hc2 & Hctx2 & Hcnt2 & f2 & r2 & Hp2 & Hl2); split; [done|]; split.
      * exists f2, r2; split; [done|split; [|done]]; destruct Hp2 as [-> _]; rewrite zlen_app; lia.
      * rewrite (proj2 (Z.leb_gt _ _)); [done|lia].
Qed.

Lemma browse_one_spec max_total_refs desc pool used index :
  resolve_ctx user index dynamic → nodeid_ok (bd_node_id desc) →
  Forall (λ dyn, nodeid_ok (ref_target_id (dr_ref dyn))) dyn_refs →
  0 ≤ used ≤ max_total_refs → max_total_refs ≤ zlen pool →
  ∃ out, browse_one user dynamic requested_max dyn_refs max_total_refs desc pool used index = Some out ∧
         item_outcome max_total_refs desc pool used out.
Proof.
  intros Hctx Hid Hdyn Hused Hmax; unfold browse_one, item_outcome, browse_answer.
  destruct (MU_BROWSE_DIRECTION_BOTH <? bd_browse_direction desc).
  { eexists; split; [done|]; split_and!; try done; cbn [snd]; change (zlen (@nil mu_reference_description_t)) with 0; lia. }
  destruct (resolve_node_spec user index dynamic _ Hctx Hid) as (index1 & -> & Hctx1); cbn [mbind option_bind].
  destruct (layered_lookup user dynamic (bd_node_id desc)) as [node|] eqn:En.
  2:{ eexists; split; [done|]; split_and!; try done; cbn [snd]; change (zlen (@nil mu_reference_description_t)) with 0; lia. }
  assert (Hlinks : node_links_ok node) by (by eapply links).
  rewrite (load_refs_ok node Hlinks); cbn [mbind option_bind].
  destruct (browse_node_loops desc max_total_refs node pool used index1)
    as (it1 & it2 & st1 & st2 & b1 & b2 & -> & E1 & E2 & E3 & Hctx2 & (found & rest & [Hp Hc] & Hl & Hf) & Hb2);
    [done..|].
  cbn [mbind option_bind]; rewrite E1, E2; cbn [mbind option_bind]; rewrite E3.
  assert (Hpre : zlen (ztake used pool) = used) by (apply zlen_ztake; lia).
  assert (Htake : ztake used (bs_pool st2) = ztake used pool) by (rewrite Hp; by apply ztake_pre).
  destruct b2; rewrite <- (negb_involutive (zlen _ <=? _)), <- Hb2; cbn [negb];
    eexists; (split; [done|]); (split_and!; try done).
  - cbn [snd]; change (zlen (@nil mu_reference_description_t)) with 0; lia.
  - lia.
  - unfold result_view; cbn [br_status_code br_references br_num_references]; f_equal.
    rewrite Hp, <- (Hf eq_refl), <- Hc.
    replace (zdrop used (ztake used pool ++ found ++ rest)) with (found ++ rest); [apply ztake_app|].
    rewrite <- (zdrop_app (ztake used pool) (found ++ rest)) at 1; by rewrite Hpre.
  - cbn [result_below br_references br_num_references]; pose proof (zlen_nonneg found); lia.
  - cbn [snd]; by rewrite <- (Hf eq_refl), Hc.
  - rewrite <- Hc, (Hf eq_refl); symmetry in Hb2; apply negb_false_iff, Z.leb_le in Hb2.
    pose proof (browse_cap_bounds (max_total_refs - used)); lia.
Qed.

Lemma browse_loop_spec max_total_refs descs :
  ∀ pool used index,
  resolve_ctx user index dynamic → Forall (λ desc, nodeid_ok (bd_node_id desc)) descs →
  Forall (λ dyn, nodeid_ok (ref_target_id (dr_ref dyn))) dyn_refs →
  0 ≤ used ≤ max_total_refs → max_total_refs ≤ zlen pool →
  ∃ results pool' index',
    browse_loop user dynamic requested_max dyn_refs max_total_refs descs pool used index
      = Some (results, pool', index') ∧
    resolve_ctx user index' dynamic ∧ zlen pool' = zlen pool ∧ ztake used pool' = ztake used pool ∧
    map (result_view pool') results = browse_answers descs (max_total_refs - used) ∧
    Forall (result_below max_total_refs) results.
Proof.
  induction descs as [|desc descs IH]; intros pool used index Hctx Hids Hdyn Hused Hmax; cbn [browse_loop].
  { exists [], pool, index; split_and!; done. }
  apply Forall_cons_iff in Hids as [Hid Hids].
  destruct (browse_one_spec max_total_refs desc pool used index) as ([[[res pool1] used1] index1] & -> & H1); [done..|].
  destruct H1 as (Hctx1 & Hl1 & Ht1 & Hv1 & Hb1 & Hu1 & Hm1); cbn [mbind option_bind].
  pose proof (zlen_nonneg (browse_answer desc (max_total_refs - used)).2).
  destruct (IH pool1 used1 index1) as (results & pool2 & index2 & -> & Hctx2 & Hl2 & Ht2 & Hv2 & Hb2); [done..|lia|lia|].
  cbn [mbind option_bind]; exists (res :: results), pool2, index2; split_and!; [done|done|lia| | |].
  - assert (Hcut : ∀ l : list mu_reference_description_t, ztake used l = ztake used (ztake used1 l))
      by (intros; rewrite ztake_ztake; [done|lia]).
    by rewrite Hcut, Ht2, <- Hcut.
  - cbn [map browse_answers]; f_equal.
    + rewrite <- Hv1; by apply result_view_stable with used1.
    + rewrite Hv2; f_equal; lia.
  - apply Forall_cons_iff; split; [|done]; unfold result_below in *; destruct (br_references res); [lia|done].
Qed.
End spec.

(** ** Links of the base table *)

Definition base_links (node : mu_node_t) : bool :=
  forallb (λ r, match nid_identifier (ref_target_id r) with
                | MU_NODEID_NUMERIC i =>
                    (nid_namespace_index (ref_target_id r) =? 0) && (0 <=? i) && (i <? 4294967296)
                | _ => false
                end) (node_refs node).

Lemma base_links_facts {profile : BaseProfile} : forallb base_links s_base_nodes = true.
Proof. destruct profile as [[] []]; vm_compute; reflexivity. Qed.

Lemma base_node_links {profile : BaseProfile} : Forall node_links_ok s_base_nodes.
Proof.
  pose proof base_links_facts as Hl; rewrite forallb_forall in Hl.
  apply Forall_forall; intros node Hn.
  pose proof base_nodes_ok as Hok; rewrite Forall_forall in Hok; specialize (Hok node Hn).
  specialize (Hl node ltac:(by apply list_elem_of_In)).
  unfold base_node_ok in Hok; repeat (apply andb_true_iff in Hok as [Hok ?]).
  unfold node_links_ok, node_refs_ok; split_and!.
  - intros E; rewrite E in *; lia.
  - destruct (node_references node) as [l|]; [|done]; pose proof (zlen_nonneg l); lia.
  - unfold base_links in Hl; rewrite forallb_forall in Hl; apply Forall_forall; intros r Hr.
    specialize (Hl r ltac:(by apply list_elem_of_In)).
    destruct (ref_target_id r) as [ns [i| | |]]; try done; cbn in *.
    bool_hyps; split; cbn; ranges; lia.
Qed.

(** Valid links in the configured spaces. *)
Definition links_ctx (user dynamic : option mu_address_space_t) : Prop :=
  (∀ sp, user = Some sp → Forall node_links_ok (space_nodes sp)) ∧
  (∀ sp, dynamic = Some sp → Forall node_links_ok (space_nodes sp)).

Lemma opt_lookup_elem space id node :
  opt_lookup space id = Some node → ∃ sp, space = Some sp ∧ node ∈ space_nodes sp.
Proof.
  destruct space as [sp|]; cbn [opt_lookup mbind option_bind]; [|done].
  intros [H _]%find_linear_Some; by exists sp.
Qed.

Lemma layered_links {profile : BaseProfile} user dynamic id node :
  links_ctx user dynamic → layered_lookup user dynamic id = Some node → node_links_ok node.
Proof.
  intros [Hu Hd]; unfold layered_lookup.
  destruct (opt_lookup user id) as [n|] eqn:Eu.
  { intros [= ->]; apply opt_lookup_elem in Eu as (sp & -> & Hin).
    specialize (Hu sp eq_refl); rewrite Forall_forall in Hu; auto. }
  destruct (opt_lookup dynamic id) as [n|] eqn:Ed.
  { intros [= ->]; apply opt_lookup_elem in Ed as (sp & -> & Hin).
    specialize (Hd sp eq_refl); rewrite Forall_forall in Hd; auto. }
  intros [Hin _]%find_linear_Some; pose proof base_node_links as Hb; rewrite Forall_forall in Hb; auto.
Qed.

(** ** Decoder and encoder safety *)

Definition wire_browse_description (d : mu_browse_description_t) : Prop :=
  wire_nodeid (bd_node_id d) ∧ u32_range (bd_browse_direction d) ∧ wire_nodeid (bd_reference_type_id d) ∧
  u32_range (bd_node_class_mask d) ∧ u32_range (bd_result_mask d).

Lemma rsafe_read_browse_description : rsafe read_browse_description wire_browse_description.
Proof. unfold read_browse_description; rsafe_auto; split_and!; done. Qed.

Lemma rsafe_browse_request_decode max_desc :
  0 ≤ max_desc → rsafe (mu_browse_request_decode max_desc)
    (λ req, zlen (bq_nodes_to_browse req) ≤ max_desc ∧ Forall wire_browse_description (bq_nodes_to_browse req)).
Proof.
  intros Hmax; unfold mu_browse_request_decode; rsafe_auto; [split; [done|constructor]|].
  eapply rsafe_bind; [apply rsafe_rd_list, rsafe_read_browse_description|]; intros l [Hlen Hl].
  apply rsafe_ret; split; [|done]; cbn; bool_hyps; rewrite (zlen_of_length l _ Hlen); lia.
Qed.

Definition description_ok (d : mu_reference_description_t) : Prop :=
  nodeid_ok (rd_reference_type_id d) ∧ nodeid_ok (rd_node_id d) ∧ u16_range (rd_browse_name_namespace_index d) ∧
  string_ok (rd_browse_name d) ∧ string_ok (rd_display_name d) ∧ u32_range (rd_node_class d) ∧
  nodeid_ok (rd_type_definition d).

Lemma wsafe_write_reference_description d : description_ok d → wsafe (write_reference_description d).
Proof.
  intros (? & ? & ? & ? & ? & ? & ?); unfold write_reference_description; wsafe_auto.
Qed.

Lemma wsafe_lift {A B} (a : A) (k : A → Wr B) : wsafe (k a) → wsafe (lift_option (Some a) ≫= k).
Proof. intros H w Hw; exact (H w Hw). Qed.

(** A result whose slice lies in the pool and holds encodable descriptions. *)
Definition result_ok (pool : list mu_reference_description_t) (res : mu_browse_result_t) : Prop :=
  result_below (zlen pool) res ∧ Forall description_ok (result_view pool res).2.

Lemma wsafe_write_browse_result pool res : result_ok pool res → wsafe (write_browse_result pool res).
Proof.
  unfold result_ok, result_below, result_view; intros [Hb Hv]; unfold write_browse_result; wsafe_auto.
  destruct (br_references res) as [off|]; [|apply wsafe_write_int32].
  apply wsafe_if; intros _; [apply wsafe_write_int32|apply wsafe_bind; [apply wsafe_write_int32|intros _]].
  rewrite mem_load_Some by lia; apply wsafe_lift, wsafe_wr_list.
  eapply Forall_impl; [exact Hv|]; intros d; apply wsafe_write_reference_description.
Qed.

Lemma wsafe_browse_response_encode pool results :
  Forall (result_ok pool) results →
  wsafe (mu_browse_response_encode pool (mk_browse_response (Some results) (zlen results))).
Proof.
  intros Hres; unfold mu_browse_response_encode; cbn [bp_results bp_num_results].
  apply wsafe_bind; [|intros _; apply wsafe_write_int32].
  apply wsafe_if; intros _; [apply wsafe_write_int32|].
  rewrite (proj2 (Z.ltb_ge _ _)) by lia; apply wsafe_bind; [apply wsafe_write_int32|intros _].
  rewrite ztake_all; apply wsafe_wr_list; eapply Forall_impl; [exact Hres|].
  intros res; apply wsafe_write_browse_result.
Qed.

(** ** Properties *)

Section properties.
  Context {profile : BaseProfile} {caps : BuildCaps}.

Lemma browse_process_ok user dynamic index dyn_refs req max_results ref_pool max_total_refs :
  resolve_ctx user index dynamic → links_ctx user dynamic →
  Forall (λ desc, nodeid_ok (bd_node_id desc)) (bq_nodes_to_browse req) →
  Forall (λ dyn, nodeid_ok (ref_target_id (dr_ref dyn))) dyn_refs →
  zlen (bq_nodes_to_browse req) ≤ max_results → 0 ≤ max_total_refs ≤ zlen ref_pool →
  ∃ results ref_pool' index',
    mu_browse_process_with_user_index user dynamic index dyn_refs req max_results ref_pool max_total_refs
      = Ok (results, ref_pool', index') ∧
    map (result_view ref_pool') results =
      browse_answers user dynamic (bq_requested_max_references_per_node req) dyn_refs
        (bq_nodes_to_browse req) max_total_refs ∧
    zlen ref_pool' = zlen ref_pool ∧ resolve_ctx user index' dynamic ∧
    Forall (result_below (zlen ref_pool')) results.
Proof.
  intros Hctx Hlinks Hids Hdyn Hmax Hpool; unfold mu_browse_process_with_user_index.
  rewrite (proj2 (Z.ltb_ge _ _)) by lia.
  destruct (browse_loop_spec user dynamic (bq_requested_max_references_per_node req) dyn_refs
              (λ id node _, layered_links user dynamic id node Hlinks)
              max_total_refs (bq_nodes_to_browse req) ref_pool 0 index)
    as (results & pool' & index' & -> & Hctx' & Hl & _ & Hv & Hb); [done..|lia|lia|].
  exists results, pool', index'; split_and!; [done| |done|done|].
  - by rewrite Hv, Z.sub_0_r.
  - eapply Forall_impl; [exact Hb|]; intros res; unfold result_below; destruct (br_references res); lia.
Qed.

(** C23: Browse answers every item exactly. With valid address spaces, a result
    array for all items and a pool of at least [max_total_refs] descriptions,
    processing never accesses memory out of bounds and produces one result per
    item: Bad_BrowseDirectionInvalid, Bad_NodeIdUnknown, or all references of
    the node - static ones first, then those added at run time - that pass the
    direction, reference type (with subtypes) and class filters and whose target
    exists, or Bad_NoContinuationPoints when they exceed the requested maximum
    or the free pool entries. Results of different items never overlap in the
    pool: what is encoded for an item is what was selected for it. *)
Theorem browse_process_spec user dynamic index dyn_refs req max_results ref_pool max_total_refs :
  resolve_ctx user index dynamic → links_ctx user dynamic →
  Forall (λ desc, nodeid_ok (bd_node_id desc)) (bq_nodes_to_browse req) →
  Forall (λ dyn, nodeid_ok (ref_target_id (dr_ref dyn))) dyn_refs →
  zlen (bq_nodes_to_browse req) ≤ max_results → 0 ≤ max_total_refs ≤ zlen ref_pool →
  ∃ results ref_pool' index',
    mu_browse_process_with_user_index user dynamic index dyn_refs req max_results ref_pool max_total_refs
      = Ok (results, ref_pool', index') ∧
    map (result_view ref_pool') results =
      browse_answers user dynamic (bq_requested_max_references_per_node req) dyn_refs
        (bq_nodes_to_browse req) max_total_refs ∧
    zlen ref_pool' = zlen ref_pool ∧ resolve_ctx user index' dynamic ∧
    Forall (result_below (zlen ref_pool')) results.
Proof. apply browse_process_ok. Qed.
End properties.

(** C36: reference type subsumption is exactly the reflexive-transitive closure
    of the built-in supertype table on standard reference types; the bound of
    64 iterations never cuts the climb short. *)
Theorem ref_type_subtype_iff c p :
  ref_type_is_subtype_of (mk_nodeid 0 (MU_NODEID_NUMERIC c)) (mk_nodeid 0 (MU_NODEID_NUMERIC p)) = true
  ↔ rtc direct_supertype c p.
Proof.
  unfold ref_type_is_subtype_of, mu_nodeid_equal, identifier_type.
  cbn [nid_identifier nid_namespace_index]; rewrite Z.eqb_refl; cbn [negb].
  destruct (Z.eqb_spec c p) as [->|Hne]; [split; [intros _; apply rtc_refl|done]|].
  rewrite climb_iff; split; [apply tc_rtc|].
  intros [->|H]%rtc_tc; done.
Qed.

(** decoding a Read, Write or Browse request is memory safe on arbitrary
    octets, never produces more items than the caller's array holds, and every
    item has in-range fields and strings inside the message. *)
Theorem request_decoders_safe max_nodes write_array :
  0 ≤ max_nodes ≤ zlen write_array →
  rsafe (mu_read_request_decode max_nodes) (wire_read_request max_nodes) ∧
  rsafe (mu_write_request_decode write_array max_nodes)
    (λ req, zlen (wq_nodes_to_write req) ≤ max_nodes ∧ Forall wire_write_value (wq_nodes_to_write req)) ∧
  rsafe (mu_browse_request_decode max_nodes)
    (λ req, zlen (bq_nodes_to_browse req) ≤ max_nodes ∧
            Forall wire_browse_description (bq_nodes_to_browse req)).
Proof.
  intros ?; split_and!;
    [apply rsafe_read_request_decode|apply rsafe_write_request_decode|apply rsafe_browse_request_decode]; lia.
Qed.

Lemma request_decoders_safe_witness :
  rsafe (mu_read_request_decode 32) (wire_read_request 32).
Proof.
  apply (request_decoders_safe 32
    (repeat (mk_write_value (base_nodeid 0) 0 null_string zero_datavalue) 32)).
  vm_compute; split; discriminate.
Defined.

(** Browse the Objects folder forward along Organizes, and an unknown node. *)
Definition demo_browse_request : mu_browse_request_t :=
  let item id := mk_browse_description (base_nodeid id) MU_BROWSE_DIRECTION_FORWARD (base_nodeid 33) true 0 63 in
  mk_browse_request (base_nodeid 0) 0 0 0 [item 85; item 99999].

Definition empty_description : mu_reference_description_t :=
  mk_reference_description (base_nodeid 0) false (base_nodeid 0) 0 null_string null_string 0 (base_nodeid 0).

Lemma demo_links : links_ctx (Some demo_space) (Some demo_runtime).
Proof.
  split; intros sp [= <-];
    repeat (apply Forall_cons_iff; split; [split_and!;
      [first [discriminate|intros _; vm_compute; discriminate]
      |first [exact I|vm_compute; split; discriminate]
      |repeat (apply Forall_cons_iff; split; [split; cbn; ranges; lia|]); constructor]|]); constructor.
Qed.

Lemma browse_process_spec_witness :
  ∃ results ref_pool' index',
    @mu_browse_process_with_user_index embedded_profile embedded_caps (Some demo_space) (Some demo_runtime)
      (Some demo_index) [] demo_browse_request 8 (repeat empty_description 16) 16
      = Ok (results, ref_pool', index') ∧
    map (λ r, (r.1, map rd_node_id r.2)) (map (result_view ref_pool') results)
      = [(MU_STATUS_GOOD, [base_nodeid 2253]); (MU_STATUS_BAD_NODEIDUNKNOWN, [])].
Proof.
  destruct (@browse_process_spec embedded_profile embedded_caps (Some demo_space) (Some demo_runtime)
    (Some demo_index) [] demo_browse_request 8 (repeat empty_description 16) 16 demo_ctx)
    as (results & pool' & index' & E & Hv & _).
  - exact demo_links.
  - repeat (apply Forall_cons_iff; split; [split; cbn; ranges; lia|]); constructor.
  - constructor.
  - vm_compute; discriminate.
  - vm_compute; split; discriminate.
  - exists results, pool', index'; split; [exact E|]; rewrite Hv; reflexivity.
Defined.
