(* ===== verification/Dispatch.v ===== *)
(** * Service dispatch

    [src/core/service_dispatch.c]: the table of supported services, the gate
    every request passes (supported service, open SecureChannel, activated
    Session bound to that channel), response prefixes and service faults, and
    the View and Attribute service handlers. The handlers of services that are
    not modelled are a parameter of the dispatcher: its theorems hold whatever
    they do. *)

From S2P Require Export Framing Session SecureChannel Browse.

(** ** Services and their table *)

Class ServiceFeatures := {
  MUC_OPCUA_SERVICE_DISCOVERY : bool;
  MUC_OPCUA_SERVICE_READ : bool;
  MUC_OPCUA_SERVICE_REGISTER_NODES : bool;
  MUC_OPCUA_SERVICE_BROWSE : bool;
  MUC_OPCUA_SERVICE_QUERY : bool;
  MUC_OPCUA_SERVICE_WRITE : bool;
  MUC_OPCUA_SERVICE_HISTORY : bool;
  MU_DISPATCH_CALL_ENABLED : bool;
  MUC_OPCUA_SERVICE_NODEMANAGEMENT : bool;
  MUC_OPCUA_SUBSCRIPTIONS : bool
}.

(** The handler functions the table points to. *)
Inductive service_handler :=
| handle_find_servers_fn | handle_get_endpoints_fn | handle_open_secure_channel_fn
| handle_create_session_fn | handle_activate_session_fn | handle_close_session_fn
| handle_read_fn | handle_register_nodes_fn | handle_unregister_nodes_fn
| handle_translate_browse_paths_fn | handle_browse_fn | handle_browse_next_fn
| handle_query_first_fn | handle_query_next_fn | handle_write_fn
| handle_history_read_fn | handle_history_update_fn | handle_call_fn
| handle_add_nodes_fn | handle_add_references_fn | handle_delete_nodes_fn | handle_delete_references_fn
| handle_create_monitored_items_fn | handle_modify_monitored_items_fn | handle_set_monitoring_mode_fn
| handle_set_triggering_fn | handle_delete_monitored_items_fn | handle_create_subscription_fn
| handle_modify_subscription_fn | handle_set_publishing_mode_fn | handle_delete_subscriptions_fn
| handle_publish_fn | handle_republish_fn.

Record mu_service_handler_t := mk_service_handler {
  sh_request_id : Z;
  sh_response_id : Z;
  sh_requires_session : bool
}.

Record mu_service_descriptor_t := mk_service_descriptor {
  sd_service : mu_service_handler_t;
  sd_handler : option service_handler
}.

Definition service (request_id response_id : Z) (requires_session : bool) (handler : option service_handler)
    : mu_service_descriptor_t :=
  mk_service_descriptor (mk_service_handler request_id response_id requires_session) handler.

Section table.
  Context {profile : BaseProfile} {features : ServiceFeatures}.

Definition g_supported_services : list mu_service_descriptor_t :=
  when MUC_OPCUA_SERVICE_DISCOVERY
    [service MU_ID_FINDSERVERSREQUEST MU_ID_FINDSERVERSRESPONSE false (Some handle_find_servers_fn);
     service MU_ID_GETENDPOINTSREQUEST MU_ID_GETENDPOINTSRESPONSE false (Some handle_get_endpoints_fn)] ++
  [service MU_ID_OPENSECURECHANNELREQUEST MU_ID_OPENSECURECHANNELRESPONSE false (Some handle_open_secure_channel_fn);
   service MU_ID_CLOSESECURECHANNELREQUEST MU_ID_CLOSESECURECHANNELRESPONSE false None;
   service MU_ID_CREATESESSIONREQUEST MU_ID_CREATESESSIONRESPONSE false (Some handle_create_session_fn);
   service MU_ID_ACTIVATESESSIONREQUEST MU_ID_ACTIVATESESSIONRESPONSE false (Some handle_activate_session_fn);
   service MU_ID_CLOSESESSIONREQUEST MU_ID_CLOSESESSIONRESPONSE true (Some handle_close_session_fn)] ++
  when MUC_OPCUA_SERVICE_READ
    [service MU_ID_READREQUEST MU_ID_READRESPONSE true (Some handle_read_fn)] ++
  when MUC_OPCUA_SERVICE_REGISTER_NODES
    [service MU_ID_REGISTERNODESREQUEST MU_ID_REGISTERNODESRESPONSE true (Some handle_register_nodes_fn);
     service MU_ID_UNREGISTERNODESREQUEST MU_ID_UNREGISTERNODESRESPONSE true (Some handle_unregister_nodes_fn)] ++
  when MUC_OPCUA_SERVICE_BROWSE
    [service MU_ID_TRANSLATEBROWSEPATHSTONODEIDSREQUEST MU_ID_TRANSLATEBROWSEPATHSTONODEIDSRESPONSE true
       (Some handle_translate_browse_paths_fn);
     service MU_ID_BROWSEREQUEST MU_ID_BROWSERESPONSE true (Some handle_browse_fn);
     service MU_ID_BROWSENEXTREQUEST MU_ID_BROWSENEXTRESPONSE true (Some handle_browse_next_fn)] ++
  when MUC_OPCUA_SERVICE_QUERY
    [service MU_ID_QUERYFIRSTREQUEST MU_ID_QUERYFIRSTRESPONSE true (Some handle_query_first_fn);
     service MU_ID_QUERYNEXTREQUEST MU_ID_QUERYNEXTRESPONSE true (Some handle_query_next_fn)] ++
  when MUC_OPCUA_SERVICE_WRITE
    [service MU_ID_WRITEREQUEST MU_ID_WRITERESPONSE true (Some handle_write_fn)] ++
  when MUC_OPCUA_SERVICE_HISTORY
    [service MU_ID_HISTORYREADREQUEST MU_ID_HISTORYREADRESPONSE true (Some handle_history_read_fn);
     service MU_ID_HISTORYUPDATEREQUEST MU_ID_HISTORYUPDATERESPONSE true (Some handle_history_update_fn)] ++
  when MU_DISPATCH_CALL_ENABLED
    [service MU_ID_CALLREQUEST MU_ID_CALLRESPONSE true (Some handle_call_fn)] ++
  when MUC_OPCUA_SERVICE_NODEMANAGEMENT
    [service MU_ID_ADDNODESREQUEST MU_ID_ADDNODESRESPONSE true (Some handle_add_nodes_fn);
     service MU_ID_ADDREFERENCESREQUEST MU_ID_ADDREFERENCESRESPONSE true (Some handle_add_references_fn);
     service MU_ID_DELETENODESREQUEST MU_ID_DELETENODESRESPONSE true (Some handle_delete_nodes_fn);
     service MU_ID_DELETEREFERENCESREQUEST MU_ID_DELETEREFERENCESRESPONSE true (Some handle_delete_references_fn)] ++
  when MUC_OPCUA_SUBSCRIPTIONS (
    [service MU_ID_CREATEMONITOREDITEMSREQUEST MU_ID_CREATEMONITOREDITEMSRESPONSE true
       (Some handle_create_monitored_items_fn);
     service MU_ID_MODIFYMONITOREDITEMSREQUEST MU_ID_MODIFYMONITOREDITEMSRESPONSE true
       (Some handle_modify_monitored_items_fn);
     service MU_ID_SETMONITORINGMODEREQUEST MU_ID_SETMONITORINGMODERESPONSE true
       (Some handle_set_monitoring_mode_fn)] ++
    when MUC_OPCUA_SUBSCRIPTIONS_STANDARD
      [service MU_ID_SETTRIGGERINGREQUEST MU_ID_SETTRIGGERINGRESPONSE true (Some handle_set_triggering_fn)] ++
    [service MU_ID_DELETEMONITOREDITEMSREQUEST MU_ID_DELETEMONITOREDITEMSRESPONSE true
       (Some handle_delete_monitored_items_fn);
     service MU_ID_CREATESUBSCRIPTIONREQUEST MU_ID_CREATESUBSCRIPTIONRESPONSE true
       (Some handle_create_subscription_fn);
     service MU_ID_MODIFYSUBSCRIPTIONREQUEST MU_ID_MODIFYSUBSCRIPTIONRESPONSE true
       (Some handle_modify_subscription_fn);
     service MU_ID_SETPUBLISHINGMODEREQUEST MU_ID_SETPUBLISHINGMODERESPONSE true
       (Some handle_set_publishing_mode_fn);
     service MU_ID_DELETESUBSCRIPTIONSREQUEST MU_ID_DELETESUBSCRIPTIONSRESPONSE true
       (Some handle_delete_subscriptions_fn);
     service MU_ID_PUBLISHREQUEST MU_ID_PUBLISHRESPONSE true (Some handle_publish_fn);
     service MU_ID_REPUBLISHREQUEST MU_ID_REPUBLISHRESPONSE true (Some handle_republish_fn)]).

Fixpoint find_descriptor (services : list mu_service_descriptor_t) (request_id : Z)
    : option mu_service_descriptor_t :=
  match services with
  | [] => None
  | d :: services =>
      if sh_request_id (sd_service d) =? request_id then Some d else find_descriptor services request_id
  end.

Definition find_service_descriptor (request_id : Z) : option mu_service_descriptor_t :=
  find_descriptor g_supported_services request_id.

Definition mu_get_service_handler (request_id : Z) : option mu_service_handler_t :=
  descriptor ← find_service_descriptor request_id; Some (sd_service descriptor).
End table.

Definition MU_DISPATCH_MAX_READ_NODES : Z := 32.
Definition MU_DISPATCH_MAX_BROWSE_NODES : Z := 8.
Definition MU_DISPATCH_MAX_BROWSE_REFS : Z := 32.
Definition MU_DISPATCH_MAX_BROWSE_CONTINUATION_POINTS : Z := 32.
Definition MU_DISPATCH_MAX_REGISTER_NODES : Z := 32.

(** ** Server state *)

(** The integrator's write handler, answering with a status code. *)
Definition mu_write_handler_t : Type := mu_nodeid_t → Z → mu_variant_t → Z.

(** The part of [struct mu_server] the dispatcher and the modelled handlers
    use. [sv_secure_channel] is the channel of the active connection,
    [sv_active_session] an index into the session table, [sv_writes] the calls
    made to the write handler; [sv_rest] is the state of the other services. *)
Record mu_server_t (Rest : Type) := mk_server {
  sv_secure_channel : mu_secure_channel_t;
  sv_sessions : list mu_session_t;
  sv_active_session : option Z;
  sv_address_space : option mu_address_space_t;
  sv_user_index : option mu_address_space_index_t;
  sv_runtime_space : option mu_address_space_t;
  sv_dynamic_references : list mu_dynamic_reference_t;
  sv_write_handler : option mu_write_handler_t;
  sv_writes : list (mu_nodeid_t * Z * mu_variant_t);
  sv_rest : Rest
}.
Arguments mk_server {_}.
Arguments sv_secure_channel {_}.
Arguments sv_sessions {_}.
Arguments sv_active_session {_}.
Arguments sv_address_space {_}.
Arguments sv_user_index {_}.
Arguments sv_runtime_space {_}.
Arguments sv_dynamic_references {_}.
Arguments sv_write_handler {_}.
Arguments sv_writes {_}.
Arguments sv_rest {_}.

Definition set_active_session {Rest} (sv : mu_server_t Rest) (slot : option Z) : mu_server_t Rest :=
  mk_server (sv_secure_channel sv) (sv_sessions sv) slot (sv_address_space sv) (sv_user_index sv)
    (sv_runtime_space sv) (sv_dynamic_references sv) (sv_write_handler sv) (sv_writes sv) (sv_rest sv).

Definition set_user_index {Rest} (sv : mu_server_t Rest) (index : option mu_address_space_index_t)
    : mu_server_t Rest :=
  mk_server (sv_secure_channel sv) (sv_sessions sv) (sv_active_session sv) (sv_address_space sv) index
    (sv_runtime_space sv) (sv_dynamic_references sv) (sv_write_handler sv) (sv_writes sv) (sv_rest sv).

Definition log_write {Rest} (sv : mu_server_t Rest) (call : mu_nodeid_t * Z * mu_variant_t) : mu_server_t Rest :=
  mk_server (sv_secure_channel sv) (sv_sessions sv) (sv_active_session sv) (sv_address_space sv) (sv_user_index sv)
    (sv_runtime_space sv) (sv_dynamic_references sv) (sv_write_handler sv) (sv_writes sv ++ [call]) (sv_rest sv).

(** What a handler works on; [h_response_length] is the caller's
    [*response_length]. *)
Record hstate (Rest : Type) := mk_hstate {
  h_server : mu_server_t Rest;
  h_reader : mu_binary_reader_t;
  h_writer : mu_binary_writer_t;
  h_response_length : Z
}.
Arguments mk_hstate {_}.
Arguments h_server {_}.
Arguments h_reader {_}.
Arguments h_writer {_}.
Arguments h_response_length {_}.

(** Handlers: computations over the server, the request reader and the
    response writer. *)
Definition H (Rest A : Type) : Type := M (hstate Rest) A.

Section handler_ops.
  Context {Rest : Type}.

Definition rd {A} (m : Rd A) : H Rest A := λ st,
  let '(x, r) := m (h_reader st) in (x, mk_hstate (h_server st) r (h_writer st) (h_response_length st)).

Definition wr {A} (m : Wr A) : H Rest A := λ st,
  let '(x, w) := m (h_writer st) in (x, mk_hstate (h_server st) (h_reader st) w (h_response_length st)).

Definition sv {A} (m : M (mu_server_t Rest) A) : H Rest A := λ st,
  let '(x, s) := m (h_server st) in (x, mk_hstate s (h_reader st) (h_writer st) (h_response_length st)).

(** [*response_length = w->position]. *)
Definition finish : H Rest unit := λ st,
  (Ok tt, mk_hstate (h_server st) (h_reader st) (h_writer st) (w_position (h_writer st))).
End handler_ops.

(** ** Responses and request fragments *)

Definition write_response_prefix (response_type_id request_handle service_result : Z) : Wr unit :=
  mu_binary_write_nodeid (mk_nodeid 0 (MU_NODEID_NUMERIC response_type_id));;
  mu_response_header_encode (mk_response_header 0 request_handle service_result).

Definition ensure_reader_bytes_remaining (length : Z) : Rd unit :=
  r ← get_state;
  if (0 <? length) && ((r_length r <? r_position r) || (r_length r - r_position r <? length))
  then fail MU_STATUS_BAD_DECODINGERROR else mret tt.

Definition skip_extension_object_body (length : Z) : Rd unit :=
  ensure_reader_bytes_remaining length;;
  r ← get_state;
  put_state (set_r_position r (to_size (r_position r + length))).

Definition ensure_array_items_min_remaining (count min_item_size : Z) : Rd unit :=
  if count <? -1 then fail MU_STATUS_BAD_DECODINGERROR
  else if count <=? 0 then mret tt
  else
    r ← get_state;
    if r_length r <? r_position r then fail MU_STATUS_BAD_DECODINGERROR
    else if (r_length r - r_position r) / min_item_size <? count then fail MU_STATUS_BAD_DECODINGERROR
    else mret tt.

(** The token of a request, 0 when there is none in the server's token space. *)
Definition read_auth_token_from_request (request_body : list Z) (request_length : Z) : result Z :=
  match (mu_binary_read_nodeid (mu_binary_reader_init (Some request_body) request_length)).1 with
  | Fault => Fault
  | Err _ => Ok 0
  | Ok token =>
      match nid_identifier token with
      | MU_NODEID_NUMERIC numeric => if negb (nid_namespace_index token =? 0) then Ok 0 else Ok numeric
      | _ => Ok 0
      end
  end.

(** Encode a ServiceFault into a buffer: the buffer after the call and the
    length written. *)
Definition mu_write_service_fault (buffer : list Z) (length request_handle service_result : Z)
    : result Z * option (list Z) :=
  let '(x, w) := (write_response_prefix MU_ID_SERVICEFAULT request_handle service_result)
                   (mu_binary_writer_init (Some buffer) length) in
  (match x with
   | Ok _ => Ok (w_position w)
   | Err s => Err s
   | Fault => Fault
   end, w_buffer w).

(** ** Handlers *)

Section handlers.
  Context {profile : BaseProfile} {caps : BuildCaps} {Rest : Type}.

(** The count of an array argument that may be null, at most [max]. *)
Definition clamp_count (count max : Z) : Rd Z :=
  let count := if count <? 0 then 0 else count in
  if max <? count then fail MU_STATUS_BAD_TOOMANYOPERATIONS else mret count.

Definition handle_register_nodes : H Rest unit :=
  req ← rd mu_request_header_decode;
  count ← rd mu_binary_read_int32;
  count ← rd (clamp_count count MU_DISPATCH_MAX_REGISTER_NODES);
  nodes ← rd (rd_list (Z.to_nat count) mu_binary_read_nodeid);
  wr (write_response_prefix MU_ID_REGISTERNODESRESPONSE (rh_request_handle req) MU_STATUS_GOOD);;
  wr (mu_binary_write_int32 count);;
  wr (wr_list mu_binary_write_nodeid nodes);;
  finish.

Definition handle_unregister_nodes : H Rest unit :=
  req ← rd mu_request_header_decode;
  count ← rd mu_binary_read_int32;
  count ← rd (clamp_count count MU_DISPATCH_MAX_REGISTER_NODES);
  rd (rd_list (Z.to_nat count) mu_binary_read_nodeid);;
  wr (write_response_prefix MU_ID_UNREGISTERNODESRESPONSE (rh_request_handle req) MU_STATUS_GOOD);;
  finish.

(** [now] is the instant of the call and [results] the uninitialised array on
    the stack. *)
Definition handle_read (now : Z) (results : list mu_datavalue_t) : H Rest unit :=
  req ← rd mu_request_header_decode;
  rreq ← rd (mu_read_request_decode MU_DISPATCH_MAX_READ_NODES);
  rresp ← sv (λ s,
    let '(x, index) := mu_read_process_with_user_index now (sv_address_space s) (sv_runtime_space s)
                         rreq results MU_DISPATCH_MAX_READ_NODES (sv_user_index s) in
    (x, set_user_index s index));
  wr (write_response_prefix MU_ID_READRESPONSE (rh_request_handle req) MU_STATUS_GOOD);;
  wr (mu_read_response_encode rresp);;
  finish.

Definition handle_browse (ref_pool : list mu_reference_description_t) : H Rest unit :=
  req ← rd mu_request_header_decode;
  breq ← rd (mu_browse_request_decode MU_DISPATCH_MAX_BROWSE_NODES);
  '(results, ref_pool) ← sv (λ s,
    match mu_browse_process_with_user_index (sv_address_space s) (sv_runtime_space s) (sv_user_index s)
            (sv_dynamic_references s) breq MU_DISPATCH_MAX_BROWSE_NODES ref_pool MU_DISPATCH_MAX_BROWSE_REFS with
    | Ok (results, ref_pool, index) => (Ok (results, ref_pool), set_user_index s index)
    | Err e => (Err e, s)
    | Fault => (Fault, s)
    end);
  wr (write_response_prefix MU_ID_BROWSERESPONSE (rh_request_handle req) MU_STATUS_GOOD);;
  wr (mu_browse_response_encode ref_pool
        (mk_browse_response (Some results) (zlen (bq_nodes_to_browse breq))));;
  finish.

Definition write_unknown_continuation_point (_ : Z) : Wr unit :=
  mu_binary_write_statuscode MU_STATUS_BAD_CONTINUATIONPOINTINVALID;;
  mu_binary_write_bytestring null_string;;
  mu_binary_write_int32 0.

Definition handle_browse_next : H Rest unit :=
  req ← rd mu_request_header_decode;
  _ ← rd (or_default false mu_binary_read_boolean);
  count ← rd (or_default 0 mu_binary_read_int32);
  rd reader_status;;
  count ← rd (clamp_count count MU_DISPATCH_MAX_BROWSE_CONTINUATION_POINTS);
  rd (rd_list (Z.to_nat count) mu_binary_read_bytestring);;
  wr (write_response_prefix MU_ID_BROWSENEXTRESPONSE (rh_request_handle req) MU_STATUS_GOOD);;
  wr (mu_binary_write_int32 count);;
  wr (wr_list write_unknown_continuation_point (seqZ 0 count));;
  wr (mu_binary_write_int32 0);;
  finish.

(** One item of a Write request. [current_val] is the uninitialised local the
    current value is read into. *)
Definition write_one (now : Z) (current_val : mu_variant_t) (write_val : mu_write_value_t)
    : M (mu_server_t Rest) Z := λ s,
  let '(found, index) := mu_resolve_node (sv_address_space s) (sv_user_index s) (sv_runtime_space s)
                           (wv_node_id write_val) in
  let s := set_user_index s index in
  match found with
  | None => (Fault, s)
  | Some found =>
      let check : result Z :=
        match found with
        | None => Ok MU_STATUS_BAD_NODEIDUNKNOWN
        | Some node =>
            if negb (wv_attribute_id write_val =? MU_ATTRIBUTEID_VALUE) then Ok MU_STATUS_BAD_NOTWRITABLE
            else if negb (dv_has_value (wv_value write_val)) then Ok MU_STATUS_BAD_TYPEMISMATCH
            else if 0 <? str_length (wv_index_range write_val) then Ok MU_STATUS_BAD_WRITENOTSUPPORTED
            else if negb (node_node_class node =? MU_NODECLASS_VARIABLE) then Ok MU_STATUS_BAD_NOTWRITABLE
            else match node_value node with
                 | None => Ok MU_STATUS_GOOD
                 | Some source =>
                     match mu_value_source_read now (Some source) (node_node_id node) current_val with
                     | Fault => Fault
                     | Err _ => Ok MU_STATUS_GOOD
                     | Ok current =>
                         if negb (v_type current =? v_type (dv_value (wv_value write_val)))
                         then Ok MU_STATUS_BAD_TYPEMISMATCH else Ok MU_STATUS_GOOD
                     end
                 end
        end in
      match check with
      | Fault => (Fault, s)
      | Err e => (Err e, s)
      | Ok result =>
          if negb (result =? MU_STATUS_GOOD) then (Ok result, s)
          else match sv_write_handler s with
               | None => (Ok MU_STATUS_BAD_WRITENOTSUPPORTED, s)
               | Some write_handler =>
                   let id := wv_node_id write_val in
                   let attribute := to_u32 (wv_attribute_id write_val) in
                   let value := dv_value (wv_value write_val) in
                   (Ok (write_handler id attribute value), log_write s (id, attribute, value))
               end
      end
  end.

Fixpoint write_loop (now : Z) (current_val : mu_variant_t) (nodes : list mu_write_value_t)
    : M (mu_server_t Rest) (list Z) :=
  match nodes with
  | [] => mret []
  | write_val :: nodes =>
      result ← write_one now current_val write_val;
      results ← write_loop now current_val nodes;
      mret (result :: results)
  end.

Definition handle_write (now : Z) (current_val : mu_variant_t) (nodes : list mu_write_value_t) : H Rest unit :=
  req ← rd mu_request_header_decode;
  wreq ← rd (mu_write_request_decode nodes MU_DISPATCH_MAX_READ_NODES);
  (if zlen (wq_nodes_to_write wreq) =? 0 then fail MU_STATUS_BAD_NOTHINGTODO else mret tt);;
  results ← sv (write_loop now current_val (wq_nodes_to_write wreq));
  wr (write_response_prefix MU_ID_WRITERESPONSE (rh_request_handle req) MU_STATUS_GOOD);;
  wr (mu_write_response_encode (mk_write_response (zlen (wq_nodes_to_write wreq)) results));;
  finish.

(** ** The dispatcher *)

(** The uninitialised stack memory of the handlers. *)
Record stack_memory := mk_stack {
  st_results : list mu_datavalue_t;
  st_ref_pool : list mu_reference_description_t;
  st_write_values : list mu_write_value_t;
  st_current_val : mu_variant_t
}.

Definition run_handler (now : Z) (stack : stack_memory) (other : service_handler → H Rest unit)
    (handler : service_handler) : H Rest unit :=
  match handler with
  | handle_read_fn => handle_read now (st_results stack)
  | handle_browse_fn => handle_browse (st_ref_pool stack)
  | handle_browse_next_fn => handle_browse_next
  | handle_register_nodes_fn => handle_register_nodes
  | handle_unregister_nodes_fn => handle_unregister_nodes
  | handle_write_fn => handle_write now (st_current_val stack) (st_write_values stack)
  | h => other h
  end.

(** The session check: the slot of the session the request is for. *)
Definition session_gate (server : mu_server_t Rest) (request_body : list Z) (request_length : Z) : result Z :=
  auth_token ← read_auth_token_from_request request_body request_length;
  if auth_token =? 0 then Err MU_STATUS_BAD_SESSIONIDINVALID
  else
    match mu_session_find_by_token (sv_sessions server) MU_MAX_SESSIONS auth_token with
    | None => Err MU_STATUS_BAD_SESSIONIDINVALID
    | Some slot =>
        session ← or_fault (znth (sv_sessions server) slot);
        mu_session_validate_secure_channel session (sc_channel_id (sv_secure_channel server));;
        if bool_decide (ss_state session = MU_SESSION_STATE_ACTIVATED) then Ok slot
        else Err MU_STATUS_BAD_SESSIONNOTACTIVATED
    end.

Definition mu_service_dispatch {features : ServiceFeatures} (now : Z) (stack : stack_memory)
    (other : service_handler → H Rest unit) (request_id : Z) (request_body : list Z) (request_length : Z)
    (response_body : list Z) (response_length : Z) (server : mu_server_t Rest) : result unit * hstate Rest :=
  let server := set_active_session server None in
  let st := mk_hstate server (mu_binary_reader_init (Some request_body) request_length)
              (mu_binary_writer_init (Some response_body) response_length) response_length in
  match find_service_descriptor request_id with
  | None => (Err MU_STATUS_BAD_SERVICEUNSUPPORTED, st)
  | Some descriptor =>
      if negb (request_id =? MU_ID_OPENSECURECHANNELREQUEST) && negb (sc_is_open (sv_secure_channel server))
      then (Err MU_STATUS_BAD_SECURECHANNELIDINVALID, st)
      else
        let gate := if sh_requires_session (sd_service descriptor)
                    then slot ← session_gate server request_body request_length; Ok (Some slot)
                    else Ok None in
        match gate with
        | Err e => (Err e, st)
        | Fault => (Fault, st)
        | Ok slot =>
            let st := mk_hstate (set_active_session server slot) (h_reader st) (h_writer st) response_length in
            match sd_handler descriptor with
            | Some handler => run_handler now stack other handler st
            | None => (Ok tt, mk_hstate (h_server st) (h_reader st) (h_writer st) 0)
            end
        end
  end.
End handlers.

(** ** The gate *)

Lemma read_auth_token_ok body length :
  reader_ok (mu_binary_reader_init (Some body) length) →
  ∃ tok, read_auth_token_from_request body length = Ok tok.
Proof.
  intros Hr; destruct (rsafe_read_nodeid _ Hr) as [_ Ho]; unfold read_auth_token_from_request.
  destruct (mu_binary_read_nodeid (mu_binary_reader_init (Some body) length)) as [[n|e|] r']; cbn in *; [|eauto|done].
  destruct (nid_identifier n); eauto; destruct (negb _); eauto.
Qed.

Section gate.
  Context {caps : BuildCaps} {Rest : Type}.

(** The session in slot [slot] may use the service: it is activated, bound to
    the channel the request came through, and the request carries its
    authentication token. *)
Definition authorised (server : mu_server_t Rest) (body : list Z) (length slot : Z) : Prop :=
  ∃ s, znth (sv_sessions server) slot = Some s ∧ ss_state s = MU_SESSION_STATE_ACTIVATED ∧
    ss_secure_channel_id s = sc_channel_id (sv_secure_channel server) ∧
    read_auth_token_from_request body length = Ok (ss_auth_token s).

Definition session_refusal (e : Z) : Prop :=
  e = MU_STATUS_BAD_SESSIONIDINVALID ∨ e = MU_STATUS_BAD_SECURECHANNELIDINVALID ∨
  e = MU_STATUS_BAD_SESSIONNOTACTIVATED.

Lemma activated_open s : ss_state s = MU_SESSION_STATE_ACTIVATED → is_open_slot s = true.
Proof. unfold is_open_slot; by intros ->. Qed.

Lemma session_gate_spec server body length :
  reader_ok (mu_binary_reader_init (Some body) length) →
  table_inv (sv_sessions server) → zlen (sv_sessions server) = MU_MAX_SESSIONS →
  (∃ slot, session_gate server body length = Ok slot ∧ authorised server body length slot) ∨
  (∃ e, session_gate server body length = Err e ∧ session_refusal e ∧
        ∀ slot, ¬ authorised server body length slot).
Proof.
  intros Hr [Hslots Huniq] Hlen; destruct (read_auth_token_ok body length Hr) as [tok Htok].
  unfold session_gate, authorised, session_refusal; rewrite Htok; cbn [mbind result_bind].
  assert (Hact : ∀ slot s, znth (sv_sessions server) slot = Some s → ss_state s = MU_SESSION_STATE_ACTIVATED →
            (sv_sessions server) !! Z.to_nat slot = Some s ∧ is_open_slot s = true ∧ ss_auth_token s ≠ 0).
  { intros slot s [Hs _]%znth_lookup Ha; apply activated_open in Ha; split_and!; [done..|].
    by destruct (Hslots _ _ Hs Ha) as (_ & ? & _). }
  destruct (Z.eqb_spec tok 0) as [->|Hne].
  { right; eexists; split_and!; [done|by left|]; intros slot (s & Hs & Ha & _ & [= E]).
    destruct (Hact slot s Hs Ha) as (_ & _ & ?); congruence. }
  unfold mu_session_find_by_token; rewrite <- Hlen; unfold ztake, zlen; rewrite Nat2Z.id, firstn_all.
  destruct (find_slot _ (sv_sessions server) 0) as [slot|] eqn:Ef.
  2:{ right; eexists; split_and!; [done|by left|]; intros slot (s & Hs & Ha & _ & [= E]).
      destruct (Hact slot s Hs Ha) as (Hl & Ho & _).
      eapply find_slot_none in Ef; [|by eapply list_elem_of_lookup_2, Hl].
      cbn beta in Ef; by rewrite Ho, <- E, Z.eqb_refl in Ef. }
  apply find_slot_sound in Ef as (Hrange & s & Hs & [Hop Heq%Z.eqb_eq]%andb_true_iff).
  rewrite Z.sub_0_r in Hs.
  assert (Hz : znth (sv_sessions server) slot = Some s).
  { rewrite <- (Z2Nat.id slot) by lia; by rewrite znth_nat. }
  rewrite Hz; cbn [or_fault mbind result_bind]; unfold mu_session_validate_secure_channel.
  assert (Hfirst : ∀ slot' s', znth (sv_sessions server) slot' = Some s' →
            ss_state s' = MU_SESSION_STATE_ACTIVATED → ss_auth_token s' = tok → s' = s).
  { intros slot' s' Hs' Ha' Ht'; destruct (Hact slot' s' Hs' Ha') as (Hl' & Ho' & _).
    assert (Hij : Z.to_nat slot' = Z.to_nat slot) by (eapply Huniq; eauto; right; congruence).
    rewrite Hij in Hl'; congruence. }
  destruct (Z.eqb_spec (ss_secure_channel_id s) (sc_channel_id (sv_secure_channel server))) as [Hch|Hch];
    cbn [negb mbind result_bind].
  - case_bool_decide as Hst.
    + left; exists slot; split; [done|]; exists s; split_and!; try done; by rewrite Heq.
    + right; eexists; split_and!; [done|by right; right|]; intros slot' (s' & Hs' & Ha' & _ & [= E]).
      rewrite (Hfirst slot' s') in Ha' by done; done.
  - right; eexists; split_and!; [done|by right; left|]; intros slot' (s' & Hs' & Ha' & Hc' & [= E]).
    rewrite (Hfirst slot' s') in Hc' by done; done.
Qed.

Context {profile : BaseProfile} {features : ServiceFeatures}.

(** A request may reach the handler of [d], on behalf of [slot]. *)
Definition admitted_request (server : mu_server_t Rest) (request_id : Z) (body : list Z) (length : Z)
    (d : mu_service_descriptor_t) (slot : option Z) : Prop :=
  find_service_descriptor request_id = Some d ∧
  (request_id = MU_ID_OPENSECURECHANNELREQUEST ∨ sc_is_open (sv_secure_channel server) = true) ∧
  (if sh_requires_session (sd_service d)
   then ∃ i, slot = Some i ∧ authorised server body length i
   else slot = None).

Lemma dispatch_gate_ok now stack other request_id body length response response_length server :
  reader_ok (mu_binary_reader_init (Some body) length) →
  table_inv (sv_sessions server) → zlen (sv_sessions server) = MU_MAX_SESSIONS →
  let start slot := mk_hstate (set_active_session server slot)
      (mu_binary_reader_init (Some body) length) (mu_binary_writer_init (Some response) response_length)
      response_length in
  (∃ d slot, admitted_request server request_id body length d slot ∧
     mu_service_dispatch now stack other request_id body length response response_length server =
       match sd_handler d with
       | Some handler => run_handler now stack other handler (start slot)
       | None => (Ok tt, mk_hstate (h_server (start slot)) (h_reader (start slot)) (h_writer (start slot)) 0)
       end) ∨
  (∃ e, mu_service_dispatch now stack other request_id body length response response_length server
        = (Err e, start None) ∧
     (session_refusal e ∨ e = MU_STATUS_BAD_SERVICEUNSUPPORTED) ∧
     ∀ d slot, ¬ admitted_request server request_id body length d slot).
Proof.
  intros Hr Hinv Hlen start; unfold mu_service_dispatch, admitted_request.
  destruct (find_service_descriptor request_id) as [d|] eqn:Ed.
  2:{ right; eexists; split_and!; [done|by right|]; naive_solver. }
  change (sv_secure_channel (set_active_session server None)) with (sv_secure_channel server).
  destruct (Z.eqb_spec request_id MU_ID_OPENSECURECHANNELREQUEST) as [Eopn|Eopn],
           (sc_is_open (sv_secure_channel server)) eqn:Eopen; cbn [negb andb];
    try (right; eexists; split_and!; [done|left; by right; left|]; naive_solver).
  all: destruct (sh_requires_session (sd_service d)) eqn:Ereq.
  all: try (left; exists d, None; split; [split_and!; [done|auto|by rewrite Ereq]|]; by destruct (sd_handler d)).
  all: destruct (session_gate_spec (set_active_session server None) body length Hr Hinv Hlen)
         as [(slot & -> & Ha)|(e & -> & He & Hno)]; cbn [mbind result_bind].
  all: try (left; exists d, (Some slot); split; [split_and!; [done|auto|rewrite Ereq; by exists slot]|];
            by destruct (sd_handler d)).
  all: right; eexists; split_and!; [done|by left|]; intros d' slot' (E' & _ & H').
  all: injection E' as <-; rewrite Ereq in H'; destruct H' as (i & _ & Hi); by apply (Hno i).
Qed.

(** C4: the dispatch gate is exact. Whatever octets a request has and whatever
    the handlers do, a request is handed to a handler exactly when its service
    is supported, the SecureChannel is open (or the request opens one), and,
    for every service that needs one, an activated session bound to this
    channel owns the authentication token in the request; the handler then runs
    with that session as the active one. Every other request is refused with a
    Bad status, with no active session, no other change of the server, and the
    response buffer untouched. *)
Theorem dispatch_gate now stack other request_id body length response response_length server :
  reader_ok (mu_binary_reader_init (Some body) length) →
  table_inv (sv_sessions server) → zlen (sv_sessions server) = MU_MAX_SESSIONS →
  let start slot := mk_hstate (set_active_session server slot)
      (mu_binary_reader_init (Some body) length) (mu_binary_writer_init (Some response) response_length)
      response_length in
  (∃ d slot, admitted_request server request_id body length d slot ∧
     mu_service_dispatch now stack other request_id body length response response_length server =
       match sd_handler d with
       | Some handler => run_handler now stack other handler (start slot)
       | None => (Ok tt, mk_hstate (h_server (start slot)) (h_reader (start slot)) (h_writer (start slot)) 0)
       end) ∨
  (∃ e, mu_service_dispatch now stack other request_id body length response response_length server
        = (Err e, start None) ∧
     (session_refusal e ∨ e = MU_STATUS_BAD_SERVICEUNSUPPORTED) ∧
     ∀ d slot, ¬ admitted_request server request_id body length d slot).
Proof. apply dispatch_gate_ok. Qed.
End gate.

(** ** The service table *)

Definition all_features : ServiceFeatures := Build_ServiceFeatures true true true true true true true true true true.

Definition all_services : list mu_service_descriptor_t := @g_supported_services embedded_profile all_features.

Lemma elem_of_when {A} (b : bool) (l : list A) x : x ∈ when b l → x ∈ l.
Proof. destruct b; [done|by intros ?%not_elem_of_nil]. Qed.

Lemma services_subset {profile : BaseProfile} {features : ServiceFeatures} d :
  d ∈ g_supported_services → d ∈ all_services.
Proof.
  unfold all_services, g_supported_services; rewrite !elem_of_app; intros Hd.
  repeat match goal with H : _ ∨ _ |- _ => destruct H end;
    match goal with H : d ∈ when MUC_OPCUA_SUBSCRIPTIONS _ |- _ =>
      apply elem_of_when in H; rewrite !elem_of_app in H;
      repeat match goal with H : _ ∨ _ |- _ => destruct H end | _ => idtac end;
    try match goal with H : d ∈ when _ _ |- _ => apply elem_of_when in H end;
    cbn [when MUC_OPCUA_SERVICE_DISCOVERY MUC_OPCUA_SERVICE_READ MUC_OPCUA_SERVICE_REGISTER_NODES
         MUC_OPCUA_SERVICE_BROWSE MUC_OPCUA_SERVICE_QUERY MUC_OPCUA_SERVICE_WRITE MUC_OPCUA_SERVICE_HISTORY
         MU_DISPATCH_CALL_ENABLED MUC_OPCUA_SERVICE_NODEMANAGEMENT MUC_OPCUA_SUBSCRIPTIONS all_features
         MUC_OPCUA_SUBSCRIPTIONS_STANDARD embedded_profile]; rewrite ?elem_of_app; tauto.
Qed.

Definition session_free (d : mu_service_descriptor_t) : bool :=
  bool_decide (sh_request_id (sd_service d) ∈
    [MU_ID_FINDSERVERSREQUEST; MU_ID_GETENDPOINTSREQUEST; MU_ID_OPENSECURECHANNELREQUEST;
     MU_ID_CLOSESECURECHANNELREQUEST; MU_ID_CREATESESSIONREQUEST; MU_ID_ACTIVATESESSIONREQUEST]).

Lemma all_services_facts :
  forallb (λ d, Bool.eqb (sh_requires_session (sd_service d)) (negb (session_free d))
                && (sh_response_id (sd_service d) =? sh_request_id (sd_service d) + 3)) all_services = true ∧
  NoDup (map (λ d, sh_request_id (sd_service d)) all_services).
Proof. split; [vm_compute; reflexivity|apply (bool_decide_unpack _); vm_compute; exact I]. Qed.

Lemma find_descriptor_Some services id d :
  find_descriptor services id = Some d → d ∈ services ∧ sh_request_id (sd_service d) = id.
Proof.
  induction services as [|x services IH]; simpl; [done|].
  destruct (Z.eqb_spec (sh_request_id (sd_service x)) id).
  - intros [= <-]; split; [left|done].
  - intros H; destruct (IH H); split; [by right|done].
Qed.

Lemma find_descriptor_elem services id d :
  d ∈ services → sh_request_id (sd_service d) = id → ∃ d', find_descriptor services id = Some d'.
Proof.
  intros Hd Hid; induction services as [|x services IH]; [by apply not_elem_of_nil in Hd|]; simpl.
  destruct (Z.eqb_spec (sh_request_id (sd_service x)) id); [eauto|].
  apply elem_of_cons in Hd as [->|Hd]; [done|auto].
Qed.

Lemma NoDup_fmap_inj {A B} (f : A → B) l x y : NoDup (map f l) → x ∈ l → y ∈ l → f x = f y → x = y.
Proof.
  induction l as [|z l IH]; simpl; intros Hn Hx Hy E; [by apply not_elem_of_nil in Hx|].
  apply NoDup_cons in Hn as [Hz Hn]; apply elem_of_cons in Hx as [->|Hx]; apply elem_of_cons in Hy as [->|Hy]; auto.
  - destruct Hz; rewrite E; by apply list_elem_of_fmap_2.
  - destruct Hz; rewrite <- E; by apply list_elem_of_fmap_2.
Qed.

(** The service table is sound in every build: looking up the request id of
    any entry finds that entry, a response type is its request type plus 3,
    and the only services reachable without an activated session are
    FindServers, GetEndpoints, Open- and CloseSecureChannel, CreateSession and
    ActivateSession. *)
Theorem service_table_sound {profile : BaseProfile} {features : ServiceFeatures} d :
  d ∈ g_supported_services →
  find_service_descriptor (sh_request_id (sd_service d)) = Some d ∧
  sh_response_id (sd_service d) = sh_request_id (sd_service d) + 3 ∧
  (sh_requires_session (sd_service d) = false → session_free d = true).
Proof.
  intros Hd; pose proof all_services_facts as [Hf Hn]; pose proof (services_subset d Hd) as Hall.
  rewrite forallb_forall in Hf; specialize (Hf d ltac:(by apply list_elem_of_In)).
  apply andb_true_iff in Hf as [Hs%Bool.eqb_prop Hr%Z.eqb_eq]; split_and!; [|done|].
  - destruct (find_descriptor_elem g_supported_services _ d Hd eq_refl) as [d' E].
    unfold find_service_descriptor; rewrite E; f_equal; apply find_descriptor_Some in E as [Hd' E].
    eapply (NoDup_fmap_inj (λ d, sh_request_id (sd_service d)) all_services);
      [exact Hn|by apply services_subset|done|done].
  - intros Hreq; rewrite Hreq in Hs; by destruct (session_free d).
Qed.

(** ** Witnesses *)

(** A server with one activated session (token 77, channel 1) and a closed
    slot, on an open channel. *)
Definition demo_server : mu_server_t unit :=
  let channel := mk_secure_channel 1 1 0 60000 (mk_sequence_validator 0 false) 0 true
                   MU_SECURITY_POLICY_NONE_ID MU_MESSAGE_SECURITY_MODE_NONE zero_keys zero_keys false in
  mk_server channel [mk_session MU_SESSION_STATE_ACTIVATED 9 77 60000 (repeat 0 32) 1; mu_session_init] None
    (Some demo_space) (Some demo_index) (Some demo_runtime) [] None [] tt.

(** A RequestHeader with the numeric token 77, then a Read of one item: the
    DisplayName of Root (i=84). *)
Definition demo_request_body : list Z :=
  [0; 77; 0; 0; 0; 0; 0; 0; 0; 0; 5; 0; 0; 0; 0; 0; 0; 0; 255; 255; 255; 255; 0; 0; 0; 0; 0; 0; 0]
  ++ [0; 0; 0; 0; 0; 0; 0; 0; 3; 0; 0; 0; 1; 0; 0; 0; 0; 84; 4; 0; 0; 0; 255; 255; 255; 255; 0; 0; 255; 255; 255; 255].

Definition demo_stack : stack_memory :=
  mk_stack (repeat zero_datavalue 32) (repeat empty_description 32)
    (repeat (mk_write_value (base_nodeid 0) 0 null_string zero_datavalue) 32) zero_variant.

Definition demo_dispatch (request_id : Z) : result unit * hstate unit :=
  @mu_service_dispatch embedded_profile embedded_caps unit all_features 1000 demo_stack
    (λ _, fail MU_STATUS_BAD_SERVICEUNSUPPORTED) request_id demo_request_body (zlen demo_request_body)
    (repeat 0 128) 128 demo_server.

Lemma demo_request_ok :
  reader_ok (mu_binary_reader_init (Some demo_request_body) (zlen demo_request_body)).
Proof. apply reader_init_ok; [vm_compute; discriminate|by apply bytes_okb]. Qed.

Lemma demo_sessions_ok : table_inv (sv_sessions demo_server).
Proof.
  split.
  - intros [|[|i]] s E; cbn in E; simplify_eq; [intros _; split_and!; cbn; lia|done].
  - intros [|[|i]] [|[|j]] s s' E E'; cbn in E, E'; simplify_eq; try done; by intros ? ? [?|?].
Qed.

Lemma dispatch_gate_witness :
  ∃ d slot, admitted_request (profile := embedded_profile) (features := all_features) demo_server
              MU_ID_READREQUEST demo_request_body (zlen demo_request_body) d slot.
Proof.
  destruct (dispatch_gate (profile := embedded_profile) (caps := embedded_caps) (features := all_features)
    1000 demo_stack (λ _, fail MU_STATUS_BAD_SERVICEUNSUPPORTED) MU_ID_READREQUEST demo_request_body
    (zlen demo_request_body) (repeat 0 128) 128 demo_server demo_request_ok demo_sessions_ok eq_refl)
    as [(d & slot & Ha & _)|(e & E & _)]; [by exists d, slot|].
  apply (f_equal fst) in E; vm_compute in E; discriminate.
Defined.

Lemma service_table_sound_witness :
  find_service_descriptor (profile := embedded_profile) (features := all_features) MU_ID_READREQUEST
    = Some (service MU_ID_READREQUEST MU_ID_READRESPONSE true (Some handle_read_fn)).
Proof.
  apply (@service_table_sound embedded_profile all_features
           (service MU_ID_READREQUEST MU_ID_READRESPONSE true (Some handle_read_fn))).
  apply (list_elem_of_lookup_2 _ 7); reflexivity.
Defined.
