(* ===== verification/ServiceSafety.v ===== *)
(** * Safety of the View and Attribute services

    A program logic for handlers ([hsafe]) and, with it, memory safety of the
    modelled handlers from the request octets to the response octets: whatever
    a client sends, no handler accesses memory outside its buffers, its stack
    arrays or the address space, and none changes the sessions or the
    SecureChannel. *)

From S2P Require Export Dispatch.

(** ** Nodes that can be served *)

(** A node whose names, identifiers and readable attributes can be encoded. *)
Definition node_printable (now : Z) (node : mu_node_t) : Prop :=
  nodeid_ok (node_node_id node) ∧ string_ok (node_browse_name node) ∧ string_ok (node_display_name node) ∧
  u32_range (node_node_class node) ∧
  Forall (λ r, nodeid_ok (ref_reference_type_id r)) (node_refs node) ∧
  ∀ source old, node_value node = Some source →
    outcome_ok variant_ok (mu_value_source_read now (Some source) (node_node_id node) old).

Lemma read_attribute_ok now node attribute_id old :
  node_printable now node → outcome_ok variant_ok (read_attribute now node attribute_id old).
Proof.
  intros (Hid & Hb & Hd & Hc & _ & Hv); unfold read_attribute.
  repeat split_if; try done.
  - right; cbn; split; [done|]; done.
  - right; cbn; split; done.
  - right; cbn; split; [done|]; split; [apply Hid|done].
  - right; cbn; split; [done|]; split; [|done]; split; cbn; ranges; lia.
  - destruct (node_value node) as [source|] eqn:E; [by apply Hv|done].
Qed.

(** The base table is printable: checked by evaluation in every profile. *)
Definition name_check (s : mu_string_t) : bool :=
  literal_name s && (0 <=? str_length s) && (str_length s <=? 4096).

Lemma name_check_ok s : name_check s = true → string_ok s.
Proof.
  unfold name_check, literal_name, string_ok; destruct (str_data s) as [d|]; [|done].
  intros [[[Hl%Z.eqb_eq Hb]%andb_true_iff H0%Z.leb_le]%andb_true_iff Hm%Z.leb_le]%andb_true_iff.
  split; [|ranges; lia]; split; [lia|].
  rewrite forallb_forall in Hb; apply Forall_forall; intros x Hx.
  specialize (Hb x ltac:(by apply list_elem_of_In)); bool_hyps; ranges; lia.
Qed.

Definition base_value_check (node : mu_node_t) : bool :=
  match node_value node with
  | None => true
  | Some (MU_VALUESOURCE_STATIC v) =>
      if v_is_array v then
        match v_value v with
        | VV_array (Some base) =>
            (v_array_length v <=? zlen base) && (v_type v =? MU_TYPE_STRING) &&
            forallb (λ e, match e with VV_str s => name_check s | _ => false end) base
        | _ => false
        end
      else match v_value v with
           | VV_i32 _ => v_type v =? MU_TYPE_INT32
           | VV_ui32 _ => v_type v =? MU_TYPE_UINT32
           | _ => false
           end
  | Some (MU_VALUESOURCE_CALLBACK _) => false
  end.

Definition base_printable_check (node : mu_node_t) : bool :=
  name_check (node_browse_name node) && name_check (node_display_name node)
  && (0 <=? node_node_class node) && (node_node_class node <? 4294967296)
  && forallb (λ r, match nid_identifier (ref_reference_type_id r) with
                   | MU_NODEID_NUMERIC i => (nid_namespace_index (ref_reference_type_id r) =? 0)
                                            && (0 <=? i) && (i <? 4294967296)
                   | _ => false
                   end) (node_refs node)
  && base_value_check node.

Lemma base_printable_facts {profile : BaseProfile} : forallb base_printable_check s_base_nodes = true.
Proof. destruct profile as [[] []]; vm_compute; reflexivity. Qed.

Lemma base_value_ok now node source old :
  base_value_check node = true → node_value node = Some source →
  outcome_ok variant_ok (mu_value_source_read now (Some source) (node_node_id node) old).
Proof.
  unfold base_value_check; intros Hc E; rewrite E in Hc.
  destruct source as [v|]; [|done]; cbn [mu_value_source_read].
  destruct (v_is_array v) eqn:Ea.
  - destruct (v_value v) as [| | | | | | | | | | | | | | | | | | | array] eqn:Ev; try done.
    destruct array as [base|]; [|done]; apply andb_true_iff in Hc as [[Hl Ht%Z.eqb_eq]%andb_true_iff Hb].
    right; rewrite Ea; exists (Some base); split; [done|]; split; [lia|].
    rewrite forallb_forall in Hb; apply Forall_forall; intros e He.
    specialize (Hb e ltac:(by apply list_elem_of_In)); rewrite Ht.
    destruct e; try done; split; [done|by apply name_check_ok].
  - destruct (v_value v) eqn:Ev; try done; apply Z.eqb_eq in Hc; rewrite Hc; cbn;
      right; rewrite Ea, Hc, Ev; done.
Qed.

Lemma base_node_printable {profile : BaseProfile} now : Forall (node_printable now) s_base_nodes.
Proof.
  pose proof base_printable_facts as Hp; rewrite forallb_forall in Hp.
  pose proof base_nodeids_ok as Hids; rewrite Forall_forall in Hids.
  apply Forall_forall; intros node Hn; destruct (Hids node Hn) as [Hid _].
  specialize (Hp node ltac:(by apply list_elem_of_In)); unfold base_printable_check in Hp.
  apply andb_true_iff in Hp as [[[[[Hb Hd]%andb_true_iff Hc1]%andb_true_iff Hc2]%andb_true_iff Hr]%andb_true_iff Hv].
  split_and!; [done|by apply name_check_ok..|ranges; lia| |].
  - rewrite forallb_forall in Hr; apply Forall_forall; intros r Hr'.
    specialize (Hr r ltac:(by apply list_elem_of_In)).
    destruct (ref_reference_type_id r) as [ns [i| | |]]; try done; cbn in *.
    bool_hyps; split; cbn; ranges; lia.
  - intros source old; by apply base_value_ok.
Qed.

(** So are the nodes of the server's run-time status. *)
Lemma runtime_printable {profile : BaseProfile} now addr time start_time :
  Forall (node_printable now) (space_nodes (rn_space (mu_base_runtime_init addr time start_time))).
Proof.
  unfold mu_base_runtime_init; destruct MUC_OPCUA_BASE_TYPE_SYSTEM; cbn [rn_space];
    repeat constructor; cbn; ranges; try lia; try done;
    intros source old [= <-]; right; cbn; split; done.
Qed.

(** ** Contexts in which handlers run *)

Definition served (now : Z) (user dynamic : option mu_address_space_t) : Prop :=
  (∀ sp, user = Some sp → Forall (node_printable now) (space_nodes sp)) ∧
  (∀ sp, dynamic = Some sp → Forall (node_printable now) (space_nodes sp)).

Lemma layered_printable {profile : BaseProfile} now user dynamic id node :
  served now user dynamic → layered_lookup user dynamic id = Some node → node_printable now node.
Proof.
  intros [Hu Hd]; unfold layered_lookup.
  destruct (opt_lookup user id) as [n|] eqn:Eu.
  { intros [= ->]; apply opt_lookup_elem in Eu as (sp & -> & Hin).
    specialize (Hu sp eq_refl); rewrite Forall_forall in Hu; auto. }
  destruct (opt_lookup dynamic id) as [n|] eqn:Ed.
  { intros [= ->]; apply opt_lookup_elem in Ed as (sp & -> & Hin).
    specialize (Hd sp eq_refl); rewrite Forall_forall in Hd; auto. }
  intros [Hin _]%find_linear_Some; pose proof (base_node_printable now) as Hb; rewrite Forall_forall in Hb; auto.
Qed.

Section logic.
  Context {profile : BaseProfile} {caps : BuildCaps} {Rest : Type} (now : Z).

(** A server whose address spaces are valid and printable. *)
Definition server_ok (s : mu_server_t Rest) : Prop :=
  resolve_ctx (sv_address_space s) (sv_user_index s) (sv_runtime_space s) ∧
  links_ctx (sv_address_space s) (sv_runtime_space s) ∧
  served now (sv_address_space s) (sv_runtime_space s) ∧
  Forall (λ dyn, nodeid_ok (ref_target_id (dr_ref dyn)) ∧ nodeid_ok (ref_reference_type_id (dr_ref dyn)))
    (sv_dynamic_references s).

(** Handlers of these services leave everything but the lookup index and the
    write log alone. *)
Record same_server (s s' : mu_server_t Rest) : Prop := {
  same_channel : sv_secure_channel s' = sv_secure_channel s;
  same_sessions : sv_sessions s' = sv_sessions s;
  same_active : sv_active_session s' = sv_active_session s;
  same_space : sv_address_space s' = sv_address_space s;
  same_runtime : sv_runtime_space s' = sv_runtime_space s;
  same_dynamic : sv_dynamic_references s' = sv_dynamic_references s;
  same_handler : sv_write_handler s' = sv_write_handler s;
  same_rest : sv_rest s' = sv_rest s
}.

Record hok (st : hstate Rest) : Prop := {
  hok_reader : reader_ok (h_reader st);
  hok_writer : writer_ok (h_writer st);
  hok_server : server_ok (h_server st)
}.

Record hstep (st st' : hstate Rest) : Prop := {
  hstep_reader : reader_step (h_reader st) (h_reader st');
  hstep_writer : writer_step (h_writer st) (h_writer st');
  hstep_same : same_server (h_server st) (h_server st');
  hstep_server : server_ok (h_server st')
}.

Definition hsafe {A} (m : H Rest A) (Q : A → Prop) : Prop :=
  ∀ st, hok st → hstep st (m st).2 ∧ outcome_ok Q (m st).1.

Lemma same_server_trans s1 s2 s3 : same_server s1 s2 → same_server s2 s3 → same_server s1 s3.
Proof. intros [] []; split; congruence. Qed.

Lemma hstep_refl st : hok st → hstep st st.
Proof.
  intros [? ? ?]; split; [by apply reader_step_refl|by apply writer_step_refl|by split|done].
Qed.

Lemma hstep_trans st1 st2 st3 : hok st1 → hstep st1 st2 → hstep st2 st3 → hstep st1 st3.
Proof.
  intros [] [] []; split;
    [eapply reader_step_trans; eassumption|eapply writer_step_trans; eassumption
    |eapply same_server_trans; eassumption|done].
Qed.

Lemma hstep_ok st st' : hstep st st' → hok st'.
Proof. intros [Hr Hw _ Hs]; split; [by apply rstep_ok in Hr|by apply wstep_ok in Hw|done]. Qed.

Lemma hsafe_bind {A B} (m : H Rest A) (k : A → H Rest B) P Q :
  hsafe m P → (∀ a, P a → hsafe (k a) Q) → hsafe (m ≫= k) Q.
Proof.
  intros Hm Hk st Hst; specialize (Hm st Hst) as [Hs Ho]; unfold mbind, M_bind.
  destruct (m st) as [[a|e|] st1]; cbn in *; [|by split|done].
  destruct (Hk a Ho st1 (hstep_ok _ _ Hs)) as [Hs' Ho']; split; [by eapply hstep_trans|done].
Qed.

Lemma hsafe_mono {A} (m : H Rest A) (P Q : A → Prop) : hsafe m P → (∀ a, P a → Q a) → hsafe m Q.
Proof.
  intros Hm HPQ st Hst; destruct (Hm st Hst) as [Hs Ho]; split; [done|].
  destruct (m st).1; cbn in *; auto.
Qed.

Lemma hsafe_ret {A} (a : A) (Q : A → Prop) : Q a → hsafe (mret a) Q.
Proof. intros ? st ?; split; [by apply hstep_refl|done]. Qed.

Lemma hsafe_fail {A} e (Q : A → Prop) : e ≠ MU_STATUS_GOOD → hsafe (fail e) Q.
Proof. intros ? st ?; split; [by apply hstep_refl|done]. Qed.

Lemma hsafe_rd {A} (m : Rd A) Q : rsafe m Q → hsafe (rd m) Q.
Proof.
  intros Hm st [Hr Hw Hs]; destruct (Hm _ Hr) as [Hstep Ho]; unfold rd.
  destruct (m (h_reader st)) as [x r]; cbn in *; split; [|done].
  split; cbn; [done|by apply writer_step_refl|by split|done].
Qed.

Lemma hsafe_wr {A} (m : Wr A) : wsafe m → hsafe (wr m) (λ _, True).
Proof.
  intros Hm st [Hr Hw Hs]; destruct (Hm _ Hw) as [Hstep Ho]; unfold wr.
  destruct (m (h_writer st)) as [x w]; cbn in *; split; [|done].
  split; cbn; [by apply reader_step_refl|done|by split|done].
Qed.

Lemma hsafe_sv {A} (m : M (mu_server_t Rest) A) Q :
  (∀ s, server_ok s → same_server s (m s).2 ∧ server_ok (m s).2 ∧ outcome_ok Q (m s).1) → hsafe (sv m) Q.
Proof.
  intros Hm st [Hr Hw Hs]; destruct (Hm _ Hs) as (Hsame & Hs' & Ho); unfold sv.
  destruct (m (h_server st)) as [x s]; cbn in *; split; [|done].
  split; cbn; [by apply reader_step_refl|by apply writer_step_refl|done|done].
Qed.

Lemma hsafe_finish : hsafe finish (λ _, True).
Proof.
  intros st Hst; destruct (hstep_refl _ Hst); split; [|done]; by split.
Qed.

Lemma wsafe_write_response_prefix id handle status :
  u32_range id → wsafe (write_response_prefix id handle status).
Proof.
  intros ?; unfold write_response_prefix; wsafe_auto.
  apply wsafe_write_nodeid; split; [by ranges|done].
Qed.

(** Responses: the prefix, then a safe body. *)
Lemma hsafe_response id handle status (body : H Rest unit) :
  u32_range id → hsafe body (λ _, True) → hsafe (wr (write_response_prefix id handle status);; body) (λ _, True).
Proof.
  intros Hid Hb; eapply hsafe_bind; [by apply hsafe_wr, wsafe_write_response_prefix|done].
Qed.

(** ** Handlers *)

Lemma rsafe_clamp_count count max : 0 ≤ max → rsafe (clamp_count count max) (λ n, 0 ≤ n ≤ max).
Proof.
  intros Hmax; unfold clamp_count; cbv zeta; set (n := if count <? 0 then 0 else count).
  assert (Hn : 0 ≤ n) by (unfold n; destruct (Z.ltb_spec count 0); lia).
  destruct (Z.ltb_spec max n); [by apply rsafe_fail|apply rsafe_ret; lia].
Qed.

Lemma hsafe_register_nodes : hsafe handle_register_nodes (λ _, True).
Proof.
  unfold handle_register_nodes.
  eapply hsafe_bind; [apply hsafe_rd, rsafe_request_header_decode|]; intros req _.
  eapply hsafe_bind; [apply hsafe_rd, rsafe_read_int32|]; intros c _.
  eapply hsafe_bind; [by apply hsafe_rd, rsafe_clamp_count|]; intros count _.
  eapply hsafe_bind; [apply hsafe_rd, rsafe_rd_list, rsafe_read_nodeid|]; intros nodes [_ Hn].
  apply hsafe_response; [by ranges|].
  eapply hsafe_bind; [apply hsafe_wr, wsafe_write_int32|]; intros _ _.
  eapply hsafe_bind; [|intros _ _; apply hsafe_finish].
  apply hsafe_wr, wsafe_wr_list; eapply Forall_impl; [exact Hn|]; intros n ?.
  by apply wsafe_write_nodeid, wire_nodeid_ok.
Qed.

Lemma hsafe_unregister_nodes : hsafe handle_unregister_nodes (λ _, True).
Proof.
  unfold handle_unregister_nodes.
  eapply hsafe_bind; [apply hsafe_rd, rsafe_request_header_decode|]; intros req _.
  eapply hsafe_bind; [apply hsafe_rd, rsafe_read_int32|]; intros c _.
  eapply hsafe_bind; [by apply hsafe_rd, rsafe_clamp_count|]; intros count _.
  eapply hsafe_bind; [apply hsafe_rd, rsafe_rd_list, rsafe_read_nodeid|]; intros nodes _.
  apply hsafe_response; [by ranges|apply hsafe_finish].
Qed.

Lemma wsafe_unknown_continuation_point x : wsafe (write_unknown_continuation_point x).
Proof.
  unfold write_unknown_continuation_point; wsafe_auto.
  apply wsafe_write_bytestring; split; cbn [str_data str_length null_string]; ranges; lia.
Qed.

Lemma hsafe_browse_next : hsafe handle_browse_next (λ _, True).
Proof.
  unfold handle_browse_next.
  eapply hsafe_bind; [apply hsafe_rd, rsafe_request_header_decode|]; intros req _.
  eapply hsafe_bind; [apply hsafe_rd, (rsafe_or_default _ _ (λ _, True)); [done|apply rsafe_read_boolean]|]; intros b _.
  eapply hsafe_bind; [apply hsafe_rd, (rsafe_or_default _ _ (λ _, True));
    [done|eapply rsafe_mono; [apply rsafe_read_int32|done]]|]; intros c _.
  eapply hsafe_bind; [apply hsafe_rd, rsafe_reader_status|]; intros _ _.
  eapply hsafe_bind; [by apply hsafe_rd, rsafe_clamp_count|]; intros count _.
  eapply hsafe_bind; [apply hsafe_rd, rsafe_rd_list, rsafe_read_bytestring|]; intros points _.
  apply hsafe_response; [by ranges|].
  eapply hsafe_bind; [apply hsafe_wr, wsafe_write_int32|]; intros _ _.
  eapply hsafe_bind; [apply hsafe_wr, wsafe_wr_list, Forall_forall; intros; apply wsafe_unknown_continuation_point|].
  intros _ _; eapply hsafe_bind; [apply hsafe_wr, wsafe_write_int32|intros _ _; apply hsafe_finish].
Qed.

(** A response every result of which can be encoded. *)
Definition response_ok (resp : mu_read_response_t) : Prop :=
  ∃ results, rp_results resp = Some results ∧ 0 ≤ rp_num_results resp ≤ zlen results ∧
    Forall (λ d, dv_has_value d = true → variant_ok (dv_value d)) (ztake (rp_num_results resp) results).

Lemma wsafe_read_response_encode resp : response_ok resp → wsafe (mu_read_response_encode resp).
Proof.
  intros (results & E & Hn & Hok); unfold mu_read_response_encode; rewrite E.
  apply wsafe_bind; [|intros _; apply wsafe_write_int32].
  apply wsafe_if; intros _; [apply wsafe_write_int32|].
  rewrite (proj2 (Z.ltb_ge _ _)) by lia; apply wsafe_bind; [apply wsafe_write_int32|intros _].
  apply wsafe_wr_list; eapply Forall_impl; [exact Hok|]; intros d; apply wsafe_write_datavalue.
Qed.

Lemma read_result_ok found attribute_id dv :
  (∀ node, found = Some node → node_printable now node) →
  dv_has_value (read_result now found attribute_id dv) = true →
  variant_ok (dv_value (read_result now found attribute_id dv)).
Proof.
  unfold read_result; destruct found as [node|]; [|done]; intros Hp.
  pose proof (read_attribute_ok now node attribute_id (dv_value dv) (Hp node eq_refl)) as Ho.
  destruct (read_attribute now node attribute_id (dv_value dv)); done.
Qed.

Lemma set_user_index_ok s index :
  server_ok s → resolve_ctx (sv_address_space s) index (sv_runtime_space s) →
  same_server s (set_user_index s index) ∧ server_ok (set_user_index s index).
Proof. intros (? & ? & ? & ?) ?; split; [by split|by split]. Qed.

Lemma read_process_step rreq results s :
  server_ok s → wire_read_request MU_DISPATCH_MAX_READ_NODES rreq → MU_DISPATCH_MAX_READ_NODES ≤ zlen results →
  let out := mu_read_process_with_user_index now (sv_address_space s) (sv_runtime_space s)
               rreq results MU_DISPATCH_MAX_READ_NODES (sv_user_index s) in
  resolve_ctx (sv_address_space s) out.2 (sv_runtime_space s) ∧ outcome_ok response_ok out.1.
Proof.
  intros (Hctx & _ & Hserved & _) (_ & _ & _ & Hnodes) Hsize out.
  assert (Hids : Forall (λ rv, nodeid_ok (rv_node_id rv)) (rq_nodes_to_read rreq)).
  { eapply Forall_impl; [exact Hnodes|]; intros rv (? & _); by apply wire_nodeid_ok. }
  pose proof (read_process_ok now (sv_address_space s) (sv_runtime_space s) rreq results
    MU_DISPATCH_MAX_READ_NODES (sv_user_index s) Hctx Hids) as H.
  specialize (H ltac:(apply Forall_forall; intros rv Hrv node old Hl Hf;
    pose proof (read_attribute_ok now node (rv_attribute_id rv) old (layered_printable now _ _ _ _ Hserved Hl)) as Ho;
    by rewrite Hf in Ho) Hsize); cbv zeta in H; fold out in H.
  destruct out as [[resp|e|] ix']; cbn [fst snd] in *; [| |done].
  - destruct H as (_ & Hn & Hctx' & Hnum & rs & Hrs & Hlen & _ & Hres); split; [done|].
    exists rs; split_and!; [done|lia|unfold zlen in *; lia|].
    apply Forall_forall; intros d Hd; unfold ztake in Hd.
    apply list_elem_of_lookup_1 in Hd as [i Hi]; apply lookup_take_Some in Hi as [Hi Hlt].
    rewrite Hnum, Nat2Z.id in Hlt.
    destruct (lookup_lt_is_Some_2 (rq_nodes_to_read rreq) i Hlt) as [rv Hrv].
    destruct (lookup_lt_is_Some_2 results i) as [dv Hdv]; [unfold zlen in *; lia|].
    rewrite (Hres i rv dv Hrv Hdv) in Hi; injection Hi as <-.
    apply read_result_ok; intros node; by apply layered_printable.
  - destruct H as [-> [[-> _]|[-> _]]]; done.
Qed.

Lemma hsafe_read results :
  MU_DISPATCH_MAX_READ_NODES ≤ zlen results → hsafe (handle_read now results) (λ _, True).
Proof.
  intros Hsize; unfold handle_read.
  eapply hsafe_bind; [apply hsafe_rd, rsafe_request_header_decode|]; intros req _.
  eapply hsafe_bind; [by apply hsafe_rd, rsafe_read_request_decode|]; intros rreq Hreq.
  eapply hsafe_bind; [apply (hsafe_sv _ response_ok)|]; [|intros rresp Hresp].
  - intros s Hs; destruct (read_process_step rreq results s Hs Hreq Hsize) as [Hctx Ho].
    destruct (mu_read_process_with_user_index _ _ _ _ _ _ _) as [x index]; cbn [fst snd] in *.
    by destruct (set_user_index_ok s index Hs Hctx).
  - apply hsafe_response; [by ranges|].
    eapply hsafe_bind; [by apply hsafe_wr, wsafe_read_response_encode|intros _ _; apply hsafe_finish].
Qed.

(** What Browse selects can be encoded. *)
Lemma type_definition_ok refs :
  Forall (λ r, nodeid_ok (ref_target_id r)) refs → nodeid_ok (type_definition refs).
Proof.
  induction 1 as [|r refs Hr _ IH]; cbn [type_definition]; [by split; ranges|].
  repeat case_match; done.
Qed.

Lemma select_ok user dynamic desc type_of r d :
  served now user dynamic → nodeid_ok (ref_reference_type_id r) →
  (∀ id target, layered_lookup user dynamic id = Some target → nodeid_ok (type_of target)) →
  select user dynamic desc type_of r = Some d → description_ok d.
Proof.
  intros Hserved Hty Htd; unfold select; case_match; [done|].
  destruct (layered_lookup user dynamic (ref_target_id r)) as [target|] eqn:Et; [|done]; cbn [mbind option_bind].
  case_match; [done|]; intros [= <-].
  destruct (layered_printable now _ _ _ _ Hserved Et) as (? & ? & ? & ? & _).
  unfold description_ok, describe; cbn; split_and!; try done; by eapply Htd.
Qed.

Lemma Forall_omap_ok {A B} (f : A → option B) (P : B → Prop) l :
  (∀ x y, x ∈ l → f x = Some y → P y) → Forall P (omap f l).
Proof.
  intros Hf; apply Forall_forall; intros y Hy; apply list_elem_of_omap in Hy as (x & Hx & E); by eapply Hf.
Qed.

Lemma browse_answer_ok s requested desc remaining :
  server_ok s →
  Forall description_ok
    (browse_answer (sv_address_space s) (sv_runtime_space s) requested (sv_dynamic_references s) desc remaining).2.
Proof.
  intros (_ & Hlinks & Hserved & Hdyn); unfold browse_answer.
  case_match; [constructor|]; destruct (layered_lookup _ _ (bd_node_id desc)) as [node|] eqn:En; [|constructor].
  case_match; [|constructor]; cbn [snd]; unfold browse_matches; apply Forall_app; split; apply Forall_omap_ok.
  - intros r d Hr; apply select_ok; [done| |].
    + destruct (layered_printable now _ _ _ _ Hserved En) as (_ & _ & _ & _ & Ht & _).
      rewrite Forall_forall in Ht; auto.
    + intros id target Ht; apply type_definition_ok; by eapply layered_links.
  - intros dyn d Hin; unfold select_dynamic; case_match; [|done].
    rewrite Forall_forall in Hdyn; destruct (Hdyn dyn Hin); apply select_ok; [done..|].
    intros _ _ _; by split; ranges.
Qed.

Lemma browse_answers_ok s requested descs :
  server_ok s → ∀ remaining, Forall (λ a, Forall description_ok a.2)
    (browse_answers (sv_address_space s) (sv_runtime_space s) requested (sv_dynamic_references s) descs remaining).
Proof.
  intros Hs; induction descs as [|desc descs IH]; intros remaining; cbn [browse_answers]; [constructor|].
  apply Forall_cons_iff; split; [by apply browse_answer_ok|apply IH].
Qed.

Lemma hsafe_browse ref_pool :
  MU_DISPATCH_MAX_BROWSE_REFS ≤ zlen ref_pool → hsafe (handle_browse ref_pool) (λ _, True).
Proof.
  intros Hsize; unfold handle_browse.
  eapply hsafe_bind; [apply hsafe_rd, rsafe_request_header_decode|]; intros req _.
  eapply hsafe_bind; [by apply hsafe_rd, rsafe_browse_request_decode|]; intros breq [Hcount Hdescs].
  eapply hsafe_bind; [apply (hsafe_sv _ (λ out, Forall (result_ok out.2) out.1 ∧
     zlen out.1 = zlen (bq_nodes_to_browse breq)))|]; [|intros [results pool] [Hres Hlen]].
  - intros s Hs; pose proof Hs as (Hctx & Hlinks & Hserved & Hdyn).
    destruct (browse_process_ok (sv_address_space s) (sv_runtime_space s) (sv_user_index s)
      (sv_dynamic_references s) breq MU_DISPATCH_MAX_BROWSE_NODES ref_pool MU_DISPATCH_MAX_BROWSE_REFS)
      as (results & pool' & index' & -> & Hv & _ & Hctx' & Hb); try done.
    + eapply Forall_impl; [exact Hdescs|]; intros d (? & _); by apply wire_nodeid_ok.
    + eapply Forall_impl; [exact Hdyn|]; by intros ? [].
    + cbn [fst snd]; destruct (set_user_index_ok s index' Hs Hctx'); split_and!; [done..|].
      pose proof (browse_answers_ok s (bq_requested_max_references_per_node breq) (bq_nodes_to_browse breq) Hs
        MU_DISPATCH_MAX_BROWSE_REFS) as Ha; rewrite <- Hv in Ha; cbn [outcome_ok fst snd]; split.
      * rewrite Forall_map in Ha; rewrite Forall_forall in Ha, Hb |- *; intros res Hr; split; auto.
      * apply (f_equal length) in Hv; rewrite length_map in Hv; unfold zlen; by rewrite Hv, browse_answers_length.
  - apply hsafe_response; [by ranges|]; cbn [fst snd] in *; rewrite <- Hlen.
    eapply hsafe_bind; [by apply hsafe_wr, wsafe_browse_response_encode|intros _ _; apply hsafe_finish].
Qed.

Lemma write_one_ok current_val write_val s :
  server_ok s → nodeid_ok (wv_node_id write_val) →
  same_server s (write_one now current_val write_val s).2 ∧ server_ok (write_one now current_val write_val s).2 ∧
  outcome_ok (λ _, True) (write_one now current_val write_val s).1.
Proof.
  intros Hs Hid; pose proof Hs as (Hctx & _ & Hserved & _); unfold write_one.
  destruct (resolve_node_spec (sv_address_space s) (sv_user_index s) (sv_runtime_space s) _ Hctx Hid)
    as (index & -> & Hctx'); destruct (set_user_index_ok s index Hs Hctx') as [Hsame Hok].
  set (s1 := set_user_index s index) in *.
  match goal with |- context [match ?c with Ok _ => _ | Err _ => _ | Fault => _ end] =>
    assert (Hcheck : ∃ st, c = Ok st) end.
  { destruct (layered_lookup _ _ (wv_node_id write_val)) as [node|] eqn:En; [|eauto].
    repeat (split_if; [eauto|]); destruct (node_value node) as [source|] eqn:Ev; [|eauto].
    destruct (layered_printable now _ _ _ _ Hserved En) as (_ & _ & _ & _ & _ & Hv).
    specialize (Hv source current_val Ev); destruct (mu_value_source_read _ _ _ _); [|eauto|done].
    split_if; eauto. }
  destruct Hcheck as [st ->]; split_if; [by split_and!|].
  destruct (sv_write_handler s1); cbn [fst snd]; [|by split_and!].
  split; [|split; [|done]]; [|exact Hok]; by destruct Hsame; split.
Qed.

Lemma write_loop_ok current_val nodes :
  Forall wire_write_value nodes → ∀ s, server_ok s →
  same_server s (write_loop now current_val nodes s).2 ∧ server_ok (write_loop now current_val nodes s).2 ∧
  outcome_ok (λ results, length results = length nodes) (write_loop now current_val nodes s).1.
Proof.
  induction 1 as [|write_val nodes (Hid & _) _ IH]; intros s Hs; cbn [write_loop].
  { split; [by split|done]. }
  destruct (write_one_ok current_val write_val s Hs (wire_nodeid_ok _ Hid)) as (Hsame & Hs1 & Ho).
  unfold mbind, M_bind; destruct (write_one now current_val write_val s) as [[x|e|] s1]; cbn [fst snd] in *;
    [|exact (conj Hsame (conj Hs1 Ho))|done].
  destruct (IH s1 Hs1) as (Hsame2 & Hs2 & Ho2).
  destruct (write_loop now current_val nodes s1) as [[l|e|] s2]; cbn [fst snd] in *; [| |done];
    (split; [by eapply same_server_trans|split; [done|]]); [cbn in *; by rewrite Ho2|done].
Qed.

Lemma wsafe_write_response_encode results :
  wsafe (mu_write_response_encode (mk_write_response (zlen results) results)).
Proof.
  unfold mu_write_response_encode; cbn [wp_num_results wp_results].
  apply wsafe_bind; [apply wsafe_write_int32|intros _].
  rewrite (proj2 (Z.ltb_ge _ _)) by lia; apply wsafe_wr_list, Forall_forall; intros x _.
  apply wsafe_write_statuscode.
Qed.

Lemma hsafe_write current_val nodes :
  MU_DISPATCH_MAX_READ_NODES ≤ zlen nodes → hsafe (handle_write now current_val nodes) (λ _, True).
Proof.
  intros Hsize; unfold handle_write.
  eapply hsafe_bind; [apply hsafe_rd, rsafe_request_header_decode|]; intros req _.
  eapply hsafe_bind; [by apply hsafe_rd, rsafe_write_request_decode|]; intros wreq [_ Hnodes].
  eapply (hsafe_bind _ _ (λ _, True)); [split_if; [by apply hsafe_fail|by apply hsafe_ret]|]; intros _ _.
  eapply hsafe_bind; [apply (hsafe_sv _ (λ results, length results = length (wq_nodes_to_write wreq)))|];
    [intros s Hs; by apply write_loop_ok|intros results Hlen].
  apply hsafe_response; [by ranges|].
  replace (zlen (wq_nodes_to_write wreq)) with (zlen results) by (unfold zlen; by rewrite Hlen).
  eapply hsafe_bind; [apply hsafe_wr, wsafe_write_response_encode|intros _ _; apply hsafe_finish].
Qed.

(** ** The View and Attribute services, dispatched *)

(** The handlers this development models. *)
Definition view_handler (h : service_handler) : bool :=
  match h with
  | handle_read_fn | handle_browse_fn | handle_browse_next_fn | handle_register_nodes_fn
  | handle_unregister_nodes_fn | handle_write_fn => true
  | _ => false
  end.

(** The stack arrays have the sizes the handlers declare them with. *)
Definition stack_ok (stack : stack_memory) : Prop :=
  MU_DISPATCH_MAX_READ_NODES ≤ zlen (st_results stack) ∧
  MU_DISPATCH_MAX_BROWSE_REFS ≤ zlen (st_ref_pool stack) ∧
  MU_DISPATCH_MAX_READ_NODES ≤ zlen (st_write_values stack).

Lemma hsafe_run_handler stack other h :
  stack_ok stack → view_handler h = true → hsafe (run_handler now stack other h) (λ _, True).
Proof.
  intros (Hr & Hb & Hw) Hv; destruct h; try discriminate; cbn [run_handler].
  all: eauto using hsafe_read, hsafe_browse, hsafe_browse_next, hsafe_register_nodes,
         hsafe_unregister_nodes, hsafe_write.
Qed.

(** A handler that succeeds reports the octets it wrote. *)
Definition finishes (m : H Rest unit) : Prop :=
  ∀ st, (m st).1 = Ok tt → h_response_length (m st).2 = w_position (h_writer (m st).2).

Lemma finishes_bind {A} (m : H Rest A) k : (∀ a, finishes (k a)) → finishes (m ≫= k).
Proof.
  intros Hk st; unfold mbind, M_bind; destruct (m st) as [[a|e|] st1]; [apply Hk|done..].
Qed.

Lemma finishes_finish : finishes finish.
Proof. done. Qed.

Lemma finishes_run_handler stack other h : view_handler h = true → finishes (run_handler now stack other h).
Proof.
  intros Hv; destruct h; try discriminate; cbn [run_handler];
    unfold handle_read, handle_browse, handle_browse_next, handle_register_nodes, handle_unregister_nodes,
      handle_write;
    repeat (apply finishes_bind; intros; try match goal with x : _ * _ |- _ => destruct x end);
    apply finishes_finish.
Qed.

End logic.

Section dispatch.
  Context {profile : BaseProfile} {caps : BuildCaps} {features : ServiceFeatures} {Rest : Type}.

(** C8: the View and Attribute services are safe from end to end. Whatever
    octets a client sends as a Read, Write, Browse, BrowseNext, RegisterNodes
    or UnregisterNodes request, and whatever the handlers' uninitialised stack
    arrays hold, the dispatcher makes no invalid memory access; it changes
    neither the SecureChannel, the sessions nor the address spaces (only the
    active session, the index and the write log); it writes only inside the
    response buffer; and when it reports success, the response length is the
    number of octets written, which fits the buffer. *)
Theorem view_services_safe now (stack : stack_memory) (other : service_handler → H Rest unit)
    request_id body response (server : mu_server_t Rest) d h :
  bytes_ok body → zlen body ≤ PTRDIFF_MAX → bytes_ok response → zlen response ≤ PTRDIFF_MAX →
  table_inv (sv_sessions server) → zlen (sv_sessions server) = MU_MAX_SESSIONS →
  server_ok now server → stack_ok stack →
  find_service_descriptor request_id = Some d → sd_handler d = Some h → view_handler h = true →
  let (outcome, st) := mu_service_dispatch now stack other request_id body (zlen body)
                         response (zlen response) server in
  outcome_ok (λ _, h_response_length st = w_position (h_writer st)) outcome ∧
  same_server (set_active_session server (sv_active_session (h_server st))) (h_server st) ∧
  server_ok now (h_server st) ∧
  writer_step (mu_binary_writer_init (Some response) (zlen response)) (h_writer st).
Proof.
  intros Hb Hbl Hr Hrl Hinv Hlen Hs Hstack Hd Hh Hv.
  pose proof (reader_init_ok body Hbl Hb) as Hrd; pose proof (writer_init_ok response Hrl Hr) as Hwr.
  destruct (dispatch_gate_ok now stack other request_id body (zlen body) response (zlen response) server Hrd Hinv Hlen)
    as [(d' & slot & (Hd' & _) & ->)|(e & -> & He & _)].
  - assert (d' = d) as -> by congruence; rewrite Hh.
    set (start := mk_hstate _ _ _ _).
    assert (Hok : hok now start) by (by split).
    pose proof (hsafe_run_handler now stack other h Hstack Hv start Hok) as [[_ Hstep Hsame Hs'] Ho].
    pose proof (finishes_run_handler now stack other h Hv start) as Hfin.
    destruct (run_handler now stack other h start) as [x st]; cbn [fst snd] in *; split_and!; [|destruct Hsame; by split..|done|done].
    destruct x as [[]|e|]; cbn in *; auto.
  - split_and!; [|by split|done|by apply writer_step_refl].
    cbn; destruct He as [[->|[->| ->]]| ->]; discriminate.
Qed.
End dispatch.

Lemma demo_server_ok : server_ok (caps := embedded_caps) 1000 demo_server.
Proof.
  split; [exact demo_ctx|split; [exact demo_links|split; [|constructor]]].
  split; intros sp [= <-]; [|apply runtime_printable].
  repeat constructor; cbn; ranges; try lia; try done.
Qed.

Lemma view_services_safe_witness :
  (demo_dispatch MU_ID_READREQUEST).1 = Ok tt ∧
  h_response_length (demo_dispatch MU_ID_READREQUEST).2 = w_position (h_writer (demo_dispatch MU_ID_READREQUEST).2).
Proof.
  assert (E : (demo_dispatch MU_ID_READREQUEST).1 = Ok tt) by (vm_compute; reflexivity).
  pose proof (view_services_safe (profile := embedded_profile) (caps := embedded_caps) (features := all_features)
    1000 demo_stack (λ _, fail MU_STATUS_BAD_SERVICEUNSUPPORTED) MU_ID_READREQUEST demo_request_body (repeat 0 128)
    demo_server (service MU_ID_READREQUEST MU_ID_READRESPONSE true (Some handle_read_fn)) handle_read_fn) as H.
  specialize (H ltac:(by apply bytes_okb) ltac:(vm_compute; discriminate) ltac:(by apply bytes_okb)
    ltac:(vm_compute; discriminate) demo_sessions_ok eq_refl demo_server_ok
    ltac:(split_and!; vm_compute; discriminate) eq_refl eq_refl eq_refl).
  change (zlen (repeat 0 128)) with 128 in H; fold (demo_dispatch MU_ID_READREQUEST) in H.
  destruct (demo_dispatch MU_ID_READREQUEST) as [x st]; cbn [fst snd] in *; subst x; split; [done|apply H].
Defined.
