(* ===== verification/HandlerLogic.v ===== *)
(** * A Hoare logic for service handlers

    Triples over the state handlers run in: the server, the request reader and
    the response writer. A service fixes an invariant [I] of the server and a
    relation [R] that says what its handlers may change; a triple then promises
    memory safety, the invariant and the relation on every outcome, errors
    included, and its postcondition on success. *)

From S2P Require Export ServiceSafety.

Section triples.
  Context {Rest : Type} (I : mu_server_t Rest → Prop) (R : mu_server_t Rest → mu_server_t Rest → Prop).
  Context {HR : PreOrder R}.

Record ctx_ok (st : hstate Rest) : Prop := {
  ctx_reader : reader_ok (h_reader st);
  ctx_writer : writer_ok (h_writer st);
  ctx_server : I (h_server st);
  ctx_length : 0 ≤ h_response_length st ≤ w_length (h_writer st)
}.

Record ctx_step (st st' : hstate Rest) : Prop := {
  cs_reader : reader_step (h_reader st) (h_reader st');
  cs_writer : writer_step (h_writer st) (h_writer st');
  cs_server : I (h_server st');
  cs_frame : R (h_server st) (h_server st');
  cs_length : 0 ≤ h_response_length st' ≤ w_length (h_writer st')
}.

(** [P] holds of the server before; [Q] of the result and the server after. *)
Definition triple {A} (P : mu_server_t Rest → Prop) (m : H Rest A) (Q : A → mu_server_t Rest → Prop) : Prop :=
  ∀ st, ctx_ok st → P (h_server st) →
    ctx_step st (m st).2 ∧ outcome_ok (λ a, Q a (h_server (m st).2)) (m st).1.

(** The same for a computation on the server alone. *)
Definition striple {A} (P : mu_server_t Rest → Prop) (m : M (mu_server_t Rest) A)
    (Q : A → mu_server_t Rest → Prop) : Prop :=
  ∀ s, I s → P s → I (m s).2 ∧ R s (m s).2 ∧ outcome_ok (λ a, Q a (m s).2) (m s).1.

Lemma ctx_step_refl st : ctx_ok st → ctx_step st st.
Proof. intros []; split; [by apply reader_step_refl|by apply writer_step_refl|done|reflexivity|done]. Qed.

Lemma ctx_step_ok st st' : ctx_step st st' → ctx_ok st'.
Proof. intros [Hr Hw ? ? ?]; split; [by apply rstep_ok in Hr|by apply wstep_ok in Hw|done|done]. Qed.

Lemma ctx_step_trans a b c : ctx_ok a → ctx_step a b → ctx_step b c → ctx_step a c.
Proof.
  intros [] [] []; split;
    [eapply reader_step_trans; eassumption|eapply writer_step_trans; eassumption|done|etransitivity; eassumption|done].
Qed.

Lemma triple_bind {A B} P (m : H Rest A) (k : A → H Rest B) Q Q' :
  triple P m Q → (∀ a, triple (Q a) (k a) Q') → triple P (m ≫= k) Q'.
Proof.
  intros Hm Hk st Hst HP; destruct (Hm st Hst HP) as [Hs Ho]; unfold mbind, M_bind.
  destruct (m st) as [[a|e|] st1]; cbn [fst snd outcome_ok] in *; [|by split|done].
  destruct (Hk a st1 (ctx_step_ok _ _ Hs) Ho) as [Hs' Ho']; split; [by eapply ctx_step_trans|done].
Qed.

Lemma triple_ret {A} (P : mu_server_t Rest → Prop) (a : A) Q : (∀ s, P s → Q a s) → triple P (mret a) Q.
Proof. intros HQ st Hst HP; split; [by apply ctx_step_refl|by apply HQ]. Qed.

Lemma triple_fail {A} P e (Q : A → mu_server_t Rest → Prop) : e ≠ MU_STATUS_GOOD → triple P (fail e) Q.
Proof. intros He st Hst _; split; [by apply ctx_step_refl|done]. Qed.

Lemma triple_conseq {A} (P P' : mu_server_t Rest → Prop) (m : H Rest A) Q Q' :
  triple P m Q → (∀ s, P' s → P s) → (∀ a s, Q a s → Q' a s) → triple P' m Q'.
Proof.
  intros Hm HP HQ st Hst HP'; destruct (Hm st Hst (HP _ HP')) as [Hs Ho]; split; [done|].
  destruct (m st).1; cbn in *; auto.
Qed.

Lemma triple_if {A} P (b : bool) (m1 m2 : H Rest A) Q :
  (b = true → triple P m1 Q) → (b = false → triple P m2 Q) → triple P (if b then m1 else m2) Q.
Proof. destruct b; auto. Qed.

(** A check that fails the request. *)
Lemma triple_check P (b : bool) e :
  e ≠ MU_STATUS_GOOD → triple P (if b then fail e else mret tt) (λ _ s, P s ∧ b = false).
Proof. intros He; destruct b; [by apply triple_fail|by apply triple_ret]. Qed.

Lemma triple_rd {A} P (m : Rd A) Q : rsafe m Q → triple P (rd m) (λ a s, P s ∧ Q a).
Proof.
  intros Hm st [Hr Hw Hs Hl] HP; destruct (Hm _ Hr) as [Hstep Ho]; unfold rd.
  destruct (m (h_reader st)) as [x r]; cbn in *; split.
  - split; cbn; [done|by apply writer_step_refl|done|reflexivity|done].
  - destruct x; cbn in *; [by split|done|done].
Qed.

Lemma triple_wr {A} P (m : Wr A) : wsafe m → triple P (wr m) (λ _, P).
Proof.
  intros Hm st [Hr Hw Hs Hl] HP; destruct (Hm _ Hw) as [Hstep Ho]; unfold wr.
  destruct (m (h_writer st)) as [x w]; cbn in *; split.
  - split; cbn; [by apply reader_step_refl|done|done|reflexivity|by rewrite (wstep_length _ _ Hstep)].
  - destruct x; cbn in *; done.
Qed.

Lemma triple_sv {A} P (m : M (mu_server_t Rest) A) Q : striple P m Q → triple P (sv m) Q.
Proof.
  intros Hm st [Hr Hw Hs Hl] HP; destruct (Hm _ Hs HP) as (Hs' & Hf & Ho); unfold sv.
  destruct (m (h_server st)) as [x s]; cbn in *; split; [|done].
  split; cbn; [by apply reader_step_refl|by apply writer_step_refl|done|done|done].
Qed.

Lemma triple_finish P : triple P finish (λ _, P).
Proof. intros st Hst HP; destruct (ctx_step_refl _ Hst), (ctx_writer st Hst) as [_ ?]; split; [by split|done]. Qed.

Lemma striple_bind {A B} P (m : M (mu_server_t Rest) A) (k : A → M (mu_server_t Rest) B) Q Q' :
  striple P m Q → (∀ a, striple (Q a) (k a) Q') → striple P (m ≫= k) Q'.
Proof.
  intros Hm Hk s Hs HP; destruct (Hm s Hs HP) as (Hs1 & HR1 & Ho); unfold mbind, M_bind.
  destruct (m s) as [[a|e|] s1]; cbn [fst snd outcome_ok] in *; [|by split_and!|done].
  destruct (Hk a s1 Hs1 Ho) as (? & ? & ?); split_and!; [done|by etransitivity|done].
Qed.

Lemma striple_ret {A} (P : mu_server_t Rest → Prop) (a : A) Q : (∀ s, P s → Q a s) → striple P (mret a) Q.
Proof. intros HQ s Hs HP; split_and!; [done|reflexivity|by apply HQ]. Qed.

Lemma striple_fail {A} P e (Q : A → mu_server_t Rest → Prop) : e ≠ MU_STATUS_GOOD → striple P (fail e) Q.
Proof. intros He s Hs _; by split_and!. Qed.

Lemma striple_conseq {A} (P P' : mu_server_t Rest → Prop) (m : M (mu_server_t Rest) A) Q Q' :
  striple P m Q → (∀ s, I s → P' s → P s) → (∀ a s, Q a s → Q' a s) → striple P' m Q'.
Proof.
  intros Hm HP HQ s Hs HP'; destruct (Hm s Hs (HP _ Hs HP')) as (? & ? & Ho); split_and!; [done..|].
  destruct (m s).1; cbn in *; auto.
Qed.

(** Derived rules for the steps handlers are made of. *)
Lemma triple_read {A B} P (m : Rd A) Qr (k : A → H Rest B) Q :
  rsafe m Qr → (∀ a, Qr a → triple P (k a) Q) → triple P (rd m ≫= k) Q.
Proof.
  intros Hm Hk; eapply triple_bind; [by apply triple_rd|]; intros a st Hst [HP Ha]; by apply Hk.
Qed.

Lemma triple_write {A B} P (m : Wr A) (k : A → H Rest B) Q :
  wsafe m → (∀ a, triple P (k a) Q) → triple P (wr m ≫= k) Q.
Proof. intros Hm Hk; eapply triple_bind; [by apply triple_wr|done]. Qed.

Lemma triple_guard {B} P (b : bool) e (k : unit → H Rest B) Q :
  e ≠ MU_STATUS_GOOD → (b = false → triple P (k tt) Q) → triple P ((if b then fail e else mret tt) ≫= k) Q.
Proof.
  intros He Hk; eapply triple_bind; [by apply triple_check|]; intros [] st Hst [HP Hb]; by apply Hk.
Qed.

Lemma triple_server {A B} P (m : M (mu_server_t Rest) A) Qs (k : A → H Rest B) Q :
  striple P m Qs → (∀ a, triple (Qs a) (k a) Q) → triple P (sv m ≫= k) Q.
Proof. intros Hm Hk; eapply triple_bind; [by apply triple_sv|done]. Qed.

(** A fact about the result that does not depend on the server. *)
Lemma triple_pure {A} (φ : Prop) (m : H Rest A) Q : (φ → triple (λ _, True) m Q) → triple (λ _, φ) m Q.
Proof. intros Hm st Hst Hφ; by apply Hm. Qed.

Lemma striple_pure {A} (φ : Prop) (m : M (mu_server_t Rest) A) Q :
  (φ → striple (λ _, True) m Q) → striple (λ _, φ) m Q.
Proof. intros Hm s Hs Hφ; by apply Hm. Qed.
End triples.

(** ** Request fragments *)

Lemma rsafe_ensure_reader_bytes_remaining n :
  rsafe (ensure_reader_bytes_remaining n) (λ _, True).
Proof.
  unfold ensure_reader_bytes_remaining; apply rsafe_get; intros r Hr; split_if; [by apply rsafe_fail|by apply rsafe_ret].
Qed.

Lemma rsafe_skip_extension_object_body n : 0 ≤ n → rsafe (skip_extension_object_body n) (λ _, True).
Proof.
  intros Hn r Hr; unfold skip_extension_object_body, ensure_reader_bytes_remaining, mbind, M_bind, get_state, put_state.
  cbn [fst snd]; destruct (_ && _) eqn:E; cbn [fail mret M_ret]; [split; [by apply reader_step_refl|done]|].
  split; [|done]; cbn [fst snd]; destruct Hr as [Hb Hp].
  assert (Hlen : r_length r ≤ PTRDIFF_MAX) by (destruct (r_buffer r); cbn in Hb; ranges; lia).
  assert (Hfit : r_position r + n ≤ r_length r).
  { apply andb_false_iff in E as [E%Z.ltb_ge|E]; [lia|]; apply orb_false_iff in E as [_ E%Z.ltb_ge]; lia. }
  rewrite to_unsigned_id by (zify_ints; lia).
  split; cbn; [split; cbn; [done|lia]|done|done|lia].
Qed.

#[export] Hint Resolve rsafe_ensure_reader_bytes_remaining rsafe_skip_extension_object_body rsafe_reader_status : rsafe.

Lemma rsafe_ensure_array_items count size : rsafe (ensure_array_items_min_remaining count size) (λ _, True).
Proof.
  unfold ensure_array_items_min_remaining; repeat (apply rsafe_if; intros _; [by first [apply rsafe_fail|apply rsafe_ret]|]).
  apply rsafe_get; intros r Hr; repeat (apply rsafe_if; intros _; [by apply rsafe_fail|]); by apply rsafe_ret.
Qed.

(** Writes whose status is checked later. *)
Lemma wsafe_unchecked (m : Wr unit) : wsafe m → wsafe (or_default tt m).
Proof.
  intros Hm w Hw; destruct (Hm w Hw) as [Hs Ho]; unfold or_default.
  destruct (m w) as [[a|e|] w']; cbn in *; by split.
Qed.

Lemma wsafe_writer_status : wsafe writer_status.
Proof.
  intros w Hw; unfold writer_status; destruct (Z.eqb_spec (w_status w) MU_STATUS_GOOD); cbn;
    (split; [by apply writer_step_refl|done]).
Qed.
