(* ===== verification/Double.v ===== *)
(** * IEEE 754 doubles

    The C [double] arithmetic that deadbands and aggregates use
    ([src/services/subscription.c]), on the 64-bit patterns that variants
    store. Rounding is to nearest, ties to even, through the reference
    definitions of the Standard Library's [SpecFloat]; a computed NaN is the
    quiet NaN. *)

From Stdlib Require Import SpecFloat.
From S2P Require Export Prelude.

(** ** Interchange formats: [mw] mantissa bits, [ew] exponent bits *)

Section format.
  Context (mw ew : Z).

Definition f_emax : Z := 2 ^ (ew - 1).
Definition f_emin : Z := 3 - f_emax - (mw + 1).

Definition sf_of_bits (bits : Z) : spec_float :=
  let s := Z.testbit bits (mw + ew) in
  let e := Z.land (Z.shiftr bits mw) (2 ^ ew - 1) in
  let m := Z.land bits (2 ^ mw - 1) in
  if e =? 0 then
    match m with
    | Zpos p => S754_finite s p f_emin
    | _ => S754_zero s
    end
  else if e =? 2 ^ ew - 1 then
    if m =? 0 then S754_infinity s else S754_nan
  else
    match m + 2 ^ mw with
    | Zpos p => S754_finite s p (e + f_emin - 1)
    | _ => S754_nan
    end.

Definition sign_bit (s : bool) : Z := if s then Z.shiftl 1 (mw + ew) else 0.

Definition bits_of_sf (x : spec_float) : Z :=
  match x with
  | S754_zero s => sign_bit s
  | S754_infinity s => sign_bit s + Z.shiftl (2 ^ ew - 1) mw
  | S754_nan => Z.shiftl (2 ^ ew - 1) mw + 2 ^ (mw - 1)
  | S754_finite s m e =>
      if Zpos m <? 2 ^ mw then sign_bit s + Zpos m
      else sign_bit s + Z.shiftl (e - f_emin + 1) mw + (Zpos m - 2 ^ mw)
  end.
End format.

Definition sf_of_double : Z → spec_float := sf_of_bits 52 11.
Definition double_of_sf : spec_float → Z := bits_of_sf 52 11.
Definition sf_of_float : Z → spec_float := sf_of_bits 23 8.

(** ** Operations *)

(** [(double)n] for an integer [n]. *)
Definition double_of_Z (n : Z) : Z := double_of_sf (binary_normalize 53 1024 n 0 false).

(** [(double)f] for a [float]. *)
Definition double_of_float (f : Z) : Z :=
  double_of_sf match sf_of_float f with
               | S754_finite s m e => binary_normalize 53 1024 (cond_Zopp s (Zpos m)) e s
               | x => x
               end.

Definition double_add (a b : Z) : Z := double_of_sf (SFadd 53 1024 (sf_of_double a) (sf_of_double b)).
Definition double_sub (a b : Z) : Z := double_of_sf (SFsub 53 1024 (sf_of_double a) (sf_of_double b)).
Definition double_div (a b : Z) : Z := double_of_sf (SFdiv 53 1024 (sf_of_double a) (sf_of_double b)).
Definition double_fabs (a : Z) : Z := double_of_sf (SFabs (sf_of_double a)).

(** Comparisons; false on NaN. *)
Definition double_lt (a b : Z) : bool := SFltb (sf_of_double a) (sf_of_double b).
Definition double_ge (a b : Z) : bool := SFleb (sf_of_double b) (sf_of_double a).

Example double_examples :
  double_of_Z 10000 = 0x40c3880000000000 ∧ double_of_Z (-1) = 0xbff0000000000000 ∧
  double_add (double_of_Z 1) (double_of_Z 2) = double_of_Z 3 ∧
  double_div (double_of_Z 1) (double_of_Z 3) = 0x3fd5555555555555 ∧
  double_of_float 0x3f800000 = double_of_Z 1 ∧
  double_of_Z 18446744073709551615 = 0x43f0000000000000 ∧
  double_fabs (double_sub (double_of_Z 3) (double_of_Z 5)) = double_of_Z 2 ∧
  double_ge (double_of_Z 2) (double_of_Z 2) = true ∧ double_lt 0x7ff8000000000000 0 = false.
Proof. vm_compute. repeat split. Qed.
