(* ===== verification/MonitoredItem.v ===== *)
(** * MonitoredItems

    The item half of [src/services/subscription.c]: comparison and numeric
    conversion of values, the report queue (a ring buffer per item), absolute
    deadbands, aggregates, sampling and the sampling timer. The queue is shown
    to refine a bounded FIFO. [None] stands for undefined behaviour. *)

From S2P Require Export Double AddressSpace BaseNodes.

Definition MU_MONITORING_MODE_DISABLED : Z := 0.
Definition MU_MONITORING_MODE_SAMPLING : Z := 1.
Definition MU_MONITORING_MODE_REPORTING : Z := 2.

Definition MU_DATACHANGE_TRIGGER_STATUS : Z := 0.
Definition MU_DEADBAND_TYPE_ABSOLUTE : Z := 1.

Definition MU_STATUSCODE_INFOTYPE_DATAVALUE_OVERFLOW : Z := 0x00000480.

(** ** Data *)

(** The [accumulator] union: all members are zero after [memset]. *)
Inductive mu_accumulator_t :=
| ACC_zero
| ACC_avg (sum : Z)
| ACC_extreme (val : mu_variant_t).

Record mu_aggregate_state_t := mk_aggregate_state {
  ag_processing_interval : Z;
  ag_last_calculation : Z;
  ag_accumulator : mu_accumulator_t;
  ag_aggregate_type : Z;
  ag_sample_count : Z
}.

(** The queue fields of [mu_monitored_item_t]. *)
Record mu_report_queue_t := mk_report_queue {
  q_size : Z;
  q_entries : list (mu_variant_t * Z);
  q_head : Z;
  q_tail : Z;
  q_count : Z;
  q_discard_oldest : bool;
  q_overflow : bool
}.

(** Its identity, fixed at creation. *)
Record mu_item_identity_t := mk_item_identity {
  mi_in_use : bool;
  mi_monitored_item_id : Z;
  mi_subscription_id : Z;
  mi_client_handle : Z;
  mi_attribute_id : Z;
  mi_node_id : mu_nodeid_t;
  mi_resolved_node : option mu_node_t
}.

(** Its parameters. *)
Record mu_item_parameters_t := mk_item_parameters {
  mi_monitoring_mode : Z;
  mi_trigger : Z;
  mi_sampling_interval_ms : Z;
  mi_deadband_type : Z;
  mi_deadband_value : Z;
  mi_has_aggregate : bool;
  mi_select_clauses : list Z;
  mi_select_clauses_count : Z
}.

(** Its sampling state. *)
Record mu_item_sample_t := mk_item_sample {
  mi_next_sample_ms : Z;
  mi_last_value : mu_variant_t;
  mi_last_status : Z;
  mi_has_value : bool;
  mi_pending : bool;
  mi_has_reported : bool;
  mi_last_reported_numeric : Z
}.

Record mu_monitored_item_t := mk_monitored_item {
  mi_identity : mu_item_identity_t;
  mi_parameters : mu_item_parameters_t;
  mi_sample : mu_item_sample_t;
  mi_queue : mu_report_queue_t;
  mi_aggregate_state : mu_aggregate_state_t;
  mi_triggered_items : list Z;
  mi_triggered_count : Z
}.

Definition set_sample (item : mu_monitored_item_t) (s : mu_item_sample_t) : mu_monitored_item_t :=
  mk_monitored_item (mi_identity item) (mi_parameters item) s (mi_queue item) (mi_aggregate_state item)
    (mi_triggered_items item) (mi_triggered_count item).

Definition set_queue (item : mu_monitored_item_t) (q : mu_report_queue_t) : mu_monitored_item_t :=
  mk_monitored_item (mi_identity item) (mi_parameters item) (mi_sample item) q (mi_aggregate_state item)
    (mi_triggered_items item) (mi_triggered_count item).

Definition set_aggregate_state (item : mu_monitored_item_t) (a : mu_aggregate_state_t) : mu_monitored_item_t :=
  mk_monitored_item (mi_identity item) (mi_parameters item) (mi_sample item) (mi_queue item) a
    (mi_triggered_items item) (mi_triggered_count item).

Definition set_triggered (item : mu_monitored_item_t) (items : list Z) (count : Z) : mu_monitored_item_t :=
  mk_monitored_item (mi_identity item) (mi_parameters item) (mi_sample item) (mi_queue item)
    (mi_aggregate_state item) items count.

(** [last_value], [last_status] and [has_value = true]. *)
Definition set_last (item : mu_monitored_item_t) (value : mu_variant_t) (status : Z) : mu_monitored_item_t :=
  let s := mi_sample item in
  set_sample item (mk_item_sample (mi_next_sample_ms s) value status true (mi_pending s) (mi_has_reported s)
                     (mi_last_reported_numeric s)).

Definition set_last_status (item : mu_monitored_item_t) (status : Z) : mu_monitored_item_t :=
  let s := mi_sample item in
  set_sample item (mk_item_sample (mi_next_sample_ms s) (mi_last_value s) status (mi_has_value s) (mi_pending s)
                     (mi_has_reported s) (mi_last_reported_numeric s)).

Definition set_pending (item : mu_monitored_item_t) (pending : bool) : mu_monitored_item_t :=
  let s := mi_sample item in
  set_sample item (mk_item_sample (mi_next_sample_ms s) (mi_last_value s) (mi_last_status s) (mi_has_value s) pending
                     (mi_has_reported s) (mi_last_reported_numeric s)).

Definition set_next_sample (item : mu_monitored_item_t) (next : Z) : mu_monitored_item_t :=
  let s := mi_sample item in
  set_sample item (mk_item_sample next (mi_last_value s) (mi_last_status s) (mi_has_value s) (mi_pending s)
                     (mi_has_reported s) (mi_last_reported_numeric s)).

(** An item after [memset] to zero. *)
Definition zero_monitored_item {caps : BuildCaps} : mu_monitored_item_t :=
  mk_monitored_item
    (mk_item_identity false 0 0 0 0 (mk_nodeid 0 (MU_NODEID_NUMERIC 0)) None)
    (mk_item_parameters 0 0 0 0 0 false (repeat 0 8) 0)
    (mk_item_sample 0 zero_variant 0 false false false 0)
    (mk_report_queue 0 (replicate (Z.to_nat MU_MONITORED_QUEUE_DEPTH) (zero_variant, 0)) 0 0 0 false false)
    (mk_aggregate_state 0 0 ACC_zero 0 0)
    (replicate (Z.to_nat MU_MAX_TRIGGER_LINKS) 0) 0.

(** ** Values *)

(** The union member that the type selects, for the types compared. *)
Definition scalar_member (type : Z) (v : mu_variant_value_t) : option Z :=
  match v with
  | VV_b b => if type =? MU_TYPE_BOOLEAN then Some (Z.b2z b) else None
  | VV_sb x => if type =? MU_TYPE_SBYTE then Some x else None
  | VV_by x => if type =? MU_TYPE_BYTE then Some x else None
  | VV_i16 x => if type =? MU_TYPE_INT16 then Some x else None
  | VV_ui16 x => if type =? MU_TYPE_UINT16 then Some x else None
  | VV_i32 x => if type =? MU_TYPE_INT32 then Some x else None
  | VV_ui32 x => if type =? MU_TYPE_UINT32 then Some x else None
  | VV_i64 x => if type =? MU_TYPE_INT64 then Some x else None
  | VV_ui64 x => if type =? MU_TYPE_UINT64 then Some x else None
  | VV_f x => if type =? MU_TYPE_FLOAT then Some x else None
  | VV_d x => if type =? MU_TYPE_DOUBLE then Some x else None
  | VV_dt x => if type =? MU_TYPE_DATETIME then Some x else None
  | _ => None
  end.

Definition comparable_type (type : Z) : bool :=
  bool_decide (type ∈ [MU_TYPE_BOOLEAN; MU_TYPE_SBYTE; MU_TYPE_BYTE; MU_TYPE_INT16; MU_TYPE_UINT16; MU_TYPE_INT32;
    MU_TYPE_UINT32; MU_TYPE_INT64; MU_TYPE_UINT64; MU_TYPE_FLOAT; MU_TYPE_DOUBLE; MU_TYPE_DATETIME]).

Definition variant_scalar_equal (a b : mu_variant_t) : option bool :=
  if negb (v_type a =? v_type b) || negb (Bool.eqb (v_is_array a) (v_is_array b)) then Some false
  else if v_is_array a then Some false
  else if comparable_type (v_type a) then
    x ← scalar_member (v_type a) (v_value a);
    y ← scalar_member (v_type a) (v_value b);
    Some (x =? y)
  else Some false.

Definition numeric_type (type : Z) : bool :=
  bool_decide (type ∈ [MU_TYPE_SBYTE; MU_TYPE_BYTE; MU_TYPE_INT16; MU_TYPE_UINT16; MU_TYPE_INT32;
    MU_TYPE_UINT32; MU_TYPE_INT64; MU_TYPE_UINT64; MU_TYPE_FLOAT; MU_TYPE_DOUBLE]).

(** [Some None] when the function returns [false]. *)
Definition variant_numeric_to_double (value : mu_variant_t) : option (option Z) :=
  if v_is_array value then Some None
  else if numeric_type (v_type value) then
    x ← scalar_member (v_type value) (v_value value);
    Some (Some (if v_type value =? MU_TYPE_FLOAT then double_of_float x
                else if v_type value =? MU_TYPE_DOUBLE then x
                else double_of_Z x))
  else Some None.

(** ** Deadband *)

Definition monitored_item_change_reportable (item : mu_monitored_item_t) (cur : mu_variant_t) (status : Z)
    : option bool :=
  let s := mi_sample item in
  if negb (mi_has_reported s) || negb (status =? mi_last_status s) then Some true
  else if negb (mi_deadband_type (mi_parameters item) =? MU_DEADBAND_TYPE_ABSOLUTE) then Some true
  else
    numeric ← variant_numeric_to_double cur;
    match numeric with
    | None => Some true
    | Some numeric =>
        reported ← variant_numeric_to_double (mi_last_value s);
        match reported with
        | None => Some true
        | Some _ =>
            Some (double_ge (double_fabs (double_sub numeric (mi_last_reported_numeric s)))
                    (mi_deadband_value (mi_parameters item)))
        end
    end.

Definition monitored_item_record_reported (item : mu_monitored_item_t) (cur : mu_variant_t)
    : option mu_monitored_item_t :=
  numeric ← variant_numeric_to_double cur;
  let s := mi_sample item in
  Some (set_sample item
    (mk_item_sample (mi_next_sample_ms s) (mi_last_value s) (mi_last_status s) (mi_has_value s) (mi_pending s) true
       (default (mi_last_reported_numeric s) numeric))).

(** ** The report queue *)

Section queue.
  Context {caps : BuildCaps}.

(** Delivers the size in force, after repairing the indices to it. *)
Definition monitored_item_effective_queue_size (q : mu_report_queue_t) : Z * mu_report_queue_t :=
  let queue_size := q_size q in
  let queue_size := if queue_size =? 0 then 1 else queue_size in
  let queue_size := if MU_MONITORED_QUEUE_DEPTH <? queue_size then MU_MONITORED_QUEUE_DEPTH else queue_size in
  (queue_size,
   mk_report_queue queue_size (q_entries q)
     (if queue_size <=? q_head q then 0 else q_head q)
     (if queue_size <=? q_tail q then 0 else q_tail q)
     (if queue_size <? q_count q then to_u8 queue_size else q_count q)
     (q_discard_oldest q) (q_overflow q)).

Definition monitored_item_queue_next (index queue_size : Z) : Z :=
  let index := to_u8 (index + 1) in
  if queue_size <=? index then 0 else index.

Definition monitored_item_queue_previous (index queue_size : Z) : Z :=
  if index =? 0 then to_u8 (queue_size - 1) else to_u8 (index - 1).

Definition monitored_item_mark_overflow (q : mu_report_queue_t) (index : Z) : option mu_report_queue_t :=
  entry ← znth (q_entries q) index;
  entries ← mem_store (q_entries q) index
              [(entry.1, Z.lor entry.2 MU_STATUSCODE_INFOTYPE_DATAVALUE_OVERFLOW)];
  Some (mk_report_queue (q_size q) entries (q_head q) (q_tail q) (q_count q) (q_discard_oldest q) true).

(** The queue part of [monitored_item_enqueue_report]. *)
Definition enqueue (q : mu_report_queue_t) (cur : mu_variant_t) (status : Z) : option mu_report_queue_t :=
  let '(queue_size, q) := monitored_item_effective_queue_size q in
  if q_count q <? queue_size then
    entries ← mem_store (q_entries q) (q_tail q) [(cur, status)];
    Some (mk_report_queue queue_size entries (q_head q) (monitored_item_queue_next (q_tail q) queue_size)
            (to_u8 (q_count q + 1)) (q_discard_oldest q) (q_overflow q))
  else if q_discard_oldest q then
    entries ← mem_store (q_entries q) (q_tail q) [(cur, status)];
    let head := monitored_item_queue_next (q_head q) queue_size in
    let q := mk_report_queue queue_size entries head (monitored_item_queue_next (q_tail q) queue_size)
               (q_count q) (q_discard_oldest q) (q_overflow q) in
    monitored_item_mark_overflow q head
  else
    let newest := monitored_item_queue_previous (q_tail q) queue_size in
    entries ← mem_store (q_entries q) newest [(cur, status)];
    let q := mk_report_queue queue_size entries (q_head q) (q_tail q) (q_count q) (q_discard_oldest q)
               (q_overflow q) in
    monitored_item_mark_overflow q newest.

Definition monitored_item_enqueue_report (item : mu_monitored_item_t) (cur : mu_variant_t) (status : Z)
    : option mu_monitored_item_t :=
  q ← enqueue (mi_queue item) cur status;
  item ← monitored_item_record_reported (set_queue item q) cur;
  Some (set_pending item (0 <? q_count q)).

Definition monitored_item_prepare_pending_queue (item : mu_monitored_item_t) : option mu_monitored_item_t :=
  let s := mi_sample item in
  if mi_pending s && (q_count (mi_queue item) =? 0) && mi_has_value s
  then monitored_item_enqueue_report item (mi_last_value s) (mi_last_status s)
  else if mi_has_value s && negb (mi_has_reported s)
  then monitored_item_record_reported item (mi_last_value s)
  else Some item.

(** The [while] loop that drops entries: the queue and [*remaining]. *)
Fixpoint drain (queue_size : Z) (fuel : nat) (q : mu_report_queue_t) (remaining : Z) : mu_report_queue_t * Z :=
  match fuel with
  | O => (q, remaining)
  | S fuel =>
      if (0 <? q_count q) && (0 <? remaining) then
        drain queue_size fuel
          (mk_report_queue (q_size q) (q_entries q) (monitored_item_queue_next (q_head q) queue_size) (q_tail q)
             (q_count q - 1) (q_discard_oldest q) (q_overflow q)) (remaining - 1)
      else (q, remaining)
  end.

Definition monitored_item_drain_reported_entries (item : mu_monitored_item_t) (remaining : Z)
    : mu_monitored_item_t * Z :=
  let '(queue_size, q) := monitored_item_effective_queue_size (mi_queue item) in
  let '(q, remaining) := drain queue_size (Z.to_nat (q_count q)) q remaining in
  if q_count q =? 0
  then (set_pending (set_queue item (mk_report_queue (q_size q) (q_entries q) 0 0 (q_count q)
                                       (q_discard_oldest q) false)) false, remaining)
  else (set_pending (set_queue item q) true, remaining).

(** ** Aggregates *)

Definition accumulated_sum (acc : mu_accumulator_t) : option Z :=
  match acc with ACC_zero => Some 0 | ACC_avg sum => Some sum | ACC_extreme _ => None end.

Definition accumulated_extreme (acc : mu_accumulator_t) : option mu_variant_t :=
  match acc with ACC_zero => Some zero_variant | ACC_avg _ => None | ACC_extreme v => Some v end.

(** The minimum or maximum branch; [better] compares a sample with the
    extreme so far. *)
Definition accumulate_extreme (better : Z → Z → bool) (a : mu_aggregate_state_t) (cur : mu_variant_t) (val : Z)
    : option mu_accumulator_t :=
  if ag_sample_count a =? 0 then Some (ACC_extreme cur)
  else
    best ← accumulated_extreme (ag_accumulator a);
    best_double ← variant_numeric_to_double best;
    Some match best_double with
         | Some b => if better val b then ACC_extreme cur else ag_accumulator a
         | None => ACC_extreme cur
         end.

Definition monitored_item_accumulate_aggregate (item : mu_monitored_item_t) (cur : mu_variant_t)
    : option mu_monitored_item_t :=
  val_double ← variant_numeric_to_double cur;
  match val_double with
  | None => Some item
  | Some val =>
      let a := mi_aggregate_state item in
      acc ← (if ag_aggregate_type a =? MU_ID_AGGREGATETYPE_AVERAGE then
               sum ← accumulated_sum (ag_accumulator a);
               Some (ACC_avg (double_add sum val))
             else if ag_aggregate_type a =? MU_ID_AGGREGATETYPE_MINIMUM then
               accumulate_extreme double_lt a cur val
             else if ag_aggregate_type a =? MU_ID_AGGREGATETYPE_MAXIMUM then
               accumulate_extreme (λ x y, double_lt y x) a cur val
             else Some (ag_accumulator a));
      Some (set_aggregate_state item
        (mk_aggregate_state (ag_processing_interval a) (ag_last_calculation a) acc (ag_aggregate_type a)
           (to_u32 (ag_sample_count a + 1))))
  end.

Definition aggregate_value (item : mu_monitored_item_t) : option (mu_variant_t * Z) :=
  let a := mi_aggregate_state item in
  let s := mi_sample item in
  if ag_sample_count a =? 0 then
    Some (if mi_has_value s then (mi_last_value s, mi_last_status s) else (zero_variant, MU_STATUS_BAD_NODATA))
  else if ag_aggregate_type a =? MU_ID_AGGREGATETYPE_AVERAGE then
    sum ← accumulated_sum (ag_accumulator a);
    Some (mk_variant MU_TYPE_DOUBLE (VV_d (double_div sum (double_of_Z (ag_sample_count a)))) false 0, MU_STATUS_GOOD)
  else if (ag_aggregate_type a =? MU_ID_AGGREGATETYPE_MINIMUM) || (ag_aggregate_type a =? MU_ID_AGGREGATETYPE_MAXIMUM)
  then v ← accumulated_extreme (ag_accumulator a); Some (v, MU_STATUS_GOOD)
  else Some (zero_variant, MU_STATUS_BAD_INTERNALERROR).

Definition monitored_item_publish_aggregate (item : mu_monitored_item_t) (now_ms : Z) : option mu_monitored_item_t :=
  calc ← aggregate_value item;
  item ← monitored_item_enqueue_report item calc.1 calc.2;
  let a := mi_aggregate_state item in
  Some (set_aggregate_state item
    (mk_aggregate_state (ag_processing_interval a) (to_i64 now_ms) ACC_zero (ag_aggregate_type a) 0)).

(** ** Sampling *)

(** The status and the value written to a zeroed variant. *)
Definition read_monitored_item_value (now : Z) (item : mu_monitored_item_t) (cur : mu_variant_t)
    : option (Z * mu_variant_t) :=
  match mi_resolved_node (mi_identity item) with
  | None => Some (MU_STATUS_BAD_NODEIDUNKNOWN, cur)
  | Some node =>
      match node_value node with
      | None => Some (MU_STATUS_BAD_NODEIDUNKNOWN, cur)
      | Some source =>
          match mu_value_source_read now (Some source) (mi_node_id (mi_identity item)) cur with
          | Ok v => Some (MU_STATUS_GOOD, v)
          | Err e => Some (e, cur)
          | Fault => None
          end
      end
  end.

Definition monitored_item_sample_changed (item : mu_monitored_item_t) (cur : mu_variant_t) (status : Z)
    : option bool :=
  let s := mi_sample item in
  if mi_trigger (mi_parameters item) =? MU_DATACHANGE_TRIGGER_STATUS
  then Some (negb (status =? mi_last_status s))
  else if negb (status =? mi_last_status s) then Some true
  else equal ← variant_scalar_equal cur (mi_last_value s); Some (negb equal).

Definition U64_MAX : Z := 18446744073709551615.

Definition next_sample_time (next interval now_ms : Z) : Z :=
  let interval := if interval =? 0 then 1 else interval in
  if next <=? now_ms then
    let elapsed := now_ms - next in
    if elapsed <? interval then
      if U64_MAX - interval <? next then U64_MAX else next + interval
    else
      let steps := elapsed / interval + 1 in
      let max_steps := (U64_MAX - next) / interval in
      if max_steps <? steps then U64_MAX else next + steps * interval
  else next.

Definition advance_sample_timer (item : mu_monitored_item_t) (now_ms : Z) : mu_monitored_item_t :=
  set_next_sample item
    (next_sample_time (mi_next_sample_ms (mi_sample item)) (mi_sampling_interval_ms (mi_parameters item)) now_ms).
End queue.

(** ** The queue is a bounded FIFO *)

#[export] Instance variant_inhabited : Inhabited mu_variant_t := populate zero_variant.

Section queue_spec.
  Context {caps : BuildCaps} {Hcaps : BuildCapsOk caps}.

(** The size in force: at least 1, at most the depth of the array. *)
Definition queue_size (q : mu_report_queue_t) : Z :=
  let n := if q_size q =? 0 then 1 else q_size q in
  if MU_MONITORED_QUEUE_DEPTH <? n then MU_MONITORED_QUEUE_DEPTH else n.

Record queue_ok (q : mu_report_queue_t) : Prop := {
  queue_ok_size : 0 ≤ q_size q;
  queue_ok_entries : zlen (q_entries q) = MU_MONITORED_QUEUE_DEPTH;
  queue_ok_head : 0 ≤ q_head q < queue_size q;
  queue_ok_count : 0 ≤ q_count q ≤ queue_size q;
  queue_ok_tail : q_tail q = (q_head q + q_count q) mod queue_size q
}.

(** The queued reports, oldest first. *)
Definition contents (q : mu_report_queue_t) : list (mu_variant_t * Z) :=
  (λ k, q_entries q !!! Z.to_nat ((q_head q + k) mod queue_size q)) <$> seqZ 0 (q_count q).

Definition mark (e : mu_variant_t * Z) : mu_variant_t * Z :=
  (e.1, Z.lor e.2 MU_STATUSCODE_INFOTYPE_DATAVALUE_OVERFLOW).

Definition mark_first (l : list (mu_variant_t * Z)) : list (mu_variant_t * Z) :=
  match l with [] => [] | e :: l => mark e :: l end.

(** The specification: append while there is room; when full, drop the oldest
    report or replace the newest, and flag the overflow. *)
Definition fifo_enqueue (size : Z) (discard_oldest : bool) (l : list (mu_variant_t * Z)) (e : mu_variant_t * Z)
    : list (mu_variant_t * Z) :=
  if zlen l <? size then l ++ [e]
  else if discard_oldest then mark_first (tail l ++ [e])
  else removelast l ++ [mark e].

Lemma queue_size_bounds q : 0 ≤ q_size q → 1 ≤ queue_size q ≤ MU_MONITORED_QUEUE_DEPTH.
Proof.
  pose proof caps_queue_depth; unfold queue_size; intros.
  destruct (Z.eqb_spec (q_size q) 0); split_if; bool_hyps; lia.
Qed.

Lemma effective_queue_size_ok q : queue_ok q →
  monitored_item_effective_queue_size q =
    (queue_size q, mk_report_queue (queue_size q) (q_entries q) (q_head q) (q_tail q) (q_count q)
                     (q_discard_oldest q) (q_overflow q)).
Proof.
  intros [Hs _ Hh Hc Ht]; unfold monitored_item_effective_queue_size.
  pose proof (queue_size_bounds q Hs); change (if MU_MONITORED_QUEUE_DEPTH <? _ then _ else _) with (queue_size q).
  pose proof (Z.mod_pos_bound (q_head q + q_count q) (queue_size q)).
  rewrite (proj2 (Z.leb_gt _ _)), (proj2 (Z.leb_gt (queue_size q) (q_tail q))), (proj2 (Z.ltb_ge _ _)); [done|lia..].
Qed.

Lemma queue_next_mod i n : 1 ≤ n < 256 → 0 ≤ i < n → monitored_item_queue_next i n = (i + 1) mod n.
Proof.
  intros; unfold monitored_item_queue_next, to_unsigned; cbv zeta; norm_pow.
  destruct (decide (i + 1 = n)) as [->|].
  - rewrite Z.mod_same by lia; destruct (decide (n = 256)); [subst; lia|].
    rewrite Z.mod_small by lia; by rewrite Z.leb_refl.
  - rewrite !(Z.mod_small (i + 1)) by lia; rewrite (proj2 (Z.leb_gt _ _)) by lia; done.
Qed.

Lemma queue_previous_mod i n : 1 ≤ n < 256 → 0 ≤ i < n → monitored_item_queue_previous i n = (i - 1) mod n.
Proof.
  intros; unfold monitored_item_queue_previous, to_unsigned; norm_pow.
  destruct (Z.eqb_spec i 0) as [->|].
  - rewrite Z.mod_small by lia; apply (Z.mod_unique_pos _ _ (-1)); lia.
  - rewrite !Z.mod_small; lia.
Qed.

Lemma contents_length q : queue_ok q → zlen (contents q) = q_count q.
Proof. intros [? ? ? ? ?]; unfold contents, zlen; rewrite length_fmap, length_seqZ; lia. Qed.

Lemma contents_lookup q (k : nat) : (Z.of_nat k < q_count q) →
  contents q !! k = Some (q_entries q !!! Z.to_nat ((q_head q + Z.of_nat k) mod queue_size q)).
Proof.
  intros; unfold contents; rewrite list_lookup_fmap.
  rewrite (lookup_seqZ_lt 0 (q_count q) k) by lia; done.
Qed.

(** A queue is determined by what its slots hold. *)
Lemma contents_eq q l : queue_ok q → zlen l = q_count q →
  (∀ (k : nat) e, l !! k = Some e → q_entries q !!! Z.to_nat ((q_head q + Z.of_nat k) mod queue_size q) = e) →
  contents q = l.
Proof.
  intros Hq Hl Hk; apply list_eq_same_length with (n := length l); [done| |].
  - pose proof (contents_length q Hq); unfold zlen in *; lia.
  - intros k x y Hlt Hx Hy; rewrite contents_lookup in Hx by (unfold zlen in *; lia).
    rewrite (Hk k y Hy) in Hx; congruence.
Qed.

Lemma mem_store_one {A} `{Inhabited A} (l : list A) i x : 0 ≤ i < zlen l →
  mem_store l i [x] = Some (<[Z.to_nat i := x]> l).
Proof.
  intros Hi; unfold mem_store; cbn [zlen length]; change (zlen [x]) with 1.
  rewrite (proj2 (Z.leb_le _ _)), (proj2 (Z.leb_le _ _)) by lia; cbn [andb]; f_equal.
  rewrite insert_take_drop by (unfold zlen in *; lia); unfold ztake, zdrop.
  by replace (Z.to_nat (i + 1)) with (S (Z.to_nat i)) by lia.
Qed.

(** Slots of distinct positions are distinct. *)
Lemma slot_inj n h i j : 1 ≤ n → 0 ≤ i < n → 0 ≤ j < n → (h + i) mod n = (h + j) mod n → i = j.
Proof.
  intros Hn Hi Hj E. assert (E' : (i - j) mod n = 0).
  { replace (i - j) with ((h + i) - (h + j)) by lia.
    rewrite Zminus_mod, E, Z.sub_diag; apply Z.mod_0_l; lia. }
  apply Z.mod_divide in E' as [z Hz]; [|lia].
  destruct (Z.lt_trichotomy z 0) as [?|[->|?]]; [|lia|]; nia.
Qed.

Lemma slot_nat n h i j : 1 ≤ n → 0 ≤ i < n → 0 ≤ j < n → i ≠ j →
  Z.to_nat ((h + i) mod n) ≠ Z.to_nat ((h + j) mod n).
Proof.
  intros Hn Hi Hj Hne E; apply Hne, (slot_inj n h); [done..|].
  pose proof (Z.mod_pos_bound (h + i) n); pose proof (Z.mod_pos_bound (h + j) n); lia.
Qed.

Lemma slot_lt q i : queue_ok q → (Z.to_nat (i mod queue_size q) < length (q_entries q))%nat.
Proof.
  intros [? He _ _ _]; pose proof (queue_size_bounds q ltac:(done)).
  pose proof (Z.mod_pos_bound i (queue_size q)); unfold zlen in He; lia.
Qed.

(** A queue with entries and indices replaced keeps its size. *)
Lemma queue_size_mk q e h t c d o : 0 ≤ q_size q →
  queue_size (mk_report_queue (queue_size q) e h t c d o) = queue_size q.
Proof.
  intros Hs; pose proof (queue_size_bounds q Hs); unfold queue_size at 1; cbn [q_size].
  rewrite (proj2 (Z.eqb_neq _ _)), (proj2 (Z.ltb_ge _ _)) by lia; done.
Qed.

(** The three elementary changes: append at the tail, drop at the head,
    overwrite the report at position [i]. *)
Definition q_push (q : mu_report_queue_t) (e : mu_variant_t * Z) : mu_report_queue_t :=
  mk_report_queue (queue_size q) (<[Z.to_nat (q_tail q) := e]> (q_entries q)) (q_head q)
    ((q_tail q + 1) mod queue_size q) (q_count q + 1) (q_discard_oldest q) (q_overflow q).

Definition q_pop (q : mu_report_queue_t) : mu_report_queue_t :=
  mk_report_queue (queue_size q) (q_entries q) ((q_head q + 1) mod queue_size q) (q_tail q) (q_count q - 1)
    (q_discard_oldest q) (q_overflow q).

Definition q_set (q : mu_report_queue_t) (i : nat) (e : mu_variant_t * Z) (overflow : bool) : mu_report_queue_t :=
  mk_report_queue (queue_size q) (<[Z.to_nat ((q_head q + Z.of_nat i) mod queue_size q) := e]> (q_entries q))
    (q_head q) (q_tail q) (q_count q) (q_discard_oldest q) overflow.

Lemma q_push_ok q e : queue_ok q → q_count q < queue_size q →
  queue_ok (q_push q e) ∧ contents (q_push q e) = contents q ++ [e].
Proof.
  intros Hq Hroom; pose proof Hq as [Hs He Hh Hc Ht]; pose proof (queue_size_bounds q Hs) as Hb.
  assert (Hs' : queue_size (q_push q e) = queue_size q) by (by apply queue_size_mk).
  assert (Hok : queue_ok (q_push q e)).
  { split; rewrite ?Hs'; cbn [q_size q_entries q_head q_tail q_count q_push]; [lia| |lia|lia|].
    - unfold zlen in *; by rewrite length_insert.
    - rewrite Ht, Zplus_mod_idemp_l; f_equal; lia. }
  split; [done|]; pose proof (contents_length q Hq) as Hcl; apply contents_eq; [done| |].
  - cbn [q_count q_push]; unfold zlen in *; rewrite length_app; cbn; lia.
  - intros k x Hx; rewrite Hs'; cbn [q_head q_entries q_push]; rewrite Ht.
    apply lookup_app_Some in Hx as [Hx|[Hge Hx]].
    + assert (Z.of_nat k < q_count q) by (apply lookup_lt_Some in Hx; unfold zlen in Hcl; lia).
      rewrite contents_lookup in Hx by done; injection Hx as <-.
      rewrite list_lookup_total_insert_ne; [done|]; apply slot_nat; lia.
    + apply list_lookup_singleton_Some in Hx as [Hk <-].
      replace (Z.of_nat k) with (q_count q) by (unfold zlen in Hcl; lia).
      apply list_lookup_total_insert_eq, slot_lt; done.
Qed.

Lemma q_pop_ok q : queue_ok q → 0 < q_count q →
  queue_ok (q_pop q) ∧ contents (q_pop q) = tail (contents q).
Proof.
  intros Hq Hpos; pose proof Hq as [Hs He Hh Hc Ht]; pose proof (queue_size_bounds q Hs) as Hb.
  assert (Hs' : queue_size (q_pop q) = queue_size q) by (by apply queue_size_mk).
  assert (Hok : queue_ok (q_pop q)).
  { split; rewrite ?Hs'; cbn [q_size q_entries q_head q_tail q_count q_pop]; [lia|done| |lia|].
    - apply Z.mod_pos_bound; lia.
    - rewrite Ht, Zplus_mod_idemp_l; f_equal; lia. }
  split; [done|]; pose proof (contents_length q Hq) as Hcl; apply contents_eq; [done| |].
  - cbn [q_count q_pop]; destruct (contents q); unfold zlen in *; cbn [length tail] in *; lia.
  - intros k x Hx; rewrite Hs'; cbn [q_head q_entries q_pop].
    replace (tail (contents q) !! k) with (contents q !! S k) in Hx by (by destruct (contents q)).
    assert (Z.of_nat (S k) < q_count q) by (apply lookup_lt_Some in Hx; unfold zlen in Hcl; lia).
    rewrite contents_lookup in Hx by done; injection Hx as <-.
    rewrite Zplus_mod_idemp_l; do 3 f_equal; lia.
Qed.

Lemma q_set_ok q i e b : queue_ok q → Z.of_nat i < q_count q →
  queue_ok (q_set q i e b) ∧ contents (q_set q i e b) = <[i := e]> (contents q).
Proof.
  intros Hq Hi; pose proof Hq as [Hs He Hh Hc Ht]; pose proof (queue_size_bounds q Hs) as Hb.
  assert (Hs' : queue_size (q_set q i e b) = queue_size q) by (by apply queue_size_mk).
  assert (Hok : queue_ok (q_set q i e b)).
  { split; rewrite ?Hs'; cbn [q_size q_entries q_head q_tail q_count q_set]; try lia.
    unfold zlen in *; by rewrite length_insert. }
  split; [done|]; pose proof (contents_length q Hq) as Hcl; apply contents_eq; [done| |].
  - cbn [q_count q_set]; unfold zlen in *; by rewrite length_insert.
  - intros k x Hx; rewrite Hs'; cbn [q_head q_entries q_set].
    assert (Z.of_nat k < q_count q) by (apply lookup_lt_Some in Hx; rewrite length_insert in Hx; unfold zlen in Hcl; lia).
    destruct (decide (i = k)) as [->|Hne].
    + rewrite list_lookup_insert_eq in Hx by (unfold zlen in Hcl; lia); injection Hx as <-.
      apply list_lookup_total_insert_eq, slot_lt; done.
    + rewrite list_lookup_insert_ne, contents_lookup in Hx by done; injection Hx as <-.
      rewrite list_lookup_total_insert_ne; [done|]; apply slot_nat; lia.
Qed.

Lemma queue_size_push q e : 0 ≤ q_size q → queue_size (q_push q e) = queue_size q.
Proof. apply queue_size_mk. Qed.

Lemma queue_size_pop q : 0 ≤ q_size q → queue_size (q_pop q) = queue_size q.
Proof. apply queue_size_mk. Qed.

Lemma mark_overflow_eq n es h t c d o i : 0 ≤ i < zlen es →
  monitored_item_mark_overflow (mk_report_queue n es h t c d o) i =
    Some (mk_report_queue n (<[Z.to_nat i := mark (es !!! Z.to_nat i)]> es) h t c d true).
Proof.
  intros Hi; unfold monitored_item_mark_overflow, znth; cbn [q_entries].
  rewrite (proj2 (Z.ltb_ge _ _)) by lia.
  rewrite list_lookup_lookup_total_lt by (unfold zlen in Hi; lia); cbn [mbind option_bind].
  rewrite mem_store_one by lia; done.
Qed.

Lemma contents_head q : queue_ok q → 0 < q_count q → contents q !!! 0%nat = q_entries q !!! Z.to_nat (q_head q).
Proof.
  intros [Hs _ Hh _ _] Hc; apply list_lookup_total_correct; rewrite contents_lookup by done.
  by rewrite Z.add_0_r, Z.mod_small.
Qed.

Lemma to_u8_small x : 0 ≤ x < 256 → to_u8 x = x.
Proof. intros; apply Z.mod_small; norm_pow; lia. Qed.

(** The code in terms of the elementary changes. *)
Lemma enqueue_eq q e : queue_ok q →
  enqueue q e.1 e.2 = Some
    (if q_count q <? queue_size q then q_push q e
     else if q_discard_oldest q then
       q_set (q_push (q_pop q) e) 0 (mark (contents (q_push (q_pop q) e) !!! 0%nat)) true
     else q_set q (Z.to_nat (q_count q - 1)) (mark e) true).
Proof.
  intros Hq; pose proof Hq as [Hs He Hh Hc Ht]; pose proof (queue_size_bounds q Hs) as Hb.
  pose proof caps_queue_depth as Hd; pose proof (Z.mod_pos_bound (q_head q + q_count q) (queue_size q) ltac:(lia)).
  unfold enqueue; rewrite effective_queue_size_ok by done; cbn [q_count q_tail q_head q_entries q_discard_oldest q_overflow].
  replace (e.1, e.2) with e by (by destruct e).
  assert (Htail : 0 ≤ q_tail q < queue_size q) by (rewrite Ht; lia).
  destruct (Z.ltb_spec (q_count q) (queue_size q)) as [Hroom|Hfull].
  { rewrite mem_store_one by lia; cbn [mbind option_bind]; rewrite queue_next_mod, to_u8_small by lia; done. }
  assert (Hn : q_count q = queue_size q) by lia.
  assert (Hth : q_tail q = q_head q).
  { rewrite Ht, Hn, <- Zplus_mod_idemp_r, Z.mod_same, Z.add_0_r, Z.mod_small by lia; done. }
  destruct (q_discard_oldest q) eqn:Ed.
  - rewrite mem_store_one by lia; cbn [mbind option_bind]; rewrite !queue_next_mod by lia.
    pose proof (Z.mod_pos_bound (q_head q + 1) (queue_size q) ltac:(lia)).
    rewrite mark_overflow_eq by (unfold zlen; rewrite length_insert; fold (zlen (q_entries q)); lia).
    destruct (q_pop_ok q Hq ltac:(lia)) as [Hpop _].
    destruct (q_push_ok (q_pop q) e Hpop) as [Hpush _]; [rewrite queue_size_pop by done; cbn; lia|].
    rewrite contents_head by (done || (cbn; lia)).
    unfold q_set; rewrite queue_size_push, queue_size_pop by (cbn; lia).
    cbn [q_head q_tail q_count q_entries q_size q_discard_oldest q_overflow q_push q_pop].
    rewrite queue_size_pop by done; rewrite Z.add_0_r, Z.mod_mod by lia.
    replace (q_count q - 1 + 1) with (q_count q) by lia; by rewrite Ed.
  - rewrite queue_previous_mod by lia.
    pose proof (Z.mod_pos_bound (q_tail q - 1) (queue_size q) ltac:(lia)).
    rewrite mem_store_one by lia; cbn [mbind option_bind].
    rewrite mark_overflow_eq by (unfold zlen; rewrite length_insert; fold (zlen (q_entries q)); lia).
    rewrite list_lookup_total_insert_eq by (unfold zlen in He; lia); rewrite list_insert_insert_eq.
    unfold q_set; rewrite Ed, Z2Nat.id by lia.
    replace ((q_head q + (q_count q - 1)) mod queue_size q) with ((q_tail q - 1) mod queue_size q); [done|].
    rewrite Ht, Zminus_mod_idemp_l; f_equal; lia.
Qed.

Lemma enqueue_fifo q e : queue_ok q →
  ∃ q', enqueue q e.1 e.2 = Some q' ∧ queue_ok q' ∧
        contents q' = fifo_enqueue (queue_size q) (q_discard_oldest q) (contents q) e ∧ contents q' ≠ [].
Proof.
  intros Hq; rewrite enqueue_eq by done; eexists; split; [done|].
  pose proof Hq as [Hs He Hh Hc Ht]; pose proof (queue_size_bounds q Hs) as Hb.
  pose proof (contents_length q Hq) as Hcl; unfold fifo_enqueue; rewrite Hcl.
  destruct (Z.ltb_spec (q_count q) (queue_size q)) as [Hroom|Hfull].
  { destruct (q_push_ok q e Hq Hroom) as [Hok ->]; split_and!; [done..|]; by destruct (contents q). }
  destruct (q_discard_oldest q) eqn:Ed.
  - destruct (q_pop_ok q Hq ltac:(lia)) as [Hpop Epop].
    destruct (q_push_ok (q_pop q) e Hpop) as [Hpush Epush]; [rewrite queue_size_pop by done; cbn; lia|].
    destruct (q_set_ok _ 0 (mark (contents (q_push (q_pop q) e) !!! 0%nat)) true Hpush) as [Hok Ec]; [cbn; lia|].
    split; [done|]; rewrite Ec, Epush, Epop.
    destruct (contents q) as [|x [|y l]]; [unfold zlen in Hcl; cbn in Hcl; lia|..]; by split.
  - destruct (q_set_ok q (Z.to_nat (q_count q - 1)) (mark e) true Hq ltac:(lia)) as [Hok Ec].
    split; [done|]; rewrite Ec; destruct (exists_last (l := contents q)) as (l & x & El).
    { intros El; rewrite El in Hcl; change (zlen _) with 0 in Hcl; lia. }
    rewrite El in *; unfold zlen in Hcl; rewrite length_app in Hcl; cbn in Hcl.
    replace (Z.to_nat (q_count q - 1)) with (length l + 0)%nat by lia.
    rewrite removelast_last, insert_app_r; split; [done|]; by destruct l.
Qed.

(** Draining drops the oldest reports, at most [remaining] of them. *)
Lemma drain_fifo fuel : ∀ q remaining, queue_ok q → q_size q = queue_size q → Z.of_nat fuel = q_count q → 0 ≤ remaining →
  let '(q', remaining') := drain (queue_size q) fuel q remaining in
  let n := Z.min (q_count q) remaining in
  queue_ok q' ∧ queue_size q' = queue_size q ∧ q_discard_oldest q' = q_discard_oldest q ∧
  q_count q' = q_count q - n ∧ remaining' = remaining - n ∧ contents q' = zdrop n (contents q).
Proof.
  pose proof caps_queue_depth as Hd.
  induction fuel as [|fuel IH]; intros q remaining Hq Hn Hf Hr; cbn [drain]; pose proof Hq as [Hs He Hh Hc Ht].
  { rewrite Z.min_l by lia; split_and!; [done..|lia|lia|]; unfold zdrop; by replace (Z.to_nat _) with 0%nat by lia. }
  pose proof (queue_size_bounds q Hs) as Hb.
  rewrite (proj2 (Z.ltb_lt 0 _)) by lia; cbn [andb]; destruct (Z.ltb_spec 0 remaining) as [Hpos|]; cycle 1.
  { replace remaining with 0 by lia; rewrite Z.min_r by lia; split_and!; try done; lia. }
  rewrite queue_next_mod by lia; rewrite Hn; fold (q_pop q).
  destruct (q_pop_ok q Hq ltac:(lia)) as [Hpop Epop].
  specialize (IH (q_pop q) (remaining - 1) Hpop); rewrite queue_size_pop in IH by done.
  specialize (IH eq_refl ltac:(cbn; lia) ltac:(lia)); destruct (drain _ _ _ _) as [q' rem'].
  destruct IH as (? & ? & ? & Hcount & -> & Ec); cbn [q_count q_pop q_discard_oldest] in *.
  split_and!; [done|done|done|lia|lia|]; rewrite Ec, Epop; unfold zdrop.
  replace (Z.to_nat (Z.min (q_count q) remaining)) with (S (Z.to_nat (Z.min (q_count q - 1) (remaining - 1)))) by lia.
  destruct (contents q); [by destruct (Z.to_nat _)|done].
Qed.

(** C20: the report queue of a MonitoredItem refines a bounded FIFO. On a
    well-formed queue (any requested size, clamped to the array), queueing a
    report touches only slots of the array, keeps the queue well-formed and
    changes its contents as the specification says: append while there is
    room; when full, drop the oldest or replace the newest report according to
    discardOldest, and set the overflow bits on the report next to the gap. *)
Theorem enqueue_refines_fifo q e : queue_ok q →
  ∃ q', enqueue q e.1 e.2 = Some q' ∧ queue_ok q' ∧
        contents q' = fifo_enqueue (queue_size q) (q_discard_oldest q) (contents q) e ∧ contents q' ≠ [].
Proof. apply enqueue_fifo. Qed.
End queue_spec.

Lemma enqueue_refines_fifo_witness :
  let q := @mk_report_queue 2 [(zero_variant, 1); (zero_variant, 2)] 1 1 2 true false in
  @contents embedded_caps q = [(zero_variant, 2); (zero_variant, 1)] ∧
  ∃ q', @enqueue embedded_caps q zero_variant 3 = Some q' ∧
        @contents embedded_caps q' = [(zero_variant, Z.lor 1 0x480); (zero_variant, 3)].
Proof.
  split; [vm_compute; reflexivity|].
  destruct (@enqueue_refines_fifo embedded_caps _ (mk_report_queue 2 [(zero_variant, 1); (zero_variant, 2)] 1 1 2 true false)
              (zero_variant, 3)) as (q' & E & _ & C & _).
  - split; vm_compute; try split; try reflexivity; discriminate.
  - exists q'; split; [exact E|rewrite C; vm_compute; reflexivity].
Defined.

(** ** Timers *)

(** The [do]-[while] loop of [advance_publish_timer]. *)
Fixpoint publish_timer_loop (fuel : nat) (next interval now_ms : Z) : Z :=
  if U64_MAX - interval <? next then U64_MAX
  else
    let next := next + interval in
    if next <=? now_ms then
      match fuel with
      | O => next
      | S fuel => publish_timer_loop fuel next interval now_ms
      end
    else next.

Definition next_publish_time (next interval now_ms : Z) : Z :=
  let interval := if interval =? 0 then 1 else interval in
  publish_timer_loop (Z.to_nat ((now_ms - next) / interval)) next interval now_ms.

(** The specification: the first tick of the grid after [now_ms], or the end
    of time when there is none. *)
Definition first_tick_after (next interval now_ms tick : Z) : Prop :=
  (∃ k, 1 ≤ k ∧ tick = next + k * interval ∧ now_ms < tick ≤ U64_MAX ∧ tick - interval ≤ now_ms) ∨
  (tick = U64_MAX ∧ ∀ k, next + k * interval ≤ U64_MAX → next + k * interval ≤ now_ms).

Lemma no_tick_left next i now_ms n : 1 ≤ i → next + n * i ≤ now_ms → U64_MAX < next + (n + 1) * i →
  ∀ k, next + k * i ≤ U64_MAX → next + k * i ≤ now_ms.
Proof. intros ? ? ? k Hk; destruct (Z.le_gt_cases k n); nia. Qed.

Lemma publish_timer_loop_spec fuel next interval now_ms :
  1 ≤ interval → 0 ≤ next ≤ now_ms → now_ms ≤ U64_MAX → (now_ms - next) / interval ≤ Z.of_nat fuel →
  first_tick_after next interval now_ms (publish_timer_loop fuel next interval now_ms).
Proof.
  intros Hi; revert next; induction fuel as [|fuel IH]; intros next Hn Hm Hf; cbn [publish_timer_loop].
  all: destruct (Z.ltb_spec (U64_MAX - interval) next); [right; split; [done|]; apply (no_tick_left _ _ _ 0); lia|].
  all: destruct (Z.leb_spec (next + interval) now_ms).
  - assert (1 ≤ (now_ms - next) / interval) by (apply Z.div_le_lower_bound; lia); lia.
  - left; exists 1; split_and!; lia.
  - destruct (IH (next + interval)) as [(k & Hk & E & ? & ?)|[E Hall]]; [lia|lia| | |].
    + replace (now_ms - (next + interval)) with ((now_ms - next) + (-1) * interval) by lia.
      rewrite Z.div_add by lia; lia.
    + left; exists (k + 1); split_and!; lia.
    + right; split; [done|]; intros k Hk; specialize (Hall (k - 1)); lia.
  - left; exists 1; split_and!; lia.
Qed.

Lemma next_sample_time_spec next interval now_ms :
  0 ≤ interval → 0 ≤ next ≤ now_ms → now_ms ≤ U64_MAX →
  first_tick_after next (Z.max 1 interval) now_ms (next_sample_time next interval now_ms).
Proof.
  intros Hi Hn Hm; unfold next_sample_time.
  replace (if interval =? 0 then 1 else interval) with (Z.max 1 interval) by (destruct (Z.eqb_spec interval 0); lia).
  set (i := Z.max 1 interval) in *; assert (1 ≤ i) by lia; clearbody i; cbv zeta.
  rewrite (proj2 (Z.leb_le next now_ms)) by lia.
  pose proof (Z.div_mod (now_ms - next) i ltac:(lia)); pose proof (Z.mod_pos_bound (now_ms - next) i ltac:(lia)).
  pose proof (Z.div_mod (U64_MAX - next) i ltac:(lia)); pose proof (Z.mod_pos_bound (U64_MAX - next) i ltac:(lia)).
  assert (0 ≤ (now_ms - next) / i) by (apply Z.div_pos; lia).
  destruct (Z.ltb_spec (now_ms - next) i).
  - destruct (Z.ltb_spec (U64_MAX - i) next); [right; split; [done|]; apply (no_tick_left _ _ _ 0); lia|left; exists 1; split_and!; lia].
  - destruct (Z.ltb_spec ((U64_MAX - next) / i) ((now_ms - next) / i + 1)).
    + right; split; [done|]; apply (no_tick_left _ _ _ ((now_ms - next) / i)); nia.
    + left; exists ((now_ms - next) / i + 1); split_and!; nia.
Qed.

Lemma first_tick_unique next i now_ms t t' : 1 ≤ i →
  first_tick_after next i now_ms t → first_tick_after next i now_ms t' → t = t'.
Proof.
  intros Hi [(k & Hk & -> & ? & ?)|[-> Hall]] [(k' & Hk' & -> & ? & ?)|[-> Hall']]; [|exfalso..|done].
  - assert (k = k') as -> by nia; done.
  - specialize (Hall' k); lia.
  - specialize (Hall k'); lia.
Qed.

(** Both timers of the subscription engine are exact. Whatever the
    interval (0 counts as 1 ms) and however late the server is polled, the
    closed form of the sampling timer and the loop of the publishing timer
    agree: each moves an expired timer to the first tick of its grid after the
    current time, so no tick is served twice and the timer never lags; when
    that tick does not fit 64 bits the timer stops at the end of time. *)
Theorem timers_exact next interval now_ms :
  0 ≤ interval → 0 ≤ next ≤ now_ms → now_ms ≤ U64_MAX →
  next_publish_time next interval now_ms = next_sample_time next interval now_ms ∧
  first_tick_after next (Z.max 1 interval) now_ms (next_sample_time next interval now_ms).
Proof.
  intros Hi Hn Hm; pose proof (next_sample_time_spec next interval now_ms Hi Hn Hm) as Hs; split; [|done].
  eapply first_tick_unique; [|..|exact Hs]; [lia|]; unfold next_publish_time.
  replace (if interval =? 0 then 1 else interval) with (Z.max 1 interval) by (destruct (Z.eqb_spec interval 0); lia).
  apply publish_timer_loop_spec; [lia..|]; rewrite Z2Nat.id; [done|apply Z.div_pos; lia].
Qed.

Lemma timers_exact_witness : next_publish_time 1000 250 1800 = 2000 ∧ next_sample_time 1000 250 1800 = 2000.
Proof.
  destruct (timers_exact 1000 250 1800 ltac:(lia) ltac:(lia) ltac:(vm_compute; discriminate)) as [E _].
  split; [rewrite E|]; reflexivity.
Defined.
