(* ===== verification/Subscription.v ===== *)
(** * The subscription engine

    The tables of [src/services/subscription.c]: Subscriptions,
    MonitoredItems and parked Publish requests in fixed arrays, identifier
    allocation, creation, revision and deletion, acknowledgement and
    Republish, trigger links, and the queue of Publish requests. Pointers into
    the arrays are indices. The engine invariant is proved for every sequence
    of operations. *)

From S2P Require Export MonitoredItem.

(** ** Data *)

Record mu_retransmit_slot_t := mk_retransmit_slot {
  rs_valid : bool;
  rs_sequence_number : Z;
  rs_publish_time : Z;
  rs_message : list Z;
  rs_message_len : Z
}.

Record mu_event_notification_t := mk_event_notification {
  ev_event_type : mu_nodeid_t;
  ev_event_id : mu_bytestring_t;
  ev_time : Z;
  ev_message : mu_string_t;
  ev_severity : Z
}.

Definition MU_MAX_EVENT_QUEUE_SIZE : Z := 8.

Record mu_event_queue_t := mk_event_queue {
  eq_queue : list mu_event_notification_t;
  eq_head : Z;
  eq_tail : Z;
  eq_count : Z
}.

(** The identity of a subscription, fixed at creation. *)
Record mu_sub_identity_t := mk_sub_identity {
  sub_in_use : bool;
  sub_subscription_id : Z;
  sub_session_id : Z
}.

(** Its revised parameters. *)
Record mu_sub_parameters_t := mk_sub_parameters {
  sub_publishing_interval_ms : Z;
  sub_max_keep_alive_count : Z;
  sub_lifetime_count : Z;
  sub_max_notifications_per_publish : Z;
  sub_priority : Z
}.

(** Its publishing state. *)
Record mu_sub_state_t := mk_sub_state {
  sub_next_publish_ms : Z;
  sub_sequence_number : Z;
  sub_keep_alive_counter : Z;
  sub_lifetime_counter : Z;
  sub_publishing_enabled : bool;
  sub_more_notifications : bool;
  sub_resend_data_pending : bool;
  sub_retransmit : mu_retransmit_slot_t;
  sub_event_queue : mu_event_queue_t
}.

Record mu_subscription_t := mk_subscription {
  sub_identity : mu_sub_identity_t;
  sub_parameters : mu_sub_parameters_t;
  sub_state : mu_sub_state_t
}.

Record mu_publish_request_t := mk_publish_request {
  pr_in_use : bool;
  pr_session_id : Z;
  pr_request_handle : Z;
  pr_request_id : Z;
  pr_enqueued_ms : Z;
  pr_ack_count : Z;
  pr_ack_results : list Z
}.

Record mu_subscriptions_t := mk_subscriptions {
  subs_subscriptions : list mu_subscription_t;
  subs_monitored_items : list mu_monitored_item_t;
  subs_publish_queue : list mu_publish_request_t;
  subs_next_subscription_id : Z;
  subs_next_monitored_item_id : Z;
  subs_active_monitored_items_count : Z
}.

Definition set_subscriptions (e : mu_subscriptions_t) (l : list mu_subscription_t) : mu_subscriptions_t :=
  mk_subscriptions l (subs_monitored_items e) (subs_publish_queue e) (subs_next_subscription_id e)
    (subs_next_monitored_item_id e) (subs_active_monitored_items_count e).

Definition set_items (e : mu_subscriptions_t) (l : list mu_monitored_item_t) : mu_subscriptions_t :=
  mk_subscriptions (subs_subscriptions e) l (subs_publish_queue e) (subs_next_subscription_id e)
    (subs_next_monitored_item_id e) (subs_active_monitored_items_count e).

Definition set_publish_queue (e : mu_subscriptions_t) (l : list mu_publish_request_t) : mu_subscriptions_t :=
  mk_subscriptions (subs_subscriptions e) (subs_monitored_items e) l (subs_next_subscription_id e)
    (subs_next_monitored_item_id e) (subs_active_monitored_items_count e).

Definition set_sub (e : mu_subscriptions_t) (i : nat) (s : mu_subscription_t) : mu_subscriptions_t :=
  set_subscriptions e (<[i := s]> (subs_subscriptions e)).

Definition set_item (e : mu_subscriptions_t) (i : nat) (it : mu_monitored_item_t) : mu_subscriptions_t :=
  set_items e (<[i := it]> (subs_monitored_items e)).

Definition set_sub_state (s : mu_subscription_t) (st : mu_sub_state_t) : mu_subscription_t :=
  mk_subscription (sub_identity s) (sub_parameters s) st.

Definition set_retransmit (s : mu_subscription_t) (rs : mu_retransmit_slot_t) : mu_subscription_t :=
  let st := sub_state s in
  set_sub_state s (mk_sub_state (sub_next_publish_ms st) (sub_sequence_number st) (sub_keep_alive_counter st)
    (sub_lifetime_counter st) (sub_publishing_enabled st) (sub_more_notifications st) (sub_resend_data_pending st)
    rs (sub_event_queue st)).

Section engine.
  Context {caps : BuildCaps}.

(** Zeroed slots. *)
Definition zero_event : mu_event_notification_t :=
  mk_event_notification (mk_nodeid 0 (MU_NODEID_NUMERIC 0)) (mk_string 0 None) 0 (mk_string 0 None) 0.

Definition zero_event_queue : mu_event_queue_t :=
  mk_event_queue (replicate (Z.to_nat MU_MAX_EVENT_QUEUE_SIZE) zero_event) 0 0 0.

Definition zero_retransmit : mu_retransmit_slot_t :=
  mk_retransmit_slot false 0 0 (replicate (Z.to_nat MU_RETRANSMIT_BYTES) 0) 0.

Definition zero_subscription : mu_subscription_t :=
  mk_subscription (mk_sub_identity false 0 0) (mk_sub_parameters 0 0 0 0 0)
    (mk_sub_state 0 0 0 0 false false false zero_retransmit zero_event_queue).

Definition zero_publish_request : mu_publish_request_t :=
  mk_publish_request false 0 0 0 0 0 (replicate (Z.to_nat MU_MAX_PUBLISH_ACKS) 0).

Definition mu_subscriptions_init : mu_subscriptions_t :=
  mk_subscriptions (replicate (Z.to_nat MU_MAX_SUBSCRIPTIONS) zero_subscription)
    (replicate (Z.to_nat MU_MAX_MONITORED_ITEMS) zero_monitored_item)
    (replicate (Z.to_nat MU_MAX_PUBLISH_REQUESTS) zero_publish_request) 1 1 0.

(** ** Identifiers *)

Definition subscription_id_in_use (e : mu_subscriptions_t) (id : Z) : bool :=
  existsb (λ s, sub_in_use (sub_identity s) && (sub_subscription_id (sub_identity s) =? id)) (subs_subscriptions e).

Definition monitored_item_id_in_use (e : mu_subscriptions_t) (id : Z) : bool :=
  existsb (λ it, mi_in_use (mi_identity it) && (mi_monitored_item_id (mi_identity it) =? id)) (subs_monitored_items e).

(** The loop of both allocators: the identifier (0 when none was found within
    the tries) and the next candidate. *)
Fixpoint allocate_id (in_use : Z → bool) (tries : nat) (next : Z) : Z * Z :=
  match tries with
  | O => (0, next)
  | S tries =>
      let id := if next =? 0 then 1 else next in
      let next := to_u32 (id + 1) in
      let next := if next =? 0 then 1 else next in
      if negb (in_use id) then (id, next) else allocate_id in_use tries next
  end.

Definition allocate_subscription_id (e : mu_subscriptions_t) : Z * mu_subscriptions_t :=
  let '(id, next) := allocate_id (subscription_id_in_use e) (S (Z.to_nat MU_MAX_SUBSCRIPTIONS))
                       (subs_next_subscription_id e) in
  (id, mk_subscriptions (subs_subscriptions e) (subs_monitored_items e) (subs_publish_queue e) next
         (subs_next_monitored_item_id e) (subs_active_monitored_items_count e)).

Definition allocate_monitored_item_id (e : mu_subscriptions_t) : Z * mu_subscriptions_t :=
  let '(id, next) := allocate_id (monitored_item_id_in_use e) (S (Z.to_nat MU_MAX_MONITORED_ITEMS))
                       (subs_next_monitored_item_id e) in
  (id, mk_subscriptions (subs_subscriptions e) (subs_monitored_items e) (subs_publish_queue e)
         (subs_next_subscription_id e) next (subs_active_monitored_items_count e)).

(** ** Subscriptions *)

(** The revised lifetime and keep-alive counts. *)
Definition revise_subscription_counts (requested_lifetime_count requested_max_keep_alive_count : Z) : Z * Z :=
  let keep_alive := requested_max_keep_alive_count in
  let keep_alive := if keep_alive =? 0 then 1 else keep_alive in
  let keep_alive := if 0xFFFFFFFF / 3 <? keep_alive then 0xFFFFFFFF / 3 else keep_alive in
  let min_lifetime := to_u32 (keep_alive * 3) in
  ((if requested_lifetime_count <? min_lifetime then min_lifetime else requested_lifetime_count), keep_alive).

Definition mu_subscription_apply_parameters (s : mu_subscription_t) (publishing_interval_ms requested_lifetime_count
    requested_max_keep_alive_count max_notifications_per_publish priority : Z) : mu_subscription_t :=
  let '(lifetime, keep_alive) := revise_subscription_counts requested_lifetime_count requested_max_keep_alive_count in
  mk_subscription (sub_identity s)
    (mk_sub_parameters publishing_interval_ms keep_alive lifetime max_notifications_per_publish priority)
    (sub_state s).

Definition mu_subscription_create (session_id publishing_interval_ms requested_lifetime_count
    requested_max_keep_alive_count max_notifications_per_publish priority : Z) (publishing_enabled : bool)
    (now_ms : Z) : M mu_subscriptions_t nat := λ e,
  match list_find (λ s, sub_in_use (sub_identity s) = false) (subs_subscriptions e) with
  | None => (Err MU_STATUS_BAD_TOOMANYSUBSCRIPTIONS, e)
  | Some (slot, _) =>
      let '(subscription_id, e) := allocate_subscription_id e in
      if subscription_id =? 0 then (Err MU_STATUS_BAD_TOOMANYSUBSCRIPTIONS, e)
      else
        let s := mk_subscription (mk_sub_identity true subscription_id session_id)
                   (sub_parameters zero_subscription) (sub_state zero_subscription) in
        let s := mu_subscription_apply_parameters s publishing_interval_ms requested_lifetime_count
                   requested_max_keep_alive_count max_notifications_per_publish priority in
        let s := set_sub_state s
                   (mk_sub_state (to_u64 (now_ms + publishing_interval_ms)) 1 0 0 publishing_enabled false false
                      zero_retransmit zero_event_queue) in
        (Ok slot, set_sub e slot s)
  end.

Definition owned_by (session_id subscription_id : Z) (s : mu_subscription_t) : Prop :=
  sub_in_use (sub_identity s) = true ∧ sub_session_id (sub_identity s) = session_id ∧
  sub_subscription_id (sub_identity s) = subscription_id.

Definition mu_subscription_find (e : mu_subscriptions_t) (session_id subscription_id : Z)
    : option (nat * mu_subscription_t) :=
  list_find (owned_by session_id subscription_id) (subs_subscriptions e).

Definition mu_subscription_acknowledge (session_id subscription_id sequence_number : Z)
    : M mu_subscriptions_t unit := λ e,
  match mu_subscription_find e session_id subscription_id with
  | None => (Err MU_STATUS_BAD_SUBSCRIPTIONIDINVALID, e)
  | Some (i, s) =>
      let rs := sub_retransmit (sub_state s) in
      if rs_valid rs && (rs_sequence_number rs =? sequence_number)
      then (Ok tt, set_sub e i (set_retransmit s
             (mk_retransmit_slot false (rs_sequence_number rs) (rs_publish_time rs) (rs_message rs) 0)))
      else (Err MU_STATUS_BAD_SEQUENCENUMBERUNKNOWN, e)
  end.

(** The retained message, as [out_msg] and [out_len] delimit it. *)
Definition mu_subscription_republish (e : mu_subscriptions_t) (session_id subscription_id sequence_number : Z)
    : result (list Z) :=
  match mu_subscription_find e session_id subscription_id with
  | None => Err MU_STATUS_BAD_SUBSCRIPTIONIDINVALID
  | Some (_, s) =>
      let rs := sub_retransmit (sub_state s) in
      if rs_valid rs && (rs_sequence_number rs =? sequence_number)
      then Ok (ztake (rs_message_len rs) (rs_message rs))
      else Err MU_STATUS_BAD_MESSAGENOTAVAILABLE
  end.

(** Is the item a live item of the subscription? *)
Definition item_of (subscription_id : Z) (it : mu_monitored_item_t) : bool :=
  mi_in_use (mi_identity it) && (mi_subscription_id (mi_identity it) =? subscription_id).

(** The loop that deletes the items: the array and the active count. *)
Fixpoint delete_items (subscription_id : Z) (items : list mu_monitored_item_t) (active : Z)
    : list mu_monitored_item_t * Z :=
  match items with
  | [] => ([], active)
  | it :: items =>
      if item_of subscription_id it then
        let '(items, active) := delete_items subscription_id items (if 0 <? active then active - 1 else active) in
        (zero_monitored_item :: items, active)
      else
        let '(items, active) := delete_items subscription_id items active in (it :: items, active)
  end.

Definition mu_subscription_delete (session_id subscription_id : Z) : M mu_subscriptions_t unit := λ e,
  match mu_subscription_find e session_id subscription_id with
  | None => (Err MU_STATUS_BAD_SUBSCRIPTIONIDINVALID, e)
  | Some (i, _) =>
      let '(items, active) := delete_items subscription_id (subs_monitored_items e)
                                (subs_active_monitored_items_count e) in
      (Ok tt, mk_subscriptions (<[i := zero_subscription]> (subs_subscriptions e)) items (subs_publish_queue e)
                (subs_next_subscription_id e) (subs_next_monitored_item_id e) active)
  end.

(** ** MonitoredItems *)

Definition mu_monitored_item_alloc (subscription_id : Z) : M mu_subscriptions_t nat := λ e,
  match list_find (λ it, mi_in_use (mi_identity it) = false) (subs_monitored_items e) with
  | None => (Err MU_STATUS_BAD_TOOMANYMONITOREDITEMS, e)
  | Some (slot, _) =>
      let '(id, e) := allocate_monitored_item_id e in
      if id =? 0 then (Err MU_STATUS_BAD_TOOMANYMONITOREDITEMS, e)
      else
        let z := zero_monitored_item in
        let it := mk_monitored_item
                    (mk_item_identity true id subscription_id 0 0 (mi_node_id (mi_identity z)) None)
                    (mi_parameters z) (mi_sample z) (mi_queue z) (mi_aggregate_state z)
                    (mi_triggered_items z) (mi_triggered_count z) in
        (Ok slot,
         mk_subscriptions (subs_subscriptions e) (<[slot := it]> (subs_monitored_items e)) (subs_publish_queue e)
           (subs_next_subscription_id e) (subs_next_monitored_item_id e)
           (to_u32 (subs_active_monitored_items_count e + 1)))
  end.

Definition is_item (subscription_id monitored_item_id : Z) (it : mu_monitored_item_t) : Prop :=
  mi_in_use (mi_identity it) = true ∧ mi_subscription_id (mi_identity it) = subscription_id ∧
  mi_monitored_item_id (mi_identity it) = monitored_item_id.

Definition mu_monitored_item_delete (subscription_id monitored_item_id : Z) : M mu_subscriptions_t unit := λ e,
  match list_find (is_item subscription_id monitored_item_id) (subs_monitored_items e) with
  | None => (Err MU_STATUS_BAD_MONITOREDITEMIDINVALID, e)
  | Some (i, _) =>
      let active := subs_active_monitored_items_count e in
      (Ok tt,
       mk_subscriptions (subs_subscriptions e) (<[i := zero_monitored_item]> (subs_monitored_items e))
         (subs_publish_queue e) (subs_next_subscription_id e) (subs_next_monitored_item_id e)
         (if 0 <? active then active - 1 else active))
  end.

Definition find_monitored_item_in_subscription (e : mu_subscriptions_t) (subscription_id monitored_item_id : Z)
    : option (nat * mu_monitored_item_t) :=
  list_find (is_item subscription_id monitored_item_id) (subs_monitored_items e).

(** ** Trigger links *)

Definition mu_monitored_item_add_trigger_link (subscription_id triggering_item_id linked_item_id : Z)
    : M mu_subscriptions_t unit := λ e,
  match find_monitored_item_in_subscription e subscription_id triggering_item_id,
        find_monitored_item_in_subscription e subscription_id linked_item_id with
  | Some (i, it), Some _ =>
      if existsb (λ x, x =? linked_item_id) (ztake (mi_triggered_count it) (mi_triggered_items it)) then (Ok tt, e)
      else if MU_MAX_TRIGGER_LINKS <=? mi_triggered_count it then (Err MU_STATUS_BAD_TOOMANYOPERATIONS, e)
      else
        match mem_store (mi_triggered_items it) (mi_triggered_count it) [linked_item_id] with
        | None => (Fault, e)
        | Some items => (Ok tt, set_item e i (set_triggered it items (to_u8 (mi_triggered_count it + 1))))
        end
  | _, _ => (Err MU_STATUS_BAD_MONITOREDITEMIDINVALID, e)
  end.

(** Move the links after position [i] one place down. *)
Definition remove_link (links : list Z) (count : Z) (i : nat) : list Z :=
  take i links ++ ztake (count - Z.of_nat i - 1) (drop (S i) links) ++ [0] ++ zdrop count links.

Definition mu_monitored_item_remove_trigger_link (subscription_id triggering_item_id linked_item_id : Z)
    : M mu_subscriptions_t unit := λ e,
  match find_monitored_item_in_subscription e subscription_id triggering_item_id,
        find_monitored_item_in_subscription e subscription_id linked_item_id with
  | Some (i, it), Some _ =>
      match list_find (λ x, x = linked_item_id) (ztake (mi_triggered_count it) (mi_triggered_items it)) with
      | None => (Err MU_STATUS_BAD_MONITOREDITEMIDINVALID, e)
      | Some (k, _) =>
          (Ok tt, set_item e i (set_triggered it (remove_link (mi_triggered_items it) (mi_triggered_count it) k)
                                  (mi_triggered_count it - 1)))
      end
  | _, _ => (Err MU_STATUS_BAD_MONITOREDITEMIDINVALID, e)
  end.

(** The server and client handles of the items, in slot order. *)
Definition mu_subscription_get_monitored_items (e : mu_subscriptions_t) (session_id subscription_id max_handles : Z)
    : result (list (Z * Z)) :=
  match mu_subscription_find e session_id subscription_id with
  | None => Err MU_STATUS_BAD_SUBSCRIPTIONIDINVALID
  | Some _ =>
      let handles := (λ it, (mi_monitored_item_id (mi_identity it), mi_client_handle (mi_identity it)))
                       <$> filter (λ it, item_of subscription_id it = true) (subs_monitored_items e) in
      if max_handles <? zlen handles then Err MU_STATUS_BAD_TOOMANYOPERATIONS else Ok handles
  end.

Definition mu_subscription_request_resend_data (session_id subscription_id : Z) : M mu_subscriptions_t unit := λ e,
  match mu_subscription_find e session_id subscription_id with
  | None => (Err MU_STATUS_BAD_SUBSCRIPTIONIDINVALID, e)
  | Some (i, s) =>
      let st := sub_state s in
      (Ok tt, set_sub e i (set_sub_state s
        (mk_sub_state (sub_next_publish_ms st) (sub_sequence_number st) (sub_keep_alive_counter st)
           (sub_lifetime_counter st) (sub_publishing_enabled st) (sub_more_notifications st) true
           (sub_retransmit st) (sub_event_queue st))))
  end.

(** ** Publish requests *)

Definition mu_publish_request_enqueue (session_id request_id request_handle now_ms : Z)
    : M mu_subscriptions_t nat := λ e,
  match list_find (λ r, pr_in_use r = false) (subs_publish_queue e) with
  | None => (Err MU_STATUS_BAD_TOOMANYPUBLISHREQUESTS, e)
  | Some (slot, _) =>
      (Ok slot, set_publish_queue e
        (<[slot := mk_publish_request true session_id request_handle request_id now_ms 0
                     (pr_ack_results zero_publish_request)]> (subs_publish_queue e)))
  end.

(** The scan for the oldest request of a session: [best] is the candidate so
    far with its index. *)
Fixpoint oldest_request (session_id : Z) (queue : list mu_publish_request_t) (i : nat)
    (best : option (nat * mu_publish_request_t)) : option (nat * mu_publish_request_t) :=
  match queue with
  | [] => best
  | req :: queue =>
      let best :=
        if negb (pr_in_use req) || negb (pr_session_id req =? session_id) then best
        else match best with
             | Some (_, b) => if pr_enqueued_ms req <? pr_enqueued_ms b then Some (i, req) else best
             | None => Some (i, req)
             end in
      oldest_request session_id queue (S i) best
  end.

Definition publish_request_dequeue (e : mu_subscriptions_t) (session_id : Z)
    : option mu_publish_request_t * mu_subscriptions_t :=
  match oldest_request session_id (subs_publish_queue e) 0 None with
  | None => (None, e)
  | Some (i, req) => (Some req, set_publish_queue e (<[i := zero_publish_request]> (subs_publish_queue e)))
  end.
End engine.

(** ** Live entries of an array *)

Section live.
  Context {A : Type} (live : A → bool) (key : A → Z).

(** The keys of the live entries. *)
Definition keys (l : list A) : list Z := key <$> filter (λ x, live x = true) l.

Definition key_of (x : A) : list Z := if live x then [key x] else [].

Lemma keys_cons x l : keys (x :: l) = key_of x ++ keys l.
Proof.
  unfold keys, key_of; rewrite filter_cons; destruct (live x) eqn:E; [rewrite decide_True by done|rewrite decide_False by congruence]; done.
Qed.

(** Replacing an entry exchanges its key. *)
Lemma keys_insert l i x y : l !! i = Some y → keys (<[i := x]> l) ++ key_of y ≡ₚ keys l ++ key_of x.
Proof.
  revert i; induction l as [|z l IH]; intros [|i] E; cbn in E; simplify_eq.
  - change (<[0%nat := x]> (y :: l)) with (x :: l); rewrite !keys_cons; solve_Permutation.
  - change (<[S i := x]> (z :: l)) with (z :: <[i := x]> l).
    rewrite !keys_cons, <- !app_assoc, (IH i) by done; done.
Qed.

Lemma elem_of_keys k l : k ∈ keys l ↔ ∃ x, x ∈ l ∧ live x = true ∧ key x = k.
Proof.
  unfold keys; rewrite list_elem_of_fmap; split.
  - intros (x & -> & [? ?]%list_elem_of_filter); eauto.
  - intros (x & ? & ? & <-); exists x; split; [done|]; by apply list_elem_of_filter.
Qed.

Lemma existsb_keys k l : existsb (λ x, live x && (key x =? k)) l = true ↔ k ∈ keys l.
Proof.
  rewrite elem_of_keys, existsb_exists; split.
  - intros (x & Hx & [? ?%Z.eqb_eq]%andb_true_iff); exists x; split; [by apply list_elem_of_In|done].
  - intros (x & Hx & Hl & <-); exists x; split; [by apply list_elem_of_In|by rewrite Hl, Z.eqb_refl].
Qed.

Lemma keys_length_lt l i x : l !! i = Some x → live x = false → (length (keys l) < length l)%nat.
Proof.
  unfold keys; rewrite length_fmap; revert i; induction l as [|y l IH]; intros [|i] E Hx; cbn in E; simplify_eq.
  - rewrite filter_cons, decide_False by congruence; pose proof (length_filter (λ x, live x = true) l); cbn; lia.
  - rewrite filter_cons; case_decide; cbn; specialize (IH i E Hx); lia.
Qed.

(** An unused entry becomes live, under a fresh key. *)
Lemma keys_insert_fresh l i x y : l !! i = Some y → live y = false → live x = true →
  keys (<[i := x]> l) ≡ₚ key x :: keys l.
Proof.
  intros E Hy Hx; pose proof (keys_insert l i x y E) as P; unfold key_of in P; rewrite Hy, Hx, app_nil_r in P.
  rewrite P; solve_Permutation.
Qed.

(** A live entry is released. *)
Lemma keys_insert_free l i x y : l !! i = Some y → live y = true → live x = false →
  keys l ≡ₚ key y :: keys (<[i := x]> l).
Proof.
  intros E Hy Hx; pose proof (keys_insert l i x y E) as P; unfold key_of in P; rewrite Hy, Hx, app_nil_r in P.
  rewrite <- P; solve_Permutation.
Qed.

(** An entry changes but its key. *)
Lemma keys_insert_same l i x y : l !! i = Some y → live x = live y → key x = key y → keys (<[i := x]> l) = keys l.
Proof.
  revert i; induction l as [|z l IH]; intros [|i] E Hl Hk; cbn in E; simplify_eq.
  - change (<[0%nat := x]> (y :: l)) with (x :: l); rewrite !keys_cons; unfold key_of; by rewrite Hl, Hk.
  - change (<[S i := x]> (z :: l)) with (z :: <[i := x]> l); rewrite !keys_cons; by rewrite (IH i).
Qed.
End live.
#[global] Arguments keys : simpl never.

(** ** Allocation of identifiers *)

Lemma next_id_range id : 1 ≤ id < 4294967296 →
  let next := to_u32 (id + 1) in let next := if next =? 0 then 1 else next in
  next = (id - 1 + 1) mod 4294967295 + 1.
Proof.
  intros Hid; cbv zeta; unfold to_unsigned; norm_pow.
  destruct (decide (id = 4294967295)) as [->|]; [reflexivity|].
  rewrite (Z.mod_small (id + 1)) by lia; rewrite (proj2 (Z.eqb_neq _ _)) by lia; rewrite Z.mod_small; lia.
Qed.

Lemma allocate_id_sound in_use tries next id next' :
  u32_range next → allocate_id in_use tries next = (id, next') →
  u32_range next' ∧ u32_range id ∧ (id ≠ 0 → in_use id = false).
Proof.
  revert next; induction tries as [|tries IH]; intros next Hn E; cbn [allocate_id] in E; [simplify_eq; by ranges|].
  set (c := if next =? 0 then 1 else next) in *.
  assert (Hc : 1 ≤ c < 4294967296) by (unfold c; destruct (Z.eqb_spec next 0); ranges; lia).
  pose proof (next_id_range c Hc) as Hnext; cbv zeta in Hnext; rewrite Hnext in E.
  pose proof (Z.mod_pos_bound (c - 1 + 1) 4294967295 ltac:(lia)).
  destruct (in_use c) eqn:Eu; cbn [negb] in E; [eapply IH; [|exact E]; ranges; lia|].
  simplify_eq; split_and!; [ranges; lia|ranges; lia|done].
Qed.

Lemma allocate_id_full in_use tries next next' : 0 ≤ next < 4294967296 →
  allocate_id in_use tries next = (0, next') →
  ∀ k, 0 ≤ k < Z.of_nat tries → in_use ((Z.max 1 next - 1 + k) mod 4294967295 + 1) = true.
Proof.
  revert next; induction tries as [|tries IH]; intros next Hn E k Hk; cbn [allocate_id] in E; [lia|].
  replace (if next =? 0 then 1 else next) with (Z.max 1 next) in E by (destruct (Z.eqb_spec next 0); lia).
  assert (Hc : 1 ≤ Z.max 1 next < 4294967296) by lia; revert Hc E; generalize (Z.max 1 next) as c; intros c Hc E.
  pose proof (next_id_range c Hc) as Hnext; cbv zeta in Hnext; rewrite Hnext in E.
  pose proof (Z.mod_pos_bound (c - 1 + 1) 4294967295 ltac:(lia)) as Hm.
  destruct (in_use c) eqn:Eu; cbn [negb] in E; [|simplify_eq; lia].
  destruct (decide (k = 0)) as [->|]; [by rewrite Z.add_0_r, Z.mod_small, Z.sub_add by lia|].
  specialize (IH ((c - 1 + 1) mod 4294967295 + 1) ltac:(lia) E (k - 1) ltac:(lia)).
  rewrite Z.max_r in IH by lia; rewrite Z.add_simpl_r, Zplus_mod_idemp_l in IH.
  by replace (c - 1 + 1 + (k - 1)) with (c - 1 + k) in IH by lia.
Qed.

(** With fewer identifiers in use than tries, allocation succeeds. *)
Lemma allocate_id_succeeds in_use ids tries next :
  (∀ x, in_use x = true → x ∈ ids) → (length ids < tries)%nat → Z.of_nat tries < 4294967295 → u32_range next →
  (allocate_id in_use tries next).1 ≠ 0.
Proof.
  intros Hids Hlen Ht Hn E; destruct (allocate_id in_use tries next) as [id next'] eqn:Ea; cbn in E; subst id.
  pose proof (allocate_id_full in_use tries next next' ltac:(ranges; lia) Ea) as Hall.
  set (c := λ k, (Z.max 1 next - 1 + k) mod 4294967295 + 1).
  assert (Hsub : c <$> seqZ 0 (Z.of_nat tries) ⊆+ ids).
  { apply NoDup_submseteq.
    - apply NoDup_fmap_2_strong; [|apply NoDup_seqZ]; intros x y Hx%elem_of_seqZ Hy%elem_of_seqZ Exy.
      apply (slot_inj 4294967295 (Z.max 1 next - 1)); unfold c in Exy; lia.
    - intros x (k & -> & Hk%elem_of_seqZ)%list_elem_of_fmap; apply Hids, Hall; lia. }
  apply submseteq_length in Hsub; rewrite length_fmap, length_seqZ in Hsub; lia.
Qed.

(** ** The invariant of the engine *)

Definition sub_live (s : mu_subscription_t) : bool := sub_in_use (sub_identity s).
Definition sub_key (s : mu_subscription_t) : Z := sub_subscription_id (sub_identity s).
Definition item_live (it : mu_monitored_item_t) : bool := mi_in_use (mi_identity it).
Definition item_key (it : mu_monitored_item_t) : Z := mi_monitored_item_id (mi_identity it).
Definition item_owner (it : mu_monitored_item_t) : Z := mi_subscription_id (mi_identity it).

(** Identifiers of the live subscriptions and items, and the owners of the
    live items. *)
Definition sub_ids (e : mu_subscriptions_t) : list Z := keys sub_live sub_key (subs_subscriptions e).
Definition item_ids (e : mu_subscriptions_t) : list Z := keys item_live item_key (subs_monitored_items e).
Definition item_owners (e : mu_subscriptions_t) : list Z := keys item_live item_owner (subs_monitored_items e).

Section invariant.
  Context {caps : BuildCaps} {Hcaps : BuildCapsOk caps}.

Definition item_ok (it : mu_monitored_item_t) : Prop :=
  queue_ok (mi_queue it) ∧ zlen (mi_triggered_items it) = MU_MAX_TRIGGER_LINKS ∧
  0 ≤ mi_triggered_count it ≤ MU_MAX_TRIGGER_LINKS.

Definition retransmit_ok (rs : mu_retransmit_slot_t) : Prop :=
  zlen (rs_message rs) = MU_RETRANSMIT_BYTES ∧ bytes_ok (rs_message rs) ∧ 0 ≤ rs_message_len rs ≤ MU_RETRANSMIT_BYTES.

Definition sub_ok (s : mu_subscription_t) : Prop :=
  retransmit_ok (sub_retransmit (sub_state s)) ∧
  (sub_live s = true →
   1 ≤ sub_max_keep_alive_count (sub_parameters s) ∧
   3 * sub_max_keep_alive_count (sub_parameters s) ≤ sub_lifetime_count (sub_parameters s) < 4294967296 ∧
   1 ≤ sub_sequence_number (sub_state s) < 4294967296).

Record engine_inv (e : mu_subscriptions_t) : Prop := {
  inv_subs_size : zlen (subs_subscriptions e) = MU_MAX_SUBSCRIPTIONS;
  inv_items_size : zlen (subs_monitored_items e) = MU_MAX_MONITORED_ITEMS;
  inv_requests_size : zlen (subs_publish_queue e) = MU_MAX_PUBLISH_REQUESTS;
  inv_sub_ids : NoDup (sub_ids e) ∧ 0 ∉ sub_ids e;
  inv_item_ids : NoDup (item_ids e) ∧ 0 ∉ item_ids e;
  inv_owners : item_owners e ⊆ sub_ids e;
  inv_active : subs_active_monitored_items_count e = zlen (item_ids e);
  inv_next : u32_range (subs_next_subscription_id e) ∧ u32_range (subs_next_monitored_item_id e);
  inv_subs_ok : Forall sub_ok (subs_subscriptions e);
  inv_items_ok : Forall item_ok (subs_monitored_items e)
}.

Lemma zero_queue_ok : queue_ok (mi_queue zero_monitored_item).
Proof.
  pose proof caps_queue_depth.
  assert (Hn : queue_size (mi_queue zero_monitored_item) = 1).
  { unfold queue_size; cbn [mi_queue zero_monitored_item q_size]; rewrite Z.eqb_refl, (proj2 (Z.ltb_ge _ _)); lia. }
  split; rewrite ?Hn; cbn; try lia; [|by rewrite Z.mod_1_r].
  unfold zlen; rewrite length_replicate; lia.
Qed.

Lemma zero_item_ok : item_ok zero_monitored_item.
Proof.
  pose proof caps_trigger_links; split; [apply zero_queue_ok|]; cbn; unfold zlen; rewrite length_replicate; lia.
Qed.

Lemma zero_retransmit_ok : retransmit_ok zero_retransmit.
Proof.
  pose proof caps_retransmit; split_and!; cbn; [unfold zlen; rewrite length_replicate; lia| |lia..].
  apply Forall_replicate; by ranges.
Qed.

Lemma zero_sub_ok : sub_ok zero_subscription.
Proof. split; [apply zero_retransmit_ok|done]. Qed.

Lemma keys_replicate {A} (live : A → bool) key n x : live x = false → keys live key (replicate n x) = [].
Proof. intros Hx; induction n; cbn [replicate]; [done|]; rewrite keys_cons; unfold key_of; by rewrite Hx. Qed.

Lemma init_inv : engine_inv mu_subscriptions_init.
Proof.
  pose proof caps_subscriptions; pose proof caps_monitored_items; pose proof caps_publish_requests.
  split; unfold sub_ids, item_ids, item_owners; cbn [mu_subscriptions_init subs_subscriptions subs_monitored_items
    subs_publish_queue subs_next_subscription_id subs_next_monitored_item_id subs_active_monitored_items_count];
    rewrite ?keys_replicate by done; unfold zlen; rewrite ?length_replicate; try lia.
  - split; [constructor|apply not_elem_of_nil].
  - split; [constructor|apply not_elem_of_nil].
  - done.
  - done.
  - by ranges.
  - apply Forall_replicate, zero_sub_ok.
  - apply Forall_replicate, zero_item_ok.
Qed.

Lemma revise_counts_ok lifetime keep_alive : u32_range lifetime → u32_range keep_alive →
  let '(l, k) := revise_subscription_counts lifetime keep_alive in
  1 ≤ k ∧ 3 * k ≤ l < 4294967296 ∧ lifetime ≤ l.
Proof.
  intros Hl Hk; unfold revise_subscription_counts; change (0xFFFFFFFF / 3) with 1431655765.
  set (k := if 1431655765 <? _ then _ else _).
  assert (1 ≤ k ≤ 1431655765) by (unfold k; repeat split_if; bool_hyps; ranges; lia).
  unfold to_unsigned; norm_pow; rewrite Z.mod_small by lia.
  destruct (Z.ltb_spec lifetime (k * 3)); ranges; lia.
Qed.

Lemma apply_parameters_ok s interval lifetime keep_alive mx prio :
  u32_range lifetime → u32_range keep_alive → retransmit_ok (sub_retransmit (sub_state s)) →
  (sub_live s = true → 1 ≤ sub_sequence_number (sub_state s) < 4294967296) →
  sub_ok (mu_subscription_apply_parameters s interval lifetime keep_alive mx prio).
Proof.
  intros Hl Hk Hr Hs; unfold mu_subscription_apply_parameters.
  pose proof (revise_counts_ok lifetime keep_alive Hl Hk) as H; destruct (revise_subscription_counts _ _) as [l k].
  split; [done|]; intros Hlive; cbn; specialize (Hs Hlive); lia.
Qed.

(** Updates in place. *)
Lemma set_sub_inv e i s s' : engine_inv e → subs_subscriptions e !! i = Some s →
  sub_identity s' = sub_identity s → sub_ok s' → engine_inv (set_sub e i s').
Proof.
  intros [] Hs Hid Hok; unfold set_sub.
  assert (Hk : sub_ids (set_sub e i s') = sub_ids e).
  { apply (keys_insert_same _ _ _ _ _ s); [done|unfold sub_live|unfold sub_key]; by rewrite Hid. }
  unfold set_sub in Hk; split; rewrite ?Hk; cbn; try done.
  - unfold zlen in *; by rewrite length_insert.
  - by apply Forall_insert.
Qed.

Lemma set_item_inv e i it it' : engine_inv e → subs_monitored_items e !! i = Some it →
  item_live it' = item_live it → item_key it' = item_key it → item_owner it' = item_owner it →
  item_ok it' → engine_inv (set_item e i it').
Proof.
  intros [] Hi Hl Hk Ho Hok; unfold set_item.
  assert (Eids : item_ids (set_item e i it') = item_ids e) by (by apply (keys_insert_same _ _ _ _ _ it)).
  assert (Eown : item_owners (set_item e i it') = item_owners e) by (by apply (keys_insert_same _ _ _ _ _ it)).
  unfold set_item in Eids, Eown; split; rewrite ?Eids, ?Eown; cbn; try done.
  - unfold zlen in *; by rewrite length_insert.
  - by apply Forall_insert.
Qed.

Lemma set_publish_queue_inv e l : engine_inv e → zlen l = zlen (subs_publish_queue e) →
  engine_inv (set_publish_queue e l).
Proof. intros [] Hl; split; cbn; try done; lia. Qed.

Lemma create_inv e session interval lifetime keep_alive mx prio enabled now :
  engine_inv e → u32_range lifetime → u32_range keep_alive →
  engine_inv (mu_subscription_create session interval lifetime keep_alive mx prio enabled now e).2.
Proof.
  intros Hinv Hl Hk; pose proof Hinv as [Hss His Hqs [Hsn Hs0] Hids Hown Hact [Hns Hni] Hsok Hiok].
  unfold mu_subscription_create; destruct (list_find _ _) as [[slot s0]|] eqn:Ef; [|done].
  apply list_find_Some in Ef as (Hs & Hfree & _).
  unfold allocate_subscription_id; destruct (allocate_id _ _ _) as [id next] eqn:Ea.
  destruct (allocate_id_sound _ _ _ _ _ Hns Ea) as (Hnext & Hid & Hfresh).
  destruct (Z.eqb_spec id 0) as [|Hnz]; cbn [snd]; [by split; cbn|].
  set (s := set_sub_state _ _); specialize (Hfresh Hnz).
  assert (Hkeys : keys sub_live sub_key (<[slot := s]> (subs_subscriptions e)) ≡ₚ id :: sub_ids e).
  { rewrite (keys_insert_fresh _ _ _ _ _ _ Hs); [|done|]; unfold s, mu_subscription_apply_parameters;
      destruct (revise_subscription_counts _ _); done. }
  assert (Hnot : id ∉ sub_ids e).
  { intros Hin%existsb_keys; unfold subscription_id_in_use in Hfresh; unfold sub_live, sub_key in Hin; congruence. }
  split; cbn [set_sub set_subscriptions sub_ids item_ids item_owners subs_subscriptions subs_monitored_items
    subs_publish_queue subs_next_subscription_id subs_next_monitored_item_id subs_active_monitored_items_count];
    unfold sub_ids, item_ids, item_owners in *; try done.
  - unfold zlen in *; by rewrite length_insert.
  - cbn; rewrite Hkeys; split; [by apply NoDup_cons|]; rewrite elem_of_cons; intros [?|?]; [congruence|done].
  - cbn; intros x Hx; rewrite Hkeys; right; by apply Hown.
  - cbn; apply Forall_insert; [done|].
    assert (Hp : sub_ok s); [|done].
    pose proof (revise_counts_ok lifetime keep_alive Hl Hk) as Hrev; unfold s, mu_subscription_apply_parameters.
    destruct (revise_subscription_counts _ _) as [l k]; split; [apply zero_retransmit_ok|]; cbn; lia.
Qed.

(** With a free slot, creation succeeds. *)
Lemma create_succeeds e session interval lifetime keep_alive mx prio enabled now :
  engine_inv e → (∃ s, s ∈ subs_subscriptions e ∧ sub_live s = false) →
  ∃ slot, (mu_subscription_create session interval lifetime keep_alive mx prio enabled now e).1 = Ok slot.
Proof.
  intros [Hss _ _ _ _ _ _ [Hns _] _ _] (s & Hs & Hfree); pose proof caps_subscriptions.
  apply list_elem_of_lookup_1 in Hs as [i Hi].
  unfold mu_subscription_create; destruct (list_find _ _) as [[slot s0]|] eqn:Ef.
  - unfold allocate_subscription_id.
    pose proof (allocate_id_succeeds (subscription_id_in_use e) (sub_ids e) (S (Z.to_nat MU_MAX_SUBSCRIPTIONS))
      (subs_next_subscription_id e)) as Hok; destruct (allocate_id _ _ _) as [id next]; cbn [fst] in Hok.
    destruct (Z.eqb_spec id 0) as [->|]; [exfalso; apply Hok; [|..|done]|eauto].
    + intros x Hx; by apply existsb_keys.
    + pose proof (keys_length_lt sub_live sub_key _ _ _ Hi Hfree); unfold sub_ids, zlen in *; lia.
    + lia.
    + done.
  - rewrite list_find_None in Ef; rewrite Forall_forall in Ef.
    destruct (Ef s); [by eapply list_elem_of_lookup_2|done].
Qed.

Lemma subscription_find_Some e session id i s : mu_subscription_find e session id = Some (i, s) →
  subs_subscriptions e !! i = Some s ∧ owned_by session id s.
Proof. intros (? & ? & _)%list_find_Some; done. Qed.

(** Deleting the items of a subscription. *)
Definition erase (id : Z) (it : mu_monitored_item_t) : mu_monitored_item_t :=
  if item_of id it then zero_monitored_item else it.

Lemma delete_items_spec id items active : 0 ≤ active →
  delete_items id items active =
    (erase id <$> items, Z.max 0 (active - zlen (filter (λ it, item_of id it = true) items))).
Proof.
  revert active; induction items as [|it items IH]; intros active Ha; cbn [delete_items].
  { change (zlen _) with 0; f_equal; lia. }
  rewrite filter_cons, fmap_cons; unfold erase at 1; destruct (item_of id it) eqn:E.
  - rewrite decide_True by done; rewrite IH by (destruct (Z.ltb_spec 0 active); lia); f_equal.
    rewrite zlen_cons; pose proof (zlen_nonneg (filter (λ it, item_of id it = true) items)).
    destruct (Z.ltb_spec 0 active); lia.
  - rewrite decide_False by congruence; by rewrite IH.
Qed.

Lemma erase_key_of {key : mu_monitored_item_t → Z} id it :
  key_of item_live key (erase id it) = if item_of id it then [] else key_of item_live key it.
Proof. unfold erase; destruct (item_of id it); done. Qed.

Lemma erase_keys key id items : keys item_live key (erase id <$> items) `sublist_of` keys item_live key items.
Proof.
  induction items as [|it items IH]; [done|]; rewrite fmap_cons, !keys_cons, erase_key_of.
  destruct (item_of id it); [by apply sublist_inserts_l|by apply sublist_app].
Qed.

Lemma erase_owners id items x : x ∈ keys item_live item_owner (erase id <$> items) →
  x ≠ id ∧ x ∈ keys item_live item_owner items.
Proof.
  intros Hx; split; [|eapply elem_of_submseteq; [done|]; apply sublist_submseteq, erase_keys].
  induction items as [|it items IH]; [by apply not_elem_of_nil in Hx|].
  rewrite fmap_cons, keys_cons, erase_key_of, elem_of_app in Hx; destruct Hx as [Hx|]; [|auto].
  destruct (item_of id it) eqn:E; [by apply not_elem_of_nil in Hx|].
  unfold key_of in Hx; destruct (item_live it) eqn:El; [|by apply not_elem_of_nil in Hx].
  apply list_elem_of_singleton in Hx; intros ->; unfold item_of in E.
  unfold item_live, item_owner in *; rewrite El, Hx, Z.eqb_refl in E; done.
Qed.

Lemma erase_count id items :
  zlen (keys item_live item_key items) =
  zlen (keys item_live item_key (erase id <$> items)) + zlen (filter (λ it, item_of id it = true) items).
Proof.
  induction items as [|it items IH]; [done|]; rewrite fmap_cons, !keys_cons, erase_key_of, filter_cons.
  rewrite zlen_app, IH; destruct (item_of id it) eqn:E.
  - rewrite decide_True, zlen_cons by done; unfold key_of.
    assert (item_live it = true) as -> by (unfold item_of, item_live in *; by destruct (mi_in_use _)).
    rewrite zlen_app; change (zlen [_]) with 1; change (zlen (@nil Z)) with 0; lia.
  - rewrite decide_False by congruence; rewrite zlen_app; lia.
Qed.

Lemma delete_inv e session id : engine_inv e → engine_inv (mu_subscription_delete session id e).2.
Proof.
  intros Hinv; pose proof Hinv as [Hss His Hqs [Hsn Hs0] [Hin Hi0] Hown Hact Hnext Hsok Hiok].
  unfold mu_subscription_delete; destruct (mu_subscription_find e session id) as [[i s]|] eqn:Ef; [|done].
  apply subscription_find_Some in Ef as (Hs & Hlive & _ & Hid).
  rewrite delete_items_spec by (rewrite Hact; apply zlen_nonneg); cbn [snd].
  pose proof (keys_insert_free sub_live sub_key _ _ zero_subscription _ Hs Hlive eq_refl) as Hkeys.
  change (sub_key s) with (sub_subscription_id (sub_identity s)) in Hkeys; rewrite Hid in Hkeys.
  fold (sub_ids e) in Hkeys; rewrite Hkeys in Hsn, Hs0.
  pose proof (erase_keys item_key id (subs_monitored_items e)) as Hsub.
  split; unfold sub_ids, item_ids, item_owners in *; cbn; try done.
  - unfold zlen in *; by rewrite length_insert.
  - unfold zlen in *; by rewrite length_fmap.
  - apply NoDup_cons in Hsn as [_ Hsn]; split; [done|]; intros ?; apply Hs0; by right.
  - split; [by eapply sublist_NoDup|]; intros H0; apply Hi0; eapply elem_of_submseteq; [done|by apply sublist_submseteq].
  - intros x [Hne Hx]%erase_owners; apply Hown in Hx; rewrite Hkeys in Hx; by apply elem_of_cons in Hx as [?|?].
  - pose proof (erase_count id (subs_monitored_items e)).
    pose proof (zlen_nonneg (keys item_live item_key (erase id <$> subs_monitored_items e))); lia.
  - apply Forall_insert; [done|apply zero_sub_ok].
  - apply Forall_fmap; eapply Forall_impl; [exact Hiok|]; intros it Hit; cbn; unfold erase.
    destruct (item_of id it); [apply zero_item_ok|done].
Qed.

Lemma subscription_find_ids e session id i s : mu_subscription_find e session id = Some (i, s) → id ∈ sub_ids e.
Proof.
  intros (Hs & Hlive & _ & Hid)%subscription_find_Some.
  apply elem_of_keys; exists s; split; [by eapply list_elem_of_lookup_2|done].
Qed.

Lemma item_alloc_inv e id : engine_inv e → id ∈ sub_ids e → engine_inv (mu_monitored_item_alloc id e).2.
Proof.
  intros Hinv Hsub.
  pose proof Hinv as [Hss His Hqs Hsids [Hin Hi0] Hown Hact [Hns Hni] Hsok Hiok].
  unfold mu_monitored_item_alloc; destruct (list_find _ _) as [[slot it0]|] eqn:Ef; [|done].
  apply list_find_Some in Ef as (Hit & Hfree & _).
  unfold allocate_monitored_item_id; destruct (allocate_id _ _ _) as [mid next] eqn:Ea.
  destruct (allocate_id_sound _ _ _ _ _ Hni Ea) as (Hnext & Hmid & Hfresh).
  destruct (Z.eqb_spec mid 0) as [|Hnz]; cbn [snd]; [by split; cbn|].
  set (it := mk_monitored_item _ _ _ _ _ _ _); specialize (Hfresh Hnz).
  pose proof (keys_insert_fresh item_live item_key _ _ it _ Hit Hfree eq_refl) as Hkeys.
  pose proof (keys_insert_fresh item_live item_owner _ _ it _ Hit Hfree eq_refl) as Howners.
  change (item_key it) with mid in Hkeys; change (item_owner it) with id in Howners.
  assert (Hnot : mid ∉ item_ids e).
  { intros Hx%existsb_keys; unfold monitored_item_id_in_use in Hfresh; unfold item_live, item_key in Hx; congruence. }
  pose proof (keys_length_lt item_live item_key _ _ _ Hit Hfree) as Hlt; pose proof caps_monitored_items.
  split; unfold sub_ids, item_ids, item_owners in *; cbn; try done.
  - unfold zlen in *; by rewrite length_insert.
  - rewrite Hkeys; split; [by apply NoDup_cons|]; rewrite elem_of_cons; intros [?|?]; [congruence|done].
  - intros x Hx; rewrite Howners in Hx; apply elem_of_cons in Hx as [->|Hx]; [done|by apply Hown].
  - unfold zlen; rewrite Hkeys; cbn [length]; rewrite Hact; unfold zlen, to_unsigned in *; norm_pow.
    rewrite Z.mod_small; lia.
  - apply Forall_insert; [done|exact zero_item_ok].
Qed.

Lemma item_delete_inv e id mid : engine_inv e → engine_inv (mu_monitored_item_delete id mid e).2.
Proof.
  intros Hinv; pose proof Hinv as [Hss His Hqs Hsids [Hin Hi0] Hown Hact Hnext Hsok Hiok].
  unfold mu_monitored_item_delete; destruct (list_find _ _) as [[i it]|] eqn:Ef; [|done].
  apply list_find_Some in Ef as (Hit & (Hlive & _) & _); cbn [snd].
  pose proof (keys_insert_free item_live item_key _ _ zero_monitored_item _ Hit Hlive eq_refl) as Hkeys.
  pose proof (keys_insert_free item_live item_owner _ _ zero_monitored_item _ Hit Hlive eq_refl) as Howners.
  unfold item_ids, item_owners in *; rewrite Hkeys in Hin, Hi0.
  split; unfold item_ids, item_owners; cbn; try done.
  - unfold zlen in *; by rewrite length_insert.
  - apply NoDup_cons in Hin as [_ Hin]; split; [done|]; intros ?; apply Hi0; by right.
  - intros x Hx; apply Hown; rewrite Howners; by right.
  - rewrite Hact; unfold zlen in *; apply Permutation_length in Hkeys; cbn [length] in Hkeys.
    rewrite (proj2 (Z.ltb_lt _ _)) by lia; lia.
  - apply Forall_insert; [done|apply zero_item_ok].
Qed.

Lemma add_link_inv e id a b : engine_inv e →
  engine_inv (mu_monitored_item_add_trigger_link id a b e).2 ∧
  (mu_monitored_item_add_trigger_link id a b e).1 ≠ Fault.
Proof.
  intros Hinv; unfold mu_monitored_item_add_trigger_link, find_monitored_item_in_subscription.
  destruct (list_find (is_item id a) _) as [[i it]|] eqn:Ef; [|done].
  destruct (list_find (is_item id b) _); [|done].
  apply list_find_Some in Ef as (Hit & _ & _); pose proof caps_trigger_links.
  pose proof (Forall_lookup_1 _ _ _ _ (inv_items_ok e Hinv) Hit) as (Hq & Hl & Hc).
  destruct (existsb _ _); [done|]; destruct (Z.leb_spec MU_MAX_TRIGGER_LINKS (mi_triggered_count it)); [done|].
  rewrite mem_store_one by lia; cbn [fst snd]; split; [|done].
  apply (set_item_inv _ _ it); [done..|]; split; [done|]; cbn [set_triggered mi_triggered_items mi_triggered_count].
  rewrite to_u8_small by lia; unfold zlen in *; rewrite length_insert; lia.
Qed.

Lemma remove_link_length links count (k : nat) : Z.of_nat k < count ≤ zlen links →
  zlen (remove_link links count k) = zlen links.
Proof.
  intros Hk; unfold remove_link, zlen, ztake, zdrop in *.
  rewrite !length_app, !length_take, !length_drop; cbn [length]; lia.
Qed.

Lemma remove_link_inv e id a b : engine_inv e →
  engine_inv (mu_monitored_item_remove_trigger_link id a b e).2.
Proof.
  intros Hinv; unfold mu_monitored_item_remove_trigger_link, find_monitored_item_in_subscription.
  destruct (list_find (is_item id a) _) as [[i it]|] eqn:Ef; [|done].
  destruct (list_find (is_item id b) _); [|done].
  apply list_find_Some in Ef as (Hit & _ & _).
  pose proof (Forall_lookup_1 _ _ _ _ (inv_items_ok e Hinv) Hit) as (Hq & Hl & Hc).
  destruct (list_find _ _) as [[k x]|] eqn:Ek; [|done]; cbn [snd].
  apply list_find_Some in Ek as (Hx & _ & _); apply lookup_lt_Some in Hx; unfold ztake in Hx.
  rewrite length_take in Hx; unfold zlen in Hl.
  apply (set_item_inv _ _ it); [done..|]; split; [done|]; cbn [set_triggered mi_triggered_items mi_triggered_count].
  rewrite remove_link_length by (unfold zlen; lia); unfold zlen; lia.
Qed.

Lemma set_retransmit_ok s rs : sub_ok s → retransmit_ok rs → sub_ok (set_retransmit s rs).
Proof. intros [_ ?] ?; by split. Qed.

Lemma acknowledge_inv e session id seq : engine_inv e →
  engine_inv (mu_subscription_acknowledge session id seq e).2.
Proof.
  intros Hinv; unfold mu_subscription_acknowledge.
  destruct (mu_subscription_find e session id) as [[i s]|] eqn:Ef; [|done]; split_if; [|done]; cbn [snd].
  apply subscription_find_Some in Ef as [Hs _].
  pose proof (Forall_lookup_1 _ _ _ _ (inv_subs_ok e Hinv) Hs) as Hok; pose proof caps_retransmit.
  apply (set_sub_inv _ _ s); [done..|]; apply set_retransmit_ok; [done|].
  destruct Hok as [(? & ? & ?) _]; split_and!; cbn; [done|done|lia..].
Qed.

Lemma resend_inv e session id : engine_inv e → engine_inv (mu_subscription_request_resend_data session id e).2.
Proof.
  intros Hinv; unfold mu_subscription_request_resend_data.
  destruct (mu_subscription_find e session id) as [[i s]|] eqn:Ef; [|done]; cbn [snd].
  apply subscription_find_Some in Ef as [Hs _].
  pose proof (Forall_lookup_1 _ _ _ _ (inv_subs_ok e Hinv) Hs) as [? ?].
  apply (set_sub_inv _ _ s); [done..|]; by split.
Qed.

Lemma publish_enqueue_inv e session rid handle now : engine_inv e →
  engine_inv (mu_publish_request_enqueue session rid handle now e).2.
Proof.
  intros Hinv; unfold mu_publish_request_enqueue; destruct (list_find _ _) as [[slot r]|]; [|done]; cbn [snd].
  apply set_publish_queue_inv; [done|]; unfold zlen; by rewrite length_insert.
Qed.

Lemma dequeue_inv e session : engine_inv e → engine_inv (publish_request_dequeue e session).2.
Proof.
  intros Hinv; unfold publish_request_dequeue; destruct (oldest_request _ _ _ _) as [[i r]|]; [|done]; cbn [snd].
  apply set_publish_queue_inv; [done|]; unfold zlen; by rewrite length_insert.
Qed.

(** ** Publish requests are served oldest first *)

Definition parked (session_id : Z) (r : mu_publish_request_t) : Prop :=
  pr_in_use r = true ∧ pr_session_id r = session_id.

Lemma oldest_request_spec session queue : ∀ (i : nat) best,
  (∀ j b, best = Some (j, b) → parked session b) →
  match oldest_request session queue i best with
  | None => best = None ∧ ∀ r, r ∈ queue → ¬ parked session r
  | Some (j, r) => parked session r ∧
      (best = Some (j, r) ∨ (i ≤ j)%nat ∧ queue !! (j - i)%nat = Some r) ∧
      (∀ r', r' ∈ queue → parked session r' → pr_enqueued_ms r ≤ pr_enqueued_ms r') ∧
      (∀ j' b, best = Some (j', b) → pr_enqueued_ms r ≤ pr_enqueued_ms b)
  end.
Proof.
  induction queue as [|req queue IH]; intros i best Hbest; cbn [oldest_request].
  { destruct best as [[j r]|].
    - split_and!; [by eapply Hbest|by left|by intros ? ?%not_elem_of_nil|]; intros; simplify_eq; lia.
    - split; [done|]; by intros ? ?%not_elem_of_nil. }
  set (best' := if _ : bool then _ else _); specialize (IH (S i) best').
  assert (Hcase : (best' = best ∧ (parked session req → ∃ j b, best = Some (j, b) ∧ pr_enqueued_ms b ≤ pr_enqueued_ms req)) ∨
    (best' = Some (i, req) ∧ parked session req ∧ ∀ j b, best = Some (j, b) → pr_enqueued_ms req ≤ pr_enqueued_ms b)).
  { unfold best', parked; destruct (pr_in_use req) eqn:Eu; cbn [negb orb]; [|left; split; [done|by intros [? ?]]].
    destruct (Z.eqb_spec (pr_session_id req) session) as [Es|Es]; cbn [negb]; [|left; split; [done|by intros [_ ?]]].
    destruct best as [[j b]|]; [destruct (Z.ltb_spec (pr_enqueued_ms req) (pr_enqueued_ms b))|].
    - right; split_and!; [done..|]; intros; simplify_eq; lia.
    - left; split; [done|]; intros _; by exists j, b.
    - right; split_and!; done. }
  assert (Hbest' : ∀ j b, best' = Some (j, b) → parked session b).
  { destruct Hcase as [[-> _]|(-> & ? & _)]; [done|]; intros; by simplify_eq. }
  specialize (IH Hbest'); destruct (oldest_request session queue (S i) best') as [[j r]|].
  - destruct IH as (Hp & Hwhere & Hmin & Hleb); split; [done|]; split_and!.
    + destruct Hwhere as [E|[? E]].
      * destruct Hcase as [[-> _]|(-> & _)]; [by left|]; simplify_eq; right; split; [lia|]; by rewrite Nat.sub_diag.
      * right; split; [lia|]; by replace (j - i)%nat with (S (j - S i)) by lia.
    + intros r' [->|Hr']%elem_of_cons Hpr; [|auto].
      destruct Hcase as [[-> Hb]|(-> & _ & _)]; [destruct (Hb Hpr) as (j' & b & E & ?); specialize (Hleb j' b E); lia|].
      by eapply Hleb.
    + intros j' b E; destruct Hcase as [[-> _]|(-> & _ & Hle)]; [by eapply Hleb|].
      specialize (Hleb i req eq_refl); specialize (Hle j' b E); lia.
  - destruct IH as [En Hnone]; destruct Hcase as [[E Hb]|(E & _)]; [|congruence]; rewrite E in En; split; [done|].
    intros r [->|Hr]%elem_of_cons; [|auto]; intros Hpr; destruct (Hb Hpr) as (j & b & ? & _); congruence.
Qed.

Lemma dequeue_fifo e session :
  match publish_request_dequeue e session with
  | (None, e') => e' = e ∧ ∀ r, r ∈ subs_publish_queue e → ¬ parked session r
  | (Some r, e') => ∃ i, subs_publish_queue e !! i = Some r ∧ parked session r ∧
      e' = set_publish_queue e (<[i := zero_publish_request]> (subs_publish_queue e)) ∧
      ∀ r', r' ∈ subs_publish_queue e → parked session r' → pr_enqueued_ms r ≤ pr_enqueued_ms r'
  end.
Proof.
  unfold publish_request_dequeue; pose proof (oldest_request_spec session (subs_publish_queue e) 0 None) as H.
  specialize (H ltac:(done)); destruct (oldest_request _ _ _ _) as [[i r]|]; [|split; [done|apply H]].
  destruct H as (Hp & [?|[_ Hr]] & Hmin & _); [done|]; rewrite Nat.sub_0_r in Hr; exists i; by split_and!.
Qed.
End invariant.
