(* ===== verification/Publish.v ===== *)
(** * Publishing

    The cyclic half of [src/services/subscription.c]: which items report,
    NotificationMessages and their encoding, the publishing timer, keep-alive
    messages, retransmission, and the tick that samples the items and serves
    due subscriptions. Messages leave through the class [Emitter], which
    [mu_server_emit_message] of [src/core/server.c] implements for the engine;
    the theorems hold for every emitter. [None] stands for undefined
    behaviour. *)

From S2P Require Export Subscription Dispatch.

Class PublishProfile := {
  MUC_OPCUA_EVENTS : bool;
  MUC_OPCUA_MULTIPLE_CONNECTIONS : bool
}.

(** Send a message body for a request on a connection: the status and the new
    state of the transport. *)
Class Emitter (Out : Type) := emit_message : Out → option nat → Z → list Z → Z * Out.

Definition MU_PUBLISH_BODY_BYTES : Z := 512.
Definition MU_ID_DATACHANGENOTIFICATION_ENCODING_DEFAULTBINARY : Z := 811.

Section publish.
  Context {profile : BaseProfile} {pub : PublishProfile} {caps : BuildCaps}.

(** ** Which items report *)

Definition monitored_item_in_subscription (it : mu_monitored_item_t) (s : mu_subscription_t) : bool :=
  item_of (sub_key s) it.

Definition monitored_item_reportable (it : mu_monitored_item_t) (s : mu_subscription_t) : bool :=
  item_of (sub_key s) it &&
  (if MUC_OPCUA_SUBSCRIPTIONS_STANDARD then mi_pending (mi_sample it) || (0 <? q_count (mi_queue it))
   else mi_pending (mi_sample it)) &&
  (mi_monitoring_mode (mi_parameters it) =? MU_MONITORING_MODE_REPORTING).

(** Does a reporting item of the subscription trigger the linked item? *)
Definition monitored_item_reports_by_trigger (items : list mu_monitored_item_t) (s : mu_subscription_t)
    (linked : mu_monitored_item_t) : bool :=
  monitored_item_in_subscription linked s &&
  (mi_monitoring_mode (mi_parameters linked) =? MU_MONITORING_MODE_SAMPLING) &&
  negb (q_count (mi_queue linked) =? 0) &&
  existsb (λ it, monitored_item_reportable it s &&
                 existsb (λ x, x =? mi_monitored_item_id (mi_identity linked))
                   (ztake (mi_triggered_count it) (mi_triggered_items it))) items.

(** The loop of [count_queue_entries]: [false] when the limit is reached. *)
Fixpoint count_queue_entries (count max_notifications : Z) (queue_count : nat) : bool * Z :=
  match queue_count with
  | O => (true, count)
  | S queue_count =>
      if negb (max_notifications =? 0) && (max_notifications <=? to_u32 count) then (false, count)
      else count_queue_entries (count + 1) max_notifications queue_count
  end.

(** One of the counting loops, over the items that [selected] picks. *)
Fixpoint count_items (selected : mu_monitored_item_t → bool) (max_notifications : Z)
    (items : list mu_monitored_item_t) (count : Z) : bool * Z :=
  match items with
  | [] => (true, count)
  | it :: items =>
      if selected it then
        match count_queue_entries count max_notifications (Z.to_nat (q_count (mi_queue it))) with
        | (false, count) => (false, count)
        | (true, count) => count_items selected max_notifications items count
        end
      else count_items selected max_notifications items count
  end.

(** The number of notifications and whether more remain. *)
Definition count_reportable_items (items : list mu_monitored_item_t) (s : mu_subscription_t) : Z * bool :=
  if MUC_OPCUA_SUBSCRIPTIONS_STANDARD then
    let mx := sub_max_notifications_per_publish (sub_parameters s) in
    match count_items (λ it, monitored_item_reportable it s) mx items 0 with
    | (false, count) => (count, true)
    | (true, count) =>
        match count_items (monitored_item_reports_by_trigger items s) mx items count with
        | (false, count) => (count, true)
        | (true, count) => (count, false)
        end
    end
  else (zlen (filter (λ it, monitored_item_reportable it s = true) items), sub_more_notifications (sub_state s)).

(** ** Preparing and clearing queues *)

Definition prepare_item (s : mu_subscription_t) (it : mu_monitored_item_t) : option mu_monitored_item_t :=
  if monitored_item_in_subscription it s && negb (mi_monitoring_mode (mi_parameters it) =? MU_MONITORING_MODE_DISABLED)
  then monitored_item_prepare_pending_queue it else Some it.

Definition prepare_reportable_queues (items : list mu_monitored_item_t) (s : mu_subscription_t)
    : option (list mu_monitored_item_t) := mapM (prepare_item s) items.

Definition resend_item (now : Z) (s : mu_subscription_t) (it : mu_monitored_item_t) : option mu_monitored_item_t :=
  if negb (monitored_item_in_subscription it s)
     || negb (mi_monitoring_mode (mi_parameters it) =? MU_MONITORING_MODE_REPORTING) then Some it
  else
    '(status, cur) ← read_monitored_item_value now it zero_variant;
    if status =? MU_STATUS_GOOD then monitored_item_enqueue_report (set_last it cur status) cur status
    else if mi_has_value (mi_sample it) then
      monitored_item_enqueue_report (set_last_status it status) (mi_last_value (mi_sample it)) status
    else
      let cur := mk_variant MU_TYPE_NULL (v_value cur) (v_is_array cur) (v_array_length cur) in
      monitored_item_enqueue_report (set_last it cur status) cur status.

(** Only when a resend is pending; the caller clears the flag. *)
Definition enqueue_resend_data (now : Z) (items : list mu_monitored_item_t) (s : mu_subscription_t)
    : option (list mu_monitored_item_t) :=
  if negb (sub_resend_data_pending (sub_state s)) then Some items else mapM (resend_item now s) items.

Fixpoint drain_items (selected : list (mu_monitored_item_t * bool)) (remaining : Z)
    : list mu_monitored_item_t * Z :=
  match selected with
  | [] => ([], remaining)
  | (it, sel) :: rest =>
      let '(it, remaining) := if (0 <? remaining) && sel then monitored_item_drain_reported_entries it remaining
                              else (it, remaining) in
      let '(rest, remaining) := drain_items rest remaining in (it :: rest, remaining)
  end.

Definition clear_reported_items (items : list mu_monitored_item_t) (s : mu_subscription_t) (report_count : Z)
    : list mu_monitored_item_t :=
  if MUC_OPCUA_SUBSCRIPTIONS_STANDARD then
    let triggered := monitored_item_reports_by_trigger items s <$> items in
    let reportable := (λ it, monitored_item_reportable it s) <$> items in
    let '(items, remaining) := drain_items (zip items reportable) report_count in
    (drain_items (zip items triggered) remaining).1
  else (λ it, if monitored_item_reportable it s then set_pending it false else it) <$> items.

(** ** Encoding *)

Definition write_publish_response_prefix (request_handle : Z) : Wr unit :=
  mu_binary_write_nodeid (mk_nodeid 0 (MU_NODEID_NUMERIC MU_ID_PUBLISHRESPONSE));;
  mu_response_header_encode (mk_response_header 0 request_handle MU_STATUS_GOOD).

Definition backpatch_int32 (position value : Z) : Wr unit :=
  w ← get_state;
  b ← lift_option (w_buffer w);
  b ← lift_option (mem_store b position
        [to_u8 value; to_u8 (Z.shiftr value 8); to_u8 (Z.shiftr value 16); to_u8 (Z.shiftr value 24)]);
  put_state (mk_writer (Some b) (w_length w) (w_position w) (w_status w)).

(** One MonitoredItemNotification. *)
Definition write_notification (client_handle : Z) (value : mu_variant_t) (status : Z) : Wr unit :=
  mu_binary_write_uint32 client_handle;;
  mu_binary_write_datavalue
    (mk_datavalue value (if negb (status =? MU_STATUS_GOOD) then status else 0) 0 0 true
       (negb (status =? MU_STATUS_GOOD)) false false).

(** The queued reports of an item; delivers the budget left. *)
Fixpoint write_queue_entries (it : mu_monitored_item_t) (queue_size entry_index : Z) (queued : nat)
    (report_count : Z) : Wr Z :=
  match queued with
  | O => mret report_count
  | S queued =>
      if 0 <? report_count then
        entry ← lift_option (znth (q_entries (mi_queue it)) entry_index);
        write_notification (mi_client_handle (mi_identity it)) entry.1 entry.2;;
        write_queue_entries it queue_size (monitored_item_queue_next entry_index queue_size) queued (report_count - 1)
      else mret report_count
  end.

Definition write_item_queue (it : mu_monitored_item_t) (report_count : Z) : Wr Z :=
  let q := mi_queue it in
  let queue_size := q_size q in
  let queue_size := if queue_size =? 0 then 1
                    else if MU_MONITORED_QUEUE_DEPTH <? queue_size then MU_MONITORED_QUEUE_DEPTH else queue_size in
  write_queue_entries it queue_size (q_head q) (Z.to_nat (q_count q)) report_count.

Fixpoint write_items (selected : mu_monitored_item_t → bool) (items : list mu_monitored_item_t) (report_count : Z)
    : Wr Z :=
  match items with
  | [] => mret report_count
  | it :: items =>
      report_count ← (if selected it then
                        if MUC_OPCUA_SUBSCRIPTIONS_STANDARD then write_item_queue it report_count
                        else write_notification (mi_client_handle (mi_identity it)) (mi_last_value (mi_sample it))
                               (mi_last_status (mi_sample it));; mret report_count
                      else mret report_count);
      write_items selected items report_count
  end.

Definition write_data_change_notification (items : list mu_monitored_item_t) (s : mu_subscription_t)
    (report_count : Z) : Wr unit :=
  mu_binary_write_nodeid (mk_nodeid 0 (MU_NODEID_NUMERIC MU_ID_DATACHANGENOTIFICATION_ENCODING_DEFAULTBINARY));;
  mu_binary_write_byte 1;;
  length_pos ← (w ← get_state; mret (w_position w));
  mu_binary_write_int32 0;;
  body_start ← (w ← get_state; mret (w_position w));
  mu_binary_write_int32 report_count;;
  report_count ← write_items (λ it, monitored_item_reportable it s) items report_count;
  (if MUC_OPCUA_SUBSCRIPTIONS_STANDARD
   then write_items (monitored_item_reports_by_trigger items s) items report_count;; mret tt
   else mret tt);;
  mu_binary_write_int32 0;;
  body_length ← (w ← get_state; mret (to_size (w_position w - body_start)));
  if 0x7FFFFFFF <? body_length then fail MU_STATUS_BAD_RESPONSETOOLARGE
  else backpatch_int32 length_pos body_length.

(** ** Events *)

Definition reports_events (s : mu_subscription_t) (it : mu_monitored_item_t) : bool :=
  item_of (sub_key s) it && (mi_attribute_id (mi_identity it) =? 12) &&
  (mi_monitoring_mode (mi_parameters it) =? MU_MONITORING_MODE_REPORTING).

(** The field a select clause asks for. *)
Definition event_field (ev : mu_event_notification_t) (field_type : Z) : mu_variant_t :=
  if field_type =? 1 then mk_variant MU_TYPE_BYTESTRING (VV_bytestr (ev_event_id ev)) false 0
  else if field_type =? 2 then mk_variant MU_TYPE_NODEID (VV_nodeid (ev_event_type ev)) false 0
  else if field_type =? 3 then mk_variant MU_TYPE_DATETIME (VV_dt (ev_time ev)) false 0
  else if field_type =? 4 then
    mk_variant MU_TYPE_LOCALIZEDTEXT (VV_localized_text (mk_localized_text null_string (ev_message ev))) false 0
  else if field_type =? 5 then mk_variant MU_TYPE_UINT16 (VV_ui16 (ev_severity ev)) false 0
  else zero_variant.

(** One EventFieldList. *)
Definition write_event (it : mu_monitored_item_t) (ev : mu_event_notification_t) : Wr unit :=
  let p := mi_parameters it in
  mu_binary_write_uint32 (mi_client_handle (mi_identity it));;
  mu_binary_write_int32 (mi_select_clauses_count p);;
  clauses ← lift_option (mem_load (mi_select_clauses p) 0 (mi_select_clauses_count p));
  wr_list (λ field_type, mu_binary_write_variant (event_field ev field_type)) clauses.

(** The queued events from [idx] on, for one item. *)
Fixpoint write_events (it : mu_monitored_item_t) (queue : list mu_event_notification_t) (idx : Z) (n : nat) : Wr unit :=
  match n with
  | O => mret tt
  | S n =>
      ev ← lift_option (znth queue idx);
      write_event it ev;;
      write_events it queue ((idx + 1) mod MU_MAX_EVENT_QUEUE_SIZE) n
  end.

Definition write_event_notification_list (items : list mu_monitored_item_t) (s : mu_subscription_t) : Wr unit :=
  let type_id := mk_nodeid 0 (MU_NODEID_NUMERIC 914) in
  let reporting := filter (λ it, reports_events s it = true) items in
  let eq := sub_event_queue (sub_state s) in
  if zlen reporting =? 0 then mu_binary_write_extension_object_header type_id 0
  else λ w,
    let sub_w := mu_binary_writer_init (Some (replicate 1024 0)) 1024 in
    let '(x, sub_w) :=
      (mu_binary_write_int32 (zlen reporting * eq_count eq);;
       wr_list (λ it, write_events it (eq_queue eq) (eq_head eq) (Z.to_nat (eq_count eq))) reporting) sub_w in
    match x with
    | Err e => (Err e, w)
    | Fault => (Fault, w)
    | Ok _ =>
        (mu_binary_write_extension_object_header type_id (w_position sub_w);;
         w ← get_state;
         if w_length w <? w_position w + w_position sub_w then fail MU_STATUS_BAD_OUTOFMEMORY
         else
           body ← lift_option (b ← w_buffer sub_w; mem_load b 0 (w_position sub_w));
           b ← lift_option (b ← w_buffer w; mem_store b (w_position w) body);
           put_state (mk_writer (Some b) (w_length w) (w_position w + w_position sub_w) (w_status w))) w
    end.

Definition push_event (eq : mu_event_queue_t) (event : mu_event_notification_t) : option mu_event_queue_t :=
  let '(head, count) := if MU_MAX_EVENT_QUEUE_SIZE <=? eq_count eq
                        then ((eq_head eq + 1) mod MU_MAX_EVENT_QUEUE_SIZE, eq_count eq - 1)
                        else (eq_head eq, eq_count eq) in
  queue ← mem_store (eq_queue eq) (eq_tail eq) [event];
  Some (mk_event_queue queue head ((eq_tail eq + 1) mod MU_MAX_EVENT_QUEUE_SIZE) (count + 1)).

Definition set_event_queue (s : mu_subscription_t) (eq : mu_event_queue_t) : mu_subscription_t :=
  let st := sub_state s in
  set_sub_state s (mk_sub_state (sub_next_publish_ms st) (sub_sequence_number st) (sub_keep_alive_counter st)
    (sub_lifetime_counter st) (sub_publishing_enabled st) (sub_more_notifications st) (sub_resend_data_pending st)
    (sub_retransmit st) eq).

Definition mu_server_trigger_event (e : mu_subscriptions_t) (event : mu_event_notification_t)
    : option mu_subscriptions_t :=
  l ← mapM (λ s, if sub_live s then eq ← push_event (sub_event_queue (sub_state s)) event; Some (set_event_queue s eq)
                 else Some s) (subs_subscriptions e);
  Some (set_subscriptions e l).

(** ** The Publish response *)

Definition event_count (s : mu_subscription_t) : Z :=
  if MUC_OPCUA_EVENTS then eq_count (sub_event_queue (sub_state s)) else 0.

(** Delivers the bounds of the NotificationMessage. *)
Definition build_publish_response (items : list mu_monitored_item_t) (s : mu_subscription_t)
    (request : mu_publish_request_t) (sequence_number : Z) (include_data : bool) (report_count publish_time : Z)
    : Wr (Z * Z) :=
  write_publish_response_prefix (pr_request_handle request);;
  mu_binary_write_uint32 (sub_key s);;
  mu_binary_write_int32 0;;
  mu_binary_write_boolean
    (if MUC_OPCUA_SUBSCRIPTIONS_STANDARD then include_data && sub_more_notifications (sub_state s) else false);;
  message_start ← (w ← get_state; mret (w_position w));
  mu_binary_write_uint32 sequence_number;;
  mu_binary_write_int64 publish_time;;
  mu_binary_write_int32 ((if include_data && (0 <? report_count) then 1 else 0)
                         + (if include_data && (0 <? event_count s) then 1 else 0));;
  (if include_data && (0 <? report_count) then write_data_change_notification items s report_count else mret tt);;
  (if include_data && (0 <? event_count s) then write_event_notification_list items s else mret tt);;
  message_end ← (w ← get_state; mret (w_position w));
  let ack_count := if MU_MAX_PUBLISH_ACKS <? pr_ack_count request then MU_MAX_PUBLISH_ACKS else pr_ack_count request in
  mu_binary_write_int32 ack_count;;
  acks ← lift_option (mem_load (pr_ack_results request) 0 ack_count);
  wr_list mu_binary_write_statuscode acks;;
  mu_binary_write_int32 0;;
  mret (message_start, message_end).

(** ** Publishing state of a subscription *)

Definition set_counters (s : mu_subscription_t) (sequence_number keep_alive : Z) : mu_subscription_t :=
  let st := sub_state s in
  set_sub_state s (mk_sub_state (sub_next_publish_ms st) sequence_number keep_alive
    (sub_lifetime_counter st) (sub_publishing_enabled st) (sub_more_notifications st) (sub_resend_data_pending st)
    (sub_retransmit st) (sub_event_queue st)).

Definition set_flags (s : mu_subscription_t) (more resend : bool) : mu_subscription_t :=
  let st := sub_state s in
  set_sub_state s (mk_sub_state (sub_next_publish_ms st) (sub_sequence_number st) (sub_keep_alive_counter st)
    (sub_lifetime_counter st) (sub_publishing_enabled st) more resend (sub_retransmit st) (sub_event_queue st)).

Definition current_sequence_number (s : mu_subscription_t) : Z :=
  if sub_sequence_number (sub_state s) =? 0 then 1 else sub_sequence_number (sub_state s).

Definition next_sequence_number (n : Z) : Z :=
  let n := to_u32 (n + 1) in if n =? 0 then 1 else n.

Definition store_retransmit (s : mu_subscription_t) (sequence_number publish_time : Z) (body : list Z)
    : option mu_subscription_t :=
  let rs := sub_retransmit (sub_state s) in
  if MU_RETRANSMIT_BYTES <? zlen body
  then Some (set_retransmit s (mk_retransmit_slot false (rs_sequence_number rs) (rs_publish_time rs) (rs_message rs) 0))
  else
    message ← mem_store (rs_message rs) 0 body;
    Some (set_retransmit s (mk_retransmit_slot true sequence_number publish_time message (zlen body))).

Definition publish_response_oversize_status (status : Z) : bool :=
  (status =? MU_STATUS_BAD_ENCODINGERROR) || (status =? MU_STATUS_BAD_OUTOFMEMORY)
  || (status =? MU_STATUS_BAD_RESPONSETOOLARGE).

Definition advance_publish_timer (s : mu_subscription_t) (now_ms : Z) : mu_subscription_t :=
  let st := sub_state s in
  set_sub_state s
    (mk_sub_state (next_publish_time (sub_next_publish_ms st) (sub_publishing_interval_ms (sub_parameters s)) now_ms)
       (sub_sequence_number st) (sub_keep_alive_counter st) (sub_lifetime_counter st) (sub_publishing_enabled st)
       (sub_more_notifications st) (sub_resend_data_pending st) (sub_retransmit st) (sub_event_queue st)).

(** ** Serving a due subscription *)

Context {Out : Type} `{Emitter Out}.

(** Build a response in the 512-octet stack buffer and send it; when it does
    not fit, send a ServiceFault instead. The final status, whether the fault
    was sent, the message as built ([body_length], bounds, octets), the
    transport. *)
Definition transmit (items : list mu_monitored_item_t) (s : mu_subscription_t) (request : mu_publish_request_t)
    (sequence_number : Z) (include_data : bool) (report_count publish_time : Z) (conn : option nat) (out : Out)
    : option (Z * bool * (Z * Z * Z * list Z) * Out) :=
  let '(x, w) := build_publish_response items s request sequence_number include_data report_count publish_time
                   (mu_binary_writer_init (Some (replicate (Z.to_nat MU_PUBLISH_BODY_BYTES) 0)) MU_PUBLISH_BODY_BYTES) in
  body ← w_buffer w;
  '(status, message, out) ←
    match x with
    | Fault => None
    | Err status => Some (status, (0, 0, 0, body), out)
    | Ok (message_start, message_end) =>
        bytes ← mem_load body 0 (w_position w);
        let '(status, out) := emit_message out conn (pr_request_id request) bytes in
        Some (status, (w_position w, message_start, message_end, body), out)
    end;
  if publish_response_oversize_status status then
    match mu_write_service_fault body MU_PUBLISH_BODY_BYTES (pr_request_handle request) MU_STATUS_BAD_RESPONSETOOLARGE with
    | (Ok fault_length, Some body) =>
        bytes ← mem_load body 0 fault_length;
        let '(status, out) := emit_message out conn (pr_request_id request) bytes in
        Some (status, status =? MU_STATUS_GOOD, message, out)
    | (Err status, _) => Some (status, status =? MU_STATUS_GOOD, message, out)
    | _ => None
    end
  else Some (status, false, message, out).

(** The connection of a subscription's session; [None]: skip it. *)
Definition resolve_connection (sessions : list mu_session_t) (conns : list (bool * Z)) (s : mu_subscription_t)
    : option (option nat) :=
  if MUC_OPCUA_MULTIPLE_CONNECTIONS then
    '(_, session) ← list_find (λ ss, ss_state ss ≠ MU_SESSION_STATE_CLOSED ∧
                                     ss_session_id ss = sub_session_id (sub_identity s)) sessions;
    '(c, _) ← list_find (λ conn, conn.1 = true ∧ conn.2 = ss_secure_channel_id session) conns;
    Some (Some c)
  else Some None.

(** What there is to report: the items, the subscription, the count, and
    whether there is data. *)
Definition collect (now : Z) (items : list mu_monitored_item_t) (s : mu_subscription_t)
    : option (list mu_monitored_item_t * mu_subscription_t * Z * bool) :=
  if sub_publishing_enabled (sub_state s) then
    items ← (if MUC_OPCUA_SUBSCRIPTIONS_STANDARD
             then items ← prepare_reportable_queues items s; enqueue_resend_data now items s else Some items);
    let s := if MUC_OPCUA_SUBSCRIPTIONS_STANDARD then set_flags s (sub_more_notifications (sub_state s)) false else s in
    let '(report_count, more) := count_reportable_items items s in
    let s := set_flags s more (sub_resend_data_pending (sub_state s)) in
    Some (items, s, report_count, (0 <? report_count) || (0 <? event_count s))
  else Some (items, s, 0, false).

(** After a data message was sent: clear what it reported, retain it for
    Republish, advance the sequence number. *)
Definition report_sent (items : list mu_monitored_item_t) (s : mu_subscription_t) (report_count sequence_number
    publish_time : Z) (message : Z * Z * Z * list Z) : option (list mu_monitored_item_t * mu_subscription_t) :=
  let '(body_length, message_start, message_end, body) := message in
  let items := clear_reported_items items s report_count in
  let eq := sub_event_queue (sub_state s) in
  let s := if 0 <? event_count s then set_event_queue s (mk_event_queue (eq_queue eq) 0 0 0) else s in
  let s := set_counters s (sub_sequence_number (sub_state s)) 0 in
  s ← (if (message_start <=? message_end) && (message_end <=? body_length) then
         bytes ← mem_load body message_start (message_end - message_start);
         store_retransmit s sequence_number publish_time bytes
       else
         let rs := sub_retransmit (sub_state s) in
         Some (set_retransmit s (mk_retransmit_slot false (rs_sequence_number rs) (rs_publish_time rs) (rs_message rs) 0)));
  Some (items, set_counters s (next_sequence_number (sub_sequence_number (sub_state s))) 0).

(** The engine with the subscription in slot [i] and the items replaced. *)
Definition with_sub (e : mu_subscriptions_t) (i : nat) (s : mu_subscription_t) (items : list mu_monitored_item_t)
    : mu_subscriptions_t := set_items (set_sub e i s) items.

Definition publish_data (publish_time : Z) (conn : option nat) (i : nat) (s : mu_subscription_t)
    (items : list mu_monitored_item_t) (report_count : Z) (e : mu_subscriptions_t) (out : Out)
    : option (mu_subscription_t * list mu_monitored_item_t * mu_subscriptions_t * Out) :=
  match publish_request_dequeue e (sub_session_id (sub_identity s)) with
  | (None, e) => Some (s, items, e, out)
  | (Some request, e) =>
      let sequence_number := current_sequence_number s in
      let s := set_counters s sequence_number (sub_keep_alive_counter (sub_state s)) in
      '(status, faulted, message, out) ←
        transmit items s request sequence_number true report_count publish_time conn out;
      if (status =? MU_STATUS_GOOD) && negb faulted then
        '(items, s) ← report_sent items s report_count sequence_number publish_time message;
        Some (s, items, e, out)
      else Some (s, items, e, out)
  end.

Definition publish_keep_alive (publish_time : Z) (conn : option nat) (i : nat) (s : mu_subscription_t)
    (items : list mu_monitored_item_t) (e : mu_subscriptions_t) (out : Out)
    : option (mu_subscription_t * list mu_monitored_item_t * mu_subscriptions_t * Out) :=
  let counter := to_u32 (sub_keep_alive_counter (sub_state s) + 1) in
  let s := set_counters s (sub_sequence_number (sub_state s)) counter in
  if sub_max_keep_alive_count (sub_parameters s) <=? counter then
    match publish_request_dequeue e (sub_session_id (sub_identity s)) with
    | (None, e) => Some (s, items, e, out)
    | (Some request, e) =>
        let sequence_number := current_sequence_number s in
        let s := set_counters s sequence_number counter in
        '(status, faulted, _, out) ← transmit items s request sequence_number false 0 publish_time conn out;
        if (status =? MU_STATUS_GOOD) && negb faulted
        then Some (set_counters s sequence_number 0, items, e, out)
        else Some (s, items, e, out)
    end
  else Some (s, items, e, out).

Definition publish_time_now (time : mu_time_adapter_t) (now : Z) : Z :=
  match ta_get_time time with None => 0 | Some get_time => get_time now end.

(** The body of the loop of [publish_due] for slot [i]. *)
Definition publish_one (time : mu_time_adapter_t) (now now_ms : Z) (sessions : list mu_session_t)
    (conns : list (bool * Z)) (i : nat) (e : mu_subscriptions_t) (out : Out) : option (mu_subscriptions_t * Out) :=
  s ← subs_subscriptions e !! i;
  if negb (sub_live s) || (now_ms <? sub_next_publish_ms (sub_state s)) then Some (e, out)
  else
    match resolve_connection sessions conns s with
    | None => Some (e, out)
    | Some conn =>
        '(items, s, report_count, has_data) ← collect now (subs_monitored_items e) s;
        '(s, items, e, out) ←
          (if has_data : bool
           then publish_data (publish_time_now time now) conn i s items report_count e out
           else publish_keep_alive (publish_time_now time now) conn i s items e out);
        Some (with_sub e i (advance_publish_timer s now_ms) items, out)
    end.

Fixpoint publish_due (time : mu_time_adapter_t) (now now_ms : Z) (sessions : list mu_session_t)
    (conns : list (bool * Z)) (slots : list nat) (e : mu_subscriptions_t) (out : Out)
    : option (mu_subscriptions_t * Out) :=
  match slots with
  | [] => Some (e, out)
  | i :: slots =>
      '(e, out) ← publish_one time now now_ms sessions conns i e out;
      publish_due time now now_ms sessions conns slots e out
  end.

(** ** The tick *)

(** What a sample does to an item: the first one and every reportable change
    are recorded and queued. *)
Definition record_sample (it : mu_monitored_item_t) (cur : mu_variant_t) (status : Z) : option mu_monitored_item_t :=
  if negb (mi_has_value (mi_sample it)) then
    let it := set_last it cur status in
    if MUC_OPCUA_SUBSCRIPTIONS_STANDARD then monitored_item_enqueue_report it cur status
    else Some (set_pending it true)
  else
    changed ← monitored_item_sample_changed it cur status;
    if changed : bool then
      if MUC_OPCUA_SUBSCRIPTIONS_STANDARD then
        reportable ← monitored_item_change_reportable it cur status;
        if reportable : bool then monitored_item_enqueue_report (set_last it cur status) cur status else Some it
      else Some (set_pending (set_last it cur status) true)
    else Some it.

(** One live item of the sampling loop. *)
Definition sample_item (now now_ms : Z) (it : mu_monitored_item_t) : option mu_monitored_item_t :=
  if mi_monitoring_mode (mi_parameters it) =? MU_MONITORING_MODE_DISABLED then Some it
  else
    let aggregated := MUC_OPCUA_SUBSCRIPTIONS_STANDARD && mi_has_aggregate (mi_parameters it) in
    it ← (let a := mi_aggregate_state it in
          if aggregated && double_ge (double_of_Z (to_u64 (now_ms - to_u64 (ag_last_calculation a))))
                             (ag_processing_interval a)
          then monitored_item_publish_aggregate it now_ms else Some it);
    if now_ms <? mi_next_sample_ms (mi_sample it) then Some it
    else if MUC_OPCUA_EVENTS && (mi_attribute_id (mi_identity it) =? 12) then Some it
    else
      '(status, cur) ← read_monitored_item_value now it zero_variant;
      if aggregated then
        it ← (if status =? MU_STATUS_GOOD then monitored_item_accumulate_aggregate it cur else Some it);
        Some (advance_sample_timer (set_last it cur status) now_ms)
      else
        it ← (let m := mi_sample it in
              if MUC_OPCUA_SUBSCRIPTIONS_STANDARD && mi_has_value m
                 && (negb (mi_has_reported m) || (mi_pending m && (q_count (mi_queue it) =? 0)))
              then monitored_item_prepare_pending_queue it else Some it);
        it ← record_sample it cur status;
        Some (advance_sample_timer it now_ms).

(** The sampling loop, which stops after [active] live items. *)
Fixpoint sample_items (now now_ms : Z) (active : Z) (items : list mu_monitored_item_t)
    : option (list mu_monitored_item_t) :=
  match items with
  | [] => Some []
  | it :: items =>
      if 0 <? active then
        if item_live it then
          it ← sample_item now now_ms it;
          items ← sample_items now now_ms (active - 1) items;
          Some (it :: items)
        else items ← sample_items now now_ms active items; Some (it :: items)
      else Some (it :: items)
  end.

Definition mu_subscriptions_tick (time : mu_time_adapter_t) (now now_ms : Z) (sessions : list mu_session_t)
    (conns : list (bool * Z)) (e : mu_subscriptions_t) (out : Out) : option (mu_subscriptions_t * Out) :=
  items ← sample_items now now_ms (subs_active_monitored_items_count e) (subs_monitored_items e);
  publish_due time now now_ms sessions conns (seq 0 (Z.to_nat MU_MAX_SUBSCRIPTIONS)) (set_items e items) out.
End publish.
