(* ===== verification/PublishSafety.v ===== *)
(** * Safety of the subscription engine

    The tick never reaches undefined behaviour and preserves the engine's
    invariant, whatever values the nodes have, whatever the emitter answers
    and however many items, events and requests are queued. *)

From S2P Require Export Publish ServiceSafety.

(** ** Items *)

Definition accumulator_ok (a : mu_aggregate_state_t) : Prop :=
  match ag_accumulator a with
  | ACC_zero => True
  | ACC_avg _ => ag_aggregate_type a = MU_ID_AGGREGATETYPE_AVERAGE
  | ACC_extreme v => variant_ok v ∧ (ag_aggregate_type a = MU_ID_AGGREGATETYPE_MINIMUM ∨
                                     ag_aggregate_type a = MU_ID_AGGREGATETYPE_MAXIMUM)
  end.

(** The monitored node can be read at any time. *)
Definition source_ok (id : mu_item_identity_t) : Prop :=
  ∀ now node source, mi_resolved_node id = Some node → node_value node = Some source →
    outcome_ok variant_ok (mu_value_source_read now (Some source) (mi_node_id id) zero_variant).

Record item_good {caps : BuildCaps} (it : mu_monitored_item_t) : Prop := {
  ig_ok : item_ok it;
  ig_last : variant_ok (mi_last_value (mi_sample it));
  ig_entries : Forall (λ e, variant_ok e.1) (q_entries (mi_queue it));
  ig_accumulator : accumulator_ok (mi_aggregate_state it);
  ig_source : source_ok (mi_identity it);
  ig_clauses : 0 ≤ mi_select_clauses_count (mi_parameters it) ≤ zlen (mi_select_clauses (mi_parameters it))
}.

Lemma scalar_member_total type v : value_type v = Some type → comparable_type type = true →
  ∃ x, scalar_member type v = Some x.
Proof.
  destruct v; cbn [value_type]; intros [= <-] Hc; cbn [scalar_member]; rewrite ?Z.eqb_refl; eauto;
    vm_compute in Hc; discriminate.
Qed.

Lemma numeric_comparable type : numeric_type type = true → comparable_type type = true.
Proof.
  unfold numeric_type, comparable_type; rewrite !bool_decide_eq_true; set_solver.
Qed.

(** The member of a comparable scalar variant can be read. *)
Lemma variant_member_total v : variant_ok v → v_is_array v = false → comparable_type (v_type v) = true →
  ∃ x, scalar_member (v_type v) (v_value v) = Some x.
Proof.
  intros [E|Hv] Ha Hc; [rewrite E in Hc; discriminate|]; rewrite Ha in Hv; destruct Hv as [Hv _]; by apply scalar_member_total.
Qed.

Lemma numeric_total v : variant_ok v → ∃ d, variant_numeric_to_double v = Some d.
Proof.
  intros Hv; unfold variant_numeric_to_double; destruct (v_is_array v) eqn:Ea; [eauto|].
  destruct (numeric_type (v_type v)) eqn:En; [|eauto].
  destruct (variant_member_total v Hv Ea (numeric_comparable _ En)) as [x ->]; cbn; eauto.
Qed.

Lemma equal_total a b : variant_ok a → variant_ok b → ∃ r, variant_scalar_equal a b = Some r.
Proof.
  intros Ha Hb; unfold variant_scalar_equal.
  destruct (Z.eqb_spec (v_type a) (v_type b)) as [Et|]; cbn [negb orb]; [|eauto].
  destruct (Bool.eqb (v_is_array a) (v_is_array b)) eqn:Ea; cbn [negb]; [|eauto].
  apply Bool.eqb_prop in Ea; destruct (v_is_array a) eqn:Eaa; [eauto|].
  destruct (comparable_type (v_type a)) eqn:Ec; [|eauto].
  destruct (variant_member_total a Ha Eaa Ec) as [x ->]; rewrite Et in *.
  destruct (variant_member_total b Hb ltac:(by rewrite <- Ea) Ec) as [y ->]; cbn; eauto.
Qed.

Section items.
  Context {profile : BaseProfile} {pub : PublishProfile} {caps : BuildCaps} {Hcaps : BuildCapsOk caps}.

(** A change of an item that keeps its identity and parameters. *)
Definition item_step (it it' : mu_monitored_item_t) : Prop :=
  mi_identity it' = mi_identity it ∧ mi_parameters it' = mi_parameters it ∧ item_good it'.

Lemma item_step_refl it : item_good it → item_step it it.
Proof. by split. Qed.

Lemma item_step_trans a b c : item_step a b → item_step b c → item_step a c.
Proof. intros (? & ? & ?) (? & ? & ?); split_and!; congruence || done. Qed.

Lemma set_sample_step it s : item_good it → variant_ok (mi_last_value s) → item_step it (set_sample it s).
Proof. intros [] ?; split_and!; [done..|]; by split. Qed.

Lemma set_queue_step it q : item_good it → queue_ok q → Forall (λ e, variant_ok e.1) (q_entries q) →
  item_step it (set_queue it q).
Proof. intros [[? ?] ? ? ? ? ?] ? ?; split_and!; [done..|]; by split. Qed.

Lemma set_last_step it v s : item_good it → variant_ok v → item_step it (set_last it v s).
Proof. intros; by apply set_sample_step. Qed.

Lemma set_pending_step it b : item_good it → item_step it (set_pending it b).
Proof. intros []; by apply set_sample_step. Qed.

Lemma record_reported_total it cur : item_good it → variant_ok cur →
  ∃ it', monitored_item_record_reported it cur = Some it' ∧ item_step it it' ∧ mi_queue it' = mi_queue it.
Proof.
  intros Hit Hc; unfold monitored_item_record_reported; destruct (numeric_total cur Hc) as [d ->]; cbn.
  eexists; split; [done|]; split; [|done]; apply set_sample_step; [done|]; apply Hit.
Qed.

Lemma q_set_entries q i e b : Forall (λ e, variant_ok e.1) (q_entries q) → variant_ok e.1 →
  Forall (λ e, variant_ok e.1) (q_entries (q_set q i e b)).
Proof. intros; by apply Forall_insert. Qed.

Lemma q_push_entries q e : Forall (λ e, variant_ok e.1) (q_entries q) → variant_ok e.1 →
  Forall (λ e, variant_ok e.1) (q_entries (q_push q e)).
Proof. intros; by apply Forall_insert. Qed.

Lemma contents_good q : queue_ok q → Forall (λ e, variant_ok e.1) (q_entries q) →
  Forall (λ e, variant_ok e.1) (contents q).
Proof.
  intros Hq He; apply Forall_forall; intros e (k & -> & Hk)%list_elem_of_fmap.
  rewrite Forall_forall in He; apply He, (list_elem_of_lookup_2 _ (Z.to_nat ((q_head q + k) mod queue_size q))).
  apply list_lookup_lookup_total_lt, slot_lt; done.
Qed.

Lemma enqueue_entries q e q' : queue_ok q → Forall (λ e, variant_ok e.1) (q_entries q) → variant_ok e.1 →
  enqueue q e.1 e.2 = Some q' → Forall (λ e, variant_ok e.1) (q_entries q').
Proof.
  intros Hq Hes He; rewrite enqueue_eq by done; intros [= <-].
  destruct (Z.ltb_spec (q_count q) (queue_size q)) as [|Hfull]; [by apply q_push_entries|].
  destruct (q_discard_oldest q); [|by apply q_set_entries].
  pose proof Hq as [Hs _ _ Hc _]; pose proof (queue_size_bounds q Hs).
  destruct (q_pop_ok q Hq ltac:(lia)) as [Hpop _].
  destruct (q_push_ok (q_pop q) e Hpop) as [Hpush Ec]; [rewrite queue_size_pop by done; cbn; lia|].
  apply q_set_entries; [by apply q_push_entries|]; cbn.
  assert (Hg : Forall (λ e, variant_ok e.1) (contents (q_push (q_pop q) e))).
  { apply contents_good; [done|by apply q_push_entries]. }
  rewrite Ec in *; destruct (contents (q_pop q)); by inversion Hg.
Qed.

Lemma enqueue_report_total it cur status : item_good it → variant_ok cur →
  ∃ it', monitored_item_enqueue_report it cur status = Some it' ∧ item_step it it'.
Proof.
  intros Hit Hc; unfold monitored_item_enqueue_report; pose proof Hit as [[Hq Htr] Hl He Ha Hs Hcl].
  destruct (enqueue_fifo (mi_queue it) (cur, status) Hq) as (q' & E & Hq' & _); cbn [fst snd] in E.
  pose proof (enqueue_entries _ (cur, status) _ Hq He Hc E) as He'; rewrite E; cbn [mbind option_bind].
  pose proof (set_queue_step it q' Hit Hq' He') as Hstep.
  destruct (record_reported_total (set_queue it q') cur) as (it' & -> & Hstep' & _); [apply Hstep|done|].
  cbn [mbind option_bind]; eexists; split; [done|].
  eapply item_step_trans; [exact Hstep|]; eapply item_step_trans; [exact Hstep'|]; apply set_pending_step, Hstep'.
Qed.

Lemma prepare_pending_total it : item_good it →
  ∃ it', monitored_item_prepare_pending_queue it = Some it' ∧ item_step it it'.
Proof.
  intros Hit; unfold monitored_item_prepare_pending_queue; split_if; [apply enqueue_report_total; [done|apply Hit]|].
  split_if; [|by exists it; split; [|apply item_step_refl]].
  destruct (record_reported_total it _ Hit (ig_last it Hit)) as (it' & E & ? & _); by exists it'.
Qed.

Lemma accumulate_extreme_total better a cur val : accumulator_ok a → variant_ok cur →
  ag_aggregate_type a = MU_ID_AGGREGATETYPE_MINIMUM ∨ ag_aggregate_type a = MU_ID_AGGREGATETYPE_MAXIMUM →
  ∃ acc, accumulate_extreme better a cur val = Some acc ∧ (acc = ag_accumulator a ∨ acc = ACC_extreme cur).
Proof.
  intros Ha Hc Ht; unfold accumulate_extreme; split_if; [eauto|].
  assert (Hb : ∃ b, accumulated_extreme (ag_accumulator a) = Some b ∧ variant_ok b).
  { unfold accumulator_ok in Ha; destruct (ag_accumulator a); cbn; [exists zero_variant; split; [done|by left]| |].
    - rewrite Ha in Ht; destruct Ht; discriminate.
    - destruct Ha; eauto. }
  destruct Hb as (b & -> & Hb); cbn; destruct (numeric_total b Hb) as [d ->]; cbn; eexists; split; [done|].
  destruct d; [split_if; auto|auto].
Qed.

Lemma accumulate_total it cur : item_good it → variant_ok cur →
  ∃ it', monitored_item_accumulate_aggregate it cur = Some it' ∧ item_step it it'.
Proof.
  intros Hit Hc; unfold monitored_item_accumulate_aggregate; destruct (numeric_total cur Hc) as [[val|] ->];
    cbn [mbind option_bind]; [|by exists it; split; [|apply item_step_refl]].
  pose proof (ig_accumulator it Hit) as Ha; set (a := mi_aggregate_state it) in *.
  assert (Hacc : ∃ acc, (if ag_aggregate_type a =? MU_ID_AGGREGATETYPE_AVERAGE then
       sum ← accumulated_sum (ag_accumulator a); Some (ACC_avg (double_add sum val))
     else if ag_aggregate_type a =? MU_ID_AGGREGATETYPE_MINIMUM then accumulate_extreme double_lt a cur val
     else if ag_aggregate_type a =? MU_ID_AGGREGATETYPE_MAXIMUM then accumulate_extreme (λ x y, double_lt y x) a cur val
     else Some (ag_accumulator a)) = Some acc ∧
     ∀ i l n, accumulator_ok (mk_aggregate_state i l acc (ag_aggregate_type a) n)).
  { destruct (Z.eqb_spec (ag_aggregate_type a) MU_ID_AGGREGATETYPE_AVERAGE) as [Et|].
    { unfold accumulator_ok in Ha; destruct (ag_accumulator a); cbn; eauto.
      rewrite Et in Ha; destruct Ha as [_ []]; discriminate. }
    destruct (Z.eqb_spec (ag_aggregate_type a) MU_ID_AGGREGATETYPE_MINIMUM);
      [|destruct (Z.eqb_spec (ag_aggregate_type a) MU_ID_AGGREGATETYPE_MAXIMUM)]; [..|by eexists].
    all: match goal with |- context [accumulate_extreme ?better ?a ?cur ?val] =>
           destruct (accumulate_extreme_total better a cur val Ha Hc) as (acc & E & Hacc) end; [by auto|].
    all: exists acc; split; [exact E|].
    all: intros i l k; destruct Hacc as [->| ->]; [exact Ha|split; auto]. }
  destruct Hacc as (acc & -> & Hok); cbn [mbind option_bind]; eexists; split; [done|].
  destruct Hit; split_and!; [done..|]; split; try done; apply Hok.
Qed.

Lemma aggregate_value_total it : item_good it → ∃ v s, aggregate_value it = Some (v, s) ∧ variant_ok v.
Proof.
  intros Hit; unfold aggregate_value; pose proof (ig_accumulator it Hit) as Ha; unfold accumulator_ok in Ha.
  pose proof (ig_last it Hit).
  split_if; [destruct (mi_has_value _); eexists _, _; (split; [done|]); [done|by left]|].
  destruct (Z.eqb_spec (ag_aggregate_type (mi_aggregate_state it)) MU_ID_AGGREGATETYPE_AVERAGE) as [Et|Et].
  { destruct (ag_accumulator _); cbn; [eexists _, _; split; [done|]; by right..|].
    rewrite Et in Ha; destruct Ha as [_ []]; discriminate. }
  split_if; [|eexists _, _; split; [done|by left]].
  destruct (ag_accumulator _); cbn; [eexists _, _; split; [done|by left]|done|].
  destruct Ha; eauto.
Qed.

Lemma publish_aggregate_total it now_ms : item_good it →
  ∃ it', monitored_item_publish_aggregate it now_ms = Some it' ∧ item_step it it'.
Proof.
  intros Hit; unfold monitored_item_publish_aggregate.
  destruct (aggregate_value_total it Hit) as (v & s & -> & Hv); cbn [mbind option_bind fst snd].
  destruct (enqueue_report_total it v s Hit Hv) as (it' & -> & Hstep); cbn [mbind option_bind].
  eexists; split; [done|]; eapply item_step_trans; [exact Hstep|].
  destruct Hstep as (_ & _ & []); split_and!; [done..|]; by split.
Qed.

Lemma read_value_total now it : item_good it →
  ∃ status cur, read_monitored_item_value now it zero_variant = Some (status, cur) ∧ variant_ok cur.
Proof.
  intros Hit; unfold read_monitored_item_value; pose proof (ig_source it Hit) as Hs; unfold source_ok in Hs.
  assert (Hz : variant_ok zero_variant) by (by left).
  destruct (mi_resolved_node _) as [node|]; [|eauto]; destruct (node_value node) as [source|] eqn:Ev; [|eauto].
  specialize (Hs now node source eq_refl Ev); destruct (mu_value_source_read _ _ _ _); cbn in Hs; [eauto|eauto|done].
Qed.

Lemma advance_step it now_ms : item_good it → item_step it (advance_sample_timer it now_ms).
Proof. intros []; by apply set_sample_step. Qed.

Lemma sample_changed_total it cur status : item_good it → variant_ok cur →
  ∃ b, monitored_item_sample_changed it cur status = Some b.
Proof.
  intros Hit Hc; unfold monitored_item_sample_changed; repeat (split_if; [eauto|]).
  destruct (equal_total cur _ Hc (ig_last it Hit)) as [b ->]; cbn; eauto.
Qed.

Lemma change_reportable_total it cur status : item_good it → variant_ok cur →
  ∃ b, monitored_item_change_reportable it cur status = Some b.
Proof.
  intros Hit Hc; unfold monitored_item_change_reportable; repeat (split_if; [eauto|]).
  destruct (numeric_total cur Hc) as [[d|] ->]; cbn; [|eauto].
  destruct (numeric_total _ (ig_last it Hit)) as [[d'|] ->]; cbn; eauto.
Qed.

Lemma record_sample_total it cur status : item_good it → variant_ok cur →
  ∃ it', record_sample it cur status = Some it' ∧ item_step it it'.
Proof.
  intros Hit Hc; pose proof (set_last_step it cur status Hit Hc) as Hlast; pose proof Hlast as (_ & _ & Hlg).
  assert (Henq : ∃ it', monitored_item_enqueue_report (set_last it cur status) cur status = Some it' ∧ item_step it it').
  { destruct (enqueue_report_total _ cur status Hlg Hc) as (it' & E & Hs); exists it'; split; [done|].
    exact (item_step_trans _ _ _ Hlast Hs). }
  assert (Hpend : item_step it (set_pending (set_last it cur status) true)).
  { eapply item_step_trans; [exact Hlast|by apply set_pending_step]. }
  assert (Hrefl : item_step it it) by (by apply item_step_refl).
  unfold record_sample; destruct (negb _); [destruct MUC_OPCUA_SUBSCRIPTIONS_STANDARD; [done|eauto]|].
  destruct (sample_changed_total it cur status Hit Hc) as [[] ->]; cbn [mbind option_bind]; [|eauto].
  destruct MUC_OPCUA_SUBSCRIPTIONS_STANDARD; [|eauto].
  destruct (change_reportable_total it cur status Hit Hc) as [[] ->]; cbn [mbind option_bind]; eauto.
Qed.

Lemma sample_item_total now now_ms it : item_good it →
  ∃ it', sample_item now now_ms it = Some it' ∧ item_step it it'.
Proof.
  intros Hit; unfold sample_item; pose proof (item_step_refl it Hit) as Hrefl; split_if; [eauto|].
  match goal with |- context [if ?b then monitored_item_publish_aggregate it now_ms else Some it] =>
    assert (Hagg : ∃ it1, (if b then monitored_item_publish_aggregate it now_ms else Some it) = Some it1 ∧ item_step it it1)
      by (destruct b; [by apply publish_aggregate_total|eauto]) end.
  destruct Hagg as (it1 & -> & H1); cbn [mbind option_bind]; pose proof H1 as (_ & _ & Hk1).
  split_if; [eauto|]; split_if; [eauto|].
  destruct (read_value_total now it1 Hk1) as (status & cur & -> & Hc); cbn [mbind option_bind].
  split_if.
  - match goal with |- context [if ?b then monitored_item_accumulate_aggregate it1 cur else Some it1] =>
      assert (Hacc : ∃ it2, (if b then monitored_item_accumulate_aggregate it1 cur else Some it1) = Some it2 ∧ item_step it1 it2)
        by (destruct b; [by apply accumulate_total|eauto using item_step_refl]) end.
    destruct Hacc as (it2 & -> & H2); cbn [mbind option_bind]; eexists; split; [done|].
    eapply item_step_trans; [exact H1|]; eapply item_step_trans; [exact H2|]; destruct H2 as (_ & _ & Hk2).
    pose proof (set_last_step _ cur status Hk2 Hc) as H3.
    eapply item_step_trans; [exact H3|apply advance_step, H3].
  - match goal with |- context [if ?b then monitored_item_prepare_pending_queue it1 else Some it1] =>
      assert (Hp : ∃ it2, (if b then monitored_item_prepare_pending_queue it1 else Some it1) = Some it2 ∧ item_step it1 it2)
        by (destruct b; [by apply prepare_pending_total|eauto using item_step_refl]) end.
    destruct Hp as (it2 & -> & H2); cbn [mbind option_bind]; pose proof H2 as (_ & _ & Hk2).
    destruct (record_sample_total it2 cur status Hk2 Hc) as (it3 & -> & H3); cbn [mbind option_bind].
    eexists; split; [done|]; eapply item_step_trans; [exact H1|]; eapply item_step_trans; [exact H2|].
    eapply item_step_trans; [exact H3|]; apply advance_step, H3.
Qed.

(** Arrays of items. *)
Definition items_step : list mu_monitored_item_t → list mu_monitored_item_t → Prop := Forall2 item_step.

Lemma items_step_refl l : Forall item_good l → items_step l l.
Proof. induction 1; constructor; [by apply item_step_refl|done]. Qed.

Lemma items_step_trans a b c : items_step a b → items_step b c → items_step a c.
Proof.
  intros H1; revert c; induction H1 as [|x y l k Hxy _ IH]; intros c H2; inversion H2; subst; constructor; [|by apply IH].
  eapply item_step_trans; [exact Hxy|done].
Qed.

Lemma items_step_good a b : items_step a b → Forall item_good b.
Proof. induction 1 as [|x y l k (_ & _ & ?) _ IH]; by constructor. Qed.

Lemma sample_items_total now now_ms items : ∀ active, Forall item_good items →
  ∃ items', sample_items now now_ms active items = Some items' ∧ items_step items items'.
Proof.
  induction items as [|it items IH]; intros active Hg; cbn [sample_items]; [exists []; split; [done|constructor]|].
  apply Forall_cons_iff in Hg as [Hit Hg]; split_if; [|eexists; split; [done|by apply items_step_refl; constructor]].
  destruct (item_live it).
  - destruct (sample_item_total now now_ms it Hit) as (it' & -> & ?); cbn [mbind option_bind].
    destruct (IH (active - 1) Hg) as (l & -> & ?); cbn [mbind option_bind]; eexists; split; [done|by constructor].
  - destruct (IH active Hg) as (l & -> & ?); cbn [mbind option_bind]; eexists; split; [done|].
    constructor; [by apply item_step_refl|done].
Qed.

Lemma mapM_items_total (f : mu_monitored_item_t → option mu_monitored_item_t) items :
  (∀ it, item_good it → ∃ it', f it = Some it' ∧ item_step it it') → Forall item_good items →
  ∃ items', mapM f items = Some items' ∧ items_step items items'.
Proof.
  intros Hf; induction 1 as [|it items Hit _ (l & El & Hl)]; [exists []; split; [done|constructor]|].
  destruct (Hf it Hit) as (it' & E & ?); exists (it' :: l); split; [|by constructor].
  cbn; by rewrite E; cbn; rewrite El.
Qed.

Lemma prepare_item_total s it : item_good it → ∃ it', prepare_item s it = Some it' ∧ item_step it it'.
Proof. intros; unfold prepare_item; split_if; [by apply prepare_pending_total|eauto using item_step_refl]. Qed.

Lemma resend_item_total now s it : item_good it → ∃ it', resend_item now s it = Some it' ∧ item_step it it'.
Proof.
  intros Hit; unfold resend_item; split_if; [eauto using item_step_refl|].
  destruct (read_value_total now it Hit) as (status & cur & -> & Hc); cbn [mbind option_bind].
  split_if; [|split_if].
  - pose proof (set_last_step it cur status Hit Hc) as Hl.
    destruct (enqueue_report_total _ cur status (proj2 (proj2 Hl)) Hc) as (it' & -> & Hs).
    eexists; split; [done|exact (item_step_trans _ _ _ Hl Hs)].
  - assert (Hl : item_step it (set_last_status it status)) by (destruct Hit; by apply set_sample_step).
    destruct (enqueue_report_total _ (mi_last_value (mi_sample it)) status (proj2 (proj2 Hl)) (ig_last it Hit)) as (it' & -> & Hs).
    eexists; split; [done|exact (item_step_trans _ _ _ Hl Hs)].
  - set (null := mk_variant MU_TYPE_NULL _ _ _); assert (Hn : variant_ok null) by (by left).
    pose proof (set_last_step it null status Hit Hn) as Hl.
    destruct (enqueue_report_total _ null status (proj2 (proj2 Hl)) Hn) as (it' & -> & Hs).
    eexists; split; [done|exact (item_step_trans _ _ _ Hl Hs)].
Qed.

Lemma drain_entries queue_size fuel : ∀ q remaining, q_entries (drain queue_size fuel q remaining).1 = q_entries q.
Proof. induction fuel; intros; cbn [drain]; [done|]; split_if; [by rewrite IHfuel|done]. Qed.

Lemma drain_item_step it remaining : item_good it → 0 ≤ remaining →
  item_step it (monitored_item_drain_reported_entries it remaining).1 ∧
  0 ≤ (monitored_item_drain_reported_entries it remaining).2 ≤ remaining.
Proof.
  intros Hit Hr; pose proof Hit as [[Hq _] _ He _ _ _]; unfold monitored_item_drain_reported_entries.
  rewrite effective_queue_size_ok by done; set (q := mk_report_queue _ _ _ _ _ _ _).
  pose proof Hq as [Hs Hen Hh Hc Ht]; pose proof (queue_size_bounds (mi_queue it) Hs) as Hb.
  assert (Hsize : queue_size q = queue_size (mi_queue it)) by (by apply queue_size_mk).
  assert (Hq' : queue_ok q) by (split; rewrite ?Hsize; cbn; lia || done).
  pose proof (drain_fifo (Z.to_nat (q_count q)) q remaining Hq' ltac:(done) ltac:(rewrite Z2Nat.id; [done|cbn; lia]) Hr) as Hd.
  pose proof (drain_entries (queue_size q) (Z.to_nat (q_count q)) q remaining) as Hde.
  rewrite Hsize in Hd, Hde; destruct (drain _ _ _ _) as [q2 rem2]; cbn [fst] in Hde.
  destruct Hd as (Hok & Hsz & _ & Hcount & -> & _); change (q_entries q) with (q_entries (mi_queue it)) in Hde.
  assert (Hrange : 0 ≤ remaining - Z.min (q_count q) remaining ≤ remaining) by (cbn in Hcount |- *; lia).
  destruct (Z.eqb_spec (q_count q2) 0) as [Hz|]; cbn [fst snd]; (split; [|done]).
  - set (q3 := mk_report_queue _ _ _ _ _ _ _).
    assert (Hq3 : queue_ok q3).
    { destruct Hok as [Hs2 ? ? ? ?]; assert (E : queue_size q3 = queue_size q2) by done.
      pose proof (queue_size_bounds q2 Hs2); split; rewrite ?E; cbn; try done; try lia.
      rewrite Hz; by rewrite Z.mod_0_l by lia. }
    pose proof (set_queue_step it q3 Hit Hq3 ltac:(cbn; by rewrite Hde)) as H1.
    eapply item_step_trans; [exact H1|]; apply set_pending_step, H1.
  - pose proof (set_queue_step it q2 Hit Hok ltac:(by rewrite Hde)) as H1.
    eapply item_step_trans; [exact H1|]; apply set_pending_step, H1.
Qed.

Lemma drain_items_step items : ∀ flags remaining, Forall item_good items → length flags = length items → 0 ≤ remaining →
  items_step items (drain_items (zip items flags) remaining).1 ∧ 0 ≤ (drain_items (zip items flags) remaining).2.
Proof.
  induction items as [|it items IH]; intros [|b flags] remaining Hg Hl Hr; try done; cbn [zip zip_with drain_items].
  { split; [constructor|done]. }
  apply Forall_cons_iff in Hg as [Hit Hg]; injection Hl as Hl.
  assert (Hone : item_step it (if (0 <? remaining) && b then monitored_item_drain_reported_entries it remaining else (it, remaining)).1
    ∧ 0 ≤ (if (0 <? remaining) && b then monitored_item_drain_reported_entries it remaining else (it, remaining)).2).
  { destruct (_ && b); [destruct (drain_item_step it remaining Hit Hr); split; [done|lia]|split; [by apply item_step_refl|done]]. }
  destruct (if (0 <? remaining) && b then _ else _) as [it' rem']; cbn [fst snd] in Hone; destruct Hone as [Hs Hr'].
  destruct (IH flags rem' Hg Hl Hr') as [H1 H2]; fold (zip items flags).
  destruct (drain_items (zip items flags) rem') as [l rem2]; cbn [fst snd] in *; split; [by constructor|done].
Qed.

Lemma clear_items_step items s report_count : Forall item_good items → 0 ≤ report_count →
  items_step items (clear_reported_items items s report_count).
Proof.
  intros Hg Hr; unfold clear_reported_items; destruct MUC_OPCUA_SUBSCRIPTIONS_STANDARD.
  - destruct (drain_items_step items ((λ it, monitored_item_reportable it s) <$> items) report_count Hg) as [H1 H2];
      [by rewrite length_fmap|done|].
    destruct (drain_items (zip items _) report_count) as [items1 rem]; cbn [fst snd] in *.
    pose proof (items_step_good _ _ H1) as Hg1.
    destruct (drain_items_step items1 (monitored_item_reports_by_trigger items s <$> items) rem Hg1) as [H3 _];
      [rewrite length_fmap; by apply Forall2_length in H1|done|].
    eapply items_step_trans; [exact H1|exact H3].
  - induction Hg as [|it items Hit _ IH]; constructor; [|done].
    destruct (monitored_item_reportable it s); [by apply set_pending_step|by apply item_step_refl].
Qed.
End items.

(** ** Encoders *)

(** What a continuation of an encoder that started at [w0] establishes. *)
Definition wgood {A} (w0 : mu_binary_writer_t) (Q : A → mu_binary_writer_t → Prop)
    (out : result A * mu_binary_writer_t) : Prop :=
  writer_step w0 out.2 ∧ outcome_ok (λ a, Q a out.2) out.1.

Lemma wgood_bind {A B} w0 w (m : Wr A) (k : A → Wr B) Q :
  writer_ok w0 → writer_step w0 w → wsafe m →
  (∀ a w', m w = (Ok a, w') → writer_step w0 w' → w_position w ≤ w_position w' → wgood w0 Q (k a w')) →
  wgood w0 Q ((m ≫= k) w).
Proof.
  intros H0 Hs Hm Hk; destruct (Hm w (wstep_ok _ _ Hs)) as [Hstep Ho]; unfold mbind, M_bind.
  pose proof (writer_step_trans w0 w _ H0 Hs Hstep) as Ht.
  destruct (m w) as [[a|e|] w']; cbn [fst snd] in *; [|by split|done].
  apply (Hk a w'); [done|done|apply Hstep].
Qed.

Lemma wgood_get {B} w0 w (k : mu_binary_writer_t → Wr B) Q : wgood w0 Q (k w w) → wgood w0 Q ((get_state ≫= k) w).
Proof. done. Qed.

Lemma wgood_wsafe {A} w0 w (m : Wr A) : writer_ok w0 → writer_step w0 w → wsafe m → wgood w0 (λ _ _, True) (m w).
Proof.
  intros H0 Hs Hm; destruct (Hm w (wstep_ok _ _ Hs)) as [? ?]; split; [by eapply writer_step_trans|done].
Qed.

Lemma wsafe_wgood {A} (m : Wr A) : (∀ w, writer_ok w → wgood w (λ _ _, True) (m w)) → wsafe m.
Proof. intros H w Hw; apply H; done. Qed.

Lemma write_int32_position v w w' : writer_ok w → mu_binary_write_int32 v w = (Ok tt, w') →
  w_position w' = w_position w + 4.
Proof.
  intros Hw; unfold mu_binary_write_int32, mu_binary_write_uint32.
  assert (Hl : zlen (mu_binary_le_put_u32 (to_u32 v)) = 4) by done.
  destruct (ensure_space_ok w 4 Hw ltac:(lia)) as [(b & _ & Hb & Hf & E)|(_ & s & w1 & E & _)].
  - rewrite (bind_ok _ _ _ _ _ E), (writer_put_run w b) by (done || unfold fits; rewrite Hl; lia).
    intros [= <-]; rewrite (w_append_buffer _ _ _ Hb); cbn; lia.
  - by rewrite (bind_err _ _ _ _ _ E).
Qed.

(** Overwriting octets already written keeps the step. *)
Lemma writer_step_patch w0 w pos bs b : writer_ok w0 → writer_step w0 w → w_buffer w = Some b → bytes_ok bs →
  w_position w0 ≤ pos → pos + zlen bs ≤ w_position w →
  ∃ b', mem_store b pos bs = Some b' ∧
        writer_step w0 (mk_writer (Some b') (w_length w) (w_position w) (w_status w)).
Proof.
  intros [_ Hp0] [[Hb Hp] Hl Hpos Hf] Eb Hbs H1 H2; rewrite Eb in Hb, Hf; destruct Hb as (Hz & Hm & Hbb).
  pose proof (zlen_nonneg bs); rewrite mem_store_Some by lia; eexists; split; [done|].
  destruct (w_buffer w0) as [b0|] eqn:E0; [|done]; destruct Hf as (Hlen & Htk & Hdp).
  assert (Hzl : zlen (ztake pos b ++ bs ++ zdrop (pos + zlen bs) b) = zlen b).
  { rewrite !zlen_app, zlen_ztake, zlen_zdrop by lia; lia. }
  split; cbn [w_buffer w_length w_position]; [|done|done|].
  - split; cbn [w_buffer w_length w_position]; [|lia]; unfold buffer_ok; rewrite Hzl; split_and!; try lia.
    rewrite !bytes_ok_app; auto with wire.
  - rewrite E0; cbn [buffer_frame]; split; [lia|]; split.
    + rewrite ztake_app_le by (rewrite zlen_ztake; lia); rewrite ztake_ztake by lia; done.
    + rewrite <- Hdp; rewrite app_assoc.
      replace (w_position w) with ((pos + zlen bs) + (w_position w - pos - zlen bs)) by lia.
      rewrite <- (zdrop_zdrop _ (pos + zlen bs) b) by lia.
      rewrite <- (zdrop_zdrop _ (pos + zlen bs)) by lia; f_equal.
      replace (pos + zlen bs) with (zlen (ztake pos b ++ bs)) at 1 by (rewrite zlen_app, zlen_ztake; lia).
      apply zdrop_app.
Qed.

Section encoders.
  Context {profile : BaseProfile} {pub : PublishProfile} {caps : BuildCaps} {Hcaps : BuildCapsOk caps}.

Lemma wgood_backpatch w0 w pos v : writer_ok w0 → writer_step w0 w → w_position w0 ≤ pos → pos + 4 ≤ w_position w →
  wgood w0 (λ _ _, True) (backpatch_int32 pos v w).
Proof.
  intros H0 Hs H1 H2; unfold backpatch_int32; apply wgood_get.
  destruct (w_buffer w) as [b|] eqn:Eb.
  2:{ destruct Hs as [[Hb Hp] _ _ _], H0 as [_ ?]; rewrite Eb in Hb; cbn in Hb; lia. }
  destruct (writer_step_patch w0 w pos [to_u8 v; to_u8 (Z.shiftr v 8); to_u8 (Z.shiftr v 16); to_u8 (Z.shiftr v 24)] b)
    as (b' & E & Hstep); try done.
  - repeat constructor; apply (to_unsigned_range 8); lia.
  - change (wgood w0 (λ _ _, True) ((lift_option (mem_store b pos [to_u8 v; to_u8 (Z.shiftr v 8); to_u8 (Z.shiftr v 16); to_u8 (Z.shiftr v 24)])
      ≫= λ b, put_state (mk_writer (Some b) (w_length w) (w_position w) (w_status w))) w)).
    rewrite E; by split.
Qed.

Lemma wsafe_publish_response_prefix handle : wsafe (write_publish_response_prefix handle).
Proof.
  unfold write_publish_response_prefix; apply wsafe_bind;
    [apply wsafe_write_nodeid; split; [by ranges|done]|intros _; apply wsafe_response_header_encode].
Qed.

Lemma wsafe_notification handle v status : variant_ok v → wsafe (write_notification handle v status).
Proof.
  intros; unfold write_notification; apply wsafe_bind; [apply wsafe_write_uint32|intros _].
  by apply wsafe_write_datavalue.
Qed.

Lemma wsafe_queue_entries it n index queued : Forall (λ e, variant_ok e.1) (q_entries (mi_queue it)) →
  1 ≤ n ≤ zlen (q_entries (mi_queue it)) → n < 256 → ∀ report_count, 0 ≤ index < n →
  wsafe (write_queue_entries it n index queued report_count).
Proof.
  intros He Hn Hn'; revert index; induction queued as [|queued IH]; intros index report_count Hi; cbn [write_queue_entries];
    [apply wsafe_ret|]; apply wsafe_if; intros _; [|apply wsafe_ret].
  destruct (znth_Some (q_entries (mi_queue it)) index ltac:(lia)) as [entry E]; rewrite E; apply wsafe_lift.
  apply znth_lookup in E as [E _]; pose proof (Forall_lookup_1 _ _ _ _ He E).
  apply wsafe_bind; [by apply wsafe_notification|intros _; apply IH].
  rewrite queue_next_mod by lia; apply Z.mod_pos_bound; lia.
Qed.

Lemma wsafe_item_queue it report_count : item_good it → wsafe (write_item_queue it report_count).
Proof.
  intros [[[Hs He Hh _ _] _] _ Hg _ _ _]; unfold write_item_queue; pose proof caps_queue_depth.
  pose proof (queue_size_bounds _ Hs) as Hb.
  replace (if q_size (mi_queue it) =? 0 then _ else _) with (queue_size (mi_queue it)).
  - apply wsafe_queue_entries; [done|lia..].
  - unfold queue_size; destruct (Z.eqb_spec (q_size (mi_queue it)) 0); [|done].
    rewrite (proj2 (Z.ltb_ge _ _)); lia.
Qed.

Lemma wsafe_items selected items : Forall item_good items → ∀ report_count, wsafe (write_items selected items report_count).
Proof.
  induction 1 as [|it items Hit _ IH]; intros report_count; cbn [write_items]; [apply wsafe_ret|].
  apply wsafe_bind; [|intros rc; apply IH]; apply wsafe_if; intros _; [|apply wsafe_ret].
  apply wsafe_if; intros _; [by apply wsafe_item_queue|].
  apply wsafe_bind; [apply wsafe_notification, Hit|intros _; apply wsafe_ret].
Qed.

Lemma wsafe_data_change_notification items s report_count : Forall item_good items →
  wsafe (write_data_change_notification items s report_count).
Proof.
  intros Hg; apply wsafe_wgood; intros w0 H0; pose proof (writer_step_refl w0 H0) as Hs0.
  unfold write_data_change_notification.
  apply wgood_bind; [done|done|apply wsafe_write_nodeid; split; [by ranges|done]|]; intros _ w1 _ Hs1 Hp1.
  apply wgood_bind; [done|done|by apply wsafe_write_byte|]; intros _ w2 _ Hs2 Hp2.
  change (wgood w0 (λ _ _, True) ((mu_binary_write_int32 0 ≫= λ _, (get_state ≫= λ w, mret (w_position w)) ≫= λ body_start,
    mu_binary_write_int32 report_count ≫= λ _,
    write_items (λ it, monitored_item_reportable it s) items report_count ≫= λ report_count,
    (if MUC_OPCUA_SUBSCRIPTIONS_STANDARD
     then write_items (monitored_item_reports_by_trigger items s) items report_count ≫= λ _, mret tt else mret tt) ≫= λ _,
    mu_binary_write_int32 0 ≫= λ _, (get_state ≫= λ w, mret (to_size (w_position w - body_start))) ≫= λ body_length,
    if 0x7FFFFFFF <? body_length then fail MU_STATUS_BAD_RESPONSETOOLARGE
    else backpatch_int32 (w_position w2) body_length) w2)).
  apply wgood_bind; [done|done|apply wsafe_write_int32|]; intros [] w3 E3 Hs3 _.
  apply write_int32_position in E3; [|apply Hs2].
  match goal with |- wgood _ _ ((_ ≫= ?k) w3) => change (wgood w0 (λ _ _, True) (k (w_position w3) w3)) end.
  apply wgood_bind; [done|done|apply wsafe_write_int32|]; intros _ w4 _ Hs4 Hp4.
  apply wgood_bind; [done|done|by apply wsafe_items|]; intros rc w5 _ Hs5 Hp5.
  apply wgood_bind; [done|done| |]; [|intros _ w6 _ Hs6 Hp6].
  { apply wsafe_if; intros _; [|apply wsafe_ret]; apply wsafe_bind; [by apply wsafe_items|intros _; apply wsafe_ret]. }
  apply wgood_bind; [done|done|apply wsafe_write_int32|]; intros _ w7 _ Hs7 Hp7.
  match goal with |- wgood _ _ ((_ ≫= ?k) w7) =>
    change (wgood w0 (λ _ _, True) (k (to_size (w_position w7 - w_position w3)) w7)) end.
  cbv beta; split_if; [by split|].
  destruct Hs1, Hs2; apply wgood_backpatch; [done|done|lia|lia].
Qed.
End encoders.
