(* ===== verification/PublishTick.v ===== *)
(** * Safety of the tick

    The rest of the safety argument for [src/services/subscription.c]: event
    notifications, the Publish response in its 512-octet buffer, and the tick
    as a whole, which never reaches undefined behaviour and preserves the
    engine's invariant for every emitter; then the invariant over every
    sequence of the engine's operations, and what clients rely on: sequence
    numbers and Republish. *)

From S2P Require Export PublishSafety.

(** ** Events *)

Definition event_ok (ev : mu_event_notification_t) : Prop :=
  nodeid_ok (ev_event_type ev) ∧ string_ok (ev_event_id ev) ∧ string_ok (ev_message ev).

Record event_queue_ok (eq : mu_event_queue_t) : Prop := {
  eq_size : zlen (eq_queue eq) = MU_MAX_EVENT_QUEUE_SIZE;
  eq_head_ok : 0 ≤ eq_head eq < MU_MAX_EVENT_QUEUE_SIZE;
  eq_tail_ok : 0 ≤ eq_tail eq < MU_MAX_EVENT_QUEUE_SIZE;
  eq_count_ok : 0 ≤ eq_count eq ≤ MU_MAX_EVENT_QUEUE_SIZE;
  eq_events : Forall event_ok (eq_queue eq)
}.

Lemma null_string_ok : string_ok null_string.
Proof. split; [done|by ranges]. Qed.

Lemma zero_event_queue_ok : event_queue_ok zero_event_queue.
Proof.
  split; cbn; try (unfold MU_MAX_EVENT_QUEUE_SIZE; lia); [done|].
  repeat constructor; cbn; by ranges.
Qed.

Lemma push_event_ok eq ev : event_queue_ok eq → event_ok ev →
  ∃ eq', push_event eq ev = Some eq' ∧ event_queue_ok eq'.
Proof.
  intros [Hs Hh Ht Hc He] Hev; unfold push_event.
  destruct (if MU_MAX_EVENT_QUEUE_SIZE <=? eq_count eq then _ else _) as [head count] eqn:E.
  assert (Hhc : 0 ≤ head < MU_MAX_EVENT_QUEUE_SIZE ∧ 0 ≤ count < MU_MAX_EVENT_QUEUE_SIZE).
  { destruct (Z.leb_spec MU_MAX_EVENT_QUEUE_SIZE (eq_count eq)); simplify_eq; [|lia].
    split; [apply Z.mod_pos_bound|]; unfold MU_MAX_EVENT_QUEUE_SIZE in *; lia. }
  rewrite mem_store_Some by (change (zlen [ev]) with 1; lia); cbn [mbind option_bind]; eexists; split; [done|].
  pose proof (Z.mod_pos_bound (eq_tail eq + 1) MU_MAX_EVENT_QUEUE_SIZE ltac:(done)).
  split; cbn [eq_queue eq_head eq_tail eq_count]; try lia; change (zlen [ev]) with 1.
  - rewrite !zlen_app, zlen_ztake, zlen_zdrop by lia; change (zlen [ev]) with 1; lia.
  - apply Forall_app; split; [by apply Forall_take|]; apply Forall_app; split; [by constructor|by apply Forall_drop].
Qed.

Section events.
  Context {profile : BaseProfile} {pub : PublishProfile} {caps : BuildCaps} {Hcaps : BuildCapsOk caps}.

Lemma event_field_ok ev field_type : event_ok ev → variant_ok (event_field ev field_type).
Proof.
  intros (? & ? & ?); unfold event_field.
  repeat (split_if; [right; split; [done|]; cbn; first [done|split; [apply null_string_ok|done]]|]); by left.
Qed.

Lemma wsafe_event it ev : item_good it → event_ok ev → wsafe (write_event it ev).
Proof.
  intros [_ _ _ _ _ Hc] Hev; unfold write_event.
  apply wsafe_bind; [apply wsafe_write_uint32|intros _]; apply wsafe_bind; [apply wsafe_write_int32|intros _].
  rewrite mem_load_Some by lia; apply wsafe_lift, wsafe_wr_list, Forall_forall; intros f _.
  by apply wsafe_write_variant, event_field_ok.
Qed.

Lemma wsafe_events it queue n : item_good it → Forall event_ok queue → zlen queue = MU_MAX_EVENT_QUEUE_SIZE →
  ∀ idx, 0 ≤ idx < MU_MAX_EVENT_QUEUE_SIZE → wsafe (write_events it queue idx n).
Proof.
  intros Hit He Hs; induction n as [|n IH]; intros idx Hi; cbn [write_events]; [apply wsafe_ret|].
  destruct (znth_Some queue idx ltac:(lia)) as [ev E]; rewrite E; apply wsafe_lift.
  apply znth_lookup in E as [E _]; pose proof (Forall_lookup_1 _ _ _ _ He E).
  apply wsafe_bind; [by apply wsafe_event|intros _; apply IH, Z.mod_pos_bound; done].
Qed.

Lemma writer_step_buffer w0 w : writer_step w0 w → is_Some (w_buffer w0) → is_Some (w_buffer w).
Proof. intros [_ _ _ Hf] [b Hb]; rewrite Hb in Hf; destruct (w_buffer w); [eauto|done]. Qed.

(** Sequencing after an encoder that is known to be good here. *)
Lemma wgood_bind_good {A B} w0 w (m : Wr A) (k : A → Wr B) Q :
  writer_ok w0 → writer_step w0 w → wgood w (λ _ _, True) (m w) →
  (∀ a w', writer_step w0 w' → w_position w ≤ w_position w' → wgood w0 Q (k a w')) →
  wgood w0 Q ((m ≫= k) w).
Proof.
  intros H0 Hw [Hs Ho] Hk; pose proof (writer_step_trans _ _ _ H0 Hw Hs) as Ht; unfold mbind, M_bind.
  destruct (m w) as [[a|e|] w']; cbn [fst snd] in *; [|by split|done]; apply (Hk a w'); [done|apply Hs].
Qed.

(** Octets can be copied to a writer's position. *)
Lemma wgood_copy w0 w body : writer_ok w0 → writer_step w0 w → is_Some (w_buffer w0) → bytes_ok body → fits w body →
  wgood w0 (λ _ _, True)
    ((b ← lift_option (b ← w_buffer w; mem_store b (w_position w) body);
      put_state (mk_writer (Some b) (w_length w) (w_position w + zlen body) (w_status w))) w).
Proof.
  intros H0 Hs Hsome Hb Hf; pose proof (wstep_ok _ _ Hs) as [Hbuf Hp]; unfold fits in Hf; pose proof (zlen_nonneg body).
  destruct (writer_step_buffer _ _ Hs Hsome) as [b Eb]; rewrite Eb in *; cbn [mbind option_bind].
  destruct Hbuf as (? & ? & ?); rewrite mem_store_Some by lia.
  pose proof (w_append_step w b body (wstep_ok _ _ Hs) Eb Hb Hf) as Ha; rewrite (w_append_buffer _ _ _ Eb) in Ha.
  split; [by eapply writer_step_trans|done].
Qed.

Lemma init_writer_ok b len : 0 ≤ len ≤ zlen b → len ≤ PTRDIFF_MAX → bytes_ok b →
  writer_ok (mu_binary_writer_init (Some b) len).
Proof. intros; split; cbn; [done|lia]. Qed.

Lemma replicate_bytes_ok n : bytes_ok (replicate n 0).
Proof. apply Forall_replicate; by ranges. Qed.

Lemma wgood_event_notification_list w0 w items s : writer_ok w0 → writer_step w0 w → is_Some (w_buffer w0) →
  Forall item_good items → event_queue_ok (sub_event_queue (sub_state s)) →
  wgood w0 (λ _ _, True) (write_event_notification_list items s w).
Proof.
  intros H0 Hs Hsome Hg [Hsize Hh _ _ He]; unfold write_event_notification_list.
  assert (Hnid : nodeid_ok (mk_nodeid 0 (MU_NODEID_NUMERIC 914))) by (split; [by ranges|done]).
  set (reporting := filter _ items); destruct (zlen reporting =? 0).
  { apply wgood_wsafe; [done|done|by apply wsafe_write_extension_object_header]. }
  set (sw := mu_binary_writer_init _ _).
  assert (Hsw : writer_ok sw) by (apply init_writer_ok; [done|done|apply replicate_bytes_ok]).
  match goal with |- context [let '(_, _) := ?m sw in _] => set (body := m); assert (Hm : wsafe body) end.
  { apply wsafe_bind; [apply wsafe_write_int32|intros _]; apply wsafe_wr_list, Forall_forall.
    intros it [_ Hit]%list_elem_of_filter; rewrite Forall_forall in Hg; apply wsafe_events; auto. }
  destruct (Hm sw Hsw) as [Hstep Ho]; destruct (body sw) as [x sw']; cbn [fst snd] in *.
  destruct x as [[]|e|]; [|by split|done].
  apply wgood_bind; [done|done|by apply wsafe_write_extension_object_header|]; intros _ w1 _ Hs1 _; apply wgood_get.
  destruct (Z.ltb_spec (w_length w1) (w_position w1 + w_position sw')) as [|Hfit]; [by split|].
  destruct (writer_step_buffer _ _ Hstep ltac:(by eexists)) as [sb Esb]; rewrite Esb; cbn [mbind option_bind].
  destruct (wstep_ok _ _ Hstep) as [Hbuf Hp]; rewrite Esb in Hbuf; destruct Hbuf as (? & ? & ?).
  rewrite mem_load_Some by lia; set (bytes := ztake _ _).
  assert (Hlen : zlen bytes = w_position sw') by (unfold bytes; rewrite zlen_ztake; rewrite ?zlen_zdrop; lia).
  rewrite <- Hlen in *; apply wgood_copy; [done..| |unfold fits; lia].
  unfold bytes; auto with wire.
Qed.
End events.

(** ** The Publish response *)

Definition request_ok `{BuildCaps} (r : mu_publish_request_t) : Prop :=
  zlen (pr_ack_results r) = MU_MAX_PUBLISH_ACKS ∧ 0 ≤ pr_ack_count r.

Section response.
  Context {profile : BaseProfile} {pub : PublishProfile} {caps : BuildCaps} {Hcaps : BuildCapsOk caps}.

(** The response is built without a fault, and the message bounds are
    positions of the buffer in order. *)
Lemma build_publish_response_good w0 items s request seq include_data report_count publish_time :
  writer_ok w0 → is_Some (w_buffer w0) → Forall item_good items → event_queue_ok (sub_event_queue (sub_state s)) →
  request_ok request →
  wgood w0 (λ bounds w', 0 ≤ bounds.1 ≤ bounds.2 ∧ bounds.2 ≤ w_position w')
    (build_publish_response items s request seq include_data report_count publish_time w0).
Proof.
  intros H0 Hsome Hg Heq [Hacks Hcount]; pose proof (writer_step_refl w0 H0) as Hs0.
  pose proof caps_publish_acks; unfold build_publish_response.
  apply wgood_bind; [done|done|apply wsafe_publish_response_prefix|]; intros _ w1 _ Hs1 _.
  apply wgood_bind; [done|done|apply wsafe_write_uint32|]; intros _ w2 _ Hs2 _.
  apply wgood_bind; [done|done|apply wsafe_write_int32|]; intros _ w3 _ Hs3 _.
  apply wgood_bind; [done|done|apply wsafe_write_boolean|]; intros _ w4 _ Hs4 _.
  match goal with |- wgood _ ?Q ((_ ≫= ?k) w4) => change (wgood w0 Q (k (w_position w4) w4)) end; cbv beta.
  apply wgood_bind; [done|done|apply wsafe_write_uint32|]; intros _ w5 _ Hs5 Hp5.
  apply wgood_bind; [done|done|apply wsafe_write_int64|]; intros _ w6 _ Hs6 Hp6.
  apply wgood_bind; [done|done|apply wsafe_write_int32|]; intros _ w7 _ Hs7 Hp7.
  apply wgood_bind; [done|done|apply wsafe_if; intros _; [by apply wsafe_data_change_notification|apply wsafe_ret]|].
  intros _ w8 _ Hs8 Hp8.
  pose proof (wstep_ok _ _ Hs8) as H8; pose proof (writer_step_refl w8 H8).
  apply wgood_bind_good; [done|done|destruct (include_data && _)|].
  { apply wgood_event_notification_list; [done|done|exact (writer_step_buffer _ _ Hs8 Hsome)|done|done]. }
  { by split. }
  intros _ w9 Hs9 Hp9; match goal with |- wgood _ ?Q ((_ ≫= ?k) w9) => change (wgood w0 Q (k (w_position w9) w9)) end.
  cbv beta zeta; set (acks := if MU_MAX_PUBLISH_ACKS <? _ then _ else _).
  assert (0 ≤ acks ≤ MU_MAX_PUBLISH_ACKS).
  { unfold acks; destruct (Z.ltb_spec MU_MAX_PUBLISH_ACKS (pr_ack_count request)); lia. }
  apply wgood_bind; [done|done|apply wsafe_write_int32|]; intros _ w10 _ Hs10 Hp10.
  rewrite mem_load_Some by lia.
  match goal with |- wgood _ ?Q ((lift_option (Some ?l) ≫= ?k) w10) => change (wgood w0 Q (k l w10)) end; cbv beta.
  apply wgood_bind; [done|done| |].
  { apply wsafe_wr_list, Forall_forall; intros; apply wsafe_write_statuscode. }
  intros _ w11 _ Hs11 Hp11; apply wgood_bind; [done|done|apply wsafe_write_int32|]; intros _ w12 _ Hs12 Hp12.
  split; [done|]; cbn; destruct (wstep_ok _ _ Hs4); lia.
Qed.

(** A ServiceFault always fits the buffer, or reports why not. *)
Lemma service_fault_good body handle status : zlen body = MU_PUBLISH_BODY_BYTES → bytes_ok body →
  match mu_write_service_fault body MU_PUBLISH_BODY_BYTES handle status with
  | (Ok n, Some body') => 0 ≤ n ≤ MU_PUBLISH_BODY_BYTES ∧ zlen body' = MU_PUBLISH_BODY_BYTES ∧ bytes_ok body'
  | (Ok _, None) => False
  | (Err s, _) => s ≠ MU_STATUS_GOOD
  | (Fault, _) => False
  end.
Proof.
  intros Hlen Hb; unfold mu_write_service_fault; set (w0 := mu_binary_writer_init _ _).
  assert (H0 : writer_ok w0) by (apply init_writer_ok; [rewrite Hlen; done|done|done]).
  destruct (wsafe_write_response_prefix MU_ID_SERVICEFAULT handle status ltac:(by ranges) w0 H0) as [Hs Ho].
  destruct (write_response_prefix _ _ _ w0) as [[u|e|] w]; cbn [fst snd] in *; [|done|done].
  destruct (writer_step_buffer _ _ Hs ltac:(by eexists)) as [b Eb]; rewrite Eb.
  destruct Hs as [[Hbuf Hp] Hl _ Hf]; rewrite Eb in Hbuf, Hf; cbn in Hl, Hf; destruct Hf as [Hz _], Hbuf as (_ & _ & Hbytes).
  split; [lia|]; split; [lia|done].
Qed.

Context {Out : Type} {emitter : Emitter Out}.

(** The bounds of the message lie in the buffer. *)
Definition message_ok (message : Z * Z * Z * list Z) : Prop :=
  let '(body_length, message_start, message_end, body) := message in
  0 ≤ message_start ≤ message_end ∧ message_end ≤ body_length ≤ MU_PUBLISH_BODY_BYTES ∧
  zlen body = MU_PUBLISH_BODY_BYTES ∧ bytes_ok body.

(** Sending octets on a valid connection keeps the invariant [J] of the
    transport. *)
Definition emits (J : Out → Prop) (valid : option nat → Prop) : Prop := ∀ out conn request_id bytes,
  J out → valid conn → bytes_ok bytes → zlen bytes ≤ MU_PUBLISH_BODY_BYTES → J (emit_message out conn request_id bytes).2.

Lemma transmit_emits J valid items s request seq include_data report_count publish_time conn out :
  emits J valid → J out → valid conn →
  Forall item_good items → event_queue_ok (sub_event_queue (sub_state s)) → request_ok request →
  ∃ status faulted message out',
    transmit items s request seq include_data report_count publish_time conn out = Some (status, faulted, message, out') ∧
    message_ok message ∧ J out'.
Proof.
  intros Hemit HJ Hconn Hg Heq Hr; unfold transmit; set (w0 := mu_binary_writer_init _ _).
  assert (H0 : writer_ok w0) by (apply init_writer_ok; [done|done|apply replicate_bytes_ok]).
  destruct (build_publish_response_good w0 items s request seq include_data report_count publish_time) as [Hs Ho];
    [done|by eexists|done..|].
  destruct (build_publish_response _ _ _ _ _ _ _ w0) as [x w]; cbn [fst snd] in *.
  destruct (writer_step_buffer _ _ Hs ltac:(by eexists)) as [body Eb]; rewrite Eb; cbn [mbind option_bind].
  destruct Hs as [[Hbuf Hp] Hl _ Hf]; rewrite Eb in Hbuf, Hf; cbn in Hl, Hf; destruct Hf as [Hz _].
  destruct Hbuf as (? & ? & Hbytes); change (zlen (replicate _ 0)) with MU_PUBLISH_BODY_BYTES in Hz.
  assert (Hsend : ∃ status message out', match x with
    | Fault => None
    | Err status => Some (status, (0, 0, 0, body), out)
    | Ok (message_start, message_end) =>
        bytes ← mem_load body 0 (w_position w);
        let '(status, out) := emit_message out conn (pr_request_id request) bytes in
        Some (status, (w_position w, message_start, message_end, body), out)
    end = Some (status, message, out') ∧ message_ok message ∧ J out').
  { destruct x as [[ms me]|e|]; cbn in Ho; [|eexists _, _, _; split; [done|]; cbn; split_and!; lia || done|done].
    rewrite mem_load_Some by lia; cbn [mbind option_bind].
    pose proof (Hemit out conn (pr_request_id request) (ztake (w_position w) (zdrop 0 body)) HJ Hconn ltac:(auto with wire)
      ltac:(rewrite zlen_ztake by (rewrite zlen_zdrop; lia); lia)) as HJ'.
    destruct (emit_message _ _ _ _) as [status out']; eexists _, _, _; split; [done|]; cbn; split_and!; lia || done. }
  destruct Hsend as (status & message & out' & -> & Hmsg & HJ'); cbn [mbind option_bind].
  destruct (publish_response_oversize_status status); [|by eexists _, _, _, _].
  pose proof (service_fault_good body (pr_request_handle request) MU_STATUS_BAD_RESPONSETOOLARGE Hz Hbytes) as Hsf.
  destruct (mu_write_service_fault _ _ _ _) as [[n|e|] [body'|]]; try done; [|by eexists _, _, _, _..].
  destruct Hsf as (Hn & Hz' & Hb'); rewrite mem_load_Some by lia; cbn [mbind option_bind].
  pose proof (Hemit out' conn (pr_request_id request) (ztake n (zdrop 0 body')) HJ' Hconn ltac:(auto with wire)
    ltac:(rewrite zlen_ztake by (rewrite zlen_zdrop; lia); lia)) as HJ2.
  destruct (emit_message _ _ _ _) as [status2 out2]; by eexists _, _, _, _.
Qed.

Lemma emits_any : emits (λ _, True) (λ _, True).
Proof. done. Qed.

Lemma transmit_total items s request seq include_data report_count publish_time conn out :
  Forall item_good items → event_queue_ok (sub_event_queue (sub_state s)) → request_ok request →
  ∃ status faulted message out',
    transmit items s request seq include_data report_count publish_time conn out = Some (status, faulted, message, out') ∧
    message_ok message.
Proof.
  intros Hg He Hr; destruct (transmit_emits (λ _, True) (λ _, True) items s request seq include_data report_count publish_time conn out)
    as (st & f & m & o & -> & Hm & _); [apply emits_any|done..|]; by exists st, f, m, o.
Qed.
End response.

(** ** The tick *)

Section tick.
  Context {profile : BaseProfile} {pub : PublishProfile} {caps : BuildCaps} {Hcaps : BuildCapsOk caps}.

(** The invariant with what the encoders rely on. *)
Record engine_good (e : mu_subscriptions_t) : Prop := {
  eg_inv : engine_inv e;
  eg_items : Forall item_good (subs_monitored_items e);
  eg_events : Forall (λ s, event_queue_ok (sub_event_queue (sub_state s))) (subs_subscriptions e);
  eg_requests : Forall request_ok (subs_publish_queue e)
}.

(** A change of a subscription that keeps its identity and parameters. *)
Record sub_step (s s' : mu_subscription_t) : Prop := {
  st_identity : sub_identity s' = sub_identity s;
  st_parameters : sub_parameters s' = sub_parameters s;
  st_ok : sub_ok s';
  st_events : event_queue_ok (sub_event_queue (sub_state s'))
}.

Definition sub_good (s : mu_subscription_t) : Prop :=
  sub_ok s ∧ event_queue_ok (sub_event_queue (sub_state s)).

Lemma sub_step_refl s : sub_good s → sub_step s s.
Proof. intros [? ?]; by split. Qed.

Lemma sub_step_trans a b c : sub_step a b → sub_step b c → sub_step a c.
Proof. intros [] []; split; congruence || done. Qed.

Lemma sub_step_good a b : sub_step a b → sub_good b.
Proof. intros []; by split. Qed.

Lemma set_counters_step s n k : sub_good s → 1 ≤ n < 4294967296 → sub_step s (set_counters s n k).
Proof. intros [[? Hl] ?] ?; split; [done..| |done]; split; [done|]; intros Hv; cbn; specialize (Hl Hv); lia. Qed.

Lemma set_flags_step s m r : sub_good s → sub_step s (set_flags s m r).
Proof. intros [[? ?] ?]; split; [done..| |done]; by split. Qed.

Lemma set_event_queue_step s eq : sub_good s → event_queue_ok eq → sub_step s (set_event_queue s eq).
Proof. intros [[? ?] ?] ?; split; [done..| |done]; by split. Qed.

Lemma set_retransmit_step s rs : sub_good s → retransmit_ok rs → sub_step s (set_retransmit s rs).
Proof. intros [? ?] ?; split; [done..| |done]; by apply set_retransmit_ok. Qed.

Lemma advance_timer_step s now_ms : sub_good s → sub_step s (advance_publish_timer s now_ms).
Proof. intros [[? ?] ?]; split; [done..| |done]; by split. Qed.

Lemma current_sequence_range s : sub_good s → sub_live s = true → 1 ≤ current_sequence_number s < 4294967296.
Proof. intros [[_ Hl] _] H; specialize (Hl H); unfold current_sequence_number; split_if; lia. Qed.

Lemma next_sequence_range n : 1 ≤ next_sequence_number n < 4294967296.
Proof.
  unfold next_sequence_number; pose proof (to_unsigned_range 32 (n + 1) ltac:(lia)) as Hr; norm_pow.
  cbv zeta; destruct (Z.eqb_spec (to_u32 (n + 1)) 0); ranges; lia.
Qed.

Lemma count_queue_entries_nonneg mx n : ∀ count, 0 ≤ count → 0 ≤ (count_queue_entries count mx n).2.
Proof. induction n; intros; cbn [count_queue_entries]; [done|]; split_if; [done|apply IHn; lia]. Qed.

Lemma count_items_nonneg selected mx items : ∀ count, 0 ≤ count → 0 ≤ (count_items selected mx items count).2.
Proof.
  induction items as [|it items IH]; intros count Hc; cbn [count_items]; [done|]; destruct (selected it); [|auto].
  pose proof (count_queue_entries_nonneg mx (Z.to_nat (q_count (mi_queue it))) count Hc).
  destruct (count_queue_entries _ _ _) as [[] c]; [by apply IH|done].
Qed.

Lemma count_reportable_nonneg items s : 0 ≤ (count_reportable_items items s).1.
Proof.
  unfold count_reportable_items; destruct MUC_OPCUA_SUBSCRIPTIONS_STANDARD; [|apply zlen_nonneg].
  pose proof (count_items_nonneg (λ it, monitored_item_reportable it s)
    (sub_max_notifications_per_publish (sub_parameters s)) items 0 ltac:(lia)) as H1.
  destruct (count_items _ _ items 0) as [[] c]; [|done]; cbn in H1.
  pose proof (count_items_nonneg (monitored_item_reports_by_trigger items s)
    (sub_max_notifications_per_publish (sub_parameters s)) items c H1).
  by destruct (count_items _ _ items c) as [[] c'].
Qed.

Lemma collect_total now items s : Forall item_good items → sub_good s →
  ∃ items' s' report_count has_data, collect now items s = Some (items', s', report_count, has_data) ∧
    items_step items items' ∧ sub_step s s' ∧ 0 ≤ report_count.
Proof.
  intros Hg Hs; unfold collect; pose proof (items_step_refl _ Hg) as Hrefl; split_if.
  2:{ eexists _, _, _, _; split; [done|]; split; [done|]; split; [by apply sub_step_refl|done]. }
  assert (Hprep : ∃ items', (if MUC_OPCUA_SUBSCRIPTIONS_STANDARD
      then items ← prepare_reportable_queues items s; enqueue_resend_data now items s else Some items) = Some items'
      ∧ items_step items items').
  { destruct MUC_OPCUA_SUBSCRIPTIONS_STANDARD; [|eauto]; unfold prepare_reportable_queues, enqueue_resend_data.
    destruct (mapM_items_total (prepare_item s) items (prepare_item_total s) Hg) as (l & -> & Hl); cbn [mbind option_bind].
    split_if; [eauto|].
    destruct (mapM_items_total (resend_item now s) l (resend_item_total now s) (items_step_good _ _ Hl)) as (l' & -> & Hl').
    exists l'; split; [done|exact (items_step_trans _ _ _ Hl Hl')]. }
  destruct Hprep as (items' & -> & Hstep); cbn [mbind option_bind].
  set (s1 := if MUC_OPCUA_SUBSCRIPTIONS_STANDARD then _ else s).
  assert (H1 : sub_step s s1) by (unfold s1; split_if; [by apply set_flags_step|by apply sub_step_refl]).
  pose proof (count_reportable_nonneg items' s1); destruct (count_reportable_items items' s1) as [rc more].
  eexists _, _, _, _; split; [done|]; split; [done|]; split; [|done].
  eapply sub_step_trans; [exact H1|]; by apply set_flags_step, (sub_step_good s).
Qed.

Lemma store_retransmit_step s seq time body : sub_good s → bytes_ok body → ∃ s', store_retransmit s seq time body = Some s' ∧ sub_step s s'.
Proof.
  intros Hs Hbody; pose proof Hs as [[(Hm & Hmb & Hl) _] _]; unfold store_retransmit; pose proof caps_retransmit.
  pose proof (zlen_nonneg body).
  destruct (Z.ltb_spec MU_RETRANSMIT_BYTES (zlen body)).
  { eexists; split; [done|]; apply set_retransmit_step; [done|]; split_and!; cbn; [done|done|lia..]. }
  rewrite mem_store_Some by lia; cbn [mbind option_bind]; eexists; split; [done|].
  apply set_retransmit_step; [done|]; split_and!; cbn [rs_message rs_message_len]; [| |lia..].
  - rewrite !zlen_app, zlen_ztake, zlen_zdrop by lia; lia.
  - rewrite !bytes_ok_app; auto with wire.
Qed.

Lemma report_sent_total items s report_count seq time message :
  Forall item_good items → sub_good s → sub_live s = true → message_ok message → 0 ≤ report_count →
  ∃ items' s', report_sent items s report_count seq time message = Some (items', s') ∧
    items_step items items' ∧ sub_step s s'.
Proof.
  intros Hg Hs Hlive Hm Hr; unfold report_sent; destruct message as [[[bl ms] me] body]; destruct Hm as (Hm1 & Hm2 & Hm3 & Hbytes).
  pose proof (clear_items_step items s report_count Hg Hr) as Hclear.
  set (s1 := if 0 <? event_count s then _ else s).
  assert (H1 : sub_step s s1).
  { unfold s1; split_if; [|by apply sub_step_refl]; apply set_event_queue_step; [done|]; pose proof Hs as [_ []].
    split; cbn; unfold MU_MAX_EVENT_QUEUE_SIZE in *; done || lia. }
  assert (Hlive1 : sub_live s1 = true) by (unfold sub_live; by rewrite (st_identity _ _ H1)).
  pose proof (sub_step_good _ _ H1) as Hg1; pose proof Hg1 as [[_ Hseq] _]; specialize (Hseq Hlive1).
  set (s2 := set_counters s1 _ 0); assert (H2 : sub_step s1 s2) by (apply set_counters_step; [done|lia]).
  pose proof (sub_step_good _ _ H2) as Hg2; rewrite (proj2 (Z.leb_le ms me)), (proj2 (Z.leb_le me bl)) by lia; cbn [andb].
  rewrite mem_load_Some by lia; cbn [mbind option_bind].
  match goal with |- context [store_retransmit s2 seq time ?b] =>
    destruct (store_retransmit_step s2 seq time b Hg2 ltac:(auto with wire)) as (s3 & -> & H3) end; cbn [mbind option_bind].
  eexists _, _; split; [done|]; split; [done|].
  eapply sub_step_trans; [exact H1|]; eapply sub_step_trans; [exact H2|]; eapply sub_step_trans; [exact H3|].
  apply set_counters_step; [by eapply sub_step_good|apply next_sequence_range].
Qed.

(** Steps on the items leave the identifiers alone. *)
Lemma keys_items_step (live : mu_item_identity_t → bool) (key : mu_item_identity_t → Z) items items' :
  items_step items items' →
  keys (λ it, live (mi_identity it)) (λ it, key (mi_identity it)) items' =
  keys (λ it, live (mi_identity it)) (λ it, key (mi_identity it)) items.
Proof.
  induction 1 as [|it it' l l' (E & _) _ IH]; [done|]; rewrite !keys_cons, IH; unfold key_of; by rewrite E.
Qed.

Lemma set_items_good e items : engine_good e → items_step (subs_monitored_items e) items → engine_good (set_items e items).
Proof.
  intros [[] ? ? ?] Hstep; pose proof (items_step_good _ _ Hstep) as Hg.
  pose proof (keys_items_step mi_in_use mi_monitored_item_id _ _ Hstep) as E1.
  pose proof (keys_items_step mi_in_use mi_subscription_id _ _ Hstep) as E2.
  change (item_ids (set_items e items) = item_ids e) in E1.
  change (item_owners (set_items e items) = item_owners e) in E2.
  split; [split|done..]; rewrite ?E1, ?E2; try done.
  - unfold zlen in *; cbn; apply Forall2_length in Hstep; lia.
  - eapply Forall_impl; [exact Hg|]; by intros ? [].
Qed.

Lemma set_sub_good e i s s' : engine_good e → subs_subscriptions e !! i = Some s → sub_step s s' →
  engine_good (set_sub e i s').
Proof.
  intros [] Hi []; split; [by apply (set_sub_inv _ _ s)|done| |done].
  by apply Forall_insert.
Qed.

Lemma with_sub_good e i s s' items : engine_good e → subs_subscriptions e !! i = Some s → sub_step s s' →
  items_step (subs_monitored_items e) items → engine_good (with_sub e i s' items).
Proof. intros; apply set_items_good; [by apply (set_sub_good _ _ s)|done]. Qed.

Lemma zero_request_ok : request_ok zero_publish_request.
Proof. pose proof caps_publish_acks; split; cbn; [unfold zlen; rewrite length_replicate|]; lia. Qed.

(** Taking a request off the queue touches nothing else. *)
Lemma dequeue_good e session : engine_good e →
  let '(request, e') := publish_request_dequeue e session in
  engine_good e' ∧ subs_subscriptions e' = subs_subscriptions e ∧ subs_monitored_items e' = subs_monitored_items e ∧
  (∀ r, request = Some r → request_ok r).
Proof.
  intros He; pose proof (dequeue_fifo e session) as Hd; pose proof (dequeue_inv e session (eg_inv e He)) as Hinv.
  destruct (publish_request_dequeue e session) as [[r|] e']; cbn [snd] in Hinv.
  - destruct Hd as (i & Hi & _ & -> & _); destruct He; split_and!; [split; try done|done..|].
    + apply Forall_insert; [done|apply zero_request_ok].
    + intros ? [= <-]; by eapply Forall_lookup_1.
  - destruct Hd as [-> _]; by split_and!.
Qed.

Section serve.
  Context {Out : Type} {emitter : Emitter Out} (J : Out → Prop) (valid : option nat → Prop) (Hemit : emits J valid).

(** What serving a subscription leaves: the subscription and the items
    stepped, the engine as good as before. *)
Definition serviced (s : mu_subscription_t) (items : list mu_monitored_item_t) (e : mu_subscriptions_t)
    (out : option (mu_subscription_t * list mu_monitored_item_t * mu_subscriptions_t * Out)) : Prop :=
  ∃ s' items' e' o, out = Some (s', items', e', o) ∧ J o ∧ sub_step s s' ∧ items_step items items' ∧
    engine_good e' ∧ subs_subscriptions e' = subs_subscriptions e ∧ subs_monitored_items e' = subs_monitored_items e.

Lemma publish_data_served time conn i s items report_count e out :
  J out → valid conn → engine_good e → Forall item_good items → sub_good s → sub_live s = true → 0 ≤ report_count →
  serviced s items e (publish_data time conn i s items report_count e out).
Proof.
  intros HJ Hconn He Hg Hs Hlive Hr; unfold publish_data.
  pose proof (dequeue_good e (sub_session_id (sub_identity s)) He) as Hd.
  destruct (publish_request_dequeue _ _) as [[r|] e']; destruct Hd as (He' & Es & Ei & Hreq).
  2:{ eexists _, _, _, _; split; [done|]; split_and!; [done|by apply sub_step_refl|by apply items_step_refl|done..]. }
  set (seq := current_sequence_number s); set (s1 := set_counters s seq _).
  assert (H1 : sub_step s s1) by (by apply set_counters_step, current_sequence_range).
  pose proof (sub_step_good _ _ H1) as Hs1.
  destruct (transmit_emits J valid items s1 r seq true report_count time conn out Hemit HJ Hconn Hg (proj2 Hs1) (Hreq r eq_refl))
    as (status & faulted & message & out' & -> & Hm & HJ'); cbn [mbind option_bind].
  split_if.
  2:{ eexists _, _, _, _; split; [done|]; split_and!; [done|done|by apply items_step_refl|done..]. }
  destruct (report_sent_total items s1 report_count seq time message Hg Hs1) as (items' & s2 & -> & Hi & H2); [done..|].
  cbn [mbind option_bind]; eexists _, _, _, _; split; [done|]; split_and!; [done|exact (sub_step_trans _ _ _ H1 H2)|done..].
Qed.

Lemma publish_keep_alive_served time conn i s items e out :
  J out → valid conn → engine_good e → Forall item_good items → sub_good s → sub_live s = true →
  serviced s items e (publish_keep_alive time conn i s items e out).
Proof.
  intros HJ Hconn He Hg Hs Hlive; unfold publish_keep_alive; set (counter := to_u32 _); set (s1 := set_counters s _ counter).
  pose proof Hs as [[_ Hseq] _]; specialize (Hseq Hlive).
  assert (H1 : sub_step s s1) by (apply set_counters_step; [done|lia]); pose proof (sub_step_good _ _ H1) as Hs1.
  pose proof (items_step_refl _ Hg) as Hrefl.
  split_if; [|by eexists _, _, _, _; split; [done|]; split_and!].
  pose proof (dequeue_good e (sub_session_id (sub_identity s1)) He) as Hd.
  destruct (publish_request_dequeue _ _) as [[r|] e']; destruct Hd as (He' & Es & Ei & Hreq).
  2:{ by eexists _, _, _, _; split; [done|]; split_and!. }
  set (seq := current_sequence_number s1); set (s2 := set_counters s1 seq counter).
  pose proof (current_sequence_range s1 Hs1 ltac:(done)) as Hrange.
  assert (H2 : sub_step s1 s2) by (by apply set_counters_step); pose proof (sub_step_good _ _ H2) as Hs2.
  pose proof (sub_step_trans _ _ _ H1 H2) as H12.
  destruct (transmit_emits J valid items s2 r seq false 0 time conn out Hemit HJ Hconn Hg (proj2 Hs2) (Hreq r eq_refl))
    as (status & faulted & message & out' & -> & Hm & HJ'); cbn [mbind option_bind].
  split_if; eexists _, _, _, _; (split; [done|]); split_and!; try done.
  exact (sub_step_trans _ _ _ H12 (set_counters_step s2 seq 0 Hs2 Hrange)).
Qed.

Lemma publish_one_good time now now_ms sessions conns i e out :
  (∀ s conn, resolve_connection sessions conns s = Some conn → valid conn) → J out → engine_good e → (i < Z.to_nat MU_MAX_SUBSCRIPTIONS)%nat →
  ∃ e' out', publish_one time now now_ms sessions conns i e out = Some (e', out') ∧ engine_good e' ∧ J out'.
Proof.
  intros Hvalid HJ He Hi; unfold publish_one; pose proof (inv_subs_size e (eg_inv e He)) as Hsize; unfold zlen in Hsize.
  destruct (lookup_lt_is_Some_2 (subs_subscriptions e) i ltac:(lia)) as [s Es]; rewrite Es; cbn [mbind option_bind].
  pose proof (Forall_lookup_1 _ _ _ _ (inv_subs_ok e (eg_inv e He)) Es) as Hok.
  pose proof (Forall_lookup_1 _ _ _ _ (eg_events e He) Es) as Hev; assert (Hs : sub_good s) by (by split).
  destruct (sub_live s) eqn:Hlive; cbn [negb orb]; [|eauto]; split_if; [eauto|].
  destruct (resolve_connection sessions conns s) as [conn|] eqn:Ec; [|eauto]; apply Hvalid in Ec.
  destruct (collect_total now _ s (eg_items e He) Hs) as (items & s1 & rc & has & -> & Hitems & H1 & Hrc); cbn [mbind option_bind].
  pose proof (sub_step_good _ _ H1) as Hs1; pose proof (items_step_good _ _ Hitems) as Hgood.
  assert (Hlive1 : sub_live s1 = true) by (unfold sub_live; by rewrite (st_identity _ _ H1)).
  assert (Hserved : serviced s1 items e (if has then publish_data (publish_time_now time now) conn i s1 items rc e out
      else publish_keep_alive (publish_time_now time now) conn i s1 items e out)).
  { destruct has; [by apply publish_data_served|by apply publish_keep_alive_served]. }
  destruct Hserved as (s2 & items2 & e' & o & -> & HJ' & H2 & Hi2 & He' & Esub & Eitem); cbn [mbind option_bind].
  eexists _, _; split; [done|]; split; [|done]; apply (with_sub_good _ _ s); [done|by rewrite Esub| |].
  - eapply sub_step_trans; [exact H1|]; eapply sub_step_trans; [exact H2|]; apply advance_timer_step; by eapply sub_step_good.
  - rewrite Eitem; exact (items_step_trans _ _ _ Hitems Hi2).
Qed.

Lemma publish_due_good time now now_ms sessions conns slots : (∀ s conn, resolve_connection sessions conns s = Some conn → valid conn) →
  ∀ e out, J out → engine_good e → Forall (λ i, (i < Z.to_nat MU_MAX_SUBSCRIPTIONS)%nat) slots →
  ∃ e' out', publish_due time now now_ms sessions conns slots e out = Some (e', out') ∧ engine_good e' ∧ J out'.
Proof.
  intros Hvalid; induction slots as [|i slots IH]; intros e out HJ He Hf; cbn [publish_due]; [eauto|].
  apply Forall_cons_iff in Hf as [Hi Hf].
  destruct (publish_one_good time now now_ms sessions conns i e out Hvalid HJ He Hi) as (e1 & out1 & -> & He1 & HJ1).
  cbn [mbind option_bind]; by apply IH.
Qed.

Lemma tick_emits time now now_ms sessions conns e out :
  (∀ s conn, resolve_connection sessions conns s = Some conn → valid conn) → J out → engine_good e →
  ∃ e' out', mu_subscriptions_tick time now now_ms sessions conns e out = Some (e', out') ∧ engine_good e' ∧ J out'.
Proof.
  intros Hvalid HJ He; unfold mu_subscriptions_tick.
  destruct (sample_items_total now now_ms (subs_monitored_items e) (subs_active_monitored_items_count e) (eg_items e He))
    as (items & -> & Hstep); cbn [mbind option_bind].
  apply publish_due_good; [done|done|by apply set_items_good|]; apply Forall_forall; intros i ?%elem_of_seq; lia.
Qed.
End serve.

Lemma tick_good {Out : Type} {emitter : Emitter Out} time now now_ms sessions conns e (out : Out) : engine_good e →
  ∃ e' out', mu_subscriptions_tick time now now_ms sessions conns e out = Some (e', out') ∧ engine_good e'.
Proof.
  intros He; destruct (tick_emits (λ _, True) (λ _, True) emits_any time now now_ms sessions conns e out) as (e' & o & -> & He' & _); eauto.
Qed.
End tick.
