(* ===== verification/SubscriptionService.v ===== *)
(** * Subscription services

    The handlers of [src/core/service_dispatch.c] for the Subscription and
    MonitoredItem service sets: CreateSubscription, ModifySubscription,
    SetPublishingMode, DeleteSubscriptions, CreateMonitoredItems,
    ModifyMonitoredItems, SetMonitoringMode, SetTriggering,
    DeleteMonitoredItems, Publish and Republish. They run on any server state
    that hosts a subscription engine (class [SubscriptionHost]). *)

From S2P Require Export Publish.

Definition MU_DISPATCH_MAX_SUBSCRIPTION_OPERATIONS : Z := 32.
Definition MU_MIN_PUBLISHING_INTERVAL_MS : Z := 50.
Definition MU_MAX_PUBLISHING_INTERVAL_MS : Z := 60000.
Definition MU_PUBLISHING_INTERVAL_MIN_BITS : Z := 0x4049000000000000.
Definition MU_PUBLISHING_INTERVAL_MAX_BITS : Z := 0x40ed4c0000000000.
Definition MU_MONITORED_VALUE_ATTRIBUTE_ID : Z := 13.
Definition MU_ID_DATACHANGEFILTER_ENCODING_DEFAULTBINARY : Z := 724.
Definition MU_ID_EVENTFILTER_ENCODING_DEFAULTBINARY : Z := 727.
Definition MU_MAX_MONITORED_STRING : Z := 32.
Definition MU_DATACHANGE_TRIGGER_STATUS_VALUE : Z := 1.
Definition MU_DATACHANGE_TRIGGER_STATUS_VALUE_TIMESTAMP : Z := 2.
Definition MU_DEADBAND_TYPE_NONE : Z := 0.
Definition MU_DEADBAND_TYPE_PERCENT : Z := 2.

(** ** Durations *)

(** The revised interval, in milliseconds, of a requested Duration. *)
Definition publishing_interval_bits_to_ms (bits : Z) : Z :=
  if negb (Z.land bits MU_DOUBLE_SIGN_BIT =? 0) || (bits <? MU_PUBLISHING_INTERVAL_MIN_BITS)
  then MU_MIN_PUBLISHING_INTERVAL_MS
  else if MU_PUBLISHING_INTERVAL_MAX_BITS <? bits then MU_MAX_PUBLISHING_INTERVAL_MS
  else
    let exponent := to_u32 (Z.land (Z.shiftr bits 52) 0x7FF) in
    let fraction := Z.land bits 0x000FFFFFFFFFFFFF in
    let mantissa := Z.lor (Z.shiftl 1 52) fraction in
    let unbiased := to_u32 (exponent - 1023) in
    if 52 <=? unbiased then to_u32 (to_u64 (Z.shiftl mantissa (unbiased - 52)))
    else to_u32 (Z.shiftr mantissa (52 - unbiased)).

(** The loop that finds the leading bit; a [uint32_t] loses it in 31 turns. *)
Fixpoint leading_bit (fuel : nat) (value exponent : Z) : Z :=
  match fuel with
  | O => exponent
  | S fuel =>
      if negb (Z.shiftr value 1 =? 0) then leading_bit fuel (Z.shiftr value 1) (exponent + 1) else exponent
  end.

Definition publishing_interval_ms_to_bits (interval_ms : Z) : Z :=
  let exponent := leading_bit 32 interval_ms 0 in
  let leading := Z.shiftl 1 exponent in
  let fraction := to_u64 (Z.shiftl (to_u64 (interval_ms - leading)) (52 - exponent)) in
  Z.lor (to_u64 (Z.shiftl (exponent + 1023) 52)) fraction.

(** ** MonitoringFilters *)

(** The filter fields of [mu_monitored_item_create_body_t]. *)
Record mu_filter_t := mk_filter {
  cb_trigger : Z;
  cb_deadband_type : Z;
  cb_deadband_value : Z;
  cb_filter_result : Z;
  cb_has_datachange_filter : bool;
  cb_has_aggregate : bool;
  cb_aggregate_type : Z;
  cb_processing_interval : Z
}.

Record mu_monitored_item_create_body_t := mk_create_body {
  cb_node_id : mu_nodeid_t;
  cb_attribute_id : Z;
  cb_monitoring_mode : Z;
  cb_client_handle : Z;
  cb_sampling_interval_bits : Z;
  cb_filter : mu_filter_t;
  cb_queue_size : Z;
  cb_discard_oldest : bool;
  cb_select_clauses : list Z;
  cb_select_clauses_count : Z
}.

Definition default_filter : mu_filter_t :=
  mk_filter MU_DATACHANGE_TRIGGER_STATUS_VALUE MU_DEADBAND_TYPE_NONE 0 MU_STATUS_GOOD false false 0 0.

Definition set_filter_result (f : mu_filter_t) (result : Z) : mu_filter_t :=
  mk_filter (cb_trigger f) (cb_deadband_type f) (cb_deadband_value f) result (cb_has_datachange_filter f)
    (cb_has_aggregate f) (cb_aggregate_type f) (cb_processing_interval f).

Definition set_trigger (f : mu_filter_t) (trigger : Z) : mu_filter_t :=
  mk_filter trigger (cb_deadband_type f) (cb_deadband_value f) (cb_filter_result f) (cb_has_datachange_filter f)
    (cb_has_aggregate f) (cb_aggregate_type f) (cb_processing_interval f).

Definition set_deadband (f : mu_filter_t) (type value : Z) : mu_filter_t :=
  mk_filter (cb_trigger f) type value (cb_filter_result f) (cb_has_datachange_filter f)
    (cb_has_aggregate f) (cb_aggregate_type f) (cb_processing_interval f).

(** A numeric identifier of namespace 0. *)
Definition is_ns0_numeric (id : mu_nodeid_t) (numeric : Z) : bool :=
  match nid_identifier id with
  | MU_NODEID_NUMERIC n => (nid_namespace_index id =? 0) && (n =? numeric)
  | _ => false
  end.

Definition is_datachange_filter_binary_type (type_id : mu_nodeid_t) : bool :=
  is_ns0_numeric type_id MU_ID_DATACHANGEFILTER_ENCODING_DEFAULTBINARY.

Definition is_null_extension_object_type (type_id : mu_nodeid_t) (length : Z) : bool :=
  is_ns0_numeric type_id 0 && (length =? 0).

Section filters.
  Context {profile : BaseProfile} {pub : PublishProfile}.

Definition is_known_monitoring_filter_binary_type (type_id : mu_nodeid_t) (length : Z) : bool :=
  is_null_extension_object_type type_id length || is_datachange_filter_binary_type type_id
  || is_ns0_numeric type_id MU_ID_AGGREGATEFILTER_ENCODING_DEFAULTBINARY
  || (MUC_OPCUA_EVENTS && is_ns0_numeric type_id MU_ID_EVENTFILTER_ENCODING_DEFAULTBINARY).

Definition is_numeric_variant_type (type : Z) : bool :=
  bool_decide (type ∈ [MU_TYPE_SBYTE; MU_TYPE_BYTE; MU_TYPE_INT16; MU_TYPE_UINT16; MU_TYPE_INT32; MU_TYPE_UINT32;
                       MU_TYPE_INT64; MU_TYPE_UINT64; MU_TYPE_FLOAT; MU_TYPE_DOUBLE]).

Definition monitored_node_has_numeric_static_value (node : mu_node_t) : bool :=
  match node_value node with
  | None => false
  | Some (MU_VALUESOURCE_CALLBACK _) => true
  | Some (MU_VALUESOURCE_STATIC v) => if v_is_array v then false else is_numeric_variant_type (v_type v)
  end.

Definition set_datachange_trigger_from_wire (body : mu_filter_t) (trigger : Z) : mu_filter_t :=
  if trigger =? 0 then set_trigger body MU_DATACHANGE_TRIGGER_STATUS
  else if trigger =? 1 then set_trigger body MU_DATACHANGE_TRIGGER_STATUS_VALUE
  else if trigger =? 2 then set_trigger body MU_DATACHANGE_TRIGGER_STATUS_VALUE_TIMESTAMP
  else set_filter_result body MU_STATUS_BAD_MONITOREDITEMFILTERINVALID.

(** The switch on the deadband type. *)
Definition set_deadband_from_wire (body : mu_filter_t) (deadband_type deadband_value : Z) : mu_filter_t :=
  if deadband_type =? 0 then set_deadband body MU_DEADBAND_TYPE_NONE 0
  else if deadband_type =? 1 then set_deadband body MU_DEADBAND_TYPE_ABSOLUTE deadband_value
  else if deadband_type =? 2 then
    let body := set_deadband body MU_DEADBAND_TYPE_PERCENT deadband_value in
    if cb_filter_result body =? MU_STATUS_GOOD
    then set_filter_result body MU_STATUS_BAD_MONITOREDITEMFILTERUNSUPPORTED else body
  else set_filter_result body MU_STATUS_BAD_MONITOREDITEMFILTERINVALID.

Definition read_datachange_filter_body (filter_length : Z) (body : mu_filter_t) : Rd mu_filter_t :=
  if filter_length =? 0 then mret body
  else if negb (filter_length =? 16) then fail MU_STATUS_BAD_DECODINGERROR
  else
    r ← get_state;
    if (r_length r <? r_position r) || (r_length r - r_position r <? filter_length)
    then fail MU_STATUS_BAD_DECODINGERROR
    else
      trigger ← or_default 0 mu_binary_read_uint32;
      deadband_type ← or_default 0 mu_binary_read_uint32;
      deadband_value ← or_default 0 mu_binary_read_double;
      reader_status;;
      mret (set_deadband_from_wire (set_datachange_trigger_from_wire body trigger) deadband_type deadband_value).

(** What an AggregateFilter that was decoded asks for. *)
Definition set_aggregate (body : mu_filter_t) (aggregate_type : mu_nodeid_t) (processing_interval : Z) : mu_filter_t :=
  let with_type type := mk_filter (cb_trigger body) (cb_deadband_type body) (cb_deadband_value body)
                          (cb_filter_result body) (cb_has_datachange_filter body) true type processing_interval in
  let unsupported type := set_filter_result (with_type type) MU_STATUS_BAD_MONITOREDITEMFILTERUNSUPPORTED in
  match nid_identifier aggregate_type with
  | MU_NODEID_NUMERIC n =>
      if nid_namespace_index aggregate_type =? 0 then
        if negb (n =? MU_ID_AGGREGATETYPE_AVERAGE) && negb (n =? MU_ID_AGGREGATETYPE_MINIMUM)
           && negb (n =? MU_ID_AGGREGATETYPE_MAXIMUM) then unsupported n
        else if double_ge 0 processing_interval then set_filter_result (with_type n) MU_STATUS_BAD_FILTERNOTALLOWED
        else with_type n
      else unsupported (cb_aggregate_type body)
  | _ => unsupported (cb_aggregate_type body)
  end.

Definition read_aggregate_filter_body (filter_length : Z) (body : mu_filter_t) : Rd mu_filter_t :=
  if filter_length =? 0 then mret (set_filter_result body MU_STATUS_BAD_DECODINGERROR)
  else
    r ← get_state;
    if (r_length r <? r_position r) || (r_length r - r_position r <? filter_length)
    then fail MU_STATUS_BAD_DECODINGERROR
    else
      mu_binary_read_int64;;
      aggregate_type ← mu_binary_read_nodeid;
      processing_interval ← mu_binary_read_double;
      or_default false mu_binary_read_boolean;;
      or_default false mu_binary_read_boolean;;
      or_default 0 mu_binary_read_byte;;
      or_default 0 mu_binary_read_byte;;
      or_default false mu_binary_read_boolean;;
      reader_status;;
      mret (set_aggregate body aggregate_type processing_interval).

(** The field a select clause names. *)
Definition event_field_type (last_name : mu_string_t) : option Z :=
  match str_data last_name with
  | Some data =>
      if 0 <? str_length last_name then
        name ← mem_load data 0 (str_length last_name);
        Some (if bool_decide (name = bytes_of_string "EventId") then 1
              else if bool_decide (name = bytes_of_string "EventType") then 2
              else if bool_decide (name = bytes_of_string "Time") then 3
              else if bool_decide (name = bytes_of_string "Message") then 4
              else if bool_decide (name = bytes_of_string "Severity") then 5 else 0)
      else Some 0
  | None => Some 0
  end.

(** The browse path of a select clause: its last name. *)
Fixpoint read_browse_path (bp_count : nat) (last_name : mu_string_t) : Rd mu_string_t :=
  match bp_count with
  | O => mret last_name
  | S bp_count =>
      or_default 0 mu_binary_read_uint16;;
      name ← mu_binary_read_string;
      read_browse_path bp_count name
  end.

(** The field of one SimpleAttributeOperand. *)
Definition read_select_clause : Rd Z :=
  mu_binary_read_nodeid;;
  bp_count ← mu_binary_read_int32;
  if bp_count <? 0 then fail MU_STATUS_BAD_DECODINGERROR
  else
    last_name ← read_browse_path (Z.to_nat bp_count) (mk_string (-1) None);
    or_default 0 mu_binary_read_uint32;;
    mu_binary_read_string;;
    lift_option (event_field_type last_name).

(** The select clauses; only the first eight are kept. *)
Fixpoint read_select_clauses (n : nat) (i : Z) (select_clauses : list Z) (count : Z) : Rd (list Z * Z) :=
  match n with
  | O => mret (select_clauses, count)
  | S n =>
      field_type ← read_select_clause;
      if i <? 8 then
        select_clauses ← lift_option (mem_store select_clauses i [field_type]);
        read_select_clauses n (i + 1) select_clauses (to_u8 (count + 1))
      else read_select_clauses n (i + 1) select_clauses count
  end.

(** The where clause is decoded and ignored. *)
Definition skip_filter_operand : Rd unit :=
  '(_, ext_len) ← mu_binary_read_extension_object_header;
  skip_extension_object_body ext_len.

Definition skip_filter_element : Rd unit :=
  or_default 0 mu_binary_read_uint32;;
  arg_count ← or_default 0 mu_binary_read_int32;
  if arg_count <? 0 then fail MU_STATUS_BAD_DECODINGERROR
  else rd_list (Z.to_nat arg_count) skip_filter_operand;; mret tt.

(** The select clauses of an EventFilter and their number. *)
Definition read_event_filter_body : Rd (list Z * Z) :=
  select_count ← mu_binary_read_int32;
  if select_count <? 0 then fail MU_STATUS_BAD_DECODINGERROR
  else
    select ← read_select_clauses (Z.to_nat select_count) 0 (repeat 0 8) 0;
    element_count ← mu_binary_read_int32;
    if element_count <? 0 then fail MU_STATUS_BAD_DECODINGERROR
    else
      rd_list (Z.to_nat element_count) skip_filter_element;;
      reader_status;;
      mret select.

(** A filter body must be consumed exactly. *)
Definition at_position (position : Z) : Rd unit :=
  r ← get_state;
  if negb (r_position r =? position) then fail MU_STATUS_BAD_DECODINGERROR else mret tt.

(** The filter of a CreateMonitoredItems request: the filter fields and the
    select clauses, which keep [select] when the filter sets none. *)
Definition read_monitoring_filter (select : list Z * Z) : Rd (mu_filter_t * (list Z * Z)) :=
  '(filter_type, filter_length) ← mu_binary_read_extension_object_header;
  if MUC_OPCUA_SUBSCRIPTIONS_STANDARD then
    filter_body_start ← (r ← get_state; mret (r_position r));
    let filter_end := to_size (filter_body_start + filter_length) in
    ensure_reader_bytes_remaining filter_length;;
    if is_datachange_filter_binary_type filter_type then
      let f := mk_filter (cb_trigger default_filter) (cb_deadband_type default_filter)
                 (cb_deadband_value default_filter) (cb_filter_result default_filter) true false 0 0 in
      f ← read_datachange_filter_body filter_length f;
      at_position filter_end;;
      mret (f, select)
    else if is_ns0_numeric filter_type MU_ID_AGGREGATEFILTER_ENCODING_DEFAULTBINARY then
      f ← read_aggregate_filter_body filter_length default_filter;
      at_position filter_end;;
      mret (f, select)
    else if MUC_OPCUA_EVENTS && is_ns0_numeric filter_type MU_ID_EVENTFILTER_ENCODING_DEFAULTBINARY then
      select ← read_event_filter_body;
      at_position filter_end;;
      mret (set_filter_result default_filter MU_STATUS_GOOD, select)
    else if is_null_extension_object_type filter_type filter_length then mret (default_filter, select)
    else
      skip_extension_object_body filter_length;;
      mret (set_filter_result default_filter MU_STATUS_BAD_MONITOREDITEMFILTERUNSUPPORTED, select)
  else if MUC_OPCUA_EVENTS && is_ns0_numeric filter_type MU_ID_EVENTFILTER_ENCODING_DEFAULTBINARY then
    select ← read_event_filter_body; mret (default_filter, select)
  else skip_extension_object_body filter_length;; mret (default_filter, select).

(** [garbage] holds the select clauses of the uninitialised [body]. *)
Definition read_monitored_item_create_body (garbage : list Z * Z) : Rd mu_monitored_item_create_body_t :=
  node_id ← mu_binary_read_nodeid;
  attribute_id ← or_default 0 mu_binary_read_uint32;
  reader_status;;
  mu_binary_read_string;;
  or_default 0 mu_binary_read_uint16;;
  reader_status;;
  mu_binary_read_string;;
  monitoring_mode ← or_default 0 mu_binary_read_uint32;
  client_handle ← or_default 0 mu_binary_read_uint32;
  sampling_interval_bits ← or_default 0 mu_binary_read_uint64;
  reader_status;;
  '(f, (select_clauses, select_clauses_count)) ← read_monitoring_filter garbage;
  queue_size ← or_default 0 mu_binary_read_uint32;
  discard_oldest ← or_default false mu_binary_read_boolean;
  reader_status;;
  mret (mk_create_body node_id attribute_id monitoring_mode client_handle sampling_interval_bits f queue_size
          discard_oldest select_clauses select_clauses_count).
End filters.

(** ** Results *)

(** The item's own copy of its NodeId; a string identifier is cut to the
    item's buffer. [None] when the identifier's octets are not readable. *)
Definition copy_monitored_node_id (node_id : mu_nodeid_t) : option mu_nodeid_t :=
  match nid_identifier node_id with
  | MU_NODEID_STRING s =>
      let length := if MU_MAX_MONITORED_STRING <? str_length s then MU_MAX_MONITORED_STRING else str_length s in
      match str_data s with
      | Some data =>
          if 0 <? length then
            copy ← mem_load data 0 length;
            Some (mk_nodeid (nid_namespace_index node_id) (MU_NODEID_STRING (mk_string length (Some copy))))
          else Some (mk_nodeid (nid_namespace_index node_id) (MU_NODEID_STRING (mk_string length None)))
      | None => Some (mk_nodeid (nid_namespace_index node_id) (MU_NODEID_STRING (mk_string length None)))
      end
  | _ => Some node_id
  end.

Definition write_null_extension_object : Wr unit :=
  mu_binary_write_extension_object_header (mk_nodeid 0 (MU_NODEID_NUMERIC 0)) 0.

(** Writes whose status is only checked later. *)
Definition unchecked (m : Wr unit) : Wr unit := or_default tt m.

Definition write_monitored_item_create_result (result monitored_item_id sampling_interval_ms revised_queue_size : Z)
    : Wr unit :=
  unchecked (mu_binary_write_statuscode result);;
  unchecked (mu_binary_write_uint32 monitored_item_id);;
  unchecked (mu_binary_write_uint64
    (if result =? MU_STATUS_GOOD then publishing_interval_ms_to_bits sampling_interval_ms else 0));;
  unchecked (mu_binary_write_uint32 revised_queue_size);;
  writer_status;;
  write_null_extension_object.

Definition write_monitored_item_modify_result (result revised_sampling_interval_ms : Z) : Wr unit :=
  unchecked (mu_binary_write_statuscode result);;
  unchecked (mu_binary_write_uint64
    (if result =? MU_STATUS_GOOD then publishing_interval_ms_to_bits revised_sampling_interval_ms else 0));;
  unchecked (mu_binary_write_uint32 1);;
  writer_status;;
  write_null_extension_object.

(** ** Handlers *)

(** Server state that contains a subscription engine, and the request id of
    the message being processed. *)
Class SubscriptionHost (Rest : Type) := {
  host_engine : Rest → mu_subscriptions_t;
  host_set_engine : Rest → mu_subscriptions_t → Rest;
  host_request_id : Rest → Z
}.

Class SubscriptionHostLaws (Rest : Type) `{SubscriptionHost Rest} := {
  host_get_set x e : host_engine (host_set_engine x e) = e;
  host_set_set x e e' : host_set_engine (host_set_engine x e) e' = host_set_engine x e';
  host_set_get x : host_set_engine x (host_engine x) = x
}.

(** A fallible operation as a status code. *)
Definition status_of {S A} (m : M S A) : M S Z := λ s,
  match m s with
  | (Ok _, s) => (Ok MU_STATUS_GOOD, s)
  | (Err e, s) => (Ok e, s)
  | (Fault, s) => (Fault, s)
  end.

Section services.
  Context {profile : BaseProfile} {pub : PublishProfile} {caps : BuildCaps}.
  Context {Rest : Type} {host : SubscriptionHost Rest}.

Definition set_rest (s : mu_server_t Rest) (rest : Rest) : mu_server_t Rest :=
  mk_server (sv_secure_channel s) (sv_sessions s) (sv_active_session s) (sv_address_space s) (sv_user_index s)
    (sv_runtime_space s) (sv_dynamic_references s) (sv_write_handler s) (sv_writes s) rest.

(** Operations of the server's engine. *)
Definition engine {A} (m : M mu_subscriptions_t A) : M (mu_server_t Rest) A := λ s,
  let '(x, e) := m (host_engine (sv_rest s)) in (x, set_rest s (host_set_engine (sv_rest s) e)).

(** [server->active_session->session_id] *)
Definition active_session_id : M (mu_server_t Rest) Z := λ s,
  (or_fault (slot ← sv_active_session s; session ← znth (sv_sessions s) slot; Some (ss_session_id session)), s).

(** The subscription of the active session, with its slot. *)
Definition find_subscription (subscription_id : Z) : M (mu_server_t Rest) (nat * mu_subscription_t) :=
  session_id ← active_session_id;
  engine (λ e, match mu_subscription_find e session_id subscription_id with
               | Some found => (Ok found, e)
               | None => (Err MU_STATUS_BAD_SUBSCRIPTIONIDINVALID, e)
               end).

(** The scan of the items, which stops after the active ones. *)
Fixpoint find_active (subscription_id monitored_item_id : Z) (items : list mu_monitored_item_t) (i : nat) (active : Z)
    : option (nat * mu_monitored_item_t) :=
  match items with
  | [] => None
  | it :: items =>
      if 0 <? active then
        if negb (mi_in_use (mi_identity it)) then find_active subscription_id monitored_item_id items (S i) active
        else if (mi_subscription_id (mi_identity it) =? subscription_id)
                && (mi_monitored_item_id (mi_identity it) =? monitored_item_id) then Some (i, it)
        else find_active subscription_id monitored_item_id items (S i) (active - 1)
      else None
  end.

Definition find_monitored_item (e : mu_subscriptions_t) (subscription_id monitored_item_id : Z)
    : option (nat * mu_monitored_item_t) :=
  find_active subscription_id monitored_item_id (subs_monitored_items e) 0 (subs_active_monitored_items_count e).

(** *** Arrays of identifiers *)

Fixpoint drive_ids (item_result : Z → M (mu_server_t Rest) Z) (count : nat) : H Rest unit :=
  match count with
  | O => mret tt
  | S count =>
      id ← rd mu_binary_read_uint32;
      result ← sv (item_result id);
      wr (mu_binary_write_statuscode result);;
      drive_ids item_result count
  end.

(** [validated] is the subscription id to check, if any. *)
Definition drive_subscription_id_status_array (response_type_id request_handle : Z) (validated : option Z)
    (item_result : Z → M (mu_server_t Rest) Z) : H Rest unit :=
  count ← rd mu_binary_read_int32;
  (if (0 <? count) && (MU_DISPATCH_MAX_SUBSCRIPTION_OPERATIONS <? count)
   then fail MU_STATUS_BAD_TOOMANYOPERATIONS else mret tt);;
  match validated with
  | Some subscription_id => sv (find_subscription subscription_id);; mret tt
  | None => mret tt
  end;;
  (if count <=? 0 then fail MU_STATUS_BAD_NOTHINGTODO else mret tt);;
  wr (write_response_prefix response_type_id request_handle MU_STATUS_GOOD);;
  wr (mu_binary_write_int32 count);;
  drive_ids item_result (Z.to_nat count);;
  wr (mu_binary_write_int32 0);;
  finish.

Definition set_publishing_enabled (s : mu_subscription_t) (enabled : bool) : mu_subscription_t :=
  let st := sub_state s in
  set_sub_state s (mk_sub_state (sub_next_publish_ms st) (sub_sequence_number st) (sub_keep_alive_counter st)
    (sub_lifetime_counter st) enabled (sub_more_notifications st) (sub_resend_data_pending st)
    (sub_retransmit st) (sub_event_queue st)).

Definition set_publishing_mode_result (publishing_enabled : bool) (subscription_id : Z) : M (mu_server_t Rest) Z :=
  status_of (
    '(i, s) ← find_subscription subscription_id;
    engine (λ e, (Ok tt, set_sub e i (set_publishing_enabled s publishing_enabled)))).

Definition set_monitoring_mode (it : mu_monitored_item_t) (mode : Z) : mu_monitored_item_t :=
  let p := mi_parameters it in
  mk_monitored_item (mi_identity it)
    (mk_item_parameters mode (mi_trigger p) (mi_sampling_interval_ms p) (mi_deadband_type p) (mi_deadband_value p)
       (mi_has_aggregate p) (mi_select_clauses p) (mi_select_clauses_count p))
    (mi_sample it) (mi_queue it) (mi_aggregate_state it) (mi_triggered_items it) (mi_triggered_count it).

Definition set_monitoring_mode_result (subscription_id monitoring_mode monitored_item_id : Z)
    : M (mu_server_t Rest) Z :=
  engine (λ e, match find_monitored_item e subscription_id monitored_item_id with
               | None => (Ok MU_STATUS_BAD_MONITOREDITEMIDINVALID, e)
               | Some (i, it) => (Ok MU_STATUS_GOOD, set_item e i (set_monitoring_mode it (to_u8 monitoring_mode)))
               end).

Definition delete_monitored_item_result (subscription_id monitored_item_id : Z) : M (mu_server_t Rest) Z :=
  engine (status_of (mu_monitored_item_delete subscription_id monitored_item_id)).

Definition delete_subscription_result (subscription_id : Z) : M (mu_server_t Rest) Z :=
  session_id ← active_session_id;
  engine (status_of (mu_subscription_delete session_id subscription_id)).

Definition handle_set_publishing_mode : H Rest unit :=
  req ← rd mu_request_header_decode;
  publishing_enabled ← rd (or_default false mu_binary_read_boolean);
  drive_subscription_id_status_array MU_ID_SETPUBLISHINGMODERESPONSE (rh_request_handle req) None
    (set_publishing_mode_result publishing_enabled).

Definition handle_set_monitoring_mode : H Rest unit :=
  req ← rd mu_request_header_decode;
  subscription_id ← rd (or_default 0 mu_binary_read_uint32);
  monitoring_mode ← rd (or_default 0 mu_binary_read_uint32);
  drive_subscription_id_status_array MU_ID_SETMONITORINGMODERESPONSE (rh_request_handle req) (Some subscription_id)
    (set_monitoring_mode_result subscription_id monitoring_mode).

Definition handle_delete_monitored_items : H Rest unit :=
  req ← rd mu_request_header_decode;
  subscription_id ← rd (or_default 0 mu_binary_read_uint32);
  drive_subscription_id_status_array MU_ID_DELETEMONITOREDITEMSRESPONSE (rh_request_handle req)
    (Some subscription_id) (delete_monitored_item_result subscription_id).

Definition handle_delete_subscriptions : H Rest unit :=
  req ← rd mu_request_header_decode;
  drive_subscription_id_status_array MU_ID_DELETESUBSCRIPTIONSRESPONSE (rh_request_handle req) None
    delete_subscription_result.

(** *** Subscriptions *)

(** [now_ms] is the tick of the time adapter at the call. *)
Definition handle_create_subscription (now_ms : Z) : H Rest unit :=
  req ← rd mu_request_header_decode;
  requested_interval_bits ← rd (or_default 0 mu_binary_read_uint64);
  requested_lifetime_count ← rd (or_default 0 mu_binary_read_uint32);
  requested_max_keep_alive_count ← rd (or_default 0 mu_binary_read_uint32);
  max_notifications_per_publish ← rd (or_default 0 mu_binary_read_uint32);
  publishing_enabled ← rd (or_default false mu_binary_read_boolean);
  priority ← rd (or_default 0 mu_binary_read_byte);
  rd reader_status;;
  session_id ← sv active_session_id;
  slot ← sv (engine (mu_subscription_create session_id (publishing_interval_bits_to_ms requested_interval_bits)
               requested_lifetime_count requested_max_keep_alive_count max_notifications_per_publish priority
               publishing_enabled now_ms));
  wr (write_response_prefix MU_ID_CREATESUBSCRIPTIONRESPONSE (rh_request_handle req) MU_STATUS_GOOD);;
  sub ← sv (engine (λ e, (or_fault (subs_subscriptions e !! slot), e)));
  wr (unchecked (mu_binary_write_uint32 (sub_subscription_id (sub_identity sub))));;
  wr (unchecked (mu_binary_write_uint64 (publishing_interval_ms_to_bits (sub_publishing_interval_ms (sub_parameters sub)))));;
  wr (unchecked (mu_binary_write_uint32 (sub_lifetime_count (sub_parameters sub))));;
  wr (unchecked (mu_binary_write_uint32 (sub_max_keep_alive_count (sub_parameters sub))));;
  wr writer_status;;
  finish.

Definition handle_modify_subscription : H Rest unit :=
  req ← rd mu_request_header_decode;
  subscription_id ← rd (or_default 0 mu_binary_read_uint32);
  requested_interval_bits ← rd (or_default 0 mu_binary_read_uint64);
  requested_lifetime_count ← rd (or_default 0 mu_binary_read_uint32);
  requested_max_keep_alive_count ← rd (or_default 0 mu_binary_read_uint32);
  max_notifications_per_publish ← rd (or_default 0 mu_binary_read_uint32);
  priority ← rd (or_default 0 mu_binary_read_byte);
  rd reader_status;;
  '(i, sub) ← sv (find_subscription subscription_id);
  let sub := mu_subscription_apply_parameters sub (publishing_interval_bits_to_ms requested_interval_bits)
               requested_lifetime_count requested_max_keep_alive_count max_notifications_per_publish priority in
  sv (engine (λ e, (Ok tt, set_sub e i sub)));;
  wr (write_response_prefix MU_ID_MODIFYSUBSCRIPTIONRESPONSE (rh_request_handle req) MU_STATUS_GOOD);;
  wr (unchecked (mu_binary_write_uint64 (publishing_interval_ms_to_bits (sub_publishing_interval_ms (sub_parameters sub)))));;
  wr (unchecked (mu_binary_write_uint32 (sub_lifetime_count (sub_parameters sub))));;
  wr (unchecked (mu_binary_write_uint32 (sub_max_keep_alive_count (sub_parameters sub))));;
  wr writer_status;;
  finish.

(** *** MonitoredItems *)

(** Whether an item can be created on a node; Good when it can. *)
Definition create_check (body : mu_monitored_item_create_body_t) (node : mu_node_t) : Z :=
  let f := cb_filter body in
  if MUC_OPCUA_SUBSCRIPTIONS_STANDARD && negb (cb_filter_result f =? MU_STATUS_GOOD) then cb_filter_result f
  else if MUC_OPCUA_SUBSCRIPTIONS_STANDARD && cb_has_datachange_filter f
          && negb (cb_attribute_id body =? MU_MONITORED_VALUE_ATTRIBUTE_ID) then MU_STATUS_BAD_FILTERNOTALLOWED
  else if MUC_OPCUA_SUBSCRIPTIONS_STANDARD && (cb_deadband_type f =? MU_DEADBAND_TYPE_ABSOLUTE)
          && negb (monitored_node_has_numeric_static_value node) then MU_STATUS_BAD_MONITOREDITEMFILTERUNSUPPORTED
  else if MUC_OPCUA_SUBSCRIPTIONS_STANDARD && cb_has_aggregate f
          && negb (monitored_node_has_numeric_static_value node) then MU_STATUS_BAD_FILTERNOTALLOWED
  else if (cb_attribute_id body =? MU_MONITORED_VALUE_ATTRIBUTE_ID) || (MUC_OPCUA_EVENTS && (cb_attribute_id body =? 12))
  then MU_STATUS_GOOD else MU_STATUS_BAD_ATTRIBUTEIDINVALID.

(** The queue of a new item. *)
Definition configure_queue (q : mu_report_queue_t) (queue_size : Z) (discard_oldest : bool) : mu_report_queue_t :=
  let size := if queue_size =? 0 then 1 else queue_size in
  let size := if MU_MONITORED_QUEUE_DEPTH <? size then MU_MONITORED_QUEUE_DEPTH else size in
  mk_report_queue size (q_entries q) 0 0 0 discard_oldest false.

(** The fields of the allocated item, and its first sample. *)
Definition configure_item (now now_ms : Z) (body : mu_monitored_item_create_body_t) (node : mu_node_t)
    (it : mu_monitored_item_t) : result mu_monitored_item_t :=
  let f := cb_filter body in
  let p := mi_parameters it in
  let m := mi_sample it in
  node_id ← or_fault (copy_monitored_node_id (cb_node_id body));
  let id := mk_item_identity (mi_in_use (mi_identity it)) (mi_monitored_item_id (mi_identity it))
              (mi_subscription_id (mi_identity it)) (cb_client_handle body) (cb_attribute_id body) node_id (Some node) in
  let interval := publishing_interval_bits_to_ms (cb_sampling_interval_bits body) in
  let standard {A} (x y : A) := if MUC_OPCUA_SUBSCRIPTIONS_STANDARD then x else y in
  let events {A} (x y : A) := if MUC_OPCUA_EVENTS then x else y in
  let parameters :=
    mk_item_parameters (to_u8 (cb_monitoring_mode body)) (standard (cb_trigger f) MU_DATACHANGE_TRIGGER_STATUS_VALUE)
      interval (standard (cb_deadband_type f) (mi_deadband_type p)) (standard (cb_deadband_value f) (mi_deadband_value p))
      (standard (cb_has_aggregate f) (mi_has_aggregate p)) (events (cb_select_clauses body) (mi_select_clauses p))
      (events (cb_select_clauses_count body) (mi_select_clauses_count p)) in
  let queue := standard (configure_queue (mi_queue it) (cb_queue_size body) (cb_discard_oldest body)) (mi_queue it) in
  let aggregate :=
    if MUC_OPCUA_SUBSCRIPTIONS_STANDARD && cb_has_aggregate f
    then mk_aggregate_state (cb_processing_interval f) (to_i64 now_ms) ACC_zero (cb_aggregate_type f) 0
    else mi_aggregate_state it in
  let next := to_u64 (now_ms + interval) in
  sample ←
    (if negb (cb_attribute_id body =? 12) then
       match node_value node with
       | None => Ok (mk_item_sample next (mi_last_value m) (mi_last_status m) false false (mi_has_reported m)
                       (mi_last_reported_numeric m))
       | Some source =>
           match mu_value_source_read now (Some source) (cb_node_id body) (mi_last_value m) with
           | Ok v => Ok (mk_item_sample next v MU_STATUS_GOOD true true (mi_has_reported m) (mi_last_reported_numeric m))
           | Err e => Ok (mk_item_sample next (mi_last_value m) e false false (mi_has_reported m)
                            (mi_last_reported_numeric m))
           | Fault => Fault
           end
       end
     else Ok (mk_item_sample next (mi_last_value m) (mi_last_status m) false false (mi_has_reported m)
                (mi_last_reported_numeric m)));
  Ok (mk_monitored_item id parameters sample queue aggregate (mi_triggered_items it) (mi_triggered_count it)).

Definition configure_slot (now now_ms : Z) (body : mu_monitored_item_create_body_t) (node : mu_node_t) (slot : nat)
    : M mu_subscriptions_t (Z * Z) := λ e,
  match (it ← or_fault (subs_monitored_items e !! slot); configure_item now now_ms body node it) with
  | Ok it => (Ok (mi_monitored_item_id (mi_identity it), mi_sampling_interval_ms (mi_parameters it)),
              set_item e slot it)
  | Err s => (Err s, e)
  | Fault => (Fault, e)
  end.

(** Allocate and configure an item; delivers its id and interval. *)
Definition create_item (now now_ms subscription_id : Z) (body : mu_monitored_item_create_body_t) (node : mu_node_t)
    : M mu_subscriptions_t (Z * Z) :=
  slot ← mu_monitored_item_alloc subscription_id;
  configure_slot now now_ms body node slot.

(** [mu_resolve_node] on the server's address spaces. *)
Definition resolve (id : mu_nodeid_t) : M (mu_server_t Rest) (option mu_node_t) := λ s,
  let '(found, index) := mu_resolve_node (sv_address_space s) (sv_user_index s) (sv_runtime_space s) id in
  (or_fault found, set_user_index s index).

(** The result of one item to create: status, id, interval, queue size. *)
Definition create_one (now now_ms subscription_id : Z) (body : mu_monitored_item_create_body_t)
    : M (mu_server_t Rest) (Z * Z * Z * Z) :=
  found ← resolve (cb_node_id body);
  match found with
  | None => mret (MU_STATUS_BAD_NODEIDUNKNOWN, 0, 0, 0)
  | Some node =>
      if negb (create_check body node =? MU_STATUS_GOOD) then mret (create_check body node, 0, 0, 0)
      else
        engine (λ e, match create_item now now_ms subscription_id body node e with
                     | (Ok (id, interval), e) => (Ok (MU_STATUS_GOOD, id, interval, 1), e)
                     | (Err result, e) => (Ok (result, 0, 0, 0), e)
                     | (Fault, e) => (Fault, e)
                     end)
  end.

Fixpoint create_items (now now_ms subscription_id : Z) (garbage : nat → list Z * Z) (count : nat) : H Rest unit :=
  match count with
  | O => mret tt
  | S count =>
      body ← rd (read_monitored_item_create_body (garbage count));
      '(result, id, interval, queue_size) ← sv (create_one now now_ms subscription_id body);
      wr (write_monitored_item_create_result result id interval queue_size);;
      create_items now now_ms subscription_id garbage count
  end.

(** [garbage] is what the select clauses of the local [body] hold at the
    start of each turn of the loop. *)
Definition handle_create_monitored_items (now now_ms : Z) (garbage : nat → list Z * Z) : H Rest unit :=
  req ← rd mu_request_header_decode;
  subscription_id ← rd (or_default 0 mu_binary_read_uint32);
  rd (or_default 0 mu_binary_read_uint32);;
  items_to_create ← rd (or_default 0 mu_binary_read_int32);
  rd reader_status;;
  (if (0 <? items_to_create) && (MU_DISPATCH_MAX_SUBSCRIPTION_OPERATIONS <? items_to_create)
   then fail MU_STATUS_BAD_TOOMANYOPERATIONS else mret tt);;
  sv (find_subscription subscription_id);;
  (if items_to_create <=? 0 then fail MU_STATUS_BAD_NOTHINGTODO else mret tt);;
  wr (write_response_prefix MU_ID_CREATEMONITOREDITEMSRESPONSE (rh_request_handle req) MU_STATUS_GOOD);;
  wr (mu_binary_write_int32 items_to_create);;
  create_items now now_ms subscription_id garbage (Z.to_nat items_to_create);;
  wr (mu_binary_write_int32 0);;
  finish.

(** The filter of an item to modify: its result, and whether it is a
    DataChangeFilter. *)
Definition read_modify_filter : Rd (Z * bool) :=
  '(filter_type, filter_length) ← mu_binary_read_extension_object_header;
  ensure_reader_bytes_remaining filter_length;;
  if MUC_OPCUA_SUBSCRIPTIONS_STANDARD then
    if is_datachange_filter_binary_type filter_type then
      filter_body_start ← (r ← get_state; mret (r_position r));
      f ← read_datachange_filter_body filter_length
            (mk_filter MU_DATACHANGE_TRIGGER_STATUS_VALUE MU_DEADBAND_TYPE_NONE 0 MU_STATUS_GOOD true false 0 0);
      at_position (to_size (filter_body_start + filter_length));;
      mret (cb_filter_result f, true)
    else
      skip_extension_object_body filter_length;;
      mret (if is_known_monitoring_filter_binary_type filter_type filter_length then MU_STATUS_GOOD
            else MU_STATUS_BAD_MONITOREDITEMFILTERUNSUPPORTED, false)
  else skip_extension_object_body filter_length;; mret (MU_STATUS_GOOD, false).

Definition set_interval_and_handle (it : mu_monitored_item_t) (interval client_handle : Z) : mu_monitored_item_t :=
  let id := mi_identity it in
  let p := mi_parameters it in
  mk_monitored_item
    (mk_item_identity (mi_in_use id) (mi_monitored_item_id id) (mi_subscription_id id) client_handle
       (mi_attribute_id id) (mi_node_id id) (mi_resolved_node id))
    (mk_item_parameters (mi_monitoring_mode p) (mi_trigger p) interval (mi_deadband_type p) (mi_deadband_value p)
       (mi_has_aggregate p) (mi_select_clauses p) (mi_select_clauses_count p))
    (mi_sample it) (mi_queue it) (mi_aggregate_state it) (mi_triggered_items it) (mi_triggered_count it).

(** The result of one item to modify and its revised interval. *)
Definition modify_one (subscription_id monitored_item_id client_handle sampling_interval_bits filter_result : Z)
    (has_datachange_filter : bool) : M mu_subscriptions_t (Z * Z) := λ e,
  match find_monitored_item e subscription_id monitored_item_id with
  | None => (Ok (MU_STATUS_BAD_MONITOREDITEMIDINVALID, 0), e)
  | Some (i, it) =>
      if negb (filter_result =? MU_STATUS_GOOD) then (Ok (filter_result, 0), e)
      else if has_datachange_filter && negb (mi_attribute_id (mi_identity it) =? MU_MONITORED_VALUE_ATTRIBUTE_ID)
      then (Ok (MU_STATUS_BAD_FILTERNOTALLOWED, 0), e)
      else
        let interval := publishing_interval_bits_to_ms sampling_interval_bits in
        (Ok (MU_STATUS_GOOD, interval), set_item e i (set_interval_and_handle it interval client_handle))
  end.

Fixpoint modify_items (subscription_id : Z) (count : nat) : H Rest unit :=
  match count with
  | O => mret tt
  | S count =>
      monitored_item_id ← rd (or_default 0 mu_binary_read_uint32);
      client_handle ← rd (or_default 0 mu_binary_read_uint32);
      sampling_interval_bits ← rd (or_default 0 mu_binary_read_uint64);
      rd reader_status;;
      '(filter_result, has_datachange_filter) ← rd read_modify_filter;
      rd (or_default 0 mu_binary_read_uint32);;
      rd (or_default false mu_binary_read_boolean);;
      rd reader_status;;
      '(result, interval) ← sv (engine (modify_one subscription_id monitored_item_id client_handle
                                          sampling_interval_bits filter_result has_datachange_filter));
      wr (write_monitored_item_modify_result result interval);;
      modify_items subscription_id count
  end.

Definition handle_modify_monitored_items : H Rest unit :=
  req ← rd mu_request_header_decode;
  subscription_id ← rd (or_default 0 mu_binary_read_uint32);
  rd (or_default 0 mu_binary_read_uint32);;
  count ← rd (or_default 0 mu_binary_read_int32);
  rd reader_status;;
  (if (0 <? count) && (MU_DISPATCH_MAX_SUBSCRIPTION_OPERATIONS <? count)
   then fail MU_STATUS_BAD_TOOMANYOPERATIONS else mret tt);;
  sv (find_subscription subscription_id);;
  (if count <=? 0 then fail MU_STATUS_BAD_NOTHINGTODO else mret tt);;
  wr (write_response_prefix MU_ID_MODIFYMONITOREDITEMSRESPONSE (rh_request_handle req) MU_STATUS_GOOD);;
  wr (mu_binary_write_int32 count);;
  modify_items subscription_id (Z.to_nat count);;
  wr (mu_binary_write_int32 0);;
  finish.

(** *** SetTriggering *)

Definition read_set_triggering_uint32_array : Rd (list Z) :=
  decoded_count ← mu_binary_read_int32;
  if decoded_count <? -1 then fail MU_STATUS_BAD_DECODINGERROR
  else if (0 <? decoded_count) && (MU_DISPATCH_MAX_SUBSCRIPTION_OPERATIONS <? decoded_count)
  then fail MU_STATUS_BAD_TOOMANYOPERATIONS
  else
    ensure_array_items_min_remaining decoded_count 4;;
    rd_list (Z.to_nat decoded_count) mu_binary_read_uint32.

(** A link operation per identifier; the results in order. *)
Fixpoint link_all (op : Z → M mu_subscriptions_t unit) (links : list Z) : M mu_subscriptions_t (list Z) :=
  match links with
  | [] => mret []
  | link :: links =>
      result ← status_of (op link);
      results ← link_all op links;
      mret (result :: results)
  end.

Definition write_link_results (results : list Z) : Wr unit :=
  mu_binary_write_int32 (zlen results);;
  wr_list mu_binary_write_statuscode results;;
  mu_binary_write_int32 0.

Definition handle_set_triggering : H Rest unit :=
  req ← rd mu_request_header_decode;
  subscription_id ← rd (or_default 0 mu_binary_read_uint32);
  triggering_item_id ← rd (or_default 0 mu_binary_read_uint32);
  rd reader_status;;
  links_to_add ← rd read_set_triggering_uint32_array;
  links_to_remove ← rd read_set_triggering_uint32_array;
  (if MU_DISPATCH_MAX_SUBSCRIPTION_OPERATIONS <? zlen links_to_add + zlen links_to_remove
   then fail MU_STATUS_BAD_TOOMANYOPERATIONS else mret tt);;
  sv (find_subscription subscription_id);;
  (if (zlen links_to_add =? 0) && (zlen links_to_remove =? 0) then fail MU_STATUS_BAD_NOTHINGTODO else mret tt);;
  add_results ← sv (engine (link_all (mu_monitored_item_add_trigger_link subscription_id triggering_item_id) links_to_add));
  remove_results ← sv (engine (link_all (mu_monitored_item_remove_trigger_link subscription_id triggering_item_id)
                                links_to_remove));
  wr (write_response_prefix MU_ID_SETTRIGGERINGRESPONSE (rh_request_handle req) MU_STATUS_GOOD);;
  wr (write_link_results add_results);;
  wr (write_link_results remove_results);;
  finish.

(** *** Publish and Republish *)

(** The acknowledgements, in order. *)
Fixpoint acknowledge_all (count : nat) : H Rest (list Z) :=
  match count with
  | O => mret []
  | S count =>
      subscription_id ← rd (or_default 0 mu_binary_read_uint32);
      sequence_number ← rd (or_default 0 mu_binary_read_uint32);
      rd reader_status;;
      session_id ← sv active_session_id;
      result ← sv (engine (status_of (mu_subscription_acknowledge session_id subscription_id sequence_number)));
      results ← acknowledge_all count;
      mret (result :: results)
  end.

Definition park (slot : nat) (ack_results : list Z) : M mu_subscriptions_t unit := λ e,
  match (r ← subs_publish_queue e !! slot;
         stored ← mem_store (pr_ack_results r) 0 ack_results;
         Some (mk_publish_request (pr_in_use r) (pr_session_id r) (pr_request_handle r) (pr_request_id r)
                 (pr_enqueued_ms r) (zlen ack_results) stored)) with
  | Some r => (Ok tt, set_publish_queue e (<[slot := r]> (subs_publish_queue e)))
  | None => (Fault, e)
  end.

(** [*response_length = 0] *)
Definition no_response : H Rest unit := λ st,
  (Ok tt, mk_hstate (h_server st) (h_reader st) (h_writer st) 0).

Definition handle_publish (now_ms : Z) : H Rest unit :=
  req ← rd mu_request_header_decode;
  ack_count ← rd mu_binary_read_int32;
  let ack_count := if ack_count <? 0 then 0 else ack_count in
  (if MU_MAX_PUBLISH_ACKS <? ack_count then fail MU_STATUS_BAD_TOOMANYOPERATIONS else mret tt);;
  ack_results ← acknowledge_all (Z.to_nat ack_count);
  session_id ← sv active_session_id;
  request_id ← sv (λ s, (Ok (host_request_id (sv_rest s)), s));
  slot ← sv (engine (mu_publish_request_enqueue session_id request_id (rh_request_handle req) now_ms));
  sv (engine (park slot ack_results));;
  no_response.

(** Copy a retained message behind the response prefix. *)
Definition write_message (message : list Z) : Wr unit :=
  w ← get_state;
  if to_size (w_length w - w_position w) <? zlen message then fail MU_STATUS_BAD_RESPONSETOOLARGE
  else if 0 <? zlen message then
    b ← lift_option (b ← w_buffer w; mem_store b (w_position w) message);
    put_state (mk_writer (Some b) (w_length w) (w_position w + zlen message) (w_status w))
  else mret tt.

Definition handle_republish : H Rest unit :=
  req ← rd mu_request_header_decode;
  subscription_id ← rd (or_default 0 mu_binary_read_uint32);
  sequence_number ← rd (or_default 0 mu_binary_read_uint32);
  rd reader_status;;
  session_id ← sv active_session_id;
  message ← sv (engine (λ e, (mu_subscription_republish e session_id subscription_id sequence_number, e)));
  wr (write_response_prefix MU_ID_REPUBLISHRESPONSE (rh_request_handle req) MU_STATUS_GOOD);;
  wr (write_message message);;
  finish.
End services.
