(* ===== verification/SubscriptionServiceSafety.v ===== *)
(** * Safety of the subscription services

    Every operation of the subscription engine, and with it every handler of
    the Subscription and MonitoredItem service sets, keeps the engine well
    formed and stays inside its memory, whatever the request holds. *)

From S2P Require Export HandlerLogic PublishTick SubscriptionService.

(** ** Operations of the engine *)

Section operations.
  Context {profile : BaseProfile} {pub : PublishProfile} {caps : BuildCaps} {Hcaps : BuildCapsOk caps}.

(** An operation keeps the engine good and does not fault. *)
Definition egood {A} (m : M mu_subscriptions_t A) (Q : A → Prop) : Prop :=
  ∀ e, engine_good e → engine_good (m e).2 ∧ outcome_ok Q (m e).1.

Lemma zero_item_good : item_good zero_monitored_item.
Proof.
  split; [apply zero_item_ok|by left| |done| |done].
  - apply Forall_replicate; by left.
  - intros now node source; done.
Qed.

Lemma init_good : engine_good mu_subscriptions_init.
Proof.
  split; [apply init_inv|..]; apply Forall_replicate;
    [apply zero_item_good|apply zero_event_queue_ok|apply zero_request_ok].
Qed.

Lemma create_good session interval lifetime keep_alive mx prio enabled now : u32_range lifetime → u32_range keep_alive →
  egood (mu_subscription_create session interval lifetime keep_alive mx prio enabled now)
    (λ slot, (slot < Z.to_nat MU_MAX_SUBSCRIPTIONS)%nat).
Proof.
  intros Hl Hk e He; pose proof (create_inv e session interval lifetime keep_alive mx prio enabled now (eg_inv e He) Hl Hk) as Hinv.
  pose proof (inv_subs_size e (eg_inv e He)) as Hsize; unfold zlen in Hsize; destruct He.
  unfold mu_subscription_create in *; destruct (list_find _ _) as [[slot s]|] eqn:Ef; [|by split].
  apply list_find_Some in Ef as (Hs%lookup_lt_Some & _ & _).
  destruct (allocate_subscription_id e) as [id e'] eqn:Ea; unfold allocate_subscription_id in Ea.
  destruct (allocate_id _ _ _); injection Ea as <- <-.
  destruct (_ =? 0); cbn [fst snd] in *; [by split|]; split; [|cbn; lia].
  split; [exact Hinv|done| |done]; apply Forall_insert; [done|apply zero_event_queue_ok].
Qed.

Lemma delete_good session id : egood (mu_subscription_delete session id) (λ _, True).
Proof.
  intros e He; pose proof (delete_inv e session id (eg_inv e He)) as Hinv.
  pose proof (inv_active e (eg_inv e He)) as Hact; pose proof (zlen_nonneg (item_ids e)).
  destruct He as [_ Hitems Hev Hreq]; unfold mu_subscription_delete in *.
  destruct (mu_subscription_find e session id) as [[i s]|]; [|by split].
  rewrite delete_items_spec in * by lia; cbn [fst snd] in *; split; [|done]; split; [exact Hinv|..|done]; cbn.
  - apply Forall_fmap; eapply Forall_impl; [exact Hitems|]; intros it Hit; cbn; unfold erase.
    destruct (item_of id it); [apply zero_item_good|done].
  - apply Forall_insert; [done|apply zero_event_queue_ok].
Qed.

Lemma item_delete_good id mid : egood (mu_monitored_item_delete id mid) (λ _, True).
Proof.
  intros e He; pose proof (item_delete_inv e id mid (eg_inv e He)) as Hinv; destruct He.
  unfold mu_monitored_item_delete in *; destruct (list_find _ _) as [[i it]|]; [|by split]; cbn [fst snd] in *.
  split; [|done]; split; [exact Hinv|..|done|done]; apply Forall_insert; [done|apply zero_item_good].
Qed.

(** Replacing one entry. *)
Lemma set_item_good e i it it' : engine_good e → subs_monitored_items e !! i = Some it →
  item_live it' = item_live it → item_key it' = item_key it → item_owner it' = item_owner it → item_good it' →
  engine_good (set_item e i it').
Proof.
  intros [] Hi ? ? ? Hg; split; [apply (set_item_inv _ _ it); try done; apply Hg|by apply Forall_insert|done|done].
Qed.

Lemma set_triggered_good it items count : item_good it → item_ok (set_triggered it items count) →
  item_good (set_triggered it items count).
Proof. intros [] ?; by split. Qed.

Lemma set_item_ok e i it it' : engine_inv (set_item e i it') → subs_monitored_items e !! i = Some it → item_ok it'.
Proof.
  intros Hinv Hit; apply (Forall_lookup_1 _ _ i _ (inv_items_ok _ Hinv)); cbn.
  apply lookup_lt_Some in Hit; by apply list_lookup_insert_eq.
Qed.

Lemma add_link_good id a b : egood (mu_monitored_item_add_trigger_link id a b) (λ _, True).
Proof.
  intros e He; pose proof (add_link_inv e id a b (eg_inv e He)) as [Hinv Hf].
  unfold mu_monitored_item_add_trigger_link, find_monitored_item_in_subscription in *.
  destruct (list_find (is_item id a) _) as [[i it]|] eqn:Ef; [|by split].
  destruct (list_find (is_item id b) _); [|by split].
  destruct (existsb _ _); [by split|]; destruct (_ <=? _); [by split|].
  destruct (mem_store _ _ _) as [items|]; [|done]; cbn [fst snd] in *; split; [|done].
  apply list_find_Some in Ef as (Hit & _ & _); pose proof (Forall_lookup_1 _ _ _ _ (eg_items e He) Hit) as Hg.
  apply (set_item_good _ _ it); [done..|]; apply set_triggered_good; [done|].
  exact (set_item_ok e i it _ Hinv Hit).
Qed.

Lemma remove_link_good id a b : egood (mu_monitored_item_remove_trigger_link id a b) (λ _, True).
Proof.
  intros e He; pose proof (remove_link_inv e id a b (eg_inv e He)) as Hinv.
  unfold mu_monitored_item_remove_trigger_link, find_monitored_item_in_subscription in *.
  destruct (list_find (is_item id a) _) as [[i it]|] eqn:Ef; [|by split].
  destruct (list_find (is_item id b) _); [|by split].
  apply list_find_Some in Ef as (Hit & _ & _); destruct (list_find _ _) as [[k x]|]; [|by split]; cbn [fst snd] in *; split; [|done].
  pose proof (Forall_lookup_1 _ _ _ _ (eg_items e He) Hit) as Hg.
  apply (set_item_good _ _ it); [done..|]; apply set_triggered_good; [done|].
  exact (set_item_ok e i it _ Hinv Hit).
Qed.

Lemma find_good e session id i s : engine_good e → mu_subscription_find e session id = Some (i, s) →
  subs_subscriptions e !! i = Some s ∧ sub_good s.
Proof.
  intros [Hinv ? Hev ?] (Hs & _)%subscription_find_Some; split; [done|].
  split; [by eapply Forall_lookup_1; [apply Hinv|]|by eapply (Forall_lookup_1 _ _ _ _ Hev)].
Qed.

Lemma acknowledge_good session id seq : egood (mu_subscription_acknowledge session id seq) (λ _, True).
Proof.
  intros e He; unfold mu_subscription_acknowledge; destruct (mu_subscription_find e session id) as [[i s]|] eqn:Ef; [|by split].
  split_if; [|by split]; cbn [fst snd]; split; [|done].
  destruct (find_good e session id i s He Ef) as [Hs Hsg]; apply (set_sub_good _ _ s); [done..|].
  apply set_retransmit_step; [done|]; destruct Hsg as [[(? & ? & ?) _] _]; pose proof caps_retransmit; split_and!; cbn; [done|done|lia..].
Qed.

Lemma resend_good session id : egood (mu_subscription_request_resend_data session id) (λ _, True).
Proof.
  intros e He; unfold mu_subscription_request_resend_data.
  destruct (mu_subscription_find e session id) as [[i s]|] eqn:Ef; [|by split]; cbn [fst snd]; split; [|done].
  destruct (find_good e session id i s He Ef) as [Hs Hg]; apply (set_sub_good _ _ s); [done..|].
  exact (set_flags_step s (sub_more_notifications (sub_state s)) true Hg).
Qed.

Lemma enqueue_good session rid handle now :
  egood (mu_publish_request_enqueue session rid handle now) (λ slot, (slot < Z.to_nat MU_MAX_PUBLISH_REQUESTS)%nat).
Proof.
  intros e He; pose proof (publish_enqueue_inv e session rid handle now (eg_inv e He)) as Hinv.
  pose proof (inv_requests_size e (eg_inv e He)) as Hsize; unfold zlen in Hsize; destruct He.
  unfold mu_publish_request_enqueue in *; destruct (list_find _ _) as [[slot r]|] eqn:Ef; [|by split].
  apply list_find_Some in Ef as (Hs%lookup_lt_Some & _ & _); cbn [fst snd] in *; split; [|cbn; lia].
  split; [exact Hinv|done|done|]; apply Forall_insert; [done|]; destruct zero_request_ok; split; cbn; [done|lia].
Qed.

Lemma park_good slot acks : (slot < Z.to_nat MU_MAX_PUBLISH_REQUESTS)%nat → zlen acks ≤ MU_MAX_PUBLISH_ACKS →
  egood (park slot acks) (λ _, True).
Proof.
  intros Hslot Hacks e He; pose proof (inv_requests_size e (eg_inv e He)) as Hsize; unfold zlen in Hsize.
  destruct (lookup_lt_is_Some_2 (subs_publish_queue e) slot ltac:(lia)) as [r Er]; unfold park; rewrite Er.
  pose proof (Forall_lookup_1 _ _ _ _ (eg_requests e He) Er) as [Hr _]; pose proof (zlen_nonneg acks).
  cbn [mbind option_bind]; rewrite mem_store_Some by lia; cbn [mbind option_bind fst snd]; split; [|done].
  destruct He; split; [|done|done|].
  - apply set_publish_queue_inv; [done|]; unfold zlen; by rewrite length_insert.
  - apply Forall_insert; [done|]; split; cbn; [|lia]; rewrite !zlen_app, zlen_ztake, zlen_zdrop by lia; lia.
Qed.

(** Steps on the subscriptions leave the identifiers alone. *)
Lemma keys_subs_step l l' : Forall2 sub_step l l' → keys sub_live sub_key l' = keys sub_live sub_key l.
Proof.
  induction 1 as [|s s' ? ? [Hid _ _ _] _ IH]; [done|]; rewrite !keys_cons, IH.
  unfold key_of, sub_live, sub_key; by rewrite Hid.
Qed.

Lemma set_subscriptions_good e l : engine_good e → Forall2 sub_step (subs_subscriptions e) l →
  engine_good (set_subscriptions e l).
Proof.
  intros [[] ? ? ?] Hl.
  pose proof (keys_subs_step _ _ Hl) as Ek; change (sub_ids (set_subscriptions e l) = sub_ids e) in Ek.
  assert (Hg : Forall sub_good l) by (clear -Hl; induction Hl; constructor; [by eapply sub_step_good|done]).
  split; [split|done|..|done]; rewrite ?Ek; try done.
  - apply Forall2_length in Hl; unfold zlen in *; cbn; lia.
  - cbn; eapply Forall_impl; [exact Hg|]; by intros ? [].
  - cbn; eapply Forall_impl; [exact Hg|]; by intros ? [].
Qed.

Lemma trigger_event_good e event : engine_good e → event_ok event →
  ∃ e', mu_server_trigger_event e event = Some e' ∧ engine_good e'.
Proof.
  intros He Hevent; unfold mu_server_trigger_event.
  assert (Hsubs : Forall sub_good (subs_subscriptions e)).
  { apply Forall_forall; intros s Hs; destruct He as [[] _ Hev _]; rewrite Forall_forall in *; split; auto. }
  set (f := λ s : mu_subscription_t, if sub_live s then _ else _).
  assert (Hmap : ∃ l, mapM f (subs_subscriptions e) = Some l ∧ Forall2 sub_step (subs_subscriptions e) l).
  { clear He; induction Hsubs as [|s l Hs _ (l' & El & Hl)]; [exists []; split; [done|constructor]|].
    assert (Hf : ∃ s', f s = Some s' ∧ sub_step s s').
    { unfold f; destruct (sub_live s); [|exists s; split; [done|by apply sub_step_refl]].
      destruct (push_event_ok _ event (proj2 Hs) Hevent) as (eq & -> & Heq); cbn [mbind option_bind].
      eexists; split; [done|by apply set_event_queue_step]. }
    destruct Hf as (s' & Es & Hstep); exists (s' :: l'); split; [|by constructor].
    cbn; rewrite Es; cbn; by rewrite El. }
  destruct Hmap as (l & -> & Hl); cbn [mbind option_bind]; eexists; split; [done|]; by apply set_subscriptions_good.
Qed.
End operations.

(** ** Request decoders *)

Lemma rsafe_or_any {A} (d : A) (m : Rd A) Q : rsafe m Q → rsafe (or_default d m) (λ _, True).
Proof. intros Hm; apply rsafe_or_default; [done|]; by eapply rsafe_mono. Qed.

Lemma rsafe_default_u32 : rsafe (or_default 0 mu_binary_read_uint32) u32_range.
Proof. apply rsafe_or_default; [by ranges|apply rsafe_read_uint32]. Qed.

Section decoders.
  Context {profile : BaseProfile} {pub : PublishProfile}.

Lemma rsafe_datachange_filter n f : rsafe (read_datachange_filter_body n f) (λ _, True).
Proof.
  unfold read_datachange_filter_body; apply rsafe_if; intros _; [by apply rsafe_ret|].
  apply rsafe_if; intros _; [by apply rsafe_fail|]; apply rsafe_get; intros r Hr.
  apply rsafe_if; intros _; [by apply rsafe_fail|].
  do 3 (eapply rsafe_bind; [eapply rsafe_or_any; eauto with rsafe|intros ? _]).
  eapply rsafe_bind; [apply rsafe_reader_status|intros _ _; by apply rsafe_ret].
Qed.

Lemma rsafe_aggregate_filter n f : rsafe (read_aggregate_filter_body n f) (λ _, True).
Proof.
  unfold read_aggregate_filter_body; apply rsafe_if; intros _; [by apply rsafe_ret|]; apply rsafe_get; intros r Hr.
  apply rsafe_if; intros _; [by apply rsafe_fail|].
  do 3 (eapply rsafe_bind; [eauto with rsafe|intros ? _]).
  do 5 (eapply rsafe_bind; [eapply rsafe_or_any; eauto with rsafe|intros ? _]).
  eapply rsafe_bind; [apply rsafe_reader_status|intros _ _; by apply rsafe_ret].
Qed.

Lemma rsafe_browse_path n : ∀ name, string_ok name → rsafe (read_browse_path n name) string_ok.
Proof.
  induction n as [|n IH]; intros name Hname; cbn [read_browse_path]; [by apply rsafe_ret|].
  eapply rsafe_bind; [eapply rsafe_or_any; eauto with rsafe|intros ? _].
  eapply rsafe_bind; [apply rsafe_read_string|intros s Hs]; by apply IH, wire_string_ok.
Qed.

Lemma event_field_type_total name : string_ok name → ∃ n, event_field_type name = Some n.
Proof.
  unfold event_field_type, string_ok; destruct (str_data name) as [d|]; [|eauto]; intros [[Hl _] _].
  destruct (Z.ltb_spec 0 (str_length name)); [|eauto]; rewrite mem_load_Some by lia; cbn; eauto.
Qed.

Lemma rsafe_select_clause : rsafe read_select_clause (λ _, True).
Proof.
  unfold read_select_clause; eapply rsafe_bind; [apply rsafe_read_nodeid|intros ? _].
  eapply rsafe_bind; [apply rsafe_read_int32|intros c _]; apply rsafe_if; intros _; [by apply rsafe_fail|].
  eapply rsafe_bind; [apply rsafe_browse_path; split; [done|by ranges]|intros name Hname].
  eapply rsafe_bind; [eapply rsafe_or_any; eauto with rsafe|intros ? _].
  eapply rsafe_bind; [apply rsafe_read_string|intros ? _].
  destruct (event_field_type_total name Hname) as [n ->]; intros r Hr; split; [by apply reader_step_refl|done].
Qed.

(** Select clauses: as many as there is room for. *)
Definition select_ok (select : list Z * Z) : Prop := 0 ≤ select.2 ≤ zlen select.1.

Lemma rsafe_select_clauses n : ∀ i clauses count, zlen clauses = 8 → 0 ≤ i → count = Z.min i 8 →
  rsafe (read_select_clauses n i clauses count) select_ok.
Proof.
  induction n as [|n IH]; intros i clauses count Hlen Hi Hc; cbn [read_select_clauses].
  { apply rsafe_ret; unfold select_ok; cbn; lia. }
  eapply rsafe_bind; [apply rsafe_select_clause|intros field _].
  destruct (Z.ltb_spec i 8); [|apply IH; lia].
  rewrite mem_store_Some by (change (zlen [field]) with 1; lia).
  eapply rsafe_bind; [intros r Hr; split; [by apply reader_step_refl|exact eq_refl]|]; intros cs <-.
  apply IH; [|lia|].
  - rewrite !zlen_app, zlen_ztake, zlen_zdrop by (change (zlen [field]) with 1; lia); change (zlen [field]) with 1; lia.
  - rewrite Hc, to_u8_small by lia; lia.
Qed.

Lemma rsafe_filter_operand : rsafe skip_filter_operand (λ _, True).
Proof.
  unfold skip_filter_operand; eapply rsafe_bind; [apply rsafe_read_extension_object_header|]; intros [t len] [_ Hl].
  cbn [fst snd] in Hl; apply rsafe_skip_extension_object_body; lia.
Qed.

Lemma rsafe_filter_element : rsafe skip_filter_element (λ _, True).
Proof.
  unfold skip_filter_element; do 2 (eapply rsafe_bind; [eapply rsafe_or_any; eauto with rsafe|intros ? _]).
  apply rsafe_if; intros _; [by apply rsafe_fail|].
  eapply rsafe_bind; [apply rsafe_rd_list, rsafe_filter_operand|intros ? _; by apply rsafe_ret].
Qed.

Lemma rsafe_event_filter : rsafe read_event_filter_body select_ok.
Proof.
  unfold read_event_filter_body; eapply rsafe_bind; [apply rsafe_read_int32|intros c _].
  apply rsafe_if; intros _; [by apply rsafe_fail|].
  eapply rsafe_bind; [by apply rsafe_select_clauses|intros select Hsel].
  eapply rsafe_bind; [apply rsafe_read_int32|intros n _]; apply rsafe_if; intros _; [by apply rsafe_fail|].
  eapply rsafe_bind; [apply rsafe_rd_list, rsafe_filter_element|intros ? _].
  eapply rsafe_bind; [apply rsafe_reader_status|intros _ _; by apply rsafe_ret].
Qed.

Lemma rsafe_at_position n : rsafe (at_position n) (λ _, True).
Proof.
  unfold at_position; apply rsafe_get; intros r Hr; apply rsafe_if; intros _; [by apply rsafe_fail|by apply rsafe_ret].
Qed.

Lemma rsafe_position {B} (k : Z → Rd B) Q :
  (∀ p, rsafe (k p) Q) → rsafe ((r ← get_state; mret (r_position r)) ≫= k) Q.
Proof. intros Hk r Hr; cbn; by apply Hk. Qed.

Lemma rsafe_monitoring_filter select : select_ok select → rsafe (read_monitoring_filter select) (λ x, select_ok x.2).
Proof.
  intros Hsel; unfold read_monitoring_filter.
  eapply rsafe_bind; [apply rsafe_read_extension_object_header|]; intros [ty len] [_ Hl]; cbn [fst snd] in Hl.
  assert (Hskip : ∀ f, rsafe (skip_extension_object_body len;; mret (f, select)) (λ x : mu_filter_t * _, select_ok x.2)).
  { intros f; eapply rsafe_bind; [apply rsafe_skip_extension_object_body; lia|intros _ _; by apply rsafe_ret]. }
  apply rsafe_if; intros _.
  - apply rsafe_position; intros p; eapply rsafe_bind; [apply rsafe_ensure_reader_bytes_remaining|intros _ _].
    apply rsafe_if; intros _; [eapply rsafe_bind; [apply rsafe_datachange_filter|intros f _]|].
    { eapply rsafe_bind; [apply rsafe_at_position|intros _ _; by apply rsafe_ret]. }
    apply rsafe_if; intros _; [eapply rsafe_bind; [apply rsafe_aggregate_filter|intros f _]|].
    { eapply rsafe_bind; [apply rsafe_at_position|intros _ _; by apply rsafe_ret]. }
    apply rsafe_if; intros _; [eapply rsafe_bind; [apply rsafe_event_filter|intros f ?]|].
    { eapply rsafe_bind; [apply rsafe_at_position|intros _ _; by apply rsafe_ret]. }
    apply rsafe_if; intros _; [by apply rsafe_ret|apply Hskip].
  - apply rsafe_if; intros _; [|apply Hskip].
    eapply rsafe_bind; [apply rsafe_event_filter|intros f ?; by apply rsafe_ret].
Qed.

(** A body whose NodeId and select clauses can be used. *)
Definition body_ok (body : mu_monitored_item_create_body_t) : Prop :=
  wire_nodeid (cb_node_id body) ∧ 0 ≤ cb_queue_size body ∧
  select_ok (cb_select_clauses body, cb_select_clauses_count body).

Lemma rsafe_create_body garbage : select_ok garbage → rsafe (read_monitored_item_create_body garbage) body_ok.
Proof.
  intros Hg; unfold read_monitored_item_create_body.
  eapply rsafe_bind; [apply rsafe_read_nodeid|intros id Hid].
  repeat first [eapply rsafe_bind; [apply (rsafe_monitoring_filter garbage Hg)|intros [f [cs n]] Hsel]
               |eapply rsafe_bind; [first [apply rsafe_reader_status|apply rsafe_read_string|apply rsafe_default_u32
                                          |eapply rsafe_or_any; solve [eauto with rsafe]]|intros ? ?]].
  apply rsafe_ret; split; [done|split; [|done]]; cbn; ranges; lia.
Qed.

Lemma rsafe_modify_filter : rsafe read_modify_filter (λ _, True).
Proof.
  unfold read_modify_filter; eapply rsafe_bind; [apply rsafe_read_extension_object_header|]; intros [ty len] [_ Hl].
  cbn [fst snd] in Hl; eapply rsafe_bind; [apply rsafe_ensure_reader_bytes_remaining|intros _ _].
  assert (Hskip : ∀ x : Z * bool, rsafe (skip_extension_object_body len;; mret x) (λ _, True)).
  { intros x; eapply rsafe_bind; [apply rsafe_skip_extension_object_body; lia|intros _ _; by apply rsafe_ret]. }
  apply rsafe_if; intros _; [|apply Hskip]; apply rsafe_if; intros _; [|apply Hskip].
  apply rsafe_position; intros p; eapply rsafe_bind; [apply rsafe_datachange_filter|intros f _].
  eapply rsafe_bind; [apply rsafe_at_position|intros _ _; by apply rsafe_ret].
Qed.

Lemma rsafe_triggering_array : rsafe read_set_triggering_uint32_array (λ _, True).
Proof.
  unfold read_set_triggering_uint32_array; eapply rsafe_bind; [apply rsafe_read_int32|intros c _].
  do 2 (apply rsafe_if; intros _; [by apply rsafe_fail|]).
  eapply rsafe_bind; [apply rsafe_ensure_array_items|intros _ _].
  eapply rsafe_mono; [apply rsafe_rd_list, rsafe_read_uint32|done].
Qed.
End decoders.

(** ** Handlers *)

(** A node whose value can be read at any time by any NodeId of the same
    identifier type: an item reads through its own, possibly shortened, copy
    of the NodeId. *)
Definition node_readable (node : mu_node_t) : Prop :=
  ∀ now id old source, node_value node = Some source → identifier_type id = identifier_type (node_node_id node) →
    outcome_ok variant_ok (mu_value_source_read now (Some source) id old).

Definition space_readable (space : option mu_address_space_t) : Prop :=
  ∀ sp, space = Some sp → Forall node_readable (space_nodes sp).

Lemma base_node_readable {profile : BaseProfile} : Forall node_readable s_base_nodes.
Proof.
  pose proof base_printable_facts as Hp; rewrite forallb_forall in Hp; apply Forall_forall; intros node Hn now id old source E _.
  specialize (Hp node ltac:(by apply list_elem_of_In)); unfold base_printable_check in Hp.
  apply andb_true_iff in Hp as [_ Hv]; pose proof (base_value_ok now node source old Hv E) as Ho.
  unfold base_value_check in Hv; rewrite E in Hv; by destruct source.
Qed.

Lemma runtime_readable {profile : BaseProfile} addr time start_time :
  Forall node_readable (space_nodes (rn_space (mu_base_runtime_init addr time start_time))).
Proof.
  unfold mu_base_runtime_init; cbn [rn_space].
  constructor; [|constructor; [|constructor]]; intros now id old source [= <-] Ht; cbn in Ht;
    destruct id as [ns []]; try discriminate; right; cbn; done.
Qed.

Lemma find_readable nodes id node : Forall node_readable nodes → find_linear nodes id = Some node →
  node_readable node ∧ identifier_type id = identifier_type (node_node_id node).
Proof.
  intros Hf [Hin He]%find_linear_Some; rewrite Forall_forall in Hf; split; [auto|].
  unfold mu_nodeid_equal in He; destruct (_ =? _); [|done]; cbn [negb] in He.
  destruct (Z.eqb_spec (identifier_type (node_node_id node)) (identifier_type id)); [done|discriminate].
Qed.

Lemma layered_readable {profile : BaseProfile} user dynamic id node :
  space_readable user → space_readable dynamic → layered_lookup user dynamic id = Some node →
  node_readable node ∧ identifier_type id = identifier_type (node_node_id node).
Proof.
  intros Hu Hd; unfold layered_lookup, opt_lookup, space_lookup.
  destruct user as [user|], dynamic as [dynamic|]; cbn [mbind option_bind];
    repeat match goal with |- context [find_linear (space_nodes ?sp) id] =>
      destruct (find_linear (space_nodes sp) id) eqn:?; [intros [= ->]; eapply find_readable; [|eassumption]; first [by apply Hu|by apply Hd]|] end;
    intros E; apply (find_readable s_base_nodes id node base_node_readable E).
Qed.

Section handlers.
  Context {profile : BaseProfile} {pub : PublishProfile} {caps : BuildCaps} {Hcaps : BuildCapsOk caps}.
  Context {Rest : Type} {host : SubscriptionHost Rest} {laws : SubscriptionHostLaws Rest}.

Definition server_engine (s : mu_server_t Rest) : mu_subscriptions_t := host_engine (sv_rest s).

(** The invariant: valid address spaces, a good engine, an active session. *)
Record sub_server_ok (s : mu_server_t Rest) : Prop := {
  so_ctx : resolve_ctx (sv_address_space s) (sv_user_index s) (sv_runtime_space s);
  so_user : space_readable (sv_address_space s);
  so_runtime : space_readable (sv_runtime_space s);
  so_engine : engine_good (server_engine s);
  so_session : ∃ slot session, sv_active_session s = Some slot ∧ znth (sv_sessions s) slot = Some session
}.

(** Only the engine and the lookup index may change. *)
Record engine_frame (s s' : mu_server_t Rest) : Prop := {
  ef_channel : sv_secure_channel s' = sv_secure_channel s;
  ef_sessions : sv_sessions s' = sv_sessions s;
  ef_active : sv_active_session s' = sv_active_session s;
  ef_space : sv_address_space s' = sv_address_space s;
  ef_runtime : sv_runtime_space s' = sv_runtime_space s;
  ef_dynamic : sv_dynamic_references s' = sv_dynamic_references s;
  ef_handler : sv_write_handler s' = sv_write_handler s;
  ef_writes : sv_writes s' = sv_writes s;
  ef_rest : sv_rest s' = host_set_engine (sv_rest s) (server_engine s')
}.

#[export] Instance engine_frame_preorder : PreOrder engine_frame.
Proof.
  split.
  - intros s; split; try done; unfold server_engine; by rewrite host_set_get.
  - intros a b c [] []; split; try congruence. rewrite ef_rest1, ef_rest0; by rewrite host_set_set.
Qed.

Abbreviation htriple := (triple sub_server_ok engine_frame).
Abbreviation hstriple := (striple sub_server_ok engine_frame).
Abbreviation h_bind := (triple_bind sub_server_ok engine_frame).
Abbreviation h_read := (triple_read sub_server_ok engine_frame).
Abbreviation h_write := (triple_write sub_server_ok engine_frame).
Abbreviation h_guard := (triple_guard sub_server_ok engine_frame).
Abbreviation h_server := (triple_server sub_server_ok engine_frame).
Abbreviation h_ret := (triple_ret sub_server_ok engine_frame).
Abbreviation h_finish := (triple_finish sub_server_ok engine_frame).
Abbreviation s_bind := (striple_bind sub_server_ok engine_frame).
Abbreviation s_ret := (striple_ret sub_server_ok engine_frame).
Abbreviation s_conseq := (striple_conseq sub_server_ok engine_frame).

(** The result says what it says of the engine. *)
Lemma hstriple_engine {A} (P : mu_subscriptions_t → Prop) (m : M mu_subscriptions_t A) (Q : A → mu_subscriptions_t → Prop) :
  (∀ e, engine_good e → P e → engine_good (m e).2 ∧ outcome_ok (λ a, Q a (m e).2) (m e).1) →
  hstriple (λ s, P (server_engine s)) (engine m) (λ a s, Q a (server_engine s)).
Proof.
  intros Hm s [] HP; destruct (Hm _ so_engine0 HP) as [Hg Ho]; unfold engine, server_engine in *.
  destruct (m (host_engine (sv_rest s))) as [x e]; cbn [fst snd] in *; split_and!.
  - split; cbn; try done; unfold server_engine; cbn; by rewrite host_get_set.
  - split; try done; unfold server_engine; cbn; by rewrite host_get_set.
  - destruct x; cbn in *; [by rewrite host_get_set|done|done].
Qed.

Lemma hstriple_egood {A} P (m : M mu_subscriptions_t A) Q : egood m Q → hstriple P (engine m) (λ a _, Q a).
Proof.
  intros Hm; eapply s_conseq; [apply (hstriple_engine (λ _, True) m (λ a _, Q a))|done|done].
  intros e He _; by apply Hm.
Qed.

(** The engine is only read. *)
Lemma hstriple_peek {A} (φ : Prop) (f : mu_subscriptions_t → result A) (Q : A → Prop) :
  (φ → ∀ e, engine_good e → outcome_ok Q (f e)) → hstriple (λ _, φ) (engine (λ e, (f e, e))) (λ a _, Q a).
Proof.
  intros Hf s Hs Hφ; apply (hstriple_egood (λ _, True) (λ e, (f e, e)) Q); [|done|done].
  intros e He; split; [done|by apply Hf].
Qed.

Lemma hstriple_session P : hstriple P active_session_id (λ _, P).
Proof.
  intros s Hs HP; pose proof Hs as [_ _ _ _ (slot & session & Ha & Hz)]; unfold active_session_id.
  rewrite Ha; cbn [mbind option_bind]; rewrite Hz; by split_and!.
Qed.

Lemma hstriple_find P id : hstriple P (find_subscription id)
  (λ x s, sub_good x.2 ∧ subs_subscriptions (server_engine s) !! x.1 = Some x.2 ∧ id ∈ sub_ids (server_engine s)).
Proof.
  unfold find_subscription; eapply s_bind; [apply hstriple_session|]; intros session.
  eapply s_conseq; [eapply (hstriple_engine (λ _, True) _ (λ x e, sub_good x.2 ∧
    subs_subscriptions e !! x.1 = Some x.2 ∧ id ∈ sub_ids e))|done|done].
  intros e He _; destruct (mu_subscription_find e session id) as [[i s]|] eqn:Ef; cbn [fst snd]; [|by split].
  destruct (find_good e session id i s He Ef) as [? ?]; split; [done|]; cbn; split_and!; [done..|].
  by eapply subscription_find_ids.
Qed.

Lemma egood_status {A} (m : M mu_subscriptions_t A) Q : egood m Q → egood (status_of m) (λ _, True).
Proof.
  intros Hm e He; destruct (Hm e He) as [Hg Ho]; unfold status_of.
  destruct (m e) as [[a|s|] e']; cbn in *; [by split|by split|done].
Qed.

Lemma hstriple_status {A} P (m : M (mu_server_t Rest) A) Q : hstriple P m Q → hstriple P (status_of m) (λ _ _, True).
Proof.
  intros Hm s Hs HP; destruct (Hm s Hs HP) as (? & ? & Ho); unfold status_of.
  destruct (m s) as [[a|e|] s']; cbn in *; by split_and!.
Qed.

(** *** Arrays of identifiers *)

Lemma htriple_drive_ids f count : (∀ id, hstriple (λ _, True) (f id) (λ _ _, True)) →
  htriple (λ _, True) (drive_ids f count) (λ _ _, True).
Proof.
  intros Hf; induction count as [|count IH]; cbn [drive_ids]; [by apply h_ret|].
  eapply h_read; [apply rsafe_read_uint32|]; intros id _; eapply h_server; [apply Hf|]; intros result.
  by apply h_write; [apply wsafe_write_statuscode|].
Qed.

Lemma htriple_drive response handle validated f : u32_range response →
  (∀ id, hstriple (λ _, True) (f id) (λ _ _, True)) →
  htriple (λ _, True) (drive_subscription_id_status_array response handle validated f) (λ _ _, True).
Proof.
  intros Hresp Hf; unfold drive_subscription_id_status_array.
  eapply h_read; [apply rsafe_read_int32|]; intros count _; apply h_guard; [done|]; intros _.
  eapply (h_bind _ _ _ (λ _ _, True)); [destruct validated as [id|]|intros _].
  { eapply h_server; [apply hstriple_find|]; intros x; by apply h_ret. }
  { by apply h_ret. }
  apply h_guard; [done|]; intros _.
  apply h_write; [by apply wsafe_write_response_prefix|]; intros _.
  apply h_write; [apply wsafe_write_int32|]; intros _.
  eapply h_bind; [by apply htriple_drive_ids|]; intros [].
  apply h_write; [apply wsafe_write_int32|]; intros _; apply h_finish.
Qed.

Lemma find_active_Some id mid items : ∀ i active j it, find_active id mid items i active = Some (j, it) →
  (i ≤ j)%nat ∧ items !! (j - i)%nat = Some it ∧ is_item id mid it.
Proof.
  induction items as [|x items IH]; intros i active j it; cbn [find_active]; [done|]; split_if; [|done].
  destruct (mi_in_use (mi_identity x)) eqn:Eu; cbn [negb].
  - split_if.
    + intros [= <- <-]; bool_hyps; rewrite Nat.sub_diag; split_and!; [lia|done|]; unfold is_item; split_and!; lia || done.
    + intros (? & Hl & ?)%IH; split_and!; [lia| |done]; by replace (j - i)%nat with (S (j - S i)) by lia.
  - intros (? & Hl & ?)%IH; split_and!; [lia| |done]; by replace (j - i)%nat with (S (j - S i)) by lia.
Qed.

Lemma find_monitored_item_good e id mid i it : engine_good e → find_monitored_item e id mid = Some (i, it) →
  subs_monitored_items e !! i = Some it ∧ item_good it.
Proof.
  intros He (_ & Hl & _)%find_active_Some; rewrite Nat.sub_0_r in Hl; split; [done|].
  by apply (Forall_lookup_1 _ _ _ _ (eg_items e He) Hl).
Qed.

Lemma set_publishing_mode_safe enabled id : hstriple (λ _, True) (set_publishing_mode_result enabled id) (λ _ _, True).
Proof.
  apply (hstriple_status _ _ (λ _ _, True)); eapply s_bind; [apply hstriple_find|]; intros [i s].
  eapply s_conseq; [apply (hstriple_engine (λ e, sub_good s ∧ subs_subscriptions e !! i = Some s) _ (λ _ _, True))| |done].
  - intros e He [Hg Hs]; split; [|done]; apply (set_sub_good _ _ s); [done..|].
    destruct Hg as [[? ?] ?]; split; [done..| |done]; by split.
  - intros s' _ (? & ? & _); done.
Qed.

Lemma set_monitoring_mode_safe id mode mid : hstriple (λ _, True) (set_monitoring_mode_result id mode mid) (λ _ _, True).
Proof.
  apply hstriple_egood; intros e He; destruct (find_monitored_item e id mid) as [[i it]|] eqn:Ef; [|by split].
  destruct (find_monitored_item_good e id mid i it He Ef) as [Hi Hg]; split; [|done].
  apply (set_item_good _ _ it); [done..|]; destruct Hg; by split.
Qed.

Lemma handle_set_publishing_mode_safe : htriple (λ _, True) handle_set_publishing_mode (λ _ _, True).
Proof.
  eapply h_read; [apply rsafe_request_header_decode|]; intros req _.
  eapply h_read; [eapply rsafe_or_any, rsafe_read_boolean|]; intros b _.
  apply htriple_drive; [by ranges|]; apply set_publishing_mode_safe.
Qed.

Lemma handle_set_monitoring_mode_safe : htriple (λ _, True) handle_set_monitoring_mode (λ _ _, True).
Proof.
  eapply h_read; [apply rsafe_request_header_decode|]; intros req _.
  do 2 (eapply h_read; [apply rsafe_default_u32|]; intros ? _).
  apply htriple_drive; [by ranges|]; intros; apply set_monitoring_mode_safe.
Qed.

Lemma handle_delete_monitored_items_safe : htriple (λ _, True) handle_delete_monitored_items (λ _ _, True).
Proof.
  eapply h_read; [apply rsafe_request_header_decode|]; intros req _.
  eapply h_read; [apply rsafe_default_u32|]; intros id _.
  apply htriple_drive; [by ranges|]; intros mid; eapply hstriple_egood, egood_status, item_delete_good.
Qed.

Lemma handle_delete_subscriptions_safe : htriple (λ _, True) handle_delete_subscriptions (λ _ _, True).
Proof.
  eapply h_read; [apply rsafe_request_header_decode|]; intros req _.
  apply htriple_drive; [by ranges|]; intros id; eapply s_bind; [apply hstriple_session|]; intros session.
  eapply hstriple_egood, egood_status, delete_good.
Qed.

(** *** Subscriptions *)

Lemma wsafe_interval_counts interval lifetime keep_alive {B} (k : unit → H Rest B) P Q :
  (∀ x, htriple P (k x) Q) →
  htriple P (wr (unchecked (mu_binary_write_uint64 interval));; wr (unchecked (mu_binary_write_uint32 lifetime));;
             wr (unchecked (mu_binary_write_uint32 keep_alive));; wr writer_status ≫= k) Q.
Proof.
  intros Hk; apply h_write; [apply wsafe_unchecked, wsafe_write_uint64|]; intros _.
  do 2 (apply h_write; [apply wsafe_unchecked, wsafe_write_uint32|]; intros _).
  apply h_write; [apply wsafe_writer_status|done].
Qed.

Lemma handle_create_subscription_safe now_ms : htriple (λ _, True) (handle_create_subscription now_ms) (λ _ _, True).
Proof.
  eapply h_read; [apply rsafe_request_header_decode|]; intros req _.
  eapply h_read; [eapply rsafe_or_any, rsafe_read_uint64|]; intros bits _.
  eapply h_read; [apply rsafe_default_u32|]; intros lifetime Hl.
  eapply h_read; [apply rsafe_default_u32|]; intros keep_alive Hk.
  eapply h_read; [apply rsafe_default_u32|]; intros mx _.
  eapply h_read; [eapply rsafe_or_any, rsafe_read_boolean|]; intros enabled _.
  eapply h_read; [eapply rsafe_or_any, rsafe_read_byte|]; intros prio _.
  eapply h_read; [apply rsafe_reader_status|]; intros _ _.
  eapply h_server; [apply hstriple_session|]; intros session.
  eapply h_server; [by apply hstriple_egood, create_good|]; intros slot.
  apply h_write; [by apply wsafe_write_response_prefix|]; intros _.
  eapply h_server.
  { apply (hstriple_peek _ _ (λ _, True)); intros Hslot e He.
    pose proof (inv_subs_size e (eg_inv e He)) as Hsize; unfold zlen in Hsize.
    destruct (lookup_lt_is_Some_2 (subs_subscriptions e) slot) as [sub ->]; [lia|done]. }
  intros sub; apply h_write; [apply wsafe_unchecked, wsafe_write_uint32|]; intros _.
  apply wsafe_interval_counts; intros _; apply h_finish.
Qed.

Lemma handle_modify_subscription_safe : htriple (λ _, True) handle_modify_subscription (λ _ _, True).
Proof.
  eapply h_read; [apply rsafe_request_header_decode|]; intros req _.
  eapply h_read; [apply rsafe_default_u32|]; intros id _.
  eapply h_read; [eapply rsafe_or_any, rsafe_read_uint64|]; intros bits _.
  eapply h_read; [apply rsafe_default_u32|]; intros lifetime Hl.
  eapply h_read; [apply rsafe_default_u32|]; intros keep_alive Hk.
  eapply h_read; [apply rsafe_default_u32|]; intros mx _.
  eapply h_read; [eapply rsafe_or_any, rsafe_read_byte|]; intros prio _.
  eapply h_read; [apply rsafe_reader_status|]; intros _ _.
  eapply h_server; [apply hstriple_find|]; intros [i s]; cbn [fst snd]; cbv zeta.
  set (s' := mu_subscription_apply_parameters _ _ _ _ _ _).
  eapply h_server.
  { eapply s_conseq; [apply (hstriple_engine (λ e, sub_good s ∧ subs_subscriptions e !! i = Some s) _ (λ _ _, True))| |done].
    - intros e He [[[Hr Hlv] Hev] Hs]; split; [|done]; destruct He as [Hinv ? ? ?]; split; [|done| |done].
      + apply (set_sub_inv _ _ s); [done..| |]; [unfold s', mu_subscription_apply_parameters; by destruct (revise_subscription_counts _ _)|].
        apply apply_parameters_ok; [done..|]; intros Hv; by destruct (Hlv Hv) as (_ & _ & ?).
      + apply Forall_insert; [done|]; unfold s', mu_subscription_apply_parameters; by destruct (revise_subscription_counts _ _).
    - intros ? _ (? & ? & _); done. }
  intros []; apply h_write; [by apply wsafe_write_response_prefix|]; intros _.
  apply wsafe_interval_counts; intros _; apply h_finish.
Qed.

(** *** MonitoredItems *)

Lemma wsafe_null_extension_object : wsafe write_null_extension_object.
Proof. apply wsafe_write_extension_object_header; split; [by ranges|done]. Qed.

Lemma wsafe_create_result result id interval size : wsafe (write_monitored_item_create_result result id interval size).
Proof.
  unfold write_monitored_item_create_result.
  do 4 (apply wsafe_bind; [apply wsafe_unchecked; auto with wsafe|intros _]).
  apply wsafe_bind; [apply wsafe_writer_status|intros _; apply wsafe_null_extension_object].
Qed.

Lemma wsafe_modify_result result interval : wsafe (write_monitored_item_modify_result result interval).
Proof.
  unfold write_monitored_item_modify_result.
  do 3 (apply wsafe_bind; [apply wsafe_unchecked; auto with wsafe|intros _]).
  apply wsafe_bind; [apply wsafe_writer_status|intros _; apply wsafe_null_extension_object].
Qed.

Lemma copy_node_id_total id : wire_nodeid id →
  ∃ id', copy_monitored_node_id id = Some id' ∧ identifier_type id' = identifier_type id.
Proof.
  intros Hid; apply wire_nodeid_ok in Hid; destruct id as [ns [n|s| |]]; unfold copy_monitored_node_id; cbn; eauto.
  destruct Hid as [_ [Hs _]]; cbn in Hs; destruct (str_data s) as [d|]; [|eauto]; destruct Hs as [Hl _].
  set (len := if MU_MAX_MONITORED_STRING <? str_length s then _ else _).
  assert (len ≤ str_length s) by (unfold len, MU_MAX_MONITORED_STRING; destruct (Z.ltb_spec 32 (str_length s)); lia).
  destruct (Z.ltb_spec 0 len); [|eauto]; rewrite mem_load_Some by lia; cbn; eauto.
Qed.

Lemma configure_queue_ok q size discard : 0 ≤ size → zlen (q_entries q) = MU_MONITORED_QUEUE_DEPTH →
  queue_ok (configure_queue q size discard).
Proof.
  intros Hs Hlen; pose proof caps_queue_depth; unfold configure_queue; set (n := if MU_MONITORED_QUEUE_DEPTH <? _ then _ else _).
  assert (Hn : 0 < n) by (unfold n; repeat split_if; bool_hyps; lia).
  pose proof (queue_size_bounds (mk_report_queue n (q_entries q) 0 0 0 discard false) ltac:(cbn; lia)).
  split; cbn [q_size q_entries q_head q_count q_tail]; try lia; by rewrite Z.mod_0_l by lia.
Qed.

Lemma configure_item_good now now_ms body node it : item_good it → mi_last_value (mi_sample it) = zero_variant →
  body_ok body → node_readable node → identifier_type (cb_node_id body) = identifier_type (node_node_id node) →
  ∃ it', configure_item now now_ms body node it = Ok it' ∧ item_good it' ∧
    item_live it' = item_live it ∧ item_key it' = item_key it ∧ item_owner it' = item_owner it.
Proof.
  intros [[Hq Htr] Hl He Ha Hs Hc] Hz (Hid & Hsize & Hsel) Hnode Htype; unfold configure_item.
  destruct (copy_node_id_total _ Hid) as (id' & -> & Hid'); cbn [or_fault mbind result_bind].
  match goal with |- context [if negb (cb_attribute_id body =? 12) then ?a else ?b] =>
    assert (Hsample : ∃ m, (if negb (cb_attribute_id body =? 12) then a else b) = Ok m ∧ variant_ok (mi_last_value m)) end.
  { split_if; [|eexists; split; [done|done]]; destruct (node_value node) as [source|] eqn:Ev; [|eexists; split; [done|done]].
    pose proof (Hnode now (cb_node_id body) (mi_last_value (mi_sample it)) source Ev Htype) as Ho.
    destruct (mu_value_source_read _ _ _ _); cbn in Ho; [by eexists|by eexists|done]. }
  destruct Hsample as (m & -> & Hm); cbn [mbind result_bind]; eexists; split; [done|]; split; [|done].
  split; cbn [mi_identity mi_parameters mi_sample mi_queue mi_aggregate_state mi_triggered_items mi_triggered_count];
    [split; [|done]|done|..].
  - destruct MUC_OPCUA_SUBSCRIPTIONS_STANDARD; [|done]; apply configure_queue_ok; [done|apply Hq].
  - destruct MUC_OPCUA_SUBSCRIPTIONS_STANDARD; done.
  - destruct (_ && _); done.
  - intros t nd source [= <-] Esrc; apply Hnode; [done|exact (eq_trans Hid' Htype)].
  - cbn; destruct MUC_OPCUA_EVENTS; done.
Qed.

Lemma create_item_safe now now_ms id body node : body_ok body →
  node_readable node ∧ identifier_type (cb_node_id body) = identifier_type (node_node_id node) → ∀ e, engine_good e → id ∈ sub_ids e →
  let '(x, e') := create_item now now_ms id body node e in
  engine_good e' ∧ sub_ids e' = sub_ids e ∧ outcome_ok (λ _, True) x.
Proof.
  intros Hbody [Hnode Htype] e He Hid; unfold create_item, mbind, M_bind.
  pose proof (item_alloc_inv e id (eg_inv e He) Hid) as Hinv; unfold mu_monitored_item_alloc in *.
  destruct (list_find _ _) as [[slot it0]|] eqn:Ef; [|by split_and!].
  apply list_find_Some in Ef as (Hslot & _ & _); apply lookup_lt_Some in Hslot.
  destruct (allocate_monitored_item_id e) as [mid e1] eqn:Ea; unfold allocate_monitored_item_id in Ea.
  destruct (allocate_id _ _ _) as [id' next]; injection Ea as <- <-; destruct He as [_ Hitems Hev Hreq].
  destruct (id' =? 0); cbn [fst snd] in *; [by split_and!|].
  set (it := mk_monitored_item _ _ _ _ _ _ _) in *; set (e1 := mk_subscriptions _ _ _ _ _ _) in Hinv |- *.
  assert (Hit : item_good it) by (destruct zero_item_good as [? ? ? ? ? ?]; split; try done; intros ? ? ? ?; done).
  assert (He1 : engine_good e1) by (split; [done|by apply Forall_insert|done|done]).
  assert (Hl : subs_monitored_items e1 !! slot = Some it) by (by apply list_lookup_insert_eq).
  unfold configure_slot; rewrite Hl; cbn [or_fault mbind result_bind].
  destruct (configure_item_good now now_ms body node it Hit eq_refl Hbody Hnode Htype) as (it' & -> & Hg & ? & ? & ?).
  split_and!; [by apply (set_item_good _ _ it)|done|done].
Qed.

Lemma resolve_safe (P : mu_subscriptions_t → Prop) id : wire_nodeid id →
  hstriple (λ s, P (server_engine s)) (resolve id)
    (λ found s, P (server_engine s) ∧ ∀ node, found = Some node →
       node_readable node ∧ identifier_type id = identifier_type (node_node_id node)).
Proof.
  intros Hid s [] HP; unfold resolve.
  destruct (resolve_node_spec _ _ _ id so_ctx0 (wire_nodeid_ok _ Hid)) as (index & -> & Hctx); cbn [or_fault].
  split_and!; [by split|split; try done; unfold server_engine; cbn; by rewrite host_set_get|].
  cbn; split; [done|]; intros node; by apply layered_readable.
Qed.

Lemma create_one_safe now now_ms id body : body_ok body →
  hstriple (λ s, id ∈ sub_ids (server_engine s)) (create_one now now_ms id body) (λ _ s, id ∈ sub_ids (server_engine s)).
Proof.
  intros Hbody; unfold create_one; eapply s_bind; [apply (resolve_safe (λ e, id ∈ sub_ids e)), Hbody|].
  intros [node|]; [|by apply s_ret; intros s []].
  split_if; [by apply s_ret; intros s []|].
  intros s Hs [Hid Hnode]; specialize (Hnode node eq_refl); revert s Hs Hid.
  apply (hstriple_engine (λ e, id ∈ sub_ids e) _ (λ _ e, id ∈ sub_ids e)); intros e He Hid.
  pose proof (create_item_safe now now_ms id body node Hbody Hnode e He Hid) as H.
  destruct (create_item _ _ _ _ _ e) as [[[mid interval]|err|] e']; destruct H as (? & Eids & ?); cbn; rewrite ?Eids; done.
Qed.

Lemma create_items_safe now now_ms id garbage count : (∀ i, select_ok (garbage i)) →
  htriple (λ s, id ∈ sub_ids (server_engine s)) (create_items now now_ms id garbage count) (λ _ _, True).
Proof.
  intros Hgarbage; induction count as [|count IH]; cbn [create_items]; [by apply h_ret|].
  eapply h_read; [by apply rsafe_create_body|]; intros body Hbody.
  eapply h_server; [by apply create_one_safe|]; intros [[[result mid] interval] size].
  apply h_write; [apply wsafe_create_result|done].
Qed.

Lemma handle_create_monitored_items_safe now now_ms garbage : (∀ i, select_ok (garbage i)) →
  htriple (λ _, True) (handle_create_monitored_items now now_ms garbage) (λ _ _, True).
Proof.
  intros Hgarbage; eapply h_read; [apply rsafe_request_header_decode|]; intros req _.
  eapply h_read; [apply rsafe_default_u32|]; intros id _.
  eapply h_read; [apply rsafe_default_u32|]; intros ts _.
  eapply h_read; [eapply rsafe_or_any, rsafe_read_int32|]; intros count _.
  eapply h_read; [apply rsafe_reader_status|]; intros _ _.
  apply h_guard; [done|]; intros _; eapply h_server; [apply hstriple_find|]; intros x.
  apply h_guard; [done|]; intros _.
  apply h_write; [by apply wsafe_write_response_prefix|]; intros _; apply h_write; [apply wsafe_write_int32|]; intros _.
  eapply h_bind; [eapply triple_conseq; [by apply (create_items_safe now now_ms id)|by intros s (_ & _ & ?)|done]|].
  intros []; apply h_write; [apply wsafe_write_int32|]; intros _; apply h_finish.
Qed.

Lemma modify_one_good id mid handle bits result has : egood (modify_one id mid handle bits result has) (λ _, True).
Proof.
  intros e He; unfold modify_one; destruct (find_monitored_item e id mid) as [[i it]|] eqn:Ef; [|by split].
  split_if; [by split|]; split_if; [by split|]; cbn [fst snd]; split; [|done].
  destruct (find_monitored_item_good e id mid i it He Ef) as [Hi []]; by apply (set_item_good _ _ it); [..|split].
Qed.

Lemma modify_items_safe id count : htriple (λ _, True) (modify_items id count) (λ _ _, True).
Proof.
  induction count as [|count IH]; cbn [modify_items]; [by apply h_ret|].
  do 2 (eapply h_read; [apply rsafe_default_u32|]; intros ? _).
  eapply h_read; [eapply rsafe_or_any, rsafe_read_uint64|]; intros bits _.
  eapply h_read; [apply rsafe_reader_status|]; intros _ _.
  eapply h_read; [apply rsafe_modify_filter|]; intros [result has] _.
  eapply h_read; [apply rsafe_default_u32|]; intros ? _.
  eapply h_read; [eapply rsafe_or_any, rsafe_read_boolean|]; intros ? _.
  eapply h_read; [apply rsafe_reader_status|]; intros _ _.
  eapply h_server; [apply hstriple_egood, modify_one_good|]; intros [r interval].
  by apply h_write; [apply wsafe_modify_result|].
Qed.

Lemma handle_modify_monitored_items_safe : htriple (λ _, True) handle_modify_monitored_items (λ _ _, True).
Proof.
  eapply h_read; [apply rsafe_request_header_decode|]; intros req _.
  do 2 (eapply h_read; [apply rsafe_default_u32|]; intros ? _).
  eapply h_read; [eapply rsafe_or_any, rsafe_read_int32|]; intros count _.
  eapply h_read; [apply rsafe_reader_status|]; intros _ _.
  apply h_guard; [done|]; intros _; eapply h_server; [apply hstriple_find|]; intros x.
  apply h_guard; [done|]; intros _.
  apply h_write; [by apply wsafe_write_response_prefix|]; intros _; apply h_write; [apply wsafe_write_int32|]; intros _.
  eapply h_bind; [eapply triple_conseq; [apply modify_items_safe|done|done]|].
  intros []; apply h_write; [apply wsafe_write_int32|]; intros _; apply h_finish.
Qed.

(** *** SetTriggering *)

Lemma link_all_good op links : (∀ link, egood (op link) (λ _, True)) → egood (link_all op links) (λ _, True).
Proof.
  intros Hop; induction links as [|link links IH]; intros e He; cbn [link_all]; [by split|].
  destruct (egood_status (op link) _ (Hop link) e He) as [H1 Ho1]; unfold mbind, M_bind.
  destruct (status_of (op link) e) as [[r|s|] e1]; cbn [fst snd] in *; [|by split|done].
  destruct (IH e1 H1) as [H2 Ho2]; destruct (link_all op links e1) as [[rs|s|] e2]; cbn in *; by split.
Qed.

Lemma wsafe_link_results results : wsafe (write_link_results results).
Proof.
  unfold write_link_results; apply wsafe_bind; [apply wsafe_write_int32|intros _].
  apply wsafe_bind; [apply wsafe_wr_list, Forall_forall; intros; apply wsafe_write_statuscode|intros _].
  apply wsafe_write_int32.
Qed.

Lemma handle_set_triggering_safe : htriple (λ _, True) handle_set_triggering (λ _ _, True).
Proof.
  eapply h_read; [apply rsafe_request_header_decode|]; intros req _.
  do 2 (eapply h_read; [apply rsafe_default_u32|]; intros ? _).
  eapply h_read; [apply rsafe_reader_status|]; intros _ _.
  do 2 (eapply h_read; [apply rsafe_triggering_array|]; intros ? _).
  apply h_guard; [done|]; intros _; eapply h_server; [apply hstriple_find|]; intros x.
  apply h_guard; [done|]; intros _.
  eapply h_server; [apply hstriple_egood, link_all_good; intros; apply add_link_good|]; intros added.
  eapply h_server; [apply hstriple_egood, link_all_good; intros; apply remove_link_good|]; intros removed.
  apply h_write; [by apply wsafe_write_response_prefix|]; intros _.
  do 2 (apply h_write; [apply wsafe_link_results|]; intros _); apply h_finish.
Qed.

(** *** Publish and Republish *)

Lemma acknowledge_all_safe count : htriple (λ _, True) (acknowledge_all count) (λ acks _, length acks = count).
Proof.
  induction count as [|count IH]; cbn [acknowledge_all]; [by apply h_ret|].
  do 2 (eapply h_read; [apply rsafe_default_u32|]; intros ? _).
  eapply h_read; [apply rsafe_reader_status|]; intros _ _.
  eapply h_server; [apply hstriple_session|]; intros session.
  eapply h_server; [eapply hstriple_egood, egood_status, acknowledge_good|]; intros r.
  eapply h_bind; [exact IH|]; intros rs; apply h_ret; intros s <-; done.
Qed.

Lemma handle_publish_safe now_ms : htriple (λ _, True) (handle_publish now_ms) (λ _ _, True).
Proof.
  eapply h_read; [apply rsafe_request_header_decode|]; intros req _.
  eapply h_read; [apply rsafe_read_int32|]; intros c _; set (count := if c <? 0 then 0 else c).
  apply h_guard; [done|]; intros Hc%Z.ltb_ge.
  assert (0 ≤ count) by (unfold count; destruct (Z.ltb_spec c 0); lia).
  eapply h_bind; [apply acknowledge_all_safe|]; intros acks.
  eapply h_server; [apply hstriple_session|]; intros session.
  eapply (h_server _ _ (λ _ _, length acks = Z.to_nat count)); [by intros s Hs Hl; split_and!|]; intros rid.
  eapply (h_server _ _ (λ slot _, length acks = Z.to_nat count ∧ (slot < Z.to_nat MU_MAX_PUBLISH_REQUESTS)%nat)).
  { apply striple_pure; intros Hlen; eapply s_conseq; [apply hstriple_egood, enqueue_good|done|done]. }
  intros slot; eapply (h_server _ _ (λ _ _, True)).
  { apply striple_pure; intros [Hlen Hslot]; eapply s_conseq; [apply hstriple_egood, park_good; [done|]|done|done].
    unfold zlen; lia. }
  intros _ st Hst _; destruct Hst as [? Hw ? ?]; split; [|done]; split; cbn;
    [by apply reader_step_refl|by apply writer_step_refl|done|reflexivity|destruct Hw; lia].
Qed.

Lemma wsafe_message message : bytes_ok message → wsafe (write_message message).
Proof.
  intros Hm; apply wsafe_wgood; intros w Hw; unfold write_message; apply wgood_get; pose proof (zlen_nonneg message).
  pose proof (writer_step_refl w Hw) as Hrefl; pose proof Hw as [Hb Hp].
  destruct (w_buffer w) as [b|] eqn:Eb.
  - destruct Hb as (? & ? & ?); rewrite to_unsigned_id by (zify_ints; lia).
    destruct (Z.ltb_spec (w_length w - w_position w) (zlen message)); [by split|]; split_if; [|by split].
    rewrite <- Eb; apply wgood_copy; [done|done|by eexists|done|unfold fits; lia].
  - cbn in Hb; rewrite to_unsigned_id by (zify_ints; lia).
    destruct (Z.ltb_spec (w_length w - w_position w) (zlen message)); [by split|].
    rewrite (proj2 (Z.ltb_ge _ _)) by lia; by split.
Qed.

Lemma republish_bytes e session id seq : engine_good e → outcome_ok bytes_ok (mu_subscription_republish e session id seq).
Proof.
  intros He; unfold mu_subscription_republish; destruct (mu_subscription_find e session id) as [[i s]|] eqn:Ef; [|done].
  destruct (find_good e session id i s He Ef) as [_ [[(_ & Hb & _) _] _]]; split_if; [|done]; cbn; by apply Forall_take.
Qed.

Lemma handle_republish_safe : htriple (λ _, True) handle_republish (λ _ _, True).
Proof.
  eapply h_read; [apply rsafe_request_header_decode|]; intros req _.
  do 2 (eapply h_read; [apply rsafe_default_u32|]; intros ? _).
  eapply h_read; [apply rsafe_reader_status|]; intros _ _.
  eapply h_server; [apply hstriple_session|]; intros session.
  eapply h_server; [apply (hstriple_peek _ _ bytes_ok); intros; by apply republish_bytes|]; intros message.
  cbv beta; apply (triple_pure _ _ (bytes_ok message)); intros Hb; apply h_write; [by apply wsafe_write_response_prefix|]; intros _.
  apply h_write; [by apply wsafe_message|]; intros _; apply h_finish.
Qed.
End handlers.
