(* ===== verification/SubscriptionSystem.v ===== *)
(** * The subscription engine in operation

    The subscription services behind the dispatcher, the tick and application
    events, in any order: whatever clients send and whenever the timers fire,
    the engine stays well formed and nothing reaches undefined behaviour. Then
    what clients rely on: message sequence numbers, Republish and the revised
    intervals. *)

From S2P Require Export SubscriptionServiceSafety.

Section system.
  Context {profile : BaseProfile} {pub : PublishProfile} {caps : BuildCaps} {Hcaps : BuildCapsOk caps}.
  Context {features : ServiceFeatures}.
  Context {Rest : Type} {host : SubscriptionHost Rest} {laws : SubscriptionHostLaws Rest}.

(** The handlers of the subscription services, as the table names them. *)
Definition subscription_service (now now_ms : Z) (garbage : nat → list Z * Z) (h : service_handler) : H Rest unit :=
  match h with
  | handle_create_subscription_fn => handle_create_subscription now_ms
  | handle_modify_subscription_fn => handle_modify_subscription
  | handle_set_publishing_mode_fn => handle_set_publishing_mode
  | handle_delete_subscriptions_fn => handle_delete_subscriptions
  | handle_create_monitored_items_fn => handle_create_monitored_items now now_ms garbage
  | handle_modify_monitored_items_fn => handle_modify_monitored_items
  | handle_set_monitoring_mode_fn => handle_set_monitoring_mode
  | handle_set_triggering_fn => handle_set_triggering
  | handle_delete_monitored_items_fn => handle_delete_monitored_items
  | handle_publish_fn => handle_publish now_ms
  | handle_republish_fn => handle_republish
  | _ => fail MU_STATUS_BAD_SERVICEUNSUPPORTED
  end.

Definition is_subscription_handler (h : service_handler) : bool :=
  match h with
  | handle_create_subscription_fn | handle_modify_subscription_fn | handle_set_publishing_mode_fn
  | handle_delete_subscriptions_fn | handle_create_monitored_items_fn | handle_modify_monitored_items_fn
  | handle_set_monitoring_mode_fn | handle_set_triggering_fn | handle_delete_monitored_items_fn
  | handle_publish_fn | handle_republish_fn => true
  | _ => false
  end.

Lemma subscription_service_safe now now_ms garbage h : (∀ i, select_ok (garbage i)) →
  triple sub_server_ok engine_frame (λ _, True) (subscription_service now now_ms garbage h) (λ _ _, True).
Proof.
  intros Hg; destruct h; cbn [subscription_service];
    try (by apply (triple_fail sub_server_ok engine_frame)).
  - by apply handle_create_monitored_items_safe.
  - apply handle_modify_monitored_items_safe.
  - apply handle_set_monitoring_mode_safe.
  - apply handle_set_triggering_safe.
  - apply handle_delete_monitored_items_safe.
  - apply handle_create_subscription_safe.
  - apply handle_modify_subscription_safe.
  - apply handle_set_publishing_mode_safe.
  - apply handle_delete_subscriptions_safe.
  - apply handle_publish_safe.
  - apply handle_republish_safe.
Qed.

(** All of them require a session. *)
Lemma subscription_sessions :
  forallb (λ d, match sd_handler d with
                | Some h => implb (is_subscription_handler h) (sh_requires_session (sd_service d))
                | None => true
                end) all_services = true.
Proof. vm_compute; reflexivity. Qed.

(** Between requests: no session is active. *)
Record system_ok (s : mu_server_t Rest) : Prop := {
  sy_sessions : table_inv (sv_sessions s);
  sy_size : zlen (sv_sessions s) = MU_MAX_SESSIONS;
  sy_ctx : resolve_ctx (sv_address_space s) (sv_user_index s) (sv_runtime_space s);
  sy_user : space_readable (sv_address_space s);
  sy_runtime : space_readable (sv_runtime_space s);
  sy_engine : engine_good (server_engine s)
}.

(** One request for the subscription services. *)
Definition request (now now_ms : Z) (stack : stack_memory) (garbage : nat → list Z * Z) (request_id : Z)
    (body response : list Z) (s : mu_server_t Rest) : result unit * hstate Rest :=
  mu_service_dispatch now stack (subscription_service now now_ms garbage) request_id body (zlen body)
    response (zlen response) s.

Lemma request_safe now now_ms stack garbage request_id body response s d h :
  (∀ i, select_ok (garbage i)) →
  bytes_ok body → zlen body ≤ PTRDIFF_MAX → bytes_ok response → zlen response ≤ PTRDIFF_MAX →
  system_ok s → find_service_descriptor request_id = Some d → sd_handler d = Some h → is_subscription_handler h = true →
  let (outcome, st) := request now now_ms stack garbage request_id body response s in
  outcome_ok (λ _, True) outcome ∧ system_ok (h_server st) ∧
  engine_frame (set_active_session s (sv_active_session (h_server st))) (h_server st) ∧
  writer_step (mu_binary_writer_init (Some response) (zlen response)) (h_writer st).
Proof.
  intros Hg Hb Hbl Hr Hrl Hs Hd Hh Hsub; unfold request; pose proof Hs as [Ht Hsize Hctx Hu Hrt He].
  pose proof (reader_init_ok body Hbl Hb) as Hrd; pose proof (writer_init_ok response Hrl Hr) as Hwr.
  destruct (dispatch_gate_ok now stack (subscription_service now now_ms garbage) request_id body (zlen body) response
    (zlen response) s Hrd Ht Hsize) as [(d' & slot & (Hd' & _ & Hslot) & ->)|(e & -> & Hrefuse & _)].
  - assert (d' = d) as -> by congruence; rewrite Hh.
    set (start := mk_hstate _ _ _ _).
    assert (Hreq : sh_requires_session (sd_service d) = true).
    { apply find_descriptor_Some in Hd as [Hd%services_subset _]; pose proof subscription_sessions as Hf.
      rewrite forallb_forall in Hf; specialize (Hf d ltac:(by apply list_elem_of_In)); by rewrite Hh, Hsub in Hf. }
    rewrite Hreq in Hslot; destruct Hslot as (i & -> & session & Hz & _).
    assert (Hok : ctx_ok sub_server_ok start)
      by (split; [done|done| |split; [apply zlen_nonneg|done]]; split; try done; by exists i, session).
    assert (Erun : run_handler now stack (subscription_service now now_ms garbage) h = subscription_service now now_ms garbage h)
      by (by destruct h).
    rewrite Erun; destruct (subscription_service_safe now now_ms garbage h Hg start Hok I) as [[_ Hw Hs' Hf] Ho].
    destruct (subscription_service now now_ms garbage h start) as [x st]; cbn [fst snd] in *; split_and!; [done|..|done].
    + destruct Hf as [_ Es _ _ _ _ _ _ _], Hs' as [? ? ? ? _]; split; try done; by rewrite Es.
    + by destruct Hf; split.
  - split_and!; [|by split|split; try done; unfold server_engine; cbn; by rewrite host_set_get|by apply writer_step_refl].
    cbn; destruct Hrefuse as [[->|[->| ->]]| ->]; discriminate.
Qed.

(** ** The engine over time *)

Context {Out : Type} {emitter : Emitter Out}.

Definition with_engine (s : mu_server_t Rest) (e : mu_subscriptions_t) : mu_server_t Rest :=
  set_rest s (host_set_engine (sv_rest s) e).

(** A request of the subscription services with valid buffers. *)
Definition subscription_request (garbage : nat → list Z * Z) (request_id : Z) (body response : list Z) : Prop :=
  (∀ i, select_ok (garbage i)) ∧ bytes_ok body ∧ zlen body ≤ PTRDIFF_MAX ∧
  bytes_ok response ∧ zlen response ≤ PTRDIFF_MAX ∧
  ∃ d h, find_service_descriptor request_id = Some d ∧ sd_handler d = Some h ∧ is_subscription_handler h = true.

(** Requests, ticks and application events in any order, and whatever the rest
    of the server does in between that leaves the engine alone. *)
Inductive system_step : mu_server_t Rest * Out → mu_server_t Rest * Out → Prop :=
| step_request now now_ms stack garbage request_id body response s o :
    subscription_request garbage request_id body response →
    system_step (s, o) (h_server (request now now_ms stack garbage request_id body response s).2, o)
| step_tick time now now_ms conns s o e o' :
    mu_subscriptions_tick time now now_ms (sv_sessions s) conns (server_engine s) o = Some (e, o') →
    system_step (s, o) (with_engine s e, o')
| step_event event s o e :
    event_ok event → mu_server_trigger_event (server_engine s) event = Some e →
    system_step (s, o) (with_engine s e, o)
| step_other s s' o :
    (system_ok s → system_ok s') → server_engine s' = server_engine s → system_step (s, o) (s', o).

Lemma with_engine_ok s e : system_ok s → engine_good e → system_ok (with_engine s e).
Proof. intros [] He; split; try done; unfold server_engine, with_engine; cbn; by rewrite host_get_set. Qed.

Lemma system_step_ok x y : system_step x y → system_ok x.1 → system_ok y.1.
Proof.
  intros [now now_ms stack garbage rid body response s o (Hg & Hb & Hbl & Hr & Hrl & d & h & Hd & Hh & Hsub)
         |time now now_ms conns s o e o' E|event s o e Hev E|s s' o Hs' _] Hs; cbn [fst] in *.
  - pose proof (request_safe now now_ms stack garbage rid body response s d h Hg Hb Hbl Hr Hrl Hs Hd Hh Hsub) as H.
    destruct (request _ _ _ _ _ _ _ _) as [x1 st]; apply H.
  - apply with_engine_ok; [done|].
    destruct (tick_good time now now_ms (sv_sessions s) conns (server_engine s) o (sy_engine s Hs)) as (e1 & o1 & E1 & He).
    by simplify_eq.
  - apply with_engine_ok; [done|]; destruct (trigger_event_good (server_engine s) event (sy_engine s Hs) Hev) as (e1 & E1 & He).
    by simplify_eq.
  - auto.
Qed.

Lemma system_reachable_ok x y : rtc system_step x y → system_ok x.1 → system_ok y.1.
Proof. induction 1 as [|x y z Hxy _ IH]; [done|]; intros Hx; apply IH; by eapply system_step_ok. Qed.

End system.

(** ** A concrete host *)

#[export] Instance engine_host : SubscriptionHost (mu_subscriptions_t * Z) := {|
  host_engine := fst;
  host_set_engine x e := (e, snd x);
  host_request_id := snd
|}.

#[export] Instance engine_host_laws : SubscriptionHostLaws (mu_subscriptions_t * Z).
Proof. split; [done..|]; by intros []. Qed.

(** Messages are collected. *)
Definition collecting : Emitter (list (list Z)) := λ out _ _ message, (MU_STATUS_GOOD, out ++ [message]).

Definition demo_pub : PublishProfile := Build_PublishProfile true false.

Definition demo_host_server : mu_server_t (mu_subscriptions_t * Z) :=
  let s := demo_server in
  mk_server (sv_secure_channel s) (sv_sessions s) (sv_active_session s) (sv_address_space s) (sv_user_index s)
    (sv_runtime_space s) (sv_dynamic_references s) (sv_write_handler s) (sv_writes s)
    (@mu_subscriptions_init embedded_caps, 17).

(** CreateSubscription with the token 77: every 1000 ms, lifetime 30,
    keep-alive 10. *)
Definition demo_create_subscription : list Z :=
  ztake 29 demo_request_body ++ mu_binary_le_put_u64 0x408F400000000000 ++ mu_binary_le_put_u32 30
  ++ mu_binary_le_put_u32 10 ++ mu_binary_le_put_u32 0 ++ [1; 0].

Definition demo_sub_request (request_id : Z) (body : list Z) (s : mu_server_t (mu_subscriptions_t * Z)) :=
  request (profile := embedded_profile) (pub := demo_pub) (caps := embedded_caps) (features := all_features)
    1000 5000 demo_stack (λ _, (repeat 0 8, 0)) request_id body (repeat 0 256) s.

Lemma demo_system_ok : system_ok (caps := embedded_caps) demo_host_server.
Proof.
  split; [exact demo_sessions_ok|reflexivity|exact demo_ctx|..].
  - intros sp [= <-]; cbn; apply Forall_forall; intros node Hn; cbn in Hn.
    repeat (apply elem_of_cons in Hn as [->|Hn]; [intros ? ? ? ? [=]|]); by apply not_elem_of_nil in Hn.
  - intros sp [= <-]; apply runtime_readable.
  - apply (init_good (caps := embedded_caps)).
Qed.

Example demo_created :
  let (x, st) := demo_sub_request MU_ID_CREATESUBSCRIPTIONREQUEST demo_create_subscription demo_host_server in
  x = Ok tt ∧ sub_ids (server_engine (h_server st)) = [1].
Proof. vm_compute; split; reflexivity. Qed.

(** The server after that request, and a tick later. *)
Definition demo_subscribed : mu_server_t (mu_subscriptions_t * Z) :=
  h_server (demo_sub_request MU_ID_CREATESUBSCRIPTIONREQUEST demo_create_subscription demo_host_server).2.

Lemma demo_create_request :
  subscription_request (profile := embedded_profile) (features := all_features) (λ _, (repeat 0 8, 0))
    MU_ID_CREATESUBSCRIPTIONREQUEST demo_create_subscription (repeat 0 256).
Proof.
  split_and!; [intros _; split; vm_compute; discriminate|by apply bytes_okb|vm_compute; discriminate
              |by apply bytes_okb|vm_compute; discriminate|].
  eexists _, handle_create_subscription_fn; split; [vm_compute; reflexivity|done].
Qed.

