(* ===== verification/SubscriptionSpec.v ===== *)
(** * What subscribers rely on

    Functional properties of the subscription engine
    ([src/services/subscription.c]) and of the revised intervals
    ([src/core/service_dispatch.c]): creation, the outcomes of publishing,
    retransmission until acknowledgement, keep-alive messages. *)

From Stdlib Require Import SpecFloat.
From stdpp Require Import gmap.
From S2P Require Export SubscriptionSystem.

(** ** Intervals *)

(** The integral part of a Duration, rounded down; [None] for an infinity or
    NaN. *)
Definition duration_floor (bits : Z) : option Z :=
  match sf_of_double bits with
  | S754_zero _ => Some 0
  | S754_finite s m x =>
      let v := cond_Zopp s (Zpos m) in Some (if 0 <=? x then v * 2 ^ x else v / 2 ^ (- x))
  | _ => None
  end.

(** The interval a request is entitled to: the Duration in whole milliseconds,
    at least 50 and at most 60000. *)
Definition revised_interval (bits : Z) : Z :=
  match duration_floor bits with
  | Some d => Z.max MU_MIN_PUBLISHING_INTERVAL_MS (Z.min MU_MAX_PUBLISHING_INTERVAL_MS d)
  | None => if Z.testbit bits 63 then MU_MIN_PUBLISHING_INTERVAL_MS else MU_MAX_PUBLISHING_INTERVAL_MS
  end.

(** The fields of a bit pattern. *)
Lemma duration_fields bits : u64_range bits →
  let f := bits mod 2 ^ 52 in let e := (bits / 2 ^ 52) mod 2 ^ 11 in
  bits = (if Z.testbit bits 63 then 2 ^ 63 else 0) + e * 2 ^ 52 + f ∧ 0 ≤ f < 2 ^ 52 ∧ 0 ≤ e < 2 ^ 11 ∧
  Z.land bits (2 ^ 52 - 1) = f ∧ Z.land (Z.shiftr bits 52) (2 ^ 11 - 1) = e.
Proof.
  intros Hb f e; split_and!; try (unfold f, e; apply Z.mod_pos_bound; lia).
  - assert (Hs : Z.testbit bits 63 = (bits / 2 ^ 63 =? 1)).
    { rewrite Z.testbit_eqb by lia; f_equal; apply Z.mod_small; split; [apply Z.div_pos; ranges; lia|].
      apply Z.div_lt_upper_bound; ranges; lia. }
    rewrite Hs; pose proof (Z.div_mod bits (2 ^ 52) ltac:(lia)) as H1; fold f in H1.
    pose proof (Z.div_mod (bits / 2 ^ 52) (2 ^ 11) ltac:(lia)) as H2; fold e in H2.
    rewrite Z.div_div in H2 by lia; change (2 ^ 52 * 2 ^ 11) with (2 ^ 63) in H2.
    assert (0 ≤ bits / 2 ^ 63 < 2) by (split; [apply Z.div_pos; ranges; lia|apply Z.div_lt_upper_bound; ranges; lia]).
    destruct (Z.eqb_spec (bits / 2 ^ 63) 1); lia.
  - change (2 ^ 52 - 1) with (Z.ones 52); by rewrite Z.land_ones by lia.
  - change (2 ^ 11 - 1) with (Z.ones 11); rewrite Z.land_ones, Z.shiftr_div_pow2 by lia; done.
Qed.

Lemma sign_of_bits bits : negb (Z.land bits MU_DOUBLE_SIGN_BIT =? 0) = Z.testbit bits 63.
Proof.
  change MU_DOUBLE_SIGN_BIT with (2 ^ 63).
  assert (Hbit : Z.testbit (Z.land bits (2 ^ 63)) 63 = Z.testbit bits 63).
  { by rewrite Z.land_spec, Z.pow2_bits_true, andb_true_r by lia. }
  destruct (Z.eqb_spec (Z.land bits (2 ^ 63)) 0) as [E|E]; cbn [negb]; [by rewrite <- Hbit, E|].
  symmetry; apply not_false_iff_true; intros Hs; apply E, Z.bits_inj'; intros n Hn.
  rewrite Z.land_spec, Z.pow2_bits_eqb, Z.bits_0 by lia.
  destruct (Z.eqb_spec 63 n) as [<-|]; [by rewrite Hs|apply andb_false_r].
Qed.

(** The floor of a double by the fields of its bit pattern. *)
Lemma duration_floor_fields bits : u64_range bits →
  let f := bits mod 2 ^ 52 in let e := (bits / 2 ^ 52) mod 2 ^ 11 in
  duration_floor bits =
    (let sign v := cond_Zopp (Z.testbit bits 63) v in
     if e =? 2047 then None
     else if e =? 0 then Some (sign f / 2 ^ 1074)
     else Some (if 1075 <=? e then sign (f + 2 ^ 52) * 2 ^ (e - 1075) else sign (f + 2 ^ 52) / 2 ^ (1075 - e))).
Proof.
  intros Hb f e; destruct (duration_fields bits Hb) as (_ & Hf & He & Ef & Ee); fold f in Hf, Ef; fold e in He, Ee.
  unfold duration_floor, sf_of_double, sf_of_bits; rewrite Ef, Ee.
  change (f_emin 52 11) with (-1074); change (52 + 11) with 63; change (2 ^ 11 - 1) with 2047; cbv zeta.
  destruct (Z.eqb_spec e 2047) as [->|He']; [by destruct (f =? 0)|].
  destruct (Z.eqb_spec e 0) as [->|He0].
  - destruct f as [|p|p] eqn:E; [|done|lia]. by destruct (Z.testbit bits 63).
  - destruct (f + 2 ^ 52) as [|p|p] eqn:E; [lia| |lia].
    replace (e + -1074 - 1) with (e - 1075) by lia; replace (- (e - 1075)) with (1075 - e) by lia.
    by replace (0 <=? e - 1075) with (1075 <=? e) by (destruct (Z.leb_spec 1075 e), (Z.leb_spec 0 (e - 1075)); lia).
Qed.

(** The integral part of a Duration in the range that is honoured. *)
Lemma mantissa_shift bits : u64_range bits → Z.testbit bits 63 = false →
  MU_PUBLISHING_INTERVAL_MIN_BITS ≤ bits ≤ MU_PUBLISHING_INTERVAL_MAX_BITS →
  let f := bits mod 2 ^ 52 in let e := (bits / 2 ^ 52) mod 2 ^ 11 in
  1028 ≤ e ≤ 1038 ∧ publishing_interval_bits_to_ms bits = to_u32 ((f + 2 ^ 52) / 2 ^ (1075 - e)).
Proof.
  intros Hb Hs Hr f e; destruct (duration_fields bits Hb) as (Eb & Hf & He & Ef & Ee); fold f in Eb, Hf, Ef; fold e in Eb, He, Ee.
  unfold MU_PUBLISHING_INTERVAL_MIN_BITS, MU_PUBLISHING_INTERVAL_MAX_BITS in Hr; rewrite Hs in Eb.
  assert (1028 ≤ e ≤ 1038) by lia; split; [done|].
  unfold publishing_interval_bits_to_ms, MU_PUBLISHING_INTERVAL_MIN_BITS, MU_PUBLISHING_INTERVAL_MAX_BITS.
  rewrite sign_of_bits, Hs, (proj2 (Z.ltb_ge _ _)), (proj2 (Z.ltb_ge _ _)) by lia; cbn [orb].
  change 0x7FF with (2 ^ 11 - 1); change 0x000FFFFFFFFFFFFF with (2 ^ 52 - 1); rewrite Ef, Ee; cbv zeta.
  rewrite (to_unsigned_id 32 e), (to_unsigned_id 32 (e - 1023)) by (ranges; lia).
  rewrite (proj2 (Z.leb_gt _ _)) by lia; do 2 f_equal.
  rewrite Z.shiftr_div_pow2, Z.shiftl_1_l by lia; f_equal; [|f_equal; lia].
  rewrite Z.lor_comm, <- Z.add_lor_land; cut (Z.land f (2 ^ 52) = 0); [lia|].
  apply Z.bits_inj'; intros n Hn; rewrite Z.land_spec, Z.pow2_bits_eqb, Z.bits_0 by lia.
  destruct (Z.eqb_spec 52 n) as [<-|]; [|apply andb_false_r].
  rewrite andb_true_r; apply Z.bits_above_log2; [lia|].
  destruct (Z.eq_dec f 0) as [->|]; [done|]; apply Z.log2_lt_pow2; lia.
Qed.

(** A Duration in the range has an integral part between 50 and 60000. *)
Lemma duration_scale m k lo hi : 0 ≤ k → lo * 2 ^ k ≤ m < (hi + 1) * 2 ^ k → lo ≤ m / 2 ^ k ≤ hi.
Proof.
  intros Hk Hm; assert (0 < 2 ^ k) by lia; split; [apply Z.div_le_lower_bound; lia|].
  apply Z.lt_succ_r, Z.div_lt_upper_bound; lia.
Qed.

Lemma revised_negative bits : u64_range bits → Z.testbit bits 63 = true → revised_interval bits = 50.
Proof.
  intros Hb Hs; unfold revised_interval; pose proof (duration_floor_fields bits Hb) as ->; cbv zeta; rewrite Hs.
  destruct (duration_fields bits Hb) as (_ & Hf & He & _).
  set (f := bits mod 2 ^ 52) in *; set (e := (bits / 2 ^ 52) mod 2 ^ 11) in *.
  assert (Hdiv : ∀ m k, 0 ≤ m → 0 ≤ k → - m / 2 ^ k ≤ 0) by (intros m k ? ?; apply Z.div_le_upper_bound; [|nia]; lia).
  unfold MU_MIN_PUBLISHING_INTERVAL_MS, MU_MAX_PUBLISHING_INTERVAL_MS; cbn [cond_Zopp].
  repeat split_if; try done; apply Z.max_l.
  - specialize (Hdiv f 1074); lia.
  - pose proof (Z.pow_nonneg 2 (e - 1075)); nia.
  - specialize (Hdiv (f + 2 ^ 52) (1075 - e)); lia.
Qed.

Lemma revised_small bits : u64_range bits → Z.testbit bits 63 = false → bits < MU_PUBLISHING_INTERVAL_MIN_BITS →
  revised_interval bits = 50.
Proof.
  intros Hb Hs Hlo; unfold revised_interval; pose proof (duration_floor_fields bits Hb) as ->; cbv zeta; rewrite Hs.
  destruct (duration_fields bits Hb) as (Eb & Hf & He & _); rewrite Hs in Eb.
  set (f := bits mod 2 ^ 52) in *; set (e := (bits / 2 ^ 52) mod 2 ^ 11) in *.
  unfold MU_PUBLISHING_INTERVAL_MIN_BITS, MU_MIN_PUBLISHING_INTERVAL_MS, MU_MAX_PUBLISHING_INTERVAL_MS in *; cbn [cond_Zopp].
  repeat split_if; bool_hyps; try lia; apply Z.max_l.
  - rewrite Z.div_small; [lia|]; assert (2 ^ 52 < 2 ^ 1074) by (by apply Z.pow_lt_mono_r); lia.
  - assert (Hk : 1075 - e = 47 ∨ 2 ^ 48 ≤ 2 ^ (1075 - e)).
    { destruct (Z.eq_dec (1075 - e) 47); [by left|right; apply Z.pow_le_mono_r; [done|]; lia]. }
    assert (0 ≤ (f + 2 ^ 52) / 2 ^ (1075 - e) ≤ 49); [|lia].
    apply duration_scale; [lia|]; destruct Hk as [Hk|Hk]; [rewrite Hk|]; lia.
Qed.

Lemma revised_large bits : u64_range bits → Z.testbit bits 63 = false → MU_PUBLISHING_INTERVAL_MAX_BITS < bits →
  revised_interval bits = 60000.
Proof.
  intros Hb Hs Hhi; unfold revised_interval; pose proof (duration_floor_fields bits Hb) as ->; cbv zeta; rewrite Hs.
  destruct (duration_fields bits Hb) as (Eb & Hf & He & _); rewrite Hs in Eb.
  set (f := bits mod 2 ^ 52) in *; set (e := (bits / 2 ^ 52) mod 2 ^ 11) in *.
  unfold MU_PUBLISHING_INTERVAL_MAX_BITS, MU_MIN_PUBLISHING_INTERVAL_MS, MU_MAX_PUBLISHING_INTERVAL_MS in *; cbn [cond_Zopp].
  repeat split_if; bool_hyps; [done|exfalso; lia| |].
  - assert (0 < 2 ^ (e - 1075)) by (apply Z.pow_pos_nonneg; lia); nia.
  - assert (Hk : 1075 - e = 37 ∨ 2 ^ (1075 - e) ≤ 2 ^ 36).
    { destruct (Z.eq_dec (1075 - e) 37); [by left|right; apply Z.pow_le_mono_r; lia]. }
    assert (60000 ≤ (f + 2 ^ 52) / 2 ^ (1075 - e)); [|lia].
    apply Z.div_le_lower_bound; [lia|destruct Hk as [Hk|Hk]; [rewrite Hk|]; lia].
Qed.

Lemma interval_revised bits : u64_range bits → publishing_interval_bits_to_ms bits = revised_interval bits.
Proof.
  intros Hb; destruct (Z.testbit bits 63) eqn:Hs.
  { by rewrite revised_negative by done; unfold publishing_interval_bits_to_ms; rewrite sign_of_bits, Hs. }
  destruct (Z.lt_ge_cases bits MU_PUBLISHING_INTERVAL_MIN_BITS) as [Hlo|Hlo].
  { rewrite revised_small by done; unfold publishing_interval_bits_to_ms.
    by rewrite (proj2 (Z.ltb_lt _ _)), orb_true_r. }
  destruct (Z.lt_ge_cases MU_PUBLISHING_INTERVAL_MAX_BITS bits) as [Hhi|Hhi].
  { rewrite revised_large by done; unfold publishing_interval_bits_to_ms.
    by rewrite sign_of_bits, Hs, (proj2 (Z.ltb_ge _ _)), (proj2 (Z.ltb_lt _ _)). }
  destruct (mantissa_shift bits Hb Hs (conj Hlo Hhi)) as [He ->]; unfold revised_interval.
  pose proof (duration_floor_fields bits Hb) as ->; cbv zeta; rewrite Hs.
  destruct (duration_fields bits Hb) as (Eb & Hf & _); rewrite Hs in Eb.
  set (f := bits mod 2 ^ 52) in *; set (e := (bits / 2 ^ 52) mod 2 ^ 11) in *; cbn [cond_Zopp].
  unfold MU_PUBLISHING_INTERVAL_MIN_BITS, MU_PUBLISHING_INTERVAL_MAX_BITS in *.
  assert (Hd : 50 ≤ (f + 2 ^ 52) / 2 ^ (1075 - e) ≤ 60000).
  { apply duration_scale; [lia|].
    assert (Hk : 2 ^ (1075 - e) ≤ 2 ^ 46 ∨ e = 1028 ∧ 2 ^ (1075 - e) = 2 ^ 47) by
      (destruct (Z.eq_dec e 1028) as [->|]; [by right|left; apply Z.pow_le_mono_r; lia]).
    assert (Hk' : 2 ^ 38 ≤ 2 ^ (1075 - e) ∨ e = 1038 ∧ 2 ^ (1075 - e) = 2 ^ 37) by
      (destruct (Z.eq_dec e 1038) as [->|]; [by right|left; apply Z.pow_le_mono_r; lia]).
    lia. }
  rewrite to_unsigned_id by (split; [lia|]; apply Z.le_lt_trans with 60000; [lia|done]).
  rewrite (proj2 (Z.eqb_neq _ _)), (proj2 (Z.eqb_neq _ _)), (proj2 (Z.leb_gt _ _)) by lia.
  unfold MU_MIN_PUBLISHING_INTERVAL_MS, MU_MAX_PUBLISHING_INTERVAL_MS; lia.
Qed.

(** The double with these bits is the integer [n], exactly. *)
Definition double_is (bits n : Z) : Prop :=
  match sf_of_double bits with
  | S754_zero _ => n = 0
  | S754_finite s m x => x ≤ 0 ∧ cond_Zopp s (Zpos m) = n * 2 ^ (- x)
  | _ => False
  end.

Lemma leading_bit_log2 fuel value k : 0 < value < 2 ^ (Z.of_nat fuel + 1) → leading_bit fuel value k = k + Z.log2 value.
Proof.
  revert value k; induction fuel as [|fuel IH]; intros value k Hv; cbn [leading_bit].
  { change (2 ^ (Z.of_nat 0 + 1)) with 2 in Hv; replace value with 1 by lia; cbn; lia. }
  rewrite Z.shiftr_div_pow2 by lia; change (2 ^ 1) with 2; pose proof (Z.div_mod value 2 ltac:(lia)) as Hd;
    pose proof (Z.mod_pos_bound value 2 ltac:(lia)); destruct (Z.eqb_spec (value / 2) 0); cbn [negb].
  - assert (value = 1) as -> by (destruct Hv as [Hv _]; lia); cbn; lia.
  - rewrite IH by (replace (Z.of_nat (S fuel) + 1) with (1 + (Z.of_nat fuel + 1)) in Hv by lia;
                   rewrite Z.pow_add_r in Hv by lia; lia).
    rewrite <- Z.shiftr_div_pow2 with (n := 1), Z.log2_shiftr by lia.
    pose proof (Z.log2_le_mono 2 value); change (Z.log2 2) with 1 in *; lia.
Qed.

(** The bit pattern reported for an interval, by its fields. *)
Lemma ms_to_bits_fields ms : 0 < ms < 2 ^ 32 →
  publishing_interval_ms_to_bits ms =
    (Z.log2 ms + 1023) * 2 ^ 52 + (ms - 2 ^ Z.log2 ms) * 2 ^ (52 - Z.log2 ms) ∧
  0 ≤ Z.log2 ms < 32 ∧ 0 ≤ (ms - 2 ^ Z.log2 ms) * 2 ^ (52 - Z.log2 ms) < 2 ^ 52.
Proof.
  intros Hms; pose proof (Z.log2_spec ms ltac:(lia)) as Hl; rewrite Z.pow_succ_r in Hl by apply Z.log2_nonneg.
  assert (Hk : 0 ≤ Z.log2 ms < 32) by (split; [apply Z.log2_nonneg|apply Z.log2_lt_pow2; lia]).
  set (k := Z.log2 ms) in *; assert (Hf : 0 ≤ (ms - 2 ^ k) * 2 ^ (52 - k) < 2 ^ 52).
  { replace (2 ^ 52) with (2 ^ k * 2 ^ (52 - k)) by (rewrite <- Z.pow_add_r by lia; f_equal; lia).
    assert (0 < 2 ^ (52 - k)) by (apply Z.pow_pos_nonneg; lia); nia. }
  split; [|done]; unfold publishing_interval_ms_to_bits; rewrite leading_bit_log2 by (cbn; lia); rewrite Z.add_0_l; fold k; cbv zeta.
  rewrite Z.shiftl_1_l, (to_unsigned_id 64 (ms - _)), (Z.shiftl_mul_pow2 (ms - _)) by lia.
  rewrite (to_unsigned_id 64 (_ * _)), Z.lor_comm, to_unsigned_id by (rewrite ?Z.shiftl_mul_pow2; lia).
  rewrite lor_shiftl_add by lia; lia.
Qed.

Lemma interval_answer ms : 0 < ms < 2 ^ 32 → double_is (publishing_interval_ms_to_bits ms) ms.
Proof.
  intros Hms; destruct (ms_to_bits_fields ms Hms) as (E & Hk & Hf).
  set (k := Z.log2 ms) in *; set (f := (ms - 2 ^ k) * 2 ^ (52 - k)) in *; set (bits := publishing_interval_ms_to_bits ms) in *.
  assert (Hb : u64_range bits) by (ranges; lia).
  destruct (duration_fields bits Hb) as (E' & Hf' & He' & Ef & Ee).
  assert (Hs : Z.testbit bits 63 = false) by (destruct (Z.testbit bits 63); [exfalso; lia|done]); clear E' Hf' He'.
  replace (bits mod 2 ^ 52) with f in Ef by (rewrite E, (Z.add_comm _ f), Z.mod_add, Z.mod_small; lia).
  replace ((bits / 2 ^ 52) mod 2 ^ 11) with (k + 1023) in Ee
    by (rewrite E, (Z.add_comm _ f), Z.div_add, Z.div_small, Z.mod_small; lia).
  unfold double_is, sf_of_double, sf_of_bits; rewrite Ef, Ee; change (52 + 11) with 63; rewrite Hs.
  rewrite (proj2 (Z.eqb_neq _ _)), (proj2 (Z.eqb_neq _ _)) by lia.
  destruct (f + 2 ^ 52) as [|p|p] eqn:Ep; [lia| |lia]; change (f_emin 52 11) with (-1074); split; [lia|].
  cbn [cond_Zopp]; rewrite <- Ep; replace (- (k + 1023 + -1074 - 1)) with (52 - k) by lia; unfold f.
  replace (2 ^ 52) with (2 ^ k * 2 ^ (52 - k)) by (rewrite <- Z.pow_add_r by lia; f_equal; lia); lia.
Qed.

Lemma double_is_floor bits n : double_is bits n → duration_floor bits = Some n.
Proof.
  unfold double_is, duration_floor; destruct (sf_of_double bits) as [s|s| |s m x]; [by intros ->|done..|].
  intros [Hx ->]; destruct (Z.leb_spec 0 x) as [|Hlt]; [replace x with 0 by lia; f_equal; cbn; lia|].
  by rewrite Z.div_mul by lia.
Qed.

Lemma interval_stable ms : MU_MIN_PUBLISHING_INTERVAL_MS ≤ ms ≤ MU_MAX_PUBLISHING_INTERVAL_MS →
  publishing_interval_bits_to_ms (publishing_interval_ms_to_bits ms) = ms.
Proof.
  unfold MU_MIN_PUBLISHING_INTERVAL_MS, MU_MAX_PUBLISHING_INTERVAL_MS; intros Hms.
  destruct (ms_to_bits_fields ms ltac:(lia)) as (E & Hk & Hf).
  rewrite interval_revised by (ranges; lia); unfold revised_interval.
  rewrite (double_is_floor _ _ (interval_answer ms ltac:(lia))).
  unfold MU_MIN_PUBLISHING_INTERVAL_MS, MU_MAX_PUBLISHING_INTERVAL_MS; lia.
Qed.

(** C37: Interval revision. For every 64-bit pattern a client can send as the
    requested publishing (or sampling) interval, negative values, infinities
    and NaNs included, the revised interval is the integral part of the
    requested IEEE 754 double clamped to [50, 60000] milliseconds; the double
    reported back in the response is exactly that number, and requesting the
    reported interval again yields the same interval. *)
Theorem publishing_interval_revised bits : u64_range bits →
  let ms := publishing_interval_bits_to_ms bits in
  ms = revised_interval bits ∧ MU_MIN_PUBLISHING_INTERVAL_MS ≤ ms ≤ MU_MAX_PUBLISHING_INTERVAL_MS ∧
  double_is (publishing_interval_ms_to_bits ms) ms ∧
  publishing_interval_bits_to_ms (publishing_interval_ms_to_bits ms) = ms.
Proof.
  intros Hb ms; assert (Hr : MU_MIN_PUBLISHING_INTERVAL_MS ≤ ms ≤ MU_MAX_PUBLISHING_INTERVAL_MS).
  { unfold ms; rewrite interval_revised by done; unfold revised_interval, MU_MIN_PUBLISHING_INTERVAL_MS, MU_MAX_PUBLISHING_INTERVAL_MS.
    destruct (duration_floor bits); [lia|]; destruct (Z.testbit bits 63); lia. }
  split; [by apply interval_revised|]; split; [done|split; [|by apply interval_stable]].
  apply interval_answer; revert Hr; unfold MU_MIN_PUBLISHING_INTERVAL_MS, MU_MAX_PUBLISHING_INTERVAL_MS; lia.
Qed.

(** A request for 100.75 ms, and one for an infinite interval. *)
Lemma publishing_interval_revised_witness :
  publishing_interval_bits_to_ms 0x4059300000000000 = 100 ∧ publishing_interval_bits_to_ms 0x7ff0000000000000 = 60000 ∧
  double_is (publishing_interval_ms_to_bits 100) 100.
Proof.
  split_and!; [by vm_compute..|].
  exact (proj1 (proj2 (proj2 (publishing_interval_revised 0x4059300000000000 ltac:(split; by vm_compute))))).
Defined.

(** ** Subscriptions as a finite map *)

Section ownership.
  Context {caps : BuildCaps} {Hcaps : BuildCapsOk caps}.

Definition session_of (s : mu_subscription_t) : Z := sub_session_id (sub_identity s).

(** The abstract state: which session owns which subscription. *)
Definition owners (e : mu_subscriptions_t) : gmap Z Z :=
  list_to_map ((λ s, (sub_key s, session_of s)) <$> filter (λ s, sub_live s = true) (subs_subscriptions e)).

(** The specification of creation: a fresh identifier is bound, unless all
    slots are taken. *)
Definition create_spec (m : gmap Z Z) (session : Z) (x : result Z) (m' : gmap Z Z) : Prop :=
  match x with
  | Ok id => 0 < id < 4294967296 ∧ m !! id = None ∧ m' = <[id := session]> m
  | Err status => status = MU_STATUS_BAD_TOOMANYSUBSCRIPTIONS ∧ Z.of_nat (size m) = MU_MAX_SUBSCRIPTIONS ∧ m' = m
  | Fault => False
  end.

(** The specification of deletion: only the owner can delete. *)
Definition delete_spec (m : gmap Z Z) (session id : Z) (x : result unit) (m' : gmap Z Z) : Prop :=
  match x with
  | Ok _ => m !! id = Some session ∧ m' = delete id m
  | Err status => status = MU_STATUS_BAD_SUBSCRIPTIONIDINVALID ∧ m !! id ≠ Some session ∧ m' = m
  | Fault => False
  end.

(** What the caller of [mu_subscription_create] is given: the identifier in
    the slot. *)
Definition created_id (x : result nat * mu_subscriptions_t) : result Z :=
  match x.1 with
  | Ok slot => match subs_subscriptions x.2 !! slot with Some s => Ok (sub_key s) | None => Fault end
  | Err status => Err status
  | Fault => Fault
  end.

Lemma owners_lookup e id session : NoDup (sub_ids e) →
  owners e !! id = Some session ↔
  ∃ i s, subs_subscriptions e !! i = Some s ∧ owned_by session id s.
Proof.
  intros Hnd; unfold owners; rewrite <- elem_of_list_to_map.
  - rewrite list_elem_of_fmap; split.
    + intros (s & [= -> ->] & [Hl [i Hi]%list_elem_of_lookup]%list_elem_of_filter); exists i, s; by split_and!.
    + intros (i & s & Hi & Hl & <- & <-); exists s; split; [done|].
      apply list_elem_of_filter; split; [done|by eapply list_elem_of_lookup_2].
  - rewrite <- list_fmap_compose; exact Hnd.
Qed.

Lemma owned_unique e i j s s' : NoDup (sub_ids e) → subs_subscriptions e !! i = Some s → subs_subscriptions e !! j = Some s' →
  sub_live s = true → sub_live s' = true → sub_key s = sub_key s' → i = j.
Proof.
  unfold sub_ids; revert i j; induction (subs_subscriptions e) as [|x l IH]; intros i j Hnd Hi Hj Hs Hs' E; [done|].
  rewrite keys_cons in Hnd; apply NoDup_app in Hnd as (_ & Hdis & Hnd).
  assert (Hhead : ∀ k y, l !! k = Some y → sub_live x = true → sub_live y = true → sub_key x = sub_key y → False).
  { intros k y Hk Hx Hy Exy; apply (Hdis (sub_key x)); [unfold key_of; rewrite Hx; by left|].
    apply elem_of_keys; exists y; split; [by eapply list_elem_of_lookup_2|done]. }
  destruct i as [|i], j as [|j]; cbn in Hi, Hj; [done|..]; simplify_eq.
  - exfalso; by eapply Hhead.
  - exfalso; by eapply Hhead.
  - f_equal; by apply IH.
Qed.

(** A slot of the array was overwritten. *)
Lemma owners_insert e e' i s : NoDup (sub_ids e) → NoDup (sub_ids e') →
  (i < length (subs_subscriptions e))%nat →
  subs_subscriptions e' = <[i := s]> (subs_subscriptions e) → (∀ old, subs_subscriptions e !! i = Some old → sub_live old = false) →
  sub_live s = true → owners e' = <[sub_key s := session_of s]> (owners e).
Proof.
  intros Hn Hn' Hi E Hold Hs; apply map_eq; intros id; apply option_eq; intros session.
  rewrite owners_lookup, lookup_insert_Some, owners_lookup, E by done; split.
  - intros (j & x & Hj & Hx); apply list_lookup_insert_Some in Hj as [(<- & <- & _)|[Hne Hj]].
    + left; by destruct Hx as (_ & <- & <-).
    + right; split; [|by exists j, x]; intros Hid; apply Hne.
      eapply (owned_unique e' i j s x); try done; [rewrite E; by apply list_lookup_insert_eq|rewrite E; by rewrite list_lookup_insert_ne|by destruct Hx|].
      destruct Hx as (_ & _ & Hk); unfold sub_key in *; congruence.
  - intros [[<- <-]|[Hne (j & x & Hj & Hx)]].
    + exists i, s; split; [by apply list_lookup_insert_eq|done].
    + exists j, x; split; [|done]; rewrite list_lookup_insert_ne; [done|]; intros <-; specialize (Hold _ Hj).
      destruct Hx as [Hx _]; unfold sub_live in Hold; congruence.
Qed.

Lemma owners_delete e e' i s x : NoDup (sub_ids e) → NoDup (sub_ids e') → subs_subscriptions e !! i = Some s →
  sub_live s = true → subs_subscriptions e' = <[i := x]> (subs_subscriptions e) → sub_live x = false →
  owners e' = delete (sub_key s) (owners e).
Proof.
  intros Hn Hn' Hi Hs E Hx; apply map_eq; intros id; apply option_eq; intros session.
  rewrite owners_lookup, lookup_delete_Some, owners_lookup, E by done; split.
  - intros (j & y & Hj & Hy); apply list_lookup_insert_Some in Hj as [(<- & <- & _)|[Hne Hj]].
    + destruct Hy as [Hy _]; unfold sub_live in Hx; congruence.
    + split; [|by exists j, y]; intros Hid; apply Hne; eapply (owned_unique e i j s y); try done; [by destruct Hy|].
      destruct Hy as (_ & _ & Hk); unfold sub_key in *; congruence.
  - intros [Hne (j & y & Hj & Hy)]; exists j, y; split; [|done]; rewrite list_lookup_insert_ne; [done|]; intros <-.
    simplify_eq; apply Hne; by destruct Hy as (_ & _ & <-).
Qed.

Lemma owners_size e : NoDup (sub_ids e) → Z.of_nat (size (owners e)) = zlen (sub_ids e).
Proof.
  intros Hn; unfold owners, zlen, sub_ids, keys; f_equal.
  rewrite map_size_list_to_map, !length_fmap; [done|]; rewrite <- list_fmap_compose; exact Hn.
Qed.

Lemma find_owner e session id : NoDup (sub_ids e) →
  (∃ x, mu_subscription_find e session id = Some x) ↔ owners e !! id = Some session.
Proof.
  intros Hn; rewrite owners_lookup by done; unfold mu_subscription_find; split.
  - intros [[i s] (Hi & Hs & _)%list_find_Some]; by exists i, s.
  - intros (i & s & Hi & Hs); apply (list_find_elem_of _ _ s); [by eapply list_elem_of_lookup_2|done].
Qed.

Lemma create_refines e session interval lifetime keep_alive mx prio enabled now :
  engine_inv e → u32_range lifetime → u32_range keep_alive →
  let x := mu_subscription_create session interval lifetime keep_alive mx prio enabled now e in
  create_spec (owners e) session (created_id x) (owners x.2).
Proof.
  intros He Hl Hk x; pose proof (inv_sub_ids _ He) as [Hn _].
  pose proof (inv_sub_ids _ (create_inv e session interval lifetime keep_alive mx prio enabled now He Hl Hk)) as [Hn' _].
  pose proof (create_succeeds e session interval lifetime keep_alive mx prio enabled now He) as Hsucc.
  fold x in Hn', Hsucc; revert Hn' Hsucc; unfold x, mu_subscription_create; destruct (list_find _ _) as [[slot s0]|] eqn:Ef.
  - apply list_find_Some in Ef as (Hs0 & Hfree & _); unfold allocate_subscription_id.
    destruct (allocate_id _ _ _) as [id next] eqn:Ea.
    destruct (allocate_id_sound _ _ _ _ _ (proj1 (inv_next e He)) Ea) as (_ & Hid & Hfresh).
    destruct (Z.eqb_spec id 0) as [|Hnz]; intros Hn' Hsucc.
    { destruct Hsucc as [? ?]; [exists s0; split; [by eapply list_elem_of_lookup_2|done]|done]. }
    set (s := set_sub_state _ _) in *.
    assert (Ekey : sub_identity s = mk_sub_identity true id session).
    { unfold s, mu_subscription_apply_parameters; by destruct (revise_subscription_counts _ _). }
    pose proof (lookup_lt_Some _ _ _ Hs0) as Hlt.
    unfold created_id; cbn [fst snd set_sub set_subscriptions subs_subscriptions].
    rewrite list_lookup_insert_eq by done; cbn [create_spec]; unfold sub_key at 1 2 3 4; rewrite Ekey; cbn [sub_subscription_id].
    split; [ranges; lia|]; specialize (Hfresh Hnz); split.
    + apply eq_None_not_Some; intros [ss Hss]; apply owners_lookup in Hss as (i & y & Hi & Hy & _ & Ey); [|done].
      cut (subscription_id_in_use e id = true); [unfold subscription_id_in_use in *; congruence|].
      apply existsb_exists; exists y; split; [apply list_elem_of_In; by eapply list_elem_of_lookup_2|].
      by rewrite Hy, Ey, Z.eqb_refl.
    + erewrite owners_insert with (i := slot) (s := s); [|exact Hn|exact Hn'|done|reflexivity| |]; unfold sub_key, session_of, sub_live; rewrite ?Ekey; [done| |done].
      intros old Hold; congruence.
  - intros _ _; unfold created_id; cbn; split; [done|]; split; [|done]; rewrite owners_size by done.
    rewrite <- (inv_subs_size e He); unfold sub_ids, keys, zlen; rewrite length_fmap; f_equal.
    apply list_find_None in Ef; induction Ef as [|s l Hs _ IH]; [done|]; rewrite filter_cons, decide_True; [cbn; by rewrite IH|].
    by apply not_false_iff_true.
Qed.

Lemma delete_refines e session id : engine_inv e →
  let x := mu_subscription_delete session id e in
  delete_spec (owners e) session id x.1 (owners x.2) ∧
  (x.1 = Ok tt → (id ∉ item_owners x.2) ∧
     (∀ it, it ∈ subs_monitored_items e → item_owner it ≠ id → it ∈ subs_monitored_items x.2)).
Proof.
  intros He x; pose proof (inv_sub_ids _ He) as [Hn _].
  pose proof (inv_sub_ids _ (delete_inv e session id He)) as [Hn' _]; fold x in Hn'; revert Hn'.
  pose proof (find_owner e session id Hn) as Hfind.
  unfold x, mu_subscription_delete; destruct (mu_subscription_find e session id) as [[i s]|] eqn:Ef; intros Hn'.
  - pose proof (subscription_find_Some _ _ _ _ _ Ef) as (Hs & Hlive & _ & Hid).
    rewrite delete_items_spec in * by (rewrite (inv_active e He); apply zlen_nonneg); cbn [fst snd] in *.
    split; [split; [by apply Hfind; eexists|]|intros _; split].
    + rewrite <- Hid; change (sub_subscription_id (sub_identity s)) with (sub_key s) in *.
      by eapply owners_delete; [|exact Hn'|..].
    + intros Hin; by apply erase_owners in Hin as [? _].
    + intros it Hit Hne; cbn [subs_monitored_items]; apply list_elem_of_fmap; exists it; split; [|done].
      unfold erase, item_of; unfold item_owner in Hne; rewrite (proj2 (Z.eqb_neq _ _)) by done; by rewrite andb_false_r.
  - cbn; split; [|done]; split; [done|]; split; [|done]; rewrite <- Hfind; by intros [? ?].
Qed.

(** C19: The subscription table refines a finite map from subscription
    identifiers to owning sessions. From every well-formed engine, creation
    binds a fresh, non-zero 32-bit identifier to the calling session, and fails
    with Bad_TooManySubscriptions exactly when every slot is taken, leaving the
    map as it was; deletion removes the binding exactly when the caller owns the
    subscription, fails with Bad_SubscriptionIdInvalid otherwise, removes every
    MonitoredItem of the subscription and keeps every item of the others. *)
Theorem subscriptions_refine_map e session interval lifetime keep_alive mx prio enabled now id :
  engine_inv e → u32_range lifetime → u32_range keep_alive →
  (let x := mu_subscription_create session interval lifetime keep_alive mx prio enabled now e in
   create_spec (owners e) session (created_id x) (owners x.2) ∧ engine_inv x.2) ∧
  (let x := mu_subscription_delete session id e in
   delete_spec (owners e) session id x.1 (owners x.2) ∧ engine_inv x.2 ∧
   (x.1 = Ok tt → (id ∉ item_owners x.2) ∧
      (∀ it, it ∈ subs_monitored_items e → item_owner it ≠ id → it ∈ subs_monitored_items x.2))).
Proof.
  intros He Hl Hk; split; [split; [by apply create_refines|by apply create_inv]|].
  destruct (delete_refines e session id He); split_and!; [done|by apply delete_inv|done].
Qed.
End ownership.

(** Creation on an empty engine, and the deletion of a subscription by another
    session. *)
Lemma subscriptions_refine_map_witness :
  let e := @mu_subscriptions_init embedded_caps in
  let x := @mu_subscription_create embedded_caps 7 100 30 10 0 0 true 0 e in
  created_id x = Ok 1 ∧ (@mu_subscription_delete embedded_caps 8 1 x.2).1 = Err MU_STATUS_BAD_SUBSCRIPTIONIDINVALID ∧
  owners x.2 !! 1 = Some 7.
Proof.
  intros e x; split_and!; [by vm_compute..|].
  destruct (subscriptions_refine_map (caps := embedded_caps) e 7 100 30 10 0 0 true 0 1) as [[Hc _] _];
    [apply init_inv|split; by vm_compute..|].
  fold x in Hc; replace (created_id x) with (Ok 1 : result Z) in Hc by (by vm_compute).
  destruct Hc as (_ & _ & ->); apply lookup_insert_eq.
Defined.

(** ** Retransmission *)

Section retransmission.
  Context {profile : BaseProfile} {pub : PublishProfile} {caps : BuildCaps} {Hcaps : BuildCapsOk caps}.
  Context {Out : Type} {emitter : Emitter Out}.

(** The NotificationMessage inside a built response. *)
Definition notification (message : Z * Z * Z * list Z) : list Z :=
  let '(_, message_start, message_end, body) := message in ztake (message_end - message_start) (zdrop message_start body).

Lemma report_sent_retains items s report_count seq time message items' s' :
  sub_ok s → message_ok message → report_sent items s report_count seq time message = Some (items', s') →
  sub_identity s' = sub_identity s ∧ items' = clear_reported_items items s report_count ∧
  sub_sequence_number (sub_state s') = next_sequence_number (sub_sequence_number (sub_state s)) ∧
  sub_keep_alive_counter (sub_state s') = 0 ∧
  (let rs := sub_retransmit (sub_state s') in
   if MU_RETRANSMIT_BYTES <? zlen (notification message) then rs_valid rs = false
   else rs_valid rs = true ∧ rs_sequence_number rs = seq ∧ ztake (rs_message_len rs) (rs_message rs) = notification message).
Proof.
  intros [(Hm & _ & _) _] Hok E; destruct message as [[[bl ms] me] body]; destruct Hok as (H1 & H2 & H3 & Hb).
  unfold report_sent in E; revert E; set (s1 := if 0 <? event_count s then _ else s).
  assert (Hs1 : sub_identity s1 = sub_identity s ∧ sub_retransmit (sub_state s1) = sub_retransmit (sub_state s) ∧
                sub_sequence_number (sub_state s1) = sub_sequence_number (sub_state s)) by (unfold s1; by split_if).
  destruct Hs1 as (Ei & Er & Eq).
  rewrite (proj2 (Z.leb_le ms me)), (proj2 (Z.leb_le me bl)) by lia; cbn [andb].
  rewrite mem_load_Some by lia; cbn [mbind option_bind notification].
  set (bytes := ztake _ _); unfold store_retransmit; cbn [sub_state set_counters set_sub_state sub_retransmit]; rewrite Er.
  destruct (Z.ltb_spec MU_RETRANSMIT_BYTES (zlen bytes)); cbn [mbind option_bind].
  - intros [= <- <-]; cbn; by rewrite Eq.
  - pose proof (zlen_nonneg bytes); rewrite mem_store_Some by lia; cbn [mbind option_bind]; intros [= <- <-]; cbn.
    rewrite Eq; split_and!; try done; apply ztake_app.
Qed.

(** Replacing a subscription by another with the same identity. *)
Lemma find_replaced e i s0 s items : NoDup (sub_ids e) → subs_subscriptions e !! i = Some s0 → sub_live s0 = true →
  sub_identity s = sub_identity s0 →
  mu_subscription_find (with_sub e i s items) (session_of s0) (sub_key s0) = Some (i, s).
Proof.
  intros Hn Hi Hlive E; apply list_find_Some; pose proof (lookup_lt_Some _ _ _ Hi).
  cbn [subs_subscriptions with_sub set_items set_sub set_subscriptions]; split_and!.
  - by apply list_lookup_insert_eq.
  - unfold owned_by; rewrite E; by split_and!.
  - intros j y Hj Hlt (Hy & _ & Hk); rewrite list_lookup_insert_ne in Hj by lia.
    assert (j = i) by (eapply (owned_unique e); eauto); lia.
Qed.

Lemma find_set_sub e i s s' session id : mu_subscription_find e session id = Some (i, s) → sub_identity s' = sub_identity s →
  mu_subscription_find (set_sub e i s') session id = Some (i, s').
Proof.
  unfold mu_subscription_find; intros (Hi & Ho & Hfirst)%list_find_Some E; apply list_find_Some; cbn.
  pose proof (lookup_lt_Some _ _ _ Hi); split_and!; [by apply list_lookup_insert_eq|unfold owned_by; by rewrite E|].
  intros j y Hj Hlt; rewrite list_lookup_insert_ne in Hj by lia; by eapply Hfirst.
Qed.

(** A retained message is republished until it is acknowledged, then never. *)
Definition republished_until_acknowledged (e : mu_subscriptions_t) (session id seq : Z) (message : list Z) : Prop :=
  mu_subscription_republish e session id seq = Ok message ∧
  (∀ seq', seq' ≠ seq → mu_subscription_republish e session id seq' = Err MU_STATUS_BAD_MESSAGENOTAVAILABLE ∧
     mu_subscription_acknowledge session id seq' e = (Err MU_STATUS_BAD_SEQUENCENUMBERUNKNOWN, e)) ∧
  ∃ e', mu_subscription_acknowledge session id seq e = (Ok tt, e') ∧
    (∀ seq', mu_subscription_republish e' session id seq' = Err MU_STATUS_BAD_MESSAGENOTAVAILABLE ∧
       mu_subscription_acknowledge session id seq' e' = (Err MU_STATUS_BAD_SEQUENCENUMBERUNKNOWN, e')).

Lemma retained_republished e i s session id seq message : mu_subscription_find e session id = Some (i, s) →
  let rs := sub_retransmit (sub_state s) in
  rs_valid rs = true → rs_sequence_number rs = seq → ztake (rs_message_len rs) (rs_message rs) = message →
  republished_until_acknowledged e session id seq message.
Proof.
  intros Hf rs Hv Hseq Hm; unfold republished_until_acknowledged, mu_subscription_republish, mu_subscription_acknowledge.
  rewrite Hf; fold rs; rewrite Hv, Hseq, Z.eqb_refl, Hm; cbn [andb]; split_and!; [done|..].
  - intros seq' Hne; by rewrite (proj2 (Z.eqb_neq seq seq')) by done.
  - eexists; split; [done|]; intros seq'; by rewrite (find_set_sub _ _ _ _ _ _ Hf).
Qed.

End retransmission.

(** An engine with one subscription of session 7 and a parked request. *)
Definition demo_parked : mu_subscriptions_t :=
  (@mu_publish_request_enqueue embedded_caps 7 5 99 0
     (@mu_subscription_create embedded_caps 7 100 30 3 0 0 true 0 (@mu_subscriptions_init embedded_caps)).2).2.

Definition demo_subscription : mu_subscription_t :=
  match subs_subscriptions demo_parked !! 0%nat with Some s => s | None => @zero_subscription embedded_caps end.

Lemma demo_parked_good : engine_good (caps := embedded_caps) demo_parked.
Proof.
  pose proof (create_good (caps := embedded_caps) 7 100 30 3 0 0 true 0) as Hc.
  pose proof (enqueue_good (caps := embedded_caps) 7 5 99 0) as Hq.
  apply Hq, Hc; [split; by vm_compute..|apply init_good].
Qed.


(** ** Keep-alive messages *)

Section keep_alive.
  Context {profile : BaseProfile} {pub : PublishProfile} {caps : BuildCaps} {Hcaps : BuildCapsOk caps}.
  Context {Out : Type} {emitter : Emitter Out}.

(** Nothing to report: publishing is off, or there are neither items nor
    events. *)
Definition quiet (items : list mu_monitored_item_t) (s : mu_subscription_t) : Prop :=
  sub_publishing_enabled (sub_state s) = false ∨
  event_count s = 0 ∧ Forall (λ it, monitored_item_in_subscription it s = false) items.

Lemma mapM_id {A} (f : A → option A) l : Forall (λ x, f x = Some x) l → mapM f l = Some l.
Proof. induction 1 as [|x l E _ IH]; cbn; [done|]; rewrite E; cbn; by rewrite IH. Qed.

Lemma quiet_uncounted items s (selected : mu_monitored_item_t → bool) mx count :
  Forall (λ it, monitored_item_in_subscription it s = false) items →
  (∀ it, monitored_item_in_subscription it s = false → selected it = false) → count_items selected mx items count = (true, count).
Proof. intros H Hsel; induction H as [|it items Hit _ IH]; cbn; [done|]; by rewrite Hsel. Qed.

Lemma quiet_count items s : Forall (λ it, monitored_item_in_subscription it s = false) items →
  (count_reportable_items items s).1 = 0.
Proof.
  intros Hnone; unfold count_reportable_items; split_if.
  - rewrite !(quiet_uncounted _ s); [done|done| |done|].
    + intros it Hit; unfold monitored_item_reports_by_trigger; by rewrite Hit.
    + intros it Hit; unfold monitored_item_reportable; unfold monitored_item_in_subscription in Hit; by rewrite Hit.
  - cbn [fst]; induction Hnone as [|it items Hit _ IH]; [done|]; rewrite filter_cons, decide_False; [apply IH|].
    unfold monitored_item_reportable; unfold monitored_item_in_subscription in Hit; by rewrite Hit.
Qed.

Lemma collect_quiet now items s : quiet items s →
  ∃ more resend, collect now items s = Some (items, set_flags s more resend, 0, false).
Proof.
  unfold collect; intros [->|[Hev Hnone]].
  { exists (sub_more_notifications (sub_state s)), (sub_resend_data_pending (sub_state s)).
    unfold set_flags, set_sub_state; by destruct s as [? ? []]. }
  destruct (sub_publishing_enabled (sub_state s)) eqn:Epe.
  2:{ exists (sub_more_notifications (sub_state s)), (sub_resend_data_pending (sub_state s)).
      unfold set_flags, set_sub_state; by destruct s as [? ? []]. }
  assert (Hitems : (if MUC_OPCUA_SUBSCRIPTIONS_STANDARD
    then items ← prepare_reportable_queues items s; enqueue_resend_data now items s else Some items) = Some items).
  { split_if; [|done]; unfold prepare_reportable_queues.
    rewrite mapM_id by (eapply Forall_impl; [exact Hnone|]; intros it Hit; unfold prepare_item; by rewrite Hit).
    cbn [mbind option_bind]; unfold enqueue_resend_data; split_if; [done|].
    apply mapM_id; eapply Forall_impl; [exact Hnone|]; intros it Hit; unfold resend_item; by rewrite Hit. }
  rewrite Hitems; cbn [mbind option_bind]; set (s1 := if MUC_OPCUA_SUBSCRIPTIONS_STANDARD then _ else s).
  assert (Hs1 : ∃ more resend, s1 = set_flags s more resend).
  { unfold s1; split_if; [by eexists _, _|].
    exists (sub_more_notifications (sub_state s)), (sub_resend_data_pending (sub_state s)).
    unfold set_flags, set_sub_state; by destruct s as [? ? []]. }
  destruct Hs1 as (more & resend & ->).
  pose proof (quiet_count items (set_flags s more resend) Hnone) as Hcount.
  destruct (count_reportable_items items (set_flags s more resend)) as [rc m]; cbn [fst] in Hcount; subst rc.
  exists m, resend; cbn [sub_state set_flags set_sub_state sub_resend_data_pending].
  unfold event_count in *; cbn in *; rewrite Hev; done.
Qed.

Lemma quiet_flags items s more resend : quiet items s → quiet items (set_flags s more resend).
Proof. done. Qed.

(** A poll of a due, quiet subscription only serves the keep-alive counter. *)
Lemma publish_one_quiet time now now_ms sessions conns i e out s conn :
  subs_subscriptions e !! i = Some s → sub_live s = true → sub_next_publish_ms (sub_state s) ≤ now_ms →
  resolve_connection sessions conns s = Some conn → quiet (subs_monitored_items e) s →
  ∃ more resend, publish_one time now now_ms sessions conns i e out =
    ('(s', items, e', out') ← publish_keep_alive (publish_time_now time now) conn i (set_flags s more resend)
                               (subs_monitored_items e) e out;
     Some (with_sub e' i (advance_publish_timer s' now_ms) items, out')).
Proof.
  intros Hi Hlive Hdue Hconn Hq; unfold publish_one; rewrite Hi; cbn [mbind option_bind]; rewrite Hlive; cbn [negb orb].
  rewrite (proj2 (Z.ltb_ge _ _)) by done; rewrite Hconn.
  destruct (collect_quiet now _ _ Hq) as (more & resend & ->); by exists more, resend.
Qed.

(** Polls of one subscription. *)
Fixpoint publish_polls (time : mu_time_adapter_t) (sessions : list mu_session_t) (conns : list (bool * Z)) (i : nat)
    (polls : list (Z * Z)) (e : mu_subscriptions_t) (out : Out) : option (mu_subscriptions_t * Out) :=
  match polls with
  | [] => Some (e, out)
  | (now, now_ms) :: polls =>
      '(e, out) ← publish_one time now now_ms sessions conns i e out;
      publish_polls time sessions conns i polls e out
  end.

(** Each poll comes when the timer has expired. *)
Fixpoint all_due (next interval : Z) (polls : list (Z * Z)) : Prop :=
  match polls with
  | [] => True
  | (_, now_ms) :: polls => next ≤ now_ms ∧ all_due (next_publish_time next interval now_ms) interval polls
  end.

(** A poll below the limit counts and sends nothing. *)
Lemma poll_counts time now now_ms sessions conns i e out s conn :
  engine_good e → subs_subscriptions e !! i = Some s → sub_live s = true → sub_next_publish_ms (sub_state s) ≤ now_ms →
  resolve_connection sessions conns s = Some conn → quiet (subs_monitored_items e) s →
  0 ≤ sub_keep_alive_counter (sub_state s) → sub_keep_alive_counter (sub_state s) + 1 < sub_max_keep_alive_count (sub_parameters s) →
  ∃ s', publish_one time now now_ms sessions conns i e out = Some (with_sub e i s' (subs_monitored_items e), out) ∧
    sub_step s s' ∧ quiet (subs_monitored_items e) s' ∧
    sub_keep_alive_counter (sub_state s') = sub_keep_alive_counter (sub_state s) + 1 ∧
    sub_sequence_number (sub_state s') = sub_sequence_number (sub_state s) ∧
    sub_next_publish_ms (sub_state s') =
      next_publish_time (sub_next_publish_ms (sub_state s)) (sub_publishing_interval_ms (sub_parameters s)) now_ms.
Proof.
  intros He Hi Hlive Hdue Hconn Hq H0 Hlt.
  pose proof (Forall_lookup_1 _ _ _ _ (inv_subs_ok e (eg_inv e He)) Hi) as Hok.
  pose proof (Forall_lookup_1 _ _ _ _ (eg_events e He) Hi) as Hev; assert (Hs : sub_good s) by (by split).
  destruct (publish_one_quiet time now now_ms sessions conns i e out s conn Hi Hlive Hdue Hconn Hq) as (more & resend & ->).
  pose proof Hok as [_ Hl]; specialize (Hl Hlive); unfold publish_keep_alive.
  cbn [sub_state set_flags set_sub_state sub_keep_alive_counter sub_parameters set_counters sub_sequence_number].
  rewrite to_unsigned_id by lia; rewrite (proj2 (Z.leb_gt _ _)) by lia; cbn [mbind option_bind].
  eexists; split; [reflexivity|]; split_and!; try done.
Qed.

(** The poll that reaches the limit sends the keep-alive message. *)
Lemma poll_fires time now now_ms sessions conns i e out s conn request rest :
  engine_good e → subs_subscriptions e !! i = Some s → sub_live s = true → sub_next_publish_ms (sub_state s) ≤ now_ms →
  resolve_connection sessions conns s = Some conn → quiet (subs_monitored_items e) s →
  0 ≤ sub_keep_alive_counter (sub_state s) → sub_keep_alive_counter (sub_state s) + 1 = sub_max_keep_alive_count (sub_parameters s) →
  publish_request_dequeue e (session_of s) = (Some request, rest) →
  ∃ s' status faulted message out',
    publish_one time now now_ms sessions conns i e out = Some (with_sub rest i s' (subs_monitored_items e), out') ∧
    (∃ s1, sub_step s s1 ∧ transmit (subs_monitored_items e) s1 request (current_sequence_number s) false 0
       (publish_time_now time now) conn out = Some (status, faulted, message, out')) ∧
    sub_identity s' = sub_identity s ∧
    (status = MU_STATUS_GOOD → faulted = false → sub_keep_alive_counter (sub_state s') = 0) ∧
    sub_sequence_number (sub_state s') = current_sequence_number s.
Proof.
  intros He Hi Hlive Hdue Hconn Hq H0 Hlt Hd.
  pose proof (Forall_lookup_1 _ _ _ _ (inv_subs_ok e (eg_inv e He)) Hi) as Hok.
  pose proof (Forall_lookup_1 _ _ _ _ (eg_events e He) Hi) as Hev; assert (Hs : sub_good s) by (by split).
  pose proof (dequeue_good e (session_of s) He) as Hdg; rewrite Hd in Hdg; destruct Hdg as (_ & _ & _ & Hreq).
  destruct (publish_one_quiet time now now_ms sessions conns i e out s conn Hi Hlive Hdue Hconn Hq) as (more & resend & ->).
  pose proof Hok as [_ Hl]; specialize (Hl Hlive); unfold publish_keep_alive.
  cbn [sub_state set_flags set_sub_state sub_keep_alive_counter sub_parameters sub_identity set_counters sub_sequence_number].
  rewrite to_unsigned_id by lia; rewrite (proj2 (Z.leb_le _ _)) by lia.
  change (sub_session_id (sub_identity s)) with (session_of s); rewrite Hd.
  match goal with |- context [transmit _ ?s' _ ?seq] => set (s1 := s'); change seq with (current_sequence_number s) end.
  destruct (transmit_total (subs_monitored_items e) s1 request (current_sequence_number s) false 0 (publish_time_now time now) conn out
    (eg_items e He) Hev (Hreq request eq_refl)) as (status & faulted & message & out' & Et & _); rewrite Et; cbn [mbind option_bind].
  assert (H1 : sub_step s s1).
  { pose proof (current_sequence_range s Hs Hlive); split; [done..| |exact Hev]; split; [apply Hok|]; intros _.
    change (sub_sequence_number (sub_state s1)) with (current_sequence_number s); change (sub_parameters s1) with (sub_parameters s); lia. }
  destruct ((status =? MU_STATUS_GOOD) && negb faulted) eqn:Esent; cbn [mbind option_bind].
  - eexists _, status, faulted, message, out'; split; [reflexivity|]; split; [exists s1; by split|].
    split_and!; [reflexivity|intros _ _; reflexivity|reflexivity].
  - eexists _, status, faulted, message, out'; split; [reflexivity|]; split; [exists s1; by split|].
    split_and!; [reflexivity|intros -> ->; discriminate Esent|reflexivity].
Qed.

(** C17: Keep-alive liveness. A live subscription that has nothing to report and
    a parked Publish request of its session is served: however its polls are
    spaced, as long as each comes after the timer expired, the polls before the
    [max_keep_alive_count]-th leave the transport and the request alone, and
    exactly that poll takes the oldest parked request and answers it with a
    keep-alive message carrying the next sequence number, which is not consumed;
    when it is sent the counter starts over. *)
Theorem keep_alive_eventually time sessions conns conn i s polls e out request rest :
  engine_good e → subs_subscriptions e !! i = Some s → sub_live s = true → quiet (subs_monitored_items e) s →
  resolve_connection sessions conns s = Some conn →
  publish_request_dequeue e (session_of s) = (Some request, rest) →
  0 ≤ sub_keep_alive_counter (sub_state s) →
  sub_keep_alive_counter (sub_state s) + zlen polls = sub_max_keep_alive_count (sub_parameters s) → polls ≠ [] →
  all_due (sub_next_publish_ms (sub_state s)) (sub_publishing_interval_ms (sub_parameters s)) polls →
  (∀ k, (k < length polls)%nat → ∃ e', publish_polls time sessions conns i (take k polls) e out = Some (e', out) ∧
     subs_publish_queue e' = subs_publish_queue e) ∧
  ∃ e' s' s1 status faulted message out' publish_time,
    publish_polls time sessions conns i polls e out = Some (e', out') ∧
    transmit (subs_monitored_items e) s1 request (current_sequence_number s) false 0 publish_time conn out
      = Some (status, faulted, message, out') ∧ sub_step s s1 ∧
    subs_publish_queue e' = subs_publish_queue rest ∧ subs_subscriptions e' !! i = Some s' ∧
    sub_sequence_number (sub_state s') = current_sequence_number s ∧
    (status = MU_STATUS_GOOD → faulted = false → sub_keep_alive_counter (sub_state s') = 0).
Proof.
  revert e s rest; induction polls as [|[now now_ms] polls IH]; intros e s rest He Hi Hlive Hq Hconn Hd H0 Hn Hne Hall; [done|].
  destruct Hall as [Hdue Hall].
  pose proof (lookup_lt_Some _ _ _ Hi) as Hlt; destruct (decide (polls = [])) as [->|Hmore].
  - split; [intros [|k] ?; [by eexists|cbn in *; lia]|]; cbn [publish_polls].
    rewrite zlen_cons in Hn; change (zlen (@nil (Z * Z))) with 0 in Hn.
    destruct (poll_fires time now now_ms sessions conns i e out s conn request rest He Hi Hlive Hdue Hconn Hq H0 Hn Hd) as
      (s' & status & faulted & message & out' & -> & (s1 & H1 & Et) & Eid & Hreset & Eseq).
    cbn [mbind option_bind]; pose proof (dequeue_good e (session_of s) He) as Hdg; rewrite Hd in Hdg; destruct Hdg as (_ & Es & _).
    eexists _, s', s1, status, faulted, message, out', _; split; [done|]; split; [exact Et|].
    split; [exact H1|]; split; [reflexivity|]; split; [cbn; rewrite Es; by apply list_lookup_insert_eq|by split].
  - rewrite zlen_cons in Hn; assert (1 ≤ zlen polls) by (destruct polls; [done|rewrite zlen_cons; pose proof (zlen_nonneg polls); lia]).
    destruct (poll_counts time now now_ms sessions conns i e out s conn He Hi Hlive Hdue Hconn Hq H0 ltac:(lia))
      as (s1 & E1 & Hstep & Hq1 & Ek & Eseq & En).
    pose proof Hstep as [Eid Epar _ _].
    assert (He1 : engine_good (with_sub e i s1 (subs_monitored_items e))).
    { apply (with_sub_good _ _ s); [done..|]; apply items_step_refl, He. }
    destruct (IH (with_sub e i s1 (subs_monitored_items e)) s1 (with_sub rest i s1 (subs_monitored_items e))) as [Hbefore Hafter].
    + exact He1.
    + by apply list_lookup_insert_eq.
    + unfold sub_live; by rewrite Eid.
    + exact Hq1.
    + by rewrite <- Hconn; unfold resolve_connection; rewrite Eid.
    + unfold session_of; rewrite Eid; fold (session_of s); revert Hd; unfold publish_request_dequeue; cbn.
      destruct (oldest_request _ _ _ _) as [[j r]|]; [|done]; by intros [= <- <-].
    + lia.
    + rewrite Ek, Epar; lia.
    + exact Hmore.
    + rewrite En, Epar; exact Hall.
    + split.
      * intros [|k] Hk; [by eexists|]; cbn [take publish_polls]; rewrite E1; cbn [mbind option_bind]; apply Hbefore; cbn in Hk; lia.
      * cbn [publish_polls]; rewrite E1; cbn [mbind option_bind].
        destruct Hafter as (e' & s' & s2 & status & faulted & message & out' & pt & Ep & Et & H2 & Eq & Es & Esq & Hreset).
        assert (Ecur : current_sequence_number s1 = current_sequence_number s) by (unfold current_sequence_number; by rewrite Eseq).
        rewrite Ecur in *; exists e', s', s2, status, faulted, message, out', pt.
        split; [exact Ep|]; split; [exact Et|]; split; [exact (sub_step_trans _ _ _ Hstep H2)|].
        exact (conj Eq (conj Es (conj Esq Hreset))).
Qed.
End keep_alive.

(** Three polls of the demo subscription, whose keep-alive count is 3: only the
    last one sends. *)
Lemma keep_alive_eventually_witness :
  ∃ e' out', @publish_polls embedded_profile demo_pub embedded_caps _ collecting (mk_time_adapter None) [] [] 0
      [(0, 100); (0, 250); (0, 300)] demo_parked [] = Some (e', out') ∧ length out' = 1%nat.
Proof.
  destruct (keep_alive_eventually (profile := embedded_profile) (pub := demo_pub) (caps := embedded_caps) (emitter := collecting)
    (mk_time_adapter None) [] [] None 0 demo_subscription [(0, 100); (0, 250); (0, 300)] demo_parked []
    (mk_publish_request true 7 99 5 0 0 (pr_ack_results (@zero_publish_request embedded_caps)))
    (@publish_request_dequeue embedded_caps demo_parked 7).2)
    as (_ & e' & s' & s1 & status & faulted & message & out' & pt & E & _);
    [exact demo_parked_good|vm_compute; reflexivity..| |vm_compute; reflexivity|vm_compute; reflexivity|vm_compute; discriminate
    |vm_compute; reflexivity|discriminate|vm_compute; split_and!; discriminate || done|].
  - right; split; [vm_compute; reflexivity|]; vm_compute; repeat constructor.
  - exists e', out'; split; [exact E|]; revert E; vm_compute; intros [= _ <-]; reflexivity.
Defined.
