(* ===== verification/NodeManagement.v ===== *)
(** * NodeManagement service

    [src/services/node_management.c] and its handlers in
    [src/core/service_dispatch.c]: a bounded table of nodes and references that
    clients add and delete. The strings of an entry live in rows of fixed
    storage arrays; the model keeps the arrays and the pointers into them, so
    that moving an entry and sharing a row are visible. *)

From stdpp Require Export functions.
From S2P Require Export HandlerLogic.

Definition MU_OBJECTATTRIBUTES_ENCODING_DEFAULTBINARY_ID : Z := 354.
Definition MU_NODEATTRIBUTES_DISPLAYNAME_BIT : Z := Z.shiftl 1 6.

(** ** Requests *)

Record mu_add_nodes_item_t := mk_add_nodes_item {
  an_parent_node_id : mu_nodeid_t;
  an_reference_type_id : mu_nodeid_t;
  an_requested_new_node_id : mu_expanded_nodeid_t;
  an_browse_name : mu_qualified_name_t;
  an_node_class : Z;
  an_node_attributes_type_id : mu_nodeid_t;
  an_node_attributes_len : Z;
  an_node_attributes : option (list Z);
  an_type_definition : mu_expanded_nodeid_t
}.

Record mu_add_references_item_t := mk_add_references_item {
  ar_source_node_id : mu_nodeid_t;
  ar_reference_type_id : mu_nodeid_t;
  ar_is_forward : bool;
  ar_target_server_uri : mu_string_t;
  ar_target_node_id : mu_expanded_nodeid_t;
  ar_target_node_class : Z
}.

Record mu_delete_nodes_item_t := mk_delete_nodes_item {
  dn_node_id : mu_nodeid_t;
  dn_delete_target_references : bool
}.

Record mu_delete_references_item_t := mk_delete_references_item {
  dr_item_source_node_id : mu_nodeid_t;
  dr_item_reference_type_id : mu_nodeid_t;
  dr_item_is_forward : bool;
  dr_item_target_node_id : mu_expanded_nodeid_t;
  dr_item_delete_bidirectional : bool
}.

(** The count of a request array, at most [max_items]. *)
Definition read_item_count (max_items : Z) : Rd Z :=
  count ← mu_binary_read_int32;
  if count <? 0 then mret 0
  else if max_items <? count then fail MU_STATUS_BAD_TOOMANYOPERATIONS
  else mret count.

(** [b ? true : false] for an octet. *)
Definition read_flag : Rd bool := b ← mu_binary_read_byte; mret (negb (b =? 0)).

(** The attributes of a node: the octets of the ExtensionObject's body. *)
Definition read_node_attributes (length : Z) : Rd (option (list Z)) :=
  if 0 <? length then
    r ← get_state;
    if (r_length r <? r_position r) || (r_length r - r_position r <? length)
    then reader_fail MU_STATUS_BAD_DECODINGERROR
    else
      bytes ← lift_option (b ← r_buffer r; mem_load b (r_position r) length);
      put_state (set_r_position r (to_size (r_position r + length)));;
      mret (Some bytes)
  else mret None.

Definition read_add_nodes_item : Rd mu_add_nodes_item_t :=
  parent_node_id ← mu_binary_read_nodeid;
  reference_type_id ← mu_binary_read_nodeid;
  requested_new_node_id ← mu_binary_read_expanded_nodeid;
  browse_name ← mu_binary_read_qualified_name;
  node_class ← mu_binary_read_uint32;
  '(node_attributes_type_id, node_attributes_len) ← mu_binary_read_extension_object_header;
  node_attributes ← read_node_attributes node_attributes_len;
  type_definition ← mu_binary_read_expanded_nodeid;
  mret (mk_add_nodes_item parent_node_id reference_type_id requested_new_node_id browse_name node_class
          node_attributes_type_id node_attributes_len node_attributes type_definition).

Definition mu_add_nodes_request_decode (max_items : Z) : Rd (list mu_add_nodes_item_t) :=
  count ← read_item_count max_items;
  rd_list (Z.to_nat count) read_add_nodes_item.

Definition read_add_references_item : Rd mu_add_references_item_t :=
  source_node_id ← mu_binary_read_nodeid;
  reference_type_id ← mu_binary_read_nodeid;
  is_forward ← read_flag;
  target_server_uri ← mu_binary_read_string;
  target_node_id ← mu_binary_read_expanded_nodeid;
  target_node_class ← mu_binary_read_uint32;
  mret (mk_add_references_item source_node_id reference_type_id is_forward target_server_uri target_node_id
          target_node_class).

Definition mu_add_references_request_decode (max_items : Z) : Rd (list mu_add_references_item_t) :=
  count ← read_item_count max_items;
  rd_list (Z.to_nat count) read_add_references_item.

Definition read_delete_nodes_item : Rd mu_delete_nodes_item_t :=
  node_id ← mu_binary_read_nodeid;
  delete_target_references ← read_flag;
  mret (mk_delete_nodes_item node_id delete_target_references).

Definition mu_delete_nodes_request_decode (max_items : Z) : Rd (list mu_delete_nodes_item_t) :=
  count ← read_item_count max_items;
  rd_list (Z.to_nat count) read_delete_nodes_item.

Definition read_delete_references_item : Rd mu_delete_references_item_t :=
  source_node_id ← mu_binary_read_nodeid;
  reference_type_id ← mu_binary_read_nodeid;
  is_forward ← read_flag;
  target_node_id ← mu_binary_read_expanded_nodeid;
  delete_bidirectional ← read_flag;
  mret (mk_delete_references_item source_node_id reference_type_id is_forward target_node_id delete_bidirectional).

Definition mu_delete_references_request_decode (max_items : Z) : Rd (list mu_delete_references_item_t) :=
  count ← read_item_count max_items;
  rd_list (Z.to_nat count) read_delete_references_item.

(** ** Responses *)

Definition write_add_nodes_result (result : Z * mu_nodeid_t) : Wr unit :=
  mu_binary_write_statuscode result.1;;
  mu_binary_write_nodeid result.2.

Definition mu_add_nodes_response_encode (results : list (Z * mu_nodeid_t)) : Wr unit :=
  mu_binary_write_int32 (to_i32 (zlen results));;
  wr_list write_add_nodes_result results;;
  mu_binary_write_int32 0.

(** The other three responses: one status per item. *)
Definition write_status_array (results : list Z) : Wr unit :=
  mu_binary_write_int32 (to_i32 (zlen results));;
  wr_list mu_binary_write_statuscode results;;
  mu_binary_write_int32 0.

Definition mu_add_references_response_encode (results : list Z) : Wr unit := write_status_array results.

Definition mu_delete_nodes_response_encode (results : list Z) : Wr unit := write_status_array results.

Definition mu_delete_references_response_encode (results : list Z) : Wr unit := write_status_array results.

(** The DisplayName an item carries in its ObjectAttributes, if it does. *)
Definition mu_nodeid_is_numeric0 (node_id : mu_nodeid_t) (numeric_id : Z) : bool :=
  match nid_identifier node_id with
  | MU_NODEID_NUMERIC n => (nid_namespace_index node_id =? 0) && (n =? numeric_id)
  | _ => false
  end.

Definition mu_decode_localized_text_text : Rd mu_string_t :=
  encoding_mask ← mu_binary_read_byte;
  if negb (Z.land encoding_mask (to_u8 (Z.lnot 0x03)) =? 0) then fail MU_STATUS_BAD_DECODINGERROR
  else
    (if negb (Z.land encoding_mask 0x01 =? 0) then mu_binary_read_string;; mret tt else mret tt);;
    if negb (Z.land encoding_mask 0x02 =? 0) then mu_binary_read_string else mret (mk_string (-1) None).

Definition read_display_name : Rd (option mu_string_t) :=
  specified_attributes ← mu_binary_read_uint32;
  if Z.land specified_attributes MU_NODEATTRIBUTES_DISPLAYNAME_BIT =? 0 then mret None
  else text ← mu_decode_localized_text_text; mret (Some text).

Definition mu_add_nodes_item_display_name (item : mu_add_nodes_item_t) : result (option mu_string_t) :=
  match an_node_attributes item with
  | Some attributes =>
      if an_node_attributes_len item =? 0 then Ok None
      else if negb (mu_nodeid_is_numeric0 (an_node_attributes_type_id item) MU_OBJECTATTRIBUTES_ENCODING_DEFAULTBINARY_ID)
      then Ok None
      else (read_display_name (mu_binary_reader_init (Some attributes) (an_node_attributes_len item))).1
  | None => Ok None
  end.

(** ** The dynamic address space *)

(** The storage arrays; a pointer to the start of a row. *)
Inductive storage :=
| browse_name_storage | display_name_storage | string_nodeid_storage
| reference_source_nodeid_storage | reference_type_nodeid_storage | reference_target_nodeid_storage.

#[export] Instance storage_eq_dec : EqDecision storage.
Proof. solve_decision. Defined.

Record stored_string_t := mk_stored_string { ss_length : Z; ss_row : option (storage * nat) }.

Inductive stored_identifier_t :=
| STORED_NUMERIC (numeric : Z)
| STORED_STRING (string : stored_string_t)
| STORED_OTHER (identifier : mu_nodeid_identifier_t).

Record stored_nodeid_t := mk_stored_nodeid { sn_namespace_index : Z; sn_identifier : stored_identifier_t }.

(** The fields of [mu_node_t] that the service sets; the others are zero. *)
Record stored_node_t := mk_stored_node {
  sd_node_id : stored_nodeid_t;
  sd_node_class : Z;
  sd_browse_name : stored_string_t;
  sd_display_name : stored_string_t
}.

Record stored_reference_t := mk_stored_reference {
  sr_source_node_id : stored_nodeid_t;
  sr_reference_type_id : stored_nodeid_t;
  sr_target_id : stored_nodeid_t;
  sr_is_forward : bool
}.

Record mu_dynamic_address_space_t := mk_dynamic_space {
  da_nodes : list stored_node_t;
  da_nodes_count : Z;
  da_references : list stored_reference_t;
  da_references_count : Z;
  da_storage : storage → list (list Z)
}.

Definition set_da_nodes (sp : mu_dynamic_address_space_t) (nodes : list stored_node_t) (count : Z)
    : mu_dynamic_address_space_t :=
  mk_dynamic_space nodes count (da_references sp) (da_references_count sp) (da_storage sp).

Definition set_da_references (sp : mu_dynamic_address_space_t) (refs : list stored_reference_t) (count : Z)
    : mu_dynamic_address_space_t :=
  mk_dynamic_space (da_nodes sp) (da_nodes_count sp) refs count (da_storage sp).

Definition set_da_row (sp : mu_dynamic_address_space_t) (st : storage) (i : nat) (row : list Z)
    : mu_dynamic_address_space_t :=
  mk_dynamic_space (da_nodes sp) (da_nodes_count sp) (da_references sp) (da_references_count sp)
    (<[st := <[i := row]> (da_storage sp st)]> (da_storage sp)).

(** A computation on the address space. *)
Abbreviation Sp := (M mu_dynamic_address_space_t).

(** The value a stored string denotes: the octets its pointer leads to. *)
Definition load_string (sp : mu_dynamic_address_space_t) (s : stored_string_t) : option mu_string_t :=
  match ss_row s with
  | None => Some (mk_string (ss_length s) None)
  | Some (st, i) =>
      row ← da_storage sp st !! i;
      bytes ← mem_load row 0 (ss_length s);
      Some (mk_string (ss_length s) (Some bytes))
  end.

Definition load_nodeid (sp : mu_dynamic_address_space_t) (id : stored_nodeid_t) : option mu_nodeid_t :=
  match sn_identifier id with
  | STORED_NUMERIC n => Some (mk_nodeid (sn_namespace_index id) (MU_NODEID_NUMERIC n))
  | STORED_STRING s => s ← load_string sp s; Some (mk_nodeid (sn_namespace_index id) (MU_NODEID_STRING s))
  | STORED_OTHER x => Some (mk_nodeid (sn_namespace_index id) x)
  end.

Definition mu_dynamic_string_fits (name : mu_string_t) (max_length : Z) : bool :=
  (str_length name =? -1) || ((0 <=? str_length name) && (str_length name <=? max_length)).

(** [memcpy] of octets to the start of a row. *)
Definition store_row (st : storage) (i : nat) (bytes : list Z) : Sp unit := λ sp,
  match (row ← da_storage sp st !! i; mem_store row 0 bytes) with
  | Some row => (Ok tt, set_da_row sp st i row)
  | None => (Fault, sp)
  end.

Definition mu_dynamic_string_copy (st : storage) (i : nat) (source : mu_string_t) : Sp stored_string_t :=
  if str_length source =? -1 then mret (mk_stored_string (-1) None)
  else
    (if 0 <? str_length source then
       bytes ← lift_option (d ← str_data source; mem_load d 0 (str_length source));
       store_row st i bytes
     else mret tt);;
    mret (mk_stored_string (str_length source) (Some (st, i))).

Definition mu_dynamic_nodeid_copy (st : storage) (i : nat) (source : mu_nodeid_t) : Sp stored_nodeid_t :=
  let ns := nid_namespace_index source in
  match nid_identifier source with
  | MU_NODEID_NUMERIC n => mret (mk_stored_nodeid ns (STORED_NUMERIC n))
  | MU_NODEID_STRING s => s ← mu_dynamic_string_copy st i s; mret (mk_stored_nodeid ns (STORED_STRING s))
  | x => mret (mk_stored_nodeid ns (STORED_OTHER x))
  end.

Section table.
  Context {caps : BuildCaps}.

Definition mu_dynamic_browse_name_fits (name : mu_string_t) : bool :=
  mu_dynamic_string_fits name MU_MAX_DYNAMIC_BROWSE_NAME_LENGTH.

Definition mu_dynamic_display_name_fits (name : mu_string_t) : bool :=
  mu_dynamic_string_fits name MU_MAX_DYNAMIC_DISPLAY_NAME_LENGTH.

Definition mu_dynamic_string_nodeid_fits (node_id : mu_nodeid_t) : bool :=
  match nid_identifier node_id with
  | MU_NODEID_STRING s => mu_dynamic_string_fits s MU_MAX_DYNAMIC_STRING_NODEID_LENGTH
  | _ => true
  end.

Definition mu_dynamic_reference_string_nodeid_fits (node_id : mu_nodeid_t) : bool :=
  match nid_identifier node_id with
  | MU_NODEID_STRING s => mu_dynamic_string_fits s MU_MAX_DYNAMIC_REFERENCE_STRING_NODEID_LENGTH
  | _ => true
  end.

Definition mu_dynamic_reference_nodeids_fit (item : mu_add_references_item_t) : bool :=
  mu_dynamic_reference_string_nodeid_fits (ar_source_node_id item)
  && mu_dynamic_reference_string_nodeid_fits (ar_reference_type_id item)
  && mu_dynamic_reference_string_nodeid_fits (xid_node_id (ar_target_node_id item)).

(** Fill entry [i] of the references from three NodeIds. *)
Definition store_reference (i : nat) (source type target : mu_nodeid_t) (is_forward : bool) : Sp unit :=
  source ← mu_dynamic_nodeid_copy reference_source_nodeid_storage i source;
  type ← mu_dynamic_nodeid_copy reference_type_nodeid_storage i type;
  target ← mu_dynamic_nodeid_copy reference_target_nodeid_storage i target;
  sp ← get_state;
  put_state (set_da_references sp (<[i := mk_stored_reference source type target is_forward]> (da_references sp))
               (da_references_count sp)).

Definition mu_dynamic_reference_copy (reference_index : nat) (item : mu_add_references_item_t) : Sp unit :=
  store_reference reference_index (ar_source_node_id item) (ar_reference_type_id item)
    (xid_node_id (ar_target_node_id item)) (ar_is_forward item).

Definition mu_dynamic_reference_move (dest_index source_index : nat) : Sp unit :=
  sp ← get_state;
  moved ← lift_option (da_references sp !! source_index);
  source ← lift_option (load_nodeid sp (sr_source_node_id moved));
  type ← lift_option (load_nodeid sp (sr_reference_type_id moved));
  target ← lift_option (load_nodeid sp (sr_target_id moved));
  store_reference dest_index source type target (sr_is_forward moved).

(** Copy the first [length] octets of row [source] of an array to row [dest];
    the string that denotes the copy. *)
Definition move_row (st : storage) (dest_index source_index : nat) (length : Z) : Sp stored_string_t :=
  if length =? -1 then mret (mk_stored_string length None)
  else
    (if 0 <? length then
       sp ← get_state;
       bytes ← lift_option (row ← da_storage sp st !! source_index; mem_load row 0 length);
       store_row st dest_index bytes
     else mret tt);;
    mret (mk_stored_string length (Some (st, dest_index))).

Definition mu_dynamic_node_move (dest_index source_index : nat) : Sp unit :=
  sp ← get_state;
  moved ← lift_option (da_nodes sp !! source_index);
  node_id ← match sn_identifier (sd_node_id moved) with
            | STORED_STRING s =>
                s ← move_row string_nodeid_storage dest_index source_index (ss_length s);
                mret (mk_stored_nodeid (sn_namespace_index (sd_node_id moved)) (STORED_STRING s))
            | _ => mret (sd_node_id moved)
            end;
  browse_name ← move_row browse_name_storage dest_index source_index (ss_length (sd_browse_name moved));
  display_name ← move_row display_name_storage dest_index source_index (ss_length (sd_display_name moved));
  sp ← get_state;
  put_state (set_da_nodes sp (<[dest_index := mk_stored_node node_id (sd_node_class moved) browse_name display_name]>
                                (da_nodes sp)) (da_nodes_count sp)).

(** ** Items *)

(** The NodeId of a new node; a null identifier asks for a number. *)
Definition new_node_id (requested : mu_nodeid_t) (nodes_count : Z) : mu_nodeid_t :=
  match nid_identifier requested with
  | MU_NODEID_NUMERIC n =>
      if n =? 0 then mk_nodeid 1 (MU_NODEID_NUMERIC (to_u32 (1000 + to_u32 nodes_count))) else requested
  | _ => requested
  end.

(** Append a node; its entry. *)
Definition append_node (node_id : mu_nodeid_t) (node_class : Z) (browse_name display_name : mu_string_t)
    : Sp stored_nodeid_t :=
  sp ← get_state;
  let idx := Z.to_nat (da_nodes_count sp) in
  put_state (set_da_nodes sp (da_nodes sp) (da_nodes_count sp + 1));;
  stored_id ← mu_dynamic_nodeid_copy string_nodeid_storage idx node_id;
  stored_browse_name ← mu_dynamic_string_copy browse_name_storage idx browse_name;
  stored_display_name ← mu_dynamic_string_copy display_name_storage idx display_name;
  sp ← get_state;
  if (idx <? length (da_nodes sp))%nat then
    put_state (set_da_nodes sp
      (<[idx := mk_stored_node stored_id node_class stored_browse_name stored_display_name]> (da_nodes sp))
      (da_nodes_count sp));;
    mret stored_id
  else fault.

(** One item of an AddNodes request: its status, and the new node's id when
    there is one. *)
Definition add_node (item : mu_add_nodes_item_t) : Sp (Z * option stored_nodeid_t) :=
  sp ← get_state;
  let browse_name := qn_name (an_browse_name item) in
  if an_node_class item =? 0 then mret (MU_STATUS_BAD_NODECLASSINVALID, None)
  else if MU_MAX_DYNAMIC_NODES <=? da_nodes_count sp then mret (MU_STATUS_BAD_OUTOFMEMORY, None)
  else if negb (mu_dynamic_browse_name_fits browse_name) then mret (MU_STATUS_BAD_OUTOFMEMORY, None)
  else
    match mu_add_nodes_item_display_name item with
    | Fault => fault
    | Err s => mret (s, None)
    | Ok display_name =>
        let display_name := default browse_name display_name in
        if negb (mu_dynamic_display_name_fits display_name) then mret (MU_STATUS_BAD_OUTOFMEMORY, None)
        else
          let new_id := new_node_id (xid_node_id (an_requested_new_node_id item)) (da_nodes_count sp) in
          if negb (mu_dynamic_string_nodeid_fits new_id) then mret (MU_STATUS_BAD_OUTOFMEMORY, None)
          else id ← append_node new_id (an_node_class item) browse_name display_name; mret (MU_STATUS_GOOD, Some id)
    end.

(** The first live entry that satisfies a test. *)
Fixpoint find_entry {A} (test : A → option bool) (entries : list A) (i : nat) : option (option nat) :=
  match entries with
  | [] => Some None
  | x :: entries =>
      found ← test x;
      if found : bool then Some (Some i) else find_entry test entries (S i)
  end.

Definition node_has_id (sp : mu_dynamic_address_space_t) (node_id : mu_nodeid_t) (node : stored_node_t) : option bool :=
  id ← load_nodeid sp (sd_node_id node); Some (mu_nodeid_equal id node_id).

Definition reference_touches (sp : mu_dynamic_address_space_t) (node_id : mu_nodeid_t) (r : stored_reference_t)
    : option bool :=
  source ← load_nodeid sp (sr_source_node_id r);
  target ← load_nodeid sp (sr_target_id r);
  Some (mu_nodeid_equal source node_id || mu_nodeid_equal target node_id).

(** Replace entry [j] by the last one. *)
Definition remove_node (j : nat) : Sp unit :=
  sp ← get_state;
  let last := da_nodes_count sp - 1 in
  put_state (set_da_nodes sp (da_nodes sp) last);;
  if negb (Z.of_nat j =? last) then mu_dynamic_node_move j (Z.to_nat last) else mret tt.

Definition remove_reference (j : nat) : Sp unit :=
  sp ← get_state;
  let last := da_references_count sp - 1 in
  put_state (set_da_references sp (da_references sp) last);;
  if negb (Z.of_nat j =? last) then mu_dynamic_reference_move j (Z.to_nat last) else mret tt.

(** The [while] loop that removes the references of a node: each turn moves the
    index up or the count down. *)
Fixpoint remove_references (fuel : nat) (node_id : mu_nodeid_t) (r_idx : nat) : Sp unit :=
  match fuel with
  | O => fault
  | S fuel =>
      sp ← get_state;
      if Z.of_nat r_idx <? da_references_count sp then
        touches ← lift_option (r ← da_references sp !! r_idx; reference_touches sp node_id r);
        if touches : bool then remove_reference r_idx;; remove_references fuel node_id r_idx
        else remove_references fuel node_id (S r_idx)
      else mret tt
  end.

Definition delete_node (item : mu_delete_nodes_item_t) : Sp Z :=
  sp ← get_state;
  found ← lift_option (nodes ← mem_load (da_nodes sp) 0 (da_nodes_count sp);
                        find_entry (node_has_id sp (dn_node_id item)) nodes 0);
  match found with
  | None => mret MU_STATUS_BAD_NODEIDUNKNOWN
  | Some j =>
      remove_node j;;
      remove_references (S (Z.to_nat (da_references_count sp))) (dn_node_id item) 0;;
      mret MU_STATUS_GOOD
  end.

Definition add_reference (item : mu_add_references_item_t) : Sp Z :=
  sp ← get_state;
  if MU_MAX_DYNAMIC_REFERENCES <=? da_references_count sp then mret MU_STATUS_BAD_OUTOFMEMORY
  else if negb (mu_dynamic_reference_nodeids_fit item) then mret MU_STATUS_BAD_OUTOFMEMORY
  else
    let idx := Z.to_nat (da_references_count sp) in
    put_state (set_da_references sp (da_references sp) (da_references_count sp + 1));;
    (if (idx <? length (da_references sp))%nat then mu_dynamic_reference_copy idx item else fault);;
    mret MU_STATUS_GOOD.

Definition reference_matches (sp : mu_dynamic_address_space_t) (item : mu_delete_references_item_t)
    (r : stored_reference_t) : option bool :=
  source ← load_nodeid sp (sr_source_node_id r);
  type ← load_nodeid sp (sr_reference_type_id r);
  target ← load_nodeid sp (sr_target_id r);
  Some (mu_nodeid_equal source (dr_item_source_node_id item)
        && mu_nodeid_equal type (dr_item_reference_type_id item)
        && mu_nodeid_equal target (xid_node_id (dr_item_target_node_id item))
        && eqb (sr_is_forward r) (dr_item_is_forward item)).

Definition delete_reference (item : mu_delete_references_item_t) : Sp Z :=
  sp ← get_state;
  found ← lift_option (references ← mem_load (da_references sp) 0 (da_references_count sp);
                        find_entry (reference_matches sp item) references 0);
  match found with
  | None => mret MU_STATUS_BAD_NOTFOUND
  | Some j => remove_reference j;; mret MU_STATUS_GOOD
  end.

(** The loop over the items. *)
Fixpoint process_items {A B} (op : A → Sp B) (items : list A) : Sp (list B) :=
  match items with
  | [] => mret []
  | item :: items => result ← op item; results ← process_items op items; mret (result :: results)
  end.
End table.

(** ** The service *)

Definition load_reference (sp : mu_dynamic_address_space_t) (r : stored_reference_t) : option mu_dynamic_reference_t :=
  source ← load_nodeid sp (sr_source_node_id r);
  type ← load_nodeid sp (sr_reference_type_id r);
  target ← load_nodeid sp (sr_target_id r);
  Some (mk_dynamic_reference source (mk_reference type target (sr_is_forward r))).

(** The references as Browse sees them. *)
Definition live_references (sp : mu_dynamic_address_space_t) : option (list mu_dynamic_reference_t) :=
  references ← mem_load (da_references sp) 0 (da_references_count sp);
  mapM (load_reference sp) references.

(** Server state that contains a dynamic address space and the switch of the
    configuration. *)
Class NodeManagementHost (Rest : Type) := {
  host_space : Rest → mu_dynamic_address_space_t;
  host_set_space : Rest → mu_dynamic_address_space_t → Rest;
  host_allow_node_management : Rest → bool
}.

Class NodeManagementHostLaws (Rest : Type) `{NodeManagementHost Rest} := {
  host_space_set x sp : host_space (host_set_space x sp) = sp;
  host_space_set_set x sp sp' : host_set_space (host_set_space x sp) sp' = host_set_space x sp';
  host_space_get x : host_set_space x (host_space x) = x;
  host_allow_set x sp : host_allow_node_management (host_set_space x sp) = host_allow_node_management x
}.

Section service.
  Context {caps : BuildCaps} {Rest : Type} {host : NodeManagementHost Rest}.

(** The server with another dynamic address space. *)
Definition set_space (s : mu_server_t Rest) (sp : mu_dynamic_address_space_t) : mu_server_t Rest :=
  mk_server (sv_secure_channel s) (sv_sessions s) (sv_active_session s) (sv_address_space s) (sv_user_index s)
    (sv_runtime_space s) (default [] (live_references sp)) (sv_write_handler s) (sv_writes s)
    (host_set_space (sv_rest s) sp).

Definition space {A} (m : Sp A) : M (mu_server_t Rest) A := λ s,
  let '(x, sp) := m (host_space (sv_rest s)) in (x, set_space s sp).

Definition node_management_allowed : H Rest unit :=
  allowed ← sv (λ s, (Ok (host_allow_node_management (sv_rest s)), s));
  if negb allowed then fail MU_STATUS_BAD_USERACCESSDENIED else mret tt.

(** The NodeIds of the results, read through their pointers. *)
Definition load_result (result : Z * option stored_nodeid_t) : Sp (Z * mu_nodeid_t) :=
  sp ← get_state;
  match result with
  | (status, None) => mret (status, mk_nodeid 0 (MU_NODEID_NUMERIC 0))
  | (status, Some id) => id ← lift_option (load_nodeid sp id); mret (status, id)
  end.

Definition mu_add_nodes_process : H Rest unit :=
  node_management_allowed;;
  items ← rd (mu_add_nodes_request_decode 8);
  results ← sv (space (process_items add_node items));
  results ← sv (space (process_items load_result results));
  wr (mu_add_nodes_response_encode results).

Definition mu_delete_nodes_process : H Rest unit :=
  node_management_allowed;;
  items ← rd (mu_delete_nodes_request_decode 8);
  results ← sv (space (process_items delete_node items));
  wr (mu_delete_nodes_response_encode results).

Definition mu_add_references_process : H Rest unit :=
  node_management_allowed;;
  items ← rd (mu_add_references_request_decode 8);
  results ← sv (space (process_items add_reference items));
  wr (mu_add_references_response_encode results).

Definition mu_delete_references_process : H Rest unit :=
  node_management_allowed;;
  items ← rd (mu_delete_references_request_decode 8);
  results ← sv (space (process_items delete_reference items));
  wr (mu_delete_references_response_encode results).

(** What the four handlers share. *)
Definition handle_with (response_type_id : Z) (process : H Rest unit) : H Rest unit :=
  req ← rd mu_request_header_decode;
  wr (write_response_prefix response_type_id (rh_request_handle req) MU_STATUS_GOOD);;
  process;;
  finish.

Definition handle_add_nodes : H Rest unit := handle_with MU_ID_ADDNODESRESPONSE mu_add_nodes_process.

Definition handle_add_references : H Rest unit := handle_with MU_ID_ADDREFERENCESRESPONSE mu_add_references_process.

Definition handle_delete_nodes : H Rest unit := handle_with MU_ID_DELETENODESRESPONSE mu_delete_nodes_process.

Definition handle_delete_references : H Rest unit :=
  handle_with MU_ID_DELETEREFERENCESRESPONSE mu_delete_references_process.
End service.

(** The zeroed address space of a new server. *)
Definition init_space `{BuildCaps} : mu_dynamic_address_space_t :=
  let id := mk_stored_nodeid 0 (STORED_NUMERIC 0) in
  let zero := mk_stored_string 0 None in
  mk_dynamic_space (replicate (Z.to_nat MU_MAX_DYNAMIC_NODES) (mk_stored_node id 0 zero zero)) 0
    (replicate (Z.to_nat MU_MAX_DYNAMIC_REFERENCES) (mk_stored_reference id id id false)) 0
    (λ st, match st with
           | browse_name_storage =>
               replicate (Z.to_nat MU_MAX_DYNAMIC_NODES) (replicate (Z.to_nat MU_MAX_DYNAMIC_BROWSE_NAME_LENGTH) 0)
           | display_name_storage =>
               replicate (Z.to_nat MU_MAX_DYNAMIC_NODES) (replicate (Z.to_nat MU_MAX_DYNAMIC_DISPLAY_NAME_LENGTH) 0)
           | string_nodeid_storage =>
               replicate (Z.to_nat MU_MAX_DYNAMIC_NODES) (replicate (Z.to_nat MU_MAX_DYNAMIC_STRING_NODEID_LENGTH) 0)
           | _ => replicate (Z.to_nat MU_MAX_DYNAMIC_REFERENCES)
                    (replicate (Z.to_nat MU_MAX_DYNAMIC_REFERENCE_STRING_NODEID_LENGTH) 0)
           end).
