(* ===== verification/NodeManagementSpec.v ===== *)
(** * Correctness of the NodeManagement service

    The table of [NodeManagement] refines a pair of lists: every live entry
    denotes the octets the client sent, whichever entries were moved or
    deleted since, and no row of the storage is shared. *)

From S2P Require Export NodeManagement.

Lemma bind_get {S A} (k : S → M S A) s : (get_state ≫= k) s = k s s.
Proof. done. Qed.

Lemma bind_put {S A} s' (k : unit → M S A) s : (put_state s' ≫= k) s = k tt s'.
Proof. done. Qed.

Lemma bind_lift {S A B} (a : A) (k : A → M S B) s : (lift_option (Some a) ≫= k) s = k a s.
Proof. done. Qed.

Section spec.
  Context {caps : BuildCaps} {Hcaps : BuildCapsOk caps}.

(** ** The invariant *)

Definition node_storage (st : storage) : bool :=
  match st with browse_name_storage | display_name_storage | string_nodeid_storage => true | _ => false end.

Definition row_count (st : storage) : Z := if node_storage st then MU_MAX_DYNAMIC_NODES else MU_MAX_DYNAMIC_REFERENCES.

Definition row_length (st : storage) : Z :=
  Z.max 0 match st with
          | browse_name_storage => MU_MAX_DYNAMIC_BROWSE_NAME_LENGTH
          | display_name_storage => MU_MAX_DYNAMIC_DISPLAY_NAME_LENGTH
          | string_nodeid_storage => MU_MAX_DYNAMIC_STRING_NODEID_LENGTH
          | _ => MU_MAX_DYNAMIC_REFERENCE_STRING_NODEID_LENGTH
          end.

Definition storage_ok (sp : mu_dynamic_address_space_t) : Prop :=
  ∀ st, zlen (da_storage sp st) = row_count st ∧
        Forall (λ row, zlen row = row_length st ∧ bytes_ok row) (da_storage sp st).

(** A string of entry [i] is null or fills the start of its own row. *)
Definition stored_ok (st : storage) (i : nat) (s : stored_string_t) : Prop :=
  s = mk_stored_string (-1) None ∨ (0 ≤ ss_length s ≤ row_length st ∧ ss_row s = Some (st, i)).

Definition stored_id_ok (st : storage) (i : nat) (id : stored_nodeid_t) : Prop :=
  u16_range (sn_namespace_index id) ∧
  match sn_identifier id with
  | STORED_NUMERIC n => u32_range n
  | STORED_STRING s => stored_ok st i s
  | STORED_OTHER _ => False
  end.

Definition node_entry_ok (i : nat) (n : stored_node_t) : Prop :=
  stored_id_ok string_nodeid_storage i (sd_node_id n) ∧ stored_ok browse_name_storage i (sd_browse_name n) ∧
  stored_ok display_name_storage i (sd_display_name n).

Definition reference_entry_ok (i : nat) (r : stored_reference_t) : Prop :=
  stored_id_ok reference_source_nodeid_storage i (sr_source_node_id r) ∧
  stored_id_ok reference_type_nodeid_storage i (sr_reference_type_id r) ∧
  stored_id_ok reference_target_nodeid_storage i (sr_target_id r).

Record space_ok (sp : mu_dynamic_address_space_t) : Prop := {
  so_storage : storage_ok sp;
  so_nodes : zlen (da_nodes sp) = MU_MAX_DYNAMIC_NODES;
  so_nodes_count : 0 ≤ da_nodes_count sp ≤ MU_MAX_DYNAMIC_NODES;
  so_references : zlen (da_references sp) = MU_MAX_DYNAMIC_REFERENCES;
  so_references_count : 0 ≤ da_references_count sp ≤ MU_MAX_DYNAMIC_REFERENCES;
  so_node i n : Z.of_nat i < da_nodes_count sp → da_nodes sp !! i = Some n → node_entry_ok i n;
  so_reference i r : Z.of_nat i < da_references_count sp → da_references sp !! i = Some r → reference_entry_ok i r
}.

(** ** Rows *)

(** [sp'] differs from [sp] in the rows that satisfy [P] only. *)
Definition rows_step (P : storage → nat → Prop) (sp sp' : mu_dynamic_address_space_t) : Prop :=
  storage_ok sp' ∧ da_nodes sp' = da_nodes sp ∧ da_nodes_count sp' = da_nodes_count sp ∧
  da_references sp' = da_references sp ∧ da_references_count sp' = da_references_count sp ∧
  ∀ st i, ¬ P st i → da_storage sp' st !! i = da_storage sp st !! i.

Lemma rows_step_refl P sp : storage_ok sp → rows_step P sp sp.
Proof. intros; by split_and!. Qed.

Lemma rows_step_trans (P Q R : storage → nat → Prop) a b c :
  rows_step P a b → rows_step Q b c → (∀ st i, P st i → R st i) → (∀ st i, Q st i → R st i) → rows_step R a c.
Proof.
  intros (_ & ? & ? & ? & ? & Rab) (? & ? & ? & ? & ? & Rbc) HP HQ; split_and!; try congruence; [done|].
  intros st i Hn; rewrite Rbc, Rab; [done|..]; eauto.
Qed.

Lemma load_string_step P sp sp' st i s : rows_step P sp sp' → stored_ok st i s → ¬ P st i →
  load_string sp' s = load_string sp s.
Proof.
  intros (_ & _ & _ & _ & _ & H) Hs Hn; unfold load_string; destruct Hs as [->|[_ ->]]; [done|]; by rewrite H.
Qed.

Lemma load_nodeid_step P sp sp' st i id : rows_step P sp sp' → stored_id_ok st i id → ¬ P st i →
  load_nodeid sp' id = load_nodeid sp id.
Proof.
  intros Hstep [_ Hid] Hn; unfold load_nodeid; destruct (sn_identifier id); [done| |done].
  by rewrite (load_string_step _ _ _ _ _ _ Hstep Hid Hn).
Qed.

(** What a valid stored string denotes. *)
Lemma load_string_ok sp st i s : storage_ok sp → stored_ok st i s → Z.of_nat i < row_count st →
  ∃ v, load_string sp s = Some v ∧ str_length v = ss_length s ∧
       (v = mk_string (-1) None ∨ ∃ d, v = mk_string (zlen d) (Some d) ∧ bytes_ok d ∧ zlen d ≤ row_length st).
Proof.
  intros Hsp Hs Hi; destruct (Hsp st) as [Hlen Hrows]; unfold load_string.
  destruct Hs as [->|[Hl ->]]; [eexists; split_and!; [done|done|by left]|].
  destruct (lookup_lt_is_Some_2 (da_storage sp st) i) as [row Hrow]; [unfold zlen in Hlen; lia|].
  rewrite Hrow; cbn [mbind option_bind]; rewrite Forall_forall in Hrows.
  destruct (Hrows row) as [Hrl Hb]; [by eapply list_elem_of_lookup_2|].
  rewrite mem_load_Some by lia; cbn [mbind option_bind]; eexists; split_and!; [done|done|right].
  exists (ztake (ss_length s) (zdrop 0 row)); rewrite zlen_ztake by (rewrite zlen_zdrop by lia; lia).
  split_and!; [done|by apply bytes_ok_ztake, bytes_ok_zdrop|lia].
Qed.

Lemma storage_ok_row sp st i row : storage_ok sp → zlen row = row_length st → bytes_ok row →
  storage_ok (set_da_row sp st i row).
Proof.
  intros Hsp Hl Hb st'; cbn; destruct (decide (st' = st)) as [->|Hne].
  - rewrite fn_lookup_insert; destruct (Hsp st) as [Hlen Hrows]; split; [unfold zlen in *; by rewrite length_insert|].
    by apply Forall_insert.
  - rewrite fn_lookup_insert_ne by done; apply Hsp.
Qed.

Lemma set_row_step sp st i row : storage_ok sp → zlen row = row_length st → bytes_ok row →
  rows_step (λ st' j, st' = st ∧ j = i) sp (set_da_row sp st i row).
Proof.
  intros Hsp Hl Hb; split_and!; [by apply storage_ok_row|done..|]; intros st' j Hn; cbn.
  destruct (decide (st' = st)) as [->|]; [|by rewrite fn_lookup_insert_ne].
  rewrite fn_lookup_insert; apply list_lookup_insert_ne; naive_solver.
Qed.

(** [memcpy] of octets that fit into a row. *)
Lemma store_row_ok sp st i bytes : storage_ok sp → Z.of_nat i < row_count st → bytes_ok bytes → zlen bytes ≤ row_length st →
  ∃ sp', store_row st i bytes sp = (Ok tt, sp') ∧ rows_step (λ st' j, st' = st ∧ j = i) sp sp' ∧
    load_string sp' (mk_stored_string (zlen bytes) (Some (st, i))) = Some (mk_string (zlen bytes) (Some bytes)).
Proof.
  intros Hsp Hi Hb Hl; pose proof (zlen_nonneg bytes); destruct (Hsp st) as [Hlen Hrows]; unfold store_row.
  destruct (lookup_lt_is_Some_2 (da_storage sp st) i) as [row Hrow]; [unfold zlen in Hlen; lia|].
  rewrite Forall_forall in Hrows; destruct (Hrows row) as [Hrl Hrb]; [by eapply list_elem_of_lookup_2|].
  rewrite Hrow; cbn [mbind option_bind]; rewrite mem_store_Some by lia.
  set (row' := ztake 0 row ++ bytes ++ zdrop (0 + zlen bytes) row).
  assert (Hl' : zlen row' = row_length st).
  { unfold row'; rewrite !zlen_app, zlen_ztake, zlen_zdrop by lia; lia. }
  eexists; split_and!; [done| |].
  - apply set_row_step; [done|done|]; unfold row'; rewrite !bytes_ok_app.
    split_and!; [by apply bytes_ok_ztake|done|by apply bytes_ok_zdrop].
  - unfold load_string; cbn; rewrite fn_lookup_insert, list_lookup_insert_eq by (unfold zlen in Hlen; lia).
    cbn [mbind option_bind]; rewrite mem_load_Some by lia; cbn [mbind option_bind].
    by change (zdrop 0 row') with row'; change row' with (bytes ++ zdrop (0 + zlen bytes) row); rewrite ztake_app.
Qed.

(** ** Strings and NodeIds *)

(** A string that carries exactly its octets. *)
Definition exact_string (s : mu_string_t) : Prop :=
  s = mk_string (-1) None ∨ ∃ d, s = mk_string (zlen d) (Some d) ∧ bytes_ok d.

Definition exact_nodeid (id : mu_nodeid_t) : Prop :=
  u16_range (nid_namespace_index id) ∧
  match nid_identifier id with
  | MU_NODEID_NUMERIC n => u32_range n
  | MU_NODEID_STRING s => exact_string s
  | _ => False
  end.

Lemma wire_exact_string s : wire_string s → exact_string s.
Proof. intros [->|(d & Hd & Hl & Hb & _)]; [by left|right; exists d]; destruct s; cbn in *; by subst. Qed.

Lemma wire_exact_nodeid id : wire_nodeid id → exact_nodeid id.
Proof. intros [? Hi]; split; [done|]; destruct (nid_identifier id); try done; by apply wire_exact_string. Qed.

(** The string of a NodeId fits a row. *)
Definition nodeid_fits (id : mu_nodeid_t) (n : Z) : Prop :=
  match nid_identifier id with MU_NODEID_STRING s => str_length s ≤ n | _ => True end.

Lemma string_fits s n : mu_dynamic_string_fits s n = true → str_length s ≤ Z.max 0 n.
Proof. unfold mu_dynamic_string_fits; intros H; bool_hyps; destruct H as [H|H]; bool_hyps; lia. Qed.

Definition row (st : storage) (i : nat) : storage → nat → Prop := λ st' j, st' = st ∧ j = i.

Lemma string_copy_ok sp st i s : storage_ok sp → Z.of_nat i < row_count st → exact_string s → str_length s ≤ row_length st →
  ∃ t sp', mu_dynamic_string_copy st i s sp = (Ok t, sp') ∧ rows_step (row st i) sp sp' ∧ stored_ok st i t ∧
    load_string sp' t = Some s.
Proof.
  intros Hsp Hi Hs Hl; unfold mu_dynamic_string_copy; destruct Hs as [->|(d & -> & Hb)].
  { eexists _, sp; split_and!; [done|by apply rows_step_refl|by left|done]. }
  cbn [str_length str_data] in *; pose proof (zlen_nonneg d); rewrite (proj2 (Z.eqb_neq _ _)) by lia.
  destruct (store_row_ok sp st i d Hsp Hi Hb Hl) as (sp' & E & Hstep & Hload).
  destruct (Z.ltb_spec 0 (zlen d)).
  - cbn [mbind option_bind]; rewrite mem_load_Some by lia; cbn [lift_option]; unfold mbind, M_bind, mret, M_ret.
    assert (ztake (zlen d) (zdrop 0 d) = d) as -> by (rewrite <- (app_nil_r d) at 2; apply ztake_app).
    rewrite E; eexists _, sp'; split_and!; [done|done|right; cbn; split; [lia|done]|done].
  - unfold mbind, M_bind, mret, M_ret; eexists _, sp; split_and!; [done|by apply rows_step_refl|right; cbn; split; [lia|done]|].
    assert (d = []) as -> by (destruct d; [done|rewrite zlen_cons in *; pose proof (zlen_nonneg d); lia]).
    destruct (load_string_ok sp st i (mk_stored_string (zlen (@nil Z)) (Some (st, i))) Hsp) as (v & Ev & Hlen & Hv);
      [right; cbn; split; [lia|done]|done|]; rewrite Ev; f_equal.
    cbn [ss_length] in Hlen; destruct Hv as [->|(d & -> & _)]; [done|]; cbn in Hlen.
    by destruct d; [|rewrite zlen_cons in Hlen; pose proof (zlen_nonneg d); change (zlen (@nil Z)) with 0 in Hlen; lia].
Qed.

Lemma nodeid_copy_ok sp st i id : storage_ok sp → Z.of_nat i < row_count st → exact_nodeid id → nodeid_fits id (row_length st) →
  ∃ t sp', mu_dynamic_nodeid_copy st i id sp = (Ok t, sp') ∧ rows_step (row st i) sp sp' ∧ stored_id_ok st i t ∧
    load_nodeid sp' t = Some id.
Proof.
  intros Hsp Hi [Hns Hid] Hfit; unfold mu_dynamic_nodeid_copy, nodeid_fits in *; destruct id as [ns [n|s| |]]; cbn in *; try done.
  - eexists _, sp; split_and!; [done|by apply rows_step_refl|by split|done].
  - destruct (string_copy_ok sp st i s Hsp Hi Hid Hfit) as (t & sp' & E & Hstep & Ht & Hload).
    rewrite (bind_ok _ _ _ _ _ E); eexists _, sp'; split_and!; [done|done|by split|].
    unfold load_nodeid; cbn; by rewrite Hload.
Qed.

(** Moving a string from one row of an array to another. *)
Lemma move_row_ok sp st dest source s : storage_ok sp → Z.of_nat dest < row_count st → Z.of_nat source < row_count st →
  stored_ok st source s →
  ∃ t sp', move_row st dest source (ss_length s) sp = (Ok t, sp') ∧ rows_step (row st dest) sp sp' ∧ stored_ok st dest t ∧
    load_string sp' t = load_string sp s.
Proof.
  intros Hsp Hd Hsrc Hs; destruct (load_string_ok sp st source s Hsp Hs Hsrc) as (v & Ev & Hlen & Hv).
  assert (Hexact : exact_string v) by (destruct Hv as [->|(d & -> & ? & ?)]; [by left|by right; exists d]).
  assert (Hfit : str_length v ≤ row_length st).
  { destruct Hv as [->|(d & -> & _ & ?)]; cbn; [unfold row_length; lia|done]. }
  destruct (string_copy_ok sp st dest v Hsp Hd Hexact Hfit) as (t & sp' & E & Hstep & Ht & Hload).
  exists t, sp'; split_and!; [|done|done|by rewrite Ev].
  rewrite <- E; unfold move_row, mu_dynamic_string_copy; rewrite Hlen.
  destruct (Z.eqb_spec (ss_length s) (-1)) as [->|Hne]; [done|].
  destruct Hs as [->|[Hl Hrow]]; [done|]; unfold load_string in Ev; rewrite Hrow in Ev.
  destruct (da_storage sp st !! source) as [r|] eqn:Er; cbn [mbind option_bind] in Ev; [|done].
  destruct (Z.ltb_spec 0 (ss_length s)); [|done]; unfold get_state, mbind, M_bind; rewrite Er; cbn [mbind option_bind].
  destruct (mem_load r 0 (ss_length s)) as [bytes|] eqn:Em; cbn [mbind option_bind] in Ev; [|done]; simplify_eq; cbn [str_data].
  cbn [mbind option_bind lift_option str_length] in *.
  assert (Hz : zlen bytes = ss_length s).
  { destruct Hv as [?|(d & [= Hd' <-] & _)]; [done|by rewrite Hd']. }
  rewrite mem_load_Some by lia; rewrite <- Hz.
  by assert (ztake (zlen bytes) (zdrop 0 bytes) = bytes) as -> by (rewrite <- (app_nil_r bytes) at 2; apply ztake_app).
Qed.

(** ** What the table denotes *)

Definition load_node (sp : mu_dynamic_address_space_t) (n : stored_node_t) : option mu_node_t :=
  id ← load_nodeid sp (sd_node_id n);
  browse_name ← load_string sp (sd_browse_name n);
  display_name ← load_string sp (sd_display_name n);
  Some (mk_node id (sd_node_class n) browse_name display_name None 0 None).

(** Entry by entry, the live nodes and references are [nodes] and [refs]. *)
Record denotes (sp : mu_dynamic_address_space_t) (nodes : list mu_node_t) (refs : list mu_dynamic_reference_t) : Prop := {
  de_nodes_count : zlen nodes = da_nodes_count sp;
  de_references_count : zlen refs = da_references_count sp;
  de_node i v : nodes !! i = Some v → ∃ n, da_nodes sp !! i = Some n ∧ load_node sp n = Some v;
  de_reference i v : refs !! i = Some v → ∃ r, da_references sp !! i = Some r ∧ load_reference sp r = Some v
}.

Lemma load_node_step P sp sp' i n : rows_step P sp sp' → node_entry_ok i n →
  (∀ st, node_storage st = true → ¬ P st i) → load_node sp' n = load_node sp n.
Proof.
  intros Hstep (H1 & H2 & H3) HP; unfold load_node.
  rewrite (load_nodeid_step _ _ _ _ _ _ Hstep H1), !(load_string_step _ _ _ _ _ _ Hstep H2),
    (load_string_step _ _ _ _ _ _ Hstep H3) by (by apply HP); done.
Qed.

Lemma load_reference_step P sp sp' i r : rows_step P sp sp' → reference_entry_ok i r →
  (∀ st, node_storage st = false → ¬ P st i) → load_reference sp' r = load_reference sp r.
Proof.
  intros Hstep (H1 & H2 & H3) HP; unfold load_reference.
  by rewrite (load_nodeid_step _ _ _ _ _ _ Hstep H1), (load_nodeid_step _ _ _ _ _ _ Hstep H2),
    (load_nodeid_step _ _ _ _ _ _ Hstep H3) by (by apply HP).
Qed.

Lemma load_node_set sp nodes count n : load_node (set_da_nodes sp nodes count) n = load_node sp n.
Proof. done. Qed.

(** The rows of node entry [i], and of reference entry [i]. *)
Definition node_rows (i : nat) : storage → nat → Prop := λ st j, node_storage st = true ∧ j = i.
Definition reference_rows (i : nat) : storage → nat → Prop := λ st j, node_storage st = false ∧ j = i.

(** Entry [idx] of the nodes was rewritten; the new table has [count]
    entries, all old ones but [idx]. *)
Lemma rewrite_node sp sp1 idx n count nodes refs v : space_ok sp → denotes sp nodes refs →
  rows_step (node_rows idx) (set_da_nodes sp (da_nodes sp) count) sp1 → node_entry_ok idx n →
  Z.of_nat idx < count ≤ MU_MAX_DYNAMIC_NODES → count ≤ da_nodes_count sp + 1 →
  (count = da_nodes_count sp + 1 → Z.of_nat idx = da_nodes_count sp) → load_node sp1 n = Some v →
  let sp2 := set_da_nodes sp1 (<[idx := n]> (da_nodes sp1)) (da_nodes_count sp1) in
  space_ok sp2 ∧ denotes sp2 (<[idx := v]> (ztake count (nodes ++ [v]))) refs.
Proof.
  intros [Hst Hns Hnc Hrs Hrc Hn Hr] [Hd1 Hd2 Hd3 Hd4] Hstep Hentry Hidx Hcount Hlast Hv sp2.
  pose proof Hstep as (Hst1 & En & Ec & Er & Erc & Hrows); cbn in En, Ec, Er, Erc.
  split; [split|split]; cbn; rewrite ?En, ?Ec, ?Er, ?Erc; try done.
  - unfold zlen in *; by rewrite length_insert.
  - lia.
  - intros i m Hi Hm; apply list_lookup_insert_Some in Hm as [(<- & <- & _)|[Hne Hm]]; [done|]; apply Hn; [|done]; lia.
  - unfold zlen; rewrite length_insert; unfold ztake; rewrite length_take, length_app; cbn; unfold zlen in Hd1; lia.
  - intros i w Hw; apply list_lookup_insert_Some in Hw as [(<- & <- & _)|[Hne Hw]].
    + exists n; split; [apply list_lookup_insert_eq; unfold zlen in Hns; lia|done].
    + apply lookup_take_Some in Hw as [Hw Hi]; rewrite lookup_app_l in Hw by (unfold zlen in Hd1; lia).
      destruct (Hd3 i w Hw) as (m & Hm & Em); exists m; rewrite list_lookup_insert_ne by done; split; [done|].
      rewrite <- Em; apply (load_node_step (node_rows idx) (set_da_nodes sp (da_nodes sp) count) sp1 i m Hstep).
      * apply Hn; [lia|done].
      * intros st _ [_ ?]; done.
  - intros i w Hw; destruct (Hd4 i w Hw) as (r & Hr' & E); exists r; split; [done|]; rewrite <- E.
    apply (load_reference_step (node_rows idx) (set_da_nodes sp (da_nodes sp) count) sp1 i r Hstep).
    + apply Hr; [|done]; apply lookup_lt_Some in Hw; unfold zlen in Hd2; lia.
    + intros st Hs [? _]; congruence.
Qed.

Lemma rewrite_reference sp sp1 idx r count nodes refs v : space_ok sp → denotes sp nodes refs →
  rows_step (reference_rows idx) (set_da_references sp (da_references sp) count) sp1 → reference_entry_ok idx r →
  Z.of_nat idx < count ≤ MU_MAX_DYNAMIC_REFERENCES → count ≤ da_references_count sp + 1 →
  (count = da_references_count sp + 1 → Z.of_nat idx = da_references_count sp) → load_reference sp1 r = Some v →
  let sp2 := set_da_references sp1 (<[idx := r]> (da_references sp1)) (da_references_count sp1) in
  space_ok sp2 ∧ denotes sp2 nodes (<[idx := v]> (ztake count (refs ++ [v]))).
Proof.
  intros [Hst Hns Hnc Hrs Hrc Hn Hr] [Hd1 Hd2 Hd3 Hd4] Hstep Hentry Hidx Hcount Hlast Hv sp2.
  pose proof Hstep as (Hst1 & En & Ec & Er & Erc & Hrows); cbn in En, Ec, Er, Erc.
  split; [split|split]; cbn; rewrite ?En, ?Ec, ?Er, ?Erc; try done.
  - unfold zlen in *; by rewrite length_insert.
  - lia.
  - intros i m Hi Hm; apply list_lookup_insert_Some in Hm as [(<- & <- & _)|[Hne Hm]]; [done|]; apply Hr; [|done]; lia.
  - unfold zlen; rewrite length_insert; unfold ztake; rewrite length_take, length_app; cbn; unfold zlen in Hd2; lia.
  - intros i w Hw; destruct (Hd3 i w Hw) as (m & Hm & E); exists m; split; [done|]; rewrite <- E.
    apply (load_node_step (reference_rows idx) (set_da_references sp (da_references sp) count) sp1 i m Hstep).
    + apply Hn; [|done]; apply lookup_lt_Some in Hw; unfold zlen in Hd1; lia.
    + intros st Hs [? _]; congruence.
  - intros i w Hw; apply list_lookup_insert_Some in Hw as [(<- & <- & _)|[Hne Hw]].
    + exists r; split; [apply list_lookup_insert_eq; unfold zlen in Hrs; lia|done].
    + apply lookup_take_Some in Hw as [Hw Hi]; rewrite lookup_app_l in Hw by (unfold zlen in Hd2; lia).
      destruct (Hd4 i w Hw) as (m & Hm & Em); exists m; rewrite list_lookup_insert_ne by done; split; [done|].
      rewrite <- Em; apply (load_reference_step (reference_rows idx) (set_da_references sp (da_references sp) count) sp1 i m Hstep).
      * apply Hr; [lia|done].
      * intros st _ [_ ?]; done.
Qed.

(** ** Adding and removing entries *)

Lemma insert_last {A} (l : list A) v : <[length l := v]> (ztake (zlen l + 1) (l ++ [v])) = l ++ [v].
Proof.
  unfold ztake, zlen; rewrite take_ge by (rewrite length_app; cbn; lia).
  rewrite insert_app_r_alt by lia; by rewrite Nat.sub_diag.
Qed.

(** Overwriting an entry with the last one and dropping the last. *)
Lemma swap_remove_perm {A} (l : list A) j v x : (S j < length l)%nat → l !! j = Some x → l !! pred (length l) = Some v →
  <[j := v]> (ztake (zlen l - 1) (l ++ [v])) ≡ₚ delete j l.
Proof.
  intros Hj Hx Hv; unfold ztake, zlen; replace (Z.to_nat (Z.of_nat (length l) - 1)) with (pred (length l)) by lia.
  rewrite take_app_le by lia; induction l as [|w l' _] using rev_ind; [done|].
  rewrite length_app in *; cbn [length] in *; replace (pred (length l' + 1)) with (length l') in * by lia.
  rewrite take_app_length; rewrite list_lookup_middle in Hv by done; simplify_eq.
  rewrite lookup_app_l in Hx by lia; rewrite delete_take_drop, take_app_le, drop_app_le by lia.
  rewrite insert_take_drop by lia; rewrite app_assoc, <- Permutation_cons_append.
  symmetry; apply Permutation_middle.
Qed.

Lemma delete_last_take {A} (l : list A) j : S j = length l → ztake (zlen l - 1) l = delete j l.
Proof.
  intros Hj; unfold ztake, zlen; rewrite delete_take_drop, <- Hj, drop_ge, app_nil_r by lia; f_equal; lia.
Qed.

Lemma append_node_ok sp nodes refs id class bn dn : space_ok sp → denotes sp nodes refs →
  da_nodes_count sp < MU_MAX_DYNAMIC_NODES → exact_nodeid id → nodeid_fits id (row_length string_nodeid_storage) →
  exact_string bn → str_length bn ≤ row_length browse_name_storage →
  exact_string dn → str_length dn ≤ row_length display_name_storage →
  ∃ t sp', append_node id class bn dn sp = (Ok t, sp') ∧ space_ok sp' ∧
    denotes sp' (nodes ++ [mk_node id class bn dn None 0 None]) refs ∧
    stored_id_ok string_nodeid_storage (length nodes) t ∧ load_nodeid sp' t = Some id.
Proof.
  intros Hsp Hden Hc Hid Hidf Hbn Hbnf Hdn Hdnf; unfold append_node.
  pose proof (de_nodes_count _ _ _ Hden) as Hlen; pose proof (so_nodes_count sp Hsp); pose proof (so_nodes sp Hsp).
  set (idx := Z.to_nat (da_nodes_count sp)); assert (Eidx : idx = length nodes) by (unfold idx, zlen in *; lia).
  set (sp0 := set_da_nodes sp (da_nodes sp) (da_nodes_count sp + 1)); assert (Hst0 : storage_ok sp0) by apply Hsp.
  assert (Hrow : ∀ st, node_storage st = true → Z.of_nat idx < row_count st) by (intros st Hs; unfold row_count; rewrite Hs; lia).
  destruct (nodeid_copy_ok sp0 string_nodeid_storage idx id Hst0 ltac:(by apply Hrow) Hid Hidf) as (t1 & sp1 & E1 & S1 & T1 & L1).
  destruct (string_copy_ok sp1 browse_name_storage idx bn (proj1 S1) ltac:(by apply Hrow) Hbn Hbnf) as (t2 & sp2 & E2 & S2 & T2 & L2).
  destruct (string_copy_ok sp2 display_name_storage idx dn (proj1 S2) ltac:(by apply Hrow) Hdn Hdnf) as (t3 & sp3 & E3 & S3 & T3 & L3).
  rewrite bind_get; cbv zeta; fold idx; rewrite bind_put; fold sp0.
  rewrite (bind_ok _ _ _ _ _ E1), (bind_ok _ _ _ _ _ E2), (bind_ok _ _ _ _ _ E3), bind_get.
  assert (S13 : rows_step (node_rows idx) sp0 sp3).
  { eapply (rows_step_trans (node_rows idx)); [eapply rows_step_trans; [exact S1|exact S2|..]|exact S3|done|];
      by intros st j [-> ->]. }
  assert (L1' : load_nodeid sp3 t1 = Some id).
  { rewrite (load_nodeid_step _ _ _ _ _ _ S3 T1), (load_nodeid_step _ _ _ _ _ _ S2 T1) by (by intros [? _]); done. }
  assert (L2' : load_string sp3 t2 = Some bn) by (by rewrite (load_string_step _ _ _ _ _ _ S3 T2) by (by intros [? _])).
  pose proof S13 as (_ & En & Ec & _); cbn in En, Ec.
  rewrite (proj2 (Nat.ltb_lt _ _)) by (rewrite En; unfold zlen in *; lia).
  destruct (rewrite_node sp sp3 idx (mk_stored_node t1 class t2 t3) (da_nodes_count sp + 1) nodes refs
    (mk_node id class bn dn None 0 None)) as [Hok Hd]; [done|done|exact S13|by split_and!|lia|lia|lia| |].
  { unfold load_node; cbn [sd_node_id sd_browse_name sd_display_name sd_node_class]; by rewrite L1', L2', L3. }
  eexists _, _; split; [done|]; split; [exact Hok|]; split; [|split; [by rewrite <- Eidx|exact L1']].
  rewrite Eidx, <- Hlen, insert_last in Hd; rewrite Eidx; exact Hd.
Qed.

(** A live entry is valid and denotes something. *)
Lemma live_node sp nodes refs i v : space_ok sp → denotes sp nodes refs → nodes !! i = Some v →
  ∃ n, da_nodes sp !! i = Some n ∧ load_node sp n = Some v ∧ node_entry_ok i n.
Proof.
  intros Hsp Hd Hv; destruct (de_node _ _ _ Hd i v Hv) as (n & Hn & E); exists n; split; [done|]; split; [done|].
  apply (so_node sp Hsp); [|done]; apply lookup_lt_Some in Hv; pose proof (de_nodes_count _ _ _ Hd); unfold zlen in *; lia.
Qed.

Lemma live_reference sp nodes refs i v : space_ok sp → denotes sp nodes refs → refs !! i = Some v →
  ∃ r, da_references sp !! i = Some r ∧ load_reference sp r = Some v ∧ reference_entry_ok i r.
Proof.
  intros Hsp Hd Hv; destruct (de_reference _ _ _ Hd i v Hv) as (n & Hn & E); exists n; split; [done|]; split; [done|].
  apply (so_reference sp Hsp); [|done]; apply lookup_lt_Some in Hv; pose proof (de_references_count _ _ _ Hd); unfold zlen in *; lia.
Qed.

(** The entries of the table are cut to the first [count]. *)
Lemma truncate_nodes sp nodes refs count : space_ok sp → denotes sp nodes refs → 0 ≤ count ≤ da_nodes_count sp →
  space_ok (set_da_nodes sp (da_nodes sp) count) ∧ denotes (set_da_nodes sp (da_nodes sp) count) (ztake count nodes) refs.
Proof.
  intros [] [] Hc; split; split; cbn; try done; [lia|intros i n Hi; apply so_node0; lia|rewrite zlen_ztake by lia; done|].
  intros i v [Hv _]%lookup_take_Some; by apply de_node0.
Qed.

Lemma truncate_references sp nodes refs count : space_ok sp → denotes sp nodes refs → 0 ≤ count ≤ da_references_count sp →
  space_ok (set_da_references sp (da_references sp) count) ∧
  denotes (set_da_references sp (da_references sp) count) nodes (ztake count refs).
Proof.
  intros [] [] Hc; split; split; cbn; try done; [lia|intros i n Hi; apply so_reference0; lia|rewrite zlen_ztake by lia; done|].
  intros i v [Hv _]%lookup_take_Some; by apply de_reference0.
Qed.

(** Moving the strings of an entry to another one. *)
Lemma node_move_rows sp dest source n : storage_ok sp →
  Z.of_nat dest < MU_MAX_DYNAMIC_NODES → Z.of_nat source < MU_MAX_DYNAMIC_NODES → node_entry_ok source n →
  da_nodes sp !! source = Some n → dest ≠ source →
  ∃ n' sp1, mu_dynamic_node_move dest source sp =
      (Ok tt, set_da_nodes sp1 (<[dest := n']> (da_nodes sp1)) (da_nodes_count sp1)) ∧
    rows_step (node_rows dest) sp sp1 ∧ node_entry_ok dest n' ∧ load_node sp1 n' = load_node sp n.
Proof.
  intros Hsp Hd Hsrc (Hid & Hbn & Hdn) Hn Hne; unfold mu_dynamic_node_move; rewrite bind_get, Hn, bind_lift.
  assert (Hrow : ∀ st, node_storage st = true → Z.of_nat dest < row_count st ∧ Z.of_nat source < row_count st)
    by (intros st Hs; unfold row_count; rewrite Hs; lia).
  assert (Hmove : ∃ t sp1, match sn_identifier (sd_node_id n) with
      | STORED_STRING s => s ← move_row string_nodeid_storage dest source (ss_length s);
          mret (mk_stored_nodeid (sn_namespace_index (sd_node_id n)) (STORED_STRING s))
      | _ => mret (sd_node_id n)
      end sp = (Ok t, sp1) ∧ rows_step (row string_nodeid_storage dest) sp sp1 ∧
      stored_id_ok string_nodeid_storage dest t ∧ load_nodeid sp1 t = load_nodeid sp (sd_node_id n)).
  { destruct Hid as [Hns Hid]; destruct (sd_node_id n) as [ns [x|s|x]]; cbn in *; [|..|done].
    - eexists _, sp; split; [done|]; split; [by apply rows_step_refl|by split].
    - destruct (move_row_ok sp string_nodeid_storage dest source s) as (t & sp1 & E & S1 & T1 & L1); [done|by apply Hrow..|done|].
      rewrite (bind_ok _ _ _ _ _ E); eexists _, sp1; split; [done|]; split; [done|]; split; [by split|].
      unfold load_nodeid; cbn; by rewrite L1. }
  destruct Hmove as (t1 & sp1 & E1 & S1 & T1 & L1); rewrite (bind_ok _ _ _ _ _ E1); clear E1.
  destruct (move_row_ok sp1 browse_name_storage dest source (sd_browse_name n)) as (t2 & sp2 & E2 & S2 & T2 & L2);
    [apply S1|by apply Hrow..|done|]; rewrite (bind_ok _ _ _ _ _ E2).
  destruct (move_row_ok sp2 display_name_storage dest source (sd_display_name n)) as (t3 & sp3 & E3 & S3 & T3 & L3);
    [apply S2|by apply Hrow..|done|]; rewrite (bind_ok _ _ _ _ _ E3), bind_get.
  rewrite (load_string_step _ _ _ _ _ _ S1 Hbn) in L2 by (by intros [? _]).
  rewrite (load_string_step _ _ _ _ _ _ S2 Hdn), (load_string_step _ _ _ _ _ _ S1 Hdn) in L3 by (by intros [? _]).
  eexists _, sp3; split; [reflexivity|]; split.
  { eapply (rows_step_trans (node_rows dest)); [eapply rows_step_trans; [exact S1|exact S2|..]|exact S3|done|];
      by intros st j [-> ->]. }
  split; [by split_and!|]; unfold load_node; cbn [sd_node_id sd_browse_name sd_display_name sd_node_class].
  rewrite (load_nodeid_step _ _ _ _ _ _ S3 T1), (load_nodeid_step _ _ _ _ _ _ S2 T1), L1 by (by intros [? _]).
  by rewrite (load_string_step _ _ _ _ _ _ S3 T2), L2, L3 by (by intros [? _]).
Qed.

Lemma remove_node_ok sp nodes refs j : space_ok sp → denotes sp nodes refs → (j < length nodes)%nat →
  ∃ sp' nodes', remove_node j sp = (Ok tt, sp') ∧ space_ok sp' ∧ denotes sp' nodes' refs ∧ nodes' ≡ₚ delete j nodes ∧
    da_references_count sp' = da_references_count sp.
Proof.
  intros Hsp Hden Hj; unfold remove_node; rewrite bind_get; cbv zeta; rewrite bind_put.
  pose proof (de_nodes_count _ _ _ Hden) as Hlen; pose proof (so_nodes_count sp Hsp) as Hnc; unfold zlen in Hlen.
  destruct (truncate_nodes sp nodes refs (da_nodes_count sp - 1) Hsp Hden ltac:(lia)) as [Hsp0 Hden0].
  destruct (Z.eqb_spec (Z.of_nat j) (da_nodes_count sp - 1)) as [Ej|Ej]; cbn [negb].
  - eexists _, _; split; [done|]; split; [exact Hsp0|]; split; [exact Hden0|]; split; [|done].
    rewrite <- Hlen; change (Z.of_nat (length nodes)) with (zlen nodes); rewrite (delete_last_take nodes j); [done|lia].
  - destruct (lookup_lt_is_Some_2 nodes (Z.to_nat (da_nodes_count sp - 1))) as [v Hv]; [lia|].
    destruct (lookup_lt_is_Some_2 nodes j) as [x Hx]; [lia|].
    destruct (live_node sp nodes refs _ v Hsp Hden Hv) as (n & Hn & En & Hok).
    destruct (node_move_rows (set_da_nodes sp (da_nodes sp) (da_nodes_count sp - 1)) j (Z.to_nat (da_nodes_count sp - 1)) n)
      as (n' & sp1 & E & S1 & Hok' & En'); [apply Hsp|lia|lia|done|done|lia|]; rewrite E.
    destruct (rewrite_node sp sp1 j n' (da_nodes_count sp - 1) nodes refs v) as [Hsp2 Hden2];
      [done|done|done|done|lia|lia|lia|by rewrite En'|].
    pose proof S1 as (_ & _ & _ & _ & Erc & _); eexists _, _; split; [reflexivity|].
    split; [exact Hsp2|]; split; [exact Hden2|]; split; [|exact Erc].
    rewrite <- Hlen; change (Z.of_nat (length nodes)) with (zlen nodes).
    apply (swap_remove_perm _ _ _ x); [lia|done|rewrite <- Hv; f_equal; lia].
Qed.

(** *** References *)

Lemma store_reference_rows sp idx source type target fwd : storage_ok sp → Z.of_nat idx < MU_MAX_DYNAMIC_REFERENCES →
  let fits id := nodeid_fits id (Z.max 0 MU_MAX_DYNAMIC_REFERENCE_STRING_NODEID_LENGTH) in
  exact_nodeid source → fits source → exact_nodeid type → fits type → exact_nodeid target → fits target →
  ∃ r sp1, store_reference idx source type target fwd sp =
      (Ok tt, set_da_references sp1 (<[idx := r]> (da_references sp1)) (da_references_count sp1)) ∧
    rows_step (reference_rows idx) sp sp1 ∧ reference_entry_ok idx r ∧
    load_reference sp1 r = Some (mk_dynamic_reference source (mk_reference type target fwd)).
Proof.
  intros Hsp Hidx fits Hs Fs Ht Ft Hg Fg; unfold store_reference.
  assert (Hrow : ∀ st, node_storage st = false → Z.of_nat idx < row_count st) by (intros st E; unfold row_count; rewrite E; lia).
  destruct (nodeid_copy_ok sp reference_source_nodeid_storage idx source Hsp ltac:(by apply Hrow) Hs Fs) as (t1 & sp1 & E1 & S1 & T1 & L1).
  destruct (nodeid_copy_ok sp1 reference_type_nodeid_storage idx type (proj1 S1) ltac:(by apply Hrow) Ht Ft) as (t2 & sp2 & E2 & S2 & T2 & L2).
  destruct (nodeid_copy_ok sp2 reference_target_nodeid_storage idx target (proj1 S2) ltac:(by apply Hrow) Hg Fg) as (t3 & sp3 & E3 & S3 & T3 & L3).
  rewrite (bind_ok _ _ _ _ _ E1), (bind_ok _ _ _ _ _ E2), (bind_ok _ _ _ _ _ E3), bind_get.
  eexists _, sp3; split; [reflexivity|]; split.
  { eapply (rows_step_trans (reference_rows idx)); [eapply rows_step_trans; [exact S1|exact S2|..]|exact S3|done|];
      by intros st j [-> ->]. }
  split; [by split_and!|]; unfold load_reference; cbn [sr_source_node_id sr_reference_type_id sr_target_id sr_is_forward].
  rewrite (load_nodeid_step _ _ _ _ _ _ S3 T1), (load_nodeid_step _ _ _ _ _ _ S2 T1), L1 by (by intros [? _]).
  by rewrite (load_nodeid_step _ _ _ _ _ _ S3 T2), L2, L3 by (by intros [? _]).
Qed.

(** The NodeIds of a live reference are exact and fit. *)
Lemma load_nodeid_exact sp st i id v : storage_ok sp → stored_id_ok st i id → Z.of_nat i < row_count st →
  load_nodeid sp id = Some v → exact_nodeid v ∧ nodeid_fits v (row_length st).
Proof.
  intros Hsp [Hns Hid] Hi E; unfold load_nodeid in E; destruct id as [ns [n|s|x]]; cbn in *; [by simplify_eq| |done].
  destruct (load_string_ok sp st i s Hsp Hid Hi) as (w & Ew & _ & Hw); rewrite Ew in E; cbn in E; simplify_eq.
  destruct Hw as [->|(d & -> & Hb & Hl)]; (split; [split; [done|]|]); cbn; [by left|unfold row_length; lia|by right; exists d|done].
Qed.

Lemma append_reference_ok sp nodes refs item : space_ok sp → denotes sp nodes refs →
  da_references_count sp < MU_MAX_DYNAMIC_REFERENCES →
  let fits id := nodeid_fits id (Z.max 0 MU_MAX_DYNAMIC_REFERENCE_STRING_NODEID_LENGTH) in
  let id := xid_node_id (ar_target_node_id item) in
  exact_nodeid (ar_source_node_id item) → fits (ar_source_node_id item) →
  exact_nodeid (ar_reference_type_id item) → fits (ar_reference_type_id item) → exact_nodeid id → fits id →
  ∃ sp', mu_dynamic_reference_copy (Z.to_nat (da_references_count sp)) item
      (set_da_references sp (da_references sp) (da_references_count sp + 1)) = (Ok tt, sp') ∧ space_ok sp' ∧
    denotes sp' nodes (refs ++ [mk_dynamic_reference (ar_source_node_id item)
                                  (mk_reference (ar_reference_type_id item) id (ar_is_forward item))]).
Proof.
  intros Hsp Hden Hc fits id Hs Fs Ht Ft Hg Fg; unfold mu_dynamic_reference_copy; fold id.
  pose proof (de_references_count _ _ _ Hden) as Hlen; pose proof (so_references_count sp Hsp).
  set (idx := Z.to_nat (da_references_count sp)); assert (Eidx : idx = length refs) by (unfold idx, zlen in *; lia).
  destruct (store_reference_rows (set_da_references sp (da_references sp) (da_references_count sp + 1)) idx
    (ar_source_node_id item) (ar_reference_type_id item) id (ar_is_forward item)) as (r & sp1 & E & S1 & Hok & L);
    [apply Hsp|lia|done..|]; rewrite E.
  destruct (rewrite_reference sp sp1 idx r (da_references_count sp + 1) nodes refs _ Hsp Hden S1 Hok ltac:(lia) ltac:(lia) ltac:(lia) L)
    as [Hsp2 Hden2]; eexists; split; [reflexivity|]; split; [exact Hsp2|].
  rewrite Eidx, <- Hlen, insert_last in Hden2; rewrite Eidx; exact Hden2.
Qed.

Lemma remove_reference_ok sp nodes refs j : space_ok sp → denotes sp nodes refs → (j < length refs)%nat →
  ∃ sp' refs', remove_reference j sp = (Ok tt, sp') ∧ space_ok sp' ∧ denotes sp' nodes refs' ∧
    refs' ≡ₚ delete j refs ∧ take j refs' = take j refs ∧
    da_references_count sp' = da_references_count sp - 1.
Proof.
  intros Hsp Hden Hj; unfold remove_reference; rewrite bind_get; cbv zeta; rewrite bind_put.
  pose proof (de_references_count _ _ _ Hden) as Hlen; pose proof (so_references_count sp Hsp) as Hnc; unfold zlen in Hlen.
  destruct (truncate_references sp nodes refs (da_references_count sp - 1) Hsp Hden ltac:(lia)) as [Hsp0 Hden0].
  destruct (Z.eqb_spec (Z.of_nat j) (da_references_count sp - 1)) as [Ej|Ej]; cbn [negb].
  - eexists _, _; split; [done|]; split; [exact Hsp0|]; split; [exact Hden0|]; split; [|split; [|done]].
    + rewrite <- Hlen; change (Z.of_nat (length refs)) with (zlen refs); rewrite (delete_last_take refs j); [done|lia].
    + unfold ztake; rewrite take_take; f_equal; lia.
  - destruct (lookup_lt_is_Some_2 refs (Z.to_nat (da_references_count sp - 1))) as [v Hv]; [lia|].
    destruct (lookup_lt_is_Some_2 refs j) as [x Hx]; [lia|].
    destruct (live_reference sp nodes refs _ v Hsp Hden Hv) as (r & Hr & Er & H1 & H2 & H3).
    set (last := Z.to_nat (da_references_count sp - 1)) in *; assert (Z.of_nat last < MU_MAX_DYNAMIC_REFERENCES) by lia.
    unfold mu_dynamic_reference_move; rewrite bind_get; cbn [da_references set_da_references]; rewrite Hr, bind_lift.
    set (sp0 := set_da_references sp (da_references sp) (da_references_count sp - 1)).
    change (load_nodeid sp0) with (load_nodeid sp); unfold load_reference in Er.
    destruct (load_nodeid sp (sr_source_node_id r)) as [v1|] eqn:E1; cbn [mbind option_bind] in Er; [|done].
    destruct (load_nodeid sp (sr_reference_type_id r)) as [v2|] eqn:E2; cbn [mbind option_bind] in Er; [|done].
    destruct (load_nodeid sp (sr_target_id r)) as [v3|] eqn:E3; cbn [mbind option_bind] in Er; [|done]; simplify_eq.
    rewrite !bind_lift.
    destruct (load_nodeid_exact sp _ _ _ _ (so_storage sp Hsp) H1 ltac:(done) E1) as [X1 F1].
    destruct (load_nodeid_exact sp _ _ _ _ (so_storage sp Hsp) H2 ltac:(done) E2) as [X2 F2].
    destruct (load_nodeid_exact sp _ _ _ _ (so_storage sp Hsp) H3 ltac:(done) E3) as [X3 F3].
    destruct (store_reference_rows sp0 j v1 v2 v3 (sr_is_forward r) ltac:(apply Hsp) ltac:(lia) X1 F1 X2 F2 X3 F3)
      as (r' & sp1 & E & S1 & Hok & L); rewrite E.
    destruct (rewrite_reference sp sp1 j r' (da_references_count sp - 1) nodes refs _ Hsp Hden S1 Hok ltac:(lia) ltac:(lia) ltac:(lia) L)
      as [Hsp2 Hden2]; pose proof S1 as (_ & _ & _ & _ & Erc & _).
    eexists _, _; split; [reflexivity|]; split; [exact Hsp2|]; split; [exact Hden2|]; split; [|split; [|exact Erc]].
    + rewrite <- Hlen; change (Z.of_nat (length refs)) with (zlen refs).
      apply (swap_remove_perm _ _ _ x); [lia|done|rewrite <- Hv; f_equal; unfold last; lia].
    + rewrite take_insert_ge by lia; unfold ztake; rewrite take_take, take_app_le by lia; f_equal; lia.
Qed.

(** ** Searching *)

Lemma find_entry_spec {A B} (test : A → option bool) (p : B → bool) entries vals :
  Forall2 (λ x v, test x = Some (p v)) entries vals → ∀ i,
  match find_entry test entries i with
  | Some (Some j) => ∃ k v, j = (i + k)%nat ∧ vals !! k = Some v ∧ p v = true ∧ Forall (λ v, p v = false) (take k vals)
  | Some None => Forall (λ v, p v = false) vals
  | None => False
  end.
Proof.
  induction 1 as [|x v entries vals E _ IH]; intros i; cbn [find_entry]; [done|]; rewrite E; cbn [mbind option_bind].
  destruct (p v) eqn:Ep; [exists 0%nat, v; split; [lia|by split_and!]|].
  specialize (IH (S i)); destruct (find_entry test entries (S i)) as [[j|]|]; [|by constructor|done].
  destruct IH as (k & w & -> & Hk & Hw & Hall); exists (S k), w; split; [lia|]; split; [done|]; split; [done|by constructor].
Qed.

Lemma denoted_nodes sp nodes refs : space_ok sp → denotes sp nodes refs →
  ∃ entries, mem_load (da_nodes sp) 0 (da_nodes_count sp) = Some entries ∧
    Forall2 (λ n v, load_node sp n = Some v) entries nodes.
Proof.
  intros Hsp Hd; pose proof (de_nodes_count _ _ _ Hd) as Hl; pose proof (so_nodes_count sp Hsp); pose proof (so_nodes sp Hsp).
  rewrite mem_load_Some by lia; eexists; split; [done|]; apply Forall2_same_length_lookup; split.
  - change (zdrop 0 (da_nodes sp)) with (da_nodes sp); pose proof (zlen_ztake (da_nodes_count sp) (da_nodes sp) ltac:(lia)); unfold zlen in *; lia.
  - intros i n v Hn Hv; change (zdrop 0 (da_nodes sp)) with (da_nodes sp) in Hn; apply lookup_take_Some in Hn as [Hn _].
    destruct (de_node _ _ _ Hd i v Hv) as (n' & Hn' & E); by simplify_eq.
Qed.

Lemma denoted_references sp nodes refs : space_ok sp → denotes sp nodes refs →
  ∃ entries, mem_load (da_references sp) 0 (da_references_count sp) = Some entries ∧
    Forall2 (λ r v, load_reference sp r = Some v) entries refs.
Proof.
  intros Hsp Hd; pose proof (de_references_count _ _ _ Hd) as Hl; pose proof (so_references_count sp Hsp); pose proof (so_references sp Hsp).
  rewrite mem_load_Some by lia; eexists; split; [done|]; apply Forall2_same_length_lookup; split.
  - change (zdrop 0 (da_references sp)) with (da_references sp).
    pose proof (zlen_ztake (da_references_count sp) (da_references sp) ltac:(lia)); unfold zlen in *; lia.
  - intros i n v Hn Hv; change (zdrop 0 (da_references sp)) with (da_references sp) in Hn; apply lookup_take_Some in Hn as [Hn _].
    destruct (de_reference _ _ _ Hd i v Hv) as (n' & Hn' & E); by simplify_eq.
Qed.

(** Browse is given what the table denotes. *)
Lemma live_references_denoted sp nodes refs : space_ok sp → denotes sp nodes refs → live_references sp = Some refs.
Proof.
  intros Hsp Hd; unfold live_references; destruct (denoted_references sp nodes refs Hsp Hd) as (entries & -> & Hall).
  cbn [mbind option_bind]; by apply mapM_Some.
Qed.

(** ** The abstract service *)

Definition touches (id : mu_nodeid_t) (v : mu_dynamic_reference_t) : bool :=
  mu_nodeid_equal (dr_source_node_id v) id || mu_nodeid_equal (ref_target_id (dr_ref v)) id.

Definition matches (item : mu_delete_references_item_t) (v : mu_dynamic_reference_t) : bool :=
  mu_nodeid_equal (dr_source_node_id v) (dr_item_source_node_id item)
  && mu_nodeid_equal (ref_reference_type_id (dr_ref v)) (dr_item_reference_type_id item)
  && mu_nodeid_equal (ref_target_id (dr_ref v)) (xid_node_id (dr_item_target_node_id item))
  && eqb (ref_is_forward (dr_ref v)) (dr_item_is_forward item).

Lemma reference_touches_load sp id r v : load_reference sp r = Some v → reference_touches sp id r = Some (touches id v).
Proof.
  unfold load_reference, reference_touches; destruct (load_nodeid sp (sr_source_node_id r)); cbn [mbind option_bind]; [|done].
  destruct (load_nodeid sp (sr_reference_type_id r)); cbn [mbind option_bind]; [|done].
  destruct (load_nodeid sp (sr_target_id r)); cbn [mbind option_bind]; [|done]; by intros [= <-].
Qed.

Lemma reference_matches_load sp item r v : load_reference sp r = Some v → reference_matches sp item r = Some (matches item v).
Proof.
  unfold load_reference, reference_matches; destruct (load_nodeid sp (sr_source_node_id r)); cbn [mbind option_bind]; [|done].
  destruct (load_nodeid sp (sr_reference_type_id r)); cbn [mbind option_bind]; [|done].
  destruct (load_nodeid sp (sr_target_id r)); cbn [mbind option_bind]; [|done]; by intros [= <-].
Qed.

Lemma node_has_id_load sp id n v : load_node sp n = Some v → node_has_id sp id n = Some (mu_nodeid_equal (node_node_id v) id).
Proof.
  unfold load_node, node_has_id; destruct (load_nodeid sp (sd_node_id n)); cbn [mbind option_bind]; [|done].
  destruct (load_string sp (sd_browse_name n)); cbn [mbind option_bind]; [|done].
  destruct (load_string sp (sd_display_name n)); cbn [mbind option_bind]; [|done]; by intros [= <-].
Qed.

(** The loop removes exactly the references that touch the node; the fuel
    suffices. *)
Lemma remove_references_ok id nodes fuel : ∀ sp refs r_idx, space_ok sp → denotes sp nodes refs →
  (r_idx ≤ length refs < r_idx + fuel)%nat → Forall (λ v, touches id v = false) (take r_idx refs) →
  ∃ sp' refs', remove_references fuel id r_idx sp = (Ok tt, sp') ∧ space_ok sp' ∧ denotes sp' nodes refs' ∧
    refs' ≡ₚ filter (λ v, touches id v = false) refs.
Proof.
  induction fuel as [|fuel IH]; intros sp refs r_idx Hsp Hd Hr Hall; [lia|]; cbn [remove_references]; rewrite bind_get.
  pose proof (de_references_count _ _ _ Hd) as Hl; unfold zlen in Hl.
  destruct (Z.ltb_spec (Z.of_nat r_idx) (da_references_count sp)) as [Hlt|Hge].
  2:{ exists sp, refs; split; [done|]; split; [done|]; split; [done|].
      rewrite take_ge in Hall by lia; clear -Hall; induction Hall as [|v refs Hv _ IH]; [done|].
      by rewrite filter_cons, decide_True, <- IH. }
  destruct (lookup_lt_is_Some_2 refs r_idx) as [v Hv]; [lia|].
  destruct (live_reference sp nodes refs r_idx v Hsp Hd Hv) as (r & Er & Lr & _).
  rewrite Er; cbn [mbind option_bind]; rewrite (reference_touches_load sp id r v Lr), bind_lift.
  destruct (touches id v) eqn:Et.
  - destruct (remove_reference_ok sp nodes refs r_idx Hsp Hd ltac:(lia)) as (sp1 & refs1 & E1 & Hsp1 & Hd1 & Hp & Htake & _).
    rewrite (bind_ok _ _ _ _ _ E1).
    pose proof (Permutation_length Hp) as Hlen; rewrite length_delete in Hlen by (by eexists).
    destruct (IH sp1 refs1 r_idx Hsp1 Hd1 ltac:(lia) ltac:(by rewrite Htake)) as (sp2 & refs2 & E2 & Hsp2 & Hd2 & Hp2).
    exists sp2, refs2; split; [done|]; split; [done|]; split; [done|]; rewrite Hp2, Hp.
    rewrite (delete_Permutation refs r_idx v Hv) at 2; rewrite filter_cons, decide_False by congruence; done.
  - apply IH; [done|done|lia|]; rewrite (take_S_r _ _ v) by done; apply Forall_app; split; [done|by constructor].
Qed.

(** What the decoders deliver. *)
Record add_nodes_item_ok (item : mu_add_nodes_item_t) : Prop := {
  ano_new_id : wire_nodeid (xid_node_id (an_requested_new_node_id item));
  ano_browse_name : wire_string (qn_name (an_browse_name item));
  ano_attributes : match an_node_attributes item with
                   | Some b => an_node_attributes_len item = zlen b ∧ bytes_ok b ∧ zlen b ≤ PTRDIFF_MAX
                   | None => True
                   end
}.

Definition add_references_item_ok (item : mu_add_references_item_t) : Prop :=
  wire_nodeid (ar_source_node_id item) ∧ wire_nodeid (ar_reference_type_id item) ∧
  wire_nodeid (xid_node_id (ar_target_node_id item)).

Lemma display_name_ok item : add_nodes_item_ok item →
  outcome_ok (λ dn, ∀ s, dn = Some s → wire_string s) (mu_add_nodes_item_display_name item).
Proof.
  intros [_ _ Ha]; unfold mu_add_nodes_item_display_name; destruct (an_node_attributes item) as [b|]; [|done].
  destruct Ha as (-> & Hb & Hl); repeat split_if; [done..|].
  assert (Hsafe : rsafe read_display_name (λ dn, ∀ s, dn = Some s → wire_string s)).
  { unfold read_display_name, mu_decode_localized_text_text.
    eapply rsafe_bind; [apply rsafe_read_uint32|]; intros a _; apply rsafe_if; intros _; [by apply rsafe_ret|].
    eapply (rsafe_bind _ _ wire_string); [|intros t Ht; apply rsafe_ret; by intros ? [= <-]].
    eapply rsafe_bind; [apply rsafe_read_byte|]; intros m _; apply rsafe_if; intros _; [by apply rsafe_fail|].
    eapply (rsafe_bind _ _ (λ _, True)).
    - apply rsafe_if; intros _; [|by apply rsafe_ret]; eapply rsafe_bind; [apply rsafe_read_string|]; intros; by apply rsafe_ret.
    - intros [] _; apply rsafe_if; intros _; [apply rsafe_read_string|apply rsafe_ret; by left]. }
  apply (Hsafe _ (reader_init_ok b Hl Hb)).
Qed.

(** The node an item asks for, when it can be added to [count] nodes. *)
Definition added_node (item : mu_add_nodes_item_t) (count : Z) : option mu_node_t :=
  let bn := qn_name (an_browse_name item) in
  match mu_add_nodes_item_display_name item with
  | Ok dn =>
      let dn := default bn dn in
      let id := new_node_id (xid_node_id (an_requested_new_node_id item)) count in
      if negb (an_node_class item =? 0) && (count <? MU_MAX_DYNAMIC_NODES) && mu_dynamic_browse_name_fits bn
         && mu_dynamic_display_name_fits dn && mu_dynamic_string_nodeid_fits id
      then Some (mk_node id (an_node_class item) bn dn None 0 None) else None
  | _ => None
  end.

Lemma new_node_id_ok requested count : wire_nodeid requested → exact_nodeid (new_node_id requested count).
Proof.
  intros Hw; unfold new_node_id; destruct requested as [ns [n|s| |]]; cbn; try (by apply wire_exact_nodeid).
  split_if; [|by apply wire_exact_nodeid]; split; cbn; [ranges; lia|]; pose proof (to_unsigned_range 32 (1000 + to_u32 count)); ranges; lia.
Qed.

Lemma nodeid_fits_spec id : mu_dynamic_string_nodeid_fits id = true → nodeid_fits id (row_length string_nodeid_storage).
Proof. unfold mu_dynamic_string_nodeid_fits, nodeid_fits; destruct (nid_identifier id); try done; apply string_fits. Qed.

Lemma reference_fits_spec id : mu_dynamic_reference_string_nodeid_fits id = true →
  nodeid_fits id (Z.max 0 MU_MAX_DYNAMIC_REFERENCE_STRING_NODEID_LENGTH).
Proof. unfold mu_dynamic_reference_string_nodeid_fits, nodeid_fits; destruct (nid_identifier id); try done; apply string_fits. Qed.

Lemma add_node_ok sp nodes refs item : space_ok sp → denotes sp nodes refs → add_nodes_item_ok item →
  ∃ status t sp', add_node item sp = (Ok (status, t), sp') ∧ space_ok sp' ∧
    match added_node item (zlen nodes) with
    | Some node => status = MU_STATUS_GOOD ∧ denotes sp' (nodes ++ [node]) refs ∧
        ∃ id, t = Some id ∧ stored_id_ok string_nodeid_storage (length nodes) id ∧ load_nodeid sp' id = Some (node_node_id node)
    | None => status ≠ MU_STATUS_GOOD ∧ t = None ∧ sp' = sp
    end.
Proof.
  intros Hsp Hd Hitem; unfold add_node, added_node; rewrite bind_get; cbv zeta.
  pose proof (de_nodes_count _ _ _ Hd) as Hl; rewrite Hl; pose proof (display_name_ok item Hitem) as Hdn.
  destruct Hitem as [Hid Hbn _]; assert (Hfail : ∀ e, e ≠ MU_STATUS_GOOD → ∃ status t sp',
    (mret (e, None) : Sp (Z * option stored_nodeid_t)) sp = (Ok (status, t), sp') ∧ space_ok sp' ∧
    status ≠ MU_STATUS_GOOD ∧ t = None ∧ sp' = sp) by (intros e He; by eexists _, _, _).
  destruct (an_node_class item =? 0) eqn:Ec; cbn [negb andb].
  { destruct (mu_add_nodes_item_display_name item); by apply Hfail. }
  destruct (Z.leb_spec MU_MAX_DYNAMIC_NODES (da_nodes_count sp)) as [Hfull|Hroom].
  { rewrite (proj2 (Z.ltb_ge _ _)) by lia; destruct (mu_add_nodes_item_display_name item); by apply Hfail. }
  rewrite (proj2 (Z.ltb_lt _ _)) by lia; destruct (mu_dynamic_browse_name_fits _) eqn:Ebn; cbn [negb andb].
  2:{ destruct (mu_add_nodes_item_display_name item); by apply Hfail. }
  destruct (mu_add_nodes_item_display_name item) as [dn|e|]; cbn in Hdn; [|by apply Hfail|done].
  set (name := default _ dn); assert (Hname : exact_string name).
  { unfold name; destruct dn as [s|]; cbn; apply wire_exact_string; [by apply Hdn|done]. }
  destruct (mu_dynamic_display_name_fits name) eqn:Edn; cbn [negb andb]; [|by apply Hfail].
  set (id := new_node_id _ _); destruct (mu_dynamic_string_nodeid_fits id) eqn:Eid; cbn [negb]; [|by apply Hfail].
  destruct (append_node_ok sp nodes refs id (an_node_class item) (qn_name (an_browse_name item)) name Hsp Hd Hroom
    (new_node_id_ok _ _ Hid) (nodeid_fits_spec _ Eid) (wire_exact_string _ Hbn) (string_fits _ _ Ebn) Hname (string_fits _ _ Edn))
    as (t & sp' & E & Hsp' & Hd' & Ht & Hload).
  rewrite (bind_ok _ _ _ _ _ E); eexists _, _, sp'; split; [reflexivity|]; split; [done|].
  split; [done|]; split; [done|]; exists t; by split.
Qed.

Lemma delete_node_ok sp nodes refs item : space_ok sp → denotes sp nodes refs →
  let has v := mu_nodeid_equal (node_node_id v) (dn_node_id item) in
  ∃ status sp', delete_node item sp = (Ok status, sp') ∧ space_ok sp' ∧
    ((status = MU_STATUS_BAD_NODEIDUNKNOWN ∧ sp' = sp ∧ Forall (λ v, has v = false) nodes) ∨
     (status = MU_STATUS_GOOD ∧ ∃ nodes' refs' j v, nodes !! j = Some v ∧ has v = true ∧
        Forall (λ v, has v = false) (take j nodes) ∧ denotes sp' nodes' refs' ∧ nodes' ≡ₚ delete j nodes ∧
        refs' ≡ₚ filter (λ v, touches (dn_node_id item) v = false) refs)).
Proof.
  intros Hsp Hd has; unfold delete_node; rewrite bind_get.
  destruct (denoted_nodes sp nodes refs Hsp Hd) as (entries & -> & Hall); cbn [mbind option_bind].
  assert (Hall' : Forall2 (λ n v, node_has_id sp (dn_node_id item) n = Some (has v)) entries nodes).
  { eapply Forall2_impl; [exact Hall|]; intros n v; apply node_has_id_load. }
  pose proof (find_entry_spec _ has _ _ Hall' 0) as Hf.
  destruct (find_entry _ entries 0) as [[j|]|]; [| |done]; rewrite bind_lift.
  2:{ eexists _, sp; split; [done|]; split; [done|]; by left. }
  destruct Hf as (k & v & -> & Hk & Hv & Hbefore); change (0 + k)%nat with k.
  destruct (remove_node_ok sp nodes refs k Hsp Hd) as (sp1 & nodes1 & E1 & Hsp1 & Hd1 & Hp1 & Erc); [by eapply lookup_lt_Some|].
  rewrite (bind_ok _ _ _ _ _ E1); pose proof (de_references_count _ _ _ Hd) as Hl; unfold zlen in Hl.
  destruct (remove_references_ok (dn_node_id item) nodes1 (S (Z.to_nat (da_references_count sp))) sp1 refs 0 Hsp1 Hd1)
    as (sp2 & refs2 & E2 & Hsp2 & Hd2 & Hp2); [lia|done|].
  rewrite (bind_ok _ _ _ _ _ E2); eexists _, sp2; split; [done|]; split; [done|]; right; split; [done|].
  exists nodes1, refs2, k, v; by split_and?.
Qed.

Lemma add_reference_ok sp nodes refs item : space_ok sp → denotes sp nodes refs → add_references_item_ok item →
  ∃ status sp', add_reference item sp = (Ok status, sp') ∧ space_ok sp' ∧
    if (zlen refs <? MU_MAX_DYNAMIC_REFERENCES) && mu_dynamic_reference_nodeids_fit item
    then status = MU_STATUS_GOOD ∧
         denotes sp' nodes (refs ++ [mk_dynamic_reference (ar_source_node_id item)
           (mk_reference (ar_reference_type_id item) (xid_node_id (ar_target_node_id item)) (ar_is_forward item))])
    else status = MU_STATUS_BAD_OUTOFMEMORY ∧ sp' = sp.
Proof.
  intros Hsp Hd (H1 & H2 & H3); unfold add_reference; rewrite bind_get.
  pose proof (de_references_count _ _ _ Hd) as Hl; rewrite Hl; pose proof (so_references sp Hsp) as Hs; unfold zlen in Hs.
  pose proof (so_references_count sp Hsp).
  destruct (Z.leb_spec MU_MAX_DYNAMIC_REFERENCES (da_references_count sp)) as [Hfull|Hroom].
  { rewrite (proj2 (Z.ltb_ge _ _)) by lia; cbn [andb]; eexists _, sp; split; [done|]; by split. }
  rewrite (proj2 (Z.ltb_lt _ _)) by lia; cbn [andb].
  destruct (mu_dynamic_reference_nodeids_fit item) eqn:Ef; cbn [negb]; [|eexists _, sp; split; [done|]; by split].
  unfold mu_dynamic_reference_nodeids_fit in Ef; apply andb_true_iff in Ef as [[F1 F2]%andb_true_iff F3].
  cbv zeta; rewrite bind_put, (proj2 (Nat.ltb_lt _ _)) by lia.
  destruct (append_reference_ok sp nodes refs item Hsp Hd Hroom (wire_exact_nodeid _ H1) (reference_fits_spec _ F1)
    (wire_exact_nodeid _ H2) (reference_fits_spec _ F2) (wire_exact_nodeid _ H3) (reference_fits_spec _ F3)) as (sp' & E & Hsp' & Hd').
  rewrite (bind_ok _ _ _ _ _ E); eexists _, sp'; split; [done|]; by split.
Qed.

Lemma delete_reference_ok sp nodes refs item : space_ok sp → denotes sp nodes refs →
  ∃ status sp', delete_reference item sp = (Ok status, sp') ∧ space_ok sp' ∧
    ((status = MU_STATUS_BAD_NOTFOUND ∧ sp' = sp ∧ Forall (λ v, matches item v = false) refs) ∨
     (status = MU_STATUS_GOOD ∧ ∃ refs' j v, refs !! j = Some v ∧ matches item v = true ∧
        Forall (λ v, matches item v = false) (take j refs) ∧ denotes sp' nodes refs' ∧ refs' ≡ₚ delete j refs)).
Proof.
  intros Hsp Hd; unfold delete_reference; rewrite bind_get.
  destruct (denoted_references sp nodes refs Hsp Hd) as (entries & -> & Hall); cbn [mbind option_bind].
  assert (Hall' : Forall2 (λ r v, reference_matches sp item r = Some (matches item v)) entries refs).
  { eapply Forall2_impl; [exact Hall|]; intros r v; apply reference_matches_load. }
  pose proof (find_entry_spec _ (matches item) _ _ Hall' 0) as Hf.
  destruct (find_entry _ entries 0) as [[j|]|]; [| |done]; rewrite bind_lift.
  2:{ eexists _, sp; split; [done|]; split; [done|]; by left. }
  destruct Hf as (k & v & -> & Hk & Hv & Hbefore); change (0 + k)%nat with k.
  destruct (remove_reference_ok sp nodes refs k Hsp Hd) as (sp1 & refs1 & E1 & Hsp1 & Hd1 & Hp1 & _); [by eapply lookup_lt_Some|].
  rewrite (bind_ok _ _ _ _ _ E1); eexists _, sp1; split; [done|]; split; [done|]; right; split; [done|].
  exists refs1, k, v; by split_and?.
Qed.

(** ** Refinement *)

Inductive nm_op :=
| AddNode (item : mu_add_nodes_item_t)
| DeleteNode (item : mu_delete_nodes_item_t)
| AddReference (item : mu_add_references_item_t)
| DeleteReference (item : mu_delete_references_item_t).

Definition nm_op_ok (op : nm_op) : Prop :=
  match op with
  | AddNode item => add_nodes_item_ok item
  | AddReference item => add_references_item_ok item
  | _ => True
  end.

Definition run_op (op : nm_op) : Sp Z :=
  match op with
  | AddNode item => '(status, _) ← add_node item; mret status
  | DeleteNode item => delete_node item
  | AddReference item => add_reference item
  | DeleteReference item => delete_reference item
  end.

(** What an operation does to the nodes and references, strings by value. *)
Definition nm_step (op : nm_op) (nodes : list mu_node_t) (refs : list mu_dynamic_reference_t) (status : Z)
    (nodes' : list mu_node_t) (refs' : list mu_dynamic_reference_t) : Prop :=
  match op with
  | AddNode item =>
      refs' = refs ∧
      match added_node item (zlen nodes) with
      | Some node => status = MU_STATUS_GOOD ∧ nodes' = nodes ++ [node]
      | None => status ≠ MU_STATUS_GOOD ∧ nodes' = nodes
      end
  | DeleteNode item =>
      let has v := mu_nodeid_equal (node_node_id v) (dn_node_id item) in
      (status = MU_STATUS_BAD_NODEIDUNKNOWN ∧ nodes' = nodes ∧ refs' = refs ∧ Forall (λ v, has v = false) nodes) ∨
      (status = MU_STATUS_GOOD ∧ ∃ j v, nodes !! j = Some v ∧ has v = true ∧ nodes' ≡ₚ delete j nodes ∧
         refs' ≡ₚ filter (λ v, touches (dn_node_id item) v = false) refs)
  | AddReference item =>
      nodes' = nodes ∧
      if (zlen refs <? MU_MAX_DYNAMIC_REFERENCES) && mu_dynamic_reference_nodeids_fit item
      then status = MU_STATUS_GOOD ∧
           refs' = refs ++ [mk_dynamic_reference (ar_source_node_id item)
             (mk_reference (ar_reference_type_id item) (xid_node_id (ar_target_node_id item)) (ar_is_forward item))]
      else status = MU_STATUS_BAD_OUTOFMEMORY ∧ refs' = refs
  | DeleteReference item =>
      nodes' = nodes ∧
      ((status = MU_STATUS_BAD_NOTFOUND ∧ refs' = refs ∧ Forall (λ v, matches item v = false) refs) ∨
       (status = MU_STATUS_GOOD ∧ ∃ j v, refs !! j = Some v ∧ matches item v = true ∧ refs' ≡ₚ delete j refs))
  end.

Lemma run_op_refines op sp nodes refs : space_ok sp → denotes sp nodes refs → nm_op_ok op →
  ∃ status sp' nodes' refs', run_op op sp = (Ok status, sp') ∧ space_ok sp' ∧ denotes sp' nodes' refs' ∧
    nm_step op nodes refs status nodes' refs'.
Proof.
  intros Hsp Hd Hop; destruct op as [item|item|item|item]; cbn [run_op nm_step nm_op_ok] in *.
  - destruct (add_node_ok sp nodes refs item Hsp Hd Hop) as (status & t & sp' & E & Hsp' & H).
    rewrite (bind_ok _ _ _ _ _ E); destruct (added_node item (zlen nodes)) as [node|].
    + destruct H as (-> & Hd' & _); eexists _, sp', _, refs; split; [done|]; split; [done|]; by split.
    + destruct H as (Hs & _ & ->); eexists _, sp, nodes, refs; split; [done|]; split; [done|]; by split.
  - destruct (delete_node_ok sp nodes refs item Hsp Hd) as (status & sp' & E & Hsp' & [(-> & -> & Hno)|H]).
    + eexists _, sp, nodes, refs; split; [exact E|]; split; [done|]; split; [done|]; by left.
    + destruct H as (-> & nodes' & refs' & j & v & Hj & Hv & _ & Hd' & Hp & Hf).
      eexists _, sp', nodes', refs'; split; [exact E|]; split; [done|]; split; [done|]; right; split; [done|]; by exists j, v.
  - destruct (add_reference_ok sp nodes refs item Hsp Hd Hop) as (status & sp' & E & Hsp' & H).
    destruct (_ && _).
    + destruct H as [-> Hd']; eexists _, sp', nodes, _; split; [exact E|]; split; [done|]; split; [exact Hd'|]; by split.
    + destruct H as [-> ->]; eexists _, sp, nodes, refs; split; [exact E|]; split; [done|]; split; [done|]; by split.
  - destruct (delete_reference_ok sp nodes refs item Hsp Hd) as (status & sp' & E & Hsp' & [(-> & -> & Hno)|H]).
    + eexists _, sp, nodes, refs; split; [exact E|]; split; [done|]; split; [done|]; split; [done|]; by left.
    + destruct H as (-> & refs' & j & v & Hj & Hv & _ & Hd' & Hp).
      eexists _, sp', nodes, refs'; split; [exact E|]; split; [done|]; split; [done|]; split; [done|]; right; split; [done|]; by exists j, v.
Qed.

Lemma init_space_ok : space_ok init_space ∧ denotes init_space [] [].
Proof.
  pose proof caps_dynamic_nodes; pose proof caps_dynamic_references; split; split; cbn; try done; try lia.
  - intros st; destruct st; (split; [|apply Forall_replicate; split; [|by apply Forall_replicate]]);
      unfold zlen, row_count, row_length; cbn; rewrite length_replicate; lia.
  - unfold zlen; rewrite length_replicate; lia.
  - unfold zlen; rewrite length_replicate; lia.
Qed.
End spec.
