(* ===== verification/NodeManagementSafety.v ===== *)
(** * Safety of the NodeManagement handlers

    From request octets to response octets: the four handlers reach no
    undefined behaviour, keep the table well formed and change nothing else of
    the server. Over any sequence of operations the table refines its abstract
    specification. *)

From S2P Require Export NodeManagementSpec.

(** ** Decoders *)

Lemma rsafe_item_count n : rsafe (read_item_count n) (λ c, 0 ≤ c ≤ Z.max 0 n).
Proof. unfold read_item_count; rsafe_auto; bool_hyps; lia. Qed.

Lemma rsafe_flag : rsafe read_flag (λ _, True).
Proof. unfold read_flag; by rsafe_auto. Qed.
#[export] Hint Resolve rsafe_item_count rsafe_flag : rsafe.

(** What the attributes of an item are. *)
Definition attributes_ok (length : Z) (attributes : option (list Z)) : Prop :=
  match attributes with Some b => length = zlen b ∧ bytes_ok b ∧ zlen b ≤ PTRDIFF_MAX | None => True end.

Lemma rsafe_node_attributes length : 0 ≤ length → rsafe (read_node_attributes length) (attributes_ok length).
Proof.
  intros Hl; unfold read_node_attributes; apply rsafe_if; intros Hpos; [|by apply rsafe_ret].
  intros r Hr; rewrite bind_get; destruct (_ || _) eqn:Hg; [exact (rsafe_reader_fail (A:=option (list Z)) MU_STATUS_BAD_DECODINGERROR _ ltac:(done) r Hr)|]; bool_hyps; destruct Hr as [Hbuf Hp].
  destruct (r_buffer r) as [b|] eqn:Eb; cbn [buffer_ok] in Hbuf; [|lia]; cbn [mbind option_bind].
  rewrite mem_load_Some by lia; rewrite bind_lift, bind_put; cbn [fst snd mret M_ret].
  rewrite to_unsigned_id by (zify_ints; lia); split.
  - split; cbn; [split; cbn; rewrite ?Eb; cbn; [done|lia]|done|done|lia].
  - cbn; rewrite zlen_ztake by (rewrite zlen_zdrop by lia; lia); split; [done|]; split; [apply bytes_ok_ztake, bytes_ok_zdrop, Hbuf|lia].
Qed.

Lemma rsafe_add_nodes_item : rsafe read_add_nodes_item add_nodes_item_ok.
Proof.
  unfold read_add_nodes_item; do 5 rsafe_step.
  eapply rsafe_bind; [apply rsafe_read_extension_object_header|]; intros [ty len] [_ Hlen]; cbn [snd] in Hlen.
  eapply rsafe_bind; [apply rsafe_node_attributes; lia|]; intros att Hatt; rsafe_auto.
  split; cbn; [by destruct H1|by destruct H2|done].
Qed.

Lemma rsafe_add_references_item : rsafe read_add_references_item add_references_item_ok.
Proof. unfold read_add_references_item; rsafe_auto; split_and!; cbn; try done; by destruct H3. Qed.

Lemma rsafe_delete_nodes_item : rsafe read_delete_nodes_item (λ _, True).
Proof. unfold read_delete_nodes_item; by rsafe_auto. Qed.

Lemma rsafe_delete_references_item : rsafe read_delete_references_item (λ _, True).
Proof. unfold read_delete_references_item; by rsafe_auto. Qed.

Lemma rsafe_items {A} n (item : Rd A) P : rsafe item P →
  rsafe (count ← read_item_count n; rd_list (Z.to_nat count) item) (λ l, zlen l ≤ Z.max 0 n ∧ Forall P l).
Proof.
  intros Hi; eapply rsafe_bind; [apply rsafe_item_count|]; intros c Hc; eapply rsafe_mono; [by apply rsafe_rd_list|].
  cbv beta in Hc; intros l [Hl Hf]; split; [rewrite (zlen_of_length l _ Hl); lia|done].
Qed.

(** ** Operations on the table *)

Section operations.
  Context {caps : BuildCaps} {Hcaps : BuildCapsOk caps}.

Definition space_good (sp : mu_dynamic_address_space_t) : Prop := space_ok sp ∧ ∃ nodes refs, denotes sp nodes refs.

Definition sp_safe {A} (m : Sp A) (Q : A → Prop) : Prop :=
  ∀ sp, space_good sp → ∃ a sp', m sp = (Ok a, sp') ∧ space_good sp' ∧ Q a.

Lemma sp_safe_items {A B} (op : A → Sp B) (P : A → Prop) (Q : B → Prop) items :
  (∀ a, P a → sp_safe (op a) Q) → Forall P items → sp_safe (process_items op items) (λ l, length l = length items ∧ Forall Q l).
Proof.
  intros Hop; induction 1 as [|a items Ha _ IH]; intros sp Hsp; cbn [process_items]; [by eexists _, sp|].
  destruct (Hop a Ha sp Hsp) as (b & sp1 & E1 & H1 & Hb); rewrite (bind_ok _ _ _ _ _ E1).
  destruct (IH sp1 H1) as (l & sp2 & E2 & H2 & Hl & Hf); rewrite (bind_ok _ _ _ _ _ E2).
  eexists _, sp2; split; [done|]; split; [done|]; cbn; split; [lia|by constructor].
Qed.

(** A result of AddNodes: an identifier that can be read through its pointer
    in every later state. *)
Definition added_ok (result : Z * option stored_nodeid_t) : Prop :=
  ∀ id, result.2 = Some id → ∃ i, Z.of_nat i < MU_MAX_DYNAMIC_NODES ∧ stored_id_ok string_nodeid_storage i id.

Lemma sp_safe_add_node item : add_nodes_item_ok item → sp_safe (add_node item) added_ok.
Proof.
  intros Hitem sp (Hsp & nodes & refs & Hd); pose proof (so_nodes_count sp Hsp); pose proof (de_nodes_count _ _ _ Hd) as Hl.
  destruct (add_node_ok sp nodes refs item Hsp Hd Hitem) as (status & t & sp' & E & Hsp' & H').
  eexists _, sp'; split; [exact E|]; destruct (added_node item (zlen nodes)) as [node|] eqn:Ea.
  - destruct H' as (-> & Hd' & id & -> & Hid & _); split; [by split; [|exists (nodes ++ [node]), refs]|].
    intros ? [= <-]; exists (length nodes); split; [|done].
    pose proof (so_nodes_count sp' Hsp'); pose proof (de_nodes_count _ _ _ Hd') as Hl'; rewrite zlen_app in Hl'.
    change (zlen [node]) with 1 in Hl'; unfold zlen in *; lia.
  - destruct H' as (_ & -> & ->); split; [by split; [|exists nodes, refs]|done].
Qed.

Lemma sp_safe_op op : nm_op_ok op → sp_safe (run_op op) (λ _, True).
Proof.
  intros Hop sp (Hsp & nodes & refs & Hd).
  destruct (run_op_refines op sp nodes refs Hsp Hd Hop) as (status & sp' & nodes' & refs' & E & Hsp' & Hd' & _).
  eexists _, sp'; split; [exact E|]; split; [by split; [|exists nodes', refs']|done].
Qed.

Lemma sp_safe_load_result result : added_ok result → sp_safe (load_result result) (λ res, nodeid_ok res.2).
Proof.
  intros Hres sp Hgood; unfold load_result; rewrite bind_get; destruct result as [status [id|]].
  2:{ eexists _, sp; split; [reflexivity|]; split; [done|]; split; cbn; ranges; lia. }
  destruct (Hres id eq_refl) as (i & Hi & [Hns Hid]); unfold load_nodeid.
  destruct (sn_identifier id) as [n|s|]; [| |done].
  - rewrite bind_lift; eexists _, sp; split; [reflexivity|]; split; [done|]; by split.
  - destruct Hgood as [Hsp Hd]; destruct (load_string_ok sp string_nodeid_storage i s (so_storage sp Hsp) Hid Hi)
      as (v & -> & _ & Hv); cbn [mbind option_bind]; rewrite bind_lift; eexists _, sp; split; [reflexivity|].
    split; [by split|]; split; cbn; [done|]; pose proof caps_string_nodeid.
    destruct Hv as [->|(d & -> & Hb & Hl)]; split; cbn; try (ranges; lia); [by split|].
    pose proof (zlen_nonneg d); unfold row_length in Hl; ranges; lia.
Qed.
End operations.

(** ** Refinement of a sequence of operations *)

Section sequences.
  Context {caps : BuildCaps} {Hcaps : BuildCapsOk caps}.

(** The abstract table run over a list of operations. *)
Inductive nm_run : list nm_op → list mu_node_t → list mu_dynamic_reference_t → list Z →
    list mu_node_t → list mu_dynamic_reference_t → Prop :=
| nm_run_nil nodes refs : nm_run [] nodes refs [] nodes refs
| nm_run_cons op ops nodes refs status nodes' refs' statuses nodes'' refs'' :
    nm_step op nodes refs status nodes' refs' → nm_run ops nodes' refs' statuses nodes'' refs'' →
    nm_run (op :: ops) nodes refs (status :: statuses) nodes'' refs''.

(** C18: the dynamic address space refines two plain lists. From a well-formed
    table that denotes the nodes [nodes] and the references [refs], any
    sequence of AddNodes, DeleteNodes, AddReferences and DeleteReferences items
    completes; the statuses are those of the abstract table, in which an item
    appends exactly the octets the client sent, deleting a node removes the
    first node with that NodeId and every reference from or to it, and a
    refused item changes nothing; and afterwards the table is well formed
    again and denotes the abstract lists, although entries and their strings
    have been moved between storage rows. The references Browse reads are the
    abstract ones. *)
Theorem node_management_refines ops sp nodes refs :
  Forall nm_op_ok ops → space_ok sp → denotes sp nodes refs →
  ∃ statuses sp' nodes' refs', process_items run_op ops sp = (Ok statuses, sp') ∧
    nm_run ops nodes refs statuses nodes' refs' ∧ space_ok sp' ∧ denotes sp' nodes' refs' ∧
    live_references sp' = Some refs'.
Proof.
  intros Hops; revert sp nodes refs; induction Hops as [|op ops Hop _ IH]; intros sp nodes refs Hsp Hd.
  - exists [], sp, nodes, refs; split; [reflexivity|]; split; [constructor|]; split; [done|]; split; [done|].
    by apply (live_references_denoted sp nodes).
  - destruct (run_op_refines op sp nodes refs Hsp Hd Hop) as (status & sp1 & nodes1 & refs1 & E & Hsp1 & Hd1 & Hstep).
    destruct (IH sp1 nodes1 refs1 Hsp1 Hd1) as (statuses & sp2 & nodes2 & refs2 & E2 & Hrun & Hrest).
    exists (status :: statuses), sp2, nodes2, refs2; cbn [process_items].
    rewrite (bind_ok _ _ _ _ _ E), (bind_ok _ _ _ _ _ E2); split; [reflexivity|]; split; [by econstructor|done].
Qed.
End sequences.

(** ** Handlers *)

Section handlers.
  Context {caps : BuildCaps} {Hcaps : BuildCapsOk caps} {Rest : Type} {host : NodeManagementHost Rest}.
  Context {laws : NodeManagementHostLaws Rest}.

(** The table is well formed and Browse sees its references. *)
Definition nm_server_ok (s : mu_server_t Rest) : Prop :=
  space_good (host_space (sv_rest s)) ∧ live_references (host_space (sv_rest s)) = Some (sv_dynamic_references s).

(** The two servers differ in the dynamic address space only. *)
Definition nm_frame (s s' : mu_server_t Rest) : Prop := ∀ sp, set_space s' sp = set_space s sp.

#[local] Instance nm_frame_preorder : PreOrder nm_frame.
Proof. split; [by intros s sp|]; intros a b c Hab Hbc sp; by rewrite Hbc, Hab. Qed.

Abbreviation nm_triple := (triple nm_server_ok nm_frame (λ _, True)).

Lemma set_space_frame s sp : nm_frame s (set_space s sp).
Proof. intros sp'; unfold set_space; cbn; by rewrite host_space_set_set. Qed.

Lemma set_space_ok s sp : space_good sp → nm_server_ok (set_space s sp).
Proof.
  intros Hsp; unfold nm_server_ok, set_space; cbn; rewrite host_space_set; split; [done|].
  destruct Hsp as (Hok & nodes & refs & Hd); by rewrite (live_references_denoted sp nodes refs Hok Hd).
Qed.

Lemma striple_space {A} (m : Sp A) Q : sp_safe m Q → striple nm_server_ok nm_frame (λ _, True) (space m) (λ a _, Q a).
Proof.
  intros Hm s [Hsp _] _; destruct (Hm _ Hsp) as (a & sp & E & Hsp' & Ha); unfold space; rewrite E; cbn [fst snd].
  split; [by apply set_space_ok|]; split; [apply set_space_frame|done].
Qed.

(** The access check, then the request, the table and the response. *)
Lemma triple_allowed {B} I (R : relation (mu_server_t Rest)) `{!PreOrder R} (k : unit → H Rest B) Q :
  (∀ x, triple I R (λ _, True) (k x) Q) → triple I R (λ _, True) (node_management_allowed ≫= k) Q.
Proof.
  intros Hk; eapply triple_bind; [exact _| |exact Hk]; unfold node_management_allowed.
  eapply (triple_server _ _ _ _ (λ _ _, True)); [intros s Hs _; cbn; split; [done|]; by split|].
  intros b; apply triple_if; intros _; [by apply triple_fail|by apply triple_ret].
Qed.

Lemma triple_items {A B} (decode : Rd (list A)) (P : A → Prop) n (op : A → Sp B) (Q : B → Prop) (k : list B → H Rest unit) :
  rsafe decode (λ l, zlen l ≤ n ∧ Forall P l) → (∀ a, P a → sp_safe (op a) Q) →
  (∀ results, Forall Q results → nm_triple (k results) (λ _ _, True)) →
  nm_triple (items ← rd decode; results ← sv (space (process_items op items)); k results) (λ _ _, True).
Proof.
  intros Hd Hop Hk; eapply triple_read; [exact _|exact Hd|]; intros items [_ Hitems].
  eapply triple_server; [exact _|eapply striple_space, sp_safe_items; [exact Hop|exact Hitems]|]; intros results.
  apply (triple_pure _ _ (length results = length items ∧ Forall Q results)); intros [_ Hr]; by apply Hk.
Qed.

Lemma wsafe_status_array results : wsafe (write_status_array results).
Proof.
  unfold write_status_array; wsafe_auto; apply wsafe_wr_list, Forall_forall; intros; apply wsafe_write_statuscode.
Qed.

Lemma wsafe_add_nodes_response results : Forall (λ r, nodeid_ok r.2) results → wsafe (mu_add_nodes_response_encode results).
Proof.
  intros Hr; unfold mu_add_nodes_response_encode; wsafe_auto; apply wsafe_wr_list; eapply Forall_impl; [exact Hr|].
  intros r Hn; unfold write_add_nodes_result; wsafe_auto.
Qed.

Lemma triple_status results : nm_triple (wr (write_status_array results)) (λ _ _, True).
Proof. apply (triple_wr nm_server_ok nm_frame (λ _, True)), wsafe_status_array. Qed.

Lemma handle_with_safe I (R : relation (mu_server_t Rest)) `{!PreOrder R} id process :
  u32_range id → triple I R (λ _, True) process (λ _ _, True) →
  triple I R (λ _, True) (handle_with id process) (λ _ _, True).
Proof.
  intros Hid Hp; unfold handle_with; eapply triple_read; [exact _|apply rsafe_request_header_decode|]; intros req _.
  apply triple_write; [exact _|by apply wsafe_write_response_prefix|]; intros [].
  eapply triple_bind; [exact _|exact Hp|]; intros []; apply (triple_finish I R (λ _, True)).
Qed.

Lemma add_nodes_safe : nm_triple handle_add_nodes (λ _ _, True).
Proof.
  apply handle_with_safe; [exact _|by ranges|]; apply triple_allowed; [exact _|]; intros _.
  eapply triple_items; [apply rsafe_items, rsafe_add_nodes_item|apply sp_safe_add_node|]; intros results Hr.
  eapply triple_server; [exact _|eapply striple_space, sp_safe_items; [apply sp_safe_load_result|exact Hr]|]; intros loaded.
  apply (triple_pure _ _ (length loaded = length results ∧ Forall (λ r, nodeid_ok r.2) loaded)); intros [_ Hl].
  apply (triple_wr nm_server_ok nm_frame (λ _, True)), wsafe_add_nodes_response, Hl.
Qed.

Lemma delete_nodes_safe : nm_triple handle_delete_nodes (λ _ _, True).
Proof.
  apply handle_with_safe; [exact _|by ranges|]; apply triple_allowed; [exact _|]; intros _.
  eapply triple_items; [apply rsafe_items, rsafe_delete_nodes_item|by intros item _; apply (sp_safe_op (DeleteNode item))|].
  intros results _; apply triple_status.
Qed.

Lemma add_references_safe : nm_triple handle_add_references (λ _ _, True).
Proof.
  apply handle_with_safe; [exact _|by ranges|]; apply triple_allowed; [exact _|]; intros _.
  eapply triple_items; [apply rsafe_items, rsafe_add_references_item|by intros item Hi; apply (sp_safe_op (AddReference item))|].
  intros results _; apply triple_status.
Qed.

Lemma delete_references_safe : nm_triple handle_delete_references (λ _ _, True).
Proof.
  apply handle_with_safe; [exact _|by ranges|]; apply triple_allowed; [exact _|]; intros _.
  eapply triple_items; [apply rsafe_items, rsafe_delete_references_item|by intros item _; apply (sp_safe_op (DeleteReference item))|].
  intros results _; apply triple_status.
Qed.

Inductive nm_handler : H Rest unit → Prop :=
| nm_add_nodes : nm_handler handle_add_nodes
| nm_add_references : nm_handler handle_add_references
| nm_delete_nodes : nm_handler handle_delete_nodes
| nm_delete_references : nm_handler handle_delete_references.

(** With the switch of the configuration off, the server is only read. *)
Lemma denied_process id process : u32_range id →
  triple (λ s : mu_server_t Rest, host_allow_node_management (sv_rest s) = false) eq (λ _, True)
    (handle_with id (node_management_allowed;; process)) (λ _ _, True).
Proof.
  intros Hid; apply handle_with_safe; [exact _|done|].
  eapply (triple_bind _ _ _ _ _ (λ _ _, False)); [|intros a st _ []].
  unfold node_management_allowed; eapply (triple_server _ _ _ _ (λ b _, b = false)); [intros s Hs _; split; [exact Hs|]; by split|].
  intros b; apply (triple_pure _ _ (b = false)); intros ->; cbn [negb]; apply triple_fail; [exact _|vm_compute; discriminate].
Qed.

(** The four NodeManagement handlers are safe from octets to octets. From
    a server whose dynamic address space is well formed, whatever the request
    buffer and the response buffer hold, the handler reaches no undefined
    behaviour, the address space stays well formed, the references Browse
    traverses are exactly those of the table, nothing else of the server
    changes, and only the response buffer is written. Unless the configuration
    allows node management the server does not change at all. *)
Theorem node_management_handlers_safe handler (s : mu_server_t Rest) body response :
  nm_handler handler → nm_server_ok s →
  bytes_ok body → zlen body ≤ PTRDIFF_MAX → bytes_ok response → zlen response ≤ PTRDIFF_MAX →
  let reader := mu_binary_reader_init (Some body) (zlen body) in
  let writer := mu_binary_writer_init (Some response) (zlen response) in
  let (outcome, st) := handler (mk_hstate s reader writer 0) in
  outcome ≠ Fault ∧ nm_server_ok (h_server st) ∧ nm_frame s (h_server st) ∧ writer_step writer (h_writer st) ∧
  (host_allow_node_management (sv_rest s) = false → h_server st = s).
Proof.
  intros Hh Hs Hb Hbl Hr Hrl reader writer; pose proof (reader_init_ok body Hbl Hb) as Hrd.
  pose proof (writer_init_ok response Hrl Hr) as Hwr; set (st0 := mk_hstate s reader writer 0).
  assert (Hsafe : nm_triple handler (λ _ _, True))
    by (destruct Hh; [apply add_nodes_safe|apply add_references_safe|apply delete_nodes_safe|apply delete_references_safe]).
  assert (Hdeny : triple (λ s, host_allow_node_management (sv_rest s) = false) eq (λ _, True) handler (λ _ _, True))
    by (destruct Hh; apply denied_process; by ranges).
  assert (Hlen : 0 ≤ h_response_length st0 ≤ w_length (h_writer st0)) by (split; [done|apply zlen_nonneg]).
  assert (Hctx : ctx_ok nm_server_ok st0) by (by split).
  destruct (Hsafe st0 Hctx Logic.I) as [[_ Hw Hs' Hf] Ho]; pose proof (Hdeny st0) as Hd.
  destruct (handler st0) as [outcome st]; cbn [fst snd] in *; split; [by intros ->|]; split; [exact Hs'|].
  split; [exact Hf|]; split; [exact Hw|]; intros Hoff; symmetry; apply Hd; [by split|done].
Qed.
End handlers.

(** ** A concrete table *)

#[export] Instance space_host : NodeManagementHost (mu_dynamic_address_space_t * bool) := {|
  host_space := fst;
  host_set_space x sp := (sp, snd x);
  host_allow_node_management := snd
|}.

#[export] Instance space_host_laws : NodeManagementHostLaws (mu_dynamic_address_space_t * bool).
Proof. split; [done..| |done]; by intros []. Qed.

Definition demo_string_id (s : list Z) : mu_nodeid_t := mk_nodeid 1 (MU_NODEID_STRING (mk_string (zlen s) (Some s))).

Definition demo_expanded (id : mu_nodeid_t) : mu_expanded_nodeid_t := mk_expanded_nodeid id null_string 0.

(** Two nodes "a" and "bc" with a reference between them; then the first is
    deleted, and the second moves into its row. *)
Definition demo_add (id name : list Z) : nm_op :=
  AddNode (mk_add_nodes_item (base_nodeid 85) (base_nodeid 35) (demo_expanded (demo_string_id id))
    (mk_qualified_name 1 (mk_string (zlen name) (Some name))) 1 (base_nodeid 0) 0 None (demo_expanded (base_nodeid 61))).

Definition demo_ops : list nm_op :=
  [demo_add [97] [65; 65]; demo_add [98; 99] [66; 67; 68];
   AddReference (mk_add_references_item (demo_string_id [97]) (base_nodeid 35) true null_string
     (demo_expanded (demo_string_id [98; 99])) 1);
   AddReference (mk_add_references_item (demo_string_id [98; 99]) (base_nodeid 35) true null_string
     (demo_expanded (base_nodeid 84)) 1);
   DeleteNode (mk_delete_nodes_item (demo_string_id [97]) true)].

Lemma demo_wire d : bytes_ok d → zlen d ≤ MU_MAX_ENCODED_STRING_LENGTH → wire_string (mk_string (zlen d) (Some d)).
Proof. intros ? ?; right; by exists d. Qed.

Lemma demo_id_wire d : bytes_ok d → zlen d ≤ MU_MAX_ENCODED_STRING_LENGTH → wire_nodeid (demo_string_id d).
Proof. intros; split; [by ranges|by apply demo_wire]. Qed.

Lemma demo_base_wire n : u32_range n → wire_nodeid (base_nodeid n).
Proof. intros; split; [by ranges|done]. Qed.

Lemma demo_ops_ok : Forall nm_op_ok demo_ops.
Proof.
  unfold demo_ops; repeat (apply Forall_cons_iff; split); [..|by apply Forall_nil];
    try (split; [apply demo_id_wire|apply demo_wire|exact Logic.I]); try exact Logic.I; try (by apply bytes_okb); try (by vm_compute).
  all: split; [|split]; first [apply demo_id_wire; [by apply bytes_okb|by vm_compute]|apply demo_base_wire; by ranges].
Qed.

Lemma node_management_refines_witness :
  ∃ sp', process_items (run_op (caps := embedded_caps)) demo_ops (@init_space embedded_caps) = (Ok (repeat 0 5), sp') ∧
    da_nodes_count sp' = 1 ∧
    live_references sp' = Some [mk_dynamic_reference (demo_string_id [98; 99])
                                  (mk_reference (base_nodeid 35) (base_nodeid 84) true)].
Proof.
  destruct (init_space_ok (caps := embedded_caps)) as [Hsp Hd].
  destruct (node_management_refines demo_ops _ _ _ demo_ops_ok Hsp Hd) as (statuses & sp' & nodes & refs & E & _ & _ & _ & Hl).
  pose proof (f_equal fst E) as E1; pose proof (f_equal snd E) as E2; cbn [fst snd] in E1, E2.
  exists sp'; rewrite E; rewrite <- E1, <- E2; split; [|split]; [|vm_compute; reflexivity..].
  f_equal; vm_compute; reflexivity.
Defined.

(** AddNodes of an object "A" under the Objects folder, identifier to be
    chosen by the server. *)
Definition demo_add_nodes_request : list Z :=
  ztake 29 demo_request_body ++ [1; 0; 0; 0; 0; 85; 0; 35; 0; 0; 1; 0; 1; 0; 0; 0; 65; 1; 0; 0; 0; 0; 0; 0; 0; 61].

Definition demo_nm_server (allow : bool) : mu_server_t (mu_dynamic_address_space_t * bool) :=
  let s := demo_server in
  mk_server (sv_secure_channel s) (sv_sessions s) (sv_active_session s) (sv_address_space s) (sv_user_index s)
    (sv_runtime_space s) [] (sv_write_handler s) (sv_writes s) (@init_space embedded_caps, allow).

Definition demo_add_nodes (allow : bool) : result unit * hstate (mu_dynamic_address_space_t * bool) :=
  handle_add_nodes (caps := embedded_caps)
    (mk_hstate (demo_nm_server allow)
       (mu_binary_reader_init (Some demo_add_nodes_request) (zlen demo_add_nodes_request))
       (mu_binary_writer_init (Some (repeat 0 128)) (zlen (repeat 0 128))) 0).

Lemma node_management_handlers_safe_witness :
  (demo_add_nodes true).1 = Ok tt ∧
  option_map (load_nodeid (host_space (sv_rest (h_server (demo_add_nodes true).2))))
    (sd_node_id <$> da_nodes (host_space (sv_rest (h_server (demo_add_nodes true).2))) !! 0%nat)
  = Some (Some (mk_nodeid 1 (MU_NODEID_NUMERIC 1000))) ∧
  nm_frame (demo_nm_server true) (h_server (demo_add_nodes true).2) ∧
  (demo_add_nodes false).1 = Err MU_STATUS_BAD_USERACCESSDENIED ∧
  h_server (demo_add_nodes false).2 = demo_nm_server false.
Proof.
  assert (Hok : ∀ b, nm_server_ok (caps := embedded_caps) (demo_nm_server b)).
  { intros b; split; [|reflexivity]; destruct (init_space_ok (caps := embedded_caps)); split; [done|]; by exists [], []. }
  pose proof (λ b, node_management_handlers_safe (caps := embedded_caps) handle_add_nodes (demo_nm_server b)
    demo_add_nodes_request (repeat 0 128) nm_add_nodes (Hok b) ltac:(by apply bytes_okb) ltac:(vm_compute; discriminate)
    ltac:(by apply bytes_okb) ltac:(vm_compute; discriminate)) as Hsafe.
  pose proof (Hsafe true) as Ht; pose proof (Hsafe false) as Hf; clear Hsafe; cbv zeta in Ht, Hf.
  split; [vm_compute; reflexivity|]; split; [vm_compute; reflexivity|]; unfold demo_add_nodes.
  destruct (handle_add_nodes (mk_hstate (demo_nm_server true) _ _ _)) as [x st].
  split; [apply Ht|]; split; [vm_compute; reflexivity|].
  destruct (handle_add_nodes (mk_hstate (demo_nm_server false) _ _ _)) as [x' st']; by apply Hf.
Defined.
