(* ===== verification/Crypto.v ===== *)
(** * The crypto adapter, key derivation and certificates

    [include/muc_opcua/platform.h] (the table of functions of a crypto
    adapter), [src/security/key_derivation.c], the key management of
    [sym_chunk.c], [certificate.c] and [trustlist.c]. The adapter's functions
    are parameters; [CryptoContract] states what [platform.h] documents of
    them. *)

From S2P Require Export SecureChannel.

Definition MU_SHA256_LENGTH : Z := 32.
Definition MU_THUMBPRINT_LENGTH : Z := 20.
Definition MU_KDF_MAX_SEED : Z := 64.
Definition MU_CIPHER_CTX_SIZE : Z := 512.
Definition MU_B256S256_MIN_ASYMMETRIC_KEY_BITS : Z := 2048.
Definition MU_B256S256_MAX_ASYMMETRIC_KEY_BITS : Z := 4096.

(** ** The adapter *)

(** The functions of an adapter, each of which may be absent; [Ctx] is what
    its [context] leads to. A function that fills a buffer returns the octets
    it writes; one with an in/out length gets the capacity. *)
Record crypto_functions (Ctx : Type) := mk_crypto_functions {
  cf_sha256 : option (list Z → M Ctx (list Z));
  cf_hmac_sha256 : option (list Z → list Z → M Ctx (list Z));
  cf_aes256_cbc_encrypt : option (list Z → list Z → list Z → M Ctx (list Z));
  cf_aes256_cbc_decrypt : option (list Z → list Z → list Z → M Ctx (list Z));
  cf_aes128_cbc_encrypt : option (list Z → list Z → list Z → M Ctx (list Z));
  cf_aes128_cbc_decrypt : option (list Z → list Z → list Z → M Ctx (list Z));
  cf_cipher_ctx_init : option (list Z → list Z → M Ctx (list Z));
  cf_aes256_cbc_encrypt_ctx : option (list Z → list Z → list Z → M Ctx (list Z * list Z));
  cf_aes256_cbc_decrypt_ctx : option (list Z → list Z → list Z → M Ctx (list Z * list Z));
  cf_cipher_ctx_free : option (list Z → M Ctx unit);
  cf_rsa_sha256_sign : option (list Z → Z → M Ctx (list Z));
  cf_rsa_sha256_verify : option (list Z → list Z → list Z → M Ctx unit);
  cf_rsa_oaep_decrypt : option (list Z → Z → M Ctx (list Z));
  cf_rsa_oaep_encrypt : option (list Z → list Z → Z → M Ctx (list Z));
  cf_rsa_pss_sha256_sign : option (list Z → Z → M Ctx (list Z));
  cf_rsa_pss_sha256_verify : option (list Z → list Z → list Z → M Ctx unit);
  cf_rsa_oaep_sha256_decrypt : option (list Z → Z → M Ctx (list Z));
  cf_rsa_oaep_sha256_encrypt : option (list Z → list Z → Z → M Ctx (list Z));
  cf_get_own_certificate : option (M Ctx (list Z));
  cf_get_certificate_key_bits : option (list Z → M Ctx Z);
  cf_get_certificate_thumbprint : option (list Z → M Ctx (list Z));
  cf_verify_certificate_validity : option (list Z → M Ctx unit)
}.
Arguments cf_sha256 {_}.
Arguments cf_hmac_sha256 {_}.
Arguments cf_aes256_cbc_encrypt {_}.
Arguments cf_aes256_cbc_decrypt {_}.
Arguments cf_aes128_cbc_encrypt {_}.
Arguments cf_aes128_cbc_decrypt {_}.
Arguments cf_cipher_ctx_init {_}.
Arguments cf_aes256_cbc_encrypt_ctx {_}.
Arguments cf_aes256_cbc_decrypt_ctx {_}.
Arguments cf_cipher_ctx_free {_}.
Arguments cf_rsa_sha256_sign {_}.
Arguments cf_rsa_sha256_verify {_}.
Arguments cf_rsa_oaep_decrypt {_}.
Arguments cf_rsa_oaep_encrypt {_}.
Arguments cf_rsa_pss_sha256_sign {_}.
Arguments cf_rsa_pss_sha256_verify {_}.
Arguments cf_rsa_oaep_sha256_decrypt {_}.
Arguments cf_rsa_oaep_sha256_encrypt {_}.
Arguments cf_get_own_certificate {_}.
Arguments cf_get_certificate_key_bits {_}.
Arguments cf_get_certificate_thumbprint {_}.
Arguments cf_verify_certificate_validity {_}.

(** Calling an absent function is undefined. *)
Definition call {S F A} (f : option F) (run : F → M S A) : M S A :=
  match f with Some f => run f | None => fault end.

Section adapter.
  Context {Ctx : Type} (crypto : crypto_functions Ctx).

(** ** [key_derivation.c] *)

(** Both operands hold [n] octets. The loop ors the differences together. *)
Definition mu_secure_memeq (a b : list Z) (n : Z) : option bool :=
  a ← mem_load a 0 n;
  b ← mem_load b 0 n;
  Some (fold_left Z.lor (zip_with Z.lxor a b) 0 =? 0).

(** One turn of the expansion loop appends a block and advances [A(i)]. *)
Fixpoint p_sha256_loop (hmac : list Z → list Z → M Ctx (list Z)) (fuel : nat) (secret seed a : list Z)
    (output_length : Z) (output : list Z) : M Ctx (list Z) :=
  match fuel with
  | O => fault
  | S fuel =>
      if zlen output <? output_length then
        a_bytes ← lift_option (mem_load a 0 MU_SHA256_LENGTH);
        block ← hmac secret (a_bytes ++ seed);
        let remaining := output_length - zlen output in
        let take := if MU_SHA256_LENGTH <? remaining then MU_SHA256_LENGTH else remaining in
        bytes ← lift_option (mem_load block 0 take);
        a ← hmac secret a_bytes;
        p_sha256_loop hmac fuel secret seed a output_length (output ++ bytes)
      else mret output
  end.

Definition mu_p_sha256 (secret : option (list Z)) (secret_length : Z) (seed : option (list Z)) (seed_length : Z)
    (output_length : Z) : M Ctx (list Z) :=
  match cf_hmac_sha256 crypto, secret, seed with
  | Some hmac, Some secret, Some seed =>
      if MU_KDF_MAX_SEED <? seed_length then fail MU_STATUS_BAD_INTERNALERROR
      else
        secret ← lift_option (mem_load secret 0 secret_length);
        seed ← lift_option (mem_load seed 0 seed_length);
        a ← hmac secret seed;
        p_sha256_loop hmac (S (Z.to_nat output_length)) secret seed a output_length []
  | _, _, _ => fail MU_STATUS_BAD_INTERNALERROR
  end.

(** ** Key sets ([sym_chunk.c]) *)

Definition on_ctx {A} (m : M Ctx A) : M (Ctx * mu_sym_keys_t) A := λ s,
  let '(x, ctx) := m s.1 in (x, (ctx, s.2)).

Definition set_keys (keys : mu_sym_keys_t) : M (Ctx * mu_sym_keys_t) unit := λ s, (Ok tt, (s.1, keys)).

(** [memcpy] into a field of the key set. *)
Definition fill (field bytes : list Z) : M (Ctx * mu_sym_keys_t) (list Z) := lift_option (mem_store field 0 bytes).

Definition mu_sym_keys_derive (policy : mu_security_policy_id_t) (secret : option (list Z)) (secret_len : Z)
    (seed : option (list Z)) (seed_len : Z) : M (Ctx * mu_sym_keys_t) unit :=
  let zeroed := mk_sym_keys policy (repeat 0 32) (repeat 0 32) (repeat 0 16) (repeat 0 (Z.to_nat MU_CIPHER_CTX_SIZE))
                  None false in
  set_keys zeroed;;
  let sig_key_len := mu_security_policy_signature_key_length policy in
  let enc_key_len := mu_security_policy_encryption_key_length policy in
  let iv_len := mu_security_policy_encryption_block_size policy in
  let derived_len := sig_key_len + enc_key_len + iv_len in
  if 128 <? derived_len then fail MU_STATUS_BAD_INTERNALERROR
  else
    material ← on_ctx (mu_p_sha256 secret secret_len seed seed_len derived_len);
    signing_key ← lift_option (mem_load material 0 sig_key_len) ≫= fill (repeat 0 32);
    encrypting_key ← lift_option (mem_load material sig_key_len enc_key_len) ≫= fill (repeat 0 32);
    iv ← lift_option (mem_load material (sig_key_len + enc_key_len) iv_len) ≫= fill (repeat 0 16);
    set_keys (mk_sym_keys policy signing_key encrypting_key iv (sk_cipher_ctx zeroed) None false).

(** The adapter frees the context of a key set it was prepared for; the server
    has one adapter. *)
Definition release_cipher : M (Ctx * mu_sym_keys_t) unit := λ s,
  let '(freed, keys) := mu_sym_keys_release_cipher s.2 in
  let free := match freed, cf_cipher_ctx_free crypto with
              | storage :: _, Some free => free storage
              | _, _ => mret tt
              end in
  let '(_, ctx) := free s.1 in (Ok tt, (ctx, keys)).

Definition with_cipher (keys : mu_sym_keys_t) (adapter : option mu_crypto_adapter_t) (storage : list Z) (valid : bool)
    : mu_sym_keys_t :=
  mk_sym_keys (sk_policy keys) (sk_signing_key keys) (sk_encrypting_key keys) (sk_iv keys) storage adapter valid.

Definition init_cipher (adapter : option mu_crypto_adapter_t) (init : list Z → list Z → M Ctx (list Z))
    : M (Ctx * mu_sym_keys_t) unit := λ s,
  match init (sk_encrypting_key s.2) (sk_cipher_ctx s.2) s.1 with
  | (Ok storage, ctx) => (Ok tt, (ctx, with_cipher s.2 adapter storage true))
  | (Err _, ctx) => (Ok tt, (ctx, with_cipher s.2 adapter (sk_cipher_ctx s.2) false))
  | (Fault, ctx) => (Fault, (ctx, s.2))
  end.

Definition mu_sym_keys_prepare_cipher (present : bool) : M (Ctx * mu_sym_keys_t) unit :=
  let adapter := if present then Some (mk_crypto_adapter (negb (is_null (cf_cipher_ctx_free crypto)))) else None in
  release_cipher;;
  s ← get_state;
  let keys := s.2 in
  if bool_decide (sk_policy keys = MU_SECURITY_POLICY_AES128_SHA256_RSAOAEP_ID)
  then set_keys (with_cipher keys adapter (sk_cipher_ctx keys) false)
  else
    match (if present then cf_cipher_ctx_init crypto else None) with
    | Some init => init_cipher adapter init
    | None => set_keys (with_cipher keys adapter (sk_cipher_ctx keys) false)
    end.

(** ** [certificate.c] *)

Definition secured_policy (policy : mu_security_policy_id_t) : bool :=
  match policy with
  | MU_SECURITY_POLICY_BASIC256SHA256_ID | MU_SECURITY_POLICY_AES128_SHA256_RSAOAEP_ID
  | MU_SECURITY_POLICY_AES256_SHA256_RSAPSS_ID => true
  | _ => false
  end.

Definition mu_certificate_thumbprint (certificate : option (list Z)) : M Ctx (list Z) :=
  match cf_get_certificate_thumbprint crypto, certificate with
  | Some thumbprint, Some certificate =>
      if zlen certificate =? 0 then fail MU_STATUS_BAD_INTERNALERROR else thumbprint certificate
  | _, _ => fail MU_STATUS_BAD_INTERNALERROR
  end.

(** A call whose failure is reported with another status. *)
Definition or_status {S A} (status : Z) (m : M S A) : M S A := λ s,
  match m s with (Err _, s') => (Err status, s') | o => o end.

Definition mu_certificate_validate (policy : mu_security_policy_id_t) (certificate : option (list Z)) : M Ctx unit :=
  if bool_decide (policy = MU_SECURITY_POLICY_NONE_ID) then mret tt
  else if negb (secured_policy policy) then fail MU_STATUS_BAD_SECURITYPOLICYREJECTED
  else
    match cf_get_certificate_key_bits crypto, certificate with
    | None, _ => fail MU_STATUS_BAD_INTERNALERROR
    | Some _, None => fail MU_STATUS_BAD_CERTIFICATEINVALID
    | Some key_bits, Some certificate =>
        if zlen certificate =? 0 then fail MU_STATUS_BAD_CERTIFICATEINVALID
        else
          bits ← or_status MU_STATUS_BAD_CERTIFICATEINVALID (key_bits certificate);
          if (bits <? MU_B256S256_MIN_ASYMMETRIC_KEY_BITS) || (MU_B256S256_MAX_ASYMMETRIC_KEY_BITS <? bits)
          then fail MU_STATUS_BAD_SECURITYCHECKSFAILED
          else
            match cf_verify_certificate_validity crypto with
            | None => fail MU_STATUS_BAD_CERTIFICATEINVALID
            | Some validity => validity certificate
            end
    end.

Definition mu_asym_signature_sign (policy : mu_security_policy_id_t) (data : list Z) (capacity : Z) : M Ctx (list Z) :=
  match (if mu_security_policy_uses_pss policy then cf_rsa_pss_sha256_sign crypto else cf_rsa_sha256_sign crypto) with
  | Some sign => sign data capacity
  | None => fail MU_STATUS_BAD_SECURITYCHECKSFAILED
  end.

Definition mu_asym_signature_verify (policy : mu_security_policy_id_t) (certificate data signature : list Z) : M Ctx unit :=
  match (if mu_security_policy_uses_pss policy then cf_rsa_pss_sha256_verify crypto else cf_rsa_sha256_verify crypto) with
  | Some verify => verify certificate data signature
  | None => fail MU_STATUS_BAD_SECURITYCHECKSFAILED
  end.
End adapter.

(** ** [trustlist.c] *)

(** The certificates of the list with their lengths; [memcmp] reads as many
    octets as the entry declares. *)
Record mu_trust_list_t := mk_trust_list { tl_entries : list (list Z * Z) }.

Fixpoint match_entries (entries : list (list Z * Z)) (cert_data : list Z) (cert_length : Z) : result unit :=
  match entries with
  | [] => Err MU_STATUS_BAD_SECURITYCHECKSFAILED
  | (certificate, length) :: entries =>
      if length =? cert_length then
        entry ← or_fault (mem_load certificate 0 cert_length);
        data ← or_fault (mem_load cert_data 0 cert_length);
        if bool_decide (entry = data) then Ok tt else match_entries entries cert_data cert_length
      else match_entries entries cert_data cert_length
  end.

Definition mu_trust_list_match (trust_list : option mu_trust_list_t) (cert_data : option (list Z)) (cert_length : Z)
    : result unit :=
  match trust_list, cert_data with
  | Some trust_list, Some cert_data =>
      if (zlen (tl_entries trust_list) =? 0) || (cert_length =? 0) then Err MU_STATUS_BAD_SECURITYCHECKSFAILED
      else match_entries (tl_entries trust_list) cert_data cert_length
  | _, _ => Err MU_STATUS_BAD_SECURITYCHECKSFAILED
  end.

(** ** What the code relies on *)

(** A call that returns what [Q] says or reports an error. *)
Definition delivers {Ctx A} (m : M Ctx A) (Q : A → Prop) : Prop := ∀ ctx, outcome_ok Q (m ctx).1.

(** What [platform.h] asks of the arguments of an AES function: a key field of
    32 octets (of which AES-128 takes the first 16), an initialisation vector
    of one block, and whole blocks of input. *)
Definition aes_input (key iv x : list Z) : Prop := zlen key = 32 ∧ zlen iv = 16 ∧ zlen x mod 16 = 0.

(** The documented behaviour of an adapter: HMAC is a function of key and data
    with 32 octets; AES-CBC keeps the length of whole blocks and decryption
    inverts encryption; a context initialised with a key encrypts like the key.
    Any call may fail. *)
Class CryptoContract {Ctx} (crypto : crypto_functions Ctx) := {
  hmac : list Z → list Z → list Z;
  aes : Z → list Z → list Z → list Z → list Z;
  aes_inv : Z → list Z → list Z → list Z → list Z;
  cipher_for : list Z → list Z → Prop;
  hmac_octets key data : zlen (hmac key data) = MU_SHA256_LENGTH ∧ bytes_ok (hmac key data);
  aes_octets n key iv x : bytes_ok x → zlen x mod 16 = 0 → zlen (aes n key iv x) = zlen x ∧ bytes_ok (aes n key iv x);
  aes_inv_octets n key iv x :
    bytes_ok x → zlen x mod 16 = 0 → zlen (aes_inv n key iv x) = zlen x ∧ bytes_ok (aes_inv n key iv x);
  aes_inverse n key iv x : bytes_ok x → zlen x mod 16 = 0 → aes_inv n key iv (aes n key iv x) = x;
  cc_hmac : ∃ f, cf_hmac_sha256 crypto = Some f ∧ ∀ key data, delivers (f key data) (λ m, m = hmac key data);
  cc_encrypt : ∃ f, cf_aes256_cbc_encrypt crypto = Some f ∧
    ∀ key iv x, aes_input key iv x → delivers (f key iv x) (λ y, y = aes 256 key iv x);
  cc_decrypt : ∃ f, cf_aes256_cbc_decrypt crypto = Some f ∧
    ∀ key iv x, aes_input key iv x → delivers (f key iv x) (λ y, y = aes_inv 256 key iv x);
  cc_encrypt128 f key iv x : cf_aes128_cbc_encrypt crypto = Some f → aes_input key iv x →
    delivers (f key iv x) (λ y, y = aes 128 key iv x);
  cc_decrypt128 f key iv x : cf_aes128_cbc_decrypt crypto = Some f → aes_input key iv x →
    delivers (f key iv x) (λ y, y = aes_inv 128 key iv x);
  cc_init f key storage : cf_cipher_ctx_init crypto = Some f → zlen key = 32 → delivers (f key storage) (cipher_for key);
  cc_encrypt_ctx f key storage iv x : cf_aes256_cbc_encrypt_ctx crypto = Some f → cipher_for key storage → aes_input key iv x →
    delivers (f storage iv x) (λ y, y.1 = aes 256 key iv x ∧ cipher_for key y.2);
  cc_decrypt_ctx f key storage iv x : cf_aes256_cbc_decrypt_ctx crypto = Some f → cipher_for key storage → aes_input key iv x →
    delivers (f storage iv x) (λ y, y.1 = aes_inv 256 key iv x ∧ cipher_for key y.2)
}.

(** An adapter whose symmetric functions are all there and never fail on such
    arguments. *)
Definition succeeds {Ctx A} (m : M Ctx A) : Prop := ∀ ctx, ∃ a ctx', m ctx = (Ok a, ctx').

Class CryptoReliable {Ctx} (crypto : crypto_functions Ctx) := {
  cr_hmac f key data : cf_hmac_sha256 crypto = Some f → succeeds (f key data);
  cr_encrypt f key iv x : cf_aes256_cbc_encrypt crypto = Some f → aes_input key iv x → succeeds (f key iv x);
  cr_decrypt f key iv x : cf_aes256_cbc_decrypt crypto = Some f → aes_input key iv x → succeeds (f key iv x);
  cr_encrypt128 : ∃ f, cf_aes128_cbc_encrypt crypto = Some f ∧ ∀ key iv x, aes_input key iv x → succeeds (f key iv x);
  cr_decrypt128 : ∃ f, cf_aes128_cbc_decrypt crypto = Some f ∧ ∀ key iv x, aes_input key iv x → succeeds (f key iv x);
  cr_encrypt_ctx f key storage iv x : cf_aes256_cbc_encrypt_ctx crypto = Some f → aes_input key iv x → succeeds (f storage iv x);
  cr_decrypt_ctx f key storage iv x : cf_aes256_cbc_decrypt_ctx crypto = Some f → aes_input key iv x → succeeds (f storage iv x)
}.

(** The value a reliable call returns. *)
Lemma fold_lor_0 l a : fold_left Z.lor l a = 0 ↔ a = 0 ∧ Forall (λ x, x = 0) l.
Proof.
  revert a; induction l as [|x l IH]; intros a; cbn [fold_left]; [split; [by intros ->|by intros [-> _]]|].
  rewrite IH, Z.lor_eq_0_iff, Forall_cons_iff; tauto.
Qed.

(** The constant-time comparison decides equality. *)
Lemma secure_memeq_spec a b n : zlen a = n → zlen b = n → mu_secure_memeq a b n = Some (bool_decide (a = b)).
Proof.
  intros Ha Hb; unfold mu_secure_memeq; rewrite !mem_load_all by done; cbn [mbind option_bind]; f_equal.
  apply eq_bool_prop_intro; rewrite bool_decide_spec, Is_true_true, Z.eqb_eq, fold_lor_0.
  assert (Hl : length a = length b) by (unfold zlen in *; lia); clear Ha Hb n; split.
  - intros [_ Hf]; revert b Hl Hf; induction a as [|x a IH]; intros [|y b] Hl Hf; try done; cbn in *.
    apply Forall_cons_iff in Hf as [Hx Hf]; f_equal; [by apply Z.lxor_eq|apply IH; [lia|done]].
  - intros <-; split; [done|]; clear Hl; induction a as [|x a IH]; cbn; [constructor|].
    constructor; [apply Z.lxor_nilpotent|done].
Qed.

Lemma delivers_succeeds {Ctx A} (m : M Ctx A) Q ctx : delivers m Q → succeeds m → ∃ a ctx', m ctx = (Ok a, ctx') ∧ Q a.
Proof. intros Hd Hs; destruct (Hs ctx) as (a & ctx' & E); specialize (Hd ctx); rewrite E in Hd; by exists a, ctx'. Qed.

(** A call that, unless it fails, returns [v]; if [rel] holds it does not
    fail. *)
Definition computes {Ctx A} (rel : Prop) (m : M Ctx A) (v : A) : Prop := delivers m (λ a, a = v) ∧ (rel → succeeds m).

Lemma computes_ret {Ctx A} rel (a : A) : computes rel (mret a : M Ctx A) a.
Proof. split; [by intros ctx|]; intros _ ctx; by exists a, ctx. Qed.

Lemma computes_bind {Ctx A B} rel (m : M Ctx A) (k : A → M Ctx B) v w :
  computes rel m v → computes rel (k v) w → computes rel (m ≫= k) w.
Proof.
  intros [Hm Hs] [Hk Hks]; split.
  - intros ctx; specialize (Hm ctx); unfold mbind, M_bind; destruct (m ctx) as [[a|e|] ctx']; cbn in *; [|done|done].
    subst a; apply Hk.
  - intros Hrel ctx; destruct (delivers_succeeds m _ ctx Hm (Hs Hrel)) as (a & ctx' & E & ->).
    destruct (Hks Hrel ctx') as (b & ctx'' & E'); exists b, ctx''; by rewrite (bind_ok _ _ _ _ _ E).
Qed.

Lemma computes_eq {Ctx A} rel (m : M Ctx A) v w : computes rel m v → v = w → computes rel m w.
Proof. by intros ? <-. Qed.

(** ** P_SHA256 *)

Section p_sha256.
  Context {Ctx : Type} {crypto : crypto_functions Ctx} {contract : CryptoContract crypto}.

(** RFC 5246: [A(0) = seed], [A(i+1) = HMAC(secret, A(i))], and the output is
    [HMAC(secret, A(1) + seed)], [HMAC(secret, A(2) + seed)], ... *)
Fixpoint A_ (secret seed : list Z) (i : nat) : list Z :=
  match i with O => seed | S i => hmac secret (A_ secret seed i) end.

Definition P_hash (secret seed : list Z) (blocks : nat) : list Z :=
  concat ((λ i, hmac secret (A_ secret seed (S i) ++ seed)) <$> seq 0 blocks).

Lemma P_hash_S secret seed i : P_hash secret seed (S i) = P_hash secret seed i ++ hmac secret (A_ secret seed (S i) ++ seed).
Proof. unfold P_hash; rewrite seq_S, fmap_app, concat_app; cbn; by rewrite app_nil_r. Qed.

Lemma P_hash_length secret seed i : zlen (P_hash secret seed i) = 32 * Z.of_nat i.
Proof.
  induction i as [|i IH]; [done|]; rewrite P_hash_S, zlen_app, IH.
  destruct (hmac_octets secret (A_ secret seed (S i) ++ seed)) as [-> _]; unfold MU_SHA256_LENGTH; lia.
Qed.

Lemma P_hash_bytes secret seed i : bytes_ok (P_hash secret seed i).
Proof. induction i as [|i IH]; [constructor|]; rewrite P_hash_S; apply bytes_ok_app; split; [done|apply hmac_octets]. Qed.

(** The first [n] octets. *)
Definition P_SHA256 (secret seed : list Z) (n : Z) : list Z := ztake n (P_hash secret seed (Z.to_nat ((n + 31) / 32))).

Lemma blocks_bound n : 0 ≤ n → n ≤ 32 * ((n + 31) / 32) < n + 32.
Proof. intros; pose proof (Z.div_mod (n + 31) 32); pose proof (Z.mod_pos_bound (n + 31) 32); lia. Qed.

Lemma P_SHA256_octets secret seed n : 0 ≤ n → zlen (P_SHA256 secret seed n) = n ∧ bytes_ok (P_SHA256 secret seed n).
Proof.
  intros Hn; pose proof (blocks_bound n Hn); split; [|apply bytes_ok_ztake, P_hash_bytes].
  apply zlen_ztake; rewrite P_hash_length; lia.
Qed.

(** More blocks than needed do not matter. *)
Lemma P_SHA256_blocks secret seed n i : 0 ≤ n ≤ 32 * Z.of_nat i → P_SHA256 secret seed n = ztake n (P_hash secret seed i).
Proof.
  intros [Hn Hi]; pose proof (blocks_bound n Hn) as Hb; unfold P_SHA256.
  assert (Hle : (Z.to_nat ((n + 31) / 32) ≤ i)%nat) by lia; clear Hi.
  induction Hle as [|j Hle IH]; [done|]; rewrite P_hash_S, ztake_app_le, IH; [done|]; rewrite P_hash_length; lia.
Qed.

(** The loop with [i] whole blocks behind it. *)
Lemma p_sha256_loop_spec rel (f : list Z → list Z → M Ctx (list Z)) secret seed n : (∀ key data, computes rel (f key data) (hmac key data)) → 0 ≤ n →
  ∀ fuel i, 32 * Z.of_nat i ≤ n → n - 32 * Z.of_nat i < Z.of_nat fuel →
  computes rel (p_sha256_loop f fuel secret seed (A_ secret seed (S i)) n (P_hash secret seed i)) (P_SHA256 secret seed n).
Proof.
  intros Hf Hn; induction fuel as [|fuel IH]; intros i Hi Hfuel; [lia|]; cbn [p_sha256_loop].
  rewrite P_hash_length; destruct (Z.ltb_spec (32 * Z.of_nat i) n) as [Hlt|Hge].
  2:{ eapply computes_eq; [apply computes_ret|]; rewrite (P_SHA256_blocks _ _ _ i) by lia.
      assert (n = zlen (P_hash secret seed i)) as -> by (rewrite P_hash_length; lia).
      by rewrite <- (app_nil_r (P_hash secret seed i)) at 3; rewrite ztake_app. }
  set (a := A_ secret seed (S i)); rewrite (mem_load_all a) by apply hmac_octets.
  eapply computes_bind; [apply computes_ret|]; eapply computes_bind; [apply Hf|].
  pose proof (proj1 (hmac_octets secret (a ++ seed))) as Hb; unfold MU_SHA256_LENGTH in *.
  destruct (Z.ltb_spec 32 (n - 32 * Z.of_nat i)) as [Hmore|Hlast].
  - rewrite mem_load_all by done; eapply computes_bind; [apply computes_ret|]; eapply computes_bind; [apply Hf|].
    unfold a at 2; rewrite <- P_hash_S; apply (IH (S i)); lia.
  - rewrite mem_load_Some by lia; change (zdrop 0 (hmac secret (a ++ seed))) with (hmac secret (a ++ seed)).
    eapply computes_bind; [apply computes_ret|]; eapply computes_bind; [apply Hf|].
    destruct fuel as [|fuel]; [lia|]; cbn [p_sha256_loop]; rewrite zlen_app, P_hash_length, zlen_ztake by lia.
    rewrite (proj2 (Z.ltb_ge _ _)) by lia; eapply computes_eq; [apply computes_ret|].
    rewrite (P_SHA256_blocks _ _ _ (S i)), P_hash_S by lia.
    unfold ztake; rewrite take_app; pose proof (P_hash_length secret seed i) as Hl; unfold zlen in Hl.
    rewrite (take_ge (P_hash secret seed i)) by lia; f_equal; f_equal; lia.
Qed.
End p_sha256.

(** ** Key derivation *)

Section keys.
  Context {Ctx : Type} (crypto : crypto_functions Ctx) {contract : CryptoContract crypto}.

Lemma hmac_computes : ∃ f, cf_hmac_sha256 crypto = Some f ∧
  ∀ key data, computes (CryptoReliable crypto) (f key data) (hmac key data).
Proof.
  destruct cc_hmac as (f & E & Hf); exists f; split; [done|]; intros key data; split; [apply Hf|].
  intros Hrel; by apply cr_hmac.
Qed.

Lemma p_sha256_computes secret slen seed sdlen sec sd n :
  mem_load secret 0 slen = Some sec → mem_load seed 0 sdlen = Some sd → sdlen ≤ MU_KDF_MAX_SEED → 0 ≤ n →
  computes (CryptoReliable crypto) (mu_p_sha256 crypto (Some secret) slen (Some seed) sdlen n) (P_SHA256 sec sd n).
Proof.
  intros Es Ed Hl Hn; destruct hmac_computes as (f & Ef & Hf); unfold mu_p_sha256; rewrite Ef, Es, Ed.
  rewrite (proj2 (Z.ltb_ge _ _)) by done; do 2 (eapply computes_bind; [apply computes_ret|]).
  eapply computes_bind; [apply Hf|]; apply (p_sha256_loop_spec _ f sec sd n Hf Hn _ 0); lia.
Qed.

(** The key set of [n] octets of key material: signing key, encryption key,
    initialisation vector, each at the start of its field. *)
Definition derived_keys (policy : mu_security_policy_id_t) (material : list Z) : mu_sym_keys_t :=
  let sig := mu_security_policy_signature_key_length policy in
  let enc := mu_security_policy_encryption_key_length policy in
  let iv := mu_security_policy_encryption_block_size policy in
  let field (off n size : Z) := ztake n (zdrop off material) ++ repeat 0 (Z.to_nat (size - n)) in
  mk_sym_keys policy (field 0 sig 32) (field sig enc 32) (field (sig + enc) iv 16)
    (repeat 0 (Z.to_nat MU_CIPHER_CTX_SIZE)) None false.

Definition material_length (policy : mu_security_policy_id_t) : Z :=
  mu_security_policy_signature_key_length policy + mu_security_policy_encryption_key_length policy
  + mu_security_policy_encryption_block_size policy.

Lemma policy_lengths policy :
  0 ≤ mu_security_policy_signature_key_length policy ≤ 32 ∧ 0 ≤ mu_security_policy_encryption_key_length policy ≤ 32 ∧
  0 ≤ mu_security_policy_encryption_block_size policy ≤ 16.
Proof. destruct policy; vm_compute; repeat split; discriminate. Qed.

(** The fields have their sizes. *)
Lemma derived_sizes policy material : material_length policy ≤ zlen material →
  zlen (sk_encrypting_key (derived_keys policy material)) = 32 ∧ zlen (sk_iv (derived_keys policy material)) = 16.
Proof.
  intros Hm; destruct (policy_lengths policy) as (Hs & He & Hi); unfold material_length in Hm.
  cbn [derived_keys sk_encrypting_key sk_iv]; rewrite !zlen_app, !zlen_repeat, !zlen_ztake by (rewrite zlen_zdrop by lia; lia); lia.
Qed.

Lemma fill_zero (bytes : list Z) size : zlen bytes ≤ Z.of_nat size →
  mem_store (repeat 0 size) 0 bytes = Some (bytes ++ repeat 0 (Z.to_nat (Z.of_nat size - zlen bytes))).
Proof.
  intros Hl; pose proof (zlen_nonneg bytes); rewrite mem_store_Some; [|lia|unfold zlen at 2; rewrite repeat_length; lia].
  f_equal; change (ztake 0 (repeat 0 size)) with (@nil Z); cbn [app]; f_equal; unfold zdrop.
  rewrite drop_repeat; f_equal; lia.
Qed.

Lemma fill_field material off n size (s : Ctx * mu_sym_keys_t) : 0 ≤ off → 0 ≤ n ≤ Z.of_nat size → off + n ≤ zlen material →
  (lift_option (mem_load material off n) ≫= fill (repeat 0 size)) s
  = (Ok (ztake n (zdrop off material) ++ repeat 0 (Z.to_nat (Z.of_nat size - n))), s).
Proof.
  intros; rewrite mem_load_Some by lia; unfold mbind, M_bind; cbn [lift_option mret M_ret]; unfold fill.
  assert (zlen (ztake n (zdrop off material)) = n) by (rewrite zlen_ztake; [done|rewrite zlen_zdrop by lia; lia]).
  rewrite fill_zero by lia; cbn [lift_option]; by rewrite H2.
Qed.

Lemma keys_derive_exact policy secret slen seed sdlen sec sd ctx k0 :
  mem_load secret 0 slen = Some sec → mem_load seed 0 sdlen = Some sd → sdlen ≤ MU_KDF_MAX_SEED →
  let '(x, (_, keys)) := mu_sym_keys_derive crypto policy (Some secret) slen (Some seed) sdlen (ctx, k0) in
  match x with
  | Ok _ => keys = derived_keys policy (P_SHA256 sec sd (material_length policy))
  | Err e => e ≠ MU_STATUS_GOOD ∧ keys = derived_keys policy (repeat 0 96)
  | Fault => False
  end ∧ (CryptoReliable crypto → x = Ok tt).
Proof.
  intros Es Ed Hl; destruct (policy_lengths policy) as (Hs & He & Hi); pose proof (eq_refl (material_length policy)) as Hm.
  unfold material_length in Hm at 1; unfold mu_sym_keys_derive; cbv zeta; rewrite Hm, (proj2 (Z.ltb_ge _ _)) by lia.
  destruct (p_sha256_computes secret slen seed sdlen sec sd (material_length policy) Es Ed Hl ltac:(lia)) as [Hd Hrel].
  specialize (Hd ctx); pose proof (λ H, Hrel H ctx) as Hrel'; erewrite (bind_ok (set_keys _)) by reflexivity.
  destruct (mu_p_sha256 _ _ _ _ _ _ ctx) as [[m|e|] ctx'] eqn:E; cbn [fst snd outcome_ok] in *; [| |done].
  2:{ erewrite bind_err by (unfold on_ctx; cbn [fst]; rewrite E; reflexivity); split.
      - split; [done|]; destruct policy; reflexivity.
      - intros H; destruct (Hrel' H) as (a & c & [=]). }
  subst m; erewrite bind_ok by (unfold on_ctx; cbn [fst]; rewrite E; reflexivity).
  destruct (P_SHA256_octets sec sd (material_length policy)) as [Hz _]; [lia|]; set (m := P_SHA256 _ _ _) in *.
  do 3 erewrite bind_ok by (apply fill_field; lia); by split.
Qed.

(** C39: a key set is P_SHA256 of the nonces, cut into its parts. When the
    derivation succeeds, the key set holds the signing key, the encryption key
    and the initialisation vector as consecutive parts of the octets RFC 5246
    defines, zero-extended to their fields, with no cipher context; when it
    fails, the key set holds no key material at all. With an adapter that does
    not fail it succeeds, and it never reaches undefined behaviour. *)
Theorem sym_keys_derive_spec policy secret slen seed sdlen sec sd ctx k0 :
  mem_load secret 0 slen = Some sec → mem_load seed 0 sdlen = Some sd → sdlen ≤ MU_KDF_MAX_SEED →
  let '(x, (_, keys)) := mu_sym_keys_derive crypto policy (Some secret) slen (Some seed) sdlen (ctx, k0) in
  match x with
  | Ok _ => keys = derived_keys policy (P_SHA256 sec sd (material_length policy))
  | Err e => e ≠ MU_STATUS_GOOD ∧ keys = derived_keys policy (repeat 0 96)
  | Fault => False
  end ∧ (CryptoReliable crypto → x = Ok tt).
Proof. apply keys_derive_exact. Qed.
End keys.

(** ** A model adapter *)

(** It keeps the documented contract with trivial arithmetic in place of
    cryptography; every key has [n] octets. *)
Definition checksum (l : list Z) : Z := fold_left (λ a b, (a * 31 + b) mod 256) l 7.

Definition model_hmac (key data : list Z) : list Z := repeat (checksum (key ++ data)) 32.

Definition model_shift (d : Z) (x : list Z) : list Z := map (λ b, (b + d) mod 256) x.

Definition model_sign (n : Z) (data : list Z) (capacity : Z) : M unit (list Z) :=
  if capacity <? n then fail MU_STATUS_BAD_INTERNALERROR else mret (repeat (checksum data) (Z.to_nat n)).

Definition model_verify (n : Z) (certificate data signature : list Z) : M unit unit :=
  if bool_decide (signature = repeat (checksum data) (Z.to_nat n)) then mret tt else fail MU_STATUS_BAD_SECURITYCHECKSFAILED.

(** A block: the length of the plaintext, the plaintext, zeros. *)
Definition model_encrypt (n : Z) (certificate x : list Z) (capacity : Z) : M unit (list Z) :=
  if (capacity <? n) || (n <? 2 + zlen x) then fail MU_STATUS_BAD_INTERNALERROR
  else mret (mu_binary_le_put_u16 (zlen x) ++ x ++ repeat 0 (Z.to_nat (n - 2 - zlen x))).

Definition model_decrypt (y : list Z) (capacity : Z) : M unit (list Z) :=
  match mu_binary_le_get_u16 y with
  | Some len =>
      if (capacity <? len) || (zlen y <? 2 + len) then fail MU_STATUS_BAD_SECURITYCHECKSFAILED else mret (ztake len (zdrop 2 y))
  | None => fail MU_STATUS_BAD_SECURITYCHECKSFAILED
  end.

Definition model_adapter (n : Z) : crypto_functions unit :=
  mk_crypto_functions unit
    (Some (λ data, mret (repeat (checksum data) 32)))
    (Some (λ key data, mret (model_hmac key data)))
    (Some (λ key iv x, mret (model_shift 5 x))) (Some (λ key iv x, mret (model_shift (-5) x)))
    (Some (λ key iv x, mret (model_shift 3 x))) (Some (λ key iv x, mret (model_shift (-3) x)))
    (Some (λ key storage, mret storage))
    (Some (λ storage iv x, mret (model_shift 5 x, storage))) (Some (λ storage iv x, mret (model_shift (-5) x, storage)))
    (Some (λ storage, mret tt))
    (Some (model_sign n)) (Some (model_verify n)) (Some model_decrypt) (Some (model_encrypt n))
    (Some (model_sign n)) (Some (model_verify n)) (Some model_decrypt) (Some (model_encrypt n))
    (Some (mret [48; 130])) (Some (λ certificate, mret (8 * n))) (Some (λ certificate, mret (repeat (checksum certificate) 20)))
    (Some (λ certificate, mret tt)).

Lemma checksum_range l : u8_range (checksum l).
Proof.
  unfold checksum; cut (∀ a, u8_range a → u8_range (fold_left (λ a b, (a * 31 + b) mod 256) l a)); [intros H; apply H; by ranges|].
  induction l as [|b l IH]; intros a Ha; [done|]; apply IH; ranges; apply Z.mod_pos_bound; lia.
Qed.

Lemma shift_octets d x : zlen (model_shift d x) = zlen x ∧ bytes_ok (model_shift d x).
Proof.
  split; [unfold zlen, model_shift; by rewrite length_map|]; apply Forall_forall; intros y Hy%list_elem_of_In%in_map_iff.
  destruct Hy as (b & <- & _); ranges; apply Z.mod_pos_bound; lia.
Qed.

Lemma shift_inverse d x : bytes_ok x → model_shift (- d) (model_shift d x) = x.
Proof.
  induction 1 as [|b x Hb _ IH]; [done|]; cbn; f_equal; [|exact IH].
  rewrite Zplus_mod_idemp_l; replace (b + d + - d) with b by lia; apply Z.mod_small; by ranges.
Qed.

#[export] Instance model_contract n : CryptoContract (model_adapter n).
Proof.
  refine {| hmac := model_hmac; aes := λ bits key iv, model_shift (if bits =? 128 then 3 else 5);
            aes_inv := λ bits key iv, model_shift (- (if bits =? 128 then 3 else 5)); cipher_for := λ _ _, True |}.
  - intros; split; [done|apply repeat_bytes, checksum_range].
  - intros; apply shift_octets.
  - intros; apply shift_octets.
  - intros bits key iv x Hx _; by apply shift_inverse.
  - eexists; split; [reflexivity|]; by intros key data ctx.
  - eexists; split; [reflexivity|]; by intros key iv x _ ctx.
  - eexists; split; [reflexivity|]; by intros key iv x _ ctx.
  - by intros f key iv x [= <-] _ ctx.
  - by intros f key iv x [= <-] _ ctx.
  - by intros f key storage [= <-] _ ctx.
  - by intros f key storage iv x [= <-] _ _ ctx.
  - by intros f key storage iv x [= <-] _ _ ctx.
Defined.

#[export] Instance model_reliable n : CryptoReliable (model_adapter n).
Proof.
  split; try (by intros f ?? [= <-] ctx; eexists _, _); try (by intros f ??? [= <-] _ ctx; eexists _, _);
    try (by intros f ???? [= <-] _ ctx; eexists _, _); eexists; (split; [reflexivity|]); by intros key iv x _ ctx; eexists _, _.
Qed.

Lemma sym_keys_derive_spec_witness :
  let crypto := model_adapter 256 in
  let '(x, (_, keys)) := mu_sym_keys_derive crypto MU_SECURITY_POLICY_AES128_SHA256_RSAOAEP_ID (Some (repeat 1 32)) 32
                           (Some (repeat 2 32)) 32 (tt, zero_keys) in
  x = Ok tt ∧ zlen (sk_encrypting_key keys) = 32 ∧
  keys = derived_keys MU_SECURITY_POLICY_AES128_SHA256_RSAOAEP_ID (P_SHA256 (crypto := crypto) (repeat 1 32) (repeat 2 32) 64).
Proof.
  cbv zeta; pose proof (sym_keys_derive_spec (model_adapter 256) MU_SECURITY_POLICY_AES128_SHA256_RSAOAEP_ID (repeat 1 32) 32
    (repeat 2 32) 32 (repeat 1 32) (repeat 2 32) tt zero_keys eq_refl eq_refl ltac:(by vm_compute)) as H.
  destruct (mu_sym_keys_derive _ _ _ _ _ _ _) as [x [ctx keys]]; destruct H as [H Hok]; specialize (Hok _); subst x.
  split; [reflexivity|]; split; [|exact H]; rewrite H; vm_compute; reflexivity.
Defined.
