(* ===== verification/SymChunk.v ===== *)
(** * Symmetric chunks

    [src/security/sym_chunk.c]: MSG and CLO chunks signed with HMAC-SHA256
    and, for SignAndEncrypt, encrypted with AES-CBC. The chunk buffer is part
    of the state: both directions work in place. *)

From S2P Require Export Crypto.

Definition MU_SYM_HEADER_SIZE : Z := 16.
Definition MU_SYM_SIG_LEN : Z := 32.
Definition MU_SYM_BLOCK : Z := 16.

Record mu_sym_chunk_info_t := mk_sym_chunk_info {
  sci_mode : Z;
  sci_secure_channel_id : Z;
  sci_token_id : Z;
  sci_sequence_number : Z;
  sci_request_id : Z;
  sci_message_type : list Z
}.

(** The adapter's context, the key set and the chunk buffer. *)
Record chunk_state (Ctx : Type) := mk_chunk_state {
  ck_ctx : Ctx;
  ck_keys : mu_sym_keys_t;
  ck_buffer : list Z
}.
Arguments mk_chunk_state {_}.
Arguments ck_ctx {_}.
Arguments ck_keys {_}.
Arguments ck_buffer {_}.

Section sym_chunk.
  Context {Ctx : Type} (crypto : crypto_functions Ctx).

Definition in_ctx {A} (m : M Ctx A) : M (chunk_state Ctx) A := λ st,
  let '(x, ctx) := m (ck_ctx st) in (x, mk_chunk_state ctx (ck_keys st) (ck_buffer st)).

Definition in_buffer {A} (m : M (list Z) A) : M (chunk_state Ctx) A := λ st,
  let '(x, b) := m (ck_buffer st) in (x, mk_chunk_state (ck_ctx st) (ck_keys st) b).

Definition keys : M (chunk_state Ctx) mu_sym_keys_t := λ st, (Ok (ck_keys st), st).

Definition load {A} (f : list Z → option A) : M (chunk_state Ctx) A := λ st, lift_option (f (ck_buffer st)) st.

(** A context operation of the adapter, which may change the stored cipher
    context. *)
Definition in_cipher (f : list Z → list Z → list Z → M Ctx (list Z * list Z)) (input : list Z)
    : M (chunk_state Ctx) (list Z) := λ st,
  let k := ck_keys st in
  match f (sk_cipher_ctx k) (sk_iv k) input (ck_ctx st) with
  | (Ok (output, storage), ctx) =>
      (Ok output, mk_chunk_state ctx (with_cipher k (sk_crypto k) storage (sk_cipher_ctx_valid k)) (ck_buffer st))
  | (Err e, ctx) => (Err e, mk_chunk_state ctx k (ck_buffer st))
  | (Fault, ctx) => (Fault, mk_chunk_state ctx k (ck_buffer st))
  end.

Definition write_header (message_type : list Z) (scid token_id : Z) : M (list Z) unit :=
  store_bytes 0 (message_type ++ [chr "F"]);;
  store_bytes 8 (mu_binary_le_put_u32 scid);;
  store_bytes 12 (mu_binary_le_put_u32 token_id).

Definition put_u32 (offset v : Z) : M (list Z) unit := store_bytes offset (mu_binary_le_put_u32 v).

Definition get_u32 (b : list Z) (offset : Z) : option Z :=
  match load_u32 b offset with Ok v => Some v | _ => None end.

(** HMAC of the first [length] octets of the buffer. *)
Definition sign_prefix (length : Z) : M (chunk_state Ctx) (list Z) :=
  data ← load (λ b, mem_load b 0 length);
  k ← keys;
  mac ← call (cf_hmac_sha256 crypto) (λ hmac, in_ctx (hmac (sk_signing_key k) data));
  lift_option (mem_load mac 0 MU_SYM_SIG_LEN).

(** AES-CBC of [length] octets behind the header, in place, with the function
    for the policy of the keys. *)
Definition crypt_payload (aes128 aes256 : option (list Z → list Z → list Z → M Ctx (list Z)))
    (aes256_ctx : option (list Z → list Z → list Z → M Ctx (list Z * list Z))) (length : Z) : M (chunk_state Ctx) unit :=
  input ← load (λ b, mem_load b MU_SYM_HEADER_SIZE length);
  k ← keys;
  output ← (if bool_decide (sk_policy k = MU_SECURITY_POLICY_AES128_SHA256_RSAOAEP_ID) then
              match aes128 with
              | Some crypt => in_ctx (crypt (sk_encrypting_key k) (sk_iv k) input)
              | None => fail MU_STATUS_BAD_INTERNALERROR
              end
            else
              match (if sk_cipher_ctx_valid k then aes256_ctx else None) with
              | Some crypt => in_cipher crypt input
              | None => call aes256 (λ crypt, in_ctx (crypt (sk_encrypting_key k) (sk_iv k) input))
              end);
  in_buffer (store_bytes MU_SYM_HEADER_SIZE output).

Definition encrypt_payload (length : Z) : M (chunk_state Ctx) unit :=
  crypt_payload (cf_aes128_cbc_encrypt crypto) (cf_aes256_cbc_encrypt crypto) (cf_aes256_cbc_encrypt_ctx crypto) length.

Definition decrypt_payload (length : Z) : M (chunk_state Ctx) unit :=
  crypt_payload (cf_aes128_cbc_decrypt crypto) (cf_aes256_cbc_decrypt crypto) (cf_aes256_cbc_decrypt_ctx crypto) length.

(** MessageSize, SequenceHeader and body. *)
Definition put_message (total sequence_number request_id : Z) (body : list Z) : M (list Z) unit :=
  put_u32 4 total;;
  put_u32 MU_SYM_HEADER_SIZE sequence_number;;
  put_u32 (MU_SYM_HEADER_SIZE + 4) request_id;;
  store_bytes (MU_SYM_HEADER_SIZE + 8) body.

(** The chunk is built in the buffer; the result is its length. [body] holds
    the octets of the message. *)
Definition mu_sym_chunk_wrap (mode : Z) (message_type : list Z) (secure_channel_id token_id sequence_number request_id : Z)
    (body : list Z) (out_cap : Z) : M (chunk_state Ctx) Z :=
  if negb (mode =? MU_MESSAGE_SECURITY_MODE_SIGN) && negb (mode =? MU_MESSAGE_SECURITY_MODE_SIGN_AND_ENCRYPT)
  then fail MU_STATUS_BAD_SECURITYMODEREJECTED
  else
    in_buffer (write_header message_type secure_channel_id token_id);;
    let seqbody_len := to_size (8 + zlen body) in
    if mode =? MU_MESSAGE_SECURITY_MODE_SIGN then
      let total := to_size (MU_SYM_HEADER_SIZE + seqbody_len + MU_SYM_SIG_LEN) in
      if out_cap <? total then fail MU_STATUS_BAD_RESPONSETOOLARGE
      else
        in_buffer (put_message total sequence_number request_id body);;
        let signed_len := to_size (MU_SYM_HEADER_SIZE + seqbody_len) in
        mac ← sign_prefix signed_len;
        in_buffer (store_bytes signed_len mac);;
        mret total
    else
      let base := to_size (seqbody_len + 1 + MU_SYM_SIG_LEN) in
      let pad_count := (MU_SYM_BLOCK - base mod MU_SYM_BLOCK) mod MU_SYM_BLOCK in
      let enc_len := to_size (base + pad_count) in
      let presig_len := to_size (seqbody_len + 1 + pad_count) in
      let total := to_size (MU_SYM_HEADER_SIZE + enc_len) in
      if out_cap <? total then fail MU_STATUS_BAD_RESPONSETOOLARGE
      else
        in_buffer (put_message total sequence_number request_id body);;
        in_buffer (store_bytes (MU_SYM_HEADER_SIZE + seqbody_len) [to_u8 pad_count]);;
        in_buffer (store_bytes (MU_SYM_HEADER_SIZE + seqbody_len + 1) (repeat (to_u8 pad_count) (Z.to_nat pad_count)));;
        let signed_len := to_size (MU_SYM_HEADER_SIZE + presig_len) in
        mac ← sign_prefix signed_len;
        in_buffer (store_bytes signed_len mac);;
        encrypt_payload enc_len;;
        mret total.

(** The octets before the signature that must repeat the padding size. *)
Definition padding_ok (b : list Z) (signed_len pad_count : Z) : option bool :=
  padding ← mem_load b (signed_len - 1 - pad_count) pad_count;
  Some (forallb (λ x, x =? pad_count) padding).

(** Decrypt what follows the header, if the mode says so. *)
Definition open_payload (mode msg_size : Z) : M (chunk_state Ctx) unit :=
  if mode =? MU_MESSAGE_SECURITY_MODE_SIGN_AND_ENCRYPT then
    let cipher_len := msg_size - MU_SYM_HEADER_SIZE in
    if (cipher_len =? 0) || negb (cipher_len mod MU_SYM_BLOCK =? 0) then fail MU_STATUS_BAD_DECODINGERROR
    else decrypt_payload cipher_len
  else if negb (mode =? MU_MESSAGE_SECURITY_MODE_SIGN) then fail MU_STATUS_BAD_SECURITYMODEREJECTED
  else mret tt.

(** Compare the HMAC of the first [signed_len] octets with the octets behind
    them. *)
Definition verify_signature (signed_len : Z) : M (chunk_state Ctx) unit :=
  mac ← sign_prefix signed_len;
  equal ← load (λ b, signature ← mem_load b signed_len MU_SYM_SIG_LEN; mu_secure_memeq mac signature MU_SYM_SIG_LEN);
  if negb equal then fail MU_STATUS_BAD_SECURITYCHECKSFAILED else mret tt.

(** The length of the padding with its size octet. *)
Definition strip_padding (mode signed_len : Z) : M (chunk_state Ctx) Z :=
  if mode =? MU_MESSAGE_SECURITY_MODE_SIGN_AND_ENCRYPT then
    pad_count ← load (λ b, znth b (signed_len - 1));
    if signed_len <? MU_SYM_HEADER_SIZE + 8 + 1 + pad_count then fail MU_STATUS_BAD_SECURITYCHECKSFAILED
    else
      good ← load (λ b, padding_ok b signed_len pad_count);
      if negb good then fail MU_STATUS_BAD_SECURITYCHECKSFAILED else mret (pad_count + 1)
  else mret 0.

(** The message recovered from the buffer: what its headers say, and where the
    body is. *)
Definition mu_sym_chunk_unwrap (mode chunk_len : Z) : M (chunk_state Ctx) (mu_sym_chunk_info_t * (Z * Z)) :=
  if chunk_len <? MU_SYM_HEADER_SIZE then fail MU_STATUS_BAD_DECODINGERROR
  else
    msg_size ← load (λ b, get_u32 b 4);
    if (chunk_len <? msg_size) || (msg_size <? MU_SYM_HEADER_SIZE) then fail MU_STATUS_BAD_DECODINGERROR
    else
      message_type ← load (λ b, mem_load b 0 3);
      secure_channel_id ← load (λ b, get_u32 b 8);
      token_id ← load (λ b, get_u32 b 12);
      open_payload mode msg_size;;
      if msg_size <? MU_SYM_HEADER_SIZE + 8 + MU_SYM_SIG_LEN then fail MU_STATUS_BAD_DECODINGERROR
      else
        let signed_len := msg_size - MU_SYM_SIG_LEN in
        verify_signature signed_len;;
        pad_count ← strip_padding mode signed_len;
        let seqbody_len := signed_len - MU_SYM_HEADER_SIZE - pad_count in
        sequence_number ← load (λ b, get_u32 b MU_SYM_HEADER_SIZE);
        request_id ← load (λ b, get_u32 b (MU_SYM_HEADER_SIZE + 4));
        mret (mk_sym_chunk_info mode secure_channel_id token_id sequence_number request_id message_type,
              (MU_SYM_HEADER_SIZE + 8, seqbody_len - 8)).
End sym_chunk.
