(* ===== verification/SymChunkSpec.v ===== *)
(** * Correctness of symmetric chunks

    The octets [mu_sym_chunk_wrap] builds, and what [mu_sym_chunk_unwrap]
    accepts, for any adapter that keeps its contract. *)

From S2P Require Export SymChunk.

(** ** The format *)

Section format.
  Context {Ctx : Type} (crypto : crypto_functions Ctx) {contract : CryptoContract crypto}.

Definition sym_header (message_type : list Z) (total scid token_id : Z) : list Z :=
  (message_type ++ [chr "F"]) ++ mu_binary_le_put_u32 total ++ mu_binary_le_put_u32 scid ++ mu_binary_le_put_u32 token_id.

Definition sym_message (sequence_number request_id : Z) (body : list Z) : list Z :=
  mu_binary_le_put_u32 sequence_number ++ mu_binary_le_put_u32 request_id ++ body.

Definition key_bits (policy : mu_security_policy_id_t) : Z :=
  if bool_decide (policy = MU_SECURITY_POLICY_AES128_SHA256_RSAOAEP_ID) then 128 else 256.

Definition pad_count (body : list Z) : Z := (16 - (8 + zlen body + 1 + 32) mod 16) mod 16.

Definition padded (message : list Z) (pad : Z) : list Z := message ++ pad :: repeat pad (Z.to_nat pad).

(** A chunk of mode Sign, and of mode SignAndEncrypt before encryption. *)
Definition signed (k : mu_sym_keys_t) (header content : list Z) : list Z := content ++ hmac (sk_signing_key k) (header ++ content).

Definition sym_total (mode : Z) (body : list Z) : Z :=
  if mode =? MU_MESSAGE_SECURITY_MODE_SIGN then 16 + (8 + zlen body) + 32 else 16 + (8 + zlen body + 1 + 32 + pad_count body).

(** The octets of a chunk. *)
Definition sym_chunk (mode : Z) (k : mu_sym_keys_t) (message_type : list Z)
    (scid token_id sequence_number request_id : Z) (body : list Z) : list Z :=
  let header := sym_header message_type (sym_total mode body) scid token_id in
  let message := sym_message sequence_number request_id body in
  header ++
  (if mode =? MU_MESSAGE_SECURITY_MODE_SIGN then signed k header message
   else aes (key_bits (sk_policy k)) (sk_encrypting_key k) (sk_iv k) (signed k header (padded message (pad_count body)))).

Lemma pad_count_range body : 0 ≤ pad_count body < 16 ∧ (8 + zlen body + 1 + 32 + pad_count body) mod 16 = 0.
Proof.
  unfold pad_count; set (n := 8 + zlen body + 1 + 32); pose proof (Z.mod_pos_bound n 16 ltac:(lia)) as Hm.
  split; [apply Z.mod_pos_bound; lia|]; rewrite Z.add_mod_idemp_r by lia.
  rewrite (Z.div_mod n 16) at 1 by lia; replace (16 * (n / 16) + n mod 16 + (16 - n mod 16)) with ((n / 16 + 1) * 16) by lia.
  apply Z_mod_mult.
Qed.

Lemma sym_header_length t total scid token : zlen t = 3 → zlen (sym_header t total scid token) = 16.
Proof. intros Ht; unfold sym_header; rewrite !zlen_app, Ht; reflexivity. Qed.

Lemma sym_message_length seq rid body : zlen (sym_message seq rid body) = 8 + zlen body.
Proof. unfold sym_message; rewrite !zlen_app, !put_u32_length; lia. Qed.

Lemma padded_length message pad : 0 ≤ pad → zlen (padded message pad) = zlen message + 1 + pad.
Proof. intros; unfold padded; rewrite zlen_app, zlen_cons, zlen_repeat; lia. Qed.

Lemma signed_length k header content : zlen (signed k header content) = zlen content + 32.
Proof. unfold signed; rewrite zlen_app, (proj1 (hmac_octets _ _)); done. Qed.

Lemma put_u32_bytes v : bytes_ok (mu_binary_le_put_u32 v).
Proof. unfold mu_binary_le_put_u32; repeat (constructor; [apply (to_unsigned_range 8); lia|]); constructor. Qed.

Lemma sym_message_bytes seq rid body : bytes_ok body → bytes_ok (sym_message seq rid body).
Proof. intros; unfold sym_message; rewrite !bytes_ok_app; split_and!; [apply put_u32_bytes..|done]. Qed.

Lemma padded_bytes message pad : bytes_ok message → u8_range pad → bytes_ok (padded message pad).
Proof.
  intros; unfold padded; apply bytes_ok_app; split; [done|]; constructor; [done|].
  apply Forall_forall; intros x Hx%list_elem_of_In%repeat_spec; by subst.
Qed.

Lemma signed_bytes k header content : bytes_ok content → bytes_ok (signed k header content).
Proof. intros; unfold signed; apply bytes_ok_app; split; [done|apply hmac_octets]. Qed.

(** ** Building *)

Lemma write_header_run t scid token a m h r : zlen t = 3 → zlen a = 4 → zlen m = 4 → zlen h = 8 →
  write_header t scid token (a ++ m ++ h ++ r)
  = (Ok tt, (t ++ [chr "F"]) ++ m ++ (mu_binary_le_put_u32 scid ++ mu_binary_le_put_u32 token) ++ r).
Proof.
  intros Ht Ha Hm Hh; destruct (buffer_split h 4) as (h1 & h2 & -> & H1 & H2 & _); [lia|]; rewrite zlen_app in *.
  assert (Ht' : zlen (t ++ [chr "F"]) = 4) by (rewrite zlen_app, Ht; done); unfold write_header.
  erewrite bind_ok by (apply (store_over 0 _ [] a (m ++ (h1 ++ h2) ++ r)); [done|done|lia]).
  erewrite bind_ok by (apply (store_over 8 _ ((t ++ [chr "F"]) ++ m) h1 (h2 ++ r)); [by rewrite <- !app_assoc|rewrite zlen_app; lia|by rewrite put_u32_length]).
  erewrite (store_over 12 _ (((t ++ [chr "F"]) ++ m) ++ mu_binary_le_put_u32 scid) h2 r);
    [by rewrite <- !app_assoc|by rewrite <- !app_assoc|rewrite zlen_app, zlen_app, Ht', put_u32_length; lia|rewrite put_u32_length; lia].
Qed.

Lemma put_message_run total seq rid body a m h r : zlen a = 4 → zlen m = 4 → zlen h = 8 → 8 + zlen body ≤ zlen r →
  put_message total seq rid body (a ++ m ++ h ++ r)
  = (Ok tt, a ++ mu_binary_le_put_u32 total ++ h ++ sym_message seq rid body ++ zdrop (8 + zlen body) r).
Proof.
  intros Ha Hm Hh Hr; pose proof (zlen_nonneg body); unfold put_message, put_u32, sym_message, MU_SYM_HEADER_SIZE.
  destruct (buffer_split r (8 + zlen body)) as (p & c & -> & Hp & Hc & Ec); [lia|]; rewrite <- Ec; clear Ec.
  destruct (buffer_split p 4) as (p1 & p' & -> & H1 & H1' & _); [lia|].
  destruct (buffer_split p' 4) as (p2 & p3 & -> & H2 & H2' & _); [lia|]; rewrite !zlen_app in *.
  pose proof put_u32_length as Hu.
  erewrite bind_ok by (apply (store_over 4 _ a m (h ++ (p1 ++ p2 ++ p3) ++ c)); [done|lia|by rewrite Hu]).
  erewrite bind_ok by (apply (store_over 16 _ (a ++ mu_binary_le_put_u32 total ++ h) p1 (p2 ++ p3 ++ c));
    [by rewrite <- !app_assoc|rewrite !zlen_app, Hu; lia|by rewrite Hu]).
  erewrite bind_ok by (apply (store_over (16 + 4) _ ((a ++ mu_binary_le_put_u32 total ++ h) ++ mu_binary_le_put_u32 seq) p2 (p3 ++ c));
    [by rewrite <- !app_assoc|rewrite !zlen_app, !Hu; lia|by rewrite Hu]).
  erewrite (store_over (16 + 8) _ (((a ++ mu_binary_le_put_u32 total ++ h) ++ mu_binary_le_put_u32 seq) ++ mu_binary_le_put_u32 rid) p3 c);
    [by rewrite <- !app_assoc|by rewrite <- !app_assoc|rewrite !zlen_app, !Hu; lia|lia].
Qed.
End format.

(** ** Reasoning about chunks *)

Section wp.
  Context {Ctx : Type} {crypto : crypto_functions Ctx} {contract : CryptoContract crypto}.
  Context (rel : Prop) (Hrel : rel → CryptoReliable crypto).

(** [Q] holds if the program succeeds; it reaches no undefined behaviour, and if
    [rel] holds it does succeed. *)
Definition wp {A} (m : M (chunk_state Ctx) A) (Q : A → chunk_state Ctx → Prop) (st : chunk_state Ctx) : Prop :=
  match m st with
  | (Ok a, st') => Q a st'
  | (Err e, _) => e ≠ MU_STATUS_GOOD ∧ ¬ rel
  | (Fault, _) => False
  end.

Lemma wp_bind {A B} (m : M (chunk_state Ctx) A) (k : A → M (chunk_state Ctx) B) Q st :
  wp m (λ a, wp (k a) Q) st → wp (m ≫= k) Q st.
Proof. unfold wp, mbind, M_bind; by destruct (m st) as [[a|e|] st']. Qed.

Lemma wp_ret {A} (a : A) (Q : A → chunk_state Ctx → Prop) st : Q a st → wp (mret a) Q st.
Proof. done. Qed.

Lemma wp_fail {A} e (Q : A → chunk_state Ctx → Prop) st : e ≠ MU_STATUS_GOOD → ¬ rel → wp (fail e) Q st.
Proof. done. Qed.

Lemma wp_mono {A} (m : M (chunk_state Ctx) A) (Q Q' : A → chunk_state Ctx → Prop) st :
  wp m Q st → (∀ a st', Q a st' → Q' a st') → wp m Q' st.
Proof. unfold wp; destruct (m st) as [[a|e|] st']; auto. Qed.

Lemma wp_load {A} (f : list Z → option A) a (Q : A → chunk_state Ctx → Prop) st :
  f (ck_buffer st) = Some a → Q a st → wp (load f) Q st.
Proof. unfold wp, load; by intros ->. Qed.

Lemma wp_lift {A} (o : option A) a (Q : A → chunk_state Ctx → Prop) st : o = Some a → Q a st → wp (lift_option o) Q st.
Proof. by intros ->. Qed.

Lemma wp_buffer {A} (m : M (list Z) A) a b (Q : A → chunk_state Ctx → Prop) st :
  m (ck_buffer st) = (Ok a, b) → Q a (mk_chunk_state (ck_ctx st) (ck_keys st) b) → wp (in_buffer m) Q st.
Proof. unfold wp, in_buffer; by intros ->. Qed.

Lemma wp_ctx {A} (m : M Ctx A) (P : A → Prop) (Q : A → chunk_state Ctx → Prop) st :
  delivers m P → (rel → succeeds m) →
  (∀ a ctx, P a → Q a (mk_chunk_state ctx (ck_keys st) (ck_buffer st))) → wp (in_ctx m) Q st.
Proof.
  intros Hd Hs HQ; specialize (Hd (ck_ctx st)); unfold wp, in_ctx.
  destruct (m (ck_ctx st)) as [[a|e|] ctx] eqn:E; cbn in Hd; [by apply HQ|split; [done|]|done].
  intros Hr; destruct (Hs Hr (ck_ctx st)) as (a & c & E'); by rewrite E in E'.
Qed.

Lemma wp_sign n data (Q : list Z → chunk_state Ctx → Prop) st : mem_load (ck_buffer st) 0 n = Some data →
  (∀ ctx, Q (hmac (sk_signing_key (ck_keys st)) data) (mk_chunk_state ctx (ck_keys st) (ck_buffer st))) →
  wp (sign_prefix crypto n) Q st.
Proof.
  intros Hl HQ; unfold sign_prefix; apply wp_bind, (wp_load _ data); [done|].
  apply wp_bind; change (wp keys ?Q ?st) with (Q (ck_keys st) st); cbv beta.
  destruct cc_hmac as (f & Ef & Hf); rewrite Ef; cbn [call]; apply wp_bind.
  eapply wp_ctx; [apply Hf|intros Hr; pose proof (Hrel Hr); by apply cr_hmac|]; intros mac ctx ->.
  eapply wp_lift; [|apply HQ]; apply mem_load_all, hmac_octets.
Qed.

(** The fields have their sizes, and the cipher context, when it is used,
    belongs to the key. *)
Definition keys_ready (k : mu_sym_keys_t) : Prop :=
  zlen (sk_encrypting_key k) = 32 ∧ zlen (sk_iv k) = 16 ∧
  (sk_cipher_ctx_valid k = true → cipher_for (sk_encrypting_key k) (sk_cipher_ctx k)).

(** The two key sets hold the same keys. *)
Definition same_keys (k k' : mu_sym_keys_t) : Prop :=
  sk_policy k' = sk_policy k ∧ sk_signing_key k' = sk_signing_key k ∧
  sk_encrypting_key k' = sk_encrypting_key k ∧ sk_iv k' = sk_iv k.

Lemma wp_cipher f x v (Q : list Z → chunk_state Ctx → Prop) st :
  keys_ready (ck_keys st) →
  delivers (f (sk_cipher_ctx (ck_keys st)) (sk_iv (ck_keys st)) x)
    (λ y, y.1 = v ∧ cipher_for (sk_encrypting_key (ck_keys st)) y.2) →
  (rel → succeeds (f (sk_cipher_ctx (ck_keys st)) (sk_iv (ck_keys st)) x)) →
  (∀ ctx k, same_keys (ck_keys st) k → keys_ready k → Q v (mk_chunk_state ctx k (ck_buffer st))) → wp (in_cipher f x) Q st.
Proof.
  intros (Hkl & Hil & _) Hd Hs HQ; specialize (Hd (ck_ctx st)); unfold wp, in_cipher.
  destruct (f _ _ _ (ck_ctx st)) as [[[y storage]|e|] ctx] eqn:E; cbn in Hd; [|split; [done|]|done].
  - destruct Hd as [-> Hc]; apply HQ; [by split_and!|]; by split_and!.
  - intros Hr; destruct (Hs Hr (ck_ctx st)) as (a & c & E'); by rewrite E in E'.
Qed.

(** The buffer with the payload behind the header replaced. *)
Definition with_payload (b payload : list Z) : list Z := ztake 16 b ++ payload ++ zdrop (16 + zlen payload) b.

Lemma store_payload (b payload : list Z) : 16 + zlen payload ≤ zlen b →
  store_bytes MU_SYM_HEADER_SIZE payload b = (Ok tt, with_payload b payload).
Proof. intros; unfold store_bytes, MU_SYM_HEADER_SIZE; rewrite mem_store_Some by lia; done. Qed.

Lemma wp_payload (m : M (chunk_state Ctx) (list Z)) n v (Q : unit → chunk_state Ctx → Prop) st :
  16 + zlen v ≤ zlen (ck_buffer st) →
  (∀ Q', (∀ ctx k, same_keys (ck_keys st) k → keys_ready k → Q' v (mk_chunk_state ctx k (ck_buffer st))) → wp m Q' st) →
  (∀ ctx k, same_keys (ck_keys st) k → keys_ready k → Q tt (mk_chunk_state ctx k (with_payload (ck_buffer st) v))) →
  n = 16 → wp (m ≫= λ output, in_buffer (store_bytes n output)) Q st.
Proof.
  intros Hl Hm HQ ->; apply wp_bind, Hm; intros ctx k Hk Hr; eapply wp_buffer; [by apply store_payload|]; by apply HQ.
Qed.

(** A set of functions that computes [g] for both key lengths. *)
Record crypts (aes128 aes256 : option (list Z → list Z → list Z → M Ctx (list Z)))
    (aes256_ctx : option (list Z → list Z → list Z → M Ctx (list Z * list Z)))
    (g : Z → list Z → list Z → list Z → list Z) : Prop := {
  crypts_128 f key iv x : aes128 = Some f → aes_input key iv x → delivers (f key iv x) (λ y, y = g 128 key iv x);
  crypts_128_rel : rel → ∃ f, aes128 = Some f ∧ ∀ key iv x, aes_input key iv x → succeeds (f key iv x);
  crypts_256 : ∃ f, aes256 = Some f ∧ (∀ key iv x, aes_input key iv x → delivers (f key iv x) (λ y, y = g 256 key iv x)) ∧
                 (rel → ∀ key iv x, aes_input key iv x → succeeds (f key iv x));
  crypts_ctx f key storage iv x : aes256_ctx = Some f → cipher_for key storage → aes_input key iv x →
    delivers (f storage iv x) (λ y, y.1 = g 256 key iv x ∧ cipher_for key y.2);
  crypts_ctx_rel f key storage iv x : rel → aes256_ctx = Some f → aes_input key iv x → succeeds (f storage iv x);
  crypts_octets n key iv x : bytes_ok x → zlen x mod 16 = 0 → zlen (g n key iv x) = zlen x ∧ bytes_ok (g n key iv x)
}.

Lemma crypts_encrypt :
  crypts (cf_aes128_cbc_encrypt crypto) (cf_aes256_cbc_encrypt crypto) (cf_aes256_cbc_encrypt_ctx crypto) aes.
Proof.
  split; [intros; by apply cc_encrypt128|intros Hr; pose proof (Hrel Hr); apply cr_encrypt128| |intros; by apply (cc_encrypt_ctx f)
         |intros f key ??? Hr; pose proof (Hrel Hr); apply (cr_encrypt_ctx f key)|apply aes_octets].
  destruct cc_encrypt as (f & Ef & Hf); exists f; split; [done|]; split; [done|]; intros Hr; pose proof (Hrel Hr).
  intros; by apply cr_encrypt.
Qed.

Lemma crypts_decrypt :
  crypts (cf_aes128_cbc_decrypt crypto) (cf_aes256_cbc_decrypt crypto) (cf_aes256_cbc_decrypt_ctx crypto) aes_inv.
Proof.
  split; [intros; by apply cc_decrypt128|intros Hr; pose proof (Hrel Hr); apply cr_decrypt128| |intros; by apply (cc_decrypt_ctx f)
         |intros f key ??? Hr; pose proof (Hrel Hr); apply (cr_decrypt_ctx f key)|apply aes_inv_octets].
  destruct cc_decrypt as (f & Ef & Hf); exists f; split; [done|]; split; [done|]; intros Hr; pose proof (Hrel Hr).
  intros; by apply cr_decrypt.
Qed.

Lemma wp_crypt aes128 aes256 aes256_ctx g n x (Q : unit → chunk_state Ctx → Prop) st : crypts aes128 aes256 aes256_ctx g →
  mem_load (ck_buffer st) 16 n = Some x → keys_ready (ck_keys st) → bytes_ok x → zlen x mod 16 = 0 →
  (∀ ctx k, same_keys (ck_keys st) k → keys_ready k →
     let v := g (key_bits (sk_policy (ck_keys st))) (sk_encrypting_key (ck_keys st)) (sk_iv (ck_keys st)) x in
     Q tt (mk_chunk_state ctx k (with_payload (ck_buffer st) v))) →
  wp (crypt_payload aes128 aes256 aes256_ctx n) Q st.
Proof.
  intros [H128 H128r H256 Hctx Hctxr Hoct] Hl Hk Hb Hm HQ; unfold crypt_payload; apply wp_bind, (wp_load _ x); [done|].
  apply wp_bind; change (wp keys ?Q ?st) with (Q (ck_keys st) st); cbv beta.
  unfold key_bits in HQ; set (k := ck_keys st) in *.
  assert (Hfit : 16 + zlen x ≤ zlen (ck_buffer st)).
  { unfold mem_load in Hl; destruct (_ && _) eqn:E; [|done]; bool_hyps; simplify_eq.
    rewrite zlen_ztake; [done|]; rewrite zlen_zdrop by lia; lia. }
  assert (Hsame : same_keys k k) by (by split_and!); pose proof Hk as (Hkl & Hil & Hkc).
  assert (Hin : aes_input (sk_encrypting_key k) (sk_iv k) x) by done.
  case_bool_decide as Hp.
  - eapply wp_payload; [rewrite (proj1 (Hoct 128 (sk_encrypting_key k) (sk_iv k) x Hb Hm)); done| |exact HQ|done].
    intros Q' HQ'; destruct aes128 as [f|].
    + eapply wp_ctx; [by apply H128| |by intros y ctx ->; apply HQ'].
      intros Hr; destruct (H128r Hr) as (f' & E & H'); simplify_eq; by apply H'.
    + apply wp_fail; [done|]; intros Hr; destruct (H128r Hr) as (f' & E & H'); congruence.
  - eapply wp_payload; [rewrite (proj1 (Hoct 256 (sk_encrypting_key k) (sk_iv k) x Hb Hm)); done| |exact HQ|done].
    intros Q' HQ'; assert (Hplain : wp (call aes256 (λ crypt, in_ctx (crypt (sk_encrypting_key k) (sk_iv k) x))) Q' st).
    { destruct H256 as (f & Ef & Hf & Hfr); rewrite Ef; cbn [call]; eapply wp_ctx; [by apply Hf| |by intros y ctx ->; apply HQ'].
      intros Hr; by apply Hfr. }
    destruct (sk_cipher_ctx_valid k) eqn:Ev; [|done].
    destruct aes256_ctx as [f|]; [|done].
    eapply wp_cipher; [done|by apply (Hctx f); [|apply Hkc|]| |done]; intros Hr; by apply (Hctxr f (sk_encrypting_key k)).
Qed.

(** ** Building *)

Lemma wp_sign_prefix (a c : list Z) (Q : list Z → chunk_state Ctx → Prop) st n : ck_buffer st = a ++ c → n = zlen a →
  (∀ ctx, Q (hmac (sk_signing_key (ck_keys st)) a) (mk_chunk_state ctx (ck_keys st) (ck_buffer st))) →
  wp (sign_prefix crypto n) Q st.
Proof.
  intros Hb -> HQ; apply (wp_sign _ a); [|done]; pose proof (zlen_nonneg a); pose proof (zlen_nonneg c).
  rewrite Hb, mem_load_Some by (rewrite ?zlen_app; lia); by rewrite <- (ztake_app a c) at 3.
Qed.

Lemma sizes mode body : zlen body ≤ PTRDIFF_MAX →
  to_size (8 + zlen body) = 8 + zlen body ∧ to_size (16 + (8 + zlen body) + 32) = 16 + (8 + zlen body) + 32 ∧
  to_size (16 + (8 + zlen body)) = 16 + (8 + zlen body) ∧ to_size (8 + zlen body + 1 + 32) = 8 + zlen body + 1 + 32 ∧
  to_size (8 + zlen body + 1 + 32 + pad_count body) = 8 + zlen body + 1 + 32 + pad_count body ∧
  to_size (8 + zlen body + 1 + pad_count body) = 8 + zlen body + 1 + pad_count body ∧
  to_size (16 + (8 + zlen body + 1 + 32 + pad_count body)) = 16 + (8 + zlen body + 1 + 32 + pad_count body) ∧
  to_size (16 + (8 + zlen body + 1 + pad_count body)) = 16 + (8 + zlen body + 1 + pad_count body) ∧
  to_u8 (pad_count body) = pad_count body ∧ 16 ≤ sym_total mode body.
Proof.
  intros Hl; pose proof (zlen_nonneg body); destruct (pad_count_range body) as [Hp _].
  unfold PTRDIFF_MAX in Hl; repeat split; try (apply to_unsigned_id; norm_pow; lia).
  unfold sym_total; split_if; lia.
Qed.

(** The first steps: headers and message. *)
Lemma wp_message {A} t scid token total seq rid body (k : M (chunk_state Ctx) A) Q st : zlen t = 3 →
  24 + zlen body ≤ zlen (ck_buffer st) →
  wp k Q (mk_chunk_state (ck_ctx st) (ck_keys st)
            ((sym_header t total scid token ++ sym_message seq rid body) ++ zdrop (24 + zlen body) (ck_buffer st))) →
  wp (in_buffer (write_header t scid token);; in_buffer (put_message total seq rid body);; k) Q st.
Proof.
  intros Ht Hl HQ; pose proof (zlen_nonneg body); destruct st as [ctx ks b]; cbn [ck_buffer ck_ctx ck_keys] in *.
  destruct (buffer_split b 4) as (a & b' & -> & Ha & Ha' & _); [lia|].
  destruct (buffer_split b' 4) as (m & b'' & -> & Hm & Hm' & _); [lia|].
  destruct (buffer_split b'' 8) as (h & r & -> & Hh & Hh' & _); [lia|]; rewrite !zlen_app in *.
  apply wp_bind; eapply wp_buffer; [by apply write_header_run|]; cbn [ck_buffer ck_ctx ck_keys].
  apply wp_bind; eapply wp_buffer; [apply put_message_run; [rewrite zlen_app, Ht; done|done|by rewrite zlen_app, !put_u32_length|lia]|].
  cbn [ck_buffer ck_ctx ck_keys]; unfold sym_header.
  assert (E : zdrop (24 + zlen body) (a ++ m ++ h ++ r) = zdrop (8 + zlen body) r).
  { replace (24 + zlen body) with (4 + (4 + (8 + (8 + zlen body)))) by lia.
    rewrite <- !zdrop_zdrop by lia; by rewrite (zdrop_app_eq 4 a), (zdrop_app_eq 4 m), (zdrop_app_eq 8 h). }
  rewrite E in HQ; unfold sym_header in HQ; revert HQ; by rewrite <- !app_assoc.
Qed.

Definition is_secure_mode (mode : Z) : bool :=
  (mode =? MU_MESSAGE_SECURITY_MODE_SIGN) || (mode =? MU_MESSAGE_SECURITY_MODE_SIGN_AND_ENCRYPT).

Lemma wrap_wp mode t scid token seq rid body cap (Q : Z → chunk_state Ctx → Prop) st :
  is_secure_mode mode = true → zlen t = 3 → bytes_ok body → zlen body ≤ PTRDIFF_MAX →
  sym_total mode body ≤ cap ≤ zlen (ck_buffer st) → keys_ready (ck_keys st) →
  (∀ ctx k, same_keys (ck_keys st) k → keys_ready k →
     Q (sym_total mode body)
       (mk_chunk_state ctx k (sym_chunk crypto mode (ck_keys st) t scid token seq rid body
                              ++ zdrop (sym_total mode body) (ck_buffer st)))) →
  wp (mu_sym_chunk_wrap crypto mode t scid token seq rid body cap) Q st.
Proof.
  intros Hmode Ht Hb Hl Hcap Hk HQ; destruct (sizes mode body Hl) as (E1 & E2 & E3 & E4 & E5 & E6 & E7 & E8 & E9 & Hmin).
  unfold is_secure_mode in Hmode; unfold mu_sym_chunk_wrap, MU_SYM_HEADER_SIZE, MU_SYM_SIG_LEN, MU_SYM_BLOCK.
  rewrite E1, E4; fold (pad_count body); rewrite E2, E3, E5, E6, E7, E8, E9; destruct (pad_count_range body) as [Hp Hp16].
  pose proof (zlen_nonneg body); unfold sym_chunk, sym_total in *.
  set (msg := sym_message seq rid body) in *; assert (Hmsg : zlen msg = 8 + zlen body) by apply sym_message_length.
  destruct (mode =? MU_MESSAGE_SECURITY_MODE_SIGN) eqn:Em; cbn [negb andb orb] in *; rewrite (proj2 (Z.ltb_ge _ _)) by lia.
  - set (total := 16 + (8 + zlen body) + 32) in *; set (hd := sym_header t total scid token) in *.
    assert (Hhd : zlen hd = 16) by (by apply sym_header_length).
    apply wp_message; [done|lia|]; fold hd msg; set (rest := zdrop (24 + zlen body) (ck_buffer st)).
    assert (Hrest : 32 ≤ zlen rest) by (unfold rest; rewrite zlen_zdrop by lia; lia).
    apply wp_bind, (wp_sign_prefix (hd ++ msg) rest); [done|rewrite zlen_app; lia|]; intros ctx; cbn [ck_buffer ck_keys ck_ctx].
    pose proof (proj1 (hmac_octets (sk_signing_key (ck_keys st)) (hd ++ msg))) as Hmac; unfold MU_SHA256_LENGTH in Hmac.
    apply wp_bind; eapply wp_buffer; [apply store_last; [rewrite zlen_app; lia|lia]|]; cbn [ck_buffer ck_keys ck_ctx].
    apply wp_ret; unfold rest; rewrite Hmac, zdrop_zdrop by lia.
    unfold signed in HQ; specialize (HQ ctx (ck_keys st)); replace (24 + zlen body + 32) with total by lia.
    rewrite <- !app_assoc in HQ |- *; apply HQ; [by split_and!|done].
  - rewrite Hmode; cbn [negb]; set (p := pad_count body) in *; set (total := 16 + (8 + zlen body + 1 + 32 + p)) in *; set (hd := sym_header t total scid token) in *.
    assert (Hhd : zlen hd = 16) by (by apply sym_header_length).
    apply wp_message; [done|lia|]; fold hd msg; set (rest := zdrop (24 + zlen body) (ck_buffer st)).
    assert (Hrest : 1 + p + 32 ≤ zlen rest) by (unfold rest; rewrite zlen_zdrop by lia; lia).
    apply wp_bind; eapply wp_buffer; [apply store_last; [rewrite zlen_app; lia|change (zlen [p]) with 1; lia]|].
    cbn [ck_buffer ck_keys ck_ctx]; change (zlen [p]) with 1.
    apply wp_bind; eapply wp_buffer; [apply store_last;
      [rewrite !zlen_app; change (zlen [p]) with 1; lia|rewrite zlen_repeat, zlen_zdrop by lia; lia]|].
    cbn [ck_buffer ck_keys ck_ctx]; rewrite zlen_repeat, Z2Nat.id, zdrop_zdrop by lia.
    set (rest1 := zdrop (1 + p) rest); assert (Hrest1 : 32 ≤ zlen rest1) by (unfold rest1; rewrite zlen_zdrop by lia; lia).
    assert (Hpad : zlen (padded msg p) = zlen msg + 1 + p) by (apply padded_length; lia).
    assert (Epad : ((((hd ++ msg) ++ [p]) ++ repeat p (Z.to_nat p)) ++ rest1) = (hd ++ padded msg p) ++ rest1).
    { unfold padded; by rewrite <- !app_assoc. }
    rewrite Epad; apply wp_bind, (wp_sign_prefix (hd ++ padded msg p) rest1); [done|rewrite zlen_app; lia|].
    intros ctx; cbn [ck_buffer ck_keys ck_ctx].
    pose proof (proj1 (hmac_octets (sk_signing_key (ck_keys st)) (hd ++ padded msg p))) as Hmac; unfold MU_SHA256_LENGTH in Hmac.
    apply wp_bind; eapply wp_buffer; [apply store_last; [rewrite zlen_app; lia|lia]|]; cbn [ck_buffer ck_keys ck_ctx]; rewrite Hmac.
    set (x := signed crypto (ck_keys st) hd (padded msg p)) in *; set (rest2 := zdrop 32 rest1).
    assert (Hx : zlen x = 8 + zlen body + 1 + 32 + p) by (unfold x; rewrite signed_length; lia).
    assert (Hxb : bytes_ok x) by (apply signed_bytes, padded_bytes; [by apply sym_message_bytes|ranges; lia]).
    assert (Ebuf : ((hd ++ padded msg p) ++ hmac (sk_signing_key (ck_keys st)) (hd ++ padded msg p)) ++ rest2 = hd ++ x ++ rest2).
    { unfold x, signed; by rewrite <- !app_assoc. }
    rewrite Ebuf; apply wp_bind; eapply (wp_crypt _ _ _ aes _ x); [apply crypts_encrypt| |done|done|by rewrite Hx|].
    { cbn [ck_buffer]; rewrite mem_load_Some by (rewrite ?zlen_app; pose proof (zlen_nonneg rest2); lia).
      by rewrite (zdrop_app_eq 16 hd), <- Hx, ztake_app. }
    intros ctx' k' Hk' Hr'; cbn [ck_buffer ck_keys ck_ctx] in *; cbv zeta; apply wp_ret; set (v := aes _ _ _ x) in *.
    assert (Hv : zlen v = zlen x) by (apply aes_octets; [done|by rewrite Hx]).
    assert (Ew : with_payload (hd ++ x ++ rest2) v = (hd ++ v) ++ zdrop total (ck_buffer st)).
    { unfold with_payload; rewrite <- Hhd at 1; rewrite ztake_app, Hv, <- zdrop_zdrop by lia.
      rewrite (zdrop_app_eq 16 hd), zdrop_app by done; unfold rest2, rest1, rest; rewrite !zdrop_zdrop by lia.
      rewrite <- app_assoc; do 3 f_equal; lia. }
    rewrite Ew; by apply HQ.
Qed.
End wp.

(** ** Opening *)

Lemma get_u32_at b done v rest i : b = done ++ mu_binary_le_put_u32 v ++ rest → i = zlen done → u32_range v → get_u32 b i = Some v.
Proof. intros -> -> Hv; unfold get_u32; by rewrite load_u32_put. Qed.

Lemma chunk_u32_safe b i : bytes_ok b → 0 ≤ i → i + 4 ≤ zlen b → ∃ v, get_u32 b i = Some v ∧ u32_range v.
Proof. intros Hb H0 Hi; unfold get_u32; destruct (load_u32_safe b i Hb H0 Hi) as (v & -> & Hv); by exists v. Qed.

(** The last octets of what was signed. *)
Lemma padding_good hd msg p rest : 0 ≤ p → padding_ok (hd ++ padded msg p ++ rest) (zlen hd + zlen msg + 1 + p) p = Some true.
Proof.
  intros Hp; unfold padding_ok, padded; replace (zlen hd + zlen msg + 1 + p - 1 - p) with (zlen (hd ++ msg)) by (rewrite zlen_app; lia).
  replace (hd ++ (msg ++ p :: repeat p (Z.to_nat p)) ++ rest) with ((hd ++ msg) ++ repeat p (Z.to_nat p) ++ (p :: rest)).
  2:{ rewrite <- !app_assoc; do 2 f_equal; cbn; rewrite (app_assoc _ [p] rest), <- repeat_cons; done. }
  pose proof (zlen_nonneg hd); pose proof (zlen_nonneg msg); pose proof (zlen_nonneg (p :: rest)).
  rewrite mem_load_Some by (rewrite ?zlen_app, ?zlen_repeat; lia); cbn [mbind option_bind].
  rewrite zdrop_app; replace p with (zlen (repeat p (Z.to_nat p))) at 1 by (rewrite zlen_repeat; lia); rewrite ztake_app.
  f_equal; apply forallb_forall; intros x Hx%repeat_spec; by apply Z.eqb_eq.
Qed.

Section unwrap.
  Context {Ctx : Type} {crypto : crypto_functions Ctx} {contract : CryptoContract crypto}.
  Context (rel : Prop) (Hrel : rel → CryptoReliable crypto).
  Abbreviation wp := (wp rel).

(** What is behind the header once it is decrypted. *)
Definition payload (mode : Z) (k : mu_sym_keys_t) (size : Z) (b : list Z) : list Z :=
  let x := ztake (size - 16) (zdrop 16 b) in
  if mode =? MU_MESSAGE_SECURITY_MODE_SIGN_AND_ENCRYPT
  then aes_inv (key_bits (sk_policy k)) (sk_encrypting_key k) (sk_iv k) x else x.

Lemma with_payload_same (b : list Z) n : 0 ≤ n → 16 + n ≤ zlen b → with_payload b (ztake n (zdrop 16 b)) = b.
Proof.
  intros; unfold with_payload; rewrite zlen_ztake by (rewrite zlen_zdrop by lia; lia).
  rewrite <- (zdrop_zdrop n 16) by lia; by rewrite ztake_zdrop, ztake_zdrop.
Qed.

Lemma wp_open mode size (Q : unit → chunk_state Ctx → Prop) st : 16 ≤ size ≤ zlen (ck_buffer st) → bytes_ok (ck_buffer st) →
  keys_ready (ck_keys st) → (rel → is_secure_mode mode = true ∧
    (mode = MU_MESSAGE_SECURITY_MODE_SIGN_AND_ENCRYPT → size ≠ 16 ∧ (size - 16) mod 16 = 0)) →
  (∀ ctx k, same_keys (ck_keys st) k → keys_ready k → is_secure_mode mode = true →
     let v := payload mode (ck_keys st) size (ck_buffer st) in
     zlen v = size - 16 → bytes_ok v →
     Q tt (mk_chunk_state ctx k (with_payload (ck_buffer st) v))) →
  wp (open_payload crypto mode size) Q st.
Proof.
  intros Hs Hb Hk Hm HQ; unfold open_payload, payload, is_secure_mode in *.
  set (x := ztake (size - 16) (zdrop 16 (ck_buffer st))) in *.
  assert (Hx : zlen x = size - 16) by (unfold x; apply zlen_ztake; rewrite zlen_zdrop by lia; lia).
  assert (Hxb : bytes_ok x) by (by apply bytes_ok_ztake, bytes_ok_zdrop).
  destruct (mode =? MU_MESSAGE_SECURITY_MODE_SIGN_AND_ENCRYPT) eqn:Em; unfold MU_SYM_HEADER_SIZE, MU_SYM_BLOCK.
  - destruct (_ || negb _) eqn:Eg; [apply wp_fail; [done|]; intros Hr; destruct (Hm Hr) as (_ & [H1 H2]%(λ H, H (proj1 (Z.eqb_eq _ _) Em)));
      rewrite (proj2 (Z.eqb_neq _ _)), H2 in Eg by lia; done|].
    bool_hyps; eapply (wp_crypt rel _ _ _ aes_inv _ x); [by apply crypts_decrypt| |done|done|congruence|].
    + rewrite mem_load_Some by lia; done.
    + intros ctx k Hk' Hr'; destruct (aes_inv_octets (key_bits (sk_policy (ck_keys st))) (sk_encrypting_key (ck_keys st)) (sk_iv (ck_keys st)) x Hxb ltac:(congruence)).
      apply HQ; [done|done|by rewrite orb_true_r|congruence|done].
  - destruct (mode =? MU_MESSAGE_SECURITY_MODE_SIGN) eqn:Es; cbn [negb].
    + apply wp_ret; specialize (HQ (ck_ctx st) (ck_keys st)); cbv zeta in HQ.
      assert (E : with_payload (ck_buffer st) x = ck_buffer st).
      { apply with_payload_same; lia. }
      rewrite E in HQ; destruct st; apply HQ; [by split_and!|done..].
    + apply wp_fail; [done|]; intros Hr; destruct (Hm Hr) as [[=] _].
Qed.

Lemma wp_verify n (Q : unit → chunk_state Ctx → Prop) st : 0 ≤ n → n + 32 ≤ zlen (ck_buffer st) →
  let b := ck_buffer st in let mac := hmac (sk_signing_key (ck_keys st)) (ztake n b) in
  (rel → ztake 32 (zdrop n b) = mac) →
  (∀ ctx, ztake 32 (zdrop n b) = mac → Q tt (mk_chunk_state ctx (ck_keys st) b)) →
  wp (verify_signature crypto n) Q st.
Proof.
  intros Hn Hl b mac Heq HQ; unfold verify_signature; apply wp_bind.
  apply (wp_sign rel Hrel _ (ztake n b)); [by rewrite mem_load_Some by lia|]; intros ctx; fold b mac.
  apply wp_bind; eapply wp_load; [cbn [ck_buffer]; rewrite mem_load_Some by (unfold MU_SYM_SIG_LEN, b; lia); cbn [mbind option_bind];
    apply secure_memeq_spec; [apply hmac_octets|apply zlen_ztake; unfold b; rewrite zlen_zdrop by lia; unfold MU_SYM_SIG_LEN; lia]|].
  fold b; case_bool_decide as E; cbn [negb]; [by apply wp_ret, HQ|].
  apply wp_fail; [done|]; intros Hr; apply E; symmetry; by apply Heq.
Qed.
End unwrap.

Section open_chunk.
  Context {Ctx : Type} {crypto : crypto_functions Ctx} {contract : CryptoContract crypto}.

(** What an accepted chunk of [size] octets is, in the buffer left behind: the
    HMAC of all that precedes it, headers included, and the body and its
    padding inside what was signed. *)
Record authentic (mode : Z) (k : mu_sym_keys_t) (size : Z) (b : list Z) (info : mu_sym_chunk_info_t) (off len : Z) : Prop := {
  au_mode : is_secure_mode mode = true ∧ sci_mode info = mode;
  au_mac : ztake 32 (zdrop (size - 32) b) = hmac (sk_signing_key k) (ztake (size - 32) b);
  au_body : off = 24 ∧ 0 ≤ len ∧ off + len ≤ size - 32;
  au_padding : off + len = size - 32 ∨
    mode = MU_MESSAGE_SECURITY_MODE_SIGN_AND_ENCRYPT ∧
    ∃ pad, znth b (size - 33) = Some pad ∧ off + len + pad + 1 = size - 32 ∧
      ztake pad (zdrop (off + len) b) = repeat pad (Z.to_nat pad);
  au_size : get_u32 b 4 = Some size;
  au_type : mem_load b 0 3 = Some (sci_message_type info);
  au_channel : get_u32 b 8 = Some (sci_secure_channel_id info);
  au_token : get_u32 b 12 = Some (sci_token_id info);
  au_sequence : get_u32 b 16 = Some (sci_sequence_number info);
  au_request : get_u32 b 20 = Some (sci_request_id info)
}.

Lemma get_u32_prefix (a c d : list Z) i : 0 ≤ i → i + 4 ≤ zlen a → get_u32 (a ++ c) i = get_u32 (a ++ d) i.
Proof.
  intros H0 Hl; unfold get_u32, load_u32, load_byte, znth, zlen in *.
  repeat match goal with |- context [?x <? 0] => rewrite (proj2 (Z.ltb_ge x 0)) by lia end.
  by rewrite !lookup_app_l by lia.
Qed.

Lemma padding_ok_spec (b : list Z) n pad : 0 ≤ pad → pad + 1 ≤ n ≤ zlen b →
  ∃ good, padding_ok b n pad = Some good ∧
    (good = true → ztake pad (zdrop (n - 1 - pad) b) = repeat pad (Z.to_nat pad)).
Proof.
  intros Hp Hn; unfold padding_ok; rewrite mem_load_Some by lia; cbn [mbind option_bind]; eexists; split; [done|].
  set (l := ztake _ _); assert (Hl : zlen l = pad) by (apply zlen_ztake; rewrite zlen_zdrop by lia; lia).
  rewrite forallb_forall; intros Hall; apply Forall_eq_repeat_pad; [|unfold zlen in Hl; lia].
  apply Forall_forall; intros x Hx%list_elem_of_In%Hall; by apply Z.eqb_eq in Hx.
Qed.

Lemma wp_strip rel mode n (Q : Z → chunk_state Ctx → Prop) st : bytes_ok (ck_buffer st) → 24 ≤ n ≤ zlen (ck_buffer st) →
  (rel → mode = MU_MESSAGE_SECURITY_MODE_SIGN_AND_ENCRYPT →
     ∃ pad, znth (ck_buffer st) (n - 1) = Some pad ∧ 25 + pad ≤ n ∧ padding_ok (ck_buffer st) n pad = Some true) →
  (mode ≠ MU_MESSAGE_SECURITY_MODE_SIGN_AND_ENCRYPT → Q 0 st) →
  (∀ pad, mode = MU_MESSAGE_SECURITY_MODE_SIGN_AND_ENCRYPT → znth (ck_buffer st) (n - 1) = Some pad → 0 ≤ pad →
     25 + pad ≤ n → ztake pad (zdrop (n - 1 - pad) (ck_buffer st)) = repeat pad (Z.to_nat pad) → Q (pad + 1) st) →
  wp rel (strip_padding mode n) Q st.
Proof.
  intros Hb Hn Hr H0 HQ; unfold strip_padding; destruct (Z.eqb_spec mode MU_MESSAGE_SECURITY_MODE_SIGN_AND_ENCRYPT) as [Em|Em];
    [|by apply wp_ret, H0].
  destruct (znth_Some (ck_buffer st) (n - 1)) as [pad Hpad]; [lia|].
  assert (0 ≤ pad) by (apply znth_lookup in Hpad as [Hl _]; apply (Forall_lookup_1 _ _ _ _ Hb) in Hl; apply Hl).
  apply wp_bind, (wp_load rel _ pad); [done|]; unfold MU_SYM_HEADER_SIZE; destruct (Z.ltb_spec n (16 + 8 + 1 + pad)) as [Hlt|Hge].
  { apply wp_fail; [done|]; intros Hrel; destruct (Hr Hrel Em) as (pad' & ? & ? & _); simplify_eq; lia. }
  destruct (padding_ok_spec (ck_buffer st) n pad) as (good & Eg & Hgood); [lia..|].
  apply wp_bind, (wp_load rel _ good); [done|]; destruct good; cbn [negb].
  - apply wp_ret, HQ; [done|done|lia|lia|by apply Hgood].
  - apply wp_fail; [done|]; intros Hrel; destruct (Hr Hrel Em) as (pad' & ? & _ & ?); by simplify_eq.
Qed.

Lemma unwrap_authentic mode len st : bytes_ok (ck_buffer st) → 0 ≤ len ≤ zlen (ck_buffer st) → keys_ready (ck_keys st) →
  wp False (mu_sym_chunk_unwrap crypto mode len) (λ r st',
    same_keys (ck_keys st) (ck_keys st') ∧ keys_ready (ck_keys st') ∧
    ∃ size, 56 ≤ size ≤ len ∧ ck_buffer st' = with_payload (ck_buffer st) (payload mode (ck_keys st) size (ck_buffer st)) ∧
      authentic mode (ck_keys st) size (ck_buffer st') r.1 r.2.1 r.2.2) st.
Proof.
  intros Hb Hl Hk; unfold mu_sym_chunk_unwrap; set (b := ck_buffer st) in *.
  destruct (Z.ltb_spec len MU_SYM_HEADER_SIZE) as [Hlt|Hge]; [apply wp_fail; [done|by intros []]|]; unfold MU_SYM_HEADER_SIZE in *.
  destruct (chunk_u32_safe b 4) as (size & Esize & Hsize); [done|lia..|].
  apply wp_bind, (wp_load _ _ size); [done|]; destruct (_ || _) eqn:Eg; [apply wp_fail; [done|by intros []]|]; bool_hyps.
  destruct (chunk_u32_safe b 8) as (scid & Escid & _); [done|lia..|]; destruct (chunk_u32_safe b 12) as (token & Etoken & _); [done|lia..|].
  apply wp_bind, (wp_load _ _ (ztake 3 b)); [fold b; rewrite mem_load_Some by lia; done|].
  apply wp_bind, (wp_load _ _ scid); [done|]; apply wp_bind, (wp_load _ _ token); [done|].
  apply wp_bind, wp_open; [by intros []|fold b; lia|done|done|by intros []|]; cbv zeta; fold b.
  intros ctx k Hsame Hready Hmode Hv Hvb; set (v := payload mode (ck_keys st) size b) in *; set (b' := with_payload b v).
  assert (Hb' : zlen b' = zlen b) by (unfold b', with_payload; rewrite !zlen_app, zlen_ztake, zlen_zdrop by lia; lia).
  assert (Hbb : bytes_ok b').
  { unfold b', with_payload; rewrite !bytes_ok_app; split; [by apply bytes_ok_ztake|]; split; [done|by apply bytes_ok_zdrop]. }
  assert (Hhead : zlen (ztake 16 b) = 16) by (apply zlen_ztake; lia).
  assert (Hget : ∀ i, 0 ≤ i → i + 4 ≤ 16 → get_u32 b' i = get_u32 b i).
  { intros i ??; rewrite <- (ztake_zdrop 16 b) at 1; unfold b', with_payload; apply get_u32_prefix; lia. }
  destruct (Z.ltb_spec size (16 + 8 + MU_SYM_SIG_LEN)) as [Hshort|Hlong]; [apply wp_fail; [done|by intros []]|]; unfold MU_SYM_SIG_LEN in *.
  apply wp_bind, wp_verify; cbn [ck_buffer ck_keys]; [by intros []|lia|lia|by intros []|]; intros ctx' Hmac.
  destruct (chunk_u32_safe b' 16) as (seq & Eseq & _); [done|lia..|]; destruct (chunk_u32_safe b' 20) as (rid & Erid & _); [done|lia..|].
  assert (Hfin : ∀ p, (p = 0 ∨ mode = MU_MESSAGE_SECURITY_MODE_SIGN_AND_ENCRYPT ∧ ∃ pad, p = pad + 1 ∧ znth b' (size - 32 - 1) = Some pad
      ∧ ztake pad (zdrop (size - 32 - 1 - pad) b') = repeat pad (Z.to_nat pad)) → 0 ≤ p ≤ size - 32 - 24 →
    authentic mode (ck_keys st) size b' (mk_sym_chunk_info mode scid token seq rid (ztake 3 b)) 24 (size - 32 - 16 - p - 8)).
  { intros p Hpad Hp; destruct Hsame as (_ & Hsig & _); split; cbn; [done|by rewrite <- Hsig|lia| |by rewrite Hget by lia| |by rewrite Hget by lia|by rewrite Hget by lia|done|done].
    - destruct Hpad as [->|(Em & pad & -> & Ep & Er)]; [left; lia|right; split; [done|]; exists pad].
      replace (size - 33) with (size - 32 - 1) by lia; split; [done|]; split; [lia|]; rewrite <- Er; do 2 f_equal; lia.
    - transitivity (mem_load b 0 3); [|rewrite mem_load_Some by lia; done].
      rewrite <- (ztake_zdrop 16 b) at 1; unfold b', with_payload; apply mem_load_prefix; lia. }
  apply wp_bind, wp_strip; cbn [ck_buffer]; [done|lia|by intros []| |].
  - intros _; apply wp_bind, (wp_load _ _ seq); [done|]; apply wp_bind, (wp_load _ _ rid); [done|]; apply wp_ret; cbn [ck_keys ck_buffer].
    split; [done|]; split; [done|]; exists size; split; [lia|]; split; [done|]; apply Hfin; [by left|lia].
  - intros pad Em Ep Hp0 Hp Er; apply wp_bind, (wp_load _ _ seq); [done|]; apply wp_bind, (wp_load _ _ rid); [done|]; apply wp_ret; cbn [ck_keys ck_buffer].
    split; [done|]; split; [done|]; exists size; split; [lia|]; split; [done|]; apply Hfin; [right|lia]; split; [done|]; by exists pad.
Qed.
End open_chunk.

Section roundtrip.
  Context {Ctx : Type} {crypto : crypto_functions Ctx} {contract : CryptoContract crypto}.
  Context (rel : Prop) (Hrel : rel → CryptoReliable crypto).

Lemma znth_padded (hd msg rest : list Z) p i : 0 ≤ p → i = zlen hd + zlen msg + p → znth ((hd ++ padded msg p) ++ rest) i = Some p.
Proof.
  intros Hp ->; replace ((hd ++ padded msg p) ++ rest) with ((hd ++ msg ++ repeat p (Z.to_nat p)) ++ p :: rest).
  - replace (zlen hd + zlen msg + p) with (zlen (hd ++ msg ++ repeat p (Z.to_nat p))) by (rewrite !zlen_app, zlen_repeat; lia).
    apply znth_mid.
  - unfold padded; rewrite <- !app_assoc; do 2 f_equal; cbn; rewrite (app_assoc _ [p] rest), <- repeat_cons; done.
Qed.

(** What is signed behind the header. *)
Definition content (mode seq rid : Z) (body : list Z) : list Z :=
  let msg := sym_message seq rid body in
  if mode =? MU_MESSAGE_SECURITY_MODE_SIGN then msg else padded msg (pad_count body).

Lemma content_octets mode seq rid body : bytes_ok body →
  bytes_ok (content mode seq rid body) ∧ zlen (content mode seq rid body) = sym_total mode body - 48 ∧
  ((mode =? MU_MESSAGE_SECURITY_MODE_SIGN) = false → (zlen (content mode seq rid body) + 32) mod 16 = 0).
Proof.
  intros Hb; destruct (pad_count_range body) as [Hp Hm]; unfold content, sym_total.
  pose proof (sym_message_length seq rid body); pose proof (sym_message_bytes seq rid body Hb); split_if; [by split_and!; [|lia|]|].
  rewrite padded_length, H by lia; split_and!; [apply padded_bytes; [done|ranges; lia]|lia|].
  intros _; rewrite <- Hm; f_equal; lia.
Qed.

Lemma sym_chunk_payload mode k k' t scid token seq rid body rest : zlen t = 3 → bytes_ok body → is_secure_mode mode = true →
  same_keys k k' →
  let hd := sym_header t (sym_total mode body) scid token in
  let b := sym_chunk crypto mode k t scid token seq rid body ++ rest in
  let v := signed crypto k hd (content mode seq rid body) in
  payload mode k' (sym_total mode body) b = v ∧ with_payload b v = hd ++ v ++ rest.
Proof.
  intros Ht Hb Hmode (Ep & _ & Ee & Ei) hd b v; destruct (content_octets mode seq rid body Hb) as (Hcb & Hcl & Hcm).
  assert (Hhd : zlen hd = 16) by (by apply sym_header_length).
  assert (Hv : zlen v = sym_total mode body - 16) by (unfold v; rewrite signed_length; lia).
  assert (Hvb : bytes_ok v) by (by apply signed_bytes).
  set (enc := if mode =? MU_MESSAGE_SECURITY_MODE_SIGN then v
              else aes (key_bits (sk_policy k)) (sk_encrypting_key k) (sk_iv k) v).
  assert (Hb' : b = hd ++ enc ++ rest).
  { unfold b, sym_chunk, enc, v, content, hd; destruct (mode =? _); by rewrite <- app_assoc. }
  assert (Hmod : (mode =? MU_MESSAGE_SECURITY_MODE_SIGN) = false → zlen v mod 16 = 0).
  { intros E; rewrite <- (Hcm E); f_equal; unfold v; by rewrite signed_length. }
  assert (Henc : zlen enc = zlen v).
  { unfold enc; destruct (mode =? MU_MESSAGE_SECURITY_MODE_SIGN) eqn:E; [done|]; apply aes_octets; [done|by apply Hmod]. }
  rewrite Hb'; split.
  - unfold payload; rewrite (zdrop_app_eq 16 hd) by done; rewrite <- Hv, <- Henc, ztake_app.
    unfold is_secure_mode in Hmode; unfold enc; destruct (Z.eqb_spec mode MU_MESSAGE_SECURITY_MODE_SIGN) as [->|Hne]; [done|].
    cbn [orb] in Hmode; rewrite Hmode, Ep, Ee, Ei; apply aes_inverse; [done|by apply Hmod].
  - unfold with_payload; rewrite <- Hhd at 1; rewrite ztake_app, <- zdrop_zdrop, (zdrop_app_eq 16 hd), <- Henc, zdrop_app by (pose proof (zlen_nonneg v); lia).
    done.
Qed.

(** The cleartext header read back. *)
Lemma header_reads t total scid token r b : b = sym_header t total scid token ++ r → zlen t = 3 →
  u32_range total → u32_range scid → u32_range token →
  get_u32 b 4 = Some total ∧ mem_load b 0 3 = Some t ∧ get_u32 b 8 = Some scid ∧ get_u32 b 12 = Some token.
Proof.
  intros -> Ht H1 H2 H3; pose proof (put_u32_length total); pose proof (put_u32_length scid).
  assert (Ht4 : zlen (t ++ [chr "F"]) = 4) by (rewrite zlen_app, Ht; done); unfold sym_header; split; [|split; [|split]].
  - apply (get_u32_at _ (t ++ [chr "F"]) total (mu_binary_le_put_u32 scid ++ mu_binary_le_put_u32 token ++ r)); [|done|done].
    by rewrite <- !app_assoc.
  - apply (mem_load_at _ [] t ([chr "F"] ++ mu_binary_le_put_u32 total ++ mu_binary_le_put_u32 scid ++ mu_binary_le_put_u32 token ++ r));
      [|done|done]; by rewrite <- !app_assoc.
  - apply (get_u32_at _ ((t ++ [chr "F"]) ++ mu_binary_le_put_u32 total) scid (mu_binary_le_put_u32 token ++ r)); [|rewrite zlen_app; lia|done].
    by rewrite <- !app_assoc.
  - apply (get_u32_at _ (((t ++ [chr "F"]) ++ mu_binary_le_put_u32 total) ++ mu_binary_le_put_u32 scid) token r); [|rewrite zlen_app, zlen_app; lia|done].
    by rewrite <- !app_assoc.
Qed.

(** The decrypted chunk, behind its header: numbers, body, padding. *)
Lemma content_reads mode seq rid body hd rest b : b = (hd ++ content mode seq rid body) ++ rest → zlen hd = 16 →
  u32_range seq → u32_range rid →
  get_u32 b 16 = Some seq ∧ get_u32 b (16 + 4) = Some rid ∧ mem_load b 24 (zlen body) = Some body ∧
  (mode = MU_MESSAGE_SECURITY_MODE_SIGN_AND_ENCRYPT →
     znth b (sym_total mode body - 32 - 1) = Some (pad_count body) ∧
     padding_ok b (sym_total mode body - 32) (pad_count body) = Some true).
Proof.
  intros Eb Hhd H1 H2; destruct (pad_count_range body) as [Hp _]; pose proof (put_u32_length seq); pose proof (put_u32_length rid).
  set (tail := if mode =? MU_MESSAGE_SECURITY_MODE_SIGN then [] else pad_count body :: repeat (pad_count body) (Z.to_nat (pad_count body))).
  assert (Ec : b = hd ++ mu_binary_le_put_u32 seq ++ mu_binary_le_put_u32 rid ++ body ++ tail ++ rest).
  { rewrite Eb; unfold content, padded, sym_message, tail; destruct (mode =? _); by rewrite <- ?app_assoc. }
  split; [|split; [|split]].
  - by eapply get_u32_at; [exact Ec|lia|done].
  - eapply (get_u32_at _ (hd ++ mu_binary_le_put_u32 seq)); [rewrite <- app_assoc; exact Ec|rewrite zlen_app; lia|done].
  - apply (mem_load_at _ (hd ++ mu_binary_le_put_u32 seq ++ mu_binary_le_put_u32 rid) body (tail ++ rest));
      [by rewrite <- !app_assoc|rewrite !zlen_app; lia|done].
  - intros ->; unfold content in Eb; cbn [Z.eqb Pos.eqb MU_MESSAGE_SECURITY_MODE_SIGN MU_MESSAGE_SECURITY_MODE_SIGN_AND_ENCRYPT] in Eb.
    assert (Htt : sym_total MU_MESSAGE_SECURITY_MODE_SIGN_AND_ENCRYPT body = 57 + zlen body + pad_count body) by (unfold sym_total; cbn; lia).
    pose proof (sym_message_length seq rid body) as Hml; rewrite Htt; split.
    + rewrite Eb; apply znth_padded; [lia|rewrite Hhd, Hml; lia].
    + replace (57 + zlen body + pad_count body - 32) with (zlen hd + zlen (sym_message seq rid body) + 1 + pad_count body) by lia.
      rewrite Eb, <- app_assoc; apply padding_good; lia.
Qed.

Lemma unwrap_wp mode k t scid token seq rid body rest len (Q : _ → chunk_state Ctx → Prop) st :
  ck_buffer st = sym_chunk crypto mode k t scid token seq rid body ++ rest → bytes_ok (ck_buffer st) →
  is_secure_mode mode = true → zlen t = 3 → bytes_ok body → zlen body ≤ PTRDIFF_MAX →
  u32_range scid → u32_range token → u32_range seq → u32_range rid →
  same_keys k (ck_keys st) → keys_ready (ck_keys st) → sym_total mode body ≤ len ≤ zlen (ck_buffer st) →
  (∀ ctx k' b, same_keys (ck_keys st) k' → keys_ready k' → mem_load b 24 (zlen body) = Some body →
     Q (mk_sym_chunk_info mode scid token seq rid t, (24, zlen body)) (mk_chunk_state ctx k' b)) →
  wp rel (mu_sym_chunk_unwrap crypto mode len) Q st.
Proof.
  intros Eb Hbb Hmode Ht Hb Hbl Hs1 Hs2 Hs3 Hs4 Hsame Hready Hlen HQ.
  destruct (sym_chunk_payload mode k (ck_keys st) t scid token seq rid body rest Ht Hb Hmode Hsame) as [Hpay Hwith].
  destruct (content_octets mode seq rid body Hb) as (Hcb & Hcl & Hcm); destruct (pad_count_range body) as [Hp Hp16].
  rewrite <- Eb in Hpay, Hwith; set (hd := sym_header t (sym_total mode body) scid token) in *.
  set (c := content mode seq rid body) in *; pose proof (zlen_nonneg body).
  assert (Htot : sym_total mode body = 56 + zlen body ∨ mode ≠ MU_MESSAGE_SECURITY_MODE_SIGN ∧ sym_total mode body = 57 + zlen body + pad_count body)
    by (unfold sym_total; destruct (Z.eqb_spec mode MU_MESSAGE_SECURITY_MODE_SIGN); [left|right]; lia).
  set (total := sym_total mode body) in *.
  assert (Htr : u32_range total) by (unfold PTRDIFF_MAX in *; ranges; lia).
  assert (Hhd : zlen hd = 16) by (by apply sym_header_length).
  assert (Ehd : ∃ r, ck_buffer st = hd ++ r) by (rewrite Eb; unfold sym_chunk; rewrite <- app_assoc; by eexists).
  destruct Ehd as [r Er]; destruct (header_reads t total scid token r _ Er Ht Htr Hs1 Hs2) as (E1 & E2 & E3 & E4).
  unfold mu_sym_chunk_unwrap; rewrite (proj2 (Z.ltb_ge _ _)) by (unfold MU_SYM_HEADER_SIZE; lia).
  apply wp_bind, (wp_load _ _ total); [done|]; rewrite !(proj2 (Z.ltb_ge _ _)) by (unfold MU_SYM_HEADER_SIZE; lia); cbn [orb].
  apply wp_bind, (wp_load _ _ t); [done|]; apply wp_bind, (wp_load _ _ scid); [done|]; apply wp_bind, (wp_load _ _ token); [done|].
  assert (Hv : zlen (signed crypto k hd c) = total - 16) by (rewrite signed_length; lia).
  apply wp_bind, (wp_open rel Hrel); [lia|done|done| |].
  { intros _; split; [done|]; intros ->; split; [lia|]; rewrite <- Hv, signed_length; by apply Hcm. }
  cbv zeta; rewrite Hpay, Hwith; intros ctx k' Hsame' Hready' _ _ Hvb.
  unfold MU_SYM_HEADER_SIZE, MU_SYM_SIG_LEN; rewrite (proj2 (Z.ltb_ge _ _)) by lia.
  set (b := hd ++ signed crypto k hd c ++ rest); assert (Eb' : b = (hd ++ c) ++ hmac (sk_signing_key k) (hd ++ c) ++ rest).
  { unfold b, signed; by rewrite <- !app_assoc. }
  destruct (content_reads mode seq rid body hd _ b Eb' Hhd Hs3 Hs4) as (R1 & R2 & R3 & R4); fold total in R4.
  assert (Hpre : zlen (hd ++ c) = total - 32) by (rewrite zlen_app; lia).
  assert (Hblen : zlen b = total + zlen rest) by (unfold b; rewrite !zlen_app; lia); pose proof (zlen_nonneg rest).
  assert (Hsig : sk_signing_key k' = sk_signing_key k) by (destruct Hsame as (_ & <- & _), Hsame' as (_ & <- & _); done).
  assert (Hmac : ztake 32 (zdrop (total - 32) b) = hmac (sk_signing_key k') (ztake (total - 32) b)).
  { rewrite Hsig, Eb', <- Hpre, zdrop_app, ztake_app; rewrite <- (proj1 (hmac_octets (sk_signing_key k) (hd ++ c))) at 1.
    apply ztake_app. }
  assert (Hbbytes : bytes_ok b).
  { assert (Hh : bytes_ok hd) by (rewrite Er in Hbb; by apply bytes_ok_app in Hbb as [? _]).
    rewrite Eb in Hbb; apply bytes_ok_app in Hbb as [_ Hrest]; unfold b; by rewrite !bytes_ok_app. }
  apply wp_bind, (wp_verify rel Hrel); cbn [ck_buffer ck_keys]; [lia|lia|done|]; intros ctx' _.
  assert (Hfin : ∀ p, p = total - 56 - zlen body → wp rel (sequence_number ← load (λ b0, get_u32 b0 16);
      request_id ← load (λ b0, get_u32 b0 (16 + 4));
      mret (mk_sym_chunk_info mode scid token sequence_number request_id t, (16 + 8, total - 32 - 16 - p - 8)))
    Q (mk_chunk_state ctx' k' b)).
  { intros p ->; apply wp_bind, (wp_load _ _ seq); [done|]; apply wp_bind, (wp_load _ _ rid); [done|].
    apply wp_ret; replace (total - 32 - 16 - (total - 56 - zlen body) - 8) with (zlen body) by lia; by apply HQ. }
  apply wp_bind, wp_strip; cbn [ck_buffer]; [done|lia| | |].
  - intros _ Em; destruct (R4 Em) as [Hz Hok]; exists (pad_count body); split; [done|]; split; [|done].
    destruct Htot as [Ht'|[_ Ht']]; [|lia]; exfalso; revert Ht'; unfold total, sym_total; rewrite Em; cbn; lia.
  - intros Em; apply Hfin; unfold is_secure_mode in Hmode.
    rewrite (proj2 (Z.eqb_neq _ _) Em), orb_false_r in Hmode; unfold total, sym_total; rewrite Hmode; lia.
  - intros pad Em Hz _ _ _; destruct (R4 Em) as [Hz' _]; rewrite Hz' in Hz; injection Hz as <-; apply Hfin; unfold total, sym_total; rewrite Em; cbn; lia.
Qed.
End roundtrip.

(** ** The theorems *)

Section theorems.
  Context {Ctx : Type} {crypto : crypto_functions Ctx} {contract : CryptoContract crypto}.

Lemma sym_chunk_octets mode k t scid token seq rid body : zlen t = 3 → bytes_ok t → bytes_ok body →
  zlen (sym_chunk crypto mode k t scid token seq rid body) = sym_total mode body ∧
  bytes_ok (sym_chunk crypto mode k t scid token seq rid body).
Proof.
  intros Ht Htb Hb; destruct (content_octets mode seq rid body Hb) as (Hcb & Hcl & Hcm).
  set (hd := sym_header t (sym_total mode body) scid token); assert (Hhd : zlen hd = 16) by (by apply sym_header_length).
  assert (Hhb : bytes_ok hd).
  { unfold hd, sym_header; rewrite !bytes_ok_app; split_and!; [done| |apply put_u32_bytes..]; by repeat constructor. }
  assert (Hv : zlen (signed crypto k hd (content mode seq rid body)) = sym_total mode body - 16) by (rewrite signed_length; lia).
  assert (Hvb : bytes_ok (signed crypto k hd (content mode seq rid body))) by (by apply signed_bytes).
  unfold sym_chunk; fold hd; unfold content in *; destruct (mode =? MU_MESSAGE_SECURITY_MODE_SIGN).
  - rewrite zlen_app, bytes_ok_app; split; [lia|done].
  - destruct (aes_octets (key_bits (sk_policy k)) (sk_encrypting_key k) (sk_iv k) _ Hvb) as [El Eb];
      [rewrite <- (Hcm eq_refl); f_equal; by rewrite signed_length|].
    rewrite zlen_app, bytes_ok_app, El; split; [lia|done].
Qed.

(** C38: a protected message is read back. In mode Sign or SignAndEncrypt, with
    any of the policies, a message that fits the buffer is wrapped, and the
    octets of the chunk, unwrapped with the same keys, whatever follows them in
    the receive buffer and whether or not either side uses a prepared cipher
    context, give back the message type, the channel, token, sequence and
    request numbers, and exactly the body, in place. *)
Theorem sym_chunk_roundtrip mode t scid token seq rid body cap st : CryptoReliable crypto →
  is_secure_mode mode = true → zlen t = 3 → bytes_ok t → bytes_ok body → zlen body ≤ PTRDIFF_MAX →
  u32_range scid → u32_range token → u32_range seq → u32_range rid →
  keys_ready (ck_keys st) → sym_total mode body ≤ cap ≤ zlen (ck_buffer st) →
  ∃ st', mu_sym_chunk_wrap crypto mode t scid token seq rid body cap st = (Ok (sym_total mode body), st') ∧
    zdrop (sym_total mode body) (ck_buffer st') = zdrop (sym_total mode body) (ck_buffer st) ∧
    ∀ ctx k tail, same_keys (ck_keys st) k → keys_ready k → bytes_ok tail →
    ∃ st'', mu_sym_chunk_unwrap crypto mode (sym_total mode body)
              (mk_chunk_state ctx k (ztake (sym_total mode body) (ck_buffer st') ++ tail))
            = (Ok (mk_sym_chunk_info mode scid token seq rid t, (24, zlen body)), st'') ∧
      mem_load (ck_buffer st'') 24 (zlen body) = Some body.
Proof.
  intros Hrel Hmode Ht Htb Hb Hbl H1 H2 H3 H4 Hready Hfit.
  destruct (sym_chunk_octets mode (ck_keys st) t scid token seq rid body Ht Htb Hb) as [Hcl Hcb].
  assert (Hw : wp True (mu_sym_chunk_wrap crypto mode t scid token seq rid body cap) (λ total st', total = sym_total mode body ∧
    ck_buffer st' = sym_chunk crypto mode (ck_keys st) t scid token seq rid body ++ zdrop total (ck_buffer st)) st).
  { apply (wrap_wp True (λ _, Hrel)); done. }
  unfold wp in Hw; destruct (mu_sym_chunk_wrap _ _ _ _ _ _ _ _ _ st) as [[total|e|] st']; [|by destruct Hw as [_ []]|done].
  destruct Hw as [-> Eb]; exists st'; split; [done|]; rewrite Eb, <- Hcl, zdrop_app, ztake_app; split; [done|].
  intros ctx k tail Hk Hr Htail; assert (Hu : wp True (mu_sym_chunk_unwrap crypto mode (sym_total mode body)) (λ r st'',
    r = (mk_sym_chunk_info mode scid token seq rid t, (24, zlen body)) ∧ mem_load (ck_buffer st'') 24 (zlen body) = Some body)
    (mk_chunk_state ctx k (sym_chunk crypto mode (ck_keys st) t scid token seq rid body ++ tail))).
  { eapply (unwrap_wp True (λ _, Hrel)); cbn [ck_buffer ck_keys]; [reflexivity|by apply bytes_ok_app|done..| |done].
    rewrite zlen_app; pose proof (zlen_nonneg tail); lia. }
  rewrite Hcl; unfold wp in Hu; destruct (mu_sym_chunk_unwrap _ _ _ _) as [[r|e|] st'']; [|by destruct Hu as [_ []]|done].
  destruct Hu as [-> Hu]; by exists st''.
Qed.

(** C15: only authentic chunks are accepted. Whatever octets arrive, and
    whatever fails in the adapter, unwrapping reaches no undefined behaviour;
    when it succeeds, the chunk lies inside the received octets, its last 32
    octets are the HMAC under the channel's signing key of everything before
    them (the cleartext header, which carries the size, the channel and the
    token, and the decrypted payload), the numbers reported are the ones
    covered by that HMAC, and the body handed to the dispatcher is the signed
    octets between the sequence header and a well-formed padding. Only the
    payload in the buffer is rewritten. *)
Theorem sym_chunk_authentic mode len st : bytes_ok (ck_buffer st) → 0 ≤ len ≤ zlen (ck_buffer st) → keys_ready (ck_keys st) →
  match mu_sym_chunk_unwrap crypto mode len st with
  | (Ok (info, (off, n)), st') =>
      ∃ size, 56 ≤ size ≤ len ∧ same_keys (ck_keys st) (ck_keys st') ∧ keys_ready (ck_keys st') ∧
        ck_buffer st' = with_payload (ck_buffer st) (payload mode (ck_keys st) size (ck_buffer st)) ∧
        authentic mode (ck_keys st) size (ck_buffer st') info off n
  | (Err e, _) => e ≠ MU_STATUS_GOOD
  | (Fault, _) => False
  end.
Proof.
  intros Hb Hl Hk; pose proof (unwrap_authentic mode len st Hb Hl Hk) as H; unfold wp in H.
  destruct (mu_sym_chunk_unwrap _ _ _ _) as [[[info [off n]]|e|] st']; [|by destruct H|done].
  destruct H as (Hs & Hr & size & ? & ? & ?); by exists size.
Qed.
End theorems.

(** ** A concrete channel *)

Definition demo_keys (policy : mu_security_policy_id_t) : mu_sym_keys_t :=
  mk_sym_keys policy (repeat 11 32) (repeat 12 32) (repeat 13 16) (repeat 0 512) None false.

Definition demo_chunk_state (policy : mu_security_policy_id_t) (n : nat) : chunk_state unit :=
  mk_chunk_state tt (demo_keys policy) (repeat 0 n).

Definition demo_body : list Z := bytes_of_string "a response".

Lemma demo_keys_ready policy : keys_ready (crypto := model_adapter 256) (demo_keys policy).
Proof. split_and!; [done..|by intros [=]]. Qed.

Lemma sym_chunk_roundtrip_witness :
  let crypto := model_adapter 256 in
  let st := demo_chunk_state MU_SECURITY_POLICY_BASIC256SHA256_ID 128 in
  ∃ st', mu_sym_chunk_wrap crypto MU_MESSAGE_SECURITY_MODE_SIGN_AND_ENCRYPT (bytes_of_string "MSG") 7 8 9 10 demo_body 128 st
         = (Ok 80, st') ∧
    ∃ st'', mu_sym_chunk_unwrap crypto MU_MESSAGE_SECURITY_MODE_SIGN_AND_ENCRYPT 80
              (mk_chunk_state tt (demo_keys MU_SECURITY_POLICY_BASIC256SHA256_ID) (ztake 80 (ck_buffer st') ++ [1; 2; 3]))
            = (Ok (mk_sym_chunk_info 3 7 8 9 10 (bytes_of_string "MSG"), (24, 10)), st'') ∧
      mem_load (ck_buffer st'') 24 10 = Some demo_body.
Proof.
  cbv zeta; destruct (sym_chunk_roundtrip (crypto := model_adapter 256) MU_MESSAGE_SECURITY_MODE_SIGN_AND_ENCRYPT (bytes_of_string "MSG") 7 8 9 10
    demo_body 128 (demo_chunk_state MU_SECURITY_POLICY_BASIC256SHA256_ID 128)) as (st' & E & _ & H);
    [exact _|reflexivity|reflexivity|by apply bytes_okb|by apply bytes_okb|vm_compute; discriminate|by ranges|by ranges|by ranges|by ranges
    |by apply demo_keys_ready|vm_compute; split; discriminate|].
  exists st'; split; [exact E|]; apply H; [by split_and!|by apply demo_keys_ready|by apply bytes_okb].
Defined.

(** A flipped octet of the ciphertext is noticed. *)
Definition flip (i : nat) (l : list Z) : list Z := match l !! i with Some x => <[i := Z.lxor x 1]> l | None => l end.

Lemma sym_chunk_authentic_witness :
  let crypto := model_adapter 256 in
  let st := (mu_sym_chunk_wrap crypto MU_MESSAGE_SECURITY_MODE_SIGN_AND_ENCRYPT (bytes_of_string "MSG") 7 8 9 10 demo_body 128
               (demo_chunk_state MU_SECURITY_POLICY_BASIC256SHA256_ID 128)).2 in
  (mu_sym_chunk_unwrap crypto MU_MESSAGE_SECURITY_MODE_SIGN_AND_ENCRYPT 128
     (mk_chunk_state tt (ck_keys st) (flip 30 (ck_buffer st)))).1 = Err MU_STATUS_BAD_SECURITYCHECKSFAILED ∧
  match mu_sym_chunk_unwrap crypto MU_MESSAGE_SECURITY_MODE_SIGN_AND_ENCRYPT 128 st with
  | (Ok (info, (off, n)), st') => ∃ size, authentic (crypto := crypto) 3 (ck_keys st) size (ck_buffer st') info off n
  | _ => False
  end.
Proof.
  cbv zeta; split; [vm_compute; reflexivity|]; set (st := snd _).
  pose proof (sym_chunk_authentic (crypto := model_adapter 256) MU_MESSAGE_SECURITY_MODE_SIGN_AND_ENCRYPT 128 st) as H.
  assert (Hok : ∃ r, (mu_sym_chunk_unwrap (model_adapter 256) MU_MESSAGE_SECURITY_MODE_SIGN_AND_ENCRYPT 128 st).1 = Ok r)
    by (eexists; vm_compute; reflexivity).
  destruct (mu_sym_chunk_unwrap _ _ _ st) as [[[info [off n]]|e|] st']; [|by destruct Hok..].
  destruct H as (size & _ & _ & _ & _ & Ha); [apply bytes_okb; vm_compute; reflexivity|vm_compute; split; discriminate|split_and!; [vm_compute; reflexivity..|intros _; exact Logic.I]|exists size; exact Ha].
Defined.
