(* ===== verification/AsymChunk.v ===== *)
(** * Asymmetric chunks

    [src/security/asym_chunk.c]: the OPN chunk, in the clear for policy None,
    otherwise signed with the sender's and encrypted to the receiver's RSA key.
    The output buffer and the caller's scratch buffer are part of the state, so
    that what is left in them is visible. *)

From S2P Require Export Crypto.

Definition MU_OAEP_SHA1_OVERHEAD : Z := 42.
Definition MU_ASYM_SCRATCH : Z := 512.
Definition MU_ASYM_SIGNED_INPUT_MAX : Z := 4096.
Definition MU_ASYM_MAX_PLAINTEXT : Z := 2048.

Record mu_asym_chunk_info_t := mk_asym_chunk_info {
  aci_policy : mu_security_policy_id_t;
  aci_secure_channel_id : Z;
  aci_sequence_number : Z;
  aci_request_id : Z;
  aci_sender_cert : option (list Z)
}.

(** The adapter's context, the output buffer and the scratch buffer. *)
Record asym_state (Ctx : Type) := mk_asym_state {
  ak_ctx : Ctx;
  ak_out : list Z;
  ak_scratch : list Z
}.
Arguments mk_asym_state {_}.
Arguments ak_ctx {_}.
Arguments ak_out {_}.
Arguments ak_scratch {_}.

(** ** The cleartext header *)

Definition opn_type : list Z := bytes_of_string "OPNF".

(** [w->buffer[0..3] = "OPNF"; w->position = 4]. *)
Definition put_type : Wr unit := λ w,
  match (b ← w_buffer w; mem_store b 0 opn_type) with
  | Some b => (Ok tt, mk_writer (Some b) (w_length w) 4 (w_status w))
  | None => (Fault, w)
  end.

(** A ByteString of a certificate or thumbprint that may be absent. *)
Definition bytestring_of (bytes : option (list Z)) : mu_string_t :=
  match bytes with
  | Some b => mk_string (to_i32 (zlen b)) (Some b)
  | None => mk_string (-1) None
  end.

Definition write_opn_header (policy : mu_security_policy_id_t) (scid : Z) (sender_cert receiver_thumbprint : option (list Z))
    : Wr unit :=
  match mu_security_policy_uri policy with
  | None => fail MU_STATUS_BAD_SECURITYPOLICYREJECTED
  | Some uri =>
      put_type;;
      mu_binary_write_uint32 0;;
      mu_binary_write_uint32 scid;;
      mu_binary_write_string (mk_string (to_i32 (zlen uri)) (Some uri));;
      mu_binary_write_bytestring (bytestring_of sender_cert);;
      mu_binary_write_bytestring (bytestring_of receiver_thumbprint)
  end.

Definition read_opn_header : Rd (Z * mu_string_t * mu_string_t * mu_string_t * Z) :=
  scid ← mu_binary_read_uint32;
  policy_uri ← mu_binary_read_string;
  sender_cert ← mu_binary_read_bytestring;
  receiver_thumb ← mu_binary_read_bytestring;
  r ← get_state;
  mret (scid, policy_uri, sender_cert, receiver_thumb, r_position r).

Section asym_chunk.
  Context {Ctx : Type} (crypto : crypto_functions Ctx).

Definition as_ctx {A} (m : M Ctx A) : M (asym_state Ctx) A := λ st,
  let '(x, ctx) := m (ak_ctx st) in (x, mk_asym_state ctx (ak_out st) (ak_scratch st)).

Definition as_out {A} (m : M (list Z) A) : M (asym_state Ctx) A := λ st,
  let '(x, b) := m (ak_out st) in (x, mk_asym_state (ak_ctx st) b (ak_scratch st)).

Definition as_scratch {A} (m : M (list Z) A) : M (asym_state Ctx) A := λ st,
  let '(x, b) := m (ak_scratch st) in (x, mk_asym_state (ak_ctx st) (ak_out st) b).

(** A writer over the output buffer; the result is its position. *)
Definition as_writer (out_cap : Z) (m : Wr unit) : M (asym_state Ctx) Z := λ st,
  let '(x, w) := m (mu_binary_writer_init (Some (ak_out st)) out_cap) in
  (x ≫= λ _, Ok (w_position w), mk_asym_state (ak_ctx st) (default (ak_out st) (w_buffer w)) (ak_scratch st)).

Definition load_out {A} (f : list Z → option A) : M (asym_state Ctx) A := λ st, lift_option (f (ak_out st)) st.

Definition load_scratch {A} (f : list Z → option A) : M (asym_state Ctx) A := λ st, lift_option (f (ak_scratch st)) st.

(** Run [cleanup] before a failure is returned. *)
Definition on_error {A} (cleanup : M (asym_state Ctx) unit) (m : M (asym_state Ctx) A) : M (asym_state Ctx) A := λ st,
  match m st with
  | (Err e, st') => (cleanup;; fail e) st'
  | o => o
  end.

Definition mu_secure_zero (offset n : Z) : M (list Z) unit := store_bytes offset (repeat 0 (Z.to_nat n)).

Definition key_bytes (cert : list Z) : M (asym_state Ctx) Z :=
  bits ← call (cf_get_certificate_key_bits crypto) (λ f, as_ctx (or_status MU_STATUS_BAD_CERTIFICATEINVALID (f cert)));
  if bits =? 0 then fail MU_STATUS_BAD_CERTIFICATEINVALID
  else if bits / 8 <=? MU_OAEP_SHA1_OVERHEAD then fail MU_STATUS_BAD_CERTIFICATEINVALID
  else mret (bits / 8).

Definition is_pss (policy : mu_security_policy_id_t) : bool :=
  bool_decide (policy = MU_SECURITY_POLICY_AES256_SHA256_RSAPSS_ID).

(** ** Building *)

Definition wrap_none (scid seq rid : Z) (body : list Z) (out_cap : Z) : M (asym_state Ctx) Z :=
  position ← as_writer out_cap
    (write_opn_header MU_SECURITY_POLICY_NONE_ID scid None None;; mu_binary_write_uint32 seq;; mu_binary_write_uint32 rid);
  let total := to_size (position + zlen body) in
  if out_cap <? total then fail MU_STATUS_BAD_RESPONSETOOLARGE
  else
    as_out (store_bytes position body);;
    as_out (store_bytes 4 (mu_binary_le_put_u32 total));;
    mret total.

(** Sign the chunk so far; the signature must have the sender's key size. *)
Definition sign_chunk (policy : mu_security_policy_id_t) (length sig_len : Z) : M (asym_state Ctx) (list Z) :=
  data ← load_out (λ b, mem_load b 0 length);
  sig ← (if is_pss policy
         then call (cf_rsa_pss_sha256_sign crypto) (λ f, as_ctx (f data MU_ASYM_SCRATCH))
         else call (cf_rsa_sha256_sign crypto) (λ f, as_ctx (f data MU_ASYM_SCRATCH)));
  if negb (zlen sig =? sig_len) then fail MU_STATUS_BAD_INTERNALERROR else mret sig.

(** Encrypt [blocks] blocks of [plain] from block [i] on. *)
Fixpoint encrypt_blocks (blocks : nat) (policy : mu_security_policy_id_t) (receiver_cert plain : list Z)
    (hdr_len plain_block cipher_block i : Z) : M (asym_state Ctx) unit :=
  match blocks with
  | O => mret tt
  | S blocks =>
      block ← lift_option (mem_load plain (i * plain_block) plain_block);
      out_block ← (if is_pss policy
                   then call (cf_rsa_oaep_sha256_encrypt crypto) (λ f, as_ctx (f receiver_cert block cipher_block))
                   else call (cf_rsa_oaep_encrypt crypto) (λ f, as_ctx (f receiver_cert block cipher_block)));
      as_out (store_bytes (hdr_len + i * cipher_block) out_block);;
      if negb (zlen out_block =? cipher_block) then fail MU_STATUS_BAD_INTERNALERROR
      else encrypt_blocks blocks policy receiver_cert plain hdr_len plain_block cipher_block (i + 1)
  end.

Definition mu_asym_chunk_wrap (policy : mu_security_policy_id_t) (secure_channel_id sequence_number request_id : Z)
    (receiver_cert : option (list Z)) (body : list Z) (out_cap : Z) : M (asym_state Ctx) Z :=
  if bool_decide (policy = MU_SECURITY_POLICY_NONE_ID)
  then wrap_none secure_channel_id sequence_number request_id body out_cap
  else if negb (secured_policy policy) then fail MU_STATUS_BAD_SECURITYPOLICYREJECTED
  else
    match receiver_cert with
    | None => fail MU_STATUS_BAD_INTERNALERROR
    | Some receiver_cert =>
        if zlen receiver_cert =? 0 then fail MU_STATUS_BAD_INTERNALERROR
        else
          sender_cert ← call (cf_get_own_certificate crypto) as_ctx;
          sig_len ← key_bytes sender_cert;
          recv_key_bytes ← key_bytes receiver_cert;
          let plain_block := to_size (recv_key_bytes - (if is_pss policy then 66 else MU_OAEP_SHA1_OVERHEAD)) in
          let cipher_block := recv_key_bytes in
          thumb ← as_ctx (mu_certificate_thumbprint crypto (Some receiver_cert));
          hdr_len ← as_writer out_cap (write_opn_header policy secure_channel_id (Some sender_cert) (Some thumb));
          let seqbody_len := to_size (8 + zlen body) in
          let base := to_size (seqbody_len + 1 + sig_len) in
          if plain_block =? 0 then fault
          else
            let pad_count := (plain_block - base mod plain_block) mod plain_block in
            let enc_len := to_size (base + pad_count) in
            let presig_len := to_size (seqbody_len + 1 + pad_count) in
            let cipher_len := to_size (enc_len / plain_block * cipher_block) in
            let total := to_size (hdr_len + cipher_len) in
            if MU_ASYM_MAX_PLAINTEXT <? enc_len then fail MU_STATUS_BAD_REQUESTTOOLARGE
            else if MU_ASYM_SIGNED_INPUT_MAX <? to_size (hdr_len + presig_len) then fail MU_STATUS_BAD_REQUESTTOOLARGE
            else if out_cap <? total then fail MU_STATUS_BAD_RESPONSETOOLARGE
            else
              as_out (store_bytes 4 (mu_binary_le_put_u32 total));;
              let presig := mu_binary_le_put_u32 sequence_number ++ mu_binary_le_put_u32 request_id ++ body
                            ++ to_u8 pad_count :: repeat (to_u8 pad_count) (Z.to_nat pad_count) in
              plain ← lift_option (mem_store (repeat 0 (Z.to_nat MU_ASYM_MAX_PLAINTEXT)) 0 presig);
              if MU_ASYM_SCRATCH <? sig_len then fail MU_STATUS_BAD_INTERNALERROR
              else
                as_out (store_bytes hdr_len presig);;
                sig ← on_error (as_out (mu_secure_zero hdr_len presig_len)) (sign_chunk policy (hdr_len + presig_len) sig_len);
                plain ← lift_option (mem_store plain presig_len sig);
                as_out (mu_secure_zero hdr_len presig_len);;
                on_error (as_out (mu_secure_zero hdr_len cipher_len))
                  (encrypt_blocks (Z.to_nat (enc_len / plain_block)) policy receiver_cert plain hdr_len plain_block cipher_block 0);;
                mret total
    end.

(** ** Opening *)

(** Decrypt the blocks of the chunk behind the plaintext already in the
    scratch buffer; the length of the plaintext. *)
Fixpoint decrypt_blocks (blocks : nat) (policy : mu_security_policy_id_t) (chunk : list Z) (hdr_len own_key_bytes i plain_len : Z)
    : M (asym_state Ctx) Z :=
  match blocks with
  | O => mret plain_len
  | S blocks =>
      block ← lift_option (mem_load chunk (hdr_len + i * own_key_bytes) own_key_bytes);
      let out_block := MU_ASYM_MAX_PLAINTEXT - plain_len in
      bytes ← (if is_pss policy
               then call (cf_rsa_oaep_sha256_decrypt crypto) (λ f, as_ctx (or_status MU_STATUS_BAD_SECURITYCHECKSFAILED (f block out_block)))
               else call (cf_rsa_oaep_decrypt crypto) (λ f, as_ctx (or_status MU_STATUS_BAD_SECURITYCHECKSFAILED (f block out_block))));
      as_scratch (store_bytes plain_len bytes);;
      decrypt_blocks blocks policy chunk hdr_len own_key_bytes (i + 1) (plain_len + zlen bytes)
  end.

Definition wipe_plain : M (asym_state Ctx) unit := as_scratch (mu_secure_zero 0 MU_ASYM_MAX_PLAINTEXT).

Definition wipe_verify : M (asym_state Ctx) unit := as_scratch (mu_secure_zero MU_ASYM_MAX_PLAINTEXT MU_ASYM_SIGNED_INPUT_MAX).

(** Check the signature over the header and the signed plaintext. *)
Definition verify_chunk (policy : mu_security_policy_id_t) (chunk : list Z) (sender_cert : list Z) (hdr_len signed_len sig_len : Z)
    : M (asym_state Ctx) unit :=
  if MU_ASYM_SIGNED_INPUT_MAX <? hdr_len + signed_len then fail MU_STATUS_BAD_SECURITYCHECKSFAILED
  else
    header ← lift_option (mem_load chunk 0 hdr_len);
    as_scratch (store_bytes MU_ASYM_MAX_PLAINTEXT header);;
    signed ← load_scratch (λ b, mem_load b 0 signed_len);
    as_scratch (store_bytes (MU_ASYM_MAX_PLAINTEXT + hdr_len) signed);;
    data ← load_scratch (λ b, mem_load b MU_ASYM_MAX_PLAINTEXT (hdr_len + signed_len));
    signature ← load_scratch (λ b, mem_load b signed_len sig_len);
    on_error wipe_verify
      (if is_pss policy
       then call (cf_rsa_pss_sha256_verify crypto)
              (λ f, as_ctx (or_status MU_STATUS_BAD_SECURITYCHECKSFAILED (f sender_cert data signature)))
       else call (cf_rsa_sha256_verify crypto)
              (λ f, as_ctx (or_status MU_STATUS_BAD_SECURITYCHECKSFAILED (f sender_cert data signature))));;
    wipe_verify.

(** The message in the plaintext: its sequence and request numbers and the
    length of the body, which is copied out. *)
Definition extract_body (signed_len out_cap : Z) : M (asym_state Ctx) (Z * Z * Z) :=
  pad_count ← load_scratch (λ b, znth b (signed_len - 1));
  if signed_len <? pad_count + 1 + 8 then fail MU_STATUS_BAD_SECURITYCHECKSFAILED
  else
    padding ← load_scratch (λ b, mem_load b (signed_len - 1 - pad_count) pad_count);
    if negb (forallb (λ x, x =? pad_count) padding) then fail MU_STATUS_BAD_SECURITYCHECKSFAILED
    else
      let seqbody_len := signed_len - 1 - pad_count in
      sequence_number ← load_scratch (λ b, mu_binary_le_get_u32 (zdrop 0 b));
      request_id ← load_scratch (λ b, mu_binary_le_get_u32 (zdrop 4 b));
      let body_len := seqbody_len - 8 in
      if out_cap <? body_len then fail MU_STATUS_BAD_RESPONSETOOLARGE
      else
        body ← load_scratch (λ b, mem_load b 8 body_len);
        as_out (store_bytes 0 body);;
        mret (sequence_number, request_id, body_len).

Definition unwrap_none (chunk : list Z) (msg_size hdr_len out_cap : Z) : M (asym_state Ctx) (Z * Z * Z) :=
  if msg_size <? hdr_len + 8 then fail MU_STATUS_BAD_DECODINGERROR
  else
    sequence_number ← lift_option (mu_binary_le_get_u32 (zdrop hdr_len chunk));
    request_id ← lift_option (mu_binary_le_get_u32 (zdrop (hdr_len + 4) chunk));
    let body_len := msg_size - hdr_len - 8 in
    if out_cap <? body_len then fail MU_STATUS_BAD_RESPONSETOOLARGE
    else
      body ← lift_option (mem_load chunk (hdr_len + 8) body_len);
      as_out (store_bytes 0 body);;
      mret (sequence_number, request_id, body_len).

Definition unwrap_secured (policy : mu_security_policy_id_t) (sender_cert : option (list Z)) (receiver_thumb : mu_string_t)
    (chunk : list Z) (msg_size hdr_len out_cap : Z) : M (asym_state Ctx) (Z * Z * Z) :=
  as_ctx (mu_certificate_validate crypto policy sender_cert);;
  own_cert ← call (cf_get_own_certificate crypto) as_ctx;
  own_thumb ← as_ctx (mu_certificate_thumbprint crypto (Some own_cert));
  addressed ← (if negb (str_length receiver_thumb =? MU_THUMBPRINT_LENGTH) then mret false
               else lift_option (thumb ← str_data receiver_thumb; mu_secure_memeq thumb own_thumb MU_THUMBPRINT_LENGTH));
  if negb addressed then fail MU_STATUS_BAD_SECURITYCHECKSFAILED
  else
    own_key_bytes ← key_bytes own_cert;
    sender_cert ← lift_option sender_cert;
    sig_len ← key_bytes sender_cert;
    let cipher_len := to_size (msg_size - hdr_len) in
    if (cipher_len =? 0) || negb (cipher_len mod own_key_bytes =? 0) then fail MU_STATUS_BAD_DECODINGERROR
    else
      message ← on_error wipe_plain
        (plain_len ← decrypt_blocks (Z.to_nat (cipher_len / own_key_bytes)) policy chunk hdr_len own_key_bytes 0 0;
         if plain_len <? sig_len + 1 + 8 then fail MU_STATUS_BAD_SECURITYCHECKSFAILED
         else
           let signed_len := plain_len - sig_len in
           verify_chunk policy chunk sender_cert hdr_len signed_len sig_len;;
           extract_body signed_len out_cap);
      wipe_plain;;
      mret message.

(** The message of an OPN chunk: what its headers say and the length of the
    body, which is in the output buffer. *)
Definition mu_asym_chunk_unwrap (chunk : list Z) (chunk_len out_cap : Z) : M (asym_state Ctx) (mu_asym_chunk_info_t * Z) :=
  st ← get_state;
  if zlen (ak_scratch st) <? MU_ASYM_MAX_PLAINTEXT + MU_ASYM_SIGNED_INPUT_MAX then fail MU_STATUS_BAD_INTERNALERROR
  else if chunk_len <? 12 then fail MU_STATUS_BAD_DECODINGERROR
  else
    message_type ← lift_option (mem_load chunk 0 3);
    if negb (bool_decide (message_type = bytes_of_string "OPN")) then fail MU_STATUS_BAD_DECODINGERROR
    else
      msg_size ← lift_option (mu_binary_le_get_u32 (zdrop 4 chunk));
      if chunk_len <? msg_size then fail MU_STATUS_BAD_DECODINGERROR
      else
        '(scid, policy_uri, sender_cert, receiver_thumb, hdr_len) ←
          (λ st, ((read_opn_header (mk_reader (Some chunk) msg_size 8 MU_STATUS_GOOD)).1, st));
        let policy := mu_security_policy_from_uri (str_data policy_uri) (Z.max 0 (str_length policy_uri)) in
        let sender_cert := if 0 <? str_length sender_cert then str_data sender_cert else None in
        '(sequence_number, request_id, body_len) ←
          (if bool_decide (policy = MU_SECURITY_POLICY_NONE_ID) then unwrap_none chunk msg_size hdr_len out_cap
           else if negb (secured_policy policy) then fail MU_STATUS_BAD_SECURITYPOLICYREJECTED
           else unwrap_secured policy sender_cert receiver_thumb chunk msg_size hdr_len out_cap);
        mret (mk_asym_chunk_info policy scid sequence_number request_id sender_cert, body_len).
End asym_chunk.
