(* ===== verification/AsymChunkSpec.v ===== *)
(** * Correctness of asymmetric chunks

    What [mu_asym_chunk_unwrap] accepts and what it leaves behind, for any
    adapter that keeps its contract. *)

From S2P Require Export AsymChunk.

(** ** What the code relies on *)

(** An RSA system: the key size and the thumbprint of a certificate, which
    signatures are valid under it, which ciphertexts open to which plaintexts
    with its private key, and whether it is in its validity period; the flag
    selects the PSS policy. *)
Class RsaSystem := {
  sys_bits : list Z → Z;
  sys_thumb : list Z → list Z;
  sys_valid : bool → list Z → list Z → list Z → Prop;
  sys_opens : bool → list Z → list Z → list Z → Prop;
  sys_current : list Z → Prop;
  sys_bits_range certificate : u32_range (sys_bits certificate);
  sys_thumb_octets certificate : zlen (sys_thumb certificate) = MU_THUMBPRINT_LENGTH ∧ bytes_ok (sys_thumb certificate)
}.

(** An adapter that holds the private key of [own]. Every function is there and
    does what [platform.h] documents, or fails. *)
Class RsaContract {Ctx} (sys : RsaSystem) (crypto : crypto_functions Ctx) (own : list Z) := {
  rsa_own_octets : 0 < zlen own ∧ bytes_ok own;
  rsa_own : ∃ f, cf_get_own_certificate crypto = Some f ∧ delivers f (λ c, c = own);
  rsa_key_bits : ∃ f, cf_get_certificate_key_bits crypto = Some f ∧ ∀ c, delivers (f c) (λ n, n = sys_bits c);
  rsa_thumbprint : ∃ f, cf_get_certificate_thumbprint crypto = Some f ∧ ∀ c, delivers (f c) (λ t, t = sys_thumb c);
  rsa_validity f c : cf_verify_certificate_validity crypto = Some f → delivers (f c) (λ _, sys_current c);
  rsa_sign (pss : bool) : ∃ f, (if pss then cf_rsa_pss_sha256_sign crypto else cf_rsa_sha256_sign crypto) = Some f ∧
    ∀ data cap, delivers (f data cap) (λ sig, bytes_ok sig ∧ zlen sig ≤ cap ∧ sys_valid pss own data sig);
  rsa_verify (pss : bool) : ∃ f, (if pss then cf_rsa_pss_sha256_verify crypto else cf_rsa_sha256_verify crypto) = Some f ∧
    ∀ c data sig, delivers (f c data sig) (λ _, sys_valid pss c data sig);
  rsa_encrypt (pss : bool) : ∃ f, (if pss then cf_rsa_oaep_sha256_encrypt crypto else cf_rsa_oaep_encrypt crypto) = Some f ∧
    ∀ c x cap, bytes_ok x → delivers (f c x cap) (λ y, bytes_ok y ∧ zlen y ≤ cap ∧ sys_opens pss c y x);
  rsa_decrypt (pss : bool) : ∃ f, (if pss then cf_rsa_oaep_sha256_decrypt crypto else cf_rsa_oaep_decrypt crypto) = Some f ∧
    ∀ y cap, bytes_ok y → delivers (f y cap) (λ x, bytes_ok x ∧ zlen x ≤ cap ∧ sys_opens pss own y x)
}.

Section wpa.
  Context {Ctx : Type}.

(** [Q] holds on success and [E] on failure; nothing is undefined. *)
Definition wpa {A} (m : M (asym_state Ctx) A) (Q : A → asym_state Ctx → Prop) (E : asym_state Ctx → Prop)
    (st : asym_state Ctx) : Prop :=
  match m st with
  | (Ok a, st') => Q a st'
  | (Err e, st') => e ≠ MU_STATUS_GOOD ∧ E st'
  | (Fault, _) => False
  end.

Lemma wpa_bind {A B} (m : M (asym_state Ctx) A) (k : A → M (asym_state Ctx) B) Q E st :
  wpa m (λ a, wpa (k a) Q E) E st → wpa (m ≫= k) Q E st.
Proof. unfold wpa, mbind, M_bind; by destruct (m st) as [[a|e|] st']. Qed.

Lemma wpa_mono {A} (m : M (asym_state Ctx) A) (Q Q' : A → asym_state Ctx → Prop) (E E' : asym_state Ctx → Prop) st :
  wpa m Q E st → (∀ a st', Q a st' → Q' a st') → (∀ st', E st' → E' st') → wpa m Q' E' st.
Proof. unfold wpa; destruct (m st) as [[a|e|] st']; naive_solver. Qed.

Lemma wpa_ret {A} (a : A) (Q : A → asym_state Ctx → Prop) E st : Q a st → wpa (mret a) Q E st.
Proof. done. Qed.

Lemma wpa_fail {A} e (Q : A → asym_state Ctx → Prop) E st : e ≠ MU_STATUS_GOOD → E st → wpa (fail e) Q E st.
Proof. done. Qed.

Lemma wpa_lift {A} (o : option A) a (Q : A → asym_state Ctx → Prop) E st : o = Some a → Q a st → wpa (lift_option o) Q E st.
Proof. by intros ->. Qed.

Lemma wpa_load_scratch {A} (f : list Z → option A) a (Q : A → asym_state Ctx → Prop) E st :
  f (ak_scratch st) = Some a → Q a st → wpa (load_scratch f) Q E st.
Proof. unfold wpa, load_scratch; by intros ->. Qed.

Lemma wpa_scratch (m : M (list Z) unit) b (Q : unit → asym_state Ctx → Prop) E st :
  m (ak_scratch st) = (Ok tt, b) → Q tt (mk_asym_state (ak_ctx st) (ak_out st) b) → wpa (as_scratch m) Q E st.
Proof. unfold wpa, as_scratch; by intros ->. Qed.

Lemma wpa_out (m : M (list Z) unit) b (Q : unit → asym_state Ctx → Prop) E st :
  m (ak_out st) = (Ok tt, b) → Q tt (mk_asym_state (ak_ctx st) b (ak_scratch st)) → wpa (as_out m) Q E st.
Proof. unfold wpa, as_out; by intros ->. Qed.

Lemma wpa_ctx {A} (m : M Ctx A) (P : A → Prop) (Q : A → asym_state Ctx → Prop) (E : asym_state Ctx → Prop) st :
  delivers m P → (∀ ctx, E (mk_asym_state ctx (ak_out st) (ak_scratch st))) →
  (∀ a ctx, P a → Q a (mk_asym_state ctx (ak_out st) (ak_scratch st))) → wpa (as_ctx m) Q E st.
Proof.
  intros Hd HE HQ; specialize (Hd (ak_ctx st)); unfold wpa, as_ctx.
  destruct (m (ak_ctx st)) as [[a|e|] ctx]; cbn in Hd; [by apply HQ|by split|done].
Qed.

Lemma wpa_on_error {A} cleanup (m : M (asym_state Ctx) A) (Q : A → asym_state Ctx → Prop) (E : asym_state Ctx → Prop) st :
  wpa m Q (λ st', wpa cleanup (λ _, E) E st') st → wpa (on_error cleanup m) Q E st.
Proof.
  unfold wpa, on_error; destruct (m st) as [[a|e|] st']; [done| |done]; intros [He Hc]; unfold mbind, M_bind.
  destruct (cleanup st') as [[[]|e'|] st'']; [by split|done|done].
Qed.

Lemma delivers_status {A} (m : M Ctx A) P e : e ≠ MU_STATUS_GOOD → delivers m P → delivers (or_status e m) P.
Proof. intros He Hm ctx; specialize (Hm ctx); unfold or_status; by destruct (m ctx) as [[a|e'|] ctx']. Qed.
End wpa.

(** ** Opening *)

Section unwrap.
  Context {Ctx : Type} {sys : RsaSystem} {crypto : crypto_functions Ctx} {own : list Z} {contract : RsaContract sys crypto own}.

(** The scratch buffer: plaintext area, verification area, the rest. *)
Definition areas (st : asym_state Ctx) (p v r : list Z) : Prop :=
  ak_scratch st = p ++ v ++ r ∧ zlen p = MU_ASYM_MAX_PLAINTEXT ∧ zlen v = MU_ASYM_SIGNED_INPUT_MAX.

(** Each area is as it was or wiped. *)
Definition wiped (p v r : list Z) (st : asym_state Ctx) : Prop :=
  ∃ p' v', areas st p' v' r ∧ (p' = p ∨ p' = repeat 0 2048) ∧ (v' = v ∨ v' = repeat 0 4096).

(** The plaintext area was used. *)
Definition dirty (v r : list Z) (st : asym_state Ctx) : Prop := ∃ p v', areas st p v' r ∧ bytes_ok p ∧ (v' = v ∨ v' = repeat 0 4096).

Lemma wpa_key_bytes cert (Q : Z → asym_state Ctx → Prop) (E : asym_state Ctx → Prop) st :
  (∀ ctx, E (mk_asym_state ctx (ak_out st) (ak_scratch st))) →
  (∀ ctx, 42 < sys_bits cert / 8 → Q (sys_bits cert / 8) (mk_asym_state ctx (ak_out st) (ak_scratch st))) →
  wpa (key_bytes crypto cert) Q E st.
Proof.
  intros HE HQ; destruct rsa_key_bits as (f & Ef & Hf); unfold key_bytes; rewrite Ef; cbn [call]; apply wpa_bind.
  eapply wpa_ctx; [apply delivers_status; [done|apply Hf]|done|]; intros n ctx ->.
  split_if; [by apply wpa_fail|]; split_if; [by apply wpa_fail|]; bool_hyps; apply wpa_ret, HQ.
  unfold MU_OAEP_SHA1_OVERHEAD in *; lia.
Qed.

Lemma wpa_wipe_plain p v r (Q : unit → asym_state Ctx → Prop) E st : areas st p v r →
  (∀ st', areas st' (repeat 0 2048) v r → ak_out st' = ak_out st → Q tt st') → wpa wipe_plain Q E st.
Proof.
  intros (Es & Hp & Hv) HQ; eapply wpa_scratch; [|apply HQ; [|done]].
  - rewrite Es; apply (store_over _ _ [] p (v ++ r)); [done|done|by rewrite zlen_repeat, Hp].
  - by split_and!.
Qed.

Lemma wpa_wipe_verify p v r (Q : unit → asym_state Ctx → Prop) E st : areas st p v r →
  (∀ st', areas st' p (repeat 0 4096) r → ak_out st' = ak_out st → Q tt st') → wpa wipe_verify Q E st.
Proof.
  intros (Es & Hp & Hv) HQ; eapply wpa_scratch; [|apply HQ; [|done]].
  - rewrite Es; apply (store_over _ _ p v r); [done|by rewrite Hp|by rewrite zlen_repeat, Hv].
  - by split_and!.
Qed.

(** The blocks of a ciphertext. *)
Fixpoint blocks_of (n : nat) (size : Z) (l : list Z) : list (list Z) :=
  match n with O => [] | S n => ztake size l :: blocks_of n size (zdrop size l) end.

Lemma ztake_add m n (l : list Z) : 0 ≤ m → 0 ≤ n → ztake (m + n) l = ztake m l ++ ztake n (zdrop m l).
Proof. intros Hm Hn; destruct (Z.leb_spec m (zlen l)) as [Hml|Hml].
  - destruct (buffer_split l m) as (a & b & -> & Ha & _ & _); [lia|]; subst m; rewrite ztake_app, zdrop_app; unfold ztake, zlen.
    rewrite Z2Nat.inj_add, Nat2Z.id by lia; by rewrite take_app_add.
  - unfold ztake, zdrop, zlen in *; rewrite (drop_ge l), take_nil, app_nil_r, !take_ge by lia; done.
Qed.

Lemma mem_store_app {A} (p t : list A) n x p' : mem_store p n x = Some p' → mem_store (p ++ t) n x = Some (p' ++ t).
Proof.
  unfold mem_store; destruct (_ && _) eqn:E; [|done]; bool_hyps; intros [= <-]; pose proof (zlen_nonneg x).
  rewrite zlen_app; pose proof (zlen_nonneg t); rewrite !(proj2 (Z.leb_le _ _)) by lia; cbn [andb]; f_equal.
  rewrite ztake_app_le, <- !app_assoc by lia; do 2 f_equal; unfold zdrop; rewrite drop_app_le; [done|unfold zlen in *; lia].
Qed.

(** A store of plaintext at [n] keeps the plaintext before it. *)
Lemma store_plain p n x : 0 ≤ n → n + zlen x ≤ zlen p → bytes_ok p → bytes_ok x →
  ∃ p', mem_store p n x = Some p' ∧ zlen p' = zlen p ∧ bytes_ok p' ∧ ztake (n + zlen x) p' = ztake n p ++ x.
Proof.
  intros Hn Hl Hp Hx; pose proof (zlen_nonneg x); rewrite mem_store_Some by lia; eexists; split; [done|].
  set (a := ztake n p); assert (Ha : zlen a = n) by (apply zlen_ztake; lia).
  split; [rewrite !zlen_app, Ha, zlen_zdrop by lia; lia|]; split.
  - rewrite !bytes_ok_app; split; [by apply bytes_ok_ztake|]; split; [done|by apply bytes_ok_zdrop].
  - rewrite app_assoc; replace (n + zlen x) with (zlen (a ++ x)) at 1 by (rewrite zlen_app; lia); apply ztake_app.
Qed.

Lemma wpa_decrypt n policy chunk hdr size (v r : list Z) (Q : Z → asym_state Ctx → Prop) (E : asym_state Ctx → Prop) :
  ∀ i plain_len p st, areas st p v r → bytes_ok p → bytes_ok chunk → 0 ≤ plain_len ≤ 2048 → 0 < size → 0 ≤ hdr → 0 ≤ i →
  hdr + (i + Z.of_nat n) * size ≤ zlen chunk →
  (∀ st' p', areas st' p' v r → bytes_ok p' → ak_out st' = ak_out st → E st') →
  (∀ st' p' xs len, areas st' p' v r → bytes_ok p' → ak_out st' = ak_out st →
     Forall2 (sys_opens (is_pss policy) own) (blocks_of n size (zdrop (hdr + i * size) chunk)) xs →
     0 ≤ len ≤ 2048 → ztake len p' = ztake plain_len p ++ concat xs → Q len st') →
  wpa (decrypt_blocks crypto n policy chunk hdr size i plain_len) Q E st.
Proof.
  induction n as [|n IH]; intros i len p st Hst Hp Hcb Hlen Hsize Hhdr Hi Hfit HE HQ; cbn [decrypt_blocks].
  { apply wpa_ret, (HQ st p []); [done|done|done|constructor|done|]; by rewrite app_nil_r. }
  assert (Hpos : 0 ≤ i * size) by (apply Z.mul_nonneg_nonneg; lia).
  apply wpa_bind; eapply wpa_lift; [apply mem_load_Some; [lia|lia|nia]|]; set (block := ztake size _);
    assert (Hblock : bytes_ok block) by (by apply bytes_ok_ztake, bytes_ok_zdrop).
  destruct (rsa_decrypt (is_pss policy)) as (f & Ef & Hf); apply wpa_bind; destruct Hst as (Es & Hpl & Hvl).
  assert (Hcall : ∀ Q', (∀ x ctx, bytes_ok x → zlen x ≤ 2048 - len → sys_opens (is_pss policy) own block x →
      Q' x (mk_asym_state ctx (ak_out st) (ak_scratch st))) →
    wpa (if is_pss policy
         then call (cf_rsa_oaep_sha256_decrypt crypto) (λ g, as_ctx (or_status MU_STATUS_BAD_SECURITYCHECKSFAILED (g block (MU_ASYM_MAX_PLAINTEXT - len))))
         else call (cf_rsa_oaep_decrypt crypto) (λ g, as_ctx (or_status MU_STATUS_BAD_SECURITYCHECKSFAILED (g block (MU_ASYM_MAX_PLAINTEXT - len)))))
      Q' E st).
  { intros Q' HQ'; destruct (is_pss policy); rewrite Ef; cbn [call]; (eapply wpa_ctx; [apply delivers_status; [done|by apply Hf]| |]);
      [intros ctx; by apply (HE _ p)|intros x ctx (? & ? & ?); by apply HQ'|intros ctx; by apply (HE _ p)|intros x ctx (? & ? & ?); by apply HQ']. }
  apply Hcall; intros x ctx Hx Hxl Hopen; apply wpa_bind.
  destruct (store_plain p len x) as (p' & Ep & Hpl' & Hp' & Htake); [lia|unfold MU_ASYM_MAX_PLAINTEXT in *; lia|done|done|].
  assert (Estore : store_bytes len x (ak_scratch st) = (Ok tt, p' ++ v ++ r)).
  { unfold store_bytes; by rewrite Es, (mem_store_app p (v ++ r) len x p'). }
  eapply wpa_scratch; [exact Estore|]; cbn [ak_out ak_ctx].
  pose proof (zlen_nonneg x); apply (IH (i + 1) (len + zlen x) p');
    [split; [done|]; split; [lia|done]|done|done|lia|done|done|lia|nia|exact HE|].
  intros st' p'' xs len' Hst' Hp'' Hout Hopens Hlen' Etake; apply (HQ st' p'' (x :: xs) len'); try done.
  - cbn [blocks_of]; constructor; [exact Hopen|]; rewrite zdrop_zdrop by lia; replace (hdr + i * size + size) with (hdr + (i + 1) * size) by lia.
    exact Hopens.
  - rewrite Etake, Htake; cbn [concat]; by rewrite <- app_assoc.
Qed.

Lemma wpa_verify_chunk policy chunk cert hdr n sig p v r (Q : unit → asym_state Ctx → Prop) (E : asym_state Ctx → Prop) st :
  areas st p v r → 0 ≤ hdr ≤ zlen chunk → 0 ≤ n → 0 ≤ sig → n + sig ≤ 2048 →
  (∀ st' v', areas st' p v' r → v' = v ∨ v' = repeat 0 4096 → ak_out st' = ak_out st → E st') →
  (∀ st', areas st' p (repeat 0 4096) r → ak_out st' = ak_out st →
     sys_valid (is_pss policy) cert (ztake hdr chunk ++ ztake n p) (ztake sig (zdrop n p)) → Q tt st') →
  wpa (verify_chunk crypto policy chunk cert hdr n sig) Q E st.
Proof.
  intros Hst Hhdr Hn Hsig Hfit HE HQ; unfold verify_chunk; unfold MU_ASYM_SIGNED_INPUT_MAX, MU_ASYM_MAX_PLAINTEXT in *.
  destruct (Z.ltb_spec 4096 (hdr + n)) as [Hlong|Hshort]; [apply wpa_fail; [done|]; by apply (HE st v); [|left|]|].
  destruct Hst as (Es & Hp & Hv); unfold MU_ASYM_SIGNED_INPUT_MAX, MU_ASYM_MAX_PLAINTEXT in *.
  set (header := ztake hdr chunk); assert (Hh : zlen header = hdr) by (apply zlen_ztake; lia).
  set (plain := ztake n p); assert (Hpl : zlen plain = n) by (apply zlen_ztake; lia).
  destruct (buffer_split v hdr) as (v1 & v' & -> & Hv1 & Hv' & _); [lia|].
  destruct (buffer_split v' n) as (v2 & v3 & -> & Hv2 & Hv3 & _); [lia|]; rewrite !zlen_app in *.
  apply wpa_bind; eapply wpa_lift; [by apply mem_load_Some; lia|]; change (ztake hdr (zdrop 0 chunk)) with header.
  apply wpa_bind; eapply wpa_scratch; [rewrite Es; apply (store_over _ _ p v1 ((v2 ++ v3) ++ r)); [by rewrite <- !app_assoc|lia|lia]|].
  cbn [ak_out ak_ctx]; apply wpa_bind; eapply wpa_load_scratch; [cbn [ak_scratch]; apply (mem_load_at _ [] plain (zdrop n p ++ header ++ (v2 ++ v3) ++ r));
    [cbn [app]; unfold plain; by rewrite (app_assoc (ztake n p)), ztake_zdrop|done|lia]|].
  apply wpa_bind; eapply wpa_scratch; [cbn [ak_scratch]; apply (store_over _ _ (p ++ header) v2 (v3 ++ r)); [by rewrite <- !app_assoc|rewrite zlen_app; lia|lia]|].
  cbn [ak_out ak_ctx]; apply wpa_bind; eapply wpa_load_scratch; [cbn [ak_scratch]; apply (mem_load_at _ p (header ++ plain) (v3 ++ r));
    [by rewrite <- !app_assoc|lia|rewrite zlen_app; lia]|].
  set (sg := ztake sig (zdrop n p)); assert (Hsg : zlen sg = sig) by (apply zlen_ztake; rewrite zlen_zdrop by lia; lia).
  apply wpa_bind; eapply wpa_load_scratch; [cbn [ak_scratch]; apply (mem_load_at _ plain sg (zdrop sig (zdrop n p) ++ header ++ plain ++ v3 ++ r));
    [unfold sg, plain; rewrite (app_assoc (ztake sig _)), (ztake_zdrop sig), (app_assoc (ztake n p) (zdrop n p)), (ztake_zdrop n), <- !app_assoc; done|lia|lia]|].
  set (st' := mk_asym_state _ _ _); assert (Hst' : areas st' p (header ++ plain ++ v3) r).
  { split; [cbn; by rewrite <- !app_assoc|]; split; [done|]; rewrite !zlen_app; unfold MU_ASYM_SIGNED_INPUT_MAX; lia. }
  assert (HEst : ∀ ctx, wpa wipe_verify (λ _, E) E (mk_asym_state ctx (ak_out st') (ak_scratch st'))).
  { intros ctx; eapply wpa_wipe_verify; [exact Hst'|]; intros st'' Hst'' Hout; by apply (HE st'' (repeat 0 4096)); [|right|]. }
  apply wpa_bind, wpa_on_error; destruct (rsa_verify (is_pss policy)) as (f & Ef & Hf).
  destruct (is_pss policy); rewrite Ef; cbn [call]; (eapply wpa_ctx; [apply delivers_status; [done|apply Hf]|done|]);
    intros [] ctx Hvalid; (eapply wpa_wipe_verify; [exact Hst'|]); intros st'' Hst'' Hout; by apply HQ.
Qed.

Lemma le_get_u32_app (a c : list Z) : 4 ≤ zlen a → mu_binary_le_get_u32 (a ++ c) = mu_binary_le_get_u32 a.
Proof. intros Ha; destruct a as [|? [|? [|? [|? ?]]]]; try done; unfold zlen in Ha; cbn in Ha; lia. Qed.

Lemma le_get_u32_ok (a : list Z) : 4 ≤ zlen a → ∃ v, mu_binary_le_get_u32 a = Some v.
Proof. intros Ha; destruct a as [|? [|? [|? [|? ?]]]]; [unfold zlen in Ha; cbn in Ha; lia..|]; eexists; reflexivity. Qed.

(** The message in a signed plaintext: numbers, body, padding. *)
Definition message_of (signed : list Z) (seq rid : Z) (body : list Z) : Prop :=
  mu_binary_le_get_u32 signed = Some seq ∧ mu_binary_le_get_u32 (zdrop 4 signed) = Some rid ∧
  ∃ pad, 0 ≤ pad ∧ zdrop 8 signed = body ++ repeat pad (S (Z.to_nat pad)).

Lemma wpa_extract n cap p v r (Q : Z * Z * Z → asym_state Ctx → Prop) (E : asym_state Ctx → Prop) st :
  areas st p v r → bytes_ok p → 9 ≤ n ≤ 2048 → cap ≤ zlen (ak_out st) → E st →
  (∀ st' seq rid body, areas st' p v r → ak_out st' = body ++ zdrop (zlen body) (ak_out st) → zlen body ≤ cap →
     message_of (ztake n p) seq rid body → bytes_ok body → Q (seq, rid, zlen body) st') →
  wpa (extract_body n cap) Q E st.
Proof.
  intros (Es & Hp & Hv) Hpb Hn Hcap HE HQ; unfold extract_body; unfold MU_ASYM_MAX_PLAINTEXT in Hp.
  destruct (buffer_split p n) as (sg & t & -> & Hsg & Ht & _); [lia|]; rewrite zlen_app in *.
  assert (Htk : ztake n (sg ++ t) = sg) by (rewrite <- Hsg; apply ztake_app); apply bytes_ok_app in Hpb as [Hsb _].
  rewrite <- app_assoc in Es; set (rest := t ++ v ++ r) in *.
  destruct (buffer_split sg 8) as (h & sg' & -> & Hh & Hsg' & _); [lia|]; rewrite zlen_app in *.
  destruct (buffer_split sg' (n - 9)) as (front & l & -> & Hf & Hl & _); [lia|]; rewrite zlen_app in *.
  assert (H1 : zlen l = 1) by lia; destruct l as [|pad [|? l]]; [done| |rewrite !zlen_cons in H1; pose proof (zlen_nonneg l); lia].
  assert (Hpos : 0 ≤ pad) by (rewrite !bytes_ok_app in Hsb; destruct Hsb as (_ & _ & Hsb); apply Forall_cons_iff in Hsb as [? _]; ranges; lia).
  assert (Hscr : ak_scratch st = h ++ front ++ pad :: rest) by (rewrite Es, <- !app_assoc; done).
  apply wpa_bind; eapply (wpa_load_scratch _ pad).
  { rewrite Hscr, app_assoc; replace (n - 1) with (zlen (h ++ front)) by (rewrite zlen_app; lia); apply znth_mid. }
  destruct (Z.ltb_spec n (pad + 1 + 8)) as [Hbad|Hok]; [by apply wpa_fail|].
  destruct (buffer_split front (n - 9 - pad)) as (body & padding & -> & Hb & Hpd & _); [lia|]; rewrite zlen_app in *.
  apply wpa_bind; eapply (wpa_load_scratch _ padding).
  { apply (mem_load_at _ (h ++ body) padding (pad :: rest)); [by rewrite Hscr, <- !app_assoc|rewrite zlen_app; lia|lia]. }
  destruct (forallb _ padding) eqn:Ef; cbn [negb]; [|by apply wpa_fail].
  assert (Hpd' : zlen padding = pad) by lia; assert (Epad : padding = repeat pad (Z.to_nat pad)).
  { apply Forall_eq_repeat_pad; [|unfold zlen in Hpd'; lia]; rewrite forallb_forall in Ef; apply Forall_forall.
    intros x Hx%list_elem_of_In%Ef; by apply Z.eqb_eq in Hx. }
  destruct (buffer_split h 4) as (h1 & h2 & -> & Hh1 & Hh2 & _); [lia|]; rewrite zlen_app in *.
  destruct (le_get_u32_ok h1) as [seq Eseq]; [lia|]; destruct (le_get_u32_ok h2) as [rid Erid]; [lia|].
  apply wpa_bind; eapply (wpa_load_scratch _ seq); [rewrite Hscr, <- !app_assoc; change (zdrop 0 ?x) with x; rewrite le_get_u32_app by lia; done|].
  apply wpa_bind; eapply (wpa_load_scratch _ rid); [rewrite Hscr, <- !app_assoc, (zdrop_app_eq 4 h1), le_get_u32_app by lia; done|].
  replace (n - 1 - pad - 8) with (zlen body) by lia; destruct (Z.ltb_spec cap (zlen body)) as [Hlarge|Hsmall]; [by apply wpa_fail|].
  apply wpa_bind; eapply (wpa_load_scratch _ body).
  { apply (mem_load_at _ (h1 ++ h2) body (padding ++ pad :: rest)); [by rewrite Hscr, <- !app_assoc|rewrite zlen_app; lia|done]. }
  destruct (buffer_split (ak_out st) (zlen body)) as (o1 & o2 & Eo & Ho1 & _ & Eo2); [pose proof (zlen_nonneg body); lia|].
  apply wpa_bind; eapply wpa_out; [apply (store_over _ _ [] o1 o2); [exact Eo|done|done]|]; apply wpa_ret, HQ.
  - split; [cbn; rewrite Hscr, <- !app_assoc; done|]; split; [|done]; rewrite !zlen_app in *; unfold MU_ASYM_MAX_PLAINTEXT; lia.
  - cbn [ak_out app]; by rewrite Eo2.
  - done.
  - rewrite Htk; split; [rewrite <- !app_assoc, le_get_u32_app by lia; done|].
    split; [rewrite <- !app_assoc, (zdrop_app_eq 4 h1), le_get_u32_app by lia; done|].
    exists pad; split; [done|]; rewrite (zdrop_app_eq 8 (h1 ++ h2)) by (rewrite zlen_app; lia); rewrite Epad, <- app_assoc; f_equal.
    cbn [repeat]; symmetry; apply repeat_cons.
  - rewrite !bytes_ok_app in Hsb; apply Hsb.
Qed.

(** What an accepted OPN chunk with a secured policy is. *)
Record opn_accepted (chunk : list Z) (size : Z) (policy : mu_security_policy_id_t) (cert : list Z) (thumb : mu_string_t)
    (hdr seq rid : Z) (body : list Z) : Prop := {
  oa_policy : secured_policy policy = true;
  oa_cert : 0 < zlen cert ∧ MU_B256S256_MIN_ASYMMETRIC_KEY_BITS ≤ sys_bits cert ≤ MU_B256S256_MAX_ASYMMETRIC_KEY_BITS ∧ sys_current cert;
  oa_receiver : str_data thumb = Some (sys_thumb own);
  oa_blocks : (size - hdr) mod (sys_bits own / 8) = 0;
  oa_message : ∃ xs signed sig,
    Forall2 (sys_opens (is_pss policy) own)
      (blocks_of (Z.to_nat ((size - hdr) / (sys_bits own / 8))) (sys_bits own / 8) (zdrop hdr chunk)) xs ∧
    concat xs = signed ++ sig ∧ zlen sig = sys_bits cert / 8 ∧
    sys_valid (is_pss policy) cert (ztake hdr chunk ++ signed) sig ∧ message_of signed seq rid body
}.

Lemma wpa_validate policy cert (Q : unit → asym_state Ctx → Prop) (E : asym_state Ctx → Prop) st :
  secured_policy policy = true → (∀ ctx, E (mk_asym_state ctx (ak_out st) (ak_scratch st))) →
  (∀ ctx c, cert = Some c → 0 < zlen c → MU_B256S256_MIN_ASYMMETRIC_KEY_BITS ≤ sys_bits c ≤ MU_B256S256_MAX_ASYMMETRIC_KEY_BITS →
     sys_current c → Q tt (mk_asym_state ctx (ak_out st) (ak_scratch st))) →
  wpa (as_ctx (mu_certificate_validate crypto policy cert)) Q E st.
Proof.
  intros Hp HE HQ; eapply (wpa_ctx _ (λ _, ∃ c, cert = Some c ∧ 0 < zlen c ∧
    MU_B256S256_MIN_ASYMMETRIC_KEY_BITS ≤ sys_bits c ≤ MU_B256S256_MAX_ASYMMETRIC_KEY_BITS ∧ sys_current c)); [|done|by intros [] ctx (c & ? & ? & ? & ?); eapply HQ].
  unfold mu_certificate_validate; rewrite bool_decide_false by (by intros ->); rewrite Hp; cbn [negb].
  destruct rsa_key_bits as (f & -> & Hf); destruct cert as [c|]; [|by intros ctx]; pose proof (zlen_nonneg c).
  destruct (Z.eqb_spec (zlen c) 0); [by intros ctx|]; intros ctx; unfold mbind, M_bind.
  pose proof (delivers_status (f c) _ MU_STATUS_BAD_CERTIFICATEINVALID ltac:(done) (Hf c) ctx) as Hb.
  destruct (or_status _ (f c) ctx) as [[bits|e|] ctx']; cbn [fst outcome_ok] in *; [subst bits|done|done].
  destruct (_ || _) eqn:Eg; [done|]; bool_hyps.
  destruct (cf_verify_certificate_validity crypto) as [g|] eqn:Eg; [|done].
  pose proof (rsa_validity g c Eg ctx') as Hv; destruct (g c ctx').1; cbn in *; [exists c; split; [done|]; split; [lia|done]|done|done].
Qed.

(** Only a message addressed to the own certificate goes on. *)
Lemma addressed_spec (thumb : mu_string_t) (st : asym_state Ctx) (Q : bool → asym_state Ctx → Prop) E : wire_string thumb →
  Q (bool_decide (str_data thumb = Some (sys_thumb own))) st →
  wpa (if negb (str_length thumb =? MU_THUMBPRINT_LENGTH) then mret false
       else lift_option (t ← str_data thumb; mu_secure_memeq t (sys_thumb own) MU_THUMBPRINT_LENGTH)) Q E st.
Proof.
  intros Hw HQ; destruct (sys_thumb_octets own) as [Hl _]; destruct Hw as [->|(d & Ed & El & _)].
  - cbn in *; by rewrite bool_decide_false in HQ.
  - rewrite Ed, El in *; destruct (Z.eqb_spec (zlen d) MU_THUMBPRINT_LENGTH) as [E20|E20]; cbn [negb].
    + eapply wpa_lift; [cbn [mbind option_bind]; by apply secure_memeq_spec|]; by rewrite (bool_decide_ext (d = sys_thumb own) (Some d = Some (sys_thumb own))) by naive_solver.
    + apply wpa_ret; rewrite bool_decide_false in HQ; [done|]; intros [= ->]; done.
Qed.

Lemma wpa_unwrap_secured policy cert thumb chunk size hdr cap p v r st :
  areas st p v r → bytes_ok p → bytes_ok chunk → secured_policy policy = true → wire_string thumb →
  0 ≤ hdr ≤ size → size ≤ zlen chunk → size ≤ PTRDIFF_MAX → cap ≤ zlen (ak_out st) →
  wpa (unwrap_secured crypto policy cert thumb chunk size hdr cap)
    (λ m st', ∃ c body, cert = Some c ∧ opn_accepted chunk size policy c thumb hdr m.1.1 m.1.2 body ∧
       m.2 = zlen body ∧ zlen body ≤ cap ∧ bytes_ok body ∧ ak_out st' = body ++ zdrop (zlen body) (ak_out st) ∧
       areas st' (repeat 0 2048) (repeat 0 4096) r)
    (λ st', wiped p v r st' ∧ ak_out st' = ak_out st) st.
Proof.
  intros Hst Hpb Hcb Hpol Hthumb Hhdr Hsize Hmax Hcap; unfold unwrap_secured.
  assert (HE : ∀ ctx, wiped p v r (mk_asym_state ctx (ak_out st) (ak_scratch st)) ∧ ak_out st = ak_out st).
  { intros ctx; split; [|done]; exists p, v; split; [done|]; by split; left. }
  apply wpa_bind, wpa_validate; [done|done|]; intros ctx c -> Hc Hbits Hcur.
  destruct rsa_own as (f & -> & Hf); cbn [call]; apply wpa_bind; eapply wpa_ctx; [apply Hf|done|]; intros ? ctx' ->; cbn [ak_out ak_scratch].
  destruct rsa_own_octets as [Hown _]; apply wpa_bind; unfold mu_certificate_thumbprint.
  destruct rsa_thumbprint as (g & -> & Hg); rewrite (proj2 (Z.eqb_neq (zlen own) 0)) by lia.
  eapply wpa_ctx; [apply Hg|done|]; intros ? ctx'' ->; cbn [ak_out ak_scratch]; apply wpa_bind, addressed_spec; [done|].
  case_bool_decide as Ethumb; cbn [negb]; [|by apply wpa_fail].
  apply wpa_bind, wpa_key_bytes; [done|]; intros ctx3 Hkey; cbn [ak_out ak_scratch].
  apply wpa_bind; eapply wpa_lift; [done|]; apply wpa_bind, wpa_key_bytes; [done|]; intros ctx4 Hsig; cbn [ak_out ak_scratch].
  set (k := sys_bits own / 8) in *; set (sg := sys_bits c / 8) in *; cbv zeta; rewrite (to_unsigned_id 32 (size - hdr)) by (ranges; lia).
  set (n := size - hdr); destruct (_ || _) eqn:Eg; [by apply wpa_fail|]; bool_hyps.
  assert (Hn : n = k * (n / k)) by (pose proof (Z.div_mod n k ltac:(lia)); lia); assert (Hq : 0 ≤ n / k) by (apply Z.div_pos; lia).
  apply wpa_bind, wpa_on_error, wpa_bind.
  set (E' := λ st' : asym_state Ctx, wiped p v r st' ∧ ak_out st' = ak_out st) in *.
  assert (HEd : ∀ st' p' v', areas st' p' v' r → v' = v ∨ v' = repeat 0 4096 → ak_out st' = ak_out st → wpa wipe_plain (λ _, E') E' st').
  { intros st' p' v' Hst' Hv' Hout; eapply wpa_wipe_plain; [exact Hst'|]; intros st'' Hst'' Hout'; split; [|by rewrite Hout'].
    exists (repeat 0 2048), v'; split; [done|]; split; [by right|done]. }
  apply (wpa_decrypt _ _ _ _ _ v r _ _ 0 0 p); [done|done|done|lia|lia|lia|lia|nia| |].
  { intros st' p' Hst' _ Hout; apply (HEd st' p' v); [done|by left|done]. }
  intros st1 p1 xs len Hst1 Hp1 Hout1 Hopens Hlen Etake; cbn [ak_out] in Hout1; rewrite Z.mul_0_l, Z.add_0_r in Hopens.
  split_if; [apply wpa_fail; [done|]; apply (HEd st1 p1 v); [done|by left|done]|]; bool_hyps.
  assert (Hp1l : zlen p1 = 2048) by apply Hst1.
  apply wpa_bind; eapply wpa_verify_chunk; [exact Hst1|lia|lia|lia|lia| |].
  { intros st' v' Hst' Hv' Hout; apply (HEd st' p1 v'); [done|done|by rewrite Hout]. }
  intros st2 Hst2 Hout2 Hvalid; eapply wpa_extract; [exact Hst2|done|lia|by rewrite Hout2, Hout1| |].
  { apply (HEd st2 p1 (repeat 0 4096)); [done|by right|by rewrite Hout2]. }
  intros st3 seq rid body Hst3 Hout3 Hbody Hmsg Hbb; apply wpa_bind; eapply wpa_wipe_plain; [exact Hst3|].
  intros st4 Hst4 Hout4; apply wpa_ret; exists c, body; split; [done|]; split; [|rewrite Hout4, Hout3, Hout2, Hout1; by split_and!].
  split; [done|done|done|done|]; exists xs, (ztake (len - sg) p1), (ztake sg (zdrop (len - sg) p1)); split; [exact Hopens|].
  split; [|split; [apply zlen_ztake; rewrite zlen_zdrop by lia; lia|by split]].
  change (ztake 0 p) with (@nil Z) in Etake; cbn [app] in Etake; rewrite <- Etake.
  replace len with (len - sg + sg) at 1 by lia; apply ztake_add; lia.
Qed.

(** The message of a clear chunk. *)
Definition clear_message (chunk : list Z) (size hdr seq rid : Z) (body : list Z) : Prop :=
  mu_binary_le_get_u32 (zdrop hdr chunk) = Some seq ∧ mu_binary_le_get_u32 (zdrop (hdr + 4) chunk) = Some rid ∧
  hdr + 8 ≤ size ∧ body = ztake (size - hdr - 8) (zdrop (hdr + 8) chunk).

Lemma wpa_unwrap_none chunk size hdr cap (st : asym_state Ctx) : 0 ≤ hdr ≤ size → size ≤ zlen chunk → cap ≤ zlen (ak_out st) →
  wpa (unwrap_none chunk size hdr cap)
    (λ m st', ∃ body, clear_message chunk size hdr m.1.1 m.1.2 body ∧ m.2 = zlen body ∧ zlen body ≤ cap ∧
        ak_out st' = body ++ zdrop (zlen body) (ak_out st) ∧ ak_scratch st' = ak_scratch st)
    (λ st', st' = st) st.
Proof.
  intros Hhdr Hsize Hcap; unfold unwrap_none; split_if; [by apply wpa_fail|]; bool_hyps.
  destruct (le_get_u32_ok (zdrop hdr chunk)) as [seq Eseq]; [rewrite zlen_zdrop; lia|].
  destruct (le_get_u32_ok (zdrop (hdr + 4) chunk)) as [rid Erid]; [rewrite zlen_zdrop; lia|].
  apply wpa_bind; eapply wpa_lift; [done|]; apply wpa_bind; eapply wpa_lift; [done|]; cbv zeta; split_if; [by apply wpa_fail|]; bool_hyps.
  apply wpa_bind; eapply wpa_lift; [apply mem_load_Some; lia|]; set (body := ztake _ _).
  assert (Hb : zlen body = size - hdr - 8) by (apply zlen_ztake; rewrite zlen_zdrop; lia).
  destruct (buffer_split (ak_out st) (zlen body)) as (o1 & o2 & Eo & Ho1 & _ & Eo2); [lia|].
  apply wpa_bind; eapply wpa_out; [apply (store_over _ _ [] o1 o2); [exact Eo|done|done]|]; apply wpa_ret; exists body; cbn [fst snd ak_out ak_scratch app].
  rewrite Eo2; split; [done|]; split; [done|]; split; [lia|done].
Qed.

Lemma read_opn_header_inv (r r' : mu_binary_reader_t) scid uri cert thumb hdr : reader_ok r →
  read_opn_header r = (Ok (scid, uri, cert, thumb, hdr), r') →
  r_position r ≤ hdr ≤ r_length r ∧ wire_string uri ∧ wire_string cert ∧ wire_string thumb.
Proof.
  intros Hr E; unfold read_opn_header in E.
  destruct (bind_inv_ok _ _ _ _ _ E) as (x1 & r1 & E1 & E'); clear E.
  destruct (bind_inv_ok _ _ _ _ _ E') as (x2 & r2 & E2 & E); clear E'.
  destruct (bind_inv_ok _ _ _ _ _ E) as (x3 & r3 & E3 & E'); clear E.
  destruct (bind_inv_ok _ _ _ _ _ E') as (x4 & r4 & E4 & E); clear E'; injection E as -> -> -> -> <- <-.
  pose proof (rsafe_read_uint32 r Hr) as [S1 _]; rewrite E1 in S1; cbn [snd] in S1.
  pose proof (rsafe_read_string r1 (rstep_ok _ _ S1)) as [S2 Q2]; rewrite E2 in S2, Q2; cbn [fst snd outcome_ok] in S2, Q2.
  pose proof (rsafe_read_bytestring r2 (rstep_ok _ _ S2)) as [S3 Q3]; rewrite E3 in S3, Q3; cbn [fst snd outcome_ok] in S3, Q3.
  pose proof (rsafe_read_bytestring r3 (rstep_ok _ _ S3)) as [S4 Q4]; rewrite E4 in S4, Q4; cbn [fst snd outcome_ok] in S4, Q4.
  split; [|done]; destruct S1 as [_ _ L1 P1], S2 as [_ _ L2 P2], S3 as [_ _ L3 P3], S4 as [[_ O4] _ L4 P4]; lia.
Qed.

Lemma read_opn_header_safe (r : mu_binary_reader_t) : reader_ok r → outcome_ok (λ _, True) (read_opn_header r).1.
Proof.
  intros Hr; cut (rsafe read_opn_header (λ _, True)); [intros Hs; apply (Hs r Hr)|]; unfold read_opn_header.
  do 4 (eapply rsafe_bind; [eauto with rsafe|intros ? _]); apply rsafe_get; intros r0 _; by apply rsafe_ret.
Qed.

Lemma read_opn_header_short b size : size < 8 → ∃ e r, e ≠ MU_STATUS_GOOD ∧ read_opn_header (mk_reader (Some b) size 8 MU_STATUS_GOOD) = (Err e, r).
Proof.
  intros H; exists MU_STATUS_BAD_DECODINGERROR; eexists; split; [done|]; apply bind_err; unfold mu_binary_read_uint32; apply bind_err.
  unfold ensure_bytes; cbn [r_status r_buffer r_position r_length is_null negb andb]; rewrite (proj2 (Z.leb_gt 8 size)) by lia; reflexivity.
Qed.

Definition as_option (s : mu_string_t) : option (list Z) := if 0 <? str_length s then str_data s else None.

(** What the opened chunk says of its message. *)
Definition opn_result (chunk : list Z) (cap : Z) (st st' : asym_state Ctx) (info : mu_asym_chunk_info_t) (n : Z) : Prop :=
  ∃ size scid uri cert thumb hdr body,
    mu_binary_le_get_u32 (zdrop 4 chunk) = Some size ∧ size ≤ zlen chunk ∧
    (read_opn_header (mk_reader (Some chunk) size 8 MU_STATUS_GOOD)).1 = Ok (scid, uri, cert, thumb, hdr) ∧ 8 ≤ hdr ≤ size ∧
    aci_secure_channel_id info = scid ∧ aci_sender_cert info = as_option cert ∧
    aci_policy info = mu_security_policy_from_uri (str_data uri) (Z.max 0 (str_length uri)) ∧
    n = zlen body ∧ n ≤ cap ∧ bytes_ok body ∧ ak_out st' = body ++ zdrop n (ak_out st) ∧
    match aci_sender_cert info with
    | Some c => aci_policy info ≠ MU_SECURITY_POLICY_NONE_ID →
        opn_accepted chunk size (aci_policy info) c thumb hdr (aci_sequence_number info) (aci_request_id info) body
    | None => aci_policy info = MU_SECURITY_POLICY_NONE_ID
    end ∧
    (aci_policy info = MU_SECURITY_POLICY_NONE_ID → clear_message chunk size hdr (aci_sequence_number info) (aci_request_id info) body).

Lemma wpa_unwrap chunk cap p v r st :
  areas st p v r → bytes_ok p → bytes_ok chunk → zlen chunk ≤ PTRDIFF_MAX → cap ≤ zlen (ak_out st) →
  wpa (mu_asym_chunk_unwrap crypto chunk (zlen chunk) cap)
    (λ m st', opn_result chunk cap st st' m.1 m.2 ∧ wiped p v r st')
    (λ st', ak_out st' = ak_out st ∧ wiped p v r st') st.
Proof.
  intros Hst Hpb Hcb Hmax Hcap; unfold mu_asym_chunk_unwrap; apply wpa_bind; unfold get_state; red; cbv beta iota.
  assert (Hw : wiped p v r st) by (exists p, v; split; [done|]; by split; left).
  split_if; [by apply wpa_fail|]; split_if; [by apply wpa_fail|]; bool_hyps.
  apply wpa_bind; eapply wpa_lift; [apply mem_load_Some; lia|]; split_if; [by apply wpa_fail|].
  destruct (le_get_u32_ok (zdrop 4 chunk)) as [size Esize]; [rewrite zlen_zdrop; lia|].
  apply wpa_bind; eapply wpa_lift; [exact Esize|]; split_if; [by apply wpa_fail|]; bool_hyps; apply wpa_bind.
  set (rd := mk_reader _ _ _ _).
  destruct (Z.ltb_spec size 8) as [Hs|Hs].
  { destruct (read_opn_header_short chunk size Hs) as (e & r' & He & Er); red; subst rd; by rewrite Er. }
  assert (Hrd : reader_ok rd) by (split; cbn [rd r_buffer r_length r_position buffer_ok]; [split; [lia|]; split; [lia|done]|lia]).
  pose proof (read_opn_header_safe rd Hrd) as Hsafe; destruct (read_opn_header rd) as [x rd'] eqn:Erd; unfold wpa at 1.
  destruct x as [[[[[scid uri] cert] thumb] hdr]|e|]; [|by split|done].
  destruct (read_opn_header_inv _ _ _ _ _ _ _ Hrd Erd) as (Hhdr & Huri & Hcert & Hthumb); change (8 ≤ hdr ≤ size) in Hhdr.
  cbn [fst]; cbv beta iota zeta; fold (as_option cert); set (policy := mu_security_policy_from_uri (str_data uri) (Z.max 0 (str_length uri))); apply wpa_bind.
  case_bool_decide as Hnone.
  - eapply wpa_mono; [apply wpa_unwrap_none; lia| |by intros st' ->].
    intros [[seq rid] n] st' (body & Hm & Hn & Hle & Hout & Hscr); cbn [fst snd] in *; apply wpa_ret; split.
    + exists size, scid, uri, cert, thumb, hdr, body; cbn [fst snd aci_policy aci_secure_channel_id aci_sender_cert aci_sequence_number aci_request_id].
      fold rd; rewrite Erd; subst n; split_and!; try done; try lia; [destruct Hm as (_ & _ & _ & ->); by apply bytes_ok_ztake, bytes_ok_zdrop|by destruct (as_option cert)].
    + destruct Hst as (Es & Hp & Hv); exists p, v; split; [split; [by rewrite Hscr|done]|]; by split; left.
  - destruct (secured_policy policy) eqn:Esec; cbn [negb]; [|by apply wpa_fail].
    eapply wpa_mono; [eapply wpa_unwrap_secured; [exact Hst|done|done|done|done|lia|lia|lia|done]| |by intros st' [? ?]].
    intros [[seq rid] n] st' (c & body & Ec & Hacc & Hn & Hle & Hbb & Hout & Hst'); cbn [fst snd] in *; apply wpa_ret; split.
    + exists size, scid, uri, cert, thumb, hdr, body; cbn [fst snd aci_policy aci_secure_channel_id aci_sender_cert aci_sequence_number aci_request_id].
      fold rd; rewrite Erd; subst n; rewrite Ec; split_and!; try done; try lia.
    + exists (repeat 0 2048), (repeat 0 4096); split; [done|]; by split; right.
Qed.
End unwrap.

(** C16: For every adapter that keeps the contract of [platform.h] (any of its calls may fail) and every chunk,
    [mu_asym_chunk_unwrap] is memory safe. It returns a message only if the chunk is in the clear with policy None and
    carries exactly that message, or its policy is a secured one, the sender's certificate has an accepted key size and is in
    its validity period, the receiver thumbprint is that of the own certificate, the ciphertext is a whole number of blocks
    that open with the own private key to [signed ++ signature], the signature is valid under the sender's certificate for the
    cleartext header followed by [signed], and [signed] is the sequence number, the request id, the returned body and the
    padding. On failure the output buffer is untouched; in every case the scratch areas for plaintext and for signature
    verification are zeroed or were never written. *)
Theorem asym_chunk_authentic {Ctx} (sys : RsaSystem) (crypto : crypto_functions Ctx) (own chunk : list Z) (cap : Z) (p v r : list Z)
    (st : asym_state Ctx) :
  RsaContract sys crypto own → ak_scratch st = p ++ v ++ r → zlen p = MU_ASYM_MAX_PLAINTEXT → zlen v = MU_ASYM_SIGNED_INPUT_MAX →
  bytes_ok p → bytes_ok chunk → zlen chunk ≤ PTRDIFF_MAX → cap ≤ zlen (ak_out st) →
  match mu_asym_chunk_unwrap crypto chunk (zlen chunk) cap st with
  | (Ok (info, n), st') => opn_result (own := own) chunk cap st st' info n ∧ wiped p v r st'
  | (Err e, st') => e ≠ MU_STATUS_GOOD ∧ ak_out st' = ak_out st ∧ wiped p v r st'
  | (Fault, _) => False
  end.
Proof.
  intros Hc Es Hp Hv Hpb Hcb Hmax Hcap.
  pose proof (wpa_unwrap chunk cap p v r st (conj Es (conj Hp Hv)) Hpb Hcb Hmax Hcap) as H; unfold wpa in H.
  destruct (mu_asym_chunk_unwrap _ _ _ _ st) as [[[info n]|e|] st']; exact H.
Qed.

(** ** The contract at the model adapter *)

Section model.
  Context (n : Z) (Hn : 0 ≤ n ≤ 512).

Definition model_rsa : RsaSystem.
Proof.
  refine {| sys_bits := λ _, 8 * n; sys_thumb := λ c, repeat (checksum c) 20; sys_current := λ _, True;
            sys_valid := λ _ _ data sig, sig = repeat (checksum data) (Z.to_nat n);
            sys_opens := λ _ _ y x, ∃ len, mu_binary_le_get_u16 y = Some len ∧ x = ztake len (zdrop 2 y) ∧ 2 + len ≤ zlen y |}.
  - intros c; ranges; lia.
  - intros c; split; [done|apply repeat_bytes, checksum_range].
Defined.

Lemma model_sign_ok data cap : delivers (model_sign n data cap) (λ sig, bytes_ok sig ∧ zlen sig ≤ cap ∧ sig = repeat (checksum data) (Z.to_nat n)).
Proof.
  intros ctx; unfold model_sign; split_if; [done|]; bool_hyps; cbn; split; [apply repeat_bytes, checksum_range|].
  split; [|done]; rewrite zlen_repeat; ranges; lia.
Qed.

Lemma model_verify_ok cert data sig : delivers (model_verify n cert data sig) (λ _, sig = repeat (checksum data) (Z.to_nat n)).
Proof. intros ctx; unfold model_verify; by case_bool_decide. Qed.

Lemma model_encrypt_ok cert x cap : bytes_ok x →
  delivers (model_encrypt n cert x cap) (λ y, bytes_ok y ∧ zlen y ≤ cap ∧
    ∃ len, mu_binary_le_get_u16 y = Some len ∧ x = ztake len (zdrop 2 y) ∧ 2 + len ≤ zlen y).
Proof.
  intros Hx ctx; unfold model_encrypt; split_if; [done|]; bool_hyps; cbn [fst outcome_ok mret M_ret]; pose proof (zlen_nonneg x).
  rewrite le_put_u16_bytes; set (y := le_bytes 2 (zlen x)); assert (Hy : zlen y = 2 ∧ bytes_ok y) by (split; [done|apply le_bytes_ok]).
  split; [rewrite !bytes_ok_app; split; [apply Hy|split; [done|apply repeat_bytes; by ranges]]|]; rewrite !zlen_app, zlen_repeat, (proj1 Hy).
  split; [lia|]; exists (zlen x); split; [apply get_u16_bytes; ranges; lia|].
  split; [by rewrite (zdrop_app_eq 2 y), ztake_app by (symmetry; apply Hy)|lia].
Qed.

Lemma model_decrypt_ok y cap : bytes_ok y →
  delivers (model_decrypt y cap) (λ x, bytes_ok x ∧ zlen x ≤ cap ∧
    ∃ len, mu_binary_le_get_u16 y = Some len ∧ x = ztake len (zdrop 2 y) ∧ 2 + len ≤ zlen y).
Proof.
  intros Hy ctx; unfold model_decrypt; destruct (mu_binary_le_get_u16 y) as [len|] eqn:E; [|done]; split_if; [done|]; bool_hyps; cbn.
  assert (0 ≤ len).
  { destruct (get_u16_safe y) as (l & El & Hl); [done| |rewrite E in El; injection El as El; ranges; lia].
    destruct y as [|? [|? y]]; [done|done|]; rewrite !zlen_cons; pose proof (zlen_nonneg y); lia. }
  split; [by apply bytes_ok_ztake, bytes_ok_zdrop|]; split; [rewrite zlen_ztake; [lia|rewrite zlen_zdrop; lia]|by exists len].
Qed.

Lemma model_rsa_contract : RsaContract model_rsa (model_adapter n) [48; 130].
Proof.
  split; try (intros pss; destruct pss; eexists; (split; [reflexivity|])); cbn [sys_valid sys_opens sys_bits sys_thumb sys_current model_rsa];
    auto using model_sign_ok, model_verify_ok, model_encrypt_ok, model_decrypt_ok.
  - split; [done|by repeat constructor].
  - eexists; split; [reflexivity|by intros ctx].
  - eexists; split; [reflexivity|by intros c ctx].
  - eexists; split; [reflexivity|by intros c ctx].
  - by intros f c [= <-] ctx.
Qed.
End model.

(** A chunk of the model adapter: the body [1; 2; 3] for the own certificate. *)
Definition model_chunk (policy : mu_security_policy_id_t) (n : Z) : list Z :=
  match mu_asym_chunk_wrap (model_adapter n) policy 7 51 2 (Some [48; 130]) [1; 2; 3] 2048 (mk_asym_state tt (repeat 0 2048) []) with
  | (Ok total, st) => ztake total (ak_out st)
  | _ => []
  end.

Definition model_state : asym_state unit := mk_asym_state tt (repeat 0 16) (repeat 9 2048 ++ repeat 9 4096 ++ []).

Lemma asym_chunk_authentic_witness :
  let chunk := model_chunk MU_SECURITY_POLICY_BASIC256SHA256_ID 256 in
  ∃ info st', mu_asym_chunk_unwrap (model_adapter 256) chunk (zlen chunk) 16 model_state = (Ok (info, 3), st') ∧
    ztake 3 (ak_out st') = [1; 2; 3] ∧ aci_sequence_number info = 51 ∧ wiped (repeat 9 2048) (repeat 9 4096) [] st'.
Proof.
  pose proof (asym_chunk_authentic (model_rsa 256 ltac:(lia)) (model_adapter 256) [48; 130]
    (model_chunk MU_SECURITY_POLICY_BASIC256SHA256_ID 256) 16 (repeat 9 2048) (repeat 9 4096) [] model_state
    (model_rsa_contract 256 ltac:(lia)) eq_refl eq_refl eq_refl ltac:(apply repeat_bytes; by ranges)
    ltac:(apply bytes_okb; vm_compute; reflexivity) ltac:(vm_compute; discriminate) ltac:(vm_compute; discriminate)) as H.
  cbv zeta; set (chunk := model_chunk _ _) in *.
  assert (E : ∃ info st', mu_asym_chunk_unwrap (model_adapter 256) chunk (zlen chunk) 16 model_state = (Ok (info, 3), st') ∧
    ztake 3 (ak_out st') = [1; 2; 3] ∧ aci_sequence_number info = 51) by (vm_compute; do 2 eexists; split_and!; reflexivity).
  destruct E as (info & st' & E & Eb & Es); exists info, st'; split; [exact E|]; split; [exact Eb|]; split; [exact Es|].
  rewrite E in H; exact (proj2 H).
Defined.

(** The padding length has one octet: with a 3072-bit key 288 octets of padding are announced as 32, and the opened body has
    256 octets of padding behind it. *)
Lemma asym_padding_truncated :
  let chunk := model_chunk MU_SECURITY_POLICY_BASIC256SHA256_ID 384 in
  let st := mk_asym_state tt (repeat 0 512) (repeat 0 (Z.to_nat 6144)) in
  match mu_asym_chunk_unwrap (model_adapter 384) chunk (zlen chunk) 512 st with
  | (Ok (_, n), st') => n = 259 ∧ ztake n (ak_out st') = [1; 2; 3] ++ repeat 32 256
  | _ => False
  end.
Proof. vm_compute; split; reflexivity. Qed.
