(* ===== verification/StatusNames.v ===== *)
(** * Names of status codes

    [src/core/status.c]: the diagnostic name of a status. *)

From S2P Require Export Dispatch.
From stdpp Require Import strings.
#[local] Open Scope Z_scope.

Section names.
  Context {features : ServiceFeatures}.

(** The cases of the switch, in order. *)
Definition status_cases_common : list (Z * string) := [
  (MU_STATUS_GOOD, "Good"%string);
  (MU_STATUS_BAD_UNEXPECTEDERROR, "Bad_UnexpectedError"%string);
  (MU_STATUS_BAD_INTERNALERROR, "Bad_InternalError"%string);
  (MU_STATUS_BAD_OUTOFMEMORY, "Bad_OutOfMemory"%string);
  (MU_STATUS_BAD_ENCODINGERROR, "Bad_EncodingError"%string);
  (MU_STATUS_BAD_DECODINGERROR, "Bad_DecodingError"%string);
  (MU_STATUS_BAD_ENCODINGLIMITSEXCEEDED, "Bad_EncodingLimitsExceeded"%string);
  (MU_STATUS_BAD_TIMEOUT, "Bad_Timeout"%string);
  (MU_STATUS_BAD_SERVICEUNSUPPORTED, "Bad_ServiceUnsupported"%string);
  (MU_STATUS_BAD_NOTREADABLE, "Bad_NotReadable"%string);
  (MU_STATUS_BAD_SECURITYCHECKSFAILED, "Bad_SecurityChecksFailed"%string);
  (MU_STATUS_BAD_REQUESTTOOLARGE, "Bad_RequestTooLarge"%string);
  (MU_STATUS_BAD_RESPONSETOOLARGE, "Bad_ResponseTooLarge"%string);
  (MU_STATUS_BAD_SESSIONIDINVALID, "Bad_SessionIdInvalid"%string);
  (MU_STATUS_BAD_SESSIONNOTACTIVATED, "Bad_SessionNotActivated"%string);
  (MU_STATUS_BAD_IDENTITYTOKENINVALID, "Bad_IdentityTokenInvalid"%string);
  (MU_STATUS_BAD_IDENTITYTOKENREJECTED, "Bad_IdentityTokenRejected"%string);
  (MU_STATUS_BAD_SECURECHANNELIDINVALID, "Bad_SecureChannelIdInvalid"%string);
  (MU_STATUS_BAD_SECURITYPOLICYREJECTED, "Bad_SecurityPolicyRejected"%string);
  (MU_STATUS_BAD_TOOMANYSESSIONS, "Bad_TooManySessions"%string);
  (MU_STATUS_BAD_NODEIDUNKNOWN, "Bad_NodeIdUnknown"%string);
  (MU_STATUS_BAD_NOTFOUND, "Bad_NotFound"%string);
  (MU_STATUS_BAD_NODEIDINVALID, "Bad_NodeIdInvalid"%string);
  (MU_STATUS_BAD_NODEIDEXISTS, "Bad_NodeIdExists"%string);
  (MU_STATUS_BAD_NODEIDREJECTED, "Bad_NodeIdRejected"%string);
  (MU_STATUS_BAD_NODECLASSINVALID, "Bad_NodeClassInvalid"%string);
  (MU_STATUS_BAD_METHODINVALID, "Bad_MethodInvalid"%string);
  (MU_STATUS_BAD_ARGUMENTSMISSING, "Bad_ArgumentsMissing"%string);
  (MU_STATUS_BAD_TOOMANYARGUMENTS, "Bad_TooManyArguments"%string);
  (MU_STATUS_BAD_INVALIDARGUMENT, "Bad_InvalidArgument"%string);
  (MU_STATUS_BAD_MONITOREDITEMIDINVALID, "Bad_MonitoredItemIdInvalid"%string);
  (MU_STATUS_BAD_ATTRIBUTEIDINVALID, "Bad_AttributeIdInvalid"%string);
  (MU_STATUS_BAD_TOOMANYOPERATIONS, "Bad_TooManyOperations"%string);
  (MU_STATUS_BAD_NOCONTINUATIONPOINTS, "Bad_NoContinuationPoints"%string);
  (MU_STATUS_BAD_CONTINUATIONPOINTINVALID, "Bad_ContinuationPointInvalid"%string);
  (MU_STATUS_BAD_TOOMANYMONITOREDITEMS, "Bad_TooManyMonitoredItems"%string);
  (MU_STATUS_BAD_TOOMANYSUBSCRIPTIONS, "Bad_TooManySubscriptions"%string);
  (MU_STATUS_BAD_SUBSCRIPTIONIDINVALID, "Bad_SubscriptionIdInvalid"%string)
].

Definition status_cases_subscriptions : list (Z * string) := [
  (MU_STATUS_BAD_MESSAGENOTAVAILABLE, "Bad_MessageNotAvailable"%string);
  (MU_STATUS_BAD_SEQUENCENUMBERUNKNOWN, "Bad_SequenceNumberUnknown"%string);
  (MU_STATUS_BAD_TOOMANYPUBLISHREQUESTS, "Bad_TooManyPublishRequests"%string)
].

Definition status_cases_rest : list (Z * string) := [
  (MU_STATUS_BAD_NOTHINGTODO, "Bad_NothingToDo"%string);
  (MU_STATUS_BAD_TCPSERVERTOOBUSY, "Bad_TcpServerTooBusy"%string);
  (MU_STATUS_BAD_TCPMESSAGETYPEINVALID, "Bad_TcpMessageTypeInvalid"%string);
  (MU_STATUS_BAD_TCPSECURECHANNELUNKNOWN, "Bad_TcpSecureChannelUnknown"%string);
  (MU_STATUS_BAD_TCPMESSAGETOOLARGE, "Bad_TcpMessageTooLarge"%string);
  (MU_STATUS_BAD_TCPNOTENOUGHRESOURCES, "Bad_TcpNotEnoughResources"%string);
  (MU_STATUS_BAD_TCPINTERNALERROR, "Bad_TcpInternalError"%string);
  (MU_STATUS_BAD_TCPENDPOINTURLINVALID, "Bad_TcpEndpointUrlInvalid"%string);
  (MU_STATUS_BAD_NOTWRITABLE, "Bad_NotWritable"%string);
  (MU_STATUS_BAD_TYPEMISMATCH, "Bad_TypeMismatch"%string);
  (MU_STATUS_BAD_WRITENOTSUPPORTED, "Bad_WriteNotSupported"%string);
  (MU_STATUS_BAD_HISTORYOPERATIONUNSUPPORTED, "Bad_HistoryOperationUnsupported"%string);
  (MU_STATUS_BAD_MONITOREDITEMFILTERUNSUPPORTED, "Bad_MonitoredItemFilterUnsupported"%string);
  (MU_STATUS_BAD_MONITOREDITEMFILTERINVALID, "Bad_MonitoredItemFilterInvalid"%string);
  (MU_STATUS_BAD_FILTERNOTALLOWED, "Bad_FilterNotAllowed"%string);
  (MU_STATUS_BAD_TIMESTAMPSTORETURNINVALID, "Bad_TimestampsToReturnInvalid"%string);
  (MU_STATUS_BAD_BROWSEDIRECTIONINVALID, "Bad_BrowseDirectionInvalid"%string);
  (MU_STATUS_BAD_CERTIFICATEINVALID, "Bad_CertificateInvalid"%string);
  (MU_STATUS_BAD_CERTIFICATEUNTRUSTED, "Bad_CertificateUntrusted"%string)
].

Definition status_cases : list (Z * string) :=
  status_cases_common ++ (if MUC_OPCUA_SUBSCRIPTIONS then status_cases_subscriptions else []) ++ status_cases_rest.

Definition mu_status_name (status : Z) : string :=
  match list_find (λ c, c.1 = status) status_cases with
  | Some (_, (_, name)) => name
  | None => "Unknown_StatusCode"%string
  end.

(** No case is shadowed by an earlier one, and no two codes share a name. *)
Lemma status_cases_distinct : NoDup status_cases.*1 ∧ NoDup status_cases.*2.
Proof. unfold status_cases; destruct MUC_OPCUA_SUBSCRIPTIONS; split; apply (bool_decide_unpack _); vm_compute; exact Logic.I. Qed.

Lemma status_name_case status name : (status, name) ∈ status_cases → mu_status_name status = name.
Proof.
  intros Hin; unfold mu_status_name; destruct (list_find _ status_cases) as [[i [s n]]|] eqn:E.
  - apply list_find_Some in E as (Ei & Hs & _); cbn in Hs; subst s; apply list_elem_of_lookup in Hin as [j Ej].
    assert (i = j) as <-.
    { eapply (NoDup_lookup _ _ _ status (proj1 status_cases_distinct)); rewrite list_lookup_fmap, ?Ei, ?Ej; done. }
    congruence.
  - apply list_find_None in E; rewrite Forall_forall in E; by destruct (E _ Hin).
Qed.

(** A name other than the default determines the status. *)
Lemma status_name_inj s1 s2 : mu_status_name s1 = mu_status_name s2 → mu_status_name s1 ≠ "Unknown_StatusCode"%string → s1 = s2.
Proof.
  assert (Hname : ∀ s, mu_status_name s ≠ "Unknown_StatusCode"%string → (s, mu_status_name s) ∈ status_cases).
  { intros s; unfold mu_status_name; destruct (list_find _ status_cases) as [[i [x n]]|] eqn:E; [|done]; intros _.
    apply list_find_Some in E as (Ei & Hs & _); cbn in Hs; subst x; by eapply list_elem_of_lookup_2. }
  intros E Hn; pose proof (Hname s1 Hn) as H1; assert (H2 := Hname s2 ltac:(by rewrite <- E)); rewrite <- E in H2.
  apply list_elem_of_lookup in H1 as [i Ei]; apply list_elem_of_lookup in H2 as [j Ej].
  assert (i = j) as <-.
  { eapply (NoDup_lookup _ _ _ (mu_status_name s1) (proj2 status_cases_distinct)); rewrite list_lookup_fmap, ?Ei, ?Ej; done. }
  congruence.
Qed.
End names.
