(* ===== verification/LibraryCalls.v ===== *)
(** * Calls of a library

    The adapters of [src/platform] are glue over libraries that are not part of
    the repository. A library is a parameter: a type [Lib] of states and one
    function per call. A call whose C function returns an error code is a
    computation that fails with that code. This file has what the adapters
    share: keeping a return code to look at later, the allocator, and a logic
    that follows results and the objects that are alive together. *)

From S2P Require Export Crypto.

Section calls.
  Context {Lib : Type}.

(** [ret = f(...)]: the outcome becomes a value, so that clean-up can come
    before the test of [ret]. *)
Definition attempt {A} (m : M Lib A) : M Lib (result A) := λ s,
  match m s with
  | (Fault, s') => (Fault, s')
  | (x, s') => (Ok x, s')
  end.

(** A call that returns nothing and does not fail. *)
Definition void (f : Lib → Lib) : M Lib unit := λ s, (Ok tt, f s).

(** A call that delivers something and does not fail. *)
Definition make {A} (f : Lib → A * Lib) : M Lib A := λ s, (Ok (f s).1, (f s).2).

(** [ret == 0 ? MU_STATUS_GOOD : status], after clean-up. *)
Definition status_of {A} (status : Z) (ret : result A) : M Lib A :=
  match ret with
  | Ok a => mret a
  | _ => fail status
  end.

(** ** What is alive *)

(** [live] counts the objects that were initialised or allocated and not yet
    freed. [uses live d m Q]: whatever happens, [m] reaches no undefined
    behaviour; when it succeeds its result satisfies [Q] and [d] objects more
    are alive; when it fails, as many as before. *)
Definition uses {A} (live : Lib → Z) (d : Z) (m : M Lib A) (Q : A → Prop) : Prop := ∀ s,
  match m s with
  | (Ok a, s') => Q a ∧ live s' = live s + d
  | (Err e, s') => e ≠ MU_STATUS_GOOD ∧ live s' = live s
  | (Fault, _) => False
  end.

(** The same of a call that does not fail. *)
Definition makes {A} (live : Lib → Z) (d : Z) (f : Lib → A * Lib) (Q : A → Prop) : Prop := ∀ s,
  Q (f s).1 ∧ live (f s).2 = live s + d.

(** Symbolic execution: [Q] holds after success and [E] after failure. *)
Definition lwp {A} (m : M Lib A) (Q : A → Lib → Prop) (E : Lib → Prop) (s : Lib) : Prop :=
  match m s with
  | (Ok a, s') => Q a s'
  | (Err e, s') => e ≠ MU_STATUS_GOOD ∧ E s'
  | (Fault, _) => False
  end.

Lemma lwp_bind {A B} (m : M Lib A) (k : A → M Lib B) Q E s : lwp m (λ a, lwp (k a) Q E) E s → lwp (m ≫= k) Q E s.
Proof. unfold lwp, mbind, M_bind; by destruct (m s) as [[a|e|] s']. Qed.

Lemma lwp_ret {A} (a : A) (Q : A → Lib → Prop) E s : Q a s → lwp (mret a) Q E s.
Proof. done. Qed.

Lemma lwp_fail {A} e (Q : A → Lib → Prop) E s : e ≠ MU_STATUS_GOOD → E s → lwp (fail e) Q E s.
Proof. done. Qed.

Lemma lwp_lift {A} (o : option A) a (Q : A → Lib → Prop) E s : o = Some a → Q a s → lwp (lift_option o) Q E s.
Proof. by intros ->. Qed.

Lemma lwp_status {A} e (m : M Lib A) Q E s : e ≠ MU_STATUS_GOOD → lwp m Q E s → lwp (or_status e m) Q E s.
Proof. intros He; unfold lwp, or_status; destruct (m s) as [[a|e'|] s']; [done| |done]; by intros []. Qed.

Lemma lwp_attempt {A} (m : M Lib A) (Q : result A → Lib → Prop) E s :
  lwp m (λ a, Q (Ok a)) (λ s', ∀ e, e ≠ MU_STATUS_GOOD → Q (Err e) s') s → lwp (attempt m) Q E s.
Proof. unfold lwp, attempt; destruct (m s) as [[a|e|] s']; [done| |done]; intros [He H]; by apply H. Qed.

Lemma lwp_void f (Q : unit → Lib → Prop) E s : Q tt (f s) → lwp (void f) Q E s.
Proof. done. Qed.

Lemma lwp_call {A} live d (m : M Lib A) P (Q : A → Lib → Prop) (E : Lib → Prop) s : uses live d m P →
  (∀ a s', P a → live s' = live s + d → Q a s') → (∀ s', live s' = live s → E s') → lwp m Q E s.
Proof. intros Hm HQ HE; specialize (Hm s); unfold lwp; destruct (m s) as [[a|e|] s']; [|..|done]; destruct Hm; auto. Qed.

Lemma lwp_make {A} live d (f : Lib → A * Lib) P (Q : A → Lib → Prop) E s : makes live d f P →
  (∀ a s', P a → live s' = live s + d → Q a s') → lwp (make f) Q E s.
Proof. intros Hf HQ; destruct (Hf s); by apply HQ. Qed.

Lemma lwp_uses {A} live d (m : M Lib A) Q :
  (∀ s, lwp m (λ a s', Q a ∧ live s' = live s + d) (λ s', live s' = live s) s) → uses live d m Q.
Proof. done. Qed.

Lemma uses_delivers {A} live d (m : M Lib A) Q : uses live d m Q → delivers m Q.
Proof. intros Hm s; specialize (Hm s); destruct (m s) as [[a|e|] s']; [by destruct Hm..|done]. Qed.

Lemma uses_mono {A} live d (m : M Lib A) (P Q : A → Prop) : uses live d m P → (∀ a, P a → Q a) → uses live d m Q.
Proof. intros Hm HPQ s; specialize (Hm s); destruct (m s) as [[a|e|] s']; [|done..]; destruct Hm; auto. Qed.
End calls.

(** ** The allocator *)

(** [calloc] for the context of an adapter, which fails when there is no
    memory, and [free]. *)
Class CHeap (Lib : Type) := {
  calloc : M Lib unit;
  c_free : Lib → Lib
}.

Class CHeapLaws {Lib : Type} (heap : CHeap Lib) (live : Lib → Z) := {
  heap_calloc : uses live 1 calloc (λ _, True);
  heap_free s : live (c_free s) = live s - 1
}.

(** One step of symbolic execution; calls are resolved from the database
    [lib]. *)
Create HintDb lib discriminated.
#[export] Hint Resolve heap_calloc : lib.

Ltac lib_call := eapply lwp_call; [solve [eauto with lib]|cbv beta; intros|cbv beta; intros].

Ltac lib_step :=
  lazymatch goal with
  | |- lwp (_ ≫= _) _ _ _ => apply lwp_bind
  | |- lwp (mret _) _ _ _ => apply lwp_ret
  | |- lwp (fail _) _ _ _ => apply lwp_fail; [done|]
  | |- lwp (or_status _ _) _ _ _ => apply lwp_status; [done|]
  | |- lwp (attempt _) _ _ _ => apply lwp_attempt
  | |- lwp (void _) _ _ _ => apply lwp_void
  | |- lwp (make _) _ _ _ => eapply lwp_make; [solve [eauto with lib]|cbv beta; intros]
  | |- lwp (status_of _ _) _ _ _ => cbn [status_of]
  | |- lwp (if ?b then _ else _) _ _ _ => destruct b eqn:?
  | |- lwp _ _ _ _ => lib_call
  | |- ∀ _, _ => intros
  end; cbv beta iota.

(** ** Primitives *)

(** Digests, HMAC and AES-CBC as functions of octets. *)
Class CryptoPrimitives := {
  sha256 : list Z → list Z;
  sha1 : list Z → list Z;
  hmac_sha256 : list Z → list Z → list Z;
  aes_cbc : list Z → list Z → list Z → list Z;
  aes_cbc_inv : list Z → list Z → list Z → list Z;
  sha256_octets x : zlen (sha256 x) = 32 ∧ bytes_ok (sha256 x);
  sha1_octets x : zlen (sha1 x) = 20 ∧ bytes_ok (sha1 x);
  hmac_sha256_octets key x : zlen (hmac_sha256 key x) = 32 ∧ bytes_ok (hmac_sha256 key x);
  aes_cbc_octets key iv x : bytes_ok x → zlen x mod 16 = 0 → zlen (aes_cbc key iv x) = zlen x ∧ bytes_ok (aes_cbc key iv x);
  aes_cbc_inv_octets key iv x :
    bytes_ok x → zlen x mod 16 = 0 → zlen (aes_cbc_inv key iv x) = zlen x ∧ bytes_ok (aes_cbc_inv key iv x);
  aes_cbc_inverse key iv x : bytes_ok x → zlen x mod 16 = 0 → aes_cbc_inv key iv (aes_cbc key iv x) = x
}.

(** What an AES function of an adapter computes: AES-CBC under the first octets
    of the key field. *)
Definition computes_aes {Lib} {prim : CryptoPrimitives} (n : Z) (dir : bool) (f : list Z → list Z → list Z → M Lib (list Z)) : Prop :=
  ∀ key iv x, aes_input key iv x → delivers (f key iv x) (λ y, y = (if dir then aes_cbc else aes_cbc_inv) (ztake (n / 8) key) (ztake 16 iv) x).

(** An adapter without prepared contexts whose functions compute the
    primitives keeps the contract. *)
Definition plain_contract {Lib} {prim : CryptoPrimitives} (crypto : crypto_functions Lib) mac enc dec enc128 dec128 :
  cf_hmac_sha256 crypto = Some mac → cf_aes256_cbc_encrypt crypto = Some enc → cf_aes256_cbc_decrypt crypto = Some dec →
  cf_aes128_cbc_encrypt crypto = Some enc128 → cf_aes128_cbc_decrypt crypto = Some dec128 →
  cf_cipher_ctx_init crypto = None → cf_aes256_cbc_encrypt_ctx crypto = None → cf_aes256_cbc_decrypt_ctx crypto = None →
  (∀ key data, delivers (mac key data) (λ m, m = hmac_sha256 key data)) →
  computes_aes 256 true enc → computes_aes 256 false dec → computes_aes 128 true enc128 → computes_aes 128 false dec128 →
  CryptoContract crypto.
Proof.
  intros E1 E2 E3 E4 E5 E6 E7 E8 Hmac H256 H256' H128 H128'.
  refine {| hmac := hmac_sha256; aes := λ n key iv, aes_cbc (ztake (n / 8) key) (ztake 16 iv);
            aes_inv := λ n key iv, aes_cbc_inv (ztake (n / 8) key) (ztake 16 iv); cipher_for := λ _ _, True |}; try congruence.
  - intros; apply hmac_sha256_octets.
  - intros; by apply aes_cbc_octets.
  - intros; by apply aes_cbc_inv_octets.
  - intros; by apply aes_cbc_inverse.
  - by exists mac.
  - by exists enc.
  - by exists dec.
  - intros f key iv x E Hx; rewrite E4 in E; injection E as <-; by apply H128.
  - intros f key iv x E Hx; rewrite E5 in E; injection E as <-; by apply H128'.
Defined.

(** Trivial arithmetic that satisfies the laws. *)
Definition model_primitives : CryptoPrimitives.
Proof.
  refine {| sha256 x := repeat (checksum x) 32; sha1 x := repeat (checksum x) 20; hmac_sha256 := model_hmac;
            aes_cbc _ _ := model_shift 5; aes_cbc_inv _ _ := model_shift (-5) |}.
  1-3: intros; split; [done|apply repeat_bytes, checksum_range].
  1-2: intros; apply shift_octets.
  intros; by apply (shift_inverse 5).
Defined.
