(* ===== verification/WolfsslCrypto.v ===== *)
(** * The wolfSSL crypto adapter

    [src/platform/wolfssl_crypto_adapter.c] over an abstract wolfCrypt, and
    the proof that it keeps the contracts the chunk layer and the services
    rely on. [size_t] and [word32] have the same 32 bits here, so the casts
    between them are the identity. *)

From S2P Require Export LibraryCalls AsymChunkSpec.

Inductive wc_hash_type := WC_HASH_TYPE_SHA | WC_HASH_TYPE_SHA256.
Inductive wc_mgf := WC_MGF1SHA1 | WC_MGF1SHA256.

(** The calls of wolfCrypt the adapter makes. A call fails with its (non-zero)
    return code; one that returns a length delivers that many octets. Objects
    on the stack are values. [ParseCert] delivers [decoded.publicKey]. The two
    date errors are [Some] code when they are preprocessor macros. *)
Class WolfSSL (Lib : Type) := {
  wc_Sha256 : Type;
  wc_Sha : Type;
  Hmac : Type;
  Aes : Type;
  DecodedCert : Type;
  RsaKey : Type;
  WC_RNG : Type;
  wc_InitSha256 : M Lib wc_Sha256;
  wc_Sha256Update : wc_Sha256 → list Z → M Lib wc_Sha256;
  wc_Sha256Final : wc_Sha256 → M Lib (list Z);
  wc_InitSha : M Lib wc_Sha;
  wc_ShaUpdate : wc_Sha → list Z → M Lib wc_Sha;
  wc_ShaFinal : wc_Sha → M Lib (list Z);
  wc_HmacSetKey : list Z → M Lib Hmac;
  wc_HmacUpdate : Hmac → list Z → M Lib Hmac;
  wc_HmacFinal : Hmac → M Lib (list Z);
  wc_AesSetKey : list Z → list Z → bool → M Lib Aes;
  wc_AesCbcEncrypt : Aes → list Z → M Lib (list Z);
  wc_AesCbcDecrypt : Aes → list Z → M Lib (list Z);
  InitDecodedCert : list Z → Lib → DecodedCert * Lib;
  ParseCert : DecodedCert → bool → M Lib (list Z);
  FreeDecodedCert : DecodedCert → Lib → Lib;
  wc_InitRsaKey : M Lib RsaKey;
  wc_FreeRsaKey : RsaKey → Lib → Lib;
  wc_RsaPublicKeyDecode : list Z → RsaKey → M Lib RsaKey;
  wc_RsaPrivateKeyDecode : option (list Z) → RsaKey → M Lib RsaKey;
  wc_RsaEncryptSize : RsaKey → Z;
  wc_InitRng : M Lib WC_RNG;
  wc_FreeRng : WC_RNG → Lib → Lib;
  wc_RsaSetRNG : RsaKey → WC_RNG → M Lib RsaKey;
  wc_RsaSSL_Sign : list Z → Z → RsaKey → WC_RNG → M Lib (list Z);
  wc_RsaSSL_Verify : list Z → Z → RsaKey → M Lib (list Z);
  wc_RsaPSS_Sign : list Z → Z → wc_hash_type → wc_mgf → RsaKey → WC_RNG → M Lib (list Z);
  wc_RsaPSS_Verify : list Z → Z → wc_hash_type → wc_mgf → RsaKey → M Lib (list Z);
  wc_RsaPrivateDecrypt_ex : list Z → Z → RsaKey → wc_hash_type → wc_mgf → M Lib (list Z);
  wc_RsaPublicEncrypt_ex : list Z → Z → RsaKey → WC_RNG → wc_hash_type → wc_mgf → M Lib (list Z);
  WC_RSA_BLINDING : bool;
  ASN_BEFORE_DATE_E : option Z;
  ASN_AFTER_DATE_E : option Z
}.

Section adapter.
  Context {Lib : Type} {wolf : WolfSSL Lib} {heap : CHeap Lib}.

Record wolfssl_crypto_context := mk_wolfssl_context {
  wx_cert_der : option (list Z);
  wx_key_der : option (list Z);
  wx_key : RsaKey;
  wx_rng : WC_RNG
}.

Definition sha256_digest_info : list Z := [48; 49; 48; 13; 6; 9; 96; 134; 72; 1; 101; 3; 4; 2; 1; 5; 0; 4; 32].

(** ** Digests, HMAC and AES *)

Definition hash_sha256 (data : list Z) : M Lib (list Z) :=
  sha ← wc_InitSha256;
  sha ← wc_Sha256Update sha data;
  wc_Sha256Final sha.

Definition w_sha256 (data : list Z) : M Lib (list Z) := or_status MU_STATUS_BAD_INTERNALERROR (hash_sha256 data).

Definition w_hmac_sha256 (key data : list Z) : M Lib (list Z) :=
  or_status MU_STATUS_BAD_INTERNALERROR
    (hmac ← wc_HmacSetKey key;
     hmac ← wc_HmacUpdate hmac data;
     wc_HmacFinal hmac).

(** [wc_AesSetKey] reads [key_length] octets of the key and a block of the
    initialisation vector. *)
Definition w_aes_cbc (key_length : Z) (encryption : bool) (key iv input : list Z) : M Lib (list Z) :=
  key ← lift_option (mem_load key 0 key_length);
  iv ← lift_option (mem_load iv 0 16);
  or_status MU_STATUS_BAD_INTERNALERROR
    (aes ← wc_AesSetKey key iv encryption;
     if encryption then wc_AesCbcEncrypt aes input else wc_AesCbcDecrypt aes input).

Definition w_aes256_cbc_encrypt := w_aes_cbc 32 true.
Definition w_aes256_cbc_decrypt := w_aes_cbc 32 false.
Definition w_aes128_cbc_encrypt := w_aes_cbc 16 true.
Definition w_aes128_cbc_decrypt := w_aes_cbc 16 false.

(** ** RSA *)

(** The public key of a certificate; the caller frees it. *)
Definition peer_key (certificate : list Z) : M Lib RsaKey :=
  decoded ← make (InitDecodedCert certificate);
  ret ← attempt (ParseCert decoded false);
  match ret with
  | Ok publicKey =>
      ret ← attempt wc_InitRsaKey;
      match ret with
      | Ok peer_key =>
          ret ← attempt (wc_RsaPublicKeyDecode publicKey peer_key);
          void (FreeDecodedCert decoded);;
          match ret with
          | Ok peer_key => mret peer_key
          | _ => void (wc_FreeRsaKey peer_key);; fail MU_STATUS_BAD_SECURITYCHECKSFAILED
          end
      | _ => void (FreeDecodedCert decoded);; fail MU_STATUS_BAD_INTERNALERROR
      end
  | _ => void (FreeDecodedCert decoded);; fail MU_STATUS_BAD_SECURITYCHECKSFAILED
  end.

Definition w_rsa_sha256_sign (ctx : wolfssl_crypto_context) (data : list Z) (signature_length : Z) : M Lib (list Z) :=
  or_status MU_STATUS_BAD_INTERNALERROR
    (hash ← hash_sha256 data;
     wc_RsaSSL_Sign (sha256_digest_info ++ hash) signature_length (wx_key ctx) (wx_rng ctx)).

(** [verify_buf] has 512 octets. *)
Definition w_rsa_sha256_verify (certificate data signature : list Z) : M Lib unit :=
  peer_key ← peer_key certificate;
  ret ← attempt (hash_sha256 data);
  match ret with
  | Ok hash =>
      ret ← attempt (wc_RsaSSL_Verify signature 512 peer_key);
      void (wc_FreeRsaKey peer_key);;
      match ret with
      | Ok verify_buf =>
          if negb (zlen verify_buf =? 51) || negb (bool_decide (ztake 19 verify_buf = sha256_digest_info))
             || negb (bool_decide (ztake 32 (zdrop 19 verify_buf) = hash))
          then fail MU_STATUS_BAD_SECURITYCHECKSFAILED else mret tt
      | _ => fail MU_STATUS_BAD_SECURITYCHECKSFAILED
      end
  | _ => void (wc_FreeRsaKey peer_key);; fail MU_STATUS_BAD_INTERNALERROR
  end.

Definition w_oaep_decrypt (hash : wc_hash_type) (mgf : wc_mgf) (ctx : wolfssl_crypto_context) (input : list Z) (output_length : Z)
    : M Lib (list Z) :=
  or_status MU_STATUS_BAD_SECURITYCHECKSFAILED (wc_RsaPrivateDecrypt_ex input output_length (wx_key ctx) hash mgf).

Definition w_oaep_encrypt (hash : wc_hash_type) (mgf : wc_mgf) (ctx : wolfssl_crypto_context) (certificate input : list Z)
    (output_length : Z) : M Lib (list Z) :=
  peer_key ← peer_key certificate;
  ret ← attempt (wc_RsaPublicEncrypt_ex input output_length peer_key (wx_rng ctx) hash mgf);
  void (wc_FreeRsaKey peer_key);;
  status_of MU_STATUS_BAD_INTERNALERROR ret.

Definition w_rsa_oaep_decrypt := w_oaep_decrypt WC_HASH_TYPE_SHA WC_MGF1SHA1.
Definition w_rsa_oaep_encrypt := w_oaep_encrypt WC_HASH_TYPE_SHA WC_MGF1SHA1.
Definition w_rsa_oaep_sha256_decrypt := w_oaep_decrypt WC_HASH_TYPE_SHA256 WC_MGF1SHA256.
Definition w_rsa_oaep_sha256_encrypt := w_oaep_encrypt WC_HASH_TYPE_SHA256 WC_MGF1SHA256.

Definition w_rsa_pss_sha256_sign (ctx : wolfssl_crypto_context) (data : list Z) (signature_length : Z) : M Lib (list Z) :=
  or_status MU_STATUS_BAD_INTERNALERROR
    (hash ← hash_sha256 data;
     wc_RsaPSS_Sign hash signature_length WC_HASH_TYPE_SHA256 WC_MGF1SHA256 (wx_key ctx) (wx_rng ctx)).

(** [verify_buf] has 32 octets. *)
Definition w_rsa_pss_sha256_verify (certificate data signature : list Z) : M Lib unit :=
  peer_key ← peer_key certificate;
  ret ← attempt (hash_sha256 data);
  match ret with
  | Ok hash =>
      ret ← attempt (wc_RsaPSS_Verify signature 32 WC_HASH_TYPE_SHA256 WC_MGF1SHA256 peer_key);
      void (wc_FreeRsaKey peer_key);;
      match ret with
      | Ok verify_buf =>
          if negb (zlen verify_buf =? 32) || negb (bool_decide (verify_buf = hash))
          then fail MU_STATUS_BAD_SECURITYCHECKSFAILED else mret tt
      | _ => fail MU_STATUS_BAD_SECURITYCHECKSFAILED
      end
  | _ => void (wc_FreeRsaKey peer_key);; fail MU_STATUS_BAD_INTERNALERROR
  end.

(** ** Certificates *)

Definition w_get_own_certificate (ctx : wolfssl_crypto_context) : M Lib (list Z) :=
  match wx_cert_der ctx with
  | None => fail MU_STATUS_BAD_INTERNALERROR
  | Some cert => mret cert
  end.

Definition w_get_certificate_key_bits (certificate : list Z) : M Lib Z :=
  peer_key ← peer_key certificate;
  let bits := to_size (wc_RsaEncryptSize peer_key * 8) in
  void (wc_FreeRsaKey peer_key);;
  mret bits.

Definition w_verify_certificate_validity (certificate : list Z) : M Lib unit :=
  decoded ← make (InitDecodedCert certificate);
  ret ← attempt (ParseCert decoded true);
  void (FreeDecodedCert decoded);;
  match ret with
  | Ok _ => mret tt
  | Err code =>
      if bool_decide (ASN_BEFORE_DATE_E = Some code) || bool_decide (ASN_AFTER_DATE_E = Some code)
      then fail MU_STATUS_BAD_CERTIFICATETIMEINVALID else fail MU_STATUS_BAD_CERTIFICATEINVALID
  | Fault => fault
  end.

Definition w_get_certificate_thumbprint (certificate : list Z) : M Lib (list Z) :=
  or_status MU_STATUS_BAD_INTERNALERROR
    (sha ← wc_InitSha;
     sha ← wc_ShaUpdate sha certificate;
     wc_ShaFinal sha).

(** ** Construction *)

Definition wolfssl_functions (ctx : wolfssl_crypto_context) : crypto_functions Lib :=
  mk_crypto_functions Lib (Some w_sha256) (Some w_hmac_sha256) (Some w_aes256_cbc_encrypt) (Some w_aes256_cbc_decrypt)
    (Some w_aes128_cbc_encrypt) (Some w_aes128_cbc_decrypt) None None None None
    (Some (w_rsa_sha256_sign ctx)) (Some w_rsa_sha256_verify) (Some (w_rsa_oaep_decrypt ctx)) (Some (w_rsa_oaep_encrypt ctx))
    (Some (w_rsa_pss_sha256_sign ctx)) (Some w_rsa_pss_sha256_verify)
    (Some (w_rsa_oaep_sha256_decrypt ctx)) (Some (w_rsa_oaep_sha256_encrypt ctx))
    (Some (w_get_own_certificate ctx)) (Some w_get_certificate_key_bits) (Some w_get_certificate_thumbprint)
    (Some w_verify_certificate_validity).

(** The key with the generator for blinding, where the library wants one. *)
Definition set_rng (key : RsaKey) (rng : WC_RNG) : M Lib RsaKey :=
  if WC_RSA_BLINDING then wc_RsaSetRNG key rng else mret key.

(** [adapter] says whether there is a place for the result. *)
Definition mu_wolfssl_crypto_adapter_init (adapter : bool) (cert_der key_der : option (list Z))
    : M Lib (wolfssl_crypto_context * crypto_functions Lib) :=
  if negb adapter then fail MU_STATUS_BAD_INTERNALERROR
  else
    or_status MU_STATUS_BAD_OUTOFMEMORY calloc;;
    ret ← attempt wc_InitRsaKey;
    match ret with
    | Ok key =>
        ret ← attempt wc_InitRng;
        match ret with
        | Ok rng =>
            ret ← attempt (key ← set_rng key rng; wc_RsaPrivateKeyDecode key_der key);
            match ret with
            | Ok key =>
                let ctx := mk_wolfssl_context cert_der key_der key rng in
                mret (ctx, wolfssl_functions ctx)
            | _ => void (wc_FreeRng rng);; void (wc_FreeRsaKey key);; void c_free;; fail MU_STATUS_BAD_INTERNALERROR
            end
        | _ => void (wc_FreeRsaKey key);; void c_free;; fail MU_STATUS_BAD_INTERNALERROR
        end
    | _ => void c_free;; fail MU_STATUS_BAD_INTERNALERROR
    end.

(** The context of the adapter is NULL afterwards. *)
Definition mu_wolfssl_crypto_adapter_cleanup (context : option wolfssl_crypto_context) : M Lib unit :=
  match context with
  | None => mret tt
  | Some ctx => void (wc_FreeRng (wx_rng ctx));; void (wc_FreeRsaKey (wx_key ctx));; void c_free
  end.
End adapter.

(** ** What the library documents *)

(** The primitives; public keys; the public key octets
    of a certificate and whether it is in its validity period; which octets a
    PKCS#1 v1.5 signature recovers, which digests a PSS signature was made of,
    and which ciphertexts open to which plaintexts. *)
Class WolfModel := {
  wolf_primitives :: CryptoPrimitives;
  Pub : Type;
  key_size : Pub → Z;
  certificate_key : list Z → option (list Z);
  decode_key : list Z → Pub;
  certificate_current : list Z → Prop;
  recovers : Pub → list Z → list Z → Prop;
  pss_signed : Pub → list Z → list Z → Prop;
  oaep_opens : wc_hash_type → wc_mgf → Pub → list Z → list Z → Prop
}.

(** The behaviour of the calls: [absorbed] relates a digest object to the
    octets it was given, [keyed] an HMAC object to its key too, [scheduled] an
    AES object to key, vector and direction, [decodes] a certificate object to
    its octets, and [public] is the public part of a key. A certificate object,
    a key and a generator are alive until they are freed. Any call may fail.
    [wc_RsaPSS_Verify] delivers the PSS data of the signature, salt and hash,
    for [wc_RsaPSS_CheckPadding]: 64 octets with SHA-256 and the default salt. *)
Class WolfSSLLaws {Lib} (wolf : WolfSSL Lib) (model : WolfModel) (live : Lib → Z) := {
  absorbed256 : wc_Sha256 → list Z → Prop;
  absorbed1 : wc_Sha → list Z → Prop;
  keyed : Hmac → list Z → list Z → Prop;
  scheduled : Aes → list Z → list Z → bool → Prop;
  decodes : DecodedCert → list Z → Prop;
  public : RsaKey → Pub;
  law_init256 : uses live 0 wc_InitSha256 (λ o, absorbed256 o []);
  law_update256 o x y : absorbed256 o x → uses live 0 (wc_Sha256Update o y) (λ o', absorbed256 o' (x ++ y));
  law_final256 o x : absorbed256 o x → uses live 0 (wc_Sha256Final o) (λ h, h = sha256 x);
  law_init1 : uses live 0 wc_InitSha (λ o, absorbed1 o []);
  law_update1 o x y : absorbed1 o x → uses live 0 (wc_ShaUpdate o y) (λ o', absorbed1 o' (x ++ y));
  law_final1 o x : absorbed1 o x → uses live 0 (wc_ShaFinal o) (λ h, h = sha1 x);
  law_hmac_key key : uses live 0 (wc_HmacSetKey key) (λ o, keyed o key []);
  law_hmac_update o key x y : keyed o key x → uses live 0 (wc_HmacUpdate o y) (λ o', keyed o' key (x ++ y));
  law_hmac_final o key x : keyed o key x → uses live 0 (wc_HmacFinal o) (λ h, h = hmac_sha256 key x);
  law_aes_key key iv dir : uses live 0 (wc_AesSetKey key iv dir) (λ o, scheduled o key iv dir);
  law_encrypt o key iv x : scheduled o key iv true → zlen x mod 16 = 0 → uses live 0 (wc_AesCbcEncrypt o x) (λ y, y = aes_cbc key iv x);
  law_decrypt o key iv x : scheduled o key iv false → zlen x mod 16 = 0 → uses live 0 (wc_AesCbcDecrypt o x) (λ y, y = aes_cbc_inv key iv x);
  law_init_cert c : makes live 1 (InitDecodedCert c) (λ o, decodes o c);
  law_parse o c (verify : bool) : decodes o c →
    uses live 0 (ParseCert o verify) (λ k, certificate_key c = Some k ∧ (verify = true → certificate_current c));
  law_free_cert o s : live (FreeDecodedCert o s) = live s - 1;
  law_init_key : uses live 1 wc_InitRsaKey (λ _, True);
  law_free_key k s : live (wc_FreeRsaKey k s) = live s - 1;
  law_public octets k : uses live 0 (wc_RsaPublicKeyDecode octets k) (λ k', public k' = decode_key octets);
  law_private octets k : uses live 0 (wc_RsaPrivateKeyDecode octets k) (λ _, True);
  law_init_rng : uses live 1 wc_InitRng (λ _, True);
  law_free_rng r s : live (wc_FreeRng r s) = live s - 1;
  law_set_rng k r : uses live 0 (wc_RsaSetRNG k r) (λ _, True);
  law_size k : wc_RsaEncryptSize k = key_size (public k);
  law_sign x cap k r : uses live 0 (wc_RsaSSL_Sign x cap k r) (λ sig, bytes_ok sig ∧ zlen sig ≤ cap ∧ recovers (public k) sig x);
  law_verify sig cap k : uses live 0 (wc_RsaSSL_Verify sig cap k) (λ x, recovers (public k) sig x ∧ zlen x ≤ cap);
  law_pss_sign x cap k r : uses live 0 (wc_RsaPSS_Sign x cap WC_HASH_TYPE_SHA256 WC_MGF1SHA256 k r)
    (λ sig, bytes_ok sig ∧ zlen sig ≤ cap ∧ pss_signed (public k) sig x);
  law_pss_verify sig cap k : uses live 0 (wc_RsaPSS_Verify sig cap WC_HASH_TYPE_SHA256 WC_MGF1SHA256 k)
    (λ data, zlen data = 64 ∧ zlen data ≤ cap);
  law_oaep_decrypt y cap k h g : bytes_ok y → uses live 0 (wc_RsaPrivateDecrypt_ex y cap k h g)
    (λ x, bytes_ok x ∧ zlen x ≤ cap ∧ oaep_opens h g (public k) y x);
  law_oaep_encrypt x cap k r h g : bytes_ok x → uses live 0 (wc_RsaPublicEncrypt_ex x cap k r h g)
    (λ y, bytes_ok y ∧ zlen y ≤ cap ∧ oaep_opens h g (public k) y x)
}.

#[export] Hint Resolve law_init256 law_update256 law_final256 law_init1 law_update1 law_final1 law_hmac_key law_hmac_update
  law_hmac_final law_aes_key law_encrypt law_decrypt law_init_cert law_parse law_init_key law_public law_private law_init_rng
  law_set_rng law_sign law_verify law_pss_sign law_pss_verify law_oaep_decrypt law_oaep_encrypt : lib.

Section contract.
  Context {Lib : Type} {wolf : WolfSSL Lib} {heap : CHeap Lib} {model : WolfModel} {live : Lib → Z}.
  Context {laws : WolfSSLLaws wolf model live} {heap_laws : CHeapLaws heap live}.

(** Closes the counting goals. *)
Ltac count := repeat first [rewrite law_free_cert | rewrite law_free_key | rewrite law_free_rng | rewrite heap_free]; lia.
Ltac lib_run := apply lwp_uses; intros s; repeat lib_step; try count.

Lemma hash_sha256_ok data : uses live 0 (hash_sha256 data) (λ h, h = sha256 data).
Proof. unfold hash_sha256; lib_run; subst; split; [done|count]. Qed.
#[local] Hint Resolve hash_sha256_ok : lib.

Lemma wolf_hmac_ok key data : uses live 0 (w_hmac_sha256 key data) (λ m, m = hmac_sha256 key data).
Proof. unfold w_hmac_sha256; lib_run; subst; split; [done|count]. Qed.

Lemma wolf_thumbprint_ok c : uses live 0 (w_get_certificate_thumbprint c) (λ h, h = sha1 c).
Proof. unfold w_get_certificate_thumbprint; lib_run; subst; split; [done|count]. Qed.

(** The public key of a certificate. *)
Definition peer (c : list Z) (P : Pub → Prop) : Prop := ∃ octets, certificate_key c = Some octets ∧ P (decode_key octets).

Lemma peer_key_ok c : uses live 1 (peer_key c) (λ k, peer c (eq (public k))).
Proof. unfold peer_key; lib_run; destruct_and?; split; [by eexists|count]. Qed.
#[local] Hint Resolve peer_key_ok : lib.

Lemma sign_ok ctx data cap : uses live 0 (w_rsa_sha256_sign ctx data cap)
  (λ sig, bytes_ok sig ∧ zlen sig ≤ cap ∧ recovers (public (wx_key ctx)) sig (sha256_digest_info ++ sha256 data)).
Proof. unfold w_rsa_sha256_sign; lib_run; subst; split; [done|count]. Qed.

(** The comparison of [verify_buf] with the expected octets. *)
Lemma verify_compare buf data :
  negb (zlen buf =? 51) || negb (bool_decide (ztake 19 buf = sha256_digest_info))
    || negb (bool_decide (ztake 32 (zdrop 19 buf) = sha256 data)) = false ↔ buf = sha256_digest_info ++ sha256 data.
Proof.
  pose proof (proj1 (sha256_octets data)) as Hs; rewrite !orb_false_iff, !negb_false_iff, !bool_decide_eq_true, Z.eqb_eq; split.
  - intros [[Hl <-] <-]; rewrite <- (ztake_zdrop 19 buf) at 1; f_equal; symmetry; apply take_ge.
    assert (zlen (zdrop 19 buf) = 32) by (rewrite zlen_zdrop by lia; lia); unfold zlen in *; lia.
  - intros ->; rewrite zlen_app, Hs; split_and!; [done|done|].
    change (zdrop 19 (sha256_digest_info ++ sha256 data)) with (sha256 data); apply take_ge; unfold zlen in Hs; lia.
Qed.

Lemma wolf_verify_ok c data sig : uses live 0 (w_rsa_sha256_verify c data sig)
  (λ _, peer c (λ p, recovers p sig (sha256_digest_info ++ sha256 data))).
Proof.
  unfold w_rsa_sha256_verify; lib_run; destruct_and?; subst; split; [|count].
  destruct H as (octets & ? & E); exists octets; split; [done|]; rewrite <- E.
  lazymatch goal with Hc : _ || _ = false |- _ => apply verify_compare in Hc; by rewrite <- Hc end.
Qed.

Lemma wolf_oaep_decrypt_ok h g ctx y cap : bytes_ok y → uses live 0 (w_oaep_decrypt h g ctx y cap)
  (λ x, bytes_ok x ∧ zlen x ≤ cap ∧ oaep_opens h g (public (wx_key ctx)) y x).
Proof. intros Hy; unfold w_oaep_decrypt; lib_run; subst; split; [done|count]. Qed.

Lemma wolf_oaep_encrypt_ok h g ctx c x cap : bytes_ok x → uses live 0 (w_oaep_encrypt h g ctx c x cap)
  (λ y, bytes_ok y ∧ zlen y ≤ cap ∧ peer c (λ p, oaep_opens h g p y x)).
Proof.
  intros Hx; unfold w_oaep_encrypt; lib_run; destruct_and?; subst; split; [|count]; split_and!; [done..|].
  destruct H as (octets & ? & E); exists octets; split; [done|]; by rewrite <- E.
Qed.

Lemma pss_sign_ok ctx data cap : uses live 0 (w_rsa_pss_sha256_sign ctx data cap)
  (λ sig, bytes_ok sig ∧ zlen sig ≤ cap ∧ pss_signed (public (wx_key ctx)) sig (sha256 data)).
Proof. unfold w_rsa_pss_sha256_sign; lib_run; subst; split; [done|count]. Qed.

(** The PSS data does not fit [verify_buf]: no signature is accepted. *)
Lemma pss_verify_ok c data sig : uses live 0 (w_rsa_pss_sha256_verify c data sig) (λ _, False).
Proof. unfold w_rsa_pss_sha256_verify; lib_run; destruct_and?; subst; lia. Qed.

Lemma wolf_key_bits_ok c : uses live 0 (w_get_certificate_key_bits c) (λ n, peer c (λ p, n = to_size (key_size p * 8))).
Proof.
  unfold w_get_certificate_key_bits; lib_run; split; [|count]; destruct H as (octets & ? & E); exists octets; split; [done|].
  by rewrite law_size, E.
Qed.

Lemma wolf_validity_ok c : uses live 0 (w_verify_certificate_validity c) (λ _, certificate_current c).
Proof. unfold w_verify_certificate_validity; lib_run; destruct_and?; split; [auto|count]. Qed.

Lemma wolf_aes_ok n (dir : bool) key iv x : 0 ≤ n ≤ zlen key → 16 ≤ zlen iv → zlen x mod 16 = 0 → uses live 0 (w_aes_cbc n dir key iv x)
  (λ y, y = (if dir then aes_cbc else aes_cbc_inv) (ztake n key) (ztake 16 iv) x).
Proof.
  intros Hk Hi Hx; unfold w_aes_cbc; apply lwp_uses; intros s; apply lwp_bind; eapply lwp_lift; [apply mem_load_Some; lia|].
  apply lwp_bind; eapply lwp_lift; [apply mem_load_Some; lia|].
  change (zdrop 0 key) with key; change (zdrop 0 iv) with iv; destruct dir; repeat lib_step; try count; subst; (split; [done|count]).
Qed.

(** ** The contracts *)

(** The RSA system of the library. *)
#[local] Instance wolfssl_system : RsaSystem.
Proof.
  refine {| sys_bits := λ c, match certificate_key c with Some k => to_size (key_size (decode_key k) * 8) | None => 0 end;
            sys_thumb := sha1;
            sys_valid := λ pss c data sig,
              peer c (λ p, if pss : bool then pss_signed p sig (sha256 data) else recovers p sig (sha256_digest_info ++ sha256 data));
            sys_opens := λ pss c y x,
              peer c (λ p, oaep_opens (if pss : bool then WC_HASH_TYPE_SHA256 else WC_HASH_TYPE_SHA)
                             (if pss then WC_MGF1SHA256 else WC_MGF1SHA1) p y x);
            sys_current := certificate_current |}.
  - intros c; destruct (certificate_key c) as [k|]; [apply (to_unsigned_range 32); lia|by ranges].
  - apply sha1_octets.
Defined.

Definition wolfssl_symmetric ctx : CryptoContract (wolfssl_functions ctx).
Proof.
  refine (plain_contract (prim := wolf_primitives) (wolfssl_functions ctx) _ _ _ _ _ eq_refl eq_refl eq_refl eq_refl eq_refl eq_refl eq_refl eq_refl _ _ _ _ _).
  - intros; eapply uses_delivers, wolf_hmac_ok.
  - intros key iv x (Hk & Hi & Hx); apply (uses_delivers live 0), (wolf_aes_ok 32 true); lia.
  - intros key iv x (Hk & Hi & Hx); apply (uses_delivers live 0), (wolf_aes_ok 32 false); lia.
  - intros key iv x (Hk & Hi & Hx); apply (uses_delivers live 0), (wolf_aes_ok 16 true); lia.
  - intros key iv x (Hk & Hi & Hx); apply (uses_delivers live 0), (wolf_aes_ok 16 false); lia.
Defined.

(** The own key is the key of the own certificate. *)
Definition own_pair (ctx : wolfssl_crypto_context) (own : list Z) : Prop :=
  wx_cert_der ctx = Some own ∧ 0 < zlen own ∧ bytes_ok own ∧ peer own (eq (public (wx_key ctx))).

Lemma peer_mono c (P Q : Pub → Prop) : peer c P → (∀ p, P p → Q p) → peer c Q.
Proof. intros (o & E & HP) HPQ; exists o; auto. Qed.

Lemma wolfssl_asymmetric ctx own : own_pair ctx own → RsaContract wolfssl_system (wolfssl_functions ctx) own.
Proof.
  intros (Ec & Hl & Hb & Hp); split.
  - done.
  - eexists; split; [reflexivity|]; intros s; unfold w_get_own_certificate; by rewrite Ec.
  - eexists; split; [reflexivity|]; intros c; eapply (uses_delivers live 0), uses_mono; [apply wolf_key_bits_ok|].
    intros n (o & E & ->); cbn; by rewrite E.
  - eexists; split; [reflexivity|]; intros c; eapply (uses_delivers live 0), wolf_thumbprint_ok.
  - intros f c [= <-]; eapply (uses_delivers live 0), wolf_validity_ok.
  - intros [|]; eexists; (split; [reflexivity|]); intros data cap; eapply (uses_delivers live 0), uses_mono;
      [apply pss_sign_ok| |apply sign_ok|]; intros sig (H1 & H2 & H3); cbn; split_and!; try done;
      (eapply peer_mono; [exact Hp|]); by intros p <-.
  - intros [|]; eexists; (split; [reflexivity|]); intros c data sig; eapply (uses_delivers live 0), uses_mono;
      [apply pss_verify_ok|by intros []|apply wolf_verify_ok|by intros].
  - intros [|]; eexists; (split; [reflexivity|]); intros c x cap Hx; eapply (uses_delivers live 0), uses_mono;
      [by apply wolf_oaep_encrypt_ok|by intros|by apply wolf_oaep_encrypt_ok|by intros].
  - intros [|]; eexists; (split; [reflexivity|]); intros y cap Hy; eapply (uses_delivers live 0), uses_mono;
      [by apply wolf_oaep_decrypt_ok| |by apply wolf_oaep_decrypt_ok|]; intros x (H1 & H2 & H3); cbn; split_and!; try done;
      (eapply peer_mono; [exact Hp|]); by intros p <-.
Qed.

(** C29: the wolfSSL adapter keeps the contracts of the adapter interface. When
    wolfCrypt does what it documents (any call may fail) and the configured key
    belongs to the configured certificate, every function of the adapter
    satisfies [RsaContract], and [CryptoContract] holds with HMAC-SHA-256 and
    AES-CBC under the first 32 or 16 octets of the key field: the theorems on
    chunks and on the channel and session services hold of a server that runs
    on this adapter. *)
Theorem wolfssl_keeps_contract ctx own : own_pair ctx own →
  RsaContract wolfssl_system (wolfssl_functions ctx) own ∧
  ∃ contract : CryptoContract (wolfssl_functions ctx),
    (∀ key data, hmac key data = hmac_sha256 key data) ∧
    (∀ key iv x, aes 256 key iv x = aes_cbc (ztake 32 key) (ztake 16 iv) x ∧ aes 128 key iv x = aes_cbc (ztake 16 key) (ztake 16 iv) x).
Proof. intros Hp; split; [by apply wolfssl_asymmetric|]; by exists (wolfssl_symmetric ctx). Qed.

(** ** The life of the objects *)

Definition leaves_none {A} (m : M Lib A) : Prop := ∀ s, (m s).1 ≠ Fault ∧ live (m s).2 = live s.

Lemma uses_leaves_none {A} (m : M Lib A) Q : uses live 0 m Q → leaves_none m.
Proof. intros Hm s; specialize (Hm s); destruct (m s) as [[a|e|] s']; [|..|done]; destruct Hm; split; (done || cbn; lia). Qed.

Lemma set_rng_ok key rng : uses live 0 (set_rng key rng) (λ _, True).
Proof. unfold set_rng; lib_run; split; (done || count). Qed.
#[local] Hint Resolve set_rng_ok : lib.

Lemma init_ok adapter cert_der key_der : uses live 3 (mu_wolfssl_crypto_adapter_init adapter cert_der key_der)
  (λ x, adapter = true ∧ wx_cert_der x.1 = cert_der ∧ x.2 = wolfssl_functions x.1).
Proof. unfold mu_wolfssl_crypto_adapter_init; lib_run; split; [|count]; by destruct adapter. Qed.

Lemma cleanup_ok ctx : uses live (-3) (mu_wolfssl_crypto_adapter_cleanup (Some ctx)) (λ _, True).
Proof. unfold mu_wolfssl_crypto_adapter_cleanup; lib_run; split; (done || count). Qed.

(** No path of the wolfSSL adapter leaks. Construction leaves exactly the
    context, the key and the generator alive when it succeeds and nothing when
    any of its steps fails; the clean-up frees exactly those; and every
    function that handles a certificate or a key frees, on success and on
    every error path, all that it initialised. *)
Theorem wolfssl_balanced adapter cert_der key_der ctx :
  uses live 3 (mu_wolfssl_crypto_adapter_init adapter cert_der key_der)
    (λ x, adapter = true ∧ wx_cert_der x.1 = cert_der ∧ x.2 = wolfssl_functions x.1) ∧
  uses live (-3) (mu_wolfssl_crypto_adapter_cleanup (Some ctx)) (λ _, True) ∧
  (∀ c data sig, leaves_none (w_rsa_sha256_verify c data sig) ∧ leaves_none (w_rsa_pss_sha256_verify c data sig)) ∧
  (∀ c x cap, bytes_ok x → leaves_none (w_rsa_oaep_encrypt ctx c x cap) ∧ leaves_none (w_rsa_oaep_sha256_encrypt ctx c x cap)) ∧
  (∀ c, leaves_none (w_get_certificate_key_bits c) ∧ leaves_none (w_verify_certificate_validity c)).
Proof.
  split_and!; [apply init_ok|apply cleanup_ok|..]; intros; split; eapply uses_leaves_none;
    eauto using wolf_verify_ok, pss_verify_ok, wolf_key_bits_ok, wolf_validity_ok; by apply wolf_oaep_encrypt_ok.
Qed.
End contract.

(** ** A library to run on *)

(** The state counts the objects that are alive; trivial arithmetic stands in
    for cryptography. A private decode fails without a key. *)
Module WolfSample.
Definition octet (b : Z) : Z := b mod 256.

Definition fits {A} (cap : Z) (x : list A) : M Z (list A) := if cap <? zlen x then fail 1 else mret x.

Definition wolf : WolfSSL Z := {|
  wc_Sha256 := list Z; wc_Sha := list Z; Hmac := list Z * list Z; Aes := bool; DecodedCert := list Z; RsaKey := unit; WC_RNG := unit;
  wc_InitSha256 := mret []; wc_Sha256Update o x := mret (o ++ x); wc_Sha256Final o := mret (repeat (checksum o) 32);
  wc_InitSha := mret []; wc_ShaUpdate o x := mret (o ++ x); wc_ShaFinal o := mret (repeat (checksum o) 20);
  wc_HmacSetKey key := mret (key, []); wc_HmacUpdate o x := mret (o.1, o.2 ++ x); wc_HmacFinal o := mret (model_hmac o.1 o.2);
  wc_AesSetKey key iv dir := mret dir; wc_AesCbcEncrypt o x := mret (model_shift 5 x); wc_AesCbcDecrypt o x := mret (model_shift (-5) x);
  InitDecodedCert c s := (c, s + 1); FreeDecodedCert _ s := s - 1;
  ParseCert c _ := match c with [] => fail (-140) | _ => mret c end;
  wc_InitRsaKey s := (Ok tt, s + 1); wc_FreeRsaKey _ s := s - 1;
  wc_RsaPublicKeyDecode _ k := mret k;
  wc_RsaPrivateKeyDecode der k := match der with Some _ => mret k | None => fail (-173) end;
  wc_RsaEncryptSize _ := 256;
  wc_InitRng s := (Ok tt, s + 1); wc_FreeRng _ s := s - 1; wc_RsaSetRNG k _ := mret k;
  wc_RsaSSL_Sign x cap _ _ := fits cap (map octet x);
  wc_RsaSSL_Verify sig cap _ := if bool_decide (sig = map octet sig) then fits cap sig else fail (-131);
  wc_RsaPSS_Sign x cap _ _ _ _ := fits cap (repeat (checksum x) 256);
  wc_RsaPSS_Verify sig cap _ _ _ := fits cap (repeat 0 64);
  wc_RsaPrivateDecrypt_ex y cap _ _ _ := fits cap y;
  wc_RsaPublicEncrypt_ex x cap _ _ _ _ := fits cap x;
  WC_RSA_BLINDING := true; ASN_BEFORE_DATE_E := None; ASN_AFTER_DATE_E := None
|}.

Definition heap : CHeap Z := {| calloc s := (Ok tt, s + 1); c_free s := s - 1 |}.

Definition model : WolfModel := {|
  wolf_primitives := model_primitives; Pub := unit; key_size _ := 256;
  certificate_key c := match c with [] => None | _ => Some c end; decode_key _ := tt; certificate_current _ := True;
  recovers _ sig x := sig = map octet x; pss_signed _ sig x := sig = repeat (checksum x) 256; oaep_opens _ _ _ y x := y = x
|}.

Lemma octets_ok x : bytes_ok (map octet x).
Proof. apply Forall_forall; intros y Hy%list_elem_of_In%in_map_iff; destruct Hy as (b & <- & _); ranges; apply Z.mod_pos_bound; lia. Qed.

Lemma wolf_uses_fits {A} cap (x : list A) (Q : list A → Prop) : Q x → uses (λ s, s) 0 (fits cap x) (λ y, Q y ∧ zlen y ≤ cap).
Proof. intros HQ s; unfold fits; destruct (Z.ltb_spec cap (zlen x)); cbn; split; (done || lia). Qed.

Lemma uses_count {A} d (a : A) (Q : A → Prop) : Q a → uses (λ s, s) d (λ s, (Ok a, s + d)) Q.
Proof. by intros HQ s. Qed.

Lemma uses_mret {A} (a : A) (Q : A → Prop) : Q a → uses (λ s : Z, s) 0 (mret a) Q.
Proof. intros HQ s; cbn; split; [done|lia]. Qed.

Definition laws : WolfSSLLaws wolf model (λ s, s).
Proof.
  refine {| absorbed256 := (λ o x, o = x) : wc_Sha256 (WolfSSL := wolf) → _; absorbed1 := (λ o x, o = x) : wc_Sha (WolfSSL := wolf) → _;
            keyed := (λ o key x, o = (key, x)) : Hmac (WolfSSL := wolf) → _; scheduled := λ _ _ _ _, True;
            decodes := (λ o c, o = c) : DecodedCert (WolfSSL := wolf) → _; public := λ _, (tt : @Pub model) |};
    cbn; intros; subst; try (by apply uses_mret); try (by apply uses_count); try done.
  - destruct c; [by intros s; cbn|by apply uses_mret].
  - destruct octets; [by apply uses_mret|by intros s; cbn].
  - eapply uses_mono; [by apply (wolf_uses_fits cap _ (λ y, y = map octet x))|]; intros y [-> Hl]; by split; [apply octets_ok|].
  - case_bool_decide as E; [|by intros s; cbn]; by apply (wolf_uses_fits cap sig (λ y, sig = map octet y)).
  - eapply uses_mono; [by apply (wolf_uses_fits cap _ (λ y, y = repeat (checksum x) 256))|]; intros y [-> Hl]; split; [|done].
    apply repeat_bytes, checksum_range.
  - by apply (wolf_uses_fits cap _ (λ y, zlen y = 64)).
  - eapply uses_mono; [by apply (wolf_uses_fits cap y (λ x, x = y))|]; intros x [-> Hl]; done.
  - eapply uses_mono; [by apply (wolf_uses_fits cap x (λ y, y = x))|]; intros y [-> Hl]; done.
Defined.

Lemma wolf_heap_ok : CHeapLaws heap (λ s, s).
Proof. split; [by apply uses_count|done]. Qed.

Definition context : @wolfssl_crypto_context Z wolf := mk_wolfssl_context (Lib := Z) (wolf := wolf) (Some [48; 130]) (Some [1]) tt tt.
End WolfSample.

Lemma wolfssl_keeps_contract_witness :
  own_pair (laws := WolfSample.laws) WolfSample.context [48; 130] ∧
  RsaContract (wolfssl_system (model := WolfSample.model)) (wolfssl_functions (wolf := WolfSample.wolf) WolfSample.context) [48; 130].
Proof.
  assert (Hp : own_pair (laws := WolfSample.laws) WolfSample.context [48; 130]).
  { split_and!; [reflexivity|by vm_compute|by apply bytes_okb|]; by eexists. }
  split; [exact Hp|]; exact (proj1 (wolfssl_keeps_contract (laws := WolfSample.laws) _ _ Hp)).
Defined.

(** An absent private key: construction fails and nothing stays alive. *)
Lemma wolfssl_balanced_witness :
  mu_wolfssl_crypto_adapter_init (wolf := WolfSample.wolf) (heap := WolfSample.heap) true (Some [48; 130]) None 7 = (Err MU_STATUS_BAD_INTERNALERROR, 7) ∧
  uses (λ s, s) 3 (mu_wolfssl_crypto_adapter_init (wolf := WolfSample.wolf) (heap := WolfSample.heap) true (Some [48; 130]) (Some [1]))
    (λ x, true = true ∧ wx_cert_der x.1 = Some [48; 130] ∧ x.2 = wolfssl_functions x.1).
Proof.
  split; [vm_compute; reflexivity|].
  exact (proj1 (wolfssl_balanced (laws := WolfSample.laws) (heap_laws := WolfSample.wolf_heap_ok) true (Some [48; 130]) (Some [1]) WolfSample.context)).
Defined.
