(* ===== verification/MbedtlsCrypto.v ===== *)
(** * The mbed TLS crypto adapter

    [src/platform/mbedtls_crypto_adapter.c] over an abstract mbed TLS 2. The
    RSA functions take neither the length of their input nor the size of their
    output, and the padding mode is a property of the key that stays set. *)

From S2P Require Export LibraryCalls AsymChunkSpec.

Inductive md_type := MBEDTLS_MD_SHA1 | MBEDTLS_MD_SHA256.

(** The padding of an RSA key: PKCS#1 v1.5, or v2.1 with a digest. *)
Inductive rsa_padding := MBEDTLS_RSA_PKCS_V15 | MBEDTLS_RSA_PKCS_V21 (hash : md_type).

(** The calls the adapter makes. A call fails with its (non-zero) return code;
    the state of keys is in the state of the library. *)
Class MbedTLS (Lib : Type) := {
  mbedtls_aes_context : Type;
  mbedtls_x509_crt : Type;
  mbedtls_pk_context : Type;
  mbedtls_entropy_context : Type;
  mbedtls_ctr_drbg_context : Type;
  mbedtls_sha256_ret : list Z → M Lib (list Z);
  mbedtls_sha1_ret : list Z → M Lib (list Z);
  mbedtls_md_info_from_type : md_type → bool;
  mbedtls_md_hmac : md_type → list Z → list Z → M Lib (list Z);
  mbedtls_aes_init : Lib → mbedtls_aes_context * Lib;
  mbedtls_aes_setkey_enc : mbedtls_aes_context → list Z → M Lib mbedtls_aes_context;
  mbedtls_aes_setkey_dec : mbedtls_aes_context → list Z → M Lib mbedtls_aes_context;
  mbedtls_aes_crypt_cbc : mbedtls_aes_context → bool → list Z → list Z → M Lib (list Z);
  mbedtls_aes_free : mbedtls_aes_context → Lib → Lib;
  mbedtls_x509_crt_init : Lib → mbedtls_x509_crt * Lib;
  mbedtls_x509_crt_parse_der : mbedtls_x509_crt → list Z → M Lib mbedtls_x509_crt;
  mbedtls_x509_crt_free : mbedtls_x509_crt → Lib → Lib;
  crt_pk : mbedtls_x509_crt → mbedtls_pk_context;
  mbedtls_x509_time_is_future_from : mbedtls_x509_crt → Lib → bool * Lib;
  mbedtls_x509_time_is_past_to : mbedtls_x509_crt → Lib → bool * Lib;
  mbedtls_pk_init : Lib → mbedtls_pk_context * Lib;
  mbedtls_pk_parse_key : mbedtls_pk_context → option (list Z) → M Lib mbedtls_pk_context;
  mbedtls_pk_free : mbedtls_pk_context → Lib → Lib;
  mbedtls_pk_is_rsa : mbedtls_pk_context → bool;
  mbedtls_pk_get_bitlen : mbedtls_pk_context → Z;
  mbedtls_rsa_get_len : mbedtls_pk_context → Z;
  mbedtls_rsa_set_padding : mbedtls_pk_context → rsa_padding → Lib → Lib;
  mbedtls_pk_sign : mbedtls_pk_context → list Z → M Lib (list Z);
  mbedtls_pk_verify : mbedtls_pk_context → list Z → list Z → M Lib unit;
  mbedtls_entropy_init : Lib → mbedtls_entropy_context * Lib;
  mbedtls_entropy_free : mbedtls_entropy_context → Lib → Lib;
  mbedtls_ctr_drbg_init : Lib → mbedtls_ctr_drbg_context * Lib;
  mbedtls_ctr_drbg_seed : mbedtls_ctr_drbg_context → mbedtls_entropy_context → list Z → M Lib mbedtls_ctr_drbg_context;
  mbedtls_ctr_drbg_free : mbedtls_ctr_drbg_context → Lib → Lib;
  mbedtls_rsa_rsaes_oaep_decrypt : mbedtls_pk_context → mbedtls_ctr_drbg_context → list Z → Z → M Lib (list Z);
  mbedtls_rsa_rsaes_oaep_encrypt : mbedtls_pk_context → mbedtls_ctr_drbg_context → list Z → M Lib (list Z);
  mbedtls_rsa_rsassa_pss_sign : mbedtls_pk_context → mbedtls_ctr_drbg_context → list Z → M Lib (list Z);
  mbedtls_rsa_rsassa_pss_verify : mbedtls_pk_context → list Z → list Z → M Lib unit
}.

Section adapter.
  Context {Lib : Type} {mbed : MbedTLS Lib} {heap : CHeap Lib}.

Record mbedtls_crypto_context := mk_mbedtls_context {
  mx_cert_der : option (list Z);
  mx_key_der : option (list Z);
  mx_pk : mbedtls_pk_context
}.

(** ** Digests, HMAC and AES *)

Definition m_sha256 (data : list Z) : M Lib (list Z) := or_status MU_STATUS_BAD_INTERNALERROR (mbedtls_sha256_ret data).

Definition m_hmac_sha256 (key data : list Z) : M Lib (list Z) :=
  if negb (mbedtls_md_info_from_type MBEDTLS_MD_SHA256) then fail MU_STATUS_BAD_INTERNALERROR
  else or_status MU_STATUS_BAD_INTERNALERROR (mbedtls_md_hmac MBEDTLS_MD_SHA256 key data).

(** The key schedule reads [bits / 8] octets of the key; the vector is copied,
    a block of it. *)
Definition m_aes_cbc (bits : Z) (encrypt : bool) (key iv input : list Z) : M Lib (list Z) :=
  aes ← make mbedtls_aes_init;
  key ← lift_option (mem_load key 0 (bits / 8));
  ret ← attempt (if encrypt then mbedtls_aes_setkey_enc aes key else mbedtls_aes_setkey_dec aes key);
  match ret with
  | Ok aes =>
      iv_copy ← lift_option (mem_load iv 0 16);
      ret ← attempt (mbedtls_aes_crypt_cbc aes encrypt iv_copy input);
      void (mbedtls_aes_free aes);;
      status_of MU_STATUS_BAD_INTERNALERROR ret
  | _ => void (mbedtls_aes_free aes);; fail MU_STATUS_BAD_INTERNALERROR
  end.

Definition m_aes256_cbc_encrypt := m_aes_cbc 256 true.
Definition m_aes256_cbc_decrypt := m_aes_cbc 256 false.
Definition m_aes128_cbc_encrypt := m_aes_cbc 128 true.
Definition m_aes128_cbc_decrypt := m_aes_cbc 128 false.

(** ** RSA with the own key *)

(** The library writes as many octets as the key has, whatever room the caller
    announced. *)
Definition written_to (capacity : Z) (octets : list Z) : M Lib (list Z) :=
  if capacity <? zlen octets then fault else mret octets.

(** An operation with a seeded generator: [None] when seeding failed. *)
Definition with_drbg {A} (personalization : list Z) (op : mbedtls_ctr_drbg_context → M Lib A) : M Lib (option (result A)) :=
  entropy ← make mbedtls_entropy_init;
  ctr_drbg ← make mbedtls_ctr_drbg_init;
  ret ← attempt (mbedtls_ctr_drbg_seed ctr_drbg entropy personalization);
  match ret with
  | Ok ctr_drbg =>
      ret ← attempt (op ctr_drbg);
      void (mbedtls_ctr_drbg_free ctr_drbg);;
      void (mbedtls_entropy_free entropy);;
      mret (Some ret)
  | _ =>
      void (mbedtls_ctr_drbg_free ctr_drbg);;
      void (mbedtls_entropy_free entropy);;
      mret None
  end.

Definition m_rsa_sha256_sign (ctx : mbedtls_crypto_context) (data : list Z) (signature_length : Z) : M Lib (list Z) :=
  signature ← or_status MU_STATUS_BAD_INTERNALERROR (hash ← mbedtls_sha256_ret data; mbedtls_pk_sign (mx_pk ctx) hash);
  written_to signature_length signature.

Definition m_oaep_decrypt (hash : md_type) (ctx : mbedtls_crypto_context) (input : list Z) (output_length : Z) : M Lib (list Z) :=
  if negb (mbedtls_pk_is_rsa (mx_pk ctx)) then fail MU_STATUS_BAD_INTERNALERROR
  else
    void (mbedtls_rsa_set_padding (mx_pk ctx) (MBEDTLS_RSA_PKCS_V21 hash));;
    ret ← with_drbg (bytes_of_string "oaep") (λ ctr_drbg,
            block ← lift_option (mem_load input 0 (mbedtls_rsa_get_len (mx_pk ctx)));
            mbedtls_rsa_rsaes_oaep_decrypt (mx_pk ctx) ctr_drbg block output_length);
    match ret with
    | None => fail MU_STATUS_BAD_INTERNALERROR
    | Some ret => status_of MU_STATUS_BAD_SECURITYCHECKSFAILED ret
    end.

Definition m_rsa_oaep_decrypt := m_oaep_decrypt MBEDTLS_MD_SHA1.
Definition m_rsa_oaep_sha256_decrypt := m_oaep_decrypt MBEDTLS_MD_SHA256.

Definition m_rsa_pss_sha256_sign (ctx : mbedtls_crypto_context) (data : list Z) (signature_length : Z) : M Lib (list Z) :=
  if negb (mbedtls_pk_is_rsa (mx_pk ctx)) then fail MU_STATUS_BAD_INTERNALERROR
  else
    void (mbedtls_rsa_set_padding (mx_pk ctx) (MBEDTLS_RSA_PKCS_V21 MBEDTLS_MD_SHA256));;
    hash ← or_status MU_STATUS_BAD_INTERNALERROR (mbedtls_sha256_ret data);
    ret ← with_drbg (bytes_of_string "pss") (λ ctr_drbg,
            signature ← mbedtls_rsa_rsassa_pss_sign (mx_pk ctx) ctr_drbg hash;
            written_to signature_length signature);
    match ret with
    | None => fail MU_STATUS_BAD_INTERNALERROR
    | Some ret => status_of MU_STATUS_BAD_INTERNALERROR ret
    end.

(** ** RSA with the key of a certificate *)

(** Parse a certificate, run [use] on it and free it; [use] gives the status. *)
Definition with_certificate {A} (certificate : list Z) (unparseable : Z) (use : mbedtls_x509_crt → M Lib A) : M Lib A :=
  crt ← make mbedtls_x509_crt_init;
  ret ← attempt (mbedtls_x509_crt_parse_der crt certificate);
  match ret with
  | Ok crt =>
      ret ← attempt (use crt);
      void (mbedtls_x509_crt_free crt);;
      match ret with
      | Ok a => mret a
      | Err e => fail e
      | Fault => fault
      end
  | _ => void (mbedtls_x509_crt_free crt);; fail unparseable
  end.

Definition m_rsa_sha256_verify (certificate data signature : list Z) : M Lib unit :=
  with_certificate certificate MU_STATUS_BAD_SECURITYCHECKSFAILED (λ crt,
    hash ← or_status MU_STATUS_BAD_INTERNALERROR (mbedtls_sha256_ret data);
    or_status MU_STATUS_BAD_SECURITYCHECKSFAILED (mbedtls_pk_verify (crt_pk crt) hash signature)).

(** The library reads as many octets of the signature as the key has. *)
Definition m_rsa_pss_sha256_verify (certificate data signature : list Z) : M Lib unit :=
  with_certificate certificate MU_STATUS_BAD_SECURITYCHECKSFAILED (λ crt,
    if negb (mbedtls_pk_is_rsa (crt_pk crt)) then fail MU_STATUS_BAD_INTERNALERROR
    else
      void (mbedtls_rsa_set_padding (crt_pk crt) (MBEDTLS_RSA_PKCS_V21 MBEDTLS_MD_SHA256));;
      hash ← or_status MU_STATUS_BAD_INTERNALERROR (mbedtls_sha256_ret data);
      signature ← lift_option (mem_load signature 0 (mbedtls_rsa_get_len (crt_pk crt)));
      or_status MU_STATUS_BAD_SECURITYCHECKSFAILED (mbedtls_rsa_rsassa_pss_verify (crt_pk crt) hash signature)).

Definition m_oaep_encrypt (hash : md_type) (failed : Z) (certificate input : list Z) (output_length : Z) : M Lib (list Z) :=
  with_certificate certificate MU_STATUS_BAD_SECURITYCHECKSFAILED (λ crt,
    if negb (mbedtls_pk_is_rsa (crt_pk crt)) then fail MU_STATUS_BAD_INTERNALERROR
    else
      void (mbedtls_rsa_set_padding (crt_pk crt) (MBEDTLS_RSA_PKCS_V21 hash));;
      ret ← with_drbg (bytes_of_string "oaep") (λ ctr_drbg,
              output ← mbedtls_rsa_rsaes_oaep_encrypt (crt_pk crt) ctr_drbg input;
              written_to output_length output);
      match ret with
      | None => fail MU_STATUS_BAD_INTERNALERROR
      | Some ret => status_of failed ret
      end).

Definition m_rsa_oaep_encrypt := m_oaep_encrypt MBEDTLS_MD_SHA1 MU_STATUS_BAD_INTERNALERROR.
Definition m_rsa_oaep_sha256_encrypt := m_oaep_encrypt MBEDTLS_MD_SHA256 MU_STATUS_BAD_SECURITYCHECKSFAILED.

(** ** Certificates *)

Definition m_get_own_certificate (ctx : mbedtls_crypto_context) : M Lib (list Z) :=
  match mx_cert_der ctx with
  | None => fail MU_STATUS_BAD_INTERNALERROR
  | Some cert => mret cert
  end.

Definition m_get_certificate_key_bits (certificate : list Z) : M Lib Z :=
  with_certificate certificate MU_STATUS_BAD_SECURITYCHECKSFAILED (λ crt, mret (mbedtls_pk_get_bitlen (crt_pk crt))).

Definition m_verify_certificate_validity (certificate : list Z) : M Lib unit :=
  with_certificate certificate MU_STATUS_BAD_CERTIFICATEINVALID (λ crt,
    future ← make (mbedtls_x509_time_is_future_from crt);
    invalid ← (if (future : bool) then mret true else make (mbedtls_x509_time_is_past_to crt));
    if (invalid : bool) then fail MU_STATUS_BAD_CERTIFICATETIMEINVALID else mret tt).

Definition m_get_certificate_thumbprint (certificate : list Z) : M Lib (list Z) :=
  or_status MU_STATUS_BAD_INTERNALERROR (mbedtls_sha1_ret certificate).

(** ** Construction *)

Definition mbedtls_functions (ctx : mbedtls_crypto_context) : crypto_functions Lib :=
  mk_crypto_functions Lib (Some m_sha256) (Some m_hmac_sha256) (Some m_aes256_cbc_encrypt) (Some m_aes256_cbc_decrypt)
    (Some m_aes128_cbc_encrypt) (Some m_aes128_cbc_decrypt) None None None None
    (Some (m_rsa_sha256_sign ctx)) (Some m_rsa_sha256_verify) (Some (m_rsa_oaep_decrypt ctx)) (Some m_rsa_oaep_encrypt)
    (Some (m_rsa_pss_sha256_sign ctx)) (Some m_rsa_pss_sha256_verify)
    (Some (m_rsa_oaep_sha256_decrypt ctx)) (Some m_rsa_oaep_sha256_encrypt)
    (Some (m_get_own_certificate ctx)) (Some m_get_certificate_key_bits) (Some m_get_certificate_thumbprint)
    (Some m_verify_certificate_validity).

Definition mu_mbedtls_crypto_adapter_init (adapter : bool) (cert_der key_der : option (list Z))
    : M Lib (mbedtls_crypto_context * crypto_functions Lib) :=
  if negb adapter then fail MU_STATUS_BAD_INTERNALERROR
  else
    or_status MU_STATUS_BAD_OUTOFMEMORY calloc;;
    pk ← make mbedtls_pk_init;
    ret ← attempt (mbedtls_pk_parse_key pk key_der);
    match ret with
    | Ok pk => let ctx := mk_mbedtls_context cert_der key_der pk in mret (ctx, mbedtls_functions ctx)
    | _ => void (mbedtls_pk_free pk);; void c_free;; fail MU_STATUS_BAD_INTERNALERROR
    end.

Definition mu_mbedtls_crypto_adapter_cleanup (context : option mbedtls_crypto_context) : M Lib unit :=
  match context with
  | None => mret tt
  | Some ctx => void (mbedtls_pk_free (mx_pk ctx));; void c_free
  end.
End adapter.

(** ** What the library documents *)

(** What a signature or a ciphertext of a key means; the padding decides how
    [mbedtls_pk_sign] signs. *)
Class MbedModel (Key : Type) := {
  mbed_primitives :: CryptoPrimitives;
  pkcs1_signed : Key → list Z → list Z → Prop;
  pss_signed : Key → list Z → list Z → Prop
}.

(** [padding] is the mode of a key. A context, a certificate, a key and a
    generator are alive until they are freed; the generic sign follows the mode
    of the key; [rsa_set_padding] sets the mode of its key, and the other calls
    between it and a later signature leave modes alone. Any call that has a
    return code may fail. *)
Class MbedTLSLaws {Lib} (mbed : MbedTLS Lib) (model : MbedModel mbedtls_pk_context) (live : Lib → Z) := {
  padding : mbedtls_pk_context → Lib → rsa_padding;
  scheduled : mbedtls_aes_context → list Z → bool → Prop;
  law_sha256 x : uses live 0 (mbedtls_sha256_ret x) (λ h, h = sha256 x);
  law_sha1 x : uses live 0 (mbedtls_sha1_ret x) (λ h, h = sha1 x);
  law_hmac key x : uses live 0 (mbedtls_md_hmac MBEDTLS_MD_SHA256 key x) (λ h, h = hmac_sha256 key x);
  law_aes_init : makes live 1 mbedtls_aes_init (λ _, True);
  law_aes_enc o key : uses live 0 (mbedtls_aes_setkey_enc o key) (λ o', scheduled o' key true);
  law_aes_dec o key : uses live 0 (mbedtls_aes_setkey_dec o key) (λ o', scheduled o' key false);
  law_aes_crypt o key dir iv x : scheduled o key dir → zlen x mod 16 = 0 →
    uses live 0 (mbedtls_aes_crypt_cbc o dir iv x) (λ y, y = (if dir then aes_cbc else aes_cbc_inv) key iv x);
  law_aes_free o s : live (mbedtls_aes_free o s) = live s - 1;
  law_crt_init : makes live 1 mbedtls_x509_crt_init (λ _, True);
  law_crt_parse o c : uses live 0 (mbedtls_x509_crt_parse_der o c) (λ _, True);
  law_crt_free o s : live (mbedtls_x509_crt_free o s) = live s - 1;
  law_future o : makes live 0 (mbedtls_x509_time_is_future_from o) (λ _, True);
  law_past o : makes live 0 (mbedtls_x509_time_is_past_to o) (λ _, True);
  law_pk_init : makes live 1 mbedtls_pk_init (λ _, True);
  law_pk_parse o der : uses live 0 (mbedtls_pk_parse_key o der) (λ _, True);
  law_pk_free o s : live (mbedtls_pk_free o s) = live s - 1;
  law_set_padding o p s : live (mbedtls_rsa_set_padding o p s) = live s;
  law_verify o h sig : uses live 0 (mbedtls_pk_verify o h sig) (λ _, pkcs1_signed o sig h);
  law_entropy_init : makes live 1 mbedtls_entropy_init (λ _, True);
  law_entropy_free o s : live (mbedtls_entropy_free o s) = live s - 1;
  law_drbg_init : makes live 1 mbedtls_ctr_drbg_init (λ _, True);
  law_drbg_seed o e p : uses live 0 (mbedtls_ctr_drbg_seed o e p) (λ _, True);
  law_drbg_free o s : live (mbedtls_ctr_drbg_free o s) = live s - 1;
  law_oaep_decrypt o g y cap : uses live 0 (mbedtls_rsa_rsaes_oaep_decrypt o g y cap) (λ x, zlen x ≤ cap);
  law_oaep_encrypt o g x : uses live 0 (mbedtls_rsa_rsaes_oaep_encrypt o g x) (λ y, zlen y = mbedtls_rsa_get_len o);
  law_pss_sign o g h : uses live 0 (mbedtls_rsa_rsassa_pss_sign o g h) (λ sig, zlen sig = mbedtls_rsa_get_len o);
  law_pss_verify o h sig : uses live 0 (mbedtls_rsa_rsassa_pss_verify o h sig) (λ _, pss_signed o sig h);
  law_sign o h s : match mbedtls_pk_sign o h s with
    | (Ok sig, s') => zlen sig = mbedtls_rsa_get_len o ∧ live s' = live s ∧
        match padding o s with MBEDTLS_RSA_PKCS_V15 => pkcs1_signed o sig h | MBEDTLS_RSA_PKCS_V21 _ => pss_signed o sig h end
    | (Err e, s') => e ≠ MU_STATUS_GOOD ∧ live s' = live s
    | (Fault, _) => False
    end;
  law_padding_set o p s : padding o (mbedtls_rsa_set_padding o p s) = p;
  law_padding_sha256 x o s : padding o (mbedtls_sha256_ret x s).2 = padding o s;
  law_padding_entropy o s : padding o (mbedtls_entropy_init s).2 = padding o s;
  law_padding_entropy_free e o s : padding o (mbedtls_entropy_free e s) = padding o s;
  law_padding_drbg o s : padding o (mbedtls_ctr_drbg_init s).2 = padding o s;
  law_padding_seed g e p o s : padding o (mbedtls_ctr_drbg_seed g e p s).2 = padding o s;
  law_padding_drbg_free g o s : padding o (mbedtls_ctr_drbg_free g s) = padding o s;
  law_padding_decrypt k g y cap o s : padding o (mbedtls_rsa_rsaes_oaep_decrypt k g y cap s).2 = padding o s
}.

Section laws.
  Context {Lib : Type} {mbed : MbedTLS Lib} {heap : CHeap Lib} {model : MbedModel mbedtls_pk_context} {live : Lib → Z}.
  Context {laws : MbedTLSLaws mbed model live} {heap_laws : CHeapLaws heap live}.

#[local] Hint Resolve law_sha256 law_sha1 law_hmac law_aes_init law_aes_enc law_aes_dec law_aes_crypt law_crt_init law_crt_parse
  law_future law_past law_pk_init law_pk_parse law_verify law_entropy_init law_drbg_init law_drbg_seed law_oaep_decrypt law_oaep_encrypt
  law_pss_sign law_pss_verify : lib.

Ltac count := repeat first [rewrite law_aes_free | rewrite law_crt_free | rewrite law_pk_free | rewrite law_entropy_free
  | rewrite law_drbg_free | rewrite law_set_padding | rewrite heap_free]; lia.
Ltac lib_run := apply lwp_uses; intros s; repeat lib_step; try count.

(** ** Symmetric functions *)

Lemma mbed_hmac_ok key data : uses live 0 (m_hmac_sha256 key data) (λ m, m = hmac_sha256 key data).
Proof. unfold m_hmac_sha256; lib_run; subst; split; [done|count]. Qed.

Lemma mbed_aes_ok n (dir : bool) key iv x : 0 ≤ n / 8 ≤ zlen key → 16 ≤ zlen iv → zlen x mod 16 = 0 → uses live 0 (m_aes_cbc n dir key iv x)
  (λ y, y = (if dir then aes_cbc else aes_cbc_inv) (ztake (n / 8) key) (ztake 16 iv) x).
Proof.
  intros Hk Hi Hx; unfold m_aes_cbc; apply lwp_uses; intros s; apply lwp_bind; lib_step.
  apply lwp_bind; eapply lwp_lift; [apply mem_load_Some; lia|]; change (zdrop 0 key) with key.
  set (k := ztake _ key); assert (Hset : uses live 0 (if dir then mbedtls_aes_setkey_enc a k else mbedtls_aes_setkey_dec a k)
    (λ o, scheduled o k dir)) by (destruct dir; auto with lib).
  apply lwp_bind, lwp_attempt; eapply lwp_call; [exact Hset|cbv beta; intros|cbv beta; intros].
  - apply lwp_bind; eapply lwp_lift; [apply mem_load_Some; lia|]; change (zdrop 0 iv) with iv.
    repeat lib_step; try count; subst; split; [done|count].
  - repeat lib_step; count.
Qed.

Definition mbedtls_symmetric ctx : CryptoContract (mbedtls_functions ctx).
Proof.
  refine (plain_contract (prim := mbed_primitives) (mbedtls_functions ctx) _ _ _ _ _ eq_refl eq_refl eq_refl eq_refl eq_refl eq_refl
    eq_refl eq_refl _ _ _ _ _).
  - intros; eapply uses_delivers, mbed_hmac_ok.
  - intros key iv x (Hk & Hi & Hx); apply (uses_delivers live 0), (mbed_aes_ok 256 true); [change (256 / 8) with 32; lia|lia|done].
  - intros key iv x (Hk & Hi & Hx); apply (uses_delivers live 0), (mbed_aes_ok 256 false); [change (256 / 8) with 32; lia|lia|done].
  - intros key iv x (Hk & Hi & Hx); apply (uses_delivers live 0), (mbed_aes_ok 128 true); [change (128 / 8) with 16; lia|lia|done].
  - intros key iv x (Hk & Hi & Hx); apply (uses_delivers live 0), (mbed_aes_ok 128 false); [change (128 / 8) with 16; lia|lia|done].
Defined.

(** ** RSA functions *)

(** What happens in [with_drbg] is balanced when the operation is. *)
Lemma with_drbg_ok {A} pers (op : mbedtls_ctr_drbg_context → M Lib A) Q : (∀ g, uses live 0 (op g) Q) →
  uses live 0 (with_drbg pers op) (λ r, match r with Some (Ok a) => Q a | Some Fault => False | _ => True end).
Proof. intros Hop; unfold with_drbg; lib_run; split; (done || count). Qed.

Lemma with_certificate_ok {A} c e (use : mbedtls_x509_crt → M Lib A) Q : e ≠ MU_STATUS_GOOD → (∀ crt, uses live 0 (use crt) Q) →
  uses live 0 (with_certificate c e use) Q.
Proof. intros He Huse; unfold with_certificate; lib_run; try (split; (done || count)); by apply lwp_fail; [|count]. Qed.

Lemma written_ok cap (octets : list Z) (Q : list Z → Prop) : zlen octets ≤ cap → Q octets → uses live 0 (written_to cap octets) Q.
Proof. intros Hl HQ s; unfold written_to; rewrite (proj2 (Z.ltb_ge _ _)) by done; cbn; split; [done|lia]. Qed.

(** The result of an operation with a generator. *)
Lemma drbg_status {A} status (r : option (result A)) (Q : A → Prop) : status ≠ MU_STATUS_GOOD →
  match r with Some (Ok a) => Q a | Some Fault => False | _ => True end →
  uses live 0 (match r with None => fail MU_STATUS_BAD_INTERNALERROR | Some ret => status_of status ret end) Q.
Proof. intros Hs Hr; destruct r as [[a|e|]|]; [..|done|]; intros s; cbn; (split; [done|lia]) || by split. Qed.

Lemma mbed_verify_ok c data sig : uses live 0 (m_rsa_sha256_verify c data sig) (λ _, ∃ crt, pkcs1_signed (crt_pk crt) sig (sha256 data)).
Proof. apply with_certificate_ok; [done|]; intros crt; lib_run; subst; split; [by eexists|count]. Qed.

Lemma mbed_key_bits_ok c : uses live 0 (m_get_certificate_key_bits c) (λ _, True).
Proof. apply with_certificate_ok; [done|]; intros crt; lib_run; split; (done || count). Qed.

Lemma mbed_validity_ok c : uses live 0 (m_verify_certificate_validity c) (λ _, True).
Proof. apply with_certificate_ok; [done|]; intros crt; lib_run; split; (done || count). Qed.

(** The input must have as many octets as the modulus. *)
Lemma mbed_oaep_decrypt_ok h ctx y cap : 0 ≤ mbedtls_rsa_get_len (mx_pk ctx) ≤ zlen y → uses live 0 (m_oaep_decrypt h ctx y cap) (λ x, zlen x ≤ cap).
Proof.
  intros Hy; unfold m_oaep_decrypt; apply lwp_uses; intros s; split_if; [by apply lwp_fail|]; apply lwp_bind, lwp_void, lwp_bind.
  eapply lwp_call; [apply (with_drbg_ok _ _ (λ x, zlen x ≤ cap)); intros g|cbv beta; intros r s' Hr El|cbv beta; intros s' El; rewrite law_set_padding in El; lia].
  - intros s0; apply lwp_bind; eapply lwp_lift; [apply mem_load_Some; lia|]; lib_call; (split; (done || count)) || count.
  - eapply lwp_call; [by apply (drbg_status _ r (λ x, zlen x ≤ cap))|cbv beta; intros; split; [done|]|cbv beta; intros]; rewrite law_set_padding in El; lia.
Qed.

(** ** The padding mode *)

(** [m] leaves the mode of [o] alone. *)
Definition keeps {A} (o : mbedtls_pk_context) (m : M Lib A) : Prop := ∀ s, padding o (m s).2 = padding o s.

Lemma mbed_keeps_bind {A B} o (m : M Lib A) (k : A → M Lib B) : keeps o m → (∀ a, keeps o (k a)) → keeps o (m ≫= k).
Proof.
  intros Hm Hk s; unfold mbind, M_bind; specialize (Hm s); destruct (m s) as [[a|e|] s']; [|done..]; by rewrite Hk.
Qed.

Lemma keeps_attempt {A} o (m : M Lib A) : keeps o m → keeps o (attempt m).
Proof. intros Hm s; unfold attempt; specialize (Hm s); by destruct (m s) as [[a|e|] s']. Qed.

Lemma keeps_void o f : (∀ s, padding o (f s) = padding o s) → keeps o (void f).
Proof. done. Qed.

Lemma keeps_make {A} o (f : Lib → A * Lib) : (∀ s, padding o (f s).2 = padding o s) → keeps o (make f).
Proof. done. Qed.

Lemma keeps_pure {A} o (m : M Lib A) : (∀ s, (m s).2 = s) → keeps o m.
Proof. by intros Hm s; rewrite Hm. Qed.

Lemma keeps_lift {A} o (x : option A) : keeps o (lift_option x).
Proof. apply keeps_pure; intros s; by destruct x. Qed.

Lemma keeps_with_drbg {A} o pers (op : mbedtls_ctr_drbg_context → M Lib A) : (∀ g, keeps o (op g)) → keeps o (with_drbg pers op).
Proof.
  intros Hop; unfold with_drbg; apply mbed_keeps_bind; [apply keeps_make, law_padding_entropy|]; intros entropy.
  apply mbed_keeps_bind; [apply keeps_make, law_padding_drbg|]; intros g; apply mbed_keeps_bind; [apply keeps_attempt; intros s; apply law_padding_seed|].
  assert (Hfree : ∀ {B} (g : mbedtls_ctr_drbg_context) (r : B),
    keeps o (void (mbedtls_ctr_drbg_free g);; void (mbedtls_entropy_free entropy);; mret r)).
  { intros B g' r; apply mbed_keeps_bind; [apply keeps_void, law_padding_drbg_free|]; intros _.
    apply mbed_keeps_bind; [apply keeps_void, law_padding_entropy_free|]; intros _; by apply keeps_pure. }
  intros [g'|e|]; [|apply Hfree..]; apply mbed_keeps_bind; [by apply keeps_attempt|]; intros r; apply Hfree.
Qed.

(** A decryption leaves the key in mode v2.1, whatever its outcome. *)
Lemma decrypt_sets_padding h ctx y cap s : mbedtls_pk_is_rsa (mx_pk ctx) = true →
  padding (mx_pk ctx) (m_oaep_decrypt h ctx y cap s).2 = MBEDTLS_RSA_PKCS_V21 h.
Proof.
  intros Hr; unfold m_oaep_decrypt; rewrite Hr; cbn [negb]; set (s' := mbedtls_rsa_set_padding (mx_pk ctx) (MBEDTLS_RSA_PKCS_V21 h) s).
  rewrite (bind_ok (void (mbedtls_rsa_set_padding (mx_pk ctx) (MBEDTLS_RSA_PKCS_V21 h))) _ s tt s' eq_refl); rewrite <- (law_padding_set (mx_pk ctx) (MBEDTLS_RSA_PKCS_V21 h) s); fold s'.
  clearbody s'; revert s'; apply mbed_keeps_bind.
  - apply keeps_with_drbg; intros g; apply mbed_keeps_bind; [apply keeps_lift|]; intros block s'; apply law_padding_decrypt.
  - intros [[x|e|]|]; by apply keeps_pure.
Qed.


(** The mbed TLS adapter's symmetric functions keep [CryptoContract], with
    HMAC-SHA-256 and AES-CBC under the first 32 or 16 octets of the key field,
    and its functions on certificates free the certificate, the generator and
    the entropy source they initialise on every path; the RSA decryption does
    so, and stays inside its input, when the input has the size of the
    modulus. Construction leaves the context and the key alive or, on failure,
    nothing, and the clean-up frees them. *)
Theorem mbedtls_keeps_contract ctx adapter cert_der key_der :
  (∃ contract : CryptoContract (mbedtls_functions ctx),
    (∀ key data, hmac key data = hmac_sha256 key data) ∧
    (∀ key iv x, aes 256 key iv x = aes_cbc (ztake 32 key) (ztake 16 iv) x ∧ aes 128 key iv x = aes_cbc (ztake 16 key) (ztake 16 iv) x)) ∧
  (∀ c data sig, uses live 0 (m_rsa_sha256_verify c data sig) (λ _, ∃ crt, pkcs1_signed (crt_pk crt) sig (sha256 data))) ∧
  (∀ c, uses live 0 (m_get_certificate_key_bits c) (λ _, True) ∧ uses live 0 (m_verify_certificate_validity c) (λ _, True)) ∧
  (∀ y cap, 0 ≤ mbedtls_rsa_get_len (mx_pk ctx) ≤ zlen y →
     uses live 0 (m_rsa_oaep_decrypt ctx y cap) (λ x, zlen x ≤ cap) ∧ uses live 0 (m_rsa_oaep_sha256_decrypt ctx y cap) (λ x, zlen x ≤ cap)) ∧
  uses live 2 (mu_mbedtls_crypto_adapter_init adapter cert_der key_der) (λ x, adapter = true ∧ x.2 = mbedtls_functions x.1) ∧
  uses live (-2) (mu_mbedtls_crypto_adapter_cleanup (Some ctx)) (λ _, True).
Proof.
  split_and!; [by exists (mbedtls_symmetric ctx)|apply mbed_verify_ok|by intros c; split; [apply mbed_key_bits_ok|apply mbed_validity_ok]
    |by intros y cap Hy; split; apply mbed_oaep_decrypt_ok|..].
  - unfold mu_mbedtls_crypto_adapter_init; lib_run; split; [by destruct adapter|count].
  - unfold mu_mbedtls_crypto_adapter_cleanup; lib_run; split; (done || count).
Qed.
End laws.

(** ** A library to run on *)

(** The state counts the objects that are alive and holds the mode of the one
    key, which has 256 octets. *)
Module MbedSample.
Definition state : Type := Z * rsa_padding.

Definition bump {A} (d : Z) (a : A) (s : state) : A * state := (a, (s.1 + d, s.2)).
Definition drop1 (s : state) : state := (s.1 - 1, s.2).
Definition check (b : bool) : M state unit := if b then mret tt else fail 1.

Definition mbed : MbedTLS state := {|
  mbedtls_aes_context := unit; mbedtls_x509_crt := unit; mbedtls_pk_context := unit; mbedtls_entropy_context := unit;
  mbedtls_ctr_drbg_context := unit;
  mbedtls_sha256_ret x := mret (repeat (checksum x) 32); mbedtls_sha1_ret x := mret (repeat (checksum x) 20);
  mbedtls_md_info_from_type _ := true; mbedtls_md_hmac _ key x := mret (model_hmac key x);
  mbedtls_aes_init := bump 1 tt; mbedtls_aes_setkey_enc _ _ := mret tt; mbedtls_aes_setkey_dec _ _ := mret tt;
  mbedtls_aes_crypt_cbc _ dir _ x := mret (model_shift (if dir then 5 else -5) x); mbedtls_aes_free _ := drop1;
  mbedtls_x509_crt_init := bump 1 tt; mbedtls_x509_crt_parse_der _ c := check (negb (zlen c =? 0)); mbedtls_x509_crt_free _ := drop1;
  crt_pk _ := tt; mbedtls_x509_time_is_future_from _ := bump 0 false; mbedtls_x509_time_is_past_to _ := bump 0 false;
  mbedtls_pk_init := bump 1 tt; mbedtls_pk_parse_key _ der := check (negb (is_null der)); mbedtls_pk_free _ := drop1;
  mbedtls_pk_is_rsa _ := true; mbedtls_pk_get_bitlen _ := 2048; mbedtls_rsa_get_len _ := 256;
  mbedtls_rsa_set_padding _ p s := (s.1, p);
  mbedtls_pk_sign _ _ s := (Ok (repeat (match s.2 with MBEDTLS_RSA_PKCS_V15 => 1 | _ => 2 end) 256), s);
  mbedtls_pk_verify _ _ sig := check (bool_decide (sig = repeat 1 256));
  mbedtls_entropy_init := bump 1 tt; mbedtls_entropy_free _ := drop1;
  mbedtls_ctr_drbg_init := bump 1 tt; mbedtls_ctr_drbg_seed _ _ _ := mret tt; mbedtls_ctr_drbg_free _ := drop1;
  mbedtls_rsa_rsaes_oaep_decrypt _ _ y cap := check (zlen y <=? cap);; mret y;
  mbedtls_rsa_rsaes_oaep_encrypt _ _ _ := mret (repeat 0 256);
  mbedtls_rsa_rsassa_pss_sign _ _ _ := mret (repeat 2 256);
  mbedtls_rsa_rsassa_pss_verify _ _ sig := check (bool_decide (sig = repeat 2 256))
|}.

Definition heap : CHeap state := {| calloc s := (Ok tt, (s.1 + 1, s.2)); c_free := drop1 |}.

Definition model : MbedModel (@mbedtls_pk_context state mbed) := {|
  mbed_primitives := model_primitives; pkcs1_signed _ sig _ := sig = repeat 1 256; pss_signed _ sig _ := sig = repeat 2 256
|}.

Lemma uses_check (b : bool) (Q : unit → Prop) : (b = true → Q tt) → uses fst 0 (check b) Q.
Proof. intros HQ s; destruct b; cbn; split; (auto || lia || done). Qed.

Lemma uses_done {A} (a : A) (Q : A → Prop) : Q a → uses (fst : state → Z) 0 (mret a) Q.
Proof. intros HQ s; cbn; split; [done|lia]. Qed.

Definition laws : MbedTLSLaws mbed model fst.
Proof.
  refine {| padding := (λ _ s, s.2) : @mbedtls_pk_context state mbed → _; scheduled := λ _ _ _, True |}; cbn -[repeat]; intros;
    lazymatch goal with
    | |- uses _ _ (mret _) _ => apply uses_done
    | |- uses _ _ (check _) _ => apply uses_check; intros
    | |- makes _ _ _ _ => intros s0; cbn; split
    | _ => idtac
    end; try reflexivity; try exact Logic.I.
  - destruct dir; reflexivity.
  - exact (proj1 (bool_decide_eq_true _) H).
  - intros s; unfold check; destruct (Z.leb_spec (zlen y) cap); cbn; (split; [done|lia]).
  - exact (proj1 (bool_decide_eq_true _) H).
  - destruct (s.2); split_and!; reflexivity.
  - unfold check; by destruct (zlen y <=? cap).
Defined.

Lemma mbed_heap_ok : CHeapLaws heap (fst : state → Z).
Proof. split; [by intros s; cbn|done]. Qed.

Definition context : @mbedtls_crypto_context state mbed := mk_mbedtls_context (mbed := mbed) (Some [48; 130]) (Some [1]) tt.
End MbedSample.

Lemma mbedtls_keeps_contract_witness :
  uses fst 2 (mu_mbedtls_crypto_adapter_init (mbed := MbedSample.mbed) (heap := MbedSample.heap) true (Some [48; 130]) (Some [1]))
    (λ x, true = true ∧ x.2 = mbedtls_functions x.1) ∧
  uses fst 0 (m_rsa_oaep_decrypt (mbed := MbedSample.mbed) MbedSample.context (repeat 7 256) 512) (λ x, zlen x ≤ 512).
Proof.
  pose proof (@mbedtls_keeps_contract MbedSample.state MbedSample.mbed MbedSample.heap MbedSample.model fst MbedSample.laws MbedSample.mbed_heap_ok
    MbedSample.context true (Some [48; 130]) (Some [1])) as (_ & _ & _ & H & Hi & _).
  split; [exact Hi|].
  refine (proj1 (H (repeat 7 256) 512 _)).
  change (0 ≤ 256 ≤ zlen (repeat 7 256)); rewrite zlen_repeat; lia.
Defined.


(** A ciphertext that is shorter than the modulus is read past its end. *)
Example mbedtls_short_ciphertext :
  (m_rsa_oaep_decrypt (mbed := MbedSample.mbed) MbedSample.context (repeat 7 16) 512 (0, MBEDTLS_RSA_PKCS_V15)).1 = Fault.
Proof. vm_compute. reflexivity. Qed.
