(* ===== verification/HostCrypto.v ===== *)
(** * The OpenSSL crypto adapter

    [src/platform/host_crypto_adapter.c] over an abstract libcrypto. Objects of
    the library are values that the code owns through one pointer each; the
    cipher contexts of channels live in heap blocks whose address the adapter
    keeps in the caller's storage. No C object exceeds [PTRDIFF_MAX] octets, so
    the casts of lengths to [int] and [long] are the identity. *)

From S2P Require Export LibraryCalls AsymChunkSpec.
From stdpp Require Export gmap.
#[local] Open Scope Z_scope.

Inductive evp_cipher := EVP_aes_128_cbc | EVP_aes_256_cbc.
Inductive evp_md := EVP_sha1 | EVP_sha256.
Inductive rsa_scheme := RSA_PKCS1_OAEP_PADDING | RSA_PKCS1_PSS_PADDING.

(** The calls of libcrypto the adapter makes. A call that reports an error, or
    returns NULL where an object is expected, fails. The flag of a cipher call
    selects encryption. *)
Class OpenSSL (Lib : Type) := {
  EVP_CIPHER_CTX : Type;
  EVP_MD_CTX : Type;
  EVP_PKEY : Type;
  EVP_PKEY_CTX : Type;
  X509 : Type;
  EVP_Digest : evp_md → list Z → M Lib (list Z);
  HMAC : evp_md → list Z → list Z → M Lib (list Z);
  EVP_CIPHER_CTX_new : M Lib EVP_CIPHER_CTX;
  EVP_CIPHER_CTX_free : EVP_CIPHER_CTX → Lib → Lib;
  EVP_CipherInit : bool → EVP_CIPHER_CTX → option (evp_cipher * list Z) → option (list Z) → M Lib EVP_CIPHER_CTX;
  EVP_CIPHER_CTX_set_padding : EVP_CIPHER_CTX → Z → M Lib EVP_CIPHER_CTX;
  EVP_CipherUpdate : bool → EVP_CIPHER_CTX → list Z → M Lib (list Z * EVP_CIPHER_CTX);
  EVP_CipherFinal : bool → EVP_CIPHER_CTX → M Lib (list Z * EVP_CIPHER_CTX);
  EVP_MD_CTX_new : M Lib EVP_MD_CTX;
  EVP_MD_CTX_free : option EVP_MD_CTX → Lib → Lib;
  EVP_DigestSignInit : EVP_MD_CTX → EVP_PKEY → M Lib EVP_MD_CTX;
  EVP_DigestSign : EVP_MD_CTX → Z → list Z → M Lib (list Z);
  EVP_DigestVerifyInit : EVP_MD_CTX → EVP_PKEY → M Lib EVP_MD_CTX;
  EVP_DigestVerify : EVP_MD_CTX → list Z → list Z → M Lib unit;
  md_set_rsa_padding : EVP_MD_CTX → rsa_scheme → M Lib EVP_MD_CTX;
  md_set_rsa_pss_saltlen : EVP_MD_CTX → Z → M Lib EVP_MD_CTX;
  md_set_rsa_mgf1_md : EVP_MD_CTX → evp_md → M Lib EVP_MD_CTX;
  EVP_PKEY_CTX_new : EVP_PKEY → M Lib EVP_PKEY_CTX;
  EVP_PKEY_CTX_free : EVP_PKEY_CTX → Lib → Lib;
  EVP_PKEY_crypt_init : bool → EVP_PKEY_CTX → M Lib EVP_PKEY_CTX;
  EVP_PKEY_CTX_set_rsa_padding : EVP_PKEY_CTX → rsa_scheme → M Lib EVP_PKEY_CTX;
  EVP_PKEY_CTX_set_rsa_oaep_md : EVP_PKEY_CTX → evp_md → M Lib EVP_PKEY_CTX;
  EVP_PKEY_CTX_set_rsa_mgf1_md : EVP_PKEY_CTX → evp_md → M Lib EVP_PKEY_CTX;
  EVP_PKEY_crypt : bool → EVP_PKEY_CTX → Z → list Z → M Lib (list Z);
  EVP_PKEY_free : EVP_PKEY → Lib → Lib;
  EVP_PKEY_get_bits : EVP_PKEY → Z;
  d2i_X509 : list Z → M Lib X509;
  X509_get_pubkey : X509 → M Lib EVP_PKEY;
  X509_free : X509 → Lib → Lib;
  X509_cmp_notBefore : X509 → Lib → Z * Lib;
  X509_cmp_notAfter : X509 → Lib → Z * Lib;
  EVP_RSA_gen : Z → M Lib EVP_PKEY;
  X509_new : M Lib X509;
  X509_set_version : X509 → Z → M Lib unit;
  X509_set_serialNumber : X509 → Z → Lib → Lib;
  X509_set_notBefore : X509 → Z → Lib → Lib;
  X509_set_notAfter : X509 → Z → Lib → Lib;
  X509_add_common_name : X509 → list Z → Lib → Lib;
  X509_set_issuer_name_to_subject : X509 → M Lib unit;
  X509_set_pubkey : X509 → EVP_PKEY → M Lib unit;
  X509_sign : X509 → EVP_PKEY → evp_md → M Lib unit;
  i2d_X509_length : X509 → Lib → Z * Lib;
  i2d_X509 : X509 → Lib → list Z * Lib;
  OPENSSL_malloc : Z → M Lib unit;
  OPENSSL_free : Lib → Lib
}.

Section library.
  Context {Lib : Type} {ssl : OpenSSL Lib}.

Record host_crypto_context := mk_host_context {
  hx_key : option EVP_PKEY;
  hx_cert_der : option (list Z)
}.

(** ** Digests, HMAC and AES *)

Definition h_sha256 (data : list Z) : M Lib (list Z) := or_status MU_STATUS_BAD_INTERNALERROR (EVP_Digest EVP_sha256 data).

Definition h_hmac_sha256 (key data : list Z) : M Lib (list Z) := or_status MU_STATUS_BAD_INTERNALERROR (HMAC EVP_sha256 key data).

Definition cipher_key_length (cipher : evp_cipher) : Z := match cipher with EVP_aes_128_cbc => 16 | EVP_aes_256_cbc => 32 end.

(** Set the vector (and, with [key], the cipher and its key), switch padding
    off, and run the input through: the output and the used context. *)
Definition run_cipher (encrypt : bool) (ctx : EVP_CIPHER_CTX) (key : option (evp_cipher * list Z)) (iv input : list Z)
    : M Lib (list Z * EVP_CIPHER_CTX) :=
  ctx ← EVP_CipherInit encrypt ctx key (Some iv);
  ctx ← EVP_CIPHER_CTX_set_padding ctx 0;
  '(out, ctx) ← EVP_CipherUpdate encrypt ctx input;
  '(fin, ctx) ← EVP_CipherFinal encrypt ctx;
  mret (out ++ fin, ctx).

(** The library reads the octets of the key and of the vector that the cipher
    has. *)
Definition aes_cbc_once (cipher : evp_cipher) (encrypt : bool) (key iv input : list Z) : M Lib (list Z) :=
  ctx ← or_status MU_STATUS_BAD_OUTOFMEMORY EVP_CIPHER_CTX_new;
  key ← lift_option (mem_load key 0 (cipher_key_length cipher));
  iv ← lift_option (mem_load iv 0 16);
  ret ← attempt (run_cipher encrypt ctx (Some (cipher, key)) iv input);
  void (EVP_CIPHER_CTX_free ctx);;
  out ← status_of MU_STATUS_BAD_INTERNALERROR ret;
  mret out.1.

Definition h_aes_encrypt := aes_cbc_once EVP_aes_256_cbc true.
Definition h_aes_decrypt := aes_cbc_once EVP_aes_256_cbc false.
Definition h_aes128_encrypt := aes_cbc_once EVP_aes_128_cbc true.
Definition h_aes128_decrypt := aes_cbc_once EVP_aes_128_cbc false.

(** ** RSA *)

Definition pubkey_from_cert (cert : list Z) : M Lib EVP_PKEY :=
  x ← d2i_X509 cert;
  ret ← attempt (X509_get_pubkey x);
  void (X509_free x);;
  status_of MU_STATUS_BAD_SECURITYCHECKSFAILED ret.

(** Set a digest context up for PSS with SHA-256 and a salt of 32 octets. *)
Definition set_pss (md : EVP_MD_CTX) : M Lib EVP_MD_CTX :=
  md ← md_set_rsa_padding md RSA_PKCS1_PSS_PADDING;
  md ← md_set_rsa_pss_saltlen md 32;
  md_set_rsa_mgf1_md md EVP_sha256.

Definition digest_sign (set_up : EVP_MD_CTX → M Lib EVP_MD_CTX) (key : EVP_PKEY) (data : list Z) (sig_len : Z) : M Lib (list Z) :=
  md ← or_status MU_STATUS_BAD_OUTOFMEMORY EVP_MD_CTX_new;
  ret ← attempt (md ← EVP_DigestSignInit md key; md ← set_up md; EVP_DigestSign md sig_len data);
  void (EVP_MD_CTX_free (Some md));;
  status_of MU_STATUS_BAD_INTERNALERROR ret.

Definition digest_verify (set_up : EVP_MD_CTX → M Lib EVP_MD_CTX) (cert data sig : list Z) : M Lib unit :=
  pk ← or_status MU_STATUS_BAD_SECURITYCHECKSFAILED (pubkey_from_cert cert);
  md ← attempt EVP_MD_CTX_new;
  match md with
  | Ok md =>
      ret ← attempt (md ← EVP_DigestVerifyInit md pk; md ← set_up md; EVP_DigestVerify md sig data);
      void (EVP_MD_CTX_free (Some md));;
      void (EVP_PKEY_free pk);;
      status_of MU_STATUS_BAD_SECURITYCHECKSFAILED ret
  | _ =>
      void (EVP_MD_CTX_free None);;
      void (EVP_PKEY_free pk);;
      fail MU_STATUS_BAD_SECURITYCHECKSFAILED
  end.

(** Dereferencing the context of an adapter that has no key is undefined. *)
Definition own_key (cx : host_crypto_context) : M Lib EVP_PKEY := lift_option (hx_key cx).

Definition h_rsa_sign (cx : host_crypto_context) (data : list Z) (sig_len : Z) : M Lib (list Z) :=
  key ← own_key cx; digest_sign mret key data sig_len.

Definition h_rsa_verify := digest_verify mret.

Definition h_rsa_pss_sha256_sign (cx : host_crypto_context) (data : list Z) (sig_len : Z) : M Lib (list Z) :=
  key ← own_key cx; digest_sign set_pss key data sig_len.

(** [if (md) EVP_MD_CTX_free(md)] does nothing without a context. *)
Definition h_rsa_pss_sha256_verify := digest_verify set_pss.

(** [rsa_oaep] and [rsa_oaep_sha256] differ in the digests, which the second
    sets ([sha256]) and the first leaves at SHA-1. *)
Definition rsa_oaep_run (sha256 : bool) (pk : EVP_PKEY) (encrypt : bool) (input : list Z) (out_len : Z) : M Lib (list Z) :=
  pc ← or_status MU_STATUS_BAD_INTERNALERROR (EVP_PKEY_CTX_new pk);
  ret ← attempt
    (pc ← EVP_PKEY_crypt_init encrypt pc;
     pc ← EVP_PKEY_CTX_set_rsa_padding pc RSA_PKCS1_OAEP_PADDING;
     pc ← (if sha256 then pc ← EVP_PKEY_CTX_set_rsa_oaep_md pc EVP_sha256; EVP_PKEY_CTX_set_rsa_mgf1_md pc EVP_sha256 else mret pc);
     EVP_PKEY_crypt encrypt pc out_len input);
  void (EVP_PKEY_CTX_free pc);;
  status_of MU_STATUS_BAD_INTERNALERROR ret.

Definition rsa_oaep := rsa_oaep_run false.
Definition rsa_oaep_sha256 := rsa_oaep_run true.

Definition oaep_decrypt (oaep : EVP_PKEY → bool → list Z → Z → M Lib (list Z)) (cx : host_crypto_context) (input : list Z) (out_len : Z)
    : M Lib (list Z) :=
  key ← own_key cx; oaep key false input out_len.

Definition oaep_encrypt (oaep : EVP_PKEY → bool → list Z → Z → M Lib (list Z)) (cert input : list Z) (out_len : Z) : M Lib (list Z) :=
  pk ← or_status MU_STATUS_BAD_SECURITYCHECKSFAILED (pubkey_from_cert cert);
  rc ← attempt (oaep pk true input out_len);
  void (EVP_PKEY_free pk);;
  match rc with
  | Ok out => mret out
  | Err e => fail e
  | Fault => fault
  end.

Definition h_rsa_oaep_decrypt := oaep_decrypt rsa_oaep.
Definition h_rsa_oaep_encrypt := oaep_encrypt rsa_oaep.
Definition h_rsa_oaep_sha256_decrypt := oaep_decrypt rsa_oaep_sha256.
Definition h_rsa_oaep_sha256_encrypt := oaep_encrypt rsa_oaep_sha256.

(** ** Certificates *)

Definition h_get_own_certificate (cx : host_crypto_context) : M Lib (list Z) := lift_option (hx_cert_der cx).

Definition h_get_certificate_key_bits (cert : list Z) : M Lib Z :=
  pk ← or_status MU_STATUS_BAD_SECURITYCHECKSFAILED (pubkey_from_cert cert);
  let bits := to_size (EVP_PKEY_get_bits pk) in
  void (EVP_PKEY_free pk);;
  mret bits.

Definition h_verify_certificate_validity (cert : list Z) : M Lib unit :=
  x ← or_status MU_STATUS_BAD_CERTIFICATEINVALID (d2i_X509 cert);
  not_before ← make (X509_cmp_notBefore x);
  not_after ← make (X509_cmp_notAfter x);
  void (X509_free x);;
  if (not_before =? 0) || (not_after =? 0) then fail MU_STATUS_BAD_CERTIFICATEINVALID
  else if (0 <? not_before) || (not_after <? 0) then fail MU_STATUS_BAD_CERTIFICATETIMEINVALID
  else mret tt.

Definition h_get_certificate_thumbprint (cert : list Z) : M Lib (list Z) :=
  or_status MU_STATUS_BAD_INTERNALERROR (EVP_Digest EVP_sha1 cert).

(** ** The own certificate *)

(** The DER octets, in a block of their own; [None] when a step failed, which
    leaves no block. *)
Definition encode_certificate (x : X509) (key : EVP_PKEY) : M Lib (option (list Z)) :=
  ret ← attempt (X509_set_issuer_name_to_subject x;; X509_set_pubkey x key;; X509_sign x key EVP_sha256);
  match ret with
  | Ok _ =>
      len ← make (i2d_X509_length x);
      if 0 <? len then
        ret ← attempt (OPENSSL_malloc len);
        match ret with
        | Ok _ => der ← make (i2d_X509 x); mret (Some der)
        | _ => mret None
        end
      else mret None
  | _ => mret None
  end.

Definition YEAR_SECONDS : Z := 60 * 60 * 24 * 365.

(** Whether it worked, and what of the context was filled. *)
Definition build_self_signed : M Lib (bool * host_crypto_context) :=
  ret ← attempt (EVP_RSA_gen 2048);
  match ret with
  | Ok key =>
      ret ← attempt X509_new;
      match ret with
      | Ok x =>
          ret ← attempt (X509_set_version x 2);
          der ← match ret with
                | Ok _ =>
                    void (X509_set_serialNumber x 1);;
                    void (X509_set_notBefore x 0);;
                    void (X509_set_notAfter x YEAR_SECONDS);;
                    void (X509_add_common_name x (bytes_of_string "muc-opcua"));;
                    encode_certificate x key
                | _ => mret None
                end;
          void (X509_free x);;
          let ok := match der with Some der => 0 <? zlen der | None => false end in
          mret (ok, mk_host_context (Some key) der)
      | _ => mret (false, mk_host_context (Some key) None)
      end
  | _ => mret (false, mk_host_context None None)
  end.

Definition free_context {heap : CHeap Lib} (cx : host_crypto_context) : M Lib unit :=
  match hx_key cx with Some key => void (EVP_PKEY_free key) | None => mret tt end;;
  match hx_cert_der cx with Some _ => void OPENSSL_free | None => mret tt end;;
  void c_free.
End library.

(** ** Cipher contexts of channels *)

(** The library and the blocks [struct host_cipher_context] by address. *)
Record host_world (Lib : Type) {ssl : OpenSSL Lib} := mk_host_world {
  hw_lib : Lib;
  hw_handles : gmap Z (option EVP_CIPHER_CTX * option EVP_CIPHER_CTX)
}.
Arguments mk_host_world {_ _}.
Arguments hw_lib {_ _}.
Arguments hw_handles {_ _}.

(** The address of a new block, if there is memory. *)
Class HandleAlloc (Lib : Type) {ssl : OpenSSL Lib} := { calloc_handle : host_world Lib → option Z }.

Section contexts.
  Context {Lib : Type} {ssl : OpenSSL Lib} {heap : CHeap Lib} {alloc : HandleAlloc Lib}.
  Abbreviation W := (host_world Lib).

Definition on_lib {A} (m : M Lib A) : M W A := λ w,
  let '(x, s) := m (hw_lib w) in (x, mk_host_world s (hw_handles w)).

Definition set_handle (handle : Z) (cell : option EVP_CIPHER_CTX * option EVP_CIPHER_CTX) : M W unit := λ w,
  (Ok tt, mk_host_world (hw_lib w) (<[handle := cell]> (hw_handles w))).

(** [calloc] of a zeroed block. *)
Definition new_handle : M W Z := λ w,
  match calloc_handle w with
  | Some handle => (Ok handle, mk_host_world (hw_lib w) (<[handle := (None, None)]> (hw_handles w)))
  | None => (Err MU_STATUS_BAD_OUTOFMEMORY, w)
  end.

Definition deref (handle : Z) : M W (option EVP_CIPHER_CTX * option EVP_CIPHER_CTX) := λ w,
  match hw_handles w !! handle with Some cell => (Ok cell, w) | None => (Fault, w) end.

(** [free] of a block. *)
Definition drop_handle (handle : Z) : M W unit := λ w,
  (Ok tt, mk_host_world (hw_lib w) (delete handle (hw_handles w))).

(** [memcpy] of a pointer, of 32 bits like [size_t], to and from the caller's
    storage. *)
Definition store_cipher_handle (ctx_storage : list Z) (handle : Z) : M W (list Z) :=
  lift_option (mem_store ctx_storage 0 (mu_binary_le_put_u32 handle)).

Definition load_cipher_handle (ctx_storage : list Z) : M W Z :=
  lift_option (mem_load ctx_storage 0 4 ≫= mu_binary_le_get_u32).

Definition free_cipher (ctx : option EVP_CIPHER_CTX) : M W unit :=
  match ctx with Some ctx => on_lib (void (EVP_CIPHER_CTX_free ctx)) | None => mret tt end.

Definition free_cipher_handle (handle : Z) : M W unit :=
  if handle =? 0 then mret tt
  else
    '(encrypt, decrypt) ← deref handle;
    free_cipher encrypt;;
    free_cipher decrypt;;
    drop_handle handle.

(** The key schedule of a context, without a vector. *)
Definition schedule (encrypt : bool) (ctx : EVP_CIPHER_CTX) (key : list Z) : M Lib EVP_CIPHER_CTX :=
  ctx ← EVP_CipherInit encrypt ctx (Some (EVP_aes_256_cbc, key)) None;
  EVP_CIPHER_CTX_set_padding ctx 0.

Definition h_cipher_ctx_init (key ctx_storage : list Z) : M W (list Z) :=
  handle ← new_handle;
  encrypt ← on_lib (attempt EVP_CIPHER_CTX_new);
  decrypt ← on_lib (attempt EVP_CIPHER_CTX_new);
  match encrypt, decrypt with
  | Ok encrypt, Ok decrypt =>
      set_handle handle (Some encrypt, Some decrypt);;
      key ← lift_option (mem_load key 0 32);
      ret ← on_lib (attempt (encrypt ← schedule true encrypt key; decrypt ← schedule false decrypt key; mret (encrypt, decrypt)));
      match ret with
      | Ok (encrypt, decrypt) =>
          set_handle handle (Some encrypt, Some decrypt);;
          store_cipher_handle ctx_storage handle
      | _ => free_cipher_handle handle;; fail MU_STATUS_BAD_INTERNALERROR
      end
  | _, _ =>
      let made (r : result EVP_CIPHER_CTX) := match r with Ok ctx => Some ctx | _ => None end in
      set_handle handle (made encrypt, made decrypt);;
      free_cipher_handle handle;;
      fail MU_STATUS_BAD_OUTOFMEMORY
  end.

(** The context of one direction is used and stays in its block; an error
    leaves it as it was. *)
Definition aes_cbc_ctx (encrypt : bool) (ctx_storage iv input : list Z) : M W (list Z * list Z) :=
  handle ← load_cipher_handle ctx_storage;
  if handle =? 0 then fail MU_STATUS_BAD_INTERNALERROR
  else
    cell ← deref handle;
    match (if encrypt then cell.1 else cell.2) with
    | None => fail MU_STATUS_BAD_INTERNALERROR
    | Some ctx =>
        iv ← lift_option (mem_load iv 0 16);
        '(out, ctx) ← on_lib (or_status MU_STATUS_BAD_INTERNALERROR (run_cipher encrypt ctx None iv input));
        set_handle handle (if encrypt then (Some ctx, cell.2) else (cell.1, Some ctx));;
        mret (out, ctx_storage)
    end.

Definition h_aes_encrypt_ctx := aes_cbc_ctx true.
Definition h_aes_decrypt_ctx := aes_cbc_ctx false.

(** Delivers the storage, which then holds NULL. *)
Definition h_cipher_ctx_free (ctx_storage : list Z) : M W (list Z) :=
  handle ← load_cipher_handle ctx_storage;
  free_cipher_handle handle;;
  store_cipher_handle ctx_storage 0.

(** ** Construction *)

Definition host_functions (cx : host_crypto_context) : crypto_functions W :=
  mk_crypto_functions W (Some (λ data, on_lib (h_sha256 data))) (Some (λ key data, on_lib (h_hmac_sha256 key data)))
    (Some (λ key iv x, on_lib (h_aes_encrypt key iv x))) (Some (λ key iv x, on_lib (h_aes_decrypt key iv x)))
    (Some (λ key iv x, on_lib (h_aes128_encrypt key iv x))) (Some (λ key iv x, on_lib (h_aes128_decrypt key iv x)))
    (Some h_cipher_ctx_init) (Some h_aes_encrypt_ctx) (Some h_aes_decrypt_ctx) (Some (λ storage, h_cipher_ctx_free storage;; mret tt))
    (Some (λ data n, on_lib (h_rsa_sign cx data n))) (Some (λ c data sig, on_lib (h_rsa_verify c data sig)))
    (Some (λ y n, on_lib (h_rsa_oaep_decrypt cx y n))) (Some (λ c x n, on_lib (h_rsa_oaep_encrypt c x n)))
    (Some (λ data n, on_lib (h_rsa_pss_sha256_sign cx data n))) (Some (λ c data sig, on_lib (h_rsa_pss_sha256_verify c data sig)))
    (Some (λ y n, on_lib (h_rsa_oaep_sha256_decrypt cx y n))) (Some (λ c x n, on_lib (h_rsa_oaep_sha256_encrypt c x n)))
    (Some (on_lib (h_get_own_certificate cx))) (Some (λ c, on_lib (h_get_certificate_key_bits c)))
    (Some (λ c, on_lib (h_get_certificate_thumbprint c))) (Some (λ c, on_lib (h_verify_certificate_validity c))).

Definition mu_host_crypto_adapter_init (adapter : bool) : M Lib (host_crypto_context * crypto_functions W) :=
  if negb adapter then fail MU_STATUS_BAD_INTERNALERROR
  else
    or_status MU_STATUS_BAD_OUTOFMEMORY calloc;;
    '(ok, cx) ← build_self_signed;
    if negb ok then free_context cx;; fail MU_STATUS_BAD_INTERNALERROR
    else mret (cx, host_functions cx).

Definition mu_host_crypto_adapter_cleanup (context : option host_crypto_context) : M Lib unit :=
  match context with
  | None => mret tt
  | Some cx => free_context cx
  end.
End contexts.

(** ** What the library documents *)

(** The primitives; public keys; the key of a certificate and its validity
    period; valid signatures and ciphertexts, with a flag for the PSS scheme
    and for OAEP with SHA-256. *)
Class HostModel := {
  host_primitives :: CryptoPrimitives;
  Pub : Type;
  pub_bits : Pub → Z;
  certificate_key : list Z → option Pub;
  begun : list Z → Prop;
  unexpired : list Z → Prop;
  signed : bool → Pub → list Z → list Z → Prop;
  opens : bool → Pub → list Z → list Z → Prop
}.

(** What the objects hold: [keyed] a cipher, a key and a direction; [running]
    a vector too; [drained] after whole blocks went through. [md_stage] counts
    the PSS parameters set on a digest context, [oaep_stage] the OAEP
    parameters on a key context. An object is alive until it is freed. Any call
    that reports errors may fail. *)
Class OpenSSLLaws {Lib} (ssl : OpenSSL Lib) (model : HostModel) (live : Lib → Z) := {
  keyed : EVP_CIPHER_CTX → evp_cipher → list Z → bool → Prop;
  running : EVP_CIPHER_CTX → evp_cipher → list Z → bool → list Z → Prop;
  drained : EVP_CIPHER_CTX → evp_cipher → list Z → bool → Prop;
  public : EVP_PKEY → Pub;
  md_stage : EVP_MD_CTX → Pub → nat → Prop;
  oaep_stage : EVP_PKEY_CTX → Pub → bool → nat → Prop;
  decodes : X509 → list Z → Prop;
  law_digest md x : uses live 0 (EVP_Digest md x) (λ h, h = match md with EVP_sha1 => sha1 x | EVP_sha256 => sha256 x end);
  law_hmac key x : uses live 0 (HMAC EVP_sha256 key x) (λ h, h = hmac_sha256 key x);
  law_ctx_new : uses live 1 EVP_CIPHER_CTX_new (λ _, True);
  law_ctx_free o s : live (EVP_CIPHER_CTX_free o s) = live s - 1;
  law_init_full dir o c k iv : uses live 0 (EVP_CipherInit dir o (Some (c, k)) (Some iv)) (λ o', running o' c k dir iv);
  law_init_key dir o c k : uses live 0 (EVP_CipherInit dir o (Some (c, k)) None) (λ o', keyed o' c k dir);
  law_init_iv dir o c k iv : keyed o c k dir → uses live 0 (EVP_CipherInit dir o None (Some iv)) (λ o', running o' c k dir iv);
  law_pad_running dir o c k iv : running o c k dir iv → uses live 0 (EVP_CIPHER_CTX_set_padding o 0) (λ o', running o' c k dir iv);
  law_pad_keyed dir o c k : keyed o c k dir → uses live 0 (EVP_CIPHER_CTX_set_padding o 0) (λ o', keyed o' c k dir);
  law_update dir o c k iv x : running o c k dir iv → zlen x mod 16 = 0 →
    uses live 0 (EVP_CipherUpdate dir o x) (λ r, r.1 = (if dir then aes_cbc else aes_cbc_inv) k iv x ∧ drained r.2 c k dir);
  law_final dir o c k : drained o c k dir → uses live 0 (EVP_CipherFinal dir o) (λ r, r.1 = [] ∧ keyed r.2 c k dir);
  law_md_new : uses live 1 EVP_MD_CTX_new (λ _, True);
  law_md_free o s : live (EVP_MD_CTX_free (Some o) s) = live s - 1;
  law_md_free_null s : live (EVP_MD_CTX_free None s) = live s;
  law_sign_init o k : uses live 0 (EVP_DigestSignInit o k) (λ o', md_stage o' (public k) 0);
  law_verify_init o k : uses live 0 (EVP_DigestVerifyInit o k) (λ o', md_stage o' (public k) 0);
  law_md_padding o p : md_stage o p 0 → uses live 0 (md_set_rsa_padding o RSA_PKCS1_PSS_PADDING) (λ o', md_stage o' p 1);
  law_md_salt o p : md_stage o p 1 → uses live 0 (md_set_rsa_pss_saltlen o 32) (λ o', md_stage o' p 2);
  law_md_mgf o p : md_stage o p 2 → uses live 0 (md_set_rsa_mgf1_md o EVP_sha256) (λ o', md_stage o' p 3);
  law_sign o p (pss : bool) cap data : md_stage o p (if pss then 3 else 0)%nat →
    uses live 0 (EVP_DigestSign o cap data) (λ sig, bytes_ok sig ∧ zlen sig ≤ cap ∧ signed pss p sig data);
  law_verify o p (pss : bool) sig data : md_stage o p (if pss then 3 else 0)%nat →
    uses live 0 (EVP_DigestVerify o sig data) (λ _, signed pss p sig data);
  law_pctx_new k : uses live 1 (EVP_PKEY_CTX_new k) (λ o, oaep_stage o (public k) true 0 ∧ oaep_stage o (public k) false 0);
  law_pctx_free o s : live (EVP_PKEY_CTX_free o s) = live s - 1;
  law_crypt_init (enc : bool) o p : oaep_stage o p enc 0 → uses live 0 (EVP_PKEY_crypt_init enc o) (λ o', oaep_stage o' p enc 1);
  law_oaep_padding o p enc : oaep_stage o p enc 1 → uses live 0 (EVP_PKEY_CTX_set_rsa_padding o RSA_PKCS1_OAEP_PADDING) (λ o', oaep_stage o' p enc 2);
  law_oaep_md o p enc : oaep_stage o p enc 2 → uses live 0 (EVP_PKEY_CTX_set_rsa_oaep_md o EVP_sha256) (λ o', oaep_stage o' p enc 3);
  law_oaep_mgf o p enc : oaep_stage o p enc 3 → uses live 0 (EVP_PKEY_CTX_set_rsa_mgf1_md o EVP_sha256) (λ o', oaep_stage o' p enc 4);
  law_crypt (enc sha : bool) o p cap x : oaep_stage o p enc (if sha then 4 else 2)%nat → bytes_ok x → uses live 0 (EVP_PKEY_crypt enc o cap x)
    (λ y, bytes_ok y ∧ zlen y ≤ cap ∧ if enc then opens sha p y x else opens sha p x y);
  law_pkey_free k s : live (EVP_PKEY_free k s) = live s - 1;
  law_bits k : EVP_PKEY_get_bits k = pub_bits (public k);
  law_d2i c : uses live 1 (d2i_X509 c) (λ x, decodes x c);
  law_pubkey x c : decodes x c → uses live 1 (X509_get_pubkey x) (λ k, certificate_key c = Some (public k));
  law_x509_free x s : live (X509_free x s) = live s - 1;
  law_before x c : decodes x c → makes live 0 (X509_cmp_notBefore x) (λ r, r < 0 → begun c);
  law_after x c : decodes x c → makes live 0 (X509_cmp_notAfter x) (λ r, 0 < r → unexpired c);
  law_gen n : uses live 1 (EVP_RSA_gen n) (λ _, True);
  law_x509_new : uses live 1 X509_new (λ _, True);
  law_version x n : uses live 0 (X509_set_version x n) (λ _, True);
  law_serial x n s : live (X509_set_serialNumber x n s) = live s;
  law_set_before x n s : live (X509_set_notBefore x n s) = live s;
  law_set_after x n s : live (X509_set_notAfter x n s) = live s;
  law_name x n s : live (X509_add_common_name x n s) = live s;
  law_issuer x : uses live 0 (X509_set_issuer_name_to_subject x) (λ _, True);
  law_set_pubkey x k : uses live 0 (X509_set_pubkey x k) (λ _, True);
  law_x509_sign x k md : uses live 0 (X509_sign x k md) (λ _, True);
  law_i2d_length x : makes live 0 (i2d_X509_length x) (λ _, True);
  law_i2d x : makes live 0 (i2d_X509 x) (λ _, True);
  law_malloc n : uses live 1 (OPENSSL_malloc n) (λ _, True);
  law_openssl_free s : live (OPENSSL_free s) = live s - 1
}.

Section laws.
  Context {Lib : Type} {ssl : OpenSSL Lib} {heap : CHeap Lib} {model : HostModel} {live : Lib → Z}.
  Context {laws : OpenSSLLaws ssl model live} {heap_laws : CHeapLaws heap live}.

#[local] Hint Resolve law_digest law_hmac law_ctx_new law_init_full law_init_key law_init_iv law_pad_running law_pad_keyed law_update law_final
  law_md_new law_sign_init law_verify_init law_md_padding law_md_salt law_md_mgf law_pctx_new law_crypt_init law_oaep_padding law_oaep_md
  law_oaep_mgf law_d2i law_pubkey law_before law_after law_gen law_x509_new law_version law_issuer law_set_pubkey
  law_x509_sign law_i2d_length law_i2d law_malloc : lib.

Ltac count := repeat first [rewrite law_ctx_free | rewrite law_md_free | rewrite law_md_free_null | rewrite law_pctx_free | rewrite law_pkey_free
  | rewrite law_x509_free | rewrite law_serial | rewrite law_set_before | rewrite law_set_after | rewrite law_name | rewrite law_openssl_free
  | rewrite heap_free]; lia.
Ltac lib_run := apply lwp_uses; intros s; repeat lib_step; try count.

(** The code under [attempt] satisfies [H]. *)
Ltac lib_attempt H := apply lwp_bind, lwp_attempt; eapply lwp_call; [by apply H|cbv beta; intros|cbv beta; intros].

(** ** Symmetric functions *)

Lemma host_hmac_ok key data : uses live 0 (h_hmac_sha256 key data) (λ m, m = hmac_sha256 key data).
Proof. unfold h_hmac_sha256; lib_run; subst; split; [done|count]. Qed.

Lemma host_thumbprint_ok c : uses live 0 (h_get_certificate_thumbprint c) (λ h, h = sha1 c).
Proof. unfold h_get_certificate_thumbprint; lib_run; subst; split; [done|count]. Qed.

(** From a context that was just made, or from one that is keyed. *)
Lemma run_cipher_ok dir o (key : option (evp_cipher * list Z)) c k iv x : key = Some (c, k) ∨ key = None ∧ keyed o c k dir →
  zlen x mod 16 = 0 → uses live 0 (run_cipher dir o key iv x)
    (λ r, r.1 = (if dir then aes_cbc else aes_cbc_inv) k iv x ∧ keyed r.2 c k dir).
Proof.
  intros Hk Hx; apply lwp_uses; intros s; unfold run_cipher; apply lwp_bind.
  assert (Hi : uses live 0 (EVP_CipherInit dir o key (Some iv)) (λ o', running o' c k dir iv)) by (destruct Hk as [->|[-> Hk]]; eauto with lib).
  eapply lwp_call; [exact Hi|cbv beta; intros o' s1 Ho El|cbv beta; intros; lia]; repeat lib_step; try count.
  destruct a0 as [out o2]; cbn in *; destruct_and?; subst; repeat lib_step; try count.
  destruct a0 as [fin o3]; cbn in *; destruct_and?; subst; rewrite app_nil_r; split; [done|count].
Qed.

Lemma aes_once_ok c (dir : bool) key iv x : cipher_key_length c ≤ zlen key → 16 ≤ zlen iv → zlen x mod 16 = 0 →
  uses live 0 (aes_cbc_once c dir key iv x)
    (λ y, y = (if dir then aes_cbc else aes_cbc_inv) (ztake (cipher_key_length c) key) (ztake 16 iv) x).
Proof.
  intros Hk Hi Hx; assert (0 ≤ cipher_key_length c) by (by destruct c); unfold aes_cbc_once; apply lwp_uses; intros s; repeat lib_step; [|count].
  eapply lwp_lift; [apply mem_load_Some; lia|]; apply lwp_bind; eapply lwp_lift; [apply mem_load_Some; lia|].
  change (zdrop 0 key) with key; change (zdrop 0 iv) with iv; apply lwp_bind, lwp_attempt.
  eapply lwp_call; [by eapply run_cipher_ok; [by left|]|cbv beta; intros r s2 [Er _] El|cbv beta; intros]; repeat lib_step; try count; split; [done|count].
Qed.

(** ** RSA *)

Lemma pubkey_ok c : uses live 1 (pubkey_from_cert c) (λ k, certificate_key c = Some (public k)).
Proof. unfold pubkey_from_cert; lib_run; split; [done|count]. Qed.
#[local] Hint Resolve pubkey_ok : lib.

(** What the set-up of a digest context does. *)
Definition sets (pss : bool) (set_up : EVP_MD_CTX → M Lib EVP_MD_CTX) : Prop :=
  ∀ o p, md_stage o p 0 → uses live 0 (set_up o) (λ o', md_stage o' p (if pss then 3 else 0)%nat).

Lemma sets_none : sets false mret.
Proof. intros o p Ho; lib_run; split; [done|count]. Qed.

Lemma sets_pss : sets true set_pss.
Proof. intros o p Ho; unfold set_pss; lib_run; split; [done|count]. Qed.

Lemma digest_sign_ok pss set_up key data cap : sets pss set_up →
  uses live 0 (digest_sign set_up key data cap) (λ sig, bytes_ok sig ∧ zlen sig ≤ cap ∧ signed pss (public key) sig data).
Proof.
  intros Hs; assert (Hrun : ∀ md, uses live 0 (md ← EVP_DigestSignInit md key; md ← set_up md; EVP_DigestSign md cap data)
    (λ sig, bytes_ok sig ∧ zlen sig ≤ cap ∧ signed pss (public key) sig data)).
  { intros md; apply lwp_uses; intros s; repeat lib_step; try count.
    eapply lwp_call; [by apply (law_sign _ (public key) pss)|cbv beta; intros|cbv beta; intros; lia]; split; [done|lia]. }
  unfold digest_sign; apply lwp_uses; intros s; do 3 lib_step; [|count]; lib_attempt Hrun; repeat lib_step; try count; split; [done|count].
Qed.

Lemma digest_verify_ok pss set_up c data sig : sets pss set_up →
  uses live 0 (digest_verify set_up c data sig) (λ _, ∃ p, certificate_key c = Some p ∧ signed pss p sig data).
Proof.
  intros Hs; assert (Hrun : ∀ md pk, uses live 0 (md ← EVP_DigestVerifyInit md pk; md ← set_up md; EVP_DigestVerify md sig data)
    (λ _, signed pss (public pk) sig data)).
  { intros md pk; apply lwp_uses; intros s; repeat lib_step; try count.
    eapply lwp_call; [by apply (law_verify _ (public pk) pss)|cbv beta; intros|cbv beta; intros; lia]; split; [done|lia]. }
  unfold digest_verify; apply lwp_uses; intros s; do 3 lib_step; [do 3 lib_step; [|repeat lib_step; count]|count].
  lib_attempt Hrun; repeat lib_step; try count; split; [by eexists|count].
Qed.

Lemma oaep_ok sha pk enc x cap : bytes_ok x → uses live 0 (rsa_oaep_run sha pk enc x cap)
  (λ y, bytes_ok y ∧ zlen y ≤ cap ∧ if enc then opens sha (public pk) y x else opens sha (public pk) x y).
Proof.
  intros Hx; set (Q := λ y : list Z, _); assert (Hrun : ∀ pc, oaep_stage pc (public pk) enc 0 → uses live 0
    (pc ← EVP_PKEY_crypt_init enc pc; pc ← EVP_PKEY_CTX_set_rsa_padding pc RSA_PKCS1_OAEP_PADDING;
     pc ← (if sha then pc ← EVP_PKEY_CTX_set_rsa_oaep_md pc EVP_sha256; EVP_PKEY_CTX_set_rsa_mgf1_md pc EVP_sha256 else mret pc);
     EVP_PKEY_crypt enc pc cap x) Q).
  { intros pc Hpc; apply lwp_uses; intros s; destruct sha; repeat lib_step; try count;
      [eapply lwp_call; [by apply (law_crypt enc true _ (public pk))|cbv beta; intros|cbv beta; intros; lia]
      |eapply lwp_call; [by apply (law_crypt enc false _ (public pk))|cbv beta; intros|cbv beta; intros; lia]]; split; (done || lia). }
  unfold rsa_oaep_run; apply lwp_uses; intros s; do 3 lib_step; [|count]; destruct H as [H1 H2].
  apply lwp_bind, lwp_attempt; eapply lwp_call; [apply Hrun; by destruct enc|cbv beta; intros|cbv beta; intros];
    repeat lib_step; try count; split; [done|count].
Qed.

Lemma host_oaep_encrypt_ok sha c x cap : bytes_ok x → uses live 0 (oaep_encrypt (rsa_oaep_run sha) c x cap)
  (λ y, bytes_ok y ∧ zlen y ≤ cap ∧ ∃ p, certificate_key c = Some p ∧ opens sha p y x).
Proof.
  intros Hx; unfold oaep_encrypt; apply lwp_uses; intros s; do 3 lib_step; [|count].
  apply lwp_bind, lwp_attempt; eapply lwp_call; [by apply oaep_ok|cbv beta; intros y s2 (?&?&?) El|cbv beta; intros]; repeat lib_step; try count.
  split; [split_and!; [done..|by eexists]|count].
Qed.

Lemma host_key_bits_ok c : uses live 0 (h_get_certificate_key_bits c) (λ n, ∃ p, certificate_key c = Some p ∧ n = to_size (pub_bits p)).
Proof. unfold h_get_certificate_key_bits; lib_run; split; [eexists; split; [done|by rewrite law_bits]|count]. Qed.

Lemma host_validity_ok c : uses live 0 (h_verify_certificate_validity c) (λ _, begun c ∧ unexpired c).
Proof.
  unfold h_verify_certificate_validity; lib_run; bool_hyps; split; [|count].
  lazymatch goal with H1 : _ < 0 → begun c, H2 : 0 < _ → unexpired c |- _ => split; [apply H1|apply H2]; lia end.
Qed.

(** ** Construction *)

(** The objects a context holds. *)
Definition owned (cx : host_crypto_context) : Z :=
  (if is_null (hx_key cx) then 0 else 1) + (if is_null (hx_cert_der cx) then 0 else 1).

Lemma complete_ok x key : uses live 0 (X509_set_issuer_name_to_subject x;; X509_set_pubkey x key;; X509_sign x key EVP_sha256) (λ _, True).
Proof. lib_run. Qed.

Lemma encode_ok x key s (Q : option (list Z) → Lib → Prop) E :
  (∀ r s', live s' = live s + (if is_null r then 0 else 1) → Q r s') → lwp (encode_certificate x key) Q E s.
Proof.
  intros HQ; unfold encode_certificate; lib_attempt complete_ok; repeat lib_step; apply HQ; cbn; count.
Qed.

Lemma build_ok s (Q : bool * host_crypto_context → Lib → Prop) E :
  (∀ r s', live s' = live s + owned r.2 → (r.1 = true → owned r.2 = 2) → Q r s') → lwp build_self_signed Q E s.
Proof.
  intros HQ; unfold build_self_signed; do 3 lib_step; [|repeat lib_step; apply HQ; unfold owned; cbn; (done || lia)].
  do 3 lib_step; [|repeat lib_step; apply HQ; unfold owned; cbn; (done || lia)].
  assert (Hend : ∀ der s1, live s1 = live s + 2 + (if is_null der then 0 else 1) →
    lwp (void (X509_free a0);; mret (match der with Some der => 0 <? zlen der | None => false end, mk_host_context (Some a) der)) Q E s1).
  { intros der s1 El; repeat lib_step; apply HQ; unfold owned; cbn; [count|by destruct der]. }
  do 3 lib_step; apply lwp_bind; [|apply lwp_ret; refine (Hend None _ _); cbn; lia].
  repeat (apply lwp_bind, lwp_void); apply encode_ok; intros r s3 El; apply Hend.
  rewrite El, law_name, law_set_after, law_set_before, law_serial; lia.
Qed.

Lemma free_context_ok cx s (Q : unit → Lib → Prop) E :
  (∀ s', live s' = live s - owned cx - 1 → Q tt s') → lwp (free_context cx) Q E s.
Proof.
  intros HQ; destruct cx as [[key|] [der|]]; unfold free_context; cbn [hx_key hx_cert_der]; repeat lib_step; apply HQ; unfold owned; cbn; count.
Qed.
End laws.

(** ** The contracts *)

(** Addresses are new, not NULL and of 32 bits. *)
Class HandleAllocLaws {Lib} {ssl : OpenSSL Lib} (alloc : HandleAlloc Lib) := {
  handle_fresh w h : calloc_handle w = Some h → 0 < h < 4294967296 ∧ hw_handles w !! h = None
}.

Section contract.
  Context {Lib : Type} {ssl : OpenSSL Lib} {heap : CHeap Lib} {alloc : HandleAlloc Lib} {model : HostModel} {live : Lib → Z}.
  Context {laws : OpenSSLLaws ssl model live} {heap_laws : CHeapLaws heap live} {alloc_laws : HandleAllocLaws alloc}.

Lemma on_lib_delivers {A} d (m : M Lib A) Q : uses live d m Q → delivers (on_lib m) Q.
Proof. intros Hm w; specialize (Hm (hw_lib w)); unfold on_lib; destruct (m _) as [[a|e|] s']; by destruct Hm. Qed.

#[local] Instance host_system : RsaSystem.
Proof.
  refine {| sys_bits := λ c, match certificate_key c with Some p => to_size (pub_bits p) | None => 0 end; sys_thumb := sha1;
            sys_valid := λ pss c data sig, ∃ p, certificate_key c = Some p ∧ signed pss p sig data;
            sys_opens := λ sha c y x, ∃ p, certificate_key c = Some p ∧ opens sha p y x;
            sys_current := λ c, begun c ∧ unexpired c |}.
  - intros c; destruct (certificate_key c) as [k|]; [apply (to_unsigned_range 32); lia|by ranges].
  - apply sha1_octets.
Defined.

(** The context holds a certificate and the private key of it. *)
Definition own_pair (cx : host_crypto_context) (own : list Z) : Prop :=
  hx_cert_der cx = Some own ∧ 0 < zlen own ∧ bytes_ok own ∧
  ∃ key, hx_key cx = Some key ∧ certificate_key own = Some (public key).

(** With the own key, a function of the key. *)
Lemma own_key_bind {A} cx key (k : EVP_PKEY → M Lib A) s : hx_key cx = Some key → (own_key cx ≫= k) s = k key s.
Proof. intros E; unfold own_key; by rewrite E. Qed.

Lemma with_own_key {A} cx key (k : EVP_PKEY → M Lib A) Q : hx_key cx = Some key → uses live 0 (k key) Q → uses live 0 (own_key cx ≫= k) Q.
Proof. intros E Hk s; rewrite (own_key_bind cx key) by done; apply Hk. Qed.

Lemma host_asymmetric cx own : own_pair cx own → RsaContract host_system (host_functions cx) own.
Proof.
  intros (Ec & Hl & Hb & key & Ek & Hp); split; cbn -[on_lib].
  - done.
  - eexists; split; [reflexivity|]; intros w; unfold on_lib, h_get_own_certificate; by rewrite Ec.
  - eexists; split; [reflexivity|]; intros c; eapply on_lib_delivers, uses_mono; [apply host_key_bits_ok|]; intros n (p & E & ->); by rewrite E.
  - eexists; split; [reflexivity|]; intros c; eapply on_lib_delivers, host_thumbprint_ok.
  - intros f c [= <-]; eapply on_lib_delivers, host_validity_ok.
  - intros [|]; eexists; (split; [reflexivity|]); intros data cap; eapply on_lib_delivers, uses_mono;
      [apply (with_own_key _ key), (digest_sign_ok true _ _ _ _ sets_pss); done| |apply (with_own_key _ key), (digest_sign_ok false _ _ _ _ sets_none); done|];
      intros sig (? & ? & ?); (split_and!; [done..|by eexists]).
  - intros [|]; eexists; (split; [reflexivity|]); intros c data sig; eapply on_lib_delivers;
      [apply (digest_verify_ok true _ _ _ _ sets_pss)|apply (digest_verify_ok false _ _ _ _ sets_none)].
  - intros [|]; eexists; (split; [reflexivity|]); intros c x cap Hx; eapply on_lib_delivers; by apply host_oaep_encrypt_ok.
  - intros [|]; eexists; (split; [reflexivity|]); intros y cap Hy; eapply on_lib_delivers, uses_mono;
      [by apply (with_own_key _ key), oaep_ok| |by apply (with_own_key _ key), oaep_ok|]; intros x (? & ? & ?); (split_and!; [done..|by eexists]).
Qed.

Lemma host_aes c dir : computes_aes (8 * cipher_key_length c) dir (λ key iv x, on_lib (aes_cbc_once c dir key iv x)).
Proof.
  intros key iv x (Hk & Hi & Hx); apply (on_lib_delivers 0).
  replace (8 * cipher_key_length c / 8) with (cipher_key_length c) by (by destruct c); apply aes_once_ok; [destruct c; cbn; lia|lia|done].
Qed.

(** The OpenSSL adapter keeps its documented contract: when libcrypto does
    what it documents (any call may fail) and the context holds the key of its
    certificate, the RSA and certificate functions satisfy [RsaContract], the
    HMAC function computes HMAC-SHA-256, and the AES functions compute AES-CBC
    under the first 32 or 16 octets of the key field. Construction leaves the
    context, a key and a certificate alive or, when any step fails, nothing,
    and the clean-up frees them. *)
Theorem host_keeps_contract cx own adapter : own_pair cx own →
  RsaContract host_system (host_functions cx) own ∧
  (∀ key data, delivers (on_lib (h_hmac_sha256 key data)) (λ m, m = hmac_sha256 key data)) ∧
  computes_aes 256 true (λ key iv x, on_lib (h_aes_encrypt key iv x)) ∧ computes_aes 256 false (λ key iv x, on_lib (h_aes_decrypt key iv x)) ∧
  computes_aes 128 true (λ key iv x, on_lib (h_aes128_encrypt key iv x)) ∧ computes_aes 128 false (λ key iv x, on_lib (h_aes128_decrypt key iv x)) ∧
  uses live 3 (mu_host_crypto_adapter_init adapter) (λ x, x.2 = host_functions x.1) ∧
  uses live (-3) (mu_host_crypto_adapter_cleanup (Some cx)) (λ _, True).
Proof.
  intros Hp; split; [by apply host_asymmetric|]; split; [intros; eapply on_lib_delivers, host_hmac_ok|].
  split_and!; [apply (host_aes EVP_aes_256_cbc true)|apply (host_aes EVP_aes_256_cbc false)|apply (host_aes EVP_aes_128_cbc true)
    |apply (host_aes EVP_aes_128_cbc false)|..].
  - unfold mu_host_crypto_adapter_init; apply lwp_uses; intros s; destruct adapter; cbn [negb]; [|by apply lwp_fail].
    do 3 lib_step; [|lia]; apply lwp_bind, build_ok; intros [ok cx'] s1 El Hok; destruct ok; cbn [negb fst snd] in *.
    + apply lwp_ret; split; [done|]; rewrite Hok in El by done; lia.
    + apply lwp_bind, free_context_ok; intros s2 El2; apply lwp_fail; [done|lia].
  - destruct Hp as (Ec & _ & _ & key & Ek & _); apply lwp_uses; intros s; apply free_context_ok; intros s' El; split; [done|].
    rewrite El; unfold owned; rewrite Ec, Ek; cbn; lia.
Qed.
(** ** The life of a cipher context *)

(** Objects of the library and blocks. *)
Definition world_live (w : host_world Lib) : Z := live (hw_lib w) + Z.of_nat (size (hw_handles w)).

(** The storage holds the address of a block with both contexts keyed. *)
Definition prepared (key storage : list Z) (w : host_world Lib) : Prop :=
  ∃ h e d, mem_load storage 0 4 ≫= mu_binary_le_get_u32 = Some h ∧ h ≠ 0 ∧ hw_handles w !! h = Some (Some e, Some d) ∧
    keyed e EVP_aes_256_cbc key true ∧ keyed d EVP_aes_256_cbc key false.

Lemma lwp_on_lib {A} d (m : M Lib A) P (Q : A → host_world Lib → Prop) (E : host_world Lib → Prop) w : uses live d m P →
  (∀ a s, P a → live s = live (hw_lib w) + d → Q a (mk_host_world s (hw_handles w))) →
  (∀ s, live s = live (hw_lib w) → E (mk_host_world s (hw_handles w))) → lwp (on_lib m) Q E w.
Proof.
  intros Hm HQ HE; specialize (Hm (hw_lib w)); unfold lwp, on_lib; destruct (m _) as [[a|e|] s]; [|..|done]; destruct Hm; auto.
Qed.

Lemma lwp_on_lib_attempt {A} d (m : M Lib A) P (Q : result A → host_world Lib → Prop) (E : host_world Lib → Prop) w : uses live d m P →
  (∀ a s, P a → live s = live (hw_lib w) + d → Q (Ok a) (mk_host_world s (hw_handles w))) →
  (∀ e s, live s = live (hw_lib w) → Q (Err e) (mk_host_world s (hw_handles w))) → lwp (on_lib (attempt m)) Q E w.
Proof.
  intros Hm HQ HE; specialize (Hm (hw_lib w)); unfold lwp, on_lib, attempt; destruct (m _) as [[a|e|] s]; [|..|done]; destruct Hm; auto.
Qed.

Definition ctx_count (ctx : option EVP_CIPHER_CTX) : Z := if is_null ctx then 0 else 1.

Lemma free_handle_ok h e d w (Q : unit → host_world Lib → Prop) E : h ≠ 0 → hw_handles w !! h = Some (e, d) →
  (∀ s, live s = live (hw_lib w) - ctx_count e - ctx_count d → Q tt (mk_host_world s (delete h (hw_handles w)))) →
  lwp (free_cipher_handle h) Q E w.
Proof.
  intros Hh El HQ; unfold free_cipher_handle; rewrite (proj2 (Z.eqb_neq h 0)) by done; apply lwp_bind; unfold lwp at 1, deref; rewrite El.
  destruct e, d; cbn; unfold lwp, on_lib, void, drop_handle, mbind, M_bind; cbn; apply HQ; rewrite ?law_ctx_free; cbn; lia.
Qed.

Lemma put_get_handle storage h : 0 ≤ h < 4294967296 → 4 ≤ zlen storage → ∃ storage',
  mem_store storage 0 (mu_binary_le_put_u32 h) = Some storage' ∧ mem_load storage' 0 4 ≫= mu_binary_le_get_u32 = Some h ∧ zlen storage' = zlen storage.
Proof.
  intros Hh Hl; assert (Hp : zlen (mu_binary_le_put_u32 h) = 4) by apply put_u32_length.
  rewrite mem_store_Some by lia; eexists; split; [reflexivity|]; change (ztake 0 storage) with (@nil Z); cbn [app].
  rewrite mem_load_Some by (rewrite ?zlen_app, ?zlen_zdrop by lia; lia); change (zdrop 0 ?x) with x.
  rewrite <- Hp at 1; rewrite ztake_app, zlen_app, zlen_zdrop by lia; cbn [mbind option_bind]; split; [|lia].
  rewrite le_put_u32_bytes, <- (app_nil_r (le_bytes 4 h)); by apply get_u32_bytes.
Qed.

Lemma schedule_ok key e d : uses live 0 (e ← schedule true e key; d ← schedule false d key; mret (e, d))
  (λ r, keyed r.1 EVP_aes_256_cbc key true ∧ keyed r.2 EVP_aes_256_cbc key false).
Proof.
  assert (H : ∀ dir o, uses live 0 (schedule dir o key) (λ o', keyed o' EVP_aes_256_cbc key dir)).
  { intros dir o; apply lwp_uses; intros s; unfold schedule; apply lwp_bind.
    eapply lwp_call; [apply law_init_key|cbv beta; intros|cbv beta; intros; lia].
    eapply lwp_call; [by apply law_pad_keyed|cbv beta; intros|cbv beta; intros; lia]; split; [done|lia]. }
  apply lwp_uses; intros s; apply lwp_bind; eapply lwp_call; [apply H|cbv beta; intros|cbv beta; intros; lia].
  apply lwp_bind; eapply lwp_call; [apply H|cbv beta; intros|cbv beta; intros; lia]; apply lwp_ret; split; [done|lia].
Qed.

Lemma cipher_init_ok key storage w : zlen key = 32 → 4 ≤ zlen storage →
  lwp (h_cipher_ctx_init key storage)
    (λ storage' w', prepared key storage' w' ∧ zlen storage' = zlen storage ∧ world_live w' = world_live w + 3)
    (λ w', hw_handles w' = hw_handles w ∧ world_live w' = world_live w) w.
Proof.
  intros Hk Hs; unfold h_cipher_ctx_init; apply lwp_bind; unfold lwp at 1, new_handle.
  destruct (calloc_handle w) as [h|] eqn:Eh; [|done]; destruct (handle_fresh _ _ Eh) as [Hh Hf]; set (w1 := mk_host_world _ _).
  assert (Hfree : ∀ e d s x, live s = live (hw_lib w) + ctx_count e + ctx_count d → x ≠ MU_STATUS_GOOD →
    lwp (free_cipher_handle h;; fail x) (λ storage' w', prepared key storage' w' ∧ zlen storage' = zlen storage ∧ world_live w' = world_live w + 3)
      (λ w', hw_handles w' = hw_handles w ∧ world_live w' = world_live w) (mk_host_world s (<[h := (e, d)]> (hw_handles w)))).
  { intros e d s x El Hx; apply lwp_bind, (free_handle_ok _ e d); [lia|apply lookup_insert_eq|]; intros s' El'; apply lwp_fail; [done|].
    cbn [hw_handles hw_lib] in *; rewrite delete_insert_id by done; split; [done|]; unfold world_live; cbn; lia. }
  apply lwp_bind; eapply lwp_on_lib_attempt; [apply law_ctx_new|intros e s1 _ E1|intros x s1 E1];
    (apply lwp_bind; eapply lwp_on_lib_attempt; [apply law_ctx_new|intros d s2 _ E2|intros y s2 E2]);
    apply lwp_bind; unfold lwp at 1, set_handle; cbn [hw_handles hw_lib w1] in *; rewrite insert_insert_eq;
    try (apply Hfree; [cbn; lia|done]).
  apply lwp_bind; eapply lwp_lift; [apply mem_load_all; done|]; apply lwp_bind.
  eapply lwp_on_lib_attempt; [apply schedule_ok|intros [e' d'] s3 [He Hd] E3|intros x s3 E3]; cbn [hw_handles hw_lib] in *.
  - apply lwp_bind; unfold lwp at 1, set_handle; cbn [hw_handles hw_lib]; rewrite insert_insert_eq.
    destruct (put_get_handle storage h) as (storage' & Es & Eg & Hl); [lia|done|]; unfold store_cipher_handle; rewrite Es; apply lwp_ret.
    split_and!; [|done|unfold world_live; cbn; rewrite map_size_insert_None by done; lia].
    exists h, e', d'; split_and!; [done|lia|apply lookup_insert_eq|done|done].
  - apply Hfree; [cbn; lia|done].
Qed.
Lemma cipher_use_ok (dir : bool) key storage iv x w : prepared key storage w → aes_input key iv x →
  lwp (aes_cbc_ctx dir storage iv x)
    (λ r w', r = ((if dir then aes_cbc else aes_cbc_inv) key iv x, storage) ∧ prepared key storage w' ∧ world_live w' = world_live w)
    (λ w', prepared key storage w' ∧ world_live w' = world_live w) w.
Proof.
  intros (h & e & d & Eh & Hh & El & He & Hd) (Hk & Hi & Hx); unfold aes_cbc_ctx, load_cipher_handle; rewrite Eh.
  apply lwp_bind, lwp_ret; rewrite (proj2 (Z.eqb_neq h 0)) by done; apply lwp_bind; unfold lwp at 1, deref; rewrite El.
  set (ctx := if dir then e else d); assert (Hc : keyed ctx EVP_aes_256_cbc key dir) by (by destruct dir).
  assert (Ec : (if dir then (Some e, Some d).1 else (Some e, Some d).2) = Some ctx) by (by destruct dir); rewrite Ec.
  apply lwp_bind; eapply lwp_lift; [by apply mem_load_all|]; apply lwp_bind.
  assert (Hrun : uses live 0 (or_status MU_STATUS_BAD_INTERNALERROR (run_cipher dir ctx None iv x))
    (λ r, r.1 = (if dir then aes_cbc else aes_cbc_inv) key iv x ∧ keyed r.2 EVP_aes_256_cbc key dir)).
  { apply lwp_uses; intros s; apply lwp_status; [done|]; eapply lwp_call; [by eapply run_cipher_ok; [by right|]|by intros; split; [|lia]|by intros; lia]. }
  eapply lwp_on_lib; [exact Hrun|intros [out ctx'] s [Eo Hc'] Es|intros s Es]; cbn [fst snd] in *.
  - apply lwp_bind; unfold lwp at 1, set_handle; cbn [hw_handles hw_lib]; apply lwp_ret; subst out; split; [done|]; split.
    + exists h; destruct dir; [exists ctx', d|exists e, ctx']; (split_and!; [done|done|apply lookup_insert_eq|done|done]).
    + unfold world_live; cbn; rewrite map_size_insert_Some by eauto; lia.
  - split; [by exists h, e, d|]; unfold world_live; cbn; lia.
Qed.

Lemma cipher_free_ok key storage w : prepared key storage w → 4 ≤ zlen storage → ∃ storage' w',
  h_cipher_ctx_free storage w = (Ok storage', w') ∧ world_live w' = world_live w - 3 ∧ h_cipher_ctx_free storage' w' = (Ok storage', w').
Proof.
  intros (h & e & d & Eh & Hh & El & _) Hs; destruct (put_get_handle storage 0) as (storage' & Es & Eg & Hl); [lia|done|].
  assert (Hsame : mem_store storage' 0 (mu_binary_le_put_u32 0) = Some storage').
  { pose proof (put_u32_length 0) as Hp; rewrite mem_store_Some in Es |- * by lia; by injection Es as <-. }
  assert (Hw : lwp (h_cipher_ctx_free storage) (λ st w', st = storage' ∧ world_live w' = world_live w - 3) (λ _, False) w).
  { unfold h_cipher_ctx_free, load_cipher_handle; rewrite Eh; apply lwp_bind, lwp_ret, lwp_bind, (free_handle_ok _ (Some e) (Some d)); [done|done|].
    intros s Els; unfold store_cipher_handle; rewrite Es; apply lwp_ret; split; [done|]; unfold world_live; cbn in *.
    rewrite map_size_delete_Some by eauto; assert (size (hw_handles w) ≠ 0%nat) by (apply map_size_ne_0_lookup; eauto); lia. }
  unfold lwp in Hw; destruct (h_cipher_ctx_free storage w) as [[st|x|] w'] eqn:Ef; [|by destruct Hw..]; destruct Hw as [-> Hw].
  exists storage', w'; split_and!; [done|done|]; unfold h_cipher_ctx_free, load_cipher_handle, store_cipher_handle.
  rewrite Eg, Hsame; reflexivity.
Qed.

(** C30: the life of a channel's cipher context on the OpenSSL adapter. When it
    can be prepared for a key, the storage leads to a block with a context for
    each direction; when preparing fails at any step, the blocks are as before
    and nothing stays alive. A prepared context encrypts and decrypts like the
    key it was prepared for, any number of times, and stays prepared even when
    a call fails. Freeing it frees the block and both contexts and clears the
    storage, so that freeing it again does nothing. *)
Theorem host_cipher_life key storage w : zlen key = 32 → 4 ≤ zlen storage →
  match h_cipher_ctx_init key storage w with
  | (Ok storage', w') => prepared key storage' w' ∧ world_live w' = world_live w + 3 ∧
      ∀ w'', prepared key storage' w'' →
      (∀ (dir : bool) iv x, aes_input key iv x →
        match (if dir then h_aes_encrypt_ctx else h_aes_decrypt_ctx) storage' iv x w'' with
        | (Ok (y, st), w3) => y = (if dir then aes_cbc else aes_cbc_inv) key iv x ∧ st = storage' ∧ prepared key storage' w3 ∧ world_live w3 = world_live w''
        | (Err e, w3) => e ≠ MU_STATUS_GOOD ∧ prepared key storage' w3 ∧ world_live w3 = world_live w''
        | (Fault, _) => False
        end) ∧
      ∃ st w3, h_cipher_ctx_free storage' w'' = (Ok st, w3) ∧ world_live w3 = world_live w'' - 3 ∧ h_cipher_ctx_free st w3 = (Ok st, w3)
  | (Err e, w') => e ≠ MU_STATUS_GOOD ∧ hw_handles w' = hw_handles w ∧ world_live w' = world_live w
  | (Fault, _) => False
  end.
Proof.
  intros Hk Hs; pose proof (cipher_init_ok key storage w Hk Hs) as Hi; unfold lwp in Hi.
  destruct (h_cipher_ctx_init key storage w) as [[st|e|] w']; [|done..]; destruct Hi as (Hp & Hl & Hw); split_and!; [done..|].
  intros w'' Hp'; split; [|apply (cipher_free_ok key); [done|lia]]; intros dir iv x Hx; pose proof (cipher_use_ok dir key st iv x w'' Hp' Hx) as Hu.
  unfold lwp, h_aes_encrypt_ctx, h_aes_decrypt_ctx in *; destruct dir;
    (destruct (aes_cbc_ctx _ st iv x w'') as [[[y st']|e|] w3]; [destruct Hu as ([= -> ->] & ? & ?)|..]; done).
Qed.
End contract.

(** ** A library to run on *)

(** The state counts the objects that are alive. *)
Module HostSample.
Definition made {A} (d : Z) (a : A) : M Z A := λ s, (Ok a, s + d).
Definition bump {A} (a : A) (s : Z) : A * Z := (a, s).
Definition fits (cap : Z) (x : list Z) : M Z (list Z) := if cap <? zlen x then fail 1 else mret x.

Definition ssl : OpenSSL Z := {|
  EVP_CIPHER_CTX := unit; EVP_MD_CTX := unit; EVP_PKEY := unit; EVP_PKEY_CTX := unit; X509 := list Z;
  EVP_Digest md x := mret (repeat (checksum x) (match md with EVP_sha1 => 20 | EVP_sha256 => 32 end));
  HMAC _ key x := mret (model_hmac key x);
  EVP_CIPHER_CTX_new := made 1 tt; EVP_CIPHER_CTX_free _ s := s - 1;
  EVP_CipherInit _ o _ _ := mret o; EVP_CIPHER_CTX_set_padding o _ := mret o;
  EVP_CipherUpdate dir o x := mret (model_shift (if dir then 5 else -5) x, o); EVP_CipherFinal _ o := mret ([], o);
  EVP_MD_CTX_new := made 1 tt; EVP_MD_CTX_free o s := if is_null o then s else s - 1;
  EVP_DigestSignInit o _ := mret o; EVP_DigestSign _ cap data := fits cap (repeat (checksum data) 256);
  EVP_DigestVerifyInit o _ := mret o;
  EVP_DigestVerify _ sig data := if bool_decide (sig = repeat (checksum data) 256) then mret tt else fail 1;
  md_set_rsa_padding o _ := mret o; md_set_rsa_pss_saltlen o _ := mret o; md_set_rsa_mgf1_md o _ := mret o;
  EVP_PKEY_CTX_new _ := made 1 tt; EVP_PKEY_CTX_free _ s := s - 1; EVP_PKEY_crypt_init _ o := mret o;
  EVP_PKEY_CTX_set_rsa_padding o _ := mret o; EVP_PKEY_CTX_set_rsa_oaep_md o _ := mret o; EVP_PKEY_CTX_set_rsa_mgf1_md o _ := mret o;
  EVP_PKEY_crypt _ _ cap x := fits cap x; EVP_PKEY_free _ s := s - 1; EVP_PKEY_get_bits _ := 2048;
  d2i_X509 c := match c with [] => fail 1 | _ => made 1 c end; X509_get_pubkey _ := made 1 tt; X509_free _ s := s - 1;
  X509_cmp_notBefore _ := bump (-1); X509_cmp_notAfter _ := bump 1;
  EVP_RSA_gen _ := made 1 tt; X509_new := made 1 []; X509_set_version _ _ := mret tt;
  X509_set_serialNumber _ _ s := s; X509_set_notBefore _ _ s := s; X509_set_notAfter _ _ s := s; X509_add_common_name _ _ s := s;
  X509_set_issuer_name_to_subject _ := mret tt; X509_set_pubkey _ _ := mret tt; X509_sign _ _ _ := mret tt;
  i2d_X509_length _ := bump 2; i2d_X509 _ := bump [48; 130]; OPENSSL_malloc _ := made 1 tt; OPENSSL_free s := s - 1
|}.

Definition heap : CHeap Z := {| calloc s := (Ok tt, s + 1); c_free s := s - 1 |}.

(** There is memory for one block. *)
Definition alloc : HandleAlloc Z (ssl := ssl) := {| calloc_handle w := if is_null (hw_handles w !! 4096) then Some 4096 else None |}.

Definition model : HostModel := {|
  host_primitives := model_primitives; Pub := unit; pub_bits _ := 2048;
  certificate_key c := match c with [] => None | _ => Some tt end; begun _ := True; unexpired _ := True;
  signed _ _ sig data := sig = repeat (checksum data) 256; opens _ _ y x := y = x
|}.

Lemma uses_made {A} d (a : A) (Q : A → Prop) : Q a → uses (λ s, s) d (made d a) Q.
Proof. by intros HQ s. Qed.

Lemma uses_ret {A} (a : A) (Q : A → Prop) : Q a → uses (λ s : Z, s) 0 (mret a) Q.
Proof. intros HQ s; cbn; split; [done|lia]. Qed.

Lemma host_uses_fits cap x (Q : list Z → Prop) : Q x → uses (λ s, s) 0 (fits cap x) (λ y, Q y ∧ zlen y ≤ cap).
Proof. intros HQ s; unfold fits; destruct (Z.ltb_spec cap (zlen x)); cbn; split; (done || lia). Qed.

Lemma makes_bump {A} (a : A) (Q : A → Prop) : Q a → makes (λ s : Z, s) 0 (bump a) Q.
Proof. intros HQ s; cbn; split; [done|lia]. Qed.

Definition laws : OpenSSLLaws ssl model (λ s, s).
Proof.
  refine {| keyed := λ _ _ _ _, True; running := λ _ _ _ _ _, True; drained := λ _ _ _ _, True; public := λ _, (tt : @Pub model);
            md_stage := λ _ _ _, True; oaep_stage := λ _ _ _ _, True; decodes := (λ o c, o = c ∧ c ≠ []) : @X509 Z ssl → _ |};
    cbn -[repeat]; intros;
    lazymatch goal with
    | |- uses _ _ (mret _) _ => apply uses_ret
    | |- uses _ _ (made _ _) _ => apply uses_made
    | |- makes _ _ _ _ => apply makes_bump; intros
    | _ => idtac
    end; try reflexivity; try exact Logic.I; try (split; (reflexivity || exact Logic.I)).
  - by destruct md.
  - by destruct dir.
  - eapply uses_mono; [by apply (host_uses_fits cap _ (λ y, y = repeat (checksum data) 256))|]; intros y [-> Hl]; split; [|done].
    apply repeat_bytes, checksum_range.
  - destruct (bool_decide _) eqn:Hd; [apply uses_ret; exact (proj1 (bool_decide_eq_true _) Hd)|by intros s; cbn].
  - eapply uses_mono; [by apply (host_uses_fits cap x (λ y, y = x))|]; intros y [-> Hl]; by destruct enc.
  - destruct c; [by intros s; cbn|by apply uses_made].
  - destruct H as [-> Hc]; by destruct c.
Defined.

Lemma host_heap_ok : CHeapLaws heap (λ s, s).
Proof. split; [by apply uses_made|done]. Qed.

Lemma alloc_ok : HandleAllocLaws alloc.
Proof.
  split; intros w h H; unfold calloc_handle, alloc in H; destruct (hw_handles w !! 4096) eqn:E; cbn [is_null] in H; [discriminate H|].
  injection H as <-; split; [lia|exact E].
Qed.

Definition context : @host_crypto_context Z ssl := mk_host_context (ssl := ssl) (Some tt) (Some [48; 130]).
Definition world : @host_world Z ssl := mk_host_world 0 ∅.
End HostSample.

Lemma host_keeps_contract_witness :
  RsaContract (host_system (model := HostSample.model)) (host_functions (ssl := HostSample.ssl) (alloc := HostSample.alloc) HostSample.context) [48; 130] ∧
  (mu_host_crypto_adapter_init (heap := HostSample.heap) (alloc := HostSample.alloc) true 0).2 = 3.
Proof.
  split; [|vm_compute; reflexivity].
  refine (proj1 (@host_keeps_contract Z HostSample.ssl HostSample.heap HostSample.alloc HostSample.model (λ s, s) HostSample.laws HostSample.host_heap_ok
    HostSample.context [48; 130] true _)).
  split_and!; [reflexivity|by vm_compute|by apply bytes_okb|]; by exists tt.
Defined.

(** Preparing, freeing twice: everything is gone and the storage is zero. *)
Lemma host_cipher_life_witness :
  let run := (storage ← h_cipher_ctx_init (alloc := HostSample.alloc) (repeat 7 32) (repeat 9 8); st ← h_cipher_ctx_free storage; h_cipher_ctx_free st) in
  (run HostSample.world).1 = Ok [0; 0; 0; 0; 9; 9; 9; 9] ∧ hw_lib (run HostSample.world).2 = 0 ∧
  match h_cipher_ctx_init (alloc := HostSample.alloc) (repeat 7 32) (repeat 9 8) HostSample.world with
  | (Ok storage', w') => prepared (laws := HostSample.laws) (repeat 7 32) storage' w'
  | _ => True
  end.
Proof.
  split; [vm_compute; reflexivity|]; split; [vm_compute; reflexivity|].
  pose proof (@host_cipher_life Z HostSample.ssl HostSample.alloc HostSample.model (λ s, s) HostSample.laws HostSample.alloc_ok
    (repeat 7 32) (repeat 9 8) HostSample.world eq_refl ltac:(rewrite zlen_repeat; lia)) as H.
  destruct (h_cipher_ctx_init _ _ _) as [[st|e|] w']; [exact (proj1 H)|exact Logic.I|exact Logic.I].
Defined.
