(* ===== verification/Uadp.v ===== *)
(** * UADP network messages

    [src/encoding/uadp_encoder.c] with the data of
    [include/muc_opcua/pubsub.h]: encoding a writer group's DataSet into one
    network message, and the decoder of the subscriber subset. *)

From S2P Require Export Variant Crypto.

Definition MU_PUBSUB_MAX_FIELDS : Z := 8.

Record mu_pubsub_connection_t := mk_pubsub_connection {
  pc_port : Z;
  pc_enabled : bool;
  pc_publisher_id : Z;
  pc_address : option (list Z)
}.

(** A field is its value. *)
Record mu_pubsub_dataset_writer_t := mk_dataset_writer {
  dw_data_set_writer_id : Z;
  dw_fields : option (list mu_variant_t);
  dw_field_count : Z
}.

Record mu_pubsub_writer_group_t := mk_writer_group {
  wg_writer_group_id : Z;
  wg_publishing_interval_ms : Z;
  wg_last_publish_time_ms : Z;
  wg_dataset_writer : mu_pubsub_dataset_writer_t
}.

Record mu_pubsub_received_message_t := mk_received_message {
  rm_publisher_id : Z;
  rm_data_set_writer_id : Z;
  rm_fields : option (list mu_variant_t);
  rm_field_capacity : Z;
  rm_field_count : Z
}.

Definition MU_UADP_FLAGS_VERSION1 : Z := 0x01.
Definition MU_UADP_FLAGS_PUBLISHER_ID : Z := 0x10.
Definition MU_UADP_FLAGS_PAYLOAD_HEADER : Z := 0x40.
Definition MU_UADP_FLAGS_EXTENDED_FLAGS1 : Z := 0x80.
Definition MU_UADP_PUBLISHER_ID_UINT32 : Z := 0x02.
Definition MU_UADP_EXTENDED_FLAGS1_SECURITY_HEADER : Z := 0x10.
Definition MU_UADP_DATASET_FLAGS_VALID_VARIANT : Z := 0x01.

Definition MU_UADP_SUPPORTED_NETWORK_FLAGS : Z :=
  to_u8 (Z.lor (Z.lor (Z.lor MU_UADP_FLAGS_VERSION1 MU_UADP_FLAGS_PUBLISHER_ID) MU_UADP_FLAGS_PAYLOAD_HEADER)
           MU_UADP_FLAGS_EXTENDED_FLAGS1).

Definition mu_pubsub_variant_is_supported_scalar (value : mu_variant_t) : bool := negb (v_is_array value).

Definition mu_uadp_variant_encoding_is_unsupported (encoding_mask : Z) : bool :=
  let type := Z.land encoding_mask 0x3f in
  negb (Z.land encoding_mask 0xc0 =? 0)
  || bool_decide (type ∈ [MU_TYPE_GUID; MU_TYPE_XMLELEMENT; MU_TYPE_EXPANDEDNODEID; MU_TYPE_EXTENSIONOBJECT; MU_TYPE_DATAVALUE;
                          MU_TYPE_VARIANT; MU_TYPE_DIAGNOSTICINFO]).

(** ** Encoding *)

Definition mu_pubsub_patch_u16 (buffer : list Z) (offset value : Z) : option (list Z) :=
  mem_store buffer offset [to_u8 (Z.land value 0xff); to_u8 (Z.land (Z.shiftr value 8) 0xff)].

(** Whether all of the first [n] fields are scalars. *)
Fixpoint fields_supported (n : nat) (fields : list mu_variant_t) : option bool :=
  match n, fields with
  | O, _ => Some true
  | S n, v :: fields => if mu_pubsub_variant_is_supported_scalar v then fields_supported n fields else Some false
  | S _, [] => None
  end.

(** The statuses of the writes are not looked at. *)
Definition write_group_header (conn : mu_pubsub_connection_t) (writer : mu_pubsub_dataset_writer_t) : Wr unit :=
  or_default tt (mu_binary_write_byte MU_UADP_SUPPORTED_NETWORK_FLAGS);;
  or_default tt (mu_binary_write_byte MU_UADP_PUBLISHER_ID_UINT32);;
  or_default tt (mu_binary_write_uint32 (pc_publisher_id conn));;
  or_default tt (mu_binary_write_byte 1);;
  or_default tt (mu_binary_write_uint16 (dw_data_set_writer_id writer)).

(** All up to the DataSetMessage: the offset of its size and its start. *)
Definition write_headers (conn : mu_pubsub_connection_t) (writer : mu_pubsub_dataset_writer_t) : Wr (Z * Z) :=
  write_group_header conn writer;;
  w ← get_state;
  or_default tt (mu_binary_write_uint16 0);;
  w' ← get_state;
  mret (w_position w, w_position w').

Definition write_fields (fields : list mu_variant_t) : Wr unit :=
  or_default tt (mu_binary_write_byte MU_UADP_DATASET_FLAGS_VALID_VARIANT);;
  wr_list (λ v, or_default tt (mu_binary_write_variant v)) fields.

Definition patch_size (offset size : Z) : Wr unit :=
  w ← get_state;
  b ← lift_option (b ← w_buffer w; mu_pubsub_patch_u16 b offset (to_u16 size));
  put_state (mk_writer (Some b) (w_length w) (w_position w) (w_status w)).

Definition write_network_message (conn : mu_pubsub_connection_t) (writer : mu_pubsub_dataset_writer_t) (fields : list mu_variant_t)
    : Wr Z :=
  '(message_size_offset, message_start) ← write_headers conn writer;
  write_fields fields;;
  writer_status;;
  w ← get_state;
  let message_size := to_size (w_position w - message_start) in
  if 0xffff <? message_size then fail MU_STATUS_BAD_ENCODINGLIMITSEXCEEDED
  else
    patch_size message_size_offset message_size;;
    writer_status;;
    mret (w_position w).

(** [bytes_written] tells whether there is a place for the size. *)
Definition mu_encode_uadp_network_message (conn : option mu_pubsub_connection_t) (wg : option mu_pubsub_writer_group_t)
    (buffer_size : Z) (bytes_written : bool) : M (option (list Z)) Z := λ buffer,
  match conn, wg with
  | Some conn, Some wg =>
      if is_null buffer || negb bytes_written then (Err MU_STATUS_BAD_INVALIDARGUMENT, buffer)
      else
        let writer := wg_dataset_writer wg in
        let count := dw_field_count writer in
        let fields := default [] (dw_fields writer) in
        if MU_PUBSUB_MAX_FIELDS <? count then (Err MU_STATUS_BAD_TOOMANYOPERATIONS, buffer)
        else if (0 <? count) && is_null (dw_fields writer) then (Err MU_STATUS_BAD_INVALIDARGUMENT, buffer)
        else
          match fields_supported (Z.to_nat count) fields with
          | None => (Fault, buffer)
          | Some false => (Err MU_STATUS_BAD_NOTSUPPORTED, buffer)
          | Some true =>
              let '(x, w) := write_network_message conn writer (ztake count fields) (mu_binary_writer_init buffer buffer_size) in
              (x, w_buffer w)
          end
  | _, _ => (Err MU_STATUS_BAD_INVALIDARGUMENT, buffer)
  end.

(** ** Decoding *)

(** Every failure of the reader is a decoding error. *)
Definition uadp {A} (m : Rd A) : Rd A := or_status MU_STATUS_BAD_DECODINGERROR m.

Definition uadp_expect (ok : bool) (status : Z) : Rd unit := if ok then mret tt else fail status.

(** Publisher, DataSetWriter and the size of the DataSetMessage. *)
Definition read_message_header : Rd (Z * Z * Z) :=
  flags ← uadp mu_binary_read_byte;
  uadp_expect (flags =? MU_UADP_SUPPORTED_NETWORK_FLAGS) MU_STATUS_BAD_NOTSUPPORTED;;
  extended_flags1 ← uadp mu_binary_read_byte;
  uadp_expect (Z.land extended_flags1 MU_UADP_EXTENDED_FLAGS1_SECURITY_HEADER =? 0) MU_STATUS_BAD_NOTSUPPORTED;;
  uadp_expect (extended_flags1 =? MU_UADP_PUBLISHER_ID_UINT32) MU_STATUS_BAD_NOTSUPPORTED;;
  publisher_id ← uadp mu_binary_read_uint32;
  payload_count ← uadp mu_binary_read_byte;
  uadp_expect (payload_count =? 1) MU_STATUS_BAD_NOTSUPPORTED;;
  data_set_writer_id ← uadp mu_binary_read_uint16;
  size ← uadp mu_binary_read_uint16;
  mret (publisher_id, data_set_writer_id, size).

(** Publisher, DataSetWriter and the reader over the DataSetMessage. *)
Definition read_headers (buffer : list Z) : Rd (Z * Z * mu_binary_reader_t) :=
  '(publisher_id, data_set_writer_id, size) ← read_message_header;
  r ← get_state;
  uadp_expect (size =? to_size (r_length r - r_position r)) MU_STATUS_BAD_DECODINGERROR;;
  put_state (set_r_position r (to_size (r_position r + size)));;
  mret (publisher_id, data_set_writer_id, mu_binary_reader_init (Some (zdrop (r_position r) buffer)) size).

Definition read_data_set_flags : Rd unit :=
  data_set_flags1 ← uadp mu_binary_read_byte;
  uadp_expect (data_set_flags1 =? MU_UADP_DATASET_FLAGS_VALID_VARIANT) MU_STATUS_BAD_NOTSUPPORTED.

(** One field, into the caller's [old] value. *)
Definition read_field (old : mu_variant_t) : Rd mu_variant_t :=
  r ← get_state;
  mask ← lift_option (b ← r_buffer r; znth b (r_position r));
  uadp_expect (negb (mu_uadp_variant_encoding_is_unsupported mask)) MU_STATUS_BAD_NOTSUPPORTED;;
  v ← uadp (mu_binary_read_variant old);
  mret (mk_variant (v_type v) (v_value v) false 0).

(** The rest of the fields from [i] on: how many there are, and the caller's
    storage; [n] counts down to the limit of the decoder. *)
Fixpoint read_fields (n : nat) (i capacity : Z) (fields : list mu_variant_t) (r : mu_binary_reader_t)
    : result Z * mu_binary_reader_t * list mu_variant_t :=
  if r_position r <? r_length r then
    match n with
    | O => (Err MU_STATUS_BAD_TOOMANYOPERATIONS, r, fields)
    | S n =>
        if capacity <=? i then (Err MU_STATUS_BAD_TOOMANYOPERATIONS, r, fields)
        else
          match znth fields i with
          | None => (Fault, r, fields)
          | Some old =>
              match read_field old r with
              | (Ok v, r) => read_fields n (i + 1) capacity (<[Z.to_nat i := v]> fields) r
              | (Err e, r) => (Err e, r, fields)
              | (Fault, r) => (Fault, r, fields)
              end
          end
    end
  else (Ok i, r, fields).

Definition set_received (message : mu_pubsub_received_message_t) (publisher_id data_set_writer_id : Z) (fields : list mu_variant_t)
    (count : Z) : mu_pubsub_received_message_t :=
  mk_received_message publisher_id data_set_writer_id (if is_null (rm_fields message) then None else Some fields)
    (rm_field_capacity message) count.

Definition mu_decode_uadp_network_message (buffer : option (list Z)) (buffer_size : Z) : M (option mu_pubsub_received_message_t) unit :=
  λ message,
  match message with
  | None => (Err MU_STATUS_BAD_INVALIDARGUMENT, None)
  | Some message =>
      let fields := default [] (rm_fields message) in
      let result fields := Some (set_received message (rm_publisher_id message) (rm_data_set_writer_id message) fields 0) in
      match buffer with
      | None => (Err MU_STATUS_BAD_INVALIDARGUMENT, result fields)
      | Some b =>
          if (0 <? rm_field_capacity message) && is_null (rm_fields message) then (Err MU_STATUS_BAD_INVALIDARGUMENT, result fields)
          else
            match read_headers b (mu_binary_reader_init buffer buffer_size) with
            | (Fault, _) => (Fault, result fields)
            | (Err e, _) => (Err e, result fields)
            | (Ok (publisher_id, data_set_writer_id, data_set_reader), binary) =>
                match read_data_set_flags data_set_reader with
                | (Fault, _) => (Fault, result fields)
                | (Err e, _) => (Err e, result fields)
                | (Ok _, data_set_reader) =>
                    let '(x, data_set_reader, fields) :=
                      read_fields (Z.to_nat MU_PUBSUB_MAX_FIELDS) 0 (rm_field_capacity message) fields data_set_reader in
                    match x with
                    | Fault => (Fault, result fields)
                    | Err e => (Err e, result fields)
                    | Ok decoded_fields =>
                        if negb (r_position data_set_reader =? r_length data_set_reader)
                           || negb (r_position binary =? r_length binary)
                        then (Err MU_STATUS_BAD_DECODINGERROR, result fields)
                        else (Ok tt, Some (set_received message publisher_id data_set_writer_id fields decoded_fields))
                    end
                end
            end
      end
  end.

(** ** What a message is on the wire *)

Definition enc_data_set (fields : list mu_variant_t) : list Z := enc_u8 MU_UADP_DATASET_FLAGS_VALID_VARIANT ++ flat_map enc_variant fields.

Definition enc_group_header (publisher_id data_set_writer_id : Z) : list Z :=
  enc_u8 MU_UADP_SUPPORTED_NETWORK_FLAGS ++ enc_u8 MU_UADP_PUBLISHER_ID_UINT32 ++ enc_u32 publisher_id ++ enc_u8 1 ++
  enc_u16 data_set_writer_id.

Definition enc_network_message (publisher_id data_set_writer_id : Z) (fields : list mu_variant_t) : list Z :=
  enc_group_header publisher_id data_set_writer_id ++ enc_u16 (zlen (enc_data_set fields)) ++ enc_data_set fields.

(** ** The encoder *)

(** [m] appends [bs] when there is room for it. *)
Definition wput (m : Wr unit) (bs : list Z) : Prop :=
  bytes_ok bs ∧ ∀ w, writer_ready w → fits w bs → m w = (Ok tt, w_append w bs).

Lemma wput_default m bs : wspec m bs → wput (or_default tt m) bs.
Proof. intros [Hb Hm]; split; [done|]; intros w Hw Hf; unfold or_default; by rewrite (proj1 (Hm w Hw) Hf). Qed.

Lemma wput_ret : wput (mret tt) [].
Proof. destruct wspec_ret as [Hb Hm]; split; [done|]; intros w Hw Hf; by apply Hm. Qed.

Lemma fits_app w bs1 bs2 : writer_ready w → fits w (bs1 ++ bs2) ↔ fits w bs1 ∧ fits (w_append w bs1) bs2.
Proof.
  intros (_ & _ & b & Hb); rewrite (w_append_buffer _ _ _ Hb); unfold fits; cbn; rewrite zlen_app.
  pose proof (zlen_nonneg bs2); lia.
Qed.

(** Run one write and go on from its result. *)
Lemma wput_then {A} m bs (k : Wr A) w : wput m bs → writer_ready w → fits w bs → (m;; k) w = k (w_append w bs).
Proof. intros [_ Hm] Hw Hf; by rewrite (bind_ok _ _ _ _ _ (Hm w Hw Hf)). Qed.

Lemma wput_bind m k bs1 bs2 : wput m bs1 → wput k bs2 → wput (m;; k) (bs1 ++ bs2).
Proof.
  intros H1 [Hb2 H2]; pose proof H1 as [Hb1 _]; split; [by apply bytes_ok_app|]; intros w Hw Hf.
  pose proof (proj1 (fits_app w bs1 bs2 Hw) Hf) as [Hf1 Hf2].
  rewrite (wput_then m bs1) by done; rewrite H2 by (done || by apply w_append_ready); by rewrite w_append_app.
Qed.

Lemma wput_list {A} (item : A → Wr unit) enc l :
  Forall (λ x, wput (item x) (enc x)) l → wput (wr_list item l) (flat_map enc l).
Proof. induction 1; cbn [wr_list flat_map]; [apply wput_ret|by apply wput_bind]. Qed.

Lemma wput_group_header conn writer : u32_range (pc_publisher_id conn) → u16_range (dw_data_set_writer_id writer) →
  wput (write_group_header conn writer) (enc_group_header (pc_publisher_id conn) (dw_data_set_writer_id writer)).
Proof.
  intros Hp Hd; unfold enc_group_header; repeat apply wput_bind; apply wput_default; try (apply wspec_write_byte; by vm_compute); auto with wspec.
Qed.

Lemma wput_write_fields fields : Forall scalar_variant fields → wput (write_fields fields) (enc_data_set fields).
Proof.
  intros Hf; unfold write_fields, enc_data_set; apply wput_bind; [by apply wput_default, wspec_write_byte|].
  apply wput_list; eapply Forall_impl; [exact Hf|]; intros v Hv; by apply wput_default, wspec_write_variant.
Qed.

Lemma zlen_enc_group_header p d : zlen (enc_group_header p d) = 9.
Proof. done. Qed.

Lemma w_append_position w bs : writer_ready w → w_position (w_append w bs) = w_position w + zlen bs.
Proof. intros (_ & _ & b & Hb); by rewrite (w_append_buffer _ _ _ Hb). Qed.

Lemma write_headers_run conn writer w : u32_range (pc_publisher_id conn) → u16_range (dw_data_set_writer_id writer) →
  writer_ready w → w_position w = 0 →
  let hdr := enc_group_header (pc_publisher_id conn) (dw_data_set_writer_id writer) in
  fits w (hdr ++ enc_u16 0) → write_headers conn writer w = (Ok (9, 11), w_append w (hdr ++ enc_u16 0)).
Proof.
  intros Hp Hd Hw H0 hdr Hf; pose proof (proj1 (fits_app w _ _ Hw) Hf) as [Hf1 Hf2].
  pose proof (wput_group_header conn writer Hp Hd) as Hput; pose proof Hput as [Hbytes _].
  pose proof (w_append_ready w hdr Hw Hbytes Hf1) as Hw1; unfold write_headers; rewrite (wput_then _ hdr) by done.
  rewrite (bind_ok get_state _ _ (w_append w hdr) (w_append w hdr)) by done.
  rewrite (wput_then _ (enc_u16 0)) by (done || by apply wput_default; auto with wspec).
  rewrite (bind_ok get_state _ _ _ _ eq_refl), w_append_app by done.
  by rewrite !w_append_position, zlen_app, H0 by done.
Qed.

(** The size goes over its two octets. *)
Lemma patch_size_run w hdr rest size : writer_ready w → w_position w = 0 → fits w (hdr ++ enc_u16 0 ++ rest) →
  0 ≤ size ≤ 0xffff →
  patch_size (zlen hdr) size (w_append w (hdr ++ enc_u16 0 ++ rest)) = (Ok tt, w_append w (hdr ++ enc_u16 size ++ rest)).
Proof.
  intros ([Hbuf Hpos] & Hs & b & Hb) H0 Hf Hsize; rewrite Hb in Hbuf; destruct Hbuf as (Hlen & _).
  rewrite !(w_append_buffer _ _ _ Hb); unfold patch_size, fits in *; cbn -[zlen ztake zdrop enc_u16] in *.
  assert (E : zlen (enc_u16 0) = 2) by done; assert (E' : zlen (enc_u16 size) = 2) by done.
  rewrite !zlen_app, E, E', H0 in *; unfold mu_pubsub_patch_u16.
  rewrite (to_unsigned_id 16 size) by lia; change [_; _] with (mu_binary_le_put_u16 size); rewrite le_put_u16_bytes; fold (enc_u16 size).
  pose proof (zlen_nonneg hdr); pose proof (zlen_nonneg rest).
  unfold mbind, M_bind, get_state; cbn -[mem_store ztake zdrop zlen enc_u16]; change (ztake 0 b) with (@nil Z); cbn [app].
  rewrite mem_store_Some; rewrite ?zlen_app, ?E, ?E', ?zlen_zdrop by lia; [|lia|lia]; cbn -[ztake zdrop zlen enc_u16].
  rewrite <-!app_assoc, ztake_app, <-zdrop_zdrop, zdrop_app by lia; change 2 with (zlen (enc_u16 0)) at 1; by rewrite zdrop_app.
Qed.

Definition writer_over (buffer : list Z) : mu_binary_writer_t := mu_binary_writer_init (Some buffer) (zlen buffer).

Lemma writer_over_ready buffer : zlen buffer ≤ PTRDIFF_MAX → bytes_ok buffer → writer_ready (writer_over buffer).
Proof. intros Hl Hb; split_and!; [by apply writer_init_ok|done|by eexists]. Qed.

Lemma writer_status_ready w : writer_ready w → writer_status w = (Ok tt, w).
Proof. intros (_ & Hs & _); unfold writer_status; by rewrite Hs. Qed.

Lemma enc_network_message_zlen p d fields : zlen (enc_network_message p d fields) = 11 + zlen (enc_data_set fields).
Proof. unfold enc_network_message; rewrite !zlen_app, zlen_enc_group_header; change (zlen (enc_u16 _)) with 2; lia. Qed.

Lemma write_network_message_run conn writer fields buffer : u32_range (pc_publisher_id conn) →
  u16_range (dw_data_set_writer_id writer) → Forall scalar_variant fields → zlen buffer ≤ PTRDIFF_MAX → bytes_ok buffer →
  let message := enc_network_message (pc_publisher_id conn) (dw_data_set_writer_id writer) fields in
  zlen (enc_data_set fields) ≤ 0xffff → zlen message ≤ zlen buffer →
  write_network_message conn writer fields (writer_over buffer) = (Ok (zlen message), w_append (writer_over buffer) message).
Proof.
  intros Hp Hd Hfields Hl Hb message Hsize Hroom; pose proof (writer_over_ready buffer Hl Hb) as Hw; set (w := writer_over buffer) in *.
  assert (Hm : zlen message = 11 + zlen (enc_data_set fields)) by apply enc_network_message_zlen.
  pose proof (zlen_nonneg (enc_data_set fields)) as Hnn.
  set (hdr := enc_group_header (pc_publisher_id conn) (dw_data_set_writer_id writer)).
  assert (Hf : fits w ((hdr ++ enc_u16 0) ++ enc_data_set fields)).
  { unfold fits; rewrite !zlen_app; change (zlen hdr) with 9; change (zlen (enc_u16 0)) with 2; cbn -[zlen]; lia. }
  pose proof (proj1 (fits_app w _ _ Hw) Hf) as [Hf1 Hf2].
  pose proof (wput_write_fields fields Hfields) as Hput.
  assert (Hw1 : writer_ready (w_append w (hdr ++ enc_u16 0))).
  { apply w_append_ready; [done| |done]; apply bytes_ok_app; split; [by apply wput_group_header|apply le_bytes_ok]. }
  unfold write_network_message; rewrite (bind_ok _ _ _ _ _ (write_headers_run conn writer w Hp Hd Hw eq_refl Hf1)).
  rewrite (wput_then _ _ _ _ Hput Hw1 Hf2), w_append_app by done.
  assert (Hw2 : writer_ready (w_append w ((hdr ++ enc_u16 0) ++ enc_data_set fields))).
  { rewrite <-w_append_app by done; apply w_append_ready; [done|apply Hput|done]. }
  rewrite (bind_ok _ _ _ _ _ (writer_status_ready _ Hw2)), (bind_ok get_state _ _ _ _ eq_refl).
  rewrite w_append_position by done; cbv zeta; change (w_position w) with 0.
  assert (El : zlen ((hdr ++ enc_u16 0) ++ enc_data_set fields) = 11 + zlen (enc_data_set fields)) by (by rewrite zlen_app).
  rewrite El; replace (0 + (11 + zlen (enc_data_set fields)) - 11) with (zlen (enc_data_set fields)) by lia.
  rewrite (to_unsigned_id 32 (zlen (enc_data_set fields))) by (norm_pow; lia).
  destruct (Z.ltb_spec 0xffff (zlen (enc_data_set fields))); [lia|]; rewrite <-app_assoc in Hf |- *.
  rewrite (bind_ok _ _ _ _ _ (patch_size_run w hdr (enc_data_set fields) (zlen (enc_data_set fields)) Hw eq_refl Hf ltac:(lia))).
  assert (Hw3 : writer_ready (w_append w message)).
  { apply w_append_ready; [done| |unfold fits; cbn -[zlen]; lia]; unfold message, enc_network_message.
    rewrite !bytes_ok_app; split_and!; [by apply wput_group_header|apply le_bytes_ok|apply Hput]. }
  rewrite (bind_ok _ _ _ _ _ (writer_status_ready _ Hw3)), Hm; done.
Qed.

(** ** The decoder *)

Lemma rspec_uadp {A} (m : Rd A) bs a : rspec m bs a → rspec (uadp m) bs a.
Proof. intros Hm r Hr; unfold uadp, or_status; by rewrite (Hm r Hr). Qed.

Lemma rsafe_uadp {A} (m : Rd A) Q : rsafe m Q → rsafe (uadp m) Q.
Proof.
  intros Hm r Hr; destruct (Hm r Hr) as [Hs Ho]; unfold uadp, or_status.
  by destruct (m r) as [[a|e|] r'].
Qed.

Lemma rspec_expect_bind {B} ok e (k : Rd B) bs b : ok = true → rspec k bs b → rspec (uadp_expect ok e;; k) bs b.
Proof. intros -> Hk; exact (rspec_bind _ _ [] bs tt b (rspec_ret tt) Hk). Qed.

Lemma rsafe_expect ok e : e ≠ MU_STATUS_GOOD → rsafe (uadp_expect ok e) (λ _, ok = true).
Proof. intros He; unfold uadp_expect; destruct ok; [by apply rsafe_ret|by apply rsafe_fail]. Qed.

Lemma rspec_message_header publisher_id data_set_writer_id size : u32_range publisher_id → u16_range data_set_writer_id →
  u16_range size →
  rspec read_message_header (enc_group_header publisher_id data_set_writer_id ++ enc_u16 size) (publisher_id, data_set_writer_id, size).
Proof.
  intros Hp Hd Hs; unfold read_message_header, enc_group_header; rewrite <-!app_assoc.
  eapply rspec_bind; [apply rspec_uadp, rspec_read_byte|]; apply rspec_expect_bind; [done|].
  eapply rspec_bind; [apply rspec_uadp, rspec_read_byte|]; do 2 (apply rspec_expect_bind; [done|]).
  eapply rspec_bind; [by apply rspec_uadp, rspec_read_uint32|].
  eapply rspec_bind; [apply rspec_uadp, rspec_read_byte|]; apply rspec_expect_bind; [done|].
  eapply rspec_bind; [by apply rspec_uadp, rspec_read_uint16|].
  eapply rspec_bind_ret; [by apply rspec_uadp, rspec_read_uint16|apply rspec_ret].
Qed.

Lemma reader_init_at bs rest : zlen (bs ++ rest) ≤ PTRDIFF_MAX → bytes_ok (bs ++ rest) →
  r_at (mu_binary_reader_init (Some (bs ++ rest)) (zlen (bs ++ rest))) bs.
Proof.
  intros Hl Hb; pose proof (zlen_nonneg rest); split_and!; [by apply reader_init_ok|done|cbn; rewrite zlen_app; lia|].
  by exists (bs ++ rest), rest.
Qed.

Lemma read_headers_run publisher_id data_set_writer_id fields : u32_range publisher_id → u16_range data_set_writer_id →
  bytes_ok (enc_network_message publisher_id data_set_writer_id fields) → zlen (enc_data_set fields) ≤ 0xffff →
  let message := enc_network_message publisher_id data_set_writer_id fields in
  ∃ r, read_headers message (mu_binary_reader_init (Some message) (zlen message))
    = (Ok (publisher_id, data_set_writer_id, mu_binary_reader_init (Some (enc_data_set fields)) (zlen (enc_data_set fields))), r) ∧
    r_position r = zlen message ∧ r_length r = zlen message.
Proof.
  intros Hp Hd Hb Hsize message; pose proof (zlen_nonneg (enc_data_set fields)).
  set (hdr := enc_group_header publisher_id data_set_writer_id ++ enc_u16 (zlen (enc_data_set fields))).
  assert (E : message = hdr ++ enc_data_set fields) by (unfold hdr; by rewrite <-app_assoc).
  assert (El : zlen message = 11 + zlen (enc_data_set fields)) by apply enc_network_message_zlen.
  change (bytes_ok message) in Hb; rewrite E in El, Hb |- *.
  assert (Hu : u16_range (zlen (enc_data_set fields))) by (ranges; lia).
  assert (Hr : r_at (mu_binary_reader_init (Some (hdr ++ enc_data_set fields)) (zlen (hdr ++ enc_data_set fields))) hdr).
  { apply reader_init_at; [rewrite El; unfold PTRDIFF_MAX; lia|done]. }
  unfold read_headers; rewrite (bind_ok _ _ _ _ _ (rspec_message_header _ _ (zlen (enc_data_set fields)) Hp Hd Hu _ Hr)).
  rewrite (bind_ok get_state _ _ _ _ eq_refl); unfold r_adv, mu_binary_reader_init; cbn [r_position r_length set_r_position].
  change (zlen hdr) with 11 in *; rewrite El, (to_unsigned_id 32 (11 + zlen _ - (0 + 11))), (to_unsigned_id 32 (0 + 11 + zlen _)) by (norm_pow; lia).
  replace (11 + zlen (enc_data_set fields) - (0 + 11)) with (zlen (enc_data_set fields)) by lia; rewrite Z.eqb_refl.
  fold hdr; change (zlen hdr) with 11.
  rewrite (zdrop_app hdr (enc_data_set fields) : zdrop (0 + 11) (hdr ++ enc_data_set fields) = enc_data_set fields).
  eexists; split; [reflexivity|]; cbn -[zlen Z.add]; split; [lia|done].
Qed.

Lemma enc_variant_head v : scalar_variant v →
  ∃ tail, enc_variant v = v_type v :: tail ∧ mu_uadp_variant_encoding_is_unsupported (v_type v) = false.
Proof.
  intros Hv; pose proof (scalar_variant_type v Hv); unfold enc_variant; eexists; split.
  - reflexivity.
  - destruct Hv as (_ & _ & [[-> _]|[Ht _]]); [done|].
    destruct (v_value v); cbn in Ht; simplify_eq; rewrite <-Ht; by vm_compute.
Qed.

Lemma znth_app_0 {A} (l : list A) i x tail : 0 ≤ i → zdrop i l = x :: tail → znth l i = Some x.
Proof.
  unfold zdrop, znth; intros Hi E; destruct (Z.ltb_spec i 0); [lia|].
  by rewrite <-(Nat.add_0_r (Z.to_nat i)), <-lookup_drop, E.
Qed.

Lemma rspec_read_field old v : scalar_variant v → v_value old = VV_none → rspec (read_field old) (enc_variant v) v.
Proof.
  intros Hv Hold r Hr; destruct (enc_variant_head v Hv) as (tail & Ehead & Hs); pose proof Hr as (Hok & _ & Hl & b & rest & Hb & Hd).
  unfold read_field; rewrite (bind_ok get_state _ _ _ _ eq_refl), Hb.
  assert (En : znth b (r_position r) = Some (v_type v)).
  { destruct Hok as [_ ?]; rewrite Ehead in Hd; by apply (znth_app_0 b _ _ (tail ++ rest)); [lia|]. }
  cbn [mbind option_bind]; rewrite En, (bind_ok (lift_option (Some (v_type v))) _ r _ r eq_refl), Hs.
  cbn [negb]; rewrite (bind_ok (uadp_expect true _) _ r tt r eq_refl).
  rewrite (bind_ok _ _ _ _ _ (rspec_uadp _ _ _ (rspec_read_variant_into old v Hv Hold) r Hr)); cbn [v_type v_value].
  destruct Hv as (Ha & Hn & _), v; cbn in *; by subst.
Qed.

Lemma read_fields_run vs : ∀ n capacity pre olds post r,
  Forall scalar_variant vs → (length vs ≤ n)%nat → zlen pre + zlen vs ≤ capacity →
  length olds = length vs → Forall (λ v, v_value v = VV_none) olds →
  r_at r (flat_map enc_variant vs) → r_length r = r_position r + zlen (flat_map enc_variant vs) →
  read_fields n (zlen pre) capacity (pre ++ olds ++ post) r
  = (Ok (zlen pre + zlen vs), r_adv r (zlen (flat_map enc_variant vs)), pre ++ vs ++ post).
Proof.
  induction vs as [|v vs IH]; intros n capacity pre olds post r Hvs Hn Hc Hlen Hold Hr Hend.
  - apply nil_length_inv in Hlen as ->; cbn [app flat_map] in *; change (zlen (@nil Z)) with 0 in *.
    rewrite zlen_nil, Z.add_0_r, r_adv_0.
    destruct n; cbn [read_fields]; destruct (Z.ltb_spec (r_position r) (r_length r)); [lia|done|lia|done].
  - destruct olds as [|old olds]; [done|]; cbn in Hlen; injection Hlen as Hlen.
    apply Forall_cons_iff in Hvs as [Hv Hvs], Hold as [Ho Hold]; cbn [flat_map] in Hr, Hend |- *.
    destruct (enc_variant_head v Hv) as (tail & Ehead & _); rewrite zlen_app in Hend |- *; rewrite zlen_cons in Hc |- *.
    pose proof (zlen_nonneg tail); pose proof (zlen_nonneg (flat_map enc_variant vs)); pose proof (zlen_nonneg vs).
    assert (Hpos : 1 ≤ zlen (enc_variant v)) by (rewrite Ehead, zlen_cons; lia).
    destruct n as [|n]; [cbn in Hn; lia|]; cbn [length] in Hn; cbn [read_fields].
    destruct (Z.ltb_spec (r_position r) (r_length r)); [|lia]; destruct (Z.leb_spec capacity (zlen pre)); [lia|].
    apply r_at_app in Hr as [Hr1 Hr2]; cbn [app].
    assert (Eold : znth (pre ++ old :: olds ++ post) (zlen pre) = Some old).
    { unfold znth, zlen; destruct (Z.ltb_spec (Z.of_nat (length pre)) 0); [lia|]; rewrite Nat2Z.id; by apply list_lookup_middle. }
    rewrite Eold, (rspec_read_field old v Hv Ho r Hr1).
    assert (Eins : <[Z.to_nat (zlen pre):=v]> (pre ++ old :: olds ++ post) = (pre ++ [v]) ++ olds ++ post).
    { unfold zlen; rewrite Nat2Z.id, <-(Nat.add_0_r (length pre)), insert_app_r, <-app_assoc; done. }
    rewrite Eins; replace (zlen pre + 1) with (zlen (pre ++ [v])) by (by rewrite zlen_app).
    rewrite IH; try done; try lia.
    + rewrite zlen_app, <-app_assoc, r_adv_adv; change (zlen [v]) with 1; do 3 f_equal; lia.
    + rewrite zlen_app; change (zlen [v]) with 1; lia.
    + cbn; lia.
Qed.

(** ** Properties *)

(** A DataSet within the limits of the message format. *)
Record publishable (conn : mu_pubsub_connection_t) (wg : mu_pubsub_writer_group_t) (fields : list mu_variant_t) : Prop := {
  pb_publisher : u32_range (pc_publisher_id conn);
  pb_writer : u16_range (dw_data_set_writer_id (wg_dataset_writer wg));
  pb_fields : dw_fields (wg_dataset_writer wg) = Some fields;
  pb_count : dw_field_count (wg_dataset_writer wg) = zlen fields;
  pb_limit : zlen fields ≤ MU_PUBSUB_MAX_FIELDS;
  pb_scalar : Forall scalar_variant fields;
  pb_size : zlen (enc_data_set fields) ≤ 0xffff
}.

Definition group_message (conn : mu_pubsub_connection_t) (wg : mu_pubsub_writer_group_t) (fields : list mu_variant_t) : list Z :=
  enc_network_message (pc_publisher_id conn) (dw_data_set_writer_id (wg_dataset_writer wg)) fields.

Lemma fields_supported_scalar fields : Forall scalar_variant fields → fields_supported (length fields) fields = Some true.
Proof.
  induction 1 as [|v fields (Ha & _) _ IH]; [done|]; cbn [length fields_supported].
  unfold mu_pubsub_variant_is_supported_scalar; by rewrite Ha.
Qed.

Lemma encode_publishable conn wg fields buffer : publishable conn wg fields → bytes_ok buffer → zlen buffer ≤ PTRDIFF_MAX →
  let octets := group_message conn wg fields in
  zlen octets ≤ zlen buffer →
  mu_encode_uadp_network_message (Some conn) (Some wg) (zlen buffer) true (Some buffer)
  = (Ok (zlen octets), Some (octets ++ zdrop (zlen octets) buffer)).
Proof.
  intros [Hp Hd Hf Hn Hl Hs Hsize] Hb Hlen octets Hroom; unfold mu_encode_uadp_network_message; cbn [is_null negb orb].
  rewrite Hf, Hn; cbn [is_null default]; rewrite andb_false_r; destruct (Z.ltb_spec MU_PUBSUB_MAX_FIELDS (zlen fields)); [lia|].
  assert (En : Z.to_nat (zlen fields) = length fields) by (unfold zlen; lia).
  rewrite En; unfold default; cbn; rewrite fields_supported_scalar by done.
  assert (Et : ztake (zlen fields) fields = fields) by (rewrite <-(app_nil_r fields) at 2; apply ztake_app); rewrite Et.
  fold (writer_over buffer); rewrite (write_network_message_run conn (wg_dataset_writer wg) fields buffer) by done; done.
Qed.

Lemma decode_message publisher_id data_set_writer_id fields message olds post : u32_range publisher_id → u16_range data_set_writer_id →
  zlen fields ≤ MU_PUBSUB_MAX_FIELDS → Forall scalar_variant fields → zlen (enc_data_set fields) ≤ 0xffff →
  rm_fields message = Some (olds ++ post) → rm_field_capacity message = zlen (olds ++ post) →
  length olds = length fields → Forall (λ v, v_value v = VV_none) olds →
  let octets := enc_network_message publisher_id data_set_writer_id fields in
  mu_decode_uadp_network_message (Some octets) (zlen octets) (Some message)
  = (Ok tt, Some (set_received message publisher_id data_set_writer_id (fields ++ post) (zlen fields))).
Proof.
  intros Hp Hd Hl Hs Hsize Hstore Hcap Holds Hnone octets.
  assert (Hdata : bytes_ok (enc_data_set fields)) by apply (wput_write_fields fields Hs).
  assert (Hb : bytes_ok octets).
  { unfold octets, enc_network_message; rewrite !bytes_ok_app; split_and!; [|apply le_bytes_ok|done].
    by apply (wput_group_header (mk_pubsub_connection 0 true publisher_id None) (mk_dataset_writer data_set_writer_id None 0)). }
  destruct (read_headers_run publisher_id data_set_writer_id fields Hp Hd Hb Hsize) as (r & Er & Hr1 & Hr2).
  unfold mu_decode_uadp_network_message; rewrite Hstore, Hcap; cbn [is_null]; rewrite andb_false_r; fold octets in Er |- *; rewrite Er.
  unfold default; cbn [option_bind]; set (data := enc_data_set fields) in *.
  assert (Hat : r_at (mu_binary_reader_init (Some data) (zlen data)) (enc_u8 MU_UADP_DATASET_FLAGS_VALID_VARIANT ++ flat_map enc_variant fields)).
  { pose proof (reader_init_at data []) as H; rewrite app_nil_r in H; apply H; [unfold PTRDIFF_MAX; lia|done]. }
  apply r_at_app in Hat as [Hat1 Hat2].
  assert (Ef : read_data_set_flags (mu_binary_reader_init (Some data) (zlen data)) = (Ok tt, r_adv (mu_binary_reader_init (Some data) (zlen data)) 1)).
  { unfold read_data_set_flags; by rewrite (bind_ok _ _ _ _ _ (rspec_uadp _ _ _ (rspec_read_byte _) _ Hat1)). }
  rewrite Ef; change (zlen (enc_u8 _)) with 1 in Hat2; set (r1 := r_adv _ 1) in *.
  assert (El : zlen data = 1 + zlen (flat_map enc_variant fields)) by (unfold data, enc_data_set; by rewrite zlen_app).
  pose proof (zlen_nonneg fields); pose proof (zlen_nonneg post).
  assert (Eo : zlen olds = zlen fields) by (unfold zlen; lia).
  rewrite (read_fields_run fields _ _ [] olds post r1); try done; try (rewrite zlen_app, zlen_nil; lia).
  2: { unfold zlen, MU_PUBSUB_MAX_FIELDS in *; lia. }
  cbn [app]; unfold r_adv, set_r_position, r1; cbn -[zlen flat_map Z.add]; rewrite Hr1, Hr2, Z.eqb_refl.
  destruct (Z.eqb_spec (0 + 1 + zlen (flat_map enc_variant fields)) (zlen data)); [done|lia].
Qed.

(** C26: PubSub messages round trip. A writer group whose fields are scalar
    values within the limits of the format (at most eight, a DataSetMessage of
    at most 65535 octets) and whose message fits into the send buffer is
    encoded as exactly the UADP network message with its publisher, writer id
    and fields, at the start of the buffer with the rest untouched; and the
    decoder of the subscriber subset, given just those octets and room for the
    fields, returns the same publisher, writer id and fields. *)
Theorem uadp_roundtrip conn wg fields buffer message olds post :
  publishable conn wg fields → bytes_ok buffer → zlen buffer ≤ PTRDIFF_MAX →
  let octets := group_message conn wg fields in
  zlen octets ≤ zlen buffer →
  rm_fields message = Some (olds ++ post) → rm_field_capacity message = zlen (olds ++ post) →
  length olds = length fields → Forall (λ v, v_value v = VV_none) olds →
  mu_encode_uadp_network_message (Some conn) (Some wg) (zlen buffer) true (Some buffer)
  = (Ok (zlen octets), Some (octets ++ zdrop (zlen octets) buffer)) ∧
  mu_decode_uadp_network_message (Some octets) (zlen octets) (Some message)
  = (Ok tt, Some (mk_received_message (pc_publisher_id conn) (dw_data_set_writer_id (wg_dataset_writer wg)) (Some (fields ++ post))
                    (rm_field_capacity message) (zlen fields))).
Proof.
  intros Hpub Hb Hlen octets Hroom Hstore Hcap Holds Hnone; split; [by apply encode_publishable|].
  pose proof Hpub as [Hp Hd _ _ Hl Hs Hsize]; unfold octets, group_message.
  rewrite (decode_message _ _ fields message olds post) by done; unfold set_received; by rewrite Hstore.
Qed.

(** Caller storage for the fields. *)
Definition storage_ok (message : mu_pubsub_received_message_t) : Prop :=
  0 ≤ rm_field_capacity message ≤ zlen (default [] (rm_fields message)).

(** A field as the decoder delivers it. *)
Definition received_field (v : mu_variant_t) : Prop :=
  v_is_array v = false ∧ v_array_length v = 0 ∧
  (v_type v = MU_TYPE_NULL ∨ (value_type (v_value v) = Some (v_type v) ∧ wire_value (v_value v))).

Lemma rsafe_read_field old : ∀ r, reader_ok r → r_position r < r_length r →
  reader_step r (read_field old r).2 ∧ outcome_ok received_field (read_field old r).1.
Proof.
  intros r Hr Hlt; pose proof Hr as [Hbuf Hpos]; unfold read_field; rewrite (bind_ok get_state _ _ _ _ eq_refl).
  destruct (r_buffer r) as [b|] eqn:Eb; [|cbn in Hbuf; lia]; destruct Hbuf as (Hl & _ & _).
  destruct (znth_Some b (r_position r) ltac:(lia)) as [mask Em]; cbn [mbind option_bind]; rewrite Em.
  rewrite (bind_ok (lift_option (Some mask)) _ r mask r eq_refl).
  clear -Hr; revert r Hr; eapply rsafe_bind; [by apply rsafe_expect|intros _ _].
  eapply rsafe_bind; [apply rsafe_uadp, rsafe_read_variant|]; intros v (_ & _ & Hv); apply rsafe_ret.
  split; [done|]; split; [done|]; cbn; destruct Hv as [[? _]|?]; [by left|by right].
Qed.

Lemma read_fields_safe n : ∀ i capacity fields r, reader_ok r → 0 ≤ i → i + Z.of_nat n = MU_PUBSUB_MAX_FIELDS →
  0 ≤ capacity ≤ zlen fields → i ≤ capacity → Forall received_field (ztake i fields) →
  let '(x, r', fields') := read_fields n i capacity fields r in
  zlen fields' = zlen fields ∧
  outcome_ok (λ k, 0 ≤ k ≤ MU_PUBSUB_MAX_FIELDS ∧ k ≤ capacity ∧ Forall received_field (ztake k fields')) x.
Proof.
  induction n as [|n IH]; intros i capacity fields r Hr Hi Hn Hc Hic Hfields; cbn [read_fields];
    (destruct (Z.ltb_spec (r_position r) (r_length r)) as [Hlt|]; [|split; [done|]; cbn; split_and!; try done; lia]); [done|].
  destruct (Z.leb_spec capacity i); [done|]; destruct (znth_Some fields i ltac:(lia)) as [old Eold]; rewrite Eold.
  destruct (rsafe_read_field old r Hr Hlt) as [Hstep Hout]; destruct (read_field old r) as [[v|e|] r']; cbn [fst snd] in *; try done.
  assert (El : zlen (<[Z.to_nat i:=v]> fields) = zlen fields) by (unfold zlen; by rewrite length_insert).
  rewrite <-El; apply IH; try lia; [apply Hstep|].
  apply Forall_lookup; intros j x Hx; unfold ztake in Hx; apply lookup_take_Some in Hx as [Hx Hj].
  destruct (decide (j = Z.to_nat i)) as [->|Hne].
  - rewrite list_lookup_insert_eq in Hx by (unfold zlen in *; lia); by injection Hx as <-.
  - rewrite list_lookup_insert_ne in Hx by done; eapply Forall_lookup_1; [exact Hfields|].
    unfold ztake; apply lookup_take_Some; split; [exact Hx|lia].
Qed.

Lemma rsafe_message_header : rsafe read_message_header (λ h, u32_range h.1.1 ∧ u16_range h.1.2 ∧ u16_range h.2).
Proof.
  unfold read_message_header.
  repeat first [eapply rsafe_bind; [apply rsafe_uadp; eauto with rsafe|intros ??]
               |eapply rsafe_bind; [by apply rsafe_expect|intros _ _]].
  by apply rsafe_ret.
Qed.

(** The headers of any octets: the DataSetMessage is the rest of them. *)
Lemma read_headers_safe b : bytes_ok b → zlen b ≤ PTRDIFF_MAX →
  outcome_ok (λ h, reader_ok h.2) (read_headers b (mu_binary_reader_init (Some b) (zlen b))).1.
Proof.
  intros Hb Hl; set (r0 := mu_binary_reader_init _ _).
  destruct (rsafe_message_header r0 (reader_init_ok b Hl Hb)) as [Hstep Hout]; unfold read_headers, mbind, M_bind at 1.
  destruct (read_message_header r0) as [[[[p d] size]|e|] r]; cbn [fst snd outcome_ok] in *; [|done|done].
  destruct Hstep as [[Hbuf Hpos] Ebuf Elen _]; cbn [r_buffer r_length r0 mu_binary_reader_init] in Ebuf, Elen.
  destruct Hout as (_ & _ & Hs); cbn in Hs; unfold M_bind, get_state, uadp_expect.
  destruct (Z.eqb_spec size (to_size (r_length r - r_position r))) as [Es|]; [|done]; cbn.
  rewrite to_unsigned_id in Es by (unfold PTRDIFF_MAX in *; lia).
  split; cbn; [|ranges; lia]; split; [rewrite zlen_zdrop by lia; ranges; lia|]; split; [unfold PTRDIFF_MAX; ranges; lia|].
  by apply bytes_ok_zdrop.
Qed.

(** The UADP decoder is safe on every input. Whatever the octets of a
    datagram, it returns without touching memory outside the datagram and the
    caller's storage; when it accepts, it reports at most eight fields and at
    most the caller's capacity, every one a well-formed scalar; when it
    refuses, it reports no field. *)
Theorem uadp_decode_safe buffer message : bytes_ok buffer → zlen buffer ≤ PTRDIFF_MAX → storage_ok message →
  let '(x, message') := mu_decode_uadp_network_message (Some buffer) (zlen buffer) (Some message) in
  ∃ m, message' = Some m ∧ storage_ok m ∧
  match x with
  | Ok _ => 0 ≤ rm_field_count m ≤ MU_PUBSUB_MAX_FIELDS ∧ rm_field_count m ≤ rm_field_capacity m ∧
            Forall received_field (ztake (rm_field_count m) (default [] (rm_fields m)))
  | Err e => e ≠ MU_STATUS_GOOD ∧ rm_field_count m = 0
  | Fault => False
  end.
Proof.
  intros Hb Hl Hs; unfold mu_decode_uadp_network_message; set (fields := default [] (rm_fields message)) in *.
  assert (Hset : ∀ p d fs k, zlen fs = zlen fields → storage_ok (set_received message p d fs k)).
  { intros p d fs k E; unfold storage_ok, set_received in *; cbn; fold fields in Hs.
    destruct (rm_fields message); cbn in *; [by rewrite E|done]. }
  destruct (_ && _) eqn:Enull; [eexists; split; [done|]; by auto|].
  pose proof (read_headers_safe buffer Hb Hl) as Hh; destruct (read_headers _ _) as [[[[p d] r]|e|] binary]; cbn [fst snd outcome_ok] in Hh;
    [|eexists; split; [done|]; by auto|done].
  assert (Hf : rsafe read_data_set_flags (λ _, True)).
  { unfold read_data_set_flags; eapply rsafe_bind; [apply rsafe_uadp, rsafe_read_byte|intros ??].
    eapply rsafe_mono; [by apply rsafe_expect|done]. }
  destruct (Hf r Hh) as [Hr1 Ho]; destruct (read_data_set_flags r) as [[[]|e|] r1]; cbn [fst snd outcome_ok] in *;
    [|eexists; split; [done|]; by auto|done].
  pose proof (read_fields_safe 8 0 (rm_field_capacity message) fields r1 (rstep_ok _ _ Hr1) ltac:(lia) ltac:(done) Hs ltac:(apply Hs)
                ltac:(constructor)) as Hfs.
  change (Z.to_nat MU_PUBSUB_MAX_FIELDS) with 8%nat; destruct (read_fields _ _ _ _ _) as [[x r2] fields']; destruct Hfs as [El Hx].
  destruct x as [k|e|]; cbn [outcome_ok] in Hx; [|eexists; split; [done|]; by auto|done].
  destruct (_ || _); [eexists; split; [done|]; by auto|].
  eexists; split; [done|]; split; [by apply Hset|]; destruct Hx as (Hk & Hkc & Hall); cbn; split; [done|]; split; [done|].
  unfold storage_ok in Hs; destruct (rm_fields message); cbn in *; [done|].
  change (zlen []) with 0 in Hs; replace k with 0 by lia; constructor.
Qed.

Module UadpSample.
Definition conn : mu_pubsub_connection_t := mk_pubsub_connection 4840 true 77 None.
Definition fields : list mu_variant_t :=
  [mk_variant MU_TYPE_UINT16 (VV_ui16 513) false 0; mk_variant MU_TYPE_NULL VV_none false 0;
   mk_variant MU_TYPE_STRING (VV_str (mk_string 2 (Some [104; 105]))) false 0].
Definition group : mu_pubsub_writer_group_t := mk_writer_group 1 1000 0 (mk_dataset_writer 9 (Some fields) 3).
Definition storage : mu_pubsub_received_message_t := mk_received_message 0 0 (Some (repeat zero_variant 5)) 5 0.

Lemma group_publishable : publishable conn group fields.
Proof.
  split; [by ranges|by ranges|done|done|done| |by vm_compute].
  unfold fields; rewrite !Forall_cons_iff; split_and!; try done; (split; [done|]; split; [done|]); cbn.
  - right; split; [done|]; by ranges.
  - by left.
  - right; split; [done|]; right; exists [104; 105]; split_and!; [done|done|repeat (constructor; [by ranges|]); constructor|by vm_compute].
Qed.
End UadpSample.

Lemma uadp_roundtrip_witness :
  mu_encode_uadp_network_message (Some UadpSample.conn) (Some UadpSample.group) 64 true (Some (repeat 5 64))
  = (Ok 23, Some ([209; 2; 77; 0; 0; 0; 1; 9; 0; 12; 0; 1; 5; 1; 2; 0; 12; 2; 0; 0; 0; 104; 105] ++ repeat 5 41)) ∧
  mu_decode_uadp_network_message (Some [209; 2; 77; 0; 0; 0; 1; 9; 0; 12; 0; 1; 5; 1; 2; 0; 12; 2; 0; 0; 0; 104; 105]) 23
    (Some UadpSample.storage)
  = (Ok tt, Some (mk_received_message 77 9 (Some (UadpSample.fields ++ repeat zero_variant 2)) 5 3)).
Proof.
  apply (uadp_roundtrip UadpSample.conn UadpSample.group UadpSample.fields (repeat 5 64) UadpSample.storage (repeat zero_variant 3)
           (repeat zero_variant 2) UadpSample.group_publishable); try done.
  - apply List.Forall_forall; intros x ->%List.repeat_spec; by ranges.
  - repeat constructor.
Defined.

Lemma uadp_decode_safe_witness :
  let '(x, message') := mu_decode_uadp_network_message (Some [209; 2; 77; 0; 0; 0; 1; 9; 0; 3; 0; 1; 12; 255]) 14 (Some UadpSample.storage) in
  x = Err MU_STATUS_BAD_DECODINGERROR ∧ ∃ m, message' = Some m ∧ rm_field_count m = 0.
Proof.
  pose proof (uadp_decode_safe [209; 2; 77; 0; 0; 0; 1; 9; 0; 3; 0; 1; 12; 255] UadpSample.storage) as H.
  assert (Hb : bytes_ok [209; 2; 77; 0; 0; 0; 1; 9; 0; 3; 0; 1; 12; 255]) by (repeat (constructor; [by ranges|]); constructor).
  specialize (H Hb ltac:(vm_compute; discriminate) ltac:(split; vm_compute; discriminate)).
  vm_compute in H |- *; split; [reflexivity|]; destruct H as (m & E & _ & _ & Hm); exists m; by split.
Defined.
