(* ===== verification/Config.v ===== *)
(** * The configuration of a server

    [mu_server_config_t] ([include/muc_opcua/server.h]) with the platform
    adapters of [include/muc_opcua/platform.h], its validation
    ([src/core/server.c]), and access to the configuration and the adapters'
    state from a handler. *)

From S2P Require Export HandlerLogic Crypto Uadp.

Class AuthProfile := { MUC_OPCUA_USER_AUTH : bool }.

(** The functions of the TCP adapter; [W] is what the adapters' contexts lead
    to. A handle is a number, [None] is NULL. [tcp_accept] delivers a status
    and what it leaves in the handle; [tcp_read] a status and the octets it
    stored; [tcp_write] a status and the number of octets taken. *)
Record mu_tcp_adapter_t (W : Type) := mk_tcp_adapter {
  tcp_listen : option (option (list Z) → W → Z * W);
  tcp_accept : option (W → Z * option Z * W);
  tcp_read : option (option Z → Z → W → Z * list Z * W);
  tcp_write : option (option Z → list Z → W → Z * Z * W);
  tcp_close_connection : option (option Z → W → W);
  tcp_shutdown : option (W → W)
}.
Arguments mk_tcp_adapter {_}.
Arguments tcp_listen {_}.
Arguments tcp_accept {_}.
Arguments tcp_read {_}.
Arguments tcp_write {_}.
Arguments tcp_close_connection {_}.
Arguments tcp_shutdown {_}.

(** The sending function of the UDP adapter: a datagram, an address and a
    port. *)
Definition mu_udp_send_t (W : Type) : Type := list Z → list Z → Z → W → Z * W.

(** ** The history adapter *)

Record mu_historical_data_point_t := mk_historical_data_point {
  hp_source_timestamp : Z;
  hp_server_timestamp : Z;
  hp_status : Z;
  hp_value : mu_variant_t
}.

(** What a call of [read_raw_modified] leaves: its status, the buffer for the
    continuation point and the length it reports, the array of data points
    and the number it reports. *)
Record history_answer := mk_history_answer {
  hr_status : Z;
  hr_cp_out : list Z;
  hr_cp_out_length : Z;
  hr_data_points : list mu_historical_data_point_t;
  hr_actual_data_points : Z
}.

(** [read_raw_modified] for a node, the details of the request, a
    continuation point with its length, the buffer for the next one and the
    array for the data points; [update_data] for a node, an operation, the
    data points and the array for their results. *)
Record mu_history_adapter_t (W : Type) := mk_history_adapter {
  history_read_raw_modified : option (mu_nodeid_t → bool → Z → Z → Z → bool → option (list Z) → Z → list Z →
                                      list mu_historical_data_point_t → W → history_answer * W);
  history_update_data : option (mu_nodeid_t → Z → list mu_historical_data_point_t → list Z → W → Z * list Z * W);
  history_delete_raw_modified : option (mu_nodeid_t → bool → Z → Z → W → Z * W)
}.
Arguments mk_history_adapter {_}.
Arguments history_read_raw_modified {_}.
Arguments history_update_data {_}.
Arguments history_delete_raw_modified {_}.

(** ** The configuration *)

(** A C string is its characters, a buffer its octets when the server is
    initialised, and the entropy adapter gives the function that answers this
    call and the state after it. *)
Record mu_server_config_t (W : Type) := mk_server_config {
  cfg_endpoint_url : option (list Z);
  cfg_application_uri : option (list Z);
  cfg_product_uri : option (list Z);
  cfg_application_name : option (list Z);
  cfg_receive_buffer : option (list Z);
  cfg_send_buffer : option (list Z);
  cfg_transport : mu_transport_config_t;
  cfg_max_sessions : Z;
  cfg_max_secure_channels : Z;
  cfg_tcp_adapter : mu_tcp_adapter_t W;
  cfg_get_time : option (W → Z * W);
  cfg_get_tick_ms : option (W → Z * W);
  cfg_entropy : option (W → (Z → result (list Z)) * W);
  cfg_crypto_adapter : option (crypto_functions W);
  cfg_address_space : option mu_address_space_t;
  cfg_allow_node_management : bool;
  cfg_user_auth_handler : option (option mu_string_t → option mu_string_t → mu_string_t → W → Z * W);
  cfg_trust_list : option mu_trust_list_t;
  cfg_allow_untrusted_clients : bool;
  cfg_pubsub : mu_pubsub_connection_t;
  cfg_udp_send : option (mu_udp_send_t W);
  cfg_write_handler : option mu_write_handler_t;
  cfg_history_adapter : mu_history_adapter_t W
}.
Arguments mk_server_config {_}.
Arguments cfg_endpoint_url {_}.
Arguments cfg_application_uri {_}.
Arguments cfg_product_uri {_}.
Arguments cfg_application_name {_}.
Arguments cfg_receive_buffer {_}.
Arguments cfg_send_buffer {_}.
Arguments cfg_transport {_}.
Arguments cfg_max_sessions {_}.
Arguments cfg_max_secure_channels {_}.
Arguments cfg_tcp_adapter {_}.
Arguments cfg_get_time {_}.
Arguments cfg_get_tick_ms {_}.
Arguments cfg_entropy {_}.
Arguments cfg_crypto_adapter {_}.
Arguments cfg_address_space {_}.
Arguments cfg_allow_node_management {_}.
Arguments cfg_user_auth_handler {_}.
Arguments cfg_trust_list {_}.
Arguments cfg_allow_untrusted_clients {_}.
Arguments cfg_pubsub {_}.
Arguments cfg_udp_send {_}.
Arguments cfg_write_handler {_}.
Arguments cfg_history_adapter {_}.

(** ** Validation *)

Definition OPC_TCP_SCHEME : list Z := bytes_of_string "opc.tcp://".

(** [strncmp(url, "opc.tcp://", 10) == 0] *)
Definition has_opc_tcp_scheme (url : option (list Z)) : bool :=
  match url with
  | Some url => bool_decide (ztake 10 url = OPC_TCP_SCHEME)
  | None => false
  end.

Section validate.
  Context {caps : BuildCaps} {W : Type}.

Definition tcp_adapter_complete (a : mu_tcp_adapter_t W) : bool :=
  negb (is_null (tcp_listen a) || is_null (tcp_accept a) || is_null (tcp_read a) || is_null (tcp_write a)
        || is_null (tcp_close_connection a) || is_null (tcp_shutdown a)).

Definition mu_server_config_validate (config : option (mu_server_config_t W)) : result unit :=
  match config with
  | None => Err MU_STATUS_BAD_INTERNALERROR
  | Some config =>
      let limits := cfg_transport config in
      if negb (has_opc_tcp_scheme (cfg_endpoint_url config)) then Err MU_STATUS_BAD_TCPENDPOINTURLINVALID
      else if is_null (cfg_receive_buffer config) || (cfg_receive_buffer_size limits <? MU_MIN_CHUNK_SIZE)
      then Err MU_STATUS_BAD_INTERNALERROR
      else if is_null (cfg_send_buffer config) || (cfg_send_buffer_size limits <? MU_MIN_CHUNK_SIZE)
      then Err MU_STATUS_BAD_INTERNALERROR
      else if (cfg_max_sessions config =? 0) || (MU_MAX_SESSIONS <? cfg_max_sessions config) then Err MU_STATUS_BAD_INTERNALERROR
      else if (cfg_max_secure_channels config =? 0) || (MU_MAX_CONNECTIONS <? cfg_max_secure_channels config)
      then Err MU_STATUS_BAD_INTERNALERROR
      else if (cfg_max_chunk_count limits =? 0) || (cfg_max_message_size limits <? MU_MIN_CHUNK_SIZE)
      then Err MU_STATUS_BAD_INTERNALERROR
      else if negb (tcp_adapter_complete (cfg_tcp_adapter config)) then Err MU_STATUS_BAD_INTERNALERROR
      else if is_null (cfg_get_time config) || is_null (cfg_get_tick_ms config) then Err MU_STATUS_BAD_INTERNALERROR
      else if is_null (cfg_entropy config) then Err MU_STATUS_BAD_INTERNALERROR
      else
        match cfg_address_space config with
        | None => Ok tt
        | Some address_space =>
            mu_address_space_validate address_space;;
            if MU_MAX_ADDRESS_SPACE_NODES <? as_node_count address_space then Err MU_STATUS_BAD_INTERNALERROR else Ok tt
        end
  end.
End validate.

(** ** Servers with a configuration *)

Class ConfigHost (W Rest : Type) := {
  host_config : Rest → mu_server_config_t W;
  host_world : Rest → W;
  host_set_world : Rest → W → Rest
}.

Class ConfigHostLaws (W Rest : Type) `{ConfigHost W Rest} := {
  host_world_set x w : host_world (host_set_world x w) = w;
  host_world_set_set x w w' : host_set_world (host_set_world x w) w' = host_set_world x w';
  host_world_get x : host_set_world x (host_world x) = x;
  host_config_set x w : host_config (host_set_world x w) = host_config x
}.
