(* ===== verification/Discovery.v ===== *)
(** * Discovery

    [src/services/discovery.c] (the descriptions a server gives of itself and
    their encoders) and the FindServers and GetEndpoints handlers of
    [src/core/service_dispatch.c], on any server that hosts a configuration. *)

From S2P Require Export Config.

(** ** Descriptions *)

Definition MU_APPLICATION_TYPE_SERVER : Z := 0.
Definition MU_USER_TOKEN_TYPE_ANONYMOUS : Z := 0.
Definition MU_USER_TOKEN_TYPE_USERNAME : Z := 1.
Definition MU_DISCOVERY_MAX_ENDPOINTS : Z := 5.

Record mu_application_description_t := mk_application_description {
  app_application_uri : option (list Z);
  app_product_uri : option (list Z);
  app_application_name : option (list Z);
  app_application_type : Z;
  app_discovery_url : option (list Z)
}.

Record mu_user_token_policy_t := mk_user_token_policy {
  utp_policy_id : option (list Z);
  utp_token_type : Z;
  utp_issued_token_type : option (list Z);
  utp_issuer_endpoint_url : option (list Z);
  utp_security_policy_uri : option (list Z)
}.

Record mu_endpoint_description_t := mk_endpoint_description {
  ep_endpoint_url : option (list Z);
  ep_server : mu_application_description_t;
  ep_server_certificate : option (list Z);
  ep_security_mode : Z;
  ep_security_policy_uri : option (list Z);
  ep_user_identity_tokens : list mu_user_token_policy_t;
  ep_transport_profile_uri : option (list Z);
  ep_security_level : Z
}.

(** ** Encoders *)

Definition cstr (s : option (list Z)) : mu_string_t :=
  match s with
  | Some s => mk_string (to_i32 (zlen s)) (Some s)
  | None => null_string
  end.

Definition write_cstr (s : option (list Z)) : Wr unit := mu_binary_write_string (cstr s).

Definition write_localizedtext (text : option (list Z)) : Wr unit :=
  match text with
  | None => mu_binary_write_byte 0
  | Some text => mu_binary_write_byte 2;; write_cstr (Some text)
  end.

Definition write_discovery_urls (url : option (list Z)) : Wr unit :=
  match url with
  | Some url => mu_binary_write_int32 1;; write_cstr (Some url)
  | None => mu_binary_write_int32 0
  end.

Definition mu_application_description_encode (desc : mu_application_description_t) : Wr unit :=
  write_cstr (app_application_uri desc);;
  write_cstr (app_product_uri desc);;
  write_localizedtext (app_application_name desc);;
  mu_binary_write_uint32 (app_application_type desc);;
  write_cstr None;;
  write_cstr None;;
  write_discovery_urls (app_discovery_url desc).

Definition write_user_token_policy (t : mu_user_token_policy_t) : Wr unit :=
  write_cstr (utp_policy_id t);;
  mu_binary_write_uint32 (utp_token_type t);;
  write_cstr (utp_issued_token_type t);;
  write_cstr (utp_issuer_endpoint_url t);;
  write_cstr (utp_security_policy_uri t).

(** What follows the ApplicationDescription in an EndpointDescription. *)
Definition write_endpoint_security (desc : mu_endpoint_description_t) : Wr unit :=
  mu_binary_write_bytestring (cstr (ep_server_certificate desc));;
  mu_binary_write_uint32 (ep_security_mode desc);;
  write_cstr (ep_security_policy_uri desc);;
  mu_binary_write_int32 (to_i32 (zlen (ep_user_identity_tokens desc)));;
  wr_list write_user_token_policy (ep_user_identity_tokens desc);;
  write_cstr (ep_transport_profile_uri desc);;
  mu_binary_write_byte (ep_security_level desc).

Definition mu_endpoint_description_encode (desc : mu_endpoint_description_t) : Wr unit :=
  write_cstr (ep_endpoint_url desc);;
  mu_application_description_encode (ep_server desc);;
  write_endpoint_security desc.

(** ** What the server says of itself *)

Section discovery.
  Context {auth : AuthProfile} {W : Type}.

Definition mu_discovery_get_application_description (config : mu_server_config_t W) : mu_application_description_t :=
  mk_application_description (cfg_application_uri config) (cfg_product_uri config) (cfg_application_name config)
    MU_APPLICATION_TYPE_SERVER (cfg_endpoint_url config).

Definition token_policy (policy_id : list Z) (token_type : Z) : mu_user_token_policy_t :=
  mk_user_token_policy (Some policy_id) token_type None None None.

Definition uatcp_profile_uri : list Z :=
  bytes_of_string "http://opcfoundation.org/UA-Profile/Transport/uatcp-uasc-uabinary".

Definition fill_endpoint (config : mu_server_config_t W) (mode : Z) (policy_uri : option (list Z))
    (cert : option (list Z)) (level : Z) : mu_endpoint_description_t :=
  let policy := match policy_uri with
                | Some uri => mu_security_policy_from_uri (Some uri) (zlen uri)
                | None => MU_SECURITY_POLICY_INVALID_ID
                end in
  mk_endpoint_description (cfg_endpoint_url config) (mu_discovery_get_application_description config) cert mode policy_uri
    (token_policy (bytes_of_string "anonymous") MU_USER_TOKEN_TYPE_ANONYMOUS ::
     if MUC_OPCUA_USER_AUTH && negb (mu_security_policy_allows_username_password_tokens policy =? 0)
     then [token_policy (bytes_of_string "username") MU_USER_TOKEN_TYPE_USERNAME] else [])
    (Some uatcp_profile_uri) level.

Definition mu_discovery_get_endpoint_description (config : mu_server_config_t W) : mu_endpoint_description_t :=
  fill_endpoint config MU_MESSAGE_SECURITY_MODE_NONE (mu_security_policy_uri MU_SECURITY_POLICY_NONE_ID) None 0.

(** The own certificate, when there is an adapter that has one. *)
Definition own_certificate (config : mu_server_config_t W) : M W (option (list Z)) :=
  match cfg_crypto_adapter config with
  | Some crypto =>
      match cf_get_own_certificate crypto with
      | Some get => or_default None (c ← get; mret (Some c))
      | None => mret None
      end
  | None => mret None
  end.

Definition secured_endpoints (config : mu_server_config_t W) (cert : list Z) : list mu_endpoint_description_t :=
  let b256_uri := mu_security_policy_uri MU_SECURITY_POLICY_BASIC256SHA256_ID in
  let aes128_uri := mu_security_policy_uri MU_SECURITY_POLICY_AES128_SHA256_RSAOAEP_ID in
  [fill_endpoint config MU_MESSAGE_SECURITY_MODE_SIGN b256_uri (Some cert) 1;
   fill_endpoint config MU_MESSAGE_SECURITY_MODE_SIGN_AND_ENCRYPT b256_uri (Some cert) 2;
   fill_endpoint config MU_MESSAGE_SECURITY_MODE_SIGN aes128_uri (Some cert) 3;
   fill_endpoint config MU_MESSAGE_SECURITY_MODE_SIGN_AND_ENCRYPT aes128_uri (Some cert) 4].

Definition mu_discovery_get_endpoints (config : mu_server_config_t W) (max : Z) : M W (list mu_endpoint_description_t) :=
  if max =? 0 then fail MU_STATUS_BAD_INTERNALERROR
  else
    cert ← own_certificate config;
    let none := fill_endpoint config MU_MESSAGE_SECURITY_MODE_NONE (mu_security_policy_uri MU_SECURITY_POLICY_NONE_ID) cert 0 in
    mret (none :: match cert with
                  | Some c => take (Z.to_nat (max - 1)) (secured_endpoints config c)
                  | None => []
                  end).
End discovery.

(** ** Request fragments *)

Definition string_matches_cstr (left : mu_string_t) (right : option (list Z)) : option bool :=
  match right, str_data left with
  | Some expected, Some data =>
      if str_length left <? 0 then Some false
      else if negb (str_length left =? zlen expected) then Some false
      else bytes ← mem_load data 0 (zlen expected); Some (bool_decide (bytes = expected))
  | _, _ => Some false
  end.

Definition findservers_endpoint_matches (endpoint_url : mu_string_t) (discovery_url : option (list Z)) : option bool :=
  if str_length endpoint_url <=? 0 then Some true else string_matches_cstr endpoint_url discovery_url.

Definition getendpoints_endpoint_matches (endpoint_url : mu_string_t) (endpoint : mu_endpoint_description_t) : option bool :=
  if str_length endpoint_url <=? 0 then Some true else string_matches_cstr endpoint_url (ep_endpoint_url endpoint).

Definition locale_id_is_usable (locale_id : mu_string_t) : bool :=
  (0 <? str_length locale_id) && negb (is_null (str_data locale_id)).

(** Read [n] elements, folding them into [acc]. *)
Fixpoint rd_fold {A B} (n : nat) (item : Rd A) (f : B → A → option B) (acc : B) : Rd B :=
  match n with
  | O => mret acc
  | S n => x ← item; acc ← lift_option (f acc x); rd_fold n item f acc
  end.

Definition select_locale (selected locale_id : mu_string_t) : option mu_string_t :=
  Some (if negb (locale_id_is_usable selected) && locale_id_is_usable locale_id then locale_id else selected).

Definition read_requested_locale_ids : Rd mu_string_t :=
  count ← mu_binary_read_int32;
  if count <? -1 then fail MU_STATUS_BAD_DECODINGERROR
  else rd_fold (Z.to_nat count) mu_binary_read_string select_locale null_string.

Definition any_match {A} (p : A → option bool) (matches : bool) (x : A) : option bool :=
  b ← p x; Some (matches || b).

Definition findservers_server_uri_filter_matches (application_uri : option (list Z)) : Rd bool :=
  count ← mu_binary_read_int32;
  if count <? -1 then fail MU_STATUS_BAD_DECODINGERROR
  else if count <=? 0 then mret true
  else rd_fold (Z.to_nat count) mu_binary_read_string (any_match (λ s, string_matches_cstr s application_uri)) false.

Definition findservers_server_type_filter_matches (application_type : Z) : Rd bool :=
  r ← get_state;
  if r_position r =? r_length r then mret true
  else if r_length r <? r_position r then fail MU_STATUS_BAD_DECODINGERROR
  else
    count ← mu_binary_read_int32;
    if count <? -1 then fail MU_STATUS_BAD_DECODINGERROR
    else if count <=? 0 then mret true
    else rd_fold (Z.to_nat count) mu_binary_read_uint32 (any_match (λ t, Some (t =? application_type))) false.

Definition findservers_write_localizedtext (text : option (list Z)) (requested_locale : mu_string_t) : Wr unit :=
  match text with
  | None => mu_binary_write_byte 0
  | Some text =>
      let include_locale := locale_id_is_usable requested_locale in
      mu_binary_write_byte (if include_locale then 3 else 2);;
      (if include_locale then mu_binary_write_string requested_locale else mret tt);;
      write_cstr (Some text)
  end.

Definition findservers_application_description_encode (desc : mu_application_description_t) (requested_locale : mu_string_t)
    : Wr unit :=
  if negb (locale_id_is_usable requested_locale) then mu_application_description_encode desc
  else
    write_cstr (app_application_uri desc);;
    write_cstr (app_product_uri desc);;
    findservers_write_localizedtext (app_application_name desc) requested_locale;;
    mu_binary_write_uint32 (app_application_type desc);;
    write_cstr None;;
    write_cstr None;;
    write_discovery_urls (app_discovery_url desc).

Definition endpoint_matches_profile_filter (endpoint : mu_endpoint_description_t) : Rd bool :=
  profile_count ← mu_binary_read_int32;
  if profile_count <=? 0 then mret true
  else rd_fold (Z.to_nat profile_count) mu_binary_read_string
         (any_match (λ s, string_matches_cstr s (ep_transport_profile_uri endpoint))) false.

Definition validate_get_endpoints_profile_uris_body : Rd unit :=
  profile_count ← mu_binary_read_int32;
  if profile_count <? -1 then fail MU_STATUS_BAD_DECODINGERROR
  else rd_list (Z.to_nat profile_count) mu_binary_read_string;; mret tt.

Definition getendpoints_endpoint_description_encode (desc : mu_endpoint_description_t) (requested_locale : mu_string_t)
    : Wr unit :=
  if negb (locale_id_is_usable requested_locale) then mu_endpoint_description_encode desc
  else
    write_cstr (ep_endpoint_url desc);;
    findservers_application_description_encode (ep_server desc) requested_locale;;
    write_endpoint_security desc.

(** Read ahead: the position and a good status are restored on success. *)
Definition rewind {A} (m : Rd A) : Rd A := λ r,
  match m r with
  | (Ok a, _) => (Ok a, mk_reader (r_buffer r) (r_length r) (r_position r) MU_STATUS_GOOD)
  | o => o
  end.

(** The endpoints that pass both filters; the profile filter is read again for
    each of them, and not needed afterwards. *)
Fixpoint filter_endpoints (endpoint_url : mu_string_t) (eps : list mu_endpoint_description_t)
    : Rd (list mu_endpoint_description_t) :=
  match eps with
  | [] => mret []
  | ep :: eps =>
      matches ← rewind (endpoint_matches_profile_filter ep);
      selected ← lift_option (if matches : bool then getendpoints_endpoint_matches endpoint_url ep else Some false);
      rest ← filter_endpoints endpoint_url eps;
      mret (if selected : bool then ep :: rest else rest)
  end.

(** ** The handlers *)

(** Server state that contains the configuration and the adapters' state. *)
Section handlers.
  Context {auth : AuthProfile} {W Rest : Type} {host : ConfigHost W Rest}.

(** A use of the adapters. *)
Definition world {A} (m : mu_server_config_t W → M W A) : M (mu_server_t Rest) A := λ s,
  let '(x, w) := m (host_config (sv_rest s)) (host_world (sv_rest s)) in
  (x, mk_server (sv_secure_channel s) (sv_sessions s) (sv_active_session s) (sv_address_space s) (sv_user_index s)
        (sv_runtime_space s) (sv_dynamic_references s) (sv_write_handler s) (sv_writes s) (host_set_world (sv_rest s) w)).

Definition config : M (mu_server_t Rest) (mu_server_config_t W) := λ s, (Ok (host_config (sv_rest s)), s).

Definition handle_get_endpoints : H Rest unit :=
  req ← rd mu_request_header_decode;
  endpoint_url ← rd mu_binary_read_string;
  requested_locale ← rd read_requested_locale_ids;
  rd (rewind validate_get_endpoints_profile_uris_body);;
  eps ← sv (world (λ cfg, mu_discovery_get_endpoints cfg MU_DISCOVERY_MAX_ENDPOINTS));
  selected ← rd (filter_endpoints endpoint_url (take (Z.to_nat MU_DISCOVERY_MAX_ENDPOINTS) eps));
  wr (write_response_prefix MU_ID_GETENDPOINTSRESPONSE (rh_request_handle req) MU_STATUS_GOOD);;
  wr (mu_binary_write_int32 (to_i32 (zlen selected)));;
  wr (wr_list (λ ep, getendpoints_endpoint_description_encode ep requested_locale) selected);;
  finish.

Definition handle_find_servers : H Rest unit :=
  req ← rd mu_request_header_decode;
  endpoint_url ← rd mu_binary_read_string;
  requested_locale ← rd read_requested_locale_ids;
  cfg ← sv config;
  let app := mu_discovery_get_application_description cfg in
  server_uri_matches ← rd (findservers_server_uri_filter_matches (app_application_uri app));
  server_type_matches ← rd (findservers_server_type_filter_matches (app_application_type app));
  endpoint_matches ← sv (lift_option (findservers_endpoint_matches endpoint_url (app_discovery_url app)));
  let include_app := endpoint_matches && server_uri_matches && server_type_matches in
  wr (write_response_prefix MU_ID_FINDSERVERSRESPONSE (rh_request_handle req) MU_STATUS_GOOD);;
  wr (mu_binary_write_int32 (if include_app : bool then 1 else 0));;
  (if include_app : bool then wr (findservers_application_description_encode app requested_locale) else mret tt);;
  finish.
End handlers.
