(* ===== verification/SessionService.v ===== *)
(** * SecureChannel and Session services

    The OpenSecureChannel, CreateSession, ActivateSession and CloseSession
    handlers of [src/core/service_dispatch.c], and the OPN parameters
    [server.c] hands to the first of them. *)

From S2P Require Export Discovery SubscriptionService.

(** ** Parameters of an OPN message *)

Definition MU_MAX_CLIENT_CERT_SIZE : Z := 1600.

Record opn_state := mk_opn_state {
  opn_pending_security_policy : mu_string_t;
  opn_pending_client_cert : mu_string_t;
  channel_client_cert : list Z;
  channel_client_cert_len : Z
}.

Definition mu_service_dispatch_set_opn_security_policy (security_policy : option mu_string_t) : M opn_state unit := λ o,
  (Ok tt, mk_opn_state (default null_string security_policy) (opn_pending_client_cert o) (channel_client_cert o)
            (channel_client_cert_len o)).

(** The certificate is also copied into the buffer that outlives the message. *)
Definition mu_service_dispatch_set_opn_client_cert (client_cert : option mu_string_t) : M opn_state unit := λ o,
  match client_cert with
  | None => (Ok tt, mk_opn_state (opn_pending_security_policy o) null_string (channel_client_cert o) (channel_client_cert_len o))
  | Some cert =>
      match str_data cert with
      | Some data =>
          if (0 <? str_length cert) && (str_length cert <=? MU_MAX_CLIENT_CERT_SIZE) then
            match (bytes ← mem_load data 0 (str_length cert); mem_store (channel_client_cert o) 0 bytes) with
            | Some copy => (Ok tt, mk_opn_state (opn_pending_security_policy o) cert copy (str_length cert))
            | None => (Fault, o)
            end
          else (Ok tt, mk_opn_state (opn_pending_security_policy o) cert (channel_client_cert o) 0)
      | None => (Ok tt, mk_opn_state (opn_pending_security_policy o) cert (channel_client_cert o) 0)
      end
  end.

Class ChannelHost (Rest : Type) := {
  host_opn : Rest → opn_state;
  host_set_opn : Rest → opn_state → Rest
}.

(** A policy that protects messages. *)
Definition protects (policy : mu_security_policy_id_t) : bool :=
  negb (bool_decide (policy = MU_SECURITY_POLICY_NONE_ID)) && negb (bool_decide (policy = MU_SECURITY_POLICY_INVALID_ID)).

Section service.
  Context {auth : AuthProfile} {caps : BuildCaps} {W Rest : Type}.
  Context {config_host : ConfigHost W Rest} {channel_host : ChannelHost Rest} {subscription_host : SubscriptionHost Rest}.

(** ** Access to the server *)

Definition opn {A} (m : M opn_state A) : M (mu_server_t Rest) A := λ s,
  let '(x, o) := m (host_opn (sv_rest s)) in
  (x, mk_server (sv_secure_channel s) (sv_sessions s) (sv_active_session s) (sv_address_space s) (sv_user_index s)
        (sv_runtime_space s) (sv_dynamic_references s) (sv_write_handler s) (sv_writes s) (host_set_opn (sv_rest s) o)).

Definition set_channel (s : mu_server_t Rest) (channel : mu_secure_channel_t) : mu_server_t Rest :=
  mk_server channel (sv_sessions s) (sv_active_session s) (sv_address_space s) (sv_user_index s)
    (sv_runtime_space s) (sv_dynamic_references s) (sv_write_handler s) (sv_writes s) (sv_rest s).

Definition channel {A} (m : M mu_secure_channel_t A) : M (mu_server_t Rest) A := λ s,
  let '(x, c) := m (sv_secure_channel s) in (x, set_channel s c).

Definition the_channel : M (mu_server_t Rest) mu_secure_channel_t := λ s, (Ok (sv_secure_channel s), s).

Definition set_sessions (s : mu_server_t Rest) (sessions : list mu_session_t) : mu_server_t Rest :=
  mk_server (sv_secure_channel s) sessions (sv_active_session s) (sv_address_space s) (sv_user_index s)
    (sv_runtime_space s) (sv_dynamic_references s) (sv_write_handler s) (sv_writes s) (sv_rest s).

Definition the_sessions : M (mu_server_t Rest) (list mu_session_t) := λ s, (Ok (sv_sessions s), s).

(** An operation on the session in a slot. *)
Definition session {A} (slot : Z) (m : M mu_session_t A) : M (mu_server_t Rest) A := λ s,
  match znth (sv_sessions s) slot with
  | None => (Fault, s)
  | Some x => let '(r, x') := m x in (r, set_sessions s (<[Z.to_nat slot := x']> (sv_sessions s)))
  end.

Definition outcome {A} (x : result A) : M (mu_server_t Rest) A := λ s, (x, s).

(** One draw of the entropy adapter. *)
Definition draw {A} (f : entropy_t → result A) : M (mu_server_t Rest) A :=
  world (λ cfg w, match cfg_entropy cfg with
                  | Some next => let '(generate_random, w) := next w in (f (Some generate_random), w)
                  | None => (f None, w)
                  end).

Definition fill_server_nonce (n : Z) : M (mu_server_t Rest) (list Z) :=
  or_default (repeat 0 (Z.to_nat n)) (draw (λ entropy, mu_session_generate_server_nonce entropy n)).

(** ** OpenSecureChannel *)

Definition opn_nonce (entropy : entropy_t) : result (list Z) :=
  match entropy with
  | None => Err MU_STATUS_BAD_SECURITYCHECKSFAILED
  | Some generate_random =>
      match generate_random MU_SERVER_NONCE_LENGTH with
      | Ok nonce => Ok nonce
      | Err _ => Err MU_STATUS_BAD_SECURITYCHECKSFAILED
      | Fault => Fault
      end
  end.

(** Application authentication: the certificate of the OPN message must be in
    the trust list. *)
Definition check_trust : M (mu_server_t Rest) unit := λ s,
  let cfg := host_config (sv_rest s) in
  (if negb (protects (sc_policy (sv_secure_channel s))) || cfg_allow_untrusted_clients cfg then Ok tt
   else
     match cfg_trust_list cfg with
     | None => Err MU_STATUS_BAD_SECURITYCHECKSFAILED
     | Some trust_list =>
         let cert := opn_pending_client_cert (host_opn (sv_rest s)) in
         if str_length cert <=? 0 then Err MU_STATUS_BAD_SECURITYCHECKSFAILED
         else match mu_trust_list_match (Some trust_list) (str_data cert) (str_length cert) with
              | Err _ => Err MU_STATUS_BAD_SECURITYCHECKSFAILED
              | x => x
              end
     end, s).

Definition set_mode (mode : Z) : M mu_secure_channel_t unit := λ c,
  (Ok tt, mk_secure_channel (sc_channel_id c) (sc_token_id c) (sc_created_at c) (sc_revised_lifetime c) (sc_sequence c)
            (sc_out_sequence_number c) (sc_is_open c) (sc_policy c) mode (sc_client_keys c) (sc_server_keys c) (sc_keys_valid c)).

Definition with_keys (c : mu_secure_channel_t) (client_keys server_keys : mu_sym_keys_t) (valid : bool) : mu_secure_channel_t :=
  mk_secure_channel (sc_channel_id c) (sc_token_id c) (sc_created_at c) (sc_revised_lifetime c) (sc_sequence c)
    (sc_out_sequence_number c) (sc_is_open c) (sc_policy c) (sc_mode c) client_keys server_keys valid.

(** Operations on one of the key sets of the channel. *)
Definition client_keys {A} (m : M (W * mu_sym_keys_t) A) : M (W * mu_secure_channel_t) A := λ s,
  let '(x, (w, keys)) := m (s.1, sc_client_keys s.2) in (x, (w, with_keys s.2 keys (sc_server_keys s.2) (sc_keys_valid s.2))).

Definition server_keys {A} (m : M (W * mu_sym_keys_t) A) : M (W * mu_secure_channel_t) A := λ s,
  let '(x, (w, keys)) := m (s.1, sc_server_keys s.2) in (x, (w, with_keys s.2 (sc_client_keys s.2) keys (sc_keys_valid s.2))).

Definition keys_valid : M (W * mu_secure_channel_t) unit := λ s,
  (Ok tt, (s.1, with_keys s.2 (sc_client_keys s.2) (sc_server_keys s.2) true)).

Definition channel_world {A} (m : M (W * mu_secure_channel_t) A) : M (mu_server_t Rest) A := λ s,
  let '(x, (w, c)) := m (host_world (sv_rest s), sv_secure_channel s) in
  (x, set_rest (set_channel s c) (host_set_world (sv_rest s) w)).

(** The two key sets, from the nonces. *)
Definition derive_keys (crypto : crypto_functions W) (policy : mu_security_policy_id_t) (nonce : list Z) (client_nonce : mu_string_t)
    : M (W * mu_secure_channel_t) unit :=
  let cn_len := Z.max 0 (str_length client_nonce) in
  if cn_len =? 0 then fail MU_STATUS_BAD_SECURITYCHECKSFAILED
  else
    client_keys (mu_sym_keys_derive crypto policy (Some nonce) MU_SERVER_NONCE_LENGTH (str_data client_nonce) cn_len);;
    server_keys (mu_sym_keys_derive crypto policy (str_data client_nonce) cn_len (Some nonce) MU_SERVER_NONCE_LENGTH);;
    keys_valid;;
    client_keys (mu_sym_keys_prepare_cipher crypto true);;
    server_keys (mu_sym_keys_prepare_cipher crypto true).

Definition read_clock (cfg : mu_server_config_t W) : M W Z := λ w,
  match cfg_get_time cfg with
  | Some get => let '(t, w) := get w in (Ok t, w)
  | None => (Ok 0, w)
  end.

Definition get_time : M (mu_server_t Rest) Z := world read_clock.

Definition handle_open_secure_channel : H Rest unit :=
  req ← rd mu_request_header_decode;
  _ ← rd (or_default 0 mu_binary_read_uint32);
  _ ← rd (or_default 0 mu_binary_read_uint32);
  security_mode ← rd (or_default 0 mu_binary_read_uint32);
  rd reader_status;;
  client_nonce ← rd mu_binary_read_bytestring;
  requested_lifetime ← rd (or_default 0 mu_binary_read_uint32);
  rd reader_status;;
  nonce ← sv (draw opn_nonce);
  policy_uri ← sv (opn (λ o, (Ok (opn_pending_security_policy o), o)));
  revised ← sv (channel (mu_secure_channel_open (Some policy_uri) security_mode requested_lifetime));
  sv check_trust;;
  wr (write_response_prefix MU_ID_OPENSECURECHANNELRESPONSE (rh_request_handle req) MU_STATUS_GOOD);;
  now ← sv get_time;
  c ← sv the_channel;
  wr (or_default tt (mu_binary_write_uint32 0));;
  wr (or_default tt (mu_binary_write_uint32 (sc_channel_id c)));;
  wr (or_default tt (mu_binary_write_uint32 (sc_token_id c)));;
  wr (or_default tt (mu_binary_write_int64 now));;
  wr (or_default tt (mu_binary_write_uint32 revised));;
  wr writer_status;;
  wr (mu_binary_write_bytestring (mk_string MU_SERVER_NONCE_LENGTH (Some nonce)));;
  sv (channel (set_mode security_mode));;
  cfg ← sv config;
  match cfg_crypto_adapter cfg with
  | Some crypto =>
      if protects (sc_policy c) then sv (channel_world (derive_keys crypto (sc_policy c) nonce client_nonce)) else mret tt
  | None => mret tt
  end;;
  finish.

(** ** CreateSession *)

(** The timeout, the nonce and the certificate of the client. *)
Definition read_create_session_request : Rd (Z * mu_string_t * mu_string_t) :=
  _ ← mu_binary_read_string;
  _ ← mu_binary_read_string;
  mask ← mu_binary_read_byte;
  (if Z.testbit mask 0 then _ ← mu_binary_read_string; mret tt else mret tt);;
  (if Z.testbit mask 1 then _ ← mu_binary_read_string; mret tt else mret tt);;
  _ ← mu_binary_read_uint32;
  _ ← mu_binary_read_string;
  _ ← mu_binary_read_string;
  n ← mu_binary_read_int32;
  if n <? -1 then fail MU_STATUS_BAD_DECODINGERROR
  else
    rd_list (Z.to_nat n) mu_binary_read_string;;
    _ ← mu_binary_read_string;
    _ ← mu_binary_read_string;
    _ ← mu_binary_read_string;
    client_nonce ← mu_binary_read_bytestring;
    client_cert ← mu_binary_read_bytestring;
    timeout_bits ← mu_binary_read_uint64;
    _ ← mu_binary_read_uint32;
    mret (timeout_bits, client_nonce, client_cert).

Definition body_consumed : Rd unit :=
  r ← get_state;
  if negb (r_position r =? r_length r) then fail MU_STATUS_BAD_DECODINGERROR else mret tt.

(** On a protected channel the certificate must be that of the channel. *)
Definition check_channel_certificate (client_cert : mu_string_t) : M (mu_server_t Rest) unit := λ s,
  let o := host_opn (sv_rest s) in
  let len := channel_client_cert_len o in
  (if negb (protects (sc_policy (sv_secure_channel s))) then Ok tt
   else if (str_length client_cert <=? 0) || negb (str_length client_cert =? len) || (len =? 0)
   then Err MU_STATUS_BAD_SECURITYCHECKSFAILED
   else
     presented ← or_fault (data ← str_data client_cert; mem_load data 0 len);
     known ← or_fault (mem_load (channel_client_cert o) 0 len);
     if bool_decide (presented = known) then Ok tt else Err MU_STATUS_BAD_SECURITYCHECKSFAILED, s).

(** A slot with fresh identifiers: the slot, the revised timeout and the nonce
    to store in it. *)
Definition create_slot (requested_bits : Z) : M (mu_server_t Rest) (Z * Z * list Z) :=
  nonce ← draw (λ entropy, mu_session_generate_server_nonce entropy MU_SERVER_NONCE_LENGTH);
  sessions ← the_sessions;
  match mu_session_find_free sessions MU_MAX_SESSIONS with
  | None => fail MU_STATUS_BAD_TOOMANYSESSIONS
  | Some slot =>
      session_id ← draw (mu_session_generate_session_id sessions MU_MAX_SESSIONS);
      auth_token ← draw (mu_session_generate_authentication_token sessions MU_MAX_SESSIONS);
      c ← the_channel;
      ids ← session slot (mu_session_create_with_identifiers requested_bits session_id auth_token (sc_channel_id c));
      mret (slot, ids.1.1, nonce)
  end.

Definition store_nonce (nonce : list Z) : M mu_session_t (Z * Z) := λ x,
  match (bytes ← mem_load nonce 0 MU_SERVER_NONCE_LENGTH; mem_store (ss_server_nonce x) 0 bytes) with
  | Some stored => (Ok (ss_session_id x, ss_auth_token x),
                    mk_session (ss_state x) (ss_session_id x) (ss_auth_token x) (ss_revised_session_timeout_ms x) stored
                      (ss_secure_channel_id x))
  | None => (Fault, x)
  end.

(** The octets of a decoded ByteString. *)
Definition bytestring_octets (s : mu_string_t) : option (list Z) :=
  if 0 <? str_length s then data ← str_data s; mem_load data 0 (str_length s) else Some [].

(** The signature over the client's certificate and nonce, when there is one. *)
Definition server_signature (client_nonce client_cert : mu_string_t) : M (mu_server_t Rest) (option (list Z * list Z)) :=
  c ← the_channel;
  cfg ← config;
  match cfg_crypto_adapter cfg, mu_security_policy_asym_signature_uri (sc_policy c) with
  | Some crypto, Some sig_uri =>
      if protects (sc_policy c) && (0 <? str_length client_cert) then
        if str_length client_cert + Z.max 0 (str_length client_nonce) <=? 1536 then
          cc ← lift_option (bytestring_octets client_cert);
          cn ← lift_option (bytestring_octets client_nonce);
          or_default None
            (sig ← world (λ _, mu_asym_signature_sign crypto (sc_policy c) (cc ++ cn) 512); mret (Some (sig_uri, sig)))
        else mret None
      else mret None
  | _, _ => mret None
  end.

Definition handle_create_session : H Rest unit :=
  req ← rd mu_request_header_decode;
  '(requested_bits, client_nonce, client_cert) ← rd read_create_session_request;
  rd body_consumed;;
  sv (check_channel_certificate client_cert);;
  '(slot, revised_bits, nonce) ← sv (create_slot requested_bits);
  wr (write_response_prefix MU_ID_CREATESESSIONRESPONSE (rh_request_handle req) MU_STATUS_GOOD);;
  ids ← sv (session slot (store_nonce nonce));
  wr (mu_binary_write_nodeid (mk_nodeid 0 (MU_NODEID_NUMERIC ids.1)));;
  wr (mu_binary_write_nodeid (mk_nodeid 0 (MU_NODEID_NUMERIC ids.2)));;
  wr (mu_binary_write_uint64 revised_bits);;
  wr (mu_binary_write_bytestring (mk_string MU_SERVER_NONCE_LENGTH (Some nonce)));;
  cert ← sv (world own_certificate);
  wr (mu_binary_write_bytestring (cstr cert));;
  eps ← sv (world (λ cfg, mu_discovery_get_endpoints cfg MU_DISCOVERY_MAX_ENDPOINTS));
  wr (mu_binary_write_int32 (to_i32 (zlen eps)));;
  wr (wr_list mu_endpoint_description_encode eps);;
  wr (mu_binary_write_int32 0);;
  sig ← sv (server_signature client_nonce client_cert);
  wr (mu_binary_write_string (cstr (fst <$> sig)));;
  wr (mu_binary_write_bytestring (cstr (snd <$> sig)));;
  wr (mu_binary_write_uint32 0);;
  finish.

(** ** ActivateSession *)

(** What the ExtensionObject of the user identity token holds. *)
Inductive identity_token :=
| identity_anonymous (policy_id : mu_string_t)
| identity_username (token : mu_username_identity_token_t)
| identity_certificate (token : mu_certificate_identity_token_t)
| identity_skipped.

(** Decode a token inside its body, [d] when the body is empty. *)
Definition read_token_body {A} (length : Z) (d : A) (m : Rd A) : Rd A :=
  ensure_reader_bytes_remaining length;;
  x ← (if 0 <? length
       then λ r, (match r_buffer r with
                  | Some b => (m (mu_binary_reader_init (Some (zdrop (r_position r) b)) length)).1
                  | None => Fault
                  end, r)
       else mret d);
  r ← get_state;
  put_state (set_r_position r (to_size (r_position r + length)));;
  mret x.

Definition is_ns0_numeric_id (id : mu_nodeid_t) : option Z :=
  match nid_identifier id with
  | MU_NODEID_NUMERIC numeric => if nid_namespace_index id =? 0 then Some numeric else None
  | _ => None
  end.

Definition read_identity_token (token_type : option Z) (length : Z) : Rd identity_token :=
  match token_type with
  | Some 321 => p ← read_token_body length null_string mu_binary_read_string; mret (identity_anonymous p)
  | Some 324 =>
      if MUC_OPCUA_USER_AUTH then
        t ← read_token_body length (mk_username_identity_token null_string null_string null_string null_string)
              mu_binary_read_username_identity_token;
        mret (identity_username t)
      else skip_extension_object_body length;; mret identity_skipped
  | Some 327 =>
      t ← read_token_body length (mk_certificate_identity_token null_string null_string) mu_binary_read_certificate_identity_token;
      mret (identity_certificate t)
  | _ => skip_extension_object_body length;; mret identity_skipped
  end.

(** The client's signature and algorithm, the numeric type of the identity
    token, the token and its signature. *)
Definition read_activate_session_request
    : Rd (mu_string_t * mu_string_t * option Z * identity_token * mu_string_t) :=
  algorithm ← mu_binary_read_string;
  signature ← mu_binary_read_bytestring;
  cert_count ← mu_binary_read_int32;
  ensure_array_items_min_remaining cert_count 8;;
  rd_list (Z.to_nat cert_count) (_ ← mu_binary_read_bytestring; mu_binary_read_bytestring);;
  locale_count ← mu_binary_read_int32;
  ensure_array_items_min_remaining locale_count 4;;
  rd_list (Z.to_nat locale_count) mu_binary_read_string;;
  '(token_type, token_body_len) ← mu_binary_read_extension_object_header;
  let token_type := is_ns0_numeric_id token_type in
  token ← read_identity_token token_type token_body_len;
  r ← get_state;
  user_token_signature ← (if r_position r <? r_length r then _ ← mu_binary_read_string; mu_binary_read_bytestring
                          else mret null_string);
  mret (algorithm, signature, token_type, token, user_token_signature).

(** The own certificate followed by the nonce of the session; [failure] when
    it does not fit the buffer. *)
Definition signed_by_client (x : mu_session_t) (own_cert : list Z) (failure : Z) : result (list Z) :=
  if 1536 <? to_size (zlen own_cert + 32) then Err failure
  else nonce ← or_fault (mem_load (ss_server_nonce x) 0 32); Ok (own_cert ++ nonce).

(** A ByteString without octets, or a NULL pointer. *)
Definition absent (s : mu_string_t) : bool := (str_length s <=? 0) || is_null (str_data s).

Definition verify_activate_client_signature (x : mu_session_t) (algorithm signature : mu_string_t) : M (mu_server_t Rest) unit :=
  c ← the_channel;
  cfg ← config;
  o ← opn (λ o, (Ok o, o));
  if negb (protects (sc_policy c)) then mret tt
  else
    match cfg_crypto_adapter cfg with
    | None => fail MU_STATUS_BAD_SECURITYCHECKSFAILED
    | Some cr =>
        match cf_get_own_certificate cr, mu_security_policy_asym_signature_uri (sc_policy c) with
        | None, _ => fail MU_STATUS_BAD_SECURITYCHECKSFAILED
        | Some _, None => fail MU_STATUS_BAD_SECURITYCHECKSFAILED
        | Some get_own_certificate, Some expected_uri =>
            if absent signature then fail MU_STATUS_BAD_SECURITYCHECKSFAILED
            else
              known ← lift_option (string_matches_cstr algorithm (Some expected_uri));
              if negb known || (channel_client_cert_len o =? 0) then fail MU_STATUS_BAD_SECURITYCHECKSFAILED
              else
                own_cert ← or_status MU_STATUS_BAD_SECURITYCHECKSFAILED (world (λ _, get_own_certificate));
                data ← outcome (signed_by_client x own_cert MU_STATUS_BAD_SECURITYCHECKSFAILED);
                cert ← lift_option (mem_load (channel_client_cert o) 0 (channel_client_cert_len o));
                sig ← lift_option (bytestring_octets signature);
                or_status MU_STATUS_BAD_SECURITYCHECKSFAILED
                  (world (λ _, mu_asym_signature_verify cr (sc_policy c) cert data sig))
        end
    end.

(** A call of the integrator's handler; its status, or [fallback] when there
    is none. *)
Definition user_auth (fallback : Z) (username password : option mu_string_t) (policy_id : mu_string_t) : M (mu_server_t Rest) unit :=
  status ← world (λ cfg w, match cfg_user_auth_handler cfg with
                           | Some handler => let '(status, w) := handler username password policy_id w in (Ok status, w)
                           | None => (Ok fallback, w)
                           end);
  if status =? MU_STATUS_GOOD then mret tt else fail status.

(** The plaintext of an encrypted password: length, password, nonce of the
    session. *)
Definition decrypted_password (x : mu_session_t) (plain : list Z) : result mu_string_t :=
  if zlen plain <? 4 then Err MU_STATUS_BAD_IDENTITYTOKENREJECTED
  else
    len ← or_fault (mu_binary_le_get_u32 plain);
    let pw_len := to_i32 len in
    if (pw_len <? -1) || ((0 <? pw_len) && (zlen plain - 4 <? pw_len)) then Err MU_STATUS_BAD_IDENTITYTOKENREJECTED
    else
      let actual_pw_len := Z.max 0 pw_len in
      let nonce_offset := 4 + actual_pw_len in
      if negb (zlen plain - nonce_offset =? 32) then Err MU_STATUS_BAD_IDENTITYTOKENREJECTED
      else
        returned ← or_fault (mem_load plain nonce_offset 32);
        nonce ← or_fault (mem_load (ss_server_nonce x) 0 32);
        if negb (bool_decide (returned = nonce)) then Err MU_STATUS_BAD_IDENTITYTOKENREJECTED
        else Ok (if pw_len =? -1 then null_string else mk_string pw_len (Some (zdrop 4 plain))).

Definition decrypt_password (x : mu_session_t) (token : mu_username_identity_token_t) : M (mu_server_t Rest) mu_string_t :=
  if (0 <? str_length (uit_encryption_algorithm token)) && (0 <? str_length (uit_password token)) then
    cfg ← config;
    match (crypto ← cfg_crypto_adapter cfg; cf_rsa_oaep_decrypt crypto) with
    | None => fail MU_STATUS_BAD_IDENTITYTOKENREJECTED
    | Some decrypt =>
        input ← lift_option (bytestring_octets (uit_password token));
        plain ← or_status MU_STATUS_BAD_IDENTITYTOKENREJECTED (world (λ _, decrypt input 256));
        outcome (decrypted_password x plain)
    end
  else mret (uit_password token).

Definition check_username (x : mu_session_t) (token : mu_username_identity_token_t) : M (mu_server_t Rest) unit :=
  c ← the_channel;
  if mu_security_policy_allows_username_password_tokens (sc_policy c) =? 0 then fail MU_STATUS_BAD_IDENTITYTOKENREJECTED
  else
    password ← decrypt_password x token;
    user_auth MU_STATUS_BAD_IDENTITYTOKENREJECTED (Some (uit_username token)) (Some password) (uit_policy_id token).

(** The arguments of [rsa_sha256_verify] are in the order the source has. *)
Definition check_user_certificate (x : mu_session_t) (token : mu_certificate_identity_token_t) (user_token_signature : mu_string_t)
    : M (mu_server_t Rest) unit :=
  if (str_length (cit_certificate_data token) <=? 0) || (str_length user_token_signature <=? 0)
  then fail MU_STATUS_BAD_IDENTITYTOKENREJECTED
  else
    cfg ← config;
    match cfg_crypto_adapter cfg with
    | None => fail MU_STATUS_BAD_IDENTITYTOKENREJECTED
    | Some crypto =>
        match cf_get_own_certificate crypto, cf_rsa_sha256_verify crypto with
        | Some get_own_certificate, Some verify =>
            own_cert ← or_status MU_STATUS_BAD_IDENTITYTOKENREJECTED (world (λ _, get_own_certificate));
            data ← outcome (signed_by_client x own_cert MU_STATUS_BAD_INTERNALERROR);
            sig ← lift_option (bytestring_octets user_token_signature);
            cert ← lift_option (bytestring_octets (cit_certificate_data token));
            or_status MU_STATUS_BAD_IDENTITYTOKENREJECTED (world (λ _, verify data sig cert));;
            user_auth MU_STATUS_GOOD None (Some (cit_certificate_data token)) (cit_policy_id token)
        | _, _ => fail MU_STATUS_BAD_IDENTITYTOKENREJECTED
        end
    end.

(** The identity token of a request for session [x]. *)
Definition check_identity (x : mu_session_t) (token : identity_token) (user_token_signature : mu_string_t)
    : M (mu_server_t Rest) unit :=
  match token with
  | identity_anonymous policy_id => user_auth MU_STATUS_GOOD None None policy_id
  | identity_username token => check_username x token
  | identity_certificate token => check_user_certificate x token user_token_signature
  | identity_skipped => fail MU_STATUS_BAD_IDENTITYTOKENINVALID
  end.

(** Find the session of the token and activate it. *)
Definition activate (authentication_token : mu_nodeid_t) (algorithm signature : mu_string_t) (token_type : option Z)
    (token : identity_token) (user_token_signature : mu_string_t) : M (mu_server_t Rest) unit :=
  match is_ns0_numeric_id authentication_token with
  | None => fail MU_STATUS_BAD_SESSIONIDINVALID
  | Some auth_token =>
      sessions ← the_sessions;
      match mu_session_find_by_token sessions MU_MAX_SESSIONS auth_token with
      | None => fail MU_STATUS_BAD_SESSIONIDINVALID
      | Some slot =>
          x ← lift_option (znth sessions slot);
          c ← the_channel;
          outcome (mu_session_validate_secure_channel x (sc_channel_id c));;
          match token_type with
          | None => fail MU_STATUS_BAD_IDENTITYTOKENINVALID
          | Some token_type =>
              verify_activate_client_signature x algorithm signature;;
              check_identity x token user_token_signature;;
              session slot (mu_session_activate auth_token token_type)
          end
      end
  end.

Definition handle_activate_session : H Rest unit :=
  req ← rd mu_request_header_decode;
  '(algorithm, signature, token_type, token, user_token_signature) ← rd read_activate_session_request;
  activate_result ← sv (status_of
    (activate (rh_authentication_token req) algorithm signature token_type token user_token_signature));
  wr (write_response_prefix MU_ID_ACTIVATESESSIONRESPONSE (rh_request_handle req) activate_result);;
  nonce ← sv (fill_server_nonce MU_SERVER_NONCE_LENGTH);
  wr (mu_binary_write_bytestring (mk_string MU_SERVER_NONCE_LENGTH (Some nonce)));;
  wr (or_default tt (mu_binary_write_int32 0));;
  wr (or_default tt (mu_binary_write_int32 0));;
  wr writer_status;;
  finish.

(** ** CloseSession *)

(** Delete the subscriptions of [session_id] in the slots from [i] on. *)
Fixpoint delete_session_subscriptions (session_id : Z) (n i : nat) : M mu_subscriptions_t unit :=
  match n with
  | O => mret tt
  | S n =>
      e ← get_state;
      (match subs_subscriptions e !! i with
       | Some sub =>
           if sub_in_use (sub_identity sub) && (sub_session_id (sub_identity sub) =? session_id)
           then or_default tt (mu_subscription_delete session_id (sub_subscription_id (sub_identity sub)))
           else mret tt
       | None => fault
       end);;
      delete_session_subscriptions session_id n (S i)
  end.

(** Close the active session. Its subscriptions are looked up by the session
    id the slot has after it was closed. *)
Definition close_active (slot numeric : Z) (delete_subscriptions : bool) {features : ServiceFeatures} : M (mu_server_t Rest) unit :=
  session slot (mu_session_close numeric delete_subscriptions);;
  (if MUC_OPCUA_SUBSCRIPTIONS then
     session_id ← active_session_id;
     engine (delete_session_subscriptions session_id (Z.to_nat MU_MAX_SUBSCRIPTIONS) 0)
   else mret tt);;
  s ← get_state;
  put_state (set_active_session s None).

Definition handle_close_session {features : ServiceFeatures} : H Rest unit :=
  req ← rd mu_request_header_decode;
  delete_subscriptions ← rd mu_binary_read_boolean;
  s ← sv get_state;
  close_result ← match sv_active_session s, nid_identifier (rh_authentication_token req) with
                 | Some slot, MU_NODEID_NUMERIC numeric => sv (status_of (close_active slot numeric delete_subscriptions))
                 | _, _ => mret MU_STATUS_BAD_SESSIONIDINVALID
                 end;
  wr (write_response_prefix MU_ID_CLOSESESSIONRESPONSE (rh_request_handle req) close_result);;
  finish.
End service.
