(* ===== verification/Methods.v ===== *)
(** * Call and TranslateBrowsePathsToNodeIds

    The handlers of [src/core/service_dispatch.c] for these two services, and
    the registration of method callbacks ([src/core/server.c]), in builds
    without the alarms and conditions module. *)

From S2P Require Export SessionService.

Definition MU_DISPATCH_MAX_TRANSLATE_BROWSE_PATHS : Z := 16.
Definition MU_DISPATCH_MAX_TRANSLATE_ELEMENTS : Z := 8.
Definition MU_DISPATCH_MAX_CALL_METHODS : Z := 8.
Definition MU_DISPATCH_MAX_CALL_INPUT_ARGUMENTS : Z := 4.
Definition MU_ID_SERVER_OBJECT : Z := 2253.
Definition MU_ID_SERVER_GETMONITOREDITEMS : Z := 11492.
Definition MU_ID_SERVER_RESENDDATA : Z := 12873.
Definition MU_MAX_REGISTERED_METHODS : Z := 8.

Class MethodProfile := { MUC_OPCUA_CUSTOM_METHODS : bool }.

(** The integrator's implementation of a method: the output arguments or a
    status, for an object, a method and the input arguments. *)
Definition mu_method_callback_t (W : Type) : Type := mu_nodeid_t → mu_nodeid_t → list mu_variant_t → M W (list mu_variant_t).

(** ** Registration *)

Section register.
  Context {W : Type}.

Definition mu_server_register_method_callback (method_id : option mu_nodeid_t) (callback : option (mu_method_callback_t W))
    : M (list (mu_nodeid_t * mu_method_callback_t W)) unit := λ methods,
  match method_id, callback with
  | Some method_id, Some callback =>
      if MU_MAX_REGISTERED_METHODS <=? zlen methods then (Err MU_STATUS_BAD_OUTOFMEMORY, methods)
      else
        match list_find (λ m, mu_nodeid_equal m.1 method_id = true) methods with
        | Some (i, (id, _)) => (Ok tt, <[i := (id, callback)]> methods)
        | None => (Ok tt, methods ++ [(method_id, callback)])
        end
  | _, _ => (Err MU_STATUS_BAD_ARGUMENTSMISSING, methods)
  end.
End register.

Class MethodHost (W Rest : Type) := host_methods : Rest → list (mu_nodeid_t * mu_method_callback_t W).

Section services.
  Context {profile : BaseProfile} {caps : BuildCaps} {methods : MethodProfile} {W Rest : Type}.
  Context {config_host : ConfigHost W Rest} {method_host : MethodHost W Rest} {subscription_host : SubscriptionHost Rest}.

(** A lookup in the integrator's address space. *)
Definition find_user_node (id : mu_nodeid_t) : M (mu_server_t Rest) (option mu_node_t) := λ s,
  match sv_address_space s with
  | None => (Ok None, s)
  | Some space =>
      let '(found, index) := mu_address_space_find_node space (sv_user_index s) id in
      (or_fault found, set_user_index s index)
  end.

(** ** TranslateBrowsePathsToNodeIds *)

Definition browse_name_equals (s t : mu_string_t) : option bool :=
  if negb (str_length s =? str_length t) then Some false
  else if str_length s <=? 0 then Some (str_length s =? 0)
  else
    match str_data s, str_data t with
    | Some d, Some e => x ← mem_load d 0 (str_length s); y ← mem_load e 0 (str_length s); Some (bool_decide (x = y))
    | _, _ => Some false
    end.

(** A RelativePathElement: reference type, direction, subtypes, name. The
    namespace of the name is not compared. *)
Definition read_path_element : Rd (mu_nodeid_t * bool * bool * mu_string_t) :=
  reference_type_id ← mu_binary_read_nodeid;
  is_inverse ← or_default false mu_binary_read_boolean;
  include_subtypes ← or_default false mu_binary_read_boolean;
  _ ← or_default 0 mu_binary_read_uint16;
  reader_status;;
  target_name ← mu_binary_read_string;
  mret (reference_type_id, is_inverse, include_subtypes, target_name).

(** The first reference of a node that matches an element and leads to a node
    with the name. *)
Fixpoint follow (element : mu_nodeid_t * bool * bool * mu_string_t) (refs : list mu_reference_t)
    : M (mu_server_t Rest) (option mu_node_t) :=
  let '(reference_type_id, is_inverse, include_subtypes, target_name) := element in
  match refs with
  | [] => mret None
  | r :: refs =>
      let direction_matches := if is_inverse then negb (ref_is_forward r) else ref_is_forward r in
      let type_matches := if include_subtypes then ref_type_is_subtype_of (ref_reference_type_id r) reference_type_id
                          else mu_nodeid_equal (ref_reference_type_id r) reference_type_id in
      if negb direction_matches || negb type_matches then follow element refs
      else
        target ← find_user_node (ref_target_id r);
        match target with
        | None => follow element refs
        | Some target =>
            same ← lift_option (browse_name_equals (node_browse_name target) target_name);
            if (same : bool) then mret (Some target) else follow element refs
        end
  end.

Definition follow_element (current : option mu_node_t) (element : mu_nodeid_t * bool * bool * mu_string_t)
    : M (mu_server_t Rest) (option mu_node_t) :=
  match current with
  | None => mret None
  | Some node =>
      refs ← lift_option (load_refs node);
      follow element refs
  end.

Fixpoint follow_path (n : nat) (current : option mu_node_t) : H Rest (option mu_node_t) :=
  match n with
  | O => mret current
  | S n =>
      element ← rd read_path_element;
      next ← sv (follow_element current element);
      follow_path n next
  end.

Definition write_path_result (target : option mu_node_t) : Wr unit :=
  match target with
  | Some node =>
      or_default tt (mu_binary_write_statuscode MU_STATUS_GOOD);;
      or_default tt (mu_binary_write_int32 1);;
      writer_status;;
      mu_binary_write_nodeid (node_node_id node);;
      or_default tt (mu_binary_write_uint32 0xFFFFFFFF);;
      writer_status
  | None =>
      or_default tt (mu_binary_write_statuscode MU_STATUS_BAD_NOMATCH);;
      or_default tt (mu_binary_write_int32 0);;
      writer_status
  end.

Fixpoint translate_paths (n : nat) : H Rest unit :=
  match n with
  | O => mret tt
  | S n =>
      starting_node ← rd mu_binary_read_nodeid;
      element_count ← rd mu_binary_read_int32;
      element_count ← rd (clamp_count element_count MU_DISPATCH_MAX_TRANSLATE_ELEMENTS);
      start ← sv (find_user_node starting_node);
      target ← follow_path (Z.to_nat element_count) start;
      wr (write_path_result target);;
      translate_paths n
  end.

Definition handle_translate_browse_paths : H Rest unit :=
  req ← rd mu_request_header_decode;
  count ← rd mu_binary_read_int32;
  count ← rd (clamp_count count MU_DISPATCH_MAX_TRANSLATE_BROWSE_PATHS);
  wr (write_response_prefix MU_ID_TRANSLATEBROWSEPATHSTONODEIDSRESPONSE (rh_request_handle req) MU_STATUS_GOOD);;
  wr (mu_binary_write_int32 count);;
  translate_paths (Z.to_nat count);;
  wr (mu_binary_write_int32 0);;
  finish.

(** ** Call *)

Definition write_call_method_result (status : Z) (input_argument_results : list Z) (output_arguments : list mu_variant_t) : Wr unit :=
  mu_binary_write_statuscode status;;
  mu_binary_write_int32 (to_i32 (zlen input_argument_results));;
  wr_list mu_binary_write_statuscode input_argument_results;;
  mu_binary_write_int32 0;;
  mu_binary_write_int32 (to_i32 (zlen output_arguments));;
  wr_list mu_binary_write_variant output_arguments.

Definition read_call_input_arguments : Rd (list mu_variant_t) :=
  count ← mu_binary_read_int32;
  if count <? -1 then fail MU_STATUS_BAD_DECODINGERROR
  else if MU_DISPATCH_MAX_CALL_INPUT_ARGUMENTS <? count then fail MU_STATUS_BAD_TOOMANYOPERATIONS
  else rd_list (Z.to_nat count) (mu_binary_read_variant zero_variant).

Definition uint32_array (values : list Z) : mu_variant_t :=
  mk_variant MU_TYPE_UINT32 (VV_array (Some (VV_ui32 <$> values))) true (to_i32 (zlen values)).

(** What a call delivers: the status, the results of the input arguments and
    the output arguments. *)
Definition call_result : Type := Z * list Z * list mu_variant_t.

Definition get_monitored_items_result (subscription_id : Z) : M (mu_server_t Rest) call_result :=
  session_id ← active_session_id;
  engine (λ e, (match mu_subscription_get_monitored_items e session_id subscription_id MU_MAX_MONITORED_ITEMS with
                | Ok handles => Ok (MU_STATUS_GOOD, [], [uint32_array (fst <$> handles); uint32_array (snd <$> handles)])
                | Err status => Ok (status, [], [])
                | Fault => Fault
                end, e)).

Definition resend_data_result (subscription_id : Z) : M (mu_server_t Rest) call_result :=
  session_id ← active_session_id;
  result ← engine (status_of (mu_subscription_request_resend_data session_id subscription_id));
  mret (result, [], []).

(** The two methods of the Server object. *)
Definition call_server_method (object_id method_id : mu_nodeid_t) (args : list mu_variant_t) : M (mu_server_t Rest) call_result :=
  if negb (is_ns0_numeric object_id MU_ID_SERVER_OBJECT) then mret (MU_STATUS_BAD_NODEIDINVALID, [], [])
  else
    match args with
    | [] => mret (MU_STATUS_BAD_ARGUMENTSMISSING, [], [])
    | [arg] =>
        match v_value arg with
        | VV_ui32 subscription_id =>
            if v_is_array arg || negb (v_type arg =? MU_TYPE_UINT32)
            then mret (MU_STATUS_BAD_INVALIDARGUMENT, [MU_STATUS_BAD_INVALIDARGUMENT], [])
            else if is_ns0_numeric method_id MU_ID_SERVER_GETMONITOREDITEMS then get_monitored_items_result subscription_id
            else resend_data_result subscription_id
        | _ =>
            if v_is_array arg || negb (v_type arg =? MU_TYPE_UINT32)
            then mret (MU_STATUS_BAD_INVALIDARGUMENT, [MU_STATUS_BAD_INVALIDARGUMENT], [])
            else fault
        end
    | _ => mret (MU_STATUS_BAD_TOOMANYARGUMENTS, [], [])
    end.

Definition find_callback (method_id : mu_nodeid_t) : M (mu_server_t Rest) (option (mu_method_callback_t W)) := λ s,
  (Ok (snd ∘ snd <$> list_find (λ m, mu_nodeid_equal m.1 method_id = true) (host_methods (sv_rest s))), s).

Definition call_custom_method (object_id method_id : mu_nodeid_t) (args : list mu_variant_t) : M (mu_server_t Rest) call_result :=
  object ← find_user_node object_id;
  match object with
  | None => mret (MU_STATUS_BAD_NODEIDINVALID, [], [])
  | Some _ =>
      method ← find_user_node method_id;
      match method with
      | None => mret (MU_STATUS_BAD_METHODINVALID, [], [])
      | Some _ =>
          callback ← find_callback method_id;
          match callback with
          | None => mret (MU_STATUS_BAD_METHODINVALID, [], [])
          | Some callback =>
              world (λ cfg w, match callback object_id method_id args w with
                              | (Ok outputs, w) => (Ok (MU_STATUS_GOOD, [], outputs), w)
                              | (Err status, w) => (Ok (status, [], []), w)
                              | (Fault, w) => (Fault, w)
                              end)
          end
      end
  end.

Definition call_method (object_id method_id : mu_nodeid_t) (args : list mu_variant_t) : M (mu_server_t Rest) call_result :=
  if is_ns0_numeric method_id MU_ID_SERVER_GETMONITOREDITEMS || is_ns0_numeric method_id MU_ID_SERVER_RESENDDATA
  then call_server_method object_id method_id args
  else if MUC_OPCUA_CUSTOM_METHODS then call_custom_method object_id method_id args
  else mret (MU_STATUS_BAD_METHODINVALID, [], []).

Fixpoint call_methods (n : nat) : H Rest unit :=
  match n with
  | O => mret tt
  | S n =>
      object_id ← rd mu_binary_read_nodeid;
      method_id ← rd mu_binary_read_nodeid;
      args ← rd read_call_input_arguments;
      result ← sv (call_method object_id method_id args);
      wr (write_call_method_result result.1.1 result.1.2 result.2);;
      call_methods n
  end.

Definition handle_call : H Rest unit :=
  req ← rd mu_request_header_decode;
  method_count ← rd mu_binary_read_int32;
  if method_count <? -1 then fail MU_STATUS_BAD_DECODINGERROR
  else if method_count <=? 0 then fail MU_STATUS_BAD_NOTHINGTODO
  else if MU_DISPATCH_MAX_CALL_METHODS <? method_count then fail MU_STATUS_BAD_TOOMANYOPERATIONS
  else
    wr (write_response_prefix MU_ID_CALLRESPONSE (rh_request_handle req) MU_STATUS_GOOD);;
    wr (mu_binary_write_int32 method_count);;
    call_methods (Z.to_nat method_count);;
    wr (mu_binary_write_int32 0);;
    finish.
End services.
