(* ===== verification/Query.v ===== *)
(** * Query services

    [src/services/query.c] with its codec [src/encoding/binary_query.c], and
    the QueryFirst and QueryNext handlers of [src/core/service_dispatch.c]. *)

From S2P Require Export NodeManagement SubscriptionService.

Definition MU_MAX_QUERY_CONTINUATION_POINTS : Z := 2.

(** ** Requests *)

Inductive mu_filter_operand_t :=
| MU_FILTEROPERAND_ELEMENT (index : Z)
| MU_FILTEROPERAND_LITERAL (value : mu_variant_t).

Record mu_content_filter_element_t := mk_content_filter_element {
  fe_filter_operator : Z;
  fe_filter_operands : list mu_filter_operand_t
}.

Record mu_node_type_description_t := mk_node_type_description {
  nt_type_definition_node : mu_nodeid_t;
  nt_include_sub_types : bool
}.

Record mu_query_first_request_t := mk_query_first_request {
  qf_node_types : list mu_node_type_description_t;
  qf_filter : list mu_content_filter_element_t;
  qf_max_data_sets_to_return : Z;
  qf_max_references_to_return : Z
}.

Record mu_query_next_request_t := mk_query_next_request {
  qn_release_continuation_point : bool;
  qn_continuation_point : mu_string_t
}.

(** ** [binary_query.c] *)

Definition U32_NULL : Z := 0xFFFFFFFF.

Definition query_reader_fail {A} (status : Z) : Rd A := reader_fail status.

Definition query_require_min_counted_bytes (count min_element_bytes : Z) : Rd unit :=
  r ← get_state;
  if negb (r_status r =? MU_STATUS_GOOD) then fail (r_status r)
  else if r_length r <? r_position r then query_reader_fail MU_STATUS_BAD_DECODINGERROR
  else if negb (min_element_bytes =? 0) && ((r_length r - r_position r) / min_element_bytes <? count)
  then query_reader_fail MU_STATUS_BAD_DECODINGERROR
  else mret tt.

(** [identifier.numeric], whatever the type of the identifier: the first word
    of the union, which is the length of a string. *)
Definition identifier_word (id : mu_nodeid_t) : option Z :=
  match nid_identifier id with
  | MU_NODEID_NUMERIC numeric => Some numeric
  | MU_NODEID_STRING string => Some (to_u32 (str_length string))
  | _ => None
  end.

(** The fields of a literal that are not decoded are never read. *)
Definition read_filter_operand : Rd mu_filter_operand_t :=
  '(type_id, len) ← mu_binary_read_extension_object_header;
  word ← lift_option (identifier_word type_id);
  if word =? 594 then index ← mu_binary_read_uint32; mret (MU_FILTEROPERAND_ELEMENT index)
  else if word =? 597 then value ← mu_binary_read_variant zero_variant; mret (MU_FILTEROPERAND_LITERAL value)
  else
    r ← get_state;
    if negb (0 <? len) then fail MU_STATUS_BAD_NOTSUPPORTED
    else if to_size (r_length r - r_position r) <? len then fail MU_STATUS_BAD_DECODINGERROR
    else put_state (set_r_position r (to_size (r_position r + len)));; mret (MU_FILTEROPERAND_ELEMENT 0).

Definition read_filter_operands (op_count operand_index max_operands : Z) : Rd (list mu_filter_operand_t) :=
  if (op_count =? 0) || (op_count =? U32_NULL) then mret []
  else
    query_require_min_counted_bytes op_count 3;;
    if max_operands <? operand_index + op_count then query_reader_fail MU_STATUS_BAD_TOOMANYOPERATIONS
    else rd_list (Z.to_nat op_count) read_filter_operand.

Fixpoint read_filter_elements (n : nat) (operand_index max_operands : Z) : Rd (list mu_content_filter_element_t) :=
  match n with
  | O => mret []
  | S n =>
      op ← mu_binary_read_uint32;
      op_count ← mu_binary_read_uint32;
      operands ← read_filter_operands op_count operand_index max_operands;
      rest ← read_filter_elements n (operand_index + zlen operands) max_operands;
      mret (mk_content_filter_element op operands :: rest)
  end.

Definition mu_content_filter_decode (max_elements max_operands : Z) : Rd (list mu_content_filter_element_t) :=
  count ← mu_binary_read_uint32;
  if (count =? 0) || (count =? U32_NULL) then mret []
  else
    query_require_min_counted_bytes count 8;;
    if max_elements <? count then query_reader_fail MU_STATUS_BAD_TOOMANYOPERATIONS
    else read_filter_elements (Z.to_nat count) 0 max_operands.

(** A node type is read as an ExpandedNodeId into the place of its NodeId.
    [namespace_uri] then lies over the rest of the description, and
    [server_index] over the first word of the next one: in every layout of
    the two structures its offset is the size of the description. *)
Definition read_node_type (i max_node_types : Z) : Rd mu_node_type_description_t :=
  x ← mu_binary_read_expanded_nodeid;
  (if i + 1 <? max_node_types then mret tt else fault);;
  include_sub_types ← mu_binary_read_boolean;
  data_to_return_count ← mu_binary_read_uint32;
  if (0 <? data_to_return_count) && negb (data_to_return_count =? U32_NULL) then fail MU_STATUS_BAD_NOTSUPPORTED
  else mret (mk_node_type_description (xid_node_id x) include_sub_types).

Fixpoint read_node_types (n : nat) (i max_node_types : Z) : Rd (list mu_node_type_description_t) :=
  match n with
  | O => mret []
  | S n =>
      t ← read_node_type i max_node_types;
      rest ← read_node_types n (i + 1) max_node_types;
      mret (t :: rest)
  end.

Definition mu_query_first_request_decode (max_node_types max_filter_elements max_filter_operands : Z) : Rd mu_query_first_request_t :=
  _ ← mu_binary_read_nodeid;
  _ ← mu_binary_read_int64;
  _ ← mu_binary_read_uint32;
  count ← mu_binary_read_uint32;
  let count := if count =? U32_NULL then 0 else count in
  if max_node_types <? count then fail MU_STATUS_BAD_OUTOFMEMORY
  else
    node_types ← read_node_types (Z.to_nat count) 0 max_node_types;
    filter ← mu_content_filter_decode max_filter_elements max_filter_operands;
    max_data_sets ← mu_binary_read_uint32;
    max_references ← mu_binary_read_uint32;
    mret (mk_query_first_request node_types filter max_data_sets max_references).

Definition write_data_set (node_id : mu_nodeid_t) : Wr unit :=
  let enode := mk_expanded_nodeid node_id (mk_string 0 None) 0 in
  or_default tt (mu_binary_write_expanded_nodeid enode);;
  or_default tt (mu_binary_write_expanded_nodeid enode);;
  or_default tt (mu_binary_write_uint32 0).

Definition write_data_sets (data_sets : list mu_nodeid_t) : Wr unit :=
  if zlen data_sets =? 0 then or_default tt (mu_binary_write_uint32 U32_NULL)
  else
    or_default tt (mu_binary_write_uint32 (to_u32 (zlen data_sets)));;
    wr_list write_data_set data_sets.

(** A response; without a value the continuation point was never set. *)
Record mu_query_response_t := mk_query_response {
  qr_data_sets : list mu_nodeid_t;
  qr_continuation_point : option mu_string_t
}.

Definition write_continuation_point (resp : mu_query_response_t) : Wr unit :=
  cp ← lift_option (qr_continuation_point resp);
  or_default tt (mu_binary_write_string cp).

Definition mu_query_first_response_encode (resp : mu_query_response_t) : Wr unit :=
  write_data_sets (qr_data_sets resp);;
  write_continuation_point resp;;
  or_default tt (mu_binary_write_uint32 U32_NULL);;
  or_default tt (mu_binary_write_uint32 U32_NULL);;
  or_default tt (mu_binary_write_uint32 U32_NULL);;
  or_default tt (mu_binary_write_uint32 U32_NULL);;
  writer_status.

Definition mu_query_next_request_decode : Rd mu_query_next_request_t :=
  release ← mu_binary_read_boolean;
  cp ← mu_binary_read_string;
  mret (mk_query_next_request release cp).

Definition mu_query_next_response_encode (resp : mu_query_response_t) : Wr unit :=
  write_data_sets (qr_data_sets resp);;
  write_continuation_point resp;;
  or_default tt (mu_binary_write_uint32 U32_NULL);;
  writer_status.

(** ** Continuation points *)

(** [id.data] is NULL or points to the [id_buf] of the same slot. *)
Record query_point := mk_query_point {
  cp_id_buf : list Z;
  cp_id_length : Z;
  cp_id_set : bool;
  cp_session_id : Z;
  cp_next_index : Z;
  cp_timestamp_ms : Z
}.

Definition cp_id (cp : query_point) : mu_string_t :=
  mk_string (cp_id_length cp) (if cp_id_set cp then Some (cp_id_buf cp) else None).

Definition free_point : query_point := mk_query_point (repeat 0 8) (-1) false 0 0 0.

Definition mu_query_continuation_point_supplied (cp : mu_string_t) : bool := 0 <? str_length cp.

Definition mu_query_continuation_point_matches (x y : mu_string_t) : option bool :=
  if negb (mu_query_continuation_point_supplied x) || negb (mu_query_continuation_point_supplied y) then Some false
  else
    match str_data x, str_data y with
    | Some dx, Some dy =>
        if negb (str_length x =? str_length y) then Some false
        else bx ← mem_load dx 0 (str_length x); by_ ← mem_load dy 0 (str_length y); Some (bool_decide (bx = by_))
    | _, _ => Some false
    end.

(** The first slot with the id. *)
Fixpoint mu_query_find_continuation_point (points : list query_point) (i : nat) (cp : mu_string_t) : option (option nat) :=
  match points with
  | [] => Some None
  | p :: points =>
      matches ← mu_query_continuation_point_matches (cp_id p) cp;
      if (matches : bool) then Some (Some i) else mu_query_find_continuation_point points (S i) cp
  end.

Definition mu_query_release_continuation_point (p : query_point) : query_point := mk_query_point (cp_id_buf p) (-1) false 0 0 0.

(** The id of a new point is the index to resume from. *)
Definition take_point (p : query_point) (next_index : Z) : query_point :=
  mk_query_point ([Z.land next_index 0xFF; Z.land (Z.shiftr next_index 8) 0xFF] ++ repeat 0 6) 8 true (cp_session_id p) next_index
    (cp_timestamp_ms p).

(** ** The services *)

Class QueryHost (Rest : Type) := {
  host_points : Rest → list query_point;
  host_set_points : Rest → list query_point → Rest
}.

Section services.
  Context {features : ServiceFeatures} {Rest : Type} {node_host : NodeManagementHost Rest} {query_host : QueryHost Rest}.

Definition mu_evaluate_content_filter (filter : list mu_content_filter_element_t) : bool := true.

(** Collect nodes from [i] on: the data sets and, when they are full, the
    index of the first node left out. *)
Fixpoint scan_nodes (fetch : nat → option mu_nodeid_t) (filter : list mu_content_filter_element_t) (max_data_sets max_to_return : Z)
    (n i : nat) (data_sets : list mu_nodeid_t) : option (list mu_nodeid_t * option nat) :=
  match n with
  | O => Some (data_sets, None)
  | S n =>
      node_id ← fetch i;
      if mu_evaluate_content_filter filter then
        if zlen data_sets <? max_data_sets then
          if (0 <? max_to_return) && (max_to_return <=? zlen data_sets) then Some (data_sets, Some i)
          else scan_nodes fetch filter max_data_sets max_to_return n (S i) (data_sets ++ [node_id])
        else Some (data_sets, Some i)
      else scan_nodes fetch filter max_data_sets max_to_return n (S i) data_sets
  end.

Definition index_count (s : mu_server_t Rest) : Z := from_option ix_count 0 (sv_user_index s).

(** The NodeId at a position of the index of the integrator's nodes. *)
Definition indexed_node (s : mu_server_t Rest) (i : nat) : option mu_nodeid_t :=
  index ← sv_user_index s;
  idx ← znth (ix_order index) (Z.of_nat i);
  space ← sv_address_space s;
  nodes ← as_nodes space;
  node ← znth nodes idx;
  Some (node_node_id node).

(** The NodeId of a dynamic node. *)
Definition dynamic_node (s : mu_server_t Rest) (i : nat) : option mu_nodeid_t :=
  let sp := host_space (sv_rest s) in
  node ← da_nodes sp !! i;
  load_nodeid sp (sd_node_id node).

(** The data sets and the index to resume from, 0 when nothing is left. *)
Definition query_nodes (s : mu_server_t Rest) (req : mu_query_first_request_t) (max_data_sets : Z) : option (list mu_nodeid_t * Z) :=
  let filter := qf_filter req in
  let max_to_return := qf_max_data_sets_to_return req in
  let count := index_count s in
  '(data_sets, stop) ← scan_nodes (indexed_node s) filter max_data_sets max_to_return (Z.to_nat count) 0 [];
  let next_index := from_option Z.of_nat 0 stop in
  if MUC_OPCUA_SERVICE_NODEMANAGEMENT && (next_index =? 0) then
    '(data_sets, stop) ← scan_nodes (dynamic_node s) filter max_data_sets max_to_return (Z.to_nat (da_nodes_count (host_space (sv_rest s)))) 0 data_sets;
    Some (data_sets, from_option (λ i, count + Z.of_nat i) 0 stop)
  else Some (data_sets, next_index).

Definition set_points (s : mu_server_t Rest) (points : list query_point) : mu_server_t Rest :=
  set_rest s (host_set_points (sv_rest s) points).

(** Take the first free point for [next_index]. *)
Definition remember (next_index : Z) : M (mu_server_t Rest) (option mu_string_t) := λ s,
  let points := host_points (sv_rest s) in
  match list_find (λ p, cp_id_set p = false) points with
  | Some (i, p) => let p := take_point p next_index in (Ok (Some (cp_id p)), set_points s (<[i := p]> points))
  | None => (Ok None, s)
  end.

Definition mu_query_first_process (req : mu_query_first_request_t) (max_data_sets : Z) : M (mu_server_t Rest) mu_query_response_t :=
  s ← get_state;
  '(data_sets, next_index) ← lift_option (query_nodes s req max_data_sets);
  cp ← (if 0 <? next_index then remember next_index else mret (Some null_string));
  mret (mk_query_response data_sets cp).

(** The status and the response. *)
Definition mu_query_next_process (req : mu_query_next_request_t) : M (mu_server_t Rest) (Z * mu_query_response_t) := λ s,
  let empty := mk_query_response [] (Some null_string) in
  if negb (mu_query_continuation_point_supplied (qn_continuation_point req)) then (Ok (MU_STATUS_GOOD, empty), s)
  else
    let points := host_points (sv_rest s) in
    match mu_query_find_continuation_point points 0 (qn_continuation_point req) with
    | None => (Fault, s)
    | Some None => (Ok (MU_STATUS_BAD_CONTINUATIONPOINTINVALID, empty), s)
    | Some (Some slot) =>
        if qn_release_continuation_point req
        then (Ok (MU_STATUS_GOOD, empty), set_points s (alter mu_query_release_continuation_point slot points))
        else (Ok (MU_STATUS_GOOD, empty), s)
    end.

(** ** Handlers *)

Definition handle_query_first : H Rest unit :=
  req_header ← rd mu_request_header_decode;
  req ← rd (mu_query_first_request_decode 4 4 8);
  resp ← sv (mu_query_first_process req 16);
  wr (write_response_prefix MU_ID_QUERYFIRSTRESPONSE (rh_request_handle req_header) MU_STATUS_GOOD);;
  wr (mu_query_first_response_encode resp);;
  finish.

Definition handle_query_next : H Rest unit :=
  req_header ← rd mu_request_header_decode;
  req ← rd mu_query_next_request_decode;
  '(status, resp) ← sv (mu_query_next_process req);
  wr (write_response_prefix MU_ID_QUERYNEXTRESPONSE (rh_request_handle req_header) status);;
  wr (mu_query_next_response_encode resp);;
  finish;;
  if status =? MU_STATUS_GOOD then mret tt else fail status.
End services.
