(* ===== verification/QuerySpec.v ===== *)
(** * Properties of the Query services *)

From S2P Require Export Query HandlerLogic.

(** ** Which nodes a query returns *)

(** The number of data sets a response may carry. *)
Definition query_limit (max_data_sets max_to_return : Z) : Z :=
  if 0 <? max_to_return then Z.min max_data_sets max_to_return else max_data_sets.

Lemma scan_nodes_spec (fetch : nat → option mu_nodeid_t) filter max_data_sets max_to_return nodes : ∀ i data_sets,
  (∀ j node, nodes !! j = Some node → fetch (i + j)%nat = Some node) →
  let limit := query_limit max_data_sets max_to_return in
  zlen data_sets ≤ limit →
  scan_nodes fetch filter max_data_sets max_to_return (length nodes) i data_sets
  = Some (data_sets ++ ztake (limit - zlen data_sets) nodes,
          if zlen data_sets + zlen nodes <=? limit then None else Some (i + Z.to_nat (limit - zlen data_sets))%nat).
Proof.
  induction nodes as [|node nodes IH]; intros i data_sets Hfetch limit Hlen; cbn [length scan_nodes].
  { change (zlen []) with 0; destruct (Z.leb_spec (zlen data_sets + 0) limit); [|lia].
    unfold ztake; by rewrite take_nil, app_nil_r. }
  pose proof (Hfetch 0%nat node eq_refl) as E; rewrite Nat.add_0_r in E; rewrite E; cbn [mbind option_bind mu_evaluate_content_filter].
  pose proof (zlen_nonneg data_sets); pose proof (zlen_nonneg nodes).
  assert (Hfull : ((zlen data_sets <? max_data_sets) && negb ((0 <? max_to_return) && (max_to_return <=? zlen data_sets)) = true) ↔ zlen data_sets < limit).
  { unfold limit, query_limit in *; destruct (Z.ltb_spec 0 max_to_return), (Z.ltb_spec (zlen data_sets) max_data_sets), (Z.leb_spec max_to_return (zlen data_sets));
      cbn; split; try done; lia. }
  rewrite zlen_cons; destruct (decide (zlen data_sets < limit)) as [Hlt|Hge].
  - pose proof (proj2 Hfull Hlt) as Hb; apply andb_true_iff in Hb as [-> Hb]; apply negb_true_iff in Hb; rewrite Hb.
    rewrite (IH (S i) (data_sets ++ [node])).
    + rewrite zlen_app; change (zlen [node]) with 1; f_equal; f_equal.
      * rewrite <-app_assoc; f_equal; unfold ztake; replace (Z.to_nat (limit - zlen data_sets)) with (S (Z.to_nat (limit - (zlen data_sets + 1)))) by lia.
        done.
      * fold limit; destruct (Z.leb_spec (zlen data_sets + 1 + zlen nodes) limit), (Z.leb_spec (zlen data_sets + (1 + zlen nodes)) limit);
          [done|lia|lia|f_equal; lia].
    + intros j x Hj; replace (S i + j)%nat with (i + S j)%nat by lia; by apply Hfetch.
    + rewrite zlen_app; change (zlen [node]) with 1; fold limit; lia.
  - assert (limit = zlen data_sets) by lia; replace (limit - zlen data_sets) with 0 by lia.
    destruct (Z.leb_spec (zlen data_sets + (1 + zlen nodes)) limit); [lia|]; unfold ztake; cbn [take Z.to_nat]; rewrite app_nil_r, Nat.add_0_r.
    destruct (zlen data_sets <? max_data_sets); [|done].
    destruct ((0 <? max_to_return) && (max_to_return <=? zlen data_sets)); [done|]; exfalso; apply Hge, Hfull; done.
Qed.

Section process.
  Context {features : ServiceFeatures} {Rest : Type} {node_host : NodeManagementHost Rest} {query_host : QueryHost Rest}.

(** The server lists [indexed] as the integrator's nodes and [dynamic] as the
    nodes clients have added. *)
Record queryable (s : mu_server_t Rest) (indexed dynamic : list mu_nodeid_t) : Prop := {
  qa_count : index_count s = zlen indexed;
  qa_indexed j node : indexed !! j = Some node → indexed_node s j = Some node;
  qa_dynamic_count : da_nodes_count (host_space (sv_rest s)) = zlen dynamic;
  qa_dynamic j node : dynamic !! j = Some node → dynamic_node s j = Some node
}.

Lemma query_nodes_spec s req max_data_sets indexed dynamic : MUC_OPCUA_SERVICE_NODEMANAGEMENT = true → 0 < max_data_sets →
  queryable s indexed dynamic →
  let limit := query_limit max_data_sets (qf_max_data_sets_to_return req) in
  query_nodes s req max_data_sets
  = Some (ztake limit (indexed ++ dynamic), if zlen (indexed ++ dynamic) <=? limit then 0 else limit).
Proof.
  intros Hnm Hmax [Hc Hi Hdc Hd] limit.
  assert (Hlimit : 0 < limit) by (unfold limit, query_limit; destruct (Z.ltb_spec 0 (qf_max_data_sets_to_return req)); lia).
  pose proof (zlen_nonneg indexed); pose proof (zlen_nonneg dynamic).
  assert (En : ∀ l : list mu_nodeid_t, Z.to_nat (zlen l) = length l) by (intros l; unfold zlen; lia).
  unfold query_nodes; rewrite Hc, Hdc, !En, (scan_nodes_spec (indexed_node s) _ _ _ indexed 0 []); [|exact Hi|change (zlen []) with 0; fold limit; lia].
  fold limit; change (zlen []) with 0; rewrite Z.sub_0_r, Z.add_0_l, zlen_app; cbn [mbind option_bind app]; rewrite Hnm; cbn [andb Nat.add].
  destruct (Z.leb_spec (zlen indexed) limit) as [Hle|Hgt]; cbn [from_option].
  - rewrite Z.eqb_refl; assert (Et : ztake limit indexed = indexed) by (unfold ztake; apply take_ge; unfold zlen in Hle; lia); rewrite Et.
    rewrite (scan_nodes_spec (dynamic_node s) _ _ _ dynamic 0 indexed); [|exact Hd|done]; fold limit; cbn [mbind option_bind Nat.add].
    f_equal; f_equal.
    + unfold ztake; rewrite take_app, (take_ge indexed) by (unfold zlen in *; lia); do 2 f_equal; unfold zlen; lia.
    + split_if; cbn [from_option]; [done|]; lia.
  - destruct (Z.eqb_spec (Z.of_nat (Z.to_nat limit)) 0); [lia|]; destruct (Z.leb_spec (zlen indexed + zlen dynamic) limit); [lia|].
    do 2 f_equal; [|lia]; unfold ztake; rewrite take_app_le; [done|]; unfold zlen in *; lia.
Qed.

End process.

(** ** Decoding *)

Definition operand_ok (operand : mu_filter_operand_t) : Prop :=
  match operand with
  | MU_FILTEROPERAND_ELEMENT _ => True
  | MU_FILTEROPERAND_LITERAL value => wire_variant zero_variant value
  end.

Definition element_ok (element : mu_content_filter_element_t) : Prop := Forall operand_ok (fe_filter_operands element).

Lemma rsafe_require_min_counted_bytes count n : rsafe (query_require_min_counted_bytes count n) (λ _, True).
Proof.
  unfold query_require_min_counted_bytes; apply rsafe_get; intros r Hr; apply rsafe_if; intros H1; bool_hyps; [by apply rsafe_fail|].
  do 2 (apply rsafe_if; intros _; [by apply rsafe_reader_fail|]); by apply rsafe_ret.
Qed.

Lemma rsafe_query_operand : rsafe read_filter_operand operand_ok.
Proof.
  unfold read_filter_operand; eapply rsafe_bind; [apply rsafe_read_extension_object_header|intros [type len] [[_ Htype] Hlen]]; cbn in Htype, Hlen.
  apply rsafe_lift; destruct (identifier_word type) as [word|] eqn:Ew; [|unfold identifier_word in Ew; by destruct (nid_identifier type)].
  exists word; split; [done|]; apply rsafe_if; intros _; [eapply rsafe_bind; [apply rsafe_read_uint32|intros ??; by apply rsafe_ret]|].
  apply rsafe_if; intros _; [eapply rsafe_bind; [apply rsafe_read_variant|intros ??; by apply rsafe_ret]|].
  intros r Hr; rewrite (bind_ok get_state _ r r r eq_refl); split_if; [by apply rsafe_fail|]; split_if; [by apply rsafe_fail|]; bool_hyps.
  pose proof Hr as [Hbuf Hp].
  assert (r_length r ≤ PTRDIFF_MAX) by (destruct (r_buffer r); cbn in Hbuf; unfold PTRDIFF_MAX in *; lia); unfold PTRDIFF_MAX in *.
  match goal with H : len ≤ _ |- _ => rewrite to_unsigned_id in H by lia end.
  unfold put_state, mbind, M_bind; cbn; split; [|done]; rewrite to_unsigned_id by lia; split; cbn; [split; cbn; [done|lia]|done|done|lia].
Qed.

Lemma rsafe_query_operands count index max : rsafe (read_filter_operands count index max) (Forall operand_ok).
Proof.
  unfold read_filter_operands; apply rsafe_if; intros _; [by apply rsafe_ret|].
  eapply rsafe_bind; [apply rsafe_require_min_counted_bytes|intros _ _]; apply rsafe_if; intros _; [by apply rsafe_reader_fail|].
  eapply rsafe_mono; [apply rsafe_rd_list, rsafe_query_operand|]; by intros l [_ ?].
Qed.

Lemma rsafe_query_elements n : ∀ index max, rsafe (read_filter_elements n index max) (λ l, length l = n ∧ Forall element_ok l).
Proof.
  induction n as [|n IH]; intros index max; cbn [read_filter_elements]; [by apply rsafe_ret|].
  eapply rsafe_bind; [apply rsafe_read_uint32|intros op _]; eapply rsafe_bind; [apply rsafe_read_uint32|intros count _].
  eapply rsafe_bind; [apply rsafe_query_operands|intros operands Ho]; eapply rsafe_bind; [apply IH|intros l [<- Hl]].
  apply rsafe_ret; split; [done|by constructor].
Qed.

Lemma rsafe_content_filter max_elements max_operands : 0 ≤ max_elements → rsafe (mu_content_filter_decode max_elements max_operands)
  (λ l, zlen l ≤ max_elements ∧ Forall element_ok l).
Proof.
  intros Hmax; unfold mu_content_filter_decode; eapply rsafe_bind; [apply rsafe_read_uint32|intros count Hc].
  apply rsafe_if; intros _; [by apply rsafe_ret|]; eapply rsafe_bind; [apply rsafe_require_min_counted_bytes|intros _ _].
  apply rsafe_if; intros Hle; bool_hyps; [by apply rsafe_reader_fail|]; ranges.
  eapply rsafe_mono; [apply rsafe_query_elements|]; intros l [Hl ?]; split; [unfold zlen; lia|done].
Qed.

Lemma rsafe_node_types n : ∀ i max, i + Z.of_nat n < max → rsafe (read_node_types n i max) (λ l, length l = n).
Proof.
  induction n as [|n IH]; intros i max Hi; cbn [read_node_types]; [by apply rsafe_ret|].
  eapply (rsafe_bind _ _ (λ _, True)).
  - unfold read_node_type; eapply rsafe_bind; [apply rsafe_read_expanded_nodeid|intros x _].
    destruct (Z.ltb_spec (i + 1) max); [|lia]; eapply rsafe_bind; [by apply (rsafe_ret tt (λ _, True))|intros _ _].
    eapply rsafe_bind; [apply rsafe_read_boolean|intros include _]; eapply rsafe_bind; [apply rsafe_read_uint32|intros count _].
    apply rsafe_if; intros _; [by apply rsafe_fail|by apply rsafe_ret].
  - intros t _; eapply rsafe_bind; [apply (IH (i + 1)); lia|intros l <-]; by apply rsafe_ret.
Qed.

(** The request up to the number of its node types. *)
Definition read_node_type_count : Rd Z :=
  _ ← mu_binary_read_nodeid;
  _ ← mu_binary_read_int64;
  _ ← mu_binary_read_uint32;
  mu_binary_read_uint32.

Definition query_request_ok (req : mu_query_first_request_t) : Prop :=
  zlen (qf_node_types req) ≤ 3 ∧ zlen (qf_filter req) ≤ 4 ∧ Forall element_ok (qf_filter req).

(** What follows the count. *)
Definition read_query_rest (count : Z) : Rd mu_query_first_request_t :=
  let count := if count =? U32_NULL then 0 else count in
  if 4 <? count then fail MU_STATUS_BAD_OUTOFMEMORY
  else
    node_types ← read_node_types (Z.to_nat count) 0 4;
    filter ← mu_content_filter_decode 4 8;
    max_data_sets ← mu_binary_read_uint32;
    max_references ← mu_binary_read_uint32;
    mret (mk_query_first_request node_types filter max_data_sets max_references).

Lemma query_first_decode_split r : mu_query_first_request_decode 4 4 8 r = (read_node_type_count ≫= read_query_rest) r.
Proof.
  unfold mu_query_first_request_decode, read_node_type_count; rewrite bind_assoc; unfold mbind, M_bind.
  destruct (mu_binary_read_nodeid r) as [[]]; [|done..]; cbn; destruct (mu_binary_read_int64 _) as [[]]; [|done..].
  by destruct (mu_binary_read_uint32 _) as [[]].
Qed.

Lemma rsafe_node_type_count : rsafe read_node_type_count u32_range.
Proof.
  unfold read_node_type_count; do 3 (eapply rsafe_bind; [eauto with rsafe|intros ??]); apply rsafe_read_uint32.
Qed.

Lemma rsafe_query_rest count : u32_range count → count ≠ 4 → rsafe (read_query_rest count) query_request_ok.
Proof.
  intros Hc Hne; unfold read_query_rest; cbv zeta; set (n := if count =? U32_NULL then 0 else count).
  assert (Hn : 0 ≤ n ∧ n ≠ 4) by (unfold n; split_if; ranges; lia); clearbody n.
  apply rsafe_if; intros Hle; bool_hyps; [by apply rsafe_fail|].
  eapply rsafe_bind; [apply rsafe_node_types; lia|intros types Ht]; eapply rsafe_bind; [by apply rsafe_content_filter|intros filter [Hf He]].
  do 2 (eapply rsafe_bind; [apply rsafe_read_uint32|intros ? _]); apply rsafe_ret; split; [|done]; cbn [qf_node_types]; unfold zlen; rewrite Ht; destruct Hn; lia.
Qed.

(** C33: the QueryFirst decoder is safe unless the request lists exactly four
    node types. For every other request, whatever its octets, it returns
    without touching memory outside the request and its own arrays, and a
    request it accepts has at most three node types and four filter elements
    with well-formed operands. (With four, reading the last type stores past
    the end of the handler's array: [query_four_types_overrun].) *)
Theorem query_first_decode_safe r : reader_ok r → ¬ (read_node_type_count r).1 = Ok 4 →
  reader_step r (mu_query_first_request_decode 4 4 8 r).2 ∧ outcome_ok query_request_ok (mu_query_first_request_decode 4 4 8 r).1.
Proof.
  intros Hr Hne; rewrite query_first_decode_split; destruct (rsafe_node_type_count r Hr) as [Hs Ho].
  destruct (read_node_type_count r) as [[count|e|] r1] eqn:E; cbn [fst snd outcome_ok] in *.
  - rewrite (bind_ok _ _ _ _ _ E); destruct (rsafe_query_rest count Ho ltac:(congruence) r1 (rstep_ok _ _ Hs)) as [Hs' ?].
    split; [by eapply reader_step_trans|done].
  - by rewrite (bind_err _ _ _ _ _ E).
  - done.
Qed.

Module QuerySample.
(** QueryFirst for [n] node types with numeric ids. *)
Definition request (n : nat) : list Z :=
  [0; 0] ++ mu_binary_le_put_u64 0 ++ mu_binary_le_put_u32 0 ++ mu_binary_le_put_u32 (Z.of_nat n) ++
  concat (repeat ([0; 58; 0] ++ mu_binary_le_put_u32 (-1)) n) ++ mu_binary_le_put_u32 0 ++ mu_binary_le_put_u32 0 ++ mu_binary_le_put_u32 0.

Definition reader (n : nat) : mu_binary_reader_t := mu_binary_reader_init (Some (request n)) (zlen (request n)).

(** A server with two nodes of the integrator. *)
Definition rest : Type := mu_dynamic_address_space_t * list query_point.
#[export] Instance node_host : NodeManagementHost rest :=
  {| host_space := fst; host_set_space r sp := (sp, r.2); host_allow_node_management _ := false |}.
#[export] Instance query_host : QueryHost rest := {| host_points := snd; host_set_points r points := (r.1, points) |}.

Definition node_id (i : Z) : mu_nodeid_t := mk_nodeid 1 (MU_NODEID_NUMERIC i).
Definition node (i : Z) : mu_node_t := mk_node (node_id i) 1 null_string null_string None 0 None.

Definition server : mu_server_t rest :=
  mk_server mu_secure_channel_init [] None (Some (mk_address_space 1 (Some [node 5; node 3]) 2)) (Some (mk_index [1; 0] 2 true (Some 1) 2))
    None [] None [] (@init_space embedded_caps, [free_point; free_point]).

Definition first_request : mu_query_first_request_t := mk_query_first_request [] [] 1 0.

Lemma server_queryable : queryable server [node_id 3; node_id 5] [].
Proof. by split; [done| |done|]; intros [|[|j]] x Hx; cbn in Hx; simplify_eq. Qed.
End QuerySample.

Example query_four_types_overrun : (mu_query_first_request_decode 4 4 8 (QuerySample.reader 4)).1 = Fault.
Proof. vm_compute. reflexivity. Qed.

Lemma query_first_decode_safe_witness :
  ∃ req, (mu_query_first_request_decode 4 4 8 (QuerySample.reader 3)).1 = Ok req ∧ query_request_ok req.
Proof.
  destruct (query_first_decode_safe (QuerySample.reader 3)) as [_ H].
  - apply reader_init_ok; [by vm_compute|by apply bytes_okb].
  - vm_compute; discriminate.
  - destruct (mu_query_first_request_decode 4 4 8 (QuerySample.reader 3)).1 as [req|e|] eqn:E; [by exists req|vm_compute in E; discriminate E|done].
Defined.

