(* ===== verification/History.v ===== *)
(** * HistoryRead and HistoryUpdate

    [src/services/history.c] and [history.h], and the two handlers of
    [src/core/service_dispatch.c] around the integrator's history adapter. *)

From S2P Require Export Discovery Publish Query.

Definition MU_MAX_HISTORY_READ_CONTINUATION_POINT_LENGTH : Z := 32.
Definition MU_MAX_HISTORY_UPDATE_VALUES_PER_DETAIL : Z := 10.
Definition MU_MAX_HISTORY_NODES_PER_READ : Z := 10.
Definition MU_MAX_HISTORY_UPDATE_ITEMS : Z := 5.

(** The size of [data_points] and of a row of [dvals]. *)
Definition HISTORY_DATA_POINTS : Z := 10.

(** ** Requests *)

Record mu_read_raw_modified_details_t := mk_read_raw_modified_details {
  rr_is_read_modified : bool;
  rr_start_time : Z;
  rr_end_time : Z;
  rr_num_values_per_node : Z;
  rr_return_bounds : bool
}.

(** The continuation point lies in the storage of the same record, of which
    only its own octets are set. *)
Record mu_history_read_value_id_t := mk_history_read_value_id {
  hv_node_id : mu_nodeid_t;
  hv_index_range : mu_string_t;
  hv_data_encoding : mu_qualified_name_t;
  hv_continuation_point : mu_bytestring_t
}.

Record mu_history_read_request_t := mk_history_read_request {
  hq_details : mu_read_raw_modified_details_t;
  hq_timestamps_to_return : Z;
  hq_release_continuation_points : bool;
  hq_nodes_to_read : list mu_history_read_value_id_t
}.

(** The type of the details and the body that goes with it. *)
Inductive mu_history_update_item_t :=
| MU_HISTORY_UPDATE_TYPE_INVALID
| MU_HISTORY_UPDATE_TYPE_DATA (node_id : mu_nodeid_t) (perform_insert_replace : Z) (values : list mu_historical_data_point_t)
| MU_HISTORY_UPDATE_TYPE_DELETE (node_id : mu_nodeid_t) (is_delete_modified : bool) (start_time end_time : Z).

(** ** Decoding *)

Definition mu_history_read_store_continuation_point (continuation_point : mu_bytestring_t) : Rd mu_bytestring_t :=
  if str_length continuation_point <? 0 then mret (mk_string (-1) None)
  else if MU_MAX_HISTORY_READ_CONTINUATION_POINT_LENGTH <? str_length continuation_point
  then fail MU_STATUS_BAD_CONTINUATIONPOINTINVALID
  else if str_length continuation_point =? 0 then mret (mk_string 0 None)
  else
    octets ← lift_option (data ← str_data continuation_point; mem_load data 0 (str_length continuation_point));
    mret (mk_string (str_length continuation_point) (Some octets)).

Definition read_raw_modified_details : Rd mu_read_raw_modified_details_t :=
  is_read_modified ← mu_binary_read_boolean;
  start_time ← mu_binary_read_int64;
  end_time ← mu_binary_read_int64;
  num_values_per_node ← mu_binary_read_uint32;
  return_bounds ← mu_binary_read_boolean;
  mret (mk_read_raw_modified_details is_read_modified start_time end_time num_values_per_node return_bounds).

(** The details, read by a reader of their own over the declared body; its
    failures do not mark the reader of the request. *)
Definition read_details_body (length : Z) : Rd mu_read_raw_modified_details_t := λ r,
  match r_buffer r with
  | None => (Fault, r)
  | Some buffer =>
      match read_raw_modified_details (mu_binary_reader_init (Some (zdrop (r_position r) buffer)) length) with
      | (Fault, _) => (Fault, r)
      | (Err e, _) => (Err e, r)
      | (Ok details, body_reader) =>
          if negb (r_position body_reader =? length) then reader_fail MU_STATUS_BAD_DECODINGERROR r
          else (Ok details, set_r_position r (to_size (r_position r + length)))
      end
  end.

Definition read_history_details : Rd mu_read_raw_modified_details_t :=
  ext_type ← mu_binary_read_nodeid;
  word ← lift_option (identifier_word ext_type);
  if negb (word =? MU_ID_READRAWMODIFIEDDETAILS_ENCODING_DEFAULTBINARY) then fail MU_STATUS_BAD_HISTORYOPERATIONUNSUPPORTED
  else
    encoding_mask ← mu_binary_read_byte;
    if Z.land encoding_mask 0x01 =? 0 then fail MU_STATUS_BAD_NOTSUPPORTED
    else
      length ← mu_binary_read_int32;
      r ← get_state;
      if length <? 0 then reader_fail MU_STATUS_BAD_DECODINGERROR
      else if (r_length r <? r_position r) || (r_length r - r_position r <? length) then reader_fail MU_STATUS_BAD_DECODINGERROR
      else read_details_body length.

Definition read_history_value_id : Rd mu_history_read_value_id_t :=
  node_id ← mu_binary_read_nodeid;
  index_range ← mu_binary_read_string;
  namespace_index ← mu_binary_read_uint16;
  name ← mu_binary_read_string;
  continuation_point ← mu_binary_read_bytestring;
  continuation_point ← mu_history_read_store_continuation_point continuation_point;
  mret (mk_history_read_value_id node_id index_range (mk_qualified_name namespace_index name) continuation_point).

Definition mu_history_read_request_decode (max_nodes : Z) : Rd mu_history_read_request_t :=
  details ← read_history_details;
  timestamps_to_return ← mu_binary_read_uint32;
  release_continuation_points ← mu_binary_read_boolean;
  no_of_nodes ← mu_binary_read_int32;
  if no_of_nodes <? 0 then mret (mk_history_read_request details timestamps_to_return release_continuation_points [])
  else if max_nodes <? no_of_nodes then fail MU_STATUS_BAD_TOOMANYOPERATIONS
  else
    nodes ← rd_list (Z.to_nat no_of_nodes) read_history_value_id;
    mret (mk_history_read_request details timestamps_to_return release_continuation_points nodes).

(** The values of an update, each decoded into the local variable [dv], which
    the code leaves uninitialised: [garbage] is what it holds. *)
Fixpoint read_data_points (n : nat) (garbage : nat → mu_datavalue_t) : Rd (list mu_historical_data_point_t) :=
  match n with
  | O => mret []
  | S n =>
      dv ← mu_binary_read_datavalue (garbage O);
      rest ← read_data_points n (garbage ∘ S);
      mret (mk_historical_data_point (dv_source_timestamp dv) (dv_server_timestamp dv) (dv_status dv) (dv_value dv) :: rest)
  end.

Definition read_update_data (garbage : nat → mu_datavalue_t) : Rd mu_history_update_item_t :=
  node_id ← mu_binary_read_nodeid;
  perform_insert_replace ← mu_binary_read_uint32;
  num_vals ← mu_binary_read_int32;
  if num_vals <? 0 then mret (MU_HISTORY_UPDATE_TYPE_DATA node_id perform_insert_replace [])
  else if MU_MAX_HISTORY_UPDATE_VALUES_PER_DETAIL <? num_vals then fail MU_STATUS_BAD_TOOMANYOPERATIONS
  else
    values ← read_data_points (Z.to_nat num_vals) garbage;
    mret (MU_HISTORY_UPDATE_TYPE_DATA node_id perform_insert_replace values).

Definition read_delete_raw_modified : Rd mu_history_update_item_t :=
  node_id ← mu_binary_read_nodeid;
  is_delete_modified ← mu_binary_read_boolean;
  start_time ← mu_binary_read_int64;
  end_time ← mu_binary_read_int64;
  mret (MU_HISTORY_UPDATE_TYPE_DELETE node_id is_delete_modified start_time end_time).

(** Skip what the details left of their declared [length]. *)
Definition skip_rest (start_pos length : Z) : Rd unit :=
  r ← get_state;
  let bytes_read := to_size (r_position r - start_pos) in
  if bytes_read <? length then
    let diff := length - bytes_read in
    if r_length r <? to_size (r_position r + diff) then fail MU_STATUS_BAD_DECODINGERROR
    else put_state (set_r_position r (to_size (r_position r + diff)))
  else mret tt.

Definition read_update_item (garbage : nat → mu_datavalue_t) : Rd mu_history_update_item_t :=
  type_id ← mu_binary_read_nodeid;
  encoding_mask ← mu_binary_read_byte;
  if Z.land encoding_mask 0x01 =? 0 then fail MU_STATUS_BAD_NOTSUPPORTED
  else
    length ← mu_binary_read_int32;
    if length <? 0 then fail MU_STATUS_BAD_DECODINGERROR
    else
      r ← get_state;
      word ← lift_option (identifier_word type_id);
      item ← (if word =? MU_ID_UPDATEDATADETAILS_ENCODING_DEFAULTBINARY then read_update_data garbage
              else if word =? MU_ID_DELETERAWMODIFIEDDETAILS_ENCODING_DEFAULTBINARY then read_delete_raw_modified
              else fail MU_STATUS_BAD_HISTORYOPERATIONUNSUPPORTED);
      skip_rest (r_position r) length;;
      mret item.

Fixpoint read_update_items (n : nat) (garbage : nat → nat → mu_datavalue_t) : Rd (list mu_history_update_item_t) :=
  match n with
  | O => mret []
  | S n =>
      item ← read_update_item (garbage O);
      rest ← read_update_items n (garbage ∘ S);
      mret (item :: rest)
  end.

Definition mu_history_update_request_decode (garbage : nat → nat → mu_datavalue_t) (max_items : Z) : Rd (list mu_history_update_item_t) :=
  num_details ← mu_binary_read_int32;
  if num_details <? 0 then mret []
  else if max_items <? num_details then fail MU_STATUS_BAD_TOOMANYOPERATIONS
  else read_update_items (Z.to_nat num_details) garbage.

(** ** Encoding *)

Record mu_history_read_result_t := mk_history_read_result {
  hs_status_code : Z;
  hs_continuation_point : mu_bytestring_t;
  hs_data_values : list mu_datavalue_t
}.

(** The operation results are the first of [hu_operation_results]. *)
Record mu_history_update_result_t := mk_history_update_result {
  hu_status_code : Z;
  hu_num_operation_results : Z;
  hu_operation_results : list Z
}.

(** A HistoryData ExtensionObject, its length written when it is known. *)
Definition write_history_data (values : list mu_datavalue_t) : Wr unit :=
  mu_binary_write_nodeid (mk_nodeid 0 (MU_NODEID_NUMERIC MU_ID_HISTORYDATA_ENCODING_DEFAULTBINARY));;
  mu_binary_write_byte 0x01;;
  w ← get_state;
  mu_binary_write_int32 0;;
  w1 ← get_state;
  mu_binary_write_int32 (to_i32 (zlen values));;
  wr_list mu_binary_write_datavalue values;;
  w2 ← get_state;
  backpatch_int32 (w_position w) (to_i32 (to_size (w_position w2 - w_position w1))).

Definition write_null_history_data : Wr unit :=
  mu_binary_write_nodeid (mk_nodeid 0 (MU_NODEID_NUMERIC 0));;
  mu_binary_write_byte 0x00.

Definition write_history_read_result (res : mu_history_read_result_t) : Wr unit :=
  mu_binary_write_statuscode (hs_status_code res);;
  mu_binary_write_bytestring (hs_continuation_point res);;
  if 0 <? zlen (hs_data_values res) then write_history_data (hs_data_values res) else write_null_history_data.

Definition mu_history_read_response_encode (results : list mu_history_read_result_t) : Wr unit :=
  mu_binary_write_int32 (to_i32 (zlen results));;
  wr_list write_history_read_result results;;
  mu_binary_write_int32 (-1).

Definition write_history_update_result (res : mu_history_update_result_t) : Wr unit :=
  mu_binary_write_statuscode (hu_status_code res);;
  (if hu_num_operation_results res =? 0 then mu_binary_write_int32 (-1)
   else
     mu_binary_write_int32 (to_i32 (hu_num_operation_results res));;
     operation_results ← lift_option (mem_load (hu_operation_results res) 0 (hu_num_operation_results res));
     wr_list mu_binary_write_statuscode operation_results);;
  mu_binary_write_int32 (-1).

Definition mu_history_update_response_encode (results : list mu_history_update_result_t) : Wr unit :=
  mu_binary_write_int32 (to_i32 (zlen results));;
  wr_list write_history_update_result results;;
  mu_binary_write_int32 (-1).

(** ** Handlers *)

(** What the handlers' uninitialised local variables hold. *)
Class HistoryStack := {
  stack_datavalue : nat → nat → mu_datavalue_t;
  stack_continuation_point : nat → list Z;
  stack_operation_results : nat → list Z
}.

Section handlers.
  Context {stack : HistoryStack} {W Rest : Type} {config_host : ConfigHost W Rest}.

(** A request that cannot be decoded is answered with the status alone. *)
Definition decode_or {A} (m : Rd A) (failed : Z → H Rest unit) (k : A → H Rest unit) : H Rest unit := λ st,
  match rd m st with
  | (Ok a, st) => k a st
  | (Err e, st) => failed e st
  | (Fault, st) => (Fault, st)
  end.

Definition answer_status (response_id request_handle status : Z) : H Rest unit :=
  wr (write_response_prefix response_id request_handle status);;
  finish.

Definition empty_data_point : mu_historical_data_point_t := mk_historical_data_point 0 0 0 zero_variant.

Definition point_value (p : mu_historical_data_point_t) : mu_datavalue_t :=
  mk_datavalue (hp_value p) (hp_status p) (hp_source_timestamp p) (hp_server_timestamp p) true true true true.

(** The result for a node from what the adapter left. *)
Definition history_result (answer : history_answer) : option mu_history_read_result_t :=
  if hr_status answer =? MU_STATUS_GOOD then
    let cp_out_length := hr_cp_out_length answer in
    let continuation_point :=
      if (0 <? cp_out_length) && (cp_out_length <=? MU_MAX_HISTORY_READ_CONTINUATION_POINT_LENGTH)
      then mk_string (to_i32 cp_out_length) (Some (hr_cp_out answer)) else mk_string (-1) None in
    if HISTORY_DATA_POINTS <? hr_actual_data_points answer then None
    else
      points ← mem_load (hr_data_points answer) 0 (hr_actual_data_points answer);
      Some (mk_history_read_result (hr_status answer) continuation_point (point_value <$> points))
  else Some (mk_history_read_result (hr_status answer) (mk_string (-1) None) []).

(** The call of the adapter for node [i]. *)
Definition read_node_history (details : mu_read_raw_modified_details_t) (i : nat) (node : mu_history_read_value_id_t)
    : M (mu_server_t Rest) mu_history_read_result_t :=
  let cp := hv_continuation_point node in
  answer ← world (λ cfg w,
    match history_read_raw_modified (cfg_history_adapter cfg) with
    | None => (Fault, w)
    | Some read =>
        let '(answer, w) := read (hv_node_id node) (rr_is_read_modified details) (rr_start_time details) (rr_end_time details)
                              (rr_num_values_per_node details) (rr_return_bounds details) (str_data cp)
                              (if 0 <? str_length cp then str_length cp else 0) (stack_continuation_point i)
                              (repeat empty_data_point (Z.to_nat HISTORY_DATA_POINTS)) w in
        (Ok answer, w)
    end);
  lift_option (history_result answer).

Fixpoint read_nodes_history (details : mu_read_raw_modified_details_t) (i : nat) (nodes : list mu_history_read_value_id_t)
    : M (mu_server_t Rest) (list mu_history_read_result_t) :=
  match nodes with
  | [] => mret []
  | node :: nodes =>
      result ← read_node_history details i node;
      rest ← read_nodes_history details (S i) nodes;
      mret (result :: rest)
  end.

Definition handle_history_read : H Rest unit :=
  req_header ← rd mu_request_header_decode;
  decode_or (mu_history_read_request_decode MU_MAX_HISTORY_NODES_PER_READ)
    (answer_status MU_ID_HISTORYREADRESPONSE (rh_request_handle req_header))
    (λ req,
      cfg ← sv config;
      if is_null (history_read_raw_modified (cfg_history_adapter cfg))
      then answer_status MU_ID_HISTORYREADRESPONSE (rh_request_handle req_header) MU_STATUS_BAD_NOTSUPPORTED
      else
        results ← sv (read_nodes_history (hq_details req) 0 (hq_nodes_to_read req));
        wr (write_response_prefix MU_ID_HISTORYREADRESPONSE (rh_request_handle req_header) MU_STATUS_GOOD);;
        wr (mu_history_read_response_encode results);;
        finish).

(** Item [i] of an update. *)
Definition update_item (i : nat) (item : mu_history_update_item_t) : M (mu_server_t Rest) mu_history_update_result_t :=
  let unset := stack_operation_results i in
  world (λ cfg w,
    let adapter := cfg_history_adapter cfg in
    match item with
    | MU_HISTORY_UPDATE_TYPE_DATA node_id perform_insert_replace values =>
        match history_update_data adapter with
        | None => (Ok (mk_history_update_result MU_STATUS_BAD_NOTSUPPORTED 0 unset), w)
        | Some update =>
            let '(status, results, w) := update node_id perform_insert_replace values unset w in
            (Ok (mk_history_update_result status (zlen values) results), w)
        end
    | MU_HISTORY_UPDATE_TYPE_DELETE node_id is_delete_modified start_time end_time =>
        match history_delete_raw_modified adapter with
        | None => (Ok (mk_history_update_result MU_STATUS_BAD_NOTSUPPORTED 0 unset), w)
        | Some delete =>
            let '(status, w) := delete node_id is_delete_modified start_time end_time w in
            (Ok (mk_history_update_result status 0 unset), w)
        end
    | MU_HISTORY_UPDATE_TYPE_INVALID => (Ok (mk_history_update_result MU_STATUS_BAD_HISTORYOPERATIONUNSUPPORTED 0 unset), w)
    end).

Fixpoint update_items (i : nat) (items : list mu_history_update_item_t) : M (mu_server_t Rest) (list mu_history_update_result_t) :=
  match items with
  | [] => mret []
  | item :: items =>
      result ← update_item i item;
      rest ← update_items (S i) items;
      mret (result :: rest)
  end.

Definition handle_history_update : H Rest unit :=
  req_header ← rd mu_request_header_decode;
  decode_or (mu_history_update_request_decode stack_datavalue MU_MAX_HISTORY_UPDATE_ITEMS)
    (answer_status MU_ID_HISTORYUPDATERESPONSE (rh_request_handle req_header))
    (λ items,
      results ← sv (update_items 0 items);
      wr (write_response_prefix MU_ID_HISTORYUPDATERESPONSE (rh_request_handle req_header) MU_STATUS_GOOD);;
      wr (mu_history_update_response_encode results);;
      finish).
End handlers.
