(* ===== verification/HistorySpec.v ===== *)
(** * Properties of the history services *)

From S2P Require Export History PublishSafety.

(** ** Decoders *)

(** A continuation point as it is passed to the adapter. *)
Definition stored_point (cp : mu_bytestring_t) : Prop :=
  str_length cp ≤ MU_MAX_HISTORY_READ_CONTINUATION_POINT_LENGTH ∧
  match str_data cp with
  | None => str_length cp ≤ 0
  | Some d => zlen d = str_length cp ∧ bytes_ok d
  end.

Definition value_id_ok (node : mu_history_read_value_id_t) : Prop :=
  wire_nodeid (hv_node_id node) ∧ wire_string (hv_index_range node) ∧ stored_point (hv_continuation_point node).

Definition update_item_ok (item : mu_history_update_item_t) : Prop :=
  match item with
  | MU_HISTORY_UPDATE_TYPE_INVALID => False
  | MU_HISTORY_UPDATE_TYPE_DATA node_id _ values => wire_nodeid node_id ∧ zlen values ≤ MU_MAX_HISTORY_UPDATE_VALUES_PER_DETAIL
  | MU_HISTORY_UPDATE_TYPE_DELETE node_id _ _ _ => wire_nodeid node_id
  end.

Lemma identifier_word_wire id : wire_nodeid id → ∃ word, identifier_word id = Some word.
Proof. intros [_ Hi]; unfold identifier_word; destruct (nid_identifier id); [by eexists|by eexists|done|done]. Qed.

Lemma rsafe_store_continuation_point s : wire_string s → rsafe (mu_history_read_store_continuation_point s) stored_point.
Proof.
  intros Hs; unfold mu_history_read_store_continuation_point; apply rsafe_if; intros H1; bool_hyps.
  { by apply rsafe_ret. }
  apply rsafe_if; intros H2; bool_hyps; [by apply rsafe_fail|]; apply rsafe_if; intros H3; bool_hyps; [by apply rsafe_ret|].
  destruct Hs as [->|(d & Hd & Hl & Hb & _)]; [cbn in H1; lia|]; rewrite Hd, Hl in *; cbn [mbind option_bind].
  apply rsafe_lift; exists d; split; [|by apply rsafe_ret].
  rewrite mem_load_Some by lia; f_equal; change (zdrop 0 d) with d; rewrite <-(app_nil_r d) at 2; apply ztake_app.
Qed.

Lemma rsafe_raw_modified_details : rsafe read_raw_modified_details (λ _, True).
Proof. unfold read_raw_modified_details; rsafe_auto; done. Qed.

Lemma rsafe_details_body length r : reader_ok r → is_Some (r_buffer r) → 0 ≤ length → r_position r + length ≤ r_length r →
  reader_step r (read_details_body length r).2 ∧ outcome_ok (λ _, True) (read_details_body length r).1.
Proof.
  intros Hr [b Hb] Hl Hfit; pose proof Hr as [Hbuf Hp]; rewrite Hb in Hbuf; destruct Hbuf as (Hlen & Hmax & Hbytes).
  unfold read_details_body; rewrite Hb; set (body := mu_binary_reader_init _ _).
  assert (Hbody : reader_ok body).
  { split; cbn; [|lia]; split; [rewrite zlen_zdrop; lia|]; split; [lia|by apply bytes_ok_zdrop]. }
  destruct (rsafe_raw_modified_details body Hbody) as [_ Ho]; destruct (read_raw_modified_details body) as [[d|e|] body']; cbn [fst snd outcome_ok] in Ho;
    [|split; [by apply reader_step_refl|done]|done].
  split_if; [by apply rsafe_reader_fail|]; cbn [fst snd outcome_ok]; split; [|done].
  rewrite to_unsigned_id by (unfold PTRDIFF_MAX in *; lia); split; cbn; [|done|done|lia].
  split; cbn; [by rewrite Hb|lia].
Qed.

Lemma read_int32_buffer r n r' : reader_ok r → mu_binary_read_int32 r = (Ok n, r') → is_Some (r_buffer r').
Proof.
  intros Hr E; pose proof (take_ok_buffer 4 mu_binary_le_get_u32 (λ v, mret (to_i32 v)) r n r' Hr ltac:(lia) E) as [b Hb].
  destruct (rsafe_read_int32 r Hr) as [[_ Eb _ _] _]; rewrite E in Eb; cbn in Eb; by rewrite Eb, Hb.
Qed.

(** After a number was read there is a buffer. *)
Lemma rsafe_read_int32_buffer {B} (k : Z → Rd B) Q :
  (∀ n r, reader_ok r → is_Some (r_buffer r) → reader_step r (k n r).2 ∧ outcome_ok Q (k n r).1) →
  rsafe (mu_binary_read_int32 ≫= k) Q.
Proof.
  intros Hk r Hr; destruct (rsafe_read_int32 r Hr) as [Hs Ho]; destruct (mu_binary_read_int32 r) as [[n|e|] r1] eqn:E; cbn [fst snd outcome_ok] in *.
  - rewrite (bind_ok _ _ _ _ _ E); destruct (Hk n r1 (rstep_ok _ _ Hs) (read_int32_buffer _ _ _ Hr E)) as [Hs' ?].
    split; [by eapply reader_step_trans|done].
  - by rewrite (bind_err _ _ _ _ _ E).
  - done.
Qed.

Lemma rsafe_history_details : rsafe read_history_details (λ _, True).
Proof.
  unfold read_history_details; eapply rsafe_bind; [apply rsafe_read_nodeid|intros ext Hext].
  destruct (identifier_word_wire ext Hext) as [word Ew]; rewrite Ew; apply rsafe_lift; exists word; split; [done|].
  apply rsafe_if; intros _; [by apply rsafe_fail|]; eapply rsafe_bind; [apply rsafe_read_byte|intros mask _].
  apply rsafe_if; intros _; [by apply rsafe_fail|].
  apply rsafe_read_int32_buffer; intros length r Hr Hb; rewrite (bind_ok get_state _ r r r eq_refl).
  split_if; [by apply rsafe_reader_fail|]; split_if; [by apply rsafe_reader_fail|]; bool_hyps.
  apply rsafe_details_body; [done|done|lia|lia].
Qed.

Lemma rsafe_history_value_id : rsafe read_history_value_id value_id_ok.
Proof.
  unfold read_history_value_id; eapply rsafe_bind; [apply rsafe_read_nodeid|intros node Hnode].
  eapply rsafe_bind; [apply rsafe_read_string|intros range Hrange]; eapply rsafe_bind; [apply rsafe_read_uint16|intros ns _].
  eapply rsafe_bind; [apply rsafe_read_string|intros name _]; eapply rsafe_bind; [apply rsafe_read_string|intros cp Hcp].
  eapply rsafe_bind; [by apply rsafe_store_continuation_point|intros cp' Hcp']; by apply rsafe_ret.
Qed.

Lemma rsafe_history_read_request max_nodes : rsafe (mu_history_read_request_decode max_nodes)
  (λ req, Forall value_id_ok (hq_nodes_to_read req) ∧ zlen (hq_nodes_to_read req) ≤ Z.max 0 max_nodes).
Proof.
  unfold mu_history_read_request_decode; eapply rsafe_bind; [apply rsafe_history_details|intros details _].
  eapply rsafe_bind; [apply rsafe_read_uint32|intros timestamps _]; eapply rsafe_bind; [apply rsafe_read_boolean|intros release _].
  eapply rsafe_bind; [apply rsafe_read_int32|intros n _]; apply rsafe_if; intros H1; bool_hyps.
  { apply rsafe_ret; cbn; split; [constructor|change (zlen []) with 0; lia]. }
  apply rsafe_if; intros H2; bool_hyps; [by apply rsafe_fail|].
  eapply rsafe_bind; [apply rsafe_rd_list, rsafe_history_value_id|intros nodes [Hlen Hnodes]]; apply rsafe_ret; cbn; split; [done|].
  unfold zlen; lia.
Qed.

Lemma rsafe_data_points n : ∀ garbage, rsafe (read_data_points n garbage) (λ l, length l = n).
Proof.
  induction n as [|n IH]; intros garbage; cbn [read_data_points]; [by apply rsafe_ret|].
  eapply rsafe_bind; [apply rsafe_read_datavalue|intros dv _]; eapply rsafe_bind; [apply IH|intros l <-]; by apply rsafe_ret.
Qed.

Lemma rsafe_skip_rest start length : 0 ≤ start → 0 ≤ length ≤ PTRDIFF_MAX →
  ∀ r, reader_ok r → start ≤ r_position r → reader_step r (skip_rest start length r).2 ∧ outcome_ok (λ _, True) (skip_rest start length r).1.
Proof.
  intros Hs Hl r Hr Hp; unfold skip_rest; rewrite (bind_ok get_state _ r r r eq_refl); cbv zeta.
  pose proof Hr as [Hbuf Hpos].
  assert (r_length r ≤ PTRDIFF_MAX) by (destruct (r_buffer r); cbn in Hbuf; unfold PTRDIFF_MAX in *; lia); unfold PTRDIFF_MAX in *.
  rewrite (to_unsigned_id 32 (r_position r - start)) by lia; split_if; [|by apply rsafe_ret]; bool_hyps.
  rewrite (to_unsigned_id 32) by lia; split_if; [by apply rsafe_fail|]; bool_hyps; unfold put_state; cbn [fst snd outcome_ok].
  split; [|done]; split; cbn; [split; cbn; [done|lia]|done|done|lia].
Qed.

Lemma rsafe_update_item garbage : rsafe (read_update_item garbage) update_item_ok.
Proof.
  unfold read_update_item; eapply rsafe_bind; [apply rsafe_read_nodeid|intros type Htype].
  eapply rsafe_bind; [apply rsafe_read_byte|intros mask _]; apply rsafe_if; intros _; [by apply rsafe_fail|].
  eapply rsafe_bind; [apply rsafe_read_int32|intros length Hlen]; apply rsafe_if; intros Hneg; bool_hyps; [by apply rsafe_fail|].
  intros r Hr; rewrite (bind_ok get_state _ r r r eq_refl).
  destruct (identifier_word_wire type Htype) as [word Ew]; rewrite Ew, (bind_ok (lift_option (Some word)) _ r word r eq_refl).
  match goal with |- context [(?m ≫= _) r] => assert (Hm : rsafe m update_item_ok) end.
  { apply rsafe_if; intros _; [|apply rsafe_if; intros _; [|by apply rsafe_fail]].
    - unfold read_update_data; eapply rsafe_bind; [apply rsafe_read_nodeid|intros node Hnode].
      eapply rsafe_bind; [apply rsafe_read_uint32|intros op _]; eapply rsafe_bind; [apply rsafe_read_int32|intros n _].
      apply rsafe_if; intros H1; bool_hyps; [by apply rsafe_ret|]; apply rsafe_if; intros H2; bool_hyps; [by apply rsafe_fail|].
      eapply rsafe_bind; [apply rsafe_data_points|intros values Hv]; apply rsafe_ret; split; [done|]; unfold zlen, MU_MAX_HISTORY_UPDATE_VALUES_PER_DETAIL in *; rewrite Hv; lia.
    - unfold read_delete_raw_modified; rsafe_auto; done. }
  match goal with |- context [(?m ≫= _) r] => destruct (Hm r Hr) as [Hs Ho]; destruct (m r) as [[item|e|] r1] eqn:E end; cbn [fst snd outcome_ok] in *.
  - rewrite (bind_ok _ _ _ _ _ E); ranges.
    destruct (rsafe_skip_rest (r_position r) length ltac:(apply Hr) ltac:(unfold PTRDIFF_MAX; lia) r1 (rstep_ok _ _ Hs) (rstep_position _ _ Hs)) as [Hs' Ho'].
    destruct (skip_rest (r_position r) length r1) as [[[]|e|] r2] eqn:E2; cbn [fst snd outcome_ok] in *; [|rewrite (bind_err _ _ _ _ _ E2)|done].
    + rewrite (bind_ok _ _ _ _ _ E2); split; [by eapply reader_step_trans|done].
    + split; [by eapply reader_step_trans|done].
  - by rewrite (bind_err _ _ _ _ _ E).
  - done.
Qed.

Lemma rsafe_update_items n : ∀ garbage, rsafe (read_update_items n garbage) (Forall update_item_ok).
Proof.
  induction n as [|n IH]; intros garbage; cbn [read_update_items]; [by apply rsafe_ret|].
  eapply rsafe_bind; [apply rsafe_update_item|intros item Hitem]; eapply rsafe_bind; [apply IH|intros l Hl]; apply rsafe_ret; by constructor.
Qed.

Lemma rsafe_history_update_request garbage max_items : rsafe (mu_history_update_request_decode garbage max_items) (Forall update_item_ok).
Proof.
  unfold mu_history_update_request_decode; eapply rsafe_bind; [apply rsafe_read_int32|intros n _].
  apply rsafe_if; intros _; [by apply rsafe_ret|]; apply rsafe_if; intros _; [by apply rsafe_fail|apply rsafe_update_items].
Qed.

(** ** Encoders *)

Definition read_result_ok (res : mu_history_read_result_t) : Prop :=
  string_ok (hs_continuation_point res) ∧ Forall (λ dv, variant_ok (dv_value dv)) (hs_data_values res).

Definition update_result_ok (res : mu_history_update_result_t) : Prop :=
  0 ≤ hu_num_operation_results res ≤ zlen (hu_operation_results res).

Lemma wsafe_history_data values : Forall (λ dv, variant_ok (dv_value dv)) values → wsafe (write_history_data values).
Proof.
  intros Hv; apply wsafe_wgood; intros w0 H0; pose proof (writer_step_refl w0 H0) as Hs0; unfold write_history_data.
  apply wgood_bind; [done|done|apply wsafe_write_nodeid; split; [by ranges|done]|]; intros _ w1 _ Hs1 Hp1.
  apply wgood_bind; [done|done|by apply wsafe_write_byte|]; intros _ w2 _ Hs2 Hp2; apply wgood_get.
  apply wgood_bind; [done|done|apply wsafe_write_int32|]; intros [] w3 E3 Hs3 _; apply write_int32_position in E3; [|apply Hs2].
  apply wgood_get; apply wgood_bind; [done|done|apply wsafe_write_int32|]; intros _ w4 _ Hs4 Hp4.
  apply wgood_bind; [done|done| |].
  { apply wsafe_wr_list; eapply Forall_impl; [exact Hv|]; intros dv Hdv; by apply wsafe_write_datavalue. }
  intros _ w5 _ Hs5 Hp5; apply wgood_get; destruct Hs1, Hs2; apply wgood_backpatch; [done|done|lia|lia].
Qed.

Lemma wsafe_read_result res : read_result_ok res → wsafe (write_history_read_result res).
Proof.
  intros [Hcp Hv]; unfold write_history_read_result; apply wsafe_bind; [apply wsafe_write_statuscode|intros _].
  apply wsafe_bind; [by apply wsafe_write_string|intros _]; apply wsafe_if; intros _; [by apply wsafe_history_data|].
  unfold write_null_history_data; apply wsafe_bind; [apply wsafe_write_nodeid; split; [by ranges|done]|intros _; by apply wsafe_write_byte].
Qed.

Lemma wsafe_read_response results : Forall read_result_ok results → wsafe (mu_history_read_response_encode results).
Proof.
  intros Hr; unfold mu_history_read_response_encode; apply wsafe_bind; [apply wsafe_write_int32|intros _].
  apply wsafe_bind; [|intros _; apply wsafe_write_int32]; apply wsafe_wr_list; eapply Forall_impl; [exact Hr|]; apply wsafe_read_result.
Qed.

Lemma wsafe_update_response results : Forall update_result_ok results → wsafe (mu_history_update_response_encode results).
Proof.
  intros Hr; unfold mu_history_update_response_encode; apply wsafe_bind; [apply wsafe_write_int32|intros _].
  apply wsafe_bind; [|intros _; apply wsafe_write_int32]; apply wsafe_wr_list; eapply Forall_impl; [exact Hr|]; intros res Hres.
  unfold write_history_update_result; apply wsafe_bind; [apply wsafe_write_statuscode|intros _].
  apply wsafe_bind; [|intros _; apply wsafe_write_int32]; apply wsafe_if; intros _; [apply wsafe_write_int32|].
  apply wsafe_bind; [apply wsafe_write_int32|intros _]; rewrite mem_load_Some by (destruct Hres; lia); apply wsafe_lift.
  apply wsafe_wr_list, Forall_true; intros; apply wsafe_write_statuscode.
Qed.

(** ** The handlers *)

(** What the integrator's adapter promises. It is handed valid nodes, at most
    32 octets of continuation point and at most ten values, of which nothing
    is promised; it stays within the arrays it is given, reports at most as
    many data points as there is room for, and leaves well-formed values. *)
Record history_adapter_ok {W} (a : mu_history_adapter_t W) : Prop := {
  adapter_reads read node modified start_ end_ count bounds data length cp_out points w :
    history_read_raw_modified a = Some read → wire_nodeid node →
    0 ≤ length ≤ MU_MAX_HISTORY_READ_CONTINUATION_POINT_LENGTH → match data with Some d => length ≤ zlen d | None => length = 0 end →
    zlen cp_out = MU_MAX_HISTORY_READ_CONTINUATION_POINT_LENGTH → bytes_ok cp_out →
    points = repeat empty_data_point (Z.to_nat HISTORY_DATA_POINTS) →
    let answer := (read node modified start_ end_ count bounds data length cp_out points w).1 in
    zlen (hr_cp_out answer) = MU_MAX_HISTORY_READ_CONTINUATION_POINT_LENGTH ∧ bytes_ok (hr_cp_out answer) ∧
    zlen (hr_data_points answer) = HISTORY_DATA_POINTS ∧ 0 ≤ hr_actual_data_points answer ≤ HISTORY_DATA_POINTS ∧
    Forall (λ p, variant_ok (hp_value p)) (ztake (hr_actual_data_points answer) (hr_data_points answer));
  adapter_updates update node operation values results w :
    history_update_data a = Some update → wire_nodeid node → zlen values ≤ MU_MAX_HISTORY_UPDATE_VALUES_PER_DETAIL →
    zlen results = MU_MAX_HISTORY_UPDATE_VALUES_PER_DETAIL →
    zlen (update node operation values results w).1.2 = MU_MAX_HISTORY_UPDATE_VALUES_PER_DETAIL
}.

(** The sizes of the handlers' local arrays. *)
Record history_stack_ok (stack : HistoryStack) : Prop := {
  stack_points i : zlen (stack_continuation_point i) = MU_MAX_HISTORY_READ_CONTINUATION_POINT_LENGTH;
  stack_points_bytes i : bytes_ok (stack_continuation_point i);
  stack_results i : zlen (stack_operation_results i) = MU_MAX_HISTORY_UPDATE_VALUES_PER_DETAIL
}.

Lemma history_result_ok answer :
  zlen (hr_cp_out answer) = MU_MAX_HISTORY_READ_CONTINUATION_POINT_LENGTH → bytes_ok (hr_cp_out answer) →
  zlen (hr_data_points answer) = HISTORY_DATA_POINTS → 0 ≤ hr_actual_data_points answer ≤ HISTORY_DATA_POINTS →
  Forall (λ p, variant_ok (hp_value p)) (ztake (hr_actual_data_points answer) (hr_data_points answer)) →
  ∃ res, history_result answer = Some res ∧ read_result_ok res.
Proof.
  intros Hc Hb Hp Ha Hv; unfold history_result; split_if; [|eexists; split; [done|]; split; [by vm_compute|constructor]].
  destruct (Z.ltb_spec HISTORY_DATA_POINTS (hr_actual_data_points answer)); [lia|].
  rewrite mem_load_Some by lia; cbn [mbind option_bind]; eexists; split; [done|]; split; cbn -[ztake zdrop MU_MAX_HISTORY_READ_CONTINUATION_POINT_LENGTH].
  - split_if; [|by vm_compute]; bool_hyps; unfold MU_MAX_HISTORY_READ_CONTINUATION_POINT_LENGTH in *; unfold string_ok; cbn -[to_signed].
    rewrite to_i32_count by lia; ranges; split; [split; [lia|done]|lia].
  - apply Forall_fmap; eapply Forall_impl; [exact Hv|]; done.
Qed.

Section handlers.
  Context {stack : HistoryStack} (Hstack : history_stack_ok stack).
  Context {W Rest : Type} {config_host : ConfigHost W Rest} {config_laws : ConfigHostLaws W Rest}.

Definition history_ok (s : mu_server_t Rest) : Prop := history_adapter_ok (cfg_history_adapter (host_config (sv_rest s))).

(** Only the state of the adapters changes. *)
Definition only_world (s s' : mu_server_t Rest) : Prop := ∃ w, s' = set_rest s (host_set_world (sv_rest s) w).

#[export] Instance only_world_preorder : PreOrder only_world.
Proof.
  split.
  - intros s; exists (host_world (sv_rest s)); rewrite host_world_get; by destruct s.
  - intros s1 s2 s3 [w1 ->] [w2 ->]; exists w2; unfold set_rest; cbn; by rewrite host_world_set_set.
Qed.

Abbreviation safe := (triple history_ok only_world).
Abbreviation ssafe := (striple history_ok only_world).

(** The server has the configuration [cfg]. *)
Definition configured (cfg : mu_server_config_t W) (s : mu_server_t Rest) : Prop := host_config (sv_rest s) = cfg.

Lemma ssafe_world {A} cfg (m : mu_server_config_t W → M W A) (Q : A → Prop) :
  (∀ w, history_adapter_ok (cfg_history_adapter cfg) → outcome_ok Q (m cfg w).1) →
  ssafe (configured cfg) (world m) (λ a s, configured cfg s ∧ Q a).
Proof.
  intros Hm s Hs <-; specialize (Hm (host_world (sv_rest s)) Hs); unfold world.
  destruct (m _ _) as [x w]; cbn [fst snd] in *; change (mk_server _ _ _ _ _ _ _ _ _ _) with (set_rest s (host_set_world (sv_rest s) w)).
  split; [unfold history_ok; cbn; by rewrite host_config_set|]; split; [by eexists|].
  destruct x; cbn in *; [split; [unfold configured; cbn; by rewrite host_config_set|done]|done|done].
Qed.

(** The result of a step is described apart from the server. *)
Lemma ssafe_bind {A B} P (m : M (mu_server_t Rest) A) (k : A → M (mu_server_t Rest) B) (Qm : A → Prop) Q :
  ssafe P m (λ a s, P s ∧ Qm a) → (∀ a, Qm a → ssafe P (k a) Q) → ssafe P (m ≫= k) Q.
Proof. intros Hm Hk; eapply (striple_bind _ _); [exact Hm|]; intros a s Hs [HP Ha]; by apply Hk. Qed.

Lemma safe_server {A B} P (m : M (mu_server_t Rest) A) (k : A → H Rest B) (Qm : A → Prop) Q :
  ssafe P m (λ a s, P s ∧ Qm a) → (∀ a, Qm a → safe P (k a) Q) → safe P (sv m ≫= k) Q.
Proof. intros Hm Hk; eapply (triple_server _ _); [exact Hm|]; intros a st Hst [HP Ha]; by apply Hk. Qed.

Lemma ssafe_lift {A B} P (m : M (mu_server_t Rest) A) (f : A → option B) (Q : A → Prop) (Q' : B → Prop) :
  ssafe P m (λ a s, P s ∧ Q a) → (∀ a, Q a → ∃ b, f a = Some b ∧ Q' b) →
  ssafe P (m ≫= λ a, lift_option (f a)) (λ b s, P s ∧ Q' b).
Proof.
  intros Hm Hf; eapply (striple_bind _ _); [exact Hm|]; intros a s Hs [HP Ha]; destruct (Hf a Ha) as (b & -> & Hb).
  cbn; split_and!; [done|reflexivity|done|done].
Qed.

Lemma ssafe_read_node cfg read details i node : history_read_raw_modified (cfg_history_adapter cfg) = Some read → value_id_ok node →
  ssafe (configured cfg) (read_node_history details i node) (λ res s, configured cfg s ∧ read_result_ok res).
Proof.
  intros Hread (Hnode & _ & Hlen & Hdata); unfold read_node_history; eapply (ssafe_lift _ _ _ (λ answer, ∃ res, history_result answer = Some res ∧ read_result_ok res)); [|done].
  apply ssafe_world; intros w Ha; rewrite Hread; set (cp := hv_continuation_point node) in *.
  pose proof (adapter_reads _ Ha read (hv_node_id node) (rr_is_read_modified details) (rr_start_time details) (rr_end_time details)
    (rr_num_values_per_node details) (rr_return_bounds details) (str_data cp) (if 0 <? str_length cp then str_length cp else 0)
    (stack_continuation_point i) (repeat empty_data_point (Z.to_nat HISTORY_DATA_POINTS)) w Hread Hnode) as Hok.
  destruct Hok as (H1 & H2 & H3 & H4 & H5); [| |apply Hstack|apply Hstack|done|].
  1-2: unfold MU_MAX_HISTORY_READ_CONTINUATION_POINT_LENGTH in *; clear -Hlen Hdata; clearbody cp; destruct (Z.ltb_spec 0 (str_length cp)), (str_data cp) as [d|]; try (destruct Hdata as [? _]; pose proof (zlen_nonneg d)); lia.
  destruct (read _ _ _ _ _ _ _ _ _ _ w) as [answer w']; by apply history_result_ok.
Qed.

Lemma ssafe_read_nodes cfg read details nodes : history_read_raw_modified (cfg_history_adapter cfg) = Some read → Forall value_id_ok nodes →
  ∀ i, ssafe (configured cfg) (read_nodes_history details i nodes) (λ results s, configured cfg s ∧ Forall read_result_ok results).
Proof.
  intros Hread; induction 1 as [|node nodes Hnode _ IH]; intros i; cbn [read_nodes_history].
  { apply (striple_ret _ _); intros s Hs; by split. }
  eapply ssafe_bind; [by eapply ssafe_read_node|intros res Hres]; eapply ssafe_bind; [apply IH|intros results Hall].
  apply (striple_ret _ _); intros s Hs; split; [done|by constructor].
Qed.

Lemma ssafe_update_item cfg i item : update_item_ok item →
  ssafe (configured cfg) (update_item i item) (λ res s, configured cfg s ∧ update_result_ok res).
Proof.
  intros Hitem; unfold update_item; apply ssafe_world; intros w Ha; pose proof (stack_results _ Hstack i) as Hl; unfold MU_MAX_HISTORY_UPDATE_VALUES_PER_DETAIL in *.
  assert (Hunset : ∀ status, update_result_ok (mk_history_update_result status 0 (stack_operation_results i))).
  { intros status; split; cbn; lia. }
  destruct item as [|node op values|node modified start_ end_]; [done| |].
  - destruct (history_update_data (cfg_history_adapter cfg)) as [update|] eqn:Eu; [|apply Hunset].
    destruct Hitem as [Hnode Hv]; pose proof (adapter_updates _ Ha update node op values (stack_operation_results i) w Eu Hnode Hv Hl) as Hu.
    destruct (update _ _ _ _ w) as [[status results] w']; cbn in Hu |- *; unfold MU_MAX_HISTORY_UPDATE_VALUES_PER_DETAIL in *.
    split; cbn; [apply zlen_nonneg|lia].
  - destruct (history_delete_raw_modified (cfg_history_adapter cfg)) as [delete|]; [|apply Hunset].
    destruct (delete _ _ _ _ w) as [status w']; apply Hunset.
Qed.

Lemma ssafe_update_items cfg items : Forall update_item_ok items →
  ∀ i, ssafe (configured cfg) (update_items i items) (λ results s, configured cfg s ∧ Forall update_result_ok results).
Proof.
  induction 1 as [|item items Hitem _ IH]; intros i; cbn [update_items].
  { apply (striple_ret _ _); intros s Hs; by split. }
  eapply ssafe_bind; [by apply ssafe_update_item|intros res Hres]; eapply ssafe_bind; [apply IH|intros results Hall].
  apply (striple_ret _ _); intros s Hs; split; [done|by constructor].
Qed.

Lemma safe_answer_status P id handle status : 0 ≤ id < 65536 → safe P (answer_status id handle status) (λ _ _, True).
Proof.
  intros Hid; unfold answer_status; eapply (triple_write _ _); [apply wsafe_write_response_prefix; ranges; lia|intros _].
  eapply (triple_conseq _ _); [apply (triple_finish _ _)|done|done].
Qed.

Lemma safe_decode_or {A} P (m : Rd A) Qm failed k Q : rsafe m Qm → (∀ e, safe P (failed e) Q) → (∀ a, Qm a → safe P (k a) Q) →
  safe P (decode_or m failed k) Q.
Proof.
  intros Hm Hf Hk st Hst HP; destruct (triple_rd history_ok only_world P m Qm Hm st Hst HP) as [Hs Ho]; unfold decode_or.
  destruct (rd m st) as [[a|e|] st1] eqn:E; cbn [fst snd outcome_ok] in *; [|..].
  - destruct Ho as [HP1 Ha]; destruct (Hk a Ha st1 (ctx_step_ok _ _ _ _ Hs) HP1) as [Hs' ?]; split; [by eapply (ctx_step_trans _ _)|done].
  - assert (HP1 : P (h_server st1)) by (unfold rd in E; destruct (m (h_reader st)); by injection E as _ <-).
    destruct (Hf e st1 (ctx_step_ok _ _ _ _ Hs) HP1) as [Hs' ?]; split; [by eapply (ctx_step_trans _ _)|done].
  - done.
Qed.

Lemma ssafe_config : ssafe (λ _, True) config (λ cfg s, configured cfg s).
Proof. intros s Hs _; split_and!; [done|reflexivity|done]. Qed.

Lemma safe_history_read : safe (λ _, True) handle_history_read (λ _ _, True).
Proof.
  unfold handle_history_read; eapply (triple_read _ _); [apply rsafe_request_header_decode|intros req _].
  apply (safe_decode_or _ _ (λ req, Forall value_id_ok (hq_nodes_to_read req))).
  { eapply rsafe_mono; [apply rsafe_history_read_request|]; by intros r [? _]. }
  { intros e; by apply safe_answer_status. }
  intros r Hr; eapply (triple_server _ _); [apply ssafe_config|]; intros cfg; apply (triple_if _ _); intros Hnull.
  { by apply safe_answer_status. }
  destruct (history_read_raw_modified (cfg_history_adapter cfg)) as [read|] eqn:Eread; [|done].
  eapply safe_server; [by eapply ssafe_read_nodes|intros results Hres].
  eapply (triple_write _ _); [apply wsafe_write_response_prefix; by ranges|intros _].
  eapply (triple_write _ _); [by apply wsafe_read_response|intros _]; eapply (triple_conseq _ _); [apply (triple_finish _ _)|done|done].
Qed.

Lemma safe_history_update : safe (λ _, True) handle_history_update (λ _ _, True).
Proof.
  unfold handle_history_update; eapply (triple_read _ _); [apply rsafe_request_header_decode|intros req _].
  apply (safe_decode_or _ _ (Forall update_item_ok)); [apply rsafe_history_update_request|intros e; by apply safe_answer_status|].
  intros items Hitems st Hst _.
  assert (Hall : safe (configured (host_config (sv_rest (h_server st)))) (results ← sv (update_items 0 items);
      wr (write_response_prefix MU_ID_HISTORYUPDATERESPONSE (rh_request_handle req) MU_STATUS_GOOD);;
      wr (mu_history_update_response_encode results);; finish) (λ _ _, True)); [|by apply Hall].
  eapply safe_server; [by apply ssafe_update_items|intros results Hres].
  eapply (triple_write _ _); [apply wsafe_write_response_prefix; by ranges|intros _].
  eapply (triple_write _ _); [by apply wsafe_update_response|intros _]; eapply (triple_conseq _ _); [apply (triple_finish _ _)|done|done].
Qed.
End handlers.

(** ** HistoryData on the wire *)

Definition HISTORY_DATA_ID : mu_nodeid_t := mk_nodeid 0 (MU_NODEID_NUMERIC MU_ID_HISTORYDATA_ENCODING_DEFAULTBINARY).

Definition enc_history_body (values : list mu_datavalue_t) : list Z := enc_i32 (zlen values) ++ flat_map enc_datavalue values.

Definition enc_history_data (values : list mu_datavalue_t) : list Z :=
  (enc_nodeid HISTORY_DATA_ID ++ enc_u8 1) ++ enc_i32 (zlen (enc_history_body values)) ++ enc_history_body values.

(** How a client reads a HistoryData ExtensionObject: the declared length
    confines the body. *)
Definition read_history_data : Rd (mu_nodeid_t * list mu_datavalue_t) :=
  '(type_id, length) ← mu_binary_read_extension_object_header;
  values ← mu_binary_read_extension_object_body length
    (n ← mu_binary_read_int32; rd_list (Z.to_nat n) (mu_binary_read_datavalue zero_datavalue));
  mret (type_id, values).

Lemma mem_store_middle {A} (l old new r : list A) : zlen new = zlen old → mem_store (l ++ old ++ r) (zlen l) new = Some (l ++ new ++ r).
Proof.
  intros E; pose proof (zlen_nonneg l); pose proof (zlen_nonneg old); pose proof (zlen_nonneg r).
  rewrite mem_store_Some by (rewrite ?zlen_app; lia); rewrite ztake_app, E, <-zdrop_zdrop, zdrop_app by lia; by rewrite zdrop_app.
Qed.

Lemma backpatch_run w pre x v rest : writer_ready w → fits w (pre ++ enc_i32 x ++ rest) → 0 ≤ v < 2147483648 →
  backpatch_int32 (w_position w + zlen pre) v (w_append w (pre ++ enc_i32 x ++ rest)) = (Ok tt, w_append w (pre ++ enc_i32 v ++ rest)).
Proof.
  intros ([Hbuf Hpos] & Hs & b & Hb) Hf Hv; rewrite Hb in Hbuf; destruct Hbuf as (Hlen & _).
  rewrite !(w_append_buffer _ _ _ Hb); unfold backpatch_int32, fits in *.
  assert (Hl : ∀ y, zlen (pre ++ enc_i32 y ++ rest) = zlen pre + (4 + zlen rest)) by (intros y; by rewrite !zlen_app).
  assert (Ebytes : [to_u8 v; to_u8 (Z.shiftr v 8); to_u8 (Z.shiftr v 16); to_u8 (Z.shiftr v 24)] = enc_i32 v).
  { unfold enc_i32; rewrite (to_unsigned_id 32 v) by lia; unfold to_unsigned; rewrite !Z.shiftr_div_pow2 by lia; cbn [le_bytes].
    by rewrite !Z.div_div by lia. }
  rewrite Ebytes; set (tail x := zdrop (w_position w + zlen (pre ++ enc_i32 x ++ rest)) b).
  assert (Et : tail v = tail x) by (unfold tail; by rewrite !Hl).
  assert (Est : mem_store (ztake (w_position w) b ++ (pre ++ enc_i32 x ++ rest) ++ tail x) (w_position w + zlen pre) (enc_i32 v)
                = Some (ztake (w_position w) b ++ (pre ++ enc_i32 v ++ rest) ++ tail v)).
  { rewrite Et, <-!app_assoc; pose proof (mem_store_middle (ztake (w_position w) b ++ pre) (enc_i32 x) (enc_i32 v) (rest ++ tail x) eq_refl) as E.
    rewrite zlen_app, zlen_ztake in E by lia; by rewrite <-!app_assoc in E. }
  unfold mbind, M_bind, get_state; cbn -[mem_store ztake zdrop zlen enc_i32]; change (zdrop (w_position w + zlen (pre ++ enc_i32 ?y ++ rest)) b) with (tail y).
  rewrite Est; cbn -[ztake zdrop zlen enc_i32]; unfold put_state; by rewrite !Hl.
Qed.

Lemma wput_spec m bs : wspec m bs → wput m bs.
Proof. intros [Hb Hm]; split; [done|]; intros w Hw Hf; by apply Hm. Qed.

Lemma enc_datavalue_zlen d : 1 ≤ zlen (enc_datavalue d).
Proof. unfold enc_datavalue; rewrite zlen_app; change (zlen (enc_u8 _)) with 1; match goal with |- _ ≤ 1 + zlen ?l => pose proof (zlen_nonneg l) end; lia. Qed.

Lemma wput_then_seq {A} (m k : Wr unit) bs (r : Wr A) w : wput (m;; k) bs → writer_ready w → fits w bs → (m;; k;; r) w = r (w_append w bs).
Proof. intros Hm Hw Hf; rewrite <-(wput_then _ bs r w Hm Hw Hf); symmetry; apply bind_assoc. Qed.

Lemma wput_history_data values : Forall wire_datavalue values → zlen (enc_history_body values) < 2147483648 →
  wput (write_history_data values) (enc_history_data values).
Proof.
  intros Hv Hsize; set (pre := enc_nodeid HISTORY_DATA_ID ++ enc_u8 1); set (body := enc_history_body values) in *.
  pose proof (zlen_nonneg body) as Hb0; pose proof (zlen_nonneg values).
  assert (Hcount : zlen values < 2147483648).
  { revert Hsize; unfold body, enc_history_body; rewrite zlen_app; change (zlen (enc_i32 _)) with 4; clear.
    assert (zlen values ≤ zlen (flat_map enc_datavalue values)); [|lia].
    induction values as [|d values IH]; [done|]; cbn [flat_map]; rewrite zlen_app, zlen_cons.
    pose proof (enc_datavalue_zlen d); lia. }
  assert (Hpre : wput (mu_binary_write_nodeid HISTORY_DATA_ID;; mu_binary_write_byte 0x01) pre).
  { apply wput_bind; apply wput_spec; [apply wspec_write_nodeid; split; [by ranges|by ranges]|by apply wspec_write_byte]. }
  assert (Hbody : wput (mu_binary_write_int32 (to_i32 (zlen values));; wr_list mu_binary_write_datavalue values) body).
  { apply wput_bind; [apply wput_spec; rewrite to_i32_count by lia; apply wspec_write_int32|].
    apply wput_list; eapply Forall_impl; [exact Hv|]; intros d Hd; apply wput_spec; by apply codec_write. }
  pose proof Hpre as [Hpb _]; pose proof Hbody as [Hbb _].
  assert (Hbytes : ∀ x, bytes_ok (pre ++ enc_i32 x ++ body)) by (intros x; rewrite !bytes_ok_app; split_and!; [done|apply le_bytes_ok|done]).
  split; [apply (Hbytes (zlen body))|]; intros w Hw Hf.
  assert (Hf0 : fits w (pre ++ enc_i32 0 ++ body)) by (revert Hf; unfold fits, enc_history_data; by rewrite !zlen_app).
  pose proof (proj1 (fits_app w _ _ Hw) Hf0) as [Hf1 Hf2]; pose proof (w_append_ready w pre Hw Hpb Hf1) as Hw1.
  pose proof (proj1 (fits_app _ _ _ Hw1) Hf2) as [Hf3 Hf4].
  pose proof (w_append_ready _ _ Hw1 (le_bytes_ok 4 _) Hf3) as Hw2; change (le_bytes 4 (to_u32 0)) with (enc_i32 0) in Hw2.
  unfold write_history_data; fold HISTORY_DATA_ID; rewrite (wput_then_seq _ _ pre _ w Hpre Hw Hf1).
  rewrite (bind_ok get_state _ _ _ _ eq_refl), (wput_then _ (enc_i32 0) _ _ (wput_spec _ _ (wspec_write_int32 0)) Hw1 Hf3).
  rewrite (bind_ok get_state _ _ _ _ eq_refl), (wput_then_seq _ _ body _ _ Hbody Hw2 Hf4), (bind_ok get_state _ _ _ _ eq_refl).
  rewrite (w_append_app _ _ _ Hw1 Hf2), (w_append_app _ _ _ Hw Hf0), !w_append_position, !zlen_app by done.
  change (zlen (enc_i32 0)) with 4.
  replace (w_position w + (zlen pre + (4 + zlen body)) - (w_position w + zlen pre + 4)) with (zlen body) by lia.
  rewrite (to_unsigned_id 32), to_i32_count, backpatch_run by (done || (norm_pow; lia)); done.
Qed.

Lemma rspec_extension_object_body {A} (decoder : Rd A) bs a : rspec decoder bs a → rspec (mu_binary_read_extension_object_body (zlen bs) decoder) bs a.
Proof.
  intros Hd r (Hr & Hs & Hl & b & rest & Hb & Hdrop); pose proof Hr as [Hbuf Hp]; rewrite Hb in Hbuf; destruct Hbuf as (Hlen & Hmax & Hbytes).
  pose proof (zlen_nonneg bs); unfold mu_binary_read_extension_object_body; rewrite Hs, Hb; cbn [negb Z.eqb].
  destruct (Z.ltb_spec (r_length r) (r_position r)); [lia|]; destruct (Z.ltb_spec (r_length r - r_position r) (zlen bs)); [lia|]; cbn [orb].
  change (MU_STATUS_GOOD =? MU_STATUS_GOOD) with true; cbn [negb].
  assert (Hat : r_at (mu_binary_reader_init (Some (zdrop (r_position r) b)) (zlen bs)) bs).
  { split_and!; cbn; [split; cbn; [|lia]; split_and!; [lia|rewrite zlen_zdrop; lia|lia|by apply bytes_ok_zdrop]|done|lia|].
    by exists (zdrop (r_position r) b), rest. }
  rewrite (Hd _ Hat); unfold r_adv; cbn [r_status r_position set_r_position mu_binary_reader_init negb].
  change (MU_STATUS_GOOD =? MU_STATUS_GOOD) with true; rewrite Z.add_0_l, Z.eqb_refl; cbn [negb].
  by rewrite (to_unsigned_id 32) by (unfold PTRDIFF_MAX in *; lia).
Qed.

Lemma rspec_history_data values : Forall wire_datavalue values → zlen values < 2147483648 → 0 < zlen (enc_history_body values) < 2147483648 →
  rspec read_history_data (enc_history_data values) (HISTORY_DATA_ID, values).
Proof.
  intros Hv Hcount Hsize; unfold read_history_data, enc_history_data.
  assert (Eh : (enc_nodeid HISTORY_DATA_ID ++ enc_u8 1) ++ enc_i32 (zlen (enc_history_body values))
               = enc_extension_object_header (HISTORY_DATA_ID, zlen (enc_history_body values))).
  { unfold enc_extension_object_header; cbn [fst snd]; rewrite <-app_assoc.
    destruct (Z.eqb_spec (zlen (enc_history_body values)) 0); [lia|done]. }
  rewrite app_assoc, Eh; eapply rspec_bind.
  { apply codec_read; split; [split; [by ranges|by ranges]|cbn; lia]. }
  eapply rspec_bind_ret; [|apply rspec_ret]; apply rspec_extension_object_body; unfold enc_history_body.
  pose proof (zlen_nonneg values); eapply rspec_bind; [apply rspec_read_int32; ranges; lia|].
  replace (Z.to_nat (zlen values)) with (length values) by (unfold zlen; lia).
  apply rspec_rd_list; eapply Forall_impl; [exact Hv|]; intros d Hd; by apply codec_read.
Qed.

(** ** Properties *)

(** What HistoryRead writes for a node is readable. The data values of a
    node, encoded as a HistoryData ExtensionObject whose length is filled in
    afterwards, are exactly the octets of the format when they fit; and a
    client that confines itself to the declared length reads back the type of
    the object and the same data values, and stops where the encoder did. *)
Theorem history_data_roundtrip values w : Forall wire_datavalue values → zlen values < 2147483648 →
  zlen (enc_history_body values) < 2147483648 → writer_ready w → fits w (enc_history_data values) →
  let w' := w_append w (enc_history_data values) in
  write_history_data values w = (Ok tt, w') ∧
  read_history_data (reader_over w' (w_position w)) = (Ok (HISTORY_DATA_ID, values), reader_over w' (w_position w')).
Proof.
  intros Hv Hcount Hsize Hw Hf w'; destruct (wput_history_data values Hv Hsize) as [Hb Hput]; split; [by apply Hput|].
  assert (Hpos : 0 < zlen (enc_history_body values)).
  { unfold enc_history_body; rewrite zlen_app; change (zlen (enc_i32 _)) with 4; pose proof (zlen_nonneg (flat_map enc_datavalue values)); lia. }
  unfold w'; rewrite (rspec_history_data values Hv Hcount (conj Hpos Hsize) _ (reader_over_at w _ Hw Hb Hf)).
  by rewrite w_append_position.
Qed.

Section safety.
  Context {stack : HistoryStack} {W Rest : Type} {config_host : ConfigHost W Rest} {config_laws : ConfigHostLaws W Rest}.

(** The history services are safe. For every request and every adapter
    that keeps to its arrays, HistoryRead and HistoryUpdate return without
    undefined behaviour, write nothing but the response, and change nothing of
    the server but the state of the adapters; the adapter is only ever handed
    well-formed nodes, continuation points of at most 32 octets and at most
    ten values. *)
Theorem history_services_safe handler (s : mu_server_t Rest) body response :
  handler = handle_history_read ∨ handler = handle_history_update →
  history_stack_ok stack → history_adapter_ok (cfg_history_adapter (host_config (sv_rest s))) →
  bytes_ok body → zlen body ≤ PTRDIFF_MAX → bytes_ok response → zlen response ≤ PTRDIFF_MAX →
  let writer := mu_binary_writer_init (Some response) (zlen response) in
  let '(outcome, st) := handler (mk_hstate s (mu_binary_reader_init (Some body) (zlen body)) writer 0) in
  outcome_ok (λ _, True) outcome ∧ writer_step writer (h_writer st) ∧
  ∃ w : W, h_server st = set_rest s (host_set_world (sv_rest s) w).
Proof.
  intros Hh Hstack Ha Hb Hbl Hr Hrl writer; set (st0 := mk_hstate _ _ _ _).
  assert (Hctx : ctx_ok history_ok st0) by (split; [by apply reader_init_ok|by apply writer_init_ok|done|split; [done|apply zlen_nonneg]]).
  assert (Hsafe : triple history_ok only_world (λ _, True) handler (λ _ _, True))
    by (destruct Hh as [-> | ->]; [by apply safe_history_read|by apply safe_history_update]).
  destruct (Hsafe st0 Hctx I) as [[_ Hw _ Hf] Ho]; destruct (handler st0) as [x st]; by split_and!.
Qed.
End safety.

Module HistorySample.
(** A server that is its configuration and the log of the calls. *)
Definition log : Type := list (mu_nodeid_t * Z).
Definition rest : Type := mu_server_config_t log * log.
#[export] Instance host : ConfigHost log rest := {| host_config := fst; host_world := snd; host_set_world r w := (r.1, w) |}.
#[export] Instance laws : ConfigHostLaws log rest.
Proof. split; [done|done| |done]. by intros []. Qed.

Definition read (node : mu_nodeid_t) (modified : bool) (start_ end_ count : Z) (bounds : bool) (data : option (list Z)) (length : Z)
    (cp_out : list Z) (points : list mu_historical_data_point_t) (w : log) : history_answer * log :=
  let point := mk_historical_data_point 7 8 0 (mk_variant MU_TYPE_UINT16 (VV_ui16 513) false 0) in
  (mk_history_answer MU_STATUS_GOOD cp_out 0 (point :: repeat empty_data_point 9) 1, w ++ [(node, start_)]).

Definition adapter : mu_history_adapter_t log := mk_history_adapter (Some read) None None.

Definition config : mu_server_config_t log :=
  mk_server_config None None None None None None (mk_transport_config 64 64 1 64) 1 1
    (mk_tcp_adapter None None None None None None) None None None None None false None None false
    UadpSample.conn None None adapter.

Definition server : mu_server_t rest := mk_server mu_secure_channel_init [] None None None None [] None [] (config, []).

#[export] Instance stack : HistoryStack := {|
  stack_datavalue _ _ := zero_datavalue;
  stack_continuation_point _ := repeat 9 32;
  stack_operation_results _ := repeat 9 10
|}.

Lemma stack_ok : history_stack_ok stack.
Proof. split; [done| |done]; intros i; apply List.Forall_forall; intros x ->%List.repeat_spec; by ranges. Qed.

Lemma adapter_ok : history_adapter_ok adapter.
Proof.
  split; [|done]; intros read_ node modified start_ end_ count bounds data length cp_out points w [= <-] _ _ _ Hl Hb _; cbn.
  split_and!; [done|done|done|lia|unfold HISTORY_DATA_POINTS; lia|].
  apply List.Forall_cons; [|by apply List.Forall_nil]; right; by split.
Qed.

(** HistoryRead of the node [ns=1;i=5] from time 3 on. *)
Definition read_request : list Z :=
  [0; 0] ++ mu_binary_le_put_u64 0 ++ mu_binary_le_put_u32 1 ++ mu_binary_le_put_u32 0 ++ mu_binary_le_put_u32 (-1) ++
  mu_binary_le_put_u32 0 ++ [0; 0; 0] ++
  [1; 0; 137; 2; 1] ++ mu_binary_le_put_u32 22 ++ [0] ++ mu_binary_le_put_u64 3 ++ mu_binary_le_put_u64 9 ++ mu_binary_le_put_u32 4 ++ [0] ++
  mu_binary_le_put_u32 0 ++ [0] ++ mu_binary_le_put_u32 1 ++
  [1; 1; 5; 0] ++ mu_binary_le_put_u32 (-1) ++ [0; 0] ++ mu_binary_le_put_u32 (-1) ++ mu_binary_le_put_u32 (-1).

Definition answer : result unit * hstate rest :=
  handle_history_read (mk_hstate server (mu_binary_reader_init (Some read_request) (zlen read_request))
    (mu_binary_writer_init (Some (repeat 0 128)) (zlen (repeat 0 128))) 0).

Definition values : list mu_datavalue_t := [mk_datavalue (mk_variant MU_TYPE_UINT16 (VV_ui16 513) false 0) 0 7 8 true true true true].
Definition writer : mu_binary_writer_t := mu_binary_writer_init (Some (repeat 0 64)) 64.
End HistorySample.

Lemma history_data_roundtrip_witness :
  let w' := w_append HistorySample.writer (enc_history_data HistorySample.values) in
  write_history_data HistorySample.values HistorySample.writer = (Ok tt, w') ∧
  read_history_data (reader_over w' (w_position HistorySample.writer))
  = (Ok (HISTORY_DATA_ID, HistorySample.values), reader_over w' (w_position w')).
Proof.
  apply (history_data_roundtrip HistorySample.values HistorySample.writer).
  - constructor; [|constructor]; split_and!; cbn; [split; [done|]; split; [done|]; right; split; [done|by ranges]|by ranges..].
  - by vm_compute.
  - by vm_compute.
  - split_and!; [apply (writer_init_ok (repeat 0 64)); [by vm_compute|by apply bytes_okb]|done|by eexists].
  - by vm_compute.
Defined.

#[local] Existing Instances HistorySample.host HistorySample.laws HistorySample.stack.

Lemma history_services_safe_witness :
  HistorySample.answer.1 = Ok tt ∧
  snd (sv_rest (h_server HistorySample.answer.2)) = [(mk_nodeid 1 (MU_NODEID_NUMERIC 5), 3)] ∧
  writer_step (mu_binary_writer_init (Some (repeat 0 128)) 128) (h_writer HistorySample.answer.2).
Proof.
  pose proof (history_services_safe handle_history_read HistorySample.server HistorySample.read_request (repeat 0 128) (or_introl eq_refl)
    HistorySample.stack_ok HistorySample.adapter_ok ltac:(by apply bytes_okb) ltac:(vm_compute; discriminate)
    ltac:(by apply bytes_okb) ltac:(vm_compute; discriminate)) as H.
  split; [vm_compute; reflexivity|]; split; [vm_compute; reflexivity|]; unfold HistorySample.answer; cbv zeta in H.
  destruct (handle_history_read _) as [x st]; apply H.
Defined.
