(* ===== verification/PubSub.v ===== *)
(** * Publishing over UDP

    [src/core/pubsub.c]: the writer groups of a server and the part of its
    poll that publishes the groups that are due. *)

From S2P Require Export Discovery.

Definition MU_MAX_WRITER_GROUPS : Z := 2.

Class PubSubProfile := { MUC_OPCUA_PUBSUB : bool }.

(** [server->writer_groups], up to [writer_group_count]. *)
Class PubSubHost (Rest : Type) := {
  host_writer_groups : Rest → list mu_pubsub_writer_group_t;
  host_set_writer_groups : Rest → list mu_pubsub_writer_group_t → Rest
}.

Definition set_last_publish (wg : mu_pubsub_writer_group_t) (now : Z) : mu_pubsub_writer_group_t :=
  mk_writer_group (wg_writer_group_id wg) (wg_publishing_interval_ms wg) now (wg_dataset_writer wg).

Definition mu_server_add_writer_group {profile : PubSubProfile} (wg : option mu_pubsub_writer_group_t)
    : M (list mu_pubsub_writer_group_t) unit := λ groups,
  match wg with
  | None => (Err MU_STATUS_BAD_INVALIDARGUMENT, groups)
  | Some wg =>
      if MUC_OPCUA_PUBSUB then
        if MU_MAX_WRITER_GROUPS <=? zlen groups then (Err MU_STATUS_BAD_OUTOFMEMORY, groups)
        else (Ok tt, groups ++ [set_last_publish wg 0])
      else (Err MU_STATUS_BAD_NOTSUPPORTED, groups)
  end.

Definition group_due (wg : mu_pubsub_writer_group_t) (now : Z) : bool :=
  wg_publishing_interval_ms wg <=? to_u32 (now - wg_last_publish_time_ms wg).

Definition BROADCAST_ADDRESS : list Z := bytes_of_string "255.255.255.255".

(** ** The poll *)

(** What the poll works on: the groups, the send buffer and the adapters. *)
Record pubsub_state (W : Type) := mk_pubsub_state {
  ps_groups : list mu_pubsub_writer_group_t;
  ps_send_buffer : list Z;
  ps_world : W
}.
Arguments mk_pubsub_state {_}.
Arguments ps_groups {_}.
Arguments ps_send_buffer {_}.
Arguments ps_world {_}.

Section poll.
  Context {profile : PubSubProfile} {W : Type}.

(** Encode one group into the send buffer and send the message. *)
Definition publish_group (conn : mu_pubsub_connection_t) (send : mu_udp_send_t W) (buffer_size : Z) (wg : mu_pubsub_writer_group_t)
    : M (pubsub_state W) unit := λ st,
  let '(x, buffer) := mu_encode_uadp_network_message (Some conn) (Some wg) buffer_size true (Some (ps_send_buffer st)) in
  let st := mk_pubsub_state (ps_groups st) (default [] buffer) (ps_world st) in
  match x with
  | Fault => (Fault, st)
  | Err e => (Err e, st)
  | Ok bytes_written =>
      if 0 <? bytes_written then
        match mem_load (ps_send_buffer st) 0 bytes_written with
        | None => (Fault, st)
        | Some datagram =>
            let '(status, w) := send datagram (default BROADCAST_ADDRESS (pc_address conn)) (pc_port conn) (ps_world st) in
            (if status =? MU_STATUS_GOOD then Ok tt else Err status, mk_pubsub_state (ps_groups st) (ps_send_buffer st) w)
        end
      else (Ok tt, st)
  end.

(** The groups from [i] on. A group counts as published before it is. *)
Fixpoint publish_groups (conn : mu_pubsub_connection_t) (send : mu_udp_send_t W) (buffer_size now : Z) (n i : nat)
    : M (pubsub_state W) unit := λ st,
  match n with
  | O => (Ok tt, st)
  | S n =>
      match ps_groups st !! i with
      | None => (Fault, st)
      | Some wg =>
          if group_due wg now then
            let wg := set_last_publish wg now in
            (publish_group conn send buffer_size wg;; publish_groups conn send buffer_size now n (S i))
              (mk_pubsub_state (<[i := wg]> (ps_groups st)) (ps_send_buffer st) (ps_world st))
          else publish_groups conn send buffer_size now n (S i) st
      end
  end.

Definition mu_pubsub_poll (config : mu_server_config_t W) : M (pubsub_state W) unit := λ st,
  if MUC_OPCUA_PUBSUB && pc_enabled (cfg_pubsub config) then
    match cfg_udp_send config, cfg_get_tick_ms config with
    | Some send, Some get =>
        let '(now, w) := get (ps_world st) in
        publish_groups (cfg_pubsub config) send (cfg_send_buffer_size (cfg_transport config)) (to_u32 now) (length (ps_groups st)) 0
          (mk_pubsub_state (ps_groups st) (ps_send_buffer st) w)
    | _, _ => (Ok tt, st)
    end
  else (Ok tt, st).
End poll.

(** ** What a poll sends *)

Section spec.
  Context {profile : PubSubProfile} {W : Type}.

Definition group_fields (wg : mu_pubsub_writer_group_t) : list mu_variant_t := default [] (dw_fields (wg_dataset_writer wg)).

Definition group_octets (conn : mu_pubsub_connection_t) (wg : mu_pubsub_writer_group_t) : list Z := group_message conn wg (group_fields wg).

(** The group can be sent through a buffer of [size] octets. *)
Definition group_ready (conn : mu_pubsub_connection_t) (size : Z) (wg : mu_pubsub_writer_group_t) : Prop :=
  publishable conn wg (group_fields wg) ∧ zlen (group_octets conn wg) ≤ size.

(** The groups after a poll at [now]. *)
Definition published (now : Z) (wg : mu_pubsub_writer_group_t) : mu_pubsub_writer_group_t :=
  if group_due wg now then set_last_publish wg now else wg.

(** The adapters after the due groups have been sent, one datagram each. *)
Definition sent (conn : mu_pubsub_connection_t) (send : mu_udp_send_t W) (now : Z) (groups : list mu_pubsub_writer_group_t) (w : W) : W :=
  fold_left (λ w wg, if group_due wg now
                     then (send (group_octets conn wg) (default BROADCAST_ADDRESS (pc_address conn)) (pc_port conn) w).2
                     else w) groups w.

Definition send_works (send : mu_udp_send_t W) : Prop := ∀ datagram address port w, (send datagram address port w).1 = MU_STATUS_GOOD.

Definition send_buffer_ok (buffer : list Z) : Prop := bytes_ok buffer ∧ zlen buffer ≤ PTRDIFF_MAX.

Lemma group_ready_set conn size wg now : group_ready conn size wg → group_ready conn size (set_last_publish wg now).
Proof. intros [[] Hl]; split; [by constructor|done]. Qed.

Lemma publish_group_run conn send wg groups buffer w : send_works send → send_buffer_ok buffer → group_ready conn (zlen buffer) wg →
  ∃ buffer', publish_group conn send (zlen buffer) wg (mk_pubsub_state groups buffer w)
    = (Ok tt, mk_pubsub_state groups buffer' (send (group_octets conn wg) (default BROADCAST_ADDRESS (pc_address conn)) (pc_port conn) w).2)
    ∧ zlen buffer' = zlen buffer ∧ send_buffer_ok buffer'.
Proof.
  intros Hsend [Hb Hl] [Hp Hfit]; set (octets := group_octets conn wg).
  assert (Hlen : zlen octets = 11 + zlen (enc_data_set (group_fields wg))) by apply enc_network_message_zlen.
  pose proof (zlen_nonneg (enc_data_set (group_fields wg))).
  assert (Hob : bytes_ok octets).
  { pose proof Hp as [Hpub Hw _ _ _ Hs _]; unfold octets, group_octets, group_message, enc_network_message; rewrite !bytes_ok_app; split_and!;
      [by apply wput_group_header|apply le_bytes_ok|by apply wput_write_fields]. }
  unfold publish_group; cbn [ps_send_buffer]; rewrite (encode_publishable conn wg (group_fields wg) buffer Hp Hb Hl Hfit).
  fold (group_octets conn wg); fold octets; cbn [default ps_send_buffer ps_groups ps_world]; unfold default; cbn.
  destruct (Z.ltb_spec 0 (zlen octets)); [|lia]; fold octets in Hfit; set (tail := zdrop (zlen octets) buffer).
  pose proof (zlen_nonneg tail).
  assert (El : mem_load (octets ++ tail) 0 (zlen octets) = Some octets).
  { unfold mem_load; rewrite zlen_app; destruct (Z.leb_spec 0 (zlen octets)); [|lia]; destruct (Z.leb_spec (0 + zlen octets) (zlen octets + zlen tail)); [|lia].
    cbn [andb Z.leb Z.compare]; change (zdrop 0 ?l) with l; by rewrite ztake_app. }
  rewrite El; pose proof (Hsend octets (default BROADCAST_ADDRESS (pc_address conn)) (pc_port conn) w) as Hgood; unfold default in *.
  destruct (send _ _ _ w) as [status w']; cbn in Hgood |- *; rewrite Hgood; eexists; split; [reflexivity|].
  assert (E : zlen (octets ++ tail) = zlen buffer) by (rewrite zlen_app; unfold tail; rewrite zlen_zdrop; lia).
  split; [done|]; split; [|by rewrite E]; apply bytes_ok_app; split; [done|by apply bytes_ok_zdrop].
Qed.

Lemma publish_groups_run conn send now groups : ∀ done_ buffer w, send_works send → send_buffer_ok buffer →
  Forall (group_ready conn (zlen buffer)) groups →
  ∃ buffer', publish_groups conn send (zlen buffer) now (length groups) (length done_) (mk_pubsub_state (done_ ++ groups) buffer w)
    = (Ok tt, mk_pubsub_state (done_ ++ (published now <$> groups)) buffer' (sent conn send now groups w))
    ∧ zlen buffer' = zlen buffer ∧ send_buffer_ok buffer'.
Proof.
  induction groups as [|wg groups IH]; intros done_ buffer w Hsend Hbuf Hready; [by exists buffer|].
  apply Forall_cons_iff in Hready as [Hwg Hready]; cbn [length publish_groups ps_groups].
  rewrite list_lookup_middle by done; cbn [sent fold_left fmap list_fmap]; unfold published at 1; destruct (group_due wg now).
  - rewrite <-(Nat.add_0_r (length done_)), insert_app_r; cbn [insert list_insert ps_send_buffer ps_world].
    destruct (publish_group_run conn send (set_last_publish wg now) (done_ ++ set_last_publish wg now :: groups) buffer w Hsend Hbuf
                (group_ready_set _ _ _ _ Hwg)) as (buffer1 & E1 & El & Hb1).
    rewrite (bind_ok _ _ _ _ _ E1), <-El; rewrite <-El in Hready.
    destruct (IH (done_ ++ [set_last_publish wg now]) buffer1
                (send (group_octets conn wg) (default BROADCAST_ADDRESS (pc_address conn)) (pc_port conn) w).2 Hsend Hb1 Hready)
      as (buffer2 & E2 & El2 & Hb2).
    rewrite length_app, <-!app_assoc in E2; cbn in E2; rewrite Nat.add_0_r, <-Nat.add_1_r.
    exists buffer2; split; [exact E2|]; split; [congruence|done].
  - destruct (IH (done_ ++ [wg]) buffer w Hsend Hbuf Hready) as (buffer2 & E2 & El2 & Hb2).
    rewrite length_app, <-!app_assoc in E2; cbn in E2; rewrite <-Nat.add_1_r; by exists buffer2.
Qed.

(** C27: a poll publishes exactly what is due. When PubSub is enabled, every
    group can be encoded into the send buffer and the UDP adapter accepts
    datagrams, a poll at tick [now] sends one datagram for every writer group
    whose publishing interval has passed since it was last published (modulo
    2^32 milliseconds), in the order of the groups and with the message of the
    group, notes [now] in exactly those groups and changes no other group. *)
Theorem pubsub_poll_due config send get groups buffer w now w1 :
  MUC_OPCUA_PUBSUB = true → pc_enabled (cfg_pubsub config) = true → cfg_udp_send config = Some send → cfg_get_tick_ms config = Some get →
  get w = (now, w1) → cfg_send_buffer_size (cfg_transport config) = zlen buffer → send_works send → send_buffer_ok buffer →
  Forall (group_ready (cfg_pubsub config) (zlen buffer)) groups →
  ∃ buffer', mu_pubsub_poll config (mk_pubsub_state groups buffer w)
    = (Ok tt, mk_pubsub_state (published (to_u32 now) <$> groups) buffer' (sent (cfg_pubsub config) send (to_u32 now) groups w1))
    ∧ zlen buffer' = zlen buffer ∧ send_buffer_ok buffer'.
Proof.
  intros Hon Hen Hs Hg Hget Hsize Hsend Hbuf Hready; unfold mu_pubsub_poll; rewrite Hon, Hen, Hs, Hg; cbn [andb ps_world]; rewrite Hget, Hsize.
  exact (publish_groups_run (cfg_pubsub config) send (to_u32 now) groups [] buffer w1 Hsend Hbuf Hready).
Qed.
End spec.

Module PubSubSample.
(** The datagrams sent, with their ports. *)
Definition log : Type := list (list Z * Z).
Definition send : mu_udp_send_t log := λ datagram _ port w, (MU_STATUS_GOOD, w ++ [(datagram, port)]).
Definition profile : PubSubProfile := {| MUC_OPCUA_PUBSUB := true |}.

Definition config : mu_server_config_t log :=
  mk_server_config None None None None None None (mk_transport_config 64 64 1 64) 1 1
    (mk_tcp_adapter None None None None None None) None (Some (λ w, (4294968046, w))) None None None false None None false
    UadpSample.conn (Some send) None (mk_history_adapter None None None).

(** Two groups with an interval of a second, published at 4294966996 and at
    100: at 4294968046 (750 in 32 bits) only the first one is due. *)
Definition early : mu_pubsub_writer_group_t := set_last_publish UadpSample.group 4294966996.
Definition late : mu_pubsub_writer_group_t := set_last_publish UadpSample.group 100.

Lemma groups_ready : Forall (group_ready UadpSample.conn 64) [early; late].
Proof. repeat (apply List.Forall_cons; [by apply group_ready_set; split; [exact UadpSample.group_publishable|vm_compute; discriminate]|]); constructor. Qed.
End PubSubSample.

Lemma pubsub_poll_due_witness :
  ∃ buffer', mu_pubsub_poll (profile := PubSubSample.profile) PubSubSample.config
    (mk_pubsub_state [PubSubSample.early; PubSubSample.late] (repeat 5 64) [])
  = (Ok tt, mk_pubsub_state [set_last_publish UadpSample.group 750; PubSubSample.late] buffer'
              [([209; 2; 77; 0; 0; 0; 1; 9; 0; 12; 0; 1; 5; 1; 2; 0; 12; 2; 0; 0; 0; 104; 105], 4840)]).
Proof.
  destruct (pubsub_poll_due (profile := PubSubSample.profile) PubSubSample.config PubSubSample.send (λ w, (4294968046, w))
              [PubSubSample.early; PubSubSample.late] (repeat 5 64) [] 4294968046 []) as (buffer' & E & _).
  1-6: reflexivity.
  - by intros datagram address port w.
  - split; [apply List.Forall_forall; intros x ->%List.repeat_spec; by ranges|vm_compute; discriminate].
  - exact PubSubSample.groups_ready.
  - exists buffer'; exact E.
Defined.
