(* ===== verification/HostNet.v ===== *)
(** * The POSIX network adapters

    [src/platform/host_tcp_adapter.c] and [host_udp_adapter.c] over abstract
    system calls: which port the server listens on, what the adapter gives the
    server, and who owns which descriptor. *)

From S2P Require Export Config PubSub.
From stdpp Require Export gmap.
#[local] Open Scope Z_scope.

(** The system calls. A call that returns -1 on error delivers its result and
    [errno]; [sys_read] the octets it stored too. [inet_pton] gives the address
    it stores, or nothing when the text is not one. *)
Class Posix (OS : Type) := {
  SOCK_STREAM : Z;
  SOCK_DGRAM : Z;
  SO_REUSEADDR : Z;
  SO_BROADCAST : Z;
  O_NONBLOCK : Z;
  EAGAIN : Z;
  EWOULDBLOCK : Z;
  ULONG_MAX : Z;
  sys_socket : Z → OS → Z * OS;
  sys_setsockopt : Z → Z → OS → Z * OS;
  sys_getfl : Z → OS → Z * OS;
  sys_setfl : Z → Z → OS → Z * OS;
  sys_bind : Z → Z → OS → Z * OS;
  sys_listen : Z → Z → OS → Z * OS;
  sys_accept : Z → OS → (Z * Z) * OS;
  sys_read : Z → Z → OS → (Z * Z * list Z) * OS;
  sys_write : Z → list Z → OS → (Z * Z) * OS;
  sys_sendto : Z → list Z → Z → Z → OS → Z * OS;
  sys_close : Z → OS → Z * OS;
  inet_pton : list Z → option Z;
  has_memory : OS → bool
}.

(** ** The port of an endpoint *)

Section port.
  Context {OS : Type} {posix : Posix OS}.

Definition is_space (c : Z) : bool := (c =? 32) || ((9 <=? c) && (c <=? 13)).
Definition is_digit (c : Z) : bool := (48 <=? c) && (c <=? 57).

Fixpoint skip_while (p : Z → bool) (l : list Z) : list Z :=
  match l with
  | c :: l' => if p c then skip_while p l' else l
  | [] => []
  end.

Fixpoint take_while (p : Z → bool) (l : list Z) : list Z :=
  match l with
  | c :: l' => if p c then c :: take_while p l' else []
  | [] => []
  end.

Definition digits_value (ds : list Z) : Z := fold_left (λ acc c, acc * 10 + (c - 48)) ds 0.

(** [strtoul(s, &end, 10)]: [None] when there is nothing to convert. A value
    that does not fit is [ULONG_MAX], a negative one wraps around. *)
Definition strtoul (s : list Z) : option Z :=
  let s := skip_while is_space s in
  let '(negative, s) :=
    match s with
    | c :: s' => if c =? chr "-" then (true, s') else if c =? chr "+" then (false, s') else (false, s)
    | [] => (false, s)
    end in
  match take_while is_digit s with
  | [] => None
  | ds =>
      let v := digits_value ds in
      Some (if ULONG_MAX <? v then ULONG_MAX else if (negative : bool) then (- v) mod (ULONG_MAX + 1) else v)
  end.

(** The position of the last [c]. *)
Fixpoint strrchr (s : list Z) (c : Z) : option nat :=
  match s with
  | [] => None
  | x :: s =>
      match strrchr s c with
      | Some i => Some (S i)
      | None => if x =? c then Some O else None
      end
  end.

Definition DEFAULT_PORT : Z := 4840.

Definition endpoint_port (endpoint_url : list Z) : Z :=
  match strrchr endpoint_url (chr ":") with
  | Some i =>
      if (i =? 4)%nat then DEFAULT_PORT
      else
        match strtoul (drop (S i) endpoint_url) with
        | Some parsed => if (1 <=? parsed) && (parsed <=? 65535) then to_u16 parsed else DEFAULT_PORT
        | None => DEFAULT_PORT
        end
  | None => DEFAULT_PORT
  end.
End port.

(** ** TCP *)

(** The context of the adapter, [server_fd], until it is freed; and the system. *)
Record host_tcp (OS : Type) := mk_host_tcp { ht_server_fd : option Z; ht_os : OS }.
Arguments mk_host_tcp {_}.
Arguments ht_server_fd {_}.
Arguments ht_os {_}.

Section tcp.
  Context {OS : Type} {posix : Posix OS}.

Definition sys {A} (f : OS → A * OS) : M (host_tcp OS) A := λ t,
  let '(r, os) := f (ht_os t) in (Ok r, mk_host_tcp (ht_server_fd t) os).

(** Reading or writing a context that was freed is undefined. *)
Definition server_fd : M (host_tcp OS) Z := λ t,
  match ht_server_fd t with Some fd => (Ok fd, t) | None => (Fault, t) end.

Definition set_server_fd (fd : Z) : M (host_tcp OS) unit := λ t,
  match ht_server_fd t with Some _ => (Ok tt, mk_host_tcp (Some fd) (ht_os t)) | None => (Fault, t) end.

Definition would_block (errno : Z) : bool := (errno =? EAGAIN) || (errno =? EWOULDBLOCK).

Definition set_nonblocking (fd : Z) : M (host_tcp OS) unit :=
  flags ← sys (sys_getfl fd);
  sys (sys_setfl fd (Z.lor flags O_NONBLOCK));;
  mret tt.

(** Give the listening socket up. *)
Definition close_server (fd : Z) : M (host_tcp OS) unit :=
  sys (sys_close fd);; set_server_fd (-1).

Definition host_listen (endpoint_url : option (list Z)) : M (host_tcp OS) unit :=
  endpoint_url ← lift_option endpoint_url;
  let port := endpoint_port endpoint_url in
  fd ← sys (sys_socket SOCK_STREAM);
  set_server_fd fd;;
  if fd <? 0 then fail MU_STATUS_BAD_INTERNALERROR
  else
    sys (sys_setsockopt fd SO_REUSEADDR);;
    set_nonblocking fd;;
    bound ← sys (sys_bind fd port);
    if bound <? 0 then close_server fd;; fail MU_STATUS_BAD_TCPENDPOINTURLINVALID
    else
      listening ← sys (sys_listen fd 5);
      if listening <? 0 then close_server fd;; fail MU_STATUS_BAD_INTERNALERROR else mret tt.

(** A descriptor as a pointer: 0 is NULL. *)
Definition handle_of_fd (fd : Z) : option Z := if fd =? 0 then None else Some fd.
Definition fd_of_handle (handle : option Z) : Z := to_i32 (default 0 handle).

(** A failure leaves the caller's handle alone. *)
Definition host_accept : M (host_tcp OS) (option Z) :=
  fd ← server_fd;
  if fd <? 0 then fail MU_STATUS_BAD_INTERNALERROR
  else
    '(client_fd, errno) ← sys (sys_accept fd);
    if client_fd <? 0 then
      if would_block errno then mret None else fail MU_STATUS_BAD_INTERNALERROR
    else
      set_nonblocking client_fd;;
      mret (handle_of_fd client_fd).

Definition host_read (connection_handle : option Z) (buffer_size : Z) : M (host_tcp OS) (list Z) :=
  '(res, errno, octets) ← sys (sys_read (fd_of_handle connection_handle) buffer_size);
  if res <? 0 then
    if would_block errno then mret [] else fail MU_STATUS_BAD_TCPINTERNALERROR
  else if res =? 0 then fail MU_STATUS_BAD_TCPINTERNALERROR
  else mret octets.

Definition host_write (connection_handle : option Z) (buffer : list Z) : M (host_tcp OS) Z :=
  '(res, errno) ← sys (sys_write (fd_of_handle connection_handle) buffer);
  if res <? 0 then
    if would_block errno then mret 0 else fail MU_STATUS_BAD_TCPINTERNALERROR
  else mret res.

Definition host_close_connection (connection_handle : option Z) : M (host_tcp OS) unit :=
  let fd := fd_of_handle connection_handle in
  if 0 <=? fd then sys (sys_close fd);; mret tt else mret tt.

(** [free(ctx)] *)
Definition free_tcp_context : M (host_tcp OS) unit := λ t, (Ok tt, mk_host_tcp None (ht_os t)).

Definition host_shutdown : M (host_tcp OS) unit :=
  fd ← server_fd;
  (if 0 <=? fd then close_server fd else mret tt);;
  free_tcp_context.

(** The functions as the server calls them: the world of the adapter is its
    context, the system and whether something undefined was done. *)
Definition called {A} (d : A) (m : M (host_tcp OS) A) (w : host_tcp OS * bool) : Z * A * (host_tcp OS * bool) :=
  match m w.1 with
  | (Ok a, t) => (MU_STATUS_GOOD, a, (t, w.2))
  | (Err e, t) => (e, d, (t, w.2))
  | (Fault, t) => (MU_STATUS_BAD_INTERNALERROR, d, (t, true))
  end.

Definition host_adapter : mu_tcp_adapter_t (host_tcp OS * bool) :=
  mk_tcp_adapter (Some (λ url w, let '(s, _, w) := called tt (host_listen url) w in (s, w)))
    (Some (called None host_accept)) (Some (λ h n, called [] (host_read h n))) (Some (λ h b, called 0 (host_write h b)))
    (Some (λ h w, (called tt (host_close_connection h) w).2)) (Some (λ w, (called tt host_shutdown w).2)).

(** [adapter] says whether there is a place for the result. *)
Definition mu_host_tcp_adapter_init (adapter : bool) (os : OS) : result (mu_tcp_adapter_t (host_tcp OS * bool) * host_tcp OS) :=
  if negb adapter then Err MU_STATUS_BAD_INTERNALERROR
  else if negb (has_memory os) then Err MU_STATUS_BAD_OUTOFMEMORY
  else Ok (host_adapter, mk_host_tcp (Some (-1)) os).

(** ** UDP *)

(** The context is the caller's [int] that holds the descriptor. *)
Definition udp {A} (f : OS → A * OS) : M (Z * OS) A := λ u, let '(r, os) := f u.2 in (Ok r, (u.1, os)).

Definition set_context (fd : Z) : M (Z * OS) unit := λ u, (Ok tt, (fd, u.2)).

Definition mu_host_udp_init (context : bool) (port : Z) : M (Z * OS) unit :=
  if negb context then fail MU_STATUS_BAD_INVALIDARGUMENT
  else
    fd ← udp (sys_socket SOCK_DGRAM);
    if fd <? 0 then fail MU_STATUS_BAD_INTERNALERROR
    else
      udp (sys_setsockopt fd SO_BROADCAST);;
      set_context fd.

(** An address that is not one leaves the zeroed address in place; the result
    of [sendto] is not looked at. *)
Definition mu_host_udp_send (context : bool) (buffer address : list Z) (port : Z) : M (Z * OS) unit :=
  if negb context then fail MU_STATUS_BAD_INTERNALERROR
  else
    u ← get_state;
    if u.1 <? 0 then fail MU_STATUS_BAD_INTERNALERROR
    else udp (sys_sendto u.1 buffer (default 0 (inet_pton address)) (to_u16 port));; mret tt.

Definition mu_host_udp_shutdown (context : bool) : M (Z * OS) unit :=
  if negb context then mret tt
  else
    u ← get_state;
    if 0 <=? u.1 then udp (sys_close u.1);; set_context (-1) else mret tt.
End tcp.

(** ** What the system documents *)

(** [open_fds] are the open descriptors. A new descriptor was not open before;
    closing closes it; a call that transfers octets stays within its buffer. *)
Class PosixLaws {OS} (posix : Posix OS) (open_fds : OS → gset Z) := {
  ulong_range : 65535 ≤ ULONG_MAX;
  law_socket ty s : let '(r, s') := sys_socket ty s in
    (r < 0 ∧ open_fds s' = open_fds s) ∨ (0 ≤ r < 2147483648 ∧ (r ∉ open_fds s) ∧ open_fds s' = {[r]} ∪ open_fds s);
  law_accept fd s : let '((r, _), s') := sys_accept fd s in
    (r < 0 ∧ open_fds s' = open_fds s) ∨ (0 ≤ r < 2147483648 ∧ (r ∉ open_fds s) ∧ open_fds s' = {[r]} ∪ open_fds s);
  law_close fd s : open_fds (sys_close fd s).2 = open_fds s ∖ {[fd]};
  law_setsockopt fd o s : open_fds (sys_setsockopt fd o s).2 = open_fds s;
  law_getfl fd s : open_fds (sys_getfl fd s).2 = open_fds s;
  law_setfl fd f s : open_fds (sys_setfl fd f s).2 = open_fds s;
  law_bind fd p s : open_fds (sys_bind fd p s).2 = open_fds s;
  law_listen fd n s : open_fds (sys_listen fd n s).2 = open_fds s;
  law_read fd n s : 0 ≤ n → let '((r, _, octets), s') := sys_read fd n s in
    open_fds s' = open_fds s ∧ (r < 0 ∨ 0 ≤ r ≤ n ∧ zlen octets = r);
  law_write fd x s : let '((r, _), s') := sys_write fd x s in open_fds s' = open_fds s ∧ r ≤ zlen x
}.

Section ownership.
  Context {OS : Type} {posix : Posix OS} {open_fds : OS → gset Z} {laws : PosixLaws posix open_fds}.

(** The adapter holds the listening socket, the server the connections
    [conns]; everything else that is open was open before. *)
Definition owns (base conns : gset Z) (t : host_tcp OS) : Prop :=
  ∃ fd, ht_server_fd t = Some fd ∧ 0 ≤ fd ∧ (fd ∉ base ∪ conns) ∧ base ## conns ∧ open_fds (ht_os t) = {[fd]} ∪ (base ∪ conns) ∧
    set_Forall (λ c, 0 < c < 2147483648) conns.

(** The calls of the server, each on a connection it holds. *)
Inductive host_call : gset Z * host_tcp OS → gset Z * host_tcp OS → Prop :=
| call_accept conns t x t' : host_accept t = (x, t') →
    host_call (conns, t) (match x with Ok (Some fd) => {[fd]} ∪ conns | _ => conns end, t')
| call_read conns t fd n x t' : fd ∈ conns → 0 ≤ n → host_read (Some fd) n t = (x, t') → host_call (conns, t) (conns, t')
| call_write conns t fd b x t' : fd ∈ conns → host_write (Some fd) b t = (x, t') → host_call (conns, t) (conns, t')
| call_close conns t fd x t' : fd ∈ conns → host_close_connection (Some fd) t = (x, t') → host_call (conns, t) (conns ∖ {[fd]}, t').

Lemma fd_of_live (conns : gset Z) c : set_Forall (λ c, 0 < c < 2147483648) conns → c ∈ conns → fd_of_handle (Some c) = c.
Proof.
  intros Hc Hi; specialize (Hc c Hi); cbv beta in Hc; unfold fd_of_handle; change (to_i32 c = c).
  rewrite <- (to_unsigned_id 32 c) at 1 by (norm_pow; lia); apply to_signed_unsigned; norm_pow; lia.
Qed.

Lemma nonblocking_ok fd t : ∃ os, set_nonblocking fd t = (Ok tt, mk_host_tcp (ht_server_fd t) os) ∧ open_fds os = open_fds (ht_os t).
Proof.
  unfold set_nonblocking, sys, mbind, M_bind; pose proof (law_getfl fd (ht_os t)) as H1; destruct (sys_getfl fd (ht_os t)) as [flags s1]; cbn in *.
  pose proof (law_setfl fd (Z.lor flags O_NONBLOCK) s1) as H2; destruct (sys_setfl fd _ s1) as [r s2]; cbn in *; eexists; split; [reflexivity|congruence].
Qed.

(** Accepting, with the standard input open. *)
Lemma accept_ok base conns t : 0 ∈ base → owns base conns t →
  match host_accept t with
  | (Ok (Some fd), t') => (fd ∉ conns) ∧ owns base ({[fd]} ∪ conns) t'
  | (Ok None, t') => owns base conns t'
  | (Err e, t') => e ≠ MU_STATUS_GOOD ∧ owns base conns t'
  | (Fault, _) => False
  end.
Proof.
  intros H0 (fd & Ef & Hf & Hn & Hd & Ho & Hc); unfold host_accept, server_fd, mbind, M_bind; rewrite Ef, (proj2 (Z.ltb_ge fd 0)) by done.
  unfold sys at 1; pose proof (law_accept fd (ht_os t)) as Ha; destruct (sys_accept fd (ht_os t)) as [[r errno] s'].
  destruct Ha as [[Hr Es]|(Hr & Hni & Es)].
  - rewrite (proj2 (Z.ltb_lt r 0)) by done; destruct (would_block errno); cbn; [|split; [done|]]; exists fd; cbn; rewrite Es; done.
  - rewrite (proj2 (Z.ltb_ge r 0)) by lia; destruct (nonblocking_ok r (mk_host_tcp (ht_server_fd t) s')) as (os & E & Eo).
    rewrite E; cbn in *; rewrite Ho in Hni, Es; assert (r ≠ 0) by set_solver; unfold handle_of_fd; rewrite (proj2 (Z.eqb_neq r 0)) by done.
    split; [set_solver|]; exists fd; cbn; rewrite Ef; split_and!; [done|done|set_solver|set_solver|rewrite Eo, Es; set_solver|].
    apply set_Forall_union; [|done]; apply set_Forall_singleton; lia.
Qed.

Lemma read_ok base conns t fd n : owns base conns t → fd ∈ conns → 0 ≤ n →
  match host_read (Some fd) n t with
  | (Ok octets, t') => zlen octets ≤ n ∧ owns base conns t'
  | (Err e, t') => e ≠ MU_STATUS_GOOD ∧ owns base conns t'
  | (Fault, _) => False
  end.
Proof.
  intros (sf & Ef & Hf & Hn & Hd & Ho & Hc) Hi Hz; unfold host_read, mbind, M_bind, sys; rewrite (fd_of_live conns) by done.
  pose proof (law_read fd n (ht_os t) Hz) as Hr; destruct (sys_read fd n (ht_os t)) as [[[r errno] octets] s']; destruct Hr as [Es Hr].
  assert (Hw : owns base conns (mk_host_tcp (ht_server_fd t) s')) by (exists sf; cbn; rewrite Es; done).
  destruct (Z.ltb_spec r 0); [destruct (would_block errno)|destruct (Z.eqb_spec r 0)]; cbn; split; try done; lia.
Qed.

Lemma write_ok base conns t fd x : owns base conns t → fd ∈ conns →
  match host_write (Some fd) x t with
  | (Ok n, t') => 0 ≤ n ≤ zlen x ∧ owns base conns t'
  | (Err e, t') => e ≠ MU_STATUS_GOOD ∧ owns base conns t'
  | (Fault, _) => False
  end.
Proof.
  intros (sf & Ef & Hf & Hn & Hd & Ho & Hc) Hi; unfold host_write, mbind, M_bind, sys; rewrite (fd_of_live conns) by done.
  pose proof (law_write fd x (ht_os t)) as Hr; destruct (sys_write fd x (ht_os t)) as [[r errno] s']; destruct Hr as [Es Hr].
  assert (Hw : owns base conns (mk_host_tcp (ht_server_fd t) s')) by (exists sf; cbn; rewrite Es; done); pose proof (zlen_nonneg x).
  destruct (Z.ltb_spec r 0); [destruct (would_block errno)|]; cbn; split; try done; lia.
Qed.

Lemma close_ok base conns t fd : owns base conns t → fd ∈ conns →
  ∃ t', host_close_connection (Some fd) t = (Ok tt, t') ∧ owns base (conns ∖ {[fd]}) t'.
Proof.
  intros (sf & Ef & Hf & Hn & Hd & Ho & Hc) Hi; unfold host_close_connection, mbind, M_bind, sys; rewrite (fd_of_live conns) by done.
  pose proof (Hc fd Hi) as Hp; cbv beta in Hp; rewrite (proj2 (Z.leb_le 0 fd)) by lia; pose proof (law_close fd (ht_os t)) as Es.
  destruct (sys_close fd (ht_os t)) as [r s']; cbn in *; eexists; split; [reflexivity|]; exists sf; cbn.
  split_and!; [done|done|set_solver|set_solver| |].
  - rewrite Es, Ho; apply set_eq; intros x; destruct (decide (x = fd)); set_solver.
  - intros c Hc'; apply Hc; set_solver.
Qed.

Lemma call_keeps base conns t conns' t' : 0 ∈ base → owns base conns t → host_call (conns, t) (conns', t') → owns base conns' t'.
Proof.
  intros H0 Ho Hcall; inversion Hcall as [? ? x ? E|? ? fd n x ? Hi Hn E|? ? fd b x ? Hi E|? ? fd x ? Hi E]; subst.
  - pose proof (accept_ok base conns t H0 Ho) as H; rewrite E in H; destruct x as [[fd|]|e|]; [apply H|done|apply H|done].
  - pose proof (read_ok base conns' t fd n Ho Hi Hn) as H; rewrite E in H; destruct x; [apply H|apply H|done].
  - pose proof (write_ok base conns' t fd b Ho Hi) as H; rewrite E in H; destruct x; [apply H|apply H|done].
  - destruct (close_ok base conns t fd Ho Hi) as (t'' & E' & H); rewrite E in E'; by injection E' as -> ->.
Qed.

Lemma calls_keep base c c' : 0 ∈ base → rtc host_call c c' → owns base c.1 c.2 → owns base c'.1 c'.2.
Proof.
  intros H0; induction 1 as [c|[conns t] [conns1 t1] c' Hs _ IH]; [done|]; intros Ho; apply IH; by eapply call_keeps.
Qed.

Lemma close_server_ok fd t : is_Some (ht_server_fd t) →
  ∃ os, close_server fd t = (Ok tt, mk_host_tcp (Some (-1)) os) ∧ open_fds os = open_fds (ht_os t) ∖ {[fd]}.
Proof.
  intros [x Ex]; unfold close_server, set_server_fd, sys, mbind, M_bind; pose proof (law_close fd (ht_os t)) as Es.
  destruct (sys_close fd (ht_os t)) as [r s']; cbn in *; rewrite Ex; by eexists.
Qed.

Lemma listen_ok url os x : 
  match host_listen (Some url) (mk_host_tcp (Some x) os) with
  | (Ok _, t) => owns (open_fds os) ∅ t
  | (Err e, t) => e ≠ MU_STATUS_GOOD ∧ open_fds (ht_os t) = open_fds os ∧ ∃ fd, ht_server_fd t = Some fd ∧ fd < 0
  | (Fault, _) => False
  end.
Proof.
  unfold host_listen, mbind, M_bind; cbn [lift_option mret M_ret]; unfold sys at 1; cbn [ht_os].
  pose proof (law_socket SOCK_STREAM os) as Hs; destruct (sys_socket SOCK_STREAM os) as [fd s1]; cbn [set_server_fd ht_server_fd ht_os].
  destruct Hs as [[Hr Es]|(Hr & Hni & Es)].
  { rewrite (proj2 (Z.ltb_lt fd 0)) by done; cbn; split_and!; [done|done|by exists fd]. }
  rewrite (proj2 (Z.ltb_ge fd 0)) by lia; unfold sys at 1; cbn [ht_os]; pose proof (law_setsockopt fd SO_REUSEADDR s1) as E2.
  destruct (sys_setsockopt fd SO_REUSEADDR s1) as [r2 s2]; cbn [ht_server_fd snd] in *.
  destruct (nonblocking_ok fd (mk_host_tcp (Some fd) s2)) as (s3 & E3 & Eo3); rewrite E3; unfold sys at 1; cbn [ht_os ht_server_fd] in *.
  pose proof (law_bind fd (endpoint_port url) s3) as E4; destruct (sys_bind fd _ s3) as [r4 s4]; cbn [snd] in *.
  assert (Hclose : ∀ s, open_fds s = open_fds s1 →
    ∃ s', close_server fd (mk_host_tcp (Some fd) s) = (Ok tt, mk_host_tcp (Some (-1)) s') ∧ open_fds s' = open_fds os).
  { intros s El; destruct (close_server_ok fd (mk_host_tcp (Some fd) s)) as (s' & Ec & Eo); [by eexists|].
    exists s'; split; [done|]; rewrite Eo; cbn; rewrite El, Es; set_solver. }
  destruct (r4 <? 0).
  - destruct (Hclose s4 ltac:(congruence)) as (s' & Ec & Eo); rewrite Ec; cbn; split_and!; [done|done|by eexists].
  - unfold sys at 1; cbn [ht_os ht_server_fd]; pose proof (law_listen fd 5 s4) as E5; destruct (sys_listen fd 5 s4) as [r5 s5]; cbn [snd] in *.
    destruct (r5 <? 0).
    + destruct (Hclose s5 ltac:(congruence)) as (s' & Ec & Eo); rewrite Ec; cbn; split_and!; [done|done|by eexists].
    + cbn; exists fd; cbn; split_and!; [done|lia|set_solver|set_solver|rewrite E5, E4, Eo3, E2, Es; set_solver|by apply set_Forall_empty].
Qed.

Lemma shutdown_ok base conns t : owns base conns t →
  ∃ t', host_shutdown t = (Ok tt, t') ∧ open_fds (ht_os t') = base ∪ conns ∧ ht_server_fd t' = None.
Proof.
  intros (fd & Ef & Hf & Hn & Hd & Ho & Hc); unfold host_shutdown, server_fd, mbind, M_bind; rewrite Ef, (proj2 (Z.leb_le 0 fd)) by done.
  destruct (close_server_ok fd t) as (os & E & Eo); [by eexists|]; rewrite E; eexists; split; [reflexivity|]; cbn; split; [|done].
  rewrite Eo, Ho; apply set_eq; intros x; destruct (decide (x = fd)); set_solver.
Qed.

(** C28: the TCP adapter neither leaks nor confuses descriptors. When the
    standard input is open (so that no new descriptor is 0, which the adapter
    would hand out as a NULL handle), a [listen] that fails leaves the open
    descriptors as they were, and after one that succeeds, whatever calls the
    server makes on connections it holds, in any order: nothing is undefined,
    a read delivers at most the octets asked for (what the receive loop relies
    on) and a write takes at most the octets offered, and the open descriptors
    are exactly those open before, the listening socket and the connections
    accepted and not yet closed, all different; shutting down leaves exactly
    those of others and the connections. *)
Theorem host_descriptors url os : 0 ∈ open_fds os →
  match host_listen (Some url) (mk_host_tcp (Some (-1)) os) with
  | (Ok _, t0) =>
      ∀ conns t, rtc host_call (∅, t0) (conns, t) → owns (open_fds os) conns t ∧
        (host_accept t).1 ≠ Fault ∧
        (∀ fd n, fd ∈ conns → 0 ≤ n → match (host_read (Some fd) n t).1 with Ok octets => zlen octets ≤ n | Err e => e ≠ MU_STATUS_GOOD | Fault => False end) ∧
        (∀ fd x, fd ∈ conns → match (host_write (Some fd) x t).1 with Ok n => 0 ≤ n ≤ zlen x | Err e => e ≠ MU_STATUS_GOOD | Fault => False end) ∧
        ∃ t', host_shutdown t = (Ok tt, t') ∧ open_fds (ht_os t') = open_fds os ∪ conns ∧ ht_server_fd t' = None
  | (Err e, t0) => e ≠ MU_STATUS_GOOD ∧ open_fds (ht_os t0) = open_fds os
  | (Fault, _) => False
  end.
Proof.
  intros H0; pose proof (listen_ok url os (-1)) as Hl; destruct (host_listen _ _) as [[u|e|] t0]; [|by destruct Hl as (? & ? & _)|done].
  intros conns t Hr; pose proof (calls_keep _ _ _ H0 Hr Hl) as Ho; cbn in Ho; split; [done|]; split_and!.
  - pose proof (accept_ok _ _ _ H0 Ho) as H; by destruct (host_accept t) as [[[]| |] ?].
  - intros fd n Hi Hn; pose proof (read_ok _ _ _ _ _ Ho Hi Hn) as H; destruct (host_read _ _ _) as [[]?]; [apply H|apply H|done].
  - intros fd x Hi; pose proof (write_ok _ _ _ _ x Ho Hi) as H; destruct (host_write _ _ _) as [[]?]; [apply H|apply H|done].
  - by apply shutdown_ok.
Qed.
End ownership.

(** ** Ports *)

(** A number in decimal digits; [fuel] bounds their number. *)
Fixpoint decimal_loop (fuel : nat) (n : Z) : list Z :=
  match fuel with
  | O => []
  | S fuel => if n <? 10 then [48 + n] else decimal_loop fuel (n / 10) ++ [48 + n mod 10]
  end.

Definition decimal (n : Z) : list Z := decimal_loop 5 n.

Section ports.
  Context {OS : Type} {posix : Posix OS} {open_fds : OS → gset Z} {laws : PosixLaws posix open_fds}.

Lemma decimal_ok fuel : ∀ n, 0 ≤ n < 10 ^ Z.of_nat fuel → (0 < fuel)%nat →
  digits_value (decimal_loop fuel n) = n ∧ Forall (λ c, is_digit c = true) (decimal_loop fuel n) ∧ decimal_loop fuel n ≠ [].
Proof.
  induction fuel as [|fuel IH]; intros n Hn Hf; [lia|]; cbn [decimal_loop]; destruct (Z.ltb_spec n 10).
  - split_and!; [unfold digits_value; cbn; lia|repeat constructor; unfold is_digit; lia|done].
  - rewrite Nat2Z.inj_succ, Z.pow_succ_r in Hn by lia; pose proof (Z.div_mod n 10 ltac:(lia)); pose proof (Z.mod_pos_bound n 10 ltac:(lia)).
    assert (Hd : 0 ≤ n / 10 < 10 ^ Z.of_nat fuel) by (split; [apply Z.div_pos; lia|apply Z.div_lt_upper_bound; lia]).
    assert (Hf' : (0 < fuel)%nat) by (destruct fuel; [change (10 ^ Z.of_nat 0) with 1 in Hn; lia|lia]).
    destruct (IH (n / 10) Hd Hf') as (Hv & Hg & _); split_and!.
    + unfold digits_value in *; rewrite fold_left_app; cbn [fold_left]; rewrite Hv; lia.
    + apply Forall_app; split; [done|]; repeat constructor; unfold is_digit; lia.
    + by destruct (decimal_loop fuel (n / 10)).
Qed.

Lemma take_while_app p (a b : list Z) : Forall (λ c, p c = true) a → match b with c :: _ => p c = false | [] => True end →
  take_while p (a ++ b) = a.
Proof.
  induction 1 as [|c a Hc _ IH]; intros Hb; cbn; [destruct b as [|c b]; [done|by cbn; rewrite Hb]|]; rewrite Hc; f_equal; auto.
Qed.

Lemma strrchr_last a b c : Forall (λ x, x ≠ c) b → strrchr (a ++ c :: b) c = Some (length a).
Proof.
  intros Hb; assert (Hn : strrchr b c = None).
  { induction Hb as [|x b Hx _ IH]; [done|]; cbn; rewrite IH; by rewrite (proj2 (Z.eqb_neq x c)). }
  induction a as [|x a IH]; cbn; [by rewrite Hn, Z.eqb_refl|by rewrite IH].
Qed.

(** The port in the endpoint URL is the port the server listens on. For
    every port from 1 to 65535 written in decimal after the last colon, with
    or without a path behind it, the adapter binds that port. *)
Theorem endpoint_port_roundtrip prefix tail port : 1 ≤ port ≤ 65535 → length prefix ≠ 4%nat → Forall (λ c, c ≠ chr ":") tail →
  match tail with c :: _ => is_digit c = false | [] => True end →
  endpoint_port (prefix ++ chr ":" :: decimal port ++ tail) = port.
Proof.
  intros Hp Hl Ht Hh; destruct (decimal_ok 5 port) as (Hv & Hg & Hne); [split; [lia|]; change (10 ^ Z.of_nat 5) with 100000; lia|lia|].
  fold (decimal port) in *; unfold endpoint_port; rewrite strrchr_last.
  2:{ apply Forall_app; split; [|done]; eapply Forall_impl; [exact Hg|]; intros c Hc ->; by vm_compute in Hc. }
  rewrite (proj2 (Nat.eqb_neq _ _)) by done; rewrite drop_app_ge, Nat.sub_succ_l, Nat.sub_diag by lia; cbn [drop].
  unfold strtoul; pose proof ulong_range; destruct (decimal port) as [|d ds] eqn:Ed; [done|]; pose proof (Forall_inv Hg) as Hd; cbv beta in Hd.
  assert (Hd' := Hd); unfold is_digit in Hd'; bool_hyps; cbn [app]; rewrite drop_0; cbn [skip_while].
  assert (Hsp : is_space d = false) by (unfold is_space; lia); rewrite Hsp.
  rewrite (proj2 (Z.eqb_neq d (chr "-"))), (proj2 (Z.eqb_neq d (chr "+"))) by (change (chr "-") with 45; change (chr "+") with 43; lia).
  change (d :: ds ++ tail) with ((d :: ds) ++ tail); rewrite take_while_app, Hv by done.
  rewrite (proj2 (Z.ltb_ge ULONG_MAX port)) by lia; rewrite (proj2 (Z.leb_le 1 port)), (proj2 (Z.leb_le port 65535)) by lia; cbn [andb].
  apply to_unsigned_id; norm_pow; lia.
Qed.
End ports.

(** ** A system to run on *)

(** Open descriptors and how many connections wait; a new descriptor is the
    least one that is free below 16. *)
Module PosixSample.
Definition state : Type := gset Z * nat.
Definition free_fd (open : gset Z) : option Z := snd <$> list_find (λ fd, fd ∉ open) (Z.of_nat <$> seq 0 16).

Definition opened (s : state) (n : nat) : Z * state :=
  match free_fd s.1 with Some fd => (fd, ({[fd]} ∪ s.1, n)) | None => (-1, s) end.

Definition posix : Posix state := {|
  SOCK_STREAM := 1; SOCK_DGRAM := 2; SO_REUSEADDR := 2; SO_BROADCAST := 6; O_NONBLOCK := 2048; EAGAIN := 11; EWOULDBLOCK := 11;
  ULONG_MAX := 4294967295;
  sys_socket _ s := opened s s.2; sys_setsockopt _ _ s := (0, s); sys_getfl _ s := (2, s); sys_setfl _ _ s := (0, s);
  sys_bind _ _ s := (0, s); sys_listen _ _ s := (0, s);
  sys_accept _ s := match s.2 with O => ((-1, 11), s) | S n => let '(r, s) := opened s n in ((r, 24), s) end;
  sys_read _ n s := ((-1, 11, []), s); sys_write _ x s := ((zlen x, 0), s); sys_sendto _ x _ _ s := (zlen x, s);
  sys_close fd s := (0, (s.1 ∖ {[fd]}, s.2)); inet_pton _ := None; has_memory _ := true
|}.

Lemma descriptor_opened s n : let '(r, s') := opened s n in
  (r < 0 ∧ s'.1 = s.1) ∨ (0 ≤ r < 2147483648 ∧ (r ∉ s.1) ∧ s'.1 = {[r]} ∪ s.1).
Proof.
  unfold opened; destruct (free_fd s.1) as [fd|] eqn:E; [right|by left]; apply fmap_Some in E as ([i x] & E & ->).
  apply list_find_Some in E as (Ei & Hn & _); apply list_lookup_fmap_Some in Ei as (k & -> & Ek); apply lookup_seq in Ek as [-> Hi]; cbn [snd] in *; split; [lia|done].
Qed.

Definition laws : PosixLaws posix fst.
Proof.
  split; cbn; intros; try done; try lia.
  - apply descriptor_opened.
  - destruct (s.2) as [|n]; [by left|]; pose proof (descriptor_opened s n) as H; by destruct (opened s n).
  - split; [done|left; lia].
Qed.

Definition with_stdin : state := ({[0; 1; 2]}, 2%nat).
Definition without_stdin : state := ({[1; 2; 3]}, 1%nat).
End PosixSample.

(** Two connections, one of them closed. *)
Lemma host_descriptors_witness :
  match host_listen (posix := PosixSample.posix) (Some (bytes_of_string "opc.tcp://h:4840")) (mk_host_tcp (Some (-1)) PosixSample.with_stdin) with
  | (Ok _, t0) => ∃ t, rtc (host_call (posix := PosixSample.posix)) (∅, t0) ({[4]} ∪ ∅, t) ∧ owns (open_fds := fst) {[0; 1; 2]} ({[4]} ∪ ∅) t
  | _ => False
  end.
Proof.
  pose proof (@host_descriptors PosixSample.state PosixSample.posix fst PosixSample.laws (bytes_of_string "opc.tcp://h:4840") PosixSample.with_stdin
    ltac:(set_solver)) as H.
  destruct (host_listen _ _) as [[u|e|] t0] eqn:E; [|vm_compute in E; discriminate E..].
  assert (Ea : ∃ t, host_accept (posix := PosixSample.posix) t0 = (Ok (Some 4), t)).
  { vm_compute in E; injection E as _ <-; eexists; vm_compute; reflexivity. }
  destruct Ea as [t Ea]; exists t.
  assert (Hr : rtc (host_call (posix := PosixSample.posix)) (∅, t0) ({[4]} ∪ ∅, t)) by (eapply rtc_l; [exact (call_accept ∅ t0 _ t Ea)|apply rtc_refl]).
  split; [exact Hr|]; exact (proj1 (H _ _ Hr)).
Defined.

Lemma endpoint_port_roundtrip_witness :
  endpoint_port (posix := PosixSample.posix) (bytes_of_string "opc.tcp://h:48010/x") = 48010.
Proof.
  exact (@endpoint_port_roundtrip PosixSample.state PosixSample.posix fst PosixSample.laws (bytes_of_string "opc.tcp://h") (bytes_of_string "/x") 48010
    ltac:(lia) ltac:(vm_compute; discriminate) ltac:(repeat constructor; vm_compute; discriminate) eq_refl).
Defined.

(** Without a standard input the first connection gets descriptor 0, which the
    adapter hands out as NULL: it stays open and nobody holds it. *)
Example descriptor_zero_is_lost :
  let '(x, t) := host_accept (posix := PosixSample.posix) (mk_host_tcp (Some 3) PosixSample.without_stdin) in
  x = Ok None ∧ 0 ∈ (ht_os t).1.
Proof. vm_compute. split; reflexivity. Qed.

(** Malformed ports are accepted up to the first character that is not a
    digit, and a negative number wraps around. *)
Example malformed_ports :
  endpoint_port (posix := PosixSample.posix) (bytes_of_string "opc.tcp://h:80abc") = 80 ∧
  endpoint_port (posix := PosixSample.posix) (bytes_of_string "opc.tcp://h:-4294967216") = 80 ∧
  endpoint_port (posix := PosixSample.posix) (bytes_of_string "opc.tcp://[::1]") = 1.
Proof. vm_compute. repeat split; reflexivity. Qed.
