(* ===== verification/Server.v ===== *)
(** * The connection loop

    [src/core/server.c] with the connection state of
    [src/core/server_internal.h]: framing and protection of the messages of a
    connection around the dispatcher, and the poll that accepts connections,
    reassembles the byte stream and drives the subscription engine. *)

From S2P Require Export SessionService SymChunk AsymChunk PubSub.

Definition MU_SECURE_SCRATCH_SIZE : Z := 12288.
Definition MU_SECURE_RESP_MAX : Z := 11264.
Definition MU_SECURE_OPN_REQ_MAX : Z := 1024.
Definition MU_CONNECT_TIMEOUT_MS : Z := 30000.
Definition MU_CONNECTION_RX_BUFFER_SIZE : Z := MU_MIN_CHUNK_SIZE.

(** [mu_service_dispatch] for a request id, a request body and a response
    buffer: the response length or a status, the buffer and the server. *)
Class Dispatcher (Rest : Type) := service_dispatch : Z → list Z → list Z → mu_server_t Rest → result Z * list Z * mu_server_t Rest.

(** [server->current_request_id] *)
Class RequestHost (Rest : Type) := host_set_request_id : Rest → Z → Rest.

(** What the [server_*] macros lead to: the server with the channel of the
    connection, its handle and transport state; and the buffers all
    connections share. *)
Record link (Rest : Type) := mk_link {
  lk_server : mu_server_t Rest;
  lk_client_handle : option Z;
  lk_tcp_conn : mu_tcp_connection_t;
  lk_send_buffer : list Z;
  lk_secure_scratch : list Z
}.
Arguments mk_link {_}.
Arguments lk_server {_}.
Arguments lk_client_handle {_}.
Arguments lk_tcp_conn {_}.
Arguments lk_send_buffer {_}.
Arguments lk_secure_scratch {_}.

Section link.
  Context {caps : BuildCaps} {features : ServiceFeatures} {W Rest : Type}.
  Context {config_host : ConfigHost W Rest} {channel_host : ChannelHost Rest} {request_host : RequestHost Rest}.
  Context {dispatcher : Dispatcher Rest}.

(** ** Access to the parts of a link *)

(** An early return of a [void] function is a failure here. *)
Definition L (A : Type) : Type := M (link Rest) A.

Definition on_server {A} (m : M (mu_server_t Rest) A) : L A := λ k,
  let '(x, s) := m (lk_server k) in
  (x, mk_link s (lk_client_handle k) (lk_tcp_conn k) (lk_send_buffer k) (lk_secure_scratch k)).

Definition on_send {A} (m : M (list Z) A) : L A := λ k,
  let '(x, b) := m (lk_send_buffer k) in
  (x, mk_link (lk_server k) (lk_client_handle k) (lk_tcp_conn k) b (lk_secure_scratch k)).

Definition client_handle : L (option Z) := λ k, (Ok (lk_client_handle k), k).

Definition set_client_handle (handle : option Z) : L unit := λ k,
  (Ok tt, mk_link (lk_server k) handle (lk_tcp_conn k) (lk_send_buffer k) (lk_secure_scratch k)).

(** A call of the TCP adapter. *)
Definition tcp {F A} (field : mu_tcp_adapter_t W → option F) (use : F → M W A) : M (mu_server_t Rest) A :=
  world (λ cfg, match field (cfg_tcp_adapter cfg) with Some f => use f | None => fault end).

(** [get_tick_ms] *)
Definition tick_ms : M (mu_server_t Rest) Z :=
  world (λ cfg, match cfg_get_tick_ms cfg with Some get => λ w, let '(t, w) := get w in (Ok t, w) | None => fault end).

Definition close_handle (handle : option Z) : M (mu_server_t Rest) unit :=
  tcp tcp_close_connection (λ close w, (Ok tt, close handle w)).

Definition limits : M (mu_server_t Rest) mu_transport_config_t := cfg ← config; mret (cfg_transport cfg).

(** [k] on the result of a good call, nothing after a bad one. *)
Definition if_good {S A} (m : M S A) (k : A → M S unit) : M S unit := λ s,
  match m s with
  | (Ok a, s) => k a s
  | (Err _, s) => (Ok tt, s)
  | (Fault, s) => (Fault, s)
  end.

(** ** Sending *)

Definition abort_connection : L unit :=
  handle ← client_handle;
  on_server (close_handle handle);;
  set_client_handle None.

Definition send_buffer_chunk (total : Z) : L unit :=
  handle ← client_handle;
  bytes ← on_send (λ b, (or_fault (mem_load b 0 total), b));
  sent ← on_server (tcp tcp_write (λ write w, let '(s, n, w) := write handle bytes w in (Ok (s, n), w)));
  if negb (sent.1 =? MU_STATUS_GOOD) || negb (sent.2 =? total) then abort_connection else mret tt.

Definition send_tcp_error_chunk (error_code : Z) : L unit :=
  l ← on_server limits;
  if_good (on_send (mu_tcp_create_error_message error_code None (cfg_send_buffer_size l))) send_buffer_chunk.

(** [++server_secure_channel.out_sequence_number] *)
Definition next_out_sequence : M mu_secure_channel_t Z := λ c,
  let n := to_u32 (sc_out_sequence_number c + 1) in
  (Ok n, mk_secure_channel (sc_channel_id c) (sc_token_id c) (sc_created_at c) (sc_revised_lifetime c) (sc_sequence c) n
           (sc_is_open c) (sc_policy c) (sc_mode c) (sc_client_keys c) (sc_server_keys c) (sc_keys_valid c)).

(** ** Protection of chunks *)

(** A computation on one of the key sets and a buffer. *)
Definition with_client_keys {A} (buffer : list Z) (m : M (chunk_state W) A) : M (mu_server_t Rest) (A * list Z) := λ s,
  let c := sv_secure_channel s in
  let '(x, st) := m (mk_chunk_state (host_world (sv_rest s)) (sc_client_keys c) buffer) in
  (a ← x; Ok (a, ck_buffer st),
   set_rest (set_channel s (with_keys c (ck_keys st) (sc_server_keys c) (sc_keys_valid c))) (host_set_world (sv_rest s) (ck_ctx st))).

(** The same for the key set of the server, in the send buffer. *)
Definition with_server_keys {A} (m : M (chunk_state W) A) : L A := λ k,
  let s := lk_server k in
  let c := sv_secure_channel s in
  let '(x, st) := m (mk_chunk_state (host_world (sv_rest s)) (sc_server_keys c) (lk_send_buffer k)) in
  (x, mk_link (set_rest (set_channel s (with_keys c (sc_client_keys c) (ck_keys st) (sc_keys_valid c)))
                 (host_set_world (sv_rest s) (ck_ctx st)))
        (lk_client_handle k) (lk_tcp_conn k) (ck_buffer st) (lk_secure_scratch k)).

(** Unwrapping an OPN chunk works in the first part of the scratch buffer and
    leaves the body in the second, [opn_buf]. *)
Definition with_opn_buffer {A} (m : M (asym_state W) A) : L (A * list Z) := λ k,
  let s := lk_server k in
  let '(x, st) := m (mk_asym_state (host_world (sv_rest s)) (zdrop MU_SECURE_RESP_MAX (lk_secure_scratch k))
                       (ztake MU_SECURE_RESP_MAX (lk_secure_scratch k))) in
  (a ← x; Ok (a, ak_out st),
   mk_link (set_rest s (host_set_world (sv_rest s) (ak_ctx st))) (lk_client_handle k) (lk_tcp_conn k) (lk_send_buffer k)
     (ak_scratch st ++ ak_out st)).

(** Wrapping one builds it in the send buffer. *)
Definition with_opn_response {A} (m : M (asym_state W) A) : L A := λ k,
  let s := lk_server k in
  let '(x, st) := m (mk_asym_state (host_world (sv_rest s)) (lk_send_buffer k) []) in
  (x, mk_link (set_rest s (host_set_world (sv_rest s) (ak_ctx st))) (lk_client_handle k) (lk_tcp_conn k) (ak_out st)
        (lk_secure_scratch k)).

(** Wrap a body as an MSG chunk of the channel, with the next sequence number. *)
Definition wrap_msg (crypto : crypto_functions W) (out_seq request_id : Z) (body : list Z) : L Z :=
  c ← on_server the_channel;
  l ← on_server limits;
  with_server_keys (mu_sym_chunk_wrap crypto (sc_mode c) (bytes_of_string "MSG") (sc_channel_id c) (sc_token_id c) out_seq request_id
                      body (cfg_send_buffer_size l)).

Definition finalize_msg (out_seq request_id body_length : Z) : L Z :=
  c ← on_server the_channel;
  l ← on_server limits;
  on_send (mu_uasc_finalize_symmetric (cfg_send_buffer_size l) (sc_channel_id c) (sc_token_id c) out_seq request_id body_length).

(** The part of [mu_server_emit_message] after the connection is known; the
    status is the failure. *)
Definition emit_on_connection (request_id : Z) (body : list Z) : L unit :=
  c ← on_server the_channel;
  cfg ← on_server config;
  let size := cfg_send_buffer_size (cfg_transport cfg) in
  if negb (sc_mode c =? MU_MESSAGE_SECURITY_MODE_NONE) then
    match cfg_crypto_adapter cfg with
    | Some crypto =>
        if negb (sc_keys_valid c) then fail MU_STATUS_BAD_SECURITYCHECKSFAILED
        else
          out_seq ← on_server (channel next_out_sequence);
          total ← wrap_msg crypto out_seq request_id body;
          send_buffer_chunk total
    | None => fail MU_STATUS_BAD_SECURITYCHECKSFAILED
    end
  else if (size <? zlen body) || (size <? MU_UASC_SYMMETRIC_HEADER_SIZE)
          || (size - MU_UASC_SYMMETRIC_HEADER_SIZE <? zlen body)
  then fail MU_STATUS_BAD_RESPONSETOOLARGE
  else
    on_send (store_bytes MU_UASC_SYMMETRIC_HEADER_SIZE body);;
    out_seq ← on_server (channel next_out_sequence);
    total ← finalize_msg out_seq request_id (zlen body);
    send_buffer_chunk total.

(** ** Receiving *)

Definition set_sequence (c : mu_secure_channel_t) (v : mu_sequence_validator_t) : mu_secure_channel_t :=
  mk_secure_channel (sc_channel_id c) (sc_token_id c) (sc_created_at c) (sc_revised_lifetime c) v
    (sc_out_sequence_number c) (sc_is_open c) (sc_policy c) (sc_mode c) (sc_client_keys c) (sc_server_keys c) (sc_keys_valid c).

Definition set_policy (policy : mu_security_policy_id_t) : M mu_secure_channel_t unit := λ c,
  (Ok tt, mk_secure_channel (sc_channel_id c) (sc_token_id c) (sc_created_at c) (sc_revised_lifetime c) (sc_sequence c)
            (sc_out_sequence_number c) (sc_is_open c) policy (sc_mode c) (sc_client_keys c) (sc_server_keys c) (sc_keys_valid c)).

Definition accept_inbound_chunk (is_opn : bool) (channel_id token_id sequence_number : Z) : M mu_secure_channel_t bool := λ c,
  if negb is_opn && (negb (channel_id =? sc_channel_id c) || negb (token_id =? sc_token_id c)) then (Ok false, c)
  else
    let '(x, v) := mu_sequence_validate sequence_number (sc_sequence c) in
    (match x with Ok _ => Ok true | Err _ => Ok false | Fault => Fault end, set_sequence c v).

Definition is_ns0_numeric_nodeid (nodeid : mu_nodeid_t) : option Z :=
  match nid_identifier nodeid with
  | MU_NODEID_NUMERIC numeric => if nid_namespace_index nodeid =? 0 then Some numeric else None
  | _ => None
  end.

(** Run a decoder. *)
Definition parse {A} (m : Rd A) (r : mu_binary_reader_t) : L (A * mu_binary_reader_t) := λ k,
  let '(x, r) := m r in (a ← x; Ok (a, r), k).

Definition set_request_id (request_id : Z) : M (mu_server_t Rest) unit := λ s,
  (Ok tt, if MUC_OPCUA_SUBSCRIPTIONS then set_rest s (host_set_request_id (sv_rest s) request_id) else s).

Definition run_dispatch (request_id : Z) (request response : list Z) : M (mu_server_t Rest) (result Z * list Z) := λ s,
  let '(x, buffer, s) := service_dispatch request_id request response s in
  (match x with Fault => Fault | _ => Ok (x, buffer) end, s).

(** Dispatch a request, answering failures with a ServiceFault: the length of
    the response, 0 when there is none, and the buffer. *)
Definition respond (is_opn : bool) (policy cert : mu_string_t) (request_type : mu_nodeid_t) (request response : list Z)
    : M (mu_server_t Rest) (Z * list Z) :=
  x ← match is_ns0_numeric_nodeid request_type with
      | None => mret (Err MU_STATUS_BAD_DECODINGERROR, response)
      | Some numeric =>
          (if is_opn then opn (mu_service_dispatch_set_opn_security_policy (Some policy));;
                          opn (mu_service_dispatch_set_opn_client_cert (Some cert)) else mret tt);;
          x ← run_dispatch numeric request response;
          (if is_opn then opn (mu_service_dispatch_set_opn_security_policy None);;
                          opn (mu_service_dispatch_set_opn_client_cert None) else mret tt);;
          mret x
      end;
  let '(outcome, buffer) := x in
  match outcome with
  | Ok length => mret (length, buffer)
  | Err status =>
      match mu_write_service_fault buffer (zlen buffer) 0 status with
      | (Ok length, Some buffer) => mret (length, buffer)
      | (Err _, Some buffer) => mret (0, buffer)
      | _ => fault
      end
  | Fault => fault
  end.

(** The headers of an unprotected chunk, up to the request type: channel id,
    policy, certificate, token id, sequence number and request id. *)
Definition read_plaintext_headers (is_opn : bool) : Rd (Z * mu_string_t * mu_string_t * Z * Z * Z) :=
  channel_id ← mu_binary_read_uint32;
  '(policy, cert, token_id) ←
    (if is_opn then
       policy ← mu_binary_read_string;
       cert ← mu_binary_read_bytestring;
       _ ← mu_binary_read_bytestring;
       mret (policy, cert, 0)
     else token_id ← mu_binary_read_uint32; mret (null_string, null_string, token_id));
  sequence_number ← mu_binary_read_uint32;
  request_id ← mu_binary_read_uint32;
  mret (channel_id, policy, cert, token_id, sequence_number, request_id).

Definition store_response (offset : Z) (response : list Z) : M (list Z) unit := λ b, (Ok tt, ztake offset b ++ response).

Definition handle_data_chunk_plaintext (msg : list Z) (is_opn : bool) : L unit :=
  '(headers, reader) ← parse (read_plaintext_headers is_opn) (mk_reader (Some msg) (zlen msg) 8 MU_STATUS_GOOD);
  let '(channel_id, policy, cert, token_id, sequence_number, request_id) := headers in
  accepted ← on_server (channel (accept_inbound_chunk is_opn channel_id token_id sequence_number));
  if negb accepted then abort_connection
  else
    '(request_type, reader) ← parse mu_binary_read_nodeid reader;
    let request := zdrop (r_position reader) msg in
    let body_offset := if is_opn then MU_UASC_ASYMMETRIC_NONE_HEADER_SIZE else MU_UASC_SYMMETRIC_HEADER_SIZE in
    l ← on_server limits;
    if cfg_send_buffer_size l <=? body_offset then mret tt
    else
      on_server (set_request_id request_id);;
      send_buffer ← on_send get_state;
      '(length, response) ← on_server (respond is_opn policy cert request_type request (zdrop body_offset send_buffer));
      on_send (store_response body_offset response);;
      if 0 <? length then
        out_seq ← on_server (channel next_out_sequence);
        total ← (if is_opn then
                   c ← on_server the_channel;
                   on_send (mu_uasc_finalize_asymmetric_none (cfg_send_buffer_size l) (sc_channel_id c) out_seq request_id length)
                 else finalize_msg out_seq request_id length);
        send_buffer_chunk total
      else mret tt.

(** A request taken out of a protected chunk. *)
Record secured_request := mk_secured_request {
  sq_request : list Z;
  sq_request_id : Z;
  sq_client_cert : option (list Z);
  sq_channel_id : Z;
  sq_token_id : Z;
  sq_sequence_number : Z;
  sq_policy : mu_string_t
}.

(** The policy of the chunk becomes that of the channel. *)
Definition open_opn_chunk (crypto : crypto_functions W) (msg : list Z) : L secured_request :=
  '(policy, _) ← parse (_ ← mu_binary_read_uint32; mu_binary_read_string) (mk_reader (Some msg) (zlen msg) 8 MU_STATUS_GOOD);
  '((ai, req_len), opn_buf) ← with_opn_buffer (mu_asym_chunk_unwrap crypto msg (zlen msg) MU_SECURE_OPN_REQ_MAX);
  on_server (channel (set_policy (aci_policy ai)));;
  request ← lift_option (mem_load opn_buf 0 req_len);
  mret (mk_secured_request request (aci_request_id ai) (aci_sender_cert ai) (aci_secure_channel_id ai) 0
          (aci_sequence_number ai) policy).

(** The message is decrypted in place. *)
Definition open_msg_chunk (crypto : crypto_functions W) (msg : list Z) : L secured_request :=
  c ← on_server the_channel;
  if negb (sc_keys_valid c) then fail MU_STATUS_BAD_SECURITYCHECKSFAILED
  else
    '((si, (offset, req_len)), buffer) ← on_server (with_client_keys msg (mu_sym_chunk_unwrap crypto (sc_mode c) (zlen msg)));
    request ← lift_option (mem_load buffer offset req_len);
    mret (mk_secured_request request (sci_request_id si) None (sci_secure_channel_id si) (sci_token_id si)
            (sci_sequence_number si) null_string).

(** Dispatch into the response part of the scratch buffer. *)
Definition respond_in_scratch (is_opn : bool) (q : secured_request) (request_type : mu_nodeid_t) (request : list Z)
    : L (Z * list Z) := λ k,
  let cert := mk_string (match sq_client_cert q with Some c => to_i32 (zlen c) | None => 0 end) (sq_client_cert q) in
  let scratch := lk_secure_scratch k in
  match respond is_opn (sq_policy q) cert request_type request (ztake MU_SECURE_RESP_MAX scratch) (lk_server k) with
  | (Ok (length, response), s) =>
      (Ok (length, response), mk_link s (lk_client_handle k) (lk_tcp_conn k) (lk_send_buffer k)
                                (response ++ zdrop MU_SECURE_RESP_MAX scratch))
  | (Err e, s) => (Err e, mk_link s (lk_client_handle k) (lk_tcp_conn k) (lk_send_buffer k) scratch)
  | (Fault, s) => (Fault, mk_link s (lk_client_handle k) (lk_tcp_conn k) (lk_send_buffer k) scratch)
  end.

Definition handle_data_chunk_secure (crypto : crypto_functions W) (msg : list Z) (is_opn : bool) : L unit :=
  c ← on_server the_channel;
  if negb is_opn && bool_decide (sc_policy c = MU_SECURITY_POLICY_NONE_ID) then handle_data_chunk_plaintext msg false
  else
    q ← (if is_opn then open_opn_chunk crypto msg else open_msg_chunk crypto msg);
    accepted ← on_server (channel (accept_inbound_chunk is_opn (sq_channel_id q) (sq_token_id q) (sq_sequence_number q)));
    if negb accepted then abort_connection
    else
      '(request_type, rr) ← parse mu_binary_read_nodeid (mu_binary_reader_init (Some (sq_request q)) (zlen (sq_request q)));
      on_server (set_request_id (sq_request_id q));;
      '(length, response) ← respond_in_scratch is_opn q request_type (zdrop (r_position rr) (sq_request q));
      if length =? 0 then mret tt
      else
        body ← lift_option (mem_load response 0 length);
        out_seq ← on_server (channel next_out_sequence);
        total ← (if is_opn then
                   c ← on_server the_channel;
                   l ← on_server limits;
                   with_opn_response (mu_asym_chunk_wrap crypto (sc_policy c) (sc_channel_id c) out_seq (sq_request_id q)
                                        (sq_client_cert q) body (cfg_send_buffer_size l))
                 else wrap_msg crypto out_seq (sq_request_id q) body);
        send_buffer_chunk total.

(** Free the cipher contexts a closed channel had. *)
Definition free_contexts (freed : list (list Z)) : M (mu_server_t Rest) unit :=
  world (λ cfg w, (Ok tt, match (crypto ← cfg_crypto_adapter cfg; cf_cipher_ctx_free crypto) with
                          | Some free => foldl (λ w storage, (free storage w).2) w freed
                          | None => w
                          end)).

Definition process_hello (msg : list Z) : L unit := λ k,
  let cfg := host_config (sv_rest (lk_server k)) in
  let '(x, conn, ack) := mu_tcp_process_hello (lk_tcp_conn k) msg (zlen msg) (cfg_transport cfg) (lk_send_buffer k)
                           (cfg_send_buffer_size (cfg_transport cfg)) in
  let k := mk_link (lk_server k) (lk_client_handle k) conn ack (lk_secure_scratch k) in
  match x with
  | Ok ack_length => send_buffer_chunk ack_length k
  | Err _ => abort_connection k
  | Fault => (Fault, k)
  end.

Definition process_chunk (msg : list Z) : L unit :=
  match mu_parse_message_header msg (zlen msg) with
  | Fault => fault
  | Err status =>
      chunk_type ← lift_option (znth msg 3);
      if chunk_type =? chr "C" then send_tcp_error_chunk status else mret tt
  | Ok header =>
      let is_opn := is_type (mh_message_type header) "O" "P" "N" in
      let is_msg := is_type (mh_message_type header) "M" "S" "G" in
      if is_type (mh_message_type header) "C" "L" "O" then
        on_server (if_good (channel mu_secure_channel_close) free_contexts);;
        abort_connection
      else if negb is_opn && negb is_msg then mret tt
      else
        cfg ← on_server config;
        match cfg_crypto_adapter cfg with
        | Some crypto => handle_data_chunk_secure crypto msg is_opn
        | None => handle_data_chunk_plaintext msg is_opn
        end
  end.

(** Failures inside are early returns. *)
Definition process_message (msg : list Z) : L unit := λ k,
  match tcp_state (lk_tcp_conn k) with
  | MU_TCP_STATE_CLOSED => process_hello msg k
  | _ => or_default tt (process_chunk msg) k
  end.
End link.

(** ** Connections *)

(** A connection of [conns]; the fields of [struct mu_server] that a
    single-connection build uses instead have the same names. *)
Record mu_connection_t := mk_connection {
  conn_client_handle : option Z;
  conn_rx_len : Z;
  conn_last_activity_ms : Z;
  conn_tcp_conn : mu_tcp_connection_t;
  conn_secure_channel : mu_secure_channel_t;
  conn_rx_buffer : list Z
}.

(** [struct mu_server]: the server without its channel, the connection of a
    single-connection build, the connections of a multiple-connection build,
    and the shared buffers. [st_faulted] records undefined behaviour inside the
    subscription engine's callback. *)
Record server_state (Rest : Type) := mk_state {
  st_server : mu_server_t Rest;
  st_is_running : bool;
  st_connection : mu_connection_t;
  st_conns : list mu_connection_t;
  st_send_buffer : list Z;
  st_secure_scratch : list Z;
  st_faulted : bool
}.
Arguments mk_state {_}.
Arguments st_server {_}.
Arguments st_is_running {_}.
Arguments st_connection {_}.
Arguments st_conns {_}.
Arguments st_send_buffer {_}.
Arguments st_secure_scratch {_}.
Arguments st_faulted {_}.

(** The link of a connection, with its receive state. *)
Record attached (Rest : Type) := mk_attached {
  at_link : link Rest;
  at_rx_len : Z;
  at_last_activity_ms : Z;
  at_rx_buffer : list Z
}.
Arguments mk_attached {_}.
Arguments at_link {_}.
Arguments at_rx_len {_}.
Arguments at_last_activity_ms {_}.
Arguments at_rx_buffer {_}.

Section poll.
  Context {caps : BuildCaps} {features : ServiceFeatures} {profile : BaseProfile} {pub : PublishProfile} {W Rest : Type}.
  Context {config_host : ConfigHost W Rest} {channel_host : ChannelHost Rest} {request_host : RequestHost Rest}.
  Context {subscription_host : SubscriptionHost Rest} {pubsub : PubSubProfile} {pubsub_host : PubSubHost Rest}.
  Context {dispatcher : Dispatcher Rest}.

Definition attach (st : server_state Rest) (c : mu_connection_t) : attached Rest :=
  mk_attached (mk_link (set_channel (st_server st) (conn_secure_channel c)) (conn_client_handle c) (conn_tcp_conn c)
                 (st_send_buffer st) (st_secure_scratch st))
    (conn_rx_len c) (conn_last_activity_ms c) (conn_rx_buffer c).

Definition detach (a : attached Rest) : mu_connection_t :=
  mk_connection (lk_client_handle (at_link a)) (at_rx_len a) (at_last_activity_ms a) (lk_tcp_conn (at_link a))
    (sv_secure_channel (lk_server (at_link a))) (at_rx_buffer a).

(** The connection [server->active_conn], the own one without it. *)
Definition connection (st : server_state Rest) (active : option nat) : option mu_connection_t :=
  match active with
  | Some i => st_conns st !! i
  | None => Some (st_connection st)
  end.

Definition with_connection {A} (active : option nat) (m : M (attached Rest) A) : M (server_state Rest) A := λ st,
  match connection st active with
  | None => (Fault, st)
  | Some c =>
      let '(x, a) := m (attach st c) in
      let k := at_link a in
      (x, match active with
          | Some i => mk_state (lk_server k) (st_is_running st) (st_connection st) (<[i := detach a]> (st_conns st))
                        (lk_send_buffer k) (lk_secure_scratch k) (st_faulted st)
          | None => mk_state (lk_server k) (st_is_running st) (detach a) (st_conns st) (lk_send_buffer k)
                      (lk_secure_scratch k) (st_faulted st)
          end)
  end.

Definition linked {A} (m : M (link Rest) A) : M (attached Rest) A := λ a,
  let '(x, k) := m (at_link a) in (x, mk_attached k (at_rx_len a) (at_last_activity_ms a) (at_rx_buffer a)).

Definition on_state {A} (m : M (mu_server_t Rest) A) : M (server_state Rest) A := λ st,
  let '(x, s) := m (st_server st) in
  (x, mk_state s (st_is_running st) (st_connection st) (st_conns st) (st_send_buffer st) (st_secure_scratch st) (st_faulted st)).

Definition set_receive (rx_len last_activity_ms : Z) (rx_buffer : list Z) : M (attached Rest) unit := λ a,
  (Ok tt, mk_attached (at_link a) rx_len last_activity_ms rx_buffer).

Definition set_rx_len (rx_len : Z) : M (attached Rest) unit :=
  a ← get_state; set_receive rx_len (at_last_activity_ms a) (at_rx_buffer a).

(** ** One connection *)

(** Drop the connection and what was received of it. *)
Definition drop_connection : M (attached Rest) unit :=
  linked abort_connection;; set_rx_len 0.

(** Is the peer silent for longer than the lifetime of its channel, or than
    the connect timeout before there is one? *)
Definition timed_out : M (attached Rest) bool :=
  now ← linked (on_server tick_ms);
  a ← get_state;
  let c := sv_secure_channel (lk_server (at_link a)) in
  let limit := if sc_is_open c then sc_revised_lifetime c else MU_CONNECT_TIMEOUT_MS in
  mret ((at_last_activity_ms a <? now) && (limit <? now - at_last_activity_ms a)).

(** Append what there is to read to a receive buffer of [size] octets; false
    when the connection is gone. *)
Definition read_input (size : Z) : M (attached Rest) bool :=
  a ← get_state;
  if at_rx_len a <? size then
    let handle := lk_client_handle (at_link a) in
    '(status, data) ← linked (on_server (tcp tcp_read (λ read w,
                         let '(s, d, w) := read handle (size - at_rx_len a) w in (Ok (s, d), w))));
    if negb (status =? MU_STATUS_GOOD) then drop_connection;; mret false
    else
      rx_buffer ← lift_option (mem_store (at_rx_buffer a) (at_rx_len a) data);
      set_receive (at_rx_len a) (at_last_activity_ms a) rx_buffer;;
      (if 0 <? zlen data then
         now ← linked (on_server tick_ms);
         set_receive (at_rx_len a + zlen data) now rx_buffer
       else mret tt);;
      mret true
  else mret true.

(** Process the complete messages from [consumed] on; the octets consumed.
    Every message has at least 8 octets, so [fuel] is only reached when it is
    less than the number of messages. *)
Fixpoint process_buffer (fuel : nat) (size consumed : Z) : M (attached Rest) Z :=
  match fuel with
  | O => fault
  | S fuel =>
      a ← get_state;
      if is_null (lk_client_handle (at_link a)) || (at_rx_len a - consumed <? 8) then mret consumed
      else
        msg_size ← lift_option (mu_binary_le_get_u32 (zdrop (consumed + 4) (at_rx_buffer a)));
        if (msg_size <? 8) || (size <? msg_size) then drop_connection;; mret consumed
        else if at_rx_len a - consumed <? msg_size then mret consumed
        else
          msg ← lift_option (mem_load (at_rx_buffer a) consumed msg_size);
          linked (process_message msg);;
          a ← get_state;
          if is_null (lk_client_handle (at_link a)) then set_rx_len 0;; mret consumed
          else process_buffer fuel size (consumed + msg_size)
  end.

(** Move what is left to the front. *)
Definition compact (consumed : Z) : M (attached Rest) unit :=
  a ← get_state;
  if negb (is_null (lk_client_handle (at_link a))) && (0 <? consumed) then
    let remaining := at_rx_len a - consumed in
    rx_buffer ← lift_option (bytes ← mem_load (at_rx_buffer a) consumed remaining; mem_store (at_rx_buffer a) 0 bytes);
    set_receive remaining (at_last_activity_ms a) rx_buffer
  else mret tt.

(** Read from a connection and process the messages that are complete. *)
Definition serve (size : Z) : M (attached Rest) unit :=
  alive ← read_input size;
  if (alive : bool) then
    a ← get_state;
    consumed ← process_buffer (S (Z.to_nat (at_rx_len a))) size 0;
    compact consumed
  else mret tt.

(** ** The subscription engine *)

(** The connection of the active session's channel, when no connection is
    active. *)
Definition emitting_connection (st : server_state Rest) (active : option nat) : result (option nat) :=
  if MUC_OPCUA_MULTIPLE_CONNECTIONS then
    match active with
    | Some i => Ok (Some i)
    | None =>
        match (slot ← sv_active_session (st_server st); session ← znth (sv_sessions (st_server st)) slot;
               list_find (λ c : mu_connection_t, conn_client_handle c ≠ None ∧
                               sc_channel_id (conn_secure_channel c) = ss_secure_channel_id session) (st_conns st)) with
        | Some (i, _) => Ok (Some i)
        | None => Err MU_STATUS_BAD_SECURECHANNELIDINVALID
        end
    end
  else Ok None.

Definition mu_server_emit_message (active : option nat) (request_id : Z) (body : list Z) : M (server_state Rest) unit := λ st,
  match emitting_connection st active with
  | Ok c => with_connection c (linked (emit_on_connection request_id body)) st
  | Err e => (Err e, st)
  | Fault => (Fault, st)
  end.

(** The engine sends through the server. *)
#[export] Instance server_emitter : Emitter (server_state Rest) := λ st active request_id body,
  match mu_server_emit_message active request_id body st with
  | (Ok _, st) => (MU_STATUS_GOOD, st)
  | (Err e, st) => (e, st)
  | (Fault, st) => (MU_STATUS_BAD_INTERNALERROR, mk_state (st_server st) (st_is_running st) (st_connection st) (st_conns st)
                                                   (st_send_buffer st) (st_secure_scratch st) true)
  end.

(** What [get_time] says now. *)
Definition time_now (s : mu_server_t Rest) : Z :=
  match cfg_get_time (host_config (sv_rest s)) with
  | Some get => (get (host_world (sv_rest s))).1
  | None => 0
  end.

Definition time_adapter (s : mu_server_t Rest) : mu_time_adapter_t :=
  mk_time_adapter ((λ _ now, now) <$> cfg_get_time (host_config (sv_rest s))).

Definition run_tick (now_ms : Z) : M (server_state Rest) unit := λ st,
  let s := st_server st in
  let conns := (λ c, (negb (is_null (conn_client_handle c)), sc_channel_id (conn_secure_channel c))) <$> st_conns st in
  match mu_subscriptions_tick (time_adapter s) (time_now s) now_ms (sv_sessions s) conns (host_engine (sv_rest s)) st with
  | None => (Fault, st)
  | Some (e, st) =>
      let s := st_server st in
      (if st_faulted st then Fault else Ok tt,
       mk_state (set_rest s (host_set_engine (sv_rest s) e)) (st_is_running st) (st_connection st) (st_conns st)
         (st_send_buffer st) (st_secure_scratch st) (st_faulted st))
  end.

(** PubSub works in the send buffer. *)
Definition run_pubsub : M (server_state Rest) unit := λ st,
  let s := st_server st in
  let rest := sv_rest s in
  let '(x, ps) := mu_pubsub_poll (host_config rest) (mk_pubsub_state (host_writer_groups rest) (st_send_buffer st) (host_world rest)) in
  (x, mk_state (set_rest s (host_set_writer_groups (host_set_world rest (ps_world ps)) (ps_groups ps))) (st_is_running st)
        (st_connection st) (st_conns st) (ps_send_buffer ps) (st_secure_scratch st) (st_faulted st)).

Definition mu_server_poll_background : M (server_state Rest) unit :=
  (if MUC_OPCUA_PUBSUB then run_pubsub else mret tt);;
  if MUC_OPCUA_SUBSCRIPTIONS then now_ms ← on_state tick_ms; run_tick now_ms else mret tt.

(** ** The poll *)

(** Tell a peer that the server is full. *)
Definition write_server_full (handle : option Z) (buf : list Z) : M (mu_server_t Rest) unit :=
  match mu_tcp_create_error_message MU_STATUS_BAD_TCPNOTENOUGHRESOURCES (Some (bytes_of_string "Server full")) (zlen buf) buf with
  | (Ok err_len, buf) =>
      bytes ← lift_option (mem_load buf 0 err_len);
      tcp tcp_write (λ write w, let '(_, _, w) := write handle bytes w in (Ok tt, w))
  | (Err _, _) => mret tt
  | (Fault, _) => fault
  end.

Definition accept_handle : M (mu_server_t Rest) (Z * option Z) :=
  tcp tcp_accept (λ accept w, let '(s, h, w) := accept w in (Ok (s, h), w)).

(** Start over with a fresh channel, sessions and engine. *)
Definition reset_server : M (mu_server_t Rest) unit := λ s,
  let rest := if MUC_OPCUA_SUBSCRIPTIONS then host_set_engine (sv_rest s) mu_subscriptions_init else sv_rest s in
  (Ok tt, mk_server mu_secure_channel_init (replicate (Z.to_nat MU_MAX_SESSIONS) mu_session_init) None (sv_address_space s)
            (sv_user_index s) (sv_runtime_space s) (sv_dynamic_references s) (sv_write_handler s) (sv_writes s) rest).

Definition set_tcp_conn (conn : mu_tcp_connection_t) : M (link Rest) unit := λ k,
  (Ok tt, mk_link (lk_server k) (lk_client_handle k) conn (lk_send_buffer k) (lk_secure_scratch k)).

Definition accept_first : M (attached Rest) unit :=
  '(status, handle) ← linked (on_server accept_handle);
  linked (set_client_handle handle);;
  if (status =? MU_STATUS_GOOD) && negb (is_null handle) then
    linked (set_tcp_conn mu_tcp_connection_init);;
    linked (on_server reset_server);;
    set_rx_len 0;;
    now ← linked (on_server tick_ms);
    a ← get_state;
    set_receive (at_rx_len a) now (at_rx_buffer a)
  else mret tt.

Definition starts_with_hel (buf : list Z) : bool := (8 <=? zlen buf) && bool_decide (ztake 3 buf = bytes_of_string "HEL").

(** A second peer is told so when it says HEL, and disconnected. [garbage] is
    the stack buffer. *)
Definition reject_second (garbage : list Z) : M (mu_server_t Rest) unit :=
  '(status, handle) ← accept_handle;
  if (status =? MU_STATUS_GOOD) && negb (is_null handle) then
    '(status, data) ← tcp tcp_read (λ read w, let '(s, d, w) := read handle (zlen garbage) w in (Ok (s, d), w));
    buf ← lift_option (mem_store garbage 0 data);
    (if (status =? MU_STATUS_GOOD) && starts_with_hel data then write_server_full handle buf else mret tt);;
    close_handle handle
  else mret tt.

Definition poll_single (garbage : list Z) : M (attached Rest) unit :=
  a ← get_state;
  if is_null (lk_client_handle (at_link a)) then accept_first
  else
    late ← timed_out;
    if (late : bool) then drop_connection
    else
      linked (on_server (reject_second garbage));;
      l ← linked (on_server limits);
      serve (cfg_receive_buffer_size l).

(** A connection of a multiple-connection build. *)
Definition poll_connection : M (attached Rest) unit :=
  a ← get_state;
  if is_null (lk_client_handle (at_link a)) then mret tt
  else
    late ← timed_out;
    if (late : bool) then drop_connection else serve MU_CONNECTION_RX_BUFFER_SIZE.

Fixpoint poll_connections (n i : nat) : M (server_state Rest) unit :=
  match n with
  | O => mret tt
  | S n => with_connection (Some i) poll_connection;; poll_connections n (S i)
  end.

Definition accept_in_slot (handle : option Z) : M (attached Rest) unit :=
  linked (set_client_handle handle);;
  set_rx_len 0;;
  now ← linked (on_server tick_ms);
  a ← get_state;
  set_receive (at_rx_len a) now (at_rx_buffer a);;
  linked (set_tcp_conn mu_tcp_connection_init);;
  linked (on_server (channel (λ _, (Ok tt, mu_secure_channel_init)))).

Definition poll_multiple (garbage : list Z) : M (server_state Rest) unit :=
  st ← get_state;
  let free_slot := fst <$> list_find (λ c : mu_connection_t, conn_client_handle c = None) (st_conns st) in
  '(status, handle) ← on_state accept_handle;
  if (status =? MU_STATUS_GOOD) && negb (is_null handle) then
    match free_slot with
    | Some i => with_connection (Some i) (accept_in_slot handle)
    | None => on_state (write_server_full handle garbage);; on_state (close_handle handle)
    end
  else poll_connections (Z.to_nat MU_MAX_CONNECTIONS) 0.

(** Every path of the C function ends in the background work. *)
Definition mu_server_poll (garbage : list Z) : M (server_state Rest) unit :=
  st ← get_state;
  if negb (st_is_running st) then fail MU_STATUS_BAD_INTERNALERROR
  else
    (if MUC_OPCUA_MULTIPLE_CONNECTIONS then poll_multiple garbage else with_connection None (poll_single garbage));;
    mu_server_poll_background.

(** ** Shutting down *)

Definition close_channel : M (mu_server_t Rest) unit := if_good (channel mu_secure_channel_close) free_contexts.

Definition close_connection : M (attached Rest) unit :=
  a ← get_state;
  let handle := lk_client_handle (at_link a) in
  if is_null handle then mret tt
  else
    linked (on_server (close_handle handle));;
    linked (on_server close_channel);;
    linked (set_client_handle None).

Fixpoint close_connections (n i : nat) : M (server_state Rest) unit :=
  match n with
  | O => mret tt
  | S n => with_connection (Some i) close_connection;; close_connections n (S i)
  end.

Definition stop : M (server_state Rest) unit := λ st,
  (Ok tt, mk_state (st_server st) false (st_connection st) (st_conns st) (st_send_buffer st) (st_secure_scratch st) (st_faulted st)).

Definition shutdown : M (mu_server_t Rest) unit :=
  world (λ cfg w, (Ok tt, match tcp_shutdown (cfg_tcp_adapter cfg) with Some f => f w | None => w end)).

Definition mu_server_close : M (server_state Rest) unit :=
  stop;;
  (if MUC_OPCUA_MULTIPLE_CONNECTIONS then close_connections (Z.to_nat MU_MAX_CONNECTIONS) 0
   else with_connection None (linked (on_server close_channel)));;
  on_state shutdown.
End poll.
