(* ===== verification/ServerInit.v ===== *)
(** * The assembled server

    [struct mu_server] with all its parts, the dispatcher over all modelled
    handlers, and [mu_server_init] ([src/core/server.c]). *)

From S2P Require Export Server Methods NodeManagement SubscriptionSystem Query History.

(** ** The state of the services *)

Record server_rest (W : Type) := mk_rest {
  rs_config : mu_server_config_t W;
  rs_world : W;
  rs_opn : opn_state;
  rs_subs : mu_subscriptions_t;
  rs_current_request_id : Z;
  rs_dynamic_address_space : mu_dynamic_address_space_t;
  rs_registered_methods : list (mu_nodeid_t * mu_method_callback_t W);
  rs_writer_groups : list mu_pubsub_writer_group_t;
  rs_query_points : list query_point
}.
Arguments mk_rest {_}.
Arguments rs_config {_}.
Arguments rs_world {_}.
Arguments rs_opn {_}.
Arguments rs_subs {_}.
Arguments rs_current_request_id {_}.
Arguments rs_dynamic_address_space {_}.
Arguments rs_registered_methods {_}.
Arguments rs_writer_groups {_}.
Arguments rs_query_points {_}.

Section hosts.
  Context {W : Type}.

#[export] Instance rest_config : ConfigHost W (server_rest W) := {|
  host_config := rs_config;
  host_world := rs_world;
  host_set_world r w := mk_rest (rs_config r) w (rs_opn r) (rs_subs r) (rs_current_request_id r)
    (rs_dynamic_address_space r) (rs_registered_methods r) (rs_writer_groups r) (rs_query_points r)
|}.

#[export] Instance rest_channel : ChannelHost (server_rest W) := {|
  host_opn := rs_opn;
  host_set_opn r o := mk_rest (rs_config r) (rs_world r) o (rs_subs r) (rs_current_request_id r)
    (rs_dynamic_address_space r) (rs_registered_methods r) (rs_writer_groups r) (rs_query_points r)
|}.

#[export] Instance rest_subscriptions : SubscriptionHost (server_rest W) := {|
  host_engine := rs_subs;
  host_set_engine r e := mk_rest (rs_config r) (rs_world r) (rs_opn r) e (rs_current_request_id r)
    (rs_dynamic_address_space r) (rs_registered_methods r) (rs_writer_groups r) (rs_query_points r);
  host_request_id := rs_current_request_id
|}.

#[export] Instance rest_request : RequestHost (server_rest W) := λ r id,
  mk_rest (rs_config r) (rs_world r) (rs_opn r) (rs_subs r) id
    (rs_dynamic_address_space r) (rs_registered_methods r) (rs_writer_groups r) (rs_query_points r).

#[export] Instance rest_nodes : NodeManagementHost (server_rest W) := {|
  host_space := rs_dynamic_address_space;
  host_set_space r sp := mk_rest (rs_config r) (rs_world r) (rs_opn r) (rs_subs r) (rs_current_request_id r)
    sp (rs_registered_methods r) (rs_writer_groups r) (rs_query_points r);
  host_allow_node_management r := cfg_allow_node_management (rs_config r)
|}.

#[export] Instance rest_methods : MethodHost W (server_rest W) := rs_registered_methods.

#[export] Instance rest_pubsub : PubSubHost (server_rest W) := {|
  host_writer_groups := rs_writer_groups;
  host_set_writer_groups r groups := mk_rest (rs_config r) (rs_world r) (rs_opn r) (rs_subs r) (rs_current_request_id r)
    (rs_dynamic_address_space r) (rs_registered_methods r) groups (rs_query_points r)
|}.

#[export] Instance rest_query : QueryHost (server_rest W) := {|
  host_points := rs_query_points;
  host_set_points r points := mk_rest (rs_config r) (rs_world r) (rs_opn r) (rs_subs r) (rs_current_request_id r)
    (rs_dynamic_address_space r) (rs_registered_methods r) (rs_writer_groups r) points
|}.
End hosts.

(** ** Dispatch *)

Section dispatch.
  Context {auth : AuthProfile} {profile : BaseProfile} {pub : PublishProfile} {caps : BuildCaps} {features : ServiceFeatures}.
  Context {methods : MethodProfile} {W : Type}.

(** What a call finds on the stack. *)
Class Environment := {
  env_stack : stack_memory;
  env_garbage : nat → list Z * Z;
  env_history : HistoryStack
}.
Context {env : Environment}.
#[local] Existing Instance env_history.

(** The instants [now] and [now_ms] of the call. *)
Definition service (now now_ms : Z) (h : service_handler) : H (server_rest W) unit :=
  match h with
  | handle_find_servers_fn => handle_find_servers
  | handle_get_endpoints_fn => handle_get_endpoints
  | handle_open_secure_channel_fn => handle_open_secure_channel
  | handle_create_session_fn => handle_create_session
  | handle_activate_session_fn => handle_activate_session
  | handle_close_session_fn => handle_close_session
  | handle_translate_browse_paths_fn => handle_translate_browse_paths
  | handle_call_fn => handle_call
  | handle_add_nodes_fn => handle_add_nodes
  | handle_add_references_fn => handle_add_references
  | handle_delete_nodes_fn => handle_delete_nodes
  | handle_delete_references_fn => handle_delete_references
  | handle_query_first_fn => handle_query_first
  | handle_query_next_fn => handle_query_next
  | handle_history_read_fn => handle_history_read
  | handle_history_update_fn => handle_history_update
  | h => subscription_service now now_ms env_garbage h
  end.

(** What [get_tick_ms] says now. *)
Definition tick_now (s : mu_server_t (server_rest W)) : Z :=
  match cfg_get_tick_ms (rs_config (sv_rest s)) with
  | Some get => (get (rs_world (sv_rest s))).1
  | None => 0
  end.

#[export] Instance server_dispatcher : Dispatcher (server_rest W) := λ request_id request response s,
  let now := time_now s in
  let '(x, st) := mu_service_dispatch now env_stack (service now (tick_now s)) request_id request (zlen request)
                    response (zlen response) s in
  (x;; Ok (h_response_length st), default response (w_buffer (h_writer st)), h_server st).
End dispatch.

(** ** Initialisation *)

(** What the compiler makes of [struct mu_server]. *)
Class StructLayout := { mu_server_alignment : Z; mu_server_size : Z }.

Section init.
  Context {profile : BaseProfile} {caps : BuildCaps} {features : ServiceFeatures} {layout : StructLayout} {W : Type}.

Definition initial_connection (rx_buffer : list Z) : mu_connection_t :=
  mk_connection None 0 0 mu_tcp_connection_init mu_secure_channel_init rx_buffer.

(** The server in zeroed storage at [addr], started at [start]. *)
Definition initial_state (addr : Z) (config : mu_server_config_t W) (start : Z) (w : W) : server_state (server_rest W) :=
  let time := mk_time_adapter ((λ _ now, now) <$> cfg_get_time config) in
  let index := mk_index (replicate (Z.to_nat MU_MAX_ADDRESS_SPACE_NODES) 0) 0 false None 0 in
  let opn := mk_opn_state null_string (mk_string 0 None) (replicate (Z.to_nat MU_MAX_CLIENT_CERT_SIZE) 0) 0 in
  let rest := mk_rest config w opn mu_subscriptions_init 0 init_space [] [] (repeat free_point (Z.to_nat MU_MAX_QUERY_CONTINUATION_POINTS)) in
  mk_state (mk_server mu_secure_channel_init (replicate (Z.to_nat MU_MAX_SESSIONS) mu_session_init) None
              (cfg_address_space config) (Some index) (Some (rn_space (mu_base_runtime_init addr (Some time) start))) []
              (cfg_write_handler config) [] rest)
    true (initial_connection (default [] (cfg_receive_buffer config)))
    (replicate (Z.to_nat MU_MAX_CONNECTIONS) (initial_connection (replicate (Z.to_nat MU_CONNECTION_RX_BUFFER_SIZE) 0)))
    (default [] (cfg_send_buffer config)) (replicate (Z.to_nat MU_SECURE_SCRATCH_SIZE) 0) false.

Definition start_listening (addr : Z) (config : mu_server_config_t W) (start : Z) : M W (server_state (server_rest W)) := λ w,
  match tcp_listen (cfg_tcp_adapter config) with
  | None => (Fault, w)
  | Some listen =>
      let '(status, w) := listen (cfg_endpoint_url config) w in
      if status =? MU_STATUS_GOOD then (Ok (initial_state addr config start w), w) else (Err status, w)
  end.

Definition checked (x : result unit) : M W unit := λ w, (x, w).

(** [storage] is the address of the caller's block; [out_server] whether there
    is a place for the result. *)
Definition mu_server_init (storage : option Z) (storage_size : Z) (config : option (mu_server_config_t W)) (out_server : bool)
    : M W (server_state (server_rest W)) :=
  match storage, config with
  | Some addr, Some config =>
      if negb out_server then fail MU_STATUS_BAD_INTERNALERROR
      else if negb (addr mod mu_server_alignment =? 0) then fail MU_STATUS_BAD_INTERNALERROR
      else if storage_size <? mu_server_size then fail MU_STATUS_BAD_OUTOFMEMORY
      else
        checked (mu_server_config_validate (Some config));;
        start ← read_clock config;
        start_listening addr config start
  | _, _ => fail MU_STATUS_BAD_INTERNALERROR
  end.
End init.
