(* ===== verification/SampleServer.v ===== *)
(** * A sample server

    A server over a scripted network, for evaluation: connections and input in
    queues, output collected. *)

From S2P Require Export ServerInit.

Module Sample.

(** ** Adapters *)

(** Handles to accept, input to read, output written. *)
Record net := mk_net { net_accepts : list (option Z); net_inputs : list (list Z); net_outputs : list (list Z) }.

Definition sample_accept (w : net) : Z * option Z * net :=
  match net_accepts w with
  | h :: hs => (MU_STATUS_GOOD, h, mk_net hs (net_inputs w) (net_outputs w))
  | [] => (MU_STATUS_GOOD, None, w)
  end.

Definition sample_read (handle : option Z) (n : Z) (w : net) : Z * list Z * net :=
  match net_inputs w with
  | piece :: inputs => (MU_STATUS_GOOD, ztake n piece, mk_net (net_accepts w) inputs (net_outputs w))
  | [] => (MU_STATUS_GOOD, [], w)
  end.

Definition sample_write (handle : option Z) (data : list Z) (w : net) : Z * Z * net :=
  (MU_STATUS_GOOD, zlen data, mk_net (net_accepts w) (net_inputs w) (net_outputs w ++ [data])).

Definition sample_tcp : mu_tcp_adapter_t net :=
  mk_tcp_adapter (Some (λ _ w, (MU_STATUS_GOOD, w))) (Some sample_accept) (Some sample_read) (Some sample_write)
    (Some (λ _ w, w)) (Some (λ w, w)).

(** ** Configuration *)

Definition zeros (n : Z) : list Z := replicate (Z.to_nat n) 0.
Definition sample_url : list Z := bytes_of_string "opc.tcp://x:4840".

Definition sample_config : mu_server_config_t net :=
  mk_server_config (Some sample_url) (Some (bytes_of_string "urn:x")) (Some (bytes_of_string "urn:p"))
    (Some (bytes_of_string "n")) (Some (zeros 8192)) (Some (zeros 8192)) (mk_transport_config 8192 8192 1 8192) 1 1 sample_tcp
    (Some (λ w, (77, w))) (Some (λ w, (5000, w))) (Some (λ w, (λ n, Ok (replicate (Z.to_nat n) 7), w)))
    None None false None None false (mk_pubsub_connection 0 false 0 None) None None (mk_history_adapter None None None).

Definition sample_env : Environment := {|
  env_stack := mk_stack [] [] [] zero_variant;
  env_garbage _ := ([], 0);
  env_history := {|
    stack_datavalue _ _ := zero_datavalue;
    stack_continuation_point _ := zeros MU_MAX_HISTORY_READ_CONTINUATION_POINT_LENGTH;
    stack_operation_results _ := zeros MU_MAX_HISTORY_UPDATE_VALUES_PER_DETAIL
  |}
|}.
Definition sample_pubsub : PubSubProfile := {| MUC_OPCUA_PUBSUB := true |}.
Definition sample_auth : AuthProfile := {| MUC_OPCUA_USER_AUTH := true |}.
Definition sample_methods : MethodProfile := {| MUC_OPCUA_CUSTOM_METHODS := true |}.
Definition sample_layout : StructLayout := {| mu_server_alignment := 8; mu_server_size := 1000 |}.

#[local] Existing Instances embedded_profile embedded_caps all_features demo_pub sample_env sample_pubsub sample_auth sample_methods sample_layout.

(** ** Requests *)

Definition u32 : Z → list Z := mu_binary_le_put_u32.
Definition octets (s : list Z) : list Z := u32 (zlen s) ++ s.
Definition message (tag : list Z) (body : list Z) : list Z := tag ++ u32 (8 + zlen body) ++ body.

Definition hello : list Z := message (bytes_of_string "HELF") (u32 0 ++ u32 8192 ++ u32 8192 ++ u32 0 ++ u32 0 ++ octets sample_url).

Definition request_header (token : list Z) : list Z :=
  token ++ mu_binary_le_put_u64 0 ++ u32 1 ++ u32 0 ++ u32 (-1) ++ u32 0 ++ [0; 0; 0].

(** OpenSecureChannel without security. *)
Definition open_request (sequence channel_id : Z) : list Z :=
  message (bytes_of_string "OPNF") (u32 channel_id ++ octets POLICY_NONE_URI ++ u32 (-1) ++ u32 (-1) ++ u32 sequence ++ u32 1 ++ [1; 0; 190; 1] ++
    request_header [0; 0] ++ u32 0 ++ u32 0 ++ u32 1 ++ u32 (-1) ++ u32 60000).

(** ** Runs *)

Definition server_of (accepts : list (option Z)) (inputs : list (list Z)) : result (server_state (server_rest net)) :=
  (mu_server_init (Some 64) 100000 (Some sample_config) true (mk_net accepts inputs [])).1.

Fixpoint polls (n : nat) (st : server_state (server_rest net)) : result (server_state (server_rest net)) :=
  match n with
  | O => Ok st
  | S n => match mu_server_poll (zeros 256) st with (Ok _, st) => polls n st | (Err e, _) => Err e | (Fault, _) => Fault end
  end.

(** The server after [n] polls. *)
Definition after (n : nat) (accepts : list (option Z)) (inputs : list (list Z)) : result (server_state (server_rest net)) :=
  st ← server_of accepts inputs; polls n st.

(** Message types and sizes of what was written. *)
Definition written (st : server_state (server_rest net)) : list (list Z * Z) :=
  (λ m, (ztake 4 m, zlen m)) <$> net_outputs (rs_world (sv_rest (st_server st))).

Definition is_open (st : server_state (server_rest net)) : bool := sc_is_open (conn_secure_channel (st_connection st)).

(** HEL and OPN, the OPN in two pieces: ACK and an OPN answer, an open
    channel and an empty buffer. *)
Example sample_opens :
  (st ← after 4 [Some 1] [hello ++ ztake 20 (open_request 1 0); zdrop 20 (open_request 1 0)];
   Ok (written st, is_open st, conn_rx_len (st_connection st)))
  = Ok ([(bytes_of_string "ACKF", 28); (bytes_of_string "OPNF", 167)], true, 0).
Proof. vm_compute. reflexivity. Qed.

End Sample.
