(* ===== verification/ServerSpec.v ===== *)
(** * Stream reassembly

    What the receive loop of [mu_server_poll] makes of the octets of a
    connection: the complete messages, in order, whatever the pieces they
    arrive in. *)

From S2P Require Export Server.
From S2P Require Import SampleServer.

(** ** Framing *)

Inductive frame :=
| frame_more
| frame_bad
| frame_message (msg rest : list Z).

(** The first message of a byte stream; the size is the UInt32 at offset 4. *)
Definition next_frame (size : Z) (bs : list Z) : frame :=
  if zlen bs <? 8 then frame_more
  else
    match mu_binary_le_get_u32 (zdrop 4 bs) with
    | None => frame_more
    | Some n =>
        if (n <? 8) || (size <? n) then frame_bad
        else if zlen bs <? n then frame_more
        else frame_message (ztake n bs) (zdrop n bs)
    end.

Lemma le_get_u32_prefix (a c : list Z) : 4 ≤ zlen a → mu_binary_le_get_u32 (a ++ c) = mu_binary_le_get_u32 a.
Proof. destruct a as [|? [|? [|? [|? a]]]]; unfold zlen; cbn; intros; try lia; done. Qed.

Lemma le_get_u32_total (a : list Z) : 4 ≤ zlen a → ∃ v, mu_binary_le_get_u32 a = Some v.
Proof. destruct a as [|? [|? [|? [|? a]]]]; unfold zlen; cbn; intros; try lia; eauto. Qed.

Lemma zdrop_app_le {A} n (a c : list A) : 0 ≤ n ≤ zlen a → zdrop n (a ++ c) = zdrop n a ++ c.
Proof. unfold zdrop, zlen; intros; rewrite drop_app_le by lia; done. Qed.

Lemma ztake_app_le' {A} n (a c : list A) : 0 ≤ n ≤ zlen a → ztake n (a ++ c) = ztake n a.
Proof. unfold ztake, zlen; intros; rewrite take_app_le by lia; done. Qed.

(** A decision about the stream is final. *)
Lemma next_frame_app size x y : match next_frame size x with
  | frame_more => True
  | frame_bad => next_frame size (x ++ y) = frame_bad
  | frame_message msg rest => next_frame size (x ++ y) = frame_message msg (rest ++ y) ∧ x = msg ++ rest ∧ 8 ≤ zlen msg ≤ size
  end.
Proof.
  unfold next_frame; destruct (Z.ltb_spec (zlen x) 8) as [|Hx]; [done|].
  destruct (le_get_u32_total (zdrop 4 x)) as [n En]; [rewrite zlen_zdrop by lia; lia|]; rewrite En.
  pose proof (zlen_nonneg y); rewrite (proj2 (Z.ltb_ge (zlen (x ++ y)) 8)) by (rewrite zlen_app; lia).
  rewrite zdrop_app_le, le_get_u32_prefix, En by (rewrite ?zlen_zdrop by lia; lia).
  destruct (_ || _) eqn:Hb; [done|]; bool_hyps; destruct (Z.ltb_spec (zlen x) n); [done|].
  rewrite (proj2 (Z.ltb_ge (zlen (x ++ y)) n)) by (rewrite zlen_app; lia).
  rewrite ztake_app_le', zdrop_app_le by lia; split; [done|]; split; [by rewrite ztake_zdrop|].
  rewrite zlen_ztake by lia; lia.
Qed.

(** What is kept leaves room in the buffer. *)
Lemma next_frame_more size x : 8 ≤ size → next_frame size x = frame_more → zlen x < size.
Proof.
  unfold next_frame; intros Hs; destruct (Z.ltb_spec (zlen x) 8) as [|Hx]; [lia|].
  destruct (le_get_u32_total (zdrop 4 x)) as [n ->]; [rewrite zlen_zdrop by lia; lia|].
  destruct (_ || _) eqn:Hb; [done|]; bool_hyps; destruct (Z.ltb_spec (zlen x) n); [lia|done].
Qed.

Section stream.
  Context {caps : BuildCaps} {features : ServiceFeatures} {W Rest : Type}.
  Context {config_host : ConfigHost W Rest} {channel_host : ChannelHost Rest} {request_host : RequestHost Rest}.
  Context {dispatcher : Dispatcher Rest}.

(** ** The reference *)

Definition is_alive (k : link Rest) : bool := negb (is_null (lk_client_handle k)).

(** Process the messages of a stream as long as the connection is there;
    delivers what is left of the stream. *)
Fixpoint feed_loop (fuel : nat) (size : Z) (bs : list Z) : M (link Rest) (list Z) :=
  match fuel with
  | O => fault
  | S fuel =>
      match next_frame size bs with
      | frame_more => mret bs
      | frame_bad => abort_connection;; mret []
      | frame_message msg rest =>
          process_message msg;;
          k ← get_state;
          if is_alive k then feed_loop fuel size rest else mret []
      end
  end.

Definition feed (size : Z) (bs : list Z) : M (link Rest) (list Z) := feed_loop (S (Z.to_nat (zlen bs))) size bs.

(** Further octets of the stream, after [rest]. *)
Fixpoint feed_all (size : Z) (rest : list Z) (pieces : list (list Z)) : M (link Rest) (list Z) :=
  match pieces with
  | [] => mret rest
  | piece :: pieces =>
      rest ← feed size (rest ++ piece);
      k ← get_state;
      if is_alive k then feed_all size rest pieces else mret []
  end.

Lemma feed_loop_fuel size fuel fuel' bs k : (Z.to_nat (zlen bs) < fuel)%nat → (Z.to_nat (zlen bs) < fuel')%nat →
  feed_loop fuel size bs k = feed_loop fuel' size bs k.
Proof.
  revert fuel' bs k; induction fuel as [|fuel IH]; intros [|fuel'] bs k H H'; try lia; cbn [feed_loop].
  pose proof (next_frame_app size bs []) as Hf; destruct (next_frame size bs) as [| |msg rest]; [done..|].
  destruct Hf as (_ & -> & Hm); pose proof (zlen_nonneg rest); rewrite zlen_app in *; unfold mbind, M_bind, get_state.
  destruct (process_message msg k) as [[a|e|] k']; [|done..]; destruct (is_alive k'); [|done]; apply IH; lia.
Qed.

Lemma feed_unfold size bs k : feed size bs k = match next_frame size bs with
  | frame_more => (Ok bs, k)
  | frame_bad => (abort_connection;; mret []) k
  | frame_message msg rest => (process_message msg;; k ← get_state; if is_alive k then feed size rest else mret []) k
  end.
Proof.
  unfold feed at 1; cbn [feed_loop]; pose proof (next_frame_app size bs []) as Hf; destruct (next_frame size bs) as [| |msg rest]; [done..|].
  destruct Hf as (_ & -> & Hm); pose proof (zlen_nonneg rest); unfold mbind, M_bind, get_state.
  destruct (process_message msg k) as [[a|e|] k']; [|done..]; destruct (is_alive k'); [|done].
  apply feed_loop_fuel; rewrite ?zlen_app; lia.
Qed.

Lemma abort_dead (k k' : link Rest) u : abort_connection k = (Ok u, k') → is_alive k' = false.
Proof.
  unfold abort_connection, client_handle, mbind, M_bind; destruct (on_server _ _) as [[a|e|] k'']; [|done..]; by intros [= _ <-].
Qed.

(** Feeding in two pieces. *)
Lemma feed_app size n : ∀ x y k, (Z.to_nat (zlen x) < n)%nat → is_alive k = true →
  feed size (x ++ y) k = (rest ← feed size x; k ← get_state; if is_alive k then feed size (rest ++ y) else mret []) k.
Proof.
  induction n as [|n IH]; intros x y k Hn Hk; [lia|]; pose proof (next_frame_app size x y) as Hf.
  unfold mbind, M_bind, get_state; rewrite (feed_unfold size x); destruct (next_frame size x) as [| |msg rest].
  - by rewrite Hk.
  - rewrite feed_unfold, Hf; unfold mbind, M_bind, get_state; destruct (abort_connection k) as [[a|e|] k'] eqn:Ea; [|done..].
    cbn; by rewrite (abort_dead _ _ _ Ea).
  - destruct Hf as (E & -> & Hm); rewrite zlen_app in Hn; pose proof (zlen_nonneg rest); rewrite feed_unfold, E.
    unfold mbind, M_bind, get_state in *.
    destruct (process_message msg k) as [[a|e|] k'] eqn:Ep; [|done..]; destruct (is_alive k') eqn:Ek; [|cbn; by rewrite Ek].
    apply IH; [lia|done].
Qed.

Lemma feed_rest size n : ∀ bs k rest k', (Z.to_nat (zlen bs) < n)%nat → feed size bs k = (Ok rest, k') →
  next_frame size rest = frame_more ∨ (rest = [] ∧ is_alive k' = false).
Proof.
  induction n as [|n IH]; intros bs k rest k' Hn; [lia|]; rewrite feed_unfold; pose proof (next_frame_app size bs []) as Hf.
  destruct (next_frame size bs) as [| |msg r] eqn:E.
  - intros [= <- <-]; by left.
  - unfold mbind, M_bind; destruct (abort_connection k) as [[a|e|] k1] eqn:Ea; [|done..]; intros [= <- <-]; right; split; [done|].
    by eapply abort_dead.
  - destruct Hf as (_ & -> & Hm); rewrite zlen_app in Hn; pose proof (zlen_nonneg r); unfold mbind, M_bind, get_state.
    destruct (process_message msg k) as [[a|e|] k1]; [|done..]; destruct (is_alive k1) eqn:Ek; [apply IH; lia|].
    intros [= <- <-]; by right.
Qed.

Lemma feed_all_concat size pieces : ∀ rest k, is_alive k = true → next_frame size rest = frame_more →
  feed_all size rest pieces k = feed size (rest ++ concat pieces) k.
Proof.
  induction pieces as [|piece pieces IH]; intros rest k Hk Hrest; cbn [feed_all concat].
  - by rewrite app_nil_r, feed_unfold, Hrest.
  - rewrite app_assoc, (feed_app size (S (Z.to_nat (zlen (rest ++ piece))))) by (done || lia); unfold mbind, M_bind, get_state.
    destruct (feed size (rest ++ piece) k) as [[r|e|] k'] eqn:E; [|done..]; destruct (is_alive k') eqn:Ek; [|done].
    destruct (feed_rest size _ _ _ _ _ (Nat.lt_succ_diag_r _) E) as [Hr|[_ Hr]]; [by apply IH|congruence].
Qed.
End stream.

Section receive.
  Context {caps : BuildCaps} {features : ServiceFeatures} {W Rest : Type}.
  Context {config_host : ConfigHost W Rest} {channel_host : ChannelHost Rest} {request_host : RequestHost Rest}.
  Context {dispatcher : Dispatcher Rest}.

(** ** The receive buffer *)

(** The octets received and not yet processed. *)
Definition pending (a : attached Rest) : list Z := ztake (at_rx_len a) (at_rx_buffer a).

Definition buffer_fits (size : Z) (a : attached Rest) : Prop := zlen (at_rx_buffer a) = size ∧ 0 ≤ at_rx_len a ≤ size.

(** The loop and the move to the front are [feed]. *)
Definition receive (size : Z) : M (attached Rest) unit :=
  a ← get_state;
  consumed ← process_buffer (S (Z.to_nat (at_rx_len a))) size 0;
  compact consumed.

Lemma zlen_pending size a : buffer_fits size a → zlen (pending a) = at_rx_len a.
Proof. intros [Hl Hr]; unfold pending; rewrite zlen_ztake; lia. Qed.

Lemma pending_slice size a c m : buffer_fits size a → 0 ≤ c → 0 ≤ m → c + m ≤ at_rx_len a →
  ztake m (zdrop c (pending a)) = ztake m (zdrop c (at_rx_buffer a)).
Proof.
  intros [Hl Hr] Hc Hm Hfit; unfold pending; rewrite <- (ztake_zdrop (at_rx_len a) (at_rx_buffer a)) at 2.
  assert (zlen (ztake (at_rx_len a) (at_rx_buffer a)) = at_rx_len a) by (rewrite zlen_ztake; lia).
  rewrite zdrop_app_le by lia; rewrite ztake_app_le'; [done|]; rewrite zlen_zdrop by lia; lia.
Qed.

Lemma u32_prefix (l : list Z) : 4 ≤ zlen l → mu_binary_le_get_u32 (ztake 4 l) = mu_binary_le_get_u32 l.
Proof.
  intros Hl; rewrite <- (ztake_zdrop 4 l) at 2; symmetry; apply le_get_u32_prefix; rewrite zlen_ztake; lia.
Qed.

Lemma pending_u32 size a c : buffer_fits size a → 0 ≤ c → c + 8 ≤ at_rx_len a →
  mu_binary_le_get_u32 (zdrop (c + 4) (at_rx_buffer a)) = mu_binary_le_get_u32 (zdrop 4 (zdrop c (pending a))).
Proof.
  intros Hf Hc Hfit; pose proof (zlen_pending size a Hf) as Hl; pose proof Hf as [Hb Hr].
  rewrite zdrop_zdrop by lia; rewrite <- u32_prefix, <- (u32_prefix (zdrop (c + 4) (pending a))) by (rewrite zlen_zdrop by lia; lia).
  by rewrite (pending_slice size) by (done || lia).
Qed.

(** The loop from [consumed] on did what [feed] does. *)
Definition fed (a : attached Rest) (consumed : Z) (x : result (list Z) * link Rest) (y : result Z * attached Rest) : Prop :=
  at_link y.2 = x.2 ∧
  match x.1, y.1 with
  | Ok rest, Ok consumed' =>
      at_rx_buffer y.2 = at_rx_buffer a ∧ at_last_activity_ms y.2 = at_last_activity_ms a ∧
      if is_alive x.2 then at_rx_len y.2 = at_rx_len a ∧ consumed ≤ consumed' ≤ at_rx_len a ∧ rest = zdrop consumed' (pending a)
      else at_rx_len y.2 = 0 ∧ rest = []
  | Err e, Err e' => e = e'
  | Fault, Fault => True
  | _, _ => False
  end.

Lemma process_buffer_feeds size fuel : ∀ consumed a, buffer_fits size a → 0 ≤ consumed ≤ at_rx_len a →
  (Z.to_nat (at_rx_len a - consumed) < fuel)%nat → is_alive (at_link a) = true →
  fed a consumed (feed size (zdrop consumed (pending a)) (at_link a)) (process_buffer fuel size consumed a).
Proof.
  induction fuel as [|fuel IH]; intros consumed a Hf Hc Hn Ha; [lia|]; cbn [process_buffer]; rewrite feed_unfold.
  pose proof (zlen_pending size a Hf) as Hl; unfold next_frame.
  assert (Hz : zlen (zdrop consumed (pending a)) = at_rx_len a - consumed) by (rewrite zlen_zdrop by lia; lia).
  assert (Hstay : fed a consumed (Ok (zdrop consumed (pending a)), at_link a) (Ok consumed, a)).
  { split; [done|]; cbn; rewrite Ha; split_and!; try done; lia. }
  rewrite Hz, (bind_ok get_state _ a a a eq_refl); pose proof (proj1 (negb_true_iff _) Ha) as Hnull; rewrite Hnull; cbn [orb].
  destruct (Z.ltb_spec (at_rx_len a - consumed) 8) as [|H8]; [done|].
  destruct (le_get_u32_total (zdrop 4 (zdrop consumed (pending a)))) as [n En]; [rewrite zlen_zdrop by lia; lia|].
  rewrite (pending_u32 size a consumed Hf) by lia; rewrite En; cbn [lift_option]; rewrite (bind_ok (mret n) _ a n a eq_refl).
  destruct (_ || _) eqn:Hbad.
  - unfold drop_connection, linked, set_rx_len, set_receive, mbind, M_bind, get_state.
    destruct (abort_connection (at_link a)) as [[u|e|] k] eqn:Ea; [|by split..].
    split; [done|]; cbn; by rewrite (abort_dead _ _ _ Ea).
  - bool_hyps; destruct (Z.ltb_spec (at_rx_len a - consumed) n); [done|]; pose proof Hf as [Hb Hr].
    rewrite mem_load_Some by lia; rewrite <- (pending_slice size a consumed n Hf) by lia; cbn [lift_option].
    rewrite (bind_ok (mret _) _ a _ a eq_refl); unfold linked, mbind, M_bind, get_state.
    destruct (process_message _ (at_link a)) as [[u|e|] k]; [|by split..]; cbn [at_link].
    unfold is_alive at 1; destruct (is_null (lk_client_handle k)) eqn:Ek; cbn [negb].
    + split; [done|]; cbn; unfold is_alive; by rewrite Ek.
    + rewrite zdrop_zdrop by lia; set (a' := mk_attached k (at_rx_len a) (at_last_activity_ms a) (at_rx_buffer a)).
      assert (Hk : is_alive k = true) by (unfold is_alive; by rewrite Ek).
      pose proof (IH (consumed + n) a' Hf ltac:(cbn; lia) ltac:(cbn; lia) Hk) as [Hfed1 Hfed2]; split; [exact Hfed1|].
      change (pending a') with (pending a) in Hfed2; change (at_link a') with k in Hfed2.
      destruct (feed _ _ k) as [[rest|e|] k'], (process_buffer _ _ _ a') as [[c|e'|] a'']; cbn in *; try done.
      destruct Hfed2 as (E1 & E2 & Hfed2); split_and!; [done..|]; destruct (is_alive k'); [|done].
      destruct Hfed2 as (E3 & E4 & E5); split_and!; (done || lia).
Qed.

(** The loop, the move to the front and the stream. *)
Lemma receive_feeds size a : buffer_fits size a → is_alive (at_link a) = true →
  match feed size (pending a) (at_link a), receive size a with
  | (Ok rest, k), (Ok _, a') => at_link a' = k ∧ pending a' = rest ∧ buffer_fits size a' ∧ (is_alive k = true → 8 ≤ size → at_rx_len a' < size)
  | (Err e, k), (Err e', a') => e = e' ∧ at_link a' = k
  | (Fault, _), (Fault, _) => True
  | _, _ => False
  end.
Proof.
  intros Hf Ha; pose proof Hf as [Hb Hr]; unfold receive; rewrite (bind_ok get_state _ a a a eq_refl).
  pose proof (process_buffer_feeds size (S (Z.to_nat (at_rx_len a))) 0 a Hf ltac:(lia) ltac:(lia) Ha) as H.
  change (zdrop 0 (pending a)) with (pending a) in H; destruct (feed size (pending a) (at_link a)) as [x k] eqn:Ex.
  unfold mbind, M_bind; destruct (process_buffer _ _ _ _) as [[c|e'|] a1]; destruct H as [Hk H]; cbn in Hk, H; destruct x as [rest|e|]; try done.
  destruct H as (E1 & E2 & H); unfold compact; rewrite (bind_ok get_state _ a1 a1 a1 eq_refl); rewrite Hk.
  fold (is_alive k); destruct (is_alive k) eqn:Ek; cbn [andb].
  - destruct H as (E3 & Hc & ->); destruct (feed_rest size _ _ _ _ _ (Nat.lt_succ_diag_r _) Ex) as [Hm|[_ ?]]; [|congruence].
    assert (Hroom : 8 ≤ size → at_rx_len a - c < size).
    { intros H8; pose proof (next_frame_more size _ H8 Hm) as Hl; pose proof (zlen_pending size a Hf); rewrite zlen_zdrop in Hl by lia; lia. }
    destruct (Z.ltb_spec 0 c).
    + rewrite E1, E3, mem_load_Some by lia; cbn [mbind option_bind]; set (bytes := ztake (at_rx_len a - c) (zdrop c (at_rx_buffer a))).
      assert (Hbytes : zlen bytes = at_rx_len a - c) by (unfold bytes; apply zlen_ztake; rewrite zlen_zdrop by lia; lia).
      rewrite mem_store_Some by lia; cbn; split_and!; [done| | |intros _ H8; by specialize (Hroom H8)].
      * transitivity bytes; [unfold pending; cbn; change (ztake 0 (at_rx_buffer a)) with (@nil Z); cbn [app]; rewrite <- Hbytes; apply ztake_app|].
        unfold bytes; rewrite <- (pending_slice size a) by (done || lia); pose proof (zlen_pending size a Hf) as Hl.
        assert (Hz : zlen (zdrop c (pending a)) = at_rx_len a - c) by (rewrite zlen_zdrop by lia; lia).
        apply take_ge; unfold zlen in Hz; lia.
      * split; cbn; [|lia]; change (ztake 0 (at_rx_buffer a)) with (@nil Z); cbn [app]; pose proof (zlen_nonneg bytes).
        rewrite zlen_app, zlen_zdrop by lia; lia.
    + cbn; assert (c = 0) as -> by lia; split_and!; [done| |split; rewrite ?E1, ?E3; done|intros _ H8; specialize (Hroom H8); lia].
      unfold pending; by rewrite E1, E3.
  - destruct H as [E3 ->]; cbn; split_and!; [done|unfold pending; by rewrite E3|split; rewrite ?E1, ?E3; [done|lia]|done].
Qed.

(** ** Reading *)

(** What a read of [data] appends. *)
Lemma read_input_appends size a cfg read get data w :
  buffer_fits size a → at_rx_len a < size → cfg = host_config (sv_rest (lk_server (at_link a))) →
  tcp_read (cfg_tcp_adapter cfg) = Some read → cfg_get_tick_ms cfg = Some get →
  (∀ x w', host_config (host_set_world x w') = host_config x) →
  read (lk_client_handle (at_link a)) (size - at_rx_len a) (host_world (sv_rest (lk_server (at_link a)))) = (MU_STATUS_GOOD, data, w) →
  zlen data ≤ size - at_rx_len a →
  ∃ a', read_input size a = (Ok true, a') ∧ pending a' = pending a ++ data ∧ buffer_fits size a' ∧
    lk_client_handle (at_link a') = lk_client_handle (at_link a).
Proof.
  intros Hf Hroom -> Hread Hget Hcfg Er Hd; pose proof Hf as [Hb Hr]; pose proof (zlen_nonneg data).
  unfold read_input; rewrite (bind_ok get_state _ a a a eq_refl), (proj2 (Z.ltb_lt _ _) Hroom).
  unfold tcp, tick_ms, world, linked, on_server, mbind, M_bind; rewrite Hread, Er; cbn -[zlen mem_store].
  rewrite mem_store_Some by lia; cbn -[zlen].
  assert (Hbuf : zlen (ztake (at_rx_len a) (at_rx_buffer a) ++ data ++ zdrop (at_rx_len a + zlen data) (at_rx_buffer a)) = size).
  { rewrite !zlen_app, zlen_ztake, zlen_zdrop by lia; lia. }
  assert (Hpre : zlen (ztake (at_rx_len a) (at_rx_buffer a)) = at_rx_len a) by (rewrite zlen_ztake; lia).
  destruct (Z.ltb_spec 0 (zlen data)).
  - cbn -[zlen]; rewrite Hcfg, Hget; destruct (get _) as [t w']; eexists; split; [reflexivity|]; split_and!; [|split; [exact Hbuf|cbn; lia]|done].
    unfold pending; cbn -[zlen]; rewrite app_assoc; rewrite <- Hpre at 1; rewrite <- zlen_app; apply ztake_app.
  - assert (data = []) as -> by (destruct data; [done|unfold zlen in *; cbn in *; lia]).
    eexists; split; [reflexivity|]; split_and!; [|split; [exact Hbuf|done]|done].
    unfold pending; cbn -[zlen]; rewrite app_nil_r; rewrite <- Hpre at 1; apply ztake_app.
Qed.

(** [serve] on a connection whose read brings [data] does what the reference
    does with the octets kept and the new ones. *)
Definition serves (size : Z) (data : list Z) (a : attached Rest) : Prop :=
  ∃ a1, read_input size a = (Ok true, a1) ∧ lk_client_handle (at_link a1) = lk_client_handle (at_link a) ∧
  match feed size (pending a ++ data) (at_link a1), serve size a with
  | (Ok rest, k), (Ok _, a') =>
      at_link a' = k ∧ pending a' = rest ∧ buffer_fits size a' ∧ (is_alive k = true → 8 ≤ size → at_rx_len a' < size)
  | (Err e, k), (Err e', a') => e = e' ∧ at_link a' = k
  | (Fault, _), (Fault, _) => True
  | _, _ => False
  end.

(** C12: A poll of a connection processes the octets it had kept followed by
    the octets the read delivered as one byte stream: it passes to
    [process_message] exactly the complete messages of that stream, in order,
    until the connection is gone, keeps exactly what follows the last of them,
    never overruns the receive buffer, and leaves room in it for the next read
    while the connection lives. What is done with a stream does not depend on
    the pieces in which it arrives. *)
Theorem stream_reassembly size a read get data w :
  buffer_fits size a → at_rx_len a < size → is_alive (at_link a) = true →
  tcp_read (cfg_tcp_adapter (host_config (sv_rest (lk_server (at_link a))))) = Some read →
  cfg_get_tick_ms (host_config (sv_rest (lk_server (at_link a)))) = Some get →
  (∀ x w', host_config (host_set_world x w') = host_config x) →
  read (lk_client_handle (at_link a)) (size - at_rx_len a) (host_world (sv_rest (lk_server (at_link a)))) = (MU_STATUS_GOOD, data, w) →
  zlen data ≤ size - at_rx_len a →
  serves size data a ∧
  ∀ pieces rest (k : link Rest), is_alive k = true → next_frame size rest = frame_more →
    feed_all size rest pieces k = feed size (rest ++ concat pieces) k.
Proof.
  intros Hf Hroom Ha Hread Hget Hcfg Er Hd; split; [|intros; by apply feed_all_concat].
  destruct (read_input_appends size a _ read get data w Hf Hroom eq_refl Hread Hget Hcfg Er Hd) as (a1 & E & Hp & Hf1 & Hh).
  exists a1; split; [done|]; split; [done|]; rewrite <- Hp; unfold serve; rewrite (bind_ok _ _ _ _ _ E).
  apply receive_feeds; [done|]; unfold is_alive; by rewrite Hh.
Qed.
End receive.

Section sample.
#[local] Existing Instances embedded_profile embedded_caps all_features demo_pub.
#[local] Existing Instances Sample.sample_env Sample.sample_auth Sample.sample_methods Sample.sample_layout.

(** A connection that has read a HEL and the first octets of an OPN. *)
Definition sample_connection : option (attached (server_rest Sample.net)) :=
  match Sample.after 2 [Some 1] [Sample.hello ++ ztake 20 (Sample.open_request 1 0); zdrop 20 (Sample.open_request 1 0)] with
  | Ok st => Some (attach st (st_connection st))
  | _ => None
  end.

Lemma stream_reassembly_witness :
  match sample_connection with
  | Some a => at_rx_len a = 20 ∧ serves 8192 (zdrop 20 (Sample.open_request 1 0)) a
  | None => False
  end.
Proof.
  destruct sample_connection as [a|] eqn:E; [|vm_compute in E; discriminate].
  assert (Ha : Some a = sample_connection) by done; clear E.
  assert (Hl : (at_rx_len <$> Some a) = Some 20) by (rewrite Ha; vm_compute; reflexivity).
  assert (Hb : ((λ a, zlen (at_rx_buffer a)) <$> Some a) = Some 8192) by (rewrite Ha; vm_compute; reflexivity).
  assert (Hk : ((λ a, is_alive (at_link a)) <$> Some a) = Some true) by (rewrite Ha; vm_compute; reflexivity).
  assert (Hw : ((λ a, Sample.net_inputs (host_world (sv_rest (lk_server (at_link a))))) <$> Some a) = Some [zdrop 20 (Sample.open_request 1 0)])
    by (rewrite Ha; vm_compute; reflexivity).
  assert (Hc : ((λ a, tcp_read (cfg_tcp_adapter (host_config (sv_rest (lk_server (at_link a)))))) <$> Some a) = Some (Some Sample.sample_read))
    by (rewrite Ha; vm_compute; reflexivity).
  assert (Hg : ((λ a, cfg_get_tick_ms (host_config (sv_rest (lk_server (at_link a))))) <$> Some a) = Some (Some (λ w, (5000, w))))
    by (rewrite Ha; vm_compute; reflexivity).
  apply (inj Some) in Hl, Hb, Hk, Hw, Hc, Hg; clear Ha.
  assert (Hr : Sample.sample_read (lk_client_handle (at_link a)) (8192 - at_rx_len a) (host_world (sv_rest (lk_server (at_link a)))) =
    (MU_STATUS_GOOD, zdrop 20 (Sample.open_request 1 0), Sample.mk_net (Sample.net_accepts (host_world (sv_rest (lk_server (at_link a))))) []
       (Sample.net_outputs (host_world (sv_rest (lk_server (at_link a))))))).
  { unfold Sample.sample_read; rewrite Hw, Hl; reflexivity. }
  split; [exact Hl|].
  refine (proj1 (stream_reassembly 8192 a _ _ _ _ _ _ Hk Hc Hg _ Hr _)).
  - split; [exact Hb|rewrite Hl; lia].
  - rewrite Hl; lia.
  - reflexivity.
  - rewrite Hl; vm_compute; discriminate.
Defined.
End sample.
