(* ===== verification/SessionServiceSafety.v ===== *)
(** * Safety of discovery, channel and session services

    Whatever a request holds, the FindServers, GetEndpoints, OpenSecureChannel,
    CreateSession, ActivateSession and CloseSession handlers stay inside their
    memory and keep the session table, the key sets and the configuration well
    formed. *)

From S2P Require Export SessionService SubscriptionServiceSafety SymChunkSpec AsymChunkSpec.

(** ** The configuration *)

Definition cstring_ok (s : option (list Z)) : Prop :=
  match s with Some d => bytes_ok d ∧ zlen d ≤ PTRDIFF_MAX | None => True end.

Lemma cstr_ok s : cstring_ok s → string_ok (cstr s).
Proof.
  destruct s as [d|]; [|intros _; split; [done|by ranges]]; intros [Hb Hl]; pose proof (zlen_nonneg d); unfold string_ok; cbn.
  rewrite to_i32_id by lia; split; [split; [lia|done]|ranges; lia].
Qed.

(** An entropy source delivers as many octets as it is asked for, or fails. *)
Definition entropy_ok (e : entropy_t) : Prop :=
  ∀ f n, e = Some f → 0 ≤ n → outcome_ok (λ b, zlen b = n ∧ bytes_ok b) (f n).

(** What the server relies on in its configuration; the crypto adapter, if
    any, is [crypto] with the certificate [own]. *)
Record config_ok {W} (sys : RsaSystem) (crypto : crypto_functions W) (own : list Z) (cfg : mu_server_config_t W) : Prop := {
  cok_endpoint_url : cstring_ok (cfg_endpoint_url cfg);
  cok_application_uri : cstring_ok (cfg_application_uri cfg);
  cok_product_uri : cstring_ok (cfg_product_uri cfg);
  cok_application_name : cstring_ok (cfg_application_name cfg);
  cok_entropy next w : cfg_entropy cfg = Some next → entropy_ok (Some (next w).1);
  cok_crypto : cfg_crypto_adapter cfg = None ∨ cfg_crypto_adapter cfg = Some crypto;
  cok_own : zlen own ≤ PTRDIFF_MAX;
  cok_trust t : cfg_trust_list cfg = Some t → Forall (λ e, e.2 ≤ zlen e.1) (tl_entries t)
}.

(** ** Encoders *)

Definition application_ok (a : mu_application_description_t) : Prop :=
  cstring_ok (app_application_uri a) ∧ cstring_ok (app_product_uri a) ∧ cstring_ok (app_application_name a) ∧
  cstring_ok (app_discovery_url a).

Definition token_policy_ok (t : mu_user_token_policy_t) : Prop :=
  cstring_ok (utp_policy_id t) ∧ cstring_ok (utp_issued_token_type t) ∧ cstring_ok (utp_issuer_endpoint_url t) ∧
  cstring_ok (utp_security_policy_uri t).

Record endpoint_ok (e : mu_endpoint_description_t) : Prop := {
  eok_url : cstring_ok (ep_endpoint_url e);
  eok_server : application_ok (ep_server e);
  eok_certificate : cstring_ok (ep_server_certificate e);
  eok_policy : cstring_ok (ep_security_policy_uri e);
  eok_tokens : Forall token_policy_ok (ep_user_identity_tokens e);
  eok_profile : cstring_ok (ep_transport_profile_uri e);
  eok_level : u8_range (ep_security_level e)
}.

Lemma wsafe_cstr s : cstring_ok s → wsafe (write_cstr s).
Proof. intros; by apply wsafe_write_string, cstr_ok. Qed.

Lemma wsafe_localizedtext s : cstring_ok s → wsafe (write_localizedtext s).
Proof.
  destruct s as [d|]; intros Hs; [|by apply wsafe_write_byte].
  apply wsafe_bind; [by apply wsafe_write_byte|intros _; by apply wsafe_cstr].
Qed.

Lemma wsafe_discovery_urls s : cstring_ok s → wsafe (write_discovery_urls s).
Proof.
  destruct s as [d|]; intros Hs; [|apply wsafe_write_int32].
  apply wsafe_bind; [apply wsafe_write_int32|intros _; by apply wsafe_cstr].
Qed.

#[export] Hint Resolve wsafe_cstr wsafe_localizedtext wsafe_discovery_urls : wsafe.

Lemma wsafe_application a : application_ok a → wsafe (mu_application_description_encode a).
Proof. intros (? & ? & ? & ?); unfold mu_application_description_encode; wsafe_auto; by apply wsafe_cstr. Qed.

Lemma wsafe_token_policy t : token_policy_ok t → wsafe (write_user_token_policy t).
Proof. intros (? & ? & ? & ?); unfold write_user_token_policy; wsafe_auto. Qed.

Lemma wsafe_endpoint_security e : endpoint_ok e → wsafe (write_endpoint_security e).
Proof.
  intros []; unfold write_endpoint_security; apply wsafe_bind; [by apply wsafe_write_bytestring, cstr_ok|intros _].
  assert (wsafe (wr_list write_user_token_policy (ep_user_identity_tokens e))).
  { apply wsafe_wr_list; eapply Forall_impl; [eassumption|apply wsafe_token_policy]. }
  wsafe_auto.
Qed.

#[export] Hint Resolve wsafe_application wsafe_endpoint_security : wsafe.

Lemma wsafe_endpoint e : endpoint_ok e → wsafe (mu_endpoint_description_encode e).
Proof. intros He; pose proof (eok_url e He); pose proof (eok_server e He); unfold mu_endpoint_description_encode; wsafe_auto. Qed.

Lemma wsafe_application_locale a l : application_ok a → wire_string l → wsafe (findservers_application_description_encode a l).
Proof.
  intros Ha Hl; pose proof (wire_string_ok l Hl); unfold findservers_application_description_encode.
  apply wsafe_if; intros _; [by apply wsafe_application|]; destruct Ha as (? & ? & ? & ?); wsafe_auto; try (by apply wsafe_cstr).
  unfold findservers_write_localizedtext; destruct (app_application_name a) as [t|]; [|by apply wsafe_write_byte].
  wsafe_auto; by destruct (locale_id_is_usable l); apply wsafe_write_byte.
Qed.

Lemma wsafe_endpoint_locale e l : endpoint_ok e → wire_string l → wsafe (getendpoints_endpoint_description_encode e l).
Proof.
  intros He Hl; unfold getendpoints_endpoint_description_encode; apply wsafe_if; intros _; [by apply wsafe_endpoint|].
  pose proof (eok_url e He); pose proof (wsafe_application_locale _ l (eok_server e He) Hl); wsafe_auto.
Qed.

(** ** Request fragments *)

Lemma string_matches_total s c : wire_string s → ∃ b, string_matches_cstr s c = Some b.
Proof.
  intros Hs; unfold string_matches_cstr; destruct c as [c|]; [|eauto]; destruct Hs as [->|(d & -> & -> & _ & _)]; [cbn; eauto|].
  split_if; [eauto|]; split_if; [eauto|]; bool_hyps; rewrite mem_load_Some by (pose proof (zlen_nonneg c); lia); cbn; eauto.
Qed.

Lemma rsafe_rd_fold {A B} n (item : Rd A) (f : B → A → option B) (P : A → Prop) (Q : B → Prop) : rsafe item P →
  (∀ acc x, Q acc → P x → ∃ acc', f acc x = Some acc' ∧ Q acc') → ∀ acc, Q acc → rsafe (rd_fold n item f acc) Q.
Proof.
  intros Hi Hf; induction n as [|n IH]; intros acc Hacc; cbn [rd_fold]; [by apply rsafe_ret|].
  eapply rsafe_bind; [exact Hi|]; intros x Hx; destruct (Hf acc x Hacc Hx) as (acc' & E & Hacc').
  apply rsafe_lift; exists acc'; split; [done|by apply IH].
Qed.

Lemma any_match_total {A} (p : A → option bool) acc x : (∃ b, p x = Some b) → ∃ b, any_match p acc x = Some b ∧ True.
Proof. intros [b E]; unfold any_match; rewrite E; cbn; eauto. Qed.

Lemma rsafe_locale_ids : rsafe read_requested_locale_ids wire_string.
Proof.
  unfold read_requested_locale_ids; eapply rsafe_bind; [apply rsafe_read_int32|intros count _].
  apply rsafe_if; intros _; [by apply rsafe_fail|]; eapply rsafe_rd_fold; [apply rsafe_read_string| |by left].
  intros acc x Hacc Hx; unfold select_locale; eexists; split; [done|]; by split_if.
Qed.

Lemma rsafe_filter_loop {A} n (item : Rd A) (p : A → option bool) P : rsafe item P → (∀ x, P x → ∃ b, p x = Some b) →
  rsafe (rd_fold n item (any_match p) false) (λ _, True).
Proof.
  intros Hi Hp; eapply (rsafe_rd_fold _ _ _ _ (λ _, True)); [exact Hi| |done].
  intros acc x _ Hx; destruct (any_match_total p acc x (Hp x Hx)) as (b & E & _); eauto.
Qed.

Lemma rsafe_server_uri_filter c : rsafe (findservers_server_uri_filter_matches c) (λ _, True).
Proof.
  unfold findservers_server_uri_filter_matches; eapply rsafe_bind; [apply rsafe_read_int32|intros count _].
  apply rsafe_if; intros _; [by apply rsafe_fail|]; apply rsafe_if; intros _; [by apply rsafe_ret|].
  eapply rsafe_filter_loop; [apply rsafe_read_string|]; intros; by apply string_matches_total.
Qed.

Lemma rsafe_server_type_filter t : rsafe (findservers_server_type_filter_matches t) (λ _, True).
Proof.
  unfold findservers_server_type_filter_matches; apply rsafe_get; intros r _; apply rsafe_if; intros _; [by apply rsafe_ret|].
  apply rsafe_if; intros _; [by apply rsafe_fail|]; eapply rsafe_bind; [apply rsafe_read_int32|intros count _].
  apply rsafe_if; intros _; [by apply rsafe_fail|]; apply rsafe_if; intros _; [by apply rsafe_ret|].
  eapply rsafe_filter_loop; [apply rsafe_read_uint32|]; eauto.
Qed.

Lemma rsafe_profile_filter ep : rsafe (endpoint_matches_profile_filter ep) (λ _, True).
Proof.
  unfold endpoint_matches_profile_filter; eapply rsafe_bind; [apply rsafe_read_int32|intros count _].
  apply rsafe_if; intros _; [by apply rsafe_ret|]; eapply rsafe_filter_loop; [apply rsafe_read_string|].
  intros; by apply string_matches_total.
Qed.

Lemma rsafe_validate_profiles : rsafe validate_get_endpoints_profile_uris_body (λ _, True).
Proof.
  unfold validate_get_endpoints_profile_uris_body; eapply rsafe_bind; [apply rsafe_read_int32|intros count _].
  apply rsafe_if; intros _; [by apply rsafe_fail|]; eapply rsafe_bind; [apply rsafe_rd_list, rsafe_read_string|intros ? _; by apply rsafe_ret].
Qed.

Lemma rsafe_rewind {A} (m : Rd A) Q : rsafe m Q → rsafe (rewind m) Q.
Proof.
  intros Hm r Hr; destruct (Hm r Hr) as [Hs Ho]; unfold rewind; destruct (m r) as [[a|e|] r']; cbn in *; [|by split..].
  split; [|done]; split; [exact Hr|done|done|done].
Qed.

Lemma rsafe_filter_endpoints url eps : wire_string url → Forall endpoint_ok eps → rsafe (filter_endpoints url eps) (Forall endpoint_ok).
Proof.
  intros Hu; induction 1 as [|ep eps Hep Heps IH]; cbn [filter_endpoints]; [by apply rsafe_ret|].
  eapply rsafe_bind; [apply rsafe_rewind, rsafe_profile_filter|intros matches _].
  assert (∃ b, (if matches : bool then getendpoints_endpoint_matches url ep else Some false) = Some b) as [b E].
  { destruct matches; [|eauto]; unfold getendpoints_endpoint_matches; split_if; [eauto|by apply string_matches_total]. }
  apply rsafe_lift; exists b; split; [exact E|]; eapply rsafe_bind; [exact IH|]; intros rest Hrest; apply rsafe_ret.
  destruct b; [by constructor|done].
Qed.

(** ** The server *)

(** The parts of the server state are independent of each other. *)
Class SessionHostLaws (W Rest : Type) `{ConfigHost W Rest} `{ChannelHost Rest} `{SubscriptionHost Rest} := {
  sh_config_laws :: ConfigHostLaws W Rest;
  sh_engine_laws :: SubscriptionHostLaws Rest;
  sh_opn_get x : host_set_opn x (host_opn x) = x;
  sh_opn_world x w : host_opn (host_set_world x w) = host_opn x;
  sh_engine_world x w : host_engine (host_set_world x w) = host_engine x;
  sh_opn_engine x e : host_opn (host_set_engine x e) = host_opn x;
  sh_config_engine x e : host_config (host_set_engine x e) = host_config x;
  sh_world_engine x e : host_world (host_set_engine x e) = host_world x;
  sh_comm x e w : host_set_world (host_set_engine x e) w = host_set_engine (host_set_world x w) e
}.

(** The parameters of an OPN message are strings, and the certificate buffer
    has its size. *)
Record opn_ok (o : opn_state) : Prop := {
  oo_policy : string_ok (opn_pending_security_policy o);
  oo_cert : string_ok (opn_pending_client_cert o);
  oo_buffer : zlen (channel_client_cert o) = MU_MAX_CLIENT_CERT_SIZE ∧ bytes_ok (channel_client_cert o);
  oo_len : 0 ≤ channel_client_cert_len o ≤ MU_MAX_CLIENT_CERT_SIZE
}.

Record slot_good (x : mu_session_t) : Prop := {
  sg_nonce : zlen (ss_server_nonce x) = 32;
  sg_octets : bytes_ok (ss_server_nonce x);
  sg_session_id : u32_range (ss_session_id x);
  sg_auth_token : u32_range (ss_auth_token x)
}.

Section safety.
  Context {auth : AuthProfile} {profile : BaseProfile} {pub : PublishProfile} {caps : BuildCaps} {Hcaps : BuildCapsOk caps}.
  Context {features : ServiceFeatures} {W Rest : Type} {config_host : ConfigHost W Rest} {channel_host : ChannelHost Rest}.
  Context {subscription_host : SubscriptionHost Rest} {laws : SessionHostLaws W Rest}.
  Context (sys : RsaSystem) (crypto : crypto_functions W) (own : list Z).
  Context {contract : CryptoContract crypto} {rsa : RsaContract sys crypto own}.

(** The invariant of these services. *)
Record conn_ok (s : mu_server_t Rest) : Prop := {
  co_config : config_ok sys crypto own (host_config (sv_rest s));
  co_opn : opn_ok (host_opn (sv_rest s));
  co_table : table_inv (sv_sessions s);
  co_size : zlen (sv_sessions s) = MU_MAX_SESSIONS;
  co_slots : Forall slot_good (sv_sessions s);
  co_active slot : sv_active_session s = Some slot → 0 ≤ slot < MU_MAX_SESSIONS;
  co_keys : keys_ready (sc_client_keys (sv_secure_channel s)) ∧ keys_ready (sc_server_keys (sv_secure_channel s));
  co_engine : engine_good (host_engine (sv_rest s))
}.

(** What they may change: the channel but for its policy, the sessions, the
    engine and the state of the adapters. *)
Record conn_frame (s s' : mu_server_t Rest) : Prop := {
  cf_space : sv_address_space s' = sv_address_space s;
  cf_index : sv_user_index s' = sv_user_index s;
  cf_runtime : sv_runtime_space s' = sv_runtime_space s;
  cf_references : sv_dynamic_references s' = sv_dynamic_references s;
  cf_handler : sv_write_handler s' = sv_write_handler s;
  cf_writes : sv_writes s' = sv_writes s;
  cf_policy : sc_policy (sv_secure_channel s') = sc_policy (sv_secure_channel s);
  cf_rest : ∃ w e, sv_rest s' = host_set_engine (host_set_world (sv_rest s) w) e
}.

#[local] Instance conn_frame_preorder : PreOrder conn_frame.
Proof.
  split.
  - intros s; split; try done; exists (host_world (sv_rest s)), (host_engine (sv_rest s)).
    by rewrite host_world_get, host_set_get.
  - intros a b c [E1 E2 E3 E4 E5 E6 E8 (w & e & E7)] [F1 F2 F3 F4 F5 F6 F8 (w' & e' & F7)]; split; try congruence.
    exists w', e'; rewrite F7, E7, sh_comm, host_world_set_set, host_set_set; done.
Qed.

Abbreviation ctriple := (triple conn_ok conn_frame (λ _, True)).
Abbreviation c_read := (triple_read conn_ok conn_frame).
Abbreviation c_write := (triple_write conn_ok conn_frame).
Abbreviation c_server := (triple_server conn_ok conn_frame).
Abbreviation c_bind := (triple_bind conn_ok conn_frame).
Abbreviation c_finish := (triple_finish conn_ok conn_frame).
Abbreviation cstriple := (striple conn_ok conn_frame).

(** A step on the server that keeps a good engine and everything the
    invariant does not read. *)
Lemma conn_world s w : conn_ok s → conn_ok (set_rest s (host_set_world (sv_rest s) w)).
Proof.
  intros []; split; cbn; rewrite ?host_config_set, ?sh_opn_world, ?sh_engine_world; done.
Qed.

Lemma conn_world_frame s w : conn_frame s (set_rest s (host_set_world (sv_rest s) w)).
Proof.
  split; try done; exists w, (host_engine (sv_rest s)); cbn.
  by rewrite <- (sh_engine_world _ w), host_set_get.
Qed.

(** A use of the adapters; [P] does not read their state. *)
Lemma striple_world {A} (P : mu_server_t Rest → Prop) (m : mu_server_config_t W → M W A) (Q : A → Prop) :
  (∀ s w, P s → P (set_rest s (host_set_world (sv_rest s) w))) →
  (∀ cfg, config_ok sys crypto own cfg → delivers (m cfg) Q) → cstriple P (world m) (λ a s, P s ∧ Q a).
Proof.
  intros HP Hm s Hs Hp; specialize (Hm _ (co_config s Hs) (host_world (sv_rest s))); unfold world.
  destruct (m _ _) as [x w]; cbn [fst snd] in *; change (mk_server _ _ _ _ _ _ _ _ _ _) with (set_rest s (host_set_world (sv_rest s) w)).
  split; [by apply conn_world|]; split; [apply conn_world_frame|]; destruct x; cbn in *; [split; [by apply HP|done]|done|done].
Qed.

Lemma striple_draw {A} (P : mu_server_t Rest → Prop) (f : entropy_t → result A) (Q : A → Prop) :
  (∀ s w, P s → P (set_rest s (host_set_world (sv_rest s) w))) →
  (∀ e, entropy_ok e → outcome_ok Q (f e)) → cstriple P (draw f) (λ a s, P s ∧ Q a).
Proof.
  intros HP Hf; apply striple_world; [done|]; intros cfg Hcfg w; pose proof (cok_entropy _ _ _ _ Hcfg) as He.
  destruct (cfg_entropy cfg) as [next|]; [specialize (He next w eq_refl); destruct (next w); by apply Hf|by apply Hf].
Qed.

(** Steps whose result only says something about itself. *)
Lemma c_pure {A B} (m : M (mu_server_t Rest) A) (φ : A → Prop) (k : A → H Rest B) Q :
  cstriple (λ _, True) m (λ a _, φ a) → (∀ a, φ a → ctriple (k a) Q) → ctriple (sv m ≫= k) Q.
Proof. intros Hm Hk; eapply c_server; [exact Hm|]; intros a st Hst Ha; by apply Hk. Qed.

Lemma c_world {A B} (m : mu_server_config_t W → M W A) (φ : A → Prop) (k : A → H Rest B) Q :
  (∀ cfg, config_ok sys crypto own cfg → delivers (m cfg) φ) → (∀ a, φ a → ctriple (k a) Q) → ctriple (sv (world m) ≫= k) Q.
Proof.
  intros Hm; apply c_pure; eapply striple_conseq; [by apply (striple_world (λ _, True))|done|]; by intros a s [_ ?].
Qed.

(** Reading the state. *)
Lemma striple_read {A} P (f : mu_server_t Rest → result A) Q : (∀ s, conn_ok s → P s → outcome_ok (λ a, Q a s) (f s)) →
  cstriple P (λ s, (f s, s)) Q.
Proof. intros Hf s Hs HP; split; [done|]; split; [reflexivity|by apply Hf]. Qed.

Lemma generate_nonce_ok e n : 0 ≤ n → entropy_ok e → outcome_ok (λ b, zlen b = n ∧ bytes_ok b) (mu_session_generate_server_nonce e n).
Proof.
  intros Hn He; unfold mu_session_generate_server_nonce; destruct e as [f|]; [|done]; split_if; [done|].
  pose proof (He f n eq_refl Hn) as Hf; by destruct (f n).
Qed.

(** ** Discovery *)

Lemma own_certificate_ok cfg : config_ok sys crypto own cfg → delivers (own_certificate cfg) cstring_ok.
Proof.
  intros Hc ctx; unfold own_certificate; destruct (cok_crypto _ _ _ _ Hc) as [->| ->]; [done|].
  destruct (rsa_own (crypto := crypto)) as (f & -> & Hf); specialize (Hf ctx); unfold or_default, mbind, M_bind.
  destruct (f ctx) as [[c|e|] ctx']; cbn in *; [subst c|done|done].
  split; [apply (rsa_own_octets (crypto := crypto))|apply Hc].
Qed.

Lemma const_cstring d : forallb (λ x, (0 <=? x) && (x <? 256)) d = true → (zlen d <=? PTRDIFF_MAX) = true → cstring_ok (Some d).
Proof. intros Hb Hl; split; [by apply bytes_okb|by apply Z.leb_le]. Qed.

Lemma policy_uri_cstring p : cstring_ok (mu_security_policy_uri p).
Proof. destruct p; try exact Logic.I; apply const_cstring; vm_compute; reflexivity. Qed.

Lemma application_description_ok cfg : config_ok sys crypto own cfg → application_ok (mu_discovery_get_application_description cfg).
Proof. by intros []. Qed.

Lemma fill_endpoint_ok cfg mode p cert level : config_ok sys crypto own cfg → cstring_ok cert → u8_range level →
  endpoint_ok (fill_endpoint cfg mode (mu_security_policy_uri p) cert level).
Proof.
  intros Hc Hcert Hl; split; cbn; try done.
  - apply Hc.
  - by apply application_description_ok.
  - apply policy_uri_cstring.
  - constructor; [split_and!; try done; by apply const_cstring|]; split_if; [|by constructor].
    constructor; [split_and!; try done; by apply const_cstring|by constructor].
  - apply const_cstring; vm_compute; reflexivity.
Qed.

Lemma get_endpoints_ok cfg max : config_ok sys crypto own cfg →
  delivers (mu_discovery_get_endpoints cfg max) (Forall endpoint_ok).
Proof.
  intros Hc ctx; unfold mu_discovery_get_endpoints; split_if; [done|]; pose proof (own_certificate_ok cfg Hc ctx) as Hcert.
  unfold mbind, M_bind; destruct (own_certificate cfg ctx) as [[cert|e|] ctx']; cbn [fst outcome_ok] in *; [|done|done].
  constructor; [by apply fill_endpoint_ok|]; destruct cert as [c|]; [|constructor].
  apply Forall_take; unfold secured_endpoints; repeat (apply Forall_cons_iff; split); [by apply fill_endpoint_ok..|constructor].
Qed.

Lemma handle_get_endpoints_safe : ctriple handle_get_endpoints (λ _ _, True).
Proof.
  unfold handle_get_endpoints; eapply c_read; [apply rsafe_request_header_decode|intros req _].
  eapply c_read; [apply rsafe_read_string|intros url Hurl]; eapply c_read; [apply rsafe_locale_ids|intros locale Hlocale].
  eapply c_read; [apply rsafe_rewind, rsafe_validate_profiles|intros ? _].
  eapply c_world; [intros cfg Hcfg; by apply get_endpoints_ok|]; intros eps Heps; eapply c_read; [apply rsafe_filter_endpoints; [done|by apply Forall_take]|intros selected Hsel].
  eapply c_write; [apply wsafe_write_response_prefix; by ranges|intros _]; eapply c_write; [apply wsafe_write_int32|intros _].
  eapply c_write; [apply wsafe_wr_list; eapply Forall_impl; [exact Hsel|]; intros; by apply wsafe_endpoint_locale|intros _].
  apply c_finish.
Qed.

Lemma handle_find_servers_safe : ctriple handle_find_servers (λ _ _, True).
Proof.
  unfold handle_find_servers; eapply c_read; [apply rsafe_request_header_decode|intros req _].
  eapply c_read; [apply rsafe_read_string|intros url Hurl]; eapply c_read; [apply rsafe_locale_ids|intros locale Hlocale].
  eapply (c_pure _ (config_ok sys crypto own)); [apply striple_read; intros s Hs _; apply Hs|]; intros cfg Hcfg; pose proof (application_description_ok cfg Hcfg) as Happ; set (app := mu_discovery_get_application_description cfg) in *.
  eapply c_read; [apply rsafe_server_uri_filter|intros b1 _]; eapply c_read; [apply rsafe_server_type_filter|intros b2 _].
  assert (∃ b, findservers_endpoint_matches url (app_discovery_url app) = Some b) as [b Eb].
  { unfold findservers_endpoint_matches; split_if; [eauto|by apply string_matches_total]. }
  rewrite Eb; eapply c_server; [by apply (striple_ret conn_ok conn_frame _ b (λ _ _, True))|intros b3].
  eapply c_write; [apply wsafe_write_response_prefix; by ranges|intros _]; eapply c_write; [apply wsafe_write_int32|intros _].
  eapply (c_bind (λ _, True) _ _ (λ _ _, True)); [|intros _; apply c_finish]; split_if; [|by apply (triple_ret conn_ok conn_frame)].
  apply (triple_wr conn_ok conn_frame (λ _, True)); by apply wsafe_application_locale.
Qed.

(** ** Key sets *)

(** Operations on a key set, and on the channel, that keep them ready. *)
Definition kset {A} (m : M (W * mu_sym_keys_t) A) : Prop :=
  ∀ w k, keys_ready k → outcome_ok (λ _, True) (m (w, k)).1 ∧ keys_ready (m (w, k)).2.2.

Definition channel_ready (c : mu_secure_channel_t) : Prop := keys_ready (sc_client_keys c) ∧ keys_ready (sc_server_keys c).

Definition kchan {A} (m : M (W * mu_secure_channel_t) A) : Prop :=
  ∀ w c, channel_ready c →
    outcome_ok (λ _, True) (m (w, c)).1 ∧ channel_ready (m (w, c)).2.2 ∧ sc_policy (m (w, c)).2.2 = sc_policy c.

Lemma kchan_bind {A B} (m : M (W * mu_secure_channel_t) A) (k : A → M (W * mu_secure_channel_t) B) :
  kchan m → (∀ a, kchan (k a)) → kchan (m ≫= k).
Proof.
  intros Hm Hk w c Hc; destruct (Hm w c Hc) as (Ho & Hc' & <-); unfold mbind, M_bind.
  destruct (m (w, c)) as [[a|e|] [w' c']]; cbn in *; [by apply Hk|by split|done].
Qed.

Lemma kchan_client {A} (m : M (W * mu_sym_keys_t) A) : kset m → kchan (client_keys m).
Proof.
  intros Hm w c [H1 H2]; destruct (Hm w _ H1) as [Ho Hk]; unfold client_keys; cbn [fst snd].
  destruct (m _) as [x [w' k]]; cbn in *; by split.
Qed.

Lemma kchan_server {A} (m : M (W * mu_sym_keys_t) A) : kset m → kchan (server_keys m).
Proof.
  intros Hm w c [H1 H2]; destruct (Hm w _ H2) as [Ho Hk]; unfold server_keys; cbn [fst snd].
  destruct (m _) as [x [w' k]]; cbn in *; by split.
Qed.

Lemma kset_derive policy secret slen seed sdlen : (∃ x, mem_load secret 0 slen = Some x) → (∃ x, mem_load seed 0 sdlen = Some x) →
  kset (mu_sym_keys_derive crypto policy (Some secret) slen (Some seed) sdlen).
Proof.
  intros [sec Es] [sd Ed] w k _; destruct (Z.leb_spec sdlen MU_KDF_MAX_SEED) as [Hl|Hl].
  - pose proof (keys_derive_exact crypto policy secret slen seed sdlen sec sd w k Es Ed Hl) as H.
    destruct (mu_sym_keys_derive _ _ _ _ _ _ _) as [[x|e|] [w' k']]; destruct H as [H _]; cbn; 
      [subst k'|destruct H as [He ->]|done].
    + destruct (derived_sizes policy (P_SHA256 sec sd (material_length policy))) as [H1 H2]; [|by split_and!].
      destruct (policy_lengths policy) as (Hs & He & Hi); rewrite (proj1 (P_SHA256_octets sec sd (material_length policy) ltac:(unfold material_length; lia))); lia.
    + destruct (derived_sizes policy (repeat 0 96)) as [H1 H2]; [|by split_and!].
      destruct (policy_lengths policy) as (Hs & Hk & Hi); rewrite zlen_repeat; unfold material_length; lia.
  - destruct (policy_lengths policy) as (Hs & He & Hi); unfold mu_sym_keys_derive; cbv zeta; rewrite (proj2 (Z.ltb_ge _ _)) by lia.
    destruct (cc_hmac (crypto := crypto)) as (f & Ef & _).
    assert (Ep : ∀ n, mu_p_sha256 crypto (Some secret) slen (Some seed) sdlen n = fail MU_STATUS_BAD_INTERNALERROR).
    { intros n; unfold mu_p_sha256; rewrite Ef; by rewrite (proj2 (Z.ltb_lt _ _)) by lia. }
    rewrite Ep; by split_and!.
Qed.

Lemma kset_prepare present : kset (mu_sym_keys_prepare_cipher crypto present).
Proof.
  intros w k (Hkl & Hil & _); unfold mu_sym_keys_prepare_cipher; cbv zeta; set (adapter := if present then _ else _).
  assert (Er : ∃ w', release_cipher crypto (w, k) =
    (Ok tt, (w', mk_sym_keys (sk_policy k) (sk_signing_key k) (sk_encrypting_key k) (sk_iv k) (sk_cipher_ctx k) None false))).
  { unfold release_cipher, mu_sym_keys_release_cipher; cbn [snd fst]; destruct (match sk_crypto k with Some _ => _ | None => _ end);
      [|destruct (cf_cipher_ctx_free crypto)]; [eexists; reflexivity| |eexists; reflexivity]; destruct (m l w) as [? w']; by exists w'. }
  destruct Er as [w' Er]; rewrite (bind_ok _ _ _ _ _ Er); clear Er; rewrite (bind_ok get_state _ _ _ _ eq_refl); cbn [snd].
  split_if; [by split_and!|]; destruct (if present then cf_cipher_ctx_init crypto else None) as [init|] eqn:Ei; [|by split_and!].
  assert (Hi : cf_cipher_ctx_init crypto = Some init) by (by destruct present).
  pose proof (cc_init (crypto := crypto) init (sk_encrypting_key k) (sk_cipher_ctx k) Hi Hkl w') as Hc; unfold init_cipher; cbn [fst snd sk_encrypting_key sk_cipher_ctx].
  destruct (init _ _ w') as [[storage|e|] w'']; cbn in *; [by split_and!|by split_and!|done].
Qed.

Lemma kchan_derive_keys policy nonce client_nonce : zlen nonce = 32 → wire_string client_nonce →
  kchan (derive_keys crypto policy nonce client_nonce).
Proof.
  intros Hn Hc; unfold derive_keys; cbv zeta; destruct Hc as [->|(d & -> & -> & Hd & Hl)]; [by intros w c Hw|].
  pose proof (zlen_nonneg d); rewrite Z.max_r by lia; split_if; [by intros w c Hw|].
  assert (∃ x, mem_load nonce 0 MU_SERVER_NONCE_LENGTH = Some x) by (eexists; apply mem_load_Some; unfold MU_SERVER_NONCE_LENGTH; lia).
  assert (∃ x, mem_load d 0 (zlen d) = Some x) by (eexists; apply mem_load_Some; lia).
  apply kchan_bind; [by apply kchan_client, kset_derive|intros _]; apply kchan_bind; [by apply kchan_server, kset_derive|intros _].
  apply kchan_bind; [by intros w c Hw|intros _].
  apply kchan_bind; [apply kchan_client, kset_prepare|intros _]; apply kchan_server, kset_prepare.
Qed.

(** ** OpenSecureChannel *)

Lemma conn_set_channel s c : conn_ok s → channel_ready c → conn_ok (set_channel s c).
Proof. by intros [] Hc; split. Qed.

(** A step that leaves the rest of the server alone. *)
Lemma frame_same (s s' : mu_server_t Rest) : sv_address_space s' = sv_address_space s → sv_user_index s' = sv_user_index s →
  sv_runtime_space s' = sv_runtime_space s → sv_dynamic_references s' = sv_dynamic_references s →
  sv_write_handler s' = sv_write_handler s → sv_writes s' = sv_writes s →
  sc_policy (sv_secure_channel s') = sc_policy (sv_secure_channel s) → sv_rest s' = sv_rest s → conn_frame s s'.
Proof.
  intros; split; try done; exists (host_world (sv_rest s)), (host_engine (sv_rest s)).
  by rewrite host_world_get, host_set_get.
Qed.

Lemma striple_channel {A} P (m : M mu_secure_channel_t A) Q :
  (∀ s, conn_ok s → P s → channel_ready (m (sv_secure_channel s)).2 ∧ sc_policy (m (sv_secure_channel s)).2 = sc_policy (sv_secure_channel s) ∧
     outcome_ok (λ a, Q a (set_channel s (m (sv_secure_channel s)).2)) (m (sv_secure_channel s)).1) → cstriple P (channel m) Q.
Proof.
  intros Hm s Hs HP; specialize (Hm s Hs HP); unfold channel; destruct (m _) as [x c]; cbn [fst snd] in *; destruct Hm as (Hc & Hp & Hx).
  split; [by apply conn_set_channel|]; split; [by apply frame_same|done].
Qed.

Lemma striple_channel_world {A} (m : M (W * mu_secure_channel_t) A) : kchan m → cstriple (λ _, True) (channel_world m) (λ _ _, True).
Proof.
  intros Hm s Hs _; destruct (Hm (host_world (sv_rest s)) _ (co_keys s Hs)) as (Ho & Hc & Hp); unfold channel_world.
  destruct (m _) as [x [w c]]; cbn [fst snd] in *.
  change (set_rest _ _) with (set_rest (set_channel s c) (host_set_world (sv_rest (set_channel s c)) w)).
  split; [by apply conn_world, conn_set_channel|]; split; [|done].
  transitivity (set_channel s c); [by apply frame_same|apply conn_world_frame].
Qed.

Lemma striple_opn {A} (f : opn_state → A) (φ : A → Prop) : (∀ o, opn_ok o → φ (f o)) →
  cstriple (λ _, True) (opn (λ o, (Ok (f o), o))) (λ a _, φ a).
Proof.
  intros Hf s Hs _; unfold opn; rewrite sh_opn_get.
  replace (mk_server _ _ _ _ _ _ _ _ _ _) with s by (by destruct s); split; [done|]; split; [reflexivity|]; apply Hf, Hs.
Qed.

Lemma open_keeps_keys policy mode lifetime c : outcome_ok (λ _, True) (mu_secure_channel_open policy mode lifetime c).1 ∧
  sc_client_keys (mu_secure_channel_open policy mode lifetime c).2 = sc_client_keys c ∧
  sc_server_keys (mu_secure_channel_open policy mode lifetime c).2 = sc_server_keys c ∧
  sc_policy (mu_secure_channel_open policy mode lifetime c).2 = sc_policy c.
Proof.
  unfold mu_secure_channel_open; destruct (check_open _ _ _) as [[]|e|] eqn:E; [|split_and!; try done|].
  - destruct (negb (sc_is_open c)); by split_and!.
  - unfold check_open in E; repeat case_match; by simplify_eq.
  - unfold check_open in E; repeat case_match; by simplify_eq.
Qed.

Lemma match_entries_total entries cert n : Forall (λ e, e.2 ≤ zlen e.1) entries → 0 ≤ n ≤ zlen cert →
  outcome_ok (λ _, True) (match_entries entries cert n).
Proof.
  intros He Hn; induction He as [|[c k] entries Hc He IH]; cbn [match_entries]; [done|]; split_if; [|done]; bool_hyps; cbn in Hc.
  rewrite !mem_load_Some by lia; cbn; by split_if.
Qed.

Lemma striple_trust : cstriple (λ _, True) check_trust (λ _ _, True).
Proof.
  apply (striple_read _ _ (λ _ _, True)); intros s Hs _; cbv zeta; split_if; [done|].
  destruct (cfg_trust_list _) as [tl|] eqn:Et; [|done]; pose proof (cok_trust _ _ _ _ (co_config s Hs) tl Et) as Htl.
  split_if; [done|]; bool_hyps; destruct (oo_cert _ (co_opn s Hs)) as [Hcert _].
  set (cert := opn_pending_client_cert _) in *; destruct (str_data cert) as [d|]; [destruct Hcert as [Hcert _]|lia].
  unfold mu_trust_list_match; split_if; [done|].
  pose proof (match_entries_total _ d (str_length cert) Htl ltac:(lia)) as Hm.
  by destruct (match_entries _ _ _).
Qed.

Lemma opn_nonce_ok e : entropy_ok e → outcome_ok (λ b, zlen b = 32 ∧ bytes_ok b) (opn_nonce e).
Proof. intros He; unfold opn_nonce; destruct e as [f|]; [|done]; pose proof (He f MU_SERVER_NONCE_LENGTH eq_refl ltac:(done)) as Hf; by destruct (f _). Qed.

Lemma read_clock_ok (cfg : mu_server_config_t W) : delivers (read_clock cfg) (λ _, True).
Proof. intros w; unfold read_clock; destruct (cfg_get_time cfg) as [get|]; [by destruct (get w)|done]. Qed.

(** Reading the channel or the configuration. *)
Lemma c_channel {B} (k : mu_secure_channel_t → H Rest B) Q : (∀ c, ctriple (k c) Q) → ctriple (sv the_channel ≫= k) Q.
Proof. intros Hk; eapply (c_pure _ (λ _, True)); [by apply striple_read|done]. Qed.

Lemma c_config {B} (k : mu_server_config_t W → H Rest B) Q : (∀ cfg, config_ok sys crypto own cfg → ctriple (k cfg) Q) →
  ctriple (sv config ≫= k) Q.
Proof. intros Hk; eapply c_pure; [apply (striple_read _ _ (λ cfg _, config_ok sys crypto own cfg)); intros s Hs _; apply Hs|done]. Qed.

Lemma server_nonce_ok nonce : zlen nonce = 32 → bytes_ok nonce → string_ok (mk_string MU_SERVER_NONCE_LENGTH (Some nonce)).
Proof. intros Hl Hb; split; [cbn; unfold MU_SERVER_NONCE_LENGTH; split; [lia|done]|by ranges]. Qed.

Lemma c_draw {A B} (f : entropy_t → result A) (φ : A → Prop) (k : A → H Rest B) Q :
  (∀ e, entropy_ok e → outcome_ok φ (f e)) → (∀ a, φ a → ctriple (k a) Q) → ctriple (sv (draw f) ≫= k) Q.
Proof.
  intros Hf; apply c_pure; eapply striple_conseq; [by apply (striple_draw (λ _, True))|done|]; by intros a s [_ ?].
Qed.

Lemma c_unchecked {B} (m : Wr unit) (k : unit → H Rest B) Q : wsafe m → (∀ x, ctriple (k x) Q) → ctriple (wr (or_default tt m) ≫= k) Q.
Proof. intros Hm Hk; apply c_write; [by apply wsafe_unchecked|done]. Qed.

Lemma handle_open_secure_channel_safe : ctriple handle_open_secure_channel (λ _ _, True).
Proof.
  unfold handle_open_secure_channel; eapply c_read; [apply rsafe_request_header_decode|intros req _].
  do 3 (eapply c_read; [apply rsafe_default_u32|intros ? _]); eapply c_read; [apply rsafe_reader_status|intros _ _].
  eapply c_read; [apply rsafe_read_bytestring|intros client_nonce Hcn]; eapply c_read; [apply rsafe_default_u32|intros lifetime _].
  eapply c_read; [apply rsafe_reader_status|intros _ _]; eapply c_draw; [apply opn_nonce_ok|intros nonce [Hn Hb]].
  eapply c_pure; [apply (striple_opn _ string_ok), oo_policy|intros policy _].
  eapply (c_pure _ (λ _, True)); [apply striple_channel; intros s Hs _|intros revised _].
  { destruct (open_keeps_keys (Some policy) a1 lifetime (sv_secure_channel s)) as (Ho & E1 & E2 & E3).
    split; [|done]; unfold channel_ready; rewrite E1, E2; apply Hs. }
  eapply (c_pure _ (λ _, True)); [apply striple_trust|intros _ _].
  eapply c_write; [apply wsafe_write_response_prefix; by ranges|intros _].
  eapply c_world; [intros cfg _; apply read_clock_ok|intros now _]; apply c_channel; intros c.
  do 5 (eapply c_unchecked; [auto with wsafe|intros _]); eapply c_write; [apply wsafe_writer_status|intros _].
  eapply c_write; [by apply wsafe_write_bytestring, server_nonce_ok|intros _].
  eapply (c_pure _ (λ _, True)); [apply striple_channel; intros s Hs _; split; [apply Hs|by split]|intros _ _].
  apply c_config; intros cfg Hcfg; eapply (c_bind (λ _, True) _ _ (λ _ _, True)); [|intros _; apply c_finish].
  destruct (cok_crypto _ _ _ _ Hcfg) as [->| ->]; [by apply (triple_ret conn_ok conn_frame)|].
  split_if; [|by apply (triple_ret conn_ok conn_frame)].
  by apply (triple_sv conn_ok conn_frame), striple_channel_world, kchan_derive_keys.
Qed.
End safety.
