(* ===== verification/MethodsSafety.v ===== *)
(** * Safety of Call and TranslateBrowsePathsToNodeIds

    Whatever a request holds, the two handlers stay inside their memory, and
    change nothing of the server but the lookup index, the state of the
    adapters and the subscription engine, which stays well formed. *)

From S2P Require Export Methods SessionServiceSafety.

Class MethodHostLaws (W Rest : Type) `{ConfigHost W Rest} `{SubscriptionHost Rest} `{MethodHost W Rest} := {
  mh_world x w : host_methods (host_set_world x w) = host_methods x;
  mh_engine x e : host_methods (host_set_engine x e) = host_methods x
}.

(** A callback of the integrator delivers values that can be encoded, when it
    is called with nodes and arguments as they are decoded. *)
Definition method_ok {W} (callback : mu_method_callback_t W) : Prop := ∀ object_id method_id args w,
  nodeid_ok object_id → nodeid_ok method_id → Forall (wire_variant zero_variant) args →
  match (callback object_id method_id args w).1 with
  | Ok outputs => Forall variant_ok outputs
  | Err _ => True
  | Fault => False
  end.

(** What the handlers read of a node. *)
Definition node_named (node : mu_node_t) : Prop := nodeid_ok (node_node_id node) ∧ string_ok (node_browse_name node).

Section safety.
  Context {profile : BaseProfile} {pub : PublishProfile} {caps : BuildCaps} {Hcaps : BuildCapsOk caps} {methods : MethodProfile}.
  Context {W Rest : Type} {config_host : ConfigHost W Rest} {channel_host : ChannelHost Rest} {subscription_host : SubscriptionHost Rest}.
  Context {method_host : MethodHost W Rest} {laws : SessionHostLaws W Rest} {method_laws : MethodHostLaws W Rest}.

Record method_server_ok (s : mu_server_t Rest) : Prop := {
  mo_sub : sub_server_ok s;
  mo_nodes sp : sv_address_space s = Some sp → Forall (λ n, node_links_ok n ∧ node_named n) (space_nodes sp);
  mo_methods : Forall (λ m, method_ok m.2) (host_methods (sv_rest s))
}.

Record method_frame (s s' : mu_server_t Rest) : Prop := {
  mf_channel : sv_secure_channel s' = sv_secure_channel s;
  mf_sessions : sv_sessions s' = sv_sessions s;
  mf_active : sv_active_session s' = sv_active_session s;
  mf_space : sv_address_space s' = sv_address_space s;
  mf_runtime : sv_runtime_space s' = sv_runtime_space s;
  mf_dynamic : sv_dynamic_references s' = sv_dynamic_references s;
  mf_handler : sv_write_handler s' = sv_write_handler s;
  mf_writes : sv_writes s' = sv_writes s;
  mf_rest : ∃ w e, sv_rest s' = host_set_engine (host_set_world (sv_rest s) w) e
}.

#[local] Instance method_frame_preorder : PreOrder method_frame.
Proof.
  split.
  - intros s; split; try done; exists (host_world (sv_rest s)), (host_engine (sv_rest s)); by rewrite host_world_get, host_set_get.
  - intros a b c [? ? ? ? ? ? ? ? (w & e & E)] [? ? ? ? ? ? ? ? (w' & e' & F)]; split; try congruence.
    exists w', e'; rewrite F, E, sh_comm, host_world_set_set, host_set_set; done.
Qed.

Abbreviation mtriple := (triple method_server_ok method_frame (λ _, True)).
Abbreviation mstriple := (striple method_server_ok method_frame (λ _, True)).
Abbreviation m_read := (triple_read method_server_ok method_frame).
Abbreviation m_write := (triple_write method_server_ok method_frame).
Abbreviation m_bind := (triple_bind method_server_ok method_frame).
Abbreviation m_finish := (triple_finish method_server_ok method_frame).

(** What the subscription services may do, these may. *)
Lemma method_engine s s' : method_server_ok s → sub_server_ok s' → engine_frame s s' → method_server_ok s' ∧ method_frame s s'.
Proof.
  intros [Hs Hn Hm] Hs' [Ec Es Ea Eu Er Ed Eh Ew Et]; split; [split; [done|by rewrite Eu|by rewrite Et, mh_engine]|].
  split; try done; exists (host_world (sv_rest s)), (server_engine s'); by rewrite host_world_get.
Qed.

Lemma mstriple_engine {A} (m : M (mu_server_t Rest) A) Q :
  striple sub_server_ok engine_frame (λ _, True) m (λ a _, Q a) → mstriple m (λ a _, Q a).
Proof.
  intros Hm s Hs _; destruct (Hm s (mo_sub s Hs) I) as (Hs' & Hf & Ho); destruct (method_engine _ _ Hs Hs' Hf); by split_and!.
Qed.

Lemma mstriple_bind {A B} (m : M (mu_server_t Rest) A) (φ : A → Prop) (k : A → M (mu_server_t Rest) B) Q :
  mstriple m (λ a _, φ a) → (∀ a, φ a → mstriple (k a) Q) → mstriple (m ≫= k) Q.
Proof.
  intros Hm Hk; apply (striple_bind method_server_ok method_frame _ _ _ (λ a _, φ a)); [done|].
  intros a; cbv beta; apply (striple_pure method_server_ok method_frame); apply Hk.
Qed.

Lemma mstriple_ret {A} (a : A) (φ : A → Prop) : φ a → mstriple (mret a) (λ a _, φ a).
Proof. intros; by apply (striple_ret method_server_ok method_frame). Qed.

Lemma mtriple_sv {A B} (m : M (mu_server_t Rest) A) (φ : A → Prop) (k : A → H Rest B) Q :
  mstriple m (λ a _, φ a) → (∀ a, φ a → mtriple (k a) Q) → mtriple (sv m ≫= k) Q.
Proof.
  intros Hm Hk; eapply (triple_server method_server_ok method_frame); [exact Hm|]; intros a; cbv beta; apply (triple_pure method_server_ok method_frame); apply Hk.
Qed.

(** ** Lookups *)

Definition found_ok (node : option mu_node_t) : Prop := ∀ n, node = Some n → node_links_ok n ∧ node_named n.

Lemma find_user_ok id : nodeid_ok id → mstriple (find_user_node id) (λ node _, found_ok node).
Proof.
  intros Hid s Hs _; pose proof Hs as [[Hctx Hu Hr He Hses] Hn Hm].
  destruct (resolve_user _ _ _ id Hctx Hid) as (ix & E & Hctx'); unfold find_user_node.
  destruct (sv_address_space s) as [sp|] eqn:Esp; [|by split_and!; [|reflexivity|]]; rewrite E; cbn [fst snd or_fault].
  destruct (method_engine s (set_user_index s ix) Hs) as [Hm' Hf'].
  { split; cbn; rewrite ?Esp; done. }
  { split; try done; unfold server_engine; cbn; by rewrite host_set_get. }
  split; [exact Hm'|]; split; [exact Hf'|]; cbn; intros n Hfound.
  apply (opt_lookup_elem (Some sp)) in Hfound as (sp' & [= <-] & Hin); specialize (Hn sp eq_refl); rewrite Forall_forall in Hn; auto.
Qed.

(** ** TranslateBrowsePathsToNodeIds *)

Lemma browse_name_equals_total s t : string_ok s → string_ok t → ∃ b, browse_name_equals s t = Some b.
Proof.
  intros [Hs _] [Ht _]; unfold browse_name_equals; destruct (Z.eqb_spec (str_length s) (str_length t)) as [E|]; cbn [negb]; [|eauto].
  destruct (Z.leb_spec (str_length s) 0); [eauto|]; destruct (str_data s) as [d|], (str_data t) as [e|]; try eauto.
  rewrite mem_load_Some by lia; cbn [mbind option_bind]; rewrite mem_load_Some by lia; cbn; eauto.
Qed.

Definition element_ok (x : mu_nodeid_t * bool * bool * mu_string_t) : Prop := string_ok x.2.

Lemma rsafe_path_element : rsafe read_path_element element_ok.
Proof.
  unfold read_path_element; eapply rsafe_bind; [apply rsafe_read_nodeid|intros id _].
  do 2 (eapply rsafe_bind; [apply (rsafe_or_default _ _ (λ _, True)); [done|apply rsafe_read_boolean]|intros ? _]).
  eapply rsafe_bind; [apply (rsafe_or_default _ _ (λ _, True)); [done|]; by eapply rsafe_mono; [apply rsafe_read_uint16|]|intros ? _].
  eapply rsafe_bind; [apply rsafe_reader_status|intros _ _]; eapply rsafe_bind; [apply rsafe_read_string|intros name Hn].
  apply rsafe_ret; by apply wire_string_ok.
Qed.

Lemma follow_ok element refs : element_ok element → Forall (λ r, nodeid_ok (ref_target_id r)) refs →
  mstriple (follow element refs) (λ node _, found_ok node).
Proof.
  intros He; induction 1 as [|r refs Hr _ IH]; destruct element as [[[type inverse] sub] name]; cbn [follow]; [by apply mstriple_ret|].
  cbv zeta; split_if; [exact IH|]; eapply mstriple_bind; [by apply find_user_ok|]; intros [node|] Hn; [|exact IH].
  destruct (Hn node eq_refl) as [_ [_ Hname]]; destruct (browse_name_equals_total _ _ Hname He) as [b Eb]; cbn [snd] in Eb; rewrite Eb.
  eapply (mstriple_bind _ (λ _, True)); [by apply (mstriple_ret b (λ _, True))|]; intros b' _; destruct b'; [by apply mstriple_ret|exact IH].
Qed.

Lemma follow_element_ok current element : element_ok element → found_ok current → mstriple (follow_element current element) (λ node _, found_ok node).
Proof.
  intros He Hc; unfold follow_element; destruct current as [node|]; [|by apply mstriple_ret].
  destruct (Hc node eq_refl) as [Hl _]; rewrite (load_refs_ok node Hl).
  eapply (mstriple_bind _ (λ refs, refs = node_refs node)); [by apply (mstriple_ret (node_refs node))|]; intros refs ->.
  apply follow_ok; [done|apply Hl].
Qed.

Lemma follow_path_ok n : ∀ current, found_ok current → mtriple (follow_path n current) (λ node _, found_ok node).
Proof.
  induction n as [|n IH]; intros current Hc; cbn [follow_path]; [by apply (triple_ret method_server_ok method_frame)|].
  eapply m_read; [apply rsafe_path_element|intros element He].
  eapply mtriple_sv; [by apply follow_element_ok|intros next Hn]; by apply IH.
Qed.

Lemma wsafe_path_result target : found_ok target → wsafe (write_path_result target).
Proof.
  intros Ht; unfold write_path_result; destruct target as [node|]; [destruct (Ht node eq_refl) as [_ [Hid _]]|];
    wsafe_auto; try apply wsafe_writer_status; apply wsafe_unchecked; auto with wsafe.
Qed.

Lemma translate_paths_ok n : mtriple (translate_paths n) (λ _ _, True).
Proof.
  induction n as [|n IH]; cbn [translate_paths]; [by apply (triple_ret method_server_ok method_frame)|].
  eapply m_read; [apply rsafe_read_nodeid|intros start Hstart]; eapply m_read; [apply rsafe_read_int32|intros c _].
  eapply m_read; [by apply rsafe_clamp_count|intros count _].
  eapply mtriple_sv; [by apply find_user_ok, wire_nodeid_ok|intros node Hn].
  eapply m_bind; [by apply follow_path_ok|intros target; cbv beta; apply (triple_pure method_server_ok method_frame); intros Ht].
  eapply m_write; [by apply wsafe_path_result|intros _; apply IH].
Qed.

Lemma handle_translate_safe : mtriple handle_translate_browse_paths (λ _ _, True).
Proof.
  unfold handle_translate_browse_paths; eapply m_read; [apply rsafe_request_header_decode|intros req _].
  eapply m_read; [apply rsafe_read_int32|intros c _]; eapply m_read; [by apply rsafe_clamp_count|intros count _].
  eapply m_write; [apply wsafe_write_response_prefix; by ranges|intros _]; eapply m_write; [apply wsafe_write_int32|intros _].
  eapply (m_bind _ _ _ (λ _ _, True)); [apply translate_paths_ok|intros _]; eapply m_write; [apply wsafe_write_int32|intros _; apply m_finish].
Qed.

(** ** Call *)

(** Results that can be encoded. *)
Definition call_result_ok (r : call_result) : Prop := Forall variant_ok r.2.

Lemma wsafe_call_result r : call_result_ok r → wsafe (write_call_method_result r.1.1 r.1.2 r.2).
Proof.
  intros Hr; unfold write_call_method_result.
  assert (wsafe (wr_list mu_binary_write_statuscode r.1.2)) by (apply wsafe_wr_list, Forall_forall; intros; apply wsafe_write_statuscode).
  assert (wsafe (wr_list mu_binary_write_variant r.2)) by (apply wsafe_wr_list; eapply Forall_impl; [exact Hr|apply wsafe_write_variant]).
  wsafe_auto.
Qed.

Lemma rsafe_call_arguments : rsafe read_call_input_arguments (Forall (wire_variant zero_variant)).
Proof.
  unfold read_call_input_arguments; eapply rsafe_bind; [apply rsafe_read_int32|intros count _].
  do 2 (apply rsafe_if; intros _; [by apply rsafe_fail|]); eapply rsafe_mono; [apply rsafe_rd_list, rsafe_read_variant|]; by intros args [_ ?].
Qed.

Lemma uint32_array_ok values : variant_ok (uint32_array values).
Proof.
  right; cbn; eexists; split; [done|]; split.
  - unfold zlen; rewrite length_fmap; fold (zlen values); pose proof (zlen_nonneg values); unfold to_signed.
    pose proof (Z.mod_le (zlen values) (2 ^ 32)); split_if; norm_pow; lia.
  - apply Forall_fmap, Forall_forall; by intros.
Qed.

Lemma get_monitored_items_ok id : mstriple (get_monitored_items_result id) (λ r _, call_result_ok r).
Proof.
  unfold get_monitored_items_result; apply mstriple_engine; eapply (striple_bind sub_server_ok engine_frame); [apply hstriple_session|intros session].
  apply (hstriple_peek True); intros _ e He; destruct (mu_subscription_get_monitored_items e session id MU_MAX_MONITORED_ITEMS) as [handles|st|] eqn:E.
  - unfold call_result_ok; cbn; by do 2 (constructor; [apply uint32_array_ok|]).
  - constructor.
  - exfalso; revert E; unfold mu_subscription_get_monitored_items; destruct (mu_subscription_find e session id); [|done]; by split_if.
Qed.

Lemma resend_data_ok id : mstriple (resend_data_result id) (λ r _, call_result_ok r).
Proof.
  unfold resend_data_result; apply mstriple_engine; eapply (striple_bind sub_server_ok engine_frame); [apply hstriple_session|intros session].
  eapply (striple_bind sub_server_ok engine_frame); [eapply hstriple_egood, egood_status, resend_good|intros result]; apply (striple_ret sub_server_ok engine_frame); by constructor.
Qed.

Lemma call_server_method_ok object_id method_id args : Forall (wire_variant zero_variant) args →
  mstriple (call_server_method object_id method_id args) (λ r _, call_result_ok r).
Proof.
  intros Ha; unfold call_server_method; split_if; [by apply mstriple_ret; constructor|].
  destruct args as [|arg [|? ?]]; [by apply mstriple_ret; constructor| |by apply mstriple_ret; constructor].
  apply Forall_cons_1 in Ha as [(_ & _ & Hv) _].
  destruct (v_value arg) eqn:Ev; (split_if; [by apply mstriple_ret; constructor|]);
    try (exfalso; destruct (Z.eqb_spec (v_type arg) MU_TYPE_UINT32) as [Et|]; [|by rewrite orb_true_r in *]; rewrite Et in Hv;
         destruct Hv as [[? _]|[? _]]; discriminate).
  split_if; [apply get_monitored_items_ok|apply resend_data_ok].
Qed.

Lemma find_callback_ok id : mstriple (find_callback id) (λ cb _, ∀ f, cb = Some f → method_ok f).
Proof.
  intros s Hs _; split; [done|]; split; [reflexivity|]; cbn; intros f E; apply fmap_Some in E as ([i [k g]] & E & ->).
  apply list_find_Some in E as (E & _ & _); cbn; pose proof (mo_methods s Hs) as Hm; by eapply (Forall_lookup_1 _ _ _ _ Hm) in E.
Qed.

Lemma method_world s w : method_server_ok s → method_server_ok (set_rest s (host_set_world (sv_rest s) w)) ∧
  method_frame s (set_rest s (host_set_world (sv_rest s) w)).
Proof.
  intros [[Hctx Hu Hr He Hs] Hn Hm]; split.
  - split; [split; try done; unfold server_engine; cbn; by rewrite sh_engine_world|done|cbn; by rewrite mh_world].
  - split; try done; exists w, (host_engine (sv_rest s)); cbn; by rewrite <- (sh_engine_world _ w), host_set_get.
Qed.

Lemma call_custom_method_ok object_id method_id args : nodeid_ok object_id → nodeid_ok method_id →
  Forall (wire_variant zero_variant) args → mstriple (call_custom_method object_id method_id args) (λ r _, call_result_ok r).
Proof.
  intros Ho Hm Ha; unfold call_custom_method; eapply mstriple_bind; [by apply find_user_ok|intros [object|] _]; [|by apply mstriple_ret; constructor].
  eapply mstriple_bind; [by apply find_user_ok|intros [method|] _]; [|by apply mstriple_ret; constructor].
  eapply mstriple_bind; [apply find_callback_ok|intros [f|] Hf]; [|by apply mstriple_ret; constructor].
  intros s Hs _; specialize (Hf f eq_refl object_id method_id args (host_world (sv_rest s)) Ho Hm Ha); unfold world.
  destruct (f _ _ _ _) as [[outputs|st|] w]; cbn [fst snd] in *; [|..|done];
    (change (mk_server _ _ _ _ _ _ _ _ _ _) with (set_rest s (host_set_world (sv_rest s) w)); destruct (method_world s w Hs);
     split_and!; [done|done|]); [done|constructor].
Qed.

Lemma call_method_ok object_id method_id args : nodeid_ok object_id → nodeid_ok method_id →
  Forall (wire_variant zero_variant) args → mstriple (call_method object_id method_id args) (λ r _, call_result_ok r).
Proof.
  intros Ho Hm Ha; unfold call_method; split_if; [by apply call_server_method_ok|].
  split_if; [by apply call_custom_method_ok|by apply mstriple_ret; constructor].
Qed.

Lemma call_methods_ok n : mtriple (call_methods n) (λ _ _, True).
Proof.
  induction n as [|n IH]; cbn [call_methods]; [by apply (triple_ret method_server_ok method_frame)|].
  do 2 (eapply m_read; [apply rsafe_read_nodeid|intros ? ?%wire_nodeid_ok]); eapply m_read; [apply rsafe_call_arguments|intros args Ha].
  eapply mtriple_sv; [by apply call_method_ok|intros r Hr]; eapply m_write; [by apply wsafe_call_result|intros _; apply IH].
Qed.

Lemma handle_call_safe : mtriple handle_call (λ _ _, True).
Proof.
  unfold handle_call; eapply m_read; [apply rsafe_request_header_decode|intros req _]; eapply m_read; [apply rsafe_read_int32|intros c _].
  do 3 (apply (triple_if method_server_ok method_frame); intros _; [by apply (triple_fail method_server_ok method_frame)|]).
  eapply m_write; [apply wsafe_write_response_prefix; by ranges|intros _]; eapply m_write; [apply wsafe_write_int32|intros _].
  eapply (m_bind _ _ _ (λ _ _, True)); [apply call_methods_ok|intros _]; eapply m_write; [apply wsafe_write_int32|intros _; apply m_finish].
Qed.
End safety.
