(* ===== verification/SessionLifeSafety.v ===== *)
(** * Safety of the session services

    CreateSession, ActivateSession and CloseSession on arbitrary requests. *)

From S2P Require Export SessionServiceSafety.

(** ** Identifiers *)

Lemma lxor_u32 x y : u32_range x → u32_range y → u32_range (Z.lxor x y).
Proof.
  assert (Hr : ∀ z, u32_range z ↔ 0 ≤ z < 2 ^ 32) by (intros; ranges; lia).
  rewrite !Hr; intros Hx Hy; split; [apply Z.lxor_nonneg; lia|].
  destruct (Z.eq_dec (Z.lxor x y) 0) as [->|Hn]; [lia|].
  assert (Hp : 0 ≤ Z.lxor x y) by (apply Z.lxor_nonneg; lia).
  apply Z.log2_lt_pow2; [lia|]; pose proof (Z.log2_lxor x y ltac:(lia) ltac:(lia)).
  assert (∀ z, 0 ≤ z < 2 ^ 32 → Z.log2 z < 32) as Hlog.
  { intros z Hz; destruct (Z.eq_dec z 0) as [->|]; [done|]; apply Z.log2_lt_pow2; lia. }
  pose proof (Hlog x Hx); pose proof (Hlog y Hy); lia.
Qed.

Lemma to_u32_range x : u32_range (to_u32 x).
Proof. apply (to_unsigned_range 32); lia. Qed.

Lemma draw_base_ok e : entropy_ok e → outcome_ok u32_range (draw_base e).
Proof.
  intros He; unfold draw_base; destruct e as [f|]; [|done]; pose proof (He f 4 eq_refl ltac:(lia)) as Hf.
  destruct (f 4) as [b|?|]; [|done..]; destruct Hf as [Hl Hb].
  destruct (load_u32_safe b 0 Hb ltac:(lia) ltac:(lia)) as (x & -> & Hx); done.
Qed.

Lemma salt_loop_range cand active salt n c : (∀ k, u32_range (cand k)) → salt_loop cand active salt n = Some c → u32_range c.
Proof. intros Hc E; apply salt_loop_sound in E as [_ (k & _ & ->)]; apply Hc. Qed.

(** A generated identifier is a UInt32 that no open session has. *)
Lemma session_id_ok t count e : 0 ≤ count < 65535 → entropy_ok e →
  outcome_ok (λ id, u32_range id ∧ id ≠ 0 ∧ session_id_active t count id = false) (mu_session_generate_session_id t count e).
Proof.
  intros Hc He; pose proof (generate_session_id_fresh t count e) as Hf; unfold mu_session_generate_session_id in *.
  pose proof (draw_base_ok e He) as Hb; destruct (draw_base e) as [base|?|]; [|done..]; cbn [mbind result_bind outcome_ok] in *.
  destruct (salt_loop _ _ _ _) as [c|] eqn:E; [|done]; split; [|by apply Hf].
  eapply salt_loop_range; [|exact E]; intros k; unfold session_id_candidate; cbv zeta; split_if; apply lxor_u32; try done;
    try apply to_u32_range; by ranges.
Qed.

Lemma auth_token_ok t count e : 0 ≤ count < 65535 → entropy_ok e →
  outcome_ok (λ tok, u32_range tok ∧ tok ≠ 0 ∧ authentication_token_active t count tok = false)
    (mu_session_generate_authentication_token t count e).
Proof.
  intros Hc He; pose proof (generate_auth_token_fresh t count e) as Hf; unfold mu_session_generate_authentication_token in *.
  pose proof (draw_base_ok e He) as Hb; destruct (draw_base e) as [base|?|]; [|done..]; cbn [mbind result_bind outcome_ok] in *.
  destruct (salt_loop _ _ _ _) as [c|] eqn:E; [|done]; split; [|by apply Hf].
  eapply salt_loop_range; [|exact E]; intros k; unfold auth_token_candidate; cbv zeta; split_if; [|apply to_u32_range].
  apply lxor_u32; [by ranges|apply to_u32_range].
Qed.

(** ** Request bodies *)

Lemma rsafe_skip_string_if (b : bool) : rsafe (if b then _ ← mu_binary_read_string; mret tt else mret tt) (λ _, True).
Proof. apply rsafe_if; intros _; [|by apply rsafe_ret]; eapply rsafe_bind; [apply rsafe_read_string|intros; by apply rsafe_ret]. Qed.

Lemma rsafe_create_session_request : rsafe read_create_session_request (λ '(_, nonce, cert), wire_string nonce ∧ wire_string cert).
Proof.
  unfold read_create_session_request; do 2 (eapply rsafe_bind; [apply rsafe_read_string|intros ? _]).
  eapply rsafe_bind; [apply rsafe_read_byte|intros mask _]; do 2 (eapply rsafe_bind; [apply rsafe_skip_string_if|intros _ _]).
  eapply rsafe_bind; [apply rsafe_read_uint32|intros ? _]; do 2 (eapply rsafe_bind; [apply rsafe_read_string|intros ? _]).
  eapply rsafe_bind; [apply rsafe_read_int32|intros n _]; apply rsafe_if; intros _; [by apply rsafe_fail|].
  eapply rsafe_bind; [apply rsafe_rd_list, rsafe_read_string|intros ? _]; do 3 (eapply rsafe_bind; [apply rsafe_read_string|intros ? _]).
  eapply rsafe_bind; [apply rsafe_read_bytestring|intros nonce Hn]; eapply rsafe_bind; [apply rsafe_read_bytestring|intros cert Hc].
  eapply rsafe_bind; [apply rsafe_read_uint64|intros ? _]; eapply rsafe_bind; [apply rsafe_read_uint32|intros ? _]; by apply rsafe_ret.
Qed.

Lemma rsafe_body_consumed : rsafe body_consumed (λ _, True).
Proof. unfold body_consumed; apply rsafe_get; intros r _; apply rsafe_if; intros _; [by apply rsafe_fail|by apply rsafe_ret]. Qed.

(** The octets of a decoded ByteString are there. *)
Lemma bytestring_octets_total s : wire_string s → ∃ x, bytestring_octets s = Some x ∧ bytes_ok x ∧ zlen x = Z.max 0 (str_length s).
Proof.
  unfold bytestring_octets; intros [->|(d & -> & -> & Hb & _)]; [exists []; split; [done|]; split; [by constructor|done]|]; pose proof (zlen_nonneg d).
  split_if; bool_hyps; [|exists []; split; [done|]; split; [by constructor|change (zlen (@nil Z)) with 0; lia]].
  exists d; cbn [mbind option_bind]; rewrite mem_load_all by done; split_and!; [done..|lia].
Qed.

(** A token is decoded inside its body. *)
Lemma rsafe_token_body {A} length (d : A) (m : Rd A) Q : 0 ≤ length → rsafe m Q → Q d → rsafe (read_token_body length d m) Q.
Proof.
  intros Hlen Hm Hd r Hr; unfold read_token_body, ensure_reader_bytes_remaining, mbind, M_bind, get_state, put_state.
  cbn [fst snd]; destruct (_ && _) eqn:E; cbn [fail mret M_ret]; [split; [by apply reader_step_refl|done]|].
  pose proof Hr as [Hb Hp].
  assert (Hl : r_length r ≤ PTRDIFF_MAX) by (destruct (r_buffer r); cbn in Hb; ranges; lia).
  assert (Hfit : 0 < length → r_position r + length ≤ r_length r).
  { intros ?; apply andb_false_iff in E as [E%Z.ltb_ge|E]; [lia|]; apply orb_false_iff in E as [_ E%Z.ltb_ge]; lia. }
  assert (Hstep : reader_step r (set_r_position r (to_size (r_position r + length)))).
  { rewrite to_unsigned_id by (zify_ints; lia); split; cbn; [split; cbn; [done|lia]|done|done|lia]. }
  destruct (Z.ltb_spec 0 length); [|by split]; destruct (r_buffer r) as [b|] eqn:Eb; cbn in Hb; [|lia].
  destruct (Hm (mu_binary_reader_init (Some (zdrop (r_position r) b)) length)) as [_ Ho].
  { destruct Hb as (? & ? & ?); split; cbn; [|lia]; rewrite zlen_zdrop by lia; split; [lia|]; split; [lia|auto with wire]. }
  destruct (m _) as [[a|e|] r']; cbn in Ho |- *; [by split|split; [by apply reader_step_refl|done]|done].
Qed.

Definition token_ok (token : identity_token) : Prop :=
  match token with
  | identity_anonymous p => wire_string p
  | identity_username t => wire_string (uit_policy_id t) ∧ wire_string (uit_username t) ∧
      wire_string (uit_password t) ∧ wire_string (uit_encryption_algorithm t)
  | identity_certificate t => wire_string (cit_policy_id t) ∧ wire_string (cit_certificate_data t)
  | identity_skipped => True
  end.

Lemma wire_null : wire_string null_string.
Proof. by left. Qed.

Section tokens.
  Context {auth : AuthProfile}.

Lemma rsafe_skipped_token length : 0 ≤ length → rsafe (skip_extension_object_body length;; mret identity_skipped) token_ok.
Proof. intros; eapply rsafe_bind; [by apply rsafe_skip_extension_object_body|intros; by apply rsafe_ret]. Qed.

Lemma rsafe_token type length : 0 ≤ length → rsafe (read_identity_token type length) token_ok.
Proof.
  intros Hl; pose proof wire_null; unfold read_identity_token; repeat case_match; try (by apply rsafe_skipped_token);
    (eapply rsafe_bind; [apply rsafe_token_body; [done|eauto with rsafe|by split_and! || done]|]); intros; by apply rsafe_ret.
Qed.

Lemma rsafe_activate_session_request : rsafe read_activate_session_request
  (λ '(algorithm, signature, _, token, user_signature),
     wire_string algorithm ∧ wire_string signature ∧ token_ok token ∧ wire_string user_signature).
Proof.
  unfold read_activate_session_request; eapply rsafe_bind; [apply rsafe_read_string|intros algorithm Ha].
  eapply rsafe_bind; [apply rsafe_read_bytestring|intros signature Hs]; eapply rsafe_bind; [apply rsafe_read_int32|intros certs _].
  eapply rsafe_bind; [apply rsafe_ensure_array_items|intros _ _].
  eapply rsafe_bind; [apply rsafe_rd_list; eapply rsafe_bind; [apply rsafe_read_bytestring|intros; apply rsafe_read_bytestring]|intros ? _].
  eapply rsafe_bind; [apply rsafe_read_int32|intros locales _]; eapply rsafe_bind; [apply rsafe_ensure_array_items|intros _ _].
  eapply rsafe_bind; [apply rsafe_rd_list, rsafe_read_string|intros ? _].
  eapply rsafe_bind; [apply rsafe_read_extension_object_header|intros [type length] [_ Hl]]; cbn in Hl |- *.
  eapply rsafe_bind; [apply rsafe_token; lia|intros token Ht]; apply rsafe_get; intros r _.
  eapply (rsafe_bind _ _ wire_string); [|intros user_signature Hu; by apply rsafe_ret].
  apply rsafe_if; intros _; [|by apply rsafe_ret, wire_null]; eapply rsafe_bind; [apply rsafe_read_string|intros; apply rsafe_read_bytestring].
Qed.
End tokens.

Section safety.
  Context {auth : AuthProfile} {profile : BaseProfile} {pub : PublishProfile} {caps : BuildCaps} {Hcaps : BuildCapsOk caps}.
  Context {features : ServiceFeatures} {W Rest : Type} {config_host : ConfigHost W Rest} {channel_host : ChannelHost Rest}.
  Context {subscription_host : SubscriptionHost Rest} {laws : SessionHostLaws W Rest}.
  Context (sys : RsaSystem) (crypto : crypto_functions W) (own : list Z).
  Context {contract : CryptoContract crypto} {rsa : RsaContract sys crypto own}.

#[local] Existing Instance conn_frame_preorder.

Abbreviation ok := (conn_ok sys crypto own).
Abbreviation ctriple := (triple ok conn_frame (λ _, True)).
Abbreviation c_read := (triple_read ok conn_frame).
Abbreviation c_write := (triple_write ok conn_frame).
Abbreviation c_server := (triple_server ok conn_frame).
Abbreviation c_bind := (triple_bind ok conn_frame).
Abbreviation c_finish := (triple_finish ok conn_frame).
Abbreviation cstriple := (striple ok conn_frame).
Abbreviation s_bind := (striple_bind ok conn_frame).

(** ** The session table *)

Lemma conn_set_sessions s t : ok s → table_inv t → zlen t = MU_MAX_SESSIONS → Forall slot_good t → ok (set_sessions s t).
Proof. by intros [] ? ? ?; split. Qed.

(** An operation on a slot. *)
Lemma striple_session {A} slot (m : M mu_session_t A) P Q : 0 ≤ slot < MU_MAX_SESSIONS →
  (∀ s x, ok s → P s → sv_sessions s !! Z.to_nat slot = Some x → slot_good x →
     table_inv (<[Z.to_nat slot := (m x).2]> (sv_sessions s)) ∧ slot_good (m x).2 ∧
     outcome_ok (λ a, Q a (set_sessions s (<[Z.to_nat slot := (m x).2]> (sv_sessions s)))) (m x).1) →
  cstriple P (session slot m) Q.
Proof.
  intros Hslot Hm s Hs HP; unfold session; pose proof (co_size _ _ _ s Hs) as Hsize.
  destruct (znth_Some (sv_sessions s) slot ltac:(lia)) as [x Hx]; rewrite Hx; apply znth_lookup in Hx as [Hx _].
  pose proof (proj1 (Forall_lookup _ _) (co_slots _ _ _ s Hs) _ _ Hx) as Hgood; destruct (Hm s x Hs HP Hx Hgood) as (Hinv & Hg & Ho).
  destruct (m x) as [r x']; cbn [fst snd] in *; split; [|split; [by apply frame_same|done]].
  apply conn_set_sessions; [done|done|unfold zlen in *; by rewrite length_insert|by apply Forall_insert; [apply Hs|]].
Qed.

(** A slot that keeps its identifiers. *)
Lemma striple_keep {A} slot (m : M mu_session_t A) P Q : 0 ≤ slot < MU_MAX_SESSIONS →
  (∀ s x, ok s → P s → sv_sessions s !! Z.to_nat slot = Some x → slot_good x →
     (is_open_slot (m x).2 = true → is_open_slot x = true ∧ ss_session_id (m x).2 = ss_session_id x ∧
        ss_auth_token (m x).2 = ss_auth_token x ∧ ss_revised_session_timeout_ms (m x).2 = ss_revised_session_timeout_ms x) ∧
     slot_good (m x).2 ∧ outcome_ok (λ a, Q a) (m x).1) →
  cstriple P (session slot m) (λ a _, Q a).
Proof.
  intros Hslot Hm; apply striple_session; [done|]; intros s x Hs HP Hx Hg; destruct (Hm s x Hs HP Hx Hg) as (Hk & Hg' & Ho).
  split_and!; [|done|done]; by eapply table_inv_update; [apply Hs|exact Hx|].
Qed.

Lemma striple_the_sessions P : cstriple P the_sessions (λ t s, P s ∧ sv_sessions s = t).
Proof. by apply striple_read. Qed.

Lemma striple_the_channel P : cstriple P the_channel (λ _ s, P s).
Proof. by apply striple_read. Qed.

Lemma free_slot t slot : zlen t = MU_MAX_SESSIONS → mu_session_find_free t MU_MAX_SESSIONS = Some slot →
  0 ≤ slot < MU_MAX_SESSIONS ∧ ∃ x, t !! Z.to_nat slot = Some x ∧ ss_state x = MU_SESSION_STATE_CLOSED.
Proof.
  intros Hl Hf; unfold mu_session_find_free in Hf; rewrite <- Hl, ztake_all in Hf.
  apply find_slot_sound in Hf as [Hk (x & Hx & Hp)]; rewrite Z.sub_0_r in Hx; split; [lia|]; exists x; split; [done|].
  by apply bool_decide_eq_true in Hp.
Qed.

Lemma create_slot_ok bits : cstriple (λ _, True) (create_slot bits)
  (λ x _, 0 ≤ x.1.1 < MU_MAX_SESSIONS ∧ zlen x.2 = 32 ∧ bytes_ok x.2).
Proof.
  pose proof caps_sessions as Hcap; unfold create_slot; eapply s_bind; [eapply (striple_draw sys crypto own (λ _, True)); [done|]; intros e He; apply (generate_nonce_ok e 32 ltac:(lia) He)|].
  intros nonce; refine (striple_conseq ok conn_frame (λ _, zlen nonce = 32 ∧ bytes_ok nonce) _ _ _ _ _ _ (λ a s H, H)); [|by intros s _ [_ ?]].
  apply striple_pure; intros Hn; eapply s_bind; [apply striple_the_sessions|intros t].
  refine (striple_conseq ok conn_frame (λ s, sv_sessions s = t) _ _ _ _ _ _ (λ a s H, H)); [|by intros s _ [_ ?]].
  destruct (mu_session_find_free t MU_MAX_SESSIONS) as [slot|] eqn:Ef; [|by apply (striple_fail ok conn_frame)].
  eapply s_bind; [eapply (striple_draw sys crypto own (λ s, sv_sessions s = t)); [done|]; intros e He; apply (session_id_ok t MU_MAX_SESSIONS e); [lia|done]|].
  intros id; eapply s_bind; [eapply (striple_draw sys crypto own); [by intros ? ? []|]; intros e He; apply (auth_token_ok t MU_MAX_SESSIONS e); [lia|done]|].
  intros tok; eapply s_bind; [apply striple_the_channel|intros c].
  eapply (s_bind _ _ _ (λ _ _, 0 ≤ slot < MU_MAX_SESSIONS)).
  - intros s Hs Hpre; destruct Hpre as [[Ht Hid] Htok]; destruct (free_slot t slot) as [Hslot (x & Hx & Hclosed)]; [rewrite <- Ht; apply Hs|done|].
    revert s Hs Ht; refine (striple_session slot _ (λ s, sv_sessions s = t) (λ _ _, 0 ≤ slot < MU_MAX_SESSIONS) Hslot _); intros s x' Hs Ht Hx' Hg; rewrite Ht in *.
    assert (x' = x) as -> by congruence; destruct (create_ok_slot bits id tok (sc_channel_id c) x Hclosed) as (rev & ms & -> & _ & Hms); cbn [fst snd].
    destruct Hid as (Hid & Hid0 & Hida), Htok as (Htok & Htok0 & Htoka); split_and!; [|destruct Hg; by split|done].
    pose proof (co_size _ _ _ s Hs) as Hsize; rewrite Ht in Hsize; pose proof (co_table _ _ _ s Hs) as Hinv; rewrite Ht in Hinv.
    apply table_inv_create; [done|unfold slot_ok; cbn; split_and!; done || lia|eapply active_fresh; [|exact Hida]; lia|eapply active_fresh; [|exact Htoka]; lia].
  - intros ids; by apply (striple_ret ok conn_frame).
Qed.

(** ** Steps that only use the adapters *)

(** [F] with another state of the adapters. *)
Definition at_world (F : mu_server_t Rest) (w : W) : mu_server_t Rest := set_rest F (host_set_world (sv_rest F) w).

Lemma at_world_self s : at_world s (host_world (sv_rest s)) = s.
Proof. unfold at_world; rewrite host_world_get; by destruct s. Qed.

(** [m] changes nothing but the state of the adapters, and its result
    satisfies [φ]. *)
Definition yields {A} (F : mu_server_t Rest) (m : M (mu_server_t Rest) A) (φ : A → Prop) : Prop :=
  ∀ w, ∃ w', (m (at_world F w)).2 = at_world F w' ∧ outcome_ok φ (m (at_world F w)).1.

Section yields.
  Context (F : mu_server_t Rest) (HF : ok F).

Lemma yields_bind {A B} (m : M (mu_server_t Rest) A) (k : A → M (mu_server_t Rest) B) φ ψ :
  yields F m φ → (∀ a, φ a → yields F (k a) ψ) → yields F (m ≫= k) ψ.
Proof.
  intros Hm Hk w; destruct (Hm w) as (w' & E & Ho); unfold mbind, M_bind.
  destruct (m _) as [[a|e|] s]; cbn in E, Ho; subst s; [by apply Hk|by exists w'|done].
Qed.

Lemma yields_ret {A} (a : A) (φ : A → Prop) : φ a → yields F (mret a) φ.
Proof. intros Ha w; by exists w. Qed.

Lemma yields_fail {A} e (φ : A → Prop) : e ≠ MU_STATUS_GOOD → yields F (fail e) φ.
Proof. intros He w; by exists w. Qed.

Lemma yields_if {A} (b : bool) (m m' : M (mu_server_t Rest) A) φ :
  (b = true → yields F m φ) → (b = false → yields F m' φ) → yields F (if b then m else m') φ.
Proof. destruct b; auto. Qed.

Lemma yields_mono {A} (m : M (mu_server_t Rest) A) (φ ψ : A → Prop) : yields F m φ → (∀ a, φ a → ψ a) → yields F m ψ.
Proof. intros Hm Hi w; destruct (Hm w) as (w' & E & Ho); exists w'; split; [done|]; destruct (m _).1; cbn in *; auto. Qed.

Lemma yields_lift {A} (a : A) o : o = Some a → yields F (lift_option o) (λ b, b = a).
Proof. intros ->; by apply yields_ret. Qed.

Lemma yields_outcome {A} (x : result A) φ : outcome_ok φ x → yields F (outcome x) φ.
Proof. intros Hx w; by exists w. Qed.

Lemma yields_or_default {A} (d : A) m φ : yields F m φ → φ d → yields F (or_default d m) φ.
Proof.
  intros Hm Hd w; destruct (Hm w) as (w' & E & Ho); exists w'; unfold or_default.
  destruct (m _) as [[a|e|] s]; cbn in *; by subst.
Qed.

Lemma yields_or_status {A} e (m : M (mu_server_t Rest) A) φ : e ≠ MU_STATUS_GOOD → yields F m φ → yields F (or_status e m) φ.
Proof.
  intros He Hm w; destruct (Hm w) as (w' & E & Ho); exists w'; unfold or_status.
  destruct (m _) as [[a|e'|] s]; cbn in *; by subst.
Qed.

Lemma yields_world {A} (m : mu_server_config_t W → M W A) φ : delivers (m (host_config (sv_rest F))) φ → yields F (world m) φ.
Proof.
  intros Hm w; specialize (Hm w); unfold world, at_world; cbn [sv_rest set_rest]; rewrite host_config_set, host_world_set.
  destruct (m _ w) as [x w']; exists w'; split; [|done]; cbn; by rewrite host_world_set_set.
Qed.

Lemma yields_draw {A} (f : entropy_t → result A) φ : (∀ e, entropy_ok e → outcome_ok φ (f e)) → yields F (draw f) φ.
Proof.
  intros Hf; apply yields_world; intros w; pose proof (cok_entropy _ _ _ _ (co_config _ _ _ F HF)) as He.
  destruct (cfg_entropy _) as [next|]; [specialize (He next w eq_refl); destruct (next w); by apply Hf|by apply Hf].
Qed.

Lemma yields_channel : yields F the_channel (λ c, c = sv_secure_channel F).
Proof. intros w; by exists w. Qed.

Lemma yields_sessions : yields F the_sessions (λ t, t = sv_sessions F).
Proof. intros w; by exists w. Qed.

Lemma yields_config : yields F config (λ cfg, cfg = host_config (sv_rest F)).
Proof. intros w; exists w; split; [done|]; cbn; apply host_config_set. Qed.

Lemma yields_opn {A} (f : opn_state → A) : yields F (opn (λ o, (Ok (f o), o))) (λ a, a = f (host_opn (sv_rest F))).
Proof.
  intros w; exists w; unfold opn, at_world; cbn [fst snd sv_rest set_rest]; rewrite sh_opn_get; split; [done|]; cbn; by rewrite sh_opn_world.
Qed.

(** A check in front of a computation. *)
Lemma yields_then {A B} (m : M (mu_server_t Rest) A) (k : A → M (mu_server_t Rest) B) φ (Post : result B * mu_server_t Rest → Prop) w :
  yields F m φ → (∀ e w', e ≠ MU_STATUS_GOOD → Post (Err e, at_world F w')) →
  (∀ a w', φ a → Post (k a (at_world F w'))) → Post ((m ≫= k) (at_world F w)).
Proof.
  intros Hm He Hk; destruct (Hm w) as (w' & E & Ho); unfold mbind, M_bind.
  destruct (m _) as [[a|e|] s]; cbn in E, Ho; subst s; [by apply Hk|by apply He|done].
Qed.
End yields.

Lemma striple_yields {A} (m : M (mu_server_t Rest) A) (φ : A → Prop) : (∀ F, ok F → yields F m φ) → cstriple (λ _, True) m (λ a _, φ a).
Proof.
  intros Hm s Hs _; destruct (Hm s Hs (host_world (sv_rest s))) as (w & E & Ho); rewrite at_world_self in E, Ho; rewrite E.
  split_and!; [by apply conn_world|apply conn_world_frame|done].
Qed.

Lemma c_yields {A B} (m : M (mu_server_t Rest) A) (φ : A → Prop) (k : A → H Rest B) Q :
  (∀ F, ok F → yields F m φ) → (∀ a, φ a → ctriple (k a) Q) → ctriple (sv m ≫= k) Q.
Proof. intros Hm; by apply (c_pure sys crypto own), striple_yields. Qed.

(** ** CreateSession *)

Lemma check_channel_certificate_ok cert : wire_string cert → cstriple (λ _, True) (check_channel_certificate cert) (λ _ _, True).
Proof.
  intros Hc; apply (striple_read sys crypto own); intros s Hs _; cbv zeta; split_if; [done|]; split_if; [done|]; bool_hyps.
  destruct Hc as [->|(d & -> & El & _ & _)]; [done|]; destruct (co_opn _ _ _ s Hs) as [_ _ [Hbuf _] Hlen]; pose proof (zlen_nonneg d).
  cbn [mbind option_bind or_fault]; rewrite !mem_load_Some by lia; cbn; by split_if.
Qed.

Lemma store_nonce_ok slot nonce : 0 ≤ slot < MU_MAX_SESSIONS → zlen nonce = 32 → bytes_ok nonce →
  cstriple (λ _, True) (session slot (store_nonce nonce)) (λ ids _, u32_range ids.1 ∧ u32_range ids.2).
Proof.
  intros Hslot Hl Hb; apply (striple_keep _ _ _ (λ ids, u32_range ids.1 ∧ u32_range ids.2)); [done|]; intros s x Hs _ Hx [Hn Ho Hi Ha]; unfold store_nonce.
  rewrite mem_load_all by (unfold MU_SERVER_NONCE_LENGTH; lia); cbn [mbind option_bind].
  destruct (mem_store (ss_server_nonce x) 0 nonce) as [stored|] eqn:E; [|rewrite mem_store_Some in E by lia; done].
  cbn [fst snd outcome_ok]; split; [done|]; split; [|done]; split; cbn; [by rewrite (mem_store_zlen _ _ _ _ E)| |done|done].
  rewrite mem_store_Some in E by lia; injection E as <-; apply Forall_app; split; [done|by apply Forall_drop].
Qed.

Lemma asym_sign_delivers policy data cap : delivers (mu_asym_signature_sign crypto policy data cap)
  (λ sig, bytes_ok sig ∧ zlen sig ≤ cap ∧ sys_valid (mu_security_policy_uses_pss policy) own data sig).
Proof. unfold mu_asym_signature_sign; destruct (rsa_sign (crypto := crypto) (mu_security_policy_uses_pss policy)) as (f & -> & Hf); apply Hf. Qed.

Lemma asym_verify_delivers policy cert data sig : delivers (mu_asym_signature_verify crypto policy cert data sig)
  (λ _, sys_valid (mu_security_policy_uses_pss policy) cert data sig).
Proof. unfold mu_asym_signature_verify; destruct (rsa_verify (crypto := crypto) (mu_security_policy_uses_pss policy)) as (f & -> & Hf); apply Hf. Qed.

Lemma signature_uri_cstring policy uri : mu_security_policy_asym_signature_uri policy = Some uri → cstring_ok (Some uri).
Proof. destruct policy; try done; intros [= <-]; apply const_cstring; vm_compute; reflexivity. Qed.

Definition signature_ok (sig : option (list Z * list Z)) : Prop := cstring_ok (fst <$> sig) ∧ cstring_ok (snd <$> sig).

Lemma server_signature_ok F nonce cert : ok F → wire_string nonce → wire_string cert → yields F (server_signature nonce cert) signature_ok.
Proof.
  intros HF Hn Hc; unfold server_signature; eapply yields_bind; [apply yields_channel|intros c ->].
  eapply yields_bind; [apply yields_config|intros cfg ->].
  destruct (cok_crypto _ _ _ _ (co_config _ _ _ F HF)) as [->| ->]; [by apply yields_ret|].
  destruct (mu_security_policy_asym_signature_uri _) as [uri|] eqn:Eu; [|by apply yields_ret].
  apply yields_if; intros _; [|by apply yields_ret]; apply yields_if; intros _; [|by apply yields_ret].
  destruct (bytestring_octets_total cert Hc) as (cc & Ecc & _), (bytestring_octets_total nonce Hn) as (cn & Ecn & _).
  eapply yields_bind; [by apply (yields_lift F cc)|intros x ->]; eapply yields_bind; [by apply (yields_lift F cn)|intros y ->].
  apply yields_or_default; [|done]; eapply yields_bind; [apply yields_world, asym_sign_delivers|].
  intros sig (Hb & Hl & _); apply yields_ret; split; [by apply (signature_uri_cstring _ _ Eu)|]; split; [done|etrans; [exact Hl|done]].
Qed.

Lemma numeric_nodeid_ok id : u32_range id → nodeid_ok (mk_nodeid 0 (MU_NODEID_NUMERIC id)).
Proof. intros; split; [by ranges|done]. Qed.

Lemma handle_create_session_safe : ctriple handle_create_session (λ _ _, True).
Proof.
  unfold handle_create_session; eapply c_read; [apply rsafe_request_header_decode|intros req _].
  eapply c_read; [apply rsafe_create_session_request|intros [[bits nonce] cert] [Hn Hc]].
  eapply c_read; [apply rsafe_body_consumed|intros _ _]; eapply (c_pure sys crypto own); [by apply check_channel_certificate_ok|intros _ _].
  eapply (c_pure sys crypto own); [apply create_slot_ok|intros [[slot revised] fresh] (Hslot & Hl & Hb)]; cbn [fst snd] in *.
  eapply c_write; [apply wsafe_write_response_prefix; by ranges|intros _].
  eapply (c_pure sys crypto own); [by apply store_nonce_ok|intros ids [Hid Htok]].
  do 2 (eapply c_write; [by apply wsafe_write_nodeid, numeric_nodeid_ok|intros _]); eapply c_write; [apply wsafe_write_uint64|intros _].
  eapply c_write; [by apply wsafe_write_bytestring, server_nonce_ok|intros _].
  eapply c_yields; [intros F HF; by apply yields_world, (own_certificate_ok sys crypto own), HF|intros own_cert Hown].
  eapply c_write; [by apply wsafe_write_bytestring, cstr_ok|intros _].
  eapply c_yields; [intros F HF; by apply yields_world, (get_endpoints_ok sys crypto own), HF|intros eps Heps].
  eapply c_write; [apply wsafe_write_int32|intros _].
  eapply c_write; [apply wsafe_wr_list; eapply Forall_impl; [exact Heps|apply wsafe_endpoint]|intros _].
  eapply c_write; [apply wsafe_write_int32|intros _]; eapply c_yields; [intros F HF; by apply server_signature_ok|intros sig [Hu Hs]].
  eapply c_write; [by apply wsafe_write_string, cstr_ok|intros _]; eapply c_write; [by apply wsafe_write_bytestring, cstr_ok|intros _].
  eapply c_write; [apply wsafe_write_uint32|intros _]; apply c_finish.
Qed.

(** ** ActivateSession *)

(** The octets a client signs, the own certificate and the nonce of the
    session, under the certificate of the channel and with the algorithm of
    its policy. *)
Definition signature_accepted (F : mu_server_t Rest) (x : mu_session_t) (algorithm signature : mu_string_t) : Prop :=
  let policy := sc_policy (sv_secure_channel F) in
  let o := host_opn (sv_rest F) in
  protects policy = true →
  ∃ uri sig, mu_security_policy_asym_signature_uri policy = Some uri ∧ string_matches_cstr algorithm (Some uri) = Some true ∧
    bytestring_octets signature = Some sig ∧ channel_client_cert_len o ≠ 0 ∧
    sys_valid (mu_security_policy_uses_pss policy) (ztake (channel_client_cert_len o) (channel_client_cert o))
      (own ++ ss_server_nonce x) sig.

(** The verdict of the integrator's handler, [fallback] without one. *)
Definition auth_accepted (F : mu_server_t Rest) (fallback : Z) (username password : option mu_string_t) (policy_id : mu_string_t) : Prop :=
  match cfg_user_auth_handler (host_config (sv_rest F)) with
  | Some handler => ∃ w, (handler username password policy_id w).1 = MU_STATUS_GOOD
  | None => fallback = MU_STATUS_GOOD
  end.

(** The password of a token: in the clear, or a ciphertext that opens to a
    plaintext with the nonce of the session. *)
Definition password_of (x : mu_session_t) (token : mu_username_identity_token_t) (password : mu_string_t) : Prop :=
  if (0 <? str_length (uit_encryption_algorithm token)) && (0 <? str_length (uit_password token)) then
    ∃ input plain n, bytestring_octets (uit_password token) = Some input ∧ sys_opens false own input plain ∧
      mu_binary_le_get_u32 plain = Some n ∧ zdrop (4 + Z.max 0 (to_i32 n)) plain = ss_server_nonce x ∧
      password = (if to_i32 n =? -1 then null_string else mk_string (to_i32 n) (Some (zdrop 4 plain)))
  else password = uit_password token.

(** What the server has checked of an identity token. The certificate branch
    passes the signed octets, the signature and the certificate in the places
    of certificate, data and signature. *)
Definition identity_accepted (F : mu_server_t Rest) (x : mu_session_t) (token : identity_token) (user_signature : mu_string_t) : Prop :=
  match token with
  | identity_anonymous policy_id => auth_accepted F MU_STATUS_GOOD None None policy_id
  | identity_username token =>
      mu_security_policy_allows_username_password_tokens (sc_policy (sv_secure_channel F)) ≠ 0 ∧
      ∃ password, password_of x token password ∧
        auth_accepted F MU_STATUS_BAD_IDENTITYTOKENREJECTED (Some (uit_username token)) (Some password) (uit_policy_id token)
  | identity_certificate token =>
      ∃ cert sig, bytestring_octets (cit_certificate_data token) = Some cert ∧ bytestring_octets user_signature = Some sig ∧
        sys_valid false (own ++ ss_server_nonce x) sig cert ∧
        auth_accepted F MU_STATUS_GOOD None (Some (cit_certificate_data token)) (cit_policy_id token)
  | identity_skipped => False
  end.

Section activation.
  Context (F : mu_server_t Rest) (HF : ok F).

Lemma signed_by_client_ok x cert e : slot_good x → e ≠ MU_STATUS_GOOD → outcome_ok (λ d, d = cert ++ ss_server_nonce x) (signed_by_client x cert e).
Proof. intros Hx He; unfold signed_by_client; split_if; [done|]; by rewrite mem_load_all by apply Hx. Qed.

Lemma own_certificate_call e : e ≠ MU_STATUS_GOOD → ∃ get, cf_get_own_certificate crypto = Some get ∧
  yields F (or_status e (world (λ _, get))) (λ c, c = own).
Proof.
  intros He; destruct (rsa_own (crypto := crypto)) as (get & Eg & Hget); exists get; split; [done|].
  apply yields_or_status; [done|]; by apply yields_world.
Qed.

Lemma verify_signature_ok x algorithm signature : slot_good x → wire_string algorithm → wire_string signature →
  yields F (verify_activate_client_signature x algorithm signature) (λ _, signature_accepted F x algorithm signature).
Proof.
  intros Hx Ha Hs; unfold verify_activate_client_signature; eapply yields_bind; [apply yields_channel|intros c ->].
  eapply yields_bind; [apply yields_config|intros cfg ->]; eapply yields_bind; [apply (yields_opn F (λ o, o))|intros o ->].
  apply yields_if; intros Hp; [apply yields_ret; intros Hq; by rewrite Hq in Hp|].
  destruct (cok_crypto _ _ _ _ (co_config _ _ _ F HF)) as [->| ->]; [by apply yields_fail|].
  destruct (own_certificate_call MU_STATUS_BAD_SECURITYCHECKSFAILED ltac:(done)) as (get & -> & Hget).
  destruct (mu_security_policy_asym_signature_uri _) as [uri|] eqn:Eu; [|by apply yields_fail].
  apply yields_if; intros _; [by apply yields_fail|]; destruct (string_matches_total algorithm (Some uri) Ha) as [b Eb].
  eapply yields_bind; [by apply (yields_lift F b)|intros ? ->]; apply yields_if; intros Hk; [by apply yields_fail|]; bool_hyps.
  eapply yields_bind; [exact Hget|intros cert ->]; eapply yields_bind; [by apply yields_outcome, signed_by_client_ok|intros data ->].
  destruct (co_opn _ _ _ F HF) as [_ _ [Hbuf _] Hlen], (bytestring_octets_total signature Hs) as (sig & Esig & _).
  eapply yields_bind; [apply yields_lift, mem_load_Some; lia|intros client ->]; eapply yields_bind; [by apply (yields_lift F sig)|intros ? ->].
  eapply yields_mono; [apply yields_or_status; [done|]; apply yields_world, asym_verify_delivers|]; intros ? Hv _; cbn in Hv.
  exists uri, sig; split_and!; [done| |done|done|done]; by destruct b.
Qed.

Lemma user_auth_ok fallback username password policy :
  yields F (user_auth fallback username password policy) (λ _, auth_accepted F fallback username password policy).
Proof.
  unfold user_auth; eapply (yields_bind F _ _ (λ status, status = MU_STATUS_GOOD → auth_accepted F fallback username password policy)).
  - apply yields_world; intros w; unfold auth_accepted; destruct (cfg_user_auth_handler _) as [h|]; [|cbn; auto].
    destruct (h _ _ _ w) as [status w'] eqn:E; cbn; intros ->; exists w; by rewrite E.
  - intros status Hs; destruct (Z.eqb_spec status MU_STATUS_GOOD); [by apply yields_ret, Hs|by apply yields_fail].
Qed.

Lemma decrypted_password_ok x plain : slot_good x → bytes_ok plain → outcome_ok (λ password, ∃ n, mu_binary_le_get_u32 plain = Some n ∧
  zdrop (4 + Z.max 0 (to_i32 n)) plain = ss_server_nonce x ∧
  password = (if to_i32 n =? -1 then null_string else mk_string (to_i32 n) (Some (zdrop 4 plain)))) (decrypted_password x plain).
Proof.
  intros Hx Hb; unfold decrypted_password; split_if; [done|]; bool_hyps.
  destruct (le_get_u32_ok plain ltac:(lia)) as (n & E); rewrite E; cbn [or_fault mbind result_bind]; cbv zeta; split_if; [done|].
  split_if; [done|]; bool_hyps; rewrite (mem_load_all (ss_server_nonce x)) by apply Hx; rewrite mem_load_Some by lia.
  cbn [or_fault mbind result_bind]; split_if; [done|]; bool_hyps; exists n; split; [done|]; split; [|done].
  match goal with E : ztake _ _ = ss_server_nonce x |- _ => rewrite <- E end; symmetry; unfold ztake; apply take_ge.
  assert (El : zlen (zdrop (4 + Z.max 0 (to_i32 n)) plain) = 32) by (rewrite zlen_zdrop by lia; lia); unfold zlen in El; lia.
Qed.

Lemma decrypt_password_ok x token : slot_good x → wire_string (uit_password token) → yields F (decrypt_password x token) (password_of x token).
Proof.
  intros Hx Hp; unfold decrypt_password, password_of; apply yields_if; intros Hb; rewrite Hb; [|by apply yields_ret].
  eapply yields_bind; [apply yields_config|intros cfg ->].
  destruct (cok_crypto _ _ _ _ (co_config _ _ _ F HF)) as [->| ->]; cbn [mbind option_bind]; [by apply yields_fail|].
  destruct (rsa_decrypt (crypto := crypto) false) as (decrypt & -> & Hd), (bytestring_octets_total _ Hp) as (input & E & Hi & _).
  eapply yields_bind; [by apply (yields_lift F input)|intros y ->].
  eapply yields_bind; [apply yields_or_status; [done|]; by apply yields_world, Hd|intros plain (Hplain & _ & Ho)].
  eapply yields_mono; [by apply yields_outcome, decrypted_password_ok|]; intros password (n & En & Hn & Epw); by exists input, plain, n.
Qed.

Lemma check_user_certificate_ok x token signature : slot_good x → wire_string (cit_certificate_data token) → wire_string signature →
  yields F (check_user_certificate x token signature) (λ _, identity_accepted F x (identity_certificate token) signature).
Proof.
  intros Hx Hc Hs; unfold check_user_certificate; apply yields_if; intros _; [by apply yields_fail|].
  eapply yields_bind; [apply yields_config|intros cfg ->].
  destruct (cok_crypto _ _ _ _ (co_config _ _ _ F HF)) as [->| ->]; [by apply yields_fail|].
  destruct (own_certificate_call MU_STATUS_BAD_IDENTITYTOKENREJECTED ltac:(done)) as (get & -> & Hget).
  destruct (rsa_verify (crypto := crypto) false) as (verify & -> & Hv).
  destruct (bytestring_octets_total _ Hs) as (sig & Esig & _), (bytestring_octets_total _ Hc) as (cert & Ecert & _).
  eapply yields_bind; [exact Hget|intros own_cert ->]; eapply yields_bind; [by apply yields_outcome, signed_by_client_ok|intros data ->].
  eapply yields_bind; [by apply (yields_lift F sig)|intros ? ->]; eapply yields_bind; [by apply (yields_lift F cert)|intros ? ->].
  eapply yields_bind; [apply yields_or_status; [done|]; apply yields_world, Hv|intros ? Hvalid; cbn in Hvalid].
  eapply yields_mono; [apply user_auth_ok|]; intros ? Hauth; cbn in Hauth; by exists cert, sig.
Qed.

Lemma check_identity_ok x token signature : slot_good x → token_ok token → wire_string signature →
  yields F (check_identity x token signature) (λ _, identity_accepted F x token signature).
Proof.
  intros Hx Ht Hs; destruct token as [policy|token|token|]; cbn in Ht |- *; [apply user_auth_ok| | |by apply yields_fail].
  - unfold check_username; eapply yields_bind; [apply yields_channel|intros c ->]; apply yields_if; intros Hp; [by apply yields_fail|]; bool_hyps.
    eapply yields_bind; [by apply decrypt_password_ok; [|apply Ht]|intros password Hpw].
    eapply yields_mono; [apply user_auth_ok|]; intros ? Hauth; cbn in Hauth; split; [done|by exists password].
  - by apply check_user_certificate_ok; [|apply Ht|].
Qed.
End activation.

Lemma found_slot t tok slot : zlen t = MU_MAX_SESSIONS → mu_session_find_by_token t MU_MAX_SESSIONS tok = Some slot →
  0 ≤ slot < MU_MAX_SESSIONS ∧ ∃ x, znth t slot = Some x ∧ t !! Z.to_nat slot = Some x ∧ is_open_slot x = true ∧ ss_auth_token x = tok.
Proof.
  intros Hl Hf; unfold mu_session_find_by_token in Hf; rewrite <- Hl, ztake_all in Hf.
  apply find_slot_sound in Hf as [Hk (x & Hx & Hp)]; rewrite Z.sub_0_r in Hx; bool_hyps; split; [lia|]; exists x; split_and!; try done.
  unfold znth; by rewrite (proj2 (Z.ltb_ge _ _)) by lia.
Qed.

(** A session the request may activate. *)
Record activates (F : mu_server_t Rest) (authentication_token : mu_nodeid_t) (algorithm signature : mu_string_t)
    (type : option Z) (token : identity_token) (user_signature : mu_string_t) (slot : nat) (x : mu_session_t) : Prop := {
  act_slot : sv_sessions F !! slot = Some x;
  act_open : ss_state x ≠ MU_SESSION_STATE_CLOSED;
  act_token : authentication_token = mk_nodeid 0 (MU_NODEID_NUMERIC (ss_auth_token x));
  act_channel : ss_secure_channel_id x = sc_channel_id (sv_secure_channel F);
  act_type : type = Some 321 ∨ type = Some 324 ∨ type = Some 327;
  act_signature : signature_accepted F x algorithm signature;
  act_identity : identity_accepted F x token user_signature
}.

Lemma ns0_numeric id numeric : is_ns0_numeric_id id = Some numeric → id = mk_nodeid 0 (MU_NODEID_NUMERIC numeric).
Proof. destruct id as [ns []]; cbn; try done; destruct (Z.eqb_spec ns 0); [|done]; by intros [= ->]; subst. Qed.

(** The two outcomes of an activation. *)
Definition activation (F : mu_server_t Rest) (authentication_token : mu_nodeid_t) (algorithm signature : mu_string_t)
    (type : option Z) (token : identity_token) (user_signature : mu_string_t) (r : result unit * mu_server_t Rest) : Prop :=
  match r.1 with
  | Ok _ => ∃ w slot x, activates F authentication_token algorithm signature type token user_signature slot x ∧
      r.2 = set_sessions (at_world F w) (<[slot := set_state x MU_SESSION_STATE_ACTIVATED]> (sv_sessions F))
  | Err e => e ≠ MU_STATUS_GOOD ∧ ∃ w, r.2 = at_world F w
  | Fault => False
  end.

Lemma set_sessions_self (s : mu_server_t Rest) t : sv_sessions s = t → set_sessions s t = s.
Proof. intros <-; by destruct s. Qed.

Lemma activate_slot F authentication_token algorithm signature type token user_signature slot x w :
  sv_sessions F !! Z.to_nat slot = Some x → znth (sv_sessions F) slot = Some x → is_open_slot x = true →
  ss_secure_channel_id x = sc_channel_id (sv_secure_channel F) →
  authentication_token = mk_nodeid 0 (MU_NODEID_NUMERIC (ss_auth_token x)) →
  signature_accepted F x algorithm signature → identity_accepted F x token user_signature →
  activation F authentication_token algorithm signature (Some type) token user_signature
    (session slot (mu_session_activate (ss_auth_token x) type) (at_world F w)).
Proof.
  intros Hx Ex Ho Hc -> Hs Hi; unfold session; change (sv_sessions (at_world F w)) with (sv_sessions F); rewrite Ex.
  unfold mu_session_activate; rewrite Z.eqb_refl; cbn [negb].
  destruct (negb (bool_decide _) && _) eqn:E1; [|destruct (negb (type =? 321) && negb (type =? 324) && negb (type =? 327)) eqn:E3].
  all: unfold activation; cbv beta iota; cbn [fst snd].
  1-2: split; [done|]; exists w; by rewrite list_insert_id, set_sessions_self.
  exists w, (Z.to_nat slot), x; split; [|done]; split; try done.
  - unfold is_open_slot in Ho; by bool_hyps.
  - destruct (Z.eqb_spec type 321), (Z.eqb_spec type 324), (Z.eqb_spec type 327); subst; auto; done.
Qed.

Lemma activate_cases F w authentication_token algorithm signature type token user_signature :
  ok F → wire_string algorithm → wire_string signature → token_ok token → wire_string user_signature →
  activation F authentication_token algorithm signature type token user_signature
    (activate authentication_token algorithm signature type token user_signature (at_world F w)).
Proof.
  intros HF Ha Hs Ht Hu; unfold activate.
  assert (Hfail : ∀ e w, e ≠ MU_STATUS_GOOD → activation F authentication_token algorithm signature type token user_signature (Err e, at_world F w)).
  { intros e w' He; split; [done|by exists w']. }
  destruct (is_ns0_numeric_id _) as [tok|] eqn:En; [|by apply Hfail]; apply ns0_numeric in En.
  apply (yields_then F _ _ _ _ _ (yields_sessions F) Hfail); clear w; intros ? w ->.
  destruct (mu_session_find_by_token _ _ _) as [slot|] eqn:Ef; [|by apply Hfail].
  destruct (found_slot _ tok slot (co_size _ _ _ F HF) Ef) as [Hslot (x & Ex & Hx & Hopen & <-)].
  pose proof (proj1 (Forall_lookup _ _) (co_slots _ _ _ F HF) _ _ Hx) as Hgood.
  apply (yields_then F _ _ _ _ _ (yields_lift F x _ Ex) Hfail); clear w; intros ? w ->.
  apply (yields_then F _ _ _ _ _ (yields_channel F) Hfail); clear w; intros ? w ->.
  eapply (yields_then F _ _ (λ _, ss_secure_channel_id x = sc_channel_id (sv_secure_channel F))); [|exact Hfail|clear w; intros _ w Hc].
  { apply yields_outcome; unfold mu_session_validate_secure_channel; destruct (Z.eqb_spec (ss_secure_channel_id x) (sc_channel_id (sv_secure_channel F))); done. }
  destruct type as [type|]; [|by apply Hfail].
  apply (yields_then F _ _ _ _ _ (verify_signature_ok F HF x algorithm signature Hgood Ha Hs) Hfail); clear w; intros ? w Hsig.
  apply (yields_then F _ _ _ _ _ (check_identity_ok F HF x token user_signature Hgood Ht Hu) Hfail); clear w; intros ? w Hid.
  by apply activate_slot.
Qed.

Lemma striple_activate authentication_token algorithm signature type token user_signature :
  wire_string algorithm → wire_string signature → token_ok token → wire_string user_signature →
  cstriple (λ _, True) (status_of (activate authentication_token algorithm signature type token user_signature)) (λ _ _, True).
Proof.
  intros Ha Hs Ht Hu s Hok _; pose proof (activate_cases s (host_world (sv_rest s)) authentication_token algorithm signature type token user_signature Hok Ha Hs Ht Hu) as H.
  rewrite at_world_self in H; unfold status_of; destruct (activate _ _ _ _ _ _ s) as [[[]|e|] s']; cbn in H |- *; [|destruct H as [_ [w ->]]|done].
  - destruct H as (w & slot & x & [Hslot Hopen _ _ _ _ _] & ->).
    pose proof (conn_world sys crypto own s w Hok) as Hok'; pose proof (proj1 (Forall_lookup _ _) (co_slots _ _ _ s Hok) _ _ Hslot) as Hg.
    split_and!; [|transitivity (at_world s w); [apply conn_world_frame|by apply frame_same]|done].
    apply conn_set_sessions; [done| |unfold zlen; rewrite length_insert; apply Hok|apply Forall_insert; [apply Hok|by destruct Hg; split]].
    eapply table_inv_update; [apply Hok|exact Hslot|]; intros _; unfold is_open_slot; by destruct (ss_state x).
  - split_and!; [by apply conn_world|apply conn_world_frame|done].
Qed.

Lemma fill_server_nonce_ok F n : ok F → 0 ≤ n → yields F (fill_server_nonce n) (λ b, zlen b = n ∧ bytes_ok b).
Proof.
  intros HF Hn; apply yields_or_default; [by apply yields_draw; [|intros e He; apply generate_nonce_ok]|].
  split; [unfold zlen; rewrite repeat_length; lia|]; apply Forall_forall; intros x Hx%list_elem_of_In%repeat_spec; subst; by ranges.
Qed.

Lemma handle_activate_session_safe : ctriple handle_activate_session (λ _ _, True).
Proof.
  unfold handle_activate_session; eapply c_read; [apply rsafe_request_header_decode|intros req _].
  eapply c_read; [apply rsafe_activate_session_request|intros [[[[algorithm signature] type] token] user_signature] (Ha & Hs & Ht & Hu)].
  eapply (c_pure sys crypto own _ (λ _, True)); [by apply striple_activate|intros status _].
  eapply c_write; [apply wsafe_write_response_prefix; by ranges|intros _].
  eapply c_yields; [intros F HF; by apply fill_server_nonce_ok|intros nonce [Hl Hb]].
  eapply c_write; [by apply wsafe_write_bytestring, server_nonce_ok|intros _].
  do 2 (eapply c_write; [apply wsafe_unchecked; auto with wsafe|intros _]); eapply c_write; [apply wsafe_writer_status|intros _]; apply c_finish.
Qed.

(** ** CloseSession *)

Lemma striple_engine {A} (m : M mu_subscriptions_t A) φ : egood m φ → cstriple (λ _, True) (engine m) (λ a _, φ a).
Proof.
  intros Hm s Hs _; destruct (Hm _ (co_engine _ _ _ s Hs)) as [Hg Ho]; unfold engine; destruct (m _) as [x e]; cbn [fst snd] in *.
  split_and!; [destruct Hs; split; cbn; rewrite ?sh_config_engine, ?sh_opn_engine, ?host_get_set; done| |done].
  split; try done; exists (host_world (sv_rest s)), e; cbn; by rewrite host_world_get.
Qed.

Lemma delete_session_good id n : ∀ i, (i + n ≤ Z.to_nat MU_MAX_SUBSCRIPTIONS)%nat → egood (delete_session_subscriptions id n i) (λ _, True).
Proof.
  induction n as [|n IH]; intros i Hi; cbn [delete_session_subscriptions]; [by intros e He|].
  intros e He; rewrite (bind_ok get_state _ e e e eq_refl); pose proof (inv_subs_size e (eg_inv e He)) as Hsize.
  destruct (lookup_lt_is_Some_2 (subs_subscriptions e) i) as [sub Hsub]; [unfold zlen in Hsize; lia|]; rewrite Hsub; unfold mbind, M_bind.
  assert (Hd : egood (if sub_in_use (sub_identity sub) && (sub_session_id (sub_identity sub) =? id)
    then or_default tt (mu_subscription_delete id (sub_subscription_id (sub_identity sub))) else mret tt) (λ _, True)).
  { split_if; [|by intros e' He']; intros e' He'; destruct (delete_good id (sub_subscription_id (sub_identity sub)) e' He') as [Hgd Ho].
    unfold or_default; destruct (mu_subscription_delete _ _ e') as [[a|?|] e'']; cbn in *; by split. }
  match type of Hd with egood ?m _ => set (d := m) in * end; destruct (Hd e He) as [Hg Ho]; destruct (d e) as [[a|?|] e']; cbn in *; [apply IH; [lia|done]|by split|done].
Qed.

Lemma close_keeps_slot x tok del : slot_good x →
  (is_open_slot (mu_session_close tok del x).2 = true → is_open_slot x = true ∧
     ss_session_id (mu_session_close tok del x).2 = ss_session_id x ∧ ss_auth_token (mu_session_close tok del x).2 = ss_auth_token x ∧
     ss_revised_session_timeout_ms (mu_session_close tok del x).2 = ss_revised_session_timeout_ms x) ∧
  slot_good (mu_session_close tok del x).2 ∧ outcome_ok (λ _, True) (mu_session_close tok del x).1.
Proof.
  intros Hg; unfold mu_session_close; split_if; [by split_and!|]; split_if; [by split_and!|]; cbn [fst snd].
  split; [by intros ?|]; split; [|done]; split; cbn; try done; try by ranges.
  unfold bytes_ok; repeat (constructor; [by ranges|]); constructor.
Qed.

Lemma close_active_ok slot numeric del : cstriple (λ s, sv_active_session s = Some slot) (close_active slot numeric del) (λ _ _, True).
Proof.
  intros s Hs Ha; pose proof (co_active _ _ _ s Hs slot Ha) as Hslot; revert s Hs Ha.
  change (cstriple (λ s, sv_active_session s = Some slot) (close_active slot numeric del) (λ _ _, True)).
  unfold close_active; eapply (s_bind _ _ _ (λ _ s, sv_active_session s = Some slot)).
  - apply striple_session; [done|]; intros s x Hs Ha Hx Hg; destruct (close_keeps_slot x numeric del Hg) as (Hk & Hg' & Ho).
    split_and!; [by eapply table_inv_update; [apply Hs|exact Hx|]|done|]; by destruct (mu_session_close _ _ _).1.
  - intros _; eapply (s_bind _ _ _ (λ _ _, True)); [|intros _; intros s Hs _].
    + split_if; [|by apply (striple_ret ok conn_frame)]; eapply (s_bind _ _ _ (λ _ _, True)).
      * apply (striple_read sys crypto own); intros s Hs ->; cbn [mbind option_bind].
        destruct (znth_Some (sv_sessions s) slot) as [x ->]; [rewrite (co_size _ _ _ s Hs); lia|done].
      * intros id; apply (striple_engine _ (λ _, True)), delete_session_good; lia.
    + cbn; split_and!; [by destruct Hs; split|by apply frame_same|done].
Qed.

Lemma handle_close_session_safe : ctriple handle_close_session (λ _ _, True).
Proof.
  unfold handle_close_session; eapply c_read; [apply rsafe_request_header_decode|intros req _].
  eapply c_read; [apply rsafe_read_boolean|intros del _].
  eapply (c_server _ _ (λ s s', s' = s)); [intros s Hs _; by split_and!|intros s].
  eapply (c_bind _ _ _ (λ _ _, True)); [|intros status; eapply c_write; [apply wsafe_write_response_prefix; by ranges|intros _; apply c_finish]].
  destruct (sv_active_session s) as [slot|] eqn:Ea; [|by apply (triple_ret ok conn_frame)].
  destruct (nid_identifier _); try by apply (triple_ret ok conn_frame).
  apply (triple_sv ok conn_frame); intros s' Hs ->; destruct (close_active_ok slot numeric del s Hs Ea) as (H1 & H2 & H3).
  unfold status_of; destruct (close_active _ _ _ s) as [[a|e|] s']; cbn in *; by split_and!.
Qed.
End safety.
