(* ===== verification/SessionServiceSpec.v ===== *)
(** * What the channel and session services guarantee

    Safety of the six handlers on arbitrary octets, and who gets in: what the
    server has checked when a channel is opened, a session is created or
    activated. *)

From S2P Require Export SessionLifeSafety.
From S2P Require Import SampleServer.

(** ** Parts of the server a handler leaves alone *)

Section keeps.
  Context {Rest B : Type} (f : mu_server_t Rest → B).

Definition keeps {A} (m : H Rest A) : Prop := ∀ st, f (h_server (m st).2) = f (h_server st).

Lemma keeps_bind {A C} (m : H Rest A) (k : A → H Rest C) : keeps m → (∀ a, keeps (k a)) → keeps (m ≫= k).
Proof.
  intros Hm Hk st; specialize (Hm st); unfold mbind, M_bind; destruct (m st) as [[a|e|] st1]; [|done..].
  cbn in Hm; by rewrite (Hk a st1), Hm.
Qed.

Lemma keeps_rd {A} (m : Rd A) : keeps (rd m).
Proof. intros st; unfold rd; by destruct (m _). Qed.

Lemma keeps_wr {A} (m : Wr A) : keeps (wr m).
Proof. intros st; unfold wr; by destruct (m _). Qed.

Lemma keeps_sv {A} (m : M (mu_server_t Rest) A) : (∀ s, f (m s).2 = f s) → keeps (sv m).
Proof. intros Hm st; specialize (Hm (h_server st)); unfold sv; by destruct (m _). Qed.

Lemma keeps_finish : keeps finish.
Proof. by intros st. Qed.

Lemma keeps_ret {A} (a : A) : keeps (mret a).
Proof. by intros st. Qed.
End keeps.

Ltac keeps_auto :=
  repeat first [apply keeps_bind; [|intros ?] | apply keeps_rd | apply keeps_wr | apply keeps_finish | apply keeps_ret].

(** Successful steps of a handler. *)
Lemma rd_inv {Rest A} (m : Rd A) (st st' : hstate Rest) a : rd m st = (Ok a, st') →
  m (h_reader st) = (Ok a, h_reader st') ∧ h_server st' = h_server st ∧ h_writer st' = h_writer st.
Proof. unfold rd; destruct (m _) as [x r]; by intros [= -> <-]. Qed.

Lemma wr_inv {Rest A} (m : Wr A) (st st' : hstate Rest) a : wr m st = (Ok a, st') →
  m (h_writer st) = (Ok a, h_writer st') ∧ h_server st' = h_server st.
Proof. unfold wr; destruct (m _) as [x w]; by intros [= -> <-]. Qed.

Lemma sv_inv {Rest A} (m : M (mu_server_t Rest) A) (st st' : hstate Rest) a : sv m st = (Ok a, st') →
  m (h_server st) = (Ok a, h_server st').
Proof. unfold sv; destruct (m _) as [x s]; by intros [= -> <-]. Qed.

Lemma wr_skip {Rest A} (m : Wr unit) (k : unit → H Rest A) st a st' : (wr m ≫= k) st = (Ok a, st') →
  ∃ st1, h_server st1 = h_server st ∧ k tt st1 = (Ok a, st').
Proof. intros ([] & st1 & [_ E1]%wr_inv & E)%bind_inv_ok; eauto. Qed.

Lemma rd_step {Rest A} (m : Rd A) (st : hstate Rest) x r : m (h_reader st) = (x, r) →
  rd m st = (x, mk_hstate (h_server st) r (h_writer st) (h_response_length st)).
Proof. unfold rd; by intros ->. Qed.

Lemma sv_step {Rest A} (m : M (mu_server_t Rest) A) (st : hstate Rest) x s : m (h_server st) = (x, s) →
  sv m st = (x, mk_hstate s (h_reader st) (h_writer st) (h_response_length st)).
Proof. unfold sv; by intros ->. Qed.

Section spec.
  Context {auth : AuthProfile} {profile : BaseProfile} {pub : PublishProfile} {caps : BuildCaps} {Hcaps : BuildCapsOk caps}.
  Context {features : ServiceFeatures} {W Rest : Type} {config_host : ConfigHost W Rest} {channel_host : ChannelHost Rest}.
  Context {subscription_host : SubscriptionHost Rest} {laws : SessionHostLaws W Rest}.
  Context (sys : RsaSystem) (crypto : crypto_functions W) (own : list Z).
  Context {contract : CryptoContract crypto} {rsa : RsaContract sys crypto own}.

#[local] Existing Instance conn_frame_preorder.
Abbreviation ok := (conn_ok sys crypto own).

Lemma world_keeps {A B} (f : mu_server_t Rest → B) (m : mu_server_config_t W → M W A) :
  (∀ s w, f (set_rest s (host_set_world (sv_rest s) w)) = f s) → ∀ s, f (world m s).2 = f s.
Proof. intros Hf s; unfold world; destruct (m _ _) as [x w]; apply Hf. Qed.

(** ** ActivateSession *)

(** The part of the handler after the decision. *)
Lemma activate_response_keeps (h status : Z) : keeps (Rest := Rest) sv_sessions (
  wr (write_response_prefix MU_ID_ACTIVATESESSIONRESPONSE h status);;
  nonce ← sv (fill_server_nonce MU_SERVER_NONCE_LENGTH);
  wr (mu_binary_write_bytestring (mk_string MU_SERVER_NONCE_LENGTH (Some nonce)));;
  wr (or_default tt (mu_binary_write_int32 0));;
  wr (or_default tt (mu_binary_write_int32 0));;
  wr writer_status;;
  finish).
Proof.
  keeps_auto; apply keeps_sv; intros s; unfold fill_server_nonce, or_default.
  pose proof (world_keeps sv_sessions (λ cfg w, match cfg_entropy cfg with
    | Some next => let '(g, w) := next w in (mu_session_generate_server_nonce (Some g) MU_SERVER_NONCE_LENGTH, w)
    | None => (mu_session_generate_server_nonce None MU_SERVER_NONCE_LENGTH, w) end) ltac:(done) s) as Hw.
  unfold draw; by destruct (world _ s) as [[] ?].
Qed.

(** ** OpenSecureChannel *)

(** The header, the mode, the client nonce and the lifetime of a request. *)
Definition read_open_request : Rd (mu_request_header_t * Z * mu_string_t * Z) :=
  req ← mu_request_header_decode;
  _ ← or_default 0 mu_binary_read_uint32;
  _ ← or_default 0 mu_binary_read_uint32;
  security_mode ← or_default 0 mu_binary_read_uint32;
  reader_status;;
  client_nonce ← mu_binary_read_bytestring;
  requested_lifetime ← or_default 0 mu_binary_read_uint32;
  reader_status;;
  mret (req, security_mode, client_nonce, requested_lifetime).

(** The certificate of the OPN message is one of the trust list, or the
    integrator has opted out. *)
Definition trusted (s : mu_server_t Rest) : Prop :=
  let cfg := host_config (sv_rest s) in
  let cert := opn_pending_client_cert (host_opn (sv_rest s)) in
  cfg_allow_untrusted_clients cfg = true ∨
  ∃ list octets entry, cfg_trust_list cfg = Some list ∧ bytestring_octets cert = Some octets ∧ octets ≠ [] ∧
    entry ∈ tl_entries list ∧ ztake entry.2 entry.1 = octets.

Definition same_material (k k' : mu_sym_keys_t) : Prop :=
  sk_policy k = sk_policy k' ∧ sk_signing_key k = sk_signing_key k' ∧ sk_encrypting_key k = sk_encrypting_key k' ∧ sk_iv k = sk_iv k'.

(** A channel opened for a mode with these nonces. *)
Record opens (s : mu_server_t Rest) (mode : Z) (client_nonce : mu_string_t) (lifetime : Z) (nonce : list Z) (c : mu_secure_channel_t) : Prop := {
  op_open : sc_is_open c = true;
  op_policy : sc_policy c = sc_policy (sv_secure_channel s) ∧
    requested_policy_id (Some (opn_pending_security_policy (host_opn (sv_rest s)))) = sc_policy c;
  op_mode : sc_mode c = mode ∧
    if protects (sc_policy c) then mode = MU_MESSAGE_SECURITY_MODE_SIGN ∨ mode = MU_MESSAGE_SECURITY_MODE_SIGN_AND_ENCRYPT
    else mode = MU_MESSAGE_SECURITY_MODE_NONE;
  op_lifetime : sc_revised_lifetime c = Z.min 3600000 (Z.max 10000 lifetime);
  op_trust : protects (sc_policy c) = true → trusted s;
  op_keys : protects (sc_policy c) = true → cfg_crypto_adapter (host_config (sv_rest s)) = Some crypto →
    ∃ client_octets, bytestring_octets client_nonce = Some client_octets ∧ client_octets ≠ [] ∧ sc_keys_valid c = true ∧
      let keys secret seed := derived_keys (sc_policy c) (P_SHA256 (crypto := crypto) secret seed (material_length (sc_policy c))) in
      same_material (sc_client_keys c) (keys nonce client_octets) ∧ same_material (sc_server_keys c) (keys client_octets nonce)
}.

Lemma match_entries_sound entries cert n : Forall (λ e, e.2 ≤ zlen e.1) entries → 0 ≤ n ≤ zlen cert →
  match_entries entries cert n = Ok tt → ∃ entry, entry ∈ entries ∧ ztake entry.2 entry.1 = ztake n cert.
Proof.
  intros He Hn; induction He as [|[c k] entries Hc He IH]; cbn [match_entries]; [done|]; cbn in Hc; split_if.
  - bool_hyps; rewrite !mem_load_Some by lia; unfold zdrop; cbn -[ztake]; case_bool_decide as E.
    + intros _; subst k; exists (c, n); split; [left|done].
    + intros H; destruct (IH H) as (entry & ? & ?); exists entry; split; [by right|done].
  - intros H; destruct (IH H) as (entry & ? & ?); exists entry; split; [by right|done].
Qed.

Lemma check_trust_sound s s' : ok s → check_trust s = (Ok tt, s') → protects (sc_policy (sv_secure_channel s)) = true → trusted s.
Proof.
  intros Hs; unfold check_trust, trusted; cbv zeta; intros [= E _] Hp; rewrite Hp in E; cbn [negb orb] in E.
  destruct (cfg_allow_untrusted_clients _); [by left|right].
  destruct (cfg_trust_list _) as [list|] eqn:Et; [|done]; exists list.
  pose proof (cok_trust _ _ _ _ (co_config _ _ _ s Hs) list Et) as Htl; destruct (oo_cert _ (co_opn _ _ _ s Hs)) as [Hcert _].
  set (cert := opn_pending_client_cert _) in *; destruct (Z.leb_spec (str_length cert) 0); [done|].
  unfold mu_trust_list_match in E; destruct (str_data cert) as [d|] eqn:Ed; [|done]; destruct Hcert as [Hcert _].
  destruct ((zlen (tl_entries list) =? 0) || (str_length cert =? 0)); [done|].
  destruct (match_entries _ _ _) as [[]|e|] eqn:Em; [|done..].
  destruct (match_entries_sound _ d (str_length cert) Htl ltac:(lia) Em) as (entry & Hin & Heq).
  exists (ztake (str_length cert) d), entry; split_and!; try done.
  - unfold bytestring_octets; rewrite (proj2 (Z.ltb_lt _ _)) by lia; rewrite Ed; cbn; by rewrite mem_load_Some by lia.
  - intros E0; apply (f_equal zlen) in E0; rewrite zlen_ztake in E0 by lia; change (zlen []) with 0 in E0; lia.
Qed.
Lemma derive_sound policy secret slen seed sdlen sec sd w k w' k' : mem_load secret 0 slen = Some sec → mem_load seed 0 sdlen = Some sd →
  mu_sym_keys_derive crypto policy (Some secret) slen (Some seed) sdlen (w, k) = (Ok tt, (w', k')) →
  k' = derived_keys policy (P_SHA256 (crypto := crypto) sec sd (material_length policy)).
Proof.
  intros Es Ed; destruct (Z.leb_spec sdlen MU_KDF_MAX_SEED) as [Hl|Hl].
  - pose proof (keys_derive_exact crypto policy secret slen seed sdlen sec sd w k Es Ed Hl) as H.
    destruct (mu_sym_keys_derive _ _ _ _ _ _ _) as [x [w1 k1]]; destruct H as [H _]; by intros [= -> -> ->].
  - destruct (policy_lengths policy) as (Hs & He & Hi); unfold mu_sym_keys_derive; cbv zeta; rewrite (proj2 (Z.ltb_ge _ _)) by lia.
    destruct (cc_hmac (crypto := crypto)) as (f & Ef & _); unfold mu_p_sha256; rewrite Ef; by rewrite (proj2 (Z.ltb_lt _ _)) by lia.
Qed.

Lemma prepare_same_keys w k x w' k' : mu_sym_keys_prepare_cipher crypto true (w, k) = (x, (w', k')) → same_material k' k.
Proof.
  unfold mu_sym_keys_prepare_cipher; cbv zeta; unfold mbind, M_bind; intros E.
  destruct (release_cipher crypto (w, k)) as [y [w1 k1]] eqn:E1.
  assert (Hk : same_material k1 k).
  { unfold release_cipher, mu_sym_keys_release_cipher in E1; cbn [fst snd] in E1; repeat case_match; simplify_eq; done. }
  destruct y as [a|e|]; [|by simplify_eq..]; unfold get_state, set_keys, init_cipher, with_cipher in E; cbn [fst snd] in E.
  repeat case_match; simplify_eq; done.
Qed.

Lemma derive_keys_sound policy nonce client_nonce w c w' c' : zlen nonce = 32 → wire_string client_nonce →
  derive_keys crypto policy nonce client_nonce (w, c) = (Ok tt, (w', c')) →
  ∃ octets, bytestring_octets client_nonce = Some octets ∧ octets ≠ [] ∧
    c' = with_keys c (sc_client_keys c') (sc_server_keys c') true ∧
    let keys secret seed := derived_keys policy (P_SHA256 (crypto := crypto) secret seed (material_length policy)) in
    same_material (sc_client_keys c') (keys nonce octets) ∧ same_material (sc_server_keys c') (keys octets nonce).
Proof.
  intros Hn Hc; unfold derive_keys; cbv zeta; destruct Hc as [->|(d & Hd & Hlen & Hb & Hl)]; [done|]; rewrite Hd, Hlen; pose proof (zlen_nonneg d).
  rewrite Z.max_r by lia; destruct (Z.eqb_spec (zlen d) 0) as [|Hd0]; [done|].
  assert (Ed : mem_load d 0 (zlen d) = Some d) by (rewrite mem_load_Some by lia; by rewrite ztake_all).
  assert (En : mem_load nonce 0 MU_SERVER_NONCE_LENGTH = Some nonce).
  { unfold MU_SERVER_NONCE_LENGTH; rewrite mem_load_Some by lia; rewrite <- Hn; by rewrite ztake_all. }
  intros E; apply bind_inv_ok in E as ([] & [w1 c1] & E1 & E); apply bind_inv_ok in E as ([] & [w2 c2] & E2 & E).
  apply bind_inv_ok in E as ([] & [w3 c3] & E3 & E); apply bind_inv_ok in E as ([] & [w4 c4] & E4 & E5).
  unfold client_keys in E1, E4; unfold server_keys in E2, E5; cbn [fst snd] in *.
  destruct (mu_sym_keys_derive _ _ _ _ _ _ (w, _)) as [x1 [w1' k1]] eqn:F1; injection E1 as -> -> <-.
  destruct (mu_sym_keys_derive _ _ _ _ _ _ (w1, _)) as [x2 [w2' k2]] eqn:F2; injection E2 as -> -> <-.
  injection E3 as -> <-; cbn in E4.
  destruct (mu_sym_keys_prepare_cipher _ _ (w3, k1)) as [x4 [w4' k4]] eqn:F4; injection E4 as -> -> <-; cbn in E5.
  destruct (mu_sym_keys_prepare_cipher _ _ (w4, k2)) as [x5 [w5' k5]] eqn:F5; injection E5 as -> -> <-; cbn.
  exists d; split_and!; [|by intros ->|done| |].
  - unfold bytestring_octets; rewrite (proj2 (Z.ltb_lt _ _)) by lia; rewrite Hd, Hlen; cbn; exact Ed.
  - rewrite <- (derive_sound _ _ _ _ _ _ _ _ _ _ _ En Ed F1); by eapply prepare_same_keys.
  - rewrite <- (derive_sound _ _ _ _ _ _ _ _ _ _ _ Ed En F2); by eapply prepare_same_keys.
Qed.
Lemma world_step {A} (m : mu_server_config_t W → M W A) s x s' : world m s = (x, s') → ∃ w, s' = at_world s w.
Proof. unfold world; destruct (m _ _) as [y w]; intros [= _ <-]; by exists w. Qed.

Lemma open_keeps_sessions : keeps (Rest := Rest) sv_sessions handle_open_secure_channel.
Proof.
  unfold handle_open_secure_channel; keeps_auto; try (apply keeps_sv; intros s; done);
    try (apply keeps_sv; intros s; by apply world_keeps).
  - apply keeps_sv; intros s; unfold channel; by destruct (mu_secure_channel_open _ _ _ _).
  - destruct (cfg_crypto_adapter _); [|apply keeps_ret]; split_if; [|apply keeps_ret]; apply keeps_sv; intros s.
    unfold channel_world; by destruct (derive_keys _ _ _ _ _) as [? [? ?]].
Qed.

Lemma channel_open_inv policy mode lifetime c r c' : mu_secure_channel_open policy mode lifetime c = (Ok r, c') →
  requested_policy_id policy = sc_policy c ∧ sc_is_open c' = true ∧ sc_policy c' = sc_policy c ∧
  (if protects (sc_policy c) then mode = MU_MESSAGE_SECURITY_MODE_SIGN ∨ mode = MU_MESSAGE_SECURITY_MODE_SIGN_AND_ENCRYPT
   else mode = MU_MESSAGE_SECURITY_MODE_NONE) ∧
  sc_revised_lifetime c' = Z.min 3600000 (Z.max 10000 lifetime) ∧
  sc_client_keys c' = sc_client_keys c ∧ sc_server_keys c' = sc_server_keys c.
Proof.
  unfold mu_secure_channel_open; destruct (check_open _ _ _) as [[]|e|] eqn:E; [|done..]; apply check_open_ok in E.
  assert (Hl : (if 3600000 <? (if lifetime <? 10000 then 10000 else lifetime) then 3600000 else if lifetime <? 10000 then 10000 else lifetime) =
    Z.min 3600000 (Z.max 10000 lifetime)) by (destruct (Z.ltb_spec lifetime 10000); split_if; bool_hyps; lia).
  assert (Hp : requested_policy_id policy = sc_policy c) by (destruct E as [(-> & -> & _)|(_ & -> & _)]; done).
  assert (Hm : if protects (sc_policy c) then mode = MU_MESSAGE_SECURITY_MODE_SIGN ∨ mode = MU_MESSAGE_SECURITY_MODE_SIGN_AND_ENCRYPT
    else mode = MU_MESSAGE_SECURITY_MODE_NONE) by (destruct E as [(-> & _ & ->)|([->|[->| ->]] & _ & Hm)]; done).
  destruct (sc_is_open c); cbn [negb]; intros E'; injection E' as _ <-; cbn; split_and!; done.
Qed.

(** The first half of the handler: everything that is read. *)
Lemma open_request_read {A} (k : mu_request_header_t → Z → mu_string_t → Z → H Rest A) st a st' :
  (req ← rd mu_request_header_decode;
   _ ← rd (or_default 0 mu_binary_read_uint32);
   _ ← rd (or_default 0 mu_binary_read_uint32);
   security_mode ← rd (or_default 0 mu_binary_read_uint32);
   rd reader_status;;
   client_nonce ← rd mu_binary_read_bytestring;
   requested_lifetime ← rd (or_default 0 mu_binary_read_uint32);
   rd reader_status;;
   k req security_mode client_nonce requested_lifetime) st = (Ok a, st') →
  ∃ header mode client_nonce lifetime st1, read_open_request (h_reader st) = (Ok (header, mode, client_nonce, lifetime), h_reader st1) ∧
    h_server st1 = h_server st ∧ k header mode client_nonce lifetime st1 = (Ok a, st').
Proof.
  intros E; apply bind_inv_ok in E as (header & st1 & E1 & E); apply bind_inv_ok in E as (x2 & st2 & E2 & E).
  apply bind_inv_ok in E as (x3 & st3 & E3 & E); apply bind_inv_ok in E as (mode & st4 & E4 & E).
  apply bind_inv_ok in E as (x5 & st5 & E5 & E); apply bind_inv_ok in E as (client_nonce & st6 & E6 & E).
  apply bind_inv_ok in E as (lifetime & st7 & E7 & E); apply bind_inv_ok in E as (x8 & st8 & E8 & E).
  apply rd_inv in E1 as (E1 & S1 & _), E2 as (E2 & S2 & _), E3 as (E3 & S3 & _), E4 as (E4 & S4 & _), E5 as (E5 & S5 & _),
    E6 as (E6 & S6 & _), E7 as (E7 & S7 & _), E8 as (E8 & S8 & _).
  exists header, mode, client_nonce, lifetime, st8; split_and!; [|congruence|exact E]; unfold read_open_request.
  rewrite (bind_ok _ _ _ _ _ E1), (bind_ok _ _ _ _ _ E2), (bind_ok _ _ _ _ _ E3), (bind_ok _ _ _ _ _ E4), (bind_ok _ _ _ _ _ E5).
  by rewrite (bind_ok _ _ _ _ _ E6), (bind_ok _ _ _ _ _ E7), (bind_ok _ _ _ _ _ E8).
Qed.

Lemma open_request_nonce st header mode client_nonce lifetime r : reader_ok (h_reader (Rest := Rest) st) →
  read_open_request (h_reader st) = (Ok (header, mode, client_nonce, lifetime), r) → wire_string client_nonce.
Proof.
  intros Hr E; assert (Hsafe : rsafe read_open_request (λ '(_, _, n, _), wire_string n)).
  { unfold read_open_request; eapply rsafe_bind; [apply rsafe_request_header_decode|intros req _].
    do 3 (eapply rsafe_bind; [apply rsafe_default_u32|intros ? _]).
    eapply rsafe_bind; [apply rsafe_reader_status|intros ? _]; eapply rsafe_bind; [apply rsafe_read_bytestring|intros n Hn].
    eapply rsafe_bind; [apply rsafe_default_u32|intros ? _].
    eapply rsafe_bind; [apply rsafe_reader_status|intros ? _]; by apply rsafe_ret. }
  destruct (Hsafe _ Hr) as [_ Ho]; rewrite E in Ho; exact Ho.
Qed.

Lemma trusted_frame s s' : host_config (sv_rest s') = host_config (sv_rest s) → host_opn (sv_rest s') = host_opn (sv_rest s) →
  trusted s' → trusted s.
Proof. intros E1 E2; unfold trusted; by rewrite E1, E2. Qed.

(** Keys are derived at the end. *)
Lemma open_keys st st' (c : mu_secure_channel_t) nonce client_nonce : ok (h_server st) → zlen nonce = 32 → wire_string client_nonce →
  (match cfg_crypto_adapter (host_config (sv_rest (h_server st))) with
   | Some crypto =>
       if protects (sc_policy c) then sv (channel_world (derive_keys crypto (sc_policy c) nonce client_nonce)) else mret tt
   | None => mret tt
   end) st = (Ok tt, st') →
  let c1 := sv_secure_channel (h_server st) in
  let c' := sv_secure_channel (h_server st') in
  sc_is_open c' = sc_is_open c1 ∧ sc_policy c' = sc_policy c1 ∧ sc_mode c' = sc_mode c1 ∧ sc_revised_lifetime c' = sc_revised_lifetime c1 ∧
  (protects (sc_policy c) = true → cfg_crypto_adapter (host_config (sv_rest (h_server st))) = Some crypto →
   ∃ octets, bytestring_octets client_nonce = Some octets ∧ octets ≠ [] ∧ sc_keys_valid c' = true ∧
     let keys secret seed := derived_keys (sc_policy c) (P_SHA256 (crypto := crypto) secret seed (material_length (sc_policy c))) in
     same_material (sc_client_keys c') (keys nonce octets) ∧ same_material (sc_server_keys c') (keys octets nonce)).
Proof.
  intros Hs Hn Hcn E; cbv zeta; destruct (cok_crypto _ _ _ _ (co_config _ _ _ _ Hs)) as [Ec|Ec]; rewrite Ec in *; [by injection E as <-|].
  destruct (protects (sc_policy c)); [|by injection E as <-]; apply sv_inv in E; unfold channel_world in E.
  destruct (derive_keys _ _ _ _ _) as [x [w c']] eqn:Ed; injection E as -> <-; cbn.
  destruct (derive_keys_sound _ _ _ _ _ _ _ Hn Hcn Ed) as (octets & E1 & E2 & -> & E3 & E4); cbn; split_and!; try done.
  intros _ _; exists octets; split_and!; done.
Qed.

Lemma open_success st st' : ctx_ok ok st → handle_open_secure_channel st = (Ok tt, st') →
  ∃ header mode client_nonce lifetime r nonce,
    read_open_request (h_reader st) = (Ok (header, mode, client_nonce, lifetime), r) ∧
    (draw opn_nonce (h_server st)).1 = Ok nonce ∧ zlen nonce = 32 ∧
    opens (h_server st) mode client_nonce lifetime nonce (sv_secure_channel (h_server st')).
Proof.
  intros [Hr Hw Hs] E; apply open_request_read in E as (header & mode & client_nonce & lifetime & st1 & Er & S1 & E).
  pose proof (open_request_nonce _ _ _ _ _ _ Hr Er) as Hcn; exists header, mode, client_nonce, lifetime, (h_reader st1).
  apply bind_inv_ok in E as (nonce & st2 & E2 & E); apply sv_inv in E2; rewrite S1 in E2; exists nonce; split; [exact Er|].
  assert (Hn : zlen nonce = 32).
  { destruct (yields_draw sys crypto own _ Hs opn_nonce _ opn_nonce_ok (host_world (sv_rest (h_server st)))) as (? & ? & Ho).
    rewrite at_world_self in Ho; rewrite E2 in Ho; apply Ho. }
  split; [by rewrite E2|]; split; [exact Hn|]; destruct (world_step _ _ _ _ E2) as [w2 S2]; clear E2.
  apply bind_inv_ok in E as (policy & st3 & E3 & E); apply sv_inv in E3; unfold opn in E3; injection E3 as <- S3; rewrite sh_opn_get in S3.
  assert (S3' : h_server st3 = at_world (h_server st) w2) by (rewrite <- S2, <- S3; by destruct (h_server st2)).
  rewrite S2 in E; change (sv_rest (at_world (h_server st) w2)) with (host_set_world (sv_rest (h_server st)) w2) in E; clear S2 S3 st2.
  rewrite sh_opn_world in E; apply bind_inv_ok in E as (revised & st4 & E4 & E); apply sv_inv in E4; rewrite S3' in E4.
  unfold channel in E4; change (sv_secure_channel (at_world (h_server st) w2)) with (sv_secure_channel (h_server st)) in E4.
  destruct (mu_secure_channel_open _ _ _ _) as [x c] eqn:Eo; injection E4 as -> S4; destruct (channel_open_inv _ _ _ _ _ _ Eo) as (P1 & P2 & P3 & P4 & P5 & K1 & K2).
  apply bind_inv_ok in E as ([] & st5 & E5 & E); apply sv_inv in E5.
  assert (Hs4 : ok (h_server st4)).
  { rewrite <- S4; apply conn_set_channel; [by apply conn_world|]; unfold channel_ready; rewrite K1, K2; apply Hs. }
  assert (S5 : h_server st5 = h_server st4) by (by injection E5).
  assert (Htrust : protects (sc_policy c) = true → trusted (h_server st)).
  { intros Hp; eapply trusted_frame; [| |eapply check_trust_sound; [exact Hs4|exact E5|by rewrite <- S4]]; rewrite <- S4; cbn.
    - apply host_config_set.
    - apply sh_opn_world. }
  apply bind_inv_ok in E as ([] & st6 & E6 & E); apply wr_inv in E6 as [_ S6].
  apply bind_inv_ok in E as (now & st7 & E7 & E); apply sv_inv, world_step in E7 as [w7 S7].
  apply bind_inv_ok in E as (c8 & st8 & E8 & E); apply sv_inv in E8; injection E8 as <- S8.
  do 7 (apply wr_skip in E as (? & ? & E)).
  apply bind_inv_ok in E as ([] & st9 & E9 & E); apply sv_inv in E9; unfold channel, set_mode in E9; injection E9 as S9.
  apply bind_inv_ok in E as (cfg & st10 & E10 & E); apply sv_inv in E10; injection E10 as <- S10.
  apply bind_inv_ok in E as ([] & st11 & E11 & E); injection E as <-; cbn [h_server].
  assert (Hc8 : sv_secure_channel (h_server st7) = c) by (rewrite S7; cbn; rewrite S6, S5, <- S4; done).
  assert (S : h_server st10 = set_channel (at_world (at_world (h_server st) w2) w7) (set_mode mode c).2).
  { rewrite <- S10, <- S9; repeat match goal with H : h_server ?x = h_server ?y |- _ => rewrite H end; rewrite <- S8, S7, S6, S5, <- S4; done. }
  assert (Hs10 : ok (h_server st10)).
  { rewrite S; apply conn_set_channel; [by do 2 apply conn_world|]; unfold channel_ready; cbn; rewrite K1, K2; apply Hs. }
  rewrite S10 in E11; destruct (open_keys _ _ _ _ _ Hs10 Hn Hcn E11) as (Q1 & Q2 & Q3 & Q4 & Q5); rewrite S in Q1, Q2, Q3, Q4, Q5; cbn in Q1, Q2, Q3, Q4, Q5.
  rewrite Hc8 in Q5; rewrite !host_config_set in Q5.
  split; rewrite ?Q1, ?Q2, ?Q3, ?Q4; rewrite ?P3; try done.
  - by rewrite <- P3.
  - by rewrite <- P3.
Qed.

(** C14: when OpenSecureChannel succeeds, the request decoded, the nonce the
    adapter drew for it has 32 octets, and the channel is open with the policy
    the OPN message names, the requested mode, one that fits the policy, and
    the clamped lifetime. Under a policy that protects messages, the
    certificate of the message is in the trust list unless the integrator has
    opted out of it, and, with a crypto adapter, both key sets are those
    P_SHA256 derives from the two nonces: the client's with the server's nonce
    as secret, the server's with the client's. The session table is left
    alone, and no request leads to undefined behaviour. *)
Theorem open_secure_channel_secure st : ctx_ok ok st →
  let s := h_server st in
  match handle_open_secure_channel st with
  | (Ok _, st') => ∃ header mode client_nonce lifetime r nonce,
      read_open_request (h_reader st) = (Ok (header, mode, client_nonce, lifetime), r) ∧
      (draw opn_nonce s).1 = Ok nonce ∧ zlen nonce = 32 ∧
      opens s mode client_nonce lifetime nonce (sv_secure_channel (h_server st')) ∧ sv_sessions (h_server st') = sv_sessions s
  | (Err e, st') => e ≠ MU_STATUS_GOOD ∧ sv_sessions (h_server st') = sv_sessions s
  | (Fault, _) => False
  end.
Proof.
  intros Hst; cbv zeta; pose proof (open_keeps_sessions st) as Hk.
  destruct (handle_open_secure_channel_safe sys crypto own st Hst Logic.I) as [_ Ho].
  destruct (handle_open_secure_channel st) as [[[]|e|] st'] eqn:E; cbn in *; [|done|done].
  destruct (open_success st st' Hst E) as (header & mode & client_nonce & lifetime & r & nonce & ? & ? & ? & ?); eauto 15.
Qed.
(** ** CloseSession *)

(** Every subscription of a session other than 0 is where it was. *)
Definition subscriptions_kept (e e' : mu_subscriptions_t) : Prop :=
  ∀ i sub, subs_subscriptions e !! i = Some sub → sub_session_id (sub_identity sub) ≠ 0 → subs_subscriptions e' !! i = Some sub.

Lemma delete_nobody id e : subscriptions_kept e (mu_subscription_delete 0 id e).2.
Proof.
  intros i sub Hi Hn; unfold mu_subscription_delete; destruct (mu_subscription_find e 0 id) as [[j x]|] eqn:E; [|exact Hi].
  apply list_find_Some in E as (Hj & Ho & _); destruct (delete_items _ _ _); cbn.
  assert (i ≠ j) by (intros ->; rewrite Hi in Hj; injection Hj as ->; by destruct Ho as (_ & ? & _)); by rewrite list_lookup_insert_ne.
Qed.

Lemma delete_session_nobody n : ∀ i e, subscriptions_kept e (delete_session_subscriptions 0 n i e).2.
Proof.
  induction n as [|n IH]; intros i e; [by intros j sub ? _|]; cbn [delete_session_subscriptions]; rewrite (bind_ok get_state _ e e e eq_refl).
  destruct (subs_subscriptions e !! i) as [x|]; [|rewrite (bind_fault fault _ e e eq_refl); by intros j sub ? _].
  match goal with |- context [(?m ≫= _) e] => set (d := m) end; assert (Hd : subscriptions_kept e (d e).2).
  { unfold d; split_if; [|by intros j sub ? _]; pose proof (delete_nobody (sub_subscription_id (sub_identity x)) e) as H; unfold or_default.
    by destruct (mu_subscription_delete _ _ e) as [[]]. }
  unfold mbind, M_bind; destruct (d e) as [[a|err|] e']; [|done..]; intros j sub Hj Hn; apply IH; [by apply Hd|done].
Qed.

Lemma close_active_leaks slot numeric del s : ok s → sv_active_session s = Some slot →
  subscriptions_kept (host_engine (sv_rest s)) (host_engine (sv_rest (close_active slot numeric del s).2)).
Proof.
  intros Hs Ha; pose proof (co_active _ _ _ s Hs slot Ha) as Hslot; unfold close_active, session.
  destruct (znth_Some (sv_sessions s) slot) as [x Hx]; [rewrite (co_size _ _ _ s Hs); lia|]; unfold mbind at 1, M_bind at 1; rewrite Hx.
  unfold mu_session_close; split_if; [by intros i sub ?|]; split_if; [by intros i sub ?|]; cbv iota beta.
  set (s1 := set_sessions s _); unfold mbind at 1, M_bind at 1; destruct MUC_OPCUA_SUBSCRIPTIONS; [|by intros i sub ?].
  assert (Eid : active_session_id s1 = (Ok 0, s1)).
  { unfold active_session_id, s1; cbn [set_sessions sv_sessions sv_active_session]; rewrite Ha; cbn [mbind option_bind]; unfold znth.
    rewrite (proj2 (Z.ltb_ge _ _)) by lia; rewrite list_lookup_insert_eq; [done|].
    pose proof (co_size _ _ _ s Hs); unfold zlen in *; lia. }
  rewrite (bind_ok _ _ _ _ _ Eid); unfold engine; change (sv_rest s1) with (sv_rest s).
  pose proof (delete_session_nobody (Z.to_nat MU_MAX_SUBSCRIPTIONS) 0 (host_engine (sv_rest s))) as Hk.
  destruct (delete_session_subscriptions _ _ _ _) as [[u|e|] e']; [change (subscriptions_kept (host_engine (sv_rest s)) (host_engine (host_set_engine (sv_rest s) e')))|cbn..];
    by rewrite host_get_set.
Qed.
Definition leaves_subscriptions (s s' : mu_server_t Rest) : Prop :=
  subscriptions_kept (host_engine (sv_rest s)) (host_engine (sv_rest s')).

#[local] Instance leaves_subscriptions_preorder : PreOrder leaves_subscriptions.
Proof. split; [by intros s i sub ? _|]; intros a b c Hab Hbc i sub Hi Hn; apply Hbc; [by apply Hab|done]. Qed.

Abbreviation ltriple := (triple ok leaves_subscriptions).

Lemma close_leaves : ltriple (λ _, True) handle_close_session (λ _ _, True).
Proof.
  unfold handle_close_session; eapply (triple_read ok leaves_subscriptions); [apply rsafe_request_header_decode|intros req _].
  eapply (triple_read ok leaves_subscriptions); [apply rsafe_read_boolean|intros del _].
  eapply (triple_server ok leaves_subscriptions _ _ (λ s s', s' = s)); [intros s Hs _; by split_and!|intros s].
  eapply (triple_bind ok leaves_subscriptions _ _ _ (λ _ _, True)).
  2:{ intros status; eapply (triple_write ok leaves_subscriptions); [apply wsafe_write_response_prefix; by ranges|intros _; apply triple_finish; apply _]. }
  destruct (sv_active_session s) as [slot|] eqn:Ea; [|by apply (triple_ret ok leaves_subscriptions)].
  destruct (nid_identifier _); try by apply (triple_ret ok leaves_subscriptions).
  apply (triple_sv ok leaves_subscriptions); intros s' Hs ->; destruct (close_active_ok sys crypto own slot numeric del s Hs Ea) as (H1 & _ & H3).
  pose proof (close_active_leaks slot numeric del s Hs Ea) as Hl.
  unfold status_of; destruct (close_active _ _ _ s) as [[a|e|] s']; cbn in *; by split_and!.
Qed.

(** CloseSession deletes no subscription of a session that can exist:
    whatever the request asks for and whatever it returns, every subscription
    that belongs to a session id other than 0 stays in its slot, unchanged.
    (Session ids are never 0.) The handler looks the subscriptions up by the
    id of the slot it has just reset. *)
Theorem close_session_leaves_subscriptions st : ctx_ok ok st →
  subscriptions_kept (host_engine (sv_rest (h_server st))) (host_engine (sv_rest (h_server (handle_close_session st).2))).
Proof. intros Hst; destruct (close_leaves st Hst Logic.I) as [Hs _]; apply (cs_frame _ _ _ _ Hs). Qed.
(** ** CreateSession *)

(** A new session in [slot], which was free: bound to the channel, with
    identifiers that no open session has and the nonce that was drawn. *)
Record creates (s : mu_server_t Rest) (slot : nat) (x : mu_session_t) : Prop := {
  cr_free : ∃ old, sv_sessions s !! slot = Some old ∧ ss_state old = MU_SESSION_STATE_CLOSED;
  cr_state : ss_state x = MU_SESSION_STATE_CREATED;
  cr_channel : ss_secure_channel_id x = sc_channel_id (sv_secure_channel s);
  cr_ids : ss_session_id x ≠ 0 ∧ ss_auth_token x ≠ 0;
  cr_fresh i y : sv_sessions s !! i = Some y → is_open_slot y = true → ss_session_id y ≠ ss_session_id x ∧ ss_auth_token y ≠ ss_auth_token x;
  cr_nonce : (draw (λ e, mu_session_generate_server_nonce e MU_SERVER_NONCE_LENGTH) s).1 = Ok (ss_server_nonce x)
}.

Lemma check_channel_certificate_sound s s' cert : ok s → check_channel_certificate cert s = (Ok tt, s') →
  protects (sc_policy (sv_secure_channel s)) = true →
  let o := host_opn (sv_rest s) in
  channel_client_cert_len o ≠ 0 ∧ bytestring_octets cert = Some (ztake (channel_client_cert_len o) (channel_client_cert o)).
Proof.
  intros Hs; unfold check_channel_certificate; cbv zeta; intros [= E _] Hp; rewrite Hp in E; cbn [negb] in E.
  destruct (_ || _) eqn:Hb; [done|]; bool_hyps; unfold bytestring_octets.
  destruct (co_opn _ _ _ s Hs) as [_ _ [Hbuf _] Hlen]; rewrite (proj2 (Z.ltb_lt _ _)) by lia.
  destruct (str_data cert) as [d|]; [|done]; cbn [mbind option_bind] in *.
  replace (str_length cert) with (channel_client_cert_len (host_opn (sv_rest s))) by lia.
  destruct (mem_load d 0 _) as [x|]; [|done]; rewrite mem_load_Some in E by lia; cbn in E; case_bool_decide; [|done]; subst x.
  split; [lia|done].
Qed.
Lemma draw_yields {A} (f : entropy_t → result A) φ s a s' : ok s → (∀ e, entropy_ok e → outcome_ok φ (f e)) → draw f s = (Ok a, s') →
  φ a ∧ ∃ w, s' = at_world s w.
Proof.
  intros Hs Hf E; destruct (world_step _ _ _ _ E) as [w ->]; split; [|by exists w].
  destruct (yields_draw sys crypto own s Hs f φ Hf (host_world (sv_rest s))) as (w' & _ & Ho); rewrite at_world_self in Ho.
  by rewrite E in Ho.
Qed.

Lemma create_slot_sound bits s slot revised nonce s' : ok s → create_slot bits s = (Ok (slot, revised, nonce), s') →
  zlen nonce = 32 ∧ ∃ id tok ms old w, 0 ≤ slot ∧ sv_sessions s !! Z.to_nat slot = Some old ∧
    creates s (Z.to_nat slot) (mk_session MU_SESSION_STATE_CREATED id tok ms nonce (sc_channel_id (sv_secure_channel s))) ∧
    slot_good old ∧
    s' = set_sessions (at_world s w) (<[Z.to_nat slot := mk_session MU_SESSION_STATE_CREATED id tok ms (ss_server_nonce old)
           (sc_channel_id (sv_secure_channel s))]> (sv_sessions s)).
Proof.
  pose proof caps_sessions as Hcap; assert (Hm : 0 ≤ MU_MAX_SESSIONS < 65535) by lia; intros Hs E; apply bind_inv_ok in E as (nonce' & s1 & E1 & E).
  destruct (draw_yields _ _ _ _ _ Hs (λ e He, generate_nonce_ok e 32 ltac:(lia) He) E1) as [[Hn _] [w1 ->]]; pose proof (conn_world sys crypto own s w1 Hs) as Hs1.
  rewrite (bind_ok the_sessions _ _ _ _ eq_refl) in E; change (sv_sessions (at_world s w1)) with (sv_sessions s) in E.
  destruct (mu_session_find_free _ _) as [i|] eqn:Ef; [|done].
  destruct (free_slot _ _ (co_size _ _ _ s Hs) Ef) as [Hi (old & Hold & Hclosed)].
  apply bind_inv_ok in E as (id & s2 & E2 & E).
  destruct (draw_yields _ _ _ _ _ Hs1 (λ e He, session_id_ok (sv_sessions s) MU_MAX_SESSIONS e Hm He) E2) as [(_ & Hid & Hida) [w2 ->]].
  pose proof (conn_world sys crypto own _ w2 Hs1) as Hs2; apply bind_inv_ok in E as (tok & s3 & E3 & E).
  destruct (draw_yields _ _ _ _ _ Hs2 (λ e He, auth_token_ok (sv_sessions s) MU_MAX_SESSIONS e Hm He) E3) as [(_ & Htok & Htoka) [w3 ->]].
  rewrite (bind_ok the_channel _ _ _ _ eq_refl) in E; apply bind_inv_ok in E as (ids & s4 & E4 & E); injection E as <- <- <- <-.
  unfold session in E4; cbn [at_world set_rest sv_sessions sv_secure_channel] in E4.
  destruct (create_ok_slot bits id tok (sc_channel_id (sv_secure_channel s)) old Hclosed) as (rev & ms & Ec & _ & _).
  assert (Ez : znth (sv_sessions s) i = Some old) by (unfold znth; by rewrite (proj2 (Z.ltb_ge _ _)) by lia).
  rewrite Ez, Ec in E4; injection E4 as _ <-; pose proof (co_size _ _ _ s Hs) as Hsize.
  split; [exact Hn|]; exists id, tok, ms, old, w3; split_and!; [lia|done| | |].
  - split; cbn; [by exists old|done|done|done| |by rewrite E1].
    assert (Hin : ∀ (f : mu_session_t → Z) k y, sv_sessions s !! k = Some y → is_open_slot y = true → f y ∈ f <$> open_slots (sv_sessions s)).
    { intros f k y Hy Ho; apply list_elem_of_fmap_2, list_elem_of_filter; split; [done|by eapply list_elem_of_lookup_2]. }
    intros k y Hy Ho; split; intros Heq.
    + eapply (active_fresh ss_session_id (sv_sessions s) MU_MAX_SESSIONS id); [lia|exact Hida|]; rewrite <- Heq; by eapply Hin.
    + eapply (active_fresh ss_auth_token (sv_sessions s) MU_MAX_SESSIONS tok); [lia|exact Htoka|]; rewrite <- Heq; by eapply Hin.
  - by apply (proj1 (Forall_lookup _ _) (co_slots _ _ _ s Hs) _ _ Hold).
  - unfold at_world; cbn; rewrite !host_world_set_set; done.
Qed.
Lemma create_response_keeps ids bits nonce client_nonce client_cert : keeps (Rest := Rest) sv_sessions (
  wr (mu_binary_write_nodeid (mk_nodeid 0 (MU_NODEID_NUMERIC (ids : Z * Z).1)));;
  wr (mu_binary_write_nodeid (mk_nodeid 0 (MU_NODEID_NUMERIC ids.2)));;
  wr (mu_binary_write_uint64 bits);;
  wr (mu_binary_write_bytestring (mk_string MU_SERVER_NONCE_LENGTH (Some nonce)));;
  cert ← sv (world own_certificate);
  wr (mu_binary_write_bytestring (cstr cert));;
  eps ← sv (world (λ cfg, mu_discovery_get_endpoints cfg MU_DISCOVERY_MAX_ENDPOINTS));
  wr (mu_binary_write_int32 (to_i32 (zlen eps)));;
  wr (wr_list mu_endpoint_description_encode eps);;
  wr (mu_binary_write_int32 0);;
  sig ← sv (server_signature client_nonce client_cert);
  wr (mu_binary_write_string (cstr (fst <$> sig)));;
  wr (mu_binary_write_bytestring (cstr (snd <$> sig)));;
  wr (mu_binary_write_uint32 0);;
  finish).
Proof.
  keeps_auto; try (apply keeps_sv; intros s; by apply world_keeps); apply keeps_sv; intros s.
  unfold server_signature; rewrite (bind_ok the_channel _ _ _ _ eq_refl), (bind_ok config _ _ _ _ eq_refl).
  destruct (cfg_crypto_adapter _) as [cr|]; [|done]; destruct (mu_security_policy_asym_signature_uri _) as [uri|]; [|done].
  split_if; [|done]; split_if; [|done]; destruct (bytestring_octets client_cert) as [cc|]; [|done]; cbn [lift_option].
  rewrite (bind_ok (mret cc) _ _ _ _ eq_refl); destruct (bytestring_octets client_nonce) as [cn|]; [|done]; cbn [lift_option].
  rewrite (bind_ok (mret cn) _ _ _ _ eq_refl); unfold or_default, mbind, M_bind.
  match goal with |- context [world ?m s] => pose proof (world_keeps sv_sessions m ltac:(done) s) as Hw; destruct (world m s) as [[]] end; done.
Qed.

(** C40: when CreateSession succeeds, the whole request was decoded, and exactly
    one slot of the session table, a free one, now holds a created session: it
    is bound to the SecureChannel of the request, its two identifiers are not
    0 and differ from those of every open session, and it keeps the nonce the
    adapter drew for it. On a channel that protects its messages the request
    carries the certificate the channel was opened with. *)
Theorem create_session_bound st st' : ctx_ok ok st → handle_create_session st = (Ok tt, st') →
  let s := h_server st in
  let o := host_opn (sv_rest s) in
  ∃ req r1 bits client_nonce client_cert r2 slot x,
    mu_request_header_decode (h_reader st) = (Ok req, r1) ∧
    read_create_session_request r1 = (Ok (bits, client_nonce, client_cert), r2) ∧ r_position r2 = r_length r2 ∧
    creates s slot x ∧ sv_sessions (h_server st') = <[slot := x]> (sv_sessions s) ∧
    (protects (sc_policy (sv_secure_channel s)) = true → channel_client_cert_len o ≠ 0 ∧
     bytestring_octets client_cert = Some (ztake (channel_client_cert_len o) (channel_client_cert o))).
Proof.
  intros [Hr Hw Hs] E; cbv zeta; apply bind_inv_ok in E as (req & st1 & E1 & E); apply rd_inv in E1 as (E1 & S1 & _).
  apply bind_inv_ok in E as ([[bits client_nonce] client_cert] & st2 & E2 & E); apply rd_inv in E2 as (E2 & S2 & _).
  apply bind_inv_ok in E as ([] & st3 & E3 & E); apply rd_inv in E3 as (E3 & S3 & _).
  exists req, (h_reader st1), bits, client_nonce, client_cert, (h_reader st2).
  assert (Hpos : r_position (h_reader st2) = r_length (h_reader st2)).
  { unfold body_consumed in E3; rewrite (bind_ok get_state _ _ _ _ eq_refl) in E3; destruct (Z.eqb_spec (r_position (h_reader st2)) (r_length (h_reader st2))); [done|by cbn in E3]. }
  apply bind_inv_ok in E as ([] & st4 & E4 & E); apply sv_inv in E4; rewrite S3, S2, S1 in E4.
  pose proof (check_channel_certificate_sound _ _ _ Hs E4) as Hcert; injection E4 as _ S4.
  apply bind_inv_ok in E as ([[slot revised] nonce] & st5 & E5 & E); apply sv_inv in E5; rewrite <- S4 in E5.
  destruct (create_slot_sound _ _ _ _ _ _ Hs E5) as (Hn & id & tok & ms & old & w & Hslot & Hold & Hcr & Hgood & S5).
  apply wr_skip in E as (st6 & S6 & E); apply bind_inv_ok in E as (ids & st7 & E7 & E); apply sv_inv in E7; rewrite S6, S5 in E7.
  unfold session in E7; cbn [set_sessions sv_sessions] in E7; unfold znth in E7; rewrite (proj2 (Z.ltb_ge _ _)) in E7 by lia.
  rewrite list_lookup_insert_eq in E7 by (by eapply lookup_lt_Some); unfold store_nonce in E7; cbn [ss_server_nonce] in E7.
  rewrite mem_load_all in E7 by exact Hn; cbn [mbind option_bind] in E7; destruct Hgood as [Hg1 Hg2 _ _].
  rewrite mem_store_Some in E7 by lia; change (ztake 0 (ss_server_nonce old)) with (@nil Z) in E7.
  assert (Hdrop : zdrop (0 + zlen nonce) (ss_server_nonce old) = []) by (apply drop_ge; unfold zlen in *; lia).
  rewrite Hdrop in E7; cbn [app] in E7; rewrite app_nil_r in E7; injection E7 as _ S7.
  pose proof (create_response_keeps ids revised nonce client_nonce client_cert st7) as Hk; rewrite E in Hk; cbn [snd] in Hk.
  eexists (Z.to_nat slot), _; split_and!; [done..|exact Hcr| |exact Hcert].
  rewrite Hk, <- S7; cbn; by rewrite list_insert_insert_eq.
Qed.

(** ** Safety *)

Definition session_services : list (H Rest unit) :=
  [handle_find_servers; handle_get_endpoints; handle_open_secure_channel; handle_create_session; handle_activate_session; handle_close_session].

(** C13: the FindServers, GetEndpoints, OpenSecureChannel, CreateSession,
    ActivateSession and CloseSession handlers are memory safe on arbitrary
    request octets, with or without a crypto adapter. On every path they keep
    the invariant: the configuration, the OPN parameters, the session table
    with its distinct identifiers, the key sets and the subscription engine
    stay well formed. They change nothing of the server but its channel, its
    sessions and its engine; the response is written inside its buffer. *)
Theorem session_services_safe st handler : ctx_ok ok st →
  handler ∈ session_services →
  ctx_step ok conn_frame st (handler st).2 ∧ outcome_ok (λ _, True) (handler st).1.
Proof.
  intros Hst Hin; assert (Ht : triple ok conn_frame (λ _, True) handler (λ _ _, True)); [|exact (Ht st Hst Logic.I)].
  unfold session_services in Hin; rewrite !elem_of_cons, elem_of_nil in Hin; destruct Hin as [->|[->|[->|[->|[->|[->|[]]]]]]].
  - by eapply handle_find_servers_safe.
  - by eapply handle_get_endpoints_safe.
  - by eapply handle_open_secure_channel_safe.
  - by eapply handle_create_session_safe.
  - by eapply handle_activate_session_safe.
  - by eapply handle_close_session_safe.
Qed.
End spec.

(** ** A sample run *)

Section laws.
  Context {W : Type}.

#[export] Instance rest_engine_laws : SubscriptionHostLaws (server_rest W).
Proof. split; intros; try done; by destruct x. Qed.

#[export] Instance rest_session_laws : SessionHostLaws W (server_rest W).
Proof. split; try apply _; try (split); intros; try done; by destruct x. Qed.
End laws.

Module SessionSample.
#[local] Existing Instances embedded_profile embedded_caps all_features demo_pub Sample.sample_auth.

Definition adapter : crypto_functions unit := model_adapter 256.
Definition own : list Z := [48; 130].
Definition client_cert : list Z := [1; 2; 3].
Definition policy_uri : list Z := default [] (mu_security_policy_uri MU_SECURITY_POLICY_BASIC256SHA256_ID).
Definition sys : RsaSystem := model_rsa 256 ltac:(lia).
#[local] Instance sys_contract : RsaContract sys adapter own := model_rsa_contract 256 ltac:(lia).

Definition config : mu_server_config_t unit :=
  mk_server_config (Some Sample.sample_url) None None None None None (mk_transport_config 8192 8192 1 8192) 1 1
    (mk_tcp_adapter None None None None None None) None None (Some (λ w, (λ n, Ok (replicate (Z.to_nat n) 7), w)))
    (Some adapter) None false None (Some (mk_trust_list [(client_cert, 3)])) false (mk_pubsub_connection 0 false 0 None) None None
    (mk_history_adapter None None None).

(** An OPN message with the certificate has come in. *)
Definition server : mu_server_t (server_rest unit) :=
  let c := (set_policy MU_SECURITY_POLICY_BASIC256SHA256_ID mu_secure_channel_init).2 in
  let opn := mk_opn_state (mk_string (zlen policy_uri) (Some policy_uri)) (mk_string 3 (Some client_cert))
               (client_cert ++ replicate (Z.to_nat (MU_MAX_CLIENT_CERT_SIZE - 3)) 0) 3 in
  mk_server c (repeat mu_session_init (Z.to_nat MU_MAX_SESSIONS)) None None None None [] None []
    (mk_rest config tt opn mu_subscriptions_init 0 init_space [] [] []).

Definition call (s : mu_server_t (server_rest unit)) (request : list Z) : hstate (server_rest unit) :=
  mk_hstate s (mu_binary_reader_init (Some request) (zlen request)) (mu_binary_writer_init (Some (Sample.zeros 4096)) 4096) 0.

Lemma server_ok : conn_ok sys adapter own server.
Proof.
  split; cbn [server sv_rest sv_sessions sv_active_session sv_secure_channel host_config host_opn host_engine rest_config rest_channel rest_subscriptions rs_config rs_opn rs_subs].
  - split; try done; try by (split; [repeat constructor; by ranges|vm_compute; discriminate]).
    + intros next w [= <-] f n [= <-] Hn; split; [unfold zlen; rewrite length_replicate; lia|apply Forall_replicate; by ranges].
    + by right.
    + intros t [= <-]; repeat constructor; vm_compute; discriminate.
  - split; cbn -[zlen replicate].
    + exact (cstr_ok (Some policy_uri) (const_cstring policy_uri eq_refl eq_refl)).
    + exact (cstr_ok (Some client_cert) (const_cstring client_cert eq_refl eq_refl)).
    + split; [done|]; do 3 (constructor; [by ranges|]); apply Forall_replicate; by ranges.
    + vm_compute; split; discriminate.
  - apply initial_table_inv.
  - reflexivity.
  - apply List.Forall_forall; intros x Hx%repeat_spec; subst x; split; try done; try by ranges.
    repeat constructor; by ranges.
  - done.
  - by split.
  - apply init_good.
Qed.

Lemma call_ok s request : conn_ok sys adapter own s → zlen request ≤ PTRDIFF_MAX → bytes_ok request → ctx_ok (conn_ok sys adapter own) (call s request).
Proof.
  intros Hs Hl Hb; split; [by apply reader_init_ok| |exact Hs|by vm_compute].
  apply (writer_init_ok (Sample.zeros 4096)); [by vm_compute|apply Forall_replicate; by ranges].
Qed.

Definition octets_ok (l : list Z) : bool := (zlen l <=? PTRDIFF_MAX) && forallb (λ x, (0 <=? x) && (x <? 256)) l.

Lemma octets_ok_spec l : octets_ok l = true → zlen l ≤ PTRDIFF_MAX ∧ bytes_ok l.
Proof.
  unfold octets_ok; intros [H1 H2]%andb_true_iff; split; [by apply Z.leb_le|].
  apply List.Forall_forall; intros x Hx; rewrite forallb_forall in H2; specialize (H2 x Hx); bool_hyps; ranges; lia.
Qed.

(** OpenSecureChannel with SignAndEncrypt. *)
Definition open_request : list Z :=
  Sample.request_header [0; 0] ++ Sample.u32 0 ++ Sample.u32 0 ++ Sample.u32 3 ++ Sample.octets (replicate 32 9) ++ Sample.u32 60000.

Definition opened : hstate (server_rest unit) := (handle_open_secure_channel (call server open_request)).2.

(** CreateSession with the certificate of the channel. *)
Definition create_request : list Z :=
  Sample.request_header [0; 0] ++ Sample.octets [] ++ Sample.octets [] ++ [0] ++ Sample.u32 0 ++ Sample.octets [] ++ Sample.octets [] ++
  Sample.u32 0 ++ Sample.octets [] ++ Sample.octets [] ++ Sample.octets [] ++ Sample.octets (replicate 32 8) ++ Sample.octets client_cert ++
  mu_binary_le_put_u64 0 ++ Sample.u32 0.

Definition created : hstate (server_rest unit) := (handle_create_session (call (h_server opened) create_request)).2.

(** ActivateSession of the session created, signed, anonymous. *)
Definition activate_request : list Z :=
  let token := match sv_sessions (h_server created) with x :: _ => ss_auth_token x | [] => 0 end in
  let uri := default [] (mu_security_policy_asym_signature_uri MU_SECURITY_POLICY_BASIC256SHA256_ID) in
  let signature := repeat (checksum (own ++ replicate 32 7)) 256 in
  Sample.request_header ([2; 0; 0] ++ Sample.u32 token) ++ Sample.octets uri ++ Sample.octets signature ++ Sample.u32 0 ++ Sample.u32 0 ++
  [1; 0; 65; 1; 1] ++ Sample.octets (Sample.octets (bytes_of_string "anonymous")).

Definition activated : hstate (server_rest unit) := (handle_activate_session (call (h_server created) activate_request)).2.
(** The session active, with a subscription of its own. *)
Definition subscribed : mu_server_t (server_rest unit) :=
  let s := h_server activated in
  let id := match sv_sessions s with x :: _ => ss_session_id x | [] => 0 end in
  let e := (mu_subscription_create id 1000 60 10 0 0 true 0 mu_subscriptions_init).2 in
  set_active_session (set_rest s (host_set_engine (sv_rest s) e)) (Some 0).

Definition close_request : list Z :=
  let token := match sv_sessions subscribed with x :: _ => ss_auth_token x | [] => 0 end in
  Sample.request_header ([2; 0; 0] ++ Sample.u32 token) ++ [1].

Definition subscriptions (s : mu_server_t (server_rest unit)) : list (bool * bool) :=
  (λ sub, (sub_in_use (sub_identity sub), sub_session_id (sub_identity sub) =? 0)) <$> ztake 2 (subs_subscriptions (host_engine (sv_rest s))).

Definition states (st : hstate (server_rest unit)) := ss_state <$> sv_sessions (h_server st).
End SessionSample.

Section witnesses.
#[local] Existing Instances embedded_profile embedded_caps all_features demo_pub Sample.sample_auth SessionSample.sys_contract.
Import SessionSample.

Lemma opened_ok : conn_ok sys adapter own (h_server opened).
Proof.
  destruct (octets_ok_spec open_request eq_refl) as [Hl Hb].
  by destruct (handle_open_secure_channel_safe sys adapter own _ (call_ok _ _ server_ok Hl Hb) Logic.I) as [[_ _ ? _] _].
Qed.

Lemma created_ok : conn_ok sys adapter own (h_server created).
Proof.
  assert (Ho : octets_ok create_request = true) by (vm_compute; reflexivity); destruct (octets_ok_spec _ Ho) as [Hl Hb].
  by destruct (handle_create_session_safe sys adapter own _ (call_ok _ _ opened_ok Hl Hb) Logic.I) as [[_ _ ? _] _].
Qed.

Lemma session_services_safe_witness : (handle_get_endpoints (call server open_request)).1 = Err MU_STATUS_BAD_ENCODINGLIMITSEXCEEDED ∧
  conn_ok sys adapter own (h_server (handle_get_endpoints (call server open_request)).2).
Proof.
  split; [vm_compute; reflexivity|]; destruct (octets_ok_spec open_request eq_refl) as [Hl Hb].
  destruct (session_services_safe sys adapter own (call server open_request) handle_get_endpoints (call_ok _ _ server_ok Hl Hb)) as [[_ _ H _] _].
  - right; left.
  - exact H.
Defined.

Lemma open_secure_channel_secure_witness :
  match handle_open_secure_channel (call server open_request) with
  | (Ok _, st') => ∃ mode client_nonce lifetime nonce, opens adapter server mode client_nonce lifetime nonce (sv_secure_channel (h_server st'))
  | _ => False
  end.
Proof.
  destruct (octets_ok_spec open_request eq_refl) as [Hl Hb].
  pose proof (open_secure_channel_secure sys adapter own (call server open_request) (call_ok _ _ server_ok Hl Hb)) as H; cbv zeta in H.
  assert (E : (handle_open_secure_channel (call server open_request)).1 = Ok tt) by (vm_compute; reflexivity).
  destruct (handle_open_secure_channel _) as [x st']; cbn [fst] in E; subst x.
  destruct H as (header & mode & client_nonce & lifetime & r & nonce & _ & _ & _ & H & _); exists mode, client_nonce, lifetime, nonce; exact H.
Defined.

Lemma create_session_bound_witness : ∃ slot x, creates (h_server opened) slot x ∧ sv_sessions (h_server created) = <[slot := x]> (sv_sessions (h_server opened)).
Proof.
  assert (Ho : octets_ok create_request = true) by (vm_compute; reflexivity); destruct (octets_ok_spec _ Ho) as [Hl Hb].
  assert (E : (handle_create_session (call (h_server opened) create_request)).1 = Ok tt) by (vm_compute; reflexivity).
  assert (E' : handle_create_session (call (h_server opened) create_request) = (Ok tt, created))
    by (unfold created; rewrite <- E; apply surjective_pairing).
  pose proof (create_session_bound sys adapter own _ _ (call_ok _ _ opened_ok Hl Hb) E') as H.
  clear E E' Ho Hl Hb; cbv zeta in H; cbn [call h_server] in H; destruct H as (req & r1 & bits & cn & cc & r2 & slot & x & _ & _ & _ & Hc & Hx & _).
  exists slot, x; split; [exact Hc|exact Hx].
Defined.


Lemma activated_ok : conn_ok sys adapter own (h_server activated).
Proof.
  assert (Ho : octets_ok activate_request = true) by (vm_compute; reflexivity); destruct (octets_ok_spec _ Ho) as [Hl Hb].
  by destruct (handle_activate_session_safe sys adapter own _ (call_ok _ _ created_ok Hl Hb) Logic.I) as [[_ _ ? _] _].
Qed.

Lemma sample_engine_ok (s : mu_server_t (server_rest unit)) e slot : conn_ok sys adapter own s → engine_good e → 0 ≤ slot < MU_MAX_SESSIONS →
  conn_ok sys adapter own (set_active_session (set_rest s (host_set_engine (sv_rest s) e)) (Some slot)).
Proof. intros [] He Hslot; split; try done; cbn; by intros i [= <-]. Qed.

Lemma subscribed_ok : conn_ok sys adapter own subscribed.
Proof.
  unfold subscribed; cbv zeta; apply sample_engine_ok; [exact activated_ok| |by vm_compute].
  apply create_good; [by ranges|by ranges|apply init_good].
Qed.

Lemma close_session_leaves_subscriptions_witness :
  let st := call subscribed close_request in
  states (handle_close_session st).2 = [MU_SESSION_STATE_CLOSED; MU_SESSION_STATE_CLOSED] ∧
  subscriptions subscribed = [(true, false); (false, true)] ∧ subscriptions (h_server (handle_close_session st).2) = [(true, false); (false, true)] ∧
  subscriptions_kept (host_engine (sv_rest subscribed)) (host_engine (sv_rest (h_server (handle_close_session st).2))).
Proof.
  cbv zeta; split; [vm_compute; reflexivity|]; split; [vm_compute; reflexivity|]; split; [vm_compute; reflexivity|].
  assert (Ho : octets_ok close_request = true) by (vm_compute; reflexivity); destruct (octets_ok_spec _ Ho) as [Hl Hb].
  exact (close_session_leaves_subscriptions sys adapter own (call subscribed close_request) (call_ok _ _ subscribed_ok Hl Hb)).
Defined.
End witnesses.
