(* ===== verification/ServiceSystem.v ===== *)
(** * All services of the assembled server

    The invariant of the whole server, and that every request the dispatcher
    of [mu_server] is given, whatever its octets, leaves it intact. The Query
    services are left out: their decoder overruns its array. *)

From S2P Require Import SampleServer.
From S2P Require Export ServerInit SessionServiceSpec MethodsSafety HistorySpec NodeManagementSafety.

(** A handler safe under an invariant [I] and a frame [R] is safe under a
    stronger invariant [J] that the frame respects, with a weaker frame. *)
Lemma triple_embed {Rest A} (I J P : mu_server_t Rest → Prop) R R' (m : H Rest A) Q :
  triple I R (λ _, True) m Q → (∀ s, J s → P s → I s) → (∀ s s', J s → I s' → R s s' → J s' ∧ R' s s') →
  triple J R' P m (λ _ _, True).
Proof.
  intros Hm HI HJ st [Hr Hw Hs Hl] HP; destruct (Hm st) as [[Hr' Hw' Hs' Hf Hl'] Ho]; [split; auto|done|].
  destruct (HJ _ _ Hs Hs' Hf); split; [by split|]; by destruct (m st).1.
Qed.

(** ** Dynamic references *)

Lemma load_nodeid_ok {caps : BuildCaps} {Hcaps : BuildCapsOk caps} sp st i id v : storage_ok sp → stored_id_ok st i id → Z.of_nat i < row_count st →
  row_length st < 2 ^ 31 → load_nodeid sp id = Some v → nodeid_ok v.
Proof.
  intros Hsp [Hns Hid] Hi Hrow; unfold load_nodeid; destruct (sn_identifier id) as [n|s|x]; [intros [= <-]; by split| |done].
  destruct (load_string_ok sp st i s Hsp Hid Hi) as (w & -> & _ & Hw); cbn [mbind option_bind]; intros [= <-]; split; [done|]; cbn.
  destruct Hw as [->|(d & -> & Hb & Hl)]; [by vm_compute|]; split; cbn; [by split|]; pose proof (zlen_nonneg d); ranges; lia.
Qed.

Lemma live_references_ok {caps : BuildCaps} {Hcaps : BuildCapsOk caps} sp refs : space_good sp → live_references sp = Some refs →
  Forall (λ dyn, nodeid_ok (ref_target_id (dr_ref dyn)) ∧ nodeid_ok (ref_reference_type_id (dr_ref dyn))) refs.
Proof.
  intros (Hok & nodes & refs' & Hd) E; rewrite (live_references_denoted sp nodes refs' Hok Hd) in E; injection E as <-.
  apply Forall_lookup; intros i v Hv; destruct (live_reference sp nodes refs' i v Hok Hd Hv) as (r & _ & Hload & _ & Ht & Hg).
  assert (Hi : Z.of_nat i < MU_MAX_DYNAMIC_REFERENCES).
  { apply lookup_lt_Some in Hv; pose proof (de_references_count _ _ _ Hd); pose proof (so_references_count sp Hok); unfold zlen in *; lia. }
  pose proof caps_reference_nodeid; pose proof (so_storage sp Hok) as Hst; unfold load_reference in Hload.
  destruct (load_nodeid sp (sr_source_node_id r)); [|done]; cbn [mbind option_bind] in Hload.
  destruct (load_nodeid sp (sr_reference_type_id r)) as [ty|] eqn:Et; [|done]; cbn [mbind option_bind] in Hload.
  destruct (load_nodeid sp (sr_target_id r)) as [tg|] eqn:Eg; [|done]; injection Hload as <-; cbn.
  split; [eapply load_nodeid_ok, Eg|eapply load_nodeid_ok, Et]; eauto; unfold row_length; norm_pow; lia.
Qed.

(** ** The invariant *)

#[export] Instance rest_method_laws {W} : MethodHostLaws W (server_rest W).
Proof. by split. Qed.

#[export] Instance rest_node_laws {W} : NodeManagementHostLaws (server_rest W).
Proof. split; intros; try done; by destruct x. Qed.

Section system.
  Context {auth : AuthProfile} {profile : BaseProfile} {pub : PublishProfile} {caps : BuildCaps} {Hcaps : BuildCapsOk caps}.
  Context {features : ServiceFeatures} {methods : MethodProfile} {W : Type} {env : Environment}.
  Context (sys : RsaSystem) (crypto : crypto_functions W) (own : list Z).
  Context {contract : CryptoContract crypto} {rsa : RsaContract sys crypto own}.
  Abbreviation server := (mu_server_t (server_rest W)).
  #[local] Existing Instance env_history.

(** The parts of the invariant that no request changes. *)
Record spaces_ok (user runtime : option mu_address_space_t) : Prop := {
  sp_links : links_ctx user runtime;
  sp_served now : served now user runtime;
  sp_user : space_readable user;
  sp_runtime : space_readable runtime
}.

Record server_good (s : server) : Prop := {
  sg_conn : conn_ok sys crypto own s;
  sg_spaces : spaces_ok (sv_address_space s) (sv_runtime_space s);
  sg_ctx : resolve_ctx (sv_address_space s) (sv_user_index s) (sv_runtime_space s);
  sg_nodes : nm_server_ok s;
  sg_history : history_ok s;
  sg_methods : Forall (λ m, method_ok m.2) (rs_registered_methods (sv_rest s))
}.

Definition has_session (s : server) : Prop := ∃ slot session, sv_active_session s = Some slot ∧ znth (sv_sessions s) slot = Some session.

(** What no request changes of the server. *)
Record stable (s s' : server) : Prop := {
  stable_config : rs_config (sv_rest s') = rs_config (sv_rest s);
  stable_groups : rs_writer_groups (sv_rest s') = rs_writer_groups (sv_rest s);
  stable_policy : sc_policy (sv_secure_channel s') = sc_policy (sv_secure_channel s)
}.

Abbreviation gtriple P m := (triple server_good stable P m (λ _ _, True)).

Lemma good_view s now : server_good s → server_ok now s.
Proof.
  intros [Hc [Hl Hv _ _] Hx [Hn Hr] _ _]; split; [done|]; split; [done|]; split; [apply Hv|by eapply live_references_ok].
Qed.

Lemma good_sub s : server_good s → has_session s → sub_server_ok s.
Proof. intros [Hc [_ _ Hu Hr] Hx _ _ _] Hs; split; [done..|apply Hc|done]. Qed.

Lemma good_method s : server_good s → has_session s → method_server_ok s.
Proof.
  intros Hs Ha; split; [by apply good_sub| |apply Hs]; intros sp E; pose proof Hs as [_ [[Hl _] Hv _ _] _ _ _ _].
  specialize (Hl sp E); destruct (Hv 0) as [Hv' _]; specialize (Hv' sp E); rewrite Forall_forall in *; intros n Hn.
  specialize (Hv' n Hn); split; [auto|]; split; apply Hv'.
Qed.

(** Every frame respects the invariant. *)
Lemma conn_respects s s' : server_good s → conn_ok sys crypto own s' → conn_frame s s' → server_good s' ∧ stable s s'.
Proof.
  intros [_ Hsp Hx [Hn Hl] Hh Hm] Hc [Ea Ei Er Ed _ _ Ep (w & e & Et)].
  split; [split; [done|by rewrite Ea, Er|by rewrite Ea, Ei, Er|..]|by split; rewrite ?Et].
  - split; rewrite Et; [done|by rewrite Ed].
  - unfold history_ok; by rewrite Et.
  - by rewrite Et.
Qed.

Lemma conn_keep s s' : conn_ok sys crypto own s → sv_secure_channel s' = sv_secure_channel s → sv_sessions s' = sv_sessions s →
  sv_active_session s' = sv_active_session s → rs_config (sv_rest s') = rs_config (sv_rest s) → rs_opn (sv_rest s') = rs_opn (sv_rest s) →
  engine_good (rs_subs (sv_rest s')) → conn_ok sys crypto own s'.
Proof. intros [] Ec Es Ea Ecfg Eo He; split; cbn in *; rewrite ?Ec, ?Es, ?Ea, ?Ecfg, ?Eo; done. Qed.

Lemma method_respects s s' : server_good s → method_server_ok s' → method_frame s s' → server_good s' ∧ stable s s'.
Proof.
  intros [Hc Hsp Hx [Hn Hl] Hh Hm] [[Hx' _ _ He _] _ Hm'] [Ec Es Ea Eu Er Ed _ _ (w & e & Et)].
  split; [|by split; rewrite ?Et, ?Ec].
  split; [|by rewrite Eu, Er|done|split; rewrite Et; [done|by rewrite Ed]|unfold history_ok; by rewrite Et|done].
  apply (conn_keep s); try done; by rewrite Et.
Qed.

Lemma engine_respects s s' : server_good s → sub_server_ok s' → engine_frame s s' → server_good s' ∧ stable s s'.
Proof.
  intros [Hc Hsp Hx [Hn Hl] Hh Hm] [Hx' _ _ He _] [Ec Es Ea Eu Er Ed _ _ Et].
  split; [|by split; rewrite ?Et, ?Ec].
  split; [|by rewrite Eu, Er|done|split; rewrite Et; [done|by rewrite Ed]|unfold history_ok; by rewrite Et|by rewrite Et].
  apply (conn_keep s); try done; by rewrite Et.
Qed.

Lemma world_respects s s' : server_good s → history_ok s' → only_world s s' → server_good s' ∧ stable s s'.
Proof.
  intros [Hc Hsp Hx [Hn Hl] Hh Hm] _ [w ->]; split; [|by split]; split; try done; by apply conn_world.
Qed.

Lemma nodes_respect s s' : server_good s → nm_server_ok s' → nm_frame s s' → server_good s' ∧ stable s s'.
Proof.
  intros [Hc Hsp Hx _ Hh Hm] Hn Hf; pose proof (Hf (host_space (sv_rest s))) as E; unfold set_space in E; cbn in E.
  injection E as E1 E2 E3 E4 E5 E6 E8 E9 E10 E11 E12 E13 E14 E15 E16 E17.
  split; [|by split; rewrite ?E1].
  split; [|by rewrite E4, E6|by rewrite E4, E5, E6|done|unfold history_ok; cbn; by rewrite E10|by rewrite E15].
  apply (conn_keep s); try done; rewrite E13; apply Hc.
Qed.

(** ** The services *)

Hypothesis stack_sizes : stack_ok env_stack.
Hypothesis garbage_sizes : ∀ i, SubscriptionServiceSafety.select_ok (env_garbage i).
Hypothesis history_sizes : history_stack_ok env_history.

Definition query_handler (h : service_handler) : bool :=
  match h with handle_query_first_fn | handle_query_next_fn => true | _ => false end.

(** What the dispatcher promises of a call: the server stays good, the
    response is inside its buffer. *)
Definition answered (st : hstate (server_rest W)) (x : result unit * hstate (server_rest W)) : Prop :=
  server_good (h_server x.2) ∧ stable (h_server st) (h_server x.2) ∧ writer_step (h_writer st) (h_writer x.2) ∧
  outcome_ok (λ _, 0 ≤ h_response_length x.2 ≤ w_length (h_writer x.2)) x.1.

Lemma triple_answered P m st : gtriple P m → ctx_ok server_good st → P (h_server st) → answered st (m st).
Proof.
  intros Hm Hst HP; destruct (Hm st Hst HP) as [[_ Hw Hs Hf Hl] Ho]; split; [done|]; split; [done|]; split; [done|]; by destruct (m st).1.
Qed.

Lemma same_respects s s' : server_good s → server_ok 0 s' → same_server s s' → server_good s' ∧ stable s s'.
Proof.
  intros [Hc Hsp Hx [Hn Hl] Hh Hm] [Hx' _] [Ec Es Ea Eu Er Ed _ Et].
  split; [|by split; rewrite ?Et, ?Ec].
  split; [|by rewrite Eu, Er|done|split; rewrite Et; [done|by rewrite Ed]|unfold history_ok; by rewrite Et|by rewrite Et].
  apply (conn_keep s); try done; rewrite Et; try done; apply Hc.
Qed.

Lemma view_answered now now_ms h st : view_handler h = true → ctx_ok server_good st →
  answered st (run_handler now env_stack (ServerInit.service now now_ms) h st).
Proof.
  intros Hv [Hr Hw Hs Hl]; set (m := run_handler now env_stack (ServerInit.service now now_ms) h).
  assert (Hok : hok now st) by (split; [done|done|by apply good_view]).
  destruct (hsafe_run_handler now env_stack (ServerInit.service now now_ms) h stack_sizes Hv st Hok) as [[_ Hstep Hsame Hs'] Ho].
  pose proof (finishes_run_handler now env_stack (ServerInit.service now now_ms) h Hv st) as Hf; fold m in Hstep, Hsame, Hs', Ho, Hf.
  assert (Hgood : server_good (h_server (m st).2) ∧ stable (h_server st) (h_server (m st).2)).
  { apply same_respects; [done| |done].
    destruct Hs' as (Hx & Hlk & _ & Hd); split; [done|]; split; [done|]; split; [|done].
    destruct Hsame as [_ _ _ -> -> _ _ _]; apply Hs. }
  split; [apply Hgood|]; split; [apply Hgood|]; split; [done|].
  destruct (m st) as [[[]|e|] st']; cbn in *; [|done|done]; rewrite Hf by done; apply Hstep.
Qed.

Definition session_free_handler (h : service_handler) : bool :=
  match h with
  | handle_find_servers_fn | handle_get_endpoints_fn | handle_open_secure_channel_fn | handle_create_session_fn | handle_activate_session_fn => true
  | _ => false
  end.

Lemma service_triple now now_ms h (P : server → Prop) : query_handler h = false → view_handler h = false →
  (session_free_handler h = false → ∀ s, P s → has_session s) → gtriple P (ServerInit.service now now_ms h).
Proof.
  intros Hq Hv HP.
  assert (Hconn : ∀ m : H (server_rest W) unit, triple (conn_ok sys crypto own) conn_frame (λ _, True) m (λ _ _, True) → gtriple P m)
    by (intros m Hm; eapply triple_embed; [exact Hm|intros s Hs _; apply Hs|apply conn_respects]).
  destruct h; try discriminate; cbn [ServerInit.service]; cbn in HP.
  all: try (apply Hconn; first [by eapply handle_find_servers_safe|by eapply handle_get_endpoints_safe|by eapply handle_open_secure_channel_safe
    |by eapply handle_create_session_safe|by eapply handle_activate_session_safe|by eapply handle_close_session_safe]).
  all: specialize (HP eq_refl).
  all: try (eapply triple_embed; [first [apply handle_translate_safe|apply handle_call_safe]|intros s Hs Hp; apply good_method; auto|apply method_respects]).
  all: try (eapply triple_embed; [first [apply add_nodes_safe|apply add_references_safe|apply delete_nodes_safe|apply delete_references_safe]
    |intros s Hs _; apply Hs|apply nodes_respect]).
  all: try (eapply (triple_embed history_ok _ _ only_world); [first [apply (safe_history_read history_sizes)|apply (safe_history_update history_sizes)]|intros s Hs _; apply Hs|apply world_respects]).
  all: eapply triple_embed; [by apply subscription_service_safe|intros s Hs Hp; apply good_sub; auto|apply engine_respects].
Qed.

(** ** Dispatch *)

Lemma services_sessions :
  forallb (λ d, match sd_handler d with Some h => session_free_handler h || sh_requires_session (sd_service d) | None => true end)
    all_services = true.
Proof. vm_compute; reflexivity. Qed.

Lemma no_query d h : MUC_OPCUA_SERVICE_QUERY = false → d ∈ g_supported_services → sd_handler d = Some h → query_handler h = false.
Proof.
  intros Hq; unfold g_supported_services; rewrite Hq; change (when false ?l) with (@nil mu_service_descriptor_t).
  rewrite !elem_of_app; intros Hd Hh.
  repeat match goal with
  | H : _ ∨ _ |- _ => destruct H
  | H : _ ∈ when _ _ |- _ => apply elem_of_when in H; rewrite ?elem_of_app in H
  | H : _ ∈ [] |- _ => by apply not_elem_of_nil in H
  | H : ?x ∈ _ :: _ |- _ => apply elem_of_cons in H as [E|H]; [by subst x; first [discriminate Hh|injection Hh as <-]|]
  end.
Qed.

Lemma good_active s slot : server_good s → (∀ i, slot = Some i → 0 ≤ i < MU_MAX_SESSIONS) → server_good (set_active_session s slot).
Proof. intros [[] ? ? ? ? ?] Ha; split; try done; by split. Qed.

(** A request with valid buffers. *)
Record request_ok (body response : list Z) : Prop := {
  rq_body : bytes_ok body;
  rq_body_length : zlen body ≤ PTRDIFF_MAX;
  rq_response : bytes_ok response;
  rq_response_length : zlen response ≤ PTRDIFF_MAX
}.

Lemma good_stable s slot : stable s (set_active_session s slot).
Proof. by split. Qed.

Lemma stable_trans s1 s2 s3 : stable s1 s2 → stable s2 s3 → stable s1 s3.
Proof. intros [] []; split; congruence. Qed.

(** A request dispatched. *)
Lemma dispatch_good now now_ms request_id body response s :
  MUC_OPCUA_SERVICE_QUERY = false → server_good s → request_ok body response →
  let '(outcome, st) := mu_service_dispatch now env_stack (ServerInit.service now now_ms) request_id body (zlen body) response (zlen response) s in
  outcome_ok (λ _, 0 ≤ h_response_length st ≤ zlen response) outcome ∧ server_good (h_server st) ∧ stable s (h_server st) ∧
  writer_step (mu_binary_writer_init (Some response) (zlen response)) (h_writer st).
Proof.
  intros Hq Hs [Hb Hbl Hr Hrl]; pose proof (reader_init_ok body Hbl Hb) as Hrd; pose proof (writer_init_ok response Hrl Hr) as Hwr.
  pose proof (sg_conn s Hs) as Hc; pose proof (co_table _ _ _ s Hc) as Ht; pose proof (co_size _ _ _ s Hc) as Hsize.
  destruct (dispatch_gate_ok now env_stack (ServerInit.service now now_ms) request_id body (zlen body) response (zlen response) s Hrd Ht Hsize)
    as [(d & slot & (Hd & _ & Hslot) & ->)|(e & -> & He & _)].
  2:{ split; [|split; [by apply good_active|split; [apply good_stable|by apply writer_step_refl]]]; cbn; destruct He as [[->|[->| ->]]| ->]; discriminate. }
  apply find_descriptor_Some in Hd as [Hd _]; set (start := mk_hstate _ _ _ _).
  assert (Hst : ctx_ok server_good start).
  { split; [done|done| |split; [apply zlen_nonneg|done]]; apply good_active; [done|]; intros i ->.
    destruct (sh_requires_session (sd_service d)); [|done]; destruct Hslot as (j & [= <-] & session & Hz & _).
    apply znth_lookup in Hz as [_ ?]; lia. }
  destruct (sd_handler d) as [h|] eqn:Eh; [|split; [|split; [apply Hst|split; [by split|by apply writer_step_refl]]]; cbn; split; [done|apply zlen_nonneg]].
  assert (Ha : answered start (run_handler now env_stack (ServerInit.service now now_ms) h start)).
  { destruct (view_handler h) eqn:Ev; [by apply view_answered|].
    assert (E : run_handler now env_stack (ServerInit.service (W := W) now now_ms) h = ServerInit.service now now_ms h) by (by destruct h); rewrite E.
    apply (triple_answered (λ s', session_free_handler h = false → has_session s')); [|done|].
    - apply service_triple; [by eapply no_query|done|]; auto.
    - intros Hf; pose proof services_sessions as Hall; rewrite forallb_forall in Hall.
      specialize (Hall d ltac:(by apply list_elem_of_In, services_subset)); rewrite Eh, Hf in Hall; cbn in Hall; rewrite Hall in Hslot.
      destruct Hslot as (j & -> & session & Hz & _); by exists j, session. }
  destruct (run_handler _ _ _ h start) as [x st]; destruct Ha as (Hg & Hst' & Hw & Ho); cbn [fst snd] in *.
  split; [|split; [done|]; split; [eapply stable_trans; [apply (good_stable s slot)|exact Hst']|done]].
  destruct x; cbn in *; [|done|done]; by rewrite (wstep_length _ _ Hw) in Ho.
Qed.

End system.

(** ** A sample server *)

Module SystemSample.
(** Every service but Query. *)
Definition features : ServiceFeatures := Build_ServiceFeatures true true true true false true true true true true.

Definition env : Environment := {| env_stack := demo_stack; env_garbage _ := ([], 0); env_history := @env_history Sample.sample_env |}.

#[local] Existing Instances embedded_profile embedded_caps features demo_pub Sample.sample_auth Sample.sample_methods env SessionSample.sys_contract.
Import SessionSample.

(** The server of the secure channel sample: no nodes of its own, no methods,
    no history adapter. *)
Lemma sample_good : server_good sys adapter own server.
Proof.
  split; [exact server_ok|split; done| |split| |done].
  - done.
  - destruct (init_space_ok (caps := embedded_caps)); split; [done|]; by exists [], [].
  - done.
  - split; intros; discriminate.
Qed.

Lemma sample_history : history_stack_ok (@env_history env).
Proof. split; [done| |done]; intros i; apply Forall_replicate; by ranges. Qed.

Definition response : list Z := Sample.zeros 4096.

Definition dispatch : result unit * hstate (server_rest unit) :=
  mu_service_dispatch 1000 env_stack (ServerInit.service 1000 1000) MU_ID_OPENSECURECHANNELREQUEST open_request (zlen open_request)
    response (zlen response) server.

End SystemSample.

Section witnesses.
#[local] Existing Instances embedded_profile embedded_caps SystemSample.features demo_pub Sample.sample_auth Sample.sample_methods SystemSample.env SessionSample.sys_contract.
Import SessionSample SystemSample.

End witnesses.
