(* ===== verification/ChunkSafety.v ===== *)
(** * Safety of chunk protection

    A logic of computations that keep an invariant however they end, and that
    both chunk codecs are safe in it on arbitrary octets: no access outside
    the buffers, key sets that stay ready, whatever the adapter answers. *)

From S2P Require Export SymChunkSpec AsymChunkSpec.

(** ** Computations that keep an invariant *)

Definition no_fault {A} (φ : A → Prop) (x : result A) : Prop := match x with Ok a => φ a | Err _ => True | Fault => False end.

Section upholds.
  Context {S : Type} (I : S → Prop).

(** From the state [s]: the invariant holds afterwards, nothing is undefined,
    and a result satisfies [φ]. *)
Definition runs {A} (m : M S A) (φ : A → Prop) (s : S) : Prop := I (m s).2 ∧ no_fault φ (m s).1.

Definition upholds {A} (m : M S A) (φ : A → Prop) : Prop := ∀ s, I s → runs m φ s.

Lemma runs_bind {A B} (m : M S A) (k : A → M S B) φ ψ s : runs m φ s → (∀ a, φ a → upholds (k a) ψ) → runs (m ≫= k) ψ s.
Proof.
  intros [Hi Ho] Hk; unfold runs, mbind, M_bind; destruct (m s) as [[a|e|] s']; cbn in *; [by apply Hk|by split|done].
Qed.

Lemma runs_ok {A B} (m : M S A) (k : A → M S B) a s' ψ s : m s = (Ok a, s') → runs (k a) ψ s' → runs (m ≫= k) ψ s.
Proof. intros E H; unfold runs; by rewrite (bind_ok _ _ _ _ _ E). Qed.

Lemma upholds_bind {A B} (m : M S A) (k : A → M S B) φ ψ : upholds m φ → (∀ a, φ a → upholds (k a) ψ) → upholds (m ≫= k) ψ.
Proof. intros Hm Hk s Hs; eapply runs_bind; [by apply Hm|done]. Qed.

Lemma upholds_mono {A} (m : M S A) (φ ψ : A → Prop) : upholds m φ → (∀ a, φ a → ψ a) → upholds m ψ.
Proof. intros Hm H s Hs; destruct (Hm s Hs) as [Hi Ho]; split; [done|]; destruct (m s).1; cbn in *; auto. Qed.

Lemma upholds_ret {A} (a : A) (φ : A → Prop) : φ a → upholds (mret a) φ.
Proof. by intros H s Hs. Qed.

Lemma upholds_fail {A} e (φ : A → Prop) : upholds (fail e) φ.
Proof. by intros s Hs. Qed.

Lemma upholds_lift {A} (o : option A) a (φ : A → Prop) : o = Some a → φ a → upholds (lift_option o) φ.
Proof. by intros -> H s Hs. Qed.

(** A value read from the state. *)
Lemma upholds_get {A} (k : S → M S A) φ : (∀ s, I s → runs (k s) φ s) → upholds (get_state ≫= k) φ.
Proof. intros Hk s Hs; exact (Hk s Hs). Qed.

Lemma upholds_ext {A} (m m' : M S A) φ : (∀ s, m s = m' s) → upholds m' φ → upholds m φ.
Proof. intros E Hm s Hs; unfold runs; rewrite E; by apply Hm. Qed.

Lemma upholds_default {A} (a : A) (m : M S A) φ : upholds m φ → φ a → upholds (or_default a m) φ.
Proof. intros Hm Ha s Hs; destruct (Hm s Hs) as [Hi Ho]; unfold runs, or_default; by destruct (m s) as [[x|e|] s']. Qed.
End upholds.

(** The same computation under an invariant of a part of the state. *)
Lemma runs_mono {S A} (I J : S → Prop) (m : M S A) φ s : runs I m φ s → (∀ s', I s' → J s') → runs J m φ s.
Proof. intros [Hi Ho] H; split; auto. Qed.

(** ** Buffers *)

Definition buffer_of (n : Z) (b : list Z) : Prop := zlen b = n ∧ bytes_ok b.

Lemma upholds_store_bytes n off data : 0 ≤ off → off + zlen data ≤ n → bytes_ok data → upholds (buffer_of n) (store_bytes off data) (λ _, True).
Proof.
  intros H0 H1 Hd b [Hl Hb]; unfold runs, store_bytes; rewrite mem_store_Some by lia; split; [|done]; pose proof (zlen_nonneg data).
  split; cbn; [rewrite !zlen_app, zlen_ztake, zlen_zdrop by lia; lia|].
  rewrite !bytes_ok_app; split; [by apply bytes_ok_ztake|]; split; [done|by apply bytes_ok_zdrop].
Qed.

Lemma buffer_load n b off len : buffer_of n b → 0 ≤ off → 0 ≤ len → off + len ≤ n →
  ∃ x, mem_load b off len = Some x ∧ zlen x = len ∧ bytes_ok x.
Proof.
  intros [Hl Hb] H0 H1 H2; eexists; split; [apply mem_load_Some; lia|]; split; [apply zlen_ztake; rewrite zlen_zdrop by lia; lia|].
  by apply bytes_ok_ztake, bytes_ok_zdrop.
Qed.

(** A store into a buffer that is not part of the state. *)
Lemma upholds_stored {S} (I : S → Prop) n b off data : buffer_of n b → 0 ≤ off → off + zlen data ≤ n → bytes_ok data →
  upholds I (lift_option (mem_store b off data)) (buffer_of n).
Proof.
  intros Hb H0 H1 Hd; destruct (upholds_store_bytes n off data H0 H1 Hd b Hb) as [Hb' _]; unfold store_bytes in Hb'.
  destruct Hb as [Hl _]; rewrite mem_store_Some in * by lia; eapply upholds_lift; [done|exact Hb'].
Qed.

(** ** Symmetric chunks *)

Section sym.
  Context {Ctx : Type} {crypto : crypto_functions Ctx} {contract : CryptoContract crypto} (n : Z).

Definition chunk_ok (st : chunk_state Ctx) : Prop := keys_ready (ck_keys st) ∧ buffer_of n (ck_buffer st).
Abbreviation cupholds := (upholds chunk_ok).

Lemma upholds_in_buffer {A} (m : M (list Z) A) φ : upholds (buffer_of n) m φ → cupholds (in_buffer m) φ.
Proof.
  intros Hm st [Hk Hb]; destruct (Hm _ Hb) as [Hb' Ho]; unfold runs, in_buffer; destruct (m _) as [x b]; by split; [split|].
Qed.

Lemma upholds_in_ctx {A} (m : M Ctx A) φ : delivers m φ → cupholds (in_ctx m) φ.
Proof.
  intros Hm st Hst; specialize (Hm (ck_ctx st)); unfold runs, in_ctx; destruct (m _) as [[a|e|] c]; by split.
Qed.

Lemma upholds_load {A} (f : list Z → option A) φ : (∀ b, buffer_of n b → ∃ a, f b = Some a ∧ φ a) → cupholds (load f) φ.
Proof. intros Hf st Hst; destruct (Hf _ (proj2 Hst)) as (a & E & Ha); unfold runs, load; rewrite E; by split. Qed.

Lemma upholds_sign len : 0 ≤ len ≤ n → cupholds (sign_prefix crypto len) (λ mac, zlen mac = 32 ∧ bytes_ok mac).
Proof.
  intros Hl; unfold sign_prefix; eapply (upholds_bind _ _ _ (λ _, True)); [apply upholds_load; intros b Hb; destruct (buffer_load n b 0 len Hb) as (x & E & Hx); [lia..|];
    by exists x|intros data _].
  eapply (upholds_bind _ _ _ (λ _, True)); [by intros st Hst|intros k _]; destruct cc_hmac as (f & -> & Hf); cbn [call].
  eapply upholds_bind; [apply upholds_in_ctx, Hf|intros mac ->]; pose proof (hmac_octets (sk_signing_key k) data) as [Hz Hb].
  eapply upholds_lift; [by apply mem_load_all|by split].
Qed.

Lemma upholds_cipher f x (g : Z → list Z → list Z → list Z → list Z) st : chunk_ok st → sk_cipher_ctx_valid (ck_keys st) = true →
  (∀ storage, cipher_for (sk_encrypting_key (ck_keys st)) storage → delivers (f storage (sk_iv (ck_keys st)) x)
     (λ y, y.1 = g 256 (sk_encrypting_key (ck_keys st)) (sk_iv (ck_keys st)) x ∧ cipher_for (sk_encrypting_key (ck_keys st)) y.2)) →
  runs chunk_ok (in_cipher f x) (λ y, y = g 256 (sk_encrypting_key (ck_keys st)) (sk_iv (ck_keys st)) x) st.
Proof.
  intros [(Hk & Hi & Hc) Hb] Hv Hf; specialize (Hf _ (Hc Hv) (ck_ctx st)); unfold runs, in_cipher.
  destruct (f _ _ _ _) as [[[y storage]|e|] c]; cbn in *; [|by split..|done]; destruct Hf as [-> Hs]; split; [|done].
  split; [|done]; by split_and!.
Qed.

Lemma upholds_crypt aes128 aes256 aes256_ctx g len : crypts False aes128 aes256 aes256_ctx g → 0 ≤ len → 16 + len ≤ n → len mod 16 = 0 →
  cupholds (crypt_payload aes128 aes256 aes256_ctx len) (λ _, True).
Proof.
  intros [H128 _ (f256 & E256 & H256 & _) Hctx _ Hoct] H0 Hn Hm st Hst; unfold crypt_payload.
  destruct (buffer_load n _ 16 len (proj2 Hst)) as (x & Ex & Hx & Hxb); [lia..|].
  assert (El : load (λ b, mem_load b MU_SYM_HEADER_SIZE len) st = (Ok x, st)) by (unfold load, MU_SYM_HEADER_SIZE; by rewrite Ex).
  apply (runs_ok _ _ _ _ _ _ _ El), (runs_ok _ keys _ _ _ _ _ eq_refl); pose proof Hst as [(Hkl & Hil & _) _]; set (k := ck_keys st) in *.
  assert (Hin : aes_input (sk_encrypting_key k) (sk_iv k) x) by (split_and!; congruence).
  eapply (runs_bind _ _ _ (λ y, zlen y = len ∧ bytes_ok y)).
  2:{ intros y [Hy Hyb]; apply upholds_in_buffer, upholds_store_bytes; [done|rewrite Hy; done|done]. }
  assert (Hg : ∀ m, zlen (g m (sk_encrypting_key k) (sk_iv k) x) = len ∧ bytes_ok (g m (sk_encrypting_key k) (sk_iv k) x)).
  { intros m; rewrite <- Hx; apply Hoct; [done|by rewrite Hx]. }
  assert (Hplain : runs chunk_ok (call aes256 (λ crypt, in_ctx (crypt (sk_encrypting_key k) (sk_iv k) x))) (λ y, zlen y = len ∧ bytes_ok y) st).
  { rewrite E256; cbn [call]; revert st Hst k Ex El Hkl Hil Hin Hg; intros st Hst k _ _ _ _ Hin Hg.
    eapply upholds_mono; [apply upholds_in_ctx, H256, Hin|by intros ? ->|exact Hst]. }
  case_bool_decide.
  - destruct aes128 as [f|]; [|by apply upholds_fail]; eapply upholds_mono; [apply upholds_in_ctx, (H128 f); done|by intros ? ->|exact Hst].
  - destruct (sk_cipher_ctx_valid k) eqn:Ev; [|done]; destruct aes256_ctx as [f|]; [|done].
    destruct (upholds_cipher f x g st Hst Ev) as [Hi Ho]; [intros storage Hs; by apply (Hctx f)|].
    split; [done|]; destruct (in_cipher f x st).1; cbn in *; [subst; apply Hg|done|done].
Qed.

Lemma no_reliance : False → CryptoReliable crypto.
Proof. done. Qed.

(** Building. *)
Lemma upholds_wrap mode t scid token seq rid body cap : zlen t = 3 → bytes_ok t → bytes_ok body → zlen body ≤ PTRDIFF_MAX → 16 ≤ n → cap ≤ n →
  cupholds (mu_sym_chunk_wrap crypto mode t scid token seq rid body cap) (λ total, 0 ≤ total ≤ cap).
Proof.
  intros Ht Htb Hb Hl Hn Hcap; destruct (sizes mode body Hl) as (E1 & E2 & E3 & E4 & E5 & E6 & E7 & E8 & E9 & _).
  destruct (pad_count_range body) as [Hp Hp16]; pose proof (zlen_nonneg body); pose proof put_u32_length as Hu; pose proof put_u32_bytes as Hub.
  assert (Hput : ∀ off v, 0 ≤ off → off + 4 ≤ n → cupholds (in_buffer (store_bytes off (mu_binary_le_put_u32 v))) (λ _, True)).
  { intros; apply upholds_in_buffer, upholds_store_bytes; [done|by rewrite Hu|done]. }
  assert (Hhead : cupholds (in_buffer (write_header t scid token)) (λ _, True)).
  { apply upholds_in_buffer; unfold write_header; eapply upholds_bind; [apply upholds_store_bytes; [lia|rewrite zlen_app, Ht; change (zlen [chr "F"]) with 1; lia|]|intros _ _].
    - apply bytes_ok_app; split; [done|]; repeat constructor; vm_compute; done.
    - eapply upholds_bind; [apply upholds_store_bytes; [lia|rewrite Hu; lia|done]|intros _ _]; apply upholds_store_bytes; [lia|rewrite Hu; lia|done]. }
  assert (Hmsg : ∀ total, 24 + zlen body ≤ n → cupholds (in_buffer (put_message total seq rid body)) (λ _, True)).
  { intros total Hfit; apply upholds_in_buffer; unfold put_message, put_u32, MU_SYM_HEADER_SIZE.
    do 3 (eapply upholds_bind; [apply upholds_store_bytes; [lia|rewrite Hu; lia|done]|intros _ _]); apply upholds_store_bytes; [lia|lia|done]. }
  unfold mu_sym_chunk_wrap, MU_SYM_HEADER_SIZE, MU_SYM_SIG_LEN, MU_SYM_BLOCK; rewrite E1, E4; fold (pad_count body); rewrite E2, E3, E5, E6, E7, E8, E9.
  split_if; [apply upholds_fail|]; eapply upholds_bind; [exact Hhead|intros _ _]; split_if; cbv zeta; (split_if; [apply upholds_fail|]); bool_hyps.
  - eapply upholds_bind; [apply Hmsg; lia|intros _ _]; eapply upholds_bind; [apply upholds_sign; lia|intros mac [Hm Hmb]].
    eapply upholds_bind; [apply upholds_in_buffer, upholds_store_bytes; [lia|lia|done]|intros _ _]; apply upholds_ret; lia.
  - eapply upholds_bind; [apply Hmsg; lia|intros _ _].
    eapply upholds_bind; [apply upholds_in_buffer, upholds_store_bytes; [lia|change (zlen [pad_count body]) with 1; lia|repeat constructor; ranges; lia]|intros _ _].
    eapply upholds_bind; [apply upholds_in_buffer, upholds_store_bytes; [lia|rewrite zlen_repeat; lia|]|intros _ _].
    { apply Forall_forall; intros x Hx%list_elem_of_In%repeat_spec; subst x; ranges; lia. }
    eapply upholds_bind; [apply upholds_sign; lia|intros mac [Hm Hmb]].
    eapply upholds_bind; [apply upholds_in_buffer, upholds_store_bytes; [lia|lia|done]|intros _ _].
    eapply upholds_bind; [apply (upholds_crypt _ _ _ aes); [apply crypts_encrypt, no_reliance|lia|lia|done]|intros _ _]; apply upholds_ret; lia.
Qed.

(** Opening: the body lies in the chunk. *)
Lemma upholds_unwrap mode len : 0 ≤ len ≤ n →
  cupholds (mu_sym_chunk_unwrap crypto mode len) (λ r, 0 ≤ r.2.1 ∧ 0 ≤ r.2.2 ∧ r.2.1 + r.2.2 ≤ len).
Proof.
  intros Hl; unfold mu_sym_chunk_unwrap, MU_SYM_HEADER_SIZE, MU_SYM_SIG_LEN; split_if; [apply upholds_fail|]; bool_hyps.
  assert (Hget : ∀ off, 0 ≤ off → off + 4 ≤ n → cupholds (load (λ b, get_u32 b off)) u32_range).
  { intros off H0 H1; apply upholds_load; intros b [Hb Hbb]; apply chunk_u32_safe; [done|done|lia]. }
  eapply upholds_bind; [apply Hget; lia|intros size Hsize]; split_if; [apply upholds_fail|]; bool_hyps.
  eapply (upholds_bind _ _ _ (λ _, True)); [apply upholds_load; intros b Hb; destruct (buffer_load n b 0 3 Hb) as (x & E & _); [lia..|]; by exists x|intros t _].
  do 2 (eapply upholds_bind; [apply Hget; lia|intros ? _]).
  eapply (upholds_bind _ _ _ (λ _, True)); [unfold open_payload, MU_SYM_HEADER_SIZE, MU_SYM_BLOCK|intros _ _].
  { split_if; [|split_if; [apply upholds_fail|by apply upholds_ret]]; cbv zeta; split_if; [apply upholds_fail|]; bool_hyps.
    apply (upholds_crypt _ _ _ aes_inv); [apply crypts_decrypt, no_reliance|lia|lia|done]. }
  split_if; [apply upholds_fail|]; bool_hyps; cbv zeta.
  eapply (upholds_bind _ _ _ (λ _, True)); [unfold verify_signature, MU_SYM_SIG_LEN|intros _ _].
  { eapply upholds_bind; [apply upholds_sign; lia|intros mac [Hm _]].
    eapply (upholds_bind _ _ _ (λ _, True)); [apply upholds_load; intros b Hb; destruct (buffer_load n b (size - 32) 32 Hb) as (x & E & Hx & _); [lia..|]|intros eq _].
    - rewrite E; cbn [mbind option_bind]; eexists; split; [apply secure_memeq_spec; done|done].
    - split_if; [apply upholds_fail|by apply upholds_ret]. }
  eapply (upholds_bind _ _ _ (λ pad, 0 ≤ pad ∧ 24 + pad ≤ size - 32)); [unfold strip_padding, MU_SYM_HEADER_SIZE|intros pad Hpad].
  { split_if; [|apply upholds_ret; lia]; eapply (upholds_bind _ _ _ u8_range); [apply upholds_load; intros b [Hb Hbb]|intros pad Hpad].
    - destruct (znth_Some b (size - 32 - 1)) as [x Ex]; [lia|]; exists x; split; [done|].
      apply znth_lookup in Ex as [Ex _]; exact (Forall_lookup_1 _ _ _ _ Hbb Ex).
    - split_if; [apply upholds_fail|]; bool_hyps; eapply (upholds_bind _ _ _ (λ _, True)); [apply upholds_load; intros b Hb; unfold padding_ok|intros good _].
      + destruct (buffer_load n b (size - 32 - 1 - pad) pad Hb) as (x & -> & _); [ranges; lia..|]; cbn [mbind option_bind]; by eexists.
      + split_if; [apply upholds_fail|]; apply upholds_ret; ranges; lia. }
  do 2 (eapply upholds_bind; [apply Hget; lia|intros ? _]); apply upholds_ret; cbn; lia.
Qed.
End sym.

(** ** Asymmetric chunks *)

(** The header of an OPN chunk and what follows it, over a buffer. *)
Lemma put_type_ok b cap : 4 ≤ cap ≤ zlen b → cap ≤ PTRDIFF_MAX → bytes_ok b →
  ∃ w, put_type (mu_binary_writer_init (Some b) cap) = (Ok tt, w) ∧ writer_ok w ∧ w_length w = cap ∧
    ∃ b', w_buffer w = Some b' ∧ zlen b' = zlen b.
Proof.
  intros Hc Hm Hb; unfold put_type; cbn [w_buffer mu_binary_writer_init mbind option_bind w_length w_status].
  change (zlen opn_type) with 4 in *; rewrite mem_store_Some by (change (zlen opn_type) with 4; lia); eexists; split; [reflexivity|].
  set (b' := ztake 0 b ++ opn_type ++ zdrop (0 + zlen opn_type) b).
  assert (Hl : zlen b' = zlen b) by (unfold b'; rewrite !zlen_app; change (zlen opn_type) with 4; rewrite zlen_zdrop by lia; change (zlen (ztake 0 b)) with 0; lia).
  assert (Hb' : bytes_ok b') by (unfold b'; rewrite !bytes_ok_app; split; [constructor|]; split; [by apply bytes_okb|by apply bytes_ok_zdrop]).
  split; [|split; [done|]; by exists b']; split; cbn [w_buffer w_length w_position]; [|lia]; split; [lia|done].
Qed.

Lemma bytestring_of_ok o : (∀ b, o = Some b → bytes_ok b ∧ zlen b ≤ PTRDIFF_MAX) → string_ok (bytestring_of o).
Proof.
  intros Ho; destruct o as [b|]; [|by vm_compute]; destruct (Ho b eq_refl) as [Hb Hl]; pose proof (zlen_nonneg b).
  unfold bytestring_of; assert (E : to_i32 (zlen b) = zlen b) by (apply to_i32_id; ranges; unfold PTRDIFF_MAX in Hl; lia); rewrite E.
  split; cbn; [split; [lia|done]|]; ranges; unfold PTRDIFF_MAX in Hl; lia.
Qed.

(** Padding fills the last block. *)
Lemma padding_fills base block : 0 < block → let pad := (block - base mod block) mod block in 0 ≤ pad < block ∧ (base + pad) mod block = 0.
Proof.
  intros Hb; cbv zeta; split; [by apply Z.mod_pos_bound|]; rewrite Z.add_mod_idemp_r by lia.
  rewrite (Z.div_mod base block) at 1 by lia; replace (block * (base / block) + base mod block + (block - base mod block)) with ((base / block + 1) * block) by lia.
  apply Z_mod_mult.
Qed.

Section asym.
  Context {Ctx : Type} {sys : RsaSystem} {crypto : crypto_functions Ctx} {own : list Z} {contract : RsaContract sys crypto own} (n : Z).

Definition out_ok (st : asym_state Ctx) : Prop := buffer_of n (ak_out st).
Abbreviation oupholds := (upholds out_ok).

Lemma upholds_as_out {A} (m : M (list Z) A) φ : upholds (buffer_of n) m φ → oupholds (as_out m) φ.
Proof. intros Hm st Hb; destruct (Hm _ Hb) as [Hb' Ho]; unfold runs, as_out; destruct (m _) as [x b]; by split. Qed.

Lemma upholds_as_ctx {A} (m : M Ctx A) φ : delivers m φ → oupholds (as_ctx m) φ.
Proof. intros Hm st Hst; specialize (Hm (ak_ctx st)); unfold runs, as_ctx; destruct (m _) as [[a|e|] c]; by split. Qed.

Lemma upholds_load_out len : 0 ≤ len ≤ n → oupholds (load_out (λ b, mem_load b 0 len)) (λ x, zlen x = len ∧ bytes_ok x).
Proof.
  intros Hl st Hst; destruct (buffer_load n _ 0 len Hst) as (x & E & Hx); [lia..|]; unfold runs, load_out; rewrite E; by split.
Qed.

Lemma upholds_on_error {A} cleanup (m : M (asym_state Ctx) A) φ : oupholds m φ → oupholds cleanup (λ _, True) → oupholds (on_error cleanup m) φ.
Proof.
  intros Hm Hc st Hst; destruct (Hm st Hst) as [Hi Ho]; unfold runs, on_error; destruct (m st) as [[a|e|] st']; cbn in *; [done| |done].
  exact (upholds_bind _ _ _ _ φ Hc (λ _ _, upholds_fail _ e φ) st' Hi).
Qed.

Lemma upholds_zero off len : 0 ≤ off → 0 ≤ len → off + len ≤ n → oupholds (as_out (mu_secure_zero off len)) (λ _, True).
Proof.
  intros; apply upholds_as_out, upholds_store_bytes; [done|rewrite zlen_repeat; lia|].
  apply Forall_forall; intros x ->%list_elem_of_In%repeat_spec; by ranges.
Qed.

Lemma upholds_key_bytes cert : oupholds (key_bytes crypto cert) (λ k, k = sys_bits cert / 8 ∧ 42 < k).
Proof.
  destruct rsa_key_bits as (f & Ef & Hf); unfold key_bytes; rewrite Ef; cbn [call].
  eapply upholds_bind; [apply upholds_as_ctx, delivers_status; [done|apply Hf]|intros bits ->].
  split_if; [apply upholds_fail|]; split_if; [apply upholds_fail|]; bool_hyps; apply upholds_ret; unfold MU_OAEP_SHA1_OVERHEAD in *; lia.
Qed.

(** A header written at the front of the buffer. *)
Lemma upholds_header cap policy scid cert thumb rest : 4 ≤ cap ≤ n → cap ≤ PTRDIFF_MAX → string_ok (bytestring_of cert) →
  string_ok (bytestring_of thumb) → wsafe rest →
  oupholds (as_writer cap (write_opn_header policy scid cert thumb;; rest)) (λ position, 0 ≤ position ≤ cap).
Proof.
  intros Hcap Hmax Hcert Hthumb Hrest st [Hl Hb]; unfold runs, as_writer, write_opn_header.
  destruct (mu_security_policy_uri policy) as [uri|] eqn:Euri; [|by split].
  destruct (put_type_ok (ak_out st) cap) as (w & Ew & Hw & Hwl & b' & Eb & Hb'); [lia|done..|].
  set (tail := (mu_binary_write_uint32 0;; mu_binary_write_uint32 scid;; mu_binary_write_string (mk_string (to_i32 (zlen uri)) (Some uri));;
      mu_binary_write_bytestring (bytestring_of cert);; mu_binary_write_bytestring (bytestring_of thumb))).
  assert (Huri : string_ok (bytestring_of (Some uri))).
  { apply bytestring_of_ok; intros b [= <-]; destruct policy; vm_compute in Euri; simplify_eq; (split; [by apply bytes_okb|by vm_compute]). }
  assert (Ht : wsafe (tail;; rest)).
  { unfold tail; apply wsafe_bind; [|done]; repeat (apply wsafe_bind; [by eauto with wsafe|intros _]); by eauto with wsafe. }
  destruct (Ht w Hw) as [Hs Ho].
  assert (E : ((put_type;; tail);; rest) (mu_binary_writer_init (Some (ak_out st)) cap) = (tail;; rest) w).
  { unfold mbind, M_bind; by rewrite Ew. }
  change ((put_type;; mu_binary_write_uint32 0;; _);; rest) with ((put_type;; tail);; rest); rewrite E.
  destruct ((tail;; rest) w) as [x w']; cbn [fst snd] in *.
  destruct Hs as [[Hok Hp] Hl' _ Hf]; rewrite Eb in Hf; destruct (w_buffer w') as [b''|]; [|done]; destruct Hf as [Hz _].
  split; [split; cbn; [lia|apply Hok]|]; destruct x; cbn in *; [lia|done|done].
Qed.

Lemma upholds_wrap_none scid seq rid body cap : 8 ≤ cap ≤ n → cap ≤ PTRDIFF_MAX → bytes_ok body → zlen body ≤ PTRDIFF_MAX →
  oupholds (wrap_none scid seq rid body cap) (λ total, 0 ≤ total ≤ cap).
Proof.
  intros Hcap Hm Hb Hl; unfold wrap_none; pose proof (zlen_nonneg body).
  assert (Hn : string_ok (bytestring_of None)) by (by vm_compute).
  eapply upholds_bind; [apply upholds_header; [lia|done|exact Hn|exact Hn|]|intros position Hp].
  { apply wsafe_bind; [auto with wsafe|intros _; auto with wsafe]. }
  cbv zeta; unfold PTRDIFF_MAX in *; rewrite to_unsigned_id by (norm_pow; lia); split_if; [apply upholds_fail|]; bool_hyps.
  eapply upholds_bind; [apply upholds_as_out, upholds_store_bytes; [lia|lia|done]|intros _ _].
  eapply upholds_bind; [apply upholds_as_out, upholds_store_bytes; [lia|rewrite put_u32_length; lia|apply put_u32_bytes]|intros _ _].
  apply upholds_ret; lia.
Qed.

Lemma upholds_encrypt blocks policy cert plain hdr pb cb : bytes_ok plain → 0 ≤ hdr → 0 < pb → 0 < cb → ∀ i, 0 ≤ i →
  (i + Z.of_nat blocks) * pb ≤ zlen plain → hdr + (i + Z.of_nat blocks) * cb ≤ n →
  oupholds (encrypt_blocks crypto blocks policy cert plain hdr pb cb i) (λ _, True).
Proof.
  intros Hpl Hh Hpb Hcb; induction blocks as [|blocks IH]; intros i Hi Hin Hout; cbn [encrypt_blocks]; [by apply upholds_ret|].
  eapply (upholds_bind _ _ _ (λ b, bytes_ok b)); [eapply upholds_lift; [apply mem_load_Some; nia|by apply bytes_ok_ztake, bytes_ok_zdrop]|intros block Hblock].
  destruct (rsa_encrypt (is_pss policy)) as (f & Ef & Hf).
  eapply (upholds_bind _ _ _ (λ y, bytes_ok y ∧ zlen y ≤ cb)); [|intros y [Hy Hyl]].
  { destruct (is_pss policy); rewrite Ef; cbn [call]; (eapply upholds_mono; [apply upholds_as_ctx, Hf; done|by intros y (? & ? & _)]). }
  pose proof (zlen_nonneg y); eapply upholds_bind; [apply upholds_as_out, upholds_store_bytes; [nia|nia|done]|intros _ _].
  split_if; [apply upholds_fail|]; apply IH; nia.
Qed.

Lemma upholds_sign_chunk policy len sig : 0 ≤ len ≤ n → oupholds (sign_chunk crypto policy len sig) (λ s, zlen s = sig ∧ bytes_ok s).
Proof.
  intros Hl; unfold sign_chunk; eapply upholds_bind; [by apply upholds_load_out|intros data _].
  destruct (rsa_sign (is_pss policy)) as (f & Ef & Hf); eapply (upholds_bind _ _ _ bytes_ok); [|intros s Hs].
  { destruct (is_pss policy); rewrite Ef; cbn [call]; (eapply upholds_mono; [apply upholds_as_ctx, Hf; done|by intros y (? & _)]). }
  split_if; [apply upholds_fail|]; bool_hyps; by apply upholds_ret.
Qed.

(** Building, with a receiver whose key is long enough for its policy. *)
Lemma upholds_asym_wrap policy scid seq rid cert body cap :
  8 ≤ cap ≤ n → cap ≤ PTRDIFF_MAX → bytes_ok body → zlen body ≤ PTRDIFF_MAX → zlen own ≤ PTRDIFF_MAX →
  (∀ c, cert = Some c → policy ≠ MU_SECURITY_POLICY_NONE_ID → MU_B256S256_MIN_ASYMMETRIC_KEY_BITS ≤ sys_bits c) →
  oupholds (mu_asym_chunk_wrap crypto policy scid seq rid cert body cap) (λ total, 0 ≤ total ≤ cap).
Proof.
  intros Hcap Hmax Hb Hl Hown Hbits; unfold mu_asym_chunk_wrap; case_bool_decide as Hp; [by apply upholds_wrap_none|].
  split_if; [apply upholds_fail|]; destruct cert as [c|]; [|apply upholds_fail]; split_if; [apply upholds_fail|].
  specialize (Hbits c eq_refl Hp); unfold MU_B256S256_MIN_ASYMMETRIC_KEY_BITS in Hbits.
  destruct rsa_own as (f & -> & Hf); cbn [call]; eapply upholds_bind; [apply upholds_as_ctx, Hf|intros ? ->].
  eapply upholds_bind; [apply upholds_key_bytes|intros sig [Esig Hsig]]; eapply upholds_bind; [apply upholds_key_bytes|intros k [Ek _]].
  assert (Hk : 256 ≤ k < 536870912).
  { pose proof (sys_bits_range c); subst k; split; [apply Z.div_le_lower_bound; lia|apply Z.div_lt_upper_bound; ranges; lia]. }
  assert (Hs : sig < 536870912) by (pose proof (sys_bits_range own); subst sig; apply Z.div_lt_upper_bound; ranges; lia).
  clear Esig Ek Hbits; cbv zeta; set (o := if is_pss policy then 66 else MU_OAEP_SHA1_OVERHEAD).
  assert (Ho : 0 < o ≤ 66) by (unfold o, MU_OAEP_SHA1_OVERHEAD; split_if; lia).
  rewrite (to_unsigned_id 32 (k - o)) by (norm_pow; lia); set (pb := k - o); assert (Hpb : 190 ≤ pb < k) by lia.
  eapply (upholds_bind _ _ _ (λ t, t = sys_thumb c)); [|intros thumb ->].
  { destruct rsa_thumbprint as (g & Eg & Hthumb); unfold mu_certificate_thumbprint; rewrite Eg.
    bool_hyps; rewrite (proj2 (Z.eqb_neq _ _)) by done; apply upholds_as_ctx, Hthumb. }
  eapply (upholds_bind _ _ _ (λ h, 0 ≤ h ≤ cap)); [|intros hdr Hhdr].
  { pose proof (sys_thumb_octets c) as [Ht Htb]; destruct rsa_own_octets as [_ Hob].
    eapply upholds_ext; [|apply (upholds_header cap policy scid (Some own) (Some (sys_thumb c)) (mret tt)); [lia|done|..|apply wsafe_ret]].
    - intros st; unfold as_writer, mbind, M_bind; by destruct (write_opn_header _ _ _ _ _) as [[[]|e|] w].
    - apply bytestring_of_ok; by intros b [= <-].
    - apply bytestring_of_ok; intros b [= <-]; split; [done|]; rewrite Ht; by vm_compute. }
  pose proof (zlen_nonneg body); unfold PTRDIFF_MAX in *; rewrite (to_unsigned_id 32 (8 + zlen body)) by (norm_pow; lia).
  rewrite (to_unsigned_id 32 (8 + zlen body + 1 + sig)) by (norm_pow; lia); set (base := 8 + zlen body + 1 + sig).
  rewrite (proj2 (Z.eqb_neq pb 0)) by lia; destruct (padding_fills base pb ltac:(lia)) as [Hpad Hmod]; set (pad := (pb - base mod pb) mod pb) in *.
  rewrite (to_unsigned_id 32 (base + pad)), (to_unsigned_id 32 (8 + zlen body + 1 + pad)) by (norm_pow; lia).
  set (presig_len := 8 + zlen body + 1 + pad); split_if; [apply upholds_fail|]; bool_hyps; unfold MU_ASYM_MAX_PLAINTEXT in *.
  set (q := (base + pad) / pb) in *; assert (Hq : base + pad = q * pb) by (pose proof (Z.div_mod (base + pad) pb ltac:(lia)); lia).
  assert (Hq0 : 0 ≤ q ≤ 11) by nia; assert (Hqk : base + pad ≤ q * k ≤ 2048 + 66 * 11) by nia.
  rewrite (to_unsigned_id 32 (q * k)), (to_unsigned_id 32 (hdr + q * k)), (to_unsigned_id 32 (hdr + presig_len)) by (norm_pow; lia).
  split_if; [apply upholds_fail|]; split_if; [apply upholds_fail|]; bool_hyps.
  eapply upholds_bind; [apply upholds_as_out, upholds_store_bytes; [lia|rewrite put_u32_length; lia|apply put_u32_bytes]|intros _ _].
  set (presig := mu_binary_le_put_u32 seq ++ _); assert (Hpl : zlen presig = presig_len).
  { unfold presig; rewrite !zlen_app, zlen_cons, zlen_repeat, !put_u32_length; lia. }
  assert (Hpres : bytes_ok presig).
  { unfold presig; rewrite !bytes_ok_app; pose proof put_u32_bytes; split_and!; try done.
    assert (Hu : u8_range (to_u8 pad)) by (apply (to_unsigned_range 8); lia); constructor; [done|].
    apply Forall_forall; intros x ->%list_elem_of_In%repeat_spec; done. }
  eapply (upholds_bind _ _ _ (buffer_of 2048)); [|intros plain Hplain].
  { apply upholds_stored; [|lia|by rewrite Hpl; lia|done]; split; [by rewrite zlen_repeat|].
    apply Forall_forall; intros x ->%list_elem_of_In%repeat_spec; by ranges. }
  split_if; [apply upholds_fail|]; bool_hyps; eapply upholds_bind; [apply upholds_as_out, upholds_store_bytes; [lia|lia|done]|intros _ _].
  eapply upholds_bind; [apply upholds_on_error; [apply upholds_sign_chunk; lia|apply upholds_zero; lia]|intros sg [Hsg Hsgb]].
  eapply (upholds_bind _ _ _ (buffer_of 2048)); [by apply upholds_stored; [|lia|lia|]|intros plain' [Hpl' Hpb']].
  eapply upholds_bind; [apply upholds_zero; lia|intros _ _]; eapply upholds_bind; [apply upholds_on_error; [|apply upholds_zero; lia]|intros _ _].
  - apply upholds_encrypt; [done|lia..| |]; rewrite Z2Nat.id by lia; lia.
  - apply upholds_ret; lia.
Qed.
End asym.
