(* ===== verification/LinkSafety.v ===== *)
(** * Safety of the messages of a connection

    Whatever octets a message has, [process_message] of [src/core/server.c]
    reaches no undefined behaviour and leaves the server, its buffers and the
    channel of the connection intact: framing, protection, dispatch, response. *)

From S2P Require Export ServiceSystem ChunkSafety.

(** ** The transport *)

(** What the configuration check and the documentation of the TCP adapter say:
    buffers of at least a chunk, a complete adapter, and a read that delivers
    octets, at most as many as asked for. *)
Record transport_ok {W} (cfg : mu_server_config_t W) : Prop := {
  tk_send : MU_MIN_CHUNK_SIZE ≤ cfg_send_buffer_size (cfg_transport cfg) ≤ PTRDIFF_MAX;
  tk_receive : MU_MIN_CHUNK_SIZE ≤ cfg_receive_buffer_size (cfg_transport cfg) ≤ PTRDIFF_MAX;
  tk_chunks : u32_range (cfg_max_chunk_count (cfg_transport cfg));
  tk_message : u32_range (cfg_max_message_size (cfg_transport cfg));
  tk_accept : is_Some (tcp_accept (cfg_tcp_adapter cfg));
  tk_read : ∃ read, tcp_read (cfg_tcp_adapter cfg) = Some read ∧
    ∀ handle size w, 0 ≤ size → zlen (read handle size w).1.2 ≤ size ∧ bytes_ok (read handle size w).1.2;
  tk_write : is_Some (tcp_write (cfg_tcp_adapter cfg));
  tk_close : is_Some (tcp_close_connection (cfg_tcp_adapter cfg));
  tk_tick : is_Some (cfg_get_tick_ms cfg)
}.

(** ** Buffers of messages *)

Lemma service_fault_safe n b handle status : buffer_of n b → n ≤ PTRDIFF_MAX →
  match mu_write_service_fault b n handle status with
  | (Ok len, Some b') => 0 ≤ len ≤ n ∧ buffer_of n b'
  | (Err _, Some b') => buffer_of n b'
  | _ => False
  end.
Proof.
  intros [Hl Hb] Hm; unfold mu_write_service_fault; set (w0 := mu_binary_writer_init (Some b) n); pose proof (zlen_nonneg b).
  assert (H0 : writer_ok w0) by (apply init_writer_ok; [lia|done|done]).
  destruct (wsafe_write_response_prefix MU_ID_SERVICEFAULT handle status ltac:(by ranges) w0 H0) as [[[Hok Hp] Hl' _ Hf] Ho].
  destruct (write_response_prefix _ _ _ w0) as [x w]; cbn [fst snd] in *; cbn [w0 mu_binary_writer_init w_buffer w_length] in *.
  destruct (w_buffer w) as [b'|]; [|done]; destruct Hf as [Hz _].
  assert (buffer_of n b') by (split; [lia|apply Hok]); destruct x; cbn in Ho; [split; [lia|done]|done|done].
Qed.

Ltac upholds_stores := repeat (eapply upholds_bind; [apply upholds_store_bytes; [lia|rewrite ?put_u32_length; try (change (zlen [?x]) with 1); lia|
  first [apply put_u32_bytes|by apply bytes_okb]]|intros _ _]).

Lemma upholds_finalize_symmetric n scid token seq rid len : MU_MIN_CHUNK_SIZE ≤ n →
  upholds (buffer_of n) (mu_uasc_finalize_symmetric n scid token seq rid len) (λ total, 0 ≤ total ≤ n).
Proof.
  unfold MU_MIN_CHUNK_SIZE; intros Hn; unfold mu_uasc_finalize_symmetric, mu_uasc_write_uint32_le; cbv zeta; set (total := to_size _).
  assert (0 ≤ total) by (apply (to_unsigned_range 32); lia); split_if; [apply upholds_fail|]; bool_hyps; upholds_stores; apply upholds_ret; lia.
Qed.

Lemma upholds_finalize_asymmetric_none n scid seq rid len : MU_MIN_CHUNK_SIZE ≤ n →
  upholds (buffer_of n) (mu_uasc_finalize_asymmetric_none n scid seq rid len) (λ total, 0 ≤ total ≤ n).
Proof.
  unfold MU_MIN_CHUNK_SIZE; intros Hn; unfold mu_uasc_finalize_asymmetric_none, mu_uasc_write_uint32_le; cbv zeta; set (total := to_size _).
  assert (0 ≤ total) by (apply (to_unsigned_range 32); lia); split_if; [apply upholds_fail|]; bool_hyps.
  change (zlen POLICY_NONE_URI) with 47; upholds_stores.
  eapply upholds_bind; [apply upholds_store_bytes; [lia|change (zlen POLICY_NONE_URI) with 47; lia|by apply bytes_okb]|intros _ _].
  upholds_stores; apply upholds_ret; lia.
Qed.

(** ERR messages. *)
Lemma upholds_error_message n code reason : n ≤ PTRDIFF_MAX →
  string_ok (mk_string (to_i32 (zlen (default [] reason))) reason) →
  upholds (buffer_of n) (mu_tcp_create_error_message code reason n) (λ len, 0 ≤ len ≤ n).
Proof.
  intros Hn Hr; unfold mu_tcp_create_error_message, tcp_write_uint32_le; cbv zeta.
  replace (match reason with Some s => zlen s | None => 0 end) with (zlen (default [] reason)) by (by destruct reason).
  set (len := zlen (default [] reason)) in *; assert (0 ≤ len) by apply zlen_nonneg; split_if; [apply upholds_fail|]; bool_hyps; upholds_stores.
  apply upholds_get; intros b [Hl Hb]; set (w0 := mk_writer (Some b) n 12 MU_STATUS_GOOD).
  assert (H0 : writer_ok w0) by (split; cbn; [split; [lia|]; split; [lia|done]|lia]).
  destruct (wsafe_write_string _ Hr w0 H0) as [[[Hok Hp] Hl' _ Hf] Ho]; destruct (mu_binary_write_string _ w0) as [x w]; cbn [fst snd] in *.
  cbn [w0 w_buffer w_length] in *; destruct (w_buffer w) as [b'|]; [|done]; destruct Hf as [Hz _]; cbn [default].
  assert (Hb' : buffer_of n b') by (split; [lia|apply Hok]); destruct x; cbn in Ho; [|by split|done].
  split; [exact Hb'|]; change (0 ≤ w_position w ≤ n); lia.
Qed.

Lemma upholds_hello n conn msg limits b : bytes_ok msg → zlen msg ≤ PTRDIFF_MAX → buffer_of n b → 28 ≤ n →
  u32_range (cfg_receive_buffer_size limits) → u32_range (cfg_send_buffer_size limits) →
  u32_range (cfg_max_chunk_count limits) → u32_range (cfg_max_message_size limits) →
  let '(x, conn', b') := mu_tcp_process_hello conn msg (zlen msg) limits b n in no_fault (λ len, len = 28) x ∧ buffer_of n b'.
Proof.
  intros Hb Hl [Hbl Hbb] Hn H1 H2 H3 H4; pose proof (hello_negotiation conn msg (zlen msg) limits b n Hb ltac:(lia) Hl ltac:(lia) H1 H2 H3 H4) as H.
  destruct (mu_tcp_process_hello _ _ _ _ _ _) as [[[len|e|] conn'] b']; [destruct H as (-> & _ & _ & ->)|destruct H as (_ & _ & ->)|done]; [|done].
  split; [done|]; unfold enc_ack; split; [rewrite !zlen_app, !put_u32_length, zlen_zdrop by lia; change (zlen [_; _; _; _]) with 4; lia|].
  rewrite !bytes_ok_app; pose proof put_u32_bytes; split_and!; try done; [by apply bytes_okb|by apply bytes_ok_zdrop].
Qed.

(** A decoder run over a message. *)
Lemma upholds_parse {Rest A} (I : link Rest → Prop) (m : Rd A) r Q : rsafe m Q → reader_ok r →
  upholds I (parse m r) (λ x, Q x.1 ∧ reader_step r x.2).
Proof.
  intros Hm Hr k Hk; destruct (Hm r Hr) as [Hs Ho]; unfold runs, parse; destruct (m r) as [[a|e|] r']; cbn in *; done.
Qed.

Section link.
  Context {auth : AuthProfile} {profile : BaseProfile} {pub : PublishProfile} {caps : BuildCaps} {Hcaps : BuildCapsOk caps}.
  Context {features : ServiceFeatures} {methods : MethodProfile} {W : Type} {env : Environment}.
  Context (sys : RsaSystem) (crypto : crypto_functions W) (own : list Z).
  Context {contract : CryptoContract crypto} {rsa : RsaContract sys crypto own}.
  Context (cfg : mu_server_config_t W) (Hcfg : transport_ok cfg) (group_ok : mu_pubsub_writer_group_t → Prop).
  Context (no_queries : MUC_OPCUA_SERVICE_QUERY = false) (stack_sizes : stack_ok env_stack).
  Context (garbage_sizes : ∀ i, SubscriptionServiceSafety.select_ok (env_garbage i)) (history_sizes : history_stack_ok env_history).
  Abbreviation server := (mu_server_t (server_rest W)).
  Abbreviation send_size := (cfg_send_buffer_size (cfg_transport cfg)).

(** ** The server of a connection *)

(** A good server with this configuration; [P] is what is known of the policy
    of its channel. *)
Record serving (P : option mu_security_policy_id_t) (s : server) : Prop := {
  serving_good : server_good sys crypto own s;
  serving_config : rs_config (sv_rest s) = cfg;
  serving_groups : Forall group_ok (rs_writer_groups (sv_rest s));
  serving_policy p : P = Some p → sc_policy (sv_secure_channel s) = p
}.

Lemma serving_stable P s s' : serving P s → server_good sys crypto own s' → stable s s' → serving P s'.
Proof. intros [_ Hc Hg Hp] Hs [Ec Eg Ep]; split; [done|congruence|by rewrite Eg|]; intros p E; rewrite Ep; auto. Qed.

Lemma serving_world P s w : serving P s → serving P (set_rest s (host_set_world (sv_rest s) w)).
Proof.
  intros Hs; pose proof (serving_good _ _ Hs) as Hg.
  destruct (world_respects sys crypto own s (set_rest s (host_set_world (sv_rest s) w)) Hg) as [Hg' Hst]; [apply Hg|by exists w|].
  by eapply serving_stable.
Qed.

Lemma serving_channel P s c : serving P s → channel_ready crypto c → (∀ p, P = Some p → sc_policy c = p) → serving P (set_channel s c).
Proof. intros [[] ? ? ?] Hc Hp; split; try done; split; try done; by apply conn_set_channel. Qed.

Lemma serving_set_policy P p s : serving P s → serving (Some p) (channel (set_policy p) s).2.
Proof. intros [[Hc ? ? ? ? ?] ? ? _]; split; [|done|done|by intros ? [= <-]]; split; try done; by apply conn_set_channel, Hc. Qed.

Lemma serving_weaken P s : serving P s → serving None s.
Proof. by intros []; split. Qed.

Abbreviation supholds P := (upholds (serving P)).

Lemma upholds_world {A} P (m : mu_server_config_t W → M W A) φ : (∀ w, no_fault φ (m cfg w).1) → supholds P (world m) φ.
Proof.
  intros Hm s Hs; specialize (Hm (host_world (sv_rest s))); unfold runs, world; cbn [host_config rest_config].
  rewrite (serving_config _ _ Hs); destruct (m cfg _) as [x w]; split; [by apply (serving_world P s w)|done].
Qed.

Lemma upholds_tcp {F A} P (field : mu_tcp_adapter_t W → option F) (use : F → M W A) f φ :
  field (cfg_tcp_adapter cfg) = Some f → (∀ w, no_fault φ (use f w).1) → supholds P (tcp field use) φ.
Proof. intros Ef Hu; apply upholds_world; intros w; rewrite Ef; apply Hu. Qed.

Lemma upholds_config P : supholds P config (λ c, c = cfg).
Proof. intros s Hs; split; [done|]; apply Hs. Qed.

Lemma upholds_limits P : supholds P limits (λ l, l = cfg_transport cfg).
Proof. eapply upholds_bind; [apply upholds_config|intros c ->]; by apply upholds_ret. Qed.

Lemma upholds_the_channel P : supholds P the_channel (λ c, channel_ready crypto c ∧ ∀ p, P = Some p → sc_policy c = p).
Proof. intros s Hs; split; [done|]; split; [apply Hs|apply Hs]. Qed.

Lemma upholds_channel {A} P (m : M mu_secure_channel_t A) φ :
  (∀ c, channel_ready crypto c → channel_ready crypto (m c).2 ∧ (is_Some P → sc_policy (m c).2 = sc_policy c) ∧ no_fault φ (m c).1) → supholds P (channel m) φ.
Proof.
  intros Hm s Hs; destruct (Hm (sv_secure_channel s)) as (Hc & Hp & Ho); [apply Hs|]; unfold runs, channel; destruct (m _) as [x c]; cbn in *.
  split; [|done]; apply serving_channel; [done|done|]; intros p ->; rewrite Hp by done; by apply (serving_policy _ _ Hs).
Qed.

Lemma upholds_opn {A} P (m : M opn_state A) φ : (∀ o, opn_ok o → opn_ok (m o).2 ∧ no_fault φ (m o).1) → supholds P (opn m) φ.
Proof.
  intros Hm s Hs; destruct (Hm (host_opn (sv_rest s))) as [Hopn Ho]; [apply Hs|]; unfold runs, opn; destruct (m _) as [x o]; cbn in *.
  split; [|done]; destruct Hs as [[[] ? ? ? ? ?] ? ? ?]; split; try done; split; try done; by split.
Qed.

Lemma upholds_tick P : supholds P tick_ms (λ _, True).
Proof. destruct (tk_tick cfg Hcfg) as [get E]; apply upholds_world; intros w; rewrite E; by destruct (get w). Qed.

Lemma upholds_close_handle P handle : supholds P (close_handle handle) (λ _, True).
Proof. destruct (tk_close cfg Hcfg) as [f E]; by apply (upholds_tcp _ _ _ f). Qed.

(** ** Dispatch *)

Lemma upholds_request_id P id : supholds P (set_request_id id) (λ _, True).
Proof.
  intros s Hs; unfold runs, set_request_id; split; [|done]; cbn; destruct MUC_OPCUA_SUBSCRIPTIONS; [|done].
  destruct Hs as [[[] ? ? ? ? ?] ? ? ?]; split; try done; split; try done; by split.
Qed.

Lemma upholds_dispatch P id request response n : buffer_of n response → n ≤ PTRDIFF_MAX → bytes_ok request → zlen request ≤ PTRDIFF_MAX →
  supholds P (run_dispatch id request response)
    (λ x, buffer_of n x.2 ∧ match x.1 with Ok len => 0 ≤ len ≤ n | Err _ => True | Fault => False end).
Proof.
  intros [Hl Hb] Hm Hr Hrl s Hs; unfold runs, run_dispatch, service_dispatch, server_dispatcher; cbv zeta.
  pose proof (dispatch_good sys crypto own stack_sizes garbage_sizes history_sizes (time_now s) (tick_now s) id request response s no_queries
    (serving_good _ _ Hs) ltac:(split; [done|done|done|lia])) as H.
  destruct (mu_service_dispatch _ _ _ _ _ _ _ _ s) as [x st]; destruct H as (Ho & Hg & Hst & [[Hok Hp] Hwl _ Hf]).
  cbn [w_buffer mu_binary_writer_init w_length] in *; destruct (w_buffer (h_writer st)) as [b|]; [|done]; destruct Hf as [Hz _]; cbn [default].
  assert (buffer_of n b) by (split; [lia|apply Hok]); assert (serving P (h_server st)) by (by eapply serving_stable).
  destruct x as [[]|e|]; cbn in *; [|by split|done]; split; [done|]; split; [done|lia].
Qed.

Lemma set_policy_ok o policy : opn_ok o → string_ok (default null_string policy) →
  opn_ok (mu_service_dispatch_set_opn_security_policy policy o).2.
Proof. by intros [] Hs; split. Qed.

Lemma set_cert_ok o cert : opn_ok o → string_ok (default null_string cert) →
  opn_ok (mu_service_dispatch_set_opn_client_cert cert o).2 ∧ no_fault (λ _, True) (mu_service_dispatch_set_opn_client_cert cert o).1.
Proof.
  intros [Hp Hc [Hz Hb] Hl] Hs; unfold mu_service_dispatch_set_opn_client_cert; destruct cert as [cert|]; [|by split].
  change (string_ok cert) in Hs; destruct (str_data cert) as [data|] eqn:Ed; [|split; [split; try done; cbn; unfold MU_MAX_CLIENT_CERT_SIZE; lia|done]].
  split_if; [|split; [split; try done; cbn; unfold MU_MAX_CLIENT_CERT_SIZE; lia|done]]; bool_hyps.
  pose proof Hs as [Hd _]; rewrite Ed in Hd; rewrite mem_load_Some by lia; cbn [mbind option_bind]; set (bytes := ztake _ _).
  assert (Hbl : zlen bytes = str_length cert) by (apply zlen_ztake; change (zdrop 0 data) with data; lia).
  rewrite mem_store_Some by lia; split; [|done]; split; cbn [snd opn_pending_security_policy opn_pending_client_cert channel_client_cert channel_client_cert_len]; [done|done| |lia].
  rewrite !zlen_app, zlen_zdrop by lia; change (zlen (ztake 0 _)) with 0; split; [lia|].
  rewrite !bytes_ok_app; split; [by apply bytes_ok_ztake|]; split; [apply bytes_ok_ztake, bytes_ok_zdrop, Hd|by apply bytes_ok_zdrop].
Qed.

Lemma upholds_respond P is_opn policy cert request_type request response n : buffer_of n response → n ≤ PTRDIFF_MAX → bytes_ok request →
  zlen request ≤ PTRDIFF_MAX → string_ok policy → string_ok cert →
  supholds P (respond is_opn policy cert request_type request response) (λ r, 0 ≤ r.1 ≤ n ∧ buffer_of n r.2).
Proof.
  intros Hb Hn Hr Hrl Hp Hc; unfold respond; assert (Hnull : string_ok null_string) by (split; [done|by ranges]).
  assert (Hset : ∀ p c, string_ok (default null_string p) → string_ok (default null_string c) →
    supholds P (if is_opn then opn (mu_service_dispatch_set_opn_security_policy p);; opn (mu_service_dispatch_set_opn_client_cert c) else mret tt) (λ _, True)).
  { intros p c H1 H2; destruct is_opn; [|by apply upholds_ret].
    eapply (upholds_bind _ _ _ (λ _, True)); [apply upholds_opn; intros o Ho; split; [by apply set_policy_ok|done]|intros _ _].
    apply upholds_opn; intros o Ho; by apply set_cert_ok. }
  eapply (upholds_bind _ _ _ (λ x, buffer_of n x.2 ∧ match x.1 with Ok len => 0 ≤ len ≤ n | Err _ => True | Fault => False end)).
  - destruct (is_ns0_numeric_nodeid request_type) as [id|]; [|by apply upholds_ret].
    eapply upholds_bind; [by apply (Hset (Some policy) (Some cert))|intros _ _].
    eapply upholds_bind; [by apply upholds_dispatch|intros x Hx]; eapply upholds_bind; [by apply (Hset None None)|intros _ _]; by apply upholds_ret.
  - intros [outcome b] [Hb' Ho]; cbn [fst snd] in *; destruct outcome as [len|status|]; [by apply upholds_ret| |done].
    replace (zlen b) with n by (symmetry; apply Hb').
    pose proof (service_fault_safe n b 0 status Hb' Hn) as Hf; destruct (mu_write_service_fault _ _ _ _) as [[len|e|] [b2|]]; try done.
    apply upholds_ret; split; [cbn; destruct Hb' as [<- _]; pose proof (zlen_nonneg b); lia|done].
Qed.

(** ** The link *)

Record link_ok (P : option mu_security_policy_id_t) (k : link (server_rest W)) : Prop := {
  lo_server : serving P (lk_server k);
  lo_send : buffer_of send_size (lk_send_buffer k);
  lo_scratch : buffer_of MU_SECURE_SCRATCH_SIZE (lk_secure_scratch k)
}.
Abbreviation lupholds P := (upholds (link_ok P)).

Lemma link_weaken P k : link_ok P k → link_ok None k.
Proof. intros []; split; [by eapply serving_weaken|done..]. Qed.

Lemma upholds_on_server {A} P (m : M server A) φ : supholds P m φ → lupholds P (on_server m) φ.
Proof. intros Hm k [Hs Hb Hc]; destruct (Hm _ Hs) as [Hs' Ho]; unfold runs, on_server; destruct (m _) as [x s]; by split. Qed.

Lemma upholds_on_send {A} P (m : M (list Z) A) φ : upholds (buffer_of send_size) m φ → lupholds P (on_send m) φ.
Proof. intros Hm k [Hs Hb Hc]; destruct (Hm _ Hb) as [Hb' Ho]; unfold runs, on_send; destruct (m _) as [x b]; by split. Qed.

Lemma upholds_client_handle P : lupholds P client_handle (λ _, True).
Proof. by intros k Hk. Qed.

Lemma upholds_set_handle P handle : lupholds P (set_client_handle handle) (λ _, True).
Proof. by intros k []. Qed.

Lemma upholds_abort P : lupholds P abort_connection (λ _, True).
Proof.
  eapply upholds_bind; [apply upholds_client_handle|intros handle _]; eapply upholds_bind; [apply upholds_on_server, upholds_close_handle|intros _ _].
  apply upholds_set_handle.
Qed.

Lemma upholds_send P total : 0 ≤ total ≤ send_size → lupholds P (send_buffer_chunk total) (λ _, True).
Proof.
  intros Ht; eapply upholds_bind; [apply upholds_client_handle|intros handle _]; eapply (upholds_bind _ _ _ (λ _, True)).
  { apply upholds_on_send; intros b Hb; destruct (buffer_load _ b 0 total Hb) as (x & E & _); [lia..|]; unfold runs; by rewrite E. }
  intros bytes _; destruct (tk_write cfg Hcfg) as [f Ef]; eapply (upholds_bind _ _ _ (λ _, True)); [|intros sent _].
  { apply upholds_on_server, (upholds_tcp _ _ _ f); [done|]; intros w; by destruct (f handle bytes w) as [[s m] w']. }
  split_if; [apply upholds_abort|by apply upholds_ret].
Qed.

Lemma upholds_out_sequence P : supholds P (channel next_out_sequence) (λ _, True).
Proof. apply upholds_channel; intros c Hc; by split_and!. Qed.

Lemma upholds_accept P is_opn channel_id token_id seq : supholds P (channel (accept_inbound_chunk is_opn channel_id token_id seq)) (λ _, True).
Proof.
  apply upholds_channel; intros c Hc; unfold accept_inbound_chunk; split_if; [by split_and!|].
  assert (Hv : no_fault (λ _, True) (mu_sequence_validate seq (sc_sequence c)).1).
  { unfold mu_sequence_validate, mbind, M_bind, get_state; split_if; [done|]; cbv zeta; split_if; [done|]; by split_if. }
  destruct (mu_sequence_validate _ _) as [x v]; cbn [fst snd] in *; split_and!; [done|done|by destruct x].
Qed.

Lemma upholds_finalize_msg P seq rid len : lupholds P (finalize_msg seq rid len) (λ total, 0 ≤ total ≤ send_size).
Proof.
  unfold finalize_msg; eapply upholds_bind; [apply upholds_on_server, upholds_the_channel|intros c _].
  eapply upholds_bind; [apply upholds_on_server, upholds_limits|intros ? ->]; apply upholds_on_send, upholds_finalize_symmetric, (tk_send cfg Hcfg).
Qed.

(** ** Unprotected chunks *)

Lemma rsafe_plaintext_headers is_opn : rsafe (read_plaintext_headers is_opn) (λ h, string_ok h.1.1.1.1.2 ∧ string_ok h.1.1.1.2).
Proof.
  unfold read_plaintext_headers; eapply rsafe_bind; [apply rsafe_read_uint32|intros cid _].
  eapply (rsafe_bind _ _ (λ x, string_ok x.1.1 ∧ string_ok x.1.2)).
  - destruct is_opn.
    + eapply rsafe_bind; [apply rsafe_read_string|intros policy Hp]; eapply rsafe_bind; [apply rsafe_read_bytestring|intros cert Hc].
      eapply rsafe_bind; [apply rsafe_read_bytestring|intros thumb _]; apply rsafe_ret; split; by apply wire_string_ok.
    + eapply rsafe_bind; [apply rsafe_read_uint32|intros token _]; apply rsafe_ret; split; by apply wire_string_ok; left.
  - intros [[policy cert] token] [Hp Hc]; eapply rsafe_bind; [apply rsafe_read_uint32|intros seq _].
    eapply rsafe_bind; [apply rsafe_read_uint32|intros rid _]; by apply rsafe_ret.
Qed.

Lemma upholds_store_response n off response : 0 ≤ off ≤ n → buffer_of (n - off) response →
  upholds (buffer_of n) (store_response off response) (λ _, True).
Proof.
  intros Ho [Hl Hb] b [Hbl Hbb]; unfold runs, store_response; split; [|done]; split; cbn.
  - rewrite zlen_app, zlen_ztake by lia; lia.
  - apply bytes_ok_app; split; [by apply bytes_ok_ztake|done].
Qed.

Lemma upholds_plaintext P msg is_opn : bytes_ok msg → 8 ≤ zlen msg ≤ PTRDIFF_MAX → lupholds P (handle_data_chunk_plaintext msg is_opn) (λ _, True).
Proof.
  intros Hb Hl; unfold handle_data_chunk_plaintext; set (r0 := mk_reader _ _ _ _); pose proof (tk_send cfg Hcfg) as Hsend.
  assert (Hr0 : reader_ok r0) by (split; cbn; [split; [lia|]; split; [lia|done]|lia]).
  eapply upholds_bind; [by apply upholds_parse; [apply rsafe_plaintext_headers|]|intros [headers r] [[Hp Hc] Hr]].
  destruct headers as [[[[[cid policy] cert] token] seq] rid]; cbn [fst snd] in Hp, Hc, Hr.
  eapply upholds_bind; [apply upholds_on_server, upholds_accept|intros accepted _]; split_if; [apply upholds_abort|].
  eapply upholds_bind; [apply upholds_parse; [apply rsafe_read_nodeid|apply Hr]|intros [request_type r'] [_ Hr']]; cbn [snd] in Hr'; cbv zeta.
  eapply upholds_bind; [apply upholds_on_server, upholds_limits|intros ? ->]; set (off := if is_opn then _ else _).
  assert (Hoff : 0 ≤ off ≤ 79) by (unfold off, MU_UASC_ASYMMETRIC_NONE_HEADER_SIZE, MU_UASC_SYMMETRIC_HEADER_SIZE; split_if; lia).
  split_if; [by apply upholds_ret|]; bool_hyps; eapply upholds_bind; [apply upholds_on_server, upholds_request_id|intros _ _].
  eapply (upholds_bind _ _ _ (buffer_of send_size)); [by apply upholds_on_send; intros b Hbuf|intros b [Hbl Hbb]].
  assert (Hpos : 0 ≤ r_position r' ≤ zlen msg).
  { destruct Hr as [[_ ?] _ E1 ?], Hr' as [[_ ?] _ E2 ?]; cbn [r0 r_length] in *; lia. }
  eapply upholds_bind; [apply upholds_on_server, (upholds_respond P is_opn policy cert request_type _ _ (send_size - off)); try done|].
  { split; [rewrite zlen_zdrop; lia|by apply bytes_ok_zdrop]. }
  { lia. }
  { by apply bytes_ok_zdrop. }
  { rewrite zlen_zdrop; lia. }
  intros [len response] [Hlen Hresp]; cbn [fst snd] in *; eapply upholds_bind; [apply upholds_on_send, upholds_store_response; [lia|done]|intros _ _].
  split_if; [|by apply upholds_ret]; eapply upholds_bind; [apply upholds_on_server, upholds_out_sequence|intros out _].
  eapply (upholds_bind _ _ _ (λ total, 0 ≤ total ≤ send_size)); [|intros total Ht; by apply upholds_send]; destruct is_opn; [|apply upholds_finalize_msg].
  eapply upholds_bind; [apply upholds_on_server, upholds_the_channel|intros c _]; apply upholds_on_send, upholds_finalize_asymmetric_none; lia.
Qed.

(** ** Protected chunks *)

Lemma upholds_with_client_keys {A} P n msg (m : M (chunk_state W) A) φ : buffer_of n msg → upholds (chunk_ok n) m φ →
  supholds P (with_client_keys msg m) (λ r, φ r.1 ∧ buffer_of n r.2).
Proof.
  intros Hb Hm s Hs; pose proof (co_keys _ _ _ s (sg_conn _ _ _ _ (serving_good _ _ Hs))) as [Hc Hv]; unfold runs, with_client_keys.
  destruct (Hm (mk_chunk_state (host_world (sv_rest s)) (sc_client_keys (sv_secure_channel s)) msg)) as [[Hk Hb'] Ho]; [by split|].
  destruct (m _) as [x st]; cbn [fst snd] in *; split; [|by destruct x].
  apply (serving_world P (set_channel s _)), serving_channel; [done|by split|]; apply Hs.
Qed.

Lemma upholds_with_server_keys {A} P (m : M (chunk_state W) A) φ : upholds (chunk_ok send_size) m φ → lupholds P (with_server_keys m) φ.
Proof.
  intros Hm k [Hs Hb Hc]; pose proof (co_keys _ _ _ _ (sg_conn _ _ _ _ (serving_good _ _ Hs))) as [Hck Hsk]; unfold runs, with_server_keys.
  destruct (Hm (mk_chunk_state (host_world (sv_rest (lk_server k))) (sc_server_keys (sv_secure_channel (lk_server k))) (lk_send_buffer k)))
    as [[Hk Hb'] Ho]; [by split|].
  destruct (m _) as [x st]; cbn [fst snd] in *; split; [|done]; split; [|done|done].
  apply (serving_world P (set_channel (lk_server k) _)), serving_channel; [done|by split|]; apply Hs.
Qed.

Lemma upholds_with_opn_response {A} P (m : M (asym_state W) A) φ : upholds (out_ok send_size) m φ → lupholds P (with_opn_response m) φ.
Proof.
  intros Hm k [Hs Hb Hc]; unfold runs, with_opn_response.
  destruct (Hm (mk_asym_state (host_world (sv_rest (lk_server k))) (lk_send_buffer k) []) Hb) as [Hb' Ho].
  destruct (m _) as [x st]; cbn [fst snd] in *; split; [|done]; split; [by apply serving_world|done|done].
Qed.

(** What is known of a request taken out of a chunk, for a channel of policy
    [p]: its octets, and that a certificate with it has a long enough key. *)
Record request_sound (p : mu_security_policy_id_t) (q : secured_request) : Prop := {
  rs_octets : bytes_ok (sq_request q) ∧ zlen (sq_request q) ≤ PTRDIFF_MAX;
  rs_policy : string_ok (sq_policy q);
  rs_cert c : sq_client_cert q = Some c →
    bytes_ok c ∧ zlen c ≤ PTRDIFF_MAX ∧ (p ≠ MU_SECURITY_POLICY_NONE_ID → MU_B256S256_MIN_ASYMMETRIC_KEY_BITS ≤ sys_bits c)
}.

Lemma upholds_open_msg P msg : bytes_ok msg → zlen msg ≤ PTRDIFF_MAX →
  lupholds P (open_msg_chunk crypto msg) (λ q, ∀ p, request_sound p q).
Proof.
  intros Hb Hl; unfold open_msg_chunk; eapply upholds_bind; [apply upholds_on_server, upholds_the_channel|intros c _]; split_if; [apply upholds_fail|].
  pose proof (zlen_nonneg msg); eapply upholds_bind; [apply upholds_on_server, (upholds_with_client_keys _ (zlen msg)); [done|apply upholds_unwrap; lia]|].
  intros [[si [off len]] b] [(H0 & H1 & H2) Hbuf]; cbn [fst snd] in *; destruct (buffer_load _ b off len Hbuf) as (x & Ex & Hx & Hxb); [lia..|].
  eapply (upholds_bind _ _ _ (λ y, zlen y = len ∧ bytes_ok y)); [by apply (upholds_lift _ _ x)|intros request [Hrl Hrb]]; apply upholds_ret; intros p; split; cbn.
  - split; [done|lia].
  - by apply wire_string_ok; left.
  - done.
Qed.

(** The halves of the scratch buffer. *)
Lemma scratch_halves b : buffer_of MU_SECURE_SCRATCH_SIZE b → buffer_of MU_SECURE_RESP_MAX (ztake MU_SECURE_RESP_MAX b) ∧
  buffer_of MU_SECURE_OPN_REQ_MAX (zdrop MU_SECURE_RESP_MAX b).
Proof.
  unfold MU_SECURE_SCRATCH_SIZE, MU_SECURE_RESP_MAX, MU_SECURE_OPN_REQ_MAX; intros [Hl Hb].
  split; split; [rewrite zlen_ztake by lia; lia|by apply bytes_ok_ztake|rewrite zlen_zdrop by lia; lia|by apply bytes_ok_zdrop].
Qed.

Lemma scratch_join a c : buffer_of MU_SECURE_RESP_MAX a → buffer_of MU_SECURE_OPN_REQ_MAX c → buffer_of MU_SECURE_SCRATCH_SIZE (a ++ c).
Proof.
  unfold MU_SECURE_SCRATCH_SIZE, MU_SECURE_RESP_MAX, MU_SECURE_OPN_REQ_MAX; intros [] []; split; [rewrite zlen_app; lia|by apply bytes_ok_app].
Qed.

Lemma wiped_buffer p v r (st : asym_state W) : buffer_of MU_SECURE_RESP_MAX (p ++ v ++ r) → zlen p = MU_ASYM_MAX_PLAINTEXT →
  zlen v = MU_ASYM_SIGNED_INPUT_MAX → wiped p v r st → buffer_of MU_SECURE_RESP_MAX (ak_scratch st).
Proof.
  intros [Hl Hb] Hp Hv (p' & v' & (Es & Hp' & Hv') & Ep & Ev); rewrite Es; rewrite !bytes_ok_app in Hb; destruct Hb as (Hpb & Hvb & Hrb).
  split; [rewrite !zlen_app in *; lia|]; assert (Hz : ∀ n, bytes_ok (repeat 0 n)) by (intros n; apply Forall_forall; intros x ->%list_elem_of_In%repeat_spec; by ranges).
  rewrite !bytes_ok_app; split_and!; [destruct Ep as [->| ->]; auto|destruct Ev as [->| ->]; auto|done].
Qed.

(** The scratch buffer during an unwrap, and what comes out. *)
Lemma opn_unwrapped msg st : bytes_ok msg → zlen msg ≤ PTRDIFF_MAX → buffer_of MU_SECURE_OPN_REQ_MAX (ak_out st) →
  buffer_of MU_SECURE_RESP_MAX (ak_scratch st) →
  match mu_asym_chunk_unwrap crypto msg (zlen msg) MU_SECURE_OPN_REQ_MAX st with
  | (Ok (ai, n), st') => buffer_of MU_SECURE_OPN_REQ_MAX (ak_out st') ∧ buffer_of MU_SECURE_RESP_MAX (ak_scratch st') ∧
      0 ≤ n ≤ MU_SECURE_OPN_REQ_MAX ∧
      (∀ c, aci_sender_cert ai = Some c → bytes_ok c ∧ zlen c ≤ PTRDIFF_MAX ∧
         (aci_policy ai ≠ MU_SECURITY_POLICY_NONE_ID → MU_B256S256_MIN_ASYMMETRIC_KEY_BITS ≤ sys_bits c))
  | (Err _, st') => buffer_of MU_SECURE_OPN_REQ_MAX (ak_out st') ∧ buffer_of MU_SECURE_RESP_MAX (ak_scratch st')
  | (Fault, _) => False
  end.
Proof.
  intros Hb Hl [Ho Hob] Hs; pose proof Hs as [Hsl Hsb]; unfold MU_SECURE_RESP_MAX in Hsl.
  destruct (buffer_split (ak_scratch st) MU_ASYM_MAX_PLAINTEXT) as (p & t & Es & Hp & Ht & _); [unfold MU_ASYM_MAX_PLAINTEXT; lia|].
  destruct (buffer_split t MU_ASYM_SIGNED_INPUT_MAX) as (v & r & -> & Hv & _ & _); [unfold MU_ASYM_MAX_PLAINTEXT, MU_ASYM_SIGNED_INPUT_MAX in *; lia|].
  rewrite Es in Hs, Hsb; assert (Hpb : bytes_ok p) by (rewrite bytes_ok_app in Hsb; apply Hsb).
  pose proof (wpa_unwrap msg MU_SECURE_OPN_REQ_MAX p v r st (conj Es (conj Hp Hv)) Hpb Hb Hl ltac:(lia)) as H; unfold wpa in H.
  destruct (mu_asym_chunk_unwrap _ _ _ _ st) as [[[ai n]|e|] st']; [|destruct H as (_ & -> & Hw)|done].
  2:{ split; [done|by eapply wiped_buffer]. }
  cbn [fst snd] in H; destruct H as [(size & scid & uri & cert & thumb & hdr & body & Esz & Hsz & Erd & Hhdr & _ & Ecert & _ & -> & Hn & Hbb & Eout & Hacc & _) Hw].
  pose proof (zlen_nonneg body); split; [|split; [by eapply wiped_buffer|split; [lia|]]].
  - rewrite Eout; split; [rewrite zlen_app, zlen_zdrop; lia|apply bytes_ok_app; split; [done|by apply bytes_ok_zdrop]].
  - intros c Ec; rewrite Ec in Hacc; set (rd := mk_reader (Some msg) size 8 MU_STATUS_GOOD) in *.
    assert (Hrd : reader_ok rd) by (split; cbn; [split; [lia|]; split; [lia|done]|lia]).
    destruct (read_opn_header rd) as [x rd'] eqn:Er; cbn [fst] in Erd; subst x.
    destruct (read_opn_header_inv _ _ _ _ _ _ _ Hrd Er) as (_ & _ & Hcert & _).
    rewrite Ec in Ecert; unfold as_option in Ecert; destruct Hcert as [->|(d & Ed & El & Hd & Hdl)]; [done|].
    rewrite Ed in Ecert; destruct (0 <? str_length cert); [|done]; injection Ecert as ->; split; [done|].
    split; [unfold MU_MAX_ENCODED_STRING_LENGTH, PTRDIFF_MAX in *; lia|]; intros Hnone; apply (oa_cert _ _ _ _ _ _ _ _ _ (Hacc Hnone)).
Qed.

Lemma run_open_opn P msg k : bytes_ok msg → 8 ≤ zlen msg ≤ PTRDIFF_MAX → link_ok P k →
  match open_opn_chunk crypto msg k with
  | (Ok q, k') => ∃ p, link_ok (Some p) k' ∧ request_sound p q
  | (Err _, k') => link_ok None k'
  | (Fault, _) => False
  end.
Proof.
  intros Hb Hl Hk; unfold open_opn_chunk; set (r0 := mk_reader _ _ _ _).
  assert (Hr0 : reader_ok r0) by (split; cbn; [split; [lia|]; split; [lia|done]|lia]).
  assert (Hstr : rsafe (_ ← mu_binary_read_uint32; mu_binary_read_string) wire_string).
  { eapply rsafe_bind; [apply rsafe_read_uint32|intros _ _]; apply rsafe_read_string. }
  destruct (upholds_parse (link_ok P) _ r0 _ Hstr Hr0 k Hk) as [Hk1 Ho]; unfold mbind at 1, M_bind at 1.
  destruct (parse _ r0 k) as [[[policy r]|e|] k1]; cbn [fst snd no_fault] in *; [destruct Ho as [Hp _]|by eapply link_weaken|done].
  destruct Hk1 as [Hs Hsend Hscr]; destruct (scratch_halves _ Hscr) as [Hh1 Hh2]; unfold mbind at 1, M_bind at 1; unfold with_opn_buffer.
  set (st := mk_asym_state _ _ _); pose proof (opn_unwrapped msg st Hb ltac:(lia) Hh2 Hh1) as H.
  destruct (mu_asym_chunk_unwrap _ _ _ _ st) as [[[ai n]|e|] st']; cbn [mbind result_bind]; [| |done].
  2:{ destruct H as [H1 H2]; split; cbn; [by apply (serving_world None), (serving_weaken P)|done|by apply scratch_join]. }
  destruct H as (H1 & H2 & Hn & Hc); unfold mbind at 1, M_bind at 1; cbn.
  destruct (buffer_load _ (ak_out st') 0 n H1) as (request & Er & Hrl & Hrb); [lia..|]; rewrite Er; cbn.
  exists (aci_policy ai); split; [split; cbn|split; cbn].
  - exact (serving_set_policy P (aci_policy ai) _ (serving_world P _ (ak_ctx st') Hs)).
  - done.
  - by apply scratch_join.
  - split; [done|unfold MU_SECURE_OPN_REQ_MAX, PTRDIFF_MAX in *; lia].
  - by apply wire_string_ok.
  - exact Hc.
Qed.

Lemma upholds_wrap_msg P seq rid body : bytes_ok body → zlen body ≤ PTRDIFF_MAX →
  lupholds P (wrap_msg crypto seq rid body) (λ total, 0 ≤ total ≤ send_size).
Proof.
  intros Hb Hl; pose proof (tk_send cfg Hcfg) as Hsend; unfold wrap_msg, MU_MIN_CHUNK_SIZE in *.
  eapply upholds_bind; [apply upholds_on_server, upholds_the_channel|intros c _].
  eapply upholds_bind; [apply upholds_on_server, upholds_limits|intros ? ->]; apply upholds_with_server_keys, upholds_wrap; try done; [by apply bytes_okb|lia].
Qed.

Lemma upholds_respond_in_scratch P is_opn q p request_type request : request_sound p q → bytes_ok request → zlen request ≤ PTRDIFF_MAX →
  lupholds P (respond_in_scratch is_opn q request_type request) (λ r, 0 ≤ r.1 ≤ MU_SECURE_RESP_MAX ∧ buffer_of MU_SECURE_RESP_MAX r.2).
Proof.
  intros [_ Hp Hc] Hb Hl k [Hs Hsend Hscr]; unfold runs, respond_in_scratch; destruct (scratch_halves _ Hscr) as [H1 H2].
  set (cert := mk_string _ _); assert (Hcert : string_ok cert).
  { unfold cert; destruct (sq_client_cert q) as [c|]; [|by split; [|ranges]]; destruct (Hc c eq_refl) as (Hcb & Hcl & _).
    exact (bytestring_of_ok (Some c) ltac:(by intros b [= <-])). }
  pose proof (upholds_respond P is_opn (sq_policy q) cert request_type request _ MU_SECURE_RESP_MAX H1 ltac:(by vm_compute) Hb Hl Hp Hcert _ Hs) as [Hs' Ho].
  destruct (respond _ _ _ _ _ _ _) as [[[len response]|e|] s]; cbn in *; [|split; [by split|done]|done].
  split; [|done]; split; [done|done|]; apply scratch_join; [apply Ho|done].
Qed.

(** What follows the opening of a chunk. *)
Definition answer_secured (is_opn : bool) (q : secured_request) : L (Rest := server_rest W) unit :=
  accepted ← on_server (channel (accept_inbound_chunk is_opn (sq_channel_id q) (sq_token_id q) (sq_sequence_number q)));
  if negb accepted then abort_connection
  else
    '(request_type, rr) ← parse mu_binary_read_nodeid (mu_binary_reader_init (Some (sq_request q)) (zlen (sq_request q)));
    on_server (set_request_id (sq_request_id q));;
    '(length, response) ← respond_in_scratch is_opn q request_type (zdrop (r_position rr) (sq_request q));
    if length =? 0 then mret tt
    else
      body ← lift_option (mem_load response 0 length);
      out_seq ← on_server (channel next_out_sequence);
      total ← (if is_opn then
                 c ← on_server the_channel;
                 l ← on_server limits;
                 with_opn_response (mu_asym_chunk_wrap crypto (sc_policy c) (sc_channel_id c) out_seq (sq_request_id q)
                                      (sq_client_cert q) body (cfg_send_buffer_size l))
               else wrap_msg crypto out_seq (sq_request_id q) body);
      send_buffer_chunk total.

Lemma upholds_answer p P is_opn q : (is_opn = true → P = Some p) → request_sound p q → zlen own ≤ PTRDIFF_MAX →
  lupholds P (answer_secured is_opn q) (λ _, True).
Proof.
  intros HP Hq Hown; pose proof Hq as [[Hb Hl] _ Hcert]; pose proof (tk_send cfg Hcfg) as Hsend; unfold answer_secured, MU_MIN_CHUNK_SIZE in *.
  eapply upholds_bind; [apply upholds_on_server, upholds_accept|intros accepted _]; split_if; [apply upholds_abort|].
  pose proof (reader_init_ok _ Hl Hb) as Hr0; eapply upholds_bind; [by apply upholds_parse; [apply rsafe_read_nodeid|]|intros [request_type rr] [_ Hr]]; cbn [snd] in Hr.
  eapply upholds_bind; [apply upholds_on_server, upholds_request_id|intros _ _].
  assert (Hpos : 0 ≤ r_position rr ≤ zlen (sq_request q)) by (destruct Hr as [[_ ?] _ E ?]; cbn in E; lia).
  eapply upholds_bind; [apply (upholds_respond_in_scratch P is_opn q p); [done|by apply bytes_ok_zdrop|rewrite zlen_zdrop; lia]|].
  intros [len response] [Hlen Hresp]; cbn [fst snd] in *; split_if; [by apply upholds_ret|].
  destruct (buffer_load _ response 0 len Hresp) as (body & Ebody & Hbl & Hbb); [lia..|].
  eapply (upholds_bind _ _ _ (λ y, zlen y = len ∧ bytes_ok y)); [by apply (upholds_lift _ _ body)|intros x [Hxl Hxb]].
  assert (Hx : zlen x ≤ PTRDIFF_MAX) by (unfold MU_SECURE_RESP_MAX, PTRDIFF_MAX in *; lia).
  eapply upholds_bind; [apply upholds_on_server, upholds_out_sequence|intros out _]; eapply (upholds_bind _ _ _ (λ total, 0 ≤ total ≤ send_size)); [|intros total Ht; by apply upholds_send].
  destruct is_opn; [|by apply upholds_wrap_msg]; eapply upholds_bind; [apply upholds_on_server, upholds_the_channel|intros c [_ Hc]].
  rewrite (Hc p (HP eq_refl)); eapply upholds_bind; [apply upholds_on_server, upholds_limits|intros ? ->].
  apply upholds_with_opn_response, upholds_asym_wrap; try done; try lia; intros c' Ec Hnone; by apply (Hcert c').
Qed.

Lemma upholds_secure msg is_opn : bytes_ok msg → 8 ≤ zlen msg ≤ PTRDIFF_MAX → zlen own ≤ PTRDIFF_MAX →
  lupholds None (handle_data_chunk_secure crypto msg is_opn) (λ _, True).
Proof.
  intros Hb Hl Hown; change (handle_data_chunk_secure crypto msg is_opn) with (
    c ← on_server the_channel;
    if negb is_opn && bool_decide (sc_policy c = MU_SECURITY_POLICY_NONE_ID) then handle_data_chunk_plaintext msg false
    else q ← (if is_opn then open_opn_chunk crypto msg else open_msg_chunk crypto msg); answer_secured is_opn q).
  eapply upholds_bind; [apply upholds_on_server, upholds_the_channel|intros c _]; split_if; [by apply upholds_plaintext|].
  destruct is_opn.
  - intros k Hk; pose proof (run_open_opn None msg k Hb Hl Hk) as H; unfold runs, mbind, M_bind.
    destruct (open_opn_chunk crypto msg k) as [[q|e|] k']; [destruct H as (p & Hk' & Hq)|done|done].
    destruct (upholds_answer p (Some p) true q ltac:(done) Hq Hown k' Hk') as [Hi Ho]; split; [by eapply link_weaken|done].
  - eapply upholds_bind; [apply upholds_open_msg; [done|lia]|intros q Hq].
    by apply (upholds_answer MU_SECURITY_POLICY_NONE_ID).
Qed.

(** ** Messages *)

Lemma upholds_if_good {S A} (I : S → Prop) (m : M S A) (k : A → M S unit) φ : upholds I m φ → (∀ a, φ a → upholds I (k a) (λ _, True)) →
  upholds I (if_good m k) (λ _, True).
Proof.
  intros Hm Hk s Hs; destruct (Hm s Hs) as [Hi Ho]; unfold runs, if_good; destruct (m s) as [[a|e|] s']; cbn in *; [by apply Hk|done|done].
Qed.

Lemma init_ready : channel_ready crypto mu_secure_channel_init.
Proof. by vm_compute. Qed.

Lemma upholds_close_channel : supholds None (if_good (channel mu_secure_channel_close) free_contexts) (λ _, True).
Proof.
  apply (upholds_if_good _ _ _ (λ _, True)); [apply upholds_channel; intros c Hc|intros freed _; by apply upholds_world].
  unfold mu_secure_channel_close; split_if; [by split_and!|].
  destruct (mu_sym_keys_release_cipher (sc_client_keys c)), (mu_sym_keys_release_cipher (sc_server_keys c)); split; [apply init_ready|by split; [intros []|]].
Qed.

Lemma upholds_error_chunk P code : lupholds P (send_tcp_error_chunk code) (λ _, True).
Proof.
  pose proof (tk_send cfg Hcfg); unfold send_tcp_error_chunk; eapply upholds_bind; [apply upholds_on_server, upholds_limits|intros ? ->].
  apply (upholds_if_good _ _ _ (λ total, 0 ≤ total ≤ send_size)); [|intros total; apply upholds_send].
  apply upholds_on_send, upholds_error_message; [lia|split; [done|by ranges]].
Qed.

Lemma own_length k P : link_ok P k → zlen own ≤ PTRDIFF_MAX.
Proof. intros [[[[[] _ _ _ _ _ _ _] _ _ _ _ _] _ _ _] _ _]; done. Qed.

Lemma upholds_process_chunk msg : bytes_ok msg → 8 ≤ zlen msg ≤ PTRDIFF_MAX → lupholds None (process_chunk msg) (λ _, True).
Proof.
  intros Hb Hl k Hk; pose proof (own_length k None Hk) as Hown; unfold process_chunk.
  pose proof (parse_message_header_ok msg (zlen msg) Hb ltac:(lia) ltac:(lia)) as Hp; destruct (mu_parse_message_header msg (zlen msg)) as [h|e|]; [| |done].
  - cbv zeta; split_if; [|split_if; [done|]]; revert k Hk.
    + change (lupholds None (on_server (if_good (channel mu_secure_channel_close) free_contexts);; abort_connection) (λ _, True)).
      eapply upholds_bind; [apply upholds_on_server, upholds_close_channel|intros _ _]; apply upholds_abort.
    + apply upholds_bind with (φ := λ c, c = cfg ∧ (cfg_crypto_adapter cfg = None ∨ cfg_crypto_adapter cfg = Some crypto)).
      * apply upholds_on_server; intros s Hs; split; [done|]; split; [apply Hs|]; pose proof Hs as [[[[] _ _ _ _ _ _ _] _ _ _ _ _] E _ _].
        cbn in *; by rewrite <- E.
      * intros c [-> Hc]; destruct (cfg_crypto_adapter cfg) as [cr|]; [|by apply upholds_plaintext].
        destruct Hc as [Hc|Hc]; [done|injection Hc as ->]; by apply upholds_secure.
  - destruct (znth_Some msg 3) as [t Et]; [lia|]; revert k Hk.
    change (lupholds None (chunk_type ← lift_option (znth msg 3); if chunk_type =? chr "C" then send_tcp_error_chunk e else mret tt) (λ _, True)).
    eapply (upholds_bind _ _ _ (λ _, True)); [by eapply upholds_lift|intros ct _]; split_if; [apply upholds_error_chunk|by apply upholds_ret].
Qed.

Lemma upholds_process_message msg : bytes_ok msg → 8 ≤ zlen msg ≤ PTRDIFF_MAX → lupholds None (process_message msg) (λ _, True).
Proof.
  intros Hb Hl k Hk; unfold process_message, runs.
  assert (Hchunk : runs (link_ok None) (or_default tt (process_chunk msg)) (λ _, True) k) by (by apply upholds_default; [apply upholds_process_chunk|..]).
  destruct (tcp_state (lk_tcp_conn k)); [|exact Hchunk..]; unfold process_hello; destruct Hk as [Hs Hsend Hscr].
  pose proof Hcfg as [H1 H2 H3 H4 _ _ _ _ _]; unfold MU_MIN_CHUNK_SIZE in *; pose proof (serving_config _ _ Hs) as Ec.
  cbn [host_config rest_config]; rewrite Ec; pose proof (upholds_hello send_size (lk_tcp_conn k) msg (cfg_transport cfg) (lk_send_buffer k)
    Hb ltac:(lia) Hsend ltac:(lia) ltac:(ranges; lia) ltac:(ranges; lia) H3 H4) as H.
  destruct (mu_tcp_process_hello _ _ _ _ _ _) as [[x conn] b]; destruct H as [Hx Hb']; cbv zeta.
  destruct x as [len|e|]; cbn in Hx; [subst len; apply (upholds_send None 28); [lia|by split]|apply (upholds_abort None); by split|done].
Qed.

(** Sending a notification. *)
Lemma upholds_emit request_id body : bytes_ok body → zlen body ≤ PTRDIFF_MAX → lupholds None (emit_on_connection request_id body) (λ _, True).
Proof.
  intros Hb Hl; pose proof (tk_send cfg Hcfg) as Hsend; unfold emit_on_connection, MU_MIN_CHUNK_SIZE in *.
  eapply upholds_bind; [apply upholds_on_server, upholds_the_channel|intros c _].
  apply upholds_bind with (φ := λ c, c = cfg ∧ (cfg_crypto_adapter cfg = None ∨ cfg_crypto_adapter cfg = Some crypto)).
  { apply upholds_on_server; intros s Hs; split; [done|]; split; [apply Hs|]; pose proof Hs as [[[[] _ _ _ _ _ _ _] _ _ _ _ _] E _ _]; cbn in *; by rewrite <- E. }
  intros ? [-> Hc]; cbv zeta; split_if.
  - destruct (cfg_crypto_adapter cfg) as [cr|]; [|apply upholds_fail]; destruct Hc as [Hc|Hc]; [done|injection Hc as ->].
    split_if; [apply upholds_fail|]; eapply upholds_bind; [apply upholds_on_server, upholds_out_sequence|intros out _].
    eapply upholds_bind; [by apply upholds_wrap_msg|intros total Ht]; by apply upholds_send.
  - split_if; [apply upholds_fail|]; bool_hyps; unfold MU_UASC_SYMMETRIC_HEADER_SIZE in *.
    eapply upholds_bind; [apply upholds_on_send, upholds_store_bytes; [lia|lia|done]|intros _ _].
    eapply upholds_bind; [apply upholds_on_server, upholds_out_sequence|intros out _]; eapply upholds_bind; [apply upholds_finalize_msg|intros total Ht]; by apply upholds_send.
Qed.
End link.
