(* ===== verification/PollSafety.v ===== *)
(** * Safety of the server over its whole life

    [mu_server_poll] of [src/core/server.c] with everything below it, from
    [mu_server_init] on: accepting, receiving, processing, publishing, PubSub,
    closing. *)

From S2P Require Export LinkSafety ServerSpec.
From S2P Require Import SampleServer.

Lemma replicate_repeat {A} (x : A) n : replicate n x = repeat x n.
Proof. induction n; cbn; by f_equal. Qed.

(** ** PubSub *)

Section pubsub.
  Context {pubsub : PubSubProfile} {W : Type} (conn : mu_pubsub_connection_t) (n : Z).

Definition pubsub_ok (st : pubsub_state W) : Prop := Forall (group_ready conn n) (ps_groups st) ∧ buffer_of n (ps_send_buffer st).

Lemma group_octets_ok wg : group_ready conn n wg → bytes_ok (group_octets conn wg).
Proof.
  intros [[Hpub Hw _ _ _ Hs _] _]; unfold group_octets, group_message, enc_network_message; rewrite !bytes_ok_app.
  split_and!; [by apply wput_group_header|apply le_bytes_ok|by apply wput_write_fields].
Qed.

Lemma upholds_publish_group send wg : group_ready conn n wg → n ≤ PTRDIFF_MAX → upholds pubsub_ok (publish_group conn send n wg) (λ _, True).
Proof.
  intros Hwg Hm st [Hg [Hl Hb]]; pose proof (group_octets_ok wg Hwg) as Ho; destruct Hwg as [Hp Hfit]; unfold runs, publish_group.
  pose proof (encode_publishable conn wg (group_fields wg) (ps_send_buffer st) Hp Hb ltac:(lia) ltac:(rewrite Hl; exact Hfit)) as E.
  cbv zeta in E; rewrite <- Hl at 1 2; rewrite E; clear E; set (octets := group_message conn wg (group_fields wg)) in *.
  change (group_octets conn wg) with octets in Hfit.
  set (b := octets ++ zdrop (zlen octets) (ps_send_buffer st)); change (default [] (Some b)) with b; pose proof (zlen_nonneg octets).
  assert (Hbuf : buffer_of n b).
  { unfold b; split; [rewrite zlen_app, zlen_zdrop; lia|apply bytes_ok_app; split; [done|by apply bytes_ok_zdrop]]. }
  split_if; [|by split; [split|]]; destruct (buffer_load n b 0 (zlen octets) Hbuf) as (x & Ex & _); [lia..|]; cbn [ps_send_buffer]; rewrite Ex.
  destruct (send _ _ _ _) as [status w]; split; [by split|by destruct (status =? _)].
Qed.

Lemma upholds_publish_groups send now k : n ≤ PTRDIFF_MAX → ∀ i st, pubsub_ok st → (i + k ≤ length (ps_groups st))%nat →
  runs pubsub_ok (publish_groups conn send n now k i) (λ _, True) st.
Proof.
  intros Hm; induction k as [|k IH]; intros i st Hst Hlen; cbn [publish_groups]; [by split|].
  destruct (lookup_lt_is_Some_2 (ps_groups st) i) as [wg Ewg]; [lia|]; unfold runs; rewrite Ewg; pose proof Hst as [Hg Hb].
  split_if; [|apply (IH (S i) st Hst); lia]; cbv zeta.
  set (wg' := set_last_publish wg now); set (st1 := mk_pubsub_state _ _ _).
  assert (Hwg : group_ready conn n wg') by (apply group_ready_set; by eapply Forall_lookup_1).
  assert (H1 : pubsub_ok st1) by (split; cbn; [by apply Forall_insert|done]).
  destruct (upholds_publish_group send wg' Hwg Hm st1 H1) as [H2 Ho]; unfold mbind, M_bind.
  assert (El : length (ps_groups (publish_group conn send n wg' st1).2) = length (ps_groups st1)).
  { unfold publish_group; destruct (mu_encode_uadp_network_message _ _ _ _ _) as [[m|e|] b]; cbn; try done.
    split_if; [|done]; destruct (mem_load _ _ _); [|done]; by destruct (send _ _ _ _). }
  destruct (publish_group conn send n wg' st1) as [[u|e|] st2]; cbn in *; [|done|done].
  apply (IH (S i) st2 H2); rewrite El, length_insert; lia.
Qed.
End pubsub.

Section poll.
  Context {auth : AuthProfile} {profile : BaseProfile} {pub : PublishProfile} {caps : BuildCaps} {Hcaps : BuildCapsOk caps}.
  Context {features : ServiceFeatures} {methods : MethodProfile} {pubsub : PubSubProfile} {W : Type} {env : Environment}.
  Context (sys : RsaSystem) (crypto : crypto_functions W) (own : list Z).
  Context {contract : CryptoContract crypto} {rsa : RsaContract sys crypto own}.
  Context (cfg : mu_server_config_t W) (Hcfg : transport_ok cfg).
  Context (no_queries : MUC_OPCUA_SERVICE_QUERY = false) (stack_sizes : stack_ok env_stack).
  Context (garbage_sizes : ∀ i, SubscriptionServiceSafety.select_ok (env_garbage i)) (history_sizes : history_stack_ok env_history).
  Abbreviation send_size := (cfg_send_buffer_size (cfg_transport cfg)).
  Abbreviation serving := (serving sys crypto own cfg (group_ready (cfg_pubsub cfg) send_size) None).
  Abbreviation link_ok := (link_ok sys crypto own cfg (group_ready (cfg_pubsub cfg) send_size) None).

(** ** One connection *)

Section connection.
  Context (size : Z) (Hsize : MU_MIN_CHUNK_SIZE ≤ size ≤ PTRDIFF_MAX).

(** A connection with a receive buffer of [size] octets. *)
Record attached_ok (a : attached (server_rest W)) : Prop := {
  ao_link : link_ok (at_link a);
  ao_len : 0 ≤ at_rx_len a ≤ size;
  ao_buffer : buffer_of size (at_rx_buffer a)
}.
Abbreviation aupholds := (upholds attached_ok).

Lemma run_linked {A} (m : M (link (server_rest W)) A) φ a : upholds link_ok m φ → attached_ok a →
  attached_ok (linked m a).2 ∧ no_fault φ (linked m a).1 ∧ at_rx_len (linked m a).2 = at_rx_len a ∧
  at_rx_buffer (linked m a).2 = at_rx_buffer a ∧ at_link (linked m a).2 = (m (at_link a)).2.
Proof.
  intros Hm [Hk Hl Hb]; destruct (Hm _ Hk) as [Hk' Ho]; unfold linked; destruct (m (at_link a)) as [x k]; cbn in *; by split_and!.
Qed.

Lemma upholds_linked {A} (m : M (link (server_rest W)) A) φ : upholds link_ok m φ → aupholds (linked m) φ.
Proof. intros Hm a Ha; destruct (run_linked m φ a Hm Ha) as (H1 & H2 & _); by split. Qed.

Lemma upholds_set_receive rx_len ms b : 0 ≤ rx_len ≤ size → buffer_of size b → aupholds (set_receive rx_len ms b) (λ _, True).
Proof. by intros Hl Hb a []. Qed.

Lemma upholds_set_rx_len rx_len : 0 ≤ rx_len ≤ size → aupholds (set_rx_len rx_len) (λ _, True).
Proof. intros Hl; apply upholds_get; intros a Ha; by apply upholds_set_receive; [|apply Ha|]. Qed.

Lemma upholds_note_time : aupholds (now ← linked (on_server tick_ms); a ← get_state; set_receive (at_rx_len a) now (at_rx_buffer a)) (λ _, True).
Proof.
  eapply upholds_bind; [by apply upholds_linked, upholds_on_server, upholds_tick|intros now _]; apply upholds_get; intros a Ha; apply upholds_set_receive; [apply Ha|apply Ha|exact Ha].
Qed.

Lemma run_drop a : attached_ok a → match drop_connection a with
  | (Ok _, a') => attached_ok a' ∧ is_null (lk_client_handle (at_link a')) = true
  | (Err _, a') => attached_ok a'
  | (Fault, _) => False
  end.
Proof.
  unfold MU_MIN_CHUNK_SIZE in Hsize; intros Ha; destruct (run_linked _ _ a (upholds_abort sys crypto own cfg Hcfg _ None) Ha) as (H1 & Ho & _ & _ & Ek).
  unfold drop_connection, mbind, M_bind; unfold linked in *; destruct (abort_connection (at_link a)) as [[u|e|] k] eqn:Ea; cbn in *; [|done|done].
  apply abort_dead in Ea; unfold is_alive in Ea; split; [split; cbn; [apply H1|lia|apply H1]|by apply negb_false_iff].
Qed.

Lemma upholds_drop : aupholds drop_connection (λ _, True).
Proof. intros a Ha; pose proof (run_drop a Ha) as H; unfold runs; destruct (drop_connection a) as [[u|e|] a']; [split; [apply H|done]|by split|done]. Qed.

Lemma upholds_timed_out : aupholds timed_out (λ _, True).
Proof.
  unfold timed_out; eapply upholds_bind; [by apply upholds_linked, upholds_on_server, upholds_tick|intros now _]; apply upholds_get; intros a Ha; by split.
Qed.

Lemma upholds_read_input : aupholds (read_input size) (λ _, True).
Proof.
  apply upholds_get; intros a Ha; pose proof Ha as [_ Hl Hb]; split_if; [|by split]; bool_hyps; cbv zeta.
  destruct (tk_read cfg Hcfg) as (read & Er & Hread); set (room := size - at_rx_len a).
  eapply (runs_bind _ _ _ (λ x, zlen x.2 ≤ room ∧ bytes_ok x.2)).
  { apply upholds_linked; [apply upholds_on_server, (upholds_tcp _ _ _ _ _ _ _ _ read); [done|]|done]; intros w.
    pose proof (Hread (lk_client_handle (at_link a)) room w ltac:(lia)) as H; by destruct (read _ room w) as [[s d] w']. }
  intros [status data] [Hd Hdb]; cbn [fst snd] in *; split_if; [eapply upholds_bind; [apply upholds_drop|intros _ _; by apply upholds_ret]|].
  pose proof (zlen_nonneg data); eapply upholds_bind; [apply (upholds_stored _ size); [done|lia|lia|done]|intros b Hbuf].
  eapply upholds_bind; [by apply upholds_set_receive|intros _ _]; eapply (upholds_bind _ _ _ (λ _, True)); [|intros _ _; by apply upholds_ret].
  split_if; [|by apply upholds_ret]; eapply upholds_bind; [by apply upholds_linked, upholds_on_server, upholds_tick|intros now _]; apply upholds_set_receive; [lia|done].
Qed.

(** What the receive loop leaves: the octets consumed are octets received,
    unless the connection is gone. *)
Definition consumed_ok (c : Z) (a : attached (server_rest W)) : Prop :=
  0 ≤ c ∧ (is_null (lk_client_handle (at_link a)) = true ∨ c ≤ at_rx_len a).

Lemma run_process_buffer fuel : ∀ c a, attached_ok a → 0 ≤ c ≤ at_rx_len a → at_rx_len a - c < Z.of_nat fuel →
  match process_buffer fuel size c a with
  | (Ok c', a') => attached_ok a' ∧ consumed_ok c' a'
  | (Err _, a') => attached_ok a'
  | (Fault, _) => False
  end.
Proof.
  unfold MU_MIN_CHUNK_SIZE in Hsize.
  induction fuel as [|fuel IH]; intros c a Ha Hc Hf; [lia|]; cbn [process_buffer]; unfold mbind at 1, M_bind at 1; cbn [get_state].
  pose proof Ha as [Hk Hl [Hbl Hbb]]; destruct (is_null (lk_client_handle (at_link a))) eqn:En; cbn [orb]; [split; [done|]; split; [lia|by left]|].
  split_if; [split; [done|]; split; [lia|right; lia]|]; bool_hyps.
  destruct (get_u32_safe (zdrop (c + 4) (at_rx_buffer a))) as (msg_size & Em & Hm); [by apply bytes_ok_zdrop|rewrite zlen_zdrop; lia|].
  unfold mbind at 1, M_bind at 1; rewrite Em; cbn [lift_option mret M_ret]; split_if.
  { pose proof (run_drop a Ha) as Hd; unfold mbind, M_bind; destruct (drop_connection a) as [[u|e|] a']; [|done|done].
    destruct Hd; split; [done|]; split; [lia|by left]. }
  bool_hyps; split_if; [split; [done|]; split; [lia|right; lia]|]; bool_hyps.
  destruct (buffer_load size (at_rx_buffer a) c msg_size ltac:(by split)) as (msg & Emsg & Hml & Hmb); [lia..|].
  unfold mbind at 1, M_bind at 1; rewrite Emsg; cbn [lift_option mret M_ret].
  destruct (run_linked _ _ a (upholds_process_message sys crypto own cfg Hcfg _ no_queries stack_sizes garbage_sizes history_sizes msg Hmb ltac:(lia)) Ha)
    as (Ha' & Ho & El & Eb & _).
  unfold mbind at 1, M_bind at 1; destruct (linked (process_message msg) a) as [[u|e|] a']; cbn [fst snd no_fault] in *; [|done|done].
  unfold mbind at 1, M_bind at 1; cbn [get_state]; split_if; [|apply IH; [done|lia|lia]].
  destruct (upholds_set_rx_len 0 ltac:(lia) a' Ha') as [H1 _]; split; [exact H1|]; split; [lia|left]; by destruct a'.
Qed.

Lemma upholds_compact c a : attached_ok a → consumed_ok c a → runs attached_ok (compact c) (λ _, True) a.
Proof.
  intros Ha [H0 Hc]; unfold compact; apply (runs_ok _ get_state _ a a); [done|].
  destruct (is_null _) eqn:En; cbn [negb andb]; [by apply upholds_ret|]; split_if; [|by apply upholds_ret]; bool_hyps; destruct Hc as [Hc|Hc]; [done|].
  pose proof Ha as [_ Hl Hb]; destruct (buffer_load size (at_rx_buffer a) c (at_rx_len a - c) Hb) as (x & Ex & Hx & Hxb); [lia..|].
  cbv zeta; rewrite Ex; cbn [mbind option_bind]; eapply runs_bind; [by apply (upholds_stored _ size); [|lia|lia|..]|intros b Hbuf].
  apply upholds_set_receive; [lia|done].
Qed.

Lemma upholds_serve : aupholds (serve size) (λ _, True).
Proof.
  unfold serve; eapply upholds_bind; [apply upholds_read_input|intros alive _]; destruct alive; [|by apply upholds_ret].
  apply upholds_get; intros a Ha; pose proof (ao_len a Ha); pose proof (run_process_buffer (S (Z.to_nat (at_rx_len a))) 0 a Ha ltac:(lia) ltac:(lia)) as H'.
  unfold runs, mbind, M_bind; destruct (process_buffer _ size 0 a) as [[c|e|] a']; [destruct H'; by apply upholds_compact|done|done].
Qed.

Lemma upholds_unless_late (m : M (attached (server_rest W)) unit) : aupholds m (λ _, True) →
  aupholds (late ← timed_out; if (late : bool) then drop_connection else m) (λ _, True).
Proof. intros Hm; eapply upholds_bind; [apply upholds_timed_out|intros [] _]; [apply upholds_drop|exact Hm]. Qed.

Lemma upholds_set_tcp_conn conn : upholds link_ok (set_tcp_conn conn) (λ _, True).
Proof. by intros k []. Qed.

Lemma upholds_accept_in_slot handle : aupholds (accept_in_slot handle) (λ _, True).
Proof.
  unfold MU_MIN_CHUNK_SIZE in Hsize; unfold accept_in_slot; eapply upholds_bind; [apply upholds_linked, upholds_set_handle|intros _ _].
  eapply upholds_bind; [apply upholds_set_rx_len; lia|intros _ _].
  eapply upholds_bind; [by apply upholds_linked, upholds_on_server, upholds_tick|intros now _]; apply upholds_get; intros a Ha.
  eapply runs_bind; [apply upholds_set_receive; [apply Ha|apply Ha|exact Ha]|intros _ _].
  eapply upholds_bind; [apply upholds_linked, upholds_set_tcp_conn|intros _ _].
  apply upholds_linked, upholds_on_server, upholds_channel; intros c _; split; [apply init_ready|by split; [intros []|]].
Qed.

Lemma upholds_reset : upholds serving reset_server (λ _, True).
Proof.
  intros s [[[] Hsp Hx Hn Hh Hm] Hc Hg _]; split; [|done]; split; [|by cbn; split_if|by cbn; split_if|done].
  split; [|done|done|by split; cbn; split_if; apply Hn|unfold history_ok; cbn; by split_if|cbn; by split_if].
  split; cbn; try done; try by split_if.
  - rewrite replicate_repeat; apply initial_table_inv.
  - unfold zlen; rewrite length_replicate, Z2Nat.id; [done|]; pose proof caps_sessions; lia.
  - apply Forall_replicate; split; try done; try by ranges; repeat constructor; by ranges.
  - split_if; [apply init_good|done].
Qed.

Lemma upholds_accept_handle : upholds serving accept_handle (λ _, True).
Proof.
  destruct (tk_accept cfg Hcfg) as [f E]; apply (upholds_tcp _ _ _ _ _ _ _ _ f); [done|]; intros w; by destruct (f w) as [[s h] w'].
Qed.

Lemma upholds_accept_first : aupholds accept_first (λ _, True).
Proof.
  unfold MU_MIN_CHUNK_SIZE in Hsize; unfold accept_first; eapply upholds_bind; [apply upholds_linked, upholds_on_server, upholds_accept_handle|intros [status handle] _].
  eapply upholds_bind; [apply upholds_linked, upholds_set_handle|intros _ _]; split_if; [|by apply upholds_ret].
  eapply upholds_bind; [apply upholds_linked, upholds_set_tcp_conn|intros _ _]; eapply upholds_bind; [apply upholds_linked, upholds_on_server, upholds_reset|intros _ _].
  eapply upholds_bind; [apply upholds_set_rx_len; lia|intros _ _]; apply upholds_note_time.
Qed.

(** A stack buffer. *)
Definition garbage_ok (garbage : list Z) : Prop := bytes_ok garbage ∧ zlen garbage ≤ PTRDIFF_MAX.

Lemma upholds_server_full handle b : garbage_ok b → upholds serving (write_server_full handle b) (λ _, True).
Proof.
  intros [Hb Hl] s Hs; unfold write_server_full; set (reason := bytes_of_string "Server full").
  destruct (upholds_error_message (zlen b) MU_STATUS_BAD_TCPNOTENOUGHRESOURCES (Some reason) Hl
    ltac:(split; [split; [by vm_compute|by apply bytes_okb]|by vm_compute]) b (conj eq_refl Hb)) as [Hb' Ho].
  destruct (mu_tcp_create_error_message _ _ _ _) as [[len|e|] b']; cbn [fst snd no_fault] in *; [|by apply upholds_ret|done].
  destruct (buffer_load _ b' 0 len Hb') as (x & Ex & _); [lia..|]; destruct (tk_write cfg Hcfg) as [f E].
  eapply (runs_bind _ _ _ (λ _, True)); [by apply (upholds_lift _ _ x)|intros bytes _]; apply (upholds_tcp _ _ _ _ _ _ _ _ f); [done|].
  intros w; by destruct (f handle bytes w) as [[st m] w'].
Qed.

Lemma upholds_reject_second garbage : garbage_ok garbage → upholds serving (reject_second garbage) (λ _, True).
Proof.
  intros [Hb Hl]; unfold reject_second; eapply upholds_bind; [apply upholds_accept_handle|intros [status handle] _]; split_if; [|by apply upholds_ret].
  destruct (tk_read cfg Hcfg) as (read & Er & Hread); pose proof (zlen_nonneg garbage).
  eapply (upholds_bind _ _ _ (λ x, zlen x.2 ≤ zlen garbage ∧ bytes_ok x.2)).
  { apply (upholds_tcp _ _ _ _ _ _ _ _ read); [done|]; intros w; pose proof (Hread handle (zlen garbage) w ltac:(lia)) as Hr.
    by destruct (read handle _ w) as [[s d] w']. }
  intros [status' data] [Hd Hdb]; cbn [fst snd] in *; eapply upholds_bind; [apply (upholds_stored _ (zlen garbage)); [done|lia|lia|done]|intros buf [Hbl Hbb]].
  eapply (upholds_bind _ _ _ (λ _, True)); [|intros _ _; by apply upholds_close_handle]; split_if; [|by apply upholds_ret].
  apply upholds_server_full; split; [done|lia].
Qed.

Lemma upholds_close_connection : aupholds close_connection (λ _, True).
Proof.
  apply upholds_get; intros a Ha; cbv zeta; split_if; [by apply upholds_ret|].
  eapply runs_bind; [apply upholds_linked; [by apply upholds_on_server, upholds_close_handle|exact Ha]|intros _ _].
  eapply upholds_bind; [apply upholds_linked, upholds_on_server, upholds_close_channel|intros _ _]; apply upholds_linked, upholds_set_handle.
Qed.
End connection.

Lemma upholds_poll_single garbage : garbage_ok garbage →
  upholds (attached_ok (cfg_receive_buffer_size (cfg_transport cfg))) (poll_single garbage) (λ _, True).
Proof.
  intros Hg; pose proof (tk_receive cfg Hcfg) as Hr; apply upholds_get; intros a Ha; split_if; [by apply upholds_accept_first|].
  apply upholds_unless_late; [done| |done]; eapply upholds_bind; [by apply upholds_linked, upholds_on_server, upholds_reject_second|intros _ _].
  eapply upholds_bind; [apply upholds_linked, upholds_on_server, upholds_limits|intros ? ->]; by apply upholds_serve.
Qed.

Lemma upholds_poll_connection : upholds (attached_ok MU_CONNECTION_RX_BUFFER_SIZE) poll_connection (λ _, True).
Proof.
  apply upholds_get; intros a Ha; split_if; [by apply upholds_ret|]; assert (MU_MIN_CHUNK_SIZE ≤ MU_CONNECTION_RX_BUFFER_SIZE ≤ PTRDIFF_MAX) by (by vm_compute).
  apply upholds_unless_late; [done| |done]; by apply upholds_serve.
Qed.

(** ** The server *)

Definition conn_good (size : Z) (c : mu_connection_t) : Prop :=
  channel_ready crypto (conn_secure_channel c) ∧ 0 ≤ conn_rx_len c ≤ size ∧ buffer_of size (conn_rx_buffer c).

(** The invariant of [struct mu_server]. *)
Record state_ok (st : server_state (server_rest W)) : Prop := {
  live_server : serving (st_server st);
  live_send : buffer_of send_size (st_send_buffer st);
  live_scratch : buffer_of MU_SECURE_SCRATCH_SIZE (st_secure_scratch st);
  live_connection : conn_good (cfg_receive_buffer_size (cfg_transport cfg)) (st_connection st);
  live_conns : Forall (conn_good MU_CONNECTION_RX_BUFFER_SIZE) (st_conns st);
  live_count : length (st_conns st) = Z.to_nat MU_MAX_CONNECTIONS;
  live_sound : st_faulted st = false
}.

Definition valid_connection (active : option nat) : Prop :=
  match active with Some i => (i < Z.to_nat MU_MAX_CONNECTIONS)%nat | None => True end.

Definition receive_size (active : option nat) : Z :=
  match active with Some _ => MU_CONNECTION_RX_BUFFER_SIZE | None => cfg_receive_buffer_size (cfg_transport cfg) end.

Lemma attach_ok st c size : state_ok st → conn_good size c → attached_ok size (attach st c).
Proof.
  intros [] (Hch & Hl & Hb); split; [split|done|done]; cbn; [by apply serving_channel|done|done].
Qed.

Lemma detach_good a size : attached_ok size a → conn_good size (detach a).
Proof. intros [[[[[] _ _ _ _ _] _ _ _] _ _] Hl Hb]; split; [done|by split]. Qed.

Lemma upholds_with_connection {A} active (m : M (attached (server_rest W)) A) φ : valid_connection active →
  upholds (attached_ok (receive_size active)) m φ → upholds state_ok (with_connection active m) φ.
Proof.
  intros Hv Hm st Hst; pose proof Hst as [_ _ _ Hown Hconns Hcount Hsound]; unfold runs, with_connection.
  assert (Hc : ∃ c, connection st active = Some c ∧ conn_good (receive_size active) c).
  { destruct active as [i|]; cbn in *; [|by eexists]; destruct (lookup_lt_is_Some_2 (st_conns st) i) as [c Ec]; [lia|].
    exists c; split; [done|]; by eapply Forall_lookup_1. }
  destruct Hc as (c & -> & Hc); destruct (Hm _ (attach_ok st c _ Hst Hc)) as [Ha Ho]; destruct (m (attach st c)) as [x a]; cbn [fst snd] in *.
  split; [|done]; pose proof (detach_good a _ Ha) as Hd; pose proof Ha as [[Hs Hsend Hscr] _ _].
  destruct active as [i|]; split; cbn; try done; [by apply Forall_insert|by rewrite length_insert].
Qed.

Lemma upholds_on_state {A} (m : M (mu_server_t (server_rest W)) A) φ : upholds serving m φ → upholds state_ok (on_state m) φ.
Proof. intros Hm st []; destruct (Hm (st_server st)) as [Hs Ho]; [done|]; unfold runs, on_state; destruct (m _) as [x s]; by split. Qed.

(** ** Notifications *)

Lemma emitting_valid st active : state_ok st → valid_connection active →
  match emitting_connection st active with Ok c => valid_connection c | Err _ => True | Fault => False end.
Proof.
  intros Hst Hv; unfold emitting_connection; destruct MUC_OPCUA_MULTIPLE_CONNECTIONS; [|done]; destruct active as [i|]; [done|].
  destruct (sv_active_session (st_server st)) as [slot|]; cbn [mbind option_bind]; [|done]; destruct (znth _ _) as [x|]; cbn [mbind option_bind]; [|done].
  destruct (list_find _ (st_conns st)) as [[i c]|] eqn:E; [|done]; apply list_find_Some in E as (E & _); apply lookup_lt_Some in E.
  by rewrite (live_count st Hst) in E.
Qed.

Lemma state_emits : emits (emitter := server_emitter) state_ok valid_connection.
Proof.
  intros st active rid bytes Hst Hv Hb Hl; unfold emit_message, server_emitter, mu_server_emit_message.
  pose proof (emitting_valid st active Hst Hv) as Hc; destruct (emitting_connection st active) as [c|e|]; [|done|done].
  assert (Hm : upholds (attached_ok (receive_size c)) (linked (emit_on_connection rid bytes)) (λ _, True)).
  { apply upholds_linked, upholds_emit; [done|done|]; unfold MU_PUBLISH_BODY_BYTES, PTRDIFF_MAX in *; lia. }
  destruct (upholds_with_connection c _ _ Hc Hm st Hst) as [H1 H2]; destruct (with_connection c _ st) as [[u|e|] st']; done.
Qed.

Lemma serving_engine s e : serving s → engine_good e → serving (set_rest s (host_set_engine (sv_rest s) e)).
Proof. intros [[[] ? ? ? ? ?] ? ? ?] He; split; try done; split; try done; by split. Qed.

Lemma upholds_run_tick now_ms : upholds state_ok (run_tick now_ms) (λ _, True).
Proof.
  intros st Hst; unfold runs, run_tick; cbv zeta; set (conns := _ <$> st_conns st).
  assert (Hv : ∀ s conn, resolve_connection (sv_sessions (st_server st)) conns s = Some conn → valid_connection conn).
  { intros s conn; unfold resolve_connection; destruct MUC_OPCUA_MULTIPLE_CONNECTIONS; [|by intros [= <-]].
    destruct (list_find _ (sv_sessions _)) as [[j x]|]; cbn [mbind option_bind]; [|done].
    destruct (list_find _ conns) as [[i c]|] eqn:E; cbn [mbind option_bind]; [|done]; intros [= <-]; apply list_find_Some in E as (E & _).
    apply lookup_lt_Some in E; unfold conns in E; rewrite length_fmap, (live_count st Hst) in E; exact E. }
  assert (He : engine_good (host_engine (sv_rest (st_server st)))) by apply (live_server st Hst).
  destruct (tick_emits state_ok valid_connection state_emits (time_adapter (st_server st)) (time_now (st_server st)) now_ms
    (sv_sessions (st_server st)) conns (host_engine (sv_rest (st_server st))) st Hv Hst He) as (e & st' & -> & He' & Hst').
  pose proof Hst' as []; rewrite (live_sound st' Hst'); split; [|done]; split; cbn; try done; by apply serving_engine.
Qed.

(** ** PubSub *)

Lemma upholds_run_pubsub : upholds state_ok run_pubsub (λ _, True).
Proof.
  intros st Hst; unfold runs, run_pubsub; cbv zeta; pose proof Hst as [Hs Hsend ? ? ? ? ?]; pose proof (tk_send cfg Hcfg) as Hsz.
  set (ps := mk_pubsub_state _ _ _); assert (Hps : pubsub_ok (cfg_pubsub cfg) send_size ps) by (split; [apply Hs|done]).
  assert (Hrun : runs (pubsub_ok (cfg_pubsub cfg) send_size) (mu_pubsub_poll (host_config (sv_rest (st_server st)))) (λ _, True) ps).
  { unfold runs, mu_pubsub_poll; cbn [host_config rest_config]; rewrite (serving_config _ _ _ _ _ _ _ Hs); split_if; [|by split].
    destruct (cfg_udp_send cfg) as [send|]; [|by split]; destruct (cfg_get_tick_ms cfg) as [get|]; [|by split]; destruct (get (ps_world ps)) as [now w].
    apply (upholds_publish_groups (cfg_pubsub cfg) send_size send (to_u32 now) (length (ps_groups ps))); [lia|done|cbn; lia]. }
  destruct Hrun as [[Hg Hb] Ho]; destruct (mu_pubsub_poll _ ps) as [x ps']; cbn [fst snd] in *; split; [|done]; split; cbn; try done.
  destruct Hs as [[[] ? ? ? ? ?] ? ? ?]; split; try done; split; try done; by split.
Qed.

(** ** The poll *)

Lemma upholds_background : upholds state_ok mu_server_poll_background (λ _, True).
Proof.
  unfold mu_server_poll_background; eapply (upholds_bind _ _ _ (λ _, True)); [split_if; [apply upholds_run_pubsub|by apply upholds_ret]|intros _ _].
  split_if; [|by apply upholds_ret]; eapply upholds_bind; [by apply upholds_on_state, upholds_tick|intros now _]; apply upholds_run_tick.
Qed.

Lemma upholds_poll_connections n : ∀ i, (i + n ≤ Z.to_nat MU_MAX_CONNECTIONS)%nat → upholds state_ok (poll_connections n i) (λ _, True).
Proof.
  induction n as [|n IH]; intros i Hi; cbn [poll_connections]; [by apply upholds_ret|].
  eapply upholds_bind; [apply upholds_with_connection; [cbn; lia|apply upholds_poll_connection]|intros _ _]; apply IH; lia.
Qed.

Lemma upholds_poll_multiple garbage : garbage_ok garbage → upholds state_ok (poll_multiple garbage) (λ _, True).
Proof.
  intros Hg; apply upholds_get; intros st Hst; cbv zeta; eapply runs_bind; [apply upholds_on_state; [apply upholds_accept_handle|exact Hst]|].
  intros [status handle] _; split_if; [|by apply upholds_poll_connections].
  destruct (list_find _ (st_conns st)) as [[i c]|] eqn:E; cbn [fmap option_fmap option_map fst].
  - apply list_find_Some in E as (E & _); apply lookup_lt_Some in E; rewrite (live_count st Hst) in E.
    apply upholds_with_connection; [exact E|]; by apply upholds_accept_in_slot.
  - eapply upholds_bind; [by apply upholds_on_state, upholds_server_full|intros _ _]; by apply upholds_on_state, upholds_close_handle.
Qed.

Lemma upholds_poll garbage : garbage_ok garbage → upholds state_ok (mu_server_poll garbage) (λ _, True).
Proof.
  intros Hg; apply upholds_get; intros st Hst; split_if; [by apply upholds_fail|].
  eapply (runs_bind _ _ _ (λ _, True)); [|intros _ _; apply upholds_background].
  split_if; [by apply upholds_poll_multiple|]; apply upholds_with_connection; [done|by apply upholds_poll_single|done].
Qed.

Lemma upholds_close_connections n : ∀ i, (i + n ≤ Z.to_nat MU_MAX_CONNECTIONS)%nat → upholds state_ok (close_connections n i) (λ _, True).
Proof.
  induction n as [|n IH]; intros i Hi; cbn [close_connections]; [by apply upholds_ret|].
  eapply upholds_bind; [apply upholds_with_connection; [cbn; lia|apply upholds_close_connection]|intros _ _]; apply IH; lia.
Qed.

Lemma upholds_close : upholds state_ok mu_server_close (λ _, True).
Proof.
  unfold mu_server_close; eapply (upholds_bind _ _ _ (λ _, True)); [by intros st []; split|intros _ _].
  eapply (upholds_bind _ _ _ (λ _, True)); [|intros _ _; by apply upholds_on_state, upholds_world].
  split_if; [by apply upholds_close_connections|]; apply upholds_with_connection; [done|]; apply upholds_linked, upholds_on_server, upholds_close_channel.
Qed.
End poll.
