(* ===== verification/ServerLife.v ===== *)
(** * The life of a server

    [mu_server_init], then any sequence of polls, events of the application,
    registrations and the closing ([src/core/server.c]): what an application
    has to provide, the states it can reach, and that none of them is unsafe. *)

From S2P Require Export PollSafety.
From S2P Require Import SampleServer.

(** ** What the application provides *)

(** Nodes the application may serve: identifiers the index supports, complete
    references, and values that can be encoded. *)
Record user_space_ok (sp : mu_address_space_t) : Prop := {
  us_space : AddressSpace.space_ok sp;
  us_addr : as_addr sp ≠ BASE_ADDR;
  us_ids : Forall (λ n, nodeid_supported (node_node_id n)) (space_nodes sp);
  us_links : Forall node_links_ok (space_nodes sp);
  us_printable now : Forall (node_printable now) (space_nodes sp);
  us_readable : Forall node_readable (space_nodes sp)
}.

Section life.
  Context {auth : AuthProfile} {profile : BaseProfile} {pub : PublishProfile} {caps : BuildCaps} {Hcaps : BuildCapsOk caps}.
  Context {features : ServiceFeatures} {methods : MethodProfile} {pubsub : PubSubProfile} {layout : StructLayout} {W : Type} {env : Environment}.
  Context (sys : RsaSystem) (crypto : crypto_functions W) (own : list Z).
  Context {contract : CryptoContract crypto} {rsa : RsaContract sys crypto own}.
  Abbreviation state := (server_state (server_rest W)).

(** A configuration whose pointers and lengths say what is there, with a TCP
    adapter that reads at most what it is asked for; whether it is complete and
    large enough is for [mu_server_config_validate] to find out. *)
Record deployment_ok (cfg : mu_server_config_t W) : Prop := {
  dp_config : config_ok sys crypto own cfg;
  dp_receive b : cfg_receive_buffer cfg = Some b → buffer_of (cfg_receive_buffer_size (cfg_transport cfg)) b;
  dp_send b : cfg_send_buffer cfg = Some b → buffer_of (cfg_send_buffer_size (cfg_transport cfg)) b;
  dp_receive_size : cfg_receive_buffer_size (cfg_transport cfg) ≤ PTRDIFF_MAX;
  dp_send_size : cfg_send_buffer_size (cfg_transport cfg) ≤ PTRDIFF_MAX;
  dp_chunks : u32_range (cfg_max_chunk_count (cfg_transport cfg));
  dp_message : u32_range (cfg_max_message_size (cfg_transport cfg));
  dp_read read handle size w : tcp_read (cfg_tcp_adapter cfg) = Some read → 0 ≤ size →
    zlen (read handle size w).1.2 ≤ size ∧ bytes_ok (read handle size w).1.2;
  dp_history : history_adapter_ok (cfg_history_adapter cfg);
  dp_space sp : cfg_address_space cfg = Some sp → user_space_ok sp
}.

(** ** Validation *)

(** What an accepted configuration is known to have. *)
Record accepted (cfg : mu_server_config_t W) : Prop := {
  ac_transport : transport_ok cfg;
  ac_listen : is_Some (tcp_listen (cfg_tcp_adapter cfg));
  ac_receive : is_Some (cfg_receive_buffer cfg);
  ac_send : is_Some (cfg_send_buffer cfg);
  ac_distinct sp : cfg_address_space cfg = Some sp → nodes_distinct (space_nodes sp)
}.

Lemma non_null {A} (x : option A) : is_null x = false → is_Some x.
Proof. by destruct x. Qed.

Lemma user_space_validate sp : user_space_ok sp →
  mu_address_space_validate sp = Ok tt ∧ nodes_distinct (space_nodes sp) ∨ mu_address_space_validate sp = Err MU_STATUS_BAD_INTERNALERROR.
Proof.
  intros [Hsp Ha Hi Hl _ _]; assert (Hr : Forall node_refs_ok (space_nodes sp)) by (eapply Forall_impl; [exact Hl|]; intros n H; apply H).
  destruct (validate_decides sp Hsp Ha Hr) as [[E [Hd _]]|[E _]]; [left|by right]; by split.
Qed.

Lemma validate_accepts cfg : deployment_ok cfg →
  match mu_server_config_validate (Some cfg) with Ok _ => accepted cfg | Err _ => True | Fault => False end.
Proof.
  intros Hd; unfold mu_server_config_validate; cbv zeta; do 9 (split_if; [done|]); bool_hyps.
  repeat match goal with H : is_null _ = false |- _ => apply non_null in H end.
  match goal with H : tcp_adapter_complete _ = true |- _ => unfold tcp_adapter_complete in H; bool_hyps end.
  repeat match goal with H : is_null _ = false |- _ => apply non_null in H end.
  assert (Ht : transport_ok cfg).
  { destruct Hd; split; try done; try lia; destruct (tcp_read _) as [read|]; [|by destruct (is_Some_None (A := nat))]; exists read; auto. }
  destruct (cfg_address_space cfg) as [sp|] eqn:Es.
  - destruct (user_space_validate sp (dp_space cfg Hd sp Es)) as [[-> Hn]| ->]; cbn [mbind result_bind]; [|done]; split_if; [done|].
    split; try done; intros sp'; rewrite Es; by intros [= <-].
  - split; try done; by rewrite Es.
Qed.

(** ** Initialisation *)

Lemma zero_buffer n : 0 ≤ n → buffer_of n (replicate (Z.to_nat n) 0).
Proof. intros Hn; split; [unfold zlen; rewrite length_replicate; lia|apply Forall_replicate; by ranges]. Qed.

Lemma init_conn_good size b : 0 ≤ size → buffer_of size b → conn_good crypto size (initial_connection b).
Proof. intros Hs Hb; split; [apply init_ready|]; cbn; split; [lia|done]. Qed.

Lemma runtime_links addr time start : Forall node_links_ok (space_nodes (rn_space (mu_base_runtime_init addr time start))).
Proof.
  unfold mu_base_runtime_init; destruct MUC_OPCUA_BASE_TYPE_SYSTEM; cbn [rn_space]; repeat constructor; cbn; ranges; try lia; try done; by vm_compute.
Qed.

Lemma initial_index_inv sp : index_inv sp (mk_index (replicate (Z.to_nat MU_MAX_ADDRESS_SPACE_NODES) 0) 0 false None 0).
Proof.
  split; [|done]; cbn; unfold zlen; rewrite length_replicate, Z2Nat.id; [done|]; pose proof caps_address_space_nodes; lia.
Qed.

Lemma initial_conn addr cfg start w : deployment_ok cfg → conn_ok sys crypto own (st_server (initial_state addr cfg start w)).
Proof.
  intros Hd; split; cbn; try done.
  - apply Hd.
  - split; cbn -[replicate]; [split; [done|by ranges]..|by apply zero_buffer|by vm_compute].
  - rewrite replicate_repeat; apply initial_table_inv.
  - unfold zlen; rewrite length_replicate, Z2Nat.id; [done|]; pose proof caps_sessions; lia.
  - apply Forall_replicate; split; try done; try by ranges; repeat constructor; by ranges.
  - apply init_good.
Qed.

Lemma initial_good addr cfg start w : deployment_ok cfg → accepted cfg → addr ≠ BASE_ADDR →
  server_good sys crypto own (st_server (initial_state addr cfg start w)).
Proof.
  intros Hd Ha Haddr; unfold initial_state; cbv zeta; cbn [st_server]; set (rt := mu_base_runtime_init _ _ _).
  assert (Hrt : Forall node_links_ok (space_nodes (rn_space rt)) ∧ (∀ now, Forall (node_printable now) (space_nodes (rn_space rt))) ∧
    Forall node_readable (space_nodes (rn_space rt))) by (split; [apply runtime_links|split; [intros now; apply runtime_printable|apply runtime_readable]]).
  destruct Hrt as (Hrl & Hrp & Hrr); split; cbn [sv_address_space sv_runtime_space sv_user_index sv_rest rs_registered_methods].
  - by apply (initial_conn addr cfg start w).
  - split; [split|intros now; split|intros sp E; by apply (dp_space cfg Hd)|by intros sp [= <-]].
    + intros sp E; by apply (dp_space cfg Hd).
    + by intros sp [= <-].
    + intros sp E; by apply (dp_space cfg Hd).
    + by intros sp [= <-].
  - split.
    + destruct (cfg_address_space cfg) as [sp|] eqn:E; [|done]; split; [by apply (dp_space cfg Hd)|]; split; [by apply (ac_distinct cfg Ha)|apply initial_index_inv].
    + split; [|exact Haddr]; split; [by vm_compute|]; eapply Forall_impl; [apply (Hrp 0)|]; intros n H; apply H.
  - destruct (init_space_ok (caps := caps)) as [Hok Hdn]; split; [split; [done|]; by exists [], []|].
    exact (live_references_denoted _ [] [] Hok Hdn).
  - apply Hd.
  - done.
Qed.

Lemma initial_ok addr cfg start w : deployment_ok cfg → accepted cfg → addr ≠ BASE_ADDR →
  state_ok sys crypto own cfg (initial_state addr cfg start w).
Proof.
  intros Hd Ha Haddr; pose proof (initial_good addr cfg start w Hd Ha Haddr); pose proof Ha as [[] _ [rx Erx] [tx Etx] _]; unfold MU_MIN_CHUNK_SIZE in *.
  split; [by split| | | | | |done]; unfold initial_state; cbv zeta; cbn -[replicate Z.to_nat]; rewrite ?Erx, ?Etx.
  - by apply (dp_send cfg Hd).
  - by apply zero_buffer.
  - apply init_conn_good; [lia|]; by apply (dp_receive cfg Hd).
  - apply Forall_replicate, init_conn_good; [done|]; by apply zero_buffer.
  - by rewrite length_replicate.
Qed.

(** ** The application *)

(** Operations of the public interface on a part of the server. *)
Definition on_groups {A} (m : M (list mu_pubsub_writer_group_t) A) : M state A :=
  on_state (λ s, let '(x, groups) := m (host_writer_groups (sv_rest s)) in (x, set_rest s (host_set_writer_groups (sv_rest s) groups))).

Definition set_registered_methods (r : server_rest W) (l : list (mu_nodeid_t * mu_method_callback_t W)) : server_rest W :=
  mk_rest (rs_config r) (rs_world r) (rs_opn r) (rs_subs r) (rs_current_request_id r) (rs_dynamic_address_space r) l (rs_writer_groups r) (rs_query_points r).

Definition on_methods {A} (m : M (list (mu_nodeid_t * mu_method_callback_t W)) A) : M state A :=
  on_state (λ s, let '(x, l) := m (host_methods (sv_rest s)) in (x, set_rest s (set_registered_methods (sv_rest s) l))).

Definition raise_event (event : mu_event_notification_t) : M state unit :=
  on_state (λ s, match mu_server_trigger_event (host_engine (sv_rest s)) event with
                 | Some e => (Ok tt, set_rest s (host_set_engine (sv_rest s) e))
                 | None => (Fault, s)
                 end).

(** The calls an application may make, with what it owes each. *)
Inductive api_call (cfg : mu_server_config_t W) : M state unit → Prop :=
| call_poll garbage : garbage_ok garbage → api_call cfg (mu_server_poll garbage)
| call_close : api_call cfg mu_server_close
| call_add_group wg : (∀ g, wg = Some g → group_ready (cfg_pubsub cfg) (cfg_send_buffer_size (cfg_transport cfg)) g) →
    api_call cfg (on_groups (mu_server_add_writer_group wg))
| call_register id callback : (∀ f, callback = Some f → method_ok f) → api_call cfg (on_methods (mu_server_register_method_callback id callback))
| call_event event : event_ok event → api_call cfg (raise_event event).

(** Any call, whatever it returns. *)
Definition calls (cfg : mu_server_config_t W) : relation state := λ st st', ∃ m, api_call cfg m ∧ st' = (m st).2.

Section calls.
  Context (no_queries : MUC_OPCUA_SERVICE_QUERY = false) (stack_sizes : stack_ok env_stack).
  Context (garbage_sizes : ∀ i, SubscriptionServiceSafety.select_ok (env_garbage i)) (history_sizes : history_stack_ok env_history).
  Context (cfg : mu_server_config_t W) (Hcfg : transport_ok cfg).

Lemma upholds_on_groups wg : (∀ g, wg = Some g → group_ready (cfg_pubsub cfg) (cfg_send_buffer_size (cfg_transport cfg)) g) →
  upholds (state_ok sys crypto own cfg) (on_groups (mu_server_add_writer_group wg)) (λ _, True).
Proof.
  intros Hwg; apply upholds_on_state; intros s Hs; unfold runs, mu_server_add_writer_group.
  assert (Hset : ∀ l, Forall (group_ready (cfg_pubsub cfg) (cfg_send_buffer_size (cfg_transport cfg))) l →
    serving sys crypto own cfg (group_ready (cfg_pubsub cfg) (cfg_send_buffer_size (cfg_transport cfg))) None
      (set_rest s (host_set_writer_groups (sv_rest s) l))).
  { intros l Hl; destruct Hs as [[[] ? ? ? ? ?] ? ? ?]; split; try done; split; try done; by split. }
  pose proof (serving_groups _ _ _ _ _ _ _ Hs) as Hg; destruct wg as [wg|]; [|by split; [apply Hset|]].
  repeat split_if; split; try done; apply Hset; try done.
  apply Forall_app; split; [done|]; constructor; [by apply group_ready_set, Hwg|constructor].
Qed.

Lemma upholds_on_methods id callback : (∀ f, callback = Some f → method_ok f) →
  upholds (state_ok sys crypto own cfg) (on_methods (mu_server_register_method_callback id callback)) (λ _, True).
Proof.
  intros Hf; apply upholds_on_state; intros s Hs; unfold runs, mu_server_register_method_callback.
  assert (Hset : ∀ l, Forall (λ m, method_ok m.2) l →
    serving sys crypto own cfg (group_ready (cfg_pubsub cfg) (cfg_send_buffer_size (cfg_transport cfg))) None
      (set_rest s (set_registered_methods (sv_rest s) l))).
  { intros l Hl; destruct Hs as [[[] ? ? ? ? ?] ? ? ?]; split; try done; split; try done; by split. }
  pose proof (sg_methods _ _ _ _ (serving_good _ _ _ _ _ _ _ Hs)) as Hm; change (rs_registered_methods (sv_rest s)) with (host_methods (sv_rest s)) in Hm.
  destruct id as [id|]; [|by split; [apply Hset|]]; destruct callback as [f|]; [|by split; [apply Hset|]]; specialize (Hf f eq_refl).
  split_if; [by split; [apply Hset|]|]; destruct (list_find _ _) as [[i [id' f']]|]; split; try done; apply Hset.
  - by apply Forall_insert.
  - apply Forall_app; split; [done|]; by repeat constructor.
Qed.

Lemma upholds_raise_event event : event_ok event → upholds (state_ok sys crypto own cfg) (raise_event event) (λ _, True).
Proof.
  intros He; apply upholds_on_state; intros s Hs; pose proof (co_engine _ _ _ _ (sg_conn _ _ _ _ (serving_good _ _ _ _ _ _ _ Hs))) as Hg.
  destruct (trigger_event_good _ event Hg He) as (e & E & Hgood); unfold runs; rewrite E; split; [|done]; by apply serving_engine.
Qed.

Lemma upholds_call m : api_call cfg m → upholds (state_ok sys crypto own cfg) m (λ _, True).
Proof.
  intros [garbage Hg| |wg Hwg|id f Hf|event He]; [by apply upholds_poll|by apply upholds_close|by apply upholds_on_groups|by apply upholds_on_methods|by apply upholds_raise_event].
Qed.

Lemma calls_ok st st' : rtc (calls cfg) st st' → state_ok sys crypto own cfg st → state_ok sys crypto own cfg st'.
Proof. induction 1 as [|a b c (m & Hm & ->) _ IH]; [done|]; intros Hst; apply IH; by apply upholds_call. Qed.
End calls.

End life.

(** ** A sample deployment *)

Module LifeSample.
#[local] Existing Instances embedded_profile embedded_caps SystemSample.features demo_pub Sample.sample_auth Sample.sample_methods Sample.sample_pubsub
  Sample.sample_layout SystemSample.env SessionSample.sys_contract.
Import SessionSample.

(** A peer that connects and sends a Hello over and over. *)
Definition peer_tcp : mu_tcp_adapter_t unit :=
  mk_tcp_adapter (Some (λ _ w, (MU_STATUS_GOOD, w))) (Some (λ w, (MU_STATUS_GOOD, Some 1, w)))
    (Some (λ _ n w, (MU_STATUS_GOOD, ztake n Sample.hello, w))) (Some (λ _ data w, (MU_STATUS_GOOD, zlen data, w)))
    (Some (λ _ w, w)) (Some (λ w, w)).

(** With a crypto adapter and an application node. *)
Definition deployment : mu_server_config_t unit :=
  mk_server_config (Some Sample.sample_url) None None None (Some (Sample.zeros 8192)) (Some (Sample.zeros 8192)) (mk_transport_config 8192 8192 1 8192) 1 1
    peer_tcp (Some (λ w, (77, w))) (Some (λ w, (5000, w))) (Some (λ w, (λ n, Ok (replicate (Z.to_nat n) 7), w)))
    (Some adapter) (Some demo_space) false None (Some (mk_trust_list [(client_cert, 3)])) false (mk_pubsub_connection 0 false 0 None) None None
    (mk_history_adapter None None None).

Lemma sample_space : user_space_ok demo_space.
Proof.
  split; [exact demo_space_ok|done| |apply (proj1 demo_links); reflexivity|intros now|].
  - by repeat constructor.
  - assert (string_ok null_string) by (split; [done|by ranges]).
    apply Forall_forall; cbn; intros n Hn; repeat (apply elem_of_cons in Hn as [->|Hn]); [..|by apply not_elem_of_nil in Hn];
      (split; [by ranges|]); (split; [done|]); (split; [done|]); (split; [by ranges|]); (split; [|done]); repeat constructor; by ranges.
  - repeat constructor; intros ? ? ? ? [=].
Qed.

Lemma sample_deployment : deployment_ok sys adapter own deployment.
Proof.
  split.
  - destruct server_ok as [[] _ _ _ _ _ _ _]; by split.
  - intros b [= <-]; by apply zero_buffer.
  - intros b [= <-]; by apply zero_buffer.
  - by vm_compute.
  - by vm_compute.
  - by ranges.
  - by ranges.
  - intros read handle size w [= <-] Hs; cbn [fst snd]; split; [unfold zlen, ztake; rewrite length_take; lia|apply bytes_ok_ztake; by apply bytes_okb].
  - split; intros; discriminate.
  - intros sp [= <-]; exact sample_space.
Qed.

Definition start : server_state (server_rest unit) := initial_state 64 deployment 77 tt.

(** Two polls: the peer is accepted, and greeted. *)
Definition greeted : server_state (server_rest unit) := (mu_server_poll (Sample.zeros 256) (mu_server_poll (Sample.zeros 256) start).2).2.
End LifeSample.

Section life_witness.
#[local] Existing Instances embedded_profile embedded_caps SystemSample.features demo_pub Sample.sample_auth Sample.sample_methods Sample.sample_pubsub
  Sample.sample_layout SystemSample.env SessionSample.sys_contract.
Import SessionSample LifeSample.

Lemma sample_starts : (mu_server_init (Some 64) 100000 (Some deployment) true tt).1 = Ok start.
Proof.
  assert (Hv : mu_server_config_validate (Some deployment) = Ok tt) by (vm_compute; reflexivity).
  change (((checked (mu_server_config_validate (Some deployment));; start ← read_clock deployment; start_listening 64 deployment start) tt).1 = Ok start).
  unfold checked, mbind, M_bind; rewrite Hv; unfold read_clock, start_listening; cbn [deployment cfg_get_time cfg_tcp_adapter peer_tcp tcp_listen cfg_endpoint_url].
  reflexivity.
Qed.

Lemma sample_greeted : rtc (calls deployment) start greeted.
Proof.
  assert (Hg : garbage_ok (Sample.zeros 256)) by (split; [apply Forall_replicate; by ranges|by vm_compute]).
  assert (Hc : api_call deployment (mu_server_poll (Sample.zeros 256))) by (by apply call_poll).
  apply (rtc_l _ _ (mu_server_poll (Sample.zeros 256) start).2); [by exists (mu_server_poll (Sample.zeros 256))|].
  apply rtc_once; by exists (mu_server_poll (Sample.zeros 256)).
Qed.

End life_witness.
